(* ===== verification/_CoqProject ===== *)
-Q . S2P
Prelude.v
Kstring.v
State.v
Locks.v
Spinlock.v
Console.v
Kalloc.v
Proc.v
Signal.v
Delivery.v
Sending.v
Pipe.v
File.v
ProcLife.v
Sysproc.v
Vm.v
Sleeplock.v
Bio.v
Log.v
Fs.v
Rdwr.v
Transact.v
Dir.v
Lookup.v
Mkfs.v
Tty.v
Exec.v
Sysfile.v
Trap.v
Devices.v
Cpus.v
Asm.v
Start.v
Ide.v
Boot.v
Kbd.v
Mp.v
User.v
Ulib.v
Printf.v
Grep.v
Progs.v
Shparse.v
Shprint.v
Sh.v
Umalloc.v
