(* ===== verification/Prelude.v ===== *)
(** * xv6 with POSIX signals: a verification library

    The program is xv6 for x86 extended by signals: a kernel (processes,
    signals, virtual memory, pipes, a buffer cache, a log, a file system, a
    console, system calls), the user library and the user programs that run on
    it.  This library models the C sources under [src/] as executable
    functions over explicit state and proves what the parts promise to each
    other and to their users.

    ** The model

    Every C function is a computation [prog S J A := S -> comp S J A] over a
    state record [S].  A computation returns ([Ret]), panics with the message
    of the source ([Panic]), leaves through a jump that never comes back
    ([Jump]: entering a signal handler, returning to user mode, [exit] of a user
    program), gives up the CPU ([Switch], with the continuation that runs when
    the process is scheduled again) or has no behaviour in the model ([Stuck]:
    fuel exhausted, a read outside of a C object).  Loops are Fixpoints: over a
    list where the C loop runs over a table, with fuel otherwise.  Machine
    integers are [Z] with [u32] and [s32] written where the C type wraps;
    memory is a function from addresses to bytes with little-endian words.

    ** Files and what they model

    - [Prelude]: machine integers, memory, computations, tactics, hints.
    - [Kstring]: [string.c].  [State]: the records of [proc.h], [file.h],
      [buf.h], [fs.h], [pipe.c], and the kernel state [kstate].
    - [Locks]: spin locks as a list of held locks, the view of all other files.
      [Spinlock]: [spinlock.c] itself on several CPUs, with [mutual exclusion]
      for every interleaving and the proof that it implements [Locks].
    - [Console]: output formatting of [console.c].  [Tty]: its cursor, line
      editor, reading and writing.
    - [Kalloc]: [kalloc.c].  [Vm]: [vm.c] on two-level page tables.
    - [Proc]: the process table, [sched], [sleep], [wakeup], [kill] and the
      scheduler of [proc.c].  [ProcLife]: [userinit], [fork], [exit], [wait],
      [growproc].
    - [Signal]: [signal.c] and the invariant of signals.  [Delivery]: what
      [psig] and [kernel_sigreturn] do.  [Sending]: [Kill], [raise] and masks.
    - [Pipe]: [pipe.c].  [File]: [file.c] and [pipealloc].
    - [Sysproc]: argument checks of [syscall.c], [sysproc.c], [syssignal.c].
    - [Sleeplock]: [sleeplock.c].  [Bio]: [bio.c] on the disk of [memide.c].
      [Log]: [log.c].  [Fs]: [fs.c] up to [writei].  [Rdwr]: reading and writing
      of contents.  [Transact]: a write inside a transaction.  [Dir], [Lookup]:
      directories and paths of [fs.c].
    - [Exec]: [exec.c].  [Sysfile]: [sysfile.c].  [Trap]: dispatch of
      [syscall.c] and [trap.c].
    - [User]: system calls as a user program sees them.  [Ulib], [Printf],
      [Umalloc]: [ulib.c], [printf.c], [umalloc.c].  [Grep]: [grep.c].  [Progs]:
      [cat.c], [wc.c], [echo.c], [mkdir.c], [rm.c], [ln.c], [kill.c].
      [Shparse], [Shprint], [Sh]: the parser and the interpreter of [sh.c].

    ** What the theorems show

    Signals: every operation keeps the invariant of pending, blocked and
    handled signals; default actions, stopping, sending and masking do exactly
    what is stated; a handler returns to the interrupted program with all its
    registers.  Four theorems state faults of the code: the wrong handler is
    entered when two signals have handlers, a forgotten return address, a panic
    of [sleep] with a stop signal pending, and handlers that survive [exec].

    Kernel: mutual exclusion of spin locks, sleeping and waking, [fork], [exit]
    and [wait], the streams of pipes under interference, fresh pages, page
    tables under growing and shrinking, checks of system call arguments, timer
    interrupts, the line editor.  File system: the buffer cache refines a disk
    with locked blocks, the log makes an operation atomic for a crash after any
    disk write, contents written are read back, directory entries entered are
    found, path names are split as specified, [dup] and [close] undo each other.

    User level: the allocator never hands out overlapping blocks and always
    terminates; the shell's parser is total, typed and inverse to a printer, and
    its interpreter connects programs as the command says; [grep] decides the
    language of its pattern.

    ** Bounds and fuel

    Loops that wait for another process ([sleep] in a loop) take their number
    of rounds from the class [WaitFuel]; theorems hold for every such number
    large enough for the steps they talk about.  All other fuel is computed from
    the state (length of a list, size of a heap or of an input) and shown to be
    enough: the theorems say that the functions return.

    ** Limits of the model

    Between two switch points a single CPU runs (interleavings of several CPUs
    are in [Spinlock]); the trap frame is part of the process entry; [mem] is
    memory through the current page table; disk writes of a block are atomic;
    what one file needs from virtual memory or the file system is a class
    ([VmOps], [FsOps], [DevSw], [ExecFrame]) whose laws are the documented
    behaviour of the functions; the cursor of the screen is a number instead of
    the ports of the CGA controller; keys are the list [getc] returns; the
    acknowledgement of interrupts has no effect.  A user program sees [read] as
    a list of portions, so that all divisions of an input are covered; memory
    that [sbrk] can get is a parameter of [Umalloc]; the shell's [malloc] does
    not fail.

    ** Not modelled

    The assembly files except [jmptohandler.S] and [restoreuser.S]; set-up of
    CPUs, segments and interrupt tables ([pinit], [cpuid], [mycpu], [seginit],
    [tvinit], [idtinit], [main.c], [bootmain.c]); the drivers that talk to
    device registers; the test programs. *)

From stdpp Require Import base numbers option list sets strings.
From Stdlib Require Import ZArith Lia.

#[global] Open Scope Z_scope.

(** ** 32-bit machine integers *)

Definition two32 : Z := 4294967296.
Definition two31 : Z := 2147483648.

(** Conversion to [uint]: reduction modulo 2^32. *)
Definition u32 (z : Z) : Z := z mod two32.

(** Conversion to [int]: two's complement reading of the low 32 bits. *)
Definition s32 (z : Z) : Z := let u := u32 z in if u <? two31 then u else u - two32.

(** [1 << i] and [~x] on 32-bit operands. *)
Definition bit (i : Z) : Z := u32 (Z.shiftl 1 i).
Definition not32 (x : Z) : Z := u32 (Z.lnot x).

(** The C truth value of a comparison. *)
Definition truthy (z : Z) : bool := negb (z =? 0).

Definition word (z : Z) : Prop := 0 <= z < two32.

Lemma two32_pow : two32 = 2 ^ 32.
Proof. reflexivity. Qed.

Lemma u32_word z : word (u32 z).
Proof. unfold word, u32. apply Z.mod_pos_bound. reflexivity. Qed.

Lemma u32_id z : word z → u32 z = z.
Proof. apply Z.mod_small. Qed.

Lemma u32_idem z : u32 (u32 z) = u32 z.
Proof. apply u32_id, u32_word. Qed.

Lemma u32_add_l a b : u32 (u32 a + b) = u32 (a + b).
Proof. unfold u32. by rewrite Zplus_mod_idemp_l. Qed.

Lemma u32_add_r a b : u32 (a + u32 b) = u32 (a + b).
Proof. unfold u32. by rewrite Zplus_mod_idemp_r. Qed.

Lemma u32_sub_l a b : u32 (u32 a - b) = u32 (a - b).
Proof. unfold u32. by rewrite Zminus_mod_idemp_l. Qed.

Lemma u32_sub_r a b : u32 (a - u32 b) = u32 (a - b).
Proof. unfold u32. by rewrite Zminus_mod_idemp_r. Qed.

Lemma s32_u32 z : s32 (u32 z) = s32 z.
Proof. unfold s32. by rewrite u32_idem. Qed.

Lemma u32_s32 z : u32 (s32 z) = u32 z.
Proof.
  unfold s32. destruct (u32 z <? two31); [by rewrite u32_idem|].
  unfold u32. rewrite <- Zminus_mod_idemp_r, Z_mod_same_full, Z.sub_0_r.
  by rewrite Z.mod_mod.
Qed.

Lemma s32_id z : -two31 <= z < two31 → s32 z = z.
Proof.
  intros H. unfold s32, u32, two31, two32 in *.
  destruct (Z_lt_ge_dec z 0).
  - assert (z mod 4294967296 = z + 4294967296) as ->.
    { symmetry. apply Z.mod_unique with (-1); lia. }
    destruct (Z.ltb_spec (z + 4294967296) 2147483648); lia.
  - rewrite Z.mod_small by lia.
    destruct (Z.ltb_spec z 2147483648); lia.
Qed.

Lemma s32_range z : -two31 <= s32 z < two31.
Proof.
  unfold s32. pose proof (u32_word z) as H. unfold word, two31, two32 in *.
  destruct (Z.ltb_spec (u32 z) 2147483648); lia.
Qed.

Create Rewrite HintDb word_rw.
#[export] Hint Rewrite u32_idem u32_add_l u32_add_r u32_sub_l u32_sub_r
  s32_u32 u32_s32 : word_rw.

(** ** Bits of 32-bit masks *)

Lemma testbit_u32 z i : 0 <= i → Z.testbit (u32 z) i = (i <? 32) && Z.testbit z i.
Proof.
  intros Hi. unfold u32. rewrite two32_pow.
  destruct (Z.ltb_spec i 32).
  - rewrite Z.mod_pow2_bits_low by lia. done.
  - rewrite Z.mod_pow2_bits_high by lia. done.
Qed.

Lemma word_testbit_high x i : word x → 32 <= i → Z.testbit x i = false.
Proof.
  intros Hx Hi. rewrite <- (u32_id x Hx), testbit_u32 by lia.
  by destruct (Z.ltb_spec i 32); [lia|].
Qed.

Lemma testbit_bit i j : 0 <= i < 32 → 0 <= j → Z.testbit (bit i) j = (i =? j).
Proof.
  intros Hi Hj. unfold bit. rewrite testbit_u32 by lia.
  rewrite Z.shiftl_spec by lia.
  destruct (Z.eqb_spec i j) as [->|Hne].
  - rewrite Z.sub_diag. destruct (Z.ltb_spec j 32); [done|lia].
  - replace (Z.testbit 1 (j - i)) with false; [by rewrite andb_false_r|].
    symmetry. destruct (Z_lt_ge_dec (j - i) 0).
    + by apply Z.testbit_neg_r.
    + change 1 with (2 ^ 0). apply Z.pow2_bits_false. lia.
Qed.

Lemma testbit_not32 x j : 0 <= j < 32 → Z.testbit (not32 x) j = negb (Z.testbit x j).
Proof.
  intros Hj. unfold not32. rewrite testbit_u32, Z.lnot_spec by lia.
  by destruct (Z.ltb_spec j 32); [|lia].
Qed.

Lemma bit_word i : word (bit i).
Proof. apply u32_word. Qed.

Lemma not32_word x : word (not32 x).
Proof. apply u32_word. Qed.

(** Two words are equal when their low 32 bits agree. *)
Lemma word_ext x y :
  word x → word y → (∀ j, 0 <= j < 32 → Z.testbit x j = Z.testbit y j) → x = y.
Proof.
  intros Hx Hy H. apply Z.bits_inj'. intros j Hj.
  destruct (Z_lt_ge_dec j 32); [by apply H|].
  rewrite !word_testbit_high; auto with lia.
Qed.

Lemma word_of_bits x : 0 <= x → (∀ j, 32 <= j → Z.testbit x j = false) → word x.
Proof.
  intros Hx H. unfold word. split; [done|].
  assert (u32 x = x) as <-; [|apply u32_word].
  apply Z.bits_inj'. intros j Hj. rewrite testbit_u32 by done.
  destruct (Z.ltb_spec j 32); [done|]. by rewrite H by lia.
Qed.

Lemma land_word x y : word x → 0 <= y → word (Z.land x y).
Proof.
  intros Hx Hy. apply word_of_bits.
  - apply Z.land_nonneg. left. apply Hx.
  - intros j Hj. rewrite Z.land_spec, word_testbit_high by done. done.
Qed.

Lemma lor_word x y : word x → word y → word (Z.lor x y).
Proof.
  intros Hx Hy. apply word_of_bits.
  - apply Z.lor_nonneg. split; [apply Hx|apply Hy].
  - intros j Hj. by rewrite Z.lor_spec, !word_testbit_high.
Qed.

(** [(x & (1 << i)) == (1 << i)], the test [signal.c] uses for a set bit. *)
Lemma land_bit_set x i : 0 <= i < 32 →
  (Z.land x (bit i) =? bit i) = Z.testbit x i.
Proof.
  intros Hi. destruct (Z.testbit x i) eqn:E.
  - apply Z.eqb_eq. apply Z.bits_inj'. intros j Hj.
    rewrite Z.land_spec, testbit_bit by lia.
    destruct (Z.eqb_spec i j) as [->|]; [by rewrite E|by rewrite andb_false_r].
  - apply Z.eqb_neq. intros H.
    assert (Z.testbit (Z.land x (bit i)) i = Z.testbit (bit i) i) as H' by by rewrite H.
    rewrite Z.land_spec, testbit_bit, E, Z.eqb_refl in H' by lia. done.
Qed.

(** [(x & (1 << i)) == 0], the test for a clear bit. *)
Lemma land_bit_clear x i : 0 <= i < 32 →
  (Z.land x (bit i) =? 0) = negb (Z.testbit x i).
Proof.
  intros Hi. destruct (Z.testbit x i) eqn:E.
  - apply Z.eqb_neq. intros H.
    assert (Z.testbit (Z.land x (bit i)) i = Z.testbit 0 i) as H' by by rewrite H.
    by rewrite Z.land_spec, testbit_bit, E, Z.eqb_refl, Z.testbit_0_l in H' by lia.
  - apply Z.eqb_eq. apply Z.bits_inj'. intros j Hj.
    rewrite Z.land_spec, testbit_bit, Z.testbit_0_l by lia.
    destruct (Z.eqb_spec i j) as [->|]; [by rewrite E|by rewrite andb_false_r].
Qed.

(** [x & ~(1 << i)] clears exactly bit [i]. *)
Lemma testbit_clear x i j : 0 <= i < 32 → 0 <= j < 32 →
  Z.testbit (Z.land x (not32 (bit i))) j = Z.testbit x j && negb (i =? j).
Proof. intros Hi Hj. by rewrite Z.land_spec, testbit_not32, testbit_bit by lia. Qed.

(** [x | (1 << i)] sets exactly bit [i]. *)
Lemma testbit_set x i j : 0 <= i < 32 → 0 <= j →
  Z.testbit (Z.lor x (bit i)) j = Z.testbit x j || (i =? j).
Proof. intros Hi Hj. by rewrite Z.lor_spec, testbit_bit by lia. Qed.

Create HintDb word.
#[export] Hint Resolve u32_word bit_word not32_word land_word lor_word : word.
#[export] Hint Extern 1 (0 <= not32 _) => apply not32_word : word.
#[export] Hint Extern 1 (0 <= bit _) => apply bit_word : word.

(** ** Byte-addressed memory, little endian

    A memory is the contents seen through the current page table: a byte for
    every 32-bit virtual address.  Address arithmetic wraps at 2^32. *)

Definition memory : Type := Z → Z.

Definition load8 (m : memory) (a : Z) : Z := m (u32 a).

Definition store8 (m : memory) (a v : Z) : memory :=
  fun x => if x =? u32 a then v mod 256 else m x.

Definition load32 (m : memory) (a : Z) : Z :=
  m (u32 a) + 256 * m (u32 (a + 1)) + 65536 * m (u32 (a + 2)) + 16777216 * m (u32 (a + 3)).

(** Byte [d] of [v] goes to address [a + d], for [d] in 0..3. *)
Definition store32 (m : memory) (a v : Z) : memory :=
  fun x => let d := u32 (x - a) in
           if d <? 4 then (u32 v / 256 ^ d) mod 256 else m x.

Lemma store32_at m a v k : 0 <= k < 4 →
  store32 m a v (u32 (a + k)) = (u32 v / 256 ^ k) mod 256.
Proof.
  intros Hk. unfold store32. rewrite u32_sub_l.
  replace (a + k - a) with k by lia.
  rewrite u32_id by (unfold word, two32; lia).
  by destruct (Z.ltb_spec k 4); [|lia].
Qed.

Lemma store32_other m a v b k : 0 <= k < 4 → 4 <= u32 (b - a) <= two32 - 4 →
  store32 m a v (u32 (b + k)) = m (u32 (b + k)).
Proof.
  intros Hk Hd. unfold store32. rewrite u32_sub_l.
  replace (b + k - a) with (b - a + k) by lia.
  rewrite <- u32_add_l, u32_id by (unfold word; lia).
  by destruct (Z.ltb_spec (u32 (b - a) + k) 4); [lia|].
Qed.

Lemma bytes_of_word v : word v →
  v mod 256 + 256 * ((v / 256) mod 256) + 65536 * ((v / 65536) mod 256)
  + 16777216 * ((v / 16777216) mod 256) = v.
Proof.
  unfold word, two32. intros Hv.
  assert (v / 16777216 < 256) by (apply Z.div_lt_upper_bound; lia).
  assert (0 <= v / 16777216) by (apply Z.div_pos; lia).
  rewrite (Z.mod_small (v / 16777216)) by lia.
  replace (v / 16777216) with (v / 256 / 256 / 256)
    by (rewrite !Z.div_div by lia; done).
  replace (v / 65536) with (v / 256 / 256) by (rewrite !Z.div_div by lia; done).
  pose proof (Z.div_mod v 256). pose proof (Z.div_mod (v / 256) 256).
  pose proof (Z.div_mod (v / 256 / 256) 256). lia.
Qed.

(** A load returns what was stored at the same address. *)
Lemma load_store_same m a v : load32 (store32 m a v) a = u32 v.
Proof.
  unfold load32. pose proof (store32_at m a v 0) as H0. rewrite Z.add_0_r in H0.
  rewrite H0, !store32_at by lia.
  change (256 ^ 0) with 1. change (256 ^ 1) with 256.
  change (256 ^ 2) with 65536. change (256 ^ 3) with 16777216.
  rewrite Z.div_1_r. apply bytes_of_word, u32_word.
Qed.

(** Two words at distance at least four (modulo 2^32) do not interfere. *)
Lemma load_store_ne m a b v : 4 <= u32 (b - a) <= two32 - 4 →
  load32 (store32 m a v) b = load32 m b.
Proof.
  intros H. unfold load32. pose proof (store32_other m a v b 0) as H0.
  rewrite Z.add_0_r in H0. by rewrite H0, !store32_other by lia.
Qed.

Lemma load32_u32 m a : load32 m (u32 a) = load32 m a.
Proof. unfold load32. by rewrite u32_idem, !u32_add_l. Qed.

Lemma store32_u32 m a v x : store32 m (u32 a) v x = store32 m a v x.
Proof. unfold store32. by rewrite u32_sub_r. Qed.

Lemma existsb_ext_in {A} (f g : A → bool) l : (∀ x, In x l → f x = g x) →
  existsb f l = existsb g l.
Proof.
  induction l as [|x l IH]; intros H; simpl; [done|].
  rewrite (H x) by by left. rewrite IH; [done|]. intros y Hy. apply H. by right.
Qed.

(** ** Kernel computations

    A C function of the kernel is a function from the machine state to a
    computation.  Besides returning, a computation can
    - [Panic]: call [panic()], which never returns;
    - [Jump]: leave the kernel through an [iret] that does not come back
      ([jmptohandler.S], [restoreuser.S]); the payload is the register file;
    - [Switch]: call [swtch()] into the scheduler; the continuation runs when
      the scheduler resumes this kernel thread, in the state it then finds;
    - [Stuck]: the fuel of an unbounded loop has run out. *)

Inductive comp (S J A : Type) : Type :=
| Ret (a : A) (s : S)
| Panic (msg : string) (s : S)
| Jump (j : J) (s : S)
| Switch (s : S) (k : S → comp S J A)
| Stuck (s : S).
Arguments Ret {S J A} a s.
Arguments Panic {S J A} msg s.
Arguments Jump {S J A} j s.
Arguments Switch {S J A} s k.
Arguments Stuck {S J A} s.

Fixpoint cbind {S J A B} (c : comp S J A) (f : A → S → comp S J B) : comp S J B :=
  match c with
  | Ret a s => f a s
  | Panic msg s => Panic msg s
  | Jump j s => Jump j s
  | Switch s k => Switch s (fun s' => cbind (k s') f)
  | Stuck s => Stuck s
  end.

Declare Scope kernel_scope.
Delimit Scope kernel_scope with kernel.

Section monad.
Context {S J : Type}.

Definition prog (A : Type) : Type := S → comp S J A.

Definition ret {A} (a : A) : prog A := fun s => Ret a s.
Definition bind {A B} (m : prog A) (f : A → prog B) : prog B :=
  fun s => cbind (m s) f.
Definition get {A} (f : S → A) : prog A := fun s => Ret (f s) s.
Definition modify (f : S → S) : prog unit := fun s => Ret () (f s).
Definition panic {A} (msg : string) : prog A := fun s => Panic msg s.
Definition when (b : bool) (m : prog unit) : prog unit := if b then m else ret ().

(** [for(x in l) acc = f(acc, x)], the bounded loops of the kernel. *)
Fixpoint foldM {A B} (f : B → A → prog B) (l : list A) (b : B) : prog B :=
  match l with
  | [] => ret b
  | x :: l => bind (f b x) (foldM f l)
  end.

(** A bounded loop whose body may leave the function with a result. *)
Fixpoint scanM {A R} (f : A → prog (option R)) (l : list A) : prog (option R) :=
  match l with
  | [] => ret None
  | x :: l => bind (f x) (fun r => match r with Some v => ret (Some v) | None => scanM f l end)
  end.
End monad.
Arguments prog S J A : clear implicits.

Notation "x <- m ;; k" := (bind m (fun x => k))
  (at level 100, m at next level, k at level 200, right associativity) : kernel_scope.
Notation "m ;; k" := (bind m (fun _ => k))
  (at level 100, k at level 200, right associativity) : kernel_scope.
#[global] Open Scope kernel_scope.

(** Result of a computation that returns without being switched out. *)
Definition returns {S J A} (c : comp S J A) (a : A) (s : S) : Prop := c = Ret a s.

(** The monad laws; associativity is pointwise because of [Switch]. *)
Lemma bind_ret_l {S J A B} (a : A) (f : A → prog S J B) s : bind (ret a) f s = f a s.
Proof. done. Qed.

Lemma bind_get {S J A B} (g : S → A) (f : A → prog S J B) s : bind (get g) f s = f (g s) s.
Proof. done. Qed.

Lemma bind_modify {S J B} (g : S → S) (f : unit → prog S J B) s :
  bind (modify g) f s = f () (g s).
Proof. done. Qed.

Lemma bind_returns {S J A B} (m : prog S J A) (f : A → prog S J B) s a s' :
  m s = Ret a s' → bind m f s = f a s'.
Proof. intros H. unfold bind. by rewrite H. Qed.

Lemma bind_panics {S J A B} (m : prog S J A) (f : A → prog S J B) s msg s' :
  m s = Panic msg s' → bind m f s = Panic msg s'.
Proof. intros H. unfold bind. by rewrite H. Qed.

(** A loop whose body preserves a state invariant and always returns also
    returns, in a state that satisfies the invariant. *)
Lemma foldM_inv {S J A B} (I : B → S → Prop) (f : B → A → prog S J B) l b s :
  I b s →
  (∀ x b s, x ∈ l → I b s → ∃ b' s', f b x s = Ret b' s' ∧ I b' s') →
  ∃ b' s', foldM f l b s = Ret b' s' ∧ I b' s'.
Proof.
  revert b s. induction l as [|x l IH]; intros b s HI Hf; [by exists b, s|].
  destruct (Hf x b s) as (b1 & s1 & E & HI1); [by left|done|].
  destruct (IH b1 s1 HI1) as (b2 & s2 & E2 & HI2).
  { intros y c t Hy. apply Hf. by right. }
  exists b2, s2. split; [|done]. simpl. unfold bind. by rewrite E.
Qed.

(** A search loop over the indices of a table runs its body on the first entry
    that satisfies the test. *)
Lemma scanM_seq {S J T R} (tbl : list T) (P : T → bool) (body : nat → prog S J (option R)) s :
  (∀ i x, tbl !! i = Some x → P x = false → body i s = Ret None s) →
  (∀ i x, tbl !! i = Some x → P x = true → ∃ v s', body i s = Ret (Some v) s') →
  scanM body (seq 0 (length tbl)) s =
    match fst <$> list_find (fun x => P x = true) tbl with
    | Some i => body i s
    | None => Ret None s
    end.
Proof.
  intros Hf Ht. assert (∀ l k, (∀ i, l !! i = tbl !! (k + i)%nat) →
    scanM body (seq k (length l)) s =
      match list_find (fun x => P x = true) l with
      | Some (j, _) => body (k + j)%nat s
      | None => Ret None s
      end) as Hgen.
  { induction l as [|x l IH]; intros k Hl; cbn [seq scanM length list_find]; [done|].
    pose proof (Hl 0%nat) as Hx. simpl in Hx. rewrite Nat.add_0_r in Hx. case_decide as Hd.
    - rewrite Nat.add_0_r. destruct (Ht k x) as (v & s' & Hv); [done|done|].
      unfold bind. by rewrite Hv.
    - apply not_true_is_false in Hd. unfold bind. rewrite (Hf k x) by done.
      cbn [cbind]. rewrite (IH (Datatypes.S k)).
      + destruct (list_find _ l) as [[j y]|]; simpl; [|done].
        by replace (Datatypes.S (k + j))%nat with (k + Datatypes.S j)%nat by lia.
      + intros i. pose proof (Hl (Datatypes.S i)) as Hi. simpl in Hi. rewrite Hi. f_equal. lia. }
  rewrite (Hgen tbl 0%nat) by done. by destruct (list_find _ tbl) as [[j x]|].
Qed.

(** ** Invariants of computations

    [safe I Q c]: every state in which [c] returns, panics, leaves the kernel
    or switches away satisfies [I], provided the states in which it is resumed
    do; values it returns satisfy [Q]. *)

Section safety.
Context {S J : Type} (I : S → Prop).

Fixpoint safe {A} (Q : A → Prop) (c : comp S J A) : Prop :=
  match c with
  | Ret a s => I s ∧ Q a
  | Panic _ s => I s
  | Jump _ s => I s
  | Switch s k => I s ∧ ∀ s', I s' → safe Q (k s')
  | Stuck s => I s
  end.

Definition preserves {A} (m : prog S J A) (Q : A → Prop) : Prop :=
  ∀ s, I s → safe Q (m s).

Lemma safe_bind {A B} (c : comp S J A) (f : A → S → comp S J B) P Q :
  safe P c → (∀ a s, P a → I s → safe Q (f a s)) → safe Q (cbind c f).
Proof.
  intros Hc Hf. induction c as [a s|msg s|j s|s k IH|s]; simpl in *; try done.
  - destruct Hc. auto.
  - destruct Hc as [Hs Hk]. split; [done|]. auto.
Qed.

Lemma preserves_bind {A B} (m : prog S J A) (f : A → prog S J B) P Q :
  preserves m P → (∀ a, P a → preserves (f a) Q) → preserves (bind m f) Q.
Proof. intros Hm Hf s Hs. eapply safe_bind; [by apply Hm|]. intros a t Ha Ht. by apply Hf. Qed.

Lemma preserves_ret {A} (a : A) (Q : A → Prop) : Q a → preserves (ret a) Q.
Proof. by intros H s Hs. Qed.

Lemma preserves_get {A} (f : S → A) (Q : A → Prop) :
  (∀ s, I s → Q (f s)) → preserves (get f) Q.
Proof. intros H s Hs. simpl. auto. Qed.

Lemma preserves_modify (f : S → S) (Q : unit → Prop) :
  (∀ s, I s → I (f s)) → Q () → preserves (modify f) Q.
Proof. intros H HQ s Hs. simpl. auto. Qed.

Lemma preserves_panic {A} msg (Q : A → Prop) : preserves (panic msg) Q.
Proof. by intros s Hs. Qed.

Lemma preserves_when b (m : prog S J unit) (Q : unit → Prop) :
  (b = true → preserves m Q) → Q () → preserves (when b m) Q.
Proof. intros H HQ. destruct b; simpl; [auto|]. by apply preserves_ret. Qed.

Lemma preserves_foldM {A B} (f : B → A → prog S J B) l b (Q : B → Prop) :
  Q b → (∀ x b, x ∈ l → Q b → preserves (f b x) Q) → preserves (foldM f l b) Q.
Proof.
  revert b. induction l as [|x l IH]; intros b Hb Hf; simpl; [by apply preserves_ret|].
  eapply preserves_bind; [apply Hf; [by left|done]|].
  intros c Hc. apply IH; [done|]. intros y d Hy. apply Hf. by right.
Qed.

Lemma preserves_scanM {A R} (f : A → prog S J (option R)) l (Q : option R → Prop) :
  Q None → (∀ x, x ∈ l → preserves (f x) Q) → preserves (scanM f l) Q.
Proof.
  induction l as [|x l IH]; intros HN Hf; simpl; [by apply preserves_ret|].
  eapply preserves_bind; [apply Hf; by left|].
  intros [v|] Hv; [by apply preserves_ret|]. apply IH; [done|]. intros y Hy. apply Hf. by right.
Qed.

Lemma preserves_weaken {A} (m : prog S J A) (P Q : A → Prop) :
  preserves m P → (∀ a, P a → Q a) → preserves m Q.
Proof.
  intros Hm HPQ s Hs. specialize (Hm s Hs). revert Hm.
  induction (m s) as [a t|msg t|j t|t k IH|t]; simpl; try done.
  - intros [? ?]. auto.
  - intros [? Hk]. split; [done|]. auto.
Qed.
End safety.

(** ** Total correctness with an environment

    [wp env Q g c]: the computation [c] returns, in a state that satisfies [Q],
    without panic or lack of fuel, provided that whenever it is switched out in
    a state [s] it is resumed in a state [s'] the environment allows.  The
    ghost value [g] records what the environment has done so far. *)

Section wp.
Context {S J G A : Type} (env : G → S → G → S → Prop) (Q : G → A → S → Prop).

Fixpoint wp (g : G) (c : comp S J A) : Prop :=
  match c with
  | Ret a s => Q g a s
  | Switch s k => ∀ g' s', env g s g' s' → wp g' (k s')
  | Panic _ _ | Jump _ _ | Stuck _ => False
  end.
End wp.

Lemma wp_cbind {S J G A B} env (P : G → A → S → Prop) (Q : G → B → S → Prop) g
    (c : comp S J A) f :
  wp env P g c → (∀ g a s, P g a s → wp env Q g (f a s)) → wp env Q g (cbind c f).
Proof.
  revert g. induction c as [a s|msg s|j s|s k IH|s]; intros g Hc Hf; simpl in *; try done.
  - auto.
  - intros g' s' He. apply IH; auto.
Qed.

Lemma wp_bind {S J G A B} env (P : G → A → S → Prop) (Q : G → B → S → Prop) g
    (m : prog S J A) f s :
  wp env P g (m s) → (∀ g a s, P g a s → wp env Q g (f a s)) → wp env Q g (bind m f s).
Proof. apply wp_cbind. Qed.

Lemma wp_mono {S J G A} env (P Q : G → A → S → Prop) g (c : comp S J A) :
  wp env P g c → (∀ g a s, P g a s → Q g a s) → wp env Q g c.
Proof.
  revert g. induction c; intros g Hc Hf; simpl in *; try done; auto.
Qed.

Create HintDb preserves discriminated.
#[global] Hint Constants Opaque : preserves.
#[export] Hint Resolve preserves_ret preserves_panic : preserves.

(** Structural steps of an invariant proof; the leaves are closed with the
    hints of the database [preserves]. *)
Ltac pres_step :=
  lazymatch goal with
  | |- preserves _ (bind _ _) _ =>
    first [ eapply preserves_bind; [solve [eauto with preserves]|intros ? ?]
          | apply preserves_bind with (P := fun _ => True); [|intros ? _] ]
  | |- preserves _ (ret _) _ => apply preserves_ret; try done
  | |- preserves _ (panic _) _ => apply preserves_panic
  | |- preserves _ (when _ _) _ => apply preserves_when; [intros ?|done]
  | |- preserves _ (if ?b then _ else _) _ => destruct b eqn:?
  | |- preserves _ (match ?o with Some _ => _ | None => _ end) _ => destruct o
  | |- preserves _ (foldM _ _ _) _ => apply preserves_foldM; [done|intros ? ? ? ?]
  | |- preserves _ (scanM _ _) _ => apply preserves_scanM; [done|intros ? ?]
  | |- preserves _ _ _ => solve [eauto with preserves]
  end.

Ltac pres := repeat (cbn beta zeta; pres_step).
