(* ===== verification/Kstring.v ===== *)
(** * The string and memory routines of [string.c]

    Each routine is a loop over the bytes of [memory]; a pointer is its
    address, and incrementing it wraps at 2^32.  The lemmas give the contents
    of the whole memory after the call. *)

From stdpp Require Import base numbers option list sets strings.
From Stdlib Require Import ZArith Lia.
From S2P Require Import Prelude.

(** ** [memset] *)

(** [stosb]: [cnt] bytes. *)
Fixpoint stosb (m : memory) (addr data : Z) (cnt : nat) : memory :=
  match cnt with
  | O => m
  | S cnt => stosb (store8 m addr data) (u32 (addr + 1)) data cnt
  end.

(** [stosl]: [cnt] words. *)
Fixpoint stosl (m : memory) (addr data : Z) (cnt : nat) : memory :=
  match cnt with
  | O => m
  | S cnt => stosl (store32 m addr data) (u32 (addr + 4)) data cnt
  end.

Definition memset (m : memory) (dst c n : Z) : memory :=
  if (dst mod 4 =? 0) && (n mod 4 =? 0) then
    let c := Z.land c 255 in
    stosl m dst
      (Z.lor (Z.lor (Z.lor (Z.shiftl c 24) (Z.shiftl c 16)) (Z.shiftl c 8)) c)
      (Z.to_nat (n / 4))
  else stosb m dst c (Z.to_nat n).

(** Reference: [n] bytes from [dst] hold [c], the others are unchanged. *)
Definition fill (m : memory) (dst c n : Z) : memory :=
  fun x => if u32 (x - dst) <? n then c mod 256 else m x.

Lemma u32_sub_zero x a : word x → u32 (x - a) = 0 ↔ x = u32 a.
Proof.
  intros Hx. split.
  - intros H. assert (u32 (a + u32 (x - a)) = u32 (a + 0)) as H' by by rewrite H.
    rewrite u32_add_r, Z.add_0_r in H'. replace (a + (x - a)) with x in H' by lia.
    by rewrite <- H', u32_id.
  - intros ->. by rewrite u32_sub_l, Z.sub_diag.
Qed.

Lemma u32_sub_small d k : word d → 0 <= k <= two32 →
  u32 (d - k) = if d <? k then d - k + two32 else d - k.
Proof.
  intros Hd Hk. unfold word, u32, two32 in *. destruct (Z.ltb_spec d k).
  - symmetry. apply Z.mod_unique with (-1); lia.
  - rewrite Z.mod_small; lia.
Qed.

(** Distance from [a + k] in terms of the distance from [a]. *)
Lemma u32_dist x a k : 0 <= k <= two32 →
  u32 (x - u32 (a + k)) = if u32 (x - a) <? k then u32 (x - a) - k + two32 else u32 (x - a) - k.
Proof.
  intros Hk. rewrite u32_sub_r. replace (x - (a + k)) with ((x - a) - k) by lia.
  rewrite <- u32_sub_l. by apply u32_sub_small; [apply u32_word|].
Qed.

Lemma stosb_spec m a c cnt x : word x → Z.of_nat cnt <= two32 →
  stosb m a c cnt x = fill m a c (Z.of_nat cnt) x.
Proof.
  revert m a. unfold fill. induction cnt as [|cnt IH]; intros m a Hx Hc.
  - simpl. pose proof (u32_word (x - a)) as [? ?].
    by destruct (Z.ltb_spec (u32 (x - a)) (Z.of_nat 0)); [lia|].
  - cbn [stosb]. rewrite IH by (done || lia). rewrite u32_dist by (unfold two32; lia).
    pose proof (u32_word (x - a)) as [? ?]. unfold store8.
    pose proof (u32_sub_zero x a Hx) as Hz.
    destruct (Z.eqb_spec x (u32 a)), (Z.ltb_spec (u32 (x - a)) 1);
      try (exfalso; tauto || lia);
      repeat (match goal with |- context [?p <? ?q] => destruct (Z.ltb_spec p q) end);
      try done; lia || (exfalso; intuition lia).
Qed.

Definition splat (c : Z) : Z :=
  Z.lor (Z.lor (Z.lor (Z.shiftl c 24) (Z.shiftl c 16)) (Z.shiftl c 8)) c.

(** Every byte of the word [memset] builds is the fill byte. *)
Lemma splat_bytes c d : 0 <= c < 256 → 0 <= d < 4 → (u32 (splat c) / 256 ^ d) mod 256 = c.
Proof.
  intros Hc Hd.
  assert (Forall (fun c => Forall (fun d => (u32 (splat c) / 256 ^ d) mod 256 = c) (seqZ 0 4))
            (seqZ 0 256)) as H.
  { apply (bool_decide_unpack _). vm_compute. done. }
  rewrite Forall_forall in H. specialize (H c ltac:(apply elem_of_seqZ; lia)).
  rewrite Forall_forall in H. by apply H, elem_of_seqZ.
Qed.

Lemma stosl_spec m a c cnt x : word x → 0 <= c < 256 → 4 * Z.of_nat cnt <= two32 →
  stosl m a (splat c) cnt x = fill m a c (4 * Z.of_nat cnt) x.
Proof.
  revert m a. unfold fill. induction cnt as [|cnt IH]; intros m a Hx Hb Hc.
  - cbn [stosl]. change (4 * Z.of_nat 0) with 0. pose proof (u32_word (x - a)) as [? ?].
    by destruct (Z.ltb_spec (u32 (x - a)) 0); [lia|].
  - cbn [stosl]. rewrite IH by (done || lia). rewrite u32_dist by (unfold two32; lia).
    pose proof (u32_word (x - a)) as [? ?]. unfold store32.
    rewrite (Z.mod_small c 256) by lia.
    destruct (Z.ltb_spec (u32 (x - a)) 4).
    + rewrite splat_bytes by lia.
      repeat (match goal with |- context [?p <? ?q] => destruct (Z.ltb_spec p q) end);
        done || (exfalso; lia).
    + repeat (match goal with |- context [?p <? ?q] => destruct (Z.ltb_spec p q) end);
        done || (exfalso; lia).
Qed.

Lemma memset_fill m dst c n x : word x → 0 <= n < two32 → memset m dst c n x = fill m dst c n x.
Proof.
  intros Hx Hn. unfold memset.
  destruct (Z.eqb_spec (dst mod 4) 0), (Z.eqb_spec (n mod 4) 0) as [Hn4|]; simpl;
    try (rewrite stosb_spec, Z2Nat.id by (rewrite ?Z2Nat.id; lia || done); done).
  assert (4 * Z.of_nat (Z.to_nat (n / 4)) = n) as E.
  { rewrite Z2Nat.id by (apply Z.div_pos; lia).
    pose proof (Z.div_mod n 4 ltac:(lia)). lia. }
  change 255 with (Z.ones 8). rewrite Z.land_ones by lia. change (2 ^ 8) with 256.
  change (Z.lor _ (c mod 256)) with (splat (c mod 256)).
  rewrite stosl_spec; rewrite ?E; try done; [|apply Z.mod_pos_bound; lia|lia].
  unfold fill. by rewrite Z.mod_mod by lia.
Qed.

(** ** [memcmp] *)

Fixpoint memcmp (m : memory) (s1 s2 : Z) (n : nat) : Z :=
  match n with
  | O => 0
  | S n =>
    if load8 m s1 =? load8 m s2 then memcmp m (u32 (s1 + 1)) (u32 (s2 + 1)) n
    else load8 m s1 - load8 m s2
  end.

(** ** [memmove] *)

(** [while(n-- > 0) *d++ = *s++;] *)
Fixpoint copy_fwd (m : memory) (d s : Z) (n : nat) : memory :=
  match n with
  | O => m
  | S n => copy_fwd (store8 m d (load8 m s)) (u32 (d + 1)) (u32 (s + 1)) n
  end.

(** [while(n-- > 0) *--d = *--s;] *)
Fixpoint copy_bwd (m : memory) (d s : Z) (n : nat) : memory :=
  match n with
  | O => m
  | S n => copy_bwd (store8 m (u32 (d - 1)) (load8 m (u32 (s - 1)))) (u32 (d - 1)) (u32 (s - 1)) n
  end.

Definition memmove (m : memory) (dst src n : Z) : memory :=
  if (src <? dst) && (dst <? u32 (src + n)) then
    copy_bwd m (u32 (dst + n)) (u32 (src + n)) (Z.to_nat n)
  else copy_fwd m dst src (Z.to_nat n).

Definition memcpy (m : memory) (dst src n : Z) : memory := memmove m dst src n.

Definition byte_mem (m : memory) : Prop := ∀ x, 0 <= m x < 256.

Lemma store8_byte_mem m a v : byte_mem m → byte_mem (store8 m a v).
Proof.
  intros H x. unfold store8. destruct (x =? u32 a); [|apply H].
  apply Z.mod_pos_bound. lia.
Qed.

Lemma store8_load8 m d s x : byte_mem m → word d → word s →
  store8 m d (load8 m s) x = if x =? d then m s else m x.
Proof.
  intros Hb Hd Hs. unfold store8, load8. rewrite !u32_id by done.
  by rewrite (Z.mod_small (m s)) by apply Hb.
Qed.

Ltac case_ltb := repeat (match goal with
  | |- context [?p <? ?q] => destruct (Z.ltb_spec p q)
  | |- context [?p <=? ?q] => destruct (Z.leb_spec p q)
  | |- context [?p =? ?q] => destruct (Z.eqb_spec p q) end; simpl andb).

(** Reference: the [n] bytes at [dst] are the old bytes at [src]. *)
Definition moved (m : memory) (dst src n : Z) : memory :=
  fun x => if (dst <=? x) && (x <? dst + n) then m (src + (x - dst)) else m x.

Lemma copy_fwd_spec n m d s x : byte_mem m → 0 <= d → 0 <= s →
  d + Z.of_nat n < two32 → s + Z.of_nat n < two32 → d <= s ∨ s + Z.of_nat n <= d →
  copy_fwd m d s n x = moved m d s (Z.of_nat n) x.
Proof.
  revert m d s. induction n as [|n IH]; intros m d s Hb Hd Hs Hdn Hsn Hov; unfold moved.
  - simpl copy_fwd. case_ltb; done || lia.
  - cbn [copy_fwd]. rewrite (u32_id (d + 1)), (u32_id (s + 1)) by (unfold word; lia).
    rewrite IH by (try apply store8_byte_mem; done || lia). unfold moved.
    rewrite !store8_load8 by (done || unfold word; lia).
    case_ltb; try done; try lia; f_equal; lia.
Qed.

Lemma copy_bwd_spec n m d s x : byte_mem m → Z.of_nat n <= d → Z.of_nat n <= s →
  d < two32 → s < d →
  copy_bwd m d s n x = moved m (d - Z.of_nat n) (s - Z.of_nat n) (Z.of_nat n) x.
Proof.
  revert m d s. induction n as [|n IH]; intros m d s Hb Hd Hs Hdn Hov; unfold moved.
  - simpl copy_bwd. case_ltb; done || lia.
  - cbn [copy_bwd]. rewrite (u32_id (d - 1)), (u32_id (s - 1)) by (unfold word; lia).
    rewrite IH by (try apply store8_byte_mem; done || lia). unfold moved.
    rewrite !store8_load8 by (done || unfold word; lia).
    case_ltb; try done; try lia; f_equal; lia.
Qed.

(** [memmove] copies the old contents of the source to the destination,
    also when the two regions overlap, and changes nothing else. *)
Theorem memmove_moves m dst src n x : byte_mem m → 0 <= dst → 0 <= src → 0 <= n →
  dst + n < two32 → src + n < two32 →
  memmove m dst src n x = moved m dst src n x.
Proof.
  intros Hb Hd Hs Hn Hdn Hsn. unfold memmove.
  rewrite (u32_id (src + n)), (u32_id (dst + n)) by (unfold word; lia).
  destruct (Z.ltb_spec src dst), (Z.ltb_spec dst (src + n)); cbn [andb];
    try (rewrite copy_fwd_spec by (done || lia); by rewrite Z2Nat.id).
  rewrite copy_bwd_spec by (done || lia). rewrite Z2Nat.id by done.
  by replace (dst + n - n) with dst by lia; replace (src + n - n) with src by lia.
Qed.

(** ** C strings *)

(** The bytes of [l], none of them NUL, followed by a NUL. *)
Fixpoint cstr (m : memory) (a : Z) (l : list Z) : Prop :=
  match l with
  | [] => load8 m a = 0
  | c :: l => load8 m a = c ∧ c ≠ 0 ∧ cstr m (u32 (a + 1)) l
  end.

(** [while(n > 0 && *p && *p == *q) n--, p++, q++;] and the final comparison. *)
Fixpoint strncmp (m : memory) (p q : Z) (n : nat) : Z :=
  match n with
  | O => 0
  | S n' =>
    if negb (load8 m p =? 0) && (load8 m p =? load8 m q)
    then strncmp m (u32 (p + 1)) (u32 (q + 1)) n'
    else load8 m p - load8 m q
  end.

(** [for(n = 0; s[n]; n++)]; the fuel bounds the length of the string. *)
Fixpoint strlen (fuel : nat) (m : memory) (s : Z) : option Z :=
  match fuel with
  | O => None
  | S fuel =>
    if load8 m s =? 0 then Some 0
    else match strlen fuel m (u32 (s + 1)) with Some n => Some (n + 1) | None => None end
  end.

(** The first loop of [strncpy]: the memory, the pointer and the count left. *)
Fixpoint strncpy_copy (m : memory) (s t : Z) (n : nat) : memory * Z * nat :=
  match n with
  | O => (m, s, O)
  | S n =>
    let c := load8 m t in
    let m := store8 m s c in
    if c =? 0 then (m, u32 (s + 1), n) else strncpy_copy m (u32 (s + 1)) (u32 (t + 1)) n
  end.

(** [while(n-- > 0) *s++ = 0;] *)
Fixpoint zero_fwd (m : memory) (s : Z) (n : nat) : memory :=
  match n with
  | O => m
  | S n => zero_fwd (store8 m s 0) (u32 (s + 1)) n
  end.

Definition strncpy (m : memory) (s t n : Z) : memory :=
  let '(m, s, n) := strncpy_copy m s t (Z.to_nat n) in zero_fwd m s n.

(** The loop of [safestrcpy], which stops when [--n] reaches 0 or a NUL has
    been copied, and the NUL stored after it. *)
Fixpoint safestrcpy_copy (m : memory) (s t : Z) (n : nat) : memory :=
  match n with
  | O => store8 m s 0
  | S n =>
    let c := load8 m t in
    let m := store8 m s c in
    if c =? 0 then store8 m (u32 (s + 1)) 0
    else safestrcpy_copy m (u32 (s + 1)) (u32 (t + 1)) n
  end.

Definition safestrcpy (m : memory) (s t n : Z) : memory :=
  if n <=? 0 then m else safestrcpy_copy m s t (Z.to_nat (n - 1)).

(** Reference comparison of two strings cut at [n] characters. *)
Fixpoint cmp_prefix (n : nat) (l1 l2 : list Z) : Z :=
  match n, l1, l2 with
  | O, _, _ => 0
  | S n, [], [] => 0
  | S n, [], d :: _ => - d
  | S n, c :: _, [] => c
  | S n, c :: l1, d :: l2 => if c =? d then cmp_prefix n l1 l2 else c - d
  end.

Lemma strncmp_cmp_prefix m p q n l1 l2 : cstr m p l1 → cstr m q l2 →
  strncmp m p q n = cmp_prefix n l1 l2.
Proof.
  revert p q l1 l2. induction n as [|n IH]; intros p q l1 l2; [done|].
  destruct l1 as [|c l1], l2 as [|d l2]; simpl.
  - intros -> ->. done.
  - intros -> (Hd & ? & ?). by rewrite Hd.
  - intros (Hc & ? & ?) Hq. rewrite Hc, Hq. destruct (Z.eqb_spec c 0); [done|]. simpl. lia.
  - intros (Hc & Hc0 & Hp) (Hd & ? & Hq). rewrite Hc, Hd.
    destruct (Z.eqb_spec c 0); [done|]. simpl.
    destruct (Z.eqb_spec c d); [by apply IH|done].
Qed.

Lemma cmp_prefix_zero n l1 l2 : Forall (λ c, c ≠ 0) l1 → Forall (λ c, c ≠ 0) l2 →
  cmp_prefix n l1 l2 = 0 ↔ take n l1 = take n l2.
Proof.
  intros H1. revert n l2. induction H1 as [|c l1 Hc H1 IH]; intros n l2 H2;
    destruct n as [|n], H2 as [|d l2 Hd H2]; simpl; try (split; intros; done || lia).
  destruct (Z.eqb_spec c d) as [->|Hne].
  - rewrite IH by done. split; [by intros ->|]. by intros [=].
  - split; [lia|]. by intros [=].
Qed.

Lemma cstr_nonzero m a l : cstr m a l → Forall (λ c, c ≠ 0) l.
Proof. revert a. induction l as [|c l IH]; intros a; [constructor|]. intros (? & ? & ?). eauto. Qed.

(** [strncmp] returns 0 exactly on strings with the same first [n] characters. *)
Theorem strncmp_zero_iff m p q n l1 l2 : cstr m p l1 → cstr m q l2 →
  strncmp m p q n = 0 ↔ take n l1 = take n l2.
Proof.
  intros H1 H2. rewrite (strncmp_cmp_prefix m p q n l1 l2) by done.
  apply cmp_prefix_zero; eauto using cstr_nonzero.
Qed.

Lemma strlen_cstr fuel m a l : cstr m a l → (length l < fuel)%nat →
  strlen fuel m a = Some (Z.of_nat (length l)).
Proof.
  revert a fuel. induction l as [|c l IH]; intros a [|fuel] H Hf; simpl in *; try lia.
  - by rewrite H.
  - destruct H as (-> & Hc & H). destruct (Z.eqb_spec c 0); [done|].
    rewrite IH by (done || lia). f_equal. lia.
Qed.

Lemma cstr_frame m m' a l : 0 <= a → a + Z.of_nat (length l) < two32 →
  (∀ x, a <= x <= a + Z.of_nat (length l) → m' x = m x) → cstr m a l → cstr m' a l.
Proof.
  revert a. induction l as [|c l IH]; intros a Ha Hw Hx; simpl in *.
  - unfold load8. rewrite u32_id by (unfold word; lia). intros <-. apply Hx. lia.
  - unfold load8. rewrite u32_id by (unfold word; lia). intros (<- & Hc & Hl).
    rewrite u32_id in Hl |- * by (unfold word; lia).
    split; [apply Hx; lia|]. split; [done|]. apply IH; [lia..| |done].
    intros x Hx'. apply Hx. lia.
Qed.

Lemma store8_same m a v : word a → 0 <= v < 256 → store8 m a v a = v.
Proof.
  intros Ha Hv. unfold store8. rewrite u32_id by done.
  by rewrite Z.eqb_refl, Z.mod_small.
Qed.

Lemma store8_ne m a v x : word a → x ≠ a → store8 m a v x = m x.
Proof. intros Ha Hx. unfold store8. rewrite u32_id by done. by destruct (Z.eqb_spec x a). Qed.

Lemma load8_range m a : byte_mem m → 0 <= load8 m a < 256.
Proof. intros H. apply H. Qed.

(** The regions a string copy reads and writes do not overlap. *)
Definition apart (t tlen s slen : Z) : Prop := t + tlen <= s ∨ s + slen <= t.

Lemma safestrcpy_copy_spec k m s t l : byte_mem m → 0 <= s → s + Z.of_nat k + 1 < two32 →
  0 <= t → t + Z.of_nat (length l) + 1 < two32 →
  apart t (Z.of_nat (length l) + 1) s (Z.of_nat k + 1) → cstr m t l →
  cstr (safestrcpy_copy m s t k) s (take k l)
  ∧ ∀ x, ¬ (s <= x <= s + Z.of_nat k) → safestrcpy_copy m s t k x = m x.
Proof.
  revert m s t l. induction k as [|k IH]; intros m s t l Hb Hs Hsw Ht Htw Hap Hl.
  - simpl. split; [|intros; apply store8_ne; unfold word; lia].
    unfold load8. rewrite u32_id by (unfold word; lia).
    apply store8_same; unfold word; lia.
  - cbn [safestrcpy_copy]. rewrite !(u32_id (s + 1)), (u32_id (t + 1)) by (unfold word; lia).
    destruct l as [|c l]; cbn [cstr] in Hl.
    + rewrite Hl. simpl. split; [|intros; rewrite !store8_ne; unfold word; lia || done].
      unfold load8. rewrite u32_id by (unfold word; lia).
      rewrite store8_ne by (unfold word; lia). apply store8_same; unfold word; lia.
    + destruct Hl as (<- & Hc & Hl). destruct (Z.eqb_spec (load8 m t) 0); [done|].
      cbn [length] in *. rewrite u32_id in Hl by (unfold word; lia).
      unfold apart in Hap.
      destruct (IH (store8 m s (load8 m t)) (s + 1) (t + 1) l) as [Hr Hf];
        try (unfold apart; lia).
      { by apply store8_byte_mem. }
      { apply (cstr_frame m); [lia..| |done]. intros. apply store8_ne; unfold word; lia. }
      split.
      * cbn [take cstr]. rewrite u32_id by (unfold word; lia). split; [|done].
        unfold load8 at 1. rewrite u32_id, Hf by (unfold word; lia).
        apply store8_same; [unfold word; lia|by apply load8_range].
      * intros x Hx. rewrite Hf by lia. apply store8_ne; unfold word; lia.
Qed.

(** [safestrcpy] leaves a NUL-terminated copy of the first [n-1]
    characters and writes nothing outside the [n] bytes of the destination. *)
Theorem safestrcpy_terminates m s t n l : byte_mem m → 0 < n → 0 <= s → s + n < two32 →
  0 <= t → t + Z.of_nat (length l) + 1 < two32 →
  apart t (Z.of_nat (length l) + 1) s n → cstr m t l →
  cstr (safestrcpy m s t n) s (take (Z.to_nat (n - 1)) l)
  ∧ ∀ x, ¬ (s <= x < s + n) → safestrcpy m s t n x = m x.
Proof.
  intros. unfold safestrcpy. destruct (Z.leb_spec n 0); [lia|].
  destruct (safestrcpy_copy_spec (Z.to_nat (n - 1)) m s t l) as [Hr Hf];
    rewrite ?Z2Nat.id by lia; try (done || lia).
  { unfold apart in *. lia. }
  split; [done|]. intros x Hx. apply Hf. rewrite Z2Nat.id; lia.
Qed.

Lemma zero_fwd_spec n m s x : 0 <= s → s + Z.of_nat n < two32 →
  zero_fwd m s n x = if (s <=? x) && (x <? s + Z.of_nat n) then 0 else m x.
Proof.
  revert m s. induction n as [|n IH]; intros m s Hs Hw.
  - simpl zero_fwd. case_ltb; done || lia.
  - cbn [zero_fwd]. rewrite u32_id by (unfold word; lia). rewrite IH by lia.
    destruct (Z.eq_dec x s) as [->|Hne].
    + rewrite store8_same by (unfold word; lia). case_ltb; done || lia.
    + rewrite store8_ne by (unfold word; lia). case_ltb; done || lia.
Qed.

(** [strncpy] fills exactly [n] bytes: the string cut at [n], padded with NULs. *)
Theorem strncpy_field m s t n l x : byte_mem m → 0 <= n → 0 <= s → s + n < two32 →
  0 <= t → t + Z.of_nat (length l) + 1 < two32 →
  apart t (Z.of_nat (length l) + 1) s n → cstr m t l →
  strncpy m s t n x =
    if (s <=? x) && (x <? s + n) then default 0 (l !! Z.to_nat (x - s)) else m x.
Proof.
  intros Hb Hn Hs Hsw Ht Htw Hap Hl. unfold strncpy.
  remember (Z.to_nat n) as k eqn:Ek. assert (n = Z.of_nat k) as -> by lia. clear Ek Hn.
  revert m s t l Hb Hs Hsw Ht Htw Hap Hl.
  induction k as [|k IH]; intros m s t l Hb Hs Hsw Ht Htw Hap Hl.
  { simpl. case_ltb; done || lia. }
  cbn [strncpy_copy]. rewrite (u32_id (s + 1)), (u32_id (t + 1)) by (unfold word; lia).
  destruct l as [|c l]; cbn [cstr length] in *.
  - rewrite Hl. simpl. rewrite zero_fwd_spec by lia.
    destruct (Z.eq_dec x s) as [->|Hne].
    + rewrite store8_same by (unfold word; lia). case_ltb; done || lia.
    + rewrite store8_ne by (unfold word; lia). case_ltb; done || lia.
  - destruct Hl as (<- & Hc & Hl). destruct (Z.eqb_spec (load8 m t) 0); [done|].
    rewrite u32_id in Hl by (unfold word; lia). unfold apart in Hap.
    rewrite (IH (store8 m s (load8 m t)) (s + 1) (t + 1) l); try (unfold apart; lia).
    + destruct (Z.eq_dec x s) as [->|Hne].
      * rewrite store8_same by (unfold word; lia || by apply load8_range).
        rewrite Z.sub_diag. case_ltb; done || lia.
      * rewrite store8_ne by (unfold word; lia).
        case_ltb; try done; try lia.
        replace (Z.to_nat (x - s)) with (S (Z.to_nat (x - (s + 1)))) by lia. done.
    + by apply store8_byte_mem.
    + apply (cstr_frame m); [lia..| |done]. intros. apply store8_ne; unfold word; lia.
Qed.

(** ** Instances *)

(** The string [hi] at 100, [ho] at 200. *)
Definition two_strings : memory := fun x =>
  if x =? 100 then 104 else if x =? 101 then 105 else
  if x =? 200 then 104 else if x =? 201 then 111 else 0.

Lemma two_strings_bytes : byte_mem two_strings.
Proof. intros x. unfold two_strings. repeat (case_match; [lia|]). lia. Qed.

Lemma memmove_moves_witness :
  memmove two_strings 101 100 2 101 = 104 ∧ memmove two_strings 101 100 2 102 = 105.
Proof.
  split; (etrans; [apply memmove_moves; unfold two32; try lia; apply two_strings_bytes|done]).
Defined.

Lemma strncmp_zero_iff_witness :
  strncmp two_strings 100 200 1 = 0 ∧ strncmp two_strings 100 200 2 ≠ 0.
Proof.
  split.
  - apply (strncmp_zero_iff two_strings 100 200 1 [104; 105] [104; 111]); by vm_compute.
  - intros H. apply (strncmp_zero_iff two_strings 100 200 2 [104; 105] [104; 111]) in H;
      by vm_compute.
Defined.

Lemma strncpy_field_witness : strncpy two_strings 300 100 4 301 = 105.
Proof.
  etrans; [apply (strncpy_field two_strings 300 100 4 [104; 105] 301)|done];
    unfold two32, apart; try lia; [apply two_strings_bytes|simpl; lia|simpl; lia|by vm_compute].
Defined.

Lemma safestrcpy_terminates_witness : cstr (safestrcpy two_strings 300 100 2) 300 [104].
Proof.
  apply (safestrcpy_terminates two_strings 300 100 2 [104; 105]);
    unfold two32, apart; try (simpl; lia); [apply two_strings_bytes|by vm_compute].
Defined.
