(* ===== verification/State.v ===== *)
(** * Data of the kernel

    The structures of [proc.h], [signal.h], [x86.h], [file.h], [pipe.c] and the
    globals of the kernel, as records with one setter per field, and the state
    [kstate] on which the kernel's C functions are modelled.  Pointers into the
    fixed tables ([struct proc *], [struct file *]) are indices, [None] is the
    null pointer. *)

From stdpp Require Import base numbers option list strings gmap.
From Stdlib Require Import ZArith Lia.
From S2P Require Import Prelude.

(** ** Constants of [param.h], [mmu.h], [memlayout.h], [signal.h] *)

Definition NPROC : nat := 64.
Definition KSTACKSIZE : Z := 4096.
Definition NOFILE : nat := 16.
Definition NFILE : nat := 100.
Definition NUMSIG : nat := 32.
Definition CURRNUM : Z := 22.
Definition PGSIZE : Z := 4096.
Definition KERNBASE : Z := 2147483648.
Definition PHYSTOP : Z := 234881024.
Definition FL_IF : Z := 512.
Definition DPL_USER : Z := 3.
Definition SEG_UCODE : Z := 3.
Definition SEG_UDATA : Z := 4.
Definition PIPESIZE : Z := 512.

Definition SIGHUP : Z := 1.
Definition SIGINT : Z := 2.
Definition SIGQUIT : Z := 3.
Definition SIGILL : Z := 4.
Definition SIGABRT : Z := 6.
Definition SIGFPE : Z := 8.
Definition SIGKILL : Z := 9.
Definition SIGUSR1 : Z := 10.
Definition SIGSEGV : Z := 11.
Definition SIGUSR2 : Z := 12.
Definition SIGPIPE : Z := 13.
Definition SIGALRM : Z := 14.
Definition SIGTERM : Z := 15.
Definition SIGCHLD : Z := 17.
Definition SIGCONT : Z := 18.
Definition SIGSTOP : Z := 19.
Definition SIGTSTP : Z := 20.
Definition SIGTTIN : Z := 21.
Definition SIGTTOU : Z := 22.

Definition SIG_DFL : Z := 0.
Definition SIG_IGN : Z := 1.
Definition SIG_ERR : Z := 4294967295.

Definition DFL : Z := 0.
Definition IGN : Z := 1.
Definition USERDEF : Z := 2.

(** ** Structures *)

Inductive procstate : Type := UNUSED | EMBRYO | SLEEPING | RUNNABLE | RUNNING | ZOMBIE.

#[global] Instance procstate_eq_dec : EqDecision procstate.
Proof. solve_decision. Defined.

(** The sleep locks: one in each buffer of the block cache and in each entry of
    the inode cache. *)
Inductive sleeplockid : Type := SL_BUF (i : nat) | SL_INODE (i : nat).

#[global] Instance sleeplockid_eq_dec : EqDecision sleeplockid.
Proof. solve_decision. Defined.

(** Sleep channels: the kernel addresses processes sleep on. *)
Inductive chan : Type :=
| NOCHAN
| CH_PROC (i : nat)
| CH_TICKS
| CH_NREAD (p : Z)
| CH_NWRITE (p : Z)
| CH_LOG
| CH_INPUT
| CH_SLEEPLOCK (l : sleeplockid)
| CH_OTHER (a : Z).

#[global] Instance chan_eq_dec : EqDecision chan.
Proof. solve_decision. Defined.

(** The spin locks of the kernel. *)
Inductive lockid : Type :=
| PTABLE_LOCK
| TICKS_LOCK
| CONS_LOCK
| KMEM_LOCK
| FTABLE_LOCK
| PIPE_LOCK (p : Z)
| BCACHE_LOCK
| LOG_LOCK
| ICACHE_LOCK
| SLEEPLOCK_LK (l : sleeplockid)
| OTHER_LOCK (a : Z).

#[global] Instance lockid_eq_dec : EqDecision lockid.
Proof. solve_decision. Defined.

(** [struct trapframe] of [x86.h], without its padding. *)
Record trapframe : Type := mktf {
  tf_edi : Z;
  tf_esi : Z;
  tf_ebp : Z;
  tf_oesp : Z;
  tf_ebx : Z;
  tf_edx : Z;
  tf_ecx : Z;
  tf_eax : Z;
  tf_gs : Z;
  tf_fs : Z;
  tf_es : Z;
  tf_ds : Z;
  tf_trapno : Z;
  tf_err : Z;
  tf_eip : Z;
  tf_cs : Z;
  tf_eflags : Z;
  tf_esp : Z;
  tf_ss : Z
}.
Definition set_tf_eax (v : Z) (r : trapframe) : trapframe :=
  mktf r.(tf_edi) r.(tf_esi) r.(tf_ebp) r.(tf_oesp) r.(tf_ebx) r.(tf_edx) r.(tf_ecx) v r.(tf_gs) r.(tf_fs) r.(tf_es) r.(tf_ds) r.(tf_trapno) r.(tf_err) r.(tf_eip) r.(tf_cs) r.(tf_eflags) r.(tf_esp) r.(tf_ss).
Definition set_tf_es (v : Z) (r : trapframe) : trapframe :=
  mktf r.(tf_edi) r.(tf_esi) r.(tf_ebp) r.(tf_oesp) r.(tf_ebx) r.(tf_edx) r.(tf_ecx) r.(tf_eax) r.(tf_gs) r.(tf_fs) v r.(tf_ds) r.(tf_trapno) r.(tf_err) r.(tf_eip) r.(tf_cs) r.(tf_eflags) r.(tf_esp) r.(tf_ss).
Definition set_tf_ds (v : Z) (r : trapframe) : trapframe :=
  mktf r.(tf_edi) r.(tf_esi) r.(tf_ebp) r.(tf_oesp) r.(tf_ebx) r.(tf_edx) r.(tf_ecx) r.(tf_eax) r.(tf_gs) r.(tf_fs) r.(tf_es) v r.(tf_trapno) r.(tf_err) r.(tf_eip) r.(tf_cs) r.(tf_eflags) r.(tf_esp) r.(tf_ss).
Definition set_tf_eip (v : Z) (r : trapframe) : trapframe :=
  mktf r.(tf_edi) r.(tf_esi) r.(tf_ebp) r.(tf_oesp) r.(tf_ebx) r.(tf_edx) r.(tf_ecx) r.(tf_eax) r.(tf_gs) r.(tf_fs) r.(tf_es) r.(tf_ds) r.(tf_trapno) r.(tf_err) v r.(tf_cs) r.(tf_eflags) r.(tf_esp) r.(tf_ss).
Definition set_tf_cs (v : Z) (r : trapframe) : trapframe :=
  mktf r.(tf_edi) r.(tf_esi) r.(tf_ebp) r.(tf_oesp) r.(tf_ebx) r.(tf_edx) r.(tf_ecx) r.(tf_eax) r.(tf_gs) r.(tf_fs) r.(tf_es) r.(tf_ds) r.(tf_trapno) r.(tf_err) r.(tf_eip) v r.(tf_eflags) r.(tf_esp) r.(tf_ss).
Definition set_tf_eflags (v : Z) (r : trapframe) : trapframe :=
  mktf r.(tf_edi) r.(tf_esi) r.(tf_ebp) r.(tf_oesp) r.(tf_ebx) r.(tf_edx) r.(tf_ecx) r.(tf_eax) r.(tf_gs) r.(tf_fs) r.(tf_es) r.(tf_ds) r.(tf_trapno) r.(tf_err) r.(tf_eip) r.(tf_cs) v r.(tf_esp) r.(tf_ss).
Definition set_tf_esp (v : Z) (r : trapframe) : trapframe :=
  mktf r.(tf_edi) r.(tf_esi) r.(tf_ebp) r.(tf_oesp) r.(tf_ebx) r.(tf_edx) r.(tf_ecx) r.(tf_eax) r.(tf_gs) r.(tf_fs) r.(tf_es) r.(tf_ds) r.(tf_trapno) r.(tf_err) r.(tf_eip) r.(tf_cs) r.(tf_eflags) v r.(tf_ss).
Definition set_tf_ss (v : Z) (r : trapframe) : trapframe :=
  mktf r.(tf_edi) r.(tf_esi) r.(tf_ebp) r.(tf_oesp) r.(tf_ebx) r.(tf_edx) r.(tf_ecx) r.(tf_eax) r.(tf_gs) r.(tf_fs) r.(tf_es) r.(tf_ds) r.(tf_trapno) r.(tf_err) r.(tf_eip) r.(tf_cs) r.(tf_eflags) r.(tf_esp) v.

(** [struct context] of [proc.h]. *)
Record context : Type := mkctx {
  ctx_edi : Z;
  ctx_esi : Z;
  ctx_ebx : Z;
  ctx_ebp : Z;
  ctx_eip : Z
}.

(** [struct handlerinfo] of [signal.h]. *)
Record handlerinfo : Type := mkhi {
  disposition : Z;
  handler : Z
}.
Definition set_disposition (v : Z) (r : handlerinfo) : handlerinfo :=
  mkhi v r.(handler).
Definition set_handler (v : Z) (r : handlerinfo) : handlerinfo :=
  mkhi r.(disposition) v.

(** [struct proc] of [proc.h].  [p_tfp] and [p_contextp] are the pointers
    [p->tf] and [p->context]; [p_tf] and [p_context] are what they point to. *)
Record proc : Type := mkproc {
  p_sz : Z;
  p_pgdir : Z;
  p_kstack : Z;
  p_state : procstate;
  p_pid : Z;
  p_parent : option nat;
  p_tfp : Z;
  p_tf : trapframe;
  p_contextp : Z;
  p_context : context;
  p_chan : chan;
  p_killed : Z;
  p_ofile : list (option nat);
  p_cwd : option nat;
  p_name : list Z;
  p_sigpending : Z;
  p_sigblocked : Z;
  p_userdefed : Z;
  p_allinfo : list handlerinfo;
  p_justwoken : Z;
  p_addr_sigreturn : Z
}.
Definition set_p_sz (v : Z) (r : proc) : proc :=
  mkproc v r.(p_pgdir) r.(p_kstack) r.(p_state) r.(p_pid) r.(p_parent) r.(p_tfp) r.(p_tf) r.(p_contextp) r.(p_context) r.(p_chan) r.(p_killed) r.(p_ofile) r.(p_cwd) r.(p_name) r.(p_sigpending) r.(p_sigblocked) r.(p_userdefed) r.(p_allinfo) r.(p_justwoken) r.(p_addr_sigreturn).
Definition set_p_pgdir (v : Z) (r : proc) : proc :=
  mkproc r.(p_sz) v r.(p_kstack) r.(p_state) r.(p_pid) r.(p_parent) r.(p_tfp) r.(p_tf) r.(p_contextp) r.(p_context) r.(p_chan) r.(p_killed) r.(p_ofile) r.(p_cwd) r.(p_name) r.(p_sigpending) r.(p_sigblocked) r.(p_userdefed) r.(p_allinfo) r.(p_justwoken) r.(p_addr_sigreturn).
Definition set_p_kstack (v : Z) (r : proc) : proc :=
  mkproc r.(p_sz) r.(p_pgdir) v r.(p_state) r.(p_pid) r.(p_parent) r.(p_tfp) r.(p_tf) r.(p_contextp) r.(p_context) r.(p_chan) r.(p_killed) r.(p_ofile) r.(p_cwd) r.(p_name) r.(p_sigpending) r.(p_sigblocked) r.(p_userdefed) r.(p_allinfo) r.(p_justwoken) r.(p_addr_sigreturn).
Definition set_p_state (v : procstate) (r : proc) : proc :=
  mkproc r.(p_sz) r.(p_pgdir) r.(p_kstack) v r.(p_pid) r.(p_parent) r.(p_tfp) r.(p_tf) r.(p_contextp) r.(p_context) r.(p_chan) r.(p_killed) r.(p_ofile) r.(p_cwd) r.(p_name) r.(p_sigpending) r.(p_sigblocked) r.(p_userdefed) r.(p_allinfo) r.(p_justwoken) r.(p_addr_sigreturn).
Definition set_p_pid (v : Z) (r : proc) : proc :=
  mkproc r.(p_sz) r.(p_pgdir) r.(p_kstack) r.(p_state) v r.(p_parent) r.(p_tfp) r.(p_tf) r.(p_contextp) r.(p_context) r.(p_chan) r.(p_killed) r.(p_ofile) r.(p_cwd) r.(p_name) r.(p_sigpending) r.(p_sigblocked) r.(p_userdefed) r.(p_allinfo) r.(p_justwoken) r.(p_addr_sigreturn).
Definition set_p_parent (v : option nat) (r : proc) : proc :=
  mkproc r.(p_sz) r.(p_pgdir) r.(p_kstack) r.(p_state) r.(p_pid) v r.(p_tfp) r.(p_tf) r.(p_contextp) r.(p_context) r.(p_chan) r.(p_killed) r.(p_ofile) r.(p_cwd) r.(p_name) r.(p_sigpending) r.(p_sigblocked) r.(p_userdefed) r.(p_allinfo) r.(p_justwoken) r.(p_addr_sigreturn).
Definition set_p_tfp (v : Z) (r : proc) : proc :=
  mkproc r.(p_sz) r.(p_pgdir) r.(p_kstack) r.(p_state) r.(p_pid) r.(p_parent) v r.(p_tf) r.(p_contextp) r.(p_context) r.(p_chan) r.(p_killed) r.(p_ofile) r.(p_cwd) r.(p_name) r.(p_sigpending) r.(p_sigblocked) r.(p_userdefed) r.(p_allinfo) r.(p_justwoken) r.(p_addr_sigreturn).
Definition set_p_tf (v : trapframe) (r : proc) : proc :=
  mkproc r.(p_sz) r.(p_pgdir) r.(p_kstack) r.(p_state) r.(p_pid) r.(p_parent) r.(p_tfp) v r.(p_contextp) r.(p_context) r.(p_chan) r.(p_killed) r.(p_ofile) r.(p_cwd) r.(p_name) r.(p_sigpending) r.(p_sigblocked) r.(p_userdefed) r.(p_allinfo) r.(p_justwoken) r.(p_addr_sigreturn).
Definition set_p_contextp (v : Z) (r : proc) : proc :=
  mkproc r.(p_sz) r.(p_pgdir) r.(p_kstack) r.(p_state) r.(p_pid) r.(p_parent) r.(p_tfp) r.(p_tf) v r.(p_context) r.(p_chan) r.(p_killed) r.(p_ofile) r.(p_cwd) r.(p_name) r.(p_sigpending) r.(p_sigblocked) r.(p_userdefed) r.(p_allinfo) r.(p_justwoken) r.(p_addr_sigreturn).
Definition set_p_context (v : context) (r : proc) : proc :=
  mkproc r.(p_sz) r.(p_pgdir) r.(p_kstack) r.(p_state) r.(p_pid) r.(p_parent) r.(p_tfp) r.(p_tf) r.(p_contextp) v r.(p_chan) r.(p_killed) r.(p_ofile) r.(p_cwd) r.(p_name) r.(p_sigpending) r.(p_sigblocked) r.(p_userdefed) r.(p_allinfo) r.(p_justwoken) r.(p_addr_sigreturn).
Definition set_p_chan (v : chan) (r : proc) : proc :=
  mkproc r.(p_sz) r.(p_pgdir) r.(p_kstack) r.(p_state) r.(p_pid) r.(p_parent) r.(p_tfp) r.(p_tf) r.(p_contextp) r.(p_context) v r.(p_killed) r.(p_ofile) r.(p_cwd) r.(p_name) r.(p_sigpending) r.(p_sigblocked) r.(p_userdefed) r.(p_allinfo) r.(p_justwoken) r.(p_addr_sigreturn).
Definition set_p_killed (v : Z) (r : proc) : proc :=
  mkproc r.(p_sz) r.(p_pgdir) r.(p_kstack) r.(p_state) r.(p_pid) r.(p_parent) r.(p_tfp) r.(p_tf) r.(p_contextp) r.(p_context) r.(p_chan) v r.(p_ofile) r.(p_cwd) r.(p_name) r.(p_sigpending) r.(p_sigblocked) r.(p_userdefed) r.(p_allinfo) r.(p_justwoken) r.(p_addr_sigreturn).
Definition set_p_ofile (v : list (option nat)) (r : proc) : proc :=
  mkproc r.(p_sz) r.(p_pgdir) r.(p_kstack) r.(p_state) r.(p_pid) r.(p_parent) r.(p_tfp) r.(p_tf) r.(p_contextp) r.(p_context) r.(p_chan) r.(p_killed) v r.(p_cwd) r.(p_name) r.(p_sigpending) r.(p_sigblocked) r.(p_userdefed) r.(p_allinfo) r.(p_justwoken) r.(p_addr_sigreturn).
Definition set_p_cwd (v : option nat) (r : proc) : proc :=
  mkproc r.(p_sz) r.(p_pgdir) r.(p_kstack) r.(p_state) r.(p_pid) r.(p_parent) r.(p_tfp) r.(p_tf) r.(p_contextp) r.(p_context) r.(p_chan) r.(p_killed) r.(p_ofile) v r.(p_name) r.(p_sigpending) r.(p_sigblocked) r.(p_userdefed) r.(p_allinfo) r.(p_justwoken) r.(p_addr_sigreturn).
Definition set_p_name (v : list Z) (r : proc) : proc :=
  mkproc r.(p_sz) r.(p_pgdir) r.(p_kstack) r.(p_state) r.(p_pid) r.(p_parent) r.(p_tfp) r.(p_tf) r.(p_contextp) r.(p_context) r.(p_chan) r.(p_killed) r.(p_ofile) r.(p_cwd) v r.(p_sigpending) r.(p_sigblocked) r.(p_userdefed) r.(p_allinfo) r.(p_justwoken) r.(p_addr_sigreturn).
Definition set_p_sigpending (v : Z) (r : proc) : proc :=
  mkproc r.(p_sz) r.(p_pgdir) r.(p_kstack) r.(p_state) r.(p_pid) r.(p_parent) r.(p_tfp) r.(p_tf) r.(p_contextp) r.(p_context) r.(p_chan) r.(p_killed) r.(p_ofile) r.(p_cwd) r.(p_name) v r.(p_sigblocked) r.(p_userdefed) r.(p_allinfo) r.(p_justwoken) r.(p_addr_sigreturn).
Definition set_p_sigblocked (v : Z) (r : proc) : proc :=
  mkproc r.(p_sz) r.(p_pgdir) r.(p_kstack) r.(p_state) r.(p_pid) r.(p_parent) r.(p_tfp) r.(p_tf) r.(p_contextp) r.(p_context) r.(p_chan) r.(p_killed) r.(p_ofile) r.(p_cwd) r.(p_name) r.(p_sigpending) v r.(p_userdefed) r.(p_allinfo) r.(p_justwoken) r.(p_addr_sigreturn).
Definition set_p_userdefed (v : Z) (r : proc) : proc :=
  mkproc r.(p_sz) r.(p_pgdir) r.(p_kstack) r.(p_state) r.(p_pid) r.(p_parent) r.(p_tfp) r.(p_tf) r.(p_contextp) r.(p_context) r.(p_chan) r.(p_killed) r.(p_ofile) r.(p_cwd) r.(p_name) r.(p_sigpending) r.(p_sigblocked) v r.(p_allinfo) r.(p_justwoken) r.(p_addr_sigreturn).
Definition set_p_allinfo (v : list handlerinfo) (r : proc) : proc :=
  mkproc r.(p_sz) r.(p_pgdir) r.(p_kstack) r.(p_state) r.(p_pid) r.(p_parent) r.(p_tfp) r.(p_tf) r.(p_contextp) r.(p_context) r.(p_chan) r.(p_killed) r.(p_ofile) r.(p_cwd) r.(p_name) r.(p_sigpending) r.(p_sigblocked) r.(p_userdefed) v r.(p_justwoken) r.(p_addr_sigreturn).
Definition set_p_justwoken (v : Z) (r : proc) : proc :=
  mkproc r.(p_sz) r.(p_pgdir) r.(p_kstack) r.(p_state) r.(p_pid) r.(p_parent) r.(p_tfp) r.(p_tf) r.(p_contextp) r.(p_context) r.(p_chan) r.(p_killed) r.(p_ofile) r.(p_cwd) r.(p_name) r.(p_sigpending) r.(p_sigblocked) r.(p_userdefed) r.(p_allinfo) v r.(p_addr_sigreturn).
Definition set_p_addr_sigreturn (v : Z) (r : proc) : proc :=
  mkproc r.(p_sz) r.(p_pgdir) r.(p_kstack) r.(p_state) r.(p_pid) r.(p_parent) r.(p_tfp) r.(p_tf) r.(p_contextp) r.(p_context) r.(p_chan) r.(p_killed) r.(p_ofile) r.(p_cwd) r.(p_name) r.(p_sigpending) r.(p_sigblocked) r.(p_userdefed) r.(p_allinfo) r.(p_justwoken) v.

Inductive filetype : Type := FD_NONE | FD_PIPE | FD_INODE.

#[global] Instance filetype_eq_dec : EqDecision filetype.
Proof. solve_decision. Defined.

(** [struct file] of [file.h]. *)
Record file : Type := mkfile {
  f_type : filetype;
  f_ref : Z;
  f_readable : Z;
  f_writable : Z;
  f_pipe : Z;
  f_ip : option nat;
  f_off : Z
}.
Definition set_f_type (v : filetype) (r : file) : file :=
  mkfile v r.(f_ref) r.(f_readable) r.(f_writable) r.(f_pipe) r.(f_ip) r.(f_off).
Definition set_f_ref (v : Z) (r : file) : file :=
  mkfile r.(f_type) v r.(f_readable) r.(f_writable) r.(f_pipe) r.(f_ip) r.(f_off).
Definition set_f_readable (v : Z) (r : file) : file :=
  mkfile r.(f_type) r.(f_ref) v r.(f_writable) r.(f_pipe) r.(f_ip) r.(f_off).
Definition set_f_writable (v : Z) (r : file) : file :=
  mkfile r.(f_type) r.(f_ref) r.(f_readable) v r.(f_pipe) r.(f_ip) r.(f_off).
Definition set_f_pipe (v : Z) (r : file) : file :=
  mkfile r.(f_type) r.(f_ref) r.(f_readable) r.(f_writable) v r.(f_ip) r.(f_off).
Definition set_f_ip (v : option nat) (r : file) : file :=
  mkfile r.(f_type) r.(f_ref) r.(f_readable) r.(f_writable) r.(f_pipe) v r.(f_off).
Definition set_f_off (v : Z) (r : file) : file :=
  mkfile r.(f_type) r.(f_ref) r.(f_readable) r.(f_writable) r.(f_pipe) r.(f_ip) v.

(** [struct pipe] of [pipe.c]; its lock is the lock [PIPE_LOCK a]. *)
Record pipe : Type := mkpipe {
  pi_data : list Z;
  pi_nread : Z;
  pi_nwrite : Z;
  pi_readopen : Z;
  pi_writeopen : Z
}.
Definition set_pi_data (v : list Z) (r : pipe) : pipe :=
  mkpipe v r.(pi_nread) r.(pi_nwrite) r.(pi_readopen) r.(pi_writeopen).
Definition set_pi_nread (v : Z) (r : pipe) : pipe :=
  mkpipe r.(pi_data) v r.(pi_nwrite) r.(pi_readopen) r.(pi_writeopen).
Definition set_pi_nwrite (v : Z) (r : pipe) : pipe :=
  mkpipe r.(pi_data) r.(pi_nread) v r.(pi_readopen) r.(pi_writeopen).
Definition set_pi_readopen (v : Z) (r : pipe) : pipe :=
  mkpipe r.(pi_data) r.(pi_nread) r.(pi_nwrite) v r.(pi_writeopen).
Definition set_pi_writeopen (v : Z) (r : pipe) : pipe :=
  mkpipe r.(pi_data) r.(pi_nread) r.(pi_nwrite) r.(pi_readopen) v.

(** *** The file system *)

Definition BSIZE : nat := 512.
Definition NBUF : nat := 30.
Definition LOGSIZE : nat := 30.
Definition MAXOPBLOCKS : Z := 10.
Definition ROOTDEV : Z := 1.
Definition NINODE : nat := 50.
Definition NDIRECT : nat := 12.
Definition INPUT_BUF : nat := 128.

(** [struct sleeplock] of [sleeplock.h]; its spin lock is [SLEEPLOCK_LK]. *)
Record sleeplock : Type := mkslk {
  sl_locked : Z;
  sl_pid : Z
}.
Definition set_sl_locked (v : Z) (r : sleeplock) : sleeplock :=
  mkslk v r.(sl_pid).
Definition set_sl_pid (v : Z) (r : sleeplock) : sleeplock :=
  mkslk r.(sl_locked) v.

(** [struct buf] of [buf.h]; the list links are in [blru]. *)
Record buf : Type := mkbuf {
  b_flags : Z;
  b_dev : Z;
  b_blockno : Z;
  b_lock : sleeplock;
  b_refcnt : Z;
  b_data : list Z
}.
Definition set_b_flags (v : Z) (r : buf) : buf :=
  mkbuf v r.(b_dev) r.(b_blockno) r.(b_lock) r.(b_refcnt) r.(b_data).
Definition set_b_dev (v : Z) (r : buf) : buf :=
  mkbuf r.(b_flags) v r.(b_blockno) r.(b_lock) r.(b_refcnt) r.(b_data).
Definition set_b_blockno (v : Z) (r : buf) : buf :=
  mkbuf r.(b_flags) r.(b_dev) v r.(b_lock) r.(b_refcnt) r.(b_data).
Definition set_b_lock (v : sleeplock) (r : buf) : buf :=
  mkbuf r.(b_flags) r.(b_dev) r.(b_blockno) v r.(b_refcnt) r.(b_data).
Definition set_b_refcnt (v : Z) (r : buf) : buf :=
  mkbuf r.(b_flags) r.(b_dev) r.(b_blockno) r.(b_lock) v r.(b_data).
Definition set_b_data (v : list Z) (r : buf) : buf :=
  mkbuf r.(b_flags) r.(b_dev) r.(b_blockno) r.(b_lock) r.(b_refcnt) v.

(** [struct log] and [struct logheader] of [log.c]. *)
Record logstate : Type := mklog {
  l_start : Z;
  l_size : Z;
  l_outstanding : Z;
  l_committing : Z;
  l_dev : Z;
  lh_n : Z;
  lh_block : list Z
}.
Definition set_l_start (v : Z) (r : logstate) : logstate :=
  mklog v r.(l_size) r.(l_outstanding) r.(l_committing) r.(l_dev) r.(lh_n) r.(lh_block).
Definition set_l_size (v : Z) (r : logstate) : logstate :=
  mklog r.(l_start) v r.(l_outstanding) r.(l_committing) r.(l_dev) r.(lh_n) r.(lh_block).
Definition set_l_outstanding (v : Z) (r : logstate) : logstate :=
  mklog r.(l_start) r.(l_size) v r.(l_committing) r.(l_dev) r.(lh_n) r.(lh_block).
Definition set_l_committing (v : Z) (r : logstate) : logstate :=
  mklog r.(l_start) r.(l_size) r.(l_outstanding) v r.(l_dev) r.(lh_n) r.(lh_block).
Definition set_l_dev (v : Z) (r : logstate) : logstate :=
  mklog r.(l_start) r.(l_size) r.(l_outstanding) r.(l_committing) v r.(lh_n) r.(lh_block).
Definition set_lh_n (v : Z) (r : logstate) : logstate :=
  mklog r.(l_start) r.(l_size) r.(l_outstanding) r.(l_committing) r.(l_dev) v r.(lh_block).
Definition set_lh_block (v : list Z) (r : logstate) : logstate :=
  mklog r.(l_start) r.(l_size) r.(l_outstanding) r.(l_committing) r.(l_dev) r.(lh_n) v.

(** [struct superblock] of [fs.h]. *)
Record superblock : Type := mksb {
  sb_size : Z;
  sb_nblocks : Z;
  sb_ninodes : Z;
  sb_nlog : Z;
  sb_logstart : Z;
  sb_inodestart : Z;
  sb_bmapstart : Z
}.

(** [struct inode] of [file.h]. *)
Record inode : Type := mkinode {
  i_dev : Z;
  i_inum : Z;
  i_ref : Z;
  i_lock : sleeplock;
  i_valid : Z;
  i_type : Z;
  i_major : Z;
  i_minor : Z;
  i_nlink : Z;
  i_size : Z;
  i_addrs : list Z
}.
Definition set_i_dev (v : Z) (r : inode) : inode :=
  mkinode v r.(i_inum) r.(i_ref) r.(i_lock) r.(i_valid) r.(i_type) r.(i_major) r.(i_minor) r.(i_nlink) r.(i_size) r.(i_addrs).
Definition set_i_inum (v : Z) (r : inode) : inode :=
  mkinode r.(i_dev) v r.(i_ref) r.(i_lock) r.(i_valid) r.(i_type) r.(i_major) r.(i_minor) r.(i_nlink) r.(i_size) r.(i_addrs).
Definition set_i_ref (v : Z) (r : inode) : inode :=
  mkinode r.(i_dev) r.(i_inum) v r.(i_lock) r.(i_valid) r.(i_type) r.(i_major) r.(i_minor) r.(i_nlink) r.(i_size) r.(i_addrs).
Definition set_i_lock (v : sleeplock) (r : inode) : inode :=
  mkinode r.(i_dev) r.(i_inum) r.(i_ref) v r.(i_valid) r.(i_type) r.(i_major) r.(i_minor) r.(i_nlink) r.(i_size) r.(i_addrs).
Definition set_i_valid (v : Z) (r : inode) : inode :=
  mkinode r.(i_dev) r.(i_inum) r.(i_ref) r.(i_lock) v r.(i_type) r.(i_major) r.(i_minor) r.(i_nlink) r.(i_size) r.(i_addrs).
Definition set_i_type (v : Z) (r : inode) : inode :=
  mkinode r.(i_dev) r.(i_inum) r.(i_ref) r.(i_lock) r.(i_valid) v r.(i_major) r.(i_minor) r.(i_nlink) r.(i_size) r.(i_addrs).
Definition set_i_major (v : Z) (r : inode) : inode :=
  mkinode r.(i_dev) r.(i_inum) r.(i_ref) r.(i_lock) r.(i_valid) r.(i_type) v r.(i_minor) r.(i_nlink) r.(i_size) r.(i_addrs).
Definition set_i_minor (v : Z) (r : inode) : inode :=
  mkinode r.(i_dev) r.(i_inum) r.(i_ref) r.(i_lock) r.(i_valid) r.(i_type) r.(i_major) v r.(i_nlink) r.(i_size) r.(i_addrs).
Definition set_i_nlink (v : Z) (r : inode) : inode :=
  mkinode r.(i_dev) r.(i_inum) r.(i_ref) r.(i_lock) r.(i_valid) r.(i_type) r.(i_major) r.(i_minor) v r.(i_size) r.(i_addrs).
Definition set_i_size (v : Z) (r : inode) : inode :=
  mkinode r.(i_dev) r.(i_inum) r.(i_ref) r.(i_lock) r.(i_valid) r.(i_type) r.(i_major) r.(i_minor) r.(i_nlink) v r.(i_addrs).
Definition set_i_addrs (v : list Z) (r : inode) : inode :=
  mkinode r.(i_dev) r.(i_inum) r.(i_ref) r.(i_lock) r.(i_valid) r.(i_type) r.(i_major) r.(i_minor) r.(i_nlink) r.(i_size) v.

(** The state of the file system: the buffers of [bcache] and their list from
    the most to the least recently used, the log, the super block and the inode
    cache; [disk] and [disksize] are the disk, [writes] the history of block
    writes to it, oldest first. *)

Record fsstate : Type := mkfs {
  bufs : list buf;
  blru : list nat;
  log : logstate;
  sb : superblock;
  icache : list inode;
  disk : Z → list Z;
  disksize : Z;
  writes : list (Z * list Z)
}.
Definition set_bufs (v : list buf) (r : fsstate) : fsstate :=
  mkfs v r.(blru) r.(log) r.(sb) r.(icache) r.(disk) r.(disksize) r.(writes).
Definition set_blru (v : list nat) (r : fsstate) : fsstate :=
  mkfs r.(bufs) v r.(log) r.(sb) r.(icache) r.(disk) r.(disksize) r.(writes).
Definition set_log (v : logstate) (r : fsstate) : fsstate :=
  mkfs r.(bufs) r.(blru) v r.(sb) r.(icache) r.(disk) r.(disksize) r.(writes).
Definition set_sb (v : superblock) (r : fsstate) : fsstate :=
  mkfs r.(bufs) r.(blru) r.(log) v r.(icache) r.(disk) r.(disksize) r.(writes).
Definition set_icache (v : list inode) (r : fsstate) : fsstate :=
  mkfs r.(bufs) r.(blru) r.(log) r.(sb) v r.(disk) r.(disksize) r.(writes).
Definition set_disk (v : Z → list Z) (r : fsstate) : fsstate :=
  mkfs r.(bufs) r.(blru) r.(log) r.(sb) r.(icache) v r.(disksize) r.(writes).
Definition set_disksize (v : Z) (r : fsstate) : fsstate :=
  mkfs r.(bufs) r.(blru) r.(log) r.(sb) r.(icache) r.(disk) v r.(writes).
Definition set_writes (v : list (Z * list Z)) (r : fsstate) : fsstate :=
  mkfs r.(bufs) r.(blru) r.(log) r.(sb) r.(icache) r.(disk) r.(disksize) v.

(** The input buffer of [console.c]. *)
Record input_t : Type := mkinput {
  in_buf : list Z;
  in_r : Z;
  in_w : Z;
  in_e : Z
}.
Definition set_in_buf (v : list Z) (r : input_t) : input_t :=
  mkinput v r.(in_r) r.(in_w) r.(in_e).
Definition set_in_r (v : Z) (r : input_t) : input_t :=
  mkinput r.(in_buf) v r.(in_w) r.(in_e).
Definition set_in_w (v : Z) (r : input_t) : input_t :=
  mkinput r.(in_buf) r.(in_r) v r.(in_e).
Definition set_in_e (v : Z) (r : input_t) : input_t :=
  mkinput r.(in_buf) r.(in_r) r.(in_w) v.

(** ** Leaving the kernel

    The two assembly routines that enter user mode and never return, with the
    arguments the C code passes. *)
Inductive ujump : Type :=
| JmpToHandler (handlerptr cs eflag esp ss : Z)
| RestoreUser (edi esi ebp oesp ebx edx ecx eax gs fs es ds eip cs eflag esp ss : Z).

(** ** The kernel state

    [mem] is the memory seen through the current page table.  [curproc] is
    [mycpu()->proc].  [held] lists the spin locks this CPU holds, the last
    acquired first; its length is [mycpu()->ncli] (see [Spinlock.v]).
    [intena] is [mycpu()->intena] while a lock is held, and the interrupt flag
    of the CPU while none is.  [freelist], [use_lock] are the fields of
    [kmem]; [kend], [trapret] and [forkret_addr] are the addresses of the linker
    symbol [end] and of the routines [trapret] and [forkret].  [cr3] and
    [esp0] are the page table register and the stack pointer in the task
    state segment; [kpgdir] is the kernel's own page table.  [cons_out] is the text written
    to the console, oldest first.  [pipes] holds the pipes by page address;
    [fs] is the file system and [input] the console's input buffer. *)

(** The state one CPU executes kernel code in. *)
Record kstate : Type := mkk {
  mem : memory;
  pt : list proc;
  nextpid : Z;
  initproc : option nat;
  curproc : option nat;
  held : list lockid;
  intena : bool;
  ticks : Z;
  freelist : Z;
  use_lock : bool;
  kend : Z;
  trapret : Z;
  forkret_addr : Z;
  cr3 : Z;
  esp0 : Z;
  kpgdir : Z;
  cons_locking : bool;
  cons_out : list Z;
  ftable : list file;
  pipes : gmap Z pipe;
  forkret_first : bool;
  fs : fsstate;
  input : input_t
}.
Definition set_mem (v : memory) (r : kstate) : kstate :=
  mkk v r.(pt) r.(nextpid) r.(initproc) r.(curproc) r.(held) r.(intena) r.(ticks) r.(freelist) r.(use_lock) r.(kend) r.(trapret) r.(forkret_addr) r.(cr3) r.(esp0) r.(kpgdir) r.(cons_locking) r.(cons_out) r.(ftable) r.(pipes) r.(forkret_first) r.(fs) r.(input).
Definition set_pt (v : list proc) (r : kstate) : kstate :=
  mkk r.(mem) v r.(nextpid) r.(initproc) r.(curproc) r.(held) r.(intena) r.(ticks) r.(freelist) r.(use_lock) r.(kend) r.(trapret) r.(forkret_addr) r.(cr3) r.(esp0) r.(kpgdir) r.(cons_locking) r.(cons_out) r.(ftable) r.(pipes) r.(forkret_first) r.(fs) r.(input).
Definition set_nextpid (v : Z) (r : kstate) : kstate :=
  mkk r.(mem) r.(pt) v r.(initproc) r.(curproc) r.(held) r.(intena) r.(ticks) r.(freelist) r.(use_lock) r.(kend) r.(trapret) r.(forkret_addr) r.(cr3) r.(esp0) r.(kpgdir) r.(cons_locking) r.(cons_out) r.(ftable) r.(pipes) r.(forkret_first) r.(fs) r.(input).
Definition set_initproc (v : option nat) (r : kstate) : kstate :=
  mkk r.(mem) r.(pt) r.(nextpid) v r.(curproc) r.(held) r.(intena) r.(ticks) r.(freelist) r.(use_lock) r.(kend) r.(trapret) r.(forkret_addr) r.(cr3) r.(esp0) r.(kpgdir) r.(cons_locking) r.(cons_out) r.(ftable) r.(pipes) r.(forkret_first) r.(fs) r.(input).
Definition set_curproc (v : option nat) (r : kstate) : kstate :=
  mkk r.(mem) r.(pt) r.(nextpid) r.(initproc) v r.(held) r.(intena) r.(ticks) r.(freelist) r.(use_lock) r.(kend) r.(trapret) r.(forkret_addr) r.(cr3) r.(esp0) r.(kpgdir) r.(cons_locking) r.(cons_out) r.(ftable) r.(pipes) r.(forkret_first) r.(fs) r.(input).
Definition set_held (v : list lockid) (r : kstate) : kstate :=
  mkk r.(mem) r.(pt) r.(nextpid) r.(initproc) r.(curproc) v r.(intena) r.(ticks) r.(freelist) r.(use_lock) r.(kend) r.(trapret) r.(forkret_addr) r.(cr3) r.(esp0) r.(kpgdir) r.(cons_locking) r.(cons_out) r.(ftable) r.(pipes) r.(forkret_first) r.(fs) r.(input).
Definition set_intena (v : bool) (r : kstate) : kstate :=
  mkk r.(mem) r.(pt) r.(nextpid) r.(initproc) r.(curproc) r.(held) v r.(ticks) r.(freelist) r.(use_lock) r.(kend) r.(trapret) r.(forkret_addr) r.(cr3) r.(esp0) r.(kpgdir) r.(cons_locking) r.(cons_out) r.(ftable) r.(pipes) r.(forkret_first) r.(fs) r.(input).
Definition set_ticks (v : Z) (r : kstate) : kstate :=
  mkk r.(mem) r.(pt) r.(nextpid) r.(initproc) r.(curproc) r.(held) r.(intena) v r.(freelist) r.(use_lock) r.(kend) r.(trapret) r.(forkret_addr) r.(cr3) r.(esp0) r.(kpgdir) r.(cons_locking) r.(cons_out) r.(ftable) r.(pipes) r.(forkret_first) r.(fs) r.(input).
Definition set_freelist (v : Z) (r : kstate) : kstate :=
  mkk r.(mem) r.(pt) r.(nextpid) r.(initproc) r.(curproc) r.(held) r.(intena) r.(ticks) v r.(use_lock) r.(kend) r.(trapret) r.(forkret_addr) r.(cr3) r.(esp0) r.(kpgdir) r.(cons_locking) r.(cons_out) r.(ftable) r.(pipes) r.(forkret_first) r.(fs) r.(input).
Definition set_use_lock (v : bool) (r : kstate) : kstate :=
  mkk r.(mem) r.(pt) r.(nextpid) r.(initproc) r.(curproc) r.(held) r.(intena) r.(ticks) r.(freelist) v r.(kend) r.(trapret) r.(forkret_addr) r.(cr3) r.(esp0) r.(kpgdir) r.(cons_locking) r.(cons_out) r.(ftable) r.(pipes) r.(forkret_first) r.(fs) r.(input).
Definition set_kend (v : Z) (r : kstate) : kstate :=
  mkk r.(mem) r.(pt) r.(nextpid) r.(initproc) r.(curproc) r.(held) r.(intena) r.(ticks) r.(freelist) r.(use_lock) v r.(trapret) r.(forkret_addr) r.(cr3) r.(esp0) r.(kpgdir) r.(cons_locking) r.(cons_out) r.(ftable) r.(pipes) r.(forkret_first) r.(fs) r.(input).
Definition set_trapret (v : Z) (r : kstate) : kstate :=
  mkk r.(mem) r.(pt) r.(nextpid) r.(initproc) r.(curproc) r.(held) r.(intena) r.(ticks) r.(freelist) r.(use_lock) r.(kend) v r.(forkret_addr) r.(cr3) r.(esp0) r.(kpgdir) r.(cons_locking) r.(cons_out) r.(ftable) r.(pipes) r.(forkret_first) r.(fs) r.(input).
Definition set_forkret_addr (v : Z) (r : kstate) : kstate :=
  mkk r.(mem) r.(pt) r.(nextpid) r.(initproc) r.(curproc) r.(held) r.(intena) r.(ticks) r.(freelist) r.(use_lock) r.(kend) r.(trapret) v r.(cr3) r.(esp0) r.(kpgdir) r.(cons_locking) r.(cons_out) r.(ftable) r.(pipes) r.(forkret_first) r.(fs) r.(input).
Definition set_cr3 (v : Z) (r : kstate) : kstate :=
  mkk r.(mem) r.(pt) r.(nextpid) r.(initproc) r.(curproc) r.(held) r.(intena) r.(ticks) r.(freelist) r.(use_lock) r.(kend) r.(trapret) r.(forkret_addr) v r.(esp0) r.(kpgdir) r.(cons_locking) r.(cons_out) r.(ftable) r.(pipes) r.(forkret_first) r.(fs) r.(input).
Definition set_esp0 (v : Z) (r : kstate) : kstate :=
  mkk r.(mem) r.(pt) r.(nextpid) r.(initproc) r.(curproc) r.(held) r.(intena) r.(ticks) r.(freelist) r.(use_lock) r.(kend) r.(trapret) r.(forkret_addr) r.(cr3) v r.(kpgdir) r.(cons_locking) r.(cons_out) r.(ftable) r.(pipes) r.(forkret_first) r.(fs) r.(input).
Definition set_kpgdir (v : Z) (r : kstate) : kstate :=
  mkk r.(mem) r.(pt) r.(nextpid) r.(initproc) r.(curproc) r.(held) r.(intena) r.(ticks) r.(freelist) r.(use_lock) r.(kend) r.(trapret) r.(forkret_addr) r.(cr3) r.(esp0) v r.(cons_locking) r.(cons_out) r.(ftable) r.(pipes) r.(forkret_first) r.(fs) r.(input).
Definition set_cons_locking (v : bool) (r : kstate) : kstate :=
  mkk r.(mem) r.(pt) r.(nextpid) r.(initproc) r.(curproc) r.(held) r.(intena) r.(ticks) r.(freelist) r.(use_lock) r.(kend) r.(trapret) r.(forkret_addr) r.(cr3) r.(esp0) r.(kpgdir) v r.(cons_out) r.(ftable) r.(pipes) r.(forkret_first) r.(fs) r.(input).
Definition set_cons_out (v : list Z) (r : kstate) : kstate :=
  mkk r.(mem) r.(pt) r.(nextpid) r.(initproc) r.(curproc) r.(held) r.(intena) r.(ticks) r.(freelist) r.(use_lock) r.(kend) r.(trapret) r.(forkret_addr) r.(cr3) r.(esp0) r.(kpgdir) r.(cons_locking) v r.(ftable) r.(pipes) r.(forkret_first) r.(fs) r.(input).
Definition set_ftable (v : list file) (r : kstate) : kstate :=
  mkk r.(mem) r.(pt) r.(nextpid) r.(initproc) r.(curproc) r.(held) r.(intena) r.(ticks) r.(freelist) r.(use_lock) r.(kend) r.(trapret) r.(forkret_addr) r.(cr3) r.(esp0) r.(kpgdir) r.(cons_locking) r.(cons_out) v r.(pipes) r.(forkret_first) r.(fs) r.(input).
Definition set_pipes (v : gmap Z pipe) (r : kstate) : kstate :=
  mkk r.(mem) r.(pt) r.(nextpid) r.(initproc) r.(curproc) r.(held) r.(intena) r.(ticks) r.(freelist) r.(use_lock) r.(kend) r.(trapret) r.(forkret_addr) r.(cr3) r.(esp0) r.(kpgdir) r.(cons_locking) r.(cons_out) r.(ftable) v r.(forkret_first) r.(fs) r.(input).
Definition set_forkret_first (v : bool) (r : kstate) : kstate :=
  mkk r.(mem) r.(pt) r.(nextpid) r.(initproc) r.(curproc) r.(held) r.(intena) r.(ticks) r.(freelist) r.(use_lock) r.(kend) r.(trapret) r.(forkret_addr) r.(cr3) r.(esp0) r.(kpgdir) r.(cons_locking) r.(cons_out) r.(ftable) r.(pipes) v r.(fs) r.(input).
Definition set_fs (v : fsstate) (r : kstate) : kstate :=
  mkk r.(mem) r.(pt) r.(nextpid) r.(initproc) r.(curproc) r.(held) r.(intena) r.(ticks) r.(freelist) r.(use_lock) r.(kend) r.(trapret) r.(forkret_addr) r.(cr3) r.(esp0) r.(kpgdir) r.(cons_locking) r.(cons_out) r.(ftable) r.(pipes) r.(forkret_first) v r.(input).
Definition set_input (v : input_t) (r : kstate) : kstate :=
  mkk r.(mem) r.(pt) r.(nextpid) r.(initproc) r.(curproc) r.(held) r.(intena) r.(ticks) r.(freelist) r.(use_lock) r.(kend) r.(trapret) r.(forkret_addr) r.(cr3) r.(esp0) r.(kpgdir) r.(cons_locking) r.(cons_out) r.(ftable) r.(pipes) r.(forkret_first) r.(fs) v.

Notation M := (prog kstate ujump).

(** Zero-initialised static storage. *)
Definition tf0 : trapframe := mktf 0 0 0 0 0 0 0 0 0 0 0 0 0 0 0 0 0 0 0.
Definition ctx0 : context := mkctx 0 0 0 0 0.
Definition hi0 : handlerinfo := mkhi 0 0.
Definition proc0 : proc :=
  mkproc 0 0 0 UNUSED 0 None 0 tf0 0 ctx0 NOCHAN 0 (replicate NOFILE None) None
    (replicate 16 0) 0 0 0 (replicate NUMSIG hi0) 0 0.
Definition file0 : file := mkfile FD_NONE 0 0 0 0 None 0.
Definition slk0 : sleeplock := mkslk 0 0.
Definition buf0 : buf := mkbuf 0 0 0 slk0 0 (replicate BSIZE 0).
Definition inode0 : inode := mkinode 0 0 0 slk0 0 0 0 0 0 0 (replicate 13 0).
Definition fs0 : fsstate :=
  mkfs (replicate NBUF buf0) (rev (seq 0 NBUF)) (mklog 0 0 0 0 0 0 (replicate LOGSIZE 0))
    (mksb 0 0 0 0 0 0 0) (replicate NINODE inode0) (fun _ => replicate BSIZE 0) 0 [].
Definition kstate0 : kstate :=
  mkk (fun _ => 0) (replicate NPROC proc0) 1 None None [] true 0 0 false 0 0 0 0 0 0 true []
    (replicate NFILE file0) ∅ true fs0 (mkinput (replicate INPUT_BUF 0) 0 0 0).

#[global] Instance proc_inhabited : Inhabited proc := populate proc0.
#[global] Instance handlerinfo_inhabited : Inhabited handlerinfo := populate hi0.
#[global] Instance file_inhabited : Inhabited file := populate file0.
#[global] Instance buf_inhabited : Inhabited buf := populate buf0.
#[global] Instance inode_inhabited : Inhabited inode := populate inode0.

(** ** Access to the process table *)

Definition get_proc (i : nat) (s : kstate) : proc := s.(pt) !!! i.
Definition put_proc (i : nat) (p : proc) (s : kstate) : kstate :=
  set_pt (<[i := p]> s.(pt)) s.

Definition getp (i : nat) : M proc := get (get_proc i).
Definition modp (i : nat) (f : proc → proc) : M unit :=
  modify (fun s => put_proc i (f (get_proc i s)) s).

(** The indices [0 .. NPROC-1], the order in which the kernel scans the table. *)
Definition all_procs : list nat := seq 0 NPROC.

Definition myproc : M (option nat) := get curproc.

Definition wf_table (s : kstate) : Prop := length s.(pt) = NPROC.

Lemma get_put_same i p s : (i < length s.(pt))%nat → get_proc i (put_proc i p s) = p.
Proof. intros H. unfold get_proc. simpl. by apply list_lookup_total_insert_eq. Qed.

Lemma get_put_ne i j p s : i ≠ j → get_proc j (put_proc i p s) = get_proc j s.
Proof. intros H. unfold get_proc. simpl. by apply list_lookup_total_insert_ne. Qed.

Lemma put_put i p q s : put_proc i q (put_proc i p s) = put_proc i q s.
Proof. unfold put_proc. simpl. by rewrite list_insert_insert_eq. Qed.

Lemma length_put i p s : length (put_proc i p s).(pt) = length s.(pt).
Proof. simpl. apply length_insert. Qed.

Lemma put_get i s : put_proc i (get_proc i s) s = s.
Proof.
  unfold put_proc, get_proc. destruct s as [m l]; cbv [set_pt pt]. simpl.
  f_equal. destruct (decide (i < length l)%nat).
  - apply list_insert_id. by apply list_lookup_lookup_total_lt.
  - by apply list_insert_ge; lia.
Qed.

Lemma put_ge i p s : (length s.(pt) <= i)%nat → put_proc i p s = s.
Proof. intros H. unfold put_proc. destruct s as [m l]; unfold set_pt; simpl in *.
  by rewrite list_insert_ge. Qed.

Lemma get_proc_map (f : proc → proc) i s : (i < length s.(pt))%nat →
  get_proc i (set_pt (f <$> s.(pt)) s) = f (get_proc i s).
Proof.
  intros H. unfold get_proc. simpl. rewrite !list_lookup_total_alt, list_lookup_fmap.
  by destruct (lookup_lt_is_Some_2 _ _ H) as [p ->].
Qed.

Lemma elem_of_all_procs i : i ∈ all_procs ↔ (i < NPROC)%nat.
Proof. unfold all_procs. rewrite elem_of_seq. lia. Qed.

Create Rewrite HintDb kstate.
#[export] Hint Rewrite put_put put_get length_put : kstate.

(** ** A concrete machine

    Used to instantiate the theorems: [init] in the first entry of the table,
    the running user process 2 in the second, a sleeping process 3 in the
    third. *)

Definition demo_tf : trapframe :=
  mktf 1 2 3 4 5 6 7 8 35 35 35 35 64 0 4096 27 512 12288 35.

Definition demo_proc (pid : Z) (st : procstate) : proc :=
  set_p_pid pid (set_p_state st (set_p_tf demo_tf
    (set_p_kstack 2148532224 (set_p_pgdir 2148536320 (set_p_sz 16384 proc0))))).

Definition demo : kstate :=
  set_curproc (Some 1%nat) (set_initproc (Some 0%nat) (set_nextpid 4
    (set_pt ([demo_proc 1 SLEEPING; demo_proc 2 RUNNING; demo_proc 3 SLEEPING]
             ++ replicate 61 proc0) kstate0))).
