(* ===== verification/Locks.v ===== *)
(** * Spin locks as the rest of the kernel uses them

    The lock operations on [kstate]: a CPU owns a list of locks; acquiring a
    lock it already owns and releasing one it does not own panic.  The
    operations of [spinlock.c] with their per-CPU counters and flags are in
    [Spinlock.v], which proves that they implement this behaviour. *)

From stdpp Require Import base numbers option list sets strings.
From Stdlib Require Import ZArith Lia.
From S2P Require Import Prelude State.

Definition drop_lock (l : lockid) (ls : list lockid) : list lockid :=
  filter (fun x => x ≠ l) ls.

Definition holding (l : lockid) : M bool := get (fun s => bool_decide (l ∈ s.(held))).

Definition acquire (l : lockid) : M unit :=
  h <- holding l;;
  if h then panic "acquire" else modify (fun s => set_held (l :: s.(held)) s).

Definition release (l : lockid) : M unit :=
  h <- holding l;;
  if negb h then panic "release" else modify (fun s => set_held (drop_lock l s.(held)) s).

(** [mycpu()->ncli]: every held lock accounts for one [pushcli]. *)
Definition ncli (s : kstate) : Z := Z.of_nat (length s.(held)).

(** [readeflags() & FL_IF]. *)
Definition intr_enabled (s : kstate) : bool :=
  match s.(held) with [] => s.(intena) | _ => false end.

Lemma drop_lock_cons l ls : l ∉ ls → drop_lock l (l :: ls) = ls.
Proof.
  intros H. unfold drop_lock. rewrite filter_cons_False by (intros ?; done).
  induction ls as [|x ls IH]; [done|].
  rewrite filter_cons_True by (intros ->; apply H; by left).
  f_equal. apply IH. intros ?. apply H. by right.
Qed.

Lemma drop_lock_absent l ls : l ∉ ls → drop_lock l ls = ls.
Proof.
  intros H. induction ls as [|x ls IH]; [done|]. unfold drop_lock.
  rewrite filter_cons_True by (intros ->; apply H; by left).
  f_equal. apply IH. intros ?. apply H. by right.
Qed.

Lemma acquire_free l s : l ∉ s.(held) →
  acquire l s = Ret () (set_held (l :: s.(held)) s).
Proof.
  intros H. unfold acquire, holding, bind, get. simpl.
  by rewrite bool_decide_eq_false_2.
Qed.

Lemma acquire_held l s : l ∈ s.(held) → acquire l s = Panic "acquire" s.
Proof.
  intros H. unfold acquire, holding, bind, get. simpl.
  by rewrite bool_decide_eq_true_2.
Qed.

Lemma release_head l ls s : s.(held) = l :: ls → l ∉ ls →
  release l s = Ret () (set_held ls s).
Proof.
  intros H Hl. unfold release, holding, bind, get, modify. simpl.
  rewrite bool_decide_eq_true_2 by (rewrite H; by left). simpl.
  by rewrite H, drop_lock_cons.
Qed.

Lemma release_not_held l s : l ∉ s.(held) → release l s = Panic "release" s.
Proof.
  intros H. unfold release, holding, bind, get. simpl.
  by rewrite bool_decide_eq_false_2.
Qed.

(** A critical section: a body that runs with the lock added on top of the
    locks held and gives it back leaves the lock set as it found it. *)
Lemma locked_section {A B} l (body : M A) (f : A → B) s a s' :
  l ∉ s.(held) →
  body (set_held (l :: s.(held)) s) = Ret a s' →
  s'.(held) = l :: s.(held) →
  (acquire l;; x <- body;; release l;; ret (f x)) s = Ret (f a) (set_held s.(held) s').
Proof.
  intros Hl Hb Hh. rewrite (bind_returns _ _ _ _ _ (acquire_free l s Hl)).
  rewrite (bind_returns _ _ _ _ _ Hb).
  by rewrite (bind_returns _ _ _ _ _ (release_head l _ s' Hh Hl)).
Qed.


(** ** Symbolic execution

    [kstep] performs the next primitive of a kernel computation: state
    access, lock operations on locks whose status is known, conditional
    statements with a known condition. *)

Lemma modp_run i f s :
  modp i f s = Ret () (put_proc i (f (get_proc i s)) s).
Proof. done. Qed.

Lemma bind_myproc {B} (k : option nat → M B) s : bind myproc k s = k s.(curproc) s.
Proof. done. Qed.

Lemma bind_getp {B} i (k : proc → M B) s : bind (getp i) k s = k (get_proc i s) s.
Proof. done. Qed.

Lemma bind_modp {B} i f (k : unit → M B) s :
  bind (modp i f) k s = k () (put_proc i (f (get_proc i s)) s).
Proof. done. Qed.

(** Updates of the entry of one process collapse. *)
Lemma bind_modp_put {B} i f p (k : unit → M B) s : (i < length s.(pt))%nat →
  bind (modp i f) k (put_proc i p s) = k () (put_proc i (f p) s).
Proof. intros H. by rewrite bind_modp, get_put_same, put_put. Qed.

Lemma bind_getp_put {B} i p (k : proc → M B) s : (i < length s.(pt))%nat →
  bind (getp i) k (put_proc i p s) = k p (put_proc i p s).
Proof. intros H. by rewrite bind_getp, get_put_same. Qed.

Lemma bind_getp_put_ne {B} i j p (k : proc → M B) s : i ≠ j →
  bind (getp i) k (put_proc j p s) = k (get_proc i s) (put_proc j p s).
Proof. intros H. by rewrite bind_getp, get_put_ne. Qed.

Lemma modify_run {S J} (f : S → S) s : modify (J := J) f s = Ret () (f s).
Proof. done. Qed.

Ltac solve_lock := simpl; first [assumption | set_solver].

Ltac kstep :=
  match goal with
  | |- context [bind (get ?f) ?k ?s] => rewrite (bind_get f k s)
  | |- context [bind (modify ?f) ?k ?s] => rewrite (bind_modify f k s)
  | |- context [bind (ret ?a) ?k ?s] => rewrite (bind_ret_l a k s)
  | |- context [bind (acquire ?l) ?k ?s] =>
    rewrite (bind_returns (acquire l) k s _ _ (acquire_free l s ltac:(solve_lock)))
  | |- context [bind (release ?l) ?k ?s] =>
    rewrite (bind_returns (release l) k s _ _ (release_head l _ s eq_refl ltac:(solve_lock)))
  | |- context [release ?l ?s] =>
    rewrite (release_head l _ s eq_refl ltac:(solve_lock))
  | |- context [when true ?m] => change (when true m) with m
  | |- context [when false ?m] => change (when false m) with (ret (S := kstate) (J := ujump) ())
  | |- context [bind myproc ?k ?s] => rewrite (bind_myproc k s)
  | |- context [bind (getp ?i) ?k ?s] => rewrite (bind_getp i k s)
  | |- context [bind (modp ?i ?f) ?k ?s] => rewrite (bind_modp i f k s)
  | |- context [modp ?i ?f ?s] => rewrite (modp_run i f s)
  | |- context [modify ?f ?s] => rewrite (modify_run f s)
  end.

Ltac ksteps := cbn beta; repeat (kstep; cbn beta).

(** A primitive whose result is given by the equation [H]. *)
Tactic Notation "kcall" constr(H) := rewrite (bind_returns _ _ _ _ _ H).

Lemma release_mem l s : l ∈ s.(held) →
  release l s = Ret () (set_held (drop_lock l s.(held)) s).
Proof.
  intros H. unfold release, holding, bind, get, modify. simpl.
  by rewrite bool_decide_eq_true_2.
Qed.

(** ** [getcallerpcs] of [spinlock.c] *)

(** At most [n] saved program counters along the %ebp chain, then zeros. *)
Fixpoint callerpcs (n : nat) (m : memory) (ebp : Z) : list Z :=
  match n with
  | O => []
  | S n' =>
    if (ebp =? 0) || (ebp <? KERNBASE) || (ebp =? 4294967295) then replicate n 0
    else load32 m (u32 (ebp + 4)) :: callerpcs n' m (load32 m ebp)
  end.

Definition getcallerpcs (m : memory) (v : Z) : list Z := callerpcs 10 m (u32 (v - 8)).
