(* ===== verification/Spinlock.v ===== *)
(** * Spin locks, [spinlock.c]

    The locks as they are implemented, with the per-CPU counter [ncli], the
    interrupt flag and the atomic exchange, on a machine with any number of
    CPUs whose steps interleave.  The theorems: at most one CPU is between
    [acquire] and [release] of a lock, interrupts are off while a CPU holds a
    lock, and what a CPU sees is the behaviour of [Locks.v]. *)

From stdpp Require Import base numbers option list sets strings relations functions.
From Stdlib Require Import ZArith Lia.
From S2P Require Import Prelude State Locks.

(** [struct spinlock] of [spinlock.h], without the name. *)
Record spinlock : Type := mkspin {
  sl_locked : Z;
  sl_cpu : option nat;
  sl_pcs : list Z
}.

(** The fields of [struct cpu] the locks use, and the CPU's interrupt flag. *)
Record cpu : Type := mkcpu {
  c_ncli : Z;
  c_intena : bool;
  c_if : bool
}.

Record smp : Type := mksmp {
  cpus : nat → cpu;
  locks : lockid → spinlock
}.

Definition SM (A : Type) : Type := prog smp Empty_set A.

Definition set_cpu (c : nat) (x : cpu) (m : smp) : smp := mksmp (<[c := x]> m.(cpus)) m.(locks).
Definition set_lock (l : lockid) (x : spinlock) (m : smp) : smp :=
  mksmp m.(cpus) (<[l := x]> m.(locks)).

(** ** Operations of CPU [c] *)

Definition initlock (l : lockid) : SM unit :=
  modify (fun m => set_lock l (mkspin 0 None (m.(locks) l).(sl_pcs)) m).

Definition pushcli (c : nat) : SM unit :=
  modify (fun m =>
    let x := m.(cpus) c in
    let eflags := x.(c_if) in
    set_cpu c (mkcpu (x.(c_ncli) + 1) (if x.(c_ncli) =? 0 then eflags else x.(c_intena)) false) m).

Definition popcli (c : nat) : SM unit :=
  x <- get (fun m => m.(cpus) c);;
  if x.(c_if) then panic "popcli - interruptible" else
  let n := x.(c_ncli) - 1 in
  modify (set_cpu c (mkcpu n x.(c_intena) x.(c_if)));;
  if n <? 0 then panic "popcli" else
  when ((n =? 0) && x.(c_intena)) (modify (set_cpu c (mkcpu n x.(c_intena) true))).

Definition holding_on (c : nat) (l : lockid) : SM bool :=
  pushcli c;;
  r <- get (fun m => truthy (m.(locks) l).(sl_locked)
                     && bool_decide ((m.(locks) l).(sl_cpu) = Some c));;
  popcli c;;
  ret r.

(** [xchg(&lk->locked, 1)] *)
Definition xchg_locked (l : lockid) : SM Z :=
  v <- get (fun m => (m.(locks) l).(sl_locked));;
  modify (fun m => set_lock l (mkspin 1 (m.(locks) l).(sl_cpu) (m.(locks) l).(sl_pcs)) m);;
  ret v.

(** [acquire] up to its loop. *)
Definition acquire_begin (c : nat) (l : lockid) : SM unit :=
  pushcli c;;
  h <- holding_on c l;;
  if (h : bool) then panic "acquire" else ret ().

(** [acquire] after its loop; [pcs] is the call stack. *)
Definition acquire_end (c : nat) (pcs : list Z) (l : lockid) : SM unit :=
  modify (fun m => set_lock l (mkspin (m.(locks) l).(sl_locked) (Some c) pcs) m).

Fixpoint spin (fuel : nat) (l : lockid) : SM unit :=
  match fuel with
  | O => fun m => Stuck m
  | S fuel => v <- xchg_locked l;; if v =? 0 then ret () else spin fuel l
  end.

Definition acquire_on (fuel c : nat) (pcs : list Z) (l : lockid) : SM unit :=
  acquire_begin c l;; spin fuel l;; acquire_end c pcs l.

(** [release] up to the barrier. *)
Definition release_begin (c : nat) (l : lockid) : SM unit :=
  h <- holding_on c l;;
  if negb h then panic "release" else
  modify (fun m => let x := m.(locks) l in
                   set_lock l (mkspin x.(sl_locked) None (<[0%nat := 0]> x.(sl_pcs))) m).

(** The store that frees the lock. *)
Definition release_end (c : nat) (l : lockid) : SM unit :=
  modify (fun m => let x := m.(locks) l in set_lock l (mkspin 0 x.(sl_cpu) x.(sl_pcs)) m);;
  popcli c.

Definition release_on (c : nat) (l : lockid) : SM unit := release_begin c l;; release_end c l.

(** ** Interleaved execution *)

(** Where a CPU is: in ordinary code, spinning for a lock, after the exchange
    that won it, or before the store that frees it. *)
Inductive phase : Type :=
| Running
| Spinning (l : lockid)
| Won (l : lockid)
| Freeing (l : lockid).

(** The machine, the phase of each CPU and, as ghost state, the locks each CPU
    has acquired and not yet freed. *)
Record config : Type := mkconfig {
  cf_m : smp;
  cf_ph : nat → phase;
  cf_hold : nat → list lockid
}.

Inductive spin_step : config → config → Prop :=
| st_acquire c l m m' ph h : ph c = Running → acquire_begin c l m = Ret () m' →
    spin_step (mkconfig m ph h) (mkconfig m' (<[c := Spinning l]> ph) h)
| st_busy c l v m m' ph h : ph c = Spinning l → xchg_locked l m = Ret v m' → v ≠ 0 →
    spin_step (mkconfig m ph h) (mkconfig m' ph h)
| st_win c l m m' ph h : ph c = Spinning l → xchg_locked l m = Ret 0 m' →
    spin_step (mkconfig m ph h) (mkconfig m' (<[c := Won l]> ph) h)
| st_acquired c l pcs m m' ph h : ph c = Won l → acquire_end c pcs l m = Ret () m' →
    spin_step (mkconfig m ph h)
      (mkconfig m' (<[c := Running]> ph) (<[c := l :: h c]> h))
| st_release c l m m' ph h : ph c = Running → release_begin c l m = Ret () m' →
    spin_step (mkconfig m ph h) (mkconfig m' (<[c := Freeing l]> ph) h)
| st_released c l m m' ph h : ph c = Freeing l → release_end c l m = Ret () m' →
    spin_step (mkconfig m ph h)
      (mkconfig m' (<[c := Running]> ph) (<[c := drop_lock l (h c)]> h))
| st_flag c b m ph h : ph c = Running → (m.(cpus) c).(c_ncli) = 0 →
    spin_step (mkconfig m ph h)
      (mkconfig (set_cpu c (mkcpu 0 (m.(cpus) c).(c_intena) b) m) ph h).

(** All locks free, no CPU holds any. *)
Definition config0 : config :=
  mkconfig (mksmp (fun _ => mkcpu 0 false true) (fun _ => mkspin 0 None [])) (fun _ => Running)
    (fun _ => []).

(** ** What the operations do to the CPU *)

(** [m'] is [m] with the record [x] for CPU [c]. *)
Definition with_cpu (c : nat) (x : cpu) (m m' : smp) : Prop :=
  m'.(locks) = m.(locks) ∧ ∀ c', m'.(cpus) c' = if decide (c' = c) then x else m.(cpus) c'.

Lemma set_cpu_with c x m : with_cpu c x m (set_cpu c x m).
Proof.
  split; [done|]. intros c'. unfold set_cpu. simpl. case_decide as E.
  - subst. by rewrite fn_lookup_insert.
  - by rewrite fn_lookup_insert_ne.
Qed.

Lemma with_cpu_same c x m m' : with_cpu c x m m' → m'.(cpus) c = x.
Proof. intros [_ H]. rewrite H. by rewrite decide_True. Qed.

Lemma with_cpu_trans c x y m m1 m2 : with_cpu c x m m1 → with_cpu c y m1 m2 → with_cpu c y m m2.
Proof.
  intros [H1 H2] [H3 H4]. split; [by rewrite H3|]. intros c'. rewrite H4, H2. by case_decide.
Qed.

(** The interrupt flag the CPU gets back when it has released everything. *)
Definition eff_intena (x : cpu) : bool := if x.(c_ncli) =? 0 then x.(c_if) else x.(c_intena).

Lemma eff_intena_ne x : x.(c_ncli) ≠ 0 → eff_intena x = x.(c_intena).
Proof. intros H. unfold eff_intena. by destruct (Z.eqb_spec (c_ncli x) 0). Qed.

Lemma pushcli_run c m : ∃ m', pushcli c m = Ret () m'
  ∧ with_cpu c (mkcpu ((m.(cpus) c).(c_ncli) + 1) (eff_intena (m.(cpus) c)) false) m m'.
Proof. eexists. split; [done|]. apply set_cpu_with. Qed.

Lemma popcli_run c m : let x := m.(cpus) c in x.(c_if) = false → 0 < x.(c_ncli) →
  ∃ m', popcli c m = Ret () m'
  ∧ with_cpu c (mkcpu (x.(c_ncli) - 1) x.(c_intena) ((x.(c_ncli) =? 1) && x.(c_intena))) m m'.
Proof.
  intros x Hif Hn. unfold popcli. rewrite bind_get. fold x. rewrite Hif, bind_modify.
  destruct (Z.ltb_spec (c_ncli x - 1) 0); [lia|].
  replace (c_ncli x - 1 =? 0) with (c_ncli x =? 1) by lia.
  destruct ((c_ncli x =? 1) && c_intena x); eexists; (split; [done|]).
  - eapply with_cpu_trans; apply set_cpu_with.
  - apply set_cpu_with.
Qed.

(** A CPU between operations: interrupts are off while it holds locks. *)
Definition cpu_ok (x : cpu) : Prop := 0 <= x.(c_ncli) ∧ (x.(c_ncli) ≠ 0 → x.(c_if) = false).

Definition held_by (c : nat) (l : lockid) (m : smp) : bool :=
  truthy (m.(locks) l).(sl_locked) && bool_decide ((m.(locks) l).(sl_cpu) = Some c).

(** [holding] changes nothing but the saved flag of a CPU without locks. *)
Lemma holding_on_run c l m : let x := m.(cpus) c in cpu_ok x →
  ∃ m', holding_on c l m = Ret (held_by c l m) m'
  ∧ with_cpu c (mkcpu x.(c_ncli) (eff_intena x) x.(c_if)) m m'.
Proof.
  intros x [Hn Hif]. unfold holding_on.
  destruct (pushcli_run c m) as (m1 & E1 & H1). kcall E1. rewrite bind_get.
  pose proof (with_cpu_same _ _ _ _ H1) as Hx1. fold x in Hx1, H1.
  destruct (popcli_run c m1) as (m2 & E2 & H2);
    [by rewrite Hx1|rewrite Hx1; simpl; lia|].
  kcall E2. exists m2. split; [unfold held_by; by rewrite (proj1 H1)|].
  eapply with_cpu_trans; [exact H1|]. rewrite Hx1 in H2. simpl in H2.
  replace (c_ncli x + 1 - 1) with (c_ncli x) in H2 by lia.
  replace ((c_ncli x + 1 =? 1) && eff_intena x) with (c_if x) in H2; [done|].
  unfold eff_intena. destruct (Z.eqb_spec (c_ncli x + 1) 1) as [E|E].
  - by replace (c_ncli x =? 0) with true by lia.
  - replace (c_ncli x =? 0) with false by lia. simpl. apply Hif. lia.
Qed.

Lemma acquire_begin_run c l m : let x := m.(cpus) c in cpu_ok x →
  ∃ m', acquire_begin c l m = (if held_by c l m then Panic "acquire" m' else Ret () m')
  ∧ with_cpu c (mkcpu (x.(c_ncli) + 1) (eff_intena x) false) m m'.
Proof.
  intros x [Hn Hif]. unfold acquire_begin.
  destruct (pushcli_run c m) as (m1 & E1 & H1). kcall E1. fold x in H1.
  pose proof (with_cpu_same _ _ _ _ H1) as Hx1.
  destruct (holding_on_run c l m1) as (m2 & E2 & H2).
  { rewrite Hx1. split; simpl; [lia|done]. }
  kcall E2. exists m2. split.
  - replace (held_by c l m1) with (held_by c l m); [by destruct (held_by c l m)|].
    unfold held_by. by rewrite (proj1 H1).
  - eapply with_cpu_trans; [exact H1|]. rewrite Hx1 in H2.
    by rewrite (eff_intena_ne (mkcpu _ _ false)) in H2 by (simpl; lia).
Qed.

Lemma release_begin_run c l m : let x := m.(cpus) c in cpu_ok x →
  ∃ m1, with_cpu c (mkcpu x.(c_ncli) (eff_intena x) x.(c_if)) m m1
  ∧ release_begin c l m =
    (if held_by c l m
     then Ret () (set_lock l (mkspin (m.(locks) l).(sl_locked) None
                                (<[0%nat := 0]> (m.(locks) l).(sl_pcs))) m1)
     else Panic "release" m1).
Proof.
  intros x Hx. unfold release_begin. destruct (holding_on_run c l m Hx) as (m1 & E1 & H1).
  kcall E1. exists m1. split; [done|]. destruct (held_by c l m); simpl; [|done].
  unfold modify. by rewrite (proj1 H1).
Qed.

(** ** The invariant *)

(** CPU [c] has won the exchange for [l] and not yet freed it. *)
Definition owns (cf : config) (c : nat) (l : lockid) : Prop :=
  l ∈ cf.(cf_hold) c ∨ cf.(cf_ph) c = Won l.

(** [pushcli]s not accounted for by the locks held. *)
Definition extra (p : phase) : Z :=
  match p with Spinning _ | Won _ => 1 | Running | Freeing _ => 0 end.

Record spin_inv (cf : config) : Prop := {
  si_bool : ∀ l, sl_locked (locks (cf_m cf) l) = 0 ∨ sl_locked (locks (cf_m cf) l) = 1;
  si_owner : ∀ l c, owns cf c l → sl_locked (locks (cf_m cf) l) = 1;
  si_unique : ∀ l c c', owns cf c l → owns cf c' l → c = c';
  si_cpu : ∀ l c, sl_cpu (locks (cf_m cf) l) = Some c ↔ l ∈ cf_hold cf c ∧ cf_ph cf c ≠ Freeing l;
  si_fresh : ∀ c l, cf_ph cf c = Spinning l ∨ cf_ph cf c = Won l → l ∉ cf_hold cf c;
  si_free : ∀ c l, cf_ph cf c = Freeing l → l ∈ cf_hold cf c;
  si_nodup : ∀ c, NoDup (cf_hold cf c);
  si_ncli : ∀ c, c_ncli (cpus (cf_m cf) c)
                 = Z.of_nat (length (cf_hold cf c)) + extra (cf_ph cf c);
  si_if : ∀ c, c_ncli (cpus (cf_m cf) c) ≠ 0 → c_if (cpus (cf_m cf) c) = false
}.

Ltac fn_upd := unfold insert, fn_insert in *; simpl in *; repeat case_decide; simpl in *; subst; try done.

Ltac fn_solve := intros; fn_upd; naive_solver.

Lemma spin_cpu_ok cf c : spin_inv cf → cpu_ok (cpus (cf_m cf) c).
Proof.
  intros []. split; [|apply si_if0]. rewrite si_ncli0. destruct (cf_ph cf c); simpl; lia.
Qed.

(** What a CPU sees of a lock is what it has acquired. *)
Lemma held_by_hold cf c l : spin_inv cf → cf_ph cf c ≠ Freeing l →
  held_by c l (cf_m cf) = bool_decide (l ∈ cf_hold cf c).
Proof.
  intros [] Hp. unfold held_by. destruct (decide (l ∈ cf_hold cf c)) as [Hin|Hin].
  - rewrite (si_owner0 l c) by by left. rewrite !bool_decide_eq_true_2; [done|done|].
    by apply si_cpu0.
  - rewrite !(bool_decide_eq_false_2 (l ∈ _)) by done. rewrite bool_decide_eq_false_2.
    + by rewrite andb_false_r.
    + intros [? _]%si_cpu0. done.
Qed.

Lemma inv_acquire c l m m' ph h : spin_inv (mkconfig m ph h) → ph c = Running →
  acquire_begin c l m = Ret () m' → spin_inv (mkconfig m' (<[c := Spinning l]> ph) h).
Proof.
  intros Hinv Hc E. pose proof (spin_cpu_ok _ c Hinv) as Hok. simpl in Hok.
  destruct (acquire_begin_run c l m Hok) as (m1 & E1 & Hl & Hw). rewrite E in E1.
  assert (l ∉ h c) as Hfresh.
  { pose proof (held_by_hold _ c l Hinv ltac:(simpl; by rewrite Hc)) as Hh. simpl in Hh.
    rewrite Hh in E1. by case_bool_decide. }
  assert (m1 = m') as -> by (destruct (held_by c l m); congruence).
  destruct Hinv. unfold owns in *. simpl in *. split; unfold owns; simpl; rewrite ?Hl; try done.
  - fn_solve.
  - fn_solve.
  - intros k d. rewrite si_cpu0. fn_upd. rewrite Hc. naive_solver.
  - fn_solve.
  - fn_solve.
  - intros d. rewrite Hw. fn_upd. rewrite si_ncli0, Hc. simpl. lia.
  - intros d. rewrite Hw. fn_upd. apply si_if0.
Qed.

Lemma inv_busy l v m m' ph h : spin_inv (mkconfig m ph h) →
  xchg_locked l m = Ret v m' → v ≠ 0 → spin_inv (mkconfig m' ph h).
Proof.
  intros [] E Hv. unfold xchg_locked in E. rewrite bind_get, bind_modify in E.
  injection E as Ev <-. simpl in *.
  assert (sl_locked (locks m l) = 1) as H1 by (destruct (si_bool0 l); congruence).
  split; unfold owns in *; simpl in *; try done; intros; fn_upd; eauto.
Qed.

Lemma inv_win c l m m' ph h : spin_inv (mkconfig m ph h) → ph c = Spinning l →
  xchg_locked l m = Ret 0 m' → spin_inv (mkconfig m' (<[c := Won l]> ph) h).
Proof.
  intros Hinv Hc E. unfold xchg_locked in E. rewrite bind_get, bind_modify in E.
  injection E as Ev <-. destruct Hinv. unfold owns in *. simpl in *.
  assert (∀ d, l ∉ h d ∧ ph d ≠ Won l) as Hno.
  { intros d. split; intros Hd; pose proof (si_owner0 l d); rewrite Ev in *; naive_solver. }
  split; unfold owns; simpl.
  - fn_solve.
  - intros k d. fn_upd; naive_solver.
  - intros k d d'. pose proof (Hno d). pose proof (Hno d'). fn_solve.
  - intros k d. fn_upd; rewrite si_cpu0; rewrite ?Hc; naive_solver.
  - intros d k. fn_upd; [|apply si_fresh0]. intros [[=]|[= ->]]. apply Hno.
  - fn_solve.
  - done.
  - intros d. fn_upd. rewrite si_ncli0, Hc. done.
  - done.
Qed.

Lemma inv_acquired c l pcs m m' ph h : spin_inv (mkconfig m ph h) → ph c = Won l →
  acquire_end c pcs l m = Ret () m' →
  spin_inv (mkconfig m' (<[c := Running]> ph) (<[c := l :: h c]> h)).
Proof.
  intros [] Hc E. injection E as <-. unfold owns in *. simpl in *.
  assert (∀ d, l ∈ h d ∨ ph d = Won l → d = c) as Hown.
  { intros d Hd. apply (si_unique0 l d c); [done|by right]. }
  assert (sl_locked (locks m l) = 1) as H1 by (apply (si_owner0 l c); by right).
  assert (l ∉ h c) as Hfresh by (apply si_fresh0; by right).
  split; unfold owns; simpl.
  - fn_solve.
  - intros k d. fn_upd; try (apply si_owner0). rewrite elem_of_cons.
    intros [[->|?]|?]; [done|apply (si_owner0 k d); by left|done].
  - intros k d d'. fn_upd; rewrite ?elem_of_cons; naive_solver.
  - intros k d. fn_upd; rewrite ?si_cpu0, ?elem_of_cons, ?Hc; try naive_solver.
  - fn_solve.
  - fn_solve.
  - intros d. fn_upd. by constructor.
  - intros d. fn_upd. rewrite si_ncli0, Hc. simpl. lia.
  - done.
Qed.

Lemma inv_release c l m m' ph h : spin_inv (mkconfig m ph h) → ph c = Running →
  release_begin c l m = Ret () m' → spin_inv (mkconfig m' (<[c := Freeing l]> ph) h).
Proof.
  intros Hinv Hc E. pose proof (spin_cpu_ok _ c Hinv) as Hok. simpl in Hok.
  pose proof (held_by_hold _ c l Hinv ltac:(simpl; by rewrite Hc)) as Hh. simpl in Hh.
  destruct (release_begin_run c l m Hok) as (m1 & [Hl Hw] & E1). rewrite E, Hh in E1.
  case_bool_decide as Hin; [|done]. injection E1 as ->.
  destruct Hinv. unfold owns in *. simpl in *.
  assert (∀ d, l ∈ h d ∨ ph d = Won l → d = c) as Hown.
  { intros d Hd. apply (si_unique0 l d c); [done|by left]. }
  split; unfold owns; simpl; rewrite ?Hl; try done.
  - fn_solve.
  - intros k d. pose proof (si_owner0 k d). fn_solve.
  - fn_solve.
  - intros k d. fn_upd; rewrite ?si_cpu0, ?Hc; naive_solver.
  - fn_solve.
  - fn_solve.
  - intros d. rewrite Hw. fn_upd. by rewrite si_ncli0, Hc.
  - intros d. rewrite Hw. fn_upd; apply si_if0.
Qed.

Lemma elem_of_drop_lock k l ls : k ∈ drop_lock l ls ↔ k ≠ l ∧ k ∈ ls.
Proof. unfold drop_lock. by rewrite list_elem_of_filter. Qed.

Lemma length_drop_lock l ls : NoDup ls → l ∈ ls → length ls = S (length (drop_lock l ls)).
Proof.
  induction 1 as [|x ls Hx Hnd IH]; intros Hin; [by apply elem_of_nil in Hin|].
  unfold drop_lock. destruct (decide (x = l)) as [->|Hne].
  - rewrite filter_cons_False by (intros H; done). simpl. f_equal.
    pose proof (drop_lock_absent l ls Hx) as Hd. unfold drop_lock in Hd. by rewrite Hd.
  - rewrite filter_cons_True by done. simpl. f_equal. apply IH.
    apply elem_of_cons in Hin as [->|?]; done.
Qed.

Lemma inv_released c l m m' ph h : spin_inv (mkconfig m ph h) → ph c = Freeing l →
  release_end c l m = Ret () m' →
  spin_inv (mkconfig m' (<[c := Running]> ph) (<[c := drop_lock l (h c)]> h)).
Proof.
  intros Hinv Hc E. destruct Hinv. unfold owns in *. simpl in *.
  pose proof (si_free0 c l Hc) as Hin. pose proof (length_drop_lock l (h c) (si_nodup0 c) Hin) as Hlen.
  pose proof (si_ncli0 c) as Hn. rewrite Hc in Hn. simpl in Hn.
  unfold release_end in E. rewrite bind_modify in E. set (m1 := set_lock l _ m) in E.
  destruct (popcli_run c m1) as (m2 & E2 & Hl & Hw); [apply si_if0; simpl; lia|simpl; lia|].
  rewrite E2 in E. injection E as ->.
  assert (∀ d, l ∈ h d ∨ ph d = Won l → d = c) as Hown.
  { intros d Hd. apply (si_unique0 l d c); [done|by left]. }
  split; unfold owns; simpl; rewrite ?Hl; unfold m1; simpl; try done.
  - fn_solve.
  - intros k d. pose proof (si_owner0 k d) as Hk.
    fn_upd; rewrite ?elem_of_drop_lock; naive_solver.
  - intros k d d'. fn_upd; rewrite ?elem_of_drop_lock; naive_solver.
  - intros k d. fn_upd; rewrite ?elem_of_drop_lock, ?si_cpu0, ?Hc; naive_solver.
  - intros d k. fn_upd; naive_solver.
  - intros d k. fn_upd; naive_solver.
  - intros d. fn_upd. by apply list.NoDup_filter.
  - intros d. rewrite Hw. fn_upd. lia.
  - intros d. rewrite Hw. unfold m1. pose proof (si_if0 d). fn_upd.
    intros Hne. by replace (_ =? 1) with false by lia.
Qed.

Lemma inv_flag c b m ph h : spin_inv (mkconfig m ph h) → (m.(cpus) c).(c_ncli) = 0 →
  spin_inv (mkconfig (set_cpu c (mkcpu 0 (m.(cpus) c).(c_intena) b) m) ph h).
Proof.
  intros [] Hn. simpl in *. split; unfold owns in *; simpl; try done.
  - intros d. rewrite <- si_ncli0. fn_upd.
  - intros d. pose proof (si_if0 d). fn_upd.
Qed.

Lemma spin_inv_step cf cf' : spin_step cf cf' → spin_inv cf → spin_inv cf'.
Proof.
  destruct 1; intros Hinv;
    eauto using inv_acquire, inv_busy, inv_win, inv_acquired, inv_release, inv_released, inv_flag.
Qed.

Lemma spin_inv0 : spin_inv config0.
Proof.
  split; unfold owns; simpl; try done; try (intros; apply NoDup_nil_2).
  - by left.
  - intros l c [H|H]; [by apply elem_of_nil in H|done].
  - intros l c c' [H|H]; [by apply elem_of_nil in H|done].
  - intros l c. split; [done|]. intros [H _]. by apply elem_of_nil in H.
  - intros c l [H|H]; done.
Qed.

Lemma spin_inv_reach cf : rtc spin_step config0 cf → spin_inv cf.
Proof.
  intros H. pose proof spin_inv0 as H0. induction H; eauto using spin_inv_step.
Qed.

(** ** Theorems *)

(** C19: However the CPUs interleave, at most one CPU is between the end of
    [acquire] and the end of [release] of a lock; such a CPU runs with
    interrupts off, its [ncli] counts its locks (plus one while it waits for
    another), and [holding] tells it exactly which locks it has. *)
Theorem spinlock_mutual_exclusion cf : rtc spin_step config0 cf →
  (∀ l c c', l ∈ cf_hold cf c → l ∈ cf_hold cf c' → c = c') ∧
  (∀ c l, l ∈ cf_hold cf c → c_if (cpus (cf_m cf) c) = false) ∧
  (∀ c, c_ncli (cpus (cf_m cf) c) = Z.of_nat (length (cf_hold cf c)) + extra (cf_ph cf c)) ∧
  (∀ c l, cf_ph cf c = Running →
     ∃ m', holding_on c l (cf_m cf) = Ret (bool_decide (l ∈ cf_hold cf c)) m').
Proof.
  intros H%spin_inv_reach. split; [|split; [|split]].
  - intros l c c' Hc Hc'. apply (si_unique _ H l); by left.
  - intros c l Hl. apply (si_if _ H). rewrite (si_ncli _ H).
    destruct (cf_hold cf c); [by apply elem_of_nil in Hl|]. simpl.
    destruct (cf_ph cf c); simpl; lia.
  - apply (si_ncli _ H).
  - intros c l Hp. destruct (holding_on_run c l (cf_m cf) (spin_cpu_ok _ c H)) as (m' & E & _).
    rewrite (held_by_hold _ _ _ H) in E by (by rewrite Hp). by exists m'.
Qed.

(** ** Refinement of [Locks.v] *)

(** The view CPU [c] has of the locks. *)
Definition sees (c : nat) (cf : config) (s : kstate) : Prop :=
  s.(held) = cf_hold cf c ∧ s.(intena) = eff_intena (cpus (cf_m cf) c).

(** Steps of [Locks.v]: nothing, a lock acquired or released, or interrupts
    switched on or off without locks. *)
Inductive lock_step (s : kstate) : kstate → Prop :=
| ls_stutter : lock_step s s
| ls_acquire l s' : acquire l s = Ret () s' → lock_step s s'
| ls_release l s' : release l s = Ret () s' → lock_step s s'
| ls_flag b : s.(held) = [] → lock_step s (set_intena b s).

Lemma sees_stutter c cf cf' s : sees c cf s → cf_hold cf' c = cf_hold cf c →
  eff_intena (cpus (cf_m cf') c) = eff_intena (cpus (cf_m cf) c) →
  ∃ s', sees c cf' s' ∧ lock_step s s'.
Proof. intros [H1 H2] E1 E2. exists s. split; [|constructor]. unfold sees. by rewrite E1, E2. Qed.

Lemma with_cpu_eff c d x m m' : with_cpu d x m m' → eff_intena x = eff_intena (cpus m d) →
  eff_intena (cpus m' c) = eff_intena (cpus m c).
Proof. intros [_ H] E. rewrite H. by case_decide; subst. Qed.

Lemma popcli_eff c d m m' : (cpus m d).(c_if) = false → 0 < (cpus m d).(c_ncli) →
  popcli d m = Ret () m' → eff_intena (cpus m' c) = eff_intena (cpus m c).
Proof.
  intros Hif Hn E. destruct (popcli_run d m Hif Hn) as (m1 & E1 & H1).
  rewrite E in E1. injection E1 as <-. apply (with_cpu_eff c d _ _ _ H1).
  unfold eff_intena. simpl. destruct (Z.eqb_spec (c_ncli (cpus m d)) 0); [lia|].
  destruct (Z.eqb_spec (c_ncli (cpus m d)) 1) as [->|]; simpl; [done|].
  by destruct (Z.eqb_spec (c_ncli (cpus m d) - 1) 0); [lia|].
Qed.

Lemma sees_step c cf s cf' : spin_inv cf → sees c cf s → spin_step cf cf' →
  ∃ s', sees c cf' s' ∧ lock_step s s'.
Proof.
  intros Hinv Hs Hstep. destruct Hstep as [d l m m' ph h Hd E|d l v m m' ph h Hd E Hv
    |d l m m' ph h Hd E|d l pcs m m' ph h Hd E|d l m m' ph h Hd E|d l m m' ph h Hd E|d b m ph h Hd Hn].
  - apply (sees_stutter c _ _ s Hs); [done|]. simpl.
    destruct (acquire_begin_run d l m (spin_cpu_ok _ d Hinv)) as (m1 & E1 & H1).
    rewrite E in E1. assert (m1 = m') as -> by (destruct (held_by d l m); congruence).
    apply (with_cpu_eff c d _ _ _ H1). apply eff_intena_ne. simpl.
    pose proof (spin_cpu_ok _ d Hinv) as [? _]. simpl in *. lia.
  - apply (sees_stutter c _ _ s Hs); [done|]. by injection E as _ <-.
  - apply (sees_stutter c _ _ s Hs); [done|]. by injection E as _ <-.
  - injection E as <-. destruct (decide (d = c)) as [->|Hne].
    + exists (set_held (l :: held s) s). destruct Hs as [Hh Hi]. split.
      { split; simpl; [|done]. rewrite fn_lookup_insert. by rewrite Hh. }
      apply (ls_acquire _ l). apply acquire_free. rewrite Hh.
      apply (si_fresh _ Hinv). by right.
    + apply (sees_stutter c _ _ s Hs); simpl; [by rewrite fn_lookup_insert_ne|done].
  - apply (sees_stutter c _ _ s Hs); [done|]. simpl.
    destruct (release_begin_run d l m (spin_cpu_ok _ d Hinv)) as (m1 & H1 & E1).
    rewrite E in E1. destruct (held_by d l m); [|done]. injection E1 as ->. simpl.
    apply (with_cpu_eff c d _ _ _ H1). unfold eff_intena. simpl. by case_match.
  - simpl in *. pose proof (si_free _ Hinv d l Hd) as Hin. pose proof (si_ncli _ Hinv d) as Hn.
    simpl in Hin, Hn. rewrite Hd in Hn. destruct (h d) eqn:Eh; [by apply elem_of_nil in Hin|].
    simpl in Hn. unfold release_end in E. rewrite bind_modify in E.
    apply (popcli_eff c) in E; [|apply (si_if _ Hinv d); simpl; lia|simpl; lia].
    simpl in E. destruct (decide (d = c)) as [->|Hne].
    + exists (set_held (drop_lock l (held s)) s). destruct Hs as [Hh Hi]. simpl in Hh, Hi.
      split; [split; simpl; [rewrite fn_lookup_insert; by rewrite Hh, Eh|by rewrite E]|].
      apply (ls_release _ l). apply release_mem. by rewrite Hh, Eh.
    + apply (sees_stutter c _ _ s Hs); simpl; [by rewrite fn_lookup_insert_ne|done].
  - destruct (decide (d = c)) as [->|Hne].
    + destruct Hs as [Hh Hi]. simpl in Hh, Hi. exists (set_intena b s).
      split; [split; simpl; [done|by rewrite fn_lookup_insert]|]. apply ls_flag. rewrite Hh.
      pose proof (si_ncli _ Hinv c) as Hn'. simpl in Hn'. rewrite Hd in Hn'.
      destruct (h c); [done|simpl in *; lia].
    + apply (sees_stutter c _ _ s Hs); simpl; [done|by rewrite fn_lookup_insert_ne].
Qed.

Lemma sees_running c cf s : spin_inv cf → sees c cf s → cf_ph cf c = Running →
  c_ncli (cpus (cf_m cf) c) = ncli s ∧ c_if (cpus (cf_m cf) c) = intr_enabled s ∧
  ∀ l, ((∃ m', acquire_begin c l (cf_m cf) = Panic "acquire" m') ↔ acquire l s = Panic "acquire" s)
     ∧ ((∃ m', release_begin c l (cf_m cf) = Panic "release" m') ↔ release l s = Panic "release" s).
Proof.
  intros Hinv Hs Hp. destruct Hs as [Hh Hi]. pose proof (si_ncli _ Hinv c) as Hn. rewrite Hp in Hn.
  pose proof (spin_cpu_ok _ c Hinv) as Hok. simpl in Hn. unfold ncli, intr_enabled. rewrite Hh.
  split; [lia|]. split.
  - destruct (cf_hold cf c) eqn:Eh; simpl in Hn.
    + rewrite Hi. unfold eff_intena. by replace (_ =? 0) with true by lia.
    + apply Hok. lia.
  - intros l.
    destruct (acquire_begin_run c l _ Hok) as (m1 & E1 & _).
    destruct (release_begin_run c l _ Hok) as (m2 & _ & E2).
    rewrite (held_by_hold _ c l Hinv) in E1, E2 by (by rewrite Hp). rewrite E1, E2, <- Hh.
    destruct (decide (l ∈ held s)) as [Hin|Hin];
      [rewrite !bool_decide_eq_true_2 by done|rewrite !bool_decide_eq_false_2 by done]; split.
    + split; [intros _; by apply acquire_held|by eauto].
    + rewrite (release_mem l s Hin). split; [intros [? ?]; done|done].
    + rewrite (acquire_free l s Hin). split; [intros [? ?]; done|done].
    + split; [intros _; by apply release_not_held|by eauto].
Qed.

(** Every step of the machine is, in the eyes of any CPU, a step of
    [Locks.v] (or none); a CPU in ordinary code has the interrupt flag and
    the lock count of [Locks.v], and [acquire] and [release] panic in exactly
    the same situations. *)
Theorem spinlock_refines_locks c cf s : rtc spin_step config0 cf → sees c cf s →
  (∀ cf', spin_step cf cf' → ∃ s', sees c cf' s' ∧ lock_step s s') ∧
  (cf_ph cf c = Running →
     c_ncli (cpus (cf_m cf) c) = ncli s ∧ c_if (cpus (cf_m cf) c) = intr_enabled s ∧
     ∀ l, ((∃ m', acquire_begin c l (cf_m cf) = Panic "acquire" m') ↔ acquire l s = Panic "acquire" s)
        ∧ ((∃ m', release_begin c l (cf_m cf) = Panic "release" m') ↔ release l s = Panic "release" s)).
Proof.
  intros Hinv%spin_inv_reach Hs. split; [|by apply sees_running].
  intros cf'. by apply sees_step.
Qed.

(** ** Instances *)

(** CPU 3 has entered [acquire] of the console lock. *)
Definition spinning_config : config :=
  mkconfig (match acquire_begin 3 CONS_LOCK (cf_m config0) with
            | Ret _ m | Panic _ m | Stuck m | Switch m _ => m
            | Jump j _ => match j with end
            end) (<[3%nat := Spinning CONS_LOCK]> (cf_ph config0)) (cf_hold config0).

Lemma spinning_reach : rtc spin_step config0 spinning_config.
Proof. eapply rtc_l; [apply (st_acquire 3 CONS_LOCK); done|]. apply rtc_refl. Qed.

Lemma spinlock_mutual_exclusion_witness :
  c_ncli (cpus (cf_m spinning_config) 3%nat) = 1 ∧ c_ncli (cpus (cf_m spinning_config) 4%nat) = 0.
Proof.
  destruct (spinlock_mutual_exclusion spinning_config spinning_reach) as (_ & _ & H & _).
  split; rewrite H; done.
Defined.

Lemma spinlock_refines_locks_witness :
  c_if (cpus (cf_m spinning_config) 4%nat) = intr_enabled kstate0.
Proof.
  apply (spinlock_refines_locks 4 spinning_config kstate0 spinning_reach); done.
Defined.
