(* ===== verification/Console.v ===== *)
(** * Console output: [printint] and [cprintf] of [console.c]

    Characters are their codes.  Writing a character to the serial port and to
    the CGA memory appends it to [cons_out]. *)

From stdpp Require Import base numbers option list sets strings.
From Stdlib Require Import ZArith Lia Ascii.
From S2P Require Import Prelude State Locks.

Definition chars (s : string) : list Z :=
  map (fun c => Z.of_N (N_of_ascii c)) (String.list_ascii_of_string s).

Definition digits : list Z := chars "0123456789abcdef".

(** The do-while loop of [printint]: [buf] with the least digit first.  32
    iterations suffice for a 32-bit number in any base from 2. *)
Fixpoint printint_loop (fuel : nat) (x base : Z) : list Z :=
  match fuel with
  | O => []
  | S fuel =>
    digits !!! Z.to_nat (x mod base)
    :: (if x / base =? 0 then [] else printint_loop fuel (x / base) base)
  end.

(** The character [\n] at the end of a message. *)
Definition nl : string := String (Ascii.ascii_of_nat 10) EmptyString.

(** The characters [printint] sends to [consputc]. *)
Definition printint (xx base : Z) (sign : bool) : list Z :=
  let neg := sign && (xx <? 0) in
  let x := if neg then u32 (- xx) else u32 xx in
  let buf := printint_loop 32 x base in
  rev (if neg then buf ++ chars "-" else buf).

(** Variadic arguments: a 32-bit integer or a string pointer. *)
Inductive carg : Type :=
| AInt (z : Z)
| AStr (s : option (list Z)).

Definition arg_int (a : carg) : Z := match a with AInt z => z | AStr _ => 0 end.
Definition arg_str (a : carg) : list Z :=
  match a with AStr (Some l) => l | _ => chars "(null)" end.

(** The format loop of [cprintf]: [%d], [%x], [%p], [%s], [%%], and an
    unknown sequence printed as it is. *)
Fixpoint cformat (fmt : list Z) (args : list carg) : list Z :=
  match fmt with
  | [] => []
  | c :: fmt =>
    if c =? 37 then
      match fmt with
      | [] => []
      | d :: fmt =>
        if d =? 100 then
          printint (s32 (arg_int (hd (AInt 0) args))) 10 true ++ cformat fmt (tl args)
        else if (d =? 120) || (d =? 112) then
          printint (s32 (arg_int (hd (AInt 0) args))) 16 false ++ cformat fmt (tl args)
        else if d =? 115 then arg_str (hd (AInt 0) args) ++ cformat fmt (tl args)
        else if d =? 37 then 37 :: cformat fmt args
        else 37 :: d :: cformat fmt args
      end
    else c :: cformat fmt args
  end.

Definition consputs (l : list Z) : M unit :=
  modify (fun s => set_cons_out (s.(cons_out) ++ l) s).

Definition cprintf (fmt : string) (args : list carg) : M unit :=
  locking <- get cons_locking;;
  when locking (acquire CONS_LOCK);;
  consputs (cformat (chars fmt) args);;
  when locking (release CONS_LOCK).

(** [cprintf] called without the console lock only appends text. *)
Lemma cprintf_ok fmt args s : CONS_LOCK ∉ s.(held) →
  cprintf fmt args s = Ret () (set_cons_out (s.(cons_out) ++ cformat (chars fmt) args) s).
Proof.
  intros H. unfold cprintf. rewrite bind_get. destruct (cons_locking s) eqn:E.
  - simpl when. rewrite (bind_returns _ _ _ _ _ (acquire_free _ _ H)).
    unfold consputs at 1. rewrite bind_modify.
    rewrite (release_head _ s.(held)); [|done|done].
    by destruct s.
  - done.
Qed.

(** ** The digits denote the number *)

(** Reference: the value of a character in base 16 digits, and of a sequence
    of digits with the least first. *)
Definition digit_val (c : Z) : Z := if c <? 58 then c - 48 else c - 87.

Fixpoint digits_val (base : Z) (l : list Z) : Z :=
  match l with
  | [] => 0
  | c :: l => digit_val c + base * digits_val base l
  end.

Lemma digit_val_digits d : 0 <= d < 16 → digit_val (digits !!! Z.to_nat d) = d.
Proof.
  intros H. assert (d ∈ seqZ 0 16) as Hd by (apply elem_of_seqZ; lia).
  assert (Forall (fun d => digit_val (digits !!! Z.to_nat d) = d) (seqZ 0 16)) as HF.
  { by repeat constructor. }
  by apply (proj1 (Forall_forall _ _) HF).
Qed.

Lemma printint_loop_val fuel x base : 2 <= base <= 16 → 0 <= x < 2 ^ Z.of_nat fuel →
  digits_val base (printint_loop fuel x base) = x.
Proof.
  intros Hb. revert x. induction fuel as [|fuel IH]; intros x Hx.
  { change (2 ^ Z.of_nat 0) with 1 in Hx. simpl. lia. }
  simpl. pose proof (Z.mod_pos_bound x base) as Hm.
  rewrite digit_val_digits by lia.
  pose proof (Z.div_mod x base ltac:(lia)) as Hd.
  destruct (Z.eqb_spec (x / base) 0) as [E|E]; simpl; [lia|].
  rewrite IH; [lia|]. split; [apply Z.div_pos; lia|].
  apply Z.div_lt_upper_bound; [lia|].
  rewrite Nat2Z.inj_succ, Z.pow_succ_r in Hx by lia. nia.
Qed.

Lemma printint_loop_length fuel x base k : 2 <= base → 0 <= x < base ^ Z.of_nat k → (0 < k)%nat →
  (length (printint_loop fuel x base) <= k)%nat.
Proof.
  intros Hb. revert x fuel. induction k as [|k IH]; intros x fuel Hx Hk; [lia|].
  destruct fuel as [|fuel]; simpl; [lia|].
  destruct (Z.eqb_spec (x / base) 0) as [E|E]; simpl; [lia|].
  apply le_n_S. destruct k as [|k].
  - exfalso. apply E. apply Z.div_small. change (base ^ Z.of_nat 1) with (base ^ 1) in Hx.
    rewrite Z.pow_1_r in Hx. lia.
  - apply IH; [|lia]. split; [apply Z.div_pos; lia|].
    apply Z.div_lt_upper_bound; [lia|].
    rewrite (Nat2Z.inj_succ (S k)), Z.pow_succ_r in Hx by lia. lia.
Qed.

(** Reference reading of a decimal text, [-] first for a negative number. *)
Definition read_dec (l : list Z) : Z :=
  match l with
  | 45 :: l => - digits_val 10 (rev l)
  | _ => digits_val 10 (rev l)
  end.

Lemma digits_not_minus d : 0 <= d < 16 → digits !!! Z.to_nat d ≠ 45.
Proof.
  intros H E. pose proof (digit_val_digits d H) as Hv. rewrite E in Hv.
  unfold digit_val in Hv. simpl in Hv. lia.
Qed.

Lemma printint_loop_not_minus fuel x base : 2 <= base <= 16 → 0 <= x →
  45 ∉ printint_loop fuel x base.
Proof.
  intros Hb. revert x. induction fuel as [|fuel IH]; intros x Hx; simpl; [set_solver|].
  pose proof (Z.mod_pos_bound x base ltac:(lia)) as Hm.
  intros [E|E]%elem_of_cons; [by apply (digits_not_minus (x mod base)); [lia|]|].
  destruct (Z.eqb_spec (x / base) 0); [set_solver|].
  by apply (IH (x / base)); [apply Z.div_pos; lia|].
Qed.

Lemma read_dec_pos l : 45 ∉ l → read_dec (rev l) = digits_val 10 l.
Proof.
  intros H. unfold read_dec.
  assert (45 ∉ rev l) as H' by (by rewrite list_elem_of_In, <- in_rev, <- list_elem_of_In).
  destruct (rev l) as [|c r] eqn:E.
  - by rewrite <- (rev_involutive l), E.
  - assert (c ≠ 45) as Hc by (intros ->; apply H'; by left).
    rewrite <- (rev_involutive l), E.
    destruct c as [|p|p]; try done.
    do 6 (destruct p as [p|p|]; try done).
Qed.

(** The decimal digits [printint] prints denote the number, and fit its buffer. *)
Theorem printint_decimal xx : - two31 <= xx < two31 →
  read_dec (printint xx 10 true) = xx ∧ (length (printint xx 10 true) <= 16)%nat.
Proof.
  intros Hx. unfold printint. rewrite andb_true_l.
  set (x := if xx <? 0 then u32 (- xx) else u32 xx).
  assert (x = Z.abs xx) as Ex.
  { unfold x. destruct (Z.ltb_spec xx 0); rewrite u32_id; unfold word, two31, two32 in *; lia. }
  clearbody x. unfold two31 in Hx.
  pose proof (printint_loop_val 32 x 10 ltac:(lia)) as Hv.
  change (2 ^ Z.of_nat 32) with 4294967296 in Hv. specialize (Hv ltac:(lia)).
  pose proof (printint_loop_length 32 x 10 10 ltac:(lia)) as Hl.
  change (10 ^ Z.of_nat 10) with 10000000000 in Hl. specialize (Hl ltac:(lia) ltac:(lia)).
  pose proof (printint_loop_not_minus 32 x 10 ltac:(lia) ltac:(lia)) as Hm.
  revert Hv Hl Hm. generalize (printint_loop 32 x 10). intros buf Hv Hl Hm.
  rewrite length_rev. destruct (Z.ltb_spec xx 0).
  - rewrite rev_app_distr, length_app. change (rev (chars "-") ++ rev buf) with (45 :: rev buf).
    unfold read_dec. rewrite rev_involutive, Hv. change (length (chars "-")) with 1%nat. lia.
  - rewrite read_dec_pos by done. lia.
Qed.

Lemma printint_decimal_witness : read_dec (printint (- two31) 10 true) = - two31.
Proof. apply (printint_decimal (- two31)). unfold two31. lia. Defined.
