(* ===== verification/Kalloc.v ===== *)
(** * The physical page allocator, [kalloc.c]

    The free list is threaded through the free pages themselves: the first
    word of a free page is the pointer to the next one.  [kmem_inv s l] says
    that the list in the memory of [s] is the list [l] of distinct valid
    pages. *)

From stdpp Require Import base numbers option list sets strings relations.
From Stdlib Require Import ZArith Lia.
From S2P Require Import Prelude Kstring State Locks.

Definition V2P (a : Z) : Z := u32 (a - KERNBASE).
Definition P2V (a : Z) : Z := u32 (a + KERNBASE).
Definition PGROUNDUP (sz : Z) : Z := Z.land (u32 (sz + PGSIZE - 1)) (not32 (PGSIZE - 1)).
Definition PGROUNDDOWN (a : Z) : Z := Z.land (u32 a) (not32 (PGSIZE - 1)).

(** Free the page at [v]. *)
Definition kfree (v : Z) : M unit :=
  e <- get kend;;
  if truthy (v mod PGSIZE) || (v <? e) || (PHYSTOP <=? V2P v) then panic "kfree"
  else
    modify (fun s => set_mem (memset s.(mem) v 1 PGSIZE) s);;
    ul <- get use_lock;;
    when ul (acquire KMEM_LOCK);;
    modify (fun s => set_mem (store32 s.(mem) v s.(freelist)) s);;
    modify (fun s => set_freelist v s);;
    ul <- get use_lock;;
    when ul (release KMEM_LOCK).

(** Allocate a page; 0 when there is none. *)
Definition kalloc : M Z :=
  ul <- get use_lock;;
  when ul (acquire KMEM_LOCK);;
  r <- get freelist;;
  when (truthy r) (modify (fun s => set_freelist (load32 s.(mem) r) s));;
  ul <- get use_lock;;
  when ul (release KMEM_LOCK);;
  ret r.

(** [for(; p + PGSIZE <= vend; p += PGSIZE) kfree(p);] *)
Fixpoint freerange_loop (fuel : nat) (p vend : Z) : M unit :=
  match fuel with
  | O => fun s => Stuck s
  | S fuel =>
    if u32 (p + PGSIZE) <=? vend then kfree p;; freerange_loop fuel (u32 (p + PGSIZE)) vend
    else ret ()
  end.

(** The address space has 2^20 pages, which bounds the iterations. *)
Definition freerange_fuel : nat := Z.to_nat 1048577.

Definition freerange (fuel : nat) (vstart vend : Z) : M unit :=
  freerange_loop fuel (PGROUNDUP vstart) vend.

Definition kinit1 (fuel : nat) (vstart vend : Z) : M unit :=
  modify (set_use_lock false);; freerange fuel vstart vend.

Definition kinit2 (fuel : nat) (vstart vend : Z) : M unit :=
  freerange fuel vstart vend;; modify (set_use_lock true).

(** ** The free list *)

Fixpoint free_chain (m : memory) (head : Z) (l : list Z) : Prop :=
  match l with
  | [] => head = 0
  | p :: l => head = p ∧ free_chain m (load32 m p) l
  end.

(** A page [kfree] accepts. *)
Definition page_ok (e p : Z) : Prop :=
  0 < p < two32 ∧ p mod PGSIZE = 0 ∧ e <= p ∧ V2P p < PHYSTOP.

Record kmem_inv (s : kstate) (l : list Z) : Prop := {
  ki_chain : free_chain s.(mem) s.(freelist) l;
  ki_pages : Forall (page_ok s.(kend)) l;
  ki_nodup : NoDup l
}.

Lemma load32_ext m m' a :
  (∀ k, 0 <= k < 4 → m' (u32 (a + k)) = m (u32 (a + k))) → load32 m' a = load32 m a.
Proof.
  intros H. pose proof (H 0 ltac:(lia)) as H0. rewrite Z.add_0_r in H0.
  unfold load32. by rewrite H0, !H by lia.
Qed.

Lemma page_apart e p v k : page_ok e p → page_ok e v → p ≠ v → 0 <= k < 4 →
  word (p + k) ∧ PGSIZE <= u32 (p + k - v).
Proof.
  unfold page_ok, PGSIZE. intros (Hp & Hp4 & _) (Hv & Hv4 & _) Hne Hk.
  pose proof (Z.div_mod p 4096 ltac:(lia)) as Ep. pose proof (Z.div_mod v 4096 ltac:(lia)) as Ev.
  rewrite Hp4 in Ep. rewrite Hv4 in Ev. unfold word, u32, two32 in *.
  set (a := p / 4096) in *. set (b := v / 4096) in *.
  split; [lia|]. destruct (Z_lt_ge_dec p v).
  - rewrite <- (Z.mod_unique (p + k - v) 4294967296 (-1) (p + k - v + 4294967296)); lia.
  - rewrite Z.mod_small; lia.
Qed.

(** Filling a page and storing its link leave the words of other pages alone. *)
Lemma kfree_mem_other e m v w p : page_ok e p → page_ok e v → p ≠ v →
  load32 (store32 (memset m v 1 PGSIZE) v w) p = load32 m p.
Proof.
  intros Hp Hv Hne. apply load32_ext. intros k Hk.
  destruct (page_apart e p v k Hp Hv Hne Hk) as [Hw Hd].
  rewrite (u32_id (p + k)) by done. unfold store32.
  destruct (Z.ltb_spec (u32 (p + k - v)) 4); [unfold PGSIZE in Hd; lia|].
  rewrite memset_fill by (done || unfold PGSIZE, two32; lia). unfold fill.
  by destruct (Z.ltb_spec (u32 (p + k - v)) PGSIZE); [lia|].
Qed.

Lemma free_chain_frame m m' h l : (∀ p, p ∈ l → load32 m' p = load32 m p) →
  free_chain m h l → free_chain m' h l.
Proof.
  revert h. induction l as [|p l IH]; intros h Hl; [done|]. simpl.
  intros [-> H]. split; [done|]. rewrite Hl by by left.
  apply IH; [|done]. intros q Hq. apply Hl. by right.
Qed.

(** The memory after [kfree v]. *)
Definition kfree_mem (s : kstate) (v : Z) : memory :=
  store32 (memset s.(mem) v 1 PGSIZE) v s.(freelist).

Lemma kfree_run v s : page_ok s.(kend) v → KMEM_LOCK ∉ s.(held) →
  kfree v s = Ret () (set_freelist v (set_mem (kfree_mem s v) s)).
Proof.
  intros (Hv & Hv4 & He & Hp) Hl. unfold kfree. rewrite bind_get.
  rewrite Hv4. change (truthy 0) with false.
  destruct (Z.ltb_spec v (kend s)); [lia|]. destruct (Z.leb_spec PHYSTOP (V2P v)); [lia|].
  cbn [orb]. ksteps. cbn [use_lock set_mem].
  destruct (use_lock s) eqn:E; ksteps; cbn [use_lock set_mem set_freelist set_held]; rewrite E; by ksteps.
Qed.

Lemma kfree_inv v s l : kmem_inv s l → page_ok s.(kend) v → v ∉ l →
  kmem_inv (set_freelist v (set_mem (kfree_mem s v) s)) (v :: l).
Proof.
  intros [Hc Hp Hn] Hv Hl. split; simpl.
  - split; [done|]. unfold kfree_mem. rewrite load_store_same, u32_id.
    + apply (free_chain_frame s.(mem)); [|done]. intros p Hpl.
      rewrite Forall_forall in Hp.
      apply (kfree_mem_other s.(kend)); [by apply Hp|done|by intros ->].
    + destruct l as [|p l]; simpl in Hc; [rewrite Hc; unfold word, two32; lia|].
      destruct Hc as [-> _]. apply Forall_cons in Hp as [(? & _) _]. unfold word; lia.
  - by constructor.
  - by constructor.
Qed.

Lemma kalloc_run_raw s : KMEM_LOCK ∉ s.(held) →
  kalloc s = Ret s.(freelist)
    (if truthy s.(freelist) then set_freelist (load32 s.(mem) s.(freelist)) s else s).
Proof.
  intros Hl. unfold kalloc. ksteps.
  destruct (use_lock s) eqn:E; ksteps; simpl freelist;
    destruct (truthy (freelist s)); ksteps; simpl use_lock; rewrite E; ksteps; try done.
  by destruct s.
Qed.

Lemma kalloc_run s l : kmem_inv s l → KMEM_LOCK ∉ s.(held) →
  kalloc s = match l with
             | [] => Ret 0 s
             | p :: _ => Ret p (set_freelist (load32 s.(mem) p) s)
             end.
Proof.
  intros [Hc Hp Hn] Hl. rewrite kalloc_run_raw by done.
  destruct l as [|p l]; simpl in Hc.
  - by rewrite Hc.
  - destruct Hc as [-> Hc]. apply Forall_cons in Hp as [(Hp & _) _]. unfold truthy.
    by destruct (Z.eqb_spec p 0); [lia|].
Qed.

Lemma kalloc_inv s p l : kmem_inv s (p :: l) →
  kmem_inv (set_freelist (load32 s.(mem) p) s) l.
Proof.
  intros [[_ Hc] Hp Hn]. apply Forall_cons in Hp as [_ Hp]. apply NoDup_cons in Hn as [_ Hn].
  by split.
Qed.

(** ** Rounding to pages *)

Lemma land_not32_ones x k : word x → 0 <= k < 32 →
  Z.land x (not32 (Z.ones k)) = x / 2 ^ k * 2 ^ k.
Proof.
  intros Hx Hk. rewrite <- Z.shiftl_mul_pow2, <- Z.shiftr_div_pow2 by lia.
  rewrite <- Z.ldiff_ones_r by lia. apply Z.bits_inj'. intros j Hj.
  rewrite Z.land_spec, Z.ldiff_spec. destruct (Z_lt_ge_dec j 32).
  - by rewrite testbit_not32 by lia.
  - by rewrite (word_testbit_high x) by (done || lia).
Qed.

Lemma PGROUNDUP_spec sz : word sz → sz + PGSIZE - 1 < two32 →
  PGROUNDUP sz = (sz + PGSIZE - 1) / PGSIZE * PGSIZE.
Proof.
  unfold PGROUNDUP, word. intros Hs Hw. change (PGSIZE - 1) with (Z.ones 12).
  rewrite u32_id by (unfold word, PGSIZE in *; lia).
  rewrite land_not32_ones by (unfold word, PGSIZE in *; lia). done.
Qed.

Lemma PGROUNDUP_aligned sz : word sz → sz + PGSIZE - 1 < two32 →
  PGROUNDUP sz mod PGSIZE = 0 ∧ sz <= PGROUNDUP sz < sz + PGSIZE.
Proof.
  intros Hs Hw. rewrite PGROUNDUP_spec by done. unfold PGSIZE in *.
  rewrite Z_mod_mult. split; [done|].
  pose proof (Z.div_mod (sz + 4096 - 1) 4096 ltac:(lia)).
  pose proof (Z.mod_pos_bound (sz + 4096 - 1) 4096 ltac:(lia)). lia.
Qed.

(** ** Sequences of allocations and frees

    A client of the allocator: the kernel state and the pages handed out and
    not yet given back. *)

Inductive kmem_step : kstate * list Z → kstate * list Z → Prop :=
| km_alloc s out p s' : kalloc s = Ret p s' →
    kmem_step (s, out) (s', if p =? 0 then out else p :: out)
| km_free s out v s' : v ∈ out → kfree v s = Ret () s' →
    kmem_step (s, out) (s', filter (.≠ v) out).

(** Free pages and pages handed out are distinct valid pages. *)
Definition kmem_client (c : kstate * list Z) : Prop :=
  let '(s, out) := c in
  KMEM_LOCK ∉ s.(held) ∧
  ∃ l, kmem_inv s l ∧ Forall (page_ok s.(kend)) out ∧ NoDup (l ++ out).

Lemma kmem_client_step c c' : kmem_step c c' → kmem_client c → kmem_client c'.
Proof.
  intros Hstep. destruct Hstep as [s out p s' Hk|s out v s' Hv Hk]; simpl;
    intros (Hl & l & Hinv & Hout & Hnd).
  - rewrite (kalloc_run s l Hinv Hl) in Hk. destruct l as [|q l]; simplify_eq.
    { split; [done|]. by exists []. }
    pose proof (ki_pages _ _ Hinv) as Hp. apply Forall_cons in Hp as [Hq _].
    pose proof Hq as ((? & ?) & _). destruct (Z.eqb_spec p 0); [lia|].
    split; [done|]. exists l. split; [by eapply kalloc_inv|].
    split; [by constructor|]. by rewrite <- Permutation_middle.
  - rewrite Forall_forall in Hout. pose proof (Hout _ Hv) as Hpv.
    rewrite (kfree_run v s Hpv Hl) in Hk. simplify_eq. split; [done|].
    apply NoDup_app in Hnd as (Hn1 & Hn2 & Hn3).
    assert (v ∉ l) as Hvl by (intros Hin; by apply (Hn2 v)).
    exists (v :: l). split; [by apply kfree_inv|].
    split; [apply Forall_forall; intros x [_ Hx]%list_elem_of_filter; by apply Hout|].
    rewrite <- app_comm_cons. apply NoDup_cons. split.
    + rewrite elem_of_app, list_elem_of_filter. naive_solver.
    + apply NoDup_app. split; [done|]. split; [|by apply NoDup_filter].
      intros x Hx. rewrite list_elem_of_filter. naive_solver.
Qed.

Lemma kmem_client_reach c c' : rtc kmem_step c c' → kmem_client c → kmem_client c'.
Proof. induction 1; eauto using kmem_client_step. Qed.

(** C30: whatever sequence of allocations and frees of outstanding pages has
    run, [kalloc] returns: either 0, when no page is free, or a valid page
    that is not handed out. *)
Theorem kalloc_fresh s0 out0 s out :
  kmem_client (s0, out0) → rtc kmem_step (s0, out0) (s, out) →
  ∃ p s', kalloc s = Ret p s' ∧
    ((p = 0 ∧ s' = s ∧ kmem_inv s []) ∨ (page_ok s.(kend) p ∧ p ∉ out)).
Proof.
  intros H0 Hr. apply (kmem_client_reach _ _ Hr) in H0 as (Hl & l & Hinv & Hout & Hnd).
  rewrite (kalloc_run s l Hinv Hl). destruct l as [|p l].
  { exists 0, s. auto. }
  exists p, (set_freelist (load32 s.(mem) p) s). split; [done|]. right.
  split; [|apply NoDup_app in Hnd as (_ & Hd & _); apply Hd; by left].
  pose proof (ki_pages _ _ Hinv) as Hp. by apply Forall_cons in Hp as [Hq _].
Qed.

(** [kfree] panics exactly on addresses that are not page aligned, lie
    below the end of the kernel or beyond physical memory. *)
Theorem kfree_panics_iff v s : 0 < v < two32 → KMEM_LOCK ∉ s.(held) →
  (∃ s', kfree v s = Panic "kfree" s') ↔ ¬ page_ok s.(kend) v.
Proof.
  intros Hv Hl. split.
  - intros [s' H] Hok. by rewrite kfree_run in H.
  - intros Hn. exists s. unfold kfree. ksteps. unfold page_ok, truthy in *.
    destruct (Z.eqb_spec (v mod PGSIZE) 0), (Z.ltb_spec v (kend s)),
      (Z.leb_spec PHYSTOP (V2P v)); try done.
    exfalso. apply Hn. auto with lia.
Qed.

(** a page freed into an empty or non-empty list is the next page handed out,
    and the list is as before. *)
Theorem kfree_kalloc_roundtrip v s l : kmem_inv s l → page_ok s.(kend) v → v ∉ l →
  KMEM_LOCK ∉ s.(held) →
  ∃ s1 s2, kfree v s = Ret () s1 ∧ kalloc s1 = Ret v s2 ∧ kmem_inv s2 l
    ∧ s2.(freelist) = s.(freelist).
Proof.
  intros Hinv Hv Hvl Hl. pose proof (kfree_inv v s l Hinv Hv Hvl) as Hinv1.
  eexists _, _. split; [by apply kfree_run|]. split; [exact (kalloc_run _ _ Hinv1 Hl)|].
  split; [by apply (kalloc_inv _ v l)|]. simpl. unfold kfree_mem. rewrite load_store_same.
  apply u32_id. destruct Hinv as [Hc Hp _]. destruct l as [|p l]; simpl in Hc.
  - rewrite Hc. unfold word, two32; lia.
  - destruct Hc as [-> _]. apply Forall_cons in Hp as [(? & _) _]. unfold word; lia.
Qed.

(** ** Filling the free list *)

(** The [n] pages from [p] upwards. *)
Definition pages_from (p : Z) (n : nat) : list Z :=
  map (fun i => p + PGSIZE * Z.of_nat i) (seq 0 n).

Lemma pages_from_S p n : pages_from p (S n) = p :: pages_from (p + PGSIZE) n.
Proof.
  unfold pages_from. simpl. f_equal; [lia|]. rewrite <- seq_shift, map_map.
  apply map_ext. intros i. lia.
Qed.

Lemma freerange_loop_run n : ∀ fuel p vend s l,
  (n < fuel)%nat → kmem_inv s l → KMEM_LOCK ∉ s.(held) →
  p mod PGSIZE = 0 → 0 < p → s.(kend) <= p → KERNBASE <= p →
  p + PGSIZE * Z.of_nat n <= vend < p + PGSIZE * (Z.of_nat n + 1) →
  vend <= KERNBASE + PHYSTOP →
  Forall (fun q => q < p) l →
  ∃ s', freerange_loop fuel p vend s = Ret () s'
    ∧ kmem_inv s' (rev (pages_from p n) ++ l) ∧ s'.(held) = s.(held)
    ∧ s'.(use_lock) = s.(use_lock) ∧ s'.(kend) = s.(kend).
Proof.
  induction n as [|n IH]; intros fuel p vend s l Hf Hinv Hl Hp Hp0 He Hk Hv Hw Hlt;
    (destruct fuel as [|fuel]; [lia|]); cbn [freerange_loop];
    unfold PGSIZE, KERNBASE, PHYSTOP in *; rewrite u32_id by (unfold word, two32; lia).
  - destruct (Z.leb_spec (p + 4096) vend); [lia|]. by exists s.
  - destruct (Z.leb_spec (p + 4096) vend); [|lia].
    assert (page_ok (kend s) p) as Hok.
    { unfold page_ok, V2P, KERNBASE, PHYSTOP, PGSIZE, two32.
      rewrite u32_id by (unfold word, two32; lia). lia. }
    assert (p ∉ l) as Hpl.
    { intros Hin. rewrite Forall_forall in Hlt. specialize (Hlt p Hin). lia. }
    kcall (kfree_run p s Hok Hl).
    destruct (IH fuel (p + 4096) vend (set_freelist p (set_mem (kfree_mem s p) s)) (p :: l))
      as (s' & Hr & Hi & Hh & Hu & Hke); try (done || lia).
    { by apply kfree_inv. }
    { rewrite Z.add_mod, Hp by lia. done. }
    { simpl; lia. }
    { constructor; [lia|]. eapply Forall_impl; [exact Hlt|]. simpl. lia. }
    exists s'. split; [done|]. split; [|done].
    rewrite pages_from_S. simpl. by rewrite <- app_assoc.
Qed.

(** [freerange] puts every whole page of the range on the free list, and
    nothing else. *)
Theorem freerange_frees_all fuel vstart vend s n :
  kmem_inv s [] → KMEM_LOCK ∉ s.(held) → KERNBASE <= s.(kend) <= vstart →
  PGROUNDUP vstart + PGSIZE * Z.of_nat n <= vend < PGROUNDUP vstart + PGSIZE * (Z.of_nat n + 1) →
  vend <= KERNBASE + PHYSTOP → (n < fuel)%nat → vstart <= vend →
  ∃ s', freerange fuel vstart vend s = Ret () s'
    ∧ kmem_inv s' (rev (pages_from (PGROUNDUP vstart) n)).
Proof.
  intros Hinv Hl Hk Hn Hv Hf Hse. unfold freerange.
  destruct (PGROUNDUP_aligned vstart) as [Ha Hb];
    try (unfold word, two32, PGSIZE, KERNBASE, PHYSTOP in *; lia).
  destruct (freerange_loop_run n fuel (PGROUNDUP vstart) vend s []) as (s' & Hr & Hi & _);
    try (done || lia); try (unfold KERNBASE in *; lia).
  exists s'. split; [done|]. by rewrite app_nil_r in Hi.
Qed.

(** ** Instances *)

(** No page is free and one page is handed out. *)
Definition one_page : Z := 2149580800.

Lemma one_page_ok : page_ok kstate0.(kend) one_page.
Proof. by vm_compute. Qed.

Lemma kstate0_kmem : kmem_inv kstate0 [].
Proof. split; [done|constructor|constructor]. Qed.

Lemma kstate0_client : kmem_client (kstate0, [one_page]).
Proof.
  split; [apply not_elem_of_nil|]. exists []. split; [apply kstate0_kmem|].
  split; [constructor; [apply one_page_ok|constructor]|]. apply NoDup_singleton.
Qed.

Lemma kalloc_fresh_witness : ∃ p s', kalloc kstate0 = Ret p s' ∧
  ((p = 0 ∧ s' = kstate0 ∧ kmem_inv kstate0 []) ∨ (page_ok kstate0.(kend) p ∧ p ∉ [one_page])).
Proof. apply (kalloc_fresh kstate0 [one_page]); [apply kstate0_client|apply rtc_refl]. Defined.

Lemma kfree_panics_iff_witness : ∃ s', kfree 4097 kstate0 = Panic "kfree" s'.
Proof.
  apply (kfree_panics_iff 4097 kstate0); [unfold two32; lia|apply not_elem_of_nil|].
  by intros (_ & H & _).
Defined.

Lemma kfree_kalloc_roundtrip_witness : ∃ s1 s2,
  kfree one_page kstate0 = Ret () s1 ∧ kalloc s1 = Ret one_page s2 ∧ kmem_inv s2 []
  ∧ s2.(freelist) = kstate0.(freelist).
Proof.
  apply (kfree_kalloc_roundtrip one_page kstate0 []);
    [apply kstate0_kmem|apply one_page_ok|apply not_elem_of_nil|apply not_elem_of_nil].
Defined.

Lemma freerange_frees_all_witness : ∃ s',
  freerange 3 (one_page - 1) (one_page + 8192) (set_kend KERNBASE kstate0) = Ret () s'
  ∧ kmem_inv s' [one_page + 4096; one_page].
Proof.
  apply (freerange_frees_all 3 (one_page - 1) (one_page + 8192) (set_kend KERNBASE kstate0) 2);
    [split; [done|constructor|constructor]|apply not_elem_of_nil|by vm_compute..|lia|by vm_compute].
Defined.
