(* ===== verification/Proc.v ===== *)
(** * Processes: the process table and the scheduler, [proc.c]

    Allocation of table entries, sleeping and waking, killing, and the switch
    between a process and the scheduler.  The life cycle operations that use
    the memory and file systems are in [ProcLife.v]. *)

From stdpp Require Import base numbers option list sets strings relations.
From Stdlib Require Import ZArith Lia.
From S2P Require Import Prelude Kstring State Locks Kalloc.

(** Dereferencing a null [struct proc *] faults; without a current process
    [trap()] panics. *)
Definition null_deref {A} : M A := panic "trap".

Definition with_proc {A} (o : option nat) (f : nat → M A) : M A :=
  match o with Some i => f i | None => null_deref end.

(** The trap frame found at address [a] of the kernel stack. *)
Definition read_tf (m : memory) (a : Z) : trapframe :=
  let w k := load32 m (a + 4 * k) in
  let h k := load32 m (a + 4 * k) mod 65536 in
  mktf (w 0) (w 1) (w 2) (w 3) (w 4) (w 5) (w 6) (w 7) (h 8) (h 9) (h 10) (h 11)
    (w 12) (w 13) (w 14) (h 15) (w 16) (w 17) (h 18).

Definition sizeof_trapframe : Z := 76.
Definition sizeof_context : Z := 20.

(** Scan of the table for an entry that satisfies [P], in table order. *)
Definition find_proc (P : proc → bool) (s : kstate) : option nat :=
  fst <$> list_find (fun p => P p = true) s.(pt).

Definition is_state (st : procstate) (p : proc) : bool := bool_decide (p.(p_state) = st).
Definition has_pid (pid : Z) (p : proc) : bool := p.(p_pid) =? pid.

(** Find an unused entry and set it up to run in the kernel. *)
Definition allocproc : M (option nat) :=
  acquire PTABLE_LOCK;;
  o <- get (find_proc (is_state UNUSED));;
  match o with
  | None => release PTABLE_LOCK;; ret None
  | Some i =>
    modp i (set_p_state EMBRYO);;
    n <- get nextpid;;
    modp i (set_p_pid n);;
    modify (set_nextpid (s32 (n + 1)));;
    release PTABLE_LOCK;;
    kstk <- kalloc;;
    modp i (set_p_kstack kstk);;
    if kstk =? 0 then modp i (set_p_state UNUSED);; ret None
    else
      let sp := u32 (kstk + KSTACKSIZE) in
      let sp := u32 (sp - sizeof_trapframe) in
      m <- get mem;;
      modp i (fun p => set_p_tf (read_tf m sp) (set_p_tfp sp p));;
      modp i (fun p => set_p_justwoken 0 (set_p_sigpending 0 p));;
      let sp := u32 (sp - 4) in
      tr <- get trapret;;
      modify (fun s => set_mem (store32 s.(mem) sp tr) s);;
      let sp := u32 (sp - sizeof_context) in
      fr <- get forkret_addr;;
      modp i (fun p => set_p_context (mkctx 0 0 0 0 fr) (set_p_contextp sp p));;
      ret (Some i)
  end.

(** ** Switching *)

Definition swtch : M unit := fun s => Switch s (fun s' => Ret () s').

(** Enter the scheduler.  Only [ptable.lock] may be held. *)
Definition sched : M unit :=
  o <- myproc;;
  h <- holding PTABLE_LOCK;;
  if negb h then panic "sched ptable.lock" else
  n <- get ncli;;
  if negb (n =? 1) then panic "sched locks" else
  with_proc o (fun i =>
  p <- getp i;;
  if is_state RUNNING p then panic "sched running" else
  fi <- get intr_enabled;;
  if (fi : bool) then panic "sched interruptible" else
  ie <- get intena;;
  swtch;;
  modify (set_intena ie)).

Definition yield : M unit :=
  acquire PTABLE_LOCK;;
  o <- myproc;;
  with_proc o (fun i =>
  modp i (set_p_state RUNNABLE);;
  sched;;
  release PTABLE_LOCK).

(** Atomically release [lk] and sleep on [c]. *)
Definition sleep (c : chan) (lk : lockid) : M unit :=
  o <- myproc;;
  match o with
  | None => panic "sleep"
  | Some i =>
    when (bool_decide (lk ≠ PTABLE_LOCK)) (acquire PTABLE_LOCK;; release lk);;
    modp i (set_p_chan c);;
    modp i (set_p_state SLEEPING);;
    sched;;
    modp i (set_p_chan NOCHAN);;
    when (bool_decide (lk ≠ PTABLE_LOCK)) (release PTABLE_LOCK;; acquire lk)
  end.

Definition wake_proc (c : chan) (p : proc) : proc :=
  if is_state SLEEPING p && bool_decide (p.(p_chan) = c)
  then set_p_justwoken 1 (set_p_state RUNNABLE p) else p.

(** Wake up all processes sleeping on [c]; [ptable.lock] is held. *)
Definition wakeup1 (c : chan) : M unit :=
  foldM (fun _ i =>
    p <- getp i;;
    when (is_state SLEEPING p && bool_decide (p.(p_chan) = c))
      (modp i (set_p_state RUNNABLE);; modp i (set_p_justwoken 1))) all_procs ().

Definition wakeup (c : chan) : M unit :=
  acquire PTABLE_LOCK;; wakeup1 c;; release PTABLE_LOCK.

(** Kill the process with the given pid. *)
Definition kill (pid : Z) : M Z :=
  acquire PTABLE_LOCK;;
  r <- scanM (fun i =>
    p <- getp i;;
    if has_pid pid p then
      modp i (set_p_killed 1);;
      when (is_state SLEEPING p) (modp i (set_p_state RUNNABLE));;
      release PTABLE_LOCK;;
      ret (Some 0)
    else ret None) all_procs;;
  match r with
  | Some v => ret v
  | None => release PTABLE_LOCK;; ret (-1)
  end.

(** [switchuvm] of [vm.c]: the task state segment and the page table register. *)
Definition switchuvm (o : option nat) : M unit :=
  match o with
  | None => panic "switchuvm: no process"
  | Some i =>
    p <- getp i;;
    if p.(p_kstack) =? 0 then panic "switchuvm: no kstack" else
    if p.(p_pgdir) =? 0 then panic "switchuvm: no pgdir" else
    modify (set_esp0 (u32 (p.(p_kstack) + KSTACKSIZE)));;
    modify (set_cr3 (V2P p.(p_pgdir)))
  end.

Definition switchkvm : M unit := modify (fun s => set_cr3 (V2P s.(kpgdir)) s).

(** The body of the scheduler's endless loop: [sti] and one pass over the table. *)
Definition scheduler_pass : M unit :=
  modify (set_intena true);;
  acquire PTABLE_LOCK;;
  foldM (fun _ i =>
    p <- getp i;;
    if negb (is_state RUNNABLE p) then ret () else
    modify (set_curproc (Some i));;
    switchuvm (Some i);;
    modp i (set_p_state RUNNING);;
    swtch;;
    switchkvm;;
    modify (set_curproc None)) all_procs ();;
  release PTABLE_LOCK.

(** ** Loops over the table *)

Lemma get_proc_lookup i s p : s.(pt) !! i = Some p → get_proc i s = p.
Proof. intros H. unfold get_proc. by apply list_lookup_total_correct. Qed.

Lemma lookup_get_proc i s : (i < length s.(pt))%nat → s.(pt) !! i = Some (get_proc i s).
Proof. intros H. by apply list_lookup_lookup_total_lt. Qed.

Lemma foldM_range (f : proc → proc) (body : nat → M unit) :
  (∀ i s, (i < length s.(pt))%nat → body i s = Ret () (put_proc i (f (get_proc i s)) s)) →
  ∀ n k s, (k + n <= length s.(pt))%nat →
  foldM (fun _ i => body i) (seq k n) () s
  = Ret () (set_pt (imap (fun i p => if decide (k <= i < k + n)%nat then f p else p) s.(pt)) s).
Proof.
  intros Hb. induction n as [|n IH]; intros k s Hk; cbn [seq foldM].
  - unfold ret. f_equal. destruct s; unfold set_pt; simpl. f_equal.
    apply list_eq. intros i. rewrite list_lookup_imap. destruct (pt !! i); simpl; [|done].
    f_equal. case_decide; [lia|done].
  - unfold bind. rewrite Hb by lia. cbn [cbind].
    rewrite IH by (rewrite length_put; lia). f_equal.
    unfold put_proc, set_pt at 1 2. simpl. unfold set_pt. f_equal.
    apply list_eq. intros i. rewrite !list_lookup_imap.
    destruct (decide (i = k)) as [->|Hne].
    + rewrite list_lookup_insert_eq by lia. rewrite lookup_get_proc by lia. simpl.
      f_equal. repeat case_decide; lia || done.
    + rewrite list_lookup_insert_ne by done. destruct (pt s !! i); simpl; [|done].
      f_equal. repeat case_decide; lia || done.
Qed.

(** A pass that updates every entry on its own is a map over the table. *)
Lemma foldM_procs (f : proc → proc) (body : nat → M unit) s : wf_table s →
  (∀ i s, (i < length s.(pt))%nat → body i s = Ret () (put_proc i (f (get_proc i s)) s)) →
  foldM (fun _ i => body i) all_procs () s = Ret () (set_pt (f <$> s.(pt)) s).
Proof.
  intros Hw Hb. unfold all_procs. rewrite (foldM_range f body Hb) by (unfold wf_table in Hw; lia).
  do 2 f_equal. apply list_eq. intros i. rewrite list_lookup_imap, list_lookup_fmap.
  destruct (pt s !! i) eqn:E; simpl; [|done]. f_equal.
  apply lookup_lt_Some in E. unfold wf_table in Hw. case_decide; [done|lia].
Qed.

(** A search loop runs its body on the first entry that satisfies the test. *)
Lemma scanM_find {R} (P : proc → bool) (body : nat → M (option R)) s : wf_table s →
  (∀ i, (i < NPROC)%nat → P (get_proc i s) = false → body i s = Ret None s) →
  (∀ i, (i < NPROC)%nat → P (get_proc i s) = true → ∃ v s', body i s = Ret (Some v) s') →
  scanM body all_procs s =
    match find_proc P s with
    | Some i => body i s
    | None => Ret None s
    end.
Proof.
  intros Hw Hf Ht. unfold all_procs, find_proc. rewrite <- Hw. apply scanM_seq.
  - intros i p Hp. pose proof (lookup_lt_Some _ _ _ Hp) as Hi. apply get_proc_lookup in Hp as <-.
    apply Hf. by rewrite <- Hw.
  - intros i p Hp. pose proof (lookup_lt_Some _ _ _ Hp) as Hi. apply get_proc_lookup in Hp as <-.
    apply Ht. by rewrite <- Hw.
Qed.

Lemma find_proc_Some P s i : find_proc P s = Some i →
  (i < length s.(pt))%nat ∧ P (get_proc i s) = true
  ∧ ∀ j, (j < i)%nat → P (get_proc j s) = false.
Proof.
  unfold find_proc. intros H. apply fmap_Some in H as ([k p] & H & ->).
  apply list_find_Some in H as (Hp & HP & Hfirst). simpl.
  pose proof (lookup_lt_Some _ _ _ Hp) as Hlt.
  rewrite (get_proc_lookup _ _ _ Hp). split; [done|]. split; [done|].
  intros j Hj. apply not_true_is_false. eapply Hfirst; [|exact Hj].
  apply lookup_get_proc. lia.
Qed.

Lemma find_proc_None P s i : find_proc P s = None → (i < length s.(pt))%nat →
  P (get_proc i s) = false.
Proof.
  unfold find_proc. intros H Hi. apply fmap_None in H. apply list_find_None in H.
  apply not_true_is_false. apply (proj1 (Forall_lookup _ _) H i).
  by apply lookup_get_proc.
Qed.

(** ** Waking and killing *)

Lemma wakeup1_run c s : wf_table s →
  wakeup1 c s = Ret () (set_pt (wake_proc c <$> s.(pt)) s).
Proof.
  intros Hw. unfold wakeup1. apply foldM_procs; [done|]. intros i t Hi. ksteps.
  unfold wake_proc.
  destruct (is_state SLEEPING (get_proc i t) && bool_decide (p_chan (get_proc i t) = c)); ksteps.
  - by rewrite get_put_same, put_put by done.
  - by rewrite put_get.
Qed.

Lemma wakeup_run c s : wf_table s → PTABLE_LOCK ∉ s.(held) →
  wakeup c s = Ret () (set_pt (wake_proc c <$> s.(pt)) s).
Proof.
  intros Hw Hl. unfold wakeup. ksteps. kcall (wakeup1_run c (set_held (PTABLE_LOCK :: held s) s) Hw).
  by ksteps.
Qed.

Definition killed_proc (p : proc) : proc :=
  set_p_killed 1 (if is_state SLEEPING p then set_p_state RUNNABLE p else p).

Lemma kill_run pid s : wf_table s → PTABLE_LOCK ∉ s.(held) →
  kill pid s = match find_proc (has_pid pid) s with
               | Some i => Ret 0 (put_proc i (killed_proc (get_proc i s)) s)
               | None => Ret (-1) s
               end.
Proof.
  intros Hw Hl. unfold kill. ksteps.
  set (body := fun i => _). set (s1 := set_held _ s).
  assert (∀ i, (i < length (pt s))%nat → has_pid pid (get_proc i s1) = true →
    body i s1 = Ret (Some 0) (put_proc i (killed_proc (get_proc i s)) s)) as Hbody.
  { intros i Hi Hp. unfold body. ksteps. rewrite Hp. ksteps.
    unfold killed_proc, is_state. change (get_proc i s1) with (get_proc i s).
    destruct (bool_decide (p_state (get_proc i s) = SLEEPING)); ksteps;
      rewrite ?get_put_same, ?put_put by done; by destruct s. }
  assert (scanM body all_procs s1 = match find_proc (has_pid pid) s1 with
    | Some i => body i s1 | None => Ret None s1 end) as Hscan.
  { apply scanM_find; [done| |].
    - intros i Hi Hp. unfold body. ksteps. by rewrite Hp.
    - intros i Hi Hp. rewrite Hbody; eauto. by rewrite Hw. }
  unfold bind at 1. rewrite Hscan. change (find_proc _ s1) with (find_proc (has_pid pid) s).
  destruct (find_proc (has_pid pid) s) as [i|] eqn:E.
  - apply find_proc_Some in E as (Hi & Hp & _). by rewrite Hbody.
  - cbn [cbind]. ksteps. by destruct s.
Qed.

(** ** Sleeping *)

Lemma bind_switch {A B} (m : M A) (f : A → M B) s s1 k :
  m s = Switch s1 k → bind m f s = Switch s1 (fun s' => cbind (k s') f).
Proof. intros H. unfold bind. by rewrite H. Qed.

Lemma sched_switch i s : s.(curproc) = Some i → s.(held) = [PTABLE_LOCK] →
  p_state (get_proc i s) ≠ RUNNING →
  sched s = Switch s (fun s' => Ret () (set_intena s.(intena) s')).
Proof.
  intros Hc Hh Hs. unfold sched, holding, ncli, intr_enabled. ksteps. rewrite Hh, Hc.
  rewrite bool_decide_eq_true_2 by by left. cbn [negb]. ksteps. rewrite Hh.
  change (negb (Z.of_nat (length [PTABLE_LOCK]) =? 1)) with false. cbn [with_proc]. ksteps.
  unfold is_state. rewrite bool_decide_eq_false_2 by done. ksteps. rewrite Hh. by ksteps.
Qed.

(** [sched] refuses to switch while another lock is held. *)
Lemma sched_locks s : PTABLE_LOCK ∈ s.(held) → length s.(held) ≠ 1%nat →
  sched s = Panic "sched locks" s.
Proof.
  intros Hh Hn. unfold sched, holding, ncli. ksteps.
  rewrite bool_decide_eq_true_2 by done. cbn [negb]. ksteps.
  by destruct (Z.eqb_spec (Z.of_nat (length (held s))) 1); [lia|].
Qed.

(** The entry of a process asleep on [c]. *)
Definition sleeping_on (c : chan) (p : proc) : proc :=
  set_p_state SLEEPING (set_p_chan c p).

Lemma sleep_switch i c lk s : s.(curproc) = Some i → (i < length s.(pt))%nat →
  s.(held) = [lk] → lk ≠ PTABLE_LOCK →
  ∃ k, sleep c lk s =
    Switch (put_proc i (sleeping_on c (get_proc i s)) (set_held [PTABLE_LOCK] s)) k
  ∧ ∀ s2, s2.(held) = [PTABLE_LOCK] → (i < length s2.(pt))%nat →
      k s2 = Ret () (put_proc i (set_p_chan NOCHAN (get_proc i s2))
                       (set_held [lk] (set_intena s.(intena) s2))).
Proof.
  intros Hc Hi Hh Hlk. unfold sleep. ksteps. rewrite Hc.
  rewrite bool_decide_eq_true_2 by done. simpl when.
  assert ((acquire PTABLE_LOCK;; release lk) s = Ret () (set_held [PTABLE_LOCK] s)) as E1.
  { rewrite (bind_returns _ _ _ _ _ (acquire_free PTABLE_LOCK s ltac:(rewrite Hh; set_solver))).
    rewrite release_mem by (simpl; rewrite Hh; set_solver). simpl. rewrite Hh.
    unfold drop_lock. rewrite filter_cons_True, filter_cons_False by (done || intros H; done).
    done. }
  kcall E1. ksteps. rewrite get_put_same, put_put by done.
  erewrite bind_switch; [|apply (sched_switch i); [done|done|by rewrite get_put_same]].
  eexists. split; [done|]. intros s2 Hh2 Hi2. cbn [cbind]. ksteps.
  rewrite (bind_returns _ _ _ _ _ (release_head PTABLE_LOCK []
    (put_proc i (set_p_chan NOCHAN (get_proc i (set_intena (intena s) s2))) (set_intena (intena s) s2))
    Hh2 ltac:(set_solver))).
  by rewrite acquire_free by (simpl; set_solver).
Qed.

(** C18: [sleep] switches away with the process asleep on its channel and only
    [ptable.lock] held; a [wakeup] of the channel then makes the process
    runnable; when it is resumed it has left the channel and holds its own
    lock again. *)
Theorem sleep_wakeup i c lk s : s.(curproc) = Some i → wf_table s → (i < NPROC)%nat →
  s.(held) = [lk] → lk ≠ PTABLE_LOCK →
  ∃ s1 k, sleep c lk s = Switch s1 k
  ∧ s1.(held) = [PTABLE_LOCK]
  ∧ get_proc i s1 = sleeping_on c (get_proc i s)
  ∧ (∀ j, j ≠ i → get_proc j s1 = get_proc j s)
  ∧ (∃ s2, wakeup1 c s1 = Ret () s2 ∧ p_state (get_proc i s2) = RUNNABLE
           ∧ p_justwoken (get_proc i s2) = 1)
  ∧ (∀ s3, s3.(held) = [PTABLE_LOCK] → wf_table s3 →
       ∃ s4, k s3 = Ret () s4 ∧ s4.(held) = [lk] ∧ p_chan (get_proc i s4) = NOCHAN).
Proof.
  intros Hc Hw Hi Hh Hlk. rewrite <- Hw in Hi.
  destruct (sleep_switch i c lk s Hc Hi Hh Hlk) as (k & E & Hk).
  eexists _, k. split; [exact E|]. split; [done|].
  split; [by rewrite get_put_same|]. split; [intros j Hj; by rewrite get_put_ne|]. split.
  - eexists. split; [apply wakeup1_run; unfold wf_table; simpl; by rewrite length_insert|].
    rewrite get_proc_map, get_put_same by (rewrite ?length_put; done).
    unfold wake_proc, sleeping_on, is_state. simpl.
    by rewrite bool_decide_eq_true_2.
  - intros s3 Hh3 Hw3. eexists. split; [apply Hk; [done|by rewrite Hw3, <- Hw]|].
    split; [done|]. rewrite get_put_same; [done|]. simpl. by rewrite Hw3, <- Hw.
Qed.

(** ** Invariants of single entries

    A property [P] of table entries that does not depend on the fields the
    scheduler writes holds of all entries in every state an operation of this
    file reaches. *)

Class SchedStable (P : proc → Prop) : Prop := {
  stable_proc0 : P proc0;
  stable_state : ∀ p v, P p → P (set_p_state v p);
  stable_chan : ∀ p v, P p → P (set_p_chan v p);
  stable_killed : ∀ p v, P p → P (set_p_killed v p);
  stable_justwoken : ∀ p v, P p → P (set_p_justwoken v p)
}.

Definition each_proc (P : proc → Prop) (s : kstate) : Prop := Forall P s.(pt).

Section entries.
Context (P : proc → Prop) `{!SchedStable P}.

Lemma each_get i s : each_proc P s → P (get_proc i s).
Proof.
  intros H. unfold get_proc. rewrite list_lookup_total_alt.
  destruct (pt s !! i) as [p|] eqn:E; simpl; [|apply stable_proc0].
  by apply (proj1 (Forall_lookup _ _) H i).
Qed.

Lemma each_put i p s : each_proc P s → P p → each_proc P (put_proc i p s).
Proof. intros H Hp. unfold each_proc. simpl. by apply Forall_insert. Qed.

Lemma each_getp i : preserves (each_proc P) (getp i) P.
Proof. apply preserves_get. intros. by apply each_get. Qed.

Lemma each_modp i f : (∀ p, P p → P (f p)) → preserves (each_proc P) (modp i f) (fun _ => True).
Proof. intros Hf. apply preserves_modify; [|done]. intros s Hs. apply each_put; auto using each_get. Qed.

Lemma each_modify f : (∀ s, pt (f s) = pt s) →
  preserves (J := ujump) (each_proc P) (modify f) (fun _ => True).
Proof. intros Hf. apply preserves_modify; [|done]. intros s Hs. unfold each_proc. by rewrite Hf. Qed.

Lemma each_get_any {A} (f : kstate → A) : preserves (J := ujump) (each_proc P) (get f) (fun _ => True).
Proof. by apply preserves_get. Qed.

Lemma each_holding l : preserves (each_proc P) (holding l) (fun _ => True).
Proof. by apply preserves_get. Qed.

Lemma each_acquire l : preserves (each_proc P) (acquire l) (fun _ => True).
Proof.
  unfold acquire. eapply preserves_bind; [apply each_holding|]. intros [|] _.
  - apply preserves_panic.
  - by apply each_modify.
Qed.

Lemma each_release l : preserves (each_proc P) (release l) (fun _ => True).
Proof.
  unfold release. eapply preserves_bind; [apply each_holding|]. intros [|] _.
  - by apply each_modify.
  - apply preserves_panic.
Qed.

Lemma each_myproc : preserves (each_proc P) myproc (fun _ => True).
Proof. by apply preserves_get. Qed.

Lemma each_swtch : preserves (each_proc P) swtch (fun _ => True).
Proof. intros s Hs. simpl. auto. Qed.
End entries.

#[export] Hint Resolve each_getp each_acquire each_release each_holding each_myproc
  each_swtch each_get_any : preserves.

Ltac stable_entry := intros; repeat first
  [ assumption | apply stable_state | apply stable_chan | apply stable_killed
  | apply stable_justwoken | solve [auto with preserves] ].

#[export] Hint Extern 2 (preserves (each_proc _) (modp _ _) _) =>
  apply each_modp; [typeclasses eauto|stable_entry; fail] : preserves.
#[export] Hint Extern 2 (preserves (each_proc _) (modify _) _) =>
  apply each_modify; done : preserves.

Section entries_ops.
Context (P : proc → Prop) `{!SchedStable P}.

Lemma each_sched : preserves (each_proc P) sched (fun _ => True).
Proof. unfold sched, with_proc, null_deref. pres. Qed.

Lemma each_wakeup1 c : preserves (each_proc P) (wakeup1 c) (fun _ => True).
Proof. unfold wakeup1. pres. Qed.

Lemma each_kill pid : preserves (each_proc P) (kill pid) (fun _ => True).
Proof. unfold kill. pres. Qed.
End entries_ops.

#[export] Hint Resolve each_sched each_wakeup1 each_kill : preserves.

(** ** Instances *)

Lemma sleep_wakeup_witness :
  ∃ s1 k, sleep CH_TICKS TICKS_LOCK (set_held [TICKS_LOCK] demo) = Switch s1 k
  ∧ s1.(held) = [PTABLE_LOCK].
Proof.
  destruct (sleep_wakeup 1 CH_TICKS TICKS_LOCK (set_held [TICKS_LOCK] demo))
    as (s1 & k & E & Hh & _); [done|done|unfold NPROC; lia|done|done|]. by exists s1, k.
Defined.
