(* ===== verification/Signal.v ===== *)
(** * Signals, [signal.c]

    Sending ([Kill], [raise]), masking ([sigsetmask], [sigblock], ...),
    handler registration ([signal]), delivery ([issig], [psig]) and the return
    from a handler ([kernel_sigreturn]). *)

From stdpp Require Import base numbers option list sets strings relations.
From Stdlib Require Import ZArith Lia.
From S2P Require Import Prelude Kstring State Locks Console Kalloc Proc.

(** ** Default dispositions *)

Definition TERM : Z := 1.
Definition IGNORE : Z := 2.
Definition CORE : Z := 3.
Definition CONT : Z := 4.
Definition STOP : Z := 5.

Definition def_disposition : list Z :=
  [0; TERM; TERM; CORE; CORE; 0; CORE; 0; CORE; TERM; TERM; CORE; TERM; TERM; TERM; TERM; 0;
   IGNORE; CONT; STOP; STOP; STOP; STOP] ++ replicate 9 0.

Definition stopsig : list Z := [19; 20; 21; 22].
Definition coresig : list Z := [SIGQUIT; SIGABRT; SIGILL; SIGFPE; SIGSEGV].
Definition termsig : list Z := [SIGHUP; SIGINT; SIGPIPE; SIGALRM; SIGTERM; SIGUSR1; SIGUSR2].

(** ** Delivery *)

(** Pending signals that are not blocked. *)
Definition issig (p : proc) : Z := Z.land p.(p_sigpending) (not32 p.(p_sigblocked)).

Definition ign : M Z := ret 0.

Definition state_name (st : procstate) : list Z :=
  chars match st with
        | UNUSED => "unused"
        | EMBRYO => "embryo"
        | SLEEPING => "sleep "
        | RUNNABLE => "runble"
        | RUNNING => "run   "
        | ZOMBIE => "zombie"
        end.

(** The C string in a character array. *)
Fixpoint cstring (l : list Z) : list Z :=
  match l with
  | [] => []
  | c :: l => if c =? 0 then [] else c :: cstring l
  end.

(** [for(i=0; i<10 && pc[i] != 0; i++) cprintf(" %p", pc[i]);] *)
Fixpoint print_pcs (pc : list Z) : M unit :=
  match pc with
  | [] => ret ()
  | a :: pc => if a =? 0 then ret () else cprintf " %p" [AInt a];; print_pcs pc
  end.

Definition coredump : M unit :=
  o <- myproc;;
  with_proc o (fun i =>
  p <- getp i;;
  when (negb (is_state UNUSED p))
    (cprintf "%d %s %s"
       [AInt p.(p_pid); AStr (Some (state_name p.(p_state))); AStr (Some (cstring p.(p_name)))];;
     when (is_state SLEEPING p)
       (m <- get mem;;
        print_pcs (getcallerpcs m (u32 (p.(p_context).(ctx_ebp) + 8)))));;
  cprintf nl []).

(** [core] and [term] set [*done], which the callers below keep as the result. *)
Definition core (i : nat) : M Z :=
  coredump;;
  release PTABLE_LOCK;;
  p <- getp i;;
  kill p.(p_pid);;
  acquire PTABLE_LOCK;;
  ret 1.

Definition term (i : nat) : M Z :=
  release PTABLE_LOCK;;
  p <- getp i;;
  kill p.(p_pid);;
  acquire PTABLE_LOCK;;
  ret 1.

Definition cont (i : nat) : M unit :=
  p <- getp i;;
  when (is_state SLEEPING p)
    (modp i (set_p_state RUNNABLE);; modp i (set_p_justwoken 1)).

Definition stop (i : nat) : M Z :=
  modp i (set_p_state SLEEPING);;
  sched;;
  ret 1.

Definition disp (p : proc) (sig : Z) : Z := (p.(p_allinfo) !!! Z.to_nat sig).(disposition).

(** [(p->sigpending & (1 << sig)) == (1 << sig)] *)
Definition pending (p : proc) (sig : Z) : bool :=
  Z.land p.(p_sigpending) (bit sig) =? bit sig.

(** [(p->sigblocked & (1 << sig)) == 0] *)
Definition unblocked (p : proc) (sig : Z) : bool :=
  Z.land p.(p_sigblocked) (bit sig) =? 0.

(** Pending, not blocked, default disposition. *)
Definition dfl_due (p : proc) (sig : Z) : bool :=
  pending p sig && unblocked p sig && (disp p sig =? DFL).

Definition clear_pending (sig : Z) (p : proc) : proc :=
  set_p_sigpending (Z.land p.(p_sigpending) (not32 (bit sig))) p.

(** The loops over [termsig] and [coresig]: act once, clear each signal. *)
Definition fatal_loop (act : nat → M Z) (i : nat) (sigs : list Z) : M Z :=
  foldM (fun called sig =>
    p <- getp i;;
    if dfl_due p sig then
      called' <- (if called =? 0 then act i else ret called);;
      modp i (clear_pending sig);;
      ret called'
    else ret called) sigs 0.

(** The loop over [stopsig]: a stop signal and SIGCONT cancel each other. *)
Definition stop_loop (i : nat) (stopcalled : Z) : M Z :=
  foldM (fun called sig =>
    p <- getp i;;
    if dfl_due p sig && dfl_due p SIGCONT then
      modp i (clear_pending SIGCONT);;
      modp i (clear_pending sig);;
      ret called
    else if dfl_due p sig then
      called' <- (if called =? 0 then stop i else ret called);;
      modp i (clear_pending sig);;
      ret called'
    else ret called) stopsig stopcalled.

(** [for(i = 1; i < 32; i++) if(userdefed & (1 << i)) break;] *)
Fixpoint first_userdefed (fuel : nat) (u i : Z) : Z :=
  match fuel with
  | O => i
  | S fuel => if Z.land u (bit i) =? bit i then i else first_userdefed fuel u (i + 1)
  end.

(** [*(uint* )(esp - k) = v] *)
Definition poke (esp k v : Z) : M unit :=
  modify (fun s => set_mem (store32 s.(mem) (u32 (esp - k)) v) s).

(** The interrupted context, the argument and the return address of the
    handler, stored below the user stack pointer. *)
Definition push_frame (tf : trapframe) (sig ra : Z) : M unit :=
  let esp := tf.(tf_esp) in
  poke esp 4 tf.(tf_ss);;
  poke esp 8 tf.(tf_esp);;
  poke esp 12 tf.(tf_eflags);;
  poke esp 16 tf.(tf_cs);;
  poke esp 20 tf.(tf_eip);;
  poke esp 24 tf.(tf_ds);;
  poke esp 28 tf.(tf_es);;
  poke esp 32 tf.(tf_fs);;
  poke esp 36 tf.(tf_gs);;
  poke esp 40 tf.(tf_eax);;
  poke esp 44 tf.(tf_ecx);;
  poke esp 48 tf.(tf_edx);;
  poke esp 52 tf.(tf_ebx);;
  poke esp 56 tf.(tf_oesp);;
  poke esp 60 tf.(tf_ebp);;
  poke esp 64 tf.(tf_esi);;
  poke esp 68 tf.(tf_edi);;
  poke esp 72 sig;;
  poke esp 76 ra.

Definition jmptohandler (handlerptr cs eflag esp ss : Z) : M Z :=
  fun s => Jump (JmpToHandler handlerptr cs eflag esp ss) s.

(** The last part of [psig]: enter the handler of the first signal with a
    user-defined handler. *)
Definition psig_user (i : nat) : M Z :=
  p <- getp i;;
  if p.(p_userdefed) =? 0 then release PTABLE_LOCK;; ret 1
  else
    let n := first_userdefed 31 p.(p_userdefed) 1 in
    push_frame p.(p_tf) n p.(p_addr_sigreturn);;
    modp i (fun p => set_p_tf (set_tf_esp (u32 (p.(p_tf).(tf_esp) - 76)) p.(p_tf)) p);;
    modp i (clear_pending n);;
    release PTABLE_LOCK;;
    p <- getp i;;
    jmptohandler (p.(p_allinfo) !!! Z.to_nat n).(handler) p.(p_tf).(tf_cs)
      p.(p_tf).(tf_eflags) p.(p_tf).(tf_esp) p.(p_tf).(tf_ss).

(** Handle the pending signals of a process. *)
Definition psig (o : option nat) : M Z :=
  match o with
  | None => ret (-1)
  | Some i =>
    acquire PTABLE_LOCK;;
    fatal_loop term i termsig;;
    fatal_loop core i coresig;;
    p <- getp i;;
    stopcalled <- (if pending p 19 then
                     c <- stop i;; modp i (clear_pending 19);; ret c
                   else ret 0);;
    p <- getp i;;
    when (dfl_due p SIGCHLD) (ign;; modp i (clear_pending 17));;
    stop_loop i stopcalled;;
    p <- getp i;;
    when (dfl_due p SIGCONT) (cont i;; modp i (clear_pending 18));;
    psig_user i
  end.

(** Restore the context saved by [push_frame]; the user stack pointer is at
    the handler's argument. *)
Definition kernel_sigreturn : M unit :=
  o <- myproc;;
  match o with
  | None => ret ()
  | Some i =>
    p <- getp i;;
    let esp := p.(p_tf).(tf_esp) in
    m <- get mem;;
    let w k := load32 m (u32 (esp + k)) in
    fun s => Jump (RestoreUser (w 4) (w 8) (w 12) (w 16) (w 20) (w 24) (w 28) (w 32)
                     (w 36) (w 40) (w 44) (w 48) (w 52) (w 56) (w 60) (w 64) (w 68)) s
  end.

(** ** Handlers *)

Definition upd_info (sig : Z) (f : handlerinfo → handlerinfo) (p : proc) : proc :=
  set_p_allinfo (alter f (Z.to_nat sig) p.(p_allinfo)) p.

(** The critical section of [signal]. *)
Definition signal_update (i : nat) (returnfn signum hdl : Z) : M unit :=
  p <- getp i;;
  if hdl =? SIG_IGN then
    when (disp p signum =? USERDEF)
      (modp i (fun p => set_p_userdefed (Z.land p.(p_userdefed) (not32 (bit signum))) p));;
    modp i (upd_info signum (set_disposition IGN))
  else if hdl =? SIG_DFL then
    when (disp p signum =? USERDEF)
      (modp i (fun p => set_p_userdefed (Z.land p.(p_userdefed) (not32 (bit signum))) p));;
    modp i (upd_info signum (set_disposition DFL))
  else
    modp i (upd_info signum (set_disposition USERDEF));;
    modp i (fun p => set_p_userdefed (Z.lor p.(p_userdefed) (bit signum)) p);;
    modp i (upd_info signum (set_handler hdl));;
    modp i (set_p_addr_sigreturn returnfn).

(** Register a handler; returns the previous one. *)
Definition signal (returnfn signum hdl : Z) : M Z :=
  if (signum <=? 0) || (CURRNUM <? signum) then ret SIG_ERR else
  if (signum =? SIGKILL) || (signum =? SIGSTOP) then ret SIG_ERR else
  o <- myproc;;
  match o with
  | None => ret SIG_ERR
  | Some i =>
    p <- getp i;;
    let prev :=
      if disp p signum =? USERDEF then (p.(p_allinfo) !!! Z.to_nat signum).(handler)
      else if disp p signum =? IGN then SIG_IGN else SIG_DFL in
    acquire PTABLE_LOCK;;
    modp i (set_p_addr_sigreturn 0);;
    signal_update i returnfn signum hdl;;
    release PTABLE_LOCK;;
    ret prev
  end.

(** ** Sending *)

Definition post (sig : Z) (p : proc) : proc :=
  set_p_sigpending (Z.lor p.(p_sigpending) (bit sig)) p.

(** The body of the search loop of [Kill]: [None] is [continue], [Some r] is
    [return r] (or [break], after which [Kill] returns 0). *)
Definition Kill_body (cur : nat) (minusone : bool) (pid sig : Z) (i : nat) : M (option Z) :=
  let continue_or_return : M (option Z) := if minusone then ret None else ret (Some 0) in
  p <- getp i;;
  if p.(p_pid) =? 1 then ret None else
  if minusone || (p.(p_pid) =? pid) then
    c <- getp cur;;
    let receiver_pl := Z.land p.(p_tf).(tf_cs) DPL_USER in
    let sender_pl := Z.land c.(p_tf).(tf_cs) DPL_USER in
    if negb (receiver_pl =? 3) && (sender_pl =? 3) then continue_or_return else
    acquire PTABLE_LOCK;;
    if sig =? SIGKILL then
      release PTABLE_LOCK;;
      kill p.(p_pid);;
      continue_or_return
    else if (sig =? SIGCHLD) && (disp p SIGCHLD =? DFL) then
      release PTABLE_LOCK;;
      continue_or_return
    else if sig =? SIGCONT then
      when (is_state SLEEPING p)
        (modp i (set_p_state RUNNABLE);; modp i (set_p_justwoken 1));;
      when (negb (disp p SIGCONT =? DFL) && negb (disp p SIGCONT =? IGN)) (modp i (post sig));;
      release PTABLE_LOCK;;
      continue_or_return
    else
      when (negb (disp p sig =? IGN) && negb (sig =? 0)) (modp i (post sig));;
      release PTABLE_LOCK;;
      continue_or_return
  else ret None.

(** Send [sig] to the process [pid], or to all with [pid] = -1. *)
Definition Kill (pid sig : Z) : M Z :=
  if (sig <=? 0) || (CURRNUM <? sig) then ret (-1) else
  if (pid =? 1) || (pid =? 0) || (pid <? -1) then
    cprintf (String.append "Operation not allowed" (String (Ascii.ascii_of_nat 10) EmptyString)) [];;
    ret 0
  else
    o <- myproc;;
    match o with
    | None => ret (-1)
    | Some cur =>
      r <- scanM (Kill_body cur (pid =? -1) pid sig) all_procs;;
      match r with Some v => ret v | None => ret 0 end
    end.

Definition raise (sig : Z) : M Z :=
  o <- myproc;;
  match o with
  | None => ret (-1)
  | Some i => p <- getp i;; Kill p.(p_pid) sig
  end.

(** ** Masks *)

Definition siggetmask : M Z :=
  o <- myproc;;
  match o with
  | None => ret (u32 (-1))
  | Some i =>
    acquire PTABLE_LOCK;;
    p <- getp i;;
    release PTABLE_LOCK;;
    ret p.(p_sigblocked)
  end.

Definition sigsetmask (mask : Z) : M Z :=
  if truthy (Z.land mask (bit SIGKILL)) || truthy (Z.land mask (bit SIGSTOP))
     || truthy (Z.land mask (bit SIGCONT)) then ret 0 else
  if truthy (Z.land mask 1) then ret 0 else
  o <- myproc;;
  match o with
  | None => ret (u32 (-1))
  | Some i =>
    acquire PTABLE_LOCK;;
    modp i (set_p_sigblocked mask);;
    release PTABLE_LOCK;;
    ret mask
  end.

Definition sigblock (sig : Z) : M Z :=
  if (sig <=? 0) || (CURRNUM <? sig) then ret (u32 (-1)) else
  if (sig =? SIGKILL) || (sig =? SIGSTOP) || (sig =? SIGCONT) then ret 0 else
  mask <- siggetmask;;
  sigsetmask (Z.lor mask (bit sig)).

Definition sigunblock (sig : Z) : M Z :=
  if (sig <=? 0) || (CURRNUM <? sig) then ret (u32 (-1)) else
  if (sig =? SIGKILL) || (sig =? SIGSTOP) then ret 0 else
  mask <- siggetmask;;
  sigsetmask (Z.land mask (not32 (bit sig))).

(** ** The signal invariant of a process *)

(** SIGKILL, SIGSTOP and SIGCONT (and the unused bit 0) are never blocked;
    SIGKILL is never left pending; SIGKILL and SIGSTOP keep their default
    disposition; [userdefed] is the set of signals with a handler. *)
Record sig_ok (p : proc) : Prop := {
  so_pending : word p.(p_sigpending);
  so_blocked : word p.(p_sigblocked);
  so_userdefed : word p.(p_userdefed);
  so_info : length p.(p_allinfo) = NUMSIG;
  so_unmaskable : ∀ sig, sig ∈ [0; SIGKILL; SIGCONT; SIGSTOP] →
    Z.testbit p.(p_sigblocked) sig = false;
  so_nokill : ∀ sig, sig ∈ [0; SIGKILL] → Z.testbit p.(p_sigpending) sig = false;
  so_fixed : disp p SIGKILL = DFL ∧ disp p SIGSTOP = DFL;
  so_handlers : ∀ sig, 0 <= sig < 32 →
    Z.testbit p.(p_userdefed) sig = (disp p sig =? USERDEF);
  so_disp : ∀ sig, 0 <= sig < 32 → disp p sig ∈ [DFL; IGN; USERDEF]
}.

#[global] Instance sig_ok_stable : SchedStable sig_ok.
Proof.
  split; try (intros p v []; split; done).
  assert (∀ sig, 0 <= sig < 32 → disp proc0 sig = DFL) as Hd.
  { intros sig Hs. unfold disp. change (p_allinfo proc0) with (replicate NUMSIG hi0).
    rewrite list_lookup_total_alt, lookup_replicate_2; [done|]. unfold NUMSIG. lia. }
  split; simpl; try done.
  - intros sig _. apply Z.testbit_0_l.
  - intros sig _. apply Z.testbit_0_l.
  - intros sig Hs. by rewrite Hd, Z.testbit_0_l.
  - intros sig Hs. rewrite Hd by done. by left.
Qed.

Lemma sig_ok_clear sig p : sig_ok p → sig_ok (clear_pending sig p).
Proof.
  intros []. split; try done.
  - apply land_word; [done|]. apply not32_word.
  - intros k Hk. simpl. rewrite Z.land_spec, so_nokill0 by done. done.
Qed.

Lemma sig_ok_post sig p : 0 < sig < 32 → sig ≠ SIGKILL → sig_ok p → sig_ok (post sig p).
Proof.
  intros Hs Hk []. split; try done.
  - apply lor_word; [done|]. apply bit_word.
  - intros k Hin. simpl. unfold SIGKILL in *.
    assert (k = 0 ∨ k = 9) as Hk' by (rewrite !elem_of_cons in Hin; destruct Hin as [|[|?%elem_of_nil]]; auto; done).
    rewrite testbit_set, so_nokill0 by (done || lia). simpl.
    destruct (Z.eqb_spec sig k); [lia|done].
Qed.

Lemma sig_ok_mask mask p : word mask →
  (∀ sig, sig ∈ [0; SIGKILL; SIGCONT; SIGSTOP] → Z.testbit mask sig = false) →
  sig_ok p → sig_ok (set_p_sigblocked mask p).
Proof. intros Hw Hm []. by split. Qed.

Lemma sig_ok_tf tf p : sig_ok p → sig_ok (set_p_tf tf p).
Proof. intros []. by split. Qed.

(** ** Registration *)

(** The handler [signal] reports as the previous one. *)
Definition prev_handler (p : proc) (signum : Z) : Z :=
  if disp p signum =? USERDEF then (p.(p_allinfo) !!! Z.to_nat signum).(handler)
  else if disp p signum =? IGN then SIG_IGN else SIG_DFL.

(** The table entry after a successful [signal]. *)
Definition signal_entry (returnfn signum hdl : Z) (p : proc) : proc :=
  let drop p := if disp p signum =? USERDEF
                then set_p_userdefed (Z.land p.(p_userdefed) (not32 (bit signum))) p else p in
  let p := set_p_addr_sigreturn 0 p in
  if hdl =? SIG_IGN then upd_info signum (set_disposition IGN) (drop p)
  else if hdl =? SIG_DFL then upd_info signum (set_disposition DFL) (drop p)
  else
    let p := upd_info signum (set_disposition USERDEF) p in
    let p := set_p_userdefed (Z.lor p.(p_userdefed) (bit signum)) p in
    set_p_addr_sigreturn returnfn (upd_info signum (set_handler hdl) p).

Definition signum_ok (n : Z) : Prop := 0 < n <= CURRNUM ∧ n ≠ SIGKILL ∧ n ≠ SIGSTOP.

Lemma signal_update_run i r n h s : (i < length s.(pt))%nat →
  p_addr_sigreturn (get_proc i s) = 0 →
  signal_update i r n h s = Ret () (put_proc i (signal_entry r n h (get_proc i s)) s).
Proof.
  intros Hi Hz. unfold signal_update, signal_entry. ksteps.
  replace (set_p_addr_sigreturn 0 (get_proc i s)) with (get_proc i s)
    by (destruct (get_proc i s); simpl in Hz; by subst).
  destruct (h =? SIG_IGN); [|destruct (h =? SIG_DFL)];
    try destruct (disp (get_proc i s) n =? USERDEF); ksteps;
    by rewrite ?get_put_same, ?put_put, ?get_put_same, ?put_put by (rewrite ?length_put; done).
Qed.

Lemma signal_update_ge i r n h s : (length s.(pt) <= i)%nat → signal_update i r n h s = Ret () s.
Proof.
  intros Hi. unfold signal_update. ksteps.
  destruct (h =? SIG_IGN); [|destruct (h =? SIG_DFL)];
    try destruct (disp (get_proc i s) n =? USERDEF); ksteps;
    by rewrite !put_ge by (rewrite ?length_put; done).
Qed.

Lemma signal_run r n h s i : signum_ok n → s.(curproc) = Some i → PTABLE_LOCK ∉ s.(held) →
  signal r n h s = Ret (prev_handler (get_proc i s) n)
                       (put_proc i (signal_entry r n h (get_proc i s)) s).
Proof.
  intros (Hn & Hk & Hst) Hc Hl. unfold signal.
  replace ((n <=? 0) || (CURRNUM <? n)) with false by lia.
  replace ((n =? SIGKILL) || (n =? SIGSTOP)) with false by lia.
  ksteps. rewrite Hc. ksteps. fold (prev_handler (get_proc i s) n).
  destruct (decide (i < length (pt s))%nat) as [Hi|Hi].
  - rewrite (bind_returns _ _ _ _ _ (signal_update_run i r n h
      (put_proc i (set_p_addr_sigreturn 0 (get_proc i s)) (set_held (PTABLE_LOCK :: held s) s))
      ltac:(by rewrite length_put) ltac:(by rewrite get_put_same))).
    rewrite get_put_same, put_put by done. by ksteps.
  - rewrite !put_ge by (simpl; lia).
    rewrite (bind_returns _ _ _ _ _ (signal_update_ge i r n h
      (set_held (PTABLE_LOCK :: held s) s) ltac:(simpl; lia))).
    ksteps. by destruct s.
Qed.

Lemma disp_upd n f p k : 0 <= n < 32 → 0 <= k < 32 → length p.(p_allinfo) = NUMSIG →
  disp (upd_info n f p) k =
  if n =? k then disposition (f (p.(p_allinfo) !!! Z.to_nat n)) else disp p k.
Proof.
  unfold NUMSIG. intros Hn Hk Hl. unfold disp, upd_info. simpl.
  destruct (Z.eqb_spec n k) as [->|Hne].
  - by rewrite list_lookup_total_alter_eq by lia.
  - rewrite list_lookup_total_alter_ne; [done|]. intros ?%Z2Nat.inj; lia.
Qed.

Lemma signal_entry_fields r n h p :
  let q := signal_entry r n h p in
  p_sigpending q = p_sigpending p ∧ p_sigblocked q = p_sigblocked p ∧
  length (p_allinfo q) = length (p_allinfo p).
Proof.
  unfold signal_entry.
  destruct (h =? SIG_IGN); [|destruct (h =? SIG_DFL)]; try destruct (disp _ _ =? USERDEF);
    simpl; by rewrite ?length_alter.
Qed.

(** What [signal] asks for. *)
Definition new_disp (h : Z) : Z :=
  if h =? SIG_IGN then IGN else if h =? SIG_DFL then DFL else USERDEF.

Lemma signal_entry_disp r n h p k : signum_ok n → 0 <= k < 32 → length p.(p_allinfo) = NUMSIG →
  disp (signal_entry r n h p) k = if n =? k then new_disp h else disp p k.
Proof.
  intros (Hn & _) Hk Hl. unfold CURRNUM in Hn. unfold signal_entry, new_disp.
  destruct (h =? SIG_IGN); [|destruct (h =? SIG_DFL)]; try destruct (disp _ _ =? USERDEF);
    try (rewrite disp_upd by (done || lia); by destruct (n =? k)).
  change (disp (set_p_addr_sigreturn r ?q) k) with (disp q k).
  rewrite disp_upd by (simpl; rewrite ?length_alter; done || lia).
  destruct (n =? k) eqn:E; simpl.
  - by rewrite list_lookup_total_alter_eq by (rewrite Hl; unfold NUMSIG; lia).
  - change (disp (set_p_userdefed ?u ?q) k) with (disp q k).
    rewrite disp_upd by (done || lia). by rewrite E.
Qed.

Lemma signal_entry_userdefed r n h p k : signum_ok n → 0 <= k < 32 → sig_ok p →
  Z.testbit (p_userdefed (signal_entry r n h p)) k =
  if n =? k then new_disp h =? USERDEF else Z.testbit p.(p_userdefed) k.
Proof.
  intros (Hn & _) Hk Hp. unfold CURRNUM in Hn. unfold signal_entry, new_disp.
  pose proof (so_handlers _ Hp n ltac:(lia)) as Hu.
  change (disp (set_p_addr_sigreturn 0 p) n) with (disp p n).
  destruct (h =? SIG_IGN); [|destruct (h =? SIG_DFL)];
    try (destruct (disp p n =? USERDEF); simpl; rewrite ?testbit_clear by lia;
         destruct (Z.eqb_spec n k) as [<-|]; simpl; rewrite ?andb_true_r, ?andb_false_r; done).
  simpl. rewrite testbit_set by lia. destruct (n =? k); simpl; by rewrite ?orb_true_r, ?orb_false_r.
Qed.

Lemma sig_ok_signal_entry r n h p : signum_ok n → sig_ok p → sig_ok (signal_entry r n h p).
Proof.
  intros Hn Hp. destruct (signal_entry_fields r n h p) as (Hpe & Hbl & Hle).
  pose proof Hp as []. pose proof Hn as (Hr & Hk & Hs).
  split; rewrite ?Hpe, ?Hbl, ?Hle; try done.
  - unfold signal_entry.
    destruct (h =? SIG_IGN); [|destruct (h =? SIG_DFL)]; try destruct (disp _ _ =? USERDEF);
      simpl; try apply land_word; try apply lor_word; auto using bit_word; apply not32_word.
  - rewrite !signal_entry_disp by (done || unfold SIGKILL, SIGSTOP; lia).
    by rewrite (proj2 (Z.eqb_neq n SIGKILL)), (proj2 (Z.eqb_neq n SIGSTOP)) by done.
  - intros k Hk'. rewrite signal_entry_userdefed, signal_entry_disp by done.
    destruct (n =? k); [done|auto].
  - intros k Hk'. rewrite signal_entry_disp by done. destruct (n =? k); [|auto].
    unfold new_disp. rewrite !elem_of_cons. destruct (h =? SIG_IGN), (h =? SIG_DFL); auto.
Qed.

(** ** Masks *)

Lemma truthy_land_bit x i : 0 <= i < 32 → truthy (Z.land x (bit i)) = Z.testbit x i.
Proof. intros Hi. unfold truthy. rewrite land_bit_clear by done. apply negb_involutive. Qed.

(** The masks [sigsetmask] refuses. *)
Definition mask_refused (mask : Z) : bool :=
  Z.testbit mask SIGKILL || Z.testbit mask SIGSTOP || Z.testbit mask SIGCONT || Z.testbit mask 0.

Lemma sigsetmask_unfold mask : ∀ s, sigsetmask mask s =
  (if mask_refused mask then ret 0 else
   o <- myproc;;
   match o with
   | None => ret (u32 (-1))
   | Some i =>
     acquire PTABLE_LOCK;; modp i (set_p_sigblocked mask);; release PTABLE_LOCK;; ret mask
   end) s.
Proof.
  intros s. unfold sigsetmask, mask_refused. rewrite !truthy_land_bit by (unfold SIGKILL, SIGSTOP, SIGCONT; lia).
  change 1 with (bit 0) at 1. rewrite truthy_land_bit by lia.
  by destruct (Z.testbit mask SIGKILL || Z.testbit mask SIGSTOP || Z.testbit mask SIGCONT),
    (Z.testbit mask 0).
Qed.

Lemma mask_refused_false mask sig : mask_refused mask = false →
  sig ∈ [0; SIGKILL; SIGCONT; SIGSTOP] → Z.testbit mask sig = false.
Proof.
  unfold mask_refused. rewrite !orb_false_iff, !elem_of_cons.
  intros [[[? ?] ?] ?] [->|[->|[->|[->|?%elem_of_nil]]]]; done.
Qed.

(** ** Invariants of the signal operations *)

(** A property of table entries that the operations of this file preserve. *)
Class SigStable (P : proc → Prop) : Prop := {
  sig_sched :: SchedStable P;
  sig_clear : ∀ sig p, P p → P (clear_pending sig p);
  sig_tf : ∀ tf p, P p → P (set_p_tf tf p);
  sig_post : ∀ sig p, 0 < sig < 32 → sig ≠ SIGKILL → P p → P (post sig p);
  sig_mask : ∀ mask p, word mask →
    (∀ sig, sig ∈ [0; SIGKILL; SIGCONT; SIGSTOP] → Z.testbit mask sig = false) →
    P p → P (set_p_sigblocked mask p);
  sig_blocked : ∀ p, P p → word p.(p_sigblocked);
  sig_entry : ∀ r n h p, signum_ok n → P p → P (signal_entry r n h p)
}.

#[global] Instance sig_ok_sigstable : SigStable sig_ok.
Proof.
  split; [apply _| | | | | |].
  - apply sig_ok_clear.
  - apply sig_ok_tf.
  - apply sig_ok_post.
  - apply sig_ok_mask.
  - apply so_blocked.
  - apply sig_ok_signal_entry.
Qed.

Ltac stable_entry ::= intros; repeat first
  [ assumption | apply stable_state | apply stable_chan | apply stable_killed
  | apply stable_justwoken | apply sig_clear | apply sig_tf | solve [auto with preserves] ].

#[export] Hint Resolve sig_sched : preserves.

Section sig_stable.
Context (P : proc → Prop) `{!SigStable P}.


Lemma each_cprintf fmt args : preserves (each_proc P) (cprintf fmt args) (fun _ => True).
Proof. unfold cprintf, consputs. pres. Qed.
#[local] Hint Resolve each_cprintf : preserves.

Lemma each_print_pcs pc : preserves (each_proc P) (print_pcs pc) (fun _ => True).
Proof. induction pc as [|a pc IH]; simpl; pres. Qed.
#[local] Hint Resolve each_print_pcs : preserves.

Lemma each_coredump : preserves (each_proc P) coredump (fun _ => True).
Proof. unfold coredump, with_proc, null_deref. pres. Qed.
#[local] Hint Resolve each_coredump : preserves.

Lemma each_term i : preserves (each_proc P) (term i) (fun _ => True).
Proof. unfold term. pres. Qed.

Lemma each_core i : preserves (each_proc P) (core i) (fun _ => True).
Proof. unfold core. pres. Qed.

Lemma each_stop i : preserves (each_proc P) (stop i) (fun _ => True).
Proof. unfold stop. pres. Qed.

Lemma each_cont i : preserves (each_proc P) (cont i) (fun _ => True).
Proof. unfold cont. pres. Qed.
#[local] Hint Resolve each_term each_core each_stop each_cont : preserves.

Lemma each_fatal_loop act i sigs :
  preserves (each_proc P) (act i) (fun _ => True) →
  preserves (each_proc P) (fatal_loop act i sigs) (fun _ => True).
Proof. intros H. unfold fatal_loop. pres. Qed.

Lemma each_stop_loop i c : preserves (each_proc P) (stop_loop i c) (fun _ => True).
Proof. unfold stop_loop. pres. Qed.

Lemma each_poke esp k v : preserves (each_proc P) (poke esp k v) (fun _ => True).
Proof. unfold poke. pres. Qed.
#[local] Hint Resolve each_fatal_loop each_stop_loop each_poke : preserves.

Lemma each_push_frame tf sig ra : preserves (each_proc P) (push_frame tf sig ra) (fun _ => True).
Proof. unfold push_frame. pres. Qed.
#[local] Hint Resolve each_push_frame : preserves.

Lemma each_psig_user i : preserves (each_proc P) (psig_user i) (fun _ => True).
Proof. unfold psig_user, jmptohandler. pres. by intros s Hs. Qed.
#[local] Hint Resolve each_psig_user : preserves.

Lemma each_psig o : preserves (each_proc P) (psig o) (fun _ => True).
Proof. unfold psig, ign. pres. Qed.

Lemma each_sigsetmask mask : word mask →
  preserves (each_proc P) (sigsetmask mask) (fun _ => True).
Proof.
  intros Hw s Hs. rewrite sigsetmask_unfold. revert s Hs.
  change (preserves (each_proc P)
    (if mask_refused mask then ret 0 else
     o <- myproc;;
     match o with
     | None => ret (u32 (-1))
     | Some i =>
       acquire PTABLE_LOCK;; modp i (set_p_sigblocked mask);; release PTABLE_LOCK;; ret mask
     end) (fun _ => True)).
  destruct (mask_refused mask) eqn:E; [by apply preserves_ret|].
  pres. apply each_modp; [apply _|]. intros p Hp.
  apply sig_mask; eauto using mask_refused_false.
Qed.

Lemma each_siggetmask : preserves (each_proc P) siggetmask word.
Proof.
  unfold siggetmask. pres. by apply sig_blocked.
Qed.

#[local] Hint Resolve each_siggetmask : preserves.

Lemma each_sigblock sig : preserves (each_proc P) (sigblock sig) (fun _ => True).
Proof.
  unfold sigblock. pres. apply each_sigsetmask, lor_word; [done|apply bit_word].
Qed.

Lemma each_sigunblock sig : preserves (each_proc P) (sigunblock sig) (fun _ => True).
Proof.
  unfold sigunblock. pres. apply each_sigsetmask, land_word; [done|apply not32_word].
Qed.

Lemma each_Kill_body cur mo pid sig i : 0 < sig <= CURRNUM →
  preserves (each_proc P) (Kill_body cur mo pid sig i) (fun _ => True).
Proof.
  intros Hs. unfold CURRNUM in Hs. unfold Kill_body. pres.
  all: apply each_modp; [apply _|]; intros p Hp; apply sig_post; try done; try lia.
  all: apply Z.eqb_neq; done.
Qed.

Lemma each_Kill pid sig : preserves (each_proc P) (Kill pid sig) (fun _ => True).
Proof.
  unfold Kill. destruct ((sig <=? 0) || (CURRNUM <? sig)) eqn:E; [by apply preserves_ret|].
  assert (0 < sig <= CURRNUM) by lia. pres.
  by apply each_Kill_body.
Qed.

Lemma each_raise sig : preserves (each_proc P) (raise sig) (fun _ => True).
Proof. unfold raise. pres. apply each_Kill. Qed.

Lemma each_signal r n h : preserves (each_proc P) (signal r n h) (fun _ => True).
Proof.
  intros s Hs. destruct (decide ((n <=? 0) || (CURRNUM <? n) = true)) as [E|E].
  { unfold signal. by rewrite E. }
  destruct (decide ((n =? SIGKILL) || (n =? SIGSTOP) = true)) as [E'|E'].
  { unfold signal. rewrite (not_true_is_false _ E). by rewrite E'. }
  assert (signum_ok n) as Hn by (unfold signum_ok; lia).
  destruct (curproc s) as [i|] eqn:Hc.
  2: { unfold signal. rewrite (not_true_is_false _ E), (not_true_is_false _ E').
       by rewrite bind_myproc, Hc. }
  destruct (decide (PTABLE_LOCK ∈ held s)) as [Hl|Hl].
  - unfold signal. rewrite (not_true_is_false _ E), (not_true_is_false _ E').
    rewrite bind_myproc, Hc, bind_getp. by rewrite (bind_panics _ _ _ _ _ (acquire_held _ _ Hl)).
  - rewrite (signal_run r n h s i) by done. split; [|done].
    apply each_put; [done|]. apply sig_entry; [done|]. by apply (each_get P).
Qed.
End sig_stable.

#[export] Hint Resolve sig_ok_stable sig_ok_sigstable each_cprintf each_print_pcs each_coredump each_term each_core each_stop each_cont each_fatal_loop each_stop_loop each_poke each_push_frame each_psig_user each_sigsetmask each_siggetmask each_sigblock each_sigunblock each_Kill_body each_Kill each_raise each_signal : preserves.

(** ** The interface of the signal component *)

Inductive sigcall : Type :=
| CSignal (returnfn signum hdl : Z)
| CKill (pid sig : Z)
| CRaise (sig : Z)
| CGetmask
| CSetmask (mask : Z)
| CBlock (sig : Z)
| CUnblock (sig : Z)
| CPsig (o : option nat).

Definition run_sigcall (c : sigcall) : M Z :=
  match c with
  | CSignal r n h => signal r n h
  | CKill pid sig => Kill pid sig
  | CRaise sig => raise sig
  | CGetmask => siggetmask
  | CSetmask mask => sigsetmask (u32 mask)
  | CBlock sig => sigblock sig
  | CUnblock sig => sigunblock sig
  | CPsig o => psig o
  end.

(** C1: Whatever the arguments, every signal operation keeps the signal
    invariant of all processes at each point where it returns, panics, enters
    a user handler or gives up the CPU: SIGKILL, SIGSTOP and SIGCONT cannot be
    blocked, SIGKILL and SIGSTOP keep their default disposition, SIGKILL is
    never left pending, and [userdefed] is exactly the set of signals with a
    user handler. *)
Theorem sigcall_invariant c : preserves (each_proc sig_ok) (run_sigcall c) (fun _ => True).
Proof.
  destruct c; simpl.
  - apply (each_signal sig_ok).
  - apply (each_Kill sig_ok).
  - apply (each_raise sig_ok).
  - eapply preserves_weaken; [apply (each_siggetmask sig_ok)|done].
  - apply (each_sigsetmask sig_ok), u32_word.
  - apply (each_sigblock sig_ok).
  - apply (each_sigunblock sig_ok).
  - apply (each_psig sig_ok).
Qed.

(** ** What registration does *)

Lemma signal_entry_prev r n h p : signum_ok n → length p.(p_allinfo) = NUMSIG →
  prev_handler (signal_entry r n h p) n = h.
Proof.
  intros Hn Hl. pose proof Hn as (Hr & _). unfold CURRNUM in Hr. unfold prev_handler.
  rewrite signal_entry_disp, Z.eqb_refl by (done || lia). unfold new_disp, signal_entry.
  destruct (Z.eqb_spec h SIG_IGN) as [->|]; [done|].
  destruct (Z.eqb_spec h SIG_DFL) as [->|]; [done|].
  change (USERDEF =? USERDEF) with true. cbn -[Z.to_nat].
  by rewrite list_lookup_total_alter_eq by (rewrite length_alter, Hl; unfold NUMSIG; lia).
Qed.

Lemma signal_bad r n h s : ¬ signum_ok n → signal r n h s = Ret SIG_ERR s.
Proof.
  intros Hn. unfold signal. destruct ((n <=? 0) || (CURRNUM <? n)) eqn:E1; [done|].
  destruct ((n =? SIGKILL) || (n =? SIGSTOP)) eqn:E2; [done|].
  destruct Hn. unfold signum_ok. lia.
Qed.

(** C9: [signal] refuses numbers out of range, SIGKILL and SIGSTOP and then
    changes nothing.  Otherwise it sets the disposition of that signal and of
    no other, keeps pending and blocked signals, and a second [signal] returns
    the handler (or SIG_IGN, SIG_DFL) given to the first. *)
Theorem signal_effect r n h s i : s.(curproc) = Some i → (i < length s.(pt))%nat →
  PTABLE_LOCK ∉ s.(held) → sig_ok (get_proc i s) →
  (¬ signum_ok n → signal r n h s = Ret SIG_ERR s) ∧
  (signum_ok n → ∃ prev s1, signal r n h s = Ret prev s1
   ∧ (∀ j, j ≠ i → get_proc j s1 = get_proc j s)
   ∧ let p := get_proc i s in let q := get_proc i s1 in
     p_sigpending q = p_sigpending p ∧ p_sigblocked q = p_sigblocked p
   ∧ (∀ k, 0 <= k < 32 → disp q k = if n =? k then new_disp h else disp p k)
   ∧ (∀ r' h', ∃ s2, signal r' n h' s1 = Ret h s2)).
Proof.
  intros Hc Hi Hl Hok. split; [apply signal_bad|]. intros Hn.
  rewrite (signal_run r n h s i) by done. eexists _, _. split; [done|].
  split; [intros j Hj; by rewrite get_put_ne|]. cbv zeta. rewrite get_put_same by done.
  destruct (signal_entry_fields r n h (get_proc i s)) as (H1 & H2 & _).
  split; [done|]. split; [done|]. split.
  - intros k Hk. apply signal_entry_disp; [done|done|apply Hok].
  - intros r' h'. rewrite (signal_run r' n h' _ i) by done. rewrite get_put_same by done.
    rewrite signal_entry_prev by (done || apply Hok). eauto.
Qed.

(** C10: Ignoring a signal, or setting it to its default, forgets where the
    handlers of the other signals have to return to: they are entered with the
    return address 0 from then on. *)
Theorem signal_drops_return r n h s i k : s.(curproc) = Some i → (i < length s.(pt))%nat →
  PTABLE_LOCK ∉ s.(held) → sig_ok (get_proc i s) → signum_ok n → h = SIG_IGN ∨ h = SIG_DFL →
  0 <= k < 32 → k ≠ n → disp (get_proc i s) k = USERDEF →
  ∃ prev s1, signal r n h s = Ret prev s1 ∧ disp (get_proc i s1) k = USERDEF ∧ p_addr_sigreturn (get_proc i s1) = 0.
Proof.
  intros Hc Hi Hl Hok Hn Hh Hk Hkn Hd. rewrite (signal_run r n h s i) by done. eexists _, _. split; [done|].
  rewrite get_put_same by done. split.
  - rewrite (signal_entry_disp r n h _ k Hn Hk) by apply Hok. by destruct (Z.eqb_spec n k).
  - unfold signal_entry. destruct Hh as [-> | ->]; cbn [Z.eqb SIG_IGN SIG_DFL];
      destruct (disp (set_p_addr_sigreturn 0 (get_proc i s)) n =? USERDEF); done.
Qed.

(** ** Instances *)

Lemma demo_proc_ok pid st : sig_ok (demo_proc pid st).
Proof. destruct (stable_proc0 : sig_ok proc0). by split. Qed.

Lemma demo_ok : each_proc sig_ok demo.
Proof.
  unfold each_proc. cbn [pt set_pt set_curproc set_initproc set_nextpid demo app].
  repeat (constructor; [apply demo_proc_ok|]). apply Forall_replicate, stable_proc0.
Qed.

Lemma sigcall_invariant_witness :
  safe (each_proc sig_ok) (fun _ => True) (run_sigcall (CKill 3 SIGTERM) demo).
Proof. apply (sigcall_invariant (CKill 3 SIGTERM)). apply demo_ok. Defined.

Lemma signal_effect_witness :
  signal 8192 SIGKILL 4096 demo = Ret SIG_ERR demo ∧
  ∃ prev s1 s2, signal 8192 SIGINT 4096 demo = Ret prev s1 ∧ signal 8192 SIGINT SIG_IGN s1 = Ret 4096 s2.
Proof.
  split.
  - apply (signal_effect 8192 SIGKILL 4096 demo 1);
      [done|by vm_compute; lia|apply not_elem_of_nil|apply demo_proc_ok|].
    by intros (_ & H & _).
  - destruct (signal_effect 8192 SIGINT 4096 demo 1) as [_ H];
      [done|by vm_compute; lia|apply not_elem_of_nil|apply demo_proc_ok|].
    destruct H as (prev & s1 & E & _ & _ & _ & _ & H).
    { unfold signum_ok, CURRNUM, SIGINT, SIGKILL, SIGSTOP. lia. }
    destruct (H 8192 SIG_IGN) as [s2 E2]. by exists prev, s1, s2.
Defined.

Lemma signal_drops_return_witness :
  let s := set_held [] (put_proc 1 (signal_entry 8192 SIGUSR1 4660 (demo_proc 2 RUNNING)) demo) in
  ∃ prev s1, signal 8192 SIGINT SIG_IGN s = Ret prev s1 ∧ disp (get_proc 1 s1) SIGUSR1 = USERDEF ∧
    p_addr_sigreturn (get_proc 1 s1) = 0.
Proof.
  apply (signal_drops_return 8192 SIGINT SIG_IGN _ 1 SIGUSR1); try done.
  - simpl; lia.
  - apply not_elem_of_nil.
  - apply sig_ok_signal_entry; [unfold signum_ok, CURRNUM, SIGUSR1, SIGKILL, SIGSTOP; lia|apply demo_proc_ok].
  - by left.
Defined.
