(* ===== verification/Delivery.v ===== *)
(** * Delivery of signals: what [psig] and [kernel_sigreturn] do

    Lemmas that run [psig] of [Signal.v] on a process about to return to user
    mode, and the theorems on the default actions, on stopping, on the frame
    of a user handler and on the return from it. *)

From stdpp Require Import base numbers option list sets strings relations.
From Stdlib Require Import ZArith Lia.
From S2P Require Import Prelude Kstring State Locks Console Kalloc Proc Signal.

(** ** Running a handler *)

(** Words stored below [e], the first one [4 * k] bytes below. *)
Fixpoint write_below (m : memory) (e k : Z) (l : list Z) : memory :=
  match l with
  | [] => m
  | v :: l => write_below (store32 m (u32 (e - 4 * k)) v) e (k + 1) l
  end.

Lemma load_below_other m e k l j : 0 <= j < k → k + Z.of_nat (length l) < 1000 →
  load32 (write_below m e k l) (u32 (e - 4 * j)) = load32 m (u32 (e - 4 * j)).
Proof.
  revert m k. induction l as [|v l IH]; intros m k Hj Hl; simpl in *; [done|].
  rewrite IH by lia. apply load_store_ne. rewrite u32_sub_l, u32_sub_r.
  replace (e - 4 * j - (e - 4 * k)) with (4 * (k - j)) by lia.
  rewrite u32_id by (unfold word, two32; lia). unfold two32. lia.
Qed.

Lemma load_below m e k l (i : nat) v : 0 <= k → k + Z.of_nat (length l) < 1000 →
  l !! i = Some v → load32 (write_below m e k l) (u32 (e - 4 * (k + Z.of_nat i))) = u32 v.
Proof.
  revert m k i. induction l as [|x l IH]; intros m k i Hk Hl Hi; [done|].
  destruct i as [|i]; simpl in *.
  - simplify_eq. rewrite Z.add_0_r, load_below_other by lia. apply load_store_same.
  - replace (k + Z.of_nat (S i)) with (k + 1 + Z.of_nat i) by lia. apply IH; lia || done.
Qed.

(** The saved context, from the top of the frame. *)
Definition saved_context (tf : trapframe) : list Z :=
  [tf.(tf_ss); tf.(tf_esp); tf.(tf_eflags); tf.(tf_cs); tf.(tf_eip); tf.(tf_ds); tf.(tf_es);
   tf.(tf_fs); tf.(tf_gs); tf.(tf_eax); tf.(tf_ecx); tf.(tf_edx); tf.(tf_ebx); tf.(tf_oesp);
   tf.(tf_ebp); tf.(tf_esi); tf.(tf_edi)].

Lemma push_frame_run tf sig ra s :
  push_frame tf sig ra s =
  Ret () (set_mem (write_below s.(mem) tf.(tf_esp) 1 (saved_context tf ++ [sig; ra])) s).
Proof. reflexivity. Qed.

Definition handler_of (p : proc) (n : Z) : Z := (p.(p_allinfo) !!! Z.to_nat n).(handler).

(** The signal whose handler [psig] enters. *)
Definition chosen (p : proc) : Z := first_userdefed 31 p.(p_userdefed) 1.

(** The entry of the process when its handler starts. *)
Definition in_handler (p : proc) : proc :=
  clear_pending (chosen p) (set_p_tf (set_tf_esp (u32 (p.(p_tf).(tf_esp) - 76)) p.(p_tf)) p).

Lemma psig_user_run i s ls : (i < length s.(pt))%nat → s.(held) = PTABLE_LOCK :: ls →
  PTABLE_LOCK ∉ ls →
  let p := get_proc i s in
  p.(p_userdefed) ≠ 0 →
  psig_user i s =
  Jump (JmpToHandler (handler_of p (chosen p)) p.(p_tf).(tf_cs) p.(p_tf).(tf_eflags)
          (u32 (p.(p_tf).(tf_esp) - 76)) p.(p_tf).(tf_ss))
       (put_proc i (in_handler p)
          (set_mem (write_below s.(mem) p.(p_tf).(tf_esp) 1
                      (saved_context p.(p_tf) ++ [chosen p; p.(p_addr_sigreturn)]))
             (set_held ls s))).
Proof.
  intros Hi Hh Hls p Hu. unfold psig_user. ksteps. fold p.
  destruct (Z.eqb_spec (p_userdefed p) 0) as [|_]; [done|]. fold (chosen p).
  kcall (push_frame_run (p_tf p) (chosen p) (p_addr_sigreturn p) s). ksteps.
  rewrite get_put_same, put_put by done.
  rewrite (bind_returns _ _ _ _ _ (release_head PTABLE_LOCK ls
    (put_proc i _ (set_mem _ s)) Hh Hls)). ksteps.
  unfold jmptohandler. cbn [get_proc put_proc set_held set_mem].
  change (get_proc i (set_held ls (put_proc i ?q ?t))) with (get_proc i (put_proc i q t)).
  rewrite get_put_same by done. done.
Qed.

(** ** Default actions *)

Lemma find_proc_intro P s i : (i < length s.(pt))%nat → P (get_proc i s) = true →
  (∀ j, (j < i)%nat → P (get_proc j s) = false) → find_proc P s = Some i.
Proof.
  intros Hi HP Hj. destruct (find_proc P s) as [k|] eqn:E.
  - apply find_proc_Some in E as (Hk & HPk & Hfk).
    destruct (Nat.lt_trichotomy i k) as [H|[->|H]]; [|done|].
    + by rewrite Hfk in HP.
    + by rewrite Hj in HPk.
  - by rewrite (find_proc_None _ _ _ E Hi) in HP.
Qed.

Lemma pending_bit p k : 0 <= k < 32 → pending p k = Z.testbit p.(p_sigpending) k.
Proof. apply land_bit_set. Qed.

Lemma unblocked_bit p k : 0 <= k < 32 → unblocked p k = negb (Z.testbit p.(p_sigblocked) k).
Proof. apply land_bit_clear. Qed.

(** Signal [k] would get its default action. *)
Definition at_default (p : proc) (k : Z) : bool :=
  negb (Z.testbit p.(p_sigblocked) k) && (disp p k =? DFL).

(** The entry [p] with other pending signals and kill flag: all that the
    default actions of a running process change. *)
Definition settled (p : proc) (w kd : Z) : proc := set_p_sigpending w (set_p_killed kd p).

Lemma settled_due p w kd k : 0 <= k < 32 →
  dfl_due (settled p w kd) k = Z.testbit w k && at_default p k.
Proof.
  intros Hk. unfold dfl_due, at_default. rewrite pending_bit, unblocked_bit by done.
  by rewrite andb_assoc.
Qed.

Lemma settled_id p : settled p p.(p_sigpending) p.(p_killed) = p.
Proof. by destruct p. Qed.

Definition Zin (k : Z) (l : list Z) : bool := existsb (Z.eqb k) l.

Section default_actions.
Context (i : nat) (ls : list lockid).

(** A running process about to handle its signals: it holds [ptable.lock]
    and no entry before its own has the same pid. *)
Record at_psig (s : kstate) : Prop := {
  ap_wf : wf_table s;
  ap_i : (i < length s.(pt))%nat;
  ap_cur : s.(curproc) = Some i;
  ap_held : s.(held) = PTABLE_LOCK :: ls;
  ap_running : p_state (get_proc i s) = RUNNING;
  ap_pid : ∀ j, (j < i)%nat → p_pid (get_proc j s) ≠ p_pid (get_proc i s)
}.

Hypothesis Hls : PTABLE_LOCK ∉ ls.
Hypothesis Hcons : CONS_LOCK ∉ ls.

Lemma at_psig_put s q out : at_psig s →
  p_pid q = p_pid (get_proc i s) → p_state q = RUNNING →
  at_psig (put_proc i q (set_cons_out out s)).
Proof.
  intros [] Hp Hq. split; try done.
  - unfold wf_table. by rewrite length_put.
  - by rewrite length_put.
  - by rewrite get_put_same.
  - intros j Hj. rewrite get_put_ne, get_put_same by (done || lia). rewrite Hp. by apply ap_pid0.
Qed.

Lemma self_kill s : at_psig s →
  kill (p_pid (get_proc i s)) (set_held ls s)
  = Ret 0 (put_proc i (set_p_killed 1 (get_proc i s)) (set_held ls s)).
Proof.
  intros []. rewrite kill_run by done.
  rewrite (find_proc_intro _ _ i); [| done | | ].
  - change (get_proc i (set_held ls s)) with (get_proc i s). unfold killed_proc, is_state.
    by rewrite ap_running0.
  - unfold has_pid. apply Z.eqb_refl.
  - intros j Hj. unfold has_pid. apply Z.eqb_neq. by apply ap_pid0.
Qed.

Lemma term_run s : at_psig s → term i s = Ret 1 (put_proc i (set_p_killed 1 (get_proc i s)) s).
Proof.
  intros Hs. unfold term. kcall (release_head _ ls s (ap_held _ Hs) Hls). ksteps.
  change (get_proc i (set_held ls s)) with (get_proc i s). kcall (self_kill s Hs).
  rewrite (bind_returns _ _ _ _ _ (acquire_free PTABLE_LOCK (put_proc i _ (set_held ls s)) Hls)).
  unfold ret. f_equal. destruct Hs. destruct s; simpl in *; by subst.
Qed.

Lemma coredump_run s : at_psig s → ∃ out, coredump s = Ret () (set_cons_out out s).
Proof.
  intros []. unfold coredump. rewrite bind_myproc, ap_cur0. cbn [with_proc].
  rewrite bind_getp. unfold is_state. rewrite ap_running0. simpl when.
  assert (CONS_LOCK ∉ held s) as Hc by (rewrite ap_held0; set_solver).
  eexists. unfold bind. rewrite cprintf_ok by done. cbn [cbind]. unfold ret at 1.
  cbn [cbind]. rewrite cprintf_ok by done. done.
Qed.

Lemma core_run s : at_psig s →
  ∃ out, core i s = Ret 1 (put_proc i (set_p_killed 1 (get_proc i s)) (set_cons_out out s)).
Proof.
  intros Hs. destruct (coredump_run s Hs) as (out & E). exists out. unfold core. kcall E.
  apply (term_run (set_cons_out out s)). by destruct Hs.
Qed.
(** The processes the actions act on, in terms of the entry [p] at the start. *)
Definition reaches (s : kstate) (p : proc) (w kd : Z) (t : kstate) : Prop :=
  word w ∧ ∃ out, t = put_proc i (settled p w kd) (set_cons_out out s).

Lemma reaches_get s p w kd t : (i < length s.(pt))%nat → reaches s p w kd t →
  get_proc i t = settled p w kd.
Proof. intros Hi (_ & out & ->). by rewrite get_put_same. Qed.

Lemma reaches_at s w kd t : at_psig s → reaches s (get_proc i s) w kd t → at_psig t.
Proof. intros Hs (_ & out & ->). apply at_psig_put; [done|done|]. apply Hs. Qed.

Lemma reaches_put s p w kd t w' kd' out : reaches s p w kd t → word w' →
  reaches s p w' kd' (put_proc i (settled p w' kd') (set_cons_out out t)).
Proof.
  intros (_ & out' & ->) Hw. split; [done|]. exists out.
  unfold put_proc. simpl. by rewrite list_insert_insert_eq.
Qed.

(** An action that kills the process and prints. *)
Definition kills (act : nat → M Z) : Prop := ∀ s, at_psig s →
  ∃ out, act i s = Ret 1 (put_proc i (set_p_killed 1 (get_proc i s)) (set_cons_out out s)).

Definition clear_bit (w k : Z) : Z := Z.land w (not32 (bit k)).

Lemma fatal_step act called s w kd t sig : kills act → at_psig s →
  reaches s (get_proc i s) w kd t → 0 <= sig < 32 → (called = 0 ∨ kd = 1) →
  ∃ called' t', (p <- getp i;;
    if dfl_due p sig then
      called' <- (if called =? 0 then act i else ret called);;
      modp i (clear_pending sig);;
      ret called'
    else ret called) t = Ret called' t'
  ∧ (if Z.testbit w sig && at_default (get_proc i s) sig
     then called' ≠ 0 ∧ reaches s (get_proc i s) (clear_bit w sig) 1 t'
     else called' = called ∧ t' = t).
Proof.
  intros Hact Hs Ht Hsig Hc. set (p := get_proc i s) in *.
  pose proof (ap_i _ Hs) as Hi. rewrite bind_getp, (reaches_get s p w kd t Hi Ht).
  rewrite settled_due by done.
  destruct (Z.testbit w sig && at_default p sig) eqn:E; [|by eauto].
  pose proof (reaches_at s w kd t Hs Ht) as Hat.
  assert (∃ out c, (if called =? 0 then act i else ret called) t
            = Ret c (put_proc i (settled p w 1) (set_cons_out out t)) ∧ c ≠ 0) as (out & c & Ea & Hc0).
  { destruct (Z.eqb_spec called 0) as [->|Hn].
    - destruct (Hact t Hat) as (out & Ea). exists out, 1. split; [|done].
      rewrite Ea, (reaches_get s p w kd t Hi Ht). done.
    - destruct Hc as [|Hk]; [done|]. exists (cons_out t), called. split; [|done].
      unfold ret. f_equal. rewrite <- Hk, <- (reaches_get s p w kd t Hi Ht).
      rewrite <- (put_get i t) at 1. by destruct t. }
  kcall Ea. ksteps. exists c. eexists. split; [done|]. split; [done|].
  assert (i < length (pt t))%nat as Hit by apply Hat.
  rewrite get_put_same, put_put by done.
  apply (reaches_put s p w kd t (clear_bit w sig) 1 out Ht).
  apply land_word; [apply Ht|apply not32_word].
Qed.

Lemma testbit_clear_bit w k j : 0 <= k < 32 → 0 <= j < 32 →
  Z.testbit (clear_bit w k) j = Z.testbit w j && negb (k =? j).
Proof. intros. unfold clear_bit. by rewrite testbit_clear. Qed.

Lemma fatal_loop_run act s sigs : kills act → at_psig s → Forall (fun k => 0 <= k < 32) sigs →
  ∀ called w kd t, reaches s (get_proc i s) w kd t → (called = 0 ∨ kd = 1) →
  ∃ c w' kd' t',
    foldM (fun called sig =>
      p <- getp i;;
      if dfl_due p sig then
        called' <- (if called =? 0 then act i else ret called);;
        modp i (clear_pending sig);;
        ret called'
      else ret called) sigs called t = Ret c t'
  ∧ reaches s (get_proc i s) w' kd' t'
  ∧ (∀ k, 0 <= k < 32 → Z.testbit w' k
       = Z.testbit w k && negb (Zin k sigs && at_default (get_proc i s) k))
  ∧ kd' = (if existsb (fun k => Z.testbit w k && at_default (get_proc i s) k) sigs then 1 else kd).
Proof.
  intros Hact Hs. set (p := get_proc i s).
  induction 1 as [|sig sigs Hsig _ IH]; intros called w kd t Ht Hc; cbn [foldM].
  - exists called, w, kd, t. split; [done|]. split; [done|]. split; [|done].
    intros k _. by rewrite andb_true_r.
  - destruct (fatal_step act called s w kd t sig Hact Hs Ht Hsig Hc) as (c1 & t1 & E & H1).
    kcall E. fold p in H1. cbn [existsb Zin]. destruct (Z.testbit w sig && at_default p sig) eqn:Ed.
    + destruct H1 as [Hc1 Ht1].
      destruct (IH c1 _ _ _ Ht1 (or_intror eq_refl)) as (c & w' & kd' & t' & E' & Ht' & Hw & ->).
      exists c, w', 1, t'. split; [done|]. split; [by destruct (existsb _ sigs)|]. split; [|done].
      intros k Hk. rewrite Hw, testbit_clear_bit by done. unfold Zin. rewrite Z.eqb_sym.
      destruct (Z.eqb_spec k sig) as [->|]; simpl; [|by rewrite andb_true_r].
      apply andb_true_iff in Ed as [-> ->]. done.
    + destruct H1 as [-> ->].
      destruct (IH called w kd t Ht Hc) as (c & w' & kd' & t' & E' & Ht' & Hw & ->).
      eexists c, w', _, t'. split; [done|]. split; [done|]. split; [|done].
      intros k Hk. rewrite Hw by done. unfold Zin. simpl.
      destruct (Z.eqb_spec k sig) as [->|]; simpl; [|done].
      destruct (Z.testbit w sig); simpl in *; [|done]. rewrite Ed. by rewrite andb_false_r.
Qed.
Lemma kills_term : kills term.
Proof. intros s Hs. exists (cons_out s). rewrite term_run by done. by destruct s. Qed.

Lemma kills_core : kills core.
Proof. intros s Hs. by apply core_run. Qed.

(** The signals [psig] gives a default action that does not stop the process. *)
Definition fatal (k : Z) : bool := Zin k termsig || Zin k coresig.

(** [psig] after the termination signals. *)
Definition psig_rest : M Z :=
  p <- getp i;;
  stopcalled <- (if pending p 19 then
                   c <- stop i;; modp i (clear_pending 19);; ret c
                 else ret 0);;
  p <- getp i;;
  when (dfl_due p SIGCHLD) (ign;; modp i (clear_pending 17));;
  stop_loop i stopcalled;;
  p <- getp i;;
  when (dfl_due p SIGCONT) (cont i;; modp i (clear_pending 18));;
  psig_user i.

Lemma psig_fatal s : at_psig s → word (p_sigpending (get_proc i s)) →
  let p := get_proc i s in
  ∃ w kd t, psig (Some i) (set_held ls s) = psig_rest t
  ∧ reaches s p w kd t
  ∧ (∀ k, 0 <= k < 32 → Z.testbit w k
       = Z.testbit p.(p_sigpending) k && negb (fatal k && at_default p k))
  ∧ kd = (if existsb (fun k => Z.testbit p.(p_sigpending) k && at_default p k) (termsig ++ coresig)
          then 1 else p.(p_killed)).
Proof.
  intros Hs Hw p. unfold psig.
  rewrite (bind_returns _ _ _ _ _ (acquire_free PTABLE_LOCK (set_held ls s) Hls)).
  replace (set_held _ (set_held ls s)) with s
    by (pose proof (ap_held _ Hs); destruct s; simpl in *; by subst).
  assert (reaches s p p.(p_sigpending) p.(p_killed) s) as H0.
  { split; [done|]. exists (cons_out s). rewrite settled_id. unfold p.
    rewrite <- (put_get i s) at 1. by destruct s. }
  destruct (fatal_loop_run term s termsig kills_term Hs
    ltac:(repeat constructor; done) 0 _ _ _ H0 (or_introl eq_refl))
    as (c1 & w1 & kd1 & t1 & E1 & H1 & Hw1 & Hk1). fold p in H1, Hw1, Hk1.
  unfold fatal_loop. kcall E1.
  destruct (fatal_loop_run core s coresig kills_core Hs
    ltac:(repeat constructor; done) 0 _ _ _ H1 (or_introl eq_refl))
    as (c2 & w2 & kd2 & t2 & E2 & H2 & Hw2 & Hk2). fold p in H2, Hw2, Hk2.
  kcall E2. exists w2, kd2, t2. split; [done|]. split; [done|]. split.
  - intros k Hk. rewrite Hw2, Hw1 by done. unfold fatal.
    destruct (Z.testbit (p_sigpending p) k), (Zin k termsig), (Zin k coresig), (at_default p k); done.
  - rewrite Hk2, Hk1, existsb_app.
    rewrite (existsb_ext_in _ (fun k => Z.testbit (p_sigpending p) k && at_default p k) coresig).
    + set (a := existsb _ termsig). set (b := existsb _ coresig). by destruct a, b.
    + intros k Hk. assert (0 <= k < 32 ∧ Zin k termsig = false) as [Hr Hn].
      { by repeat (destruct Hk as [<-|Hk]; [by vm_compute|]). }
      rewrite Hw1, Hn by done. by rewrite andb_true_r.
Qed.
(** No stop signal waits for its default action. *)
Definition no_stop (p : proc) (w : Z) : Prop :=
  Z.testbit w 19 = false ∧
  ∀ k, k ∈ [20; 21; 22] → Z.testbit w k && at_default p k = false.

Lemma clear_due s p w kd t k : reaches s p w kd t → (i < length s.(pt))%nat → 0 <= k < 32 →
  ∃ w', when (dfl_due (settled p w kd) k) (modp i (clear_pending k)) t
        = Ret () (put_proc i (settled p w' kd) t)
  ∧ reaches s p w' kd (put_proc i (settled p w' kd) t)
  ∧ ∀ j, 0 <= j < 32 → Z.testbit w' j = Z.testbit w j && negb ((j =? k) && at_default p k).
Proof.
  intros Ht Hi Hk. rewrite settled_due by done. destruct Ht as (Hw & out & Ht).
  pose proof (reaches_get s p w kd t Hi (conj Hw (ex_intro _ out Ht))) as Hg.
  destruct (Z.testbit w k && at_default p k) eqn:E; [exists (clear_bit w k)|exists w].
  - split; [simpl; by rewrite modp_run, Hg|]. split.
    + split; [apply land_word; [done|apply not32_word]|]. exists out. rewrite Ht.
      unfold put_proc. simpl. by rewrite list_insert_insert_eq.
    + apply andb_true_iff in E as [_ ->]. intros j Hj. rewrite testbit_clear_bit by done.
      by rewrite andb_true_r, (Z.eqb_sym k j).
  - split; [simpl; by rewrite <- Hg, put_get|]. split.
    + split; [done|]. exists out. rewrite <- Hg, put_get. rewrite Hg. done.
    + intros j Hj. destruct (Z.eqb_spec j k) as [->|]; simpl; [|by rewrite andb_true_r].
      by destruct (Z.testbit w k), (at_default p k).
Qed.

Lemma stop_loop_idle p w kd t c : get_proc i t = settled p w kd → no_stop p w →
  stop_loop i c t = Ret c t.
Proof.
  intros Hg [H19 Hst]. unfold stop_loop, stopsig. cbn [foldM].
  assert (∀ k, k ∈ [19; 20; 21; 22] → dfl_due (settled p w kd) k = false) as Hd.
  { intros k. rewrite elem_of_cons. intros [->|Hk]; rewrite settled_due;
      rewrite ?H19, ?Hst; try done.
    rewrite !elem_of_cons in Hk. destruct Hk as [->|[->|[->|?%elem_of_nil]]]; done. }
  unfold bind. do 4 (simpl; rewrite Hg, Hd by (rewrite !elem_of_cons; tauto); simpl).
  done.
Qed.

Lemma psig_rest_quiet s w kd t : at_psig s → reaches s (get_proc i s) w kd t →
  no_stop (get_proc i s) w →
  let p := get_proc i s in
  ∃ w' t', psig_rest t = psig_user i t'
  ∧ reaches s p w' kd t'
  ∧ ∀ k, 0 <= k < 32 → Z.testbit w' k = Z.testbit w k && negb (Zin k [17; 18] && at_default p k).
Proof.
  intros Hs Ht Hno p. fold p in Ht, Hno. pose proof (ap_i _ Hs) as Hi. unfold psig_rest.
  rewrite bind_getp, (reaches_get s p w kd t Hi Ht), pending_bit by lia.
  change (p_sigpending (settled p w kd)) with w. rewrite (proj1 Hno), bind_ret_l, bind_getp.
  rewrite (reaches_get s p w kd t Hi Ht).
  destruct (clear_due s p w kd t 17 Ht Hi ltac:(lia)) as (w1 & E1 & H1 & Hw1).
  change (ign;; modp i (clear_pending 17)) with (modp i (clear_pending 17)). kcall E1.
  assert (no_stop p w1) as Hno1.
  { destruct Hno as [Ha Hb]. split; [rewrite Hw1, Ha by lia; done|].
    intros k Hk. assert (0 <= k < 32) by (rewrite !elem_of_cons in Hk;
      destruct Hk as [->|[->|[->|?%elem_of_nil]]]; done).
    specialize (Hb k Hk). rewrite Hw1 by done.
    destruct (Z.testbit w k), (at_default p k); simpl in *; by rewrite ?andb_false_r. }
  kcall (stop_loop_idle p w1 kd _ 0 (reaches_get s p w1 kd _ Hi H1) Hno1).
  rewrite bind_getp, (reaches_get s p w1 kd _ Hi H1).
  destruct (clear_due s p w1 kd _ 18 H1 Hi ltac:(lia)) as (w2 & E2 & H2 & Hw2).
  assert (when (dfl_due (settled p w1 kd) 18) (cont i;; modp i (clear_pending 18))
            (put_proc i (settled p w1 kd) t)
          = when (dfl_due (settled p w1 kd) 18) (modp i (clear_pending 18))
              (put_proc i (settled p w1 kd) t)) as Ec.
  { destruct (dfl_due (settled p w1 kd) 18); [|done]. simpl when. unfold cont. unfold bind at 1 2. simpl.
    rewrite (reaches_get s p w1 kd _ Hi H1). unfold is_state.
    by rewrite bool_decide_eq_false_2 by (simpl; unfold p; by rewrite (ap_running _ Hs)). }
  rewrite E2 in Ec. kcall Ec. exists w2. eexists. split; [done|]. split; [done|].
  intros k Hk. rewrite Hw2, Hw1 by done. unfold Zin. simpl.
  destruct (Z.eqb_spec k 17) as [->|]; [|destruct (Z.eqb_spec k 18) as [->|]];
    simpl; by rewrite ?andb_true_r.
Qed.
End default_actions.

(** ** Theorems *)

Section delivery.
Context (i : nat) (ls : list lockid).
Hypothesis Hls : PTABLE_LOCK ∉ ls.
Hypothesis Hcons : CONS_LOCK ∉ ls.

(** The signals whose default action [psig] performs without stopping the process. *)
Definition acted_on (k : Z) : bool := fatal k || Zin k [17; 18].

(** The default action of some pending, unblocked signal is to terminate. *)
Definition doomed (p : proc) : bool :=
  existsb (fun k => Z.testbit p.(p_sigpending) k && at_default p k) (termsig ++ coresig).

Lemma psig_quiet s : at_psig i ls s → word (p_sigpending (get_proc i s)) →
  let p := get_proc i s in
  no_stop p p.(p_sigpending) →
  ∃ w t, psig (Some i) (set_held ls s) = psig_user i t
  ∧ reaches i s p w (if doomed p then 1 else p.(p_killed)) t
  ∧ ∀ k, 0 <= k < 32 → Z.testbit w k
       = Z.testbit p.(p_sigpending) k && negb (acted_on k && at_default p k).
Proof.
  intros Hs Hw p Hno.
  destruct (psig_fatal i ls Hls Hcons s Hs Hw) as (w1 & kd & t1 & E1 & H1 & Hw1 & Hkd).
  fold p in H1, Hw1, Hkd. assert (no_stop p w1) as Hno1.
  { destruct Hno as [Ha Hb]. split; [by rewrite Hw1, Ha by lia|].
    intros k Hk. assert (0 <= k < 32) by (rewrite !elem_of_cons in Hk;
      destruct Hk as [->|[->|[->|?%elem_of_nil]]]; done).
    specialize (Hb k Hk). rewrite Hw1 by done.
    destruct (Z.testbit (p_sigpending p) k), (at_default p k); simpl in *; by rewrite ?andb_false_r. }
  destruct (psig_rest_quiet i ls s w1 kd t1 Hs H1 Hno1) as (w2 & t2 & E2 & H2 & Hw2).
  fold p in Hw2. exists w2, t2. rewrite E1, E2. split; [done|]. fold (doomed p) in Hkd. rewrite <- Hkd.
  split; [done|]. intros k Hk. rewrite Hw2, Hw1 by done. unfold acted_on.
  by destruct (Z.testbit (p_sigpending p) k), (fatal k), (Zin k [17; 18]), (at_default p k).
Qed.
End delivery.

(** The state of a process that enters [psig] on its way to user mode: [ls]
    are the locks the caller holds. *)
Record delivering (i : nat) (ls : list lockid) (s : kstate) : Prop := {
  dl_wf : wf_table s;
  dl_i : (i < NPROC)%nat;
  dl_cur : s.(curproc) = Some i;
  dl_held : s.(held) = ls;
  dl_free : PTABLE_LOCK ∉ ls ∧ CONS_LOCK ∉ ls;
  dl_running : p_state (get_proc i s) = RUNNING;
  dl_pid : ∀ j, (j < i)%nat → p_pid (get_proc j s) ≠ p_pid (get_proc i s);
  dl_ok : sig_ok (get_proc i s)
}.

Lemma delivering_at i ls s : delivering i ls s →
  at_psig i ls (set_held (PTABLE_LOCK :: ls) s) ∧ s = set_held ls (set_held (PTABLE_LOCK :: ls) s).
Proof.
  intros []. split.
  - split; try done. simpl. by rewrite dl_wf0.
  - destruct s; simpl in *; by subst.
Qed.

(** C6: With no user handler and no stop signal due, [psig] returns 1; a
    pending signal is cleared exactly if it is unblocked, has its default
    disposition and a default action; the process is marked killed exactly if
    one of those actions is to terminate; no other entry changes, and the
    locks are as before. *)
Theorem psig_default_actions i ls s : delivering i ls s →
  let p := get_proc i s in
  p.(p_userdefed) = 0 → no_stop p p.(p_sigpending) →
  ∃ w s', psig (Some i) s = Ret 1 s'
  ∧ get_proc i s' = set_p_sigpending w (if doomed p then set_p_killed 1 p else p)
  ∧ (∀ k, 0 <= k < 32 → Z.testbit w k
       = Z.testbit p.(p_sigpending) k && negb (acted_on k && at_default p k))
  ∧ (∀ j, j ≠ i → get_proc j s' = get_proc j s) ∧ s'.(held) = ls.
Proof.
  intros Hd p Hu Hno. destruct (delivering_at _ _ _ Hd) as [Hat Es]. destruct Hd.
  destruct dl_free0 as [Hls Hcons].
  destruct (psig_quiet i ls Hls Hcons _ Hat (so_pending _ dl_ok0) Hno) as (w & t & E & Ht & Hw).
  rewrite <- Es in E. change (get_proc i (set_held _ s)) with p in *.
  pose proof (reaches_get i _ _ _ _ _ (ap_i _ _ _ Hat) Ht) as Hg.
  exists w, (set_held ls t). rewrite E. unfold psig_user. rewrite bind_getp, Hg.
  change (p_userdefed (settled p w _)) with (p_userdefed p). rewrite Hu, Z.eqb_refl.
  destruct Ht as (_ & out & ->). split.
  { by rewrite (bind_returns _ _ _ _ _ (release_head PTABLE_LOCK ls (put_proc i _ (set_cons_out out
      (set_held (PTABLE_LOCK :: ls) s))) eq_refl Hls)). }
  split; [|split; [done|split; [|done]]].
  - change (get_proc i (set_held ls ?t)) with (get_proc i t). rewrite Hg.
    by destruct (doomed p), p.
  - intros j Hj. change (get_proc j (set_held ls ?t)) with (get_proc j t).
    by rewrite get_put_ne.
Qed.

Lemma saved_load m tf sig ra (j : nat) v : saved_context tf !! j = Some v → word v →
  load32 (write_below m tf.(tf_esp) 1 (saved_context tf ++ [sig; ra]))
         (u32 (tf.(tf_esp) - 4 * (1 + Z.of_nat j))) = v.
Proof.
  intros Hj Hv. rewrite (load_below _ _ _ _ j v); [by apply u32_id|done|done|].
  by apply lookup_app_l_Some.
Qed.

(** [kernel_sigreturn] finds the words [psig] stored, at the stack pointer the
    handler returns with. *)
Lemma sigreturn_run i s tf : s.(curproc) = Some i →
  tf_esp (p_tf (get_proc i s)) = u32 (tf.(tf_esp) - 72) →
  (∀ (j : nat) v, saved_context tf !! j = Some v →
     load32 s.(mem) (u32 (tf.(tf_esp) - 4 * (1 + Z.of_nat j))) = v) →
  kernel_sigreturn s =
  Jump (RestoreUser tf.(tf_edi) tf.(tf_esi) tf.(tf_ebp) tf.(tf_oesp) tf.(tf_ebx) tf.(tf_edx)
          tf.(tf_ecx) tf.(tf_eax) tf.(tf_gs) tf.(tf_fs) tf.(tf_es) tf.(tf_ds) tf.(tf_eip)
          tf.(tf_cs) tf.(tf_eflags) tf.(tf_esp) tf.(tf_ss)) s.
Proof.
  intros Hc He Hm. unfold kernel_sigreturn. rewrite bind_myproc, Hc, bind_getp, bind_get, He.
  assert (∀ k (j : nat) v, saved_context tf !! j = Some v → k = 72 - 4 * (1 + Z.of_nat j) →
    load32 s.(mem) (u32 (u32 (tf.(tf_esp) - 72) + k)) = v) as Hw.
  { intros k j v Hj ->. rewrite u32_add_l, <- (Hm j v Hj). f_equal. f_equal. lia. }
  rewrite (Hw 4 16%nat (tf_edi tf)), (Hw 8 15%nat (tf_esi tf)), (Hw 12 14%nat (tf_ebp tf)),
    (Hw 16 13%nat (tf_oesp tf)), (Hw 20 12%nat (tf_ebx tf)), (Hw 24 11%nat (tf_edx tf)),
    (Hw 28 10%nat (tf_ecx tf)), (Hw 32 9%nat (tf_eax tf)), (Hw 36 8%nat (tf_gs tf)),
    (Hw 40 7%nat (tf_fs tf)), (Hw 44 6%nat (tf_es tf)), (Hw 48 5%nat (tf_ds tf)),
    (Hw 52 4%nat (tf_eip tf)), (Hw 56 3%nat (tf_cs tf)), (Hw 60 2%nat (tf_eflags tf)),
    (Hw 64 1%nat (tf_esp tf)), (Hw 68 0%nat (tf_ss tf)); done.
Qed.

(** The delivery of a signal to a process with a handler. *)
Lemma psig_handler_run i ls s : delivering i ls s →
  let p := get_proc i s in
  let tf := p.(p_tf) in
  p.(p_userdefed) ≠ 0 → no_stop p p.(p_sigpending) →
  ∃ s1 w kd, psig (Some i) s =
    Jump (JmpToHandler (handler_of p (chosen p)) tf.(tf_cs) tf.(tf_eflags)
            (u32 (tf.(tf_esp) - 76)) tf.(tf_ss)) s1
  ∧ s1.(held) = ls ∧ get_proc i s1 = in_handler (settled p w kd)
  ∧ s1.(mem) = write_below s.(mem) tf.(tf_esp) 1 (saved_context tf ++ [chosen p; p.(p_addr_sigreturn)])
  ∧ ∀ k, 0 <= k < 32 → Z.testbit w k = Z.testbit p.(p_sigpending) k && negb (acted_on k && at_default p k).
Proof.
  intros Hd p tf Hu Hno. destruct (delivering_at _ _ _ Hd) as [Hat Es]. destruct Hd.
  destruct dl_free0 as [Hls Hcons].
  destruct (psig_quiet i ls Hls Hcons _ Hat (so_pending _ dl_ok0) Hno) as (w & t & E & Ht & Hw).
  rewrite <- Es in E. change (get_proc i (set_held _ s)) with p in *.
  pose proof (reaches_get i _ _ _ _ _ (ap_i _ _ _ Hat) Ht) as Hg.
  pose proof (reaches_at i ls _ _ _ _ Hat Ht) as Hat2.
  pose proof (psig_user_run i t ls (ap_i _ _ _ Hat2) (ap_held _ _ _ Hat2) Hls) as Hrun.
  cbv zeta in Hrun. rewrite Hg in Hrun. specialize (Hrun Hu).
  assert (mem t = mem s) as Hmem by by destruct Ht as (_ & out & ->).
  rewrite Hmem in Hrun. change (p_tf (settled p w _)) with tf in Hrun.
  change (chosen (settled p w _)) with (chosen p) in Hrun.
  change (p_addr_sigreturn (settled p w _)) with (p_addr_sigreturn p) in Hrun.
  eexists _, w, _. split; [rewrite E; exact Hrun|]. split; [done|]. split; [|done].
  apply (get_put_same i). apply (ap_i _ _ _ Hat2).
Qed.

(** C2: A handler runs and the interrupted program resumes where it was.
    [psig] enters the handler with the signal number and the return address on
    the user stack; if the handler leaves the saved context alone and returns,
    so that [sigreturn] is entered with the stack pointer at the argument,
    [kernel_sigreturn] restores all seventeen registers of the interrupted
    program. *)
Theorem handler_round_trip i ls s : delivering i ls s →
  let p := get_proc i s in
  let tf := p.(p_tf) in
  p.(p_userdefed) ≠ 0 → no_stop p p.(p_sigpending) → Forall word (saved_context tf) →
  word p.(p_addr_sigreturn) →
  ∃ s1, psig (Some i) s =
    Jump (JmpToHandler (handler_of p (chosen p)) tf.(tf_cs) tf.(tf_eflags)
            (u32 (tf.(tf_esp) - 76)) tf.(tf_ss)) s1
  ∧ s1.(held) = ls
  ∧ load32 s1.(mem) (u32 (tf.(tf_esp) - 76)) = p.(p_addr_sigreturn)
  ∧ load32 s1.(mem) (u32 (tf.(tf_esp) - 72)) = u32 (chosen p)
  ∧ ∀ s2, s2.(curproc) = Some i → tf_esp (p_tf (get_proc i s2)) = u32 (tf.(tf_esp) - 72) →
      (∀ k, 1 <= k <= 17 → load32 s2.(mem) (u32 (tf.(tf_esp) - 4 * k))
                         = load32 s1.(mem) (u32 (tf.(tf_esp) - 4 * k))) →
      kernel_sigreturn s2 =
      Jump (RestoreUser tf.(tf_edi) tf.(tf_esi) tf.(tf_ebp) tf.(tf_oesp) tf.(tf_ebx) tf.(tf_edx)
              tf.(tf_ecx) tf.(tf_eax) tf.(tf_gs) tf.(tf_fs) tf.(tf_es) tf.(tf_ds) tf.(tf_eip)
              tf.(tf_cs) tf.(tf_eflags) tf.(tf_esp) tf.(tf_ss)) s2.
Proof.
  intros Hd p tf Hu Hno Htf Hra. destruct (psig_handler_run i ls s Hd Hu Hno) as (s1 & w & kd & E & Hh & _ & Hm & _).
  fold p tf in E, Hm. exists s1. split; [done|]. split; [done|]. rewrite Hm.
  set (fr := saved_context tf ++ [chosen p; p_addr_sigreturn p]). split; [|split].
  - etrans; [apply (load_below (mem s) (tf_esp tf) 1 fr 18 (p_addr_sigreturn p)); done|].
    by apply u32_id.
  - by apply (load_below (mem s) (tf_esp tf) 1 fr 17 (chosen p)).
  - intros s2 Hc2 He2 Hag. apply (sigreturn_run i); [done|done|]. intros j v Hj.
    rewrite Hag by (apply lookup_lt_Some in Hj; simpl in Hj; lia).
    apply (saved_load (mem s)); [done|]. by apply (proj1 (Forall_lookup _ _) Htf j).
Qed.


(** ** Stopping *)

Lemma psig_rest_stop i t : Z.testbit (p_sigpending (get_proc i t)) 19 = true →
  (∀ msg s', stop i t = Panic msg s' → psig_rest i t = Panic msg s')
  ∧ (∀ s' k, stop i t = Switch s' k → ∃ k', psig_rest i t = Switch s' k').
Proof.
  intros H. unfold psig_rest. rewrite bind_getp, pending_bit, H by lia. split.
  - intros msg s' E. rewrite (bind_panics _ _ _ msg s'); [done|].
    by rewrite (bind_panics _ _ _ _ _ E).
  - intros s' k E. eexists. by erewrite bind_switch; [|erewrite bind_switch; [|exact E]].
Qed.

Lemma stop_run i ls t : at_psig i ls t → PTABLE_LOCK ∉ ls →
  let s1 := put_proc i (set_p_state SLEEPING (get_proc i t)) t in
  (ls = [] → ∃ k, stop i t = Switch s1 k) ∧ (ls ≠ [] → stop i t = Panic "sched locks" s1).
Proof.
  intros [] Hls s1. unfold stop. rewrite bind_modp. fold s1. split.
  - intros ->. eexists. erewrite bind_switch; [|apply (sched_switch i); [done|done|]]; [done|].
    unfold s1. by rewrite get_put_same.
  - intros Hne. erewrite bind_panics; [|apply sched_locks]; [done| |].
    + simpl. rewrite ap_held0. by left.
    + simpl. rewrite ap_held0. destruct ls; [done|]. done.
Qed.

Lemma psig_stop_run i ls s : delivering i ls s →
  Z.testbit (p_sigpending (get_proc i s)) 19 = true →
  ∃ s1, p_state (get_proc i s1) = SLEEPING ∧ s1.(held) = PTABLE_LOCK :: ls
  ∧ (∀ j, j ≠ i → get_proc j s1 = get_proc j s)
  ∧ (ls = [] → ∃ k, psig (Some i) s = Switch s1 k)
  ∧ (ls ≠ [] → psig (Some i) s = Panic "sched locks" s1).
Proof.
  intros Hd H19. destruct (delivering_at _ _ _ Hd) as [Hat Es]. destruct Hd.
  destruct dl_free0 as [Hls Hcons].
  destruct (psig_fatal i ls Hls Hcons _ Hat (so_pending _ dl_ok0)) as (w & kd & t & E & Ht & Hw & _).
  rewrite <- Es in E. change (get_proc i (set_held _ s)) with (get_proc i s) in *.
  pose proof (reaches_get i _ _ _ _ _ (ap_i _ _ _ Hat) Ht) as Hg.
  pose proof (reaches_at i ls _ _ _ _ Hat Ht) as Hat2.
  destruct (psig_rest_stop i t) as [Hpan Hsw].
  { rewrite Hg. change (p_sigpending (settled _ w kd)) with w. by rewrite Hw, H19 by lia. }
  destruct (stop_run i ls t Hat2 Hls) as [Hs1 Hs2].
  exists (put_proc i (set_p_state SLEEPING (get_proc i t)) t).
  split; [by rewrite get_put_same by apply Hat2|]. split; [apply Hat2|].
  split; [|split].
  - intros j Hj. rewrite get_put_ne by done. destruct Ht as (_ & out & ->).
    by rewrite get_put_ne.
  - intros Hl. destruct (Hs1 Hl) as [k Ek]. rewrite E. by eapply Hsw.
  - intros Hl. rewrite E. by apply Hpan, Hs2.
Qed.

(** A pending SIGSTOP stops the process whatever its mask: [psig] puts it
    to sleep and gives up the CPU, holding only [ptable.lock]; no other entry
    changes.  If the caller of [psig] holds any lock, the kernel panics
    instead. *)
Theorem psig_sigstop i ls s : delivering i ls s →
  Z.testbit (p_sigpending (get_proc i s)) 19 = true →
  ∃ s1, p_state (get_proc i s1) = SLEEPING ∧ s1.(held) = PTABLE_LOCK :: ls
  ∧ (∀ j, j ≠ i → get_proc j s1 = get_proc j s)
  ∧ (ls = [] → ∃ k, psig (Some i) s = Switch s1 k)
  ∧ (ls ≠ [] → psig (Some i) s = Panic "sched locks" s1).
Proof. apply psig_stop_run. Qed.

(** ** Instances *)

(** The machine [demo] with another entry for its running process. *)
Definition demo_with (p : proc) : kstate := put_proc 1 p demo.

Lemma demo_delivering ls p : p_pid p = 2 → p_state p = RUNNING → sig_ok p →
  PTABLE_LOCK ∉ ls → CONS_LOCK ∉ ls → delivering 1 ls (set_held ls (demo_with p)).
Proof.
  intros Hp Hr Hok H1 H2. split; try done.
  - unfold NPROC. lia.
  - intros j Hj. destruct j as [|j]; [|lia]. change (1 ≠ p_pid p). by rewrite Hp.
Qed.

Definition demo_pending (sig : Z) : proc := post sig (demo_proc 2 RUNNING).

Lemma psig_default_actions_witness : ∃ s',
  psig (Some 1%nat) (set_held [] (demo_with (demo_pending SIGTERM))) = Ret 1 s'
  ∧ p_killed (get_proc 1 s') = 1.
Proof.
  destruct (psig_default_actions 1 [] (set_held [] (demo_with (demo_pending SIGTERM))))
    as (w & s' & E & Hp & _).
  - apply demo_delivering; [done|done| |apply not_elem_of_nil|apply not_elem_of_nil].
    apply sig_ok_post; [done|done|apply demo_proc_ok].
  - done.
  - split; [done|]. intros k. rewrite !elem_of_cons. by intros [->|[->|[->|?%elem_of_nil]]].
  - exists s'. split; [exact E|]. by rewrite Hp.
Defined.

(** The running process with a handler for SIGUSR1, which is pending. *)
Definition demo_handler : proc :=
  post SIGUSR1 (signal_entry 8192 SIGUSR1 4660 (demo_proc 2 RUNNING)).

Lemma handler_round_trip_witness : ∃ s1,
  psig (Some 1%nat) (set_held [] (demo_with demo_handler))
  = Jump (JmpToHandler 4660 27 512 12212 35) s1 ∧ load32 s1.(mem) 12212 = 8192.
Proof.
  destruct (handler_round_trip 1 [] (set_held [] (demo_with demo_handler)))
    as (s1 & E & _ & H & _).
  - apply demo_delivering; [done|done| |apply not_elem_of_nil|apply not_elem_of_nil].
    apply sig_ok_post; [done|done|]. apply sig_ok_signal_entry; [|apply demo_proc_ok].
    unfold signum_ok, CURRNUM, SIGUSR1, SIGKILL, SIGSTOP. lia.
  - done.
  - split; [done|]. intros k. rewrite !elem_of_cons. by intros [->|[->|[->|?%elem_of_nil]]].
  - repeat constructor; done.
  - done.
  - exists s1. split; [exact E|exact H].
Defined.

(** Handlers for SIGHUP and SIGUSR1, of which only SIGUSR1 is pending. *)
Definition demo_two_handlers : proc :=
  post SIGUSR1 (signal_entry 8192 SIGUSR1 4660 (signal_entry 8192 SIGHUP 5000 (demo_proc 2 RUNNING))).


Lemma psig_sigstop_witness : ∃ s1,
  psig (Some 1%nat) (set_held [TICKS_LOCK] (demo_with (demo_pending SIGSTOP)))
  = Panic "sched locks" s1.
Proof.
  destruct (psig_sigstop 1 [TICKS_LOCK] (set_held [TICKS_LOCK] (demo_with (demo_pending SIGSTOP))))
    as (s1 & _ & _ & _ & _ & H).
  - apply demo_delivering; [done|done| |set_solver|set_solver].
    apply sig_ok_post; [done|done|apply demo_proc_ok].
  - done.
  - exists s1. by apply H.
Defined.
