(* ===== verification/Sending.v ===== *)
(** * Sending and masking signals: what [Kill], [raise] and the mask calls do

    Functional behaviour of the operations of [Signal.v] that one process
    performs on another or on its own mask, on every branch. *)

From stdpp Require Import base numbers option list sets strings relations.
From Stdlib Require Import ZArith Lia.
From S2P Require Import Prelude Kstring State Locks Console Kalloc Proc Signal.

(** ** The effect of one delivery *)

(** What [Kill] does to the entry of a process it may signal. *)
Definition Kill_entry (sig : Z) (p : proc) : proc :=
  if sig =? SIGKILL then killed_proc p
  else if sig =? SIGCHLD then if disp p SIGCHLD =? DFL then p
                              else if disp p SIGCHLD =? IGN then p else post sig p
  else if sig =? SIGCONT then
    let q := if is_state SLEEPING p then set_p_justwoken 1 (set_p_state RUNNABLE p) else p in
    if (disp p SIGCONT =? DFL) || (disp p SIGCONT =? IGN) then q else post sig q
  else if disp p sig =? IGN then p else post sig p.

(** A user process may not signal a process that runs in the kernel. *)
Definition permitted (sender receiver : proc) : bool :=
  (Z.land receiver.(p_tf).(tf_cs) DPL_USER =? 3) || negb (Z.land sender.(p_tf).(tf_cs) DPL_USER =? 3).

Lemma post_run i sig (b : bool) s ls : PTABLE_LOCK ∉ ls → (i < length s.(pt))%nat →
  s.(held) = PTABLE_LOCK :: ls →
  (when b (modp i (post sig));; release PTABLE_LOCK) s
  = Ret () (set_held ls (if b then put_proc i (post sig (get_proc i s)) s else s)).
Proof.
  intros Hl Hi Hh. destruct b; cbn [when].
  - rewrite bind_modp. by rewrite (release_head PTABLE_LOCK ls) by done.
  - rewrite bind_ret_l. by rewrite (release_head PTABLE_LOCK ls) by done.
Qed.

Lemma set_held_id s ls : s.(held) = ls → set_held ls s = s.
Proof. intros <-. by destruct s. Qed.

Lemma Kill_body_run cur mo pid sig i s : wf_table s → PTABLE_LOCK ∉ s.(held) →
  (i < length s.(pt))%nat → 0 < sig → p_pid (get_proc i s) ≠ 1 →
  mo || (p_pid (get_proc i s) =? pid) = true →
  Kill_body cur mo pid sig i s =
  Ret (if mo then None else Some 0)
      (if permitted (get_proc cur s) (get_proc i s) then
         let j := if sig =? SIGKILL
                  then default i (find_proc (has_pid (p_pid (get_proc i s))) s) else i in
         put_proc j (Kill_entry sig (get_proc j s)) s
       else s).
Proof.
  intros Hw Hl Hi Hsig H1 Hm. set (p := get_proc i s) in *.
  unfold Kill_body. rewrite bind_getp. fold p. rewrite (proj2 (Z.eqb_neq (p_pid p) 1) H1), Hm.
  rewrite bind_getp. unfold permitted.
  set (rp := Z.land _ DPL_USER =? 3). set (sp := Z.land _ DPL_USER =? 3).
  replace (negb rp && sp) with (negb (rp || negb sp)) by (by destruct rp, sp).
  destruct (rp || negb sp); cbn [negb]; [|by destruct mo].
  rewrite (bind_returns _ _ _ _ _ (acquire_free _ _ Hl)).
  set (s1 := set_held (PTABLE_LOCK :: held s) s).
  assert (∀ {B} (k : unit → M B), bind (release PTABLE_LOCK) k s1 = k () s) as Hrel.
  { intros B k. rewrite (bind_returns _ _ _ _ _ (release_head PTABLE_LOCK (held s) s1 eq_refl Hl)).
    f_equal. by destruct s. }
  destruct (Z.eqb_spec sig SIGKILL) as [->|Hk].
  { rewrite Hrel. assert (∃ j, find_proc (has_pid (p_pid p)) s = Some j) as [j Hj].
    { destruct (find_proc (has_pid (p_pid p)) s) eqn:E; [by eauto|].
      pose proof (find_proc_None _ _ i E Hi) as Hf. unfold has_pid in Hf.
      fold p in Hf. by rewrite Z.eqb_refl in Hf. }
    pose proof (kill_run (p_pid p) s Hw Hl) as Hkill. rewrite Hj in Hkill |- *. kcall Hkill.
    simpl default. unfold Kill_entry. rewrite Z.eqb_refl. by destruct mo. }
  assert (∀ b : bool, bind (when b (modp i (post sig)))
    (fun _ => release PTABLE_LOCK;; (if mo then ret None else ret (Some 0))) s1
    = Ret (if mo then None else Some 0) (put_proc i (if b then post sig p else p) s)) as Hpost.
  { intros [|]; cbn [when].
    - rewrite bind_modp. change (get_proc i s1) with p.
      rewrite (bind_returns _ _ _ _ _ (release_head PTABLE_LOCK (held s)
        (put_proc i (post sig p) s1) eq_refl Hl)). by destruct mo, s.
    - rewrite bind_ret_l, Hrel. unfold p. rewrite put_get. by destruct mo. }
  unfold Kill_entry. rewrite (proj2 (Z.eqb_neq sig SIGKILL) Hk).
  destruct (Z.eqb_spec sig SIGCHLD) as [->|Hc]; cbn [andb].
  { destruct (disp p SIGCHLD =? DFL) eqn:E.
    - rewrite Hrel. fold p. rewrite E. unfold p. rewrite put_get. by destruct mo.
    - change (SIGCHLD =? SIGCONT) with false. cbv iota. rewrite Hpost.
      fold p. rewrite E. by destruct (disp p SIGCHLD =? IGN). }
  destruct (Z.eqb_spec sig SIGCONT) as [->|Hcont].
  2: { rewrite Hpost. rewrite (proj2 (Z.eqb_neq sig 0)) by lia. fold p.
       by destruct (disp p sig =? IGN). }
  fold p. destruct (is_state SLEEPING p) eqn:Es; cbn [when].
  - unfold bind at 1. cbn [cbind]. rewrite bind_modp, modp_run. cbn [cbind].
    rewrite get_put_same, put_put by done. change (get_proc i s1) with p.
    destruct (disp p SIGCONT =? DFL), (disp p SIGCONT =? IGN); cbn [when negb andb orb]; ksteps;
      rewrite ?get_put_same, ?put_put by done; by destruct mo, s.
  - rewrite bind_ret_l, Hpost. by destruct (disp p SIGCONT =? DFL), (disp p SIGCONT =? IGN).
Qed.

(** ** [Kill] *)

Definition sig_valid (sig : Z) : Prop := 0 < sig <= CURRNUM.

Lemma Kill_find pid sig s cur : sig_valid sig → 1 < pid → wf_table s →
  PTABLE_LOCK ∉ s.(held) → s.(curproc) = Some cur →
  Kill pid sig s =
  match find_proc (has_pid pid) s with
  | Some i => Ret 0 (if permitted (get_proc cur s) (get_proc i s)
                     then put_proc i (Kill_entry sig (get_proc i s)) s else s)
  | None => Ret 0 s
  end.
Proof.
  intros [Hs1 Hs2] Hpid Hw Hl Hc. unfold Kill.
  replace ((sig <=? 0) || (CURRNUM <? sig)) with false by lia.
  replace ((pid =? 1) || (pid =? 0) || (pid <? -1)) with false by lia.
  rewrite bind_myproc, Hc. replace (pid =? -1) with false by lia.
  assert (∀ i, (i < NPROC)%nat → has_pid pid (get_proc i s) = true →
    Kill_body cur false pid sig i s = Ret (Some 0)
      (if permitted (get_proc cur s) (get_proc i s) then
         let j := if sig =? SIGKILL
                  then default i (find_proc (has_pid (p_pid (get_proc i s))) s) else i in
         put_proc j (Kill_entry sig (get_proc j s)) s
       else s)) as Hb.
  { intros i Hi Hp. unfold has_pid in Hp. apply (Kill_body_run cur false); try done; try lia.
    by rewrite Hw. }
  unfold bind at 1. rewrite (scanM_find (has_pid pid)).
  - destruct (find_proc (has_pid pid) s) as [i|] eqn:E; [|done].
    pose proof (find_proc_Some _ _ _ E) as (Hi & Hp & _). rewrite Hw in Hi.
    rewrite (Hb i Hi Hp). cbn [cbind]. unfold has_pid in Hp. apply Z.eqb_eq in Hp.
    rewrite Hp, E. by destruct (sig =? SIGKILL).
  - done.
  - intros i Hi Hp. unfold Kill_body. rewrite bind_getp. unfold has_pid in Hp.
    rewrite Hp. by destruct (p_pid (get_proc i s) =? 1).
  - intros i Hi Hp. rewrite (Hb i Hi Hp). eauto.
Qed.

(** C8: [Kill] of a single process: invalid signal numbers and the reserved
    targets change no process; otherwise exactly the entry of the process with
    that pid changes, and only if the sender may signal it: SIGKILL marks it
    killed (and wakes it) whatever its mask and handlers, SIGCONT wakes it,
    any other signal becomes pending unless ignored. *)
Theorem Kill_effect pid sig s cur : pid ≠ -1 → wf_table s → PTABLE_LOCK ∉ s.(held) →
  CONS_LOCK ∉ s.(held) → s.(curproc) = Some cur →
  ∃ r s', Kill pid sig s = Ret r s' ∧ s'.(held) = s.(held)
  ∧ r = (if bool_decide (sig_valid sig) then 0 else -1)
  ∧ ∀ j, get_proc j s' =
      if bool_decide (sig_valid sig ∧ 1 < pid ∧ find_proc (has_pid pid) s = Some j)
         && permitted (get_proc cur s) (get_proc j s)
      then Kill_entry sig (get_proc j s) else get_proc j s.
Proof.
  intros Hm Hw Hl Hlc Hc. destruct (decide (sig_valid sig)) as [Hsig|Hsig].
  2: { exists (-1), s. unfold Kill. replace ((sig <=? 0) || (CURRNUM <? sig)) with true
         by (unfold sig_valid in Hsig; lia).
       rewrite bool_decide_eq_false_2 by done. split; [done|]. split; [done|]. split; [done|].
       intros j. by rewrite bool_decide_eq_false_2 by tauto. }
  rewrite bool_decide_eq_true_2 by done.
  destruct (decide (1 < pid)) as [Hp|Hp].
  2: { unfold Kill. replace ((sig <=? 0) || (CURRNUM <? sig)) with false
         by (unfold sig_valid in Hsig; lia).
       replace ((pid =? 1) || (pid =? 0) || (pid <? -1)) with true by lia.
       rewrite (bind_returns _ _ _ _ _ (cprintf_ok _ _ s Hlc)). eexists 0, _. split; [done|].
       split; [done|]. split; [done|]. intros j. by rewrite bool_decide_eq_false_2 by tauto. }
  rewrite (Kill_find pid sig s cur) by done.
  destruct (find_proc (has_pid pid) s) as [i|] eqn:E.
  - pose proof (find_proc_Some _ _ _ E) as (Hi & _ & _). eexists 0, _. split; [done|].
    split; [by destruct (permitted _ _)|]. split; [done|]. intros j.
    destruct (decide (j = i)) as [->|Hj].
    + rewrite bool_decide_eq_true_2 by done. cbn [andb].
      destruct (permitted _ _); [by rewrite get_put_same|done].
    + rewrite bool_decide_eq_false_2 by (intros (_ & _ & [=]); congruence). cbn [andb].
      destruct (permitted _ _); [by rewrite get_put_ne|done].
  - exists 0, s. repeat (split; [done|]). intros j.
    by rewrite bool_decide_eq_false_2 by (intros (_ & _ & ?); congruence).
Qed.

(** A search loop whose body preserves a state invariant and always returns
    also returns, in a state that satisfies the invariant. *)
Lemma scanM_inv {S J A R} (I : S → Prop) (f : A → prog S J (option R)) l s :
  I s → (∀ x s, x ∈ l → I s → ∃ r s', f x s = Ret r s' ∧ I s') →
  ∃ r s', scanM f l s = Ret r s' ∧ I s'.
Proof.
  revert s. induction l as [|x l IH]; intros s HI Hf; [by exists None, s|].
  destruct (Hf x s) as (r & s1 & E & HI1); [by left|done|]. simpl. unfold bind. rewrite E.
  destruct r as [v|]; simpl; [by exists (Some v), s1|].
  apply IH; [done|]. intros y t Hy. apply Hf. by right.
Qed.

(** No pid has changed and the entries of [init] are as in [s0]. *)
Definition init_kept (s0 s : kstate) : Prop :=
  wf_table s ∧ s.(held) = s0.(held) ∧
  ∀ i, p_pid (get_proc i s) = p_pid (get_proc i s0)
     ∧ (p_pid (get_proc i s0) = 1 → get_proc i s = get_proc i s0).

Lemma Kill_entry_pid sig p : p_pid (Kill_entry sig p) = p_pid p.
Proof.
  unfold Kill_entry, killed_proc. destruct (sig =? SIGKILL); [by destruct (is_state SLEEPING p)|].
  repeat (case_match; try done).
Qed.

Lemma init_kept_put s0 s j p : init_kept s0 s → p_pid p = p_pid (get_proc j s) →
  p_pid p ≠ 1 → init_kept s0 (put_proc j p s).
Proof.
  intros (Hw & Hh & Hp) Hj H1. destruct (decide (j < length s.(pt))%nat) as [Hi|Hi].
  2: by rewrite put_ge by lia.
  split; [unfold wf_table; by rewrite length_put|]. split; [done|]. intros i.
  destruct (decide (i = j)) as [->|Hne].
  - rewrite get_put_same by done. destruct (Hp j) as [Ha _]. split; congruence.
  - rewrite get_put_ne by done. apply Hp.
Qed.

(** Whatever the target (a broadcast included) and the signal, [Kill]
    returns, gives back its locks, changes no pid and leaves the entry of
    [init] (pid 1) untouched. *)
Theorem Kill_spares_init pid sig s cur : wf_table s → PTABLE_LOCK ∉ s.(held) →
  CONS_LOCK ∉ s.(held) → s.(curproc) = Some cur →
  ∃ r s', Kill pid sig s = Ret r s' ∧ init_kept s s'.
Proof.
  intros Hw Hl Hlc Hc. assert (init_kept s s) as H0 by (repeat split; done).
  unfold Kill. destruct ((sig <=? 0) || (CURRNUM <? sig)) eqn:Es; [by eexists _, s|].
  destruct ((pid =? 1) || (pid =? 0) || (pid <? -1)).
  { rewrite (bind_returns _ _ _ _ _ (cprintf_ok _ _ s Hlc)). by eexists 0, _. }
  rewrite bind_myproc, Hc.
  destruct (scanM_inv (init_kept s) (Kill_body cur (pid =? -1) pid sig) all_procs s H0)
    as (r & s1 & E & H1).
  2: { kcall E. destruct r as [v|]; by eexists _, s1. }
  intros i t Hi Ht. apply elem_of_all_procs in Hi.
  destruct (decide (p_pid (get_proc i t) = 1)) as [Hp1|Hp1].
  { exists None, t. split; [|done]. unfold Kill_body. by rewrite bind_getp, Hp1. }
  destruct ((pid =? -1) || (p_pid (get_proc i t) =? pid)) eqn:Em.
  2: { exists None, t. split; [|done]. unfold Kill_body. rewrite bind_getp, Em.
       by rewrite (proj2 (Z.eqb_neq _ 1) Hp1). }
  pose proof Ht as (Hwt & Hht & _). unfold wf_table in Hwt.
  rewrite (Kill_body_run cur (pid =? -1) pid sig i t) by (rewrite ?Hht, ?Hwt; done || lia).
  eexists _, _. split; [done|]. destruct (permitted _ _); [|done]. cbv zeta.
  set (j := if sig =? SIGKILL then _ else i).
  assert (p_pid (get_proc j t) = p_pid (get_proc i t)) as Hj.
  { unfold j. destruct (sig =? SIGKILL); [|done].
    destruct (find_proc _ t) as [k|] eqn:E; simpl; [|done].
    apply find_proc_Some in E as (_ & Hk & _). by apply Z.eqb_eq in Hk. }
  apply init_kept_put; rewrite ?Kill_entry_pid, ?Hj; done.
Qed.

(** ** Masks *)

Definition blockable (sig : Z) : Prop :=
  sig_valid sig ∧ sig ≠ SIGKILL ∧ sig ≠ SIGSTOP ∧ sig ≠ SIGCONT.

Lemma siggetmask_run i s : s.(curproc) = Some i → PTABLE_LOCK ∉ s.(held) →
  siggetmask s = Ret (p_sigblocked (get_proc i s)) s.
Proof. intros Hc Hl. unfold siggetmask. rewrite bind_myproc, Hc. ksteps. by destruct s. Qed.

Lemma sigsetmask_run i s mask : s.(curproc) = Some i → PTABLE_LOCK ∉ s.(held) →
  mask_refused mask = false →
  sigsetmask mask s = Ret mask (put_proc i (set_p_sigblocked mask (get_proc i s)) s).
Proof.
  intros Hc Hl Hm. rewrite sigsetmask_unfold, Hm, bind_myproc, Hc. ksteps. by destruct s.
Qed.

Lemma mask_refused_spec mask :
  (∀ sig, sig ∈ [0; SIGKILL; SIGCONT; SIGSTOP] → Z.testbit mask sig = false) →
  mask_refused mask = false.
Proof.
  intros H. unfold mask_refused. rewrite !H by (rewrite !elem_of_cons; tauto). done.
Qed.

Lemma sigblock_run i s sig : s.(curproc) = Some i → PTABLE_LOCK ∉ s.(held) →
  sig_ok (get_proc i s) → blockable sig →
  let m := Z.lor (p_sigblocked (get_proc i s)) (bit sig) in
  sigblock sig s = Ret m (put_proc i (set_p_sigblocked m (get_proc i s)) s).
Proof.
  intros Hc Hl Hok (Hv & H1 & H2 & H3) m. subst m.
  unfold sig_valid, SIGKILL, SIGSTOP, SIGCONT, CURRNUM in *. unfold sigblock, SIGKILL, SIGSTOP, SIGCONT, CURRNUM.
  replace ((sig <=? 0) || (22 <? sig)) with false by lia.
  replace ((sig =? 9) || (sig =? 19) || (sig =? 18)) with false by lia.
  kcall (siggetmask_run i s Hc Hl). apply sigsetmask_run; [done|done|].
  apply mask_refused_spec. unfold SIGKILL, SIGSTOP, SIGCONT. intros k Hk.
  pose proof (so_unmaskable _ Hok k Hk) as Hb.
  assert (0 <= k < 32 ∧ sig ≠ k) as [Hr Hne].
  { rewrite !elem_of_cons in Hk. destruct Hk as [->|[->|[->|[->|?%elem_of_nil]]]]; [lia..|done]. }
  rewrite testbit_set by lia. rewrite Hb. by apply Z.eqb_neq.
Qed.

Lemma sigunblock_run i s sig : s.(curproc) = Some i → PTABLE_LOCK ∉ s.(held) →
  sig_ok (get_proc i s) → sig_valid sig → sig ≠ SIGKILL → sig ≠ SIGSTOP →
  let m := Z.land (p_sigblocked (get_proc i s)) (not32 (bit sig)) in
  sigunblock sig s = Ret m (put_proc i (set_p_sigblocked m (get_proc i s)) s).
Proof.
  intros Hc Hl Hok Hv H1 H2 m. subst m.
  unfold sig_valid, SIGKILL, SIGSTOP, CURRNUM in *. unfold sigunblock, SIGKILL, SIGSTOP, CURRNUM.
  replace ((sig <=? 0) || (22 <? sig)) with false by lia.
  replace ((sig =? 9) || (sig =? 19)) with false by lia.
  kcall (siggetmask_run i s Hc Hl). apply sigsetmask_run; [done|done|].
  apply mask_refused_spec. intros k Hk.
  rewrite Z.land_spec. by rewrite (so_unmaskable _ Hok k Hk).
Qed.

(** [sigblock] of a signal that may be blocked adds exactly that
    signal to the caller's mask and [sigunblock] then gives a mask that
    differs from the first one only by not containing it; a signal that may not be blocked leaves
    the process unchanged. *)
Theorem sigblock_sigunblock i s sig : s.(curproc) = Some i → (i < length s.(pt))%nat →
  PTABLE_LOCK ∉ s.(held) → sig_ok (get_proc i s) →
  let mask t := p_sigblocked (get_proc i t) in
  (blockable sig →
   ∃ r1 s1 r2 s2, sigblock sig s = Ret r1 s1 ∧ sigunblock sig s1 = Ret r2 s2
   ∧ r1 = mask s1 ∧ r2 = mask s2
   ∧ (∀ k, 0 <= k < 32 → Z.testbit (mask s1) k = Z.testbit (mask s) k || (sig =? k))
   ∧ (∀ k, 0 <= k < 32 → Z.testbit (mask s2) k = Z.testbit (mask s) k && negb (sig =? k))
   ∧ (Z.testbit (mask s) sig = false → s2 = s))
  ∧ (¬ blockable sig → ∃ r, sigblock sig s = Ret r s ∧ r ∈ [0; u32 (-1)]).
Proof.
  intros Hc Hi Hl Hok mask. split.
  - intros Hb. pose proof Hb as (Hv & H1 & H2 & H3). unfold sig_valid, CURRNUM in Hv.
    pose proof (sigblock_run i s sig Hc Hl Hok Hb) as E1. cbv zeta in E1. fold (mask s) in E1.
    set (m1 := Z.lor (mask s) (bit sig)) in *. set (s1 := put_proc i _ s) in E1.
    assert (mask s1 = m1) as Hm1 by (unfold mask, s1; by rewrite get_put_same).
    assert (sig_ok (get_proc i s1)) as Hok1.
    { unfold s1. rewrite get_put_same by done. apply sig_ok_mask; [| |done].
      - apply lor_word; [apply Hok|apply bit_word].
      - intros k Hk. unfold m1. assert (0 <= k < 32 ∧ sig ≠ k) as [Hr Hne].
        { unfold SIGKILL, SIGSTOP, SIGCONT in *.
          rewrite !elem_of_cons in Hk. destruct Hk as [->|[->|[->|[->|?%elem_of_nil]]]]; [lia..|done]. }
        rewrite testbit_set by lia. unfold mask. rewrite (so_unmaskable _ Hok k Hk).
        by apply Z.eqb_neq. }
    pose proof (sigunblock_run i s1 sig Hc Hl Hok1 Hv H1 H2) as E2. cbv zeta in E2.
    fold (mask s1) in E2. rewrite Hm1 in E2. set (m2 := Z.land m1 _) in *.
    exists m1, s1, m2. eexists. split; [exact E1|]. split; [exact E2|].
    unfold mask at 2. rewrite get_put_same by (unfold s1; by rewrite length_put).
    split; [done|]. split; [done|].
    assert (∀ k, 0 <= k < 32 → Z.testbit m2 k = Z.testbit (mask s) k && negb (sig =? k)) as Hm2.
    { intros k Hk. unfold m2, m1. rewrite testbit_clear, testbit_set by lia.
      destruct (sig =? k); by rewrite ?andb_false_r, ?orb_false_r. }
    split; [intros k Hk; rewrite Hm1; unfold m1; by rewrite testbit_set by lia|]. split.
    + intros k Hk. unfold mask. rewrite get_put_same by (unfold s1; by rewrite length_put).
      by apply Hm2.
    + intros Hz. unfold s1. rewrite get_put_same, put_put by done.
      assert (m2 = mask s) as ->.
      { apply word_ext; [apply land_word; [|apply not32_word]|apply Hok|].
        - apply lor_word; [apply Hok|apply bit_word].
        - intros k Hk. rewrite Hm2 by done. destruct (Z.eqb_spec sig k) as [<-|]; simpl.
          + by rewrite Hz.
          + by rewrite andb_true_r. }
      trans (put_proc i (get_proc i s) s); [|apply put_get].
      f_equal. unfold mask. by destruct (get_proc i s).
  - intros Hb. unfold sigblock. destruct ((sig <=? 0) || (CURRNUM <? sig)) eqn:E1.
    { exists (u32 (-1)). split; [done|]. right. by left. }
    destruct ((sig =? SIGKILL) || (sig =? SIGSTOP) || (sig =? SIGCONT)) eqn:E2.
    { exists 0. split; [done|]. by left. }
    destruct Hb. unfold blockable, sig_valid. lia.
Qed.

(** ** Instances *)

Lemma Kill_effect_witness : ∃ s', Kill 3 SIGTERM demo = Ret 0 s'
  ∧ p_sigpending (get_proc 2 s') = 32768 ∧ p_sigpending (get_proc 1 s') = 0.
Proof.
  destruct (Kill_effect 3 SIGTERM demo 1) as (r & s' & E & _ & -> & Hp);
    [done|done|apply not_elem_of_nil|apply not_elem_of_nil|done|].
  exists s'. split; [exact E|]. rewrite !Hp. by vm_compute.
Defined.

Lemma Kill_spares_init_witness : ∃ r s', Kill (-1) SIGKILL demo = Ret r s'
  ∧ get_proc 0 s' = get_proc 0 demo.
Proof.
  destruct (Kill_spares_init (-1) SIGKILL demo 1) as (r & s' & E & _ & _ & H);
    [done|apply not_elem_of_nil|apply not_elem_of_nil|done|].
  exists r, s'. split; [exact E|]. by apply H.
Defined.

Lemma sigblock_sigunblock_witness : ∃ r1 s1 r2, sigblock SIGINT demo = Ret r1 s1
  ∧ sigunblock SIGINT s1 = Ret r2 demo ∧ Z.testbit r1 SIGINT = true.
Proof.
  destruct (sigblock_sigunblock 1 demo SIGINT) as [H _];
    [done|by vm_compute; lia|apply not_elem_of_nil|apply demo_proc_ok|].
  destruct H as (r1 & s1 & r2 & s2 & E1 & E2 & Hr1 & _ & Hm & _ & Hs).
  { unfold blockable, sig_valid, CURRNUM, SIGINT, SIGKILL, SIGSTOP, SIGCONT. lia. }
  exists r1, s1, r2. split; [exact E1|]. split; [rewrite E2; f_equal; by apply Hs|].
  rewrite Hr1, Hm by (unfold SIGINT; lia). done.
Defined.
