(* ===== verification/Pipe.v ===== *)
(** * Pipes, [pipe.c]

    The ring buffer with its two free running 32-bit counters, reading and
    writing with blocking, and closing.  [pipealloc] is in [File.v], which has
    the file table it allocates from. *)

From stdpp Require Import base numbers option list sets strings gmap.
From Stdlib Require Import ZArith Lia.
From S2P Require Import Prelude State Locks Kalloc Proc.

Definition pipe0 : pipe := mkpipe (replicate (Z.to_nat PIPESIZE) 0) 0 0 0 0.

(** The pipe at address [a]. *)
Definition get_pipe (a : Z) (s : kstate) : pipe := default pipe0 (s.(pipes) !! a).
Definition put_pipe (a : Z) (p : pipe) (s : kstate) : kstate :=
  set_pipes (<[a := p]> s.(pipes)) s.
Definition getpipe (a : Z) : M pipe := get (get_pipe a).
Definition modpipe (a : Z) (f : pipe → pipe) : M unit :=
  modify (fun s => put_pipe a (f (get_pipe a s)) s).

(** The cell of the ring a counter selects. *)
Definition ring (n : Z) : nat := Z.to_nat (n mod PIPESIZE).

(** [p->data[p->nwrite++ % PIPESIZE] = b;] *)
Definition put_byte (b : Z) (p : pipe) : pipe :=
  set_pi_nwrite (u32 (p.(pi_nwrite) + 1))
    (set_pi_data (<[ring p.(pi_nwrite) := b]> p.(pi_data)) p).

(** [p->data[p->nread++ % PIPESIZE]] *)
Definition head_byte (p : pipe) : Z := default 0 (p.(pi_data) !! ring p.(pi_nread)).
Definition take_byte (p : pipe) : pipe := set_pi_nread (u32 (p.(pi_nread) + 1)) p.

(** [myproc()->killed] *)
Definition cur_killed : M bool :=
  o <- myproc;;
  with_proc o (fun i => p <- getp i;; ret (truthy p.(p_killed))).

(** Wait until there is room for a byte; the result is [false] if the call
    has to fail, in which case the lock is released. *)
Fixpoint pipewrite_wait (fuel : nat) (a : Z) : M bool :=
  match fuel with
  | O => fun s => Stuck s
  | S fuel =>
    p <- getpipe a;;
    if p.(pi_nwrite) =? u32 (p.(pi_nread) + PIPESIZE) then
      dead <- (if p.(pi_readopen) =? 0 then ret true else cur_killed);;
      if (dead : bool) then release (PIPE_LOCK a);; ret false
      else wakeup (CH_NREAD a);; sleep (CH_NWRITE a) (PIPE_LOCK a);; pipewrite_wait fuel a
    else ret true
  end.

(** The loop over the [n] bytes at [addr]. *)
Fixpoint pipewrite_loop (fuel : nat) (a addr : Z) (n : nat) : M bool :=
  match n with
  | O => ret true
  | S n =>
    ok <- pipewrite_wait fuel a;;
    if (ok : bool) then
      m <- get mem;;
      modpipe a (put_byte (load8 m addr));;
      pipewrite_loop fuel a (u32 (addr + 1)) n
    else ret false
  end.

Definition pipewrite (fuel : nat) (a addr n : Z) : M Z :=
  acquire (PIPE_LOCK a);;
  ok <- pipewrite_loop fuel a addr (Z.to_nat n);;
  if (ok : bool) then wakeup (CH_NREAD a);; release (PIPE_LOCK a);; ret n
  else ret (-1).

(** Wait until there is a byte or no writer; [false] as above. *)
Fixpoint piperead_wait (fuel : nat) (a : Z) : M bool :=
  match fuel with
  | O => fun s => Stuck s
  | S fuel =>
    p <- getpipe a;;
    if (p.(pi_nread) =? p.(pi_nwrite)) && truthy p.(pi_writeopen) then
      dead <- cur_killed;;
      if (dead : bool) then release (PIPE_LOCK a);; ret false
      else sleep (CH_NREAD a) (PIPE_LOCK a);; piperead_wait fuel a
    else ret true
  end.

(** Copy at most [n] bytes to [addr]; [i] have been copied so far. *)
Fixpoint piperead_copy (a addr : Z) (n : nat) (i : Z) : M Z :=
  match n with
  | O => ret i
  | S n =>
    p <- getpipe a;;
    if p.(pi_nread) =? p.(pi_nwrite) then ret i
    else
      modpipe a take_byte;;
      modify (fun s => set_mem (store8 s.(mem) (u32 (addr + i)) (head_byte p)) s);;
      piperead_copy a addr n (i + 1)
  end.

Definition piperead (fuel : nat) (a addr n : Z) : M Z :=
  acquire (PIPE_LOCK a);;
  ok <- piperead_wait fuel a;;
  if (ok : bool) then
    i <- piperead_copy a addr (Z.to_nat n) 0;;
    wakeup (CH_NWRITE a);;
    release (PIPE_LOCK a);;
    ret i
  else ret (-1).

Definition pipeclose (a writable : Z) : M unit :=
  acquire (PIPE_LOCK a);;
  (if truthy writable then modpipe a (set_pi_writeopen 0);; wakeup (CH_NREAD a)
   else modpipe a (set_pi_readopen 0);; wakeup (CH_NWRITE a));;
  p <- getpipe a;;
  if (p.(pi_readopen) =? 0) && (p.(pi_writeopen) =? 0) then
    release (PIPE_LOCK a);;
    modify (fun s => set_pipes (delete a s.(pipes)) s);;
    kfree a
  else release (PIPE_LOCK a).

(** ** The ring buffer is a queue *)

(** The bytes in the pipe, the oldest first. *)
Definition contents (p : pipe) : list Z :=
  (fun k => default 0 (p.(pi_data) !! ring (p.(pi_nread) + Z.of_nat k)))
  <$> seq 0 (Z.to_nat (u32 (p.(pi_nwrite) - p.(pi_nread)))).

Record pipe_inv (p : pipe) : Prop := {
  pv_data : length p.(pi_data) = Z.to_nat PIPESIZE;
  pv_nread : word p.(pi_nread);
  pv_nwrite : word p.(pi_nwrite);
  pv_room : u32 (p.(pi_nwrite) - p.(pi_nread)) <= PIPESIZE
}.

Lemma length_contents p : length (contents p) = Z.to_nat (u32 (p.(pi_nwrite) - p.(pi_nread))).
Proof. unfold contents. by rewrite length_fmap, length_seq. Qed.

Lemma ring_u32 n : ring (u32 n) = ring n.
Proof.
  unfold ring, u32, two32, PIPESIZE. f_equal. apply Z.mod_mod_divide. by exists 8388608.
Qed.

(** Cells less than a full round apart are different. *)
Lemma ring_ne a b : 0 < b - a < PIPESIZE → ring a ≠ ring b.
Proof.
  unfold ring, PIPESIZE. intros H E%(f_equal Z.of_nat).
  rewrite !Z2Nat.id in E by (apply Z.mod_pos_bound; lia).
  pose proof (Z.div_mod a 512). pose proof (Z.div_mod b 512). nia.
Qed.

Lemma ring_lt p n : pipe_inv p → (ring n < length p.(pi_data))%nat.
Proof.
  intros []. rewrite pv_data0. unfold ring, PIPESIZE. pose proof (Z.mod_pos_bound n 512). lia.
Qed.

(** The counters differ by the number of bytes in the pipe. *)
Lemma nwrite_eq p : pipe_inv p →
  p.(pi_nwrite) = u32 (p.(pi_nread) + Z.of_nat (length (contents p))).
Proof.
  intros []. rewrite length_contents, Z2Nat.id by apply u32_word.
  rewrite u32_add_r. replace (_ + _) with (p.(pi_nwrite)) by lia. by rewrite u32_id.
Qed.

Lemma full_iff p : pipe_inv p →
  (p.(pi_nwrite) =? u32 (p.(pi_nread) + PIPESIZE)) = true ↔ length (contents p) = Z.to_nat PIPESIZE.
Proof.
  intros Hp. rewrite Z.eqb_eq, length_contents. split.
  - intros ->. f_equal. rewrite u32_sub_l.
    replace (_ - _) with PIPESIZE by lia. by rewrite u32_id.
  - intros H. pose proof (u32_word (pi_nwrite p - pi_nread p)) as Hw. unfold word in Hw.
    apply Z2Nat.inj in H; [|lia|done]. rewrite <- H, u32_add_r.
    replace (_ + _) with (p.(pi_nwrite)) by lia. rewrite u32_id; [done|apply Hp].
Qed.

Lemma empty_iff p : pipe_inv p → (p.(pi_nread) =? p.(pi_nwrite)) = true ↔ contents p = [].
Proof.
  intros Hp. rewrite Z.eqb_eq, <- length_zero_iff_nil. split.
  - intros E. rewrite length_contents, <- E, Z.sub_diag. done.
  - intros E. pose proof (nwrite_eq p Hp) as H. rewrite E, Z.add_0_r in H.
    rewrite H, u32_id; [done|apply Hp].
Qed.

(** Writing appends a byte, also when the counter wraps around. *)
Lemma put_byte_queue b p : pipe_inv p → (length (contents p) < Z.to_nat PIPESIZE)%nat →
  pipe_inv (put_byte b p) ∧ contents (put_byte b p) = contents p ++ [b].
Proof.
  intros Hp Hlen. pose proof Hp as [].
  assert (u32 (u32 (pi_nwrite p + 1) - pi_nread p) = u32 (pi_nwrite p - pi_nread p) + 1) as Hd.
  { rewrite length_contents in Hlen. pose proof (u32_word (pi_nwrite p - pi_nread p)) as [].
    rewrite u32_sub_l. replace (_ + 1 - _) with (pi_nwrite p - pi_nread p + 1) by lia.
    rewrite <- u32_add_l. apply u32_id. unfold word, two32, PIPESIZE in *. lia. }
  split.
  - split; simpl; [by rewrite length_insert|done|apply u32_word|].
    rewrite Hd. rewrite length_contents in Hlen. lia.
  - unfold contents at 1. simpl. rewrite Hd, Z2Nat.inj_add by (lia || apply u32_word).
    rewrite seq_app, fmap_app. f_equal.
    + apply list_fmap_ext. intros j k Hk%lookup_seq. simpl. rewrite list_lookup_insert_ne; [done|].
      rewrite length_contents in Hlen. rewrite (nwrite_eq p Hp), length_contents, ring_u32.
      apply not_eq_sym, ring_ne. lia.
    + simpl. f_equal. rewrite <- length_contents, (nwrite_eq p Hp), ring_u32.
      rewrite list_lookup_insert_eq; [done|]. by apply ring_lt.
Qed.

(** Reading takes the oldest byte. *)
Lemma take_byte_queue p b l : pipe_inv p → contents p = b :: l →
  head_byte p = b ∧ pipe_inv (take_byte p) ∧ contents (take_byte p) = l.
Proof.
  intros Hp Hc. pose proof Hp as [].
  pose proof (f_equal length Hc) as Hlen. rewrite length_contents in Hlen. simpl in Hlen.
  assert (u32 (pi_nwrite p - u32 (pi_nread p + 1)) = u32 (pi_nwrite p - pi_nread p) - 1) as Hd.
  { pose proof (u32_word (pi_nwrite p - pi_nread p)) as [].
    rewrite u32_sub_r. replace (_ - (_ + 1)) with (pi_nwrite p - pi_nread p - 1) by lia.
    rewrite <- u32_sub_l. apply u32_id. unfold word, two32 in *. lia. }
  unfold contents in Hc. replace (Z.to_nat _) with (S (length l)) in Hc by lia.
  simpl in Hc. rewrite Z.add_0_r in Hc. injection Hc as Hb Hl. split; [done|]. split.
  - split; simpl; [done|apply u32_word|done|]. rewrite Hd. lia.
  - unfold contents. simpl. rewrite Hd. replace (Z.to_nat _) with (length l) by lia.
    etrans; [|exact Hl]. change (list_fmap nat Z ?g ?l) with (g <$> l).
    rewrite <- fmap_S_seq, <- list_fmap_compose.
    apply list_fmap_ext. intros j k _. simpl. do 2 f_equal.
    rewrite <- (ring_u32 (_ + _)), u32_add_l, ring_u32. f_equal. lia.
Qed.

(** ** Blocking reads and writes *)

Section blocking.
Context (i : nat) (a : Z).

Definition queue (s : kstate) : list Z := contents (get_pipe a s).

(** The process [i] runs inside a pipe operation and holds the pipe's lock. *)
Record in_pipe (s : kstate) : Prop := {
  ip_cur : s.(curproc) = Some i;
  ip_wf : wf_table s;
  ip_i : (i < NPROC)%nat;
  ip_held : s.(held) = [PIPE_LOCK a];
  ip_inv : pipe_inv (get_pipe a s)
}.

(** [readopen == 0 || myproc()->killed] *)
Definition no_reader (s : kstate) : Prop :=
  pi_readopen (get_pipe a s) = 0 ∨ p_killed (get_proc i s) ≠ 0.

(** What other processes may do while [i] sleeps in a pipe operation: the
    scheduler resumes [i] with [ptable.lock] held and the pipe intact. *)
Definition resumed (s s' : kstate) : Prop :=
  s'.(curproc) = Some i ∧ wf_table s' ∧ s'.(held) = [PTABLE_LOCK] ∧ pipe_inv (get_pipe a s').

(** The state in which a process comes back from [sleep] on the pipe's lock. *)
Definition awake (ie : bool) (s : kstate) : kstate :=
  put_proc i (set_p_chan NOCHAN (get_proc i s)) (set_held [PIPE_LOCK a] (set_intena ie s)).

Lemma awake_in_pipe ie s s' : (i < NPROC)%nat → resumed s s' → in_pipe (awake ie s').
Proof.
  intros Hi (Hc & Hw & Hh & Hp). split; try done. unfold wf_table, awake. by rewrite length_put.
Qed.

Lemma awake_killed ie s s' : (i < NPROC)%nat → resumed s s' →
  p_killed (get_proc i (awake ie s')) = p_killed (get_proc i s').
Proof.
  intros Hi (Hc & Hw & Hh & Hp). unfold awake.
  rewrite get_put_same; [done|]. simpl. by rewrite Hw.
Qed.

(** Sleeping on the pipe. *)
Lemma pipe_sleep {G B} (env : G → kstate → G → kstate → Prop) (Q : G → B → kstate → Prop) c k g s :
  in_pipe s →
  (∀ g' s', env g (put_proc i (sleeping_on c (get_proc i s)) (set_held [PTABLE_LOCK] s)) g' s' →
     resumed s s' ∧ wp env Q g' (k () (awake s.(intena) s'))) →
  wp env Q g (bind (sleep c (PIPE_LOCK a)) k s).
Proof.
  intros [] He.
  assert (i < length (pt s))%nat as Hi by by rewrite ip_wf0.
  destruct (sleep_switch i c (PIPE_LOCK a) s ip_cur0 Hi ip_held0 ltac:(done)) as (k' & E & Hk).
  rewrite (bind_switch _ _ _ _ _ E). simpl. intros g' s' Henv.
  destruct (He g' s' Henv) as [(Hc & Hw & Hh & Hp) Hwp].
  rewrite Hk by (rewrite ?Hw; done). done.
Qed.

(** [wakeup] inside a pipe operation. *)
Lemma pipe_wakeup {B} c (k : unit → M B) s : in_pipe s →
  bind (wakeup c) k s = k () (set_pt (wake_proc c <$> s.(pt)) s).
Proof.
  intros []. by rewrite (bind_returns _ _ _ _ _ (wakeup_run c s ip_wf0
    ltac:(rewrite ip_held0; set_solver))).
Qed.

Lemma in_pipe_woken c s : in_pipe s → in_pipe (set_pt (wake_proc c <$> s.(pt)) s).
Proof. intros []. split; try done. unfold wf_table. simpl. by rewrite length_fmap. Qed.

Lemma cur_killed_run s : in_pipe s → cur_killed s = Ret (truthy (p_killed (get_proc i s))) s.
Proof. intros []. unfold cur_killed. by rewrite bind_myproc, ip_cur0. Qed.

Lemma pipe_release s : in_pipe s → release (PIPE_LOCK a) s = Ret () (set_held [] s).
Proof. intros []. apply release_head; [done|]. set_solver. Qed.
End blocking.

(** The [n] bytes at [x]. *)
Definition bytes_at (m : memory) (x : Z) (n : nat) : list Z :=
  (fun k => m (x + Z.of_nat k)) <$> seq 0 n.

Lemma bytes_at_S m x n : bytes_at m x (S n) = m x :: bytes_at m (x + 1) n.
Proof.
  unfold bytes_at. simpl. rewrite Z.add_0_r. f_equal.
  rewrite <- fmap_S_seq, <- list_fmap_compose. apply list_fmap_ext. intros j k _. simpl.
  f_equal. lia.
Qed.

Lemma bytes_at_ext m m' x n : (∀ y, x <= y < x + Z.of_nat n → m' y = m y) →
  bytes_at m' x n = bytes_at m x n.
Proof. intros H. apply list_fmap_ext. intros j k Hk%lookup_seq. apply H. lia. Qed.

Lemma length_bytes_at m x n : length (bytes_at m x n) = n.
Proof. unfold bytes_at. by rewrite length_fmap, length_seq. Qed.

(** *** Writing *)

Section writing.
Context (i : nat) (a src : Z) (len : nat).
Hypothesis Hsrc : 0 <= src ∧ src + Z.of_nat len < two32.
Hypothesis Hi : (i < NPROC)%nat.

(** The writer may go on: there is room, or it has to give up. *)
Definition can_write (s : kstate) : Prop :=
  (length (queue a s) < Z.to_nat PIPESIZE)%nat ∨ no_reader i a s.

(** The environment of a writer: other processes take bytes from the front of
    the pipe and leave the bytes to be written alone.  The ghost value records
    the bytes taken and how many more times the writer may be woken in vain. *)
Definition writer_env (g : list Z * nat) (s : kstate) (g' : list Z * nat) (s' : kstate) : Prop :=
  resumed i a s s' ∧
  (∀ x, src <= x < src + Z.of_nat len → s'.(mem) x = s.(mem) x) ∧
  (∃ l, fst g' = fst g ++ l ∧ queue a s = l ++ queue a s') ∧
  (snd g' = snd g ∧ can_write s' ∨ snd g = S (snd g')).

(** What has happened since [(g, s)]. *)
Definition drained (g : list Z * nat) (s : kstate) (g' : list Z * nat) (s' : kstate) : Prop :=
  (∀ x, src <= x < src + Z.of_nat len → s'.(mem) x = s.(mem) x) ∧
  (snd g' <= snd g)%nat ∧
  ∃ l, fst g' = fst g ++ l ∧ queue a s = l ++ queue a s'.

Lemma drained_refl g s : drained g s g s.
Proof. split; [done|]. split; [done|]. exists []. by rewrite app_nil_r. Qed.

Lemma drained_trans g1 s1 g2 s2 g3 s3 :
  drained g1 s1 g2 s2 → drained g2 s2 g3 s3 → drained g1 s1 g3 s3.
Proof.
  intros (Hm & Hb & l & Hl & Hq) (Hm' & Hb' & l' & Hl' & Hq'). split.
  - intros x Hx. rewrite Hm', Hm by done. done.
  - split; [lia|]. exists (l ++ l'). rewrite Hl', Hl, Hq, Hq', !app_assoc. done.
Qed.

Lemma wait_write fuel s (g : list Z * nat) : in_pipe i a s → (snd g + 1 < fuel)%nat ∨ can_write s ∧ (snd g < fuel)%nat →
  wp writer_env (fun g' (ok : bool) s' => drained g s g' s' ∧
      if ok then in_pipe i a s' ∧ (length (queue a s') < Z.to_nat PIPESIZE)%nat
      else s'.(held) = [] ∧ no_reader i a s') g (pipewrite_wait fuel a s).
Proof.
  revert s g. induction fuel as [|fuel IH]; intros s g Hs Hfuel; [lia|]. simpl pipewrite_wait.
  unfold getpipe. rewrite bind_get.
  destruct (_ =? _) eqn:Efull.
  2: { simpl. split; [apply drained_refl|]. split; [done|].
       assert (length (queue a s) ≠ Z.to_nat PIPESIZE) as Hne.
       { intros H%(full_iff _ (ip_inv _ _ _ Hs)). congruence. }
       unfold queue in *. rewrite length_contents in *.
       pose proof (pv_room _ (ip_inv _ _ _ Hs)). lia. }
  apply full_iff in Efull; [|apply Hs].
  assert ((if pi_readopen (get_pipe a s) =? 0 then ret true else cur_killed) s
    = Ret (bool_decide (no_reader i a s)) s) as Edead.
  { destruct (Z.eqb_spec (pi_readopen (get_pipe a s)) 0) as [E|E].
    - rewrite bool_decide_eq_true_2 by (by left). done.
    - rewrite (cur_killed_run i a s Hs). f_equal. unfold truthy, no_reader.
      destruct (Z.eqb_spec (p_killed (get_proc i s)) 0) as [E'|E'].
      + rewrite bool_decide_eq_false_2; [done|]. tauto.
      + rewrite bool_decide_eq_true_2; [done|]. by right. }
  kcall Edead. case_bool_decide as Hdead.
  { rewrite (bind_returns _ _ _ _ _ (pipe_release i a s Hs)). simpl.
    split; [|done]. split; [done|]. split; [done|]. exists []. by rewrite app_nil_r. }
  assert (snd g < fuel)%nat as Hf.
  { destruct Hfuel as [?|[[H|?] ?]]; [lia| |done]. unfold queue in H. lia. }
  rewrite (pipe_wakeup i a) by done.
  apply (pipe_sleep i a); [by apply in_pipe_woken|].
  intros g' s' (Hres & Hmem & (l & Hl & Hq) & Hb).
  split; [done|]. set (s2 := awake i a _ s').
  assert (in_pipe i a s2) as Hs2 by (by eapply awake_in_pipe).
  eapply wp_mono; [apply IH; [done|]|].
  - unfold can_write, no_reader in *. change (queue a s2) with (queue a s').
    unfold s2. erewrite awake_killed by done.
    change (get_pipe a (awake i a _ s')) with (get_pipe a s').
    destruct Hb as [[-> Hb]|Hb]; [right; split; [exact Hb|lia]|left; lia].
  - intros g3 ok s3 (Hd & Hok). split; [|done]. eapply drained_trans; [|exact Hd].
    split; [done|]. split; [destruct Hb as [[-> _]|Hb]; lia|]. by exists l.
Qed.

(** The progress of the loop: [k] of the [n] bytes at [addr] have been written. *)
Definition wrote (g : list Z * nat) (s : kstate) (bytes : list Z)
    (g' : list Z * nat) (ok : bool) (s' : kstate) : Prop :=
  (snd g' <= snd g)%nat ∧
  (∀ x, src <= x < src + Z.of_nat len → s'.(mem) x = s.(mem) x) ∧
  ∃ l k, fst g' = fst g ++ l ∧ queue a s ++ take k bytes = l ++ queue a s' ∧
    if ok then k = length bytes ∧ in_pipe i a s'
    else (k < length bytes)%nat ∧ s'.(held) = [] ∧ no_reader i a s'.

Lemma put_byte_pipe b s : in_pipe i a s → (length (queue a s) < Z.to_nat PIPESIZE)%nat →
  let s' := put_pipe a (put_byte b (get_pipe a s)) s in
  in_pipe i a s' ∧ queue a s' = queue a s ++ [b].
Proof.
  intros Hs Hlen s'. destruct (put_byte_queue b _ (ip_inv _ _ _ Hs) Hlen) as [Hinv Hq].
  assert (get_pipe a s' = put_byte b (get_pipe a s)) as Hg.
  { unfold s', get_pipe at 1, put_pipe. simpl. by rewrite lookup_insert_eq. }
  unfold queue. rewrite Hg. split; [|done]. destruct Hs. split; try done. by rewrite Hg.
Qed.

Lemma write_loop fuel n : ∀ addr s g, in_pipe i a s → (snd g + 1 < fuel)%nat →
  src <= addr → addr + Z.of_nat n <= src + Z.of_nat len →
  wp writer_env (wrote g s (bytes_at s.(mem) addr n)) g (pipewrite_loop fuel a addr n s).
Proof.
  induction n as [|n IH]; intros addr s g Hs Hf Ha Hn; simpl pipewrite_loop.
  { simpl. split; [done|]. split; [done|]. exists [], 0%nat. by rewrite !app_nil_r. }
  eapply wp_bind; [apply (wait_write fuel s g Hs); by left|].
  intros g1 ok s1 [(Hm & Hb & l & Hl & Hq) Hok]. destruct ok.
  2: { change (wrote g s (bytes_at (mem s) addr (S n)) g1 false s1).
       split; [done|]. split; [done|]. exists l, 0%nat. rewrite app_nil_r, length_bytes_at.
       split; [done|]. split; [done|]. split; [lia|done]. }
  destruct Hok as [Hs1 Hroom]. rewrite bind_get. unfold modpipe. rewrite bind_modify.
  assert (load8 s1.(mem) addr = s.(mem) addr) as Hbyte.
  { unfold load8. rewrite u32_id by (destruct Hsrc; unfold word, two32 in *; lia). apply Hm. lia. }
  rewrite Hbyte. destruct (put_byte_pipe (s.(mem) addr) s1 Hs1 Hroom) as [Hs2 Hq2].
  set (s2 := put_pipe a _ s1) in *.
  rewrite u32_id by (destruct Hsrc; unfold word, two32 in *; lia).
  eapply wp_mono; [apply (IH (addr + 1) s2 g1); [done|lia|lia|lia]|].
  intros g3 ok s3 (Hb3 & Hm3 & l3 & k & Hl3 & Hq3 & Hok).
  assert (bytes_at s2.(mem) (addr + 1) n = bytes_at s.(mem) (addr + 1) n) as Hbs.
  { apply bytes_at_ext. intros x Hx. apply Hm. lia. }
  rewrite Hbs in Hq3, Hok. split; [lia|]. split; [intros x Hx; rewrite Hm3 by done; by apply Hm|].
  exists (l ++ l3), (S k). rewrite Hl3, Hl. split; [by rewrite app_assoc|]. split.
  - rewrite bytes_at_S. cbn [take]. rewrite Hq, <- !app_assoc, <- Hq3, Hq2, <- app_assoc. done.
  - rewrite bytes_at_S. cbn [length]. destruct ok; [|split; [lia|tauto]]. destruct Hok as [-> ?]. done.
Qed.
End writing.


(** *** Reading *)

Section reading.
Context (i : nat) (a : Z).
Hypothesis Hi : (i < NPROC)%nat.

Definition can_read (s : kstate) : Prop :=
  queue a s ≠ [] ∨ pi_writeopen (get_pipe a s) = 0 ∨ p_killed (get_proc i s) ≠ 0.

(** The environment of a reader: other processes add bytes at the end. *)
Definition reader_env (g : list Z * nat) (s : kstate) (g' : list Z * nat) (s' : kstate) : Prop :=
  resumed i a s s' ∧
  (∃ l, fst g' = fst g ++ l ∧ queue a s' = queue a s ++ l) ∧
  (snd g' = snd g ∧ can_read s' ∨ snd g = S (snd g')).

Lemma wait_read fuel s (g : list Z * nat) : in_pipe i a s →
  (snd g + 1 < fuel)%nat ∨ can_read s ∧ (snd g < fuel)%nat →
  wp reader_env (fun g' (ok : bool) s' =>
      (∃ l, fst g' = fst g ++ l ∧ queue a s' = queue a s ++ l) ∧
      if ok then in_pipe i a s' ∧ (queue a s' ≠ [] ∨ pi_writeopen (get_pipe a s') = 0)
      else s'.(held) = [] ∧ p_killed (get_proc i s') ≠ 0) g (piperead_wait fuel a s).
Proof.
  revert s g. induction fuel as [|fuel IH]; intros s g Hs Hfuel; [lia|]. simpl piperead_wait.
  unfold getpipe. rewrite bind_get.
  assert (∃ l, fst g = fst g ++ l ∧ queue a s = queue a s ++ l) as Hrefl
    by (exists []; by rewrite !app_nil_r).
  destruct (_ && truthy _) eqn:Eemp.
  2: { simpl. split; [done|]. split; [done|]. apply andb_false_iff in Eemp as [E|E].
       - left. intros H%(empty_iff _ (ip_inv _ _ _ Hs)). congruence.
       - right. unfold truthy in E. by apply negb_false_iff, Z.eqb_eq in E. }
  apply andb_true_iff in Eemp as [Eemp%(empty_iff _ (ip_inv _ _ _ Hs)) Eopen].
  unfold truthy in Eopen. apply negb_true_iff, Z.eqb_neq in Eopen.
  kcall (cur_killed_run i a s Hs). unfold truthy.
  destruct (Z.eqb_spec (p_killed (get_proc i s)) 0) as [Ek|Ek]; cbn [negb].
  2: { rewrite (bind_returns _ _ _ _ _ (pipe_release i a s Hs)). done. }
  assert (snd g < fuel)%nat as Hf by (destruct Hfuel as [?|[[?|[?|?]] ?]]; done || lia).
  apply (pipe_sleep i a); [done|].
  intros g' s' (Hres & (l & Hl & Hq) & Hb).
  split; [done|]. set (s2 := awake i a _ s').
  assert (in_pipe i a s2) as Hs2 by (by eapply awake_in_pipe).
  eapply wp_mono; [apply IH; [done|]|].
  - unfold can_read in *. change (queue a s2) with (queue a s').
    unfold s2. erewrite awake_killed by done.
    change (get_pipe a (awake i a _ s')) with (get_pipe a s').
    destruct Hb as [[-> Hb]|Hb]; [right; split; [exact Hb|lia]|left; lia].
  - intros g3 ok s3 ((l3 & Hl3 & Hq3) & Hok). split; [|done].
    exists (l ++ l3). rewrite Hl3, Hl, Hq3. change (queue a s2) with (queue a s'). rewrite Hq.
    by rewrite !app_assoc.
Qed.

Lemma take_byte_pipe s : in_pipe i a s → ∀ b l, queue a s = b :: l →
  let s' := put_pipe a (take_byte (get_pipe a s)) s in
  head_byte (get_pipe a s) = b ∧ in_pipe i a s' ∧ queue a s' = l.
Proof.
  intros Hs b l Hq s'. destruct (take_byte_queue _ b l (ip_inv _ _ _ Hs) Hq) as (Hb & Hinv & Hl).
  assert (get_pipe a s' = take_byte (get_pipe a s)) as Hg.
  { unfold s', get_pipe at 1, put_pipe. simpl. by rewrite lookup_insert_eq. }
  split; [done|]. unfold queue. rewrite Hg. split; [|done]. destruct Hs. split; try done.
  by rewrite Hg.
Qed.

(** Copying takes a prefix of the queue to memory, as long as it can be. *)
Lemma copy_read addr n : ∀ k s, in_pipe i a s → 0 <= addr → 0 <= k →
  addr + k + Z.of_nat n < two32 →
  ∃ s' m, piperead_copy a addr n k s = Ret (k + Z.of_nat m) s' ∧ in_pipe i a s'
  ∧ m = Nat.min n (length (queue a s)) ∧ queue a s' = drop m (queue a s)
  ∧ bytes_at s'.(mem) (addr + k) m = (fun b => b mod 256) <$> take m (queue a s)
  ∧ ∀ x, ¬ (addr + k <= x < addr + k + Z.of_nat m) → s'.(mem) x = s.(mem) x.
Proof.
  induction n as [|n IH]; intros k s Hs Ha Hk Hr; simpl piperead_copy.
  { exists s, 0%nat. rewrite Z.add_0_r. done. }
  unfold getpipe. rewrite bind_get. destruct (queue a s) as [|b l] eqn:Hq.
  { pose proof (proj2 (empty_iff _ (ip_inv _ _ _ Hs)) Hq) as ->.
    exists s, 0%nat. rewrite Z.add_0_r. done. }
  destruct (_ =? _) eqn:E.
  { apply (empty_iff _ (ip_inv _ _ _ Hs)) in E. unfold queue in Hq. congruence. }
  unfold modpipe. rewrite !bind_modify.
  destruct (take_byte_pipe s Hs b l Hq) as (Hb & Hs1 & Hq1). cbv zeta in Hs1, Hq1.
  rewrite Hb. set (s1 := put_pipe a _ s) in *. set (s2 := set_mem _ s1).
  assert (in_pipe i a s2) as Hs2 by by destruct Hs1.
  destruct (IH (k + 1) s2 Hs2 Ha ltac:(lia) ltac:(lia)) as (s3 & m & E3 & Hs3 & Hm & Hq3 & Hby & Hx).
  change (queue a s2) with (queue a s1) in *. rewrite Hq1 in *.
  replace (addr + (k + 1)) with (addr + k + 1) in * by lia.
  exists s3, (S m). rewrite E3. split; [f_equal; lia|]. split; [done|]. split; [simpl; lia|].
  split; [done|].
  assert (∀ y, s2.(mem) y = if y =? addr + k then b mod 256 else s.(mem) y) as Hmem.
  { intros y. unfold s2. simpl. unfold store8. rewrite u32_idem, u32_id by (unfold word; lia). done. }
  split.
  - rewrite bytes_at_S. simpl. f_equal; [|done]. rewrite Hx by lia. rewrite Hmem.
    by rewrite Z.eqb_refl.
  - intros x Hnx. rewrite Hx by lia. rewrite Hmem. destruct (Z.eqb_spec x (addr + k)); [lia|done].
Qed.
End reading.

(** Whatever writers do while the reader sleeps, [piperead] returns with the
    lock released.  Unless the reader is killed it takes the longest possible
    prefix (up to [n]) of the bytes that were in the pipe followed by those
    added meanwhile, in order, and takes nothing only at the end of the stream. *)
Theorem piperead_stream i a dst n fuel b s :
  s.(curproc) = Some i → wf_table s → (i < NPROC)%nat → s.(held) = [] →
  pipe_inv (get_pipe a s) → 0 <= n → 0 <= dst → dst + n < two32 → (b + 1 < fuel)%nat →
  wp (reader_env i a)
    (fun g r s' => s'.(held) = [] ∧
      let q := queue a s ++ fst g in
      (r = -1 ∧ p_killed (get_proc i s') ≠ 0 ∧ queue a s' = q) ∨
      ∃ m, r = Z.of_nat m ∧ m = Nat.min (Z.to_nat n) (length q)
         ∧ (m = 0%nat → n = 0 ∨ pi_writeopen (get_pipe a s') = 0)
         ∧ queue a s' = drop m q
         ∧ bytes_at s'.(mem) dst m = (fun c => c mod 256) <$> take m q)
    ([], b) (piperead fuel a dst n s).
Proof.
  intros Hc Hw Hi Hh Hp Hn Hd Hr Hf. unfold piperead.
  rewrite (bind_returns _ _ _ _ _ (acquire_free (PIPE_LOCK a) s ltac:(rewrite Hh; set_solver))).
  set (s1 := set_held _ s). assert (in_pipe i a s1) as Hs1.
  { split; try done. simpl. by rewrite Hh. }
  eapply wp_bind.
  { apply (wait_read i a Hi fuel s1 ([], b) Hs1). left. simpl. lia. }
  intros g ok s2 [(l & Hl & Hq) Hok]. simpl in Hl. subst l.
  change (queue a s1) with (queue a s) in Hq. destruct ok.
  2: { destruct Hok as [Hh2 Hk]. split; [done|]. left. done. }
  destruct Hok as [Hs2 Hor].
  destruct (copy_read i a Hi dst (Z.to_nat n) 0 s2 Hs2 Hd ltac:(lia) ltac:(lia))
    as (s3 & m & E & Hs3 & Hm & Hq3 & Hby & _).
  rewrite Z.add_0_r in Hby.
  kcall E. rewrite (pipe_wakeup i a) by done.
  rewrite (bind_returns _ _ _ _ _ (pipe_release i a _ (in_pipe_woken i a _ s3 Hs3))).
  split; [done|]. right. exists m. rewrite <- Hq. repeat split; try done.
  intros ->. destruct (queue a s2) as [|c q2] eqn:Eq; [|left; simpl in Hm; lia].
  right. destruct Hor as [?|Ho]; [done|]. change (pi_writeopen (get_pipe a s3) = 0).
  destruct (Z.to_nat n) as [|n']; simpl in E.
  - unfold ret in E. by injection E as <-.
  - unfold getpipe in E. rewrite bind_get in E.
    pose proof (proj2 (empty_iff _ (ip_inv _ _ _ Hs2)) Eq) as Hnn. rewrite Hnn in E.
    unfold ret in E. by injection E as <-.
Qed.

(** ** Without blocking *)

Lemma write_room i a src n : ∀ addr s, in_pipe i a s → src <= addr → 0 <= src →
  addr + Z.of_nat n < two32 → (length (queue a s) + n <= Z.to_nat PIPESIZE)%nat →
  ∃ s', pipewrite_loop 1 a addr n s = Ret true s' ∧ in_pipe i a s' ∧ s'.(mem) = s.(mem)
  ∧ queue a s' = queue a s ++ bytes_at s.(mem) addr n.
Proof.
  induction n as [|n IH]; intros addr s Hs Ha H0 Hr Hl; simpl pipewrite_loop.
  { exists s. unfold bytes_at. simpl. by rewrite app_nil_r. }
  unfold bind at 1, getpipe. unfold bind at 1. simpl cbind at 2.
  destruct (_ =? _) eqn:E.
  { apply (full_iff _ (ip_inv _ _ _ Hs)) in E. unfold queue in Hl. lia. }
  simpl cbind. rewrite bind_get. unfold modpipe. rewrite bind_modify.
  unfold load8. rewrite u32_id by (unfold word; lia). rewrite u32_id by (unfold word; lia).
  destruct (put_byte_pipe i a (s.(mem) addr) s Hs ltac:(lia)) as [Hs2 Hq2].
  set (s2 := put_pipe a _ s) in *.
  destruct (IH (addr + 1) s2 Hs2 ltac:(lia) H0 ltac:(lia)) as (s3 & E3 & Hs3 & Hm3 & Hq3).
  { rewrite Hq2, length_app. simpl. lia. }
  exists s3. split; [done|]. split; [done|]. split; [done|].
  rewrite Hq3, Hq2, bytes_at_S, <- app_assoc. done.
Qed.

(** Up to 512 bytes written to an empty pipe are read back unchanged and in
    order, whatever the values of the 32-bit counters (they may wrap around). *)
Theorem pipe_round_trip i a src dst n s :
  s.(curproc) = Some i → wf_table s → (i < NPROC)%nat → s.(held) = [] →
  pipe_inv (get_pipe a s) → queue a s = [] → 0 < n <= PIPESIZE →
  0 <= src → src + n < two32 → 0 <= dst → dst + n < two32 → (∀ x, 0 <= s.(mem) x < 256) →
  ∃ s1 s2, pipewrite 1 a src n s = Ret n s1 ∧ piperead 1 a dst n s1 = Ret n s2
  ∧ bytes_at s2.(mem) dst (Z.to_nat n) = bytes_at s.(mem) src (Z.to_nat n)
  ∧ queue a s2 = [].
Proof.
  intros Hc Hw Hi Hh Hp Hq Hn Hs Hsr Hd Hdr Hby. unfold pipewrite.
  rewrite (bind_returns _ _ _ _ _ (acquire_free (PIPE_LOCK a) s ltac:(rewrite Hh; set_solver))).
  set (s1 := set_held _ s). assert (in_pipe i a s1) as Hs1.
  { split; try done. simpl. by rewrite Hh. }
  destruct (write_room i a src (Z.to_nat n) src s1 Hs1 ltac:(lia) Hs ltac:(lia))
    as (s2 & E2 & Hs2 & Hm2 & Hq2).
  { change (queue a s1) with (queue a s). rewrite Hq. simpl. lia. }
  change (queue a s1) with (queue a s) in Hq2. rewrite Hq in Hq2. simpl in Hq2.
  kcall E2. rewrite (pipe_wakeup i a) by done.
  pose proof (in_pipe_woken i a (CH_NREAD a) s2 Hs2) as Hs3. set (s3 := set_pt _ s2) in *.
  rewrite (bind_returns _ _ _ _ _ (pipe_release i a s3 Hs3)).
  set (s4 := set_held [] s3). exists s4.
  assert (in_pipe i a (set_held [PIPE_LOCK a] s4)) as Hs5 by (destruct Hs3; by split).
  destruct (copy_read i a Hi dst (Z.to_nat n) 0 _ Hs5 Hd ltac:(lia) ltac:(lia))
    as (s6 & m & E6 & Hs6 & Hm & Hq6 & Hby6 & _).
  change (queue a (set_held [PIPE_LOCK a] s4)) with (queue a s2) in *.
  rewrite Hq2, length_bytes_at, Nat.min_id in Hm. subst m.
  rewrite Hq2, take_ge in Hby6 by (by rewrite length_bytes_at).
  rewrite Hq2, drop_ge in Hq6 by (by rewrite length_bytes_at). rewrite Z.add_0_r in Hby6.
  exists (set_held [] (set_pt (wake_proc (CH_NWRITE a) <$> s6.(pt)) s6)).
  split; [done|]. split.
  - unfold piperead.
    rewrite (bind_returns _ _ _ _ _ (acquire_free (PIPE_LOCK a) s4 ltac:(apply not_elem_of_nil))).
    assert (piperead_wait 1 a (set_held [PIPE_LOCK a] s4) = Ret true (set_held [PIPE_LOCK a] s4)) as Ew.
    { simpl. unfold getpipe. rewrite bind_get. destruct (_ =? _) eqn:E; [|done].
      apply (empty_iff _ (ip_inv _ _ _ Hs5)) in E.
      change (queue a s2 = []) in E. rewrite Hq2 in E. apply (f_equal length) in E.
      rewrite length_bytes_at in E. simpl in E. lia. }
    kcall Ew. kcall E6. rewrite (pipe_wakeup i a) by done.
    rewrite (bind_returns _ _ _ _ _ (pipe_release i a _ (in_pipe_woken i a _ s6 Hs6))).
    unfold ret. f_equal. lia.
  - split; [|done]. etrans; [exact Hby6|]. unfold bytes_at. rewrite <- list_fmap_compose.
    apply list_fmap_ext. intros j k _. simpl. apply Z.mod_small, Hby.
Qed.

(** ** Instances *)

(** An empty pipe whose counters are about to wrap around. *)
Definition demo_pipe : kstate :=
  put_pipe 4096 (mkpipe (replicate 512 0) 4294967295 4294967295 1 1) demo.

Lemma demo_pipe_inv : pipe_inv (get_pipe 4096 demo_pipe).
Proof. split; vm_compute; done. Qed.


Lemma piperead_stream_witness :
  wp (reader_env 1 4096)
    (fun g r s' => s'.(held) = [] ∧
      let q := queue 4096 demo_pipe ++ fst g in
      (r = -1 ∧ p_killed (get_proc 1 s') ≠ 0 ∧ queue 4096 s' = q) ∨
      ∃ m, r = Z.of_nat m ∧ m = Nat.min 3 (length q)
         ∧ (m = 0%nat → 3 = 0 ∨ pi_writeopen (get_pipe 4096 s') = 0)
         ∧ queue 4096 s' = drop m q
         ∧ bytes_at s'.(mem) 200 m = (fun c => c mod 256) <$> take m q)
    ([], 5%nat) (piperead 7 4096 200 3 demo_pipe).
Proof.
  apply (piperead_stream 1 4096 200 3 7 5 demo_pipe);
    [done|done|unfold NPROC; lia|done|apply demo_pipe_inv|lia|lia|unfold two32; lia|lia].
Defined.

Lemma pipe_round_trip_witness :
  ∃ s1 s2, pipewrite 1 4096 100 3 demo_pipe = Ret 3 s1 ∧ piperead 1 4096 200 3 s1 = Ret 3 s2
  ∧ bytes_at s2.(mem) 200 3 = bytes_at demo_pipe.(mem) 100 3 ∧ queue 4096 s2 = [].
Proof.
  apply (pipe_round_trip 1 4096 100 200 3 demo_pipe);
    [done|done|unfold NPROC; lia|done|apply demo_pipe_inv|done|unfold PIPESIZE; lia|lia
    |unfold two32; lia|lia|unfold two32; lia|intros x; simpl; lia].
Defined.
