(* ===== verification/File.v ===== *)
(** * Open files, [file.c], and [pipealloc] of [pipe.c]

    The table of open files with reference counts.  What the file layer uses
    of the file system ([log.c], [fs.c]) is the interface [FsOps]. *)

From stdpp Require Import base numbers option list sets strings gmap.
From Stdlib Require Import ZArith Lia.
From S2P Require Import Prelude State Locks Kalloc Proc Pipe.

(** ** The file system as its clients see it *)

(** The functions of [log.c] and [fs.c] called from [file.c], [proc.c] and
    [exec.c].  An inode is an index of the inode cache. *)
Class FsOps : Type := {
  begin_op : M unit;
  end_op : M unit;
  iput : option nat → M unit;
  idup : option nat → M (option nat);
  ilock : option nat → M unit;
  iunlock : option nat → M unit;
  stati : option nat → Z → M unit;
  readi : option nat → Z → Z → Z → M Z;
  writei : option nat → Z → Z → Z → M Z;
  namei : Z → M (option nat);
  iinit : Z → M unit;
  initlog : Z → M unit
}.

(** ** The table *)

Definition get_file (f : nat) (s : kstate) : file := s.(ftable) !!! f.
Definition put_file (f : nat) (x : file) (s : kstate) : kstate :=
  set_ftable (<[f := x]> s.(ftable)) s.
Definition getf (f : nat) : M file := get (get_file f).
Definition modf (f : nat) (g : file → file) : M unit :=
  modify (fun s => put_file f (g (get_file f s)) s).

Definition all_files : list nat := seq 0 NFILE.

(** Allocate an entry. *)
Definition filealloc : M (option nat) :=
  acquire FTABLE_LOCK;;
  r <- scanM (fun f =>
    x <- getf f;;
    if x.(f_ref) =? 0 then
      modf f (set_f_ref 1);;
      release FTABLE_LOCK;;
      ret (Some (Some f))
    else ret None) all_files;;
  match r with
  | Some o => ret o
  | None => release FTABLE_LOCK;; ret None
  end.

(** Take another reference. *)
Definition filedup (f : nat) : M nat :=
  acquire FTABLE_LOCK;;
  x <- getf f;;
  if x.(f_ref) <? 1 then panic "filedup" else
  modf f (fun x => set_f_ref (x.(f_ref) + 1) x);;
  release FTABLE_LOCK;;
  ret f.

Section file_ops.
Context `{!FsOps}.

(** Drop a reference; the last one closes the file. *)
Definition fileclose (f : nat) : M unit :=
  acquire FTABLE_LOCK;;
  x <- getf f;;
  if x.(f_ref) <? 1 then panic "fileclose" else
  modf f (fun x => set_f_ref (x.(f_ref) - 1) x);;
  x <- getf f;;
  if 0 <? x.(f_ref) then release FTABLE_LOCK else
  let ff := x in
  modf f (set_f_ref 0);;
  modf f (set_f_type FD_NONE);;
  release FTABLE_LOCK;;
  match ff.(f_type) with
  | FD_PIPE => pipeclose ff.(f_pipe) ff.(f_writable)
  | FD_INODE => begin_op;; iput ff.(f_ip);; end_op
  | FD_NONE => ret ()
  end.

Definition filestat (f : nat) (st : Z) : M Z :=
  x <- getf f;;
  match x.(f_type) with
  | FD_INODE =>
    ilock x.(f_ip);; x <- getf f;; stati x.(f_ip) st;; x <- getf f;; iunlock x.(f_ip);; ret 0
  | _ => ret (-1)
  end.

Definition fileread (fuel f : nat) (addr n : Z) : M Z :=
  x <- getf f;;
  if x.(f_readable) =? 0 then ret (-1) else
  match x.(f_type) with
  | FD_PIPE => piperead fuel x.(f_pipe) addr n
  | FD_INODE =>
    ilock x.(f_ip);;
    x <- getf f;;
    r <- readi x.(f_ip) addr x.(f_off) n;;
    when (0 <? r) (modf f (fun x => set_f_off (u32 (x.(f_off) + r)) x));;
    x <- getf f;;
    iunlock x.(f_ip);;
    ret r
  | FD_NONE => panic "fileread"
  end.

(** Bytes written per transaction. *)
Definition max_write : Z := (MAXOPBLOCKS - 1 - 1 - 2) / 2 * 512.

(** The loop of [filewrite] over an inode; returns the number of bytes written. *)
Fixpoint filewrite_loop (fuel f : nat) (addr n i : Z) : M Z :=
  match fuel with
  | O => fun s => Stuck s
  | S fuel =>
    if i <? n then
      let n1 := if max_write <? n - i then max_write else n - i in
      begin_op;;
      x <- getf f;;
      ilock x.(f_ip);;
      x <- getf f;;
      r <- writei x.(f_ip) (u32 (addr + i)) x.(f_off) n1;;
      when (0 <? r) (modf f (fun x => set_f_off (u32 (x.(f_off) + r)) x));;
      x <- getf f;;
      iunlock x.(f_ip);;
      end_op;;
      if r <? 0 then ret i else
      if negb (r =? n1) then panic "short filewrite" else
      filewrite_loop fuel f addr n (i + r)
    else ret i
  end.

Definition filewrite (fuel f : nat) (addr n : Z) : M Z :=
  x <- getf f;;
  if x.(f_writable) =? 0 then ret (-1) else
  match x.(f_type) with
  | FD_PIPE => pipewrite fuel x.(f_pipe) addr n
  | FD_INODE =>
    i <- filewrite_loop fuel f addr n 0;;
    ret (if i =? n then n else -1)
  | FD_NONE => panic "filewrite"
  end.

(** ** [pipealloc] *)

Definition sizeof_spinlock : Z := 52.

(** The bytes of the array [data] in the page at [a]. *)
Definition page_data (m : memory) (a : Z) : list Z :=
  bytes_at m (a + sizeof_spinlock) (Z.to_nat PIPESIZE).

Definition set_pipe_end (a readable writable : Z) (x : file) : file :=
  set_f_pipe a (set_f_writable writable (set_f_readable readable (set_f_type FD_PIPE x))).

(** [bad:] of [pipealloc]. *)
Definition pipealloc_bad (p : Z) (f0 f1 : option nat) : M (option (nat * nat)) :=
  when (truthy p) (kfree p);;
  match f0 with Some f => fileclose f | None => ret () end;;
  match f1 with Some f => fileclose f | None => ret () end;;
  ret None.

(** Allocate a pipe and its two ends; [None] is the result -1. *)
Definition pipealloc : M (option (nat * nat)) :=
  o0 <- filealloc;;
  match o0 with
  | None => pipealloc_bad 0 None None
  | Some f0 =>
    o1 <- filealloc;;
    match o1 with
    | None => pipealloc_bad 0 (Some f0) None
    | Some f1 =>
      p <- kalloc;;
      if p =? 0 then pipealloc_bad 0 (Some f0) (Some f1)
      else
        modify (fun s => put_pipe p (mkpipe (page_data s.(mem) p) 0 0 1 1) s);;
        modf f0 (set_pipe_end p 1 0);;
        modf f1 (set_pipe_end p 0 1);;
        ret (Some (f0, f1))
    end
  end.
End file_ops.

(** ** Access to the table *)

Lemma get_put_file_same f x s : (f < length s.(ftable))%nat → get_file f (put_file f x s) = x.
Proof. intros H. unfold get_file, put_file. simpl. by apply list_lookup_total_insert_eq. Qed.

Lemma get_put_file_ne f g x s : f ≠ g → get_file f (put_file g x s) = get_file f s.
Proof. intros H. unfold get_file, put_file. simpl. by apply list_lookup_total_insert_ne. Qed.

Lemma put_put_file f x y s : put_file f y (put_file f x s) = put_file f y s.
Proof. unfold put_file. simpl. by rewrite list_insert_insert_eq. Qed.

Lemma length_put_file f x s : length (ftable (put_file f x s)) = length (ftable s).
Proof. simpl. apply length_insert. Qed.

Lemma put_get_file f s : put_file f (get_file f s) s = s.
Proof.
  unfold put_file, get_file. destruct s as []; unfold set_ftable; simpl.
  f_equal. destruct (decide (f < length ftable)%nat).
  - apply list_insert_id. by apply list_lookup_lookup_total_lt.
  - by apply list_insert_ge; lia.
Qed.

Definition wf_files (s : kstate) : Prop := length s.(ftable) = NFILE.

(** The first free entry. *)
Definition find_file (s : kstate) : option nat :=
  fst <$> list_find (fun x => (x.(f_ref) =? 0) = true) s.(ftable).

Lemma find_file_Some s f : find_file s = Some f →
  (f < length s.(ftable))%nat ∧ f_ref (get_file f s) = 0.
Proof.
  unfold find_file. intros H. apply fmap_Some in H as ([k x] & H & ->).
  apply list_find_Some in H as (Hx & HP & _). simpl.
  split; [by eapply lookup_lt_Some|]. unfold get_file.
  rewrite (list_lookup_total_correct _ _ _ Hx). lia.
Qed.

Lemma filealloc_run s : wf_files s → FTABLE_LOCK ∉ s.(held) →
  filealloc s = match find_file s with
                | Some f => Ret (Some f) (put_file f (set_f_ref 1 (get_file f s)) s)
                | None => Ret None s
                end.
Proof.
  intros Hw Hl. unfold filealloc.
  rewrite (bind_returns _ _ _ _ _ (acquire_free _ _ Hl)).
  set (s1 := set_held _ s). set (body := fun f => _).
  assert (∀ f, (f < length s.(ftable))%nat → f_ref (get_file f s) = 0 →
    body f s1 = Ret (Some (Some f)) (put_file f (set_f_ref 1 (get_file f s)) s)) as Hb.
  { intros f Hf Hr. unfold body, getf. rewrite bind_get.
    change (get_file f s1) with (get_file f s). rewrite Hr, Z.eqb_refl. unfold modf.
    rewrite bind_modify. rewrite (bind_returns _ _ _ _ _ (release_head FTABLE_LOCK (held s)
      (put_file f _ s1) eq_refl Hl)). by destruct s. }
  unfold bind at 1. unfold all_files. rewrite <- Hw.
  change (ftable s) with (ftable s1) at 1.
  rewrite (scanM_seq (ftable s1) (fun x => x.(f_ref) =? 0)).
  - change (fst <$> list_find _ (ftable s1)) with (find_file s).
    destruct (find_file s) as [f|] eqn:E.
    + apply find_file_Some in E as [Hf Hr]. by rewrite Hb.
    + cbn [cbind]. rewrite (bind_returns _ _ _ _ _ (release_head FTABLE_LOCK (held s) s1 eq_refl Hl)).
      unfold ret. f_equal. by destruct s.
  - intros f x Hx Hp. unfold body, getf. rewrite bind_get.
    unfold get_file. rewrite (list_lookup_total_correct _ _ _ Hx), Hp. done.
  - intros f x Hx Hp. eexists _, _. apply Hb; [by eapply lookup_lt_Some|].
    unfold get_file. change (ftable s) with (ftable s1).
    rewrite (list_lookup_total_correct _ _ _ Hx). lia.
Qed.

Section file_proofs.
Context `{!FsOps}.

(** Closing an entry that has just been allocated gives it back. *)
Lemma fileclose_fresh f s : (f < length s.(ftable))%nat → FTABLE_LOCK ∉ s.(held) →
  f_ref (get_file f s) = 1 → f_type (get_file f s) = FD_NONE →
  fileclose f s = Ret () (put_file f (set_f_ref 0 (get_file f s)) s).
Proof.
  intros Hf Hl Hr Ht. unfold fileclose, modf, getf.
  rewrite (bind_returns _ _ _ _ _ (acquire_free _ _ Hl)). rewrite bind_get.
  set (s1 := set_held _ s). change (get_file f s1) with (get_file f s).
  rewrite Hr. change (1 <? 1) with false. cbv iota. rewrite bind_modify, bind_get.
  change (get_file f s1) with (get_file f s).
  rewrite get_put_file_same by done. cbn [f_ref set_f_ref]. rewrite Hr.
  change (0 <? 1 - 1) with false. cbv iota.
  rewrite !bind_modify.
  rewrite !put_put_file, !get_put_file_same, ?put_put_file by done.
  rewrite (bind_returns _ _ _ _ _ (release_head FTABLE_LOCK (held s) (put_file f _ s1) eq_refl Hl)).
  cbn [f_type set_f_ref]. rewrite Ht. unfold ret. f_equal.
  destruct (get_file f s) eqn:E. simpl in Ht. subst. unfold s1. by destruct s.
Qed.
End file_proofs.

(** Free entries have no type. *)
Definition files_ok (s : kstate) : Prop :=
  wf_files s ∧ ∀ f, f_ref (get_file f s) = 0 → f_type (get_file f s) = FD_NONE.

(** Allocating an entry and closing it again restores the table. *)
Lemma fileclose_alloc `{!FsOps} f s t : find_file s = Some f → files_ok s → FTABLE_LOCK ∉ t.(held) →
  get_file f t = set_f_ref 1 (get_file f s) → length t.(ftable) = length s.(ftable) →
  fileclose f t = Ret () (put_file f (get_file f s) t).
Proof.
  intros Hf [_ Hty] Hl Hg Hlen. apply find_file_Some in Hf as [Hf Hr].
  rewrite fileclose_fresh; [|by rewrite Hlen|done|by rewrite Hg|rewrite Hg; by apply Hty].
  do 2 f_equal. rewrite Hg. destruct (get_file f s). simpl in *. by subst.
Qed.

(** What [pipealloc] does when it succeeds: [a] is the page of the new pipe. *)
Record new_pipe (s s' : kstate) (f0 f1 : nat) (a : Z) : Prop := {
  np_ne : f0 ≠ f1;
  np_free : f_ref (get_file f0 s) = 0 ∧ f_ref (get_file f1 s) = 0;
  np_read : get_file f0 s' = set_pipe_end a 1 0 (set_f_ref 1 (get_file f0 s));
  np_write : get_file f1 s' = set_pipe_end a 0 1 (set_f_ref 1 (get_file f1 s));
  np_others : ∀ f, f ≠ f0 → f ≠ f1 → get_file f s' = get_file f s;
  np_page : page_ok s.(kend) a;
  np_inv : pipe_inv (get_pipe a s');
  np_empty : queue a s' = []
}.

Lemma two_files s f0 f1 : wf_files s → find_file s = Some f0 →
  find_file (put_file f0 (set_f_ref 1 (get_file f0 s)) s) = Some f1 →
  f0 ≠ f1 ∧ (f0 < length s.(ftable))%nat ∧ (f1 < length s.(ftable))%nat
  ∧ f_ref (get_file f0 s) = 0 ∧ f_ref (get_file f1 s) = 0.
Proof.
  intros Hw [Hf0 Hr0]%find_file_Some [Hf1 Hr1]%find_file_Some. rewrite length_put_file in Hf1.
  destruct (decide (f0 = f1)) as [->|Hne].
  - by rewrite get_put_file_same in Hr1.
  - rewrite get_put_file_ne in Hr1 by done. done.
Qed.

Lemma put_file_comm f g x y s : f ≠ g →
  put_file f x (put_file g y s) = put_file g y (put_file f x s).
Proof. intros H. unfold put_file, set_ftable. simpl. f_equal. by apply list_insert_insert_ne. Qed.

Lemma files_ok_alloc f s : files_ok s → (f < length s.(ftable))%nat →
  files_ok (put_file f (set_f_ref 1 (get_file f s)) s).
Proof.
  intros [Hw Hty] Hf. split; [unfold wf_files; by rewrite length_put_file|]. intros g.
  destruct (decide (g = f)) as [->|Hne]; [by rewrite get_put_file_same|].
  rewrite get_put_file_ne by done. apply Hty.
Qed.

(** Both entries are closed when there is no page. *)
Lemma pipealloc_bad_both `{!FsOps} s f0 f1 : files_ok s → FTABLE_LOCK ∉ s.(held) →
  let s1 := put_file f0 (set_f_ref 1 (get_file f0 s)) s in
  find_file s = Some f0 → find_file s1 = Some f1 →
  pipealloc_bad 0 (Some f0) (Some f1) (put_file f1 (set_f_ref 1 (get_file f1 s1)) s1) = Ret None s.
Proof.
  intros Hok Hl s1 E0 E1. destruct (two_files s f0 f1 (proj1 Hok) E0 E1) as (Hne & Hf0 & Hf1 & _).
  unfold pipealloc_bad. simpl when. rewrite bind_ret_l.
  rewrite (bind_returns _ _ _ _ _ (fileclose_alloc f0 s (put_file f1 _ s1) E0 Hok Hl
    ltac:(rewrite get_put_file_ne by done; by apply get_put_file_same)
    ltac:(rewrite length_put_file; apply length_put_file))).
  rewrite (bind_returns _ _ _ _ _ (fileclose_alloc f1 s1 (put_file f0 _ (put_file f1 _ s1)) E1
    (files_ok_alloc f0 s Hok Hf0) Hl
    ltac:(rewrite get_put_file_ne by done; apply get_put_file_same; unfold s1; by rewrite length_put_file)
    ltac:(rewrite length_put_file; apply length_put_file))).
  unfold ret. f_equal. rewrite (put_file_comm f0 f1) by done. rewrite put_put_file. unfold s1.
  rewrite put_put_file, put_get_file, get_put_file_ne by done. apply put_get_file.
Qed.

(** [pipealloc] either returns two fresh file entries that are the read and
    the write end of a new empty pipe, and changes no other entry, or it fails
    and leaves the file table, the pipes and the free list as they were: no
    entry leaks on any of its error paths. *)
Theorem pipealloc_atomic `{!FsOps} s l : files_ok s → FTABLE_LOCK ∉ s.(held) →
  KMEM_LOCK ∉ s.(held) → kmem_inv s l →
  ∃ r s', pipealloc s = Ret r s' ∧
    match r with
    | None => s' = s
    | Some (f0, f1) => ∃ a, new_pipe s s' f0 f1 a
    end.
Proof.
  intros Hok Hl Hlk Hinv. pose proof Hok as [Hw _]. unfold pipealloc.
  unfold bind at 1. rewrite (filealloc_run s Hw Hl).
  destruct (find_file s) as [f0|] eqn:E0; cbn [cbind]; [|by exists None, s].
  pose proof (find_file_Some _ _ E0) as [Hf0 Hr0].
  set (s1 := put_file f0 _ s).
  assert (get_file f0 s1 = set_f_ref 1 (get_file f0 s)) as Hg0 by by apply get_put_file_same.
  assert (wf_files s1) as Hw1 by (unfold wf_files, s1; by rewrite length_put_file).
  unfold bind at 1. rewrite (filealloc_run s1 Hw1 Hl).
  destruct (find_file s1) as [f1|] eqn:E1; cbn [cbind].
  2: { exists None, s. split; [|done]. unfold pipealloc_bad. simpl when. rewrite bind_ret_l.
       rewrite (bind_returns _ _ _ _ _ (fileclose_alloc f0 s s1 E0 Hok Hl Hg0 (length_put_file _ _ _))).
       rewrite bind_ret_l. unfold s1. rewrite put_put_file, put_get_file. done. }
  pose proof (two_files s f0 f1 Hw E0 E1) as (Hne & _ & Hf1 & _ & Hr1).
  set (s2 := put_file f1 _ s1).
  unfold bind at 1. rewrite (kalloc_run s2 l ltac:(destruct Hinv; by split) Hlk).
  destruct l as [|a l]; cbn [cbind].
  { exists None, s. split; [|done]. by apply pipealloc_bad_both. }
  assert (page_ok (kend s) a) as Hpage by (by destruct Hinv as [_ [? _]%Forall_cons _]).
  rewrite (proj2 (Z.eqb_neq a 0)) by (destruct Hpage; lia).
  unfold modf. rewrite !bind_modify. eexists (Some (f0, f1)), _. split; [done|]. exists a.
  set (s3 := put_pipe a _ _).
  assert (get_file f0 s3 = set_f_ref 1 (get_file f0 s)) as Hg30.
  { change (get_file f0 s2 = set_f_ref 1 (get_file f0 s)). unfold s2. by rewrite get_put_file_ne. }
  assert (get_file f1 s3 = set_f_ref 1 (get_file f1 s)) as Hg31.
  { change (get_file f1 s2 = set_f_ref 1 (get_file f1 s)). unfold s2.
    rewrite get_put_file_same by (unfold s1; by rewrite length_put_file).
    unfold s1. by rewrite get_put_file_ne. }
  assert (length (ftable s3) = length (ftable s)) as Hlen.
  { change (length (ftable s2) = length (ftable s)). unfold s2, s1. by rewrite !length_put_file. }
  assert (get_pipe a s3 = mkpipe (page_data (mem s2) a) 0 0 1 1) as Hpipe.
  { unfold s3, get_pipe, put_pipe. simpl. by rewrite lookup_insert_eq. }
  split; try done.
  - rewrite get_put_file_ne, get_put_file_same by (rewrite ?Hlen; done). by rewrite Hg30.
  - rewrite get_put_file_same by (rewrite length_put_file, Hlen; done).
    rewrite get_put_file_ne by done. by rewrite Hg31.
  - intros f Hn0 Hn1. rewrite !get_put_file_ne by done. change (get_file f s2 = get_file f s).
    unfold s2, s1. by rewrite !get_put_file_ne.
  - change (pipe_inv (get_pipe a s3)). rewrite Hpipe. by split.
  - change (contents (get_pipe a s3) = []). by rewrite Hpipe.
Qed.

(** An extra reference can be taken exactly if the file is open, and dropping it
    again restores the state without closing the file. *)
Lemma filedup_fileclose `{!FsOps} f s : (f < length s.(ftable))%nat → FTABLE_LOCK ∉ s.(held) →
  if f_ref (get_file f s) <? 1 then
    (∃ s', filedup f s = Panic "filedup" s') ∧ (∃ s', fileclose f s = Panic "fileclose" s')
  else ∃ s1, filedup f s = Ret f s1 ∧ f_ref (get_file f s1) = f_ref (get_file f s) + 1
    ∧ (∀ g, g ≠ f → get_file g s1 = get_file g s) ∧ fileclose f s1 = Ret () s.
Proof.
  intros Hf Hl. destruct (Z.ltb_spec (f_ref (get_file f s)) 1) as [Hr|Hr].
  - apply Z.ltb_lt in Hr. unfold filedup, fileclose, getf.
    rewrite !(bind_returns _ _ _ _ _ (acquire_free _ _ Hl)), !bind_get.
    change (get_file f (set_held _ s)) with (get_file f s). rewrite Hr. split; by eexists.
  - exists (put_file f (set_f_ref (f_ref (get_file f s) + 1) (get_file f s)) s).
    rewrite get_put_file_same by done. split; [|split; [done|split]].
    + unfold filedup, getf, modf. rewrite (bind_returns _ _ _ _ _ (acquire_free _ _ Hl)), bind_get.
      change (get_file f (set_held _ s)) with (get_file f s).
      destruct (Z.ltb_spec (f_ref (get_file f s)) 1); [lia|]. rewrite bind_modify.
      rewrite (bind_returns _ _ _ _ _ (release_head FTABLE_LOCK (held s)
        (put_file f _ (set_held (FTABLE_LOCK :: held s) s)) eq_refl Hl)). by destruct s.
    + intros g Hg. by rewrite get_put_file_ne.
    + unfold fileclose, getf, modf. set (s1 := put_file f _ s).
      rewrite (bind_returns _ _ _ _ _ (acquire_free FTABLE_LOCK s1 Hl)), bind_get.
      change (get_file f (set_held _ s1)) with (get_file f s1).
      assert (get_file f s1 = set_f_ref (f_ref (get_file f s) + 1) (get_file f s)) as Hg
        by by apply get_put_file_same.
      rewrite Hg. cbn [f_ref set_f_ref]. destruct (Z.ltb_spec (f_ref (get_file f s) + 1) 1); [lia|].
      rewrite bind_modify, bind_get. change (get_file f (set_held _ s1)) with (get_file f s1).
      rewrite get_put_file_same by (unfold s1, put_file; simpl; by rewrite length_insert).
      rewrite Hg. cbn [f_ref set_f_ref].
      destruct (Z.ltb_spec 0 (f_ref (get_file f s) + 1 - 1)); [|lia].
      rewrite (release_head FTABLE_LOCK (held s)
        (put_file f _ (set_held (FTABLE_LOCK :: held s1) s1)) eq_refl Hl). f_equal.
      transitivity (put_file f (get_file f s) s); [|apply put_get_file].
      unfold s1, put_file, set_ftable, set_held. simpl. rewrite list_insert_insert_eq.
      replace (f_ref (get_file f s) + 1 - 1) with (f_ref (get_file f s)) by lia.
      by destruct (get_file f s).
Qed.

(** ** Instances *)

(** A file system whose operations do nothing. *)
Definition null_fs : FsOps := {|
  begin_op := ret (); end_op := ret (); iput _ := ret (); idup o := ret o; ilock _ := ret ();
  iunlock _ := ret (); stati _ _ := ret (); readi _ _ _ _ := ret 0; writei _ _ _ n := ret n;
  namei _ := ret None; iinit _ := ret (); initlog _ := ret ()
|}.

Definition one_free_page : kstate := set_freelist one_page kstate0.

Lemma one_free_page_kmem : kmem_inv one_free_page [one_page].
Proof.
  split; [done| |apply NoDup_singleton]. constructor; [apply one_page_ok|constructor].
Qed.

Lemma kstate0_files : files_ok one_free_page.
Proof.
  split; [done|]. intros f _. unfold get_file.
  change (ftable one_free_page) with (replicate NFILE file0).
  rewrite list_lookup_total_alt. destruct (_ !! f) as [x|] eqn:E; [|done].
  by apply lookup_replicate in E as [-> _].
Qed.

Lemma pipealloc_atomic_witness :
  ∃ r s', @pipealloc null_fs one_free_page = Ret r s' ∧
    match r with
    | None => s' = one_free_page
    | Some (f0, f1) => ∃ a, new_pipe one_free_page s' f0 f1 a
    end.
Proof.
  apply (@pipealloc_atomic null_fs one_free_page [one_page]);
    [apply kstate0_files|apply not_elem_of_nil|apply not_elem_of_nil|apply one_free_page_kmem].
Defined.
