(* ===== verification/ProcLife.v ===== *)
(** * The life of a process: [userinit], [fork], [exit], [wait], [growproc] of [proc.c]

    What these functions use of virtual memory ([vm.c]) is the interface
    [VmOps]; the file layer is [File.v]. *)

From stdpp Require Import base numbers option list sets strings.
From Stdlib Require Import ZArith Lia.
From S2P Require Import Prelude Kstring State Locks Console Kalloc Proc Signal Pipe File.

(** ** Virtual memory as its clients see it *)

(** The functions of [vm.c] called from [proc.c] and [exec.c]; page
    directories and other pointers are addresses. *)
Class VmOps : Type := {
  setupkvm : M Z;
  inituvm : Z → Z → Z → M unit;
  allocuvm : Z → Z → Z → M Z;
  deallocuvm : Z → Z → Z → M Z;
  freevm : Z → M unit;
  copyuvm : Z → Z → M Z;
  loaduvm : Z → Z → option nat → Z → Z → M Z;
  clearpteu : Z → Z → M unit;
  copyout : Z → Z → Z → Z → M Z
}.

(** [safestrcpy(p->name, src, sizeof(p->name))] on the character array. *)
Definition copy_name (src old : list Z) : list Z :=
  let t := take 15 (cstring src ++ [0]) in t ++ 0 :: drop (S (length t)) old.

(** The channel that is the address of a process entry. *)
Definition proc_chan (o : option nat) : chan :=
  match o with Some i => CH_PROC i | None => NOCHAN end.

Definition user_tf : trapframe :=
  let cs := Z.lor (SEG_UCODE * 8) DPL_USER in
  let ds := Z.lor (SEG_UDATA * 8) DPL_USER in
  mktf 0 0 0 0 0 0 0 0 0 0 ds ds 0 0 0 cs FL_IF PGSIZE ds.

Section life.
Context `{!FsOps} `{!VmOps}.

(** ** The first process *)

(** [initcode] and [size] are the linked-in program, [root] the string ["/"]. *)
Definition userinit (initcode size root : Z) : M unit :=
  o <- allocproc;;
  with_proc o (fun i =>
  modp i (set_p_sigblocked 0);;
  modp i (set_p_userdefed 0);;
  modp i (fun p => set_p_allinfo (set_disposition DFL <$> p.(p_allinfo)) p);;
  modify (set_initproc o);;
  d <- setupkvm;;
  modp i (set_p_pgdir d);;
  if d =? 0 then panic "userinit: out of memory?" else
  inituvm d initcode size;;
  modp i (set_p_sz PGSIZE);;
  modp i (set_p_tf user_tf);;
  modp i (fun p => set_p_name (copy_name (chars "initcode") p.(p_name)) p);;
  cwd <- namei root;;
  modp i (set_p_cwd cwd);;
  acquire PTABLE_LOCK;;
  modp i (set_p_state RUNNABLE);;
  release PTABLE_LOCK).

(** ** Growing *)

Definition growproc (n : Z) : M Z :=
  o <- myproc;;
  with_proc o (fun c =>
  p <- getp c;;
  let sz := p.(p_sz) in
  if 0 <? n then
    sz <- allocuvm p.(p_pgdir) sz (u32 (sz + n));;
    if sz =? 0 then ret (-1) else modp c (set_p_sz sz);; switchuvm o;; ret 0
  else if n <? 0 then
    sz <- deallocuvm p.(p_pgdir) sz (u32 (sz + n));;
    if sz =? 0 then ret (-1) else modp c (set_p_sz sz);; switchuvm o;; ret 0
  else modp c (set_p_sz sz);; switchuvm o;; ret 0).

(** ** Creation *)

(** Duplicate the open files of [c] into [np]. *)
Definition fork_files (c np : nat) : M unit :=
  foldM (fun _ fd =>
    p <- getp c;;
    match p.(p_ofile) !!! fd with
    | Some f => f' <- filedup f;; modp np (fun q => set_p_ofile (<[fd := Some f']> q.(p_ofile)) q)
    | None => ret ()
    end) (seq 0 NOFILE) ().

(** The part of [fork] that copies the parent's state. *)
Definition fork_copy (c np : nat) : M unit :=
  p <- getp c;;
  modp np (set_p_sz p.(p_sz));;
  modp np (set_p_parent (Some c));;
  p <- getp c;;
  modp np (set_p_tf p.(p_tf));;
  p <- getp c;;
  modp np (set_p_sigblocked p.(p_sigblocked));;
  p <- getp c;;
  modp np (set_p_userdefed p.(p_userdefed));;
  p <- getp c;;
  modp np (set_p_allinfo p.(p_allinfo));;
  modp np (fun q => set_p_tf (set_tf_eax 0 q.(p_tf)) q).

Definition fork : M Z :=
  o <- myproc;;
  a <- allocproc;;
  match a with
  | None => ret (-1)
  | Some np =>
    with_proc o (fun c =>
    p <- getp c;;
    d <- copyuvm p.(p_pgdir) p.(p_sz);;
    modp np (set_p_pgdir d);;
    if d =? 0 then
      q <- getp np;;
      kfree q.(p_kstack);;
      modp np (set_p_kstack 0);;
      modp np (set_p_state UNUSED);;
      ret (-1)
    else
      fork_copy c np;;
      fork_files c np;;
      p <- getp c;;
      cwd <- idup p.(p_cwd);;
      modp np (set_p_cwd cwd);;
      p <- getp c;;
      modp np (fun q => set_p_name (copy_name p.(p_name) q.(p_name)) q);;
      q <- getp np;;
      acquire PTABLE_LOCK;;
      modp np (set_p_state RUNNABLE);;
      release PTABLE_LOCK;;
      ret q.(p_pid))
  end.

(** ** Exit *)

Definition exit_files (c : nat) : M unit :=
  foldM (fun _ fd =>
    p <- getp c;;
    match p.(p_ofile) !!! fd with
    | Some f => fileclose f;; modp c (fun q => set_p_ofile (<[fd := None]> q.(p_ofile)) q)
    | None => ret ()
    end) (seq 0 NOFILE) ().

(** Pass abandoned children to [init]. *)
Definition reparent (c : nat) : M unit :=
  foldM (fun _ i =>
    q <- getp i;;
    when (bool_decide (q.(p_parent) = Some c))
      (ip <- get initproc;;
       modp i (set_p_parent ip);;
       q <- getp i;;
       when (is_state ZOMBIE q) (wakeup1 (proc_chan ip)))) all_procs ().

(** [exit] after the files are closed; [ptable.lock] is taken here. *)
Definition exit_tail (c : nat) : M unit :=
  acquire PTABLE_LOCK;;
  p <- getp c;;
  wakeup1 (proc_chan p.(p_parent));;
  reparent c;;
  modp c (set_p_state ZOMBIE);;
  sched;;
  panic "zombie exit".

Definition exit : M unit :=
  o <- myproc;;
  ip <- get initproc;;
  if bool_decide (o = ip) then panic "init exiting" else
  with_proc o (fun c =>
  exit_files c;;
  begin_op;;
  p <- getp c;;
  iput p.(p_cwd);;
  end_op;;
  modp c (set_p_cwd None);;
  exit_tail c).

(** ** Wait *)

(** Free the zombie in entry [i]; returns its pid. *)
Definition reap (i : nat) : M Z :=
  p <- getp i;;
  let pid := p.(p_pid) in
  kfree p.(p_kstack);;
  modp i (set_p_kstack 0);;
  p <- getp i;;
  freevm p.(p_pgdir);;
  modp i (set_p_pid 0);;
  modp i (set_p_parent None);;
  modp i (fun p => set_p_name (<[0%nat := 0]> p.(p_name)) p);;
  modp i (set_p_killed 0);;
  modp i (set_p_justwoken 0);;
  modp i (set_p_sigblocked 0);;
  modp i (set_p_sigpending 0);;
  modp i (set_p_userdefed 0);;
  modp i (set_p_state UNUSED);;
  release PTABLE_LOCK;;
  ret pid.

(** One scan of the table for an exited child; [havekids] as in the code. *)
Fixpoint wait_scan (o : option nat) (l : list nat) (havekids : bool) : M (option Z * bool) :=
  match l with
  | [] => ret (None, havekids)
  | i :: l =>
    p <- getp i;;
    if bool_decide (p.(p_parent) ≠ o) then wait_scan o l havekids else
    if is_state ZOMBIE p then pid <- reap i;; ret (Some pid, true) else
    wait_scan o l true
  end.

Fixpoint wait_loop (fuel : nat) (o : option nat) : M Z :=
  match fuel with
  | O => fun s => Stuck s
  | S fuel =>
    r <- wait_scan o all_procs false;;
    match r with
    | (Some pid, _) => ret pid
    | (None, havekids) =>
      stop <- (if negb havekids then ret true
                  else with_proc o (fun c => p <- getp c;; ret (truthy p.(p_killed))));;
      if (stop : bool) then release PTABLE_LOCK;; ret (-1)
      else sleep (proc_chan o) PTABLE_LOCK;; wait_loop fuel o
    end
  end.

Definition wait (fuel : nat) : M Z :=
  o <- myproc;;
  acquire PTABLE_LOCK;;
  wait_loop fuel o.

(** ** First return to user space *)

Definition forkret : M unit :=
  release PTABLE_LOCK;;
  first <- get forkret_first;;
  when first (modify (set_forkret_first false);; iinit ROOTDEV;; initlog ROOTDEV).

(** ** Process listing *)

Definition procdump : M unit :=
  foldM (fun _ i =>
    p <- getp i;;
    when (negb (is_state UNUSED p))
      (cprintf "%d %s %s"
         [AInt p.(p_pid); AStr (Some (state_name p.(p_state))); AStr (Some (cstring p.(p_name)))];;
       when (is_state SLEEPING p)
         (m <- get mem;;
          print_pcs (getcallerpcs m (u32 (p.(p_context).(ctx_ebp) + 8))));;
       cprintf nl [])) all_procs ().
End life.

(** ** Allocation of entries *)

(** The stack pointers [allocproc] computes in the kernel stack at [k]. *)
Definition tf_addr (k : Z) : Z := u32 (u32 (k + KSTACKSIZE) - sizeof_trapframe).
Definition ctx_addr (k : Z) : Z := u32 (u32 (tf_addr k - 4) - sizeof_context).

(** The entry after a successful [allocproc]. *)
Definition embryo (s : kstate) (k : Z) (p : proc) : proc :=
  set_p_context (mkctx 0 0 0 0 s.(forkret_addr)) (set_p_contextp (ctx_addr k)
    (set_p_justwoken 0 (set_p_sigpending 0
      (set_p_tf (read_tf s.(mem) (tf_addr k)) (set_p_tfp (tf_addr k)
        (set_p_kstack k (set_p_pid s.(nextpid) (set_p_state EMBRYO p)))))))).

Definition next_pid (s : kstate) : kstate := set_nextpid (s32 (s.(nextpid) + 1)) s.

Lemma allocproc_run s l : wf_table s → PTABLE_LOCK ∉ s.(held) → KMEM_LOCK ∉ s.(held) →
  kmem_inv s l →
  allocproc s =
  match find_proc (is_state UNUSED) s, l with
  | None, _ => Ret None s
  | Some i, [] =>
    Ret None (put_proc i (set_p_state UNUSED (set_p_kstack 0
                (set_p_pid s.(nextpid) (set_p_state EMBRYO (get_proc i s))))) (next_pid s))
  | Some i, k :: _ =>
    Ret (Some i) (put_proc i (embryo s k (get_proc i s))
      (set_mem (store32 s.(mem) (u32 (tf_addr k - 4)) s.(trapret))
        (set_freelist (load32 s.(mem) k) (next_pid s))))
  end.
Proof.
  intros Hw Hl Hlk Hinv. unfold allocproc. ksteps.
  change (find_proc _ (set_held _ s)) with (find_proc (is_state UNUSED) s).
  destruct (find_proc (is_state UNUSED) s) as [i|] eqn:E.
  2: { ksteps. by destruct s. }
  apply find_proc_Some in E as (Hi & _). ksteps.
  rewrite get_put_same, put_put by done.
  change (get_proc i (set_held _ s)) with (get_proc i s).
  set (s1 := set_held _ (set_nextpid _ _)).
  assert (s1 = put_proc i (set_p_pid (nextpid s) (set_p_state EMBRYO (get_proc i s))) (next_pid s)) as ->
    by (unfold s1; by destruct s).
  set (s1 := put_proc i _ (next_pid s)).
  assert (kalloc s1 = match l with [] => Ret 0 s1 | k :: _ => Ret k (set_freelist (load32 s.(mem) k) s1) end) as Ek.
  { rewrite (kalloc_run s1 l); [done| |done]. destruct Hinv. by split. }
  assert ((i < length (pt s1))%nat) as Hi1 by (unfold s1; by rewrite length_put).
  assert (get_proc i s1 = set_p_pid (nextpid s) (set_p_state EMBRYO (get_proc i s))) as Hg
    by (by apply get_put_same).
  destruct l as [|k l]; kcall Ek.
  - unfold s1. rewrite bind_modp_put by done. change (0 =? 0) with true. cbv iota.
    by rewrite bind_modp_put.
  - assert (page_ok (kend s) k) as Hk by (by destruct Hinv as [_ [? _]%Forall_cons _]).
    change (set_freelist (load32 (mem s) k) s1) with
      (put_proc i (set_p_pid (nextpid s) (set_p_state EMBRYO (get_proc i s)))
         (set_freelist (load32 (mem s) k) (next_pid s))).
    rewrite bind_modp_put by done. rewrite (proj2 (Z.eqb_neq k 0)) by (destruct Hk; lia).
    rewrite bind_get, !bind_modp_put, bind_get, bind_modify by done.
    change (set_mem ?m (put_proc i ?p ?s)) with (put_proc i p (set_mem m s)).
    by rewrite bind_get, bind_modp_put.
Qed.

(** ** Process identifiers *)

Definition in_use (p : proc) : Prop := p.(p_state) ≠ UNUSED.

(** The pids of the entries in use are distinct and have been issued. *)
Record pid_inv (s : kstate) : Prop := {
  pid_next : 0 < s.(nextpid) < two31;
  pid_issued : ∀ i, in_use (get_proc i s) → 0 < p_pid (get_proc i s) < s.(nextpid);
  pid_unique : ∀ i j, in_use (get_proc i s) → in_use (get_proc j s) →
    p_pid (get_proc i s) = p_pid (get_proc j s) → i = j
}.

Lemma page_range e k : page_ok e k → KERNBASE <= k < KERNBASE + PHYSTOP.
Proof.
  unfold page_ok, V2P, u32, KERNBASE, PHYSTOP, two32. intros (Hk & _ & _ & Hv).
  destruct (Z_lt_ge_dec k 2147483648) as [Hlt|].
  - rewrite <- (Z.mod_unique (k - 2147483648) 4294967296 (-1) (k + 2147483648)) in Hv; lia.
  - rewrite Z.mod_small in Hv; lia.
Qed.

Lemma stack_layout e k : page_ok e k → tf_addr k = k + 4020 ∧ ctx_addr k = k + 3996.
Proof.
  intros H%page_range. unfold tf_addr, ctx_addr, tf_addr, sizeof_trapframe, sizeof_context,
    KSTACKSIZE, KERNBASE, PHYSTOP in *.
  rewrite (u32_id (k + 4096)) by (unfold word, two32; lia).
  replace (k + 4096 - 76) with (k + 4020) by lia.
  rewrite !u32_id by (unfold word, two32; rewrite ?u32_id by (unfold word, two32; lia); lia). lia.
Qed.

Lemma get_proc_ge i s : (length s.(pt) <= i)%nat → get_proc i s = proc0.
Proof. intros H. unfold get_proc. rewrite list_lookup_total_alt, lookup_ge_None_2; done. Qed.

Lemma in_use_lt i s : in_use (get_proc i s) → (i < length s.(pt))%nat.
Proof.
  intros H. destruct (decide (i < length s.(pt))%nat); [done|].
  rewrite get_proc_ge in H by lia. by destruct H.
Qed.

(** An entry that becomes used under the next pid keeps pids distinct. *)
Lemma pid_inv_alloc s s' i : pid_inv s → s.(nextpid) < two31 - 1 →
  s'.(nextpid) = s.(nextpid) + 1 →
  p_pid (get_proc i s') = s.(nextpid) → (∀ j, j ≠ i → get_proc j s' = get_proc j s) →
  pid_inv s'.
Proof.
  intros [] Hn Hn' Hp Ho. split.
  - lia.
  - intros j Hj. destruct (decide (j = i)) as [->|Hne]; [lia|].
    rewrite Ho in * by done. specialize (pid_issued0 j Hj). lia.
  - intros j k Hj Hk E. destruct (decide (j = i)) as [->|Hji], (decide (k = i)) as [->|Hki]; try done.
    + rewrite (Ho k) in * by done. specialize (pid_issued0 k Hk). lia.
    + rewrite (Ho j) in * by done. specialize (pid_issued0 j Hj). lia.
    + rewrite !Ho in * by done. by apply pid_unique0.
Qed.

(** [allocproc] gives an entry that was unused a pid no other entry in use
    has and a kernel stack page laid out for the first switch: the saved context
    starts the process in [forkret] and returns from there to [trapret], and
    context, return address and trap frame fit below the top of the page.  It
    fails exactly if the table is full or no page is free.  Other entries do
    not change. *)
Theorem allocproc_fresh s l : wf_table s → PTABLE_LOCK ∉ s.(held) → KMEM_LOCK ∉ s.(held) →
  kmem_inv s l → pid_inv s → s.(nextpid) < two31 - 1 →
  ∃ r s', allocproc s = Ret r s' ∧ pid_inv s' ∧ s'.(held) = s.(held) ∧
    match r with
    | None => (l = [] ∨ ∀ i, (i < NPROC)%nat → in_use (get_proc i s)) ∧
              ∀ i, in_use (get_proc i s) → get_proc i s' = get_proc i s
    | Some i =>
      let p := get_proc i s' in let k := p.(p_kstack) in
      ¬ in_use (get_proc i s) ∧ p.(p_state) = EMBRYO ∧ p.(p_pid) = s.(nextpid)
      ∧ p.(p_sigpending) = 0 ∧ page_ok s.(kend) k
      ∧ p.(p_contextp) = k + KSTACKSIZE - 100 ∧ p.(p_context).(ctx_eip) = s.(forkret_addr)
      ∧ load32 s'.(mem) (p.(p_contextp) + sizeof_context) = u32 s.(trapret)
      ∧ p.(p_tfp) = k + KSTACKSIZE - sizeof_trapframe
      ∧ ∀ j, j ≠ i → get_proc j s' = get_proc j s
    end.
Proof.
  intros Hw Hl Hlk Hinv Hpid Hn. rewrite (allocproc_run s l) by done.
  assert (s32 (nextpid s + 1) = nextpid s + 1) as Hs32.
  { apply s32_id. pose proof (pid_next _ Hpid). unfold two31 in *. lia. }
  destruct (find_proc (is_state UNUSED) s) as [i|] eqn:E.
  2: { exists None, s. split; [done|]. split; [done|]. split; [done|]. split; [|done].
       right. intros i Hi Hu. pose proof (find_proc_None _ _ i E) as H. rewrite Hw in H.
       specialize (H Hi). unfold is_state in H. by rewrite Hu, bool_decide_eq_true_2 in H. }
  apply find_proc_Some in E as (Hi & Hu & _). unfold is_state in Hu.
  apply bool_decide_eq_true in Hu. destruct l as [|k l].
  - eexists None, _. split; [done|]. split; [|split; [done|split; [by left|]]].
    + apply (pid_inv_alloc s _ i); [done|done|done| |].
      * by rewrite get_put_same.
      * intros j Hj. by rewrite get_put_ne.
    + intros j Hj. destruct (decide (j = i)) as [->|]; [done|]. by rewrite get_put_ne.
  - eexists (Some i), _. split; [done|].
    assert (page_ok (kend s) k) as Hk by (by destruct Hinv as [_ [? _]%Forall_cons _]).
    destruct (stack_layout _ _ Hk) as [Htf Hctx]. pose proof (page_range _ _ Hk) as Hr.
    cbv zeta. rewrite get_put_same by done. split; [|split; [done|]].
    + apply (pid_inv_alloc s _ i); [done|done|done| |].
      * by rewrite get_put_same.
      * intros j Hj. by rewrite get_put_ne.
    + unfold embryo. simpl. rewrite Htf, Hctx. unfold in_use, sizeof_context, sizeof_trapframe, KSTACKSIZE.
      split; [by intros H|]. do 4 (split; [done|]). split; [lia|]. split; [done|].
      split; [|split; [lia|intros j Hj; by rewrite get_put_ne]].
      replace (k + 3996 + 20) with (k + 4020 - 4) by lia.
      rewrite u32_id by (unfold word, two32, KERNBASE, PHYSTOP in *; lia). apply load_store_same.
Qed.

(** ** Fork *)

(** The child's entry after [fork_copy]. *)
Definition inherit (c : nat) (p q : proc) : proc :=
  set_p_tf (set_tf_eax 0 p.(p_tf)) (set_p_allinfo p.(p_allinfo) (set_p_userdefed p.(p_userdefed)
    (set_p_sigblocked p.(p_sigblocked) (set_p_tf p.(p_tf) (set_p_parent (Some c)
      (set_p_sz p.(p_sz) q)))))).

Lemma fork_copy_run c np q s : c ≠ np → (np < length s.(pt))%nat →
  fork_copy c np (put_proc np q s) = Ret () (put_proc np (inherit c (get_proc c s) q) s).
Proof.
  intros Hne Hnp. unfold fork_copy.
  repeat first [rewrite bind_getp_put_ne by done | rewrite bind_modp_put by done].
  by rewrite modp_run, get_put_same, put_put.
Qed.

Lemma filedup_run f s : FTABLE_LOCK ∉ s.(held) → 1 <= f_ref (get_file f s) →
  filedup f s = Ret f (put_file f (set_f_ref (f_ref (get_file f s) + 1) (get_file f s)) s).
Proof.
  intros Hl Hr. unfold filedup, getf, modf.
  rewrite (bind_returns _ _ _ _ _ (acquire_free _ _ Hl)), bind_get.
  change (get_file f (set_held _ s)) with (get_file f s).
  destruct (Z.ltb_spec (f_ref (get_file f s)) 1); [lia|]. rewrite bind_modify.
  rewrite (bind_returns _ _ _ _ _ (release_head FTABLE_LOCK (held s)
    (put_file f _ (set_held (FTABLE_LOCK :: held s) s)) eq_refl Hl)). by destruct s.
Qed.

(** The child's descriptors after those in [fds] have been copied. *)
Definition dup_ofile (p : proc) (fds : list nat) (l : list (option nat)) : list (option nat) :=
  foldl (fun l fd => match p.(p_ofile) !!! fd with Some f => <[fd := Some f]> l | None => l end) l fds.

(** How many of the descriptors [fds] refer to [f]. *)
Definition refs (p : proc) (f : nat) (fds : list nat) : Z :=
  Z.of_nat (length (filter (fun fd => p.(p_ofile) !!! fd = Some f) fds)).

(** All descriptors of [p] refer to open files. *)
Definition open_files (p : proc) (s : kstate) : Prop :=
  ∀ fd f, p.(p_ofile) !!! fd = Some f → (f < length s.(ftable))%nat ∧ 1 <= f_ref (get_file f s).

Lemma fork_files_run c np p : ∀ fds q s, c ≠ np → (np < length s.(pt))%nat →
  FTABLE_LOCK ∉ s.(held) → get_proc c s = p → open_files p s →
  ∃ t, foldM (fun _ fd =>
      p <- getp c;;
      match p.(p_ofile) !!! fd with
      | Some f => f' <- filedup f;; modp np (fun q => set_p_ofile (<[fd := Some f']> q.(p_ofile)) q)
      | None => ret ()
      end) fds () (put_proc np q s)
    = Ret () (put_proc np (set_p_ofile (dup_ofile p fds q.(p_ofile)) q) (set_ftable t s))
  ∧ length t = length s.(ftable)
  ∧ ∀ f, f_ref (get_file f (set_ftable t s)) = f_ref (get_file f s) + refs p f fds.
Proof.
  induction fds as [|fd fds IH]; intros q s Hne Hnp Hl Hp Hopen; cbn [foldM].
  { exists s.(ftable). split; [|split; [done|]].
    - unfold ret. f_equal. unfold dup_ofile. simpl. by destruct q, s.
    - intros f. unfold refs. simpl. rewrite Z.add_0_r. by destruct s. }
  unfold bind at 1. rewrite bind_getp_put_ne, Hp by done.
  destruct (p_ofile p !!! fd) as [f|] eqn:Ef.
  - destruct (Hopen fd f Ef) as [Hf Hr].
    rewrite (bind_returns _ _ _ _ _ (filedup_run f (put_proc np q s) Hl Hr)).
    change (get_file f (put_proc np q s)) with (get_file f s).
    set (x := set_f_ref (f_ref (get_file f s) + 1) (get_file f s)).
    change (put_file f x (put_proc np q s)) with (put_proc np q (put_file f x s)).
    rewrite modp_run, get_put_same, put_put by done. cbn [cbind].
    destruct (IH (set_p_ofile (<[fd := Some f]> (p_ofile q)) q) (put_file f x s)) as (t & E & Hlen & Hrefs);
      [done|done|done|done| |].
    { intros fd' f' E'. destruct (Hopen fd' f' E') as [Hf' Hr']. rewrite length_put_file.
      split; [done|]. destruct (decide (f' = f)) as [->|Hff].
      - rewrite get_put_file_same by done. simpl. lia.
      - by rewrite get_put_file_ne. }
    exists t. rewrite length_put_file in Hlen. split; [|split; [done|]].
    + rewrite E. f_equal. unfold dup_ofile. simpl. by rewrite Ef.
    + intros g. specialize (Hrefs g).
      change (get_file g (set_ftable t (put_file f x s))) with (get_file g (set_ftable t s)) in Hrefs.
      rewrite Hrefs. unfold refs. destruct (decide (g = f)) as [->|Hgf].
      * rewrite get_put_file_same by done. rewrite filter_cons_True by done. simpl. lia.
      * rewrite get_put_file_ne by done. rewrite filter_cons_False by congruence. done.
  - unfold ret at 1. cbn [cbind]. destruct (IH q s) as (t & E & Hlen & Hrefs); [done..|].
    exists t. split; [|split; [done|]].
    + rewrite E. unfold dup_ofile. simpl. by rewrite Ef.
    + intros g. rewrite Hrefs. unfold refs. rewrite filter_cons_False by congruence. done.
Qed.

Lemma dup_ofile_S p n l : dup_ofile p (seq 0 (S n)) l =
  match p.(p_ofile) !!! n with
  | Some f => <[n := Some f]> (dup_ofile p (seq 0 n) l)
  | None => dup_ofile p (seq 0 n) l
  end.
Proof. rewrite seq_S. unfold dup_ofile. by rewrite foldl_app. Qed.

Lemma length_dup_ofile p fds l : length (dup_ofile p fds l) = length l.
Proof.
  revert l. induction fds as [|x fds IH]; intros l; [done|].
  unfold dup_ofile. simpl. unfold dup_ofile in IH. rewrite IH.
  destruct (p_ofile p !!! x); [by rewrite length_insert|done].
Qed.

(** Copying all descriptors into an entry without open files copies the array. *)
Lemma dup_ofile_all p : length p.(p_ofile) = NOFILE →
  dup_ofile p (seq 0 NOFILE) (replicate NOFILE None) = p.(p_ofile).
Proof.
  intros Hl. assert (∀ n fd, (n <= NOFILE)%nat →
    dup_ofile p (seq 0 n) (replicate NOFILE None) !! fd =
    if decide (fd < n)%nat then p.(p_ofile) !! fd else replicate NOFILE None !! fd) as Hgen.
  { induction n as [|n IH]; intros fd Hn; [done|]. rewrite dup_ofile_S.
    pose proof (length_dup_ofile p (seq 0 n) (replicate NOFILE None)) as Hlen.
    rewrite length_replicate in Hlen.
    assert (p_ofile p !! n = Some (p_ofile p !!! n)) as Hlk
      by (apply list_lookup_lookup_total_lt; rewrite Hl; lia).
    destruct (p_ofile p !!! n) as [f|] eqn:Ef; (destruct (decide (fd = n)) as [->|Hne];
      [rewrite (decide_True (P := (n < S n)%nat)) by lia; rewrite Hlk
      |rewrite ?list_lookup_insert_ne by done; rewrite IH by lia; repeat case_decide; lia || done]).
    - rewrite list_lookup_insert_eq by lia. done.
    - rewrite IH, decide_False by lia. by rewrite lookup_replicate_2 by lia. }
  apply list_eq. intros fd. rewrite Hgen by done. case_decide; [done|].
  rewrite !lookup_ge_None_2; [done|lia|rewrite length_replicate; lia].
Qed.

(** [s'] differs from [s] in the contents of memory and the free list only. *)
Definition mem_only (s s' : kstate) : Prop :=
  s' = set_mem s'.(mem) (set_freelist s'.(freelist) s).

Section fork_spec.
Context `{!FsOps} `{!VmOps}.

(** What [fork] relies on: [copyuvm] returns a page directory, or 0 without
    memory, and touches nothing but memory; [idup] returns its argument. *)
Definition copyuvm_law (pgdir sz : Z) : Prop :=
  ∀ s, ∃ d s', copyuvm pgdir sz s = Ret d s' ∧ mem_only s s'.
Definition idup_law : Prop :=
  ∀ o s, ∃ s', idup o s = Ret o s' ∧ s'.(pt) = s.(pt) ∧ s'.(held) = s.(held) ∧ s'.(ftable) = s.(ftable).

(** The child's entry when [fork] returns; [old] is the unused entry. *)
Record child_of (c : nat) (pid : Z) (p old q : proc) : Prop := {
  ch_state : q.(p_state) = RUNNABLE;
  ch_pid : q.(p_pid) = pid;
  ch_parent : q.(p_parent) = Some c;
  ch_sz : q.(p_sz) = p.(p_sz);
  ch_tf : q.(p_tf) = set_tf_eax 0 p.(p_tf);
  ch_ofile : q.(p_ofile) = p.(p_ofile);
  ch_cwd : q.(p_cwd) = p.(p_cwd);
  ch_blocked : q.(p_sigblocked) = p.(p_sigblocked);
  ch_handlers : q.(p_userdefed) = p.(p_userdefed) ∧ q.(p_allinfo) = p.(p_allinfo);
  ch_pending : q.(p_sigpending) = 0;
  ch_sigreturn : q.(p_addr_sigreturn) = old.(p_addr_sigreturn)
}.

(** [fork] from the point where the address space has been copied. *)
Lemma fork_finish c np q s : c ≠ np → (np < length s.(pt))%nat →
  PTABLE_LOCK ∉ s.(held) → FTABLE_LOCK ∉ s.(held) → idup_law →
  let p := get_proc c s in
  length p.(p_ofile) = NOFILE → open_files p s → q.(p_ofile) = replicate NOFILE None →
  ∃ s', (fork_copy c np;;
     fork_files c np;;
     p <- getp c;;
     cwd <- idup p.(p_cwd);;
     modp np (set_p_cwd cwd);;
     p <- getp c;;
     modp np (fun q => set_p_name (copy_name p.(p_name) q.(p_name)) q);;
     q <- getp np;;
     acquire PTABLE_LOCK;;
     modp np (set_p_state RUNNABLE);;
     release PTABLE_LOCK;;
     ret q.(p_pid)) (put_proc np q s) = Ret q.(p_pid) s'
  ∧ s'.(held) = s.(held) ∧ (∀ j, j ≠ np → get_proc j s' = get_proc j s)
  ∧ (q.(p_sigpending) = 0 → child_of c q.(p_pid) p q (get_proc np s'))
  ∧ ∀ f, f_ref (get_file f s') = f_ref (get_file f s) + refs p f (seq 0 NOFILE).
Proof.
  intros Hne Hnp Hl Hlf Hidup p Hlen Hopen Hq.
  kcall (fork_copy_run c np q s Hne Hnp).
  destruct (fork_files_run c np p (seq 0 NOFILE) (inherit c p q) s Hne Hnp Hlf eq_refl Hopen)
    as (t & E & Ht & Hrefs).
  unfold fork_files at 1. kcall E. unfold inherit at 1. cbn [p_ofile set_p_tf set_p_allinfo
    set_p_userdefed set_p_sigblocked set_p_parent set_p_sz]. rewrite Hq, dup_ofile_all by done.
  set (q1 := set_p_ofile _ _). set (s1 := set_ftable t s).
  rewrite bind_getp_put_ne by done. change (get_proc c s1) with p.
  destruct (Hidup p.(p_cwd) (put_proc np q1 s1)) as (s2 & E2 & Hpt & Hh & Hft). kcall E2.
  assert (np < length (pt s2))%nat as Hnp2 by (rewrite Hpt, length_put; done).
  assert (get_proc np s2 = q1) as Hg2 by (unfold get_proc; rewrite Hpt; by apply get_put_same).
  rewrite <- (put_get np s2), Hg2. rewrite bind_modp_put by done.
  rewrite bind_getp_put_ne by done. rewrite bind_modp_put, bind_getp_put by done.
  set (q2 := set_p_name _ _).
  assert (PTABLE_LOCK ∉ held s2) as Hl2 by by rewrite Hh.
  rewrite (bind_returns _ _ _ _ _ (acquire_free PTABLE_LOCK (put_proc np q2 s2) Hl2)).
  change (set_held _ (put_proc np q2 s2)) with (put_proc np q2 (set_held (PTABLE_LOCK :: held s2) s2)).
  rewrite bind_modp_put by done.
  rewrite (bind_returns _ _ _ _ _ (release_head PTABLE_LOCK (held s2)
    (put_proc np (set_p_state RUNNABLE q2) (set_held (PTABLE_LOCK :: held s2) s2)) eq_refl Hl2)).
  eexists. split; [done|]. split; [done|]. split; [|split].
  - intros j Hj. change (get_proc j (set_held _ ?x)) with (get_proc j x).
    rewrite get_put_ne by done. change (get_proc j s2 = get_proc j s). unfold get_proc.
    rewrite Hpt. apply (get_put_ne np j q1 s). congruence.
  - intros Hp. change (get_proc np (set_held _ ?x)) with (get_proc np x).
    rewrite get_put_same by done. by split.
  - intros f. change (f_ref (get_file f s2) = f_ref (get_file f s) + refs p f (seq 0 NOFILE)).
    rewrite <- Hrefs. unfold get_file. by rewrite Hft.
Qed.

End fork_spec.

(** ** Exit *)

Definition child_of_p (o : option nat) (p : proc) : bool := bool_decide (p.(p_parent) = o).

(** The entry of a process after [reparent c] with [init] in entry [ip]. *)
Definition adopt (c : nat) (ip : option nat) (p : proc) : proc :=
  if child_of_p (Some c) p then set_p_parent ip p else p.

Definition wake_if (b : bool) (ch : chan) (p : proc) : proc := if b then wake_proc ch p else p.

Lemma wake_parent ch p : p_parent (wake_proc ch p) = p_parent p.
Proof. unfold wake_proc. by destruct (_ && _). Qed.

Lemma wake_zombie ch p : is_state ZOMBIE (wake_proc ch p) = is_state ZOMBIE p.
Proof.
  unfold wake_proc, is_state. destruct (bool_decide (p_state p = SLEEPING)) eqn:E; [|done].
  apply bool_decide_eq_true in E. cbn [andb]. destruct (bool_decide (p_chan p = ch)); [|done].
  simpl. by rewrite E.
Qed.

Lemma wake_idem ch p : wake_proc ch (wake_proc ch p) = wake_proc ch p.
Proof.
  destruct (is_state SLEEPING p && bool_decide (p_chan p = ch)) eqn:E;
    unfold wake_proc at 2 3; rewrite E; [done|]. unfold wake_proc. by rewrite E.
Qed.

Lemma wake_adopt ch c ip p : adopt c ip (wake_proc ch p) = wake_proc ch (adopt c ip p).
Proof.
  unfold adopt, child_of_p. rewrite wake_parent. destruct (bool_decide (p_parent p = Some c)); [|done].
  unfold wake_proc, is_state. simpl. by destruct (_ && _).
Qed.

Definition zombie_child (o : option nat) (p : proc) : bool := child_of_p o p && is_state ZOMBIE p.

Lemma wake_zombie_child ch o p : zombie_child o (wake_proc ch p) = zombie_child o p.
Proof. unfold zombie_child, child_of_p. by rewrite wake_parent, wake_zombie. Qed.

(** The body of the loop of [reparent]. *)
Definition reparent1 (c : nat) (i : nat) : M unit :=
  q <- getp i;;
  when (bool_decide (q.(p_parent) = Some c))
    (ip <- get initproc;;
     modp i (set_p_parent ip);;
     q <- getp i;;
     when (is_state ZOMBIE q) (wakeup1 (proc_chan ip))).

Lemma reparent1_run c i s : wf_table s → (i < length s.(pt))%nat →
  reparent1 c i s = Ret () (set_pt (wake_if (zombie_child (Some c) (get_proc i s)) (proc_chan s.(initproc))
    <$> <[i := adopt c s.(initproc) (get_proc i s)]> s.(pt)) s).
Proof.
  intros Hw Hi. unfold reparent1. rewrite bind_getp. unfold adopt, zombie_child, child_of_p.
  destruct (bool_decide (p_parent (get_proc i s) = Some c)); cbn [when andb].
  - rewrite bind_get, bind_modp, bind_getp_put by done.
    change (is_state ZOMBIE (set_p_parent ?x ?p)) with (is_state ZOMBIE p).
    destruct (is_state ZOMBIE (get_proc i s)); cbn [when].
    + rewrite wakeup1_run; [done|]. unfold wf_table. by rewrite length_put.
    + unfold ret, put_proc. f_equal. unfold set_pt. f_equal. unfold wake_if. by rewrite list_fmap_id.
  - unfold ret, wake_if. rewrite list_fmap_id, list_insert_id by by apply lookup_get_proc. by destruct s.
Qed.

Lemma reparent_range c n : ∀ k s, wf_table s → (k + n <= length s.(pt))%nat →
  ∃ b, foldM (fun _ i => reparent1 c i) (seq k n) () s
    = Ret () (set_pt (imap (fun i p => wake_if b (proc_chan s.(initproc))
        (if decide (k <= i < k + n)%nat then adopt c s.(initproc) p else p)) s.(pt)) s)
  ∧ (b = true ↔ ∃ i, (k <= i < k + n)%nat ∧ zombie_child (Some c) (get_proc i s) = true).
Proof.
  induction n as [|n IH]; intros k s Hw Hk; cbn [seq foldM].
  { exists false. split; [|split; [done|]; intros (i & ? & _); lia].
    unfold ret. f_equal. destruct s; unfold set_pt; simpl. f_equal.
    apply list_eq. intros i. rewrite list_lookup_imap. destruct (pt !! i); simpl; [|done].
    f_equal. case_decide; [lia|done]. }
  unfold bind at 1. rewrite reparent1_run by (done || lia). cbn [cbind].
  set (z := zombie_child (Some c) (get_proc k s)). set (ch := proc_chan (initproc s)).
  set (s1 := set_pt _ s).
  assert (∀ i, (i < length (pt s))%nat → pt s1 !! i = Some (wake_if z ch
    (if decide (i = k) then adopt c (initproc s) (get_proc i s) else get_proc i s))) as Hs1.
  { intros i Hi. unfold s1. simpl. rewrite list_lookup_fmap. case_decide as Hik.
    - subst i. by rewrite list_lookup_insert_eq by done.
    - rewrite list_lookup_insert_ne by done. by rewrite lookup_get_proc. }
  assert (length (pt s1) = length (pt s)) as Hlen
    by (unfold s1; simpl; by rewrite length_fmap, length_insert).
  destruct (IH (S k) s1) as (b & E & Hb); [by unfold wf_table; rewrite Hlen|lia|].
  exists (z || b). split.
  - rewrite E. f_equal. unfold s1 at 1. unfold set_pt. f_equal. apply list_eq. intros i.
    rewrite !list_lookup_imap. change (initproc s1) with (initproc s).
    destruct (decide (i < length (pt s))%nat) as [Hi|Hi].
    2: { rewrite !lookup_ge_None_2; [done|lia|lia]. }
    rewrite Hs1, lookup_get_proc by done. simpl. f_equal. fold ch. clear Hs1 E Hb IH.
    unfold wake_if. destruct z, b; repeat case_decide; try lia; cbn [orb];
      rewrite ?wake_adopt, ?wake_idem; done.
  - assert (∀ i, (S k <= i < S k + n)%nat →
      zombie_child (Some c) (get_proc i s1) = zombie_child (Some c) (get_proc i s)) as Hz.
    { intros i Hi. assert (i < length (pt s))%nat as Hi' by lia.
      pose proof (Hs1 i Hi') as H%get_proc_lookup. rewrite H, decide_False by lia.
      unfold wake_if. destruct z; [apply wake_zombie_child|done]. }
    rewrite orb_true_iff, Hb. split.
    + intros [Hzk|(i & Hi & Hzi)]; [exists k; split; [lia|done]|exists i].
      rewrite Hz in Hzi by done. split; [lia|done].
    + intros (i & Hi & Hzi). destruct (decide (i = k)) as [->|]; [by left|right].
      exists i. rewrite Hz by lia. split; [lia|done].
Qed.

Lemma reparent_run c s : wf_table s →
  ∃ b, reparent c s = Ret () (set_pt ((λ p, wake_if b (proc_chan s.(initproc))
      (adopt c s.(initproc) p)) <$> s.(pt)) s)
  ∧ (b = true ↔ ∃ i, (i < NPROC)%nat ∧ zombie_child (Some c) (get_proc i s) = true).
Proof.
  intros Hw. destruct (reparent_range c NPROC 0 s Hw) as (b & E & Hb); [by rewrite Hw|].
  exists b. split.
  - unfold reparent, all_procs. change (fun (_ : unit) (i : nat) => _) with (fun (_ : unit) i => reparent1 c i).
    rewrite E. do 2 f_equal. apply list_eq. intros i. rewrite list_lookup_imap, list_lookup_fmap.
    destruct (pt s !! i) eqn:Ei; simpl; [|done]. apply lookup_lt_Some in Ei. rewrite Hw in Ei.
    by rewrite decide_True by lia.
  - rewrite Hb. split; intros (i & Hi & Hz); exists i; (split; [lia|done]).
Qed.

(** No run of the computation gives control back to the caller. *)
Inductive never_returns {S J A} : comp S J A → Prop :=
| nr_panic msg s : never_returns (Panic msg s)
| nr_jump j s : never_returns (Jump j s)
| nr_stuck s : never_returns (Stuck s)
| nr_switch s k : (∀ s', never_returns (k s')) → never_returns (Switch s k).

Lemma nr_cbind {S J A B} (c : comp S J A) (f : A → prog S J B) :
  (∀ a s, never_returns (f a s)) → never_returns (cbind c f).
Proof. intros Hf. induction c; cbn [cbind]; auto using @never_returns. Qed.

Lemma nr_bind {S J A B} (m : prog S J A) (f : A → prog S J B) s :
  (∀ a s, never_returns (f a s)) → never_returns (bind m f s).
Proof. apply nr_cbind. Qed.

Lemma exit_tail_run c s : s.(curproc) = Some c → wf_table s → (c < NPROC)%nat → s.(held) = [] →
  ∃ b, let f p := wake_if b (proc_chan s.(initproc)) (adopt c s.(initproc)
                    (wake_proc (proc_chan (p_parent (get_proc c s))) p)) in
  exit_tail c s = Switch (put_proc c (set_p_state ZOMBIE (f (get_proc c s)))
                            (set_pt (f <$> s.(pt)) (set_held [PTABLE_LOCK] s)))
                    (fun s' => Panic "zombie exit" (set_intena s.(intena) s'))
  ∧ (b = true ↔ ∃ i, (i < NPROC)%nat ∧ zombie_child (Some c) (get_proc i s) = true).
Proof.
  intros Hc Hw Hi Hh. unfold exit_tail.
  rewrite (bind_returns _ _ _ _ _ (acquire_free PTABLE_LOCK s ltac:(rewrite Hh; set_solver))), Hh, bind_getp.
  change (get_proc c (set_held _ s)) with (get_proc c s).
  set (pch := proc_chan _). kcall (wakeup1_run pch (set_held [PTABLE_LOCK] s) Hw).
  set (s1 := set_pt _ _).
  assert (wf_table s1) as Hw1 by (unfold wf_table, s1; simpl; by rewrite length_fmap).
  destruct (reparent_run c s1 Hw1) as (b & E & Hb). kcall E. change (initproc s1) with (initproc s).
  set (f1 := fun p => wake_if b _ (adopt c _ p)).
  assert (set_pt (f1 <$> pt s1) s1 = set_pt ((λ p, f1 (wake_proc pch p)) <$> pt s) (set_held [PTABLE_LOCK] s)) as ->
    by (unfold s1; simpl; by rewrite <- list_fmap_compose).
  set (f := fun p => f1 _). set (s2 := set_pt (f <$> pt s) _).
  assert (length (pt s2) = NPROC) as Hl2 by (unfold s2; simpl; by rewrite length_fmap).
  assert (get_proc c s2 = f (get_proc c s)) as Hg
    by (apply (get_proc_map f c (set_held [PTABLE_LOCK] s)); simpl; by rewrite Hw).
  rewrite bind_modp, Hg. exists b. split.
  - erewrite bind_switch; [|apply (sched_switch c); [exact Hc|done|]].
    + done.
    + rewrite get_put_same by lia. done.
  - rewrite Hb. split; intros (i & Hin & Hz); exists i; (split; [done|]);
      unfold s1 in *; rewrite get_proc_map in * by (simpl; rewrite Hw; done);
      by rewrite ?wake_zombie_child in *.
Qed.

Lemma adopt_parent b ch c ip p : ip ≠ Some c → p_parent (wake_if b ch (adopt c ip p)) ≠ Some c.
Proof.
  intros Hip. assert (p_parent (wake_if b ch (adopt c ip p)) = p_parent (adopt c ip p)) as ->
    by (destruct b; [apply wake_parent|done]).
  unfold adopt, child_of_p. by destruct (bool_decide_reflect (p_parent p = Some c)).
Qed.

Section exit_spec.
Context `{!FsOps}.

(** [exit] never gives control back to its caller, and refuses to run in the
    init process.  Once its files are closed it switches away for good as a
    zombie, with only [ptable.lock] held, after waking its parent, giving all
    its children to init, and waking init if one of them is a zombie; nothing
    else changes in the other entries, and nobody has it as parent any more. *)
Theorem exit_effect s c : s.(curproc) = Some c → wf_table s → (c < NPROC)%nat → s.(held) = [] →
  (∀ t, never_returns (exit t)) ∧
  (s.(initproc) = Some c → exit s = Panic "init exiting" s) ∧
  (s.(initproc) ≠ Some c → ∃ s1 k b, exit_tail c s = Switch s1 k
    ∧ (∀ s2, ∃ s3, k s2 = Panic "zombie exit" s3)
    ∧ s1.(held) = [PTABLE_LOCK] ∧ p_state (get_proc c s1) = ZOMBIE
    ∧ (∀ i, i ≠ c → (i < NPROC)%nat → get_proc i s1 =
        wake_if b (proc_chan s.(initproc)) (adopt c s.(initproc)
          (wake_proc (proc_chan (p_parent (get_proc c s))) (get_proc i s))))
    ∧ (b = true ↔ ∃ i, (i < NPROC)%nat ∧ zombie_child (Some c) (get_proc i s) = true)
    ∧ ∀ i, p_parent (get_proc i s1) ≠ Some c).
Proof.
  intros Hc Hw Hi Hh. split; [|split].
  - intros t. unfold exit. rewrite bind_myproc, bind_get.
    destruct (bool_decide (curproc t = initproc t)); [constructor|].
    destruct (curproc t) as [i|]; cbn [with_proc]; [|constructor].
    repeat (apply nr_bind; intros ? ?). constructor.
  - intros Hin. unfold exit. rewrite bind_myproc, bind_get, bool_decide_eq_true_2 by congruence. done.
  - intros Hin. destruct (exit_tail_run c s Hc Hw Hi Hh) as (b & E & Hb). set (f := fun p => wake_if b _ _) in E.
    assert (∀ i, (i < NPROC)%nat → get_proc i (set_pt (f <$> s.(pt)) (set_held [PTABLE_LOCK] s)) = f (get_proc i s))
      as Hg by (intros i Hin'; apply (get_proc_map f i (set_held [PTABLE_LOCK] s)); simpl; by rewrite Hw).
    assert (c < length (pt (set_pt (f <$> s.(pt)) (set_held [PTABLE_LOCK] s))))%nat as Hlen
      by (simpl; by rewrite length_fmap, Hw).
    eexists _, _, b. split; [exact E|]. split; [intros s2; by eexists|]. split; [done|].
    split; [by rewrite get_put_same|]. split; [intros i Hne Hlt; by rewrite get_put_ne, Hg|].
    split; [done|]. intros i. destruct (decide (i = c)) as [->|Hne].
    + rewrite get_put_same by done. change (p_parent (f (get_proc c s)) ≠ Some c). by apply adopt_parent.
    + rewrite get_put_ne by done. destruct (decide (i < NPROC)%nat).
      * rewrite Hg by done. by apply adopt_parent.
      * by rewrite get_proc_ge by (simpl; rewrite length_fmap, Hw; lia).
Qed.
End exit_spec.

(** ** Wait *)

(** The entry of a process that has been waited for. *)
Definition freed (p : proc) : proc :=
  set_p_state UNUSED (set_p_userdefed 0 (set_p_sigpending 0 (set_p_sigblocked 0 (set_p_justwoken 0
    (set_p_killed 0 (set_p_name (<[0%nat := 0]> p.(p_name)) (set_p_parent None (set_p_pid 0
      (set_p_kstack 0 p))))))))).

Section wait_spec.
Context `{!VmOps}.

(** What [wait] relies on: freeing the page table [d] touches memory only. *)
Definition freevm_law (d : Z) : Prop := ∀ s, ∃ s', freevm d s = Ret () s' ∧ mem_only s s'.

Lemma reap_run i s : (i < length s.(pt))%nat → s.(held) = [PTABLE_LOCK] →
  page_ok s.(kend) (p_kstack (get_proc i s)) → freevm_law (p_pgdir (get_proc i s)) →
  ∃ m f, reap i s = Ret (p_pid (get_proc i s))
    (put_proc i (freed (get_proc i s)) (set_mem m (set_freelist f (set_held [] s)))).
Proof.
  intros Hi Hh Hk Hf. unfold reap. rewrite bind_getp.
  kcall (kfree_run (p_kstack (get_proc i s)) s Hk ltac:(rewrite Hh; set_solver)).
  rewrite bind_modp. set (s1 := set_freelist _ (set_mem _ s)).
  change (get_proc i s1) with (get_proc i s). rewrite bind_getp_put by done.
  destruct (Hf (put_proc i (set_p_kstack 0 (get_proc i s)) s1)) as (s2 & E & Hm). kcall E.
  assert (∃ m f, s2 = put_proc i (set_p_kstack 0 (get_proc i s)) (set_mem m (set_freelist f s)))
    as (m & f & ->) by (exists (mem s2), (freelist s2); exact Hm).
  rewrite !bind_modp_put by done.
  erewrite (bind_returns (release PTABLE_LOCK)); [|apply (release_head _ []); [exact Hh|set_solver]].
  by exists m, f.
Qed.

Lemma wait_scan_none o s : ∀ l h, (∀ i, i ∈ l → zombie_child o (get_proc i s) = false) →
  wait_scan o l h s = Ret (None, h || existsb (fun i => child_of_p o (get_proc i s)) l) s.
Proof.
  induction l as [|i l IH]; intros h Hl; cbn [wait_scan existsb].
  { by rewrite orb_false_r. }
  assert (∀ j, j ∈ l → zombie_child o (get_proc j s) = false) as Hl'
    by (intros j Hj; apply Hl; by right).
  pose proof (Hl i ltac:(by left)) as Hz. unfold zombie_child, child_of_p in Hz. rewrite bind_getp.
  unfold child_of_p at 1. destruct (decide (p_parent (get_proc i s) = o)) as [Ho|Ho].
  - rewrite (bool_decide_eq_false_2 (_ ≠ _)) by tauto.
    rewrite (bool_decide_eq_true_2 _ Ho) in *. cbn [andb] in Hz. rewrite Hz, IH by done.
    by rewrite orb_true_r.
  - rewrite (bool_decide_eq_true_2 (_ ≠ _)), (bool_decide_eq_false_2 (_ = _)) by done. by rewrite IH.
Qed.

Lemma wait_scan_app o s l1 l2 : ∀ h, (∀ i, i ∈ l1 → zombie_child o (get_proc i s) = false) →
  ∃ h', wait_scan o (l1 ++ l2) h s = wait_scan o l2 h' s.
Proof.
  induction l1 as [|i l1 IH]; intros h Hl; cbn [wait_scan app]; [by exists h|].
  assert (∀ j, j ∈ l1 → zombie_child o (get_proc j s) = false) as Hl'
    by (intros j Hj; apply Hl; by right).
  pose proof (Hl i ltac:(by left)) as Hz. unfold zombie_child, child_of_p in Hz. rewrite bind_getp.
  destruct (decide (p_parent (get_proc i s) = o)) as [Ho|Ho].
  - rewrite (bool_decide_eq_false_2 (_ ≠ _)) by tauto.
    rewrite (bool_decide_eq_true_2 _ Ho) in Hz. cbn [andb] in Hz. rewrite Hz. by apply IH.
  - rewrite (bool_decide_eq_true_2 (_ ≠ _)) by done. by apply IH.
Qed.

(** A scan frees the first exited child. *)
Lemma wait_scan_zombie o s i : wf_table s → find_proc (zombie_child o) s = Some i →
  wait_scan o all_procs false s = (pid <- reap i;; ret (Some pid, true)) s.
Proof.
  intros Hw E. apply find_proc_Some in E as (Hi & Hz & Hfirst). rewrite Hw in Hi. unfold all_procs.
  replace NPROC with (i + S (NPROC - S i))%nat by lia. rewrite seq_app. cbn [seq].
  destruct (wait_scan_app o s (seq 0 i) (i :: seq (S i) (NPROC - S i)) false) as (h & E).
  { intros j Hj%elem_of_seq. apply Hfirst. lia. }
  rewrite Nat.add_0_l, E. cbn [wait_scan]. rewrite bind_getp.
  unfold zombie_child, child_of_p in Hz. apply andb_true_iff in Hz as [Hc%bool_decide_eq_true Hz].
  by rewrite (bool_decide_eq_false_2 (_ ≠ _)), Hz by tauto.
Qed.

(** Waiting with [ptable.lock] held keeps it across the switch. *)
Lemma sleep_ptable i c s : s.(curproc) = Some i → (i < length s.(pt))%nat → s.(held) = [PTABLE_LOCK] →
  sleep c PTABLE_LOCK s = Switch (put_proc i (sleeping_on c (get_proc i s)) s)
    (fun s2 => Ret () (put_proc i (set_p_chan NOCHAN (get_proc i s2)) (set_intena s.(intena) s2))).
Proof.
  intros Hc Hi Hh. unfold sleep. rewrite bind_myproc, Hc.
  rewrite bool_decide_eq_false_2 by (intros Hx; by apply Hx).
  change (when false ?m) with (ret (S := kstate) (J := ujump) ()).
  rewrite bind_ret_l, bind_modp, bind_modp_put by done.
  erewrite bind_switch; [|apply (sched_switch i); [exact Hc|exact Hh|by rewrite get_put_same]].
  cbn [cbind]. unfold sleeping_on. done.
Qed.

(** The exited children of [c] can be freed. *)
Definition reapable (c : nat) (s : kstate) : Prop :=
  ∀ i, zombie_child (Some c) (get_proc i s) = true →
    page_ok s.(kend) (p_kstack (get_proc i s)) ∧ freevm_law (p_pgdir (get_proc i s)).

Lemma wait_round_zombie n c s i : wf_table s → s.(held) = [PTABLE_LOCK] → reapable c s →
  find_proc (zombie_child (Some c)) s = Some i →
  ∃ m f, wait_loop (S n) (Some c) s = Ret (p_pid (get_proc i s))
    (put_proc i (freed (get_proc i s)) (set_mem m (set_freelist f (set_held [] s)))).
Proof.
  intros Hw Hh Hr E. pose proof (find_proc_Some _ _ _ E) as (Hi & Hz & _).
  destruct (Hr i Hz) as [Hk Hf]. destruct (reap_run i s Hi Hh Hk Hf) as (m & f & Er).
  exists m, f. cbn [wait_loop]. unfold bind at 1. rewrite (wait_scan_zombie _ _ _ Hw E).
  by rewrite (bind_returns _ _ _ _ _ Er).
Qed.

Lemma wait_round_none n c s : wf_table s → s.(held) = [PTABLE_LOCK] →
  find_proc (zombie_child (Some c)) s = None →
  wait_loop (S n) (Some c) s =
    if existsb (fun i => child_of_p (Some c) (get_proc i s)) all_procs
         && negb (truthy (p_killed (get_proc c s)))
    then (sleep (CH_PROC c) PTABLE_LOCK;; wait_loop n (Some c)) s
    else Ret (-1) (set_held [] s).
Proof.
  intros Hw Hh E. cbn [wait_loop]. unfold bind at 1. rewrite wait_scan_none.
  2: { intros i Hi%elem_of_seq. apply (find_proc_None _ _ _ E). rewrite Hw. lia. }
  cbn [cbind orb]. destruct (existsb _ all_procs); cbn [negb andb with_proc].
  - unfold bind at 1. rewrite bind_getp. unfold ret at 1. cbn [cbind].
    destruct (truthy (p_killed (get_proc c s))); [|done].
    by erewrite (bind_returns (release PTABLE_LOCK)); [|apply (release_head _ []); [exact Hh|set_solver]].
  - rewrite bind_ret_l.
    by erewrite (bind_returns (release PTABLE_LOCK)); [|apply (release_head _ []); [exact Hh|set_solver]].
Qed.

(** [wait] frees the first exited child and returns its pid, clearing its
    signal state; it returns -1 without an effect if the caller has no
    children or was killed; otherwise it sleeps on the caller's own entry
    with only [ptable.lock] held and scans again when it is woken. *)
Theorem wait_effect n s c : s.(curproc) = Some c → wf_table s → (c < NPROC)%nat → s.(held) = [] →
  reapable c s →
  match find_proc (zombie_child (Some c)) s with
  | Some i => ∃ s', wait (S n) s = Ret (p_pid (get_proc i s)) s' ∧ s'.(held) = []
      ∧ get_proc i s' = freed (get_proc i s) ∧ ∀ j, j ≠ i → get_proc j s' = get_proc j s
  | None =>
    if existsb (fun i => child_of_p (Some c) (get_proc i s)) all_procs
         && negb (truthy (p_killed (get_proc c s)))
    then ∃ s1 k, wait (S n) s = Switch s1 k ∧ s1.(held) = [PTABLE_LOCK]
      ∧ get_proc c s1 = sleeping_on (CH_PROC c) (get_proc c s)
      ∧ (∀ j, j ≠ c → get_proc j s1 = get_proc j s)
      ∧ ∀ s2, k s2 = wait_loop n (Some c)
          (put_proc c (set_p_chan NOCHAN (get_proc c s2)) (set_intena s.(intena) s2))
    else wait (S n) s = Ret (-1) s
  end.
Proof.
  intros Hc Hw Hi Hh Hr. unfold wait. rewrite bind_myproc, Hc.
  rewrite (bind_returns _ _ _ _ _ (acquire_free PTABLE_LOCK s ltac:(rewrite Hh; set_solver))), Hh.
  set (s0 := set_held [PTABLE_LOCK] s).
  change (find_proc (zombie_child (Some c)) s) with (find_proc (zombie_child (Some c)) s0).
  assert (c < length (pt s0))%nat as Hlen by (simpl; by rewrite Hw).
  destruct (find_proc _ s0) as [i|] eqn:E.
  - destruct (wait_round_zombie n c s0 i) as (m & f & Er); [done|done|done|done|].
    apply find_proc_Some in E as (Hlt & _ & _).
    eexists. split; [exact Er|]. split; [done|]. split; [by rewrite get_put_same|].
    intros j Hj. by rewrite get_put_ne.
  - rewrite (wait_round_none n c s0) by done.
    change (existsb (fun i => child_of_p (Some c) (get_proc i s)) all_procs)
      with (existsb (fun i => child_of_p (Some c) (get_proc i s0)) all_procs).
    change (get_proc c s) with (get_proc c s0).
    destruct (existsb _ all_procs && negb _).
    + eexists _, _. split; [erewrite bind_switch; [done|apply (sleep_ptable c); done]|].
      split; [done|]. split; [by rewrite get_put_same|].
      split; [intros j Hj; by rewrite get_put_ne|]. done.
    + unfold s0. f_equal. destruct s; simpl in *. by subst.
Qed.

Lemma wait_resume n c s s1 k : s.(curproc) = Some c → wf_table s → (c < NPROC)%nat → s.(held) = [] →
  reapable c s → wait (S n) s = Switch s1 k → ∀ t, k t = wait_loop n (Some c)
    (put_proc c (set_p_chan NOCHAN (get_proc c t)) (set_intena s.(intena) t)).
Proof.
  intros Hc Hw Hlt Hh Hr. unfold wait. rewrite bind_myproc, Hc.
  rewrite (bind_returns _ _ _ _ _ (acquire_free PTABLE_LOCK s ltac:(rewrite Hh; set_solver))), Hh.
  set (s0 := set_held [PTABLE_LOCK] s).
  destruct (find_proc (zombie_child (Some c)) s0) as [i|] eqn:E.
  - destruct (wait_round_zombie n c s0 i) as (m & f & Er); [done|done|done|done|]. by rewrite Er.
  - rewrite (wait_round_none n c s0) by done. destruct (existsb _ all_procs && negb _); [|done].
    rewrite (bind_switch _ _ _ _ _ (sleep_ptable c (CH_PROC c) s0 Hc ltac:(simpl; by rewrite Hw) eq_refl)).
    intros [= <- <-]. done.
Qed.

Lemma wake_runnable b ch p : p_state p = RUNNABLE → p_state (wake_if b ch p) = RUNNABLE.
Proof.
  intros Hs. unfold wake_if, wake_proc, is_state. rewrite Hs. by destruct b.
Qed.

Lemma adopt_runnable c ip p : p_state p = RUNNABLE → p_state (adopt c ip p) = RUNNABLE.
Proof. unfold adopt. by destruct (child_of_p _ p). Qed.

Lemma exit_parent b ch ch' c ip p : p_parent p ≠ Some c →
  p_parent (wake_if b ch (adopt c ip (wake_proc ch' p))) = p_parent p.
Proof.
  intros Hp. unfold adopt, child_of_p. rewrite wake_parent, bool_decide_eq_false_2 by done.
  unfold wake_if. destruct b; by rewrite ?wake_parent.
Qed.

End wait_spec.

(** ** Instances *)

(** Virtual memory that gives out one fixed page directory. *)
Definition null_vm : VmOps := {|
  setupkvm := ret one_page; inituvm _ _ _ := ret (); allocuvm _ _ n := ret n;
  deallocuvm _ _ n := ret n; freevm _ := ret (); copyuvm _ _ := ret one_page;
  loaduvm _ _ _ _ _ := ret 0; clearpteu _ _ := ret (); copyout _ _ _ _ := ret 0
|}.

Lemma demo_rest i : get_proc (3 + i) demo = proc0.
Proof.
  unfold get_proc. change (pt demo !!! (3 + i)%nat) with (replicate 61 proc0 !!! i).
  destruct (decide (i < 61)%nat).
  - by rewrite lookup_total_replicate_2 by done.
  - rewrite list_lookup_total_alt, lookup_ge_None_2; [done|]. rewrite length_replicate. lia.
Qed.

Definition demo_free : kstate := set_freelist one_page demo.

Lemma demo_free_kmem : kmem_inv demo_free [one_page].
Proof. split; [done| |apply NoDup_singleton]. constructor; [apply one_page_ok|constructor]. Qed.

Lemma demo_pids : pid_inv demo_free.
Proof.
  split.
  - by vm_compute.
  - intros [|[|[|i]]]; [by vm_compute..|]. change (S (S (S i))) with (3 + i)%nat.
    change (get_proc ?i demo_free) with (get_proc i demo). rewrite demo_rest. by intros [].
  - intros i j. change (get_proc ?i demo_free) with (get_proc i demo).
    assert (∀ k, in_use (get_proc k demo) → (k < 3)%nat ∧ p_pid (get_proc k demo) = Z.of_nat k + 1) as H.
    { intros [|[|[|k]]]; [intros _; split; [lia|done]..|]. change (S (S (S k))) with (3 + k)%nat.
      rewrite demo_rest. by intros []. }
    intros [_ Hi]%H [_ Hj]%H E. lia.
Qed.

Definition result {A} (c : comp kstate ujump A) : option A :=
  match c with Ret a _ => Some a | _ => None end.

Definition switched {A} (c : comp kstate ujump A) : option (nat * option nat) :=
  match c with Switch s _ => Some (length s.(pt), s.(initproc)) | _ => None end.

Lemma allocproc_fresh_witness :
  ∃ s', allocproc demo_free = Ret (Some 3%nat) s' ∧ pid_inv s' ∧ p_pid (get_proc 3 s') = 4.
Proof.
  destruct (allocproc_fresh demo_free [one_page]) as (r & s' & E & Hp & _ & Hr);
    [done|apply not_elem_of_nil|apply not_elem_of_nil|apply demo_free_kmem|apply demo_pids|done|].
  assert (r = Some 3%nat) as ->.
  { pose proof (f_equal result E) as Hres. vm_compute in Hres. congruence. }
  exists s'. split; [exact E|]. split; [done|]. apply Hr.
Defined.

(** The running process of [demo] with one open file. *)
Definition demo_open : kstate :=
  put_file 5 (mkfile FD_INODE 1 1 0 0 (Some 3%nat) 0)
    (put_proc 1 (set_p_ofile (Some 5%nat :: replicate 15 None) (demo_proc 2 RUNNING)) demo_free).


Lemma exit_effect_witness :
  ∃ s1 k, exit_tail 1 demo = Switch s1 k ∧ p_state (get_proc 1 s1) = ZOMBIE.
Proof.
  destruct (@exit_effect null_fs demo 1) as (_ & _ & H); [done|done|unfold NPROC; lia|done|].
  destruct H as (s1 & k & b & E & _ & _ & Hz & _); [done|]. by exists s1, k.
Defined.

(** The running process of [demo] has a child in the state [st]. *)
Definition demo_child (st : procstate) : kstate :=
  put_proc 2 (set_p_parent (Some 1%nat) (demo_proc 3 st)) demo.

Lemma demo_child_reapable st : @reapable null_vm 1 (demo_child st).
Proof.
  intros [|[|[|i]]] Hz; [done|done|split|].
  - by vm_compute.
  - intros s. exists s. split; [done|]. by destruct s.
  - change (get_proc (S (S (S i))) (demo_child st)) with (get_proc (3 + i) demo) in Hz.
    by rewrite demo_rest in Hz.
Qed.

Lemma wait_effect_witness :
  ∃ s', @wait null_vm 1 (demo_child ZOMBIE) = Ret 3 s' ∧ p_state (get_proc 2 s') = UNUSED.
Proof.
  pose proof (@wait_effect null_vm 0 (demo_child ZOMBIE) 1 eq_refl eq_refl ltac:(unfold NPROC; lia)
    eq_refl (demo_child_reapable ZOMBIE)) as (s' & E & _ & Hp & _).
  exists s'. split; [exact E|]. change (get_proc 2 s' = freed (get_proc 2 (demo_child ZOMBIE))) in Hp.
  by rewrite Hp.
Defined.

