(* ===== verification/Sysproc.v ===== *)
(** * System calls on processes and signals

    The argument access of [syscall.c] and the system calls of [sysproc.c] and
    [syssignal.c].  A C function that returns a status and stores a value
    through a pointer returns an option: [None] is the status -1. *)

From stdpp Require Import base numbers option list sets strings.
From Stdlib Require Import ZArith Lia.
From S2P Require Import Prelude Kstring State Locks Console Kalloc Proc Signal Delivery Sending.
From S2P Require Import Pipe File ProcLife.

(** ** Arguments *)

Definition fetchint (addr : Z) : M (option Z) :=
  o <- myproc;;
  with_proc o (fun c =>
  p <- getp c;;
  if (p.(p_sz) <=? addr) || (p.(p_sz) <? u32 (addr + 4)) then ret None else
  m <- get mem;;
  ret (Some (s32 (load32 m addr)))).

(** The loop of [fetchstr]: the length of the string at [a], if its end is
    among the next [n] bytes. *)
Fixpoint scan_string (n : nat) (m : memory) (a : Z) : option nat :=
  match n with
  | O => None
  | S n => if load8 m a =? 0 then Some 0%nat else S <$> scan_string n m (a + 1)
  end.

(** The pointer and the length of the string. *)
Definition fetchstr (addr : Z) : M (option (Z * Z)) :=
  o <- myproc;;
  with_proc o (fun c =>
  p <- getp c;;
  if p.(p_sz) <=? addr then ret None else
  m <- get mem;;
  ret ((fun k => (addr, Z.of_nat k)) <$> scan_string (Z.to_nat (p.(p_sz) - addr)) m addr)).

Definition argint (n : Z) : M (option Z) :=
  o <- myproc;;
  with_proc o (fun c =>
  p <- getp c;;
  fetchint (u32 (p.(p_tf).(tf_esp) + 4 + 4 * n))).

Definition argptr (n size : Z) : M (option Z) :=
  o <- myproc;;
  r <- argint n;;
  match r with
  | None => ret None
  | Some i =>
    with_proc o (fun c =>
    p <- getp c;;
    let a := u32 i in
    if (size <? 0) || (p.(p_sz) <=? a) || (p.(p_sz) <? u32 (a + size)) then ret None
    else ret (Some a))
  end.

Definition argstr (n : Z) : M (option (Z * Z)) :=
  r <- argint n;;
  match r with
  | None => ret None
  | Some addr => fetchstr (u32 addr)
  end.

(** [if(arg(...) < 0) return e;] *)
Definition with_arg {A B} (m : M (option A)) (e : B) (f : A → M B) : M B :=
  r <- m;; match r with None => ret e | Some v => f v end.

(** ** Processes *)

Section sysproc.
Context `{!FsOps} `{!VmOps}.

Definition sys_fork : M Z := fork.

Definition sys_exit : M Z := exit;; ret 0.

Definition sys_wait (fuel : nat) : M Z := wait fuel.

Definition sys_kill : M Z := with_arg (argint 0) (-1) kill.

Definition sys_getpid : M Z :=
  o <- myproc;; with_proc o (fun c => p <- getp c;; ret p.(p_pid)).

Definition sys_sbrk : M Z :=
  with_arg (argint 0) (-1) (fun n =>
  o <- myproc;;
  with_proc o (fun c =>
  p <- getp c;;
  let addr := s32 p.(p_sz) in
  r <- growproc n;;
  if r <? 0 then ret (-1) else ret addr)).
End sysproc.

(** [if(myproc() && issig(myproc())) psig(myproc());] *)
Definition deliver : M unit :=
  o <- myproc;;
  match o with
  | None => ret ()
  | Some c => p <- getp c;; when (truthy (issig p)) (psig o;; ret ())
  end.

(** The loop of [sys_sleep]; [true] when the process was killed.  The
    comparison converts [n] to unsigned. *)
Fixpoint sleep_loop (fuel : nat) (n ticks0 : Z) : M bool :=
  match fuel with
  | O => fun s => Stuck s
  | S fuel =>
    t <- get ticks;;
    if u32 (t - ticks0) <? u32 n then
      o <- myproc;;
      with_proc o (fun c =>
      p <- getp c;;
      if truthy p.(p_killed) then release TICKS_LOCK;; ret true else
      deliver;;
      sleep CH_TICKS TICKS_LOCK;;
      sleep_loop fuel n ticks0)
    else ret false
  end.

Definition sys_sleep (fuel : nat) : M Z :=
  with_arg (argint 0) (-1) (fun n =>
  acquire TICKS_LOCK;;
  ticks0 <- get ticks;;
  killed <- sleep_loop fuel n ticks0;;
  if (killed : bool) then ret (-1) else
  deliver;;
  release TICKS_LOCK;;
  ret 0).

Definition sys_uptime : M Z :=
  acquire TICKS_LOCK;;
  xticks <- get ticks;;
  release TICKS_LOCK;;
  ret (s32 xticks).

(** ** Signals *)

(** An unsigned result returned as an [int]. *)
Definition as_int (m : M Z) : M Z := r <- m;; ret (s32 r).

Definition sys_sigsetmask : M Z :=
  with_arg (argint 0) (-1) (fun mask => as_int (sigsetmask (u32 mask))).

Definition sys_siggetmask : M Z := as_int siggetmask.

Definition sys_raise : M Z := with_arg (argint 0) (-1) raise.

Definition sys_Kill : M Z :=
  with_arg (argint 0) (-1) (fun pid =>
  with_arg (argint 1) (-1) (fun sig => Kill pid sig)).

Definition sys_signal : M Z :=
  with_arg (argint 0) SIG_ERR (fun sigretfn1 =>
  with_arg (argint 1) SIG_ERR (fun signum =>
  with_arg (argint 2) SIG_ERR (fun ptr1 =>
  signal (u32 sigretfn1) signum (u32 ptr1)))).

(** [kernel_sigreturn] does not use the signal number fetched here. *)
Definition sys_sigreturn : M Z :=
  o <- myproc;;
  with_proc o (fun c =>
  p <- getp c;;
  fetchint p.(p_tf).(tf_esp);;
  kernel_sigreturn;;
  ret (-1)).

Definition sys_sigblock : M Z := with_arg (argint 0) (-1) (fun sig => as_int (sigblock sig)).

Definition sys_sigunblock : M Z := with_arg (argint 0) (-1) (fun sig => as_int (sigunblock sig)).

(** ** The argument checks *)

(** The address of the [n]th argument of the system call. *)
Definition arg_addr (p : proc) (n : Z) : Z := u32 (p.(p_tf).(tf_esp) + 4 + 4 * n).

Section args.
Context (c : nat) (s : kstate) (Hc : s.(curproc) = Some c).
Let p := get_proc c s.
Hypothesis Hsz : 0 <= p.(p_sz) <= KERNBASE.

Lemma fetchint_run a : word a →
  fetchint a s = Ret (if a + 4 <=? p.(p_sz) then Some (s32 (load32 s.(mem) a)) else None) s.
Proof.
  intros Ha. unfold fetchint. rewrite bind_myproc, Hc. cbn [with_proc]. rewrite bind_getp. fold p.
  unfold word, KERNBASE, two32 in *.
  destruct (Z.leb_spec (p_sz p) a); cbn [orb].
  { destruct (Z.leb_spec (a + 4) (p_sz p)); [lia|done]. }
  rewrite u32_id by (unfold word, two32; lia).
  destruct (Z.ltb_spec (p_sz p) (a + 4)), (Z.leb_spec (a + 4) (p_sz p)); try lia; [done|].
  by rewrite bind_get.
Qed.

Lemma argint_run n :
  argint n s = Ret (if arg_addr p n + 4 <=? p.(p_sz)
                    then Some (s32 (load32 s.(mem) (arg_addr p n))) else None) s.
Proof.
  unfold argint. rewrite bind_myproc, Hc. cbn [with_proc]. rewrite bind_getp.
  apply fetchint_run. apply u32_word.
Qed.

Lemma argptr_run n size : -two31 <= size < two31 →
  argptr n size s = Ret (if arg_addr p n + 4 <=? p.(p_sz)
    then let v := u32 (load32 s.(mem) (arg_addr p n)) in
         if (0 <=? size) && (v <? p.(p_sz)) && (v + size <=? p.(p_sz)) then Some v else None
    else None) s.
Proof.
  intros Hs. unfold argptr. rewrite bind_myproc, Hc. kcall (argint_run n).
  destruct (arg_addr p n + 4 <=? p_sz p); [|done]. cbn [with_proc]. rewrite bind_getp. fold p.
  rewrite u32_s32. set (v := u32 (load32 _ _)). assert (word v) as Hv by apply u32_word.
  unfold word, KERNBASE, two31, two32 in *.
  destruct (Z.ltb_spec size 0), (Z.leb_spec 0 size); try lia; cbn [andb orb]; [done|].
  destruct (Z.leb_spec (p_sz p) v), (Z.ltb_spec v (p_sz p)); try lia; cbn [andb orb]; [done|].
  rewrite u32_id by (unfold word, two32; lia).
  by destruct (Z.ltb_spec (p_sz p) (v + size)), (Z.leb_spec (v + size) (p_sz p)); try lia.
Qed.

Lemma argstr_run n :
  argstr n s = Ret (if arg_addr p n + 4 <=? p.(p_sz)
    then let v := u32 (load32 s.(mem) (arg_addr p n)) in
         (fun k => (v, Z.of_nat k)) <$> scan_string (Z.to_nat (p.(p_sz) - v)) s.(mem) v
    else None) s.
Proof.
  unfold argstr. kcall (argint_run n).
  destruct (arg_addr p n + 4 <=? p_sz p); [|done]. rewrite u32_s32. cbv zeta.
  set (v := u32 (load32 _ _)). unfold fetchstr. rewrite bind_myproc, Hc. cbn [with_proc].
  rewrite bind_getp. fold p. destruct (Z.leb_spec (p_sz p) v).
  - by replace (Z.to_nat (p_sz p - v)) with 0%nat by lia.
  - by rewrite bind_get.
Qed.
End args.

Lemma scan_string_Some m : ∀ n a k, scan_string n m a = Some k ↔
  (k < n)%nat ∧ load8 m (a + Z.of_nat k) = 0 ∧
  ∀ j, (j < k)%nat → load8 m (a + Z.of_nat j) ≠ 0.
Proof.
  induction n as [|n IH]; intros a k; cbn [scan_string].
  { split; [done|]. intros [? _]. lia. }
  destruct (Z.eqb_spec (load8 m a) 0) as [E|E].
  - split.
    + intros [= <-]. split; [lia|]. rewrite Z.add_0_r. split; [done|]. intros j ?. lia.
    + intros (Hk & _ & Hn). destruct k as [|k]; [done|]. destruct (Hn 0%nat); [lia|].
      by rewrite Z.add_0_r.
  - rewrite fmap_Some. split.
    + intros (k' & (Hk & Hz & Hn)%IH & ->). split; [lia|].
      replace (a + Z.of_nat (S k')) with (a + 1 + Z.of_nat k') by lia. split; [done|].
      intros [|j] Hj; [by rewrite Z.add_0_r|].
      replace (a + Z.of_nat (S j)) with (a + 1 + Z.of_nat j) by lia. apply Hn. lia.
    + intros (Hk & Hz & Hn). destruct k as [|k]; [by rewrite Z.add_0_r in Hz|].
      exists k. split; [|done]. apply IH. split; [lia|].
      replace (a + 1 + Z.of_nat k) with (a + Z.of_nat (S k)) by lia. split; [done|].
      intros j Hj. replace (a + 1 + Z.of_nat j) with (a + Z.of_nat (S j)) by lia. apply Hn. lia.
Qed.

(** The argument is inside the process. *)
Definition arg_inside (p : proc) (n : Z) : Prop := arg_addr p n + 4 <= p.(p_sz).

(** C15: The argument checks of system calls accept exactly what lies inside the
    process: [argint] needs the argument word itself below the process size,
    [argptr] also the whole block it points to, [argstr] the whole string with
    its terminator.  No address at or above the size (so none of the kernel's)
    is read or accepted, whatever the user stack pointer and the arguments
    are; no arithmetic wraps around. *)
Theorem user_args_checked s c n size : s.(curproc) = Some c →
  let p := get_proc c s in
  let v := u32 (load32 s.(mem) (arg_addr p n)) in
  0 <= p.(p_sz) <= KERNBASE → -two31 <= size < two31 →
  (∀ r s', argint n s = Ret r s' ↔ s' = s ∧
     ((¬ arg_inside p n ∧ r = None) ∨ (arg_inside p n ∧ r = Some (s32 v)))) ∧
  (∀ a, argptr n size s = Ret (Some a) s ↔
     arg_inside p n ∧ a = v ∧ 0 <= size ∧ a < p.(p_sz) ∧ a + size <= p.(p_sz)) ∧
  (∀ a len, argstr n s = Ret (Some (a, len)) s ↔
     arg_inside p n ∧ a = v ∧ 0 <= len ∧ a + len < p.(p_sz) ∧ load8 s.(mem) (a + len) = 0 ∧
     ∀ j, 0 <= j < len → load8 s.(mem) (a + j) ≠ 0).
Proof.
  intros Hc p v Hsz Hsize. unfold arg_inside. split; [|split].
  - intros r s'. rewrite (argint_run c s Hc Hsz). fold p. unfold v. rewrite s32_u32.
    destruct (Z.leb_spec (arg_addr p n + 4) (p_sz p)).
    + split; [intros [= <- <-]; split; [done|by right]|]. intros [-> [[? _]|[_ ->]]]; [lia|done].
    + split; [intros [= <- <-]; split; [done|left; split; [lia|done]]|].
      intros [-> [[_ ->]|[? _]]]; [done|lia].
  - intros a. rewrite (argptr_run c s Hc Hsz) by done. fold p. fold v.
    destruct (Z.leb_spec (arg_addr p n + 4) (p_sz p)); cbv zeta; [|split; [done|intros (? & _); lia]].
    destruct (Z.leb_spec 0 size); cbn [andb]; [|split; [done|lia]].
    destruct (Z.ltb_spec v (p_sz p)); cbn [andb]; [|split; [done|lia]].
    destruct (Z.leb_spec (v + size) (p_sz p)); [|split; [done|lia]].
    split; [intros [= <-]; lia|]. by intros (_ & -> & _).
  - intros a len. rewrite (argstr_run c s Hc Hsz). fold p. fold v. assert (word v) as Hv by apply u32_word.
    destruct (Z.leb_spec (arg_addr p n + 4) (p_sz p)); cbv zeta; [|split; [done|intros (? & _); lia]].
    split.
    + intros [= E]. apply fmap_Some in E as (k & (Hk & Hz & Hn)%scan_string_Some & [= -> ->]).
      split; [lia|]. split; [done|]. split; [lia|]. split; [lia|]. split; [done|].
      intros j Hj. specialize (Hn (Z.to_nat j) ltac:(lia)). by rewrite Z2Nat.id in Hn by lia.
    + intros (_ & -> & Hl & Hlt & Hz & Hn). f_equal. apply fmap_Some. exists (Z.to_nat len).
      rewrite Z2Nat.id by lia. split; [|done]. apply scan_string_Some.
      rewrite Z2Nat.id by lia. split; [lia|]. split; [done|]. intros j Hj. apply Hn. lia.
Qed.

(** ** Sleeping *)

Section sleeping.
Context (i : nat) (Hi : (i < NPROC)%nat).

(** The sleeper is resumed after at least one more tick, or because it was
    killed, with no signal to deliver; the ghost value counts the ticks since
    [sys_sleep] was called, which do not wrap around. *)
Definition sleeper_env (g : Z) (s : kstate) (g' : Z) (s' : kstate) : Prop :=
  s'.(curproc) = Some i ∧ s'.(held) = [PTABLE_LOCK] ∧ wf_table s' ∧
  issig (get_proc i s') = 0 ∧ s'.(ticks) = u32 (s.(ticks) + (g' - g)) ∧ g <= g' < two32 ∧
  (g < g' ∨ p_killed (get_proc i s') ≠ 0).

Record awake (ls : list lockid) (s : kstate) : Prop := {
  aw_cur : s.(curproc) = Some i;
  aw_held : s.(held) = ls;
  aw_wf : wf_table s;
  aw_quiet : issig (get_proc i s) = 0
}.

Lemma deliver_quiet ls s : awake ls s → deliver s = Ret () s.
Proof. intros []. unfold deliver. by rewrite bind_myproc, aw_cur0, bind_getp, aw_quiet0. Qed.

Lemma sleep_loop_wp n t0 : ∀ fuel g s, awake [TICKS_LOCK] s → word t0 →
  s.(ticks) = u32 (t0 + g) → 0 <= g < two32 → (0 < fuel)%nat →
  (g < u32 n → p_killed (get_proc i s) = 0 → u32 n - g + 1 < Z.of_nat fuel) →
  wp sleeper_env (fun g' (b : bool) s' =>
    if b then s'.(held) = [] ∧ p_killed (get_proc i s') ≠ 0
    else awake [TICKS_LOCK] s' ∧ u32 n <= g') g (sleep_loop fuel n t0 s).
Proof.
  induction fuel as [|fuel IH]; intros g s Hs Ht0 Ht Hg H0 Hf; [lia|]. cbn [sleep_loop].
  rewrite bind_get, Ht, u32_sub_l. replace (t0 + g - t0) with g by lia. rewrite (u32_id g) by done.
  destruct (Z.ltb_spec g (u32 n)) as [Hlt|Hge]; [|by split].
  destruct Hs as [Hc Hh Hw Hq]. rewrite bind_myproc, Hc. cbn [with_proc]. rewrite bind_getp.
  destruct (truthy (p_killed (get_proc i s))) eqn:Ek; unfold truthy in Ek.
  { rewrite (bind_returns _ _ _ _ _ (release_head TICKS_LOCK [] s Hh ltac:(set_solver))).
    simpl. split; [done|]. change (get_proc i (set_held [] s)) with (get_proc i s).
    apply negb_true_iff, Z.eqb_neq in Ek. done. }
  apply negb_false_iff, Z.eqb_eq in Ek. specialize (Hf Hlt Ek).
  kcall (deliver_quiet [TICKS_LOCK] s ltac:(by split)).
  destruct (sleep_switch i CH_TICKS TICKS_LOCK s Hc ltac:(by rewrite Hw) Hh ltac:(done)) as (k & E & Hk).
  rewrite (bind_switch _ _ _ _ _ E). cbn [wp]. intros g' s' (Hc' & Hh' & Hw' & Hq' & Ht' & Hg' & Hadv).
  assert (i < length (pt s'))%nat as Hi' by by rewrite Hw'.
  rewrite Hk by done. cbn [cbind]. change (ticks (put_proc _ _ _)) with (ticks s) in Ht'.
  set (s2 := put_proc i _ _). assert (get_proc i s2 = set_p_chan NOCHAN (get_proc i s')) as Hg2
    by (by apply get_put_same).
  apply IH; [|done| | |lia|].
  - split; [done|done|by unfold wf_table, s2; rewrite length_put|by rewrite Hg2].
  - unfold s2. simpl. rewrite Ht', Ht, u32_add_l. f_equal. lia.
  - lia.
  - rewrite Hg2. simpl. intros Hlt' Hk0. destruct Hadv as [Hadv|]; [lia|done].
Qed.
End sleeping.


Lemma issig_stop p : sig_ok p → Z.testbit p.(p_sigpending) 19 = true → issig p ≠ 0.
Proof.
  intros Hok H E. apply (f_equal (fun z => Z.testbit z 19)) in E. unfold issig in E.
  rewrite Z.land_spec, H, testbit_not32, Z.bits_0 in E by lia.
  rewrite (so_unmaskable _ Hok 19) in E; [done|]. unfold SIGSTOP. set_solver.
Qed.

(** C17: A process that has a pending SIGSTOP when it calls [sys_sleep] brings the
    kernel down: the signal is delivered with [tickslock] held, and the switch
    to the scheduler refuses to run with two locks. *)
Theorem sys_sleep_stop_panics i s fuel : delivering i [] s →
  let p := get_proc i s in
  0 <= p.(p_sz) <= KERNBASE → arg_inside p 0 →
  u32 (load32 s.(mem) (arg_addr p 0)) ≠ 0 →
  Z.testbit p.(p_sigpending) 19 = true → p.(p_killed) = 0 →
  ∃ s1, sys_sleep (S fuel) s = Panic "sched locks" s1 ∧ s1.(held) = [PTABLE_LOCK; TICKS_LOCK].
Proof.
  intros Hd p Hsz Hin Hn H19 Hk. destruct Hd as [Hwf Hi dl_cur0 dl_held0 Hfree Hrun Hpid Hok]. unfold sys_sleep, with_arg.
  kcall (argint_run i s dl_cur0 Hsz 0). fold p. unfold arg_inside in Hin.
  destruct (Z.leb_spec (arg_addr p 0 + 4) (p_sz p)); [|lia].
  rewrite (bind_returns _ _ _ _ _ (acquire_free TICKS_LOCK s ltac:(rewrite dl_held0; set_solver))), dl_held0.
  rewrite bind_get. set (s1 := set_held _ s).
  destruct (psig_stop_run i [TICKS_LOCK] s1) as (s2 & _ & Hh & _ & _ & E); [|done|].
  { split; try done. set_solver. }
  exists s2. split; [|done]. apply bind_panics. cbn [sleep_loop].
  rewrite bind_get, Z.sub_diag, u32_s32. change (u32 0) with 0.
  pose proof (u32_word (load32 (mem s) (arg_addr p 0))). unfold word in *.
  destruct (Z.ltb_spec 0 (u32 (load32 (mem s) (arg_addr p 0)))); [|lia].
  rewrite bind_myproc. change (curproc s1) with (curproc s). rewrite dl_cur0. cbn [with_proc].
  rewrite bind_getp. change (get_proc i s1) with p. rewrite Hk. change (truthy 0) with false. cbv iota.
  apply bind_panics. unfold deliver. rewrite bind_myproc. change (curproc s1) with (curproc s).
  rewrite dl_cur0, bind_getp. change (get_proc i s1) with p. unfold truthy.
  rewrite (proj2 (Z.eqb_neq _ _)) by by apply issig_stop. cbn [negb when].
  apply bind_panics. by apply E.
Qed.

(** ** Instances *)

(** The running process of [demo] calls with the argument [n] on its stack. *)
Definition demo_call (n : Z) : kstate := set_mem (store32 (fun _ => 0) 12292 n) demo.

Lemma user_args_checked_witness :
  argint 0 (demo_call 5) = Ret (Some 5) (demo_call 5) ∧
  argptr 0 100 (demo_call 5) = Ret (Some 5) (demo_call 5).
Proof.
  destruct (user_args_checked (demo_call 5) 1 0 100) as (H1 & H2 & _); [done|by vm_compute|by vm_compute|].
  split.
  - apply H1. split; [done|]. right. split; [by vm_compute|]. by vm_compute.
  - apply H2. by vm_compute.
Defined.


Lemma delivering_mem i ls m s : delivering i ls s → delivering i ls (set_mem m s).
Proof. intros []. by split. Qed.

Lemma sys_sleep_stop_panics_witness :
  ∃ s1, sys_sleep 1 (set_mem (store32 (fun _ => 0) 12292 5) (set_held [] (demo_with (demo_pending SIGSTOP))))
    = Panic "sched locks" s1.
Proof.
  destruct (sys_sleep_stop_panics 1 (set_mem (store32 (fun _ => 0) 12292 5)
    (set_held [] (demo_with (demo_pending SIGSTOP)))) 0) as (s1 & E & _).
  - apply delivering_mem, demo_delivering; [done|done| |apply not_elem_of_nil|apply not_elem_of_nil].
    apply sig_ok_post; [done|done|apply demo_proc_ok].
  - by vm_compute.
  - by vm_compute.
  - by vm_compute.
  - by vm_compute.
  - by vm_compute.
  - by exists s1.
Defined.
