(* ===== verification/Vm.v ===== *)
(** * Virtual memory: page tables, [vm.c]

    Page directories and page tables are pages of memory that the functions
    read and write word by word through the kernel's mapping of physical
    memory. *)

From stdpp Require Import base numbers option list sets strings.
From Stdlib Require Import ZArith Lia.
From S2P Require Import Prelude Kstring State Locks Console Kalloc Proc Pipe File ProcLife.

(** ** Layout of [mmu.h] and [memlayout.h] *)

Definition PTE_P : Z := 1.
Definition PTE_W : Z := 2.
Definition PTE_U : Z := 4.
Definition NPDENTRIES : nat := 1024.
Definition EXTMEM : Z := 1048576.
Definition DEVSPACE : Z := 4261412864.
Definition KERNLINK : Z := 2148532224.

Definition PDX (va : Z) : Z := Z.land (Z.shiftr (u32 va) 22) 1023.
Definition PTX (va : Z) : Z := Z.land (Z.shiftr (u32 va) 12) 1023.
Definition PGADDR (d t o : Z) : Z := u32 (Z.lor (Z.lor (Z.shiftl d 22) (Z.shiftl t 12)) o).
Definition PTE_ADDR (pte : Z) : Z := Z.land (u32 pte) (not32 4095).
Definition PTE_FLAGS (pte : Z) : Z := Z.land (u32 pte) 4095.

Definition modmem (f : memory → memory) : M unit := modify (fun s => set_mem (f s.(mem)) s).
Definition ld (a : Z) : M Z := get (fun s => load32 s.(mem) a).
Definition st (a v : Z) : M unit := modmem (fun m => store32 m a v).

(** ** Walking and mapping *)

(** The address of the entry for [va] in the page table [pgdir]; 0 if its page
    table page does not exist and is not to be allocated, or cannot be. *)
Definition walkpgdir (pgdir va : Z) (alloc : bool) : M Z :=
  let pde := u32 (pgdir + 4 * PDX va) in
  e <- ld pde;;
  if truthy (Z.land e PTE_P) then ret (u32 (P2V (PTE_ADDR e) + 4 * PTX va)) else
  if negb alloc then ret 0 else
  pgtab <- kalloc;;
  if pgtab =? 0 then ret 0 else
  modmem (fun m => memset m pgtab 0 PGSIZE);;
  st pde (Z.lor (Z.lor (Z.lor (V2P pgtab) PTE_P) PTE_W) PTE_U);;
  ret (u32 (pgtab + 4 * PTX va)).

(** The loop of [mappages]. *)
Fixpoint mappages_loop (fuel : nat) (pgdir a last pa perm : Z) : M Z :=
  match fuel with
  | O => fun s => Stuck s
  | S fuel =>
    pte <- walkpgdir pgdir a true;;
    if pte =? 0 then ret (-1) else
    e <- ld pte;;
    if truthy (Z.land e PTE_P) then panic "remap" else
    st pte (Z.lor (Z.lor pa perm) PTE_P);;
    if a =? last then ret 0 else
    mappages_loop fuel pgdir (u32 (a + PGSIZE)) last (u32 (pa + PGSIZE)) perm
  end.

(** The pages from [a] to [last] are all the loop visits. *)
Definition mappages (pgdir va size pa perm : Z) : M Z :=
  let a := PGROUNDDOWN va in
  let last := PGROUNDDOWN (va + size - 1) in
  mappages_loop (S (Z.to_nat (u32 (last - a) / PGSIZE))) pgdir a last pa perm.

(** ** Releasing *)

(** The loop of [deallocuvm]; a missing page table page skips to the next one. *)
Fixpoint deallocuvm_loop (fuel : nat) (pgdir a oldsz : Z) : M unit :=
  match fuel with
  | O => fun s => Stuck s
  | S fuel =>
    if negb (a <? oldsz) then ret () else
    pte <- walkpgdir pgdir a false;;
    if pte =? 0 then
      deallocuvm_loop fuel pgdir (u32 (u32 (PGADDR (PDX a + 1) 0 0 - PGSIZE) + PGSIZE)) oldsz
    else
      e <- ld pte;;
      (if truthy (Z.land e PTE_P) then
         let pa := PTE_ADDR e in
         if pa =? 0 then panic "kfree" else kfree (P2V pa);; st pte 0
       else ret ());;
      deallocuvm_loop fuel pgdir (u32 (a + PGSIZE)) oldsz
  end.

(** Every round advances by at least one page. *)
Definition deallocuvm_fuel (oldsz : Z) : nat := Z.to_nat (oldsz / PGSIZE + 2).

Definition vm_deallocuvm (pgdir oldsz newsz : Z) : M Z :=
  if oldsz <=? newsz then ret oldsz else
  deallocuvm_loop (deallocuvm_fuel oldsz) pgdir (PGROUNDUP newsz) oldsz;;
  ret newsz.

Definition vm_freevm (pgdir : Z) : M unit :=
  if pgdir =? 0 then panic "freevm: no pgdir" else
  vm_deallocuvm pgdir KERNBASE 0;;
  foldM (fun _ i =>
    e <- ld (u32 (pgdir + 4 * Z.of_nat i));;
    when (truthy (Z.land e PTE_P)) (kfree (P2V (PTE_ADDR e)))) (seq 0 NPDENTRIES) ();;
  kfree pgdir.

(** ** The kernel's part of a page table *)

Record kmap_entry : Type := mkkmap { virt : Z; phys_start : Z; phys_end : Z; perm : Z }.

(** [data] is the address of the symbol of the linker script. *)
Definition kmap (data : Z) : list kmap_entry :=
  [mkkmap KERNBASE 0 EXTMEM PTE_W;
   mkkmap KERNLINK (V2P KERNLINK) (V2P data) 0;
   mkkmap data (V2P data) PHYSTOP PTE_W;
   mkkmap DEVSPACE DEVSPACE 0 PTE_W].

(** [true] if a mapping failed. *)
Fixpoint map_kernel (pgdir : Z) (l : list kmap_entry) : M bool :=
  match l with
  | [] => ret false
  | k :: l =>
    r <- mappages pgdir k.(virt) (u32 (k.(phys_end) - k.(phys_start))) k.(phys_start) k.(perm);;
    if r <? 0 then ret true else map_kernel pgdir l
  end.

Section vm.
Context (data : Z).

Definition vm_setupkvm : M Z :=
  pgdir <- kalloc;;
  if pgdir =? 0 then ret 0 else
  modmem (fun m => memset m pgdir 0 PGSIZE);;
  if DEVSPACE <? P2V PHYSTOP then panic "PHYSTOP too high" else
  failed <- map_kernel pgdir (kmap data);;
  if (failed : bool) then vm_freevm pgdir;; ret 0 else ret pgdir.

Definition kvmalloc : M unit :=
  d <- vm_setupkvm;;
  modify (set_kpgdir d);;
  switchkvm.

(** ** User memory *)

Definition vm_inituvm (pgdir init sz : Z) : M unit :=
  if PGSIZE <=? sz then panic "inituvm: more than a page" else
  p <- kalloc;;
  modmem (fun m => memset m p 0 PGSIZE);;
  mappages pgdir 0 PGSIZE (V2P p) (Z.lor PTE_W PTE_U);;
  modmem (fun m => memmove m p init sz).

(** The loop of [allocuvm]; [false] when memory ran out. *)
Fixpoint allocuvm_loop (fuel : nat) (pgdir a oldsz newsz : Z) : M bool :=
  match fuel with
  | O => fun s => Stuck s
  | S fuel =>
    if negb (a <? newsz) then ret true else
    p <- kalloc;;
    if p =? 0 then
      cprintf (String.append "allocuvm out of memory" (String (Ascii.ascii_of_nat 10) EmptyString)) [];;
      vm_deallocuvm pgdir newsz oldsz;;
      ret false
    else
      modmem (fun m => memset m p 0 PGSIZE);;
      r <- mappages pgdir a PGSIZE (V2P p) (Z.lor PTE_W PTE_U);;
      if r <? 0 then
        cprintf (String.append "allocuvm out of memory (2)" (String (Ascii.ascii_of_nat 10) EmptyString)) [];;
        vm_deallocuvm pgdir newsz oldsz;;
        kfree p;;
        ret false
      else allocuvm_loop fuel pgdir (u32 (a + PGSIZE)) oldsz newsz
  end.

Definition vm_allocuvm (pgdir oldsz newsz : Z) : M Z :=
  if KERNBASE <=? newsz then ret 0 else
  if newsz <? oldsz then ret oldsz else
  ok <- allocuvm_loop (Z.to_nat (newsz / PGSIZE + 2)) pgdir (PGROUNDUP oldsz) oldsz newsz;;
  if (ok : bool) then ret newsz else ret 0.

Definition vm_clearpteu (pgdir uva : Z) : M unit :=
  pte <- walkpgdir pgdir uva false;;
  if pte =? 0 then panic "clearpteu" else
  e <- ld pte;;
  st pte (Z.land e (not32 PTE_U)).

(** The loop of [copyuvm]; [false] for [goto bad]. *)
Fixpoint copyuvm_loop (fuel : nat) (pgdir d i sz : Z) : M bool :=
  match fuel with
  | O => fun s => Stuck s
  | S fuel =>
    if negb (i <? sz) then ret true else
    pte <- walkpgdir pgdir i false;;
    if pte =? 0 then panic "copyuvm: pte should exist" else
    e <- ld pte;;
    if negb (truthy (Z.land e PTE_P)) then panic "copyuvm: page not present" else
    p <- kalloc;;
    if p =? 0 then ret false else
    modmem (fun m => memmove m p (P2V (PTE_ADDR e)) PGSIZE);;
    r <- mappages d i PGSIZE (V2P p) (PTE_FLAGS e);;
    if r <? 0 then kfree p;; ret false
    else copyuvm_loop fuel pgdir d (u32 (i + PGSIZE)) sz
  end.

Definition vm_copyuvm (pgdir sz : Z) : M Z :=
  d <- vm_setupkvm;;
  if d =? 0 then ret 0 else
  ok <- copyuvm_loop (Z.to_nat (sz / PGSIZE + 2)) pgdir d 0 sz;;
  if (ok : bool) then ret d else vm_freevm d;; ret 0.

(** ** Access to user memory of another address space *)

(** [walkpgdir] may return the null pointer, which is then dereferenced. *)
Definition uva2ka (pgdir uva : Z) : M Z :=
  pte <- walkpgdir pgdir uva false;;
  e <- ld pte;;
  if Z.land e PTE_P =? 0 then ret 0 else
  if Z.land e PTE_U =? 0 then ret 0 else
  ret (P2V (PTE_ADDR e)).

Fixpoint copyout_loop (fuel : nat) (pgdir va buf len : Z) : M Z :=
  match fuel with
  | O => fun s => Stuck s
  | S fuel =>
    if negb (0 <? len) then ret 0 else
    let va0 := PGROUNDDOWN va in
    pa0 <- uva2ka pgdir va0;;
    if pa0 =? 0 then ret (-1) else
    let n := Z.min (u32 (PGSIZE - u32 (va - va0))) len in
    modmem (fun m => memmove m (u32 (pa0 + u32 (va - va0))) buf n);;
    copyout_loop fuel pgdir (u32 (va0 + PGSIZE)) (u32 (buf + n)) (u32 (len - n))
  end.

Definition vm_copyout (pgdir va p len : Z) : M Z :=
  copyout_loop (Z.to_nat (len / PGSIZE + 3)) pgdir va p len.

Context `{!FsOps}.

Fixpoint loaduvm_loop (fuel : nat) (pgdir addr : Z) (ip : option nat) (offset i sz : Z) : M Z :=
  match fuel with
  | O => fun s => Stuck s
  | S fuel =>
    if negb (i <? sz) then ret 0 else
    pte <- walkpgdir pgdir (u32 (addr + i)) false;;
    if pte =? 0 then panic "loaduvm: address should exist" else
    e <- ld pte;;
    let n := Z.min (sz - i) PGSIZE in
    r <- readi ip (P2V (PTE_ADDR e)) (u32 (offset + i)) n;;
    if negb (r =? n) then ret (-1)
    else loaduvm_loop fuel pgdir addr ip offset (u32 (i + PGSIZE)) sz
  end.

Definition vm_loaduvm (pgdir addr : Z) (ip : option nat) (offset sz : Z) : M Z :=
  if truthy (addr mod PGSIZE) then panic "loaduvm: addr must be page aligned" else
  loaduvm_loop (Z.to_nat (sz / PGSIZE + 2)) pgdir addr ip offset 0 sz.

(** The interface of [ProcLife.v] and [Exec.v]. *)
Definition vm_ops : VmOps := {|
  setupkvm := vm_setupkvm; inituvm := vm_inituvm; allocuvm := vm_allocuvm;
  deallocuvm := vm_deallocuvm; freevm := vm_freevm; copyuvm := vm_copyuvm;
  loaduvm := vm_loaduvm; clearpteu := vm_clearpteu; copyout := vm_copyout
|}.
End vm.

(** ** Words of pages *)

(** The address of the [i]th word of the page [p]. *)
Definition slot (p i : Z) : Z := p + 4 * i.

Lemma page_mult e p : page_ok e p → ∃ k, p = 4096 * k ∧ 524288 <= k < 1048576.
Proof.
  intros Hp. pose proof (page_range _ _ Hp) as Hr. destruct Hp as (Hp & Hp4 & _).
  unfold PGSIZE, KERNBASE, PHYSTOP, two32 in *.
  exists (p / 4096). pose proof (Z.div_mod p 4096 ltac:(lia)). lia.
Qed.

Lemma slot_word e p i : page_ok e p → 0 <= i < 1024 → word (slot p i).
Proof. intros (k & -> & Hk)%page_mult Hi. unfold word, slot, two32. lia. Qed.

Lemma slot_nz e p i : page_ok e p → 0 <= i < 1024 → slot p i =? 0 = false.
Proof. intros (k & -> & Hk)%page_mult Hi. apply Z.eqb_neq. unfold slot. lia. Qed.

Lemma slot_ne e p q i j : page_ok e p → page_ok e q → 0 <= i < 1024 → 0 <= j < 1024 →
  p ≠ q ∨ i ≠ j → 4 <= u32 (slot q j - slot p i) <= two32 - 4.
Proof.
  intros (k & -> & Hk)%page_mult (l & -> & Hl)%page_mult Hi Hj Hne.
  unfold slot, u32, two32. set (d := 4096 * l + 4 * j - (4096 * k + 4 * i)).
  assert (d = 4 * (1024 * l + j - (1024 * k + i))) as Ed by (unfold d; lia).
  assert (1024 * l + j - (1024 * k + i) ≠ 0) by lia.
  destruct (Z_lt_ge_dec d 0).
  - rewrite <- (Z.mod_unique d 4294967296 (-1) (d + 4294967296)); lia.
  - rewrite Z.mod_small; lia.
Qed.

Lemma load_store_slot e m p q i j v : page_ok e p → page_ok e q → 0 <= i < 1024 → 0 <= j < 1024 →
  load32 (store32 m (slot p i) v) (slot q j)
  = if decide (p = q ∧ i = j) then u32 v else load32 m (slot q j).
Proof.
  intros Hp Hq Hi Hj. case_decide as H.
  - destruct H as [-> ->]. apply load_store_same.
  - apply load_store_ne. apply (slot_ne e); try done. destruct (decide (p = q)); [right|by left].
    intros ->. by apply H.
Qed.

Lemma load_memset_slot e m t q j : page_ok e t → page_ok e q → 0 <= j < 1024 →
  load32 (memset m t 0 PGSIZE) (slot q j) = if decide (q = t) then 0 else load32 m (slot q j).
Proof.
  intros Ht Hq Hj.
  assert (∀ k, 0 <= k < 4 → memset m t 0 PGSIZE (u32 (slot q j + k))
    = if decide (q = t) then 0 else m (u32 (slot q j + k))) as Hb.
  { intros k Hk. apply page_mult in Ht as (a & -> & Ha). apply page_mult in Hq as (b & -> & Hb).
    unfold slot, PGSIZE in *. rewrite memset_fill by (apply u32_word || unfold two32; lia).
    unfold fill. rewrite u32_sub_l. replace (0 mod 256) with 0 by done. unfold u32, two32.
    case_decide as E.
    - rewrite Z.mod_small by lia.
      destruct (Z.ltb_spec (4096 * b + 4 * j + k - 4096 * a) 4096); [done|lia].
    - set (d := 4096 * b + 4 * j + k - 4096 * a). assert (a ≠ b) by lia.
      destruct (Z_lt_ge_dec d 0).
      + rewrite <- (Z.mod_unique d 4294967296 (-1) (d + 4294967296)) by lia.
        by destruct (Z.ltb_spec (d + 4294967296) 4096); [lia|].
      + rewrite Z.mod_small by lia. by destruct (Z.ltb_spec d 4096); [lia|]. }
  unfold load32. pose proof (Hb 0 ltac:(lia)) as Hb0. rewrite Z.add_0_r in Hb0. rewrite Hb0, !Hb by lia.
  by case_decide.
Qed.

(** ** Entries *)

Lemma land_low x : Z.land x 1023 = x mod 1024.
Proof. change 1023 with (Z.ones 10). by rewrite Z.land_ones by lia. Qed.

Lemma PDX_div va : word va → PDX va = va / 4194304.
Proof.
  intros H. unfold PDX. rewrite u32_id, Z.shiftr_div_pow2 by (done || lia).
  change (2 ^ 22) with 4194304. unfold word, two32 in H. rewrite land_low.
  rewrite Z.mod_small; [done|]. split; [apply Z.div_pos; lia|]. apply Z.div_lt_upper_bound; lia.
Qed.

Lemma PTX_div va : word va → PTX va = (va / 4096) mod 1024.
Proof.
  intros H. unfold PTX. rewrite u32_id, Z.shiftr_div_pow2 by (done || lia).
  change (2 ^ 12) with 4096. unfold word, two32 in H. apply land_low.
Qed.

Lemma PDX_range va : 0 <= PDX va < 1024.
Proof.
  unfold PDX. rewrite land_low. apply Z.mod_pos_bound. lia.
Qed.

Lemma PTX_range va : 0 <= PTX va < 1024.
Proof.
  unfold PTX. rewrite land_low. apply Z.mod_pos_bound. lia.
Qed.

Lemma index_page a b : word a → word b → a / 4096 = b / 4096 → PDX a = PDX b ∧ PTX a = PTX b.
Proof.
  intros Ha Hb E. rewrite !PDX_div, !PTX_div, E by done. split; [|done].
  replace 4194304 with (4096 * 1024) by done. unfold word in *. rewrite <- !Z.div_div by lia. by rewrite E.
Qed.

(** Two addresses with the same indices are in the same page. *)
Lemma index_inj a b : word a → word b → PDX a = PDX b → PTX a = PTX b → a / 4096 = b / 4096.
Proof.
  intros Ha Hb. rewrite !PDX_div, !PTX_div by done. unfold word, two32 in *.
  assert (∀ x, x / 4194304 = x / 4096 / 1024) as Hd by (intros x; rewrite Z.div_div by lia; done).
  rewrite !Hd. pose proof (Z.div_mod (a / 4096) 1024 ltac:(lia)).
  pose proof (Z.div_mod (b / 4096) 1024 ltac:(lia)). lia.
Qed.

Lemma clear_low x : word x → Z.land x (not32 4095) = x / 4096 * 4096.
Proof. intros H. change 4095 with (Z.ones 12). by rewrite land_not32_ones. Qed.

Lemma lor_low k f : 0 <= k → 0 <= f < 4096 → Z.lor (4096 * k) f = 4096 * k + f.
Proof.
  intros Hk Hf. rewrite <- Z.lxor_lor, <- Z.add_nocarry_lxor; try done.
  all: apply Z.bits_inj'; intros i Hi; rewrite Z.land_spec, Z.bits_0.
  all: rewrite Z.mul_comm; change 4096 with (2 ^ 12); destruct (decide (i < 12)).
  1,3: by rewrite Z.mul_pow2_bits_low by lia.
  all: rewrite (Z.bits_above_log2 f), andb_false_r; [done|lia|].
  all: destruct (decide (f = 0)) as [->|]; [simpl; lia|]; apply Z.log2_lt_pow2; [lia|].
  all: assert (2 ^ 12 <= 2 ^ i) by (apply Z.pow_le_mono_r; lia); lia.
Qed.

(** The entry that maps the page frame [4096 * k] with the flags [f]. *)
Lemma pte_fields k f : 0 <= k < 1048576 → 0 <= f < 4096 →
  PTE_ADDR (4096 * k + f) = 4096 * k ∧ PTE_FLAGS (4096 * k + f) = f ∧
  Z.land (4096 * k + f) PTE_P = f mod 2.
Proof.
  intros Hk Hf. assert (word (4096 * k + f)) as Hw by (unfold word, two32; lia).
  unfold PTE_ADDR, PTE_FLAGS. rewrite u32_id, clear_low by done. split; [|split].
  - replace (4096 * k + f) with (k * 4096 + f) by lia. rewrite Z.div_add_l by lia.
    rewrite Z.div_small by lia. lia.
  - change 4095 with (Z.ones 12). rewrite Z.land_ones by lia.
    replace (4096 * k + f) with (f + k * 2 ^ 12) by lia. rewrite Z.mod_add by lia. apply Z.mod_small. lia.
  - unfold PTE_P. change 1 with (Z.ones 1). rewrite Z.land_ones by lia. change (2 ^ 1) with 2.
    replace (4096 * k + f) with (f + 2048 * k * 2) by lia. apply Z.mod_add. lia.
Qed.

Lemma V2P_page e t : page_ok e t → ∃ k, V2P t = 4096 * k ∧ 0 <= k < 57344 ∧ P2V (V2P t) = t.
Proof.
  intros Ht. pose proof (page_range _ _ Ht) as Hr. apply page_mult in Ht as (k & -> & Hk).
  unfold V2P, P2V, KERNBASE, PHYSTOP in *. exists (k - 524288).
  rewrite u32_id by (unfold word, two32; lia). split; [lia|]. split; [lia|].
  rewrite u32_id by (unfold word, two32; lia). lia.
Qed.

(** A present entry for the page [t] with the flags [f]. *)
Lemma pte_page e t f : page_ok e t → 0 <= f < 4096 → f mod 2 = 1 →
  let v := Z.lor (V2P t) f in
  word v ∧ truthy (Z.land v PTE_P) = true ∧ P2V (PTE_ADDR v) = t ∧ PTE_FLAGS v = f.
Proof.
  intros Ht Hf Hp v. apply V2P_page in Ht as (k & Ek & Hk & Ev). unfold v. rewrite Ek.
  rewrite lor_low by lia. destruct (pte_fields k f) as (H1 & H2 & H3); [lia|done|].
  rewrite H1, H2, H3, Hp. split; [unfold word, two32; lia|]. split; [done|]. rewrite <- Ek. done.
Qed.

(** ** The contents of a page table *)

Definition present (e : Z) : bool := truthy (Z.land e PTE_P).

(** The page an entry refers to, as the kernel addresses it. *)
Definition frame (e : Z) : Z := P2V (PTE_ADDR e).

(** The entry for [va], 0 if there is none. *)
Definition pte (m : memory) (d va : Z) : Z :=
  let e := load32 m (slot d (PDX va)) in
  if present e then load32 m (slot (frame e) (PTX va)) else 0.

Lemma entry_page e t f : page_ok e t → 0 <= f < 4096 → f mod 2 = 1 →
  present (Z.lor (V2P t) f) = true ∧ frame (Z.lor (V2P t) f) = t.
Proof. intros Ht Hf Ho. by destruct (pte_page e t f Ht Hf Ho) as (_ & ? & ? & _). Qed.

(** [d] is a page directory: its page table pages are distinct pages in use;
    [fl] are the free pages. *)
Record vm_inv (s : kstate) (d : Z) (fl : list Z) : Prop := {
  vi_lock : KMEM_LOCK ∉ s.(held);
  vi_kmem : kmem_inv s fl;
  vi_dir : page_ok s.(kend) d;
  vi_used : d ∉ fl;
  vi_tab : ∀ i, 0 <= i < 1024 → let e := load32 s.(mem) (slot d i) in present e = true →
    page_ok s.(kend) (frame e) ∧ frame e ∉ fl ∧ frame e ≠ d;
  vi_inj : ∀ i j, 0 <= i < 1024 → 0 <= j < 1024 →
    present (load32 s.(mem) (slot d i)) = true → present (load32 s.(mem) (slot d j)) = true →
    frame (load32 s.(mem) (slot d i)) = frame (load32 s.(mem) (slot d j)) → i = j
}.

Lemma free_page s fl p : kmem_inv s fl → p ∈ fl → page_ok s.(kend) p.
Proof. intros [_ H _] Hp. by apply (proj1 (Forall_forall _ _) H). Qed.

(** Stores into pages that are not free keep the free list. *)
Lemma kmem_store s fl p i v : kmem_inv s fl → page_ok s.(kend) p → 0 <= i < 1024 → p ∉ fl →
  kmem_inv (set_mem (store32 s.(mem) (slot p i) v) s) fl.
Proof.
  intros Hk Hp Hi Hn. pose proof (free_page s fl) as Hf. destruct Hk as [Hc Hpg Hd]. split; try done.
  simpl. eapply free_chain_frame; [|exact Hc]. intros q Hq.
  replace q with (slot q 0) by (unfold slot; lia).
  rewrite (load_store_slot s.(kend)); [|done|by apply Hf|done|lia].
  case_decide as E; [|done]. destruct E as [-> _]. done.
Qed.

Lemma kmem_memset s fl t : kmem_inv s fl → page_ok s.(kend) t → t ∉ fl →
  kmem_inv (set_mem (memset s.(mem) t 0 PGSIZE) s) fl.
Proof.
  intros Hk Hp Hn. pose proof (free_page s fl) as Hf. destruct Hk as [Hc Hpg Hd]. split; try done.
  simpl. eapply free_chain_frame; [|exact Hc]. intros q Hq.
  replace q with (slot q 0) by (unfold slot; lia).
  rewrite (load_memset_slot s.(kend)); [|done|by apply Hf|lia]. case_decide; [|done]. by subst.
Qed.

(** *** Walking *)

Lemma slot_u32 e p i : page_ok e p → 0 <= i < 1024 → u32 (p + 4 * i) = slot p i.
Proof. intros Hp Hi. apply u32_id. by apply (slot_word e). Qed.

Section table.
Context (s : kstate) (d : Z) (fl : list Z) (Hinv : vm_inv s d fl).
Let m := s.(mem).

Lemma walk_present va alloc : present (load32 m (slot d (PDX va))) = true →
  walkpgdir d va alloc s = Ret (slot (frame (load32 m (slot d (PDX va)))) (PTX va)) s.
Proof.
  intros Hp. unfold walkpgdir, ld. rewrite (slot_u32 s.(kend)) by (apply Hinv || apply PDX_range).
  rewrite bind_get. fold m. unfold present in Hp. rewrite Hp.
  destruct (vi_tab _ _ _ Hinv (PDX va) (PDX_range va) Hp) as (Ht & _).
  unfold ret. by rewrite (slot_u32 s.(kend)) by (apply Ht || apply PTX_range).
Qed.

Lemma walk_absent va : present (load32 m (slot d (PDX va))) = false →
  walkpgdir d va false s = Ret 0 s.
Proof.
  intros Hp. unfold walkpgdir, ld. rewrite (slot_u32 s.(kend)) by (apply Hinv || apply PDX_range).
  rewrite bind_get. fold m. unfold present in Hp. by rewrite Hp.
Qed.

(** The state after [walkpgdir] has allocated the page table page [t]. *)
Definition new_table (va t : Z) : kstate :=
  set_mem (store32 (memset m t 0 PGSIZE) (slot d (PDX va)) (Z.lor (V2P t) 7))
    (set_freelist (load32 m t) s).

Lemma walk_alloc va : present (load32 m (slot d (PDX va))) = false →
  walkpgdir d va true s =
  match fl with
  | [] => Ret 0 s
  | t :: _ => Ret (slot t (PTX va)) (new_table va t)
  end.
Proof.
  intros Hp. unfold walkpgdir, ld. rewrite (slot_u32 s.(kend)) by (apply Hinv || apply PDX_range).
  rewrite bind_get. fold m. unfold present in Hp. rewrite Hp. cbn [negb].
  pose proof (kalloc_run s fl (vi_kmem _ _ _ Hinv) (vi_lock _ _ _ Hinv)) as Hk.
  pose proof (free_page s fl) as Hf. destruct fl as [|t fl']; kcall Hk; [done|].
  assert (page_ok s.(kend) t) as Ht by (apply Hf; [apply Hinv|by left]).
  rewrite (proj2 (Z.eqb_neq t 0)) by (destruct Ht; lia). unfold modmem, st, modmem.
  rewrite !bind_modify. unfold ret. rewrite (slot_u32 s.(kend)) by (done || apply PTX_range).
  f_equal. unfold new_table. by rewrite <- !Z.lor_assoc.
Qed.
End table.

(** *** A new page table page *)

Section new_table.
Context (s : kstate) (d t : Z) (fl : list Z) (va : Z).
Context (Hinv : vm_inv s d (t :: fl)).
Context (Habs : present (load32 s.(mem) (slot d (PDX va))) = false).

Lemma nt_page : page_ok s.(kend) t.
Proof. apply (free_page s (t :: fl)); [apply Hinv|by left]. Qed.

Lemma nt_ne : d ≠ t.
Proof. intros E. apply (vi_used _ _ _ Hinv). rewrite E. by left. Qed.

Lemma nt_load q j : page_ok s.(kend) q → 0 <= j < 1024 →
  load32 (mem (new_table s d va t)) (slot q j) =
  if decide (d = q ∧ PDX va = j) then Z.lor (V2P t) 7
  else if decide (q = t) then 0 else load32 s.(mem) (slot q j).
Proof.
  intros Hq Hj. unfold new_table. cbn [mem set_mem].
  rewrite (load_store_slot s.(kend)) by (apply Hinv || done || apply PDX_range).
  rewrite (load_memset_slot s.(kend)) by (apply nt_page || done). case_decide; [|done].
  destruct (pte_page s.(kend) t 7 nt_page) as (Hw & _); [lia|done|]. by apply u32_id.
Qed.

Lemma nt_dir j : 0 <= j < 1024 →
  load32 (mem (new_table s d va t)) (slot d j) =
  if decide (PDX va = j) then Z.lor (V2P t) 7 else load32 s.(mem) (slot d j).
Proof.
  intros Hj. rewrite nt_load by (apply Hinv || done). rewrite (decide_False (P := d = t)) by apply nt_ne.
  by repeat case_decide; naive_solver.
Qed.

Lemma nt_entry : present (Z.lor (V2P t) 7) = true ∧ frame (Z.lor (V2P t) 7) = t.
Proof. by apply (entry_page s.(kend)); [apply nt_page|lia|]. Qed.

Lemma nt_old i : 0 <= i < 1024 → present (load32 s.(mem) (slot d i)) = true → PDX va ≠ i ∧
  frame (load32 s.(mem) (slot d i)) ≠ t ∧ page_ok s.(kend) (frame (load32 s.(mem) (slot d i))).
Proof.
  intros Hi Hp. destruct (vi_tab _ _ _ Hinv i Hi Hp) as (H1 & H2 & _). split; [|split]; [|set_solver|done].
  intros <-. congruence.
Qed.

Lemma nt_inv : vm_inv (new_table s d va t) d fl.
Proof.
  destruct nt_entry as [Hpe Hfr]. pose proof (vi_kmem _ _ _ Hinv) as Hk.
  assert (t ∉ fl) as Htf by (destruct Hk as [_ _ Hn]; by apply NoDup_cons in Hn as [? _]).
  split.
  - apply Hinv.
  - pose proof (kalloc_inv _ _ _ Hk) as H1.
    pose proof (kmem_memset _ _ _ H1 nt_page Htf) as H2.
    apply (kmem_store _ _ d (PDX va) (Z.lor (V2P t) 7) H2); [apply Hinv|apply PDX_range|].
    pose proof (vi_used _ _ _ Hinv). set_solver.
  - apply Hinv.
  - pose proof (vi_used _ _ _ Hinv). set_solver.
  - intros i Hi. cbv zeta. rewrite nt_dir by done. case_decide as E.
    + rewrite Hfr. intros _. split; [apply nt_page|]. split; [done|]. by pose proof nt_ne.
    + intros Hp. destruct (vi_tab _ _ _ Hinv i Hi Hp) as (H1 & H2 & H3). split; [done|]. set_solver.
  - intros i j Hi Hj. rewrite !nt_dir by done. repeat case_decide; subst; try done; rewrite ?Hfr.
    + intros _ Hp E. by destruct (nt_old j Hj Hp) as (_ & ? & _).
    + intros Hp _ E. by destruct (nt_old i Hi Hp) as (_ & ? & _).
    + by apply (vi_inj _ _ _ Hinv).
Qed.

(** The new page table page is empty, so no entry changes. *)
Lemma nt_pte a : pte (mem (new_table s d va t)) d a = pte s.(mem) d a.
Proof.
  destruct nt_entry as [Hpe Hfr]. unfold pte. rewrite nt_dir by apply PDX_range. case_decide as E.
  - rewrite Hpe, Hfr, <- E, Habs. rewrite nt_load by (apply nt_page || apply PTX_range).
    rewrite decide_False by (intros [? _]; by apply nt_ne). by rewrite decide_True.
  - destruct (present (load32 (mem s) (slot d (PDX a)))) eqn:Hp; [|done].
    destruct (nt_old _ (PDX_range a) Hp) as (_ & Hne & Hpg).
    rewrite nt_load by (done || apply PTX_range).
    destruct (vi_tab _ _ _ Hinv _ (PDX_range a) Hp) as (_ & _ & Hd).
    rewrite decide_False by (intros [? _]; congruence). by rewrite decide_False.
Qed.
End new_table.

(** *** Changing an entry *)

Section set_pte.
Context (s : kstate) (d : Z) (fl : list Z) (va v : Z) (Hinv : vm_inv s d fl) (Hv : word v).
Context (Hpres : present (load32 s.(mem) (slot d (PDX va))) = true).
Let t := frame (load32 s.(mem) (slot d (PDX va))).
Definition put_pte : kstate := set_mem (store32 s.(mem) (slot t (PTX va)) v) s.

Lemma sp_tab : page_ok s.(kend) t ∧ t ∉ fl ∧ t ≠ d.
Proof. apply (vi_tab _ _ _ Hinv _ (PDX_range va) Hpres). Qed.

Lemma sp_load q j : page_ok s.(kend) q → 0 <= j < 1024 →
  load32 (mem put_pte) (slot q j) =
  if decide (t = q ∧ PTX va = j) then v else load32 s.(mem) (slot q j).
Proof.
  intros Hq Hj. unfold put_pte. cbn [mem set_mem].
  rewrite (load_store_slot s.(kend)) by (apply sp_tab || done || apply PTX_range). by rewrite u32_id.
Qed.

Lemma sp_dir j : 0 <= j < 1024 → load32 (mem put_pte) (slot d j) = load32 s.(mem) (slot d j).
Proof.
  intros Hj. rewrite sp_load by (apply Hinv || done). case_decide as E; [|done].
  destruct E as [E _]. by apply sp_tab in E.
Qed.

Lemma sp_inv : vm_inv put_pte d fl.
Proof.
  split; [apply Hinv| |apply Hinv|apply Hinv| |].
  - apply kmem_store; [apply Hinv|apply sp_tab|apply PTX_range|apply sp_tab].
  - intros i Hi. cbv zeta. rewrite sp_dir by done. by apply (vi_tab _ _ _ Hinv).
  - intros i j Hi Hj. rewrite !sp_dir by done. by apply (vi_inj _ _ _ Hinv).
Qed.

Lemma sp_pte a : word va → word a →
  pte (mem put_pte) d a = if decide (a / 4096 = va / 4096) then v else pte s.(mem) d a.
Proof.
  intros Hva Ha. unfold pte. rewrite sp_dir by apply PDX_range.
  case_decide as E.
  - destruct (index_page a va Ha Hva E) as [-> ->]. rewrite Hpres. fold t.
    rewrite sp_load by (apply sp_tab || apply PTX_range). by rewrite decide_True.
  - destruct (present (load32 (mem s) (slot d (PDX a)))) eqn:Hp; [|done].
    destruct (vi_tab _ _ _ Hinv _ (PDX_range a) Hp) as (Hpg & _ & _).
    rewrite sp_load by (done || apply PTX_range). rewrite decide_False; [done|].
    intros [Et Ex]. apply E. apply index_inj; [done|done| |done].
    by apply (vi_inj _ _ _ Hinv); try apply PDX_range.
Qed.
End set_pte.

(** *** Which memory an operation touches *)

(** The bytes of the page [q] are the same. *)
Definition same_page (m m' : memory) (q : Z) : Prop := ∀ k, 0 <= k < PGSIZE → m' (q + k) = m (q + k).

Definition is_table (m : memory) (d q : Z) : Prop :=
  ∃ i, 0 <= i < 1024 ∧ present (load32 m (slot d i)) = true ∧ frame (load32 m (slot d i)) = q.

Lemma store_page e m p q i v : page_ok e p → page_ok e q → p ≠ q → 0 <= i < 1024 →
  same_page m (store32 m (slot p i) v) q.
Proof.
  intros (a & -> & Ha)%page_mult (b & -> & Hb)%page_mult Hne Hi k Hk. unfold PGSIZE, store32, slot, u32, two32 in *.
  set (x := 4096 * b + k - (4096 * a + 4 * i)). destruct (Z_lt_ge_dec x 0).
  - rewrite <- (Z.mod_unique x 4294967296 (-1) (x + 4294967296)) by lia.
    by destruct (Z.ltb_spec (x + 4294967296) 4); [lia|].
  - rewrite Z.mod_small by lia. by destruct (Z.ltb_spec x 4); [lia|].
Qed.

Lemma memset_page e m p q c : page_ok e p → page_ok e q →
  ∀ k, 0 <= k < PGSIZE → memset m p c PGSIZE (q + k) = if decide (p = q) then c mod 256 else m (q + k).
Proof.
  intros (a & -> & Ha)%page_mult (b & -> & Hb)%page_mult k Hk. unfold PGSIZE in *.
  rewrite memset_fill by (unfold word, two32; lia). unfold fill, u32, two32.
  set (x := 4096 * b + k - 4096 * a). destruct (Z_lt_ge_dec x 0).
  - rewrite <- (Z.mod_unique x 4294967296 (-1) (x + 4294967296)) by lia.
    destruct (Z.ltb_spec (x + 4294967296) 4096); [lia|]. by rewrite decide_False by lia.
  - rewrite Z.mod_small by lia. destruct (Z.ltb_spec x 4096); case_decide; try lia; done.
Qed.

Lemma same_page_trans m1 m2 m3 q : same_page m1 m2 q → same_page m2 m3 q → same_page m1 m3 q.
Proof. intros H1 H2 k Hk. by rewrite H2, H1. Qed.

(** *** Mapping one page *)

Lemma PGROUNDDOWN_in va k : word va → va mod 4096 = 0 → 0 <= k < 4096 → PGROUNDDOWN (va + k) = va.
Proof.
  intros Hw Ha Hk. pose proof (Z.div_mod va 4096 ltac:(lia)) as E. unfold word, two32 in *.
  unfold PGROUNDDOWN, PGSIZE. change (4096 - 1) with 4095.
  rewrite u32_id by (unfold word, two32; lia). rewrite clear_low by (unfold word, two32; lia).
  replace (va + k) with (va / 4096 * 4096 + k) by lia. rewrite Z.div_add_l, (Z.div_small k) by lia. lia.
Qed.

Record mapped (s : kstate) (d : Z) (fl : list Z) (va v : Z) (s' : kstate) (fl' : list Z) : Prop := {
  mp_inv : vm_inv s' d fl';
  mp_free : fl' = fl ∨ ∃ t, fl = t :: fl';
  mp_pte : ∀ a, word a → pte s'.(mem) d a = if decide (a / 4096 = va / 4096) then v else pte s.(mem) d a;
  mp_only : mem_only s s';
  mp_table : ∀ q, is_table s'.(mem) d q → is_table s.(mem) d q ∨ q ∈ fl ∧ q ∉ fl';
  mp_page : ∀ q, page_ok s.(kend) q → q ∉ fl ∨ q ∈ fl' → q ≠ d → ¬ is_table s.(mem) d q →
    same_page s.(mem) s'.(mem) q
}.

(** The page table page for [va] exists. *)
Lemma mapped_existing s d fl va v : vm_inv s d fl → word va → word v →
  present (load32 s.(mem) (slot d (PDX va))) = true → mapped s d fl va v (put_pte s d va v) fl.
Proof.
  intros Hinv Hva Hv Hp. destruct (sp_tab s d fl va Hinv Hp) as (Ht & Htf & Htd).
  split; [by apply sp_inv|by left|intros a Haw; by apply (sp_pte s d fl)|done| |].
  - intros q (i & Hi & Hq). rewrite (sp_dir s d fl) in Hq by done. left. by exists i.
  - intros q Hq _ _ Hnt. apply (store_page s.(kend)); [done|done| |apply PTX_range].
    intros E. apply Hnt. exists (PDX va). split; [apply PDX_range|done].
Qed.

(** The page table page for [va] is allocated first. *)
Lemma mapped_new s d t fl va v : vm_inv s d (t :: fl) → word va → word v →
  present (load32 s.(mem) (slot d (PDX va))) = false →
  let s1 := new_table s d va t in
  let s2 := set_mem (store32 s1.(mem) (slot t (PTX va)) v) s1 in
  load32 s1.(mem) (slot t (PTX va)) = 0 ∧ mapped s d (t :: fl) va v s2 fl.
Proof.
  intros Hinv Hva Hv Hp s1 s2. pose proof (nt_page s d t fl Hinv) as Ht.
  pose proof (nt_ne s d t fl Hinv) as Hdt. destruct (nt_entry s d t fl Hinv) as [Hpe Hfr].
  pose proof (nt_inv s d t fl va Hinv Hp) as Hinv1.
  assert (t ∉ fl) as Htf by (destruct (vi_kmem _ _ _ Hinv) as [_ _ Hn]; by apply NoDup_cons in Hn as [? _]).
  assert (load32 (mem s1) (slot d (PDX va)) = Z.lor (V2P t) 7) as Hd1.
  { unfold s1. rewrite (nt_dir s d t fl va Hinv) by apply PDX_range. by rewrite decide_True. }
  assert (present (load32 (mem s1) (slot d (PDX va))) = true) as Hp1 by by rewrite Hd1.
  assert (s2 = put_pte s1 d va v) as -> by (unfold s2, put_pte; by rewrite Hd1, Hfr).
  split.
  { unfold s1. rewrite (nt_load s d t fl va Hinv) by (apply Ht || apply PTX_range).
    rewrite decide_False by (intros [? _]; done). by rewrite decide_True. }
  destruct (mapped_existing s1 d fl va v Hinv1 Hva Hv Hp1) as [I _ P O T S].
  split; [done|right; by exists t| |by destruct s| |].
  - intros a Haw. rewrite P by done. case_decide; [done|]. by apply (nt_pte s d t fl).
  - intros q [(i & Hi & Hq)|[? ?]]%T; [|right; set_solver]. unfold s1 in Hq.
    rewrite (nt_dir s d t fl va Hinv) in Hq by done. case_decide; [|left; by exists i].
    right. destruct Hq as [_ <-]. rewrite Hfr. split; [by left|done].
  - intros q Hq Hqf Hqd Hnt. assert (t ≠ q) as Htq by (intros ->; set_solver).
    apply (same_page_trans _ (mem s1)).
    + unfold s1, new_table. cbn [mem set_mem]. apply (same_page_trans _ (memset (mem s) t 0 PGSIZE)).
      * intros k Hk. rewrite (memset_page s.(kend)) by done. by rewrite decide_False.
      * apply (store_page s.(kend)); [apply Hinv|done|done|apply PDX_range].
    + unfold put_pte. cbn [mem set_mem]. rewrite Hd1, Hfr.
      by apply (store_page s.(kend)); [done|done|done|apply PTX_range].
Qed.

Lemma mappages_one s d fl va pa pm : vm_inv s d fl → word va → va mod 4096 = 0 →
  word (Z.lor (Z.lor pa pm) PTE_P) → present (pte s.(mem) d va) = false →
  (fl = [] ∧ mappages d va PGSIZE pa pm s = Ret (-1) s) ∨
  ∃ s' fl', mappages d va PGSIZE pa pm s = Ret 0 s'
    ∧ mapped s d fl va (Z.lor (Z.lor pa pm) PTE_P) s' fl'.
Proof.
  intros Hinv Hva Ha Hv Hno. unfold mappages.
  replace (va + PGSIZE - 1) with (va + 4095) by (unfold PGSIZE; lia).
  rewrite (PGROUNDDOWN_in va 4095) by (done || lia).
  pose proof (PGROUNDDOWN_in va 0 Hva Ha ltac:(lia)) as E0. rewrite Z.add_0_r in E0. rewrite E0.
  rewrite Z.sub_diag. change (u32 0 / PGSIZE) with 0. cbn [Z.to_nat mappages_loop]. unfold pte, present in Hno.
  set (v := Z.lor (Z.lor pa pm) PTE_P) in *.
  destruct (present (load32 (mem s) (slot d (PDX va)))) eqn:Hp; unfold present in Hp.
  - right. rewrite Hp in Hno. kcall (walk_present s d fl Hinv va true Hp).
    destruct (sp_tab s d fl va Hinv Hp) as (Ht & _).
    rewrite (slot_nz s.(kend)) by (done || apply PTX_range). unfold ld. rewrite bind_get, Hno.
    unfold st, modmem. rewrite bind_modify, Z.eqb_refl.
    exists (put_pte s d va v), fl. split; [done|]. by apply mapped_existing.
  - pose proof (walk_alloc s d fl Hinv va Hp) as Hw. destruct fl as [|t fl'].
    { left. split; [done|]. by kcall Hw. }
    right. kcall Hw. destruct (mapped_new s d t fl' va v Hinv Hva Hv Hp) as [H0 Hm].
    rewrite (slot_nz s.(kend)) by (apply (nt_page s d t fl' Hinv) || apply PTX_range).
    unfold ld. rewrite bind_get, H0. change (truthy (Z.land 0 PTE_P)) with false. cbv iota.
    unfold st, modmem. rewrite bind_modify, Z.eqb_refl. by eexists _, fl'.
Qed.

(** ** User memory *)

(** [p] is a page nobody uses: not free, not part of the page table, not
    mapped below the kernel. *)
Record fresh (s : kstate) (d : Z) (fl : list Z) (p : Z) : Prop := {
  fr_page : page_ok s.(kend) p;
  fr_free : p ∉ fl;
  fr_dir : p ≠ d;
  fr_table : ¬ is_table s.(mem) d p;
  fr_user : ∀ a, 0 <= a < KERNBASE → present (pte s.(mem) d a) = true → frame (pte s.(mem) d a) ≠ p
}.

(** The user part of a page table maps distinct pages in use. *)
Record uvm_inv (s : kstate) (d : Z) (fl : list Z) : Prop := {
  uv_vm : vm_inv s d fl;
  uv_kend : KERNBASE < s.(kend);
  uv_page : ∀ a, 0 <= a < KERNBASE → let e := pte s.(mem) d a in present e = true →
    page_ok s.(kend) (frame e) ∧ frame e ∉ fl ∧ frame e ≠ d ∧ ¬ is_table s.(mem) d (frame e);
  uv_inj : ∀ a b, 0 <= a < KERNBASE → 0 <= b < KERNBASE →
    present (pte s.(mem) d a) = true → present (pte s.(mem) d b) = true →
    frame (pte s.(mem) d a) = frame (pte s.(mem) d b) → a / 4096 = b / 4096
}.

Lemma kern_word a : 0 <= a < KERNBASE → word a.
Proof. unfold KERNBASE, word, two32. lia. Qed.
#[local] Hint Resolve kern_word : core.

(** Mapping a fresh page keeps the invariant. *)
Lemma mapped_uvm s d fl va p f s' fl' : uvm_inv s d fl → fresh s d fl p →
  0 <= f < 4096 → f mod 2 = 1 → mapped s d fl va (Z.lor (V2P p) f) s' fl' → uvm_inv s' d fl'.
Proof.
  intros [Hvm Hkb Hpg Hinj] [Hp1 Hp2 Hp3 Hp4 Hp5] Hf Hodd [Hinv Hfree Hpte Honly Htab Hsame].
  destruct (entry_page _ p f Hp1 Hf Hodd) as [Hpres Hfr].
  assert (∀ q, q ∈ fl' → q ∈ fl) as Hsub by (destruct Hfree as [->|[t ->]]; set_solver).
  assert (kend s' = kend s) as Hke by (rewrite Honly; done).
  split; [done|by rewrite Hke| |].
  - intros a Ha. cbv zeta. rewrite Hpte, Hke by auto. case_decide.
    + intros _. rewrite Hfr. split; [done|]. split; [naive_solver|]. split; [done|].
      intros [?|[? _]]%Htab; naive_solver.
    + intros Hpr. destruct (Hpg a Ha Hpr) as (H1 & H2 & H3 & H4). split; [done|].
      split; [naive_solver|]. split; [done|]. intros [?|[? _]]%Htab; naive_solver.
  - intros a b Ha Hb. rewrite !Hpte by auto. repeat case_decide; subst; try congruence.
    + intros _ Hpr E. rewrite Hfr in E. by destruct (Hp5 b Hb Hpr).
    + intros Hpr _ E. rewrite Hfr in E. by destruct (Hp5 a Ha Hpr).
    + by apply Hinj.
Qed.

(** Other fresh pages stay fresh. *)
Lemma mapped_fresh s d fl va p f s' fl' q : fresh s d fl p → fresh s d fl q → p ≠ q →
  0 <= f < 4096 → f mod 2 = 1 → mapped s d fl va (Z.lor (V2P p) f) s' fl' → fresh s' d fl' q.
Proof.
  intros Hp [Hq1 Hq2 Hq3 Hq4 Hq5] Hne Hf Hodd [Hinv Hfree Hpte Honly Htab Hsame].
  destruct (entry_page _ p f (fr_page _ _ _ _ Hp) Hf Hodd) as [Hpres Hfr].
  assert (kend s' = kend s) as Hke by (rewrite Honly; done).
  split; [by rewrite Hke| |done| |].
  - destruct Hfree as [->|[t ->]]; set_solver.
  - intros [?|[? _]]%Htab; done.
  - intros a Ha. rewrite Hpte by auto. case_decide; [|by apply Hq5]. intros _. congruence.
Qed.

(** *** Freeing one page *)

(** The bytes of other pages survive [kfree]. *)
Lemma kfree_page s q r : page_ok s.(kend) q → page_ok s.(kend) r → q ≠ r →
  same_page s.(mem) (kfree_mem s q) r.
Proof.
  intros Hq Hr Hne. unfold kfree_mem. apply (same_page_trans _ (memset (mem s) q 1 PGSIZE)).
  - intros k Hk. rewrite (memset_page s.(kend)) by done. by rewrite decide_False.
  - pose proof (store_page s.(kend) (memset (mem s) q 1 PGSIZE) q r 0 (freelist s) Hq Hr Hne ltac:(lia)) as H.
    unfold slot in H. by rewrite Z.add_0_r in H.
Qed.

Lemma same_page_load e m m' q j : page_ok e q → same_page m m' q → 0 <= j < 1024 →
  load32 m' (slot q j) = load32 m (slot q j).
Proof.
  intros (k & -> & Hk)%page_mult Hs Hj. apply load32_ext. intros i Hi. unfold slot.
  rewrite u32_id by (unfold word, two32; lia). rewrite <- Z.add_assoc. apply Hs. unfold PGSIZE. lia.
Qed.

(** A change of memory that keeps the page directory and the page tables keeps
    all entries. *)
Lemma pte_frame s d fl m' : vm_inv s d fl →
  (∀ r, page_ok s.(kend) r → r = d ∨ is_table s.(mem) d r → same_page s.(mem) m' r) →
  (∀ i, 0 <= i < 1024 → load32 m' (slot d i) = load32 s.(mem) (slot d i)) ∧
  (∀ a, pte m' d a = pte s.(mem) d a).
Proof.
  intros Hinv Hs. assert (∀ i, 0 <= i < 1024 → load32 m' (slot d i) = load32 s.(mem) (slot d i)) as Hd.
  { intros i Hi. apply (same_page_load s.(kend)); [apply Hinv| |done]. apply Hs; [apply Hinv|by left]. }
  split; [done|]. intros a. unfold pte. rewrite Hd by apply PDX_range.
  destruct (present (load32 (mem s) (slot d (PDX a)))) eqn:Hp; [|done].
  destruct (vi_tab _ _ _ Hinv _ (PDX_range a) Hp) as (Ht & _).
  apply (same_page_load s.(kend)); [done| |apply PTX_range]. apply Hs; [done|].
  right. exists (PDX a). split; [apply PDX_range|done].
Qed.

(** Freeing a page that is neither the directory nor a table. *)
Lemma vm_kfree s d fl q : vm_inv s d fl → page_ok s.(kend) q → q ∉ fl → q ≠ d → ¬ is_table s.(mem) d q →
  let s' := set_freelist q (set_mem (kfree_mem s q) s) in
  kfree q s = Ret () s' ∧ vm_inv s' d (q :: fl) ∧ (∀ a, pte s'.(mem) d a = pte s.(mem) d a) ∧
  (∀ r, is_table s'.(mem) d r ↔ is_table s.(mem) d r).
Proof.
  intros Hinv Hq Hqf Hqd Hqt s'.
  destruct (pte_frame s d fl (kfree_mem s q) Hinv) as [Hd Hpte].
  { intros r Hr Hdt. apply kfree_page; [done|done|]. intros ->. naive_solver. }
  assert (∀ r, is_table s'.(mem) d r ↔ is_table s.(mem) d r) as Htab.
  { intros r. split; intros (i & Hi & H); exists i; simpl in *; rewrite Hd in * by done; done. }
  split; [apply kfree_run; [done|apply Hinv]|]. split; [|done].
  split; [apply Hinv|apply kfree_inv; [apply Hinv|done|done]|apply Hinv| | |].
  - pose proof (vi_used _ _ _ Hinv). set_solver.
  - intros i Hi. simpl. rewrite Hd by done. intros Hp.
    destruct (vi_tab _ _ _ Hinv i Hi Hp) as (H1 & H2 & H3). split; [done|]. split; [|done].
    intros [E|?]%elem_of_cons; [|done]. apply Hqt. exists i. by rewrite <- E.
  - intros i j Hi Hj. simpl. rewrite !Hd by done. by apply (vi_inj _ _ _ Hinv).
Qed.

(** *** Freeing a set of user pages *)

(** From [s] to [s'] the user pages at the addresses [P] have been freed. *)
Record unmapped (s : kstate) (d : Z) (fl : list Z) (P : Z → Prop) (s' : kstate) (fl' : list Z) : Prop := {
  um_inv : uvm_inv s' d fl';
  um_only : mem_only s s';
  um_gone : ∀ a, word a → P a → present (pte s'.(mem) d a) = false;
  um_kept : ∀ a, word a → ¬ P a → pte s'.(mem) d a = pte s.(mem) d a;
  um_table : ∀ q, is_table s'.(mem) d q ↔ is_table s.(mem) d q;
  um_free : ∀ q, q ∈ fl' ↔ q ∈ fl ∨ ∃ a, word a ∧ P a ∧ present (pte s.(mem) d a) = true ∧ frame (pte s.(mem) d a) = q;
  um_page : ∀ q, page_ok s.(kend) q → q ∉ fl' → q ≠ d → ¬ is_table s.(mem) d q → same_page s.(mem) s'.(mem) q
}.

Lemma mem_only_refl s : mem_only s s.
Proof. unfold mem_only. by destruct s. Qed.

Lemma mem_only_trans s1 s2 s3 : mem_only s1 s2 → mem_only s2 s3 → mem_only s1 s3.
Proof. unfold mem_only. intros -> ->. done. Qed.

Lemma mem_only_kend s s' : mem_only s s' → s'.(kend) = s.(kend).
Proof. intros ->. done. Qed.

Lemma unmapped_none s d fl (P : Z → Prop) : uvm_inv s d fl →
  (∀ a, word a → P a → present (pte s.(mem) d a) = false) → unmapped s d fl P s fl.
Proof.
  intros Hinv HP. split; try done; [apply mem_only_refl|].
  intros q. split; [by left|]. intros [?|(a & Hw & Ha & Hp & _)]; [done|]. by rewrite HP in Hp.
Qed.

Lemma unmapped_trans s d fl (P1 P2 : Z → Prop) (P : Z → Prop) s1 fl1 s2 fl2 :
  (∀ a, P a ↔ P1 a ∨ P2 a) → (∀ a, P1 a → ¬ P2 a) → (∀ a, P1 a ∨ ¬ P1 a) →
  unmapped s d fl P1 s1 fl1 → unmapped s1 d fl1 P2 s2 fl2 → unmapped s d fl P s2 fl2.
Proof.
  intros HP Hdis Hdec [I1 O1 G1 K1 T1 F1 S1] [I2 O2 G2 K2 T2 F2 S2].
  split; [done|by eapply mem_only_trans| | |intros q; by rewrite T2, T1| |].
  - intros a Hw [Ha|Ha]%HP; [|by apply G2]. rewrite K2 by auto. by apply G1.
  - intros a Hw Hn. rewrite K2, K1; naive_solver.
  - intros q. rewrite F2, F1. split.
    + intros [[?|(a & Hw & Ha & H)]|(a & Hw & Ha & Hp & Hfr)]; [by left|right|right].
      * exists a. split; [done|]. split; [apply HP; by left|done].
      * exists a. assert (¬ P1 a) as Hn by naive_solver. rewrite K1 in Hp, Hfr by done.
        split; [done|]. split; [apply HP; by right|done].
    + intros [?|(a & Hw & [Ha|Ha]%HP & Hp & Hfr)]; [by left; left|left; right; by exists a|].
      destruct (Hdec a) as [H1|H1]; [left; right; by exists a|].
      right. exists a. by rewrite K1.
  - intros q Hq Hf Hd Ht. apply (same_page_trans _ s1.(mem)).
    + apply S1; [done| |done|done]. rewrite F2 in Hf. naive_solver.
    + apply S2; [by rewrite (mem_only_kend _ _ O1)|done|done|by rewrite T1].
Qed.

Lemma unmapped_ext s d fl (P Q : Z → Prop) s' fl' : (∀ a, word a → P a ↔ Q a) →
  unmapped s d fl P s' fl' → unmapped s d fl Q s' fl'.
Proof.
  intros H [I O G K T F S]. split; try done.
  - intros a Hw Ha. apply G; [done|by apply H].
  - intros a Hw Ha. apply K; [done|by rewrite H].
  - intros q. rewrite F. split; (intros [?|(a & Hw & Ha & ?)]; [by left|right; exists a]);
      (split; [done|]; split; [by apply H|done]).
Qed.

(** Freeing the page at [va] and clearing its entry. *)
Lemma unmap_one s d fl va : uvm_inv s d fl → 0 <= va < KERNBASE → present (pte s.(mem) d va) = true →
  let t := frame (load32 s.(mem) (slot d (PDX va))) in
  let q := frame (pte s.(mem) d va) in
  present (load32 s.(mem) (slot d (PDX va))) = true ∧
  ∃ s', (kfree q;; st (slot t (PTX va)) 0) s = Ret () s' ∧
    unmapped s d fl (fun a => a / 4096 = va / 4096) s' (q :: fl).
Proof.
  intros [Hvm Hkb Hpg Hinj] Hva Hp t q.
  assert (present (load32 s.(mem) (slot d (PDX va))) = true) as Hp1.
  { unfold pte in Hp. by destruct (present (load32 (mem s) (slot d (PDX va)))). }
  split; [done|]. destruct (Hpg va Hva Hp) as (Hq1 & Hq2 & Hq3 & Hq4). fold q in Hq1, Hq2, Hq3, Hq4.
  destruct (vm_kfree s d fl q Hvm Hq1 Hq2 Hq3 Hq4) as (Ek & Hvm1 & Hpte1 & Htab1).
  set (s1 := set_freelist q _) in *.
  destruct (pte_frame s d fl (kfree_mem s q) Hvm) as [Hd1 _].
  { intros r Hr Hdt. apply kfree_page; [done|done|]. intros <-. naive_solver. }
  change (kfree_mem s q) with (mem s1) in Hd1.
  assert (present (load32 (mem s1) (slot d (PDX va))) = true) as Hp1' by (by rewrite Hd1 by apply PDX_range).
  assert (word 0) as Hw0 by (unfold word, two32; lia).
  pose proof (sp_inv s1 d (q :: fl) va 0 Hvm1 Hw0 Hp1') as Hvm2.
  pose proof (sp_pte s1 d (q :: fl) va 0 Hvm1 Hw0 Hp1') as Hpte2.
  pose proof (sp_dir s1 d (q :: fl) va 0 Hvm1 Hw0 Hp1') as Hd2.
  set (s2 := put_pte s1 d va 0) in *. exists s2.
  assert (∀ r, is_table s2.(mem) d r ↔ is_table s.(mem) d r) as Htab.
  { intros r. split; intros (i & Hi & H); exists i; rewrite Hd2, Hd1 in * by done; done. }
  assert (∀ a, word a → pte s2.(mem) d a = if decide (a / 4096 = va / 4096) then 0 else pte s.(mem) d a) as Hpte.
  { intros a Ha. rewrite Hpte2 by auto. case_decide; [done|]. apply Hpte1. }
  split; [|split].
  - kcall Ek. unfold s2, put_pte. by rewrite Hd1 by apply PDX_range.
  - split; [done|done| |].
    + intros a Ha. cbv zeta. rewrite Hpte by auto. case_decide as E; [done|]. intros Hpa.
      destruct (Hpg a Ha Hpa) as (H1 & H2 & H3 & H4). split; [done|]. split; [|split; [done|by rewrite Htab]].
      intros [Eq|?]%elem_of_cons; [|done]. apply E. by apply Hinj.
    + intros a b Ha Hb. rewrite !Hpte by auto. repeat case_decide; try done. by apply Hinj.
  - unfold mem_only, s2, put_pte, s1. by destruct s.
  - intros a Ha E. by rewrite Hpte, decide_True.
  - intros a Ha E. by rewrite Hpte, decide_False.
  - done.
  - intros r. rewrite elem_of_cons. split.
    + intros [->|?]; [right; exists va; auto|by left].
    + intros [?|(a & Hw & Ea & _ & <-)]; [by right|left]. unfold q. f_equal.
      unfold pte. by destruct (index_page a va Hw (kern_word va Hva) Ea) as [-> ->].
  - intros r Hr Hrf Hrd Hrt. apply (same_page_trans _ s1.(mem)).
    + apply kfree_page; [done|done|]. intros ->. apply Hrf. by left.
    + unfold s2, put_pte. cbn [mem set_mem]. rewrite Hd1 by apply PDX_range. fold t.
      destruct (sp_tab s d fl va Hvm Hp1) as (Ht & _). fold t in Ht.
      apply (store_page s.(kend)); [done|done| |apply PTX_range]. intros E. apply Hrt.
      exists (PDX va). split; [apply PDX_range|done].
Qed.

(** *** [deallocuvm] *)

(** The pages between the addresses [lo] and [hi]. *)
Definition in_pages (lo hi : Z) (a : Z) : Prop := lo <= a / 4096 * 4096 < hi.

Lemma next_table a : 0 <= a < KERNBASE →
  u32 (u32 (PGADDR (PDX a + 1) 0 0 - PGSIZE) + PGSIZE) = (a / 4194304 + 1) * 4194304.
Proof.
  intros Ha. rewrite u32_add_l. unfold PGADDR. rewrite PDX_div by auto. rewrite Z.shiftl_0_l, !Z.lor_0_r.
  rewrite Z.shiftl_mul_pow2 by lia. change (2 ^ 22) with 4194304. unfold KERNBASE in Ha.
  pose proof (Z.div_mod a 4194304 ltac:(lia)). pose proof (Z.mod_pos_bound a 4194304 ltac:(lia)).
  rewrite (u32_id ((a / 4194304 + 1) * 4194304)) by (unfold word, two32; lia).
  replace ((a / 4194304 + 1) * 4194304 - PGSIZE + PGSIZE) with ((a / 4194304 + 1) * 4194304) by lia.
  apply u32_id. unfold word, two32. lia.
Qed.

(** A missing page table page: nothing is mapped up to the next one. *)
Lemma skip_table s d fl a hi : uvm_inv s d fl → 0 <= a < KERNBASE → a mod 4096 = 0 →
  present (load32 s.(mem) (slot d (PDX a))) = false →
  let b := (a / 4194304 + 1) * 4194304 in
  b mod 4096 = 0 ∧ a + 4096 <= b ∧ unmapped s d fl (in_pages a (Z.min b hi)) s fl.
Proof.
  intros Hinv Ha Hal Hpd b. pose proof (Z.div_mod a 4194304 ltac:(lia)).
  pose proof (Z.mod_pos_bound a 4194304 ltac:(lia)). pose proof (Z.div_mod a 4096 ltac:(lia)).
  split; [|split; [unfold b; lia|]].
  - unfold b. replace ((a / 4194304 + 1) * 4194304) with ((a / 4194304 + 1) * 1024 * 4096) by lia.
    apply Z_mod_mult.
  - apply unmapped_none; [done|]. intros x Hx Hin. unfold in_pages in Hin. unfold pte.
    assert (PDX x = PDX a) as ->; [|by rewrite Hpd]. rewrite !PDX_div by auto.
    pose proof (Z.div_mod x 4096 ltac:(lia)). pose proof (Z.mod_pos_bound x 4096 ltac:(lia)).
    symmetry. apply (Z.div_unique x 4194304 _ (x - a / 4194304 * 4194304)); unfold b in *; lia.
Qed.

(** The entry for [a] is cleared and its page freed if it is present. *)
Lemma dealloc_page s d fl a : uvm_inv s d fl → 0 <= a < KERNBASE → a mod 4096 = 0 →
  present (load32 s.(mem) (slot d (PDX a))) = true →
  let t := frame (load32 s.(mem) (slot d (PDX a))) in
  let e := pte s.(mem) d a in
  ∃ s1 fl1, (if truthy (Z.land e PTE_P) then
       if PTE_ADDR e =? 0 then panic "kfree" else kfree (P2V (PTE_ADDR e));; st (slot t (PTX a)) 0
     else ret ()) s = Ret () s1 ∧ unmapped s d fl (in_pages a (a + 1)) s1 fl1.
Proof.
  intros Hinv Ha Hal Hpd t e. assert (∀ x, word x → in_pages a (a + 1) x ↔ x / 4096 = a / 4096) as Hone.
  { intros x Hx. unfold in_pages. pose proof (Z.div_mod a 4096 ltac:(lia)). lia. }
  destruct (present e) eqn:Hpa; unfold present in Hpa; rewrite Hpa.
  - destruct (unmap_one s d fl a Hinv Ha Hpa) as (_ & s1 & E1 & Hu1).
    destruct (uv_page _ _ _ Hinv a Ha Hpa) as (Hq & _). pose proof (uv_kend _ _ _ Hinv) as Hkb.
    destruct (Z.eqb_spec (PTE_ADDR e) 0) as [E|_].
    { exfalso. fold e in Hq. unfold frame in Hq. rewrite E in Hq. destruct Hq as (_ & _ & Hq & _).
      change (P2V 0) with KERNBASE in Hq. lia. }
    exists s1, (frame e :: fl). split; [exact E1|].
    eapply unmapped_ext; [|exact Hu1]. intros x Hx. by rewrite Hone.
  - exists s, fl. split; [done|]. apply unmapped_none; [done|]. intros x Hx Hin%Hone; [|done].
    unfold pte. destruct (index_page x a Hx (kern_word a Ha) Hin) as [-> ->]. exact Hpa.
Qed.

Lemma deallocuvm_loop_run d hi : hi <= KERNBASE → ∀ fuel a s fl, uvm_inv s d fl →
  0 <= a → a mod 4096 = 0 → hi - a < 4096 * (Z.of_nat fuel - 1) →  (0 < fuel)%nat →
  ∃ s' fl', deallocuvm_loop fuel d a hi s = Ret () s' ∧ unmapped s d fl (in_pages a hi) s' fl'.
Proof.
  intros Hhi. induction fuel as [|fuel IH]; intros a s fl Hinv Ha Hal Hf H0; [lia|]. cbn [deallocuvm_loop].
  destruct (Z.ltb_spec a hi) as [Hlt|Hge]; cbn [negb].
  2: { exists s, fl. split; [done|]. apply unmapped_none; [done|]. intros x _ Hx. unfold in_pages in Hx. lia. }
  assert (0 <= a < KERNBASE) as Hak by lia. pose proof (uv_vm _ _ _ Hinv) as Hvm.
  destruct (present (load32 (mem s) (slot d (PDX a)))) eqn:Hpd.
  2: { kcall (walk_absent s d fl Hvm a Hpd). change (0 =? 0) with true. cbv iota. rewrite next_table by done.
       destruct (skip_table s d fl a hi Hinv Hak Hal Hpd) as (Hb1 & Hb2 & Hskip).
       destruct (IH ((a / 4194304 + 1) * 4194304) s fl Hinv) as (s' & fl' & E & Hu); [lia|done|lia|lia|].
       exists s', fl'. split; [done|].
       eapply (unmapped_trans s d fl _ (in_pages ((a / 4194304 + 1) * 4194304) hi)); [| | |exact Hskip|exact Hu];
         intros x; unfold in_pages; lia. }
  kcall (walk_present s d fl Hvm a false Hpd).
  destruct (sp_tab s d fl a Hvm Hpd) as (Ht & _). set (t := frame _) in *.
  rewrite (slot_nz s.(kend)) by (done || apply PTX_range). unfold ld. rewrite bind_get.
  assert (load32 (mem s) (slot t (PTX a)) = pte (mem s) d a) as -> by (unfold pte; by rewrite Hpd).
  assert (u32 (a + PGSIZE) = a + 4096) as -> by (apply u32_id; unfold word, PGSIZE, KERNBASE, two32 in *; lia).
  destruct (dealloc_page s d fl a Hinv Hak Hal Hpd) as (s1 & fl1 & E1 & Hu1).
  kcall E1. destruct (IH (a + 4096) s1 fl1 (um_inv _ _ _ _ _ _ Hu1)) as (s' & fl' & E & Hu); [lia| |lia|lia|].
  { by rewrite Z.add_mod, Hal by lia. }
  exists s', fl'. split; [exact E|]. pose proof (Z.div_mod a 4096 ltac:(lia)).
  eapply (unmapped_trans s d fl (in_pages a (a + 1)) (in_pages (a + 4096) hi)); [| | |exact Hu1|exact Hu];
    intros x; unfold in_pages; lia.
Qed.

Lemma deallocuvm_run s d fl oldsz newsz : uvm_inv s d fl → 0 <= newsz < oldsz → oldsz <= KERNBASE →
  ∃ s' fl', vm_deallocuvm d oldsz newsz s = Ret newsz s'
    ∧ unmapped s d fl (in_pages (PGROUNDUP newsz) oldsz) s' fl'.
Proof.
  intros Hinv Hn Ho. unfold vm_deallocuvm. destruct (Z.leb_spec oldsz newsz); [lia|].
  destruct (PGROUNDUP_aligned newsz) as [Ha Hb];
    [unfold word, KERNBASE, two32 in *; lia|unfold KERNBASE, PGSIZE, two32 in *; lia|].
  destruct (deallocuvm_loop_run d oldsz Ho (deallocuvm_fuel oldsz) (PGROUNDUP newsz) s fl Hinv)
    as (s' & fl' & E & Hu); [lia|done| |unfold deallocuvm_fuel; assert (0 <= oldsz / PGSIZE) by (apply Z.div_pos; unfold PGSIZE; lia); lia|].
  - unfold deallocuvm_fuel. pose proof (Z.div_mod oldsz PGSIZE ltac:(done)) as Hd.
    pose proof (Z.mod_pos_bound oldsz PGSIZE ltac:(done)). unfold PGSIZE in *. lia.
  - exists s', fl'. split; [|done]. by kcall E.
Qed.

(** *** Taking a page from the free list *)

Definition zero_page (m : memory) (p : Z) : Prop := ∀ k, 0 <= k < PGSIZE → m (p + k) = 0.

(** The state after [kalloc] has returned [p] and the page has been cleared. *)
Definition cleared (s : kstate) (p : Z) : kstate :=
  set_mem (memset s.(mem) p 0 PGSIZE) (set_freelist (load32 s.(mem) p) s).

Lemma cleared_page s p q : page_ok s.(kend) p → page_ok s.(kend) q → p ≠ q →
  same_page s.(mem) (cleared s p).(mem) q.
Proof.
  intros Hp Hq Hne k Hk. unfold cleared. cbn [mem set_mem].
  rewrite (memset_page s.(kend)) by done. by rewrite decide_False.
Qed.

Lemma cleared_zero s p : page_ok s.(kend) p → zero_page (cleared s p).(mem) p.
Proof.
  intros Hp k Hk. unfold cleared. cbn [mem set_mem]. rewrite (memset_page s.(kend)) by done.
  by rewrite decide_True.
Qed.

Section take_page.
Context (s : kstate) (d p : Z) (fl : list Z) (Hinv : uvm_inv s d (p :: fl)).

Lemma tp_ok : page_ok s.(kend) p ∧ p ∉ fl ∧ p ≠ d ∧ ¬ is_table s.(mem) d p.
Proof.
  destruct Hinv as [Hvm _ _ _]. pose proof (vi_kmem _ _ _ Hvm) as Hk. split; [|split; [|split]].
  - apply (free_page s (p :: fl)); [done|by left].
  - destruct Hk as [_ _ Hn]. by apply NoDup_cons in Hn as [? _].
  - pose proof (vi_used _ _ _ Hvm). set_solver.
  - intros (i & Hi & Hp & E). destruct (vi_tab _ _ _ Hvm i Hi Hp) as (_ & H & _). rewrite E in H. set_solver.
Qed.

Lemma tp_frame : (∀ i, 0 <= i < 1024 → load32 (cleared s p).(mem) (slot d i) = load32 s.(mem) (slot d i))
  ∧ (∀ a, pte (cleared s p).(mem) d a = pte s.(mem) d a).
Proof.
  destruct tp_ok as (Hp & _ & Hd & Ht). apply (pte_frame s d (p :: fl)); [apply Hinv|].
  intros r Hr Hdt. apply cleared_page; [done|done|]. intros <-. naive_solver.
Qed.

Lemma tp_table q : is_table (cleared s p).(mem) d q ↔ is_table s.(mem) d q.
Proof.
  destruct tp_frame as [Hd _]. split; intros (i & Hi & H); exists i; rewrite Hd in * by done; done.
Qed.

Lemma tp_inv : uvm_inv (cleared s p) d fl ∧ fresh (cleared s p) d fl p.
Proof.
  destruct tp_ok as (Hp & Hpf & Hpd & Hpt). destruct tp_frame as [Hd Hpte].
  pose proof tp_table as Htab. destruct Hinv as [[Hl Hk Hdir Hused Htb Hij] Hkb Hpg Hinj].
  assert (∀ q, q ∉ p :: fl → q ∉ fl) as Hsub by set_solver. split; [split|].
  - split; [done| |done|by apply Hsub| |].
    + apply (kmem_memset _ _ p (kalloc_inv _ _ _ Hk)); done.
    + intros i Hi. cbv zeta. rewrite Hd by done. intros H. destruct (Htb i Hi H) as (? & ? & ?).
      split; [done|]. split; [by apply Hsub|done].
    + intros i j Hi Hj. rewrite !Hd by done. by apply Hij.
  - done.
  - intros a Ha. cbv zeta. rewrite Hpte, Htab. intros H. destruct (Hpg a Ha H) as (? & ? & ? & ?).
    split; [done|]. split; [by apply Hsub|done].
  - intros a b Ha Hb. rewrite !Hpte. by apply Hinj.
  - split; [done|done|done|by rewrite Htab|]. intros a Ha. rewrite Hpte. intros H E.
    destruct (Hpg a Ha H) as (_ & Hn & _). rewrite E in Hn. set_solver.
Qed.
End take_page.

(** Giving an unused page back. *)
Lemma kfree_fresh s d fl p : uvm_inv s d fl → fresh s d fl p →
  ∃ s', kfree p s = Ret () s' ∧ uvm_inv s' d (p :: fl) ∧ mem_only s s'
    ∧ ∀ a, pte s'.(mem) d a = pte s.(mem) d a.
Proof.
  intros [Hvm Hkb Hpg Hinj] [Hp1 Hp2 Hp3 Hp4 Hp5].
  destruct (vm_kfree s d fl p Hvm Hp1 Hp2 Hp3 Hp4) as (E & Hvm' & Hpte & Htab).
  set (s' := set_freelist p _) in *. exists s'. split; [done|]. split; [|split; [by destruct s|done]].
  split; [done|done| |].
  - intros a Ha. cbv zeta. rewrite Hpte, Htab. intros H. destruct (Hpg a Ha H) as (? & ? & ? & ?).
    split; [done|]. split; [|done]. intros [E'|?]%elem_of_cons; [|done]. by destruct (Hp5 a Ha H).
  - intros a b Ha Hb. rewrite !Hpte. by apply Hinj.
Qed.

(** An unused page stays unused while others are freed. *)
Lemma unmapped_fresh s d fl P s' fl' p : (∀ a, P a ∨ ¬ P a) → (∀ a, P a → 0 <= a < KERNBASE) →
  unmapped s d fl P s' fl' → fresh s d fl p → fresh s' d fl' p.
Proof.
  intros Hdec Hr [I O G K T F S] [Hp1 Hp2 Hp3 Hp4 Hp5].
  split; [by rewrite (mem_only_kend _ _ O)| |done|by rewrite T|].
  - rewrite F. intros [?|(a & Hw & Ha & Hp & E)]; [done|]. by apply (Hp5 a (Hr a Ha) Hp).
  - intros a Ha H. destruct (Hdec a) as [HP|HP].
    + rewrite G in H by auto. done.
    + rewrite K in H |- * by auto. by apply Hp5.
Qed.

(** *** [allocuvm] *)

(** From [s] to [s'] the pages of [in_pages lo hi] have been mapped to zeroed
    pages from the free list. *)
Record grown (s : kstate) (d : Z) (fl : list Z) (lo hi : Z) (s' : kstate) (fl' : list Z) : Prop := {
  gr_inv : uvm_inv s' d fl';
  gr_only : mem_only s s';
  gr_free : ∀ q, q ∈ fl' → q ∈ fl;
  gr_new : ∀ x, word x → in_pages lo hi x → ∃ p, p ∈ fl ∧ p ∉ fl' ∧
    pte s'.(mem) d x = Z.lor (V2P p) 7 ∧ zero_page s'.(mem) p;
  gr_old : ∀ x, word x → ¬ in_pages lo hi x → pte s'.(mem) d x = pte s.(mem) d x;
  gr_table : ∀ q, is_table s'.(mem) d q → is_table s.(mem) d q ∨ q ∈ fl ∧ q ∉ fl';
  gr_page : ∀ q, page_ok s.(kend) q → q ∉ fl → q ≠ d → ¬ is_table s.(mem) d q →
    same_page s.(mem) s'.(mem) q
}.

Lemma grown_none s d fl lo hi : uvm_inv s d fl → hi <= lo → grown s d fl lo hi s fl.
Proof.
  intros Hinv Hle. split; try done; [apply mem_only_refl| |by left].
  intros x _ Hx. unfold in_pages in Hx. lia.
Qed.

(** One more page. *)
Lemma grow_one s d p fl a s2 fl2 : uvm_inv s d (p :: fl) → 0 <= a < KERNBASE → a mod 4096 = 0 →
  mapped (cleared s p) d fl a (Z.lor (V2P p) 7) s2 fl2 →
  grown s d (p :: fl) a (a + 1) s2 fl2.
Proof.
  intros Hinv Ha Hal Hm. destruct (tp_ok s d p fl Hinv) as (Hp & Hpf & Hpd & Hpt).
  destruct (tp_inv s d p fl Hinv) as [Hinv1 Hfr]. destruct (tp_frame s d p fl Hinv) as [_ Hpte1].
  pose proof (tp_table s d p fl Hinv) as Htab1.
  pose proof (mapped_uvm _ _ _ _ _ 7 _ _ Hinv1 Hfr ltac:(lia) eq_refl Hm) as Hinv2.
  assert (∀ x, word x → in_pages a (a + 1) x ↔ x / 4096 = a / 4096) as Hone.
  { intros x Hx. unfold in_pages. pose proof (Z.div_mod a 4096 ltac:(lia)). lia. }
  destruct Hm as [Hvm Hfree Hpte Honly Htab Hpage].
  assert (∀ q, q ∈ fl2 → q ∈ fl) as Hsub by (destruct Hfree as [->|[t ->]]; set_solver).
  split; [done| | | | | |].
  - eapply mem_only_trans; [|exact Honly]. by destruct s.
  - intros q Hq%Hsub. by right.
  - intros x Hx Hin%Hone; [|done]. exists p. split; [by left|]. split; [naive_solver|].
    rewrite Hpte, decide_True by done. split; [done|]. intros k Hk.
    rewrite Hpage; [by apply cleared_zero|done|by left|done|by rewrite Htab1|done].
  - intros x Hx Hin. rewrite Hpte by done. rewrite Hone in Hin by done. rewrite decide_False by done. apply Hpte1.
  - intros q [?%Htab1|[? ?]]%Htab; [by left|right]. split; [by right|done].
  - intros q Hq Hqf Hqd Hqt. apply (same_page_trans _ (cleared s p).(mem)).
    + apply cleared_page; [done|done|]. intros ->. apply Hqf. by left.
    + apply Hpage; [done|left; set_solver|done|by rewrite Htab1].
Qed.

Lemma grown_trans s d fl lo mid hi s1 fl1 s2 fl2 : uvm_inv s d fl → lo mod 4096 = 0 → mid = lo + 4096 → lo < hi →
  hi <= KERNBASE → 0 <= lo → grown s d fl lo (lo + 1) s1 fl1 → grown s1 d fl1 mid hi s2 fl2 → grown s d fl lo hi s2 fl2.
Proof.
  intros Hinv Hal -> Hlt Hhi Hlo [I1 O1 F1 N1 K1 T1 P1] [I2 O2 F2 N2 K2 T2 P2].
  assert (∀ x, in_pages lo hi x ↔ in_pages lo (lo + 1) x ∨ in_pages (lo + 4096) hi x) as Hsplit
    by (intros x; unfold in_pages; pose proof (Z.div_mod lo 4096 ltac:(lia)); lia).
  split; [done|by eapply mem_only_trans|auto| | | |].
  - intros x Hx [Hin|Hin]%Hsplit.
    + destruct (N1 x Hx Hin) as (p & Hp1 & Hp2 & Ep & Hz). exists p. split; [done|].
      assert (pte (mem s2) d x = Z.lor (V2P p) 7) as Ep2
        by (rewrite K2; [done|done|unfold in_pages in *; lia]).
      assert (0 <= x < KERNBASE) as Hxk.
      { unfold in_pages, KERNBASE in *. pose proof (Z.div_mod x 4096 ltac:(lia)).
        pose proof (Z.mod_pos_bound x 4096 ltac:(lia)). lia. }
      assert (page_ok s1.(kend) p) as Hpp.
      { rewrite (mem_only_kend _ _ O1). by apply (free_page s fl); [apply Hinv|]. }
      destruct (entry_page _ p 7 Hpp) as [Hpr Hfr]; [lia|done|].
      destruct (uv_page _ _ _ I1 x Hxk) as (_ & Hnf & Hnd & Hnt); [by rewrite Ep|]. rewrite Ep, Hfr in Hnf, Hnd, Hnt.
      split; [naive_solver|]. split; [done|].
      intros k Hk. rewrite P2 by done. by apply Hz.
    + destruct (N2 x Hx Hin) as (p & Hp1 & Hp2 & Ep & Hz). exists p. auto.
  - intros x Hx Hin. rewrite Hsplit in Hin. rewrite K2, K1 by naive_solver. done.
  - intros q [Hq|[Hq1 Hq2]]%T2; [|right; auto]. apply T1 in Hq as [?|[? ?]]; [by left|right; auto].
  - intros q Hq Hqf Hqd Hqt. apply (same_page_trans _ s1.(mem)); [by apply P1|].
    apply P2; [by rewrite (mem_only_kend _ _ O1)|naive_solver|done|]. intros [?|[? _]]%T1; done.
Qed.

Lemma uvm_cons s d fl o : uvm_inv s d fl → uvm_inv (set_cons_out o s) d fl.
Proof. intros [[? [] ? ? ? ?] ? ? ?]. split; [split; [done|by split|done..]|done..]. Qed.

Lemma fresh_cons s d fl p o : fresh s d fl p → fresh (set_cons_out o s) d fl p.
Proof. intros []. by split. Qed.

(** [s'] is [s] with the user pages at or above [lo] below [hi] unmapped again. *)
Definition undone (s : kstate) (d lo hi : Z) (s' : kstate) (fl' : list Z) : Prop :=
  uvm_inv s' d fl' ∧
  (∀ x, word x → in_pages lo hi x → present (pte s'.(mem) d x) = false) ∧
  (∀ x, word x → ¬ in_pages lo hi x → pte s'.(mem) d x = pte s.(mem) d x) ∧
  ∃ o, mem_only (set_cons_out o s) s'.

Lemma in_pages_kern lo hi a : 0 <= lo → hi <= KERNBASE → in_pages lo hi a → 0 <= a < KERNBASE.
Proof.
  unfold in_pages, KERNBASE. intros Hlo Hhi Hin. pose proof (Z.div_mod a 4096 ltac:(lia)).
  pose proof (Z.mod_pos_bound a 4096 ltac:(lia)). lia.
Qed.

(** Both ways to run out of memory undo what was mapped. *)
Lemma allocuvm_undo s d fl oldsz newsz fmt : uvm_inv s d fl → CONS_LOCK ∉ s.(held) →
  0 <= oldsz <= newsz → newsz <= KERNBASE → oldsz ≠ newsz →
  ∃ s' fl', (∀ k : M bool, (cprintf fmt [];; vm_deallocuvm d newsz oldsz;; k) s = k s')
    ∧ undone s d (PGROUNDUP oldsz) newsz s' fl'
    ∧ (∀ p, fresh s d fl p → fresh s' d fl' p) ∧ s'.(held) = s.(held).
Proof.
  intros Hinv Hc Ho Hn Hne. set (o := cons_out s ++ cformat (chars fmt) []).
  destruct (deallocuvm_run (set_cons_out o s) d fl newsz oldsz (uvm_cons _ _ _ o Hinv)) as (s' & fl' & E & Hu);
    [lia|done|].
  exists s', fl'. split; [intros k; kcall (cprintf_ok fmt [] s Hc); by kcall E|].
  destruct (PGROUNDUP_aligned oldsz) as [_ Hb];
    [unfold word, KERNBASE, two32 in *; lia|unfold KERNBASE, PGSIZE, two32 in *; lia|].
  split; [|split].
  - destruct Hu as [I O G K T F S]. split; [done|]. split; [done|]. split; [done|]. by exists o.
  - intros p Hp. eapply unmapped_fresh; [| |exact Hu|by apply fresh_cons].
    + intros a. unfold in_pages. lia.
    + intros a. apply in_pages_kern; [lia|done].
  - by rewrite (um_only _ _ _ _ _ _ Hu).
Qed.

Lemma undone_grown s d fl lo a hi s1 fl1 s' fl' : lo <= a → a mod 4096 = 0 → a < hi →
  grown s d fl a (a + 1) s1 fl1 → undone s1 d lo hi s' fl' → undone s d lo hi s' fl'.
Proof.
  intros Hlo Hal Hhi [I O F N K T P] (I' & G' & K' & o & O'). split; [done|]. split; [done|]. split.
  - intros x Hx Hn. rewrite K', K; [done|done| |done|done].
    unfold in_pages in *. pose proof (Z.div_mod a 4096 ltac:(lia)). lia.
  - exists o. unfold mem_only in *. rewrite O in O'. rewrite O'. by destruct s, s'.
Qed.

(** One round with a free page: map it, or undo everything. *)
Lemma allocuvm_round s d p fl a : uvm_inv s d (p :: fl) → 0 <= a < KERNBASE → a mod 4096 = 0 →
  present (pte s.(mem) d a) = false →
  (fl = [] ∧ mappages d a PGSIZE (V2P p) (Z.lor PTE_W PTE_U) (cleared s p) = Ret (-1) (cleared s p)) ∨
  ∃ s1 fl1, mappages d a PGSIZE (V2P p) (Z.lor PTE_W PTE_U) (cleared s p) = Ret 0 s1 ∧
    grown s d (p :: fl) a (a + 1) s1 fl1.
Proof.
  intros Hinv Ha Hal Hno. destruct (tp_ok s d p fl Hinv) as (Hp & _).
  assert (Z.lor (Z.lor (V2P p) (Z.lor PTE_W PTE_U)) PTE_P = Z.lor (V2P p) 7) as Ev
    by (by rewrite <- Z.lor_assoc).
  destruct (mappages_one (cleared s p) d fl a (V2P p) (Z.lor PTE_W PTE_U))
    as [[-> E]|(s1 & fl1 & E & Hm)]; [apply (tp_inv s d p fl Hinv)|auto|done| | |by left|].
  - rewrite Ev. destruct (pte_page _ p 7 Hp) as (? & _); [lia|done|done].
  - by rewrite (proj2 (tp_frame s d p fl Hinv)).
  - right. rewrite Ev in Hm. exists s1, fl1. split; [done|]. by eapply grow_one.
Qed.

Lemma allocuvm_loop_run d oldsz newsz : 0 <= oldsz <= newsz → newsz < KERNBASE →
  ∀ fuel a s fl, uvm_inv s d fl → CONS_LOCK ∉ s.(held) → PGROUNDUP oldsz <= a → a mod 4096 = 0 →
  newsz - a < 4096 * (Z.of_nat fuel - 1) → (0 < fuel)%nat →
  (∀ x, word x → in_pages a newsz x → present (pte s.(mem) d x) = false) →
  ∃ b s' fl', allocuvm_loop fuel d a oldsz newsz s = Ret b s' ∧
    if (b : bool) then grown s d fl a newsz s' fl' else undone s d (PGROUNDUP oldsz) newsz s' fl'.
Proof.
  intros Ho Hk. destruct (PGROUNDUP_aligned oldsz) as [_ Hru];
    [unfold word, KERNBASE, two32 in *; lia|unfold KERNBASE, PGSIZE, two32 in *; lia|].
  induction fuel as [|fuel IH]; intros a s fl Hinv Hc Hlo Hal Hf H0 Hno; [lia|]. cbn [allocuvm_loop].
  destruct (Z.ltb_spec a newsz) as [Hlt|Hge]; cbn [negb].
  2: { exists true, s, fl. split; [done|]. by apply grown_none. }
  pose proof (kalloc_run s fl (vi_kmem _ _ _ (uv_vm _ _ _ Hinv)) (vi_lock _ _ _ (uv_vm _ _ _ Hinv))) as Hka.
  destruct fl as [|p fl]; kcall Hka.
  { change (0 =? 0) with true. cbv iota.
    destruct (allocuvm_undo s d [] oldsz newsz (String.append "allocuvm out of memory"
      (String (Ascii.ascii_of_nat 10) EmptyString)) Hinv Hc) as (s' & fl' & E & Hu & _); [lia..|].
    exists false, s', fl'. split; [by rewrite E|done]. }
  destruct (tp_ok s d p fl Hinv) as (Hp & _). rewrite (proj2 (Z.eqb_neq p 0)) by (destruct Hp; lia).
  unfold modmem at 1. rewrite bind_modify. change (set_mem _ (set_freelist _ s)) with (cleared s p).
  assert (in_pages a newsz a) as Hina by (unfold in_pages; pose proof (Z.div_mod a 4096 ltac:(lia)); lia).
  assert (0 <= a < KERNBASE) as Hak by lia.
  destruct (allocuvm_round s d p fl a Hinv Hak Hal (Hno a (kern_word a Hak) Hina))
    as [[-> E]|(s1 & fl1 & E & Hg)]; kcall E.
  - change (-1 <? 0) with true. cbv iota. destruct (tp_inv s d p [] Hinv) as [Hinv1 Hfr].
    destruct (allocuvm_undo (cleared s p) d [] oldsz newsz (String.append "allocuvm out of memory (2)"
      (String (Ascii.ascii_of_nat 10) EmptyString)) Hinv1 Hc) as (s1 & fl1 & E1 & Hu & Hkeep & Hh); [lia..|].
    destruct Hu as (I1 & G1 & K1 & o & O1).
    destruct (kfree_fresh s1 d fl1 p I1 (Hkeep p Hfr)) as (s2 & E2 & I2 & O2 & P2).
    exists false, s2, (p :: fl1). split; [rewrite E1; by kcall E2|]. split; [done|].
    split; [intros x Hx Hin; rewrite P2; by apply G1|]. split.
    + intros x Hx Hin. rewrite P2, K1 by done. apply (proj2 (tp_frame s d p [] Hinv)).
    + exists o. eapply mem_only_trans; [|exact O2]. unfold mem_only in *. rewrite O1. by destruct s, s1.
  - change (0 <? 0) with false. cbv iota.
    assert (u32 (a + PGSIZE) = a + 4096) as -> by (apply u32_id; unfold word, PGSIZE, KERNBASE, two32 in *; lia).
    destruct (IH (a + 4096) s1 fl1 (gr_inv _ _ _ _ _ _ _ Hg)) as (b & s' & fl' & E' & Hr); [|lia| |lia|lia| |].
    + by rewrite (gr_only _ _ _ _ _ _ _ Hg).
    + by rewrite Z.add_mod, Hal by lia.
    + intros x Hx Hin. rewrite (gr_old _ _ _ _ _ _ _ Hg).
      * apply Hno; [done|]. unfold in_pages in *. lia.
      * done.
      * unfold in_pages in *. pose proof (Z.div_mod a 4096 ltac:(lia)). lia.
    + exists b, s', fl'. split; [exact E'|]. destruct b.
      * by eapply grown_trans; [exact Hinv|exact Hal|done|done|lia|lia|exact Hg|exact Hr].
      * by eapply undone_grown; [exact Hlo|exact Hal|exact Hlt|exact Hg|exact Hr].
Qed.


(** ** Instances *)

(** An empty page directory and two free pages. *)
Definition empty_dir : Z := one_page.
Definition two_free : list Z := [one_page + 4096; one_page + 8192].
Definition empty_vm : kstate :=
  set_kend (KERNBASE + 4096) (set_freelist (one_page + 4096)
    (set_mem (store32 (fun _ => 0) (slot (one_page + 4096) 0) (one_page + 8192)) kstate0)).

Lemma empty_pages q : q ∈ [one_page; one_page + 4096; one_page + 8192] → page_ok empty_vm.(kend) q.
Proof. rewrite !elem_of_cons. by intros [->|[->|[->|?%elem_of_nil]]]. Qed.

Lemma empty_load i : 0 <= i < 1024 → load32 empty_vm.(mem) (slot empty_dir i) = 0.
Proof.
  intros Hi. unfold empty_vm, empty_dir. cbn [mem set_kend set_freelist set_mem].
  rewrite (load_store_slot empty_vm.(kend)); [|apply empty_pages; set_solver..|lia|done].
  rewrite decide_False; [done|]. intros [E _]. done.
Qed.

Lemma empty_pte a : pte empty_vm.(mem) empty_dir a = 0.
Proof. unfold pte. by rewrite empty_load by apply PDX_range. Qed.

Lemma empty_vm_inv : uvm_inv empty_vm empty_dir two_free.
Proof.
  split; [split|done| |].
  - apply not_elem_of_nil.
  - split; [by vm_compute| |].
    + constructor; [|constructor; [|constructor]]; apply empty_pages; set_solver.
    + apply NoDup_cons. split; [|apply NoDup_singleton]. by rewrite list_elem_of_singleton.
  - apply empty_pages. set_solver.
  - unfold two_free, empty_dir. rewrite !elem_of_cons. by intros [?|[?|?%elem_of_nil]].
  - intros i Hi. cbv zeta. by rewrite empty_load.
  - intros i j Hi Hj. by rewrite empty_load.
  - intros a Ha. cbv zeta. by rewrite empty_pte.
  - intros a b Ha Hb. by rewrite !empty_pte.
Qed.

