(* ===== verification/Sleeplock.v ===== *)
(** * Sleep locks: [sleeplock.c]

    Long-term locks that give up the CPU while they wait.  Every buffer of the
    block cache and every cached inode has one. *)

From stdpp Require Import base numbers option list sets strings.
From Stdlib Require Import ZArith Lia.
From S2P Require Import Prelude State Locks Kalloc Proc.

(** The number of times a process that waits for a lock or the log may be
    resumed in vain; a larger value never changes a result that is reached. *)
Class WaitFuel : Type := wait_fuel : nat.

(** ** Access *)

Definition get_buf (i : nat) (s : kstate) : buf := s.(fs).(bufs) !!! i.
Definition get_inode (i : nat) (s : kstate) : inode := s.(fs).(icache) !!! i.

Definition modfs (f : fsstate → fsstate) : M unit := modify (fun s => set_fs (f s.(fs)) s).

Definition upd_buf (i : nat) (f : buf → buf) (x : fsstate) : fsstate :=
  set_bufs (alter f i x.(bufs)) x.
Definition upd_inode (i : nat) (f : inode → inode) (x : fsstate) : fsstate :=
  set_icache (alter f i x.(icache)) x.

Definition get_sl (l : sleeplockid) (s : kstate) : sleeplock :=
  match l with SL_BUF i => (get_buf i s).(b_lock) | SL_INODE i => (get_inode i s).(i_lock) end.

Definition upd_sl (l : sleeplockid) (v : sleeplock) : fsstate → fsstate :=
  match l with SL_BUF i => upd_buf i (set_b_lock v) | SL_INODE i => upd_inode i (set_i_lock v) end.

Definition modsl (l : sleeplockid) (f : sleeplock → sleeplock) : M unit :=
  modify (fun s => set_fs (upd_sl l (f (get_sl l s)) s.(fs)) s).

(** ** Operations *)

Definition initsleeplock (l : sleeplockid) : M unit :=
  modsl l (set_sl_locked 0);; modsl l (set_sl_pid 0).

Section sleeplock.
Context `{!WaitFuel}.

Fixpoint acquiresleep_wait (fuel : nat) (l : sleeplockid) : M unit :=
  match fuel with
  | O => fun s => Stuck s
  | S fuel =>
    k <- get (get_sl l);;
    if truthy k.(sl_locked)
    then sleep (CH_SLEEPLOCK l) (SLEEPLOCK_LK l);; acquiresleep_wait fuel l
    else ret ()
  end.

Definition acquiresleep (l : sleeplockid) : M unit :=
  acquire (SLEEPLOCK_LK l);;
  acquiresleep_wait wait_fuel l;;
  modsl l (set_sl_locked 1);;
  o <- myproc;;
  with_proc o (fun c =>
  p <- getp c;;
  modsl l (set_sl_pid p.(p_pid));;
  release (SLEEPLOCK_LK l)).
End sleeplock.

Definition releasesleep (l : sleeplockid) : M unit :=
  acquire (SLEEPLOCK_LK l);;
  modsl l (set_sl_locked 0);;
  modsl l (set_sl_pid 0);;
  wakeup (CH_SLEEPLOCK l);;
  release (SLEEPLOCK_LK l).

Definition holdingsleep (l : sleeplockid) : M bool :=
  acquire (SLEEPLOCK_LK l);;
  k <- get (get_sl l);;
  r <- (if truthy k.(sl_locked)
        then o <- myproc;; with_proc o (fun c => p <- getp c;; ret (k.(sl_pid) =? p.(p_pid)))
        else ret false);;
  release (SLEEPLOCK_LK l);;
  ret r.

(** ** Uncontended use *)

(** The entry of the lock exists. *)
Definition sl_ok (l : sleeplockid) (s : kstate) : Prop :=
  match l with
  | SL_BUF i => (i < length s.(fs).(bufs))%nat
  | SL_INODE i => (i < length s.(fs).(icache))%nat
  end.

Definition put_sl (l : sleeplockid) (v : sleeplock) (s : kstate) : kstate :=
  set_fs (upd_sl l v s.(fs)) s.

Lemma get_put_sl l v s : sl_ok l s → get_sl l (put_sl l v s) = v.
Proof.
  destruct l as [i|i]; simpl; intros H; unfold get_buf, get_inode; simpl;
    by rewrite list_lookup_total_alter_eq.
Qed.

Lemma put_put_sl l v w s : put_sl l v (put_sl l w s) = put_sl l v s.
Proof.
  destruct l as [i|i]; unfold put_sl, upd_sl, upd_buf, upd_inode;
    cbn [fs set_fs bufs set_bufs icache set_icache]; by rewrite list_alter_alter_eq.
Qed.

Lemma put_sl_ok l v l' s : sl_ok l' s → sl_ok l' (put_sl l v s).
Proof. destruct l, l'; simpl; rewrite ?length_alter; done. Qed.

Lemma bind_modsl {B} l f (k : unit → M B) s : bind (modsl l f) k s = k () (put_sl l (f (get_sl l s)) s).
Proof. done. Qed.

Lemma bind_modsl_put {B} l f v (k : unit → M B) s : sl_ok l s →
  bind (modsl l f) k (put_sl l v s) = k () (put_sl l (f v) s).
Proof. intros H. by rewrite bind_modsl, get_put_sl, put_put_sl. Qed.

Section uncontended.
Context (c : nat) (l : sleeplockid) (s : kstate).
Context (Hc : s.(curproc) = Some c) (Hl : SLEEPLOCK_LK l ∉ s.(held)) (Hok : sl_ok l s).

Lemma acquiresleep_run `{!WaitFuel} : wait_fuel ≠ 0%nat → sl_locked (get_sl l s) = 0 →
  acquiresleep l s = Ret () (put_sl l (mkslk 1 (p_pid (get_proc c s))) s).
Proof.
  intros Hf H0. unfold acquiresleep. kcall (acquire_free _ _ Hl).
  set (s1 := set_held _ s). destruct wait_fuel as [|n]; [done|].
  assert (acquiresleep_wait (S n) l s1 = Ret () s1) as E.
  { cbn [acquiresleep_wait]. rewrite bind_get. change (get_sl l s1) with (get_sl l s). by rewrite H0. }
  kcall E. rewrite bind_modsl, bind_myproc. change (curproc (put_sl l _ s1)) with (curproc s). rewrite Hc.
  cbn [with_proc]. rewrite bind_getp. change (get_proc c (put_sl l _ s1)) with (get_proc c s).
  rewrite bind_modsl_put by done.
  rewrite (release_head _ (held s)) by done. by destruct s.
Qed.

Lemma releasesleep_run : wf_table s → PTABLE_LOCK ∉ s.(held) →
  releasesleep l s = Ret () (set_pt (wake_proc (CH_SLEEPLOCK l) <$> s.(pt)) (put_sl l (mkslk 0 0) s)).
Proof.
  intros Hw Hp. unfold releasesleep. kcall (acquire_free _ _ Hl). set (s1 := set_held _ s).
  rewrite bind_modsl, bind_modsl_put by done.
  change (set_sl_pid 0 (set_sl_locked 0 (get_sl l s1))) with (mkslk 0 0).
  kcall (wakeup_run (CH_SLEEPLOCK l) (put_sl l (mkslk 0 0) s1) Hw ltac:(simpl; set_solver)).
  rewrite (release_head _ (held s)) by done. by destruct s.
Qed.

Lemma holdingsleep_run :
  holdingsleep l s = Ret (truthy (sl_locked (get_sl l s)) && (sl_pid (get_sl l s) =? p_pid (get_proc c s))) s.
Proof.
  unfold holdingsleep. kcall (acquire_free _ _ Hl). set (s1 := set_held _ s).
  rewrite bind_get. change (get_sl l s1) with (get_sl l s).
  assert ((release (SLEEPLOCK_LK l)) s1 = Ret () s) as E
    by (rewrite (release_head _ (held s)) by done; by destruct s).
  destruct (truthy (sl_locked (get_sl l s))); cbn [andb].
  - unfold bind at 1. rewrite bind_myproc. change (curproc s1) with (curproc s). rewrite Hc.
    cbn [with_proc]. rewrite bind_getp. unfold ret at 1. cbn [cbind]. by kcall E.
  - rewrite bind_ret_l. by kcall E.
Qed.
End uncontended.
