(* ===== verification/Bio.v ===== *)
(** * The block cache and the disk: [bio.c] and [memide.c]

    Buffers hold copies of disk blocks; [bread] returns a locked buffer with
    the contents of a block, [bwrite] writes it back, [brelse] unlocks it.
    The list of buffers in the order of their last use is [blru].  The disk
    driver is the one of [memide.c], with the disk image as the function
    [disk] of the state; it records every write in [writes]. *)

From stdpp Require Import base numbers option list sets strings gmap fin_maps functions.
From Stdlib Require Import ZArith Lia.
From S2P Require Import Prelude State Locks Kalloc Proc Sleeplock.

Definition B_VALID : Z := 2.
Definition B_DIRTY : Z := 4.

Definition getb (i : nat) : M buf := get (get_buf i).
Definition modb (i : nat) (f : buf → buf) : M unit := modfs (upd_buf i f).

(** The first buffer of the list [l] that satisfies [P]. *)
Definition first_buf (P : buf → bool) (l : list nat) (x : fsstate) : option nat :=
  List.find (fun i => P (x.(bufs) !!! i)) l.

(** ** The disk *)

Definition iderw (i : nat) : M unit :=
  h <- holdingsleep (SL_BUF i);;
  if negb h then panic "iderw: buf not locked" else
  b <- getb i;;
  if Z.land b.(b_flags) (Z.lor B_VALID B_DIRTY) =? B_VALID then panic "iderw: nothing to do" else
  if negb (b.(b_dev) =? 1) then panic "iderw: request not for disk 1" else
  n <- get (fun s => s.(fs).(disksize));;
  if n <=? b.(b_blockno) then panic "iderw: block out of range" else
  (if truthy (Z.land b.(b_flags) B_DIRTY) then
     modb i (fun b => set_b_flags (Z.land b.(b_flags) (not32 B_DIRTY)) b);;
     modfs (fun x => set_writes (x.(writes) ++ [(b.(b_blockno), b.(b_data))])
       (set_disk (<[b.(b_blockno) := b.(b_data)]> x.(disk)) x))
   else
     modify (fun s => set_fs (upd_buf i (set_b_data (s.(fs).(disk) b.(b_blockno))) s.(fs)) s));;
  modb i (fun b => set_b_flags (Z.lor b.(b_flags) B_VALID) b).

(** ** Buffers *)

(** Every buffer is put in front of the list. *)
Definition binit : M unit :=
  modfs (set_blru []);;
  foldM (fun _ i =>
    initsleeplock (SL_BUF i);;
    modify (fun s => set_fs (set_blru (i :: s.(fs).(blru)) s.(fs)) s)) (seq 0 NBUF) ().

Section bio.
Context `{!WaitFuel}.

Definition bget (dev blockno : Z) : M nat :=
  acquire BCACHE_LOCK;;
  o <- get (fun s => first_buf (fun b => (b.(b_dev) =? dev) && (b.(b_blockno) =? blockno))
                       s.(fs).(blru) s.(fs));;
  match o with
  | Some i =>
    modb i (fun b => set_b_refcnt (u32 (b.(b_refcnt) + 1)) b);;
    release BCACHE_LOCK;;
    acquiresleep (SL_BUF i);;
    ret i
  | None =>
    o <- get (fun s => first_buf (fun b => (b.(b_refcnt) =? 0) && (Z.land b.(b_flags) B_DIRTY =? 0))
                         (reverse s.(fs).(blru)) s.(fs));;
    match o with
    | Some i =>
      modb i (fun b => set_b_refcnt 1 (set_b_flags 0 (set_b_blockno blockno (set_b_dev dev b))));;
      release BCACHE_LOCK;;
      acquiresleep (SL_BUF i);;
      ret i
    | None => panic "bget: no buffers"
    end
  end.

Definition bread (dev blockno : Z) : M nat :=
  i <- bget dev blockno;;
  b <- getb i;;
  when (Z.land b.(b_flags) B_VALID =? 0) (iderw i);;
  ret i.

Definition bwrite (i : nat) : M unit :=
  h <- holdingsleep (SL_BUF i);;
  if negb h then panic "bwrite" else
  modb i (fun b => set_b_flags (Z.lor b.(b_flags) B_DIRTY) b);;
  iderw i.

Definition brelse (i : nat) : M unit :=
  h <- holdingsleep (SL_BUF i);;
  if negb h then panic "brelse" else
  releasesleep (SL_BUF i);;
  acquire BCACHE_LOCK;;
  modb i (fun b => set_b_refcnt (u32 (b.(b_refcnt) - 1)) b);;
  b <- getb i;;
  when (b.(b_refcnt) =? 0)
    (modify (fun s => set_fs (set_blru (i :: filter (fun j => j ≠ i) s.(fs).(blru)) s.(fs)) s));;
  release BCACHE_LOCK.
End bio.

(** ** Runs without a switch *)

(** [m] returns from [s], and the result and the final state satisfy [Q]. *)
Definition runs {A} (m : M A) (s : kstate) (Q : A → kstate → Prop) : Prop :=
  match m s with Ret a s' => Q a s' | _ => False end.

Lemma runs_bind {A B} (m : M A) (f : A → M B) s P Q :
  runs m s P → (∀ a s', P a s' → runs (f a) s' Q) → runs (bind m f) s Q.
Proof. unfold runs, bind. destruct (m s); simpl; try done. intros HP Hf. by apply Hf. Qed.

Lemma runs_mono {A} (m : M A) s (P Q : A → kstate → Prop) :
  runs m s P → (∀ a s', P a s' → Q a s') → runs m s Q.
Proof. unfold runs. destruct (m s); auto. Qed.

Lemma runs_ret {A} (a : A) s (Q : A → kstate → Prop) : Q a s → runs (ret a) s Q.
Proof. done. Qed.

Lemma runs_eq {A} (m : M A) s a s' (Q : A → kstate → Prop) : m s = Ret a s' → Q a s' → runs m s Q.
Proof. unfold runs. by intros ->. Qed.

Lemma runs_Ret {A} (m : M A) s (Q : A → kstate → Prop) : runs m s Q ↔ ∃ a s', m s = Ret a s' ∧ Q a s'.
Proof.
  unfold runs. destruct (m s); split; try done.
  - eauto.
  - by intros (? & ? & [= -> ->] & ?).
  - by intros (? & ? & ? & ?).
  - by intros (? & ? & ? & ?).
  - by intros (? & ? & ? & ?).
  - by intros (? & ? & ? & ?).
Qed.

(** What the file system leaves alone: all but its own state, and which
    processes are awake. *)
Definition settle (p : proc) : proc := set_p_justwoken 0 (set_p_state UNUSED p).

Record fs_only (s s' : kstate) : Prop := {
  fo_eq : s' = set_fs s'.(fs) (set_pt s'.(pt) s);
  fo_len : length s'.(pt) = length s.(pt);
  fo_pt : ∀ i, settle (get_proc i s') = settle (get_proc i s)
}.

Lemma fs_only_fs x s : fs_only s (set_fs x s).
Proof. split; [by destruct s|done|done]. Qed.

#[global] Instance fs_only_preorder : PreOrder fs_only.
Proof.
  split.
  - intros s. split; [by destruct s|done|done].
  - intros s1 s2 s3 [E1 L1 P1] [E2 L2 P2]. split; [|congruence|intros i; by rewrite P2, P1].
    rewrite E2, E1. by destruct s1, s2, s3.
Qed.

(** A process in the kernel that holds no spin lock. *)
Record kctx (c : nat) (s : kstate) : Prop := {
  kc_cur : s.(curproc) = Some c;
  kc_held : s.(held) = [];
  kc_wf : wf_table s
}.

Definition mypid (c : nat) (s : kstate) : Z := p_pid (get_proc c s).

Lemma fs_only_ctx c s s' : fs_only s s' → kctx c s → kctx c s' ∧ mypid c s' = mypid c s.
Proof.
  intros [E L P] [Hc Hh Hw]. split.
  - split; [by rewrite E|by rewrite E|unfold wf_table in *; congruence].
  - unfold mypid. specialize (P c). apply (f_equal p_pid) in P. done.
Qed.

Lemma wake_settle ch p : settle (wake_proc ch p) = settle p.
Proof. unfold wake_proc. by destruct (_ && _). Qed.

Lemma fs_only_wake ch x s : fs_only s (set_pt (wake_proc ch <$> s.(pt)) (set_fs x s)).
Proof.
  split; [by destruct s|simpl; by rewrite length_fmap|]. intros i.
  destruct (decide (i < length s.(pt))%nat).
  - pose proof (get_proc_map (wake_proc ch) i (set_fs x s) ltac:(done)) as H.
    change (pt (set_fs x s)) with (pt s) in H. rewrite H. apply wake_settle.
  - unfold get_proc. simpl. rewrite !list_lookup_total_alt, !lookup_ge_None_2; [done|lia|].
    rewrite length_fmap. lia.
Qed.

(** ** The cache invariant *)

Definition valid_clean (b : buf) : Prop := b.(b_flags) = B_VALID.
Definition dirty (b : buf) : Prop := b.(b_flags) = Z.lor B_VALID B_DIRTY.

#[global] Instance dirty_dec b : Decision (dirty b).
Proof. unfold dirty. apply _. Defined.

(** [H] are the buffers the process [pid] has locked; only their contents may
    differ from the disk without being marked dirty. *)
Record bc_inv (pid : Z) (H : gset nat) (x : fsstate) : Prop := {
  bi_len : length x.(bufs) = NBUF;
  bi_lru : x.(blru) ≡ₚ seq 0 NBUF;
  bi_uniq : ∀ i j, (i < NBUF)%nat → (j < NBUF)%nat →
    b_dev (x.(bufs) !!! i) = 1 → b_dev (x.(bufs) !!! j) = 1 →
    b_blockno (x.(bufs) !!! i) = b_blockno (x.(bufs) !!! j) → i = j;
  bi_held : ∀ i, i ∈ H → (i < NBUF)%nat ∧ let b := x.(bufs) !!! i in
    b_lock b = mkslk 1 pid ∧ b_refcnt b = 1 ∧ b_dev b = 1;
  bi_free : ∀ i, (i < NBUF)%nat → i ∉ H → let b := x.(bufs) !!! i in
    sl_locked (b_lock b) = 0 ∧ b_refcnt b = 0;
  bi_flags : ∀ i, (i < NBUF)%nat → let b := x.(bufs) !!! i in
    (b_dev b = 1 ∧ (valid_clean b ∨ dirty b) ∧ 0 <= b_blockno b < x.(disksize)) ∨
    (b_dev b ≠ 1 ∧ b_flags b = 0);
  bi_coh : ∀ i, (i < NBUF)%nat → i ∉ H → let b := x.(bufs) !!! i in
    valid_clean b → b_data b = x.(disk) b.(b_blockno);
  bi_data : ∀ i, (i < NBUF)%nat → length (b_data (x.(bufs) !!! i)) = BSIZE;
  bi_disk : ∀ b, length (x.(disk) b) = BSIZE
}.

(** The buffer that holds block [b], in table order. *)
Definition holds (b : Z) (p : buf) : Prop := p.(b_dev) = 1 ∧ p.(b_blockno) = b.

#[global] Instance holds_dec b p : Decision (holds b p).
Proof. unfold holds. apply _. Defined.

(** The contents of block [b] as the file system sees it. *)
Definition blk (x : fsstate) (b : Z) : list Z :=
  match list_find (holds b) x.(bufs) with
  | Some (_, p) => p.(b_data)
  | None => x.(disk) b
  end.

(** A buffer that can be recycled exists. *)
Definition room (H : gset nat) (x : fsstate) : Prop :=
  ∃ i, (i < NBUF)%nat ∧ i ∉ H ∧ ¬ dirty (x.(bufs) !!! i).

(** Block [b] has a buffer. *)
Definition cached (b : Z) (x : fsstate) : Prop := ∃ i, (i < NBUF)%nat ∧ holds b (x.(bufs) !!! i).

Lemma buf_lookup pid H x i : bc_inv pid H x → (i < NBUF)%nat → x.(bufs) !! i = Some (x.(bufs) !!! i).
Proof. intros Hi Hlt. apply list_lookup_lookup_total_lt. by rewrite (bi_len _ _ _ Hi). Qed.

Lemma blk_cached pid H x i : bc_inv pid H x → (i < NBUF)%nat → b_dev (x.(bufs) !!! i) = 1 →
  blk x (b_blockno (x.(bufs) !!! i)) = b_data (x.(bufs) !!! i).
Proof.
  intros Hi Hlt Hd. unfold blk. set (b := b_blockno _).
  destruct (list_find (holds b) (bufs x)) as [[j p]|] eqn:E.
  - apply list_find_Some in E as (Hp & [Hpd Hpb] & _). pose proof (lookup_lt_Some _ _ _ Hp) as Hj.
    rewrite (bi_len _ _ _ Hi) in Hj. apply list_lookup_total_correct in Hp as Hp'.
    assert (j = i) as ->; [|by rewrite Hp'].
    apply (bi_uniq _ _ _ Hi); [done|done|by rewrite Hp'|done|by rewrite Hp'].
  - apply list_find_None in E. exfalso.
    apply (proj1 (Forall_lookup _ _) E i _ (buf_lookup _ _ _ _ Hi Hlt)). done.
Qed.

Lemma blk_uncached pid H x b : bc_inv pid H x →
  (∀ i, (i < NBUF)%nat → ¬ holds b (x.(bufs) !!! i)) → blk x b = x.(disk) b.
Proof.
  intros Hi Hn. unfold blk. destruct (list_find (holds b) (bufs x)) as [[j p]|] eqn:E; [|done].
  apply list_find_Some in E as (Hp & Hh & _). pose proof (lookup_lt_Some _ _ _ Hp) as Hj.
  rewrite (bi_len _ _ _ Hi) in Hj. apply list_lookup_total_correct in Hp as <-. by destruct (Hn j Hj).
Qed.

Lemma blk_same pid H H' x x' : bc_inv pid H x → bc_inv pid H' x' → x'.(disk) = x.(disk) →
  (∀ i, (i < NBUF)%nat → let v := x.(bufs) !!! i in let v' := x'.(bufs) !!! i in
     b_dev v' = b_dev v ∧ b_blockno v' = b_blockno v ∧ b_data v' = b_data v) →
  ∀ b, blk x' b = blk x b.
Proof.
  intros Hi Hi' Hd Hv b. destruct (list_find (holds b) (bufs x)) as [[j p]|] eqn:E.
  - apply list_find_Some in E as (Hp & [Hpd <-] & _). pose proof (lookup_lt_Some _ _ _ Hp) as Hj.
    rewrite (bi_len _ _ _ Hi) in Hj. apply list_lookup_total_correct in Hp as <-.
    destruct (Hv j Hj) as (Ed & Eb & Edat). rewrite (blk_cached _ _ _ _ Hi) by done.
    rewrite <- Eb, (blk_cached _ _ _ _ Hi') by (done || congruence). done.
  - apply list_find_None in E.
    assert (∀ k, (k < NBUF)%nat → ¬ holds b (x.(bufs) !!! k)) as Hnone.
    { intros k Hk. apply (proj1 (Forall_lookup _ _) E k). by apply (buf_lookup pid H). }
    rewrite (blk_uncached _ _ _ _ Hi Hnone), <- Hd. apply (blk_uncached _ _ _ _ Hi').
    intros k Hk [Hk1 Hk2]. destruct (Hv k Hk) as (Ed & Eb & _). apply (Hnone k Hk). split; congruence.
Qed.

(** Updating one buffer. *)
Lemma upd_buf_same i f x : (i < length x.(bufs))%nat → (upd_buf i f x).(bufs) !!! i = f (x.(bufs) !!! i).
Proof. intros H. unfold upd_buf. simpl. by rewrite list_lookup_total_alter_eq. Qed.

Lemma upd_buf_ne i j f x : i ≠ j → (upd_buf i f x).(bufs) !!! j = x.(bufs) !!! j.
Proof. intros H. unfold upd_buf. simpl. by rewrite list_lookup_total_alter_ne. Qed.

Lemma upd_buf_comp i f g x : upd_buf i f (upd_buf i g x) = upd_buf i (λ b, f (g b)) x.
Proof. unfold upd_buf. cbn [bufs set_bufs]. rewrite list_alter_alter_eq. done. Qed.

Lemma first_buf_Some P l x i : first_buf P l x = Some i → i ∈ l ∧ P (x.(bufs) !!! i) = true.
Proof. unfold first_buf. intros [H1 H2]%find_some. split; [by apply list_elem_of_In|done]. Qed.

Lemma first_buf_None P l x i : first_buf P l x = None → i ∈ l → P (x.(bufs) !!! i) = false.
Proof. unfold first_buf. intros H Hi. apply (find_none _ _ H). by apply list_elem_of_In. Qed.

(** Buffer updates in canonical form. *)
Definition put_buf (i : nat) (b : buf) (x : fsstate) : fsstate := set_bufs (<[i := b]> x.(bufs)) x.

Lemma upd_buf_put i f x : (i < length x.(bufs))%nat → upd_buf i f x = put_buf i (f (x.(bufs) !!! i)) x.
Proof.
  intros H. unfold upd_buf, put_buf. f_equal. apply list_eq. intros j.
  destruct (decide (j = i)) as [->|Hne].
  - rewrite list_lookup_alter_eq, list_lookup_insert_eq by done.
    by rewrite list_lookup_lookup_total_lt.
  - by rewrite list_lookup_alter_ne, list_lookup_insert_ne by done.
Qed.

Lemma put_buf_same i b x : (i < length x.(bufs))%nat → (put_buf i b x).(bufs) !!! i = b.
Proof. intros H. unfold put_buf. simpl. by rewrite list_lookup_total_insert_eq. Qed.

Lemma put_buf_ne i j b x : i ≠ j → (put_buf i b x).(bufs) !!! j = x.(bufs) !!! j.
Proof. intros H. unfold put_buf. simpl. by rewrite list_lookup_total_insert_ne. Qed.

Lemma put_put_buf i b b' x : put_buf i b (put_buf i b' x) = put_buf i b x.
Proof. unfold put_buf. cbn [bufs set_bufs]. by rewrite list_insert_insert_eq. Qed.

Lemma length_put_buf i b x : length (put_buf i b x).(bufs) = length x.(bufs).
Proof. unfold put_buf. simpl. apply length_insert. Qed.

Lemma upd_put_buf i f b x : (i < length x.(bufs))%nat → upd_buf i f (put_buf i b x) = put_buf i (f b) x.
Proof.
  intros H. rewrite upd_buf_put by (by rewrite length_put_buf). by rewrite put_buf_same, put_put_buf.
Qed.

Lemma bind_modb {B} i f (k : unit → M B) s : (i < length s.(fs).(bufs))%nat →
  bind (modb i f) k s = k () (set_fs (put_buf i (f (get_buf i s)) s.(fs)) s).
Proof. intros H. unfold modb, modfs. rewrite bind_modify. by rewrite upd_buf_put. Qed.

Lemma bind_modb_put {B} i f b (k : unit → M B) x s : (i < length x.(bufs))%nat →
  bind (modb i f) k (set_fs (put_buf i b x) s) = k () (set_fs (put_buf i (f b) x) s).
Proof. intros H. unfold modb, modfs. rewrite bind_modify. simpl. by rewrite upd_put_buf. Qed.

(** ** Runs of the operations *)

Section run.
Context {WF : WaitFuel} (Hfuel : wait_fuel ≠ 0%nat) (c : nat) (s : kstate) (Hctx : kctx c s) (L : gset nat).
Context (Hinv : bc_inv (mypid c s) L s.(fs)).
Let x := s.(fs).
Let pid := mypid c s.

Lemma lock_free_buf i y : (i < length y.(bufs))%nat → sl_locked (b_lock (y.(bufs) !!! i)) = 0 →
  acquiresleep (SL_BUF i) (set_fs y s)
  = Ret () (set_fs (put_buf i (set_b_lock (mkslk 1 pid) (y.(bufs) !!! i)) y) s).
Proof.
  intros Hi H0. destruct Hctx as [Hc Hh Hw].
  rewrite (acquiresleep_run c) by (done || (simpl; rewrite Hh; apply not_elem_of_nil)).
  unfold put_sl, upd_sl. by rewrite upd_buf_put.
Qed.

Lemma bget_run blockno o :
  first_buf (fun b => (b.(b_dev) =? 1) && (b.(b_blockno) =? blockno)) x.(blru) x = o →
  match o with
  | Some i => i ∉ L → bget 1 blockno s
      = Ret i (set_fs (put_buf i (set_b_lock (mkslk 1 pid) (set_b_refcnt 1 (x.(bufs) !!! i))) x) s)
  | None => room L x → ∃ i, (i < NBUF)%nat ∧ i ∉ L ∧ ¬ dirty (x.(bufs) !!! i) ∧ bget 1 blockno s
      = Ret i (set_fs (put_buf i (mkbuf 0 1 blockno (mkslk 1 pid) 1 (b_data (x.(bufs) !!! i))) x) s)
  end.
Proof.
  intros Ho. pose proof (kc_held _ _ Hctx) as Hh.
  assert (∀ i, i ∈ x.(blru) → (i < NBUF)%nat) as Hlru.
  { intros i. unfold x. rewrite (bi_lru _ _ _ Hinv), elem_of_seq. lia. }
  assert (∀ {B} (k : M B), (acquire BCACHE_LOCK;; k) s = k (set_held [BCACHE_LOCK] s)) as Hacq.
  { intros B k. kcall (acquire_free BCACHE_LOCK s ltac:(rewrite Hh; apply not_elem_of_nil)). by rewrite Hh. }
  assert (∀ i b, (release BCACHE_LOCK;; acquiresleep (SL_BUF i);; ret i)
      (set_fs (put_buf i b x) (set_held [BCACHE_LOCK] s)) =
    (acquiresleep (SL_BUF i);; ret i) (set_fs (put_buf i b x) s)) as Hrel.
  { intros i b. erewrite (bind_returns (release BCACHE_LOCK));
      [|apply (release_head _ []); [done|apply not_elem_of_nil]].
    f_equal. unfold set_fs, set_held. simpl. by rewrite <- Hh. }
  unfold bget. rewrite Hacq, bind_get. cbn [fs set_held]. fold x. rewrite Ho.
  destruct o as [i|].
  - intros Hn. apply first_buf_Some in Ho as [Hi _]. apply Hlru in Hi.
    destruct (bi_free _ _ _ Hinv i Hi Hn) as [H0 Hr]. fold x in H0, Hr.
    assert (i < length x.(bufs))%nat as Hl by (unfold x; by rewrite (bi_len _ _ _ Hinv)).
    rewrite bind_modb by done. change (get_buf i (set_held _ s)) with (x.(bufs) !!! i).
    change (fs (set_held _ s)) with x. rewrite Hr, Hrel.
    erewrite (bind_returns (acquiresleep (SL_BUF i)));
      [|apply lock_free_buf; [by rewrite length_put_buf|by rewrite put_buf_same]].
    by rewrite put_put_buf, put_buf_same.
  - intros (j & Hj & Hjn & Hjd). rewrite bind_get. cbn [fs set_held]. fold x.
    destruct (first_buf _ (reverse (blru x)) x) as [i|] eqn:E.
    + apply first_buf_Some in E as [Hi%elem_of_reverse%Hlru [Hr%Z.eqb_eq Hd%Z.eqb_eq]%andb_true_iff].
      assert (i ∉ L) as Hin by (intros Hin; destruct (bi_held _ _ _ Hinv i Hin) as (_ & _ & Hr1 & _); fold x in Hr1; congruence).
      destruct (bi_free _ _ _ Hinv i Hi Hin) as [H0 _]. fold x in H0.
      assert (i < length x.(bufs))%nat as Hl by (unfold x; by rewrite (bi_len _ _ _ Hinv)).
      exists i. split; [done|]. split; [done|]. split; [intros Hdd; rewrite Hdd in Hd; done|].
      rewrite bind_modb by done. change (get_buf i (set_held _ s)) with (x.(bufs) !!! i).
      change (fs (set_held _ s)) with x. rewrite Hrel.
      erewrite (bind_returns (acquiresleep (SL_BUF i)));
        [|apply lock_free_buf; [by rewrite length_put_buf|by rewrite put_buf_same]].
      by rewrite put_put_buf, put_buf_same.
    + exfalso. assert (j ∈ reverse (blru x)) as Hjl.
      { rewrite elem_of_reverse. unfold x. rewrite (bi_lru _ _ _ Hinv). rewrite elem_of_seq. lia. }
      pose proof (first_buf_None _ _ _ j E Hjl) as Hf. cbv beta in Hf.
      destruct (bi_free _ _ _ Hinv j Hj Hjn) as [_ Hr]. fold x in Hr. rewrite Hr in Hf. cbn [Z.eqb andb] in Hf.
      destruct (bi_flags _ _ _ Hinv j Hj) as [(_ & [Hv|Hv] & _)|[_ Hv]]; fold x in Hv; [|done|].
      * rewrite Hv in Hf. done.
      * rewrite Hv in Hf. done.
Qed.
End run.

Section run2.
Context {WF : WaitFuel} (Hfuel : wait_fuel ≠ 0%nat) (c : nat) (s : kstate) (Hctx : kctx c s).
Let pid := mypid c s.

Lemma holding_buf i y : (i < length y.(bufs))%nat → b_lock (y.(bufs) !!! i) = mkslk 1 pid →
  holdingsleep (SL_BUF i) (set_fs y s) = Ret true (set_fs y s).
Proof.
  intros Hi Hl. destruct Hctx as [Hc Hh Hw].
  rewrite (holdingsleep_run c) by (done || (simpl; rewrite Hh; apply not_elem_of_nil)).
  unfold get_sl, get_buf. cbn [fs set_fs]. rewrite Hl. simpl. unfold pid, mypid. by rewrite Z.eqb_refl.
Qed.

(** Reading a block into a buffer. *)
Lemma iderw_read i y bno d : (i < length y.(bufs))%nat → bno < y.(disksize) →
  iderw i (set_fs (put_buf i (mkbuf 0 1 bno (mkslk 1 pid) 1 d) y) s)
  = Ret () (set_fs (put_buf i (mkbuf B_VALID 1 bno (mkslk 1 pid) 1 (y.(disk) bno)) y) s).
Proof.
  intros Hi Hb. unfold iderw. set (b := mkbuf 0 1 bno _ 1 d).
  rewrite (bind_returns _ _ _ _ _ (holding_buf i (put_buf i b y) ltac:(by rewrite length_put_buf)
    ltac:(by rewrite put_buf_same))). cbn [negb]. unfold getb. rewrite bind_get.
  change (get_buf i _) with ((put_buf i b y).(bufs) !!! i). rewrite put_buf_same by done.
  unfold b. cbn [b_flags b_dev b_blockno b_data]. change (Z.land 0 _ =? B_VALID) with false.
  change (negb (1 =? 1)) with false. cbv iota. rewrite bind_get. cbn [fs set_fs disksize put_buf set_bufs].
  rewrite (proj2 (Z.leb_gt _ _) Hb). change (truthy (Z.land 0 B_DIRTY)) with false. cbv iota.
  rewrite bind_modify. cbn [fs set_fs disk put_buf set_bufs].
  fold (put_buf i (mkbuf 0 1 bno (mkslk 1 pid) 1 d) y).
  rewrite upd_put_buf by done. unfold modb, modfs. unfold modify. simpl fs. by rewrite upd_put_buf by done.
Qed.

(** Writing a dirty buffer to the disk. *)
Definition written (i : nat) (b : buf) (y : fsstate) : fsstate :=
  put_buf i (set_b_flags B_VALID b)
    (set_writes (y.(writes) ++ [(b.(b_blockno), b.(b_data))])
      (set_disk (<[b.(b_blockno) := b.(b_data)]> y.(disk)) y)).

Lemma iderw_write i y b : (i < length y.(bufs))%nat → b.(b_blockno) < y.(disksize) →
  b_lock b = mkslk 1 pid → b_dev b = 1 → dirty b →
  iderw i (set_fs (put_buf i b y) s) = Ret () (set_fs (written i b y) s).
Proof.
  intros Hi Hb Hl Hd Hdirty. unfold iderw.
  rewrite (bind_returns _ _ _ _ _ (holding_buf i (put_buf i b y) ltac:(by rewrite length_put_buf)
    ltac:(by rewrite put_buf_same))). cbn [negb]. unfold getb. rewrite bind_get.
  change (get_buf i _) with ((put_buf i b y).(bufs) !!! i). rewrite put_buf_same by done.
  rewrite Hdirty, Hd. change (Z.land _ _ =? B_VALID) with false. change (negb (1 =? 1)) with false. cbv iota.
  rewrite bind_get. cbn [fs set_fs disksize put_buf set_bufs]. rewrite (proj2 (Z.leb_gt _ _) Hb).
  change (truthy (Z.land _ B_DIRTY)) with true. cbv iota.
  unfold bind at 1. rewrite bind_modb_put by done. unfold modfs at 1, modify at 1. cbn [cbind fs set_fs].
  unfold modb, modfs, modify. cbn [fs set_fs]. unfold written. rewrite Hdirty.
  set (y' := set_writes (writes y ++ [(b_blockno b, b_data b)]) (set_disk _ y)).
  set (b' := set_b_flags _ b). change (set_writes _ (set_disk _ (put_buf i b' y))) with (put_buf i b' y').
  by rewrite upd_put_buf by done.
Qed.
End run2.

(** ** Transitions of the cache *)

(** Replacing the contents of a buffer that is, or becomes, locked. *)
Lemma bc_put pid L x i v : bc_inv pid L x → (i < NBUF)%nat → b_dev v = 1 → b_lock v = mkslk 1 pid →
  b_refcnt v = 1 → valid_clean v ∨ dirty v → 0 <= b_blockno v < x.(disksize) →
  length (b_data v) = BSIZE →
  (∀ j, (j < NBUF)%nat → j ≠ i → b_dev (x.(bufs) !!! j) = 1 → b_blockno (x.(bufs) !!! j) ≠ b_blockno v) →
  bc_inv pid ({[i]} ∪ L) (put_buf i v x).
Proof.
  intros Hinv Hi Hd Hl Hr Hf Hb Hlen Hu. pose proof Hinv as [Il Ir Iu Ih Ifr If Ic Id Ik].
  assert (i < length x.(bufs))%nat as Hil by by rewrite Il.
  pose proof (put_buf_same i v x Hil) as Hs.
  assert (∀ j, j ≠ i → (put_buf i v x).(bufs) !!! j = x.(bufs) !!! j) as Hne
    by (intros j Hj; by rewrite put_buf_ne).
  split; [by rewrite length_put_buf|done| | | | | | |done].
  - intros j k Hj Hk. destruct (decide (j = i)) as [->|Hji], (decide (k = i)) as [->|Hki];
      rewrite ?Hs, ?Hne by done; [done| | |by apply Iu].
    + intros _ Hdk E. by destruct (Hu k Hk Hki Hdk).
    + intros Hdj _ E. by destruct (Hu j Hj Hji Hdj).
  - intros j [->%elem_of_singleton|Hj]%elem_of_union; [rewrite Hs; auto|].
    destruct (decide (j = i)) as [->|Hji]; [rewrite Hs; auto|]. rewrite Hne by done. by apply Ih.
  - intros j Hj Hn. rewrite Hne by set_solver. apply Ifr; set_solver.
  - intros j Hj. destruct (decide (j = i)) as [->|Hji]; [rewrite Hs; auto|]. rewrite Hne by done. by apply If.
  - intros j Hj Hn. rewrite Hne by set_solver. apply Ic; set_solver.
  - intros j Hj. destruct (decide (j = i)) as [->|Hji]; [by rewrite Hs|]. rewrite Hne by done. by apply Id.
Qed.

(** The view of the blocks after a buffer has been replaced. *)
Lemma blk_put pid L L' x i v b : bc_inv pid L x → bc_inv pid L' (put_buf i v x) → (i < NBUF)%nat →
  b_dev v = 1 →
  blk (put_buf i v x) b = if decide (b = b_blockno v) then b_data v
    else if decide (holds b (x.(bufs) !!! i)) then x.(disk) b else blk x b.
Proof.
  intros Hinv Hinv' Hi Hd. pose proof (bi_len _ _ _ Hinv) as Hlen.
  pose proof (put_buf_same i v x ltac:(by rewrite Hlen)) as Hs.
  case_decide as E.
  - subst b. pose proof (blk_cached _ _ _ i Hinv' Hi) as Hc. rewrite Hs in Hc. by apply Hc.
  - destruct (list_find (holds b) (bufs x)) as [[j p]|] eqn:Ef.
    + apply list_find_Some in Ef as (Hp & [Hpd Hpb] & _). pose proof (lookup_lt_Some _ _ _ Hp) as Hj.
      rewrite Hlen in Hj. apply list_lookup_total_correct in Hp as <-.
      case_decide as Eo.
      * destruct Eo as [Hod Hob]. assert (j = i) as -> by (apply (bi_uniq _ _ _ Hinv); congruence).
        apply (blk_uncached _ _ _ _ Hinv'). intros k Hk [Hkd Hkb].
        destruct (decide (k = i)) as [->|Hki]; [rewrite Hs in Hkb; congruence|].
        rewrite put_buf_ne in Hkd, Hkb by done. apply Hki. apply (bi_uniq _ _ _ Hinv); congruence.
      * assert (j ≠ i) as Hji by (intros ->; by apply Eo).
        pose proof (blk_cached _ _ _ j Hinv' Hj) as Hc. rewrite put_buf_ne in Hc by done.
        rewrite <- Hpb, Hc by done. symmetry. by apply (blk_cached _ _ _ j Hinv).
    + apply list_find_None in Ef.
      assert (∀ k, (k < NBUF)%nat → ¬ holds b (x.(bufs) !!! k)) as Hnone.
      { intros k Hk. apply (proj1 (Forall_lookup _ _) Ef k). by apply (buf_lookup pid L). }
      rewrite decide_False by by apply Hnone.
      rewrite (blk_uncached _ _ x b Hinv Hnone). apply (blk_uncached _ _ _ _ Hinv').
      intros k Hk. destruct (decide (k = i)) as [->|Hki]; [rewrite Hs; intros [_ ?]; congruence|].
      rewrite put_buf_ne by done. by apply Hnone.
Qed.

(** *** [bread] *)

(** The fields of the file system besides the cache. *)
Definition same_rest (x x' : fsstate) : Prop :=
  x'.(log) = x.(log) ∧ x'.(sb) = x.(sb) ∧ x'.(icache) = x.(icache) ∧ x'.(disksize) = x.(disksize).

(** What [bread] returns: the buffer [i], locked, with the contents of block [b]. *)
Record got (pid : Z) (L : gset nat) (x : fsstate) (b : Z) (i : nat) (x' : fsstate) : Prop := {
  gt_lt : (i < NBUF)%nat;
  gt_new : i ∉ L;
  gt_inv : bc_inv pid ({[i]} ∪ L) x';
  gt_blk : ∀ b', blk x' b' = blk x b';
  gt_buf : ∃ f, x'.(bufs) !!! i = mkbuf f 1 b (mkslk 1 pid) 1 (blk x b);
  gt_held : ∀ j, j ≠ i → x'.(bufs) !!! j = x.(bufs) !!! j;
  gt_rest : same_rest x x';
  gt_disk : x'.(disk) = x.(disk) ∧ x'.(writes) = x.(writes);
  gt_coh : ¬ dirty (x'.(bufs) !!! i) → x.(disk) b = blk x b;
  gt_dirty : dirty (x'.(bufs) !!! i) ↔ ∃ j, (j < NBUF)%nat ∧ holds b (x.(bufs) !!! j) ∧ dirty (x.(bufs) !!! j);
  gt_keep : dirty (x.(bufs) !!! i) → holds b (x.(bufs) !!! i)
}.

Section ops.
Context {WF : WaitFuel} (Hfuel : wait_fuel ≠ 0%nat) (c : nat) (s : kstate) (Hctx : kctx c s) (L : gset nat).
Context (Hinv : bc_inv (mypid c s) L s.(fs)).
Let x := s.(fs).
Let pid := mypid c s.

Lemma buf_len i : (i < NBUF)%nat → (i < length x.(bufs))%nat.
Proof. intros H. unfold x. by rewrite (bi_len _ _ _ Hinv). Qed.

Lemma getb_put i v y : (i < length y.(bufs))%nat → get_buf i (set_fs (put_buf i v y) s) = v.
Proof. intros H. change (get_buf i _) with ((put_buf i v y).(bufs) !!! i). by apply put_buf_same. Qed.

(** A cached block. *)
Lemma bread_hit i : (i < NBUF)%nat → i ∉ L → b_dev (x.(bufs) !!! i) = 1 →
  let b := x.(bufs) !!! i in
  got pid L x (b_blockno b) i (put_buf i (mkbuf (b_flags b) 1 (b_blockno b) (mkslk 1 pid) 1 (b_data b)) x).
Proof.
  intros Hi Hn Hd b. set (v := mkbuf _ _ _ _ _ _).
  destruct (bi_flags _ _ _ Hinv i Hi) as [(_ & Hf & Hb)|[? _]]; [|done]. fold x b in Hf, Hb.
  assert (bc_inv pid ({[i]} ∪ L) (put_buf i v x)) as Hinv'.
  { apply bc_put; try done.
    - by apply (bi_data _ _ _ Hinv).
    - intros j Hj Hji Hdj E. apply Hji. apply (bi_uniq _ _ _ Hinv); done. }
  pose proof (put_buf_same i v x (buf_len i Hi)) as Hs.
  pose proof (blk_cached _ _ _ i Hinv Hi Hd) as Hc. fold x b in Hc.
  split; try done.
  - intros b'. rewrite (blk_put pid L ({[i]} ∪ L)) by done. case_decide as E; [by rewrite E; simpl; rewrite Hc|].
    rewrite decide_False; [done|]. intros [_ Hb']. by apply E.
  - exists (b_flags b). rewrite Hs. unfold v. by rewrite Hc.
  - intros j Hj. by rewrite put_buf_ne.
  - rewrite Hs. intros Hnd. rewrite Hc. symmetry. apply (bi_coh _ _ _ Hinv i Hi Hn). by destruct Hf.
  - rewrite Hs. split; [intros Hdi; by exists i|]. intros (j & Hj & [Hdj Hbj] & Hdirty).
    assert (j = i) as ->; [|done]. apply (bi_uniq _ _ _ Hinv); done.
Qed.

(** A block read from the disk. *)
Lemma bread_miss i b : (i < NBUF)%nat → i ∉ L → ¬ dirty (x.(bufs) !!! i) →
  (∀ j, (j < NBUF)%nat → ¬ holds b (x.(bufs) !!! j)) → 0 <= b < x.(disksize) →
  got pid L x b i (put_buf i (mkbuf B_VALID 1 b (mkslk 1 pid) 1 (x.(disk) b)) x).
Proof.
  intros Hi Hn Hd Hno Hb. set (v := mkbuf _ _ _ _ _ _).
  pose proof (blk_uncached _ _ _ _ Hinv Hno) as Hu. fold x in Hu.
  assert (bc_inv pid ({[i]} ∪ L) (put_buf i v x)) as Hinv'.
  { apply bc_put; try done; [by left|by apply (bi_disk _ _ _ Hinv)|]. intros j Hj _ Hdj E. by apply (Hno j Hj). }
  pose proof (put_buf_same i v x (buf_len i Hi)) as Hs.
  split; try done.
  - intros b'. rewrite (blk_put pid L ({[i]} ∪ L)) by done. case_decide as E; [by rewrite E|].
    case_decide as E2; [|done]. destruct E2 as [Hod <-].
    etrans; [|symmetry; apply (blk_cached _ _ _ i Hinv Hi Hod)]. symmetry. apply (bi_coh _ _ _ Hinv i Hi Hn).
    by destruct (bi_flags _ _ _ Hinv i Hi) as [(_ & [Hv|Hv] & _)|[? _]].
  - exists B_VALID. rewrite Hs. unfold v. by rewrite Hu.
  - intros j Hj. by rewrite put_buf_ne.
  - rewrite Hs. split; [done|]. intros (j & Hj & Hh & _). by destruct (Hno j Hj).
Qed.

Lemma bread_run b : (∀ i, i ∈ L → b_blockno (x.(bufs) !!! i) ≠ b) → 0 <= b < x.(disksize) →
  room L x ∨ cached b x →
  ∃ i x', bread 1 b s = Ret i (set_fs x' s) ∧ got pid L x b i x'.
Proof.
  intros HL Hb Hroom. unfold bread.
  pose proof (bget_run Hfuel c s Hctx L Hinv b _ eq_refl) as Hg. fold x pid in Hg.
  destruct (first_buf _ (blru x) x) as [i|] eqn:E.
  - apply first_buf_Some in E as [Hi [Hd%Z.eqb_eq Hbn%Z.eqb_eq]%andb_true_iff].
    unfold x in Hi. rewrite (bi_lru _ _ _ Hinv), elem_of_seq in Hi.
    assert (i ∉ L) as Hn by (intros H; by apply (HL i H)).
    assert (i < NBUF)%nat as Hi' by lia.
    rewrite (bind_returns _ _ _ _ _ (Hg Hn)). unfold getb. rewrite bind_get, getb_put by by apply buf_len.
    pose proof (bread_hit i Hi' Hn Hd) as Hgot. cbv zeta in Hgot. rewrite Hbn in Hgot.
    destruct (bi_flags _ _ _ Hinv i Hi') as [(_ & Hf & _)|[? _]]; [|done].
    fold x in Hf. exists i. eexists. split; [|exact Hgot].
    replace (Z.land _ B_VALID =? 0) with false by (simpl; destruct Hf as [->| ->]; done). simpl.
    unfold ret. do 3 f_equal. unfold set_b_lock, set_b_refcnt. by rewrite Hd, Hbn.
  - assert (∀ j, (j < NBUF)%nat → ¬ holds b (x.(bufs) !!! j)) as Hno.
    { intros j Hj [Hdj Hbj]. assert (j ∈ x.(blru)) as Hjl.
      { unfold x. rewrite (bi_lru _ _ _ Hinv), elem_of_seq. lia. }
      pose proof (first_buf_None _ _ _ j E Hjl) as Hf. cbv beta in Hf. by rewrite Hdj, Hbj, !Z.eqb_refl in Hf. }
    destruct Hroom as [Hroom|(j & Hj & Hh)]; [|by destruct (Hno j Hj)].
    destruct (Hg Hroom) as (i & Hi & Hn & Hnd & Er). rewrite (bind_returns _ _ _ _ _ Er).
    unfold getb. rewrite bind_get, getb_put by by apply buf_len. cbn [b_flags].
    change (Z.land 0 B_VALID =? 0) with true. simpl.
    erewrite bind_returns; [|apply iderw_read; [done|by apply buf_len|apply Hb]].
    exists i. eexists. split; [done|]. by apply bread_miss.
Qed.

(** *** Changes of a locked buffer *)

Section locked.
Context (i : nat) (Hi : i ∈ L).
Let b := x.(bufs) !!! i.

Lemma locked_lt : (i < NBUF)%nat.
Proof. apply (bi_held _ _ _ Hinv i Hi). Qed.

Lemma locked_bounds : 0 <= b_blockno b < x.(disksize) ∧ (valid_clean b ∨ dirty b).
Proof.
  destruct (bi_held _ _ _ Hinv i Hi) as (Hl & _ & _ & Hd).
  destruct (bi_flags _ _ _ Hinv i Hl) as [(_ & ? & ?)|[? _]]; done.
Qed.

(** New contents, or a new state of the dirty flag. *)
Lemma locked_put v : b_dev v = 1 → b_blockno v = b_blockno b → b_lock v = b_lock b → b_refcnt v = b_refcnt b →
  valid_clean v ∨ dirty v → length (b_data v) = BSIZE →
  bc_inv pid L (put_buf i v x) ∧
  ∀ b', blk (put_buf i v x) b' = if decide (b' = b_blockno b) then b_data v else blk x b'.
Proof.
  intros Hd Hb Hl Hr Hf Hlen. destruct (bi_held _ _ _ Hinv i Hi) as (Hlt & Hlk & Href & Hdev).
  fold x b in Hlk, Href, Hdev. destruct locked_bounds as [Hbound _].
  assert (bc_inv pid L (put_buf i v x)) as Hinv'.
  { replace L with ({[i]} ∪ L) by set_solver. apply bc_put; [done|done|done|by rewrite Hl|congruence|done|by rewrite Hb|done|].
    intros j Hj Hji Hdj E. apply Hji. apply (bi_uniq _ _ _ Hinv); try done. etrans; [exact E|exact Hb]. }
  split; [done|]. intros b'. rewrite (blk_put pid L L) by done. rewrite Hb.
  case_decide as E; [done|]. rewrite decide_False; [done|]. intros [_ E']. by apply E.
Qed.

(** *** [bwrite] *)

Lemma bwrite_run : bwrite i s = Ret () (set_fs (written i b x) s).
Proof.
  destruct (bi_held _ _ _ Hinv i Hi) as (Hlt & Hlk & Href & Hdev). fold x b in Hlk, Href, Hdev.
  destruct locked_bounds as [Hbound Hf]. unfold bwrite.
  pose proof (holding_buf c s Hctx i x (buf_len i Hlt) Hlk) as Hh.
  replace (set_fs x s) with s in Hh by (unfold x; by destruct s).
  rewrite (bind_returns _ _ _ _ _ Hh). cbn [negb]. rewrite bind_modb by by apply buf_len.
  change (get_buf i s) with b. change (fs s) with x.
  rewrite (iderw_write c s Hctx); [done|by apply buf_len|apply Hbound|done|done|].
  unfold dirty. simpl. by destruct Hf as [-> | ->].
Qed.

Lemma written_inv : bc_inv pid L (written i b x) ∧ (∀ b', blk (written i b x) b' = blk x b').
Proof.
  destruct (bi_held _ _ _ Hinv i Hi) as (Hlt & Hlk & Href & Hdev). fold x b in Hlk, Href, Hdev.
  pose proof (bi_data _ _ _ Hinv i Hlt) as Hlen. fold x b in Hlen.
  destruct (locked_put (set_b_flags B_VALID b)) as [Hp Hb]; try done; [by left|]. split.
  - destruct Hp as [Il Ir Iu Ih Ifr If Ic Id Ik]. split; try done.
    + intros j Hj Hn. cbv zeta. intros Hv. change (bufs (written i b x)) with (bufs (put_buf i (set_b_flags B_VALID b) x)) in *.
      rewrite (Ic j Hj Hn Hv). symmetry. apply fn_lookup_insert_ne. intros E. apply Hn. 
      replace j with i; [done|]. apply Iu; try done.
      * rewrite put_buf_same by by apply buf_len. done.
      * destruct (If j Hj) as [(? & _)|[_ Hz]]; [done|]. unfold valid_clean in Hv. by rewrite Hz in Hv.
      * rewrite put_buf_same by by apply buf_len. done.
    + intros b'. simpl. destruct (decide (b' = b_blockno b)) as [->|Hne].
      * by rewrite fn_lookup_insert.
      * rewrite fn_lookup_insert_ne by done. apply Ik.
  - intros b'. etrans; [|etrans; [apply (Hb b')|]].
    + unfold blk. change (bufs (written i b x)) with (bufs (put_buf i (set_b_flags B_VALID b) x)).
      destruct (list_find _ _) as [[j p]|] eqn:E; [done|]. simpl.
      rewrite fn_lookup_insert_ne; [done|]. intros <-. apply list_find_None in E.
      apply (proj1 (Forall_lookup _ _) E i (set_b_flags B_VALID b)); [|by split].
      simpl. apply list_lookup_insert_eq. by apply buf_len.
    + case_decide as E; [|done]. subst b'. symmetry. by apply (blk_cached _ _ _ i Hinv).
Qed.

(** *** [brelse] *)

Definition released : fsstate :=
  set_blru (i :: filter (fun j => j ≠ i) x.(blru)) (put_buf i (set_b_refcnt 0 (set_b_lock (mkslk 0 0) b)) x).

Lemma brelse_run :
  brelse i s = Ret () (set_pt (wake_proc (CH_SLEEPLOCK (SL_BUF i)) <$> s.(pt)) (set_fs released s)).
Proof.
  destruct (bi_held _ _ _ Hinv i Hi) as (Hlt & Hlk & Href & Hdev). fold x b in Hlk, Href, Hdev.
  pose proof (kc_held _ _ Hctx) as Hh. pose proof (buf_len i Hlt) as Hil.
  unfold brelse. pose proof (holding_buf c s Hctx i x Hil Hlk) as Hhold.
  replace (set_fs x s) with s in Hhold by (unfold x; by destruct s).
  rewrite (bind_returns _ _ _ _ _ Hhold). cbn [negb].
  erewrite (bind_returns (releasesleep _)); [|apply (releasesleep_run c (SL_BUF i));
    [apply (kc_cur _ _ Hctx)|rewrite Hh; apply not_elem_of_nil|done|apply (kc_wf _ _ Hctx)|rewrite Hh; apply not_elem_of_nil]].
  set (P := wake_proc _ <$> pt s). unfold put_sl, upd_sl. change (fs s) with x. rewrite upd_buf_put by done.
  fold b. set (s1 := set_pt P _).
  kcall (acquire_free BCACHE_LOCK s1 ltac:(simpl; rewrite Hh; apply not_elem_of_nil)).
  change (held s1) with (held s). rewrite Hh.
  change (set_held [BCACHE_LOCK] s1) with
    (set_fs (put_buf i (set_b_lock (mkslk 0 0) b) x) (set_pt P (set_held [BCACHE_LOCK] s))).
  rewrite bind_modb_put by done. cbn [b_refcnt set_b_lock]. rewrite Href. change (u32 (1 - 1)) with 0.
  unfold getb. rewrite bind_get. change (get_buf i (set_fs ?y _)) with (y.(bufs) !!! i).
  rewrite put_buf_same by done. cbn [b_refcnt set_b_refcnt Z.eqb when]. rewrite bind_modify.
  rewrite (release_head _ []) by (done || apply not_elem_of_nil).
  f_equal. unfold released. destruct s. simpl in *. by subst held.
Qed.

Lemma released_inv : dirty b ∨ b_data b = x.(disk) (b_blockno b) →
  bc_inv pid (L ∖ {[i]}) released ∧ (∀ b', blk released b' = blk x b').
Proof.
  intros Hcoh. pose proof Hinv as [Il Ir Iu Ih Ifr If Ic Id Ik]. fold x in Il, Ir, Iu, Ih, Ifr, If, Ic, Id, Ik.
  pose proof locked_lt as Hlt. pose proof (buf_len i Hlt) as Hil.
  set (v := set_b_refcnt 0 (set_b_lock (mkslk 0 0) b)).
  assert (∀ j, ∃ lk r, bufs released !!! j = set_b_refcnt r (set_b_lock lk (bufs x !!! j))
    ∧ (j ≠ i → bufs released !!! j = bufs x !!! j)) as Hsame.
  { intros j. change (bufs released) with (bufs (put_buf i v x)). destruct (decide (j = i)) as [->|Hj].
    - rewrite put_buf_same by done. by eexists _, _.
    - rewrite put_buf_ne by done. exists (b_lock (bufs x !!! j)), (b_refcnt (bufs x !!! j)).
      by destruct (bufs x !!! j). }
  assert (bc_inv pid (L ∖ {[i]}) released) as Hinv'.
  { split; try done.
    + change (bufs released) with (bufs (put_buf i v x)). by rewrite length_put_buf.
    + cbn [blru released set_blru]. etrans; [|apply Ir]. symmetry.
      assert (NoDup (blru x)) as Hnd by (rewrite Ir; apply NoDup_seq).
      assert (i ∈ blru x) as Hin by (rewrite Ir, elem_of_seq; lia).
      clear -Hnd Hin. apply NoDup_Permutation; [done| |].
      * constructor; [rewrite list_elem_of_filter; naive_solver|by apply list.NoDup_filter].
      * intros k. rewrite elem_of_cons, list_elem_of_filter. destruct (decide (k = i)); naive_solver.
    + intros j k Hj Hk. destruct (Hsame j) as (? & ? & -> & _), (Hsame k) as (? & ? & -> & _). by apply Iu.
    + intros j [Hj Hn]%elem_of_difference. destruct (Hsame j) as (? & ? & _ & ->); [by apply Ih|set_solver].
    + intros j Hj Hn. destruct (decide (j = i)) as [->|Hji].
      * change (bufs released) with (bufs (put_buf i v x)). rewrite put_buf_same by done. done.
      * destruct (Hsame j) as (? & ? & _ & ->); [apply Ifr; set_solver|done].
    + intros j Hj. destruct (Hsame j) as (? & ? & -> & _). apply (If j Hj).
    + intros j Hj Hn. cbv zeta. destruct (Hsame j) as (? & ? & -> & _). destruct (decide (j = i)) as [->|Hji].
      * intros Hv. fold b in Hv |- *. destruct Hcoh as [Hd|Hd]; [|done]. unfold valid_clean in Hv. simpl in Hv.
        by rewrite Hd in Hv.
      * apply Ic; set_solver.
    + intros j Hj. destruct (Hsame j) as (? & ? & -> & _). by apply Id. }
  split; [done|]. apply (blk_same _ _ _ _ _ Hinv Hinv'); [done|].
  intros j _. by destruct (Hsame j) as (? & ? & -> & _).
Qed.
End locked.
End ops.

(** ** The cache as an abstract disk

    A view of the cache: the current contents of the blocks, the contents of
    the disk, the writes made to it, the blocks pinned in the cache by their
    dirty flag, and the locked buffers with their blocks.  [cache_rep] says
    that a concrete cache implements a view; the operations of [bio.c] are
    then simple steps of the view. *)

Record cview : Type := mkcv {
  cv_blk : Z → list Z;
  cv_disk : Z → list Z;
  cv_writes : list (Z * list Z);
  cv_dirty : gset Z;
  cv_held : gmap nat Z
}.

Record cache_rep (pid : Z) (V : cview) (x : fsstate) : Prop := {
  cr_inv : bc_inv pid (dom V.(cv_held)) x;
  cr_blk : ∀ b, blk x b = V.(cv_blk) b;
  cr_disk : x.(disk) = V.(cv_disk);
  cr_writes : x.(writes) = V.(cv_writes);
  cr_dirty : ∀ i, (i < NBUF)%nat → let v := x.(bufs) !!! i in
    dirty v ↔ b_dev v = 1 ∧ b_blockno v ∈ V.(cv_dirty);
  cr_pinned : ∀ b, b ∈ V.(cv_dirty) → cached b x;
  cr_held : ∀ i b, V.(cv_held) !! i = Some b → b_blockno (x.(bufs) !!! i) = b
}.

Definition v_lock (i : nat) (b : Z) (V : cview) : cview :=
  mkcv V.(cv_blk) V.(cv_disk) V.(cv_writes) V.(cv_dirty) (<[i := b]> V.(cv_held)).
Definition v_unlock (i : nat) (V : cview) : cview :=
  mkcv V.(cv_blk) V.(cv_disk) V.(cv_writes) V.(cv_dirty) (delete i V.(cv_held)).
Definition v_set (b : Z) (d : list Z) (V : cview) : cview :=
  mkcv (<[b := d]> V.(cv_blk)) V.(cv_disk) V.(cv_writes) V.(cv_dirty) V.(cv_held).
Definition v_pin (b : Z) (V : cview) : cview :=
  mkcv V.(cv_blk) V.(cv_disk) V.(cv_writes) ({[b]} ∪ V.(cv_dirty)) V.(cv_held).
Definition v_write (b : Z) (V : cview) : cview :=
  mkcv V.(cv_blk) (<[b := V.(cv_blk) b]> V.(cv_disk)) (V.(cv_writes) ++ [(b, V.(cv_blk) b)])
    (V.(cv_dirty) ∖ {[b]}) V.(cv_held).

(** The number of buffers in use bounds the views that need no new buffer. *)
Definition has_room (b : Z) (V : cview) : Prop :=
  b ∈ V.(cv_dirty) ∨ (size V.(cv_held) + size V.(cv_dirty) < NBUF)%nat.

Lemma dirty_count pid V x : cache_rep pid V x →
  (length (filter (fun i => dirty (x.(bufs) !!! i)) (seq 0 NBUF)) <= size V.(cv_dirty))%nat.
Proof.
  intros HV. set (D := filter _ (seq 0 NBUF)).
  assert (∀ i, i ∈ D → (i < NBUF)%nat ∧ dirty (x.(bufs) !!! i)) as HD.
  { intros i. unfold D. rewrite list_elem_of_filter, elem_of_seq. intros [? ?]. split; [lia|done]. }
  assert (NoDup D) as Hnd by (apply list.NoDup_filter, NoDup_seq).
  assert (NoDup ((λ i, b_blockno (x.(bufs) !!! i)) <$> D)) as Hnd'.
  { apply NoDup_fmap_2_strong; [|done]. intros i j [Hi Hdi]%HD [Hj Hdj]%HD E.
    apply (bi_uniq _ _ _ (cr_inv _ _ _ HV)); [done|done| | |done]; by apply (cr_dirty _ _ _ HV). }
  rewrite <- (length_fmap (λ i, b_blockno (x.(bufs) !!! i)) D), <- (size_list_to_set (C := gset Z)) by done.
  apply subseteq_size. intros b. rewrite elem_of_list_to_set, list_elem_of_fmap.
  intros (i & -> & [Hi Hd]%HD). by apply (cr_dirty _ _ _ HV).
Qed.

Lemma rep_room pid V x b : cache_rep pid V x → has_room b V → room (dom V.(cv_held)) x ∨ cached b x.
Proof.
  intros HV [Hb|Hlt]; [right; by apply (cr_pinned _ _ _ HV)|left].
  set (P := fun i => i ∉ dom V.(cv_held) ∧ ¬ dirty (x.(bufs) !!! i)).
  destruct (decide (Exists P (seq 0 NBUF))) as [(i & Hi & Hn & Hd)%list.Exists_exists|Hno].
  { exists i. rewrite elem_of_seq in Hi. split; [lia|done]. }
  exfalso. rewrite <- Forall_Exists_neg, list.Forall_forall in Hno.
  pose proof (dirty_count _ _ _ HV) as Hc. set (D := filter _ (seq 0 NBUF)) in Hc.
  assert (size (set_seq 0 NBUF : gset nat) <= size (dom V.(cv_held) ∪ list_to_set D))%nat as Hs.
  { apply subseteq_size. intros i. rewrite elem_of_set_seq, elem_of_union, elem_of_list_to_set. intros Hi.
    unfold D. rewrite list_elem_of_filter, elem_of_seq.
    destruct (decide (i ∈ dom V.(cv_held))) as [?|Hin]; [by left|right].
    destruct (decide (dirty (x.(bufs) !!! i))) as [?|Hd]; [split; [done|lia]|].
    destruct (Hno i); [rewrite elem_of_seq; lia|]. done. }
  rewrite size_set_seq, size_union_alt in Hs.
  assert (size (list_to_set D ∖ dom (cv_held V)) <= length D)%nat as Hd.
  { etrans; [apply subseteq_size, subseteq_difference_l; reflexivity|]. rewrite size_list_to_set; [done|].
    apply list.NoDup_filter, NoDup_seq. }
  rewrite size_dom in Hs. lia.
Qed.

Lemma rep_blkno pid V x i b : cache_rep pid V x → V.(cv_held) !! i = Some b →
  (i < NBUF)%nat ∧ i ∈ dom V.(cv_held) ∧ ∃ f, x.(bufs) !!! i = mkbuf f 1 b (mkslk 1 pid) 1 (V.(cv_blk) b).
Proof.
  intros HV Hb. assert (i ∈ dom V.(cv_held)) as Hi by by apply elem_of_dom_2 in Hb.
  destruct (bi_held _ _ _ (cr_inv _ _ _ HV) i Hi) as (Hlt & Hl & Hr & Hd).
  split; [done|]. split; [done|]. exists (b_flags (x.(bufs) !!! i)).
  pose proof (cr_held _ _ _ HV i b Hb) as Hbn.
  pose proof (blk_cached _ _ _ i (cr_inv _ _ _ HV) Hlt Hd) as Hc. rewrite Hbn, (cr_blk _ _ _ HV) in Hc.
  destruct (x.(bufs) !!! i). simpl in *. congruence.
Qed.

(** A process in the kernel over a cache with view [V]. *)
Definition bio_st (c : nat) (V : cview) (s : kstate) : Prop := kctx c s ∧ cache_rep (mypid c s) V s.(fs).

(** What the cache operations leave alone. *)
Definition fs_step (s s' : kstate) : Prop := fs_only s s' ∧ same_rest s.(fs) s'.(fs).

#[global] Instance same_rest_preorder : PreOrder same_rest.
Proof. split; [done|]. intros x y z (?&?&?&?) (?&?&?&?). repeat split; congruence. Qed.

#[global] Instance fs_step_preorder : PreOrder fs_step.
Proof.
  split; [done|]. intros s1 s2 s3 [? ?] [? ?].
  split; [by transitivity s2|by transitivity (fs s2)].
Qed.

Lemma fs_step_fs x s : same_rest s.(fs) x → fs_step s (set_fs x s).
Proof. intros H. split; [apply fs_only_fs|done]. Qed.

Lemma bio_st_intro c V V' s x : bio_st c V s → cache_rep (mypid c s) V' x → bio_st c V' (set_fs x s).
Proof. intros [[? ? ?] _] H. split; [by split|done]. Qed.

Section view.
Context {WF : WaitFuel} (Hfuel : wait_fuel ≠ 0%nat) (c : nat) (V : cview) (s : kstate) (HV : bio_st c V s).

Lemma bread_spec b : 0 <= b < s.(fs).(disksize) → (∀ i, V.(cv_held) !! i ≠ Some b) → has_room b V →
  runs (bread 1 b) s (λ i s', fs_step s s' ∧ V.(cv_held) !! i = None ∧ bio_st c (v_lock i b V) s').
Proof.
  intros Hb Hn Hroom. destruct HV as [Hctx HR].
  destruct (bread_run Hfuel c s Hctx _ (cr_inv _ _ _ HR) b) as (i & x' & E & G).
  - intros i [b' Hi]%elem_of_dom. rewrite (cr_held _ _ _ HR i b' Hi). intros ->. by apply (Hn i).
  - done.
  - by apply (rep_room _ _ _ _ HR).
  - destruct G as [Glt Gn Ginv Gblk [f Gb] Gh Gr [Gd Gw] Gc Gdi Gk]. apply (runs_eq _ _ _ _ _ E).
    split; [by apply fs_step_fs|]. apply not_elem_of_dom in Gn. split; [done|]. apply (bio_st_intro _ V); [done|].
    assert (x'.(bufs) !!! i = mkbuf f 1 b (mkslk 1 (mypid c s)) 1 (blk (fs s) b)) as Gb' by done.
    split; simpl.
    + rewrite dom_insert_L. done.
    + intros b'. rewrite Gblk. apply (cr_blk _ _ _ HR).
    + rewrite Gd. apply (cr_disk _ _ _ HR).
    + rewrite Gw. apply (cr_writes _ _ _ HR).
    + intros j Hj. destruct (decide (j = i)) as [->|Hji]; [|rewrite Gh by done; by apply (cr_dirty _ _ _ HR)].
      rewrite Gdi, Gb'. simpl. split.
      * intros (k & Hk & [_ <-] & Hd). split; [done|]. by apply (cr_dirty _ _ _ HR k Hk).
      * intros [_ Hbd]. destruct (cr_pinned _ _ _ HR b Hbd) as (k & Hk & Hh). exists k.
        split; [done|]. split; [done|]. apply (cr_dirty _ _ _ HR k Hk). by destruct Hh as [? ->].
    + intros b' Hb'. destruct (decide (b' = b)) as [->|Hne]; [exists i; by rewrite Gb'|].
      destruct (cr_pinned _ _ _ HR b' Hb') as (k & Hk & Hh). exists k. split; [done|]. rewrite Gh; [done|].
      intros ->. destruct Gk as [_ Hkb]; [|by destruct Hh; congruence].
      apply (cr_dirty _ _ _ HR i Hk). by destruct Hh as [? ->].
    + intros j b'. destruct (decide (j = i)) as [->|Hji].
      * rewrite lookup_insert_eq. intros [= <-]. by rewrite Gb'.
      * rewrite lookup_insert_ne by done. rewrite Gh by done. apply (cr_held _ _ _ HR).
Qed.

(** Changing a locked buffer. *)
Lemma put_rep i b v V' x' : V.(cv_held) !! i = Some b → b_dev v = 1 → b_blockno v = b →
  bc_inv (mypid c s) (dom V'.(cv_held)) x' → x'.(bufs) = <[i := v]> s.(fs).(bufs) →
  (∀ b', blk x' b' = V'.(cv_blk) b') → x'.(disk) = V'.(cv_disk) → x'.(writes) = V'.(cv_writes) →
  V'.(cv_held) = V.(cv_held) → (dirty v ↔ b ∈ V'.(cv_dirty)) →
  (∀ b', b' ≠ b → b' ∈ V'.(cv_dirty) ↔ b' ∈ V.(cv_dirty)) →
  cache_rep (mypid c s) V' x'.
Proof.
  intros Hi Hd Hb Hinv Hbufs Hblk Hdisk Hw Hheld Hdv Hdirty. destruct HV as [Hctx HR].
  destruct (rep_blkno _ _ _ _ _ HR Hi) as (Hlt & _ & f & Hv).
  assert (x'.(bufs) !!! i = v) as Hs.
  { rewrite Hbufs. apply list_lookup_total_insert_eq. by rewrite (bi_len _ _ _ (cr_inv _ _ _ HR)). }
  assert (∀ j, j ≠ i → x'.(bufs) !!! j = s.(fs).(bufs) !!! j) as Hne.
  { intros j Hj. rewrite Hbufs. by apply list_lookup_total_insert_ne. }
  split; try done.
  - intros j Hj. destruct (decide (j = i)) as [->|Hji]; [cbv zeta; rewrite Hs, Hd, Hb, Hdv; naive_solver|].
    rewrite Hne by done. cbv zeta. rewrite (cr_dirty _ _ _ HR j Hj). split; intros [Hdj Hbj]; split; try done.
    all: apply Hdirty; [|done]. all: intros E; apply Hji.
    all: apply (bi_uniq _ _ _ (cr_inv _ _ _ HR)); try done; rewrite Hv; done.
  - intros b' Hb'. destruct (decide (b' = b)) as [->|Hbb]; [exists i; by rewrite Hs|].
    rewrite Hdirty in Hb' by done. destruct (cr_pinned _ _ _ HR b' Hb') as (k & Hk & Hh).
    exists k. split; [done|]. rewrite Hne; [done|]. intros ->. rewrite Hv in Hh. by destruct Hh.
  - intros j b'. rewrite Hheld. intros Hj. destruct (decide (j = i)) as [->|Hji]; [congruence|].
    rewrite Hne by done. by apply (cr_held _ _ _ HR).
Qed.

Section held.
Context (i : nat) (b : Z) (Hi : V.(cv_held) !! i = Some b).

Lemma put_step v V' : let v0 := s.(fs).(bufs) !!! i in b_dev v = 1 → b_blockno v = b → b_lock v = b_lock v0 →
  b_refcnt v = 1 → valid_clean v ∨ dirty v → length (b_data v) = BSIZE →
  (∀ b', V'.(cv_blk) b' = if decide (b' = b) then b_data v else V.(cv_blk) b') →
  V'.(cv_disk) = V.(cv_disk) → V'.(cv_writes) = V.(cv_writes) → V'.(cv_held) = V.(cv_held) →
  (dirty v ↔ b ∈ V'.(cv_dirty)) → (∀ b', b' ≠ b → b' ∈ V'.(cv_dirty) ↔ b' ∈ V.(cv_dirty)) →
  bio_st c V' (set_fs (put_buf i v s.(fs)) s).
Proof.
  intros v0 Hd Hb Hl Hr Hf Hlen Hblk Hdisk Hw Hheld Hdv Hdirty. apply (bio_st_intro _ V); [done|].
  pose proof HV as [Hctx HR]. destruct (rep_blkno _ _ _ _ _ HR Hi) as (Hlt & Hdom & f & Hv).
  destruct (locked_put Hfuel c s Hctx _ (cr_inv _ _ _ HR) i Hdom v) as [Hinv' Hblk']; try done.
  - by rewrite Hb, Hv.
  - by rewrite Hr, Hv.
  - apply (put_rep i b v); try done.
    + by rewrite Hheld.
    + intros b'. rewrite Hblk', Hblk, Hv. cbn [b_blockno]. case_decide; [done|apply (cr_blk _ _ _ HR)].
    + rewrite Hdisk. apply (cr_disk _ _ _ HR).
    + rewrite Hw. apply (cr_writes _ _ _ HR).
Qed.

Lemma held_buf : ∃ f, s.(fs).(bufs) !!! i = mkbuf f 1 b (mkslk 1 (mypid c s)) 1 (V.(cv_blk) b)
  ∧ (f = B_VALID ∨ f = Z.lor B_VALID B_DIRTY) ∧ (f = Z.lor B_VALID B_DIRTY ↔ b ∈ V.(cv_dirty))
  ∧ length (V.(cv_blk) b) = BSIZE ∧ (i < length s.(fs).(bufs))%nat ∧ 0 <= b < s.(fs).(disksize).
Proof.
  pose proof HV as [Hctx HR]. destruct (rep_blkno _ _ _ _ _ HR Hi) as (Hlt & Hdom & f & Hv).
  exists f. split; [done|]. pose proof (cr_inv _ _ _ HR) as HI.
  destruct (locked_bounds c s _ HI i Hdom) as [Hbd Hf]. rewrite Hv in Hbd, Hf.
  split; [done|]. split; [|split; [|split; [|done]]].
  - pose proof (cr_dirty _ _ _ HR i Hlt) as Hd. rewrite Hv in Hd. unfold dirty in Hd. simpl in Hd.
    rewrite Hd. naive_solver.
  - pose proof (bi_data _ _ _ HI i Hlt) as Hdat. by rewrite Hv in Hdat.
  - by rewrite (bi_len _ _ _ HI).
Qed.

(** Assigning the data of a locked buffer. *)
Lemma set_data_spec d : length d = BSIZE →
  bio_st c (v_set b d V) (set_fs (upd_buf i (set_b_data d) s.(fs)) s).
Proof.
  intros Hlen. destruct held_buf as (f & Hv & Hf & Hdf & _ & Hil & _). rewrite upd_buf_put by done.
  rewrite Hv. apply put_step; try done; [by rewrite Hv|]. intros b'. simpl.
  case_decide as E; [subst b'; by rewrite fn_lookup_insert|by rewrite fn_lookup_insert_ne].
Qed.

(** Pinning a locked buffer in the cache. *)
Lemma pin_spec :
  bio_st c (v_pin b V) (set_fs (upd_buf i (fun p => set_b_flags (Z.lor p.(b_flags) B_DIRTY) p) s.(fs)) s).
Proof.
  destruct held_buf as (f & Hv & Hf & Hdf & Hlen & Hil & _). rewrite upd_buf_put by done. rewrite Hv.
  assert (Z.lor f B_DIRTY = Z.lor B_VALID B_DIRTY) as E by (by destruct Hf as [-> | ->]).
  apply put_step; try done; simpl.
  - by rewrite Hv.
  - right. done.
  - intros b'. case_decide as E'; by subst.
  - unfold dirty. simpl. rewrite E. set_solver.
  - set_solver.
Qed.

Lemma bwrite_spec : runs (bwrite i) s (λ _ s', fs_step s s' ∧ bio_st c (v_write b V) s').
Proof.
  pose proof HV as [Hctx HR]. destruct (rep_blkno _ _ _ _ _ HR Hi) as (Hlt & Hdom & f & Hv).
  pose proof (bwrite_run c s Hctx _ (cr_inv _ _ _ HR) i Hdom) as E. apply (runs_eq _ _ _ _ _ E).
  split; [by apply fs_step_fs|]. apply (bio_st_intro _ V); [done|].
  destruct (written_inv Hfuel c s Hctx _ (cr_inv _ _ _ HR) i Hdom) as [Hinv Hblk]. rewrite Hv in Hinv, Hblk |- *.
  apply (put_rep i b (mkbuf B_VALID 1 b (mkslk 1 (mypid c s)) 1 (V.(cv_blk) b))); try done.
  - intros b'. rewrite Hblk. apply (cr_blk _ _ _ HR).
  - simpl. by rewrite (cr_disk _ _ _ HR).
  - simpl. by rewrite (cr_writes _ _ _ HR).
  - simpl. split; [done|set_solver].
  - simpl. set_solver.
Qed.

Lemma brelse_spec : b ∈ V.(cv_dirty) ∨ V.(cv_blk) b = V.(cv_disk) b →
  runs (brelse i) s (λ _ s', fs_step s s' ∧ bio_st c (v_unlock i V) s').
Proof.
  intros Hcoh. pose proof HV as [Hctx HR]. destruct (rep_blkno _ _ _ _ _ HR Hi) as (Hlt & Hdom & f & Hv).
  pose proof (brelse_run c s Hctx _ (cr_inv _ _ _ HR) i Hdom) as E. apply (runs_eq _ _ _ _ _ E).
  destruct held_buf as (f' & Hv' & Hf & Hdf & Hlen & Hil & _). rewrite Hv in Hv'. injection Hv' as <-.
  destruct (released_inv Hfuel c s Hctx _ (cr_inv _ _ _ HR) i Hdom) as [Hinv Hblk].
  { rewrite Hv. destruct Hcoh as [Hb|Hb]; [left|right].
    - unfold dirty. simpl. by apply Hdf.
    - simpl. rewrite Hb. by rewrite (cr_disk _ _ _ HR). }
  assert (fs_step s (set_pt (wake_proc (CH_SLEEPLOCK (SL_BUF i)) <$> s.(pt)) (set_fs (released s i) s))) as Hstep
    by (split; [apply fs_only_wake|done]).
  split; [done|]. destruct (fs_only_ctx c _ _ (proj1 Hstep) Hctx) as [Hc' Hpid]. split; [done|].
  rewrite Hpid. clear Hstep Hc' Hpid E. cbn [fs set_pt set_fs].
  set (v := mkbuf f 1 b (mkslk 0 0) 0 (V.(cv_blk) b)).
  assert ((released s i).(bufs) = <[i := v]> s.(fs).(bufs)) as Hbufs by (unfold released; simpl; by rewrite Hv).
  assert ((released s i).(bufs) !!! i = v) as Hs by (rewrite Hbufs; by apply list_lookup_total_insert_eq).
  assert (∀ j, j ≠ i → (released s i).(bufs) !!! j = s.(fs).(bufs) !!! j) as Hne.
  { intros j Hj. rewrite Hbufs. by apply list_lookup_total_insert_ne. }
  split.
  - simpl. by rewrite dom_delete_L.
  - intros b'. rewrite Hblk. apply (cr_blk _ _ _ HR).
  - apply (cr_disk _ _ _ HR).
  - apply (cr_writes _ _ _ HR).
  - intros j Hj. destruct (decide (j = i)) as [->|Hji]; [|rewrite Hne by done; by apply (cr_dirty _ _ _ HR)].
    rewrite Hs. pose proof (cr_dirty _ _ _ HR i Hlt) as Hd. rewrite Hv in Hd. apply Hd.
  - intros b' Hb'. destruct (cr_pinned _ _ _ HR b' Hb') as (k & Hk & Hh). exists k. split; [done|].
    destruct (decide (k = i)) as [->|Hki]; [|by rewrite Hne]. rewrite Hs. rewrite Hv in Hh. done.
  - intros j b'. simpl. rewrite lookup_delete_Some. intros [Hji Hj]. rewrite Hne by done.
    by apply (cr_held _ _ _ HR).
Qed.
End held.
End view.

(** ** Boot *)

Lemma alter_id_eq {A} (f : A → A) i (l : list A) : (∀ a, l !! i = Some a → f a = a) → alter f i l = l.
Proof.
  intros H. apply list_eq. intros j. destruct (decide (j = i)) as [->|Hj].
  - rewrite list_lookup_alter_eq. destruct (l !! i) eqn:E; [|done]. simpl. by rewrite H.
  - by rewrite list_lookup_alter_ne.
Qed.

Lemma initsleeplock_zero i n s : s.(fs).(bufs) = replicate n buf0 → (i < n)%nat →
  initsleeplock (SL_BUF i) s = Ret () s.
Proof.
  intros Hb Hi. assert (get_sl (SL_BUF i) s = slk0) as Hg.
  { simpl. unfold get_buf. rewrite Hb, list_lookup_total_alt, lookup_replicate_2 by done. done. }
  assert (put_sl (SL_BUF i) slk0 s = s) as Hput.
  { unfold put_sl, upd_sl, upd_buf. rewrite alter_id_eq; [by destruct s as [? ? ? ? ? ? ? ? ? ? ? ? ? ? ? ? ? ? ? ? ? []]|].
    intros a. rewrite Hb. by intros [-> _]%lookup_replicate. }
  unfold initsleeplock. rewrite bind_modsl, Hg. change (set_sl_locked 0 slk0) with slk0. rewrite Hput.
  unfold modsl, modify. change (upd_sl (SL_BUF i) (set_sl_pid 0 (get_sl (SL_BUF i) s)) (fs s)) with
    (fs (put_sl (SL_BUF i) (set_sl_pid 0 (get_sl (SL_BUF i) s)) s)).
  rewrite Hg. change (set_sl_pid 0 slk0) with slk0. rewrite Hput. by destruct s.
Qed.

Lemma binit_loop l n s : s.(fs).(bufs) = replicate n buf0 → (∀ i, i ∈ l → (i < n)%nat) →
  foldM (fun _ i =>
    initsleeplock (SL_BUF i);;
    modify (fun s => set_fs (set_blru (i :: s.(fs).(blru)) s.(fs)) s)) l () s
  = Ret () (set_fs (set_blru (reverse l ++ s.(fs).(blru)) s.(fs)) s).
Proof.
  revert s. induction l as [|i l IH]; intros s Hb Hl; cbn [foldM].
  - unfold ret. f_equal. by destruct s as [? ? ? ? ? ? ? ? ? ? ? ? ? ? ? ? ? ? ? ? ? []].
  - unfold bind at 1. rewrite (bind_returns _ _ _ _ _ (initsleeplock_zero i n s Hb ltac:(apply Hl; by left))).
    unfold modify at 1. cbn [cbind]. rewrite IH; [|done|intros j Hj; apply Hl; by right].
    cbn [fs set_fs blru set_blru]. by rewrite reverse_cons, <- (assoc_L (++)).
Qed.

(** The cache starts with no block cached, locked or pinned. *)
Lemma binit_spec c s : kctx c s → s.(fs).(bufs) = replicate NBUF buf0 →
  (∀ b, length (s.(fs).(disk) b) = BSIZE) →
  runs binit s (λ _ s', fs_step s s' ∧
    bio_st c (mkcv s.(fs).(disk) s.(fs).(disk) s.(fs).(writes) ∅ ∅) s').
Proof.
  intros Hc Hb Hd. set (x := set_blru (reverse (seq 0 NBUF)) s.(fs)).
  assert (binit s = Ret () (set_fs x s)) as E.
  { unfold binit, modfs. rewrite bind_modify. rewrite (binit_loop _ NBUF); [|done|].
    - cbn [fs set_fs set_blru blru]. rewrite app_nil_r. done.
    - intros i. rewrite elem_of_seq. lia. }
  apply (runs_eq _ _ _ _ _ E). split; [by apply fs_step_fs|]. split; [by destruct Hc|].
  assert (∀ i, (i < NBUF)%nat → x.(bufs) !!! i = buf0) as Hx.
  { intros i Hi. change (bufs x) with (bufs (fs s)). rewrite Hb, list_lookup_total_alt.
    by rewrite lookup_replicate_2. }
  assert (∀ b i, (i < NBUF)%nat → ¬ holds b (x.(bufs) !!! i)) as Hnone.
  { intros b i Hi. rewrite Hx by done. by intros [? _]. }
  assert (bc_inv (mypid c s) ∅ x) as Hinv.
  { split; try done.
    - change (bufs x) with (bufs (fs s)). by rewrite Hb, length_replicate.
    - cbn [blru x set_blru]. apply reverse_Permutation.
    - intros i j Hi Hj. by rewrite Hx.
    - intros i Hi Hn. by rewrite Hx.
    - intros i Hi. right. by rewrite Hx.
    - intros i Hi Hn. cbv zeta. by rewrite Hx.
    - intros i Hi. by rewrite Hx. }
  split; simpl; try done.
  - intros b. apply (blk_uncached (mypid c s) ∅ x); [done|by apply Hnone].
  - intros i Hi. change (bufs (fs s)) with (bufs x). rewrite Hx by done. split; [done|set_solver].
Qed.

(** ** The block cache implements a disk with pinned writes *)

(** C32: With a view [V] of the cache, [bread] of a block that is not locked
    and for which a buffer can be found returns a locked buffer with the
    current contents of the block, without changing any block; [bwrite] of a
    locked buffer makes exactly one disk write, of the buffer's block and
    contents; [brelse] of a buffer that is pinned or agrees with the disk
    unlocks it and changes nothing else.  The operations keep the
    representation of the view, so no block is cached twice and unlocked clean
    buffers agree with the disk. *)
Theorem cache_refines_disk {WF : WaitFuel} (Hfuel : wait_fuel ≠ 0%nat) c V s : bio_st c V s →
  (∀ b, 0 <= b < s.(fs).(disksize) → (∀ i, V.(cv_held) !! i ≠ Some b) → has_room b V →
     runs (bread 1 b) s (λ i s', fs_step s s' ∧ V.(cv_held) !! i = None ∧ bio_st c (v_lock i b V) s'
       ∧ b_data (get_buf i s') = V.(cv_blk) b)) ∧
  (∀ i b, V.(cv_held) !! i = Some b →
     runs (bwrite i) s (λ _ s', fs_step s s' ∧ bio_st c (v_write b V) s')) ∧
  (∀ i b, V.(cv_held) !! i = Some b → b ∈ V.(cv_dirty) ∨ V.(cv_blk) b = V.(cv_disk) b →
     runs (brelse i) s (λ _ s', fs_step s s' ∧ bio_st c (v_unlock i V) s')).
Proof.
  intros HV. split; [|split].
  - intros b Hb Hn Hr. eapply runs_mono; [by apply (bread_spec Hfuel c V s HV)|].
    intros i s' (Hs & Hi & HV'). do 3 (split; [done|]).
    destruct (held_buf c _ s' HV' i b) as (f & Hbuf & _); [apply lookup_insert_eq|].
    unfold get_buf. by rewrite Hbuf.
  - intros i b Hi. by apply (bwrite_spec Hfuel).
  - intros i b Hi Hc. by apply (brelse_spec Hfuel c V s HV i b).
Qed.

(** A machine with an empty cache over a disk of 1000 blocks. *)
Definition demo_fs : kstate := set_fs (set_disksize 1000 fs0) demo.

Lemma demo_fs_ctx : kctx 1 demo_fs.
Proof. split; reflexivity. Qed.

Lemma cache_refines_disk_witness : 0 <= 33 < demo_fs.(fs).(disksize) ∧
  let WF : WaitFuel := 1%nat in
  runs (binit;; bread 1 33) demo_fs (λ i s', fs_step demo_fs s' ∧ b_data (get_buf i s') = replicate BSIZE 0).
Proof.
  assert (0 <= 33 < 1000) as Hr33 by lia. split; [exact Hr33|]. intros WF.
  eapply runs_bind; [apply (binit_spec 1 demo_fs demo_fs_ctx); [reflexivity|intros b; reflexivity]|].
  intros [] s' [Hs HV]. set (V := mkcv _ _ _ _ _) in HV.
  destruct (cache_refines_disk (WF := WF) ltac:(discriminate) 1 V s' HV) as [Hr _].
  eapply runs_mono; [apply (Hr 33)|].
  - destruct Hs as [_ (_ & _ & _ & Hd)]. rewrite Hd. exact Hr33.
  - intros i. discriminate.
  - right. unfold V. cbn [cv_held cv_dirty]. rewrite map_size_empty, size_empty. apply Nat.lt_0_succ.
  - intros i s'' (Hs' & _ & _ & E). split; [by transitivity s'|]. exact E.
Defined.
