(* ===== verification/Log.v ===== *)
(** * The log: [log.c]

    The system calls that write the file system run between [begin_op] and
    [end_op]; the blocks they change stay in the cache until the last of them
    ends and [commit] writes them to the log, then the header, then their home
    locations.  The file holds the operations, their effect on the view of the
    cache, and the proof that a crash between any two disk writes of a commit
    leaves a disk from which [recover_from_log] restores all or none of the
    changes. *)

From stdpp Require Import base numbers option list sets strings gmap fin_maps functions.
From Stdlib Require Import ZArith Lia.
From S2P Require Import Prelude State Locks Kalloc Proc Sleeplock Bio.

(** ** Words in blocks *)

Definition ld32 (l : list Z) (o : nat) : Z :=
  l !!! o + 256 * l !!! (o + 1)%nat + 65536 * l !!! (o + 2)%nat + 16777216 * l !!! (o + 3)%nat.

Definition st32 (o : nat) (v : Z) (l : list Z) : list Z :=
  <[(o + 3)%nat := (u32 v / 16777216) mod 256]> (<[(o + 2)%nat := (u32 v / 65536) mod 256]>
    (<[(o + 1)%nat := (u32 v / 256) mod 256]> (<[o := u32 v mod 256]> l))).

(** ** The super block, read by [readsb] of [fs.c] *)

Definition sb_of (d : list Z) : superblock :=
  mksb (ld32 d 0) (ld32 d 4) (ld32 d 8) (ld32 d 12) (ld32 d 16) (ld32 d 20) (ld32 d 24).

(** ** Operations *)

Definition get_log (s : kstate) : logstate := s.(fs).(log).
Definition modlog (f : logstate → logstate) : M unit := modfs (fun x => set_log (f x.(log)) x).

(** An access past the end of [lh.block] hits the memory behind it; such runs
    are not described further. *)
Definition out_of_range {A} : M A := fun s => Stuck s.

(** [for(i = 0; i < log.lh.n; i++) body], for the bodies that access
    [log.lh.block[i]]: index [LOGSIZE] is out of range. *)
Fixpoint for_lh (fuel i : nat) (body : nat → M unit) : M unit :=
  n <- get (fun s => (get_log s).(lh_n));;
  if Z.of_nat i <? n then
    match fuel with
    | O => out_of_range
    | S fuel => body i;; for_lh fuel (S i) body
    end
  else ret ().

Section log.
Context `{!WaitFuel}.

Definition readsb (dev : Z) : M superblock :=
  i <- bread dev 1;;
  b <- getb i;;
  brelse i;;
  ret (sb_of b.(b_data)).

(** Copy a committed block from the log to its home location. *)
Definition install_one (tail : nat) : M unit :=
  l <- get get_log;;
  lbuf <- bread l.(l_dev) (u32 (l.(l_start) + Z.of_nat tail + 1));;
  l <- get get_log;;
  dbuf <- bread l.(l_dev) (u32 (l.(lh_block) !!! tail));;
  b <- getb lbuf;;
  modb dbuf (set_b_data b.(b_data));;
  bwrite dbuf;;
  brelse lbuf;;
  brelse dbuf.

Definition install_trans : M unit := for_lh LOGSIZE 0 install_one.

Definition read_head : M unit :=
  l <- get get_log;;
  i <- bread l.(l_dev) (u32 l.(l_start));;
  b <- getb i;;
  modlog (set_lh_n (s32 (ld32 b.(b_data) 0)));;
  for_lh LOGSIZE 0 (fun k =>
    b <- getb i;;
    modlog (fun l => set_lh_block (<[k := s32 (ld32 b.(b_data) (4 + 4 * k))]> l.(lh_block)) l));;
  brelse i.

Definition write_head : M unit :=
  l <- get get_log;;
  i <- bread l.(l_dev) (u32 l.(l_start));;
  l <- get get_log;;
  modb i (fun b => set_b_data (st32 0 l.(lh_n) b.(b_data)) b);;
  for_lh LOGSIZE 0 (fun k =>
    l <- get get_log;;
    modb i (fun b => set_b_data (st32 (4 + 4 * k) (l.(lh_block) !!! k) b.(b_data)) b));;
  bwrite i;;
  brelse i.

Definition recover_from_log : M unit :=
  read_head;;
  install_trans;;
  modlog (set_lh_n 0);;
  write_head.

(** [sizeof(struct logheader)]. *)
Definition logheader_size : nat := 4 + 4 * LOGSIZE.

Definition initlog (dev : Z) : M unit :=
  if (BSIZE <=? logheader_size)%nat then panic "initlog: too big logheader" else
  sb <- readsb dev;;
  modlog (set_l_start (s32 sb.(sb_logstart)));;
  modlog (set_l_size (s32 sb.(sb_nlog)));;
  modlog (set_l_dev dev);;
  recover_from_log.

Fixpoint begin_op_loop (fuel : nat) : M unit :=
  match fuel with
  | O => fun s => Stuck s
  | S fuel =>
    l <- get get_log;;
    if truthy l.(l_committing) then
      sleep CH_LOG LOG_LOCK;; begin_op_loop fuel
    else if Z.of_nat LOGSIZE <? l.(lh_n) + (l.(l_outstanding) + 1) * MAXOPBLOCKS then
      sleep CH_LOG LOG_LOCK;; begin_op_loop fuel
    else
      modlog (fun l => set_l_outstanding (l.(l_outstanding) + 1) l);;
      release LOG_LOCK
  end.

Definition begin_op : M unit :=
  acquire LOG_LOCK;;
  begin_op_loop wait_fuel.

(** Copy a changed block from the cache to the log. *)
Definition write_log_one (tail : nat) : M unit :=
  l <- get get_log;;
  to <- bread l.(l_dev) (u32 (l.(l_start) + Z.of_nat tail + 1));;
  l <- get get_log;;
  from <- bread l.(l_dev) (u32 (l.(lh_block) !!! tail));;
  b <- getb from;;
  modb to (set_b_data b.(b_data));;
  bwrite to;;
  brelse from;;
  brelse to.

Definition write_log : M unit := for_lh LOGSIZE 0 write_log_one.

Definition commit : M unit :=
  l <- get get_log;;
  when (0 <? l.(lh_n)) (
    write_log;;
    write_head;;
    install_trans;;
    modlog (set_lh_n 0);;
    write_head).

Definition end_op : M unit :=
  acquire LOG_LOCK;;
  modlog (fun l => set_l_outstanding (l.(l_outstanding) - 1) l);;
  l <- get get_log;;
  if truthy l.(l_committing) then panic "log.committing" else
  let do_commit := l.(l_outstanding) =? 0 in
  (if do_commit then modlog (set_l_committing 1) else wakeup CH_LOG);;
  release LOG_LOCK;;
  when do_commit (
    commit;;
    acquire LOG_LOCK;;
    modlog (set_l_committing 0);;
    wakeup CH_LOG;;
    release LOG_LOCK).
End log.

(** The first entry of the header with the given block, or [n]. *)
Definition lh_find (l : logstate) (blockno : Z) : nat :=
  match List.find (fun k => u32 (l.(lh_block) !!! k) =? blockno) (seq 0 (Z.to_nat l.(lh_n))) with
  | Some k => k
  | None => Z.to_nat l.(lh_n)
  end.

Definition log_write (i : nat) : M unit :=
  l <- get get_log;;
  if (Z.of_nat LOGSIZE <=? l.(lh_n)) || (l.(l_size) - 1 <=? l.(lh_n)) then panic "too big a transaction" else
  if l.(l_outstanding) <? 1 then panic "log_write outside of trans" else
  acquire LOG_LOCK;;
  l <- get get_log;;
  b <- getb i;;
  let k := lh_find l b.(b_blockno) in
  (if (k <? LOGSIZE)%nat
   then modlog (fun l => set_lh_block (<[k := s32 b.(b_blockno)]> l.(lh_block)) l) else out_of_range);;
  when (Z.of_nat k =? l.(lh_n)) (modlog (fun l => set_lh_n (l.(lh_n) + 1) l));;
  modb i (fun b => set_b_flags (Z.lor b.(b_flags) B_DIRTY) b);;
  release LOG_LOCK.

(** ** Words in blocks: laws *)

Lemma length_st32 o v l : length (st32 o v l) = length l.
Proof. unfold st32. by rewrite !length_insert. Qed.

Lemma ld_st32_same o v l : (o + 3 < length l)%nat → ld32 (st32 o v l) o = u32 v.
Proof.
  intros H. unfold ld32, st32.
  rewrite !list_lookup_total_insert_ne by lia. rewrite list_lookup_total_insert_eq by (rewrite ?length_insert; lia).
  rewrite !list_lookup_total_insert_ne by lia. rewrite list_lookup_total_insert_eq by (rewrite ?length_insert; lia).
  rewrite !list_lookup_total_insert_ne by lia. rewrite list_lookup_total_insert_eq by (rewrite ?length_insert; lia).
  rewrite list_lookup_total_insert_eq by (rewrite ?length_insert; lia).
  apply bytes_of_word, u32_word.
Qed.

Lemma ld_st32_ne o o' v l : (o + 4 <= o' ∨ o' + 4 <= o)%nat → ld32 (st32 o v l) o' = ld32 l o'.
Proof. intros H. unfold ld32, st32. by rewrite !list_lookup_total_insert_ne by lia. Qed.

(** Consecutive words from offset [o]. *)
Fixpoint st_words (o : nat) (ws : list Z) (d : list Z) : list Z :=
  match ws with [] => d | w :: ws => st_words (o + 4) ws (st32 o w d) end.

Lemma length_st_words o ws d : length (st_words o ws d) = length d.
Proof. revert o d. induction ws as [|w ws IH]; intros o d; simpl; [done|]. by rewrite IH, length_st32. Qed.

Lemma st_words_snoc o ws w d : st_words o (ws ++ [w]) d = st32 (o + 4 * length ws) w (st_words o ws d).
Proof.
  revert o d. induction ws as [|v ws IH]; intros o d; simpl; [by rewrite Nat.add_0_r|].
  rewrite IH. f_equal. lia.
Qed.

Lemma ld_st_words_below o ws d o' : (o' + 4 <= o)%nat → ld32 (st_words o ws d) o' = ld32 d o'.
Proof.
  revert o d. induction ws as [|w ws IH]; intros o d Ho; simpl; [done|].
  rewrite IH by lia. apply ld_st32_ne. lia.
Qed.

Lemma ld_st_words o ws d k w : ws !! k = Some w → (o + 4 * length ws <= length d)%nat →
  ld32 (st_words o ws d) (o + 4 * k) = u32 w.
Proof.
  revert o d k. induction ws as [|v ws IH]; intros o d k Hk Hl; [done|].
  cbn [st_words length] in *. destruct k as [|k]; simpl in Hk.
  - injection Hk as ->. replace (o + 4 * 0)%nat with o by lia. rewrite ld_st_words_below by lia.
    apply ld_st32_same. lia.
  - replace (o + 4 * S k)%nat with (o + 4 + 4 * k)%nat by lia. apply IH; [done|]. rewrite length_st32. lia.
Qed.

(** ** The header block *)

Definition put_head (bl : list Z) (d : list Z) : list Z :=
  st_words 4 bl (st32 0 (Z.of_nat (length bl)) d).

Definition head_n (d : list Z) : Z := s32 (ld32 d 0).
Definition head_block (d : list Z) (k : nat) : Z := s32 (ld32 d (4 + 4 * k)).

(** The block numbers a header lists. *)
Definition head_blocks (d : list Z) : list Z := head_block d <$> seq 0 (Z.to_nat (head_n d)).

(** Block numbers fit in an [int]. *)
Definition blkno (b : Z) : Prop := 0 <= b < two31.

Lemma s32_small z : blkno z → s32 (u32 z) = z.
Proof. intros H. rewrite s32_u32. apply s32_id. unfold blkno, two31 in *. lia. Qed.

Lemma head_round_trip bl d : (4 + 4 * length bl <= length d)%nat → Forall blkno bl →
  (length bl <= LOGSIZE)%nat → head_blocks (put_head bl d) = bl.
Proof.
  intros Hl Hb Hn. unfold head_blocks.
  assert (head_n (put_head bl d) = Z.of_nat (length bl)) as ->.
  { unfold head_n, put_head. rewrite ld_st_words_below by lia. rewrite ld_st32_same by lia.
    apply s32_small. unfold blkno, two31. unfold LOGSIZE in Hn. lia. }
  rewrite Nat2Z.id. apply list_eq. intros k. rewrite list_lookup_fmap.
  destruct (bl !! k) as [b|] eqn:E.
  - pose proof (lookup_lt_Some _ _ _ E). rewrite lookup_seq_lt by lia. simpl. f_equal.
    unfold head_block, put_head. change (0 + k)%nat with k.
    rewrite (ld_st_words 4 bl _ k b) by (done || (rewrite length_st32; lia)).
    apply s32_small. by apply (proj1 (Forall_lookup _ _) Hb k).
  - apply lookup_ge_None in E. by rewrite lookup_seq_ge.
Qed.

(** ** Runs over the view of the cache *)

(** What the log operations leave alone, relative to the state [s0]. *)
Record log_frame (s0 s : kstate) : Prop := {
  lf_only : fs_only s0 s;
  lf_sb : s.(fs).(sb) = s0.(fs).(sb);
  lf_icache : s.(fs).(icache) = s0.(fs).(icache);
  lf_size : s.(fs).(disksize) = s0.(fs).(disksize)
}.

(** Process [c] runs over a cache with view [V] and the log [l]. *)
Record lst (s0 : kstate) (c : nat) (V : cview) (l : logstate) (s : kstate) : Prop := {
  ls_frame : log_frame s0 s;
  ls_bio : bio_st c V s;
  ls_log : s.(fs).(log) = l
}.

Lemma lst_step s0 c V V' l s s' : lst s0 c V l s → fs_step s s' → bio_st c V' s' → lst s0 c V' l s'.
Proof.
  intros [[Fo Fs Fi Fd] _ Hl] [Ho (El & Es & Ei & Ed)] HV. split; [|done|congruence].
  split; [by transitivity s| | |]; congruence.
Qed.

(** Writing a block through: contents, disk and history change together. *)
Definition v_put (b : Z) (d : list Z) (V : cview) : cview :=
  mkcv (<[b := d]> V.(cv_blk)) (<[b := d]> V.(cv_disk)) (V.(cv_writes) ++ [(b, d)])
    (V.(cv_dirty) ∖ {[b]}) V.(cv_held).

Lemma v_write_set b d V : v_write b (v_set b d V) = v_put b d V.
Proof. unfold v_write, v_set, v_put. simpl. by rewrite fn_lookup_insert. Qed.

Lemma v_unlock_lock i b V : V.(cv_held) !! i = None → v_unlock i (v_lock i b V) = V.
Proof. intros H. unfold v_unlock, v_lock. simpl. rewrite delete_insert_id by done. by destruct V. Qed.

(** Sequences of writes. *)
Definition apply_writes (ws : list (Z * list Z)) (D : Z → list Z) : Z → list Z :=
  foldl (fun D w => <[w.1 := w.2]> D) D ws.
Definition v_puts (ws : list (Z * list Z)) (V : cview) : cview := foldl (fun V w => v_put w.1 w.2 V) V ws.

Lemma apply_writes_app ws ws' D : apply_writes (ws ++ ws') D = apply_writes ws' (apply_writes ws D).
Proof. apply foldl_app. Qed.

Lemma apply_writes_snoc ws b d D : apply_writes (ws ++ [(b, d)]) D = <[b := d]> (apply_writes ws D).
Proof. by rewrite apply_writes_app. Qed.

Lemma apply_writes_other ws D b : b ∉ ws.*1 → apply_writes ws D b = D b.
Proof.
  revert D. induction ws as [|[b' d] ws IH]; intros D Hb; [done|]. cbn [fmap list_fmap fst] in Hb.
  apply not_elem_of_cons in Hb as [Hne Hb]. cbn [apply_writes foldl fst snd]. fold (apply_writes ws (<[b':=d]> D)).
  rewrite (IH _ Hb). by apply fn_lookup_insert_ne.
Qed.

(** With distinct blocks, a write is found where it went. *)
Lemma apply_writes_at ws D b d : NoDup ws.*1 → (b, d) ∈ ws → apply_writes ws D b = d.
Proof.
  revert D. induction ws as [|[b' d'] ws IH]; intros D Hnd Hin; [by apply elem_of_nil in Hin|].
  cbn [fmap list_fmap fst] in Hnd. apply list.NoDup_cons in Hnd as [Hn Hnd].
  cbn [apply_writes foldl fst snd]. fold (apply_writes ws (<[b':=d']> D)).
  apply elem_of_cons in Hin as [[= -> ->]|Hin]; [|by apply IH].
  rewrite apply_writes_other by done. by apply fn_lookup_insert.
Qed.

Lemma v_puts_app ws ws' V : v_puts (ws ++ ws') V = v_puts ws' (v_puts ws V).
Proof. apply foldl_app. Qed.

Lemma v_puts_eq ws V : v_puts ws V = mkcv (apply_writes ws V.(cv_blk)) (apply_writes ws V.(cv_disk))
  (V.(cv_writes) ++ ws) (V.(cv_dirty) ∖ list_to_set ws.*1) V.(cv_held).
Proof.
  induction ws as [|w ws IH] using rev_ind.
  - simpl. rewrite app_nil_r, difference_empty_L. by destruct V.
  - rewrite v_puts_app, !apply_writes_app, IH. cbn [v_puts foldl]. unfold v_put.
    cbn [cv_blk cv_disk cv_writes cv_dirty cv_held apply_writes foldl]. f_equal.
    + rewrite <- (assoc_L (++)). by destruct w.
    + rewrite fmap_app, list_to_set_app_L. simpl. set_solver.
Qed.

Section runs.
Context {WF : WaitFuel} (Hfuel : wait_fuel ≠ 0%nat) (s0 : kstate) (c : nat).
Notation N := (s0.(fs).(disksize)).

Lemma bread_l V l s b : lst s0 c V l s → 0 <= b < N → (∀ i, V.(cv_held) !! i ≠ Some b) → has_room b V →
  runs (bread 1 b) s (λ i s', V.(cv_held) !! i = None ∧ lst s0 c (v_lock i b V) l s').
Proof.
  intros HL Hb Hn Hr. eapply runs_mono; [apply (bread_spec Hfuel c V s (ls_bio _ _ _ _ _ HL) b); try done|].
  - by rewrite (lf_size _ _ (ls_frame _ _ _ _ _ HL)).
  - intros i s' (Hs & Hi & HV'). split; [done|]. by apply (lst_step _ _ V _ _ s).
Qed.

Lemma getb_l V l s i b : lst s0 c V l s → V.(cv_held) !! i = Some b →
  runs (getb i) s (λ p s', s' = s ∧ p.(b_data) = V.(cv_blk) b ∧ p.(b_blockno) = b).
Proof.
  intros HL Hi. destruct (held_buf c V s (ls_bio _ _ _ _ _ HL) i b Hi) as (f & Hbuf & _).
  apply (runs_eq _ _ (get_buf i s) s); [done|]. unfold get_buf. by rewrite Hbuf.
Qed.

Lemma modb_data_l V l s i b (g : list Z → list Z) : lst s0 c V l s → V.(cv_held) !! i = Some b →
  length (g (V.(cv_blk) b)) = BSIZE →
  runs (modb i (fun p => set_b_data (g p.(b_data)) p)) s (λ _ s', lst s0 c (v_set b (g (V.(cv_blk) b)) V) l s').
Proof.
  intros HL Hi Hlen. pose proof (ls_bio _ _ _ _ _ HL) as HV.
  destruct (held_buf c V s HV i b Hi) as (f & Hbuf & _ & _ & _ & Hil & _).
  set (x' := upd_buf i (set_b_data (g (V.(cv_blk) b))) s.(fs)).
  apply (runs_eq _ _ () (set_fs x' s)).
  - unfold modb, modfs, modify. do 2 f_equal. rewrite upd_buf_put by done. unfold x'.
    rewrite upd_buf_put by done. by rewrite Hbuf.
  - apply (lst_step _ _ V _ _ s); [done|by apply fs_step_fs|]. by apply (set_data_spec Hfuel).
Qed.

Lemma bwrite_l V l s i b : lst s0 c V l s → V.(cv_held) !! i = Some b →
  runs (bwrite i) s (λ _ s', lst s0 c (v_write b V) l s').
Proof.
  intros HL Hi. eapply runs_mono; [by apply (bwrite_spec Hfuel c V s (ls_bio _ _ _ _ _ HL) i b)|].
  intros _ s' [Hs HV']. by apply (lst_step _ _ V _ _ s).
Qed.

Lemma brelse_l V l s i b : lst s0 c V l s → V.(cv_held) !! i = Some b →
  b ∈ V.(cv_dirty) ∨ V.(cv_blk) b = V.(cv_disk) b →
  runs (brelse i) s (λ _ s', lst s0 c (v_unlock i V) l s').
Proof.
  intros HL Hi Hc. eapply runs_mono; [by apply (brelse_spec Hfuel c V s (ls_bio _ _ _ _ _ HL) i b)|].
  intros _ s' [Hs HV']. by apply (lst_step _ _ V _ _ s).
Qed.

Lemma modlog_l V l s f : lst s0 c V l s → runs (modlog f) s (λ _ s', lst s0 c V (f l) s').
Proof.
  intros [HF HV Hl]. pose proof HV as [_ HR]. apply (runs_eq _ _ () (set_fs (set_log (f s.(fs).(log)) s.(fs)) s)); [done|]. split.
  - destruct HF as [Fo Fs Fi Fd]. split; try done. simpl. transitivity s; [done|]. apply fs_only_fs.
  - apply (bio_st_intro c V V s); [done|]. destruct HR as [[I1 I2 I3 I4 I5 I6 I7 I8 I9] R2 R3 R4 R5 R6 R7]. by split.
  - simpl. by rewrite Hl.
Qed.

Lemma get_log_l {A} V l s (k : logstate → M A) Q : lst s0 c V l s → runs (k l) s Q → runs (bind (get get_log) k) s Q.
Proof. intros HL Hk. unfold runs. rewrite bind_get. unfold get_log. by rewrite (ls_log _ _ _ _ _ HL). Qed.

(** The loops over the header. *)
Lemma for_lh_l (I : nat → cview) (J : nat → logstate) n body s :
  (n <= LOGSIZE)%nat → (∀ k, (k <= n)%nat → (J k).(lh_n) = Z.of_nat n) → lst s0 c (I 0%nat) (J 0%nat) s →
  (∀ k s, (k < n)%nat → lst s0 c (I k) (J k) s → runs (body k) s (λ _ s', lst s0 c (I (S k)) (J (S k)) s')) →
  runs (for_lh LOGSIZE 0 body) s (λ _ s', lst s0 c (I n) (J n) s').
Proof.
  intros Hn Hlen H0 Hbody.
  assert (∀ fuel k s, (k <= n)%nat → (n <= k + fuel)%nat → lst s0 c (I k) (J k) s →
    runs (for_lh fuel k body) s (λ _ s', lst s0 c (I n) (J n) s')) as Hgen; [|apply Hgen; [lia|lia|done]].
  induction fuel as [|fuel IH]; intros k s' Hk Hf HL; unfold for_lh; fold for_lh;
    unfold runs; rewrite bind_get; unfold get_log; rewrite (ls_log _ _ _ _ _ HL), Hlen by done.
  - assert (k = n) as -> by lia. by rewrite Z.ltb_irrefl.
  - destruct (Z.ltb_spec (Z.of_nat k) (Z.of_nat n)).
    + change (runs (body k;; for_lh fuel (S k) body) s' (λ _ s', lst s0 c (I n) (J n) s')).
      eapply runs_bind; [apply Hbody; [lia|done]|]. intros [] s1 H1. apply IH; [lia|lia|done].
    + by assert (k = n) as -> by lia.
Qed.

Lemma blk_length V s b : bio_st c V s → length (V.(cv_blk) b) = BSIZE.
Proof.
  intros [_ HR]. rewrite <- (cr_blk _ _ _ HR). unfold blk. pose proof (cr_inv _ _ _ HR) as HI.
  destruct (list_find _ _) as [[j p]|] eqn:E; [|apply (bi_disk _ _ _ HI)].
  apply list_find_Some in E as (Hp & _). pose proof (lookup_lt_Some _ _ _ Hp) as Hj.
  rewrite (bi_len _ _ _ HI) in Hj. apply list_lookup_total_correct in Hp as <-. by apply (bi_data _ _ _ HI).
Qed.

(** Two different blocks locked at the same time, as the two loops do. *)
Lemma bread2_l {A} V l s a b (g : logstate → Z) (k : nat → nat → M A) Q : lst s0 c V l s → l.(l_dev) = 1 → g l = b →
  V.(cv_held) = ∅ → 0 <= a < N → 0 <= b < N → a ≠ b → has_room a V →
  b ∈ V.(cv_dirty) ∨ (1 + size V.(cv_dirty) < NBUF)%nat →
  (∀ i j s', i ≠ j → V.(cv_held) !! i = None → V.(cv_held) !! j = None →
    lst s0 c (v_lock j b (v_lock i a V)) l s' → runs (k i j) s' Q) →
  runs (i <- bread l.(l_dev) a;; l' <- get get_log;; j <- bread l'.(l_dev) (g l');; k i j) s Q.
Proof.
  intros HL Hd Hg Hh Ha Hb Hne Hra Hrb Hk. rewrite Hd.
  eapply runs_bind; [apply (bread_l V l s a HL); [done|by rewrite Hh|done]|]. intros i s1 [Hi H1].
  apply (get_log_l (v_lock i a V) l); [done|]. rewrite Hd, Hg.
  eapply runs_bind; [apply (bread_l _ l s1 b H1); [done| |]|].
  - intros j. simpl. rewrite Hh. destruct (decide (j = i)) as [->|Hj].
    + rewrite lookup_insert_eq. congruence.
    + rewrite lookup_insert_ne by done. done.
  - destruct Hrb as [?|?]; [by left|right]. simpl. rewrite Hh, map_size_insert_None by done. rewrite map_size_empty. lia.
  - intros j s2 [Hj H2]. simpl in Hj. apply lookup_insert_None in Hj as [Hj Hij]. by apply (Hk i j s2).
Qed.

(** Copying the block [a] of buffer [i] to the block [b] of buffer [j] and
    through to the disk. *)
Lemma copy_l {A} V l s i j a b (k : M A) Q : lst s0 c V l s →
  V.(cv_held) !! i = Some a → V.(cv_held) !! j = Some b →
  (∀ s', lst s0 c (v_put b (V.(cv_blk) a) V) l s' → runs k s' Q) →
  runs (p <- getb i;; modb j (set_b_data p.(b_data));; bwrite j;; k) s Q.
Proof.
  intros HL Hi Hj Hk. eapply runs_bind; [by apply (getb_l V l s i a)|]. intros p s' (-> & Hp & _). rewrite Hp.
  eapply runs_bind.
  - apply (modb_data_l V l s j b (fun _ => V.(cv_blk) a)); [done|done|]. apply (blk_length V s), HL.
  - intros [] s1 H1. eapply runs_bind; [by apply (bwrite_l _ l s1 j b H1)|]. intros [] s2 H2.
    rewrite v_write_set in H2. by apply Hk.
Qed.

Lemma unlock2 V i j x y b d : i ≠ j → V.(cv_held) !! i = None → V.(cv_held) !! j = None →
  v_unlock j (v_unlock i (v_put b d (v_lock j y (v_lock i x V)))) = v_put b d V
  ∧ v_unlock i (v_unlock j (v_put b d (v_lock j y (v_lock i x V)))) = v_put b d V.
Proof.
  intros Hij Hi Hj. unfold v_unlock, v_put, v_lock. simpl.
  rewrite (delete_delete _ j i), delete_insert_id by (by rewrite lookup_insert_ne). by rewrite delete_insert_id.
Qed.

Section blocks.
Context (V : cview) (l : logstate) (s : kstate) (t : nat) (HL : lst s0 c V l s).
Context (Hdev : l.(l_dev) = 1) (Hheld : V.(cv_held) = ∅) (HN : N <= two31).
Let a := l.(l_start) + Z.of_nat t + 1.
Let h := l.(lh_block) !!! t.
Context (Ha : 0 <= a < N) (Hh : 0 <= h < N) (Hne : a ≠ h).

Lemma u32_blk b : 0 <= b < N → u32 b = b.
Proof. intros H. apply u32_id. unfold word, two32, two31 in *. lia. Qed.

(** The view with both blocks locked and the copy made. *)
Lemma copied_held i j x y b d : i ≠ j → V.(cv_held) !! i = None → V.(cv_held) !! j = None →
  let W := v_put b d (v_lock j y (v_lock i x V)) in
  W.(cv_held) !! i = Some x ∧ W.(cv_held) !! j = Some y ∧
  (v_unlock i W).(cv_held) !! j = Some y ∧ (v_unlock j W).(cv_held) !! i = Some x.
Proof.
  intros Hij Hi Hj. simpl. rewrite !lookup_delete_ne by done.
  rewrite !(lookup_insert_ne _ j i) by done. by rewrite !lookup_insert_eq.
Qed.

Lemma install_one_l : has_room a V → h ∈ V.(cv_dirty) ∨ (1 + size V.(cv_dirty) < NBUF)%nat →
  a ∈ V.(cv_dirty) ∨ V.(cv_blk) a = V.(cv_disk) a →
  runs (install_one t) s (λ _ s', lst s0 c (v_put h (V.(cv_blk) a) V) l s').
Proof.
  intros Hra Hrh Hca. unfold install_one. apply (get_log_l V l); [done|]. fold a. rewrite (u32_blk a Ha).
  apply (bread2_l V l s a h (λ l, u32 (lh_block l !!! t))); try done; [by apply u32_blk|].
  intros i j s1 Hij Hi Hj H1. destruct (copied_held i j a h h (V.(cv_blk) a) Hij Hi Hj) as (Wi & Wj & Uj & _).
  apply (copy_l _ l s1 i j a h _ _ H1 Wi Wj). intros s2 H2.
  eapply runs_bind; [apply (brelse_l _ l s2 i a H2 Wi)|].
  - simpl. rewrite !fn_lookup_insert_ne by done. destruct Hca; [left; set_solver|by right].
  - intros [] s3 H3. eapply runs_mono; [apply (brelse_l _ l s3 j h H3 Uj)|].
    + right. simpl. by rewrite !fn_lookup_insert.
    + intros [] s4 H4. simpl cv_blk in H4. by rewrite (proj1 (unlock2 V i j a h h _ Hij Hi Hj)) in H4.
Qed.

Lemma write_log_one_l : has_room a V → h ∈ V.(cv_dirty) →
  runs (write_log_one t) s (λ _ s', lst s0 c (v_put a (V.(cv_blk) h) V) l s').
Proof.
  intros Hra Hrh. unfold write_log_one. apply (get_log_l V l); [done|]. fold a. rewrite (u32_blk a Ha).
  apply (bread2_l V l s a h (λ l, u32 (lh_block l !!! t))); try done; [by apply u32_blk|by left|].
  intros i j s1 Hij Hi Hj H1. destruct (copied_held i j a h a (V.(cv_blk) h) Hij Hi Hj) as (Wi & Wj & _ & Ui).
  apply (copy_l _ l s1 j i h a _ _ H1 Wj Wi). intros s2 H2.
  eapply runs_bind; [apply (brelse_l _ l s2 j h H2 Wj)|].
  - left. simpl. set_solver.
  - intros [] s3 H3. eapply runs_mono; [apply (brelse_l _ l s3 i a H3 Ui)|].
    + right. simpl. by rewrite !fn_lookup_insert.
    + intros [] s4 H4. simpl cv_blk in H4. by rewrite (proj2 (unlock2 V i j a h a _ Hij Hi Hj)) in H4.
Qed.
End blocks.

(** Views are used up to the contents of their blocks. *)
Lemma lst_ext V V' l s : lst s0 c V l s → (∀ b, V'.(cv_blk) b = V.(cv_blk) b) → V'.(cv_disk) = V.(cv_disk) →
  V'.(cv_writes) = V.(cv_writes) → V'.(cv_dirty) = V.(cv_dirty) → V'.(cv_held) = V.(cv_held) →
  lst s0 c V' l s.
Proof.
  intros [HF [Hc [R1 R2 R3 R4 R5 R6 R7]] Hl] Hb Hd Hw Hdi Hh. split; [done| |done]. split; [done|].
  split; rewrite ?Hd, ?Hw, ?Hdi, ?Hh; try done. intros b. by rewrite Hb.
Qed.
End runs.

(** ** The loops *)

(** The blocks of the current transaction. *)
Definition logged (l : logstate) : list Z := take (Z.to_nat l.(lh_n)) l.(lh_block).

(** A log whose header lists blocks outside of the log area. *)
Record log_wf (N : Z) (l : logstate) : Prop := {
  lw_dev : l.(l_dev) = 1;
  lw_n : 0 <= l.(lh_n) < Z.of_nat LOGSIZE;
  lw_n_size : l.(lh_n) < l.(l_size);
  lw_len : length l.(lh_block) = LOGSIZE;
  lw_area : 0 <= l.(l_start) ∧ l.(l_start) + l.(l_size) <= N;
  lw_N : N <= two31;
  lw_home : ∀ b, b ∈ logged l → 0 <= b < N ∧ ¬ (l.(l_start) <= b < l.(l_start) + l.(l_size))
}.

(** The [k]-th block of the log area after the header. *)
Definition log_block (l : logstate) (k : nat) : Z := l.(l_start) + Z.of_nat k + 1.

Lemma logged_length N l : log_wf N l → length (logged l) = Z.to_nat l.(lh_n).
Proof. intros H. unfold logged. rewrite length_take, (lw_len _ _ H). pose proof (lw_n _ _ H). lia. Qed.

Lemma logged_lookup N l k : log_wf N l → (k < Z.to_nat l.(lh_n))%nat →
  logged l !! k = Some (l.(lh_block) !!! k).
Proof.
  intros H Hk. unfold logged. rewrite lookup_take_lt by done. apply list_lookup_lookup_total_lt.
  rewrite (lw_len _ _ H). pose proof (lw_n _ _ H). lia.
Qed.

Lemma log_block_bounds N l k : log_wf N l → (k < Z.to_nat l.(lh_n))%nat →
  0 <= log_block l k < N ∧ l.(l_start) <= log_block l k < l.(l_start) + l.(l_size) ∧ log_block l k ∉ logged l
  ∧ log_block l k ≠ l.(l_start).
Proof.
  intros H Hk. pose proof (lw_n _ _ H). pose proof (lw_n_size _ _ H). pose proof (lw_area _ _ H).
  unfold log_block. split; [lia|]. split; [lia|]. split; [|lia].
  intros Hin. destruct (lw_home _ _ H _ Hin). lia.
Qed.

(** The writes of the two loops, for blocks with contents [B]. *)
Definition log_list (l : logstate) (B : Z → list Z) : list (Z * list Z) :=
  imap (fun k b => (log_block l k, B b)) (logged l).
Definition install_list (l : logstate) (B : Z → list Z) : list (Z * list Z) :=
  imap (fun k b => (b, B (log_block l k))) (logged l).

Lemma install_list_fst l B : (install_list l B).*1 = logged l.
Proof.
  unfold install_list. rewrite fmap_imap. apply list_eq. intros k. rewrite list_lookup_imap.
  by destruct (logged l !! k).
Qed.

Lemma log_list_fst l B b : b ∈ (log_list l B).*1 → ∃ k, (k < length (logged l))%nat ∧ b = log_block l k.
Proof.
  unfold log_list. rewrite fmap_imap, list_elem_of_lookup. intros [k Hk].
  rewrite list_lookup_imap in Hk. destruct (logged l !! k) eqn:E; [|done]. injection Hk as <-.
  exists k. split; [by apply lookup_lt_Some in E|done].
Qed.

Lemma size_list_to_set_le (bl : list Z) : (size (list_to_set bl : gset Z) <= length bl)%nat.
Proof.
  induction bl as [|b bl IH]; [done|]. cbn [list_to_set length]. rewrite size_union_alt, size_singleton.
  assert (size ((list_to_set bl : gset Z) ∖ {[b]}) <= size (list_to_set bl : gset Z))%nat
    by (apply subseteq_size; set_solver). lia.
Qed.

Lemma log_n_lt N l : log_wf N l → let n := Z.to_nat l.(lh_n) in
  (n < NBUF)%nat ∧ (n <= LOGSIZE)%nat ∧ l.(lh_n) = Z.of_nat n.
Proof. intros Hwf n. pose proof (lw_n _ _ Hwf). unfold n, NBUF, LOGSIZE in *. lia. Qed.

Section loops.
Context {WF : WaitFuel} (Hfuel : wait_fuel ≠ 0%nat) (s0 : kstate) (c : nat).
Notation N := (s0.(fs).(disksize)).
Context (V : cview) (l : logstate) (Hwf : log_wf N l) (Hheld : V.(cv_held) = ∅).
Let n : nat := Z.to_nat l.(lh_n).

(** A loop that makes one write per entry of the header. *)
Lemma puts_l ws body s : lst s0 c V l s → length ws = n →
  (∀ k b d s, ws !! k = Some (b, d) → lst s0 c (v_puts (take k ws) V) l s →
     runs (body k) s (λ _ s', lst s0 c (v_put b d (v_puts (take k ws) V)) l s')) →
  runs (for_lh LOGSIZE 0 body) s (λ _ s', lst s0 c (v_puts ws V) l s').
Proof.
  intros HL Hlen Hbody. destruct (log_n_lt _ _ Hwf) as (_ & Hn & Hln).
  replace (v_puts ws V) with (v_puts (take n ws) V) by (by rewrite <- Hlen, firstn_all).
  apply (for_lh_l Hfuel s0 c (λ k, v_puts (take k ws) V) (λ _, l)); [done|done|done|].
  intros k s' Hk H'. destruct (lookup_lt_is_Some_2 ws k ltac:(lia)) as [[b d] Hw].
  rewrite (take_S_r _ _ _ Hw), v_puts_app. by apply Hbody.
Qed.

Lemma dirty_after k : V.(cv_dirty) ⊆ list_to_set (logged l) →
  V.(cv_dirty) ∖ list_to_set (take k (logged l)) ⊆ list_to_set (drop k (logged l)).
Proof.
  intros Hd b [Hb Hn]%elem_of_difference. apply Hd in Hb. rewrite <- (take_drop k (logged l)) in Hb.
  rewrite list_to_set_app_L in Hb. set_solver.
Qed.

Lemma size_drop k (D : gset Z) : D ⊆ list_to_set (drop k (logged l)) → (size D <= n - k)%nat.
Proof.
  intros H. etrans; [by apply subseteq_size|]. etrans; [apply size_list_to_set_le|].
  rewrite length_drop, (logged_length _ _ Hwf). done.
Qed.

Lemma install_trans_l s : lst s0 c V l s → V.(cv_dirty) ⊆ list_to_set (logged l) →
  (∀ k, (k < n)%nat → V.(cv_blk) (log_block l k) = V.(cv_disk) (log_block l k)) →
  runs install_trans s (λ _ s', lst s0 c (v_puts (install_list l V.(cv_blk)) V) l s').
Proof.
  intros HL Hd Hclean. apply puts_l; [done|unfold install_list; by rewrite length_imap, (logged_length _ _ Hwf)|].
  intros k b d s' Hk H'. unfold install_list in Hk. rewrite list_lookup_imap in Hk.
  destruct (logged l !! k) as [b'|] eqn:Eb; [|done]. injection Hk as -> <-.
  pose proof (lookup_lt_Some _ _ _ Eb) as Hkn. rewrite (logged_length _ _ Hwf) in Hkn.
  pose proof (logged_lookup _ _ _ Hwf Hkn) as Hb. rewrite Eb in Hb. injection Hb as ->.
  destruct (log_block_bounds _ _ _ Hwf Hkn) as (Ha & Har & Hal & _).
  destruct (lw_home _ _ Hwf (lh_block l !!! k)) as [Hhr Hhome]; [by eapply list_elem_of_lookup_2|].
  rewrite v_puts_eq in H' |- *. rewrite fmap_take, install_list_fst in H' |- *.
  set (ws := take k _) in *. set (D := V.(cv_dirty) ∖ _) in *.
  pose proof (dirty_after k Hd) as HD. fold D in HD. pose proof (size_drop _ _ HD) as Hs. destruct (log_n_lt _ _ Hwf) as (Hn & _).
  assert (∀ F : Z → list Z, apply_writes ws F (log_block l k) = F (log_block l k)) as Hother.
  { intros F. apply apply_writes_other. unfold ws. rewrite fmap_take, install_list_fst.
    intros Hin. apply Hal. by eapply elem_of_take in Hin as (? & ? & _); eapply list_elem_of_lookup_2. }
  rewrite <- (Hother V.(cv_blk)).
  apply (install_one_l Hfuel s0 c _ l s' k H'); [apply Hwf|done|apply Hwf|done|done|unfold log_block in *; lia| | |].
  - right. simpl. rewrite Hheld, map_size_empty. lia.
  - simpl. destruct (decide (lh_block l !!! k ∈ D)) as [?|Hnd]; [by left|right].
    assert (D ⊆ list_to_set (drop (S k) (logged l))) as HD'.
    { rewrite (drop_S _ _ _ Eb), list_to_set_cons in HD. set_solver. }
    pose proof (size_drop _ _ HD'). fold n in Hkn. lia.
  - right. simpl. rewrite !Hother. apply Hclean. done.
Qed.

Lemma write_log_l s : lst s0 c V l s → V.(cv_dirty) = list_to_set (logged l) →
  runs write_log s (λ _ s', lst s0 c (v_puts (log_list l V.(cv_blk)) V) l s').
Proof.
  intros HL Hd. apply puts_l; [done|unfold log_list; by rewrite length_imap, (logged_length _ _ Hwf)|].
  intros k b d s' Hk H'. unfold log_list in Hk. rewrite list_lookup_imap in Hk.
  destruct (logged l !! k) as [b'|] eqn:Eb; [|done]. injection Hk as <- <-.
  pose proof (lookup_lt_Some _ _ _ Eb) as Hkn. rewrite (logged_length _ _ Hwf) in Hkn.
  pose proof (logged_lookup _ _ _ Hwf Hkn) as Hb. rewrite Eb in Hb. injection Hb as ->.
  destruct (log_block_bounds _ _ _ Hwf Hkn) as (Ha & Har & Hal & _).
  assert (lh_block l !!! k ∈ logged l) as Hin by by eapply list_elem_of_lookup_2.
  destruct (lw_home _ _ Hwf _ Hin) as [Hhr Hhome].
  rewrite v_puts_eq in H' |- *. set (ws := take k _) in *.
  assert (∀ b, b ∈ ws.*1 → l.(l_start) <= b < l.(l_start) + l.(l_size)) as Hws.
  { intros b Hb. unfold ws in Hb. rewrite fmap_take in Hb. apply elem_of_take in Hb as (j & Hj & _).
    destruct (log_list_fst l V.(cv_blk) b) as (m & Hm & ->); [by eapply list_elem_of_lookup_2|].
    rewrite (logged_length _ _ Hwf) in Hm. by apply (log_block_bounds _ _ _ Hwf Hm). }
  rewrite <- (apply_writes_other ws V.(cv_blk) (lh_block l !!! k)) by (by intros ?%Hws).
  apply (write_log_one_l Hfuel s0 c _ l s' k H'); [apply Hwf|done|apply Hwf|done|done|unfold log_block in *; lia| |].
  - right. simpl. rewrite Hheld, map_size_empty. destruct (log_n_lt _ _ Hwf) as (Hn & _).
    pose proof (size_drop 0 (V.(cv_dirty) ∖ list_to_set ws.*1)) as Hs. rewrite Hd in Hs.
    simpl drop in Hs. rewrite Hd. pose proof (Hs ltac:(set_solver)). lia.
  - simpl. rewrite Hd. apply elem_of_difference. split; [by apply elem_of_list_to_set|].
    rewrite elem_of_list_to_set. by intros ?%Hws.
Qed.
End loops.

(** ** The header *)

Section header.
Context {WF : WaitFuel} (Hfuel : wait_fuel ≠ 0%nat) (s0 : kstate) (c : nat).
Notation N := (s0.(fs).(disksize)).
Context (V : cview) (Hheld : V.(cv_held) = ∅).

Lemma bread_start l s : lst s0 c V l s → l.(l_dev) = 1 → 0 <= l.(l_start) < N → N <= two31 →
  (size V.(cv_dirty) < NBUF)%nat →
  runs (bread l.(l_dev) (u32 l.(l_start))) s
    (λ i s', V.(cv_held) !! i = None ∧ lst s0 c (v_lock i l.(l_start) V) l s').
Proof.
  intros HL Hd Hs HN Hr. rewrite Hd, u32_id by (unfold word, two32, two31 in *; lia).
  apply (bread_l Hfuel s0 c V l s _ HL); [done|by rewrite Hheld|right; by rewrite Hheld, map_size_empty].
Qed.

Lemma write_head_l l s : log_wf N l → lst s0 c V l s → (size V.(cv_dirty) < NBUF)%nat →
  runs write_head s (λ _ s', lst s0 c (v_put l.(l_start) (put_head (logged l) (V.(cv_blk) l.(l_start))) V) l s').
Proof.
  intros Hwf HL Hr. destruct (log_n_lt _ _ Hwf) as (_ & Hn & Hln). set (n := Z.to_nat (lh_n l)) in *.
  pose proof (lw_area _ _ Hwf) as Harea. pose proof (lw_n _ _ Hwf). pose proof (lw_n_size _ _ Hwf).
  unfold write_head. apply (get_log_l s0 c V l); [done|].
  eapply runs_bind; [apply (bread_start l s HL); [apply Hwf|lia|apply Hwf|done]|]. intros i s1 [Hi H1].
  set (b := l_start l) in *. set (W := v_lock i b V) in *.
  assert (W.(cv_held) !! i = Some b) as HWi by apply lookup_insert_eq.
  pose proof (blk_length c V s b (ls_bio _ _ _ _ _ HL)) as Hlen.
  apply (get_log_l s0 c W l); [done|]. rewrite Hln.
  set (d0 := st32 0 (Z.of_nat n) (V.(cv_blk) b)).
  eapply runs_bind; [apply (modb_data_l Hfuel s0 c W l s1 i b (st32 0 (Z.of_nat n)) H1 HWi);
    by rewrite length_st32|]. intros [] s2 H2.
  set (I := fun k => v_set b (st_words 4 (take k (logged l)) d0) W).
  eapply runs_bind; [apply (for_lh_l Hfuel s0 c I (λ _, l) n); [done|done|exact H2|]|].
  - intros k s' Hk H'. apply (get_log_l s0 c (I k) l); [done|].
    eapply runs_mono; [apply (modb_data_l Hfuel s0 c (I k) l s' i b (st32 (4 + 4 * k) (lh_block l !!! k)) H'); [done|]|].
    + simpl. rewrite fn_lookup_insert, length_st32, length_st_words. unfold d0. by rewrite length_st32.
    + intros [] s'' H''. apply (lst_ext s0 c _ _ _ _ H''); try done. intros b'. simpl.
      destruct (decide (b' = b)) as [->|Hne]; [|by rewrite !fn_lookup_insert_ne]. rewrite !fn_lookup_insert.
      pose proof (logged_lookup _ _ _ Hwf Hk) as Ek. rewrite (take_S_r _ _ _ Ek), st_words_snoc.
      rewrite length_take, (logged_length _ _ Hwf). fold n. by replace (k `min` n)%nat with k by lia.
  - intros [] s3 H3.
    assert (take n (logged l) = logged l) as Et by (unfold n; rewrite <- (logged_length _ _ Hwf); apply firstn_all).
    assert (st_words 4 (take n (logged l)) d0 = put_head (logged l) (V.(cv_blk) b)) as Eh.
    { rewrite Et. unfold put_head. by rewrite (logged_length _ _ Hwf). }
    unfold I in H3. rewrite Eh in H3.
    eapply runs_bind; [apply (bwrite_l Hfuel s0 c _ l s3 i b H3); done|]. intros [] s4 H4.
    rewrite v_write_set in H4.
    eapply runs_mono; [apply (brelse_l Hfuel s0 c _ l s4 i b H4); [done|right; simpl; by rewrite !fn_lookup_insert]|].
    intros [] s5 H5. unfold v_unlock, v_put, W, v_lock in H5. simpl in H5. by rewrite delete_insert_id in H5.
Qed.

(** Reading the header. *)
Lemma insert_take_drop {A} (l hb : list A) k x : hb !! k = Some x → (k < length l)%nat →
  <[k := x]> (take k hb ++ drop k l) = take (S k) hb ++ drop (S k) l.
Proof.
  intros Hx Hk. pose proof (lookup_lt_Some _ _ _ Hx).
  destruct (lookup_lt_is_Some_2 l k Hk) as [y Hy]. rewrite (drop_S _ _ _ Hy), (take_S_r _ _ _ Hx).
  rewrite insert_app_r_alt by (rewrite length_take; lia).
  rewrite length_take. replace (k - k `min` length hb)%nat with 0%nat by lia. simpl. by rewrite <- (assoc_L (++)).
Qed.

Lemma read_head_l l s : lst s0 c V l s → l.(l_dev) = 1 → 0 <= l.(l_start) < N → N <= two31 →
  length l.(lh_block) = LOGSIZE → (size V.(cv_dirty) < NBUF)%nat →
  l.(l_start) ∈ V.(cv_dirty) ∨ V.(cv_blk) l.(l_start) = V.(cv_disk) l.(l_start) →
  let d := V.(cv_blk) l.(l_start) in 0 <= head_n d <= Z.of_nat LOGSIZE →
  runs read_head s (λ _ s', lst s0 c V
    (set_lh_block (head_blocks d ++ drop (Z.to_nat (head_n d)) l.(lh_block)) (set_lh_n (head_n d) l)) s').
Proof.
  intros HL Hd Hs HN Hlen Hr Hcoh d Hn. set (n := Z.to_nat (head_n d)). unfold read_head.
  apply (get_log_l s0 c V l); [done|]. eapply runs_bind; [by apply (bread_start l s HL)|]. intros i s1 [Hi H1].
  set (b := l_start l) in *. set (W := v_lock i b V) in *.
  assert (W.(cv_held) !! i = Some b) as HWi by apply lookup_insert_eq.
  eapply runs_bind; [by apply (getb_l s0 c W l s1 i b H1)|]. intros p s' (-> & Hp & _).
  change (cv_blk W b) with d in Hp. rewrite Hp. fold (head_n d).
  eapply runs_bind; [by apply (modlog_l s0 c W l s1)|]. intros [] s2 H2.
  set (J := fun k => set_lh_block (take k (head_blocks d) ++ drop k l.(lh_block)) (set_lh_n (head_n d) l)).
  assert (length (head_blocks d) = n) as Hlb by (unfold head_blocks; by rewrite length_fmap, length_seq).
  eapply runs_bind; [apply (for_lh_l Hfuel s0 c (λ _, W) J n); [lia| | |]|].
  - intros k Hk. simpl. lia.
  - replace (J 0%nat) with (set_lh_n (head_n d) l); [done|]. by destruct l.
  - intros k s' Hk H'. eapply runs_bind; [by apply (getb_l s0 c W (J k) s' i b H')|]. intros p' s'' (-> & Hp' & _).
    change (cv_blk W b) with d in Hp'. rewrite Hp'.
    eapply runs_mono; [by apply (modlog_l s0 c W (J k) s')|]. intros [] s'' H''.
    assert (head_blocks d !! k = Some (head_block d k)) as Ek.
    { unfold head_blocks. rewrite list_lookup_fmap, lookup_seq_lt by done. done. }
    unfold J in *. cbn [lh_block set_lh_block] in H''. unfold set_lh_block in H'' |- *. cbn in H'' |- *.
    rewrite (insert_take_drop _ _ _ _ Ek) in H'' by lia. exact H''.
  - intros [] s3 H3. eapply runs_mono; [by apply (brelse_l Hfuel s0 c W _ s3 i b H3)|]. intros [] s4 H4.
    unfold W in H4. rewrite v_unlock_lock in H4 by done. unfold J in H4.
    by rewrite <- Hlb, firstn_all, Hlb in H4.
Qed.
End header.

(** ** Commit and recovery *)

Lemma log_list_nodup N l B : log_wf N l → NoDup (log_list l B).*1.
Proof.
  intros Hwf. unfold log_list. rewrite fmap_imap. apply NoDup_alt. intros i j b Hi Hj.
  rewrite list_lookup_imap in Hi, Hj. destruct (logged l !! i), (logged l !! j); simplify_eq/=.
  unfold log_block in *. lia.
Qed.

Lemma log_list_at N l B D k b : log_wf N l → logged l !! k = Some b →
  apply_writes (log_list l B) D (log_block l k) = B b.
Proof.
  intros Hwf Hk. apply apply_writes_at; [by eapply log_list_nodup|].
  apply list_elem_of_lookup. exists k. unfold log_list. rewrite list_lookup_imap, Hk. done.
Qed.

Lemma log_list_other N l B D b : log_wf N l → ¬ (l.(l_start) < b < l.(l_start) + l.(l_size)) →
  apply_writes (log_list l B) D b = D b.
Proof.
  intros Hwf Hb. apply apply_writes_other. intros Hin. apply log_list_fst in Hin as (k & Hk & ->).
  rewrite (logged_length _ _ Hwf) in Hk. destruct (log_block_bounds _ _ _ Hwf Hk) as (_ & ? & _ & ?).
  lia.
Qed.

(** The disk writes of a commit, in order. *)
Definition home_list (l : logstate) (B : Z → list Z) : list (Z * list Z) := (fun b => (b, B b)) <$> logged l.
Definition commit_writes (l : logstate) (B : Z → list Z) : list (Z * list Z) :=
  let h := put_head (logged l) (B l.(l_start)) in
  log_list l B ++ [(l.(l_start), h)] ++ home_list l B ++ [(l.(l_start), put_head [] h)].

Lemma home_list_fst l B : (home_list l B).*1 = logged l.
Proof. unfold home_list. rewrite <- list_fmap_compose. apply list_fmap_id. Qed.

Lemma start_not_logged N l : log_wf N l → l.(l_start) ∉ logged l.
Proof.
  intros Hwf Hin. destruct (lw_home _ _ Hwf _ Hin) as [_ Hn]. pose proof (lw_n _ _ Hwf).
  pose proof (lw_n_size _ _ Hwf). lia.
Qed.

Lemma log_wf_clear N l : log_wf N l → log_wf N (set_lh_n 0 l).
Proof.
  intros [H1 H2 H3 H4 H5 H6 H7]. split; simpl; try done; [lia|]. unfold logged. simpl. set_solver.
Qed.

Section commit.
Context {WF : WaitFuel} (Hfuel : wait_fuel ≠ 0%nat) (s0 : kstate) (c : nat).
Notation N := (s0.(fs).(disksize)).
Context (V : cview) (l : logstate) (Hwf : log_wf N l) (Hheld : V.(cv_held) = ∅).
Let B := V.(cv_blk).

(** After the log and the header are written, the log area holds the blocks. *)
Lemma logged_copies D k b h : logged l !! k = Some b →
  apply_writes (log_list l B ++ [(l.(l_start), h)]) D (log_block l k) = B b.
Proof.
  intros Hk. rewrite apply_writes_app. simpl.
  pose proof (lookup_lt_Some _ _ _ Hk) as Hlt. rewrite (logged_length _ _ Hwf) in Hlt.
  destruct (log_block_bounds _ _ _ Hwf Hlt) as (_ & _ & _ & Hne).
  rewrite fn_lookup_insert_ne by done. by eapply log_list_at.
Qed.

Lemma install_home D h : install_list l (apply_writes (log_list l B ++ [(l.(l_start), h)]) D) = home_list l B.
Proof.
  apply list_eq. intros k. unfold install_list, home_list. rewrite list_lookup_imap, list_lookup_fmap.
  destruct (logged l !! k) as [b|] eqn:E; [|done]. simpl. by rewrite (logged_copies D k b).
Qed.

Lemma commit_l s : lst s0 c V l s → V.(cv_dirty) = list_to_set (logged l) → 0 < l.(lh_n) →
  runs commit s (λ _ s', lst s0 c (v_puts (commit_writes l B) V) (set_lh_n 0 l) s').
Proof.
  intros HL Hd Hn. destruct (log_n_lt _ _ Hwf) as (Hnb & _ & Hln). unfold commit.
  apply (get_log_l s0 c V l); [done|]. rewrite (proj2 (Z.ltb_lt _ _) Hn). cbn [when].
  eapply runs_bind; [by apply (write_log_l Hfuel s0 c V l)|]. intros [] s1 H1.
  set (V1 := v_puts (log_list l B) V) in *. fold B in H1.
  assert (size V.(cv_dirty) < NBUF)%nat as Hsz.
  { rewrite Hd. pose proof (size_list_to_set_le (logged l)) as Hle. rewrite (logged_length _ _ Hwf) in Hle. lia. }
  assert (V1.(cv_held) = ∅) as Hh1 by (unfold V1; by rewrite v_puts_eq).
  assert (V1.(cv_dirty) ⊆ V.(cv_dirty)) as Hd1 by (unfold V1; rewrite v_puts_eq; simpl; set_solver).
  pose proof (subseteq_size _ _ Hd1) as Hs1.
  eapply runs_bind; [apply (write_head_l Hfuel s0 c V1 Hh1 l s1 Hwf H1); lia|]. intros [] s2 H2.
  assert (V1.(cv_blk) l.(l_start) = B l.(l_start)) as E1.
  { unfold V1. rewrite v_puts_eq. simpl. eapply log_list_other; [done|]. lia. }
  rewrite E1 in H2. set (h := put_head (logged l) (B (l_start l))) in *.
  set (V2 := v_put (l_start l) h V1) in *.
  assert (V2 = v_puts (log_list l B ++ [(l.(l_start), h)]) V) as E2 by by rewrite v_puts_app.
  eapply runs_bind; [apply (install_trans_l Hfuel s0 c V2 l Hwf Hh1 s2 H2)|].
  - rewrite <- Hd. unfold V2. simpl. set_solver.
  - intros k Hk. rewrite E2, v_puts_eq. simpl. pose proof (logged_lookup _ _ _ Hwf Hk) as Ek.
    by rewrite !(logged_copies _ k _ h Ek).
  - intros [] s3 H3. assert (install_list l (cv_blk V2) = home_list l B) as E3.
    { rewrite E2, v_puts_eq. apply install_home. }
    rewrite E3 in H3. set (V3 := v_puts (home_list l B) V2) in *.
    eapply runs_bind; [apply (modlog_l s0 c V3 l s3 _ H3)|]. intros [] s4 H4.
    assert (V3.(cv_held) = ∅) as Hh3 by (unfold V3; by rewrite v_puts_eq).
    assert (V3.(cv_dirty) ⊆ V.(cv_dirty)) as Hd3 by (unfold V3; rewrite v_puts_eq; simpl; set_solver).
    pose proof (subseteq_size _ _ Hd3) as Hs3.
    eapply runs_mono; [apply (write_head_l Hfuel s0 c V3 Hh3 _ s4 (log_wf_clear _ _ Hwf) H4); lia|].
    intros [] s5 H5. cbn [l_start set_lh_n] in H5. change (logged (set_lh_n 0 l)) with ([] : list Z) in H5.
    assert (V3.(cv_blk) l.(l_start) = h) as E4.
    { unfold V3. rewrite v_puts_eq. simpl. rewrite apply_writes_other.
      - apply fn_lookup_insert.
      - rewrite home_list_fst. by eapply start_not_logged. }
    rewrite E4 in H5. unfold commit_writes. fold h. rewrite (assoc_L (++)), v_puts_app, <- E2.
    by rewrite v_puts_app.
Qed.
End commit.

(** *** Recovery *)

(** What [recover_from_log] writes when the disk holds [D]. *)
Definition recover_writes (ls : Z) (D : Z → list Z) : list (Z * list Z) :=
  imap (fun k b => (b, D (ls + Z.of_nat k + 1))) (head_blocks (D ls)) ++ [(ls, put_head [] (D ls))].
Definition recovered (ls : Z) (D : Z → list Z) : Z → list Z := apply_writes (recover_writes ls D) D.

(** The header on the disk lists blocks outside of a log area that has room
    for them. *)
Record head_ok (N ls size : Z) (d : list Z) : Prop := {
  ho_n : 0 <= head_n d < Z.of_nat LOGSIZE;
  ho_n_size : head_n d < size;
  ho_area : 0 <= ls ∧ ls + size <= N;
  ho_N : N <= two31;
  ho_home : ∀ b, b ∈ head_blocks d → 0 <= b < N ∧ ¬ (ls <= b < ls + size)
}.

Section recover.
Context {WF : WaitFuel} (Hfuel : wait_fuel ≠ 0%nat) (s0 : kstate) (c : nat).
Notation N := (s0.(fs).(disksize)).
Context (D : Z → list Z) (W : list (Z * list Z)).

(** The view after boot. *)
Definition boot_view : cview := mkcv D D W ∅ ∅.

Lemma recover_l l s : lst s0 c boot_view l s → l.(l_dev) = 1 → length l.(lh_block) = LOGSIZE →
  head_ok N l.(l_start) l.(l_size) (D l.(l_start)) →
  runs recover_from_log s (λ _ s', ∃ l', lst s0 c (v_puts (recover_writes l.(l_start) D) boot_view) l' s').
Proof.
  intros HL Hdev Hlen [Hn Hns Harea HN Hhome]. set (d := D (l_start l)) in *.
  assert (size boot_view.(cv_dirty) < NBUF)%nat as Hsz by (apply Nat.lt_0_succ).
  unfold recover_from_log.
  eapply runs_bind; [apply (read_head_l Hfuel s0 c boot_view eq_refl l s HL); try done; [lia|by right|simpl; fold d; lia]|].
  intros [] s1 H1. cbn [cv_blk boot_view] in H1. fold d in H1. set (l1 := set_lh_block _ _) in H1.
  assert (logged l1 = head_blocks d) as El.
  { unfold logged, l1. simpl. rewrite take_app_length'; [done|]. unfold head_blocks. by rewrite length_fmap, length_seq. }
  assert (log_wf N l1) as Hwf.
  { split; try done; [|by rewrite El]. unfold l1. simpl. rewrite length_app, length_drop, Hlen. unfold head_blocks.
    rewrite length_fmap, length_seq. lia. }
  eapply runs_bind; [apply (install_trans_l Hfuel s0 c boot_view l1 Hwf eq_refl s1 H1); [set_solver|done]|].
  intros [] s2 H2. set (V2 := v_puts _ _) in H2.
  eapply runs_bind; [apply (modlog_l s0 c V2 l1 s2 _ H2)|]. intros [] s3 H3.
  assert (V2.(cv_held) = ∅) as Hh2 by (unfold V2; by rewrite v_puts_eq).
  assert (size V2.(cv_dirty) < NBUF)%nat as Hs2.
  { unfold V2. rewrite v_puts_eq. cbn [cv_dirty boot_view].
    apply (Nat.le_lt_trans _ (size (∅ : gset Z))); [apply subseteq_size; set_solver|apply Nat.lt_0_succ]. }
  eapply runs_mono; [apply (write_head_l Hfuel s0 c V2 Hh2 _ s3 (log_wf_clear _ _ Hwf) H3 Hs2)|].
  intros [] s4 H4. exists (set_lh_n 0 l1). change (logged (set_lh_n 0 l1)) with ([] : list Z) in H4.
  change (l_start (set_lh_n 0 l1)) with (l_start l) in H4.
  assert (cv_blk V2 (l_start l) = d) as E2.
  { unfold V2. rewrite v_puts_eq. simpl. rewrite apply_writes_other; [done|].
    rewrite install_list_fst. apply (start_not_logged _ _ Hwf). }
  rewrite E2 in H4. unfold recover_writes. fold d. rewrite v_puts_app.
  unfold V2, install_list in H4. rewrite El in H4. exact H4.
Qed.

(** Booting from a disk whose super block locates the log. *)
Lemma initlog_l l s : lst s0 c boot_view l s → length l.(lh_block) = LOGSIZE → 1 < N →
  let ls := s32 (sb_logstart (sb_of (D 1))) in
  head_ok N ls (s32 (sb_nlog (sb_of (D 1)))) (D ls) →
  runs (initlog 1) s (λ _ s', ∃ l', lst s0 c (v_puts (recover_writes ls D) boot_view) l' s').
Proof.
  intros HL Hlen HN ls Hok. unfold initlog. change (BSIZE <=? logheader_size)%nat with false. cbv iota.
  unfold readsb. eapply runs_bind.
  - eapply runs_bind; [apply (bread_l Hfuel s0 c boot_view l s 1 HL); [lia|done|right; apply Nat.lt_0_succ]|].
    intros i s1 [Hi H1]. eapply runs_bind; [apply (getb_l s0 c _ l s1 i 1 H1), lookup_insert_eq|].
    intros p s2 (-> & Hp & _). cbn [cv_blk v_lock boot_view] in Hp.
    eapply runs_bind; [apply (brelse_l Hfuel s0 c _ l s1 i 1 H1); [apply lookup_insert_eq|by right]|].
    intros [] s2 H2. rewrite v_unlock_lock in H2 by done. rewrite Hp.
    apply (runs_ret _ _ (λ sb s', sb = sb_of (D 1) ∧ lst s0 c boot_view l s')). done.
  - intros sb s1 [-> H1].
    eapply runs_bind; [apply (modlog_l s0 c boot_view l s1 _ H1)|]. intros [] s2 H2.
    eapply runs_bind; [apply (modlog_l s0 c boot_view _ s2 _ H2)|]. intros [] s3 H3.
    eapply runs_bind; [apply (modlog_l s0 c boot_view _ s3 _ H3)|]. intros [] s4 H4.
    apply (recover_l _ s4 H4); done.
Qed.
End recover.

(** *** A crash during a commit *)

Lemma apply_same bl (B D : Z → list Z) b :
  apply_writes ((fun b => (b, B b)) <$> bl) D b = if decide (b ∈ bl) then B b else D b.
Proof.
  induction bl as [|a bl IH] using rev_ind; [done|].
  rewrite fmap_app. cbn [fmap list_fmap]. rewrite apply_writes_snoc.
  destruct (decide (b = a)) as [->|Hne].
  - rewrite fn_lookup_insert, decide_True; [done|]. set_solver.
  - rewrite fn_lookup_insert_ne by done. rewrite IH.
    destruct (decide (b ∈ bl)); [rewrite decide_True; [done|set_solver]|rewrite decide_False; [done|set_solver]].
Qed.

Lemma head_empty d : (3 < length d)%nat → head_n (put_head [] d) = 0 ∧ head_blocks (put_head [] d) = [].
Proof.
  intros Hd. assert (head_n (put_head [] d) = 0) as E.
  { unfold head_n, put_head. simpl. rewrite ld_st32_same by lia. done. }
  split; [done|]. unfold head_blocks. by rewrite E.
Qed.

Section crash.
Context (N : Z) (l : logstate) (B D : Z → list Z) (Hwf : log_wf N l).
Context (Hlen : length (B l.(l_start)) = BSIZE) (Hhead : head_n (D l.(l_start)) = 0).
Context (Hclean : ∀ b, b ∉ logged l → B b = D b).
Let ls := l.(l_start).
Let h := put_head (logged l) (B ls).

(** Outside of the log area. *)
Definition outside (b : Z) : Prop := ¬ (ls <= b < ls + l.(l_size)).

Lemma logged_blkno : Forall blkno (logged l).
Proof.
  apply list.Forall_forall. intros b Hb. destruct (lw_home _ _ Hwf b Hb) as [Hr _]. pose proof (lw_N _ _ Hwf).
  unfold blkno. lia.
Qed.

Lemma h_blocks : head_blocks h = logged l ∧ head_n h = l.(lh_n).
Proof.
  destruct (log_n_lt _ _ Hwf) as (_ & Hn & Hln). pose proof (logged_length _ _ Hwf) as Hl.
  assert (head_blocks h = logged l) as E.
  { apply head_round_trip; [|apply logged_blkno|by rewrite Hl]. unfold ls. rewrite Hlen, Hl. unfold BSIZE, LOGSIZE in *. lia. }
  split; [done|]. unfold h, head_n, put_head. rewrite ld_st_words_below by lia.
  rewrite ld_st32_same by (unfold ls; rewrite Hlen; unfold BSIZE; lia). rewrite Hl.
  rewrite s32_small; [lia|]. unfold blkno, two31, LOGSIZE in *. lia.
Qed.

Lemma ok_empty d : head_n d = 0 → head_ok N ls l.(l_size) d ∧ head_blocks d = [].
Proof.
  intros E. assert (head_blocks d = []) as Eb by (unfold head_blocks; by rewrite E).
  pose proof (lw_n _ _ Hwf). pose proof (lw_n_size _ _ Hwf).
  split; [|done]. split; [rewrite E; lia|rewrite E; lia|apply (lw_area _ _ Hwf)|apply (lw_N _ _ Hwf)|].
  rewrite Eb. set_solver.
Qed.

Lemma recovered_empty D' b : head_blocks (D' ls) = [] → outside b → recovered ls D' b = D' b.
Proof.
  intros E Hb. unfold recovered, recover_writes. rewrite E. simpl. apply fn_lookup_insert_ne.
  unfold outside in Hb. pose proof (lw_n _ _ Hwf). pose proof (lw_n_size _ _ Hwf). lia.
Qed.

(** Before the header is written. *)
Lemma crash_before k : let D' := apply_writes (take k (log_list l B)) D in
  head_ok N ls l.(l_size) (D' ls) ∧ ∀ b, outside b → recovered ls D' b = D b.
Proof.
  intros D'.
  assert (∀ b, ¬ (ls < b < ls + l.(l_size)) → D' b = D b) as Hother.
  { intros b Hb. apply apply_writes_other. rewrite fmap_take. intros (j & Hj & _)%elem_of_take.
    destruct (log_list_fst l B b) as (m & Hm & ->); [by eapply list_elem_of_lookup_2|].
    rewrite (logged_length _ _ Hwf) in Hm. destruct (log_block_bounds _ _ _ Hwf Hm) as (_ & ? & _ & ?).
    unfold ls in Hb. lia. }
  destruct (ok_empty (D' ls)) as [Hok Hbl]; [by rewrite Hother by lia|]. split; [done|].
  intros b Hb. rewrite recovered_empty by done. apply Hother. unfold outside in Hb. lia.
Qed.

(** Between the two writes of the header. *)
Lemma crash_between k : let D' := apply_writes (log_list l B ++ [(ls, h)] ++ take k (home_list l B)) D in
  head_ok N ls l.(l_size) (D' ls) ∧ ∀ b, outside b → recovered ls D' b = B b.
Proof.
  intros D'. destruct h_blocks as [Ehb Ehn].
  assert (∀ b, b ∉ logged l → D' b = apply_writes (log_list l B ++ [(ls, h)]) D b) as Hother.
  { intros b Hb. unfold D'. rewrite (assoc_L (++)), apply_writes_app. apply apply_writes_other.
    rewrite fmap_take, home_list_fst. intros (j & Hj & _)%elem_of_take. apply Hb. by eapply list_elem_of_lookup_2. }
  assert (D' ls = h) as Els.
  { rewrite Hother by (by eapply start_not_logged). rewrite apply_writes_app. simpl. apply fn_lookup_insert. }
  assert (head_ok N ls l.(l_size) (D' ls)) as Hok.
  { rewrite Els. destruct Hwf. split; rewrite ?Ehn, ?Ehb; done. }
  split; [done|]. intros b Hb. unfold recovered, recover_writes. rewrite Els, Ehb.
  assert (imap (fun k b => (b, D' (ls + Z.of_nat k + 1))) (logged l) = (fun b => (b, B b)) <$> logged l) as ->.
  { apply list_eq. intros j. rewrite list_lookup_imap, list_lookup_fmap.
    destruct (logged l !! j) as [b'|] eqn:Ej; [|done]. simpl. do 2 f_equal.
    pose proof (lookup_lt_Some _ _ _ Ej) as Hlt. rewrite (logged_length _ _ Hwf) in Hlt.
    destruct (log_block_bounds _ _ _ Hwf Hlt) as (_ & _ & Hnl & Hns). unfold log_block in Hnl, Hns.
    rewrite Hother by done. rewrite apply_writes_app. simpl. rewrite fn_lookup_insert_ne by done.
    by eapply (log_list_at N l B D j b'). }
  rewrite apply_writes_app. simpl. pose proof (lw_n _ _ Hwf). pose proof (lw_n_size _ _ Hwf).
  unfold outside in Hb. rewrite fn_lookup_insert_ne by lia. rewrite apply_same. case_decide as Hin; [done|].
  rewrite Hother by done. rewrite apply_writes_app. simpl. rewrite fn_lookup_insert_ne by lia.
  rewrite (log_list_other N) by (done || (unfold ls in Hb; lia)). symmetry. by apply Hclean.
Qed.

(** After the last write. *)
Lemma crash_after : let D' := apply_writes (commit_writes l B) D in
  head_ok N ls l.(l_size) (D' ls) ∧ (∀ b, outside b → recovered ls D' b = B b) ∧ (∀ b, outside b → D' b = B b).
Proof.
  intros D'. assert (D' ls = put_head [] h) as Els.
  { unfold D', commit_writes. rewrite !(assoc_L (++)), apply_writes_app. apply fn_lookup_insert. }
  assert (3 < length h)%nat as Hh.
  { unfold h, put_head. rewrite length_st_words, length_st32. unfold ls. rewrite Hlen. unfold BSIZE. lia. }
  destruct (head_empty h Hh) as [En Eb].
  destruct (ok_empty (D' ls)) as [Hok Hbl]; [by rewrite Els|]. split; [done|].
  assert (∀ b, outside b → D' b = B b) as HB; [|split; [|done]].
  - intros b Hb. pose proof (lw_n _ _ Hwf). pose proof (lw_n_size _ _ Hwf). unfold outside in Hb.
    unfold D', commit_writes. rewrite !(assoc_L (++)), apply_writes_snoc. fold ls.
    rewrite fn_lookup_insert_ne by lia. rewrite apply_writes_app. unfold home_list.
    rewrite apply_same. case_decide as Hin; [done|]. rewrite apply_writes_snoc.
    rewrite fn_lookup_insert_ne by lia. rewrite (log_list_other N) by (done || (unfold ls in Hb; lia)).
    symmetry. by apply Hclean.
  - intros b Hb. rewrite recovered_empty by done. by apply HB.
Qed.

Lemma crash_any k : let D' := apply_writes (take k (commit_writes l B)) D in
  head_ok N ls l.(l_size) (D' ls) ∧
  ((∀ b, outside b → recovered ls D' b = D b) ∨ (∀ b, outside b → recovered ls D' b = B b)).
Proof.
  intros D'. destruct (decide (k <= length (log_list l B))%nat) as [H1|H1].
  { unfold D', commit_writes. rewrite take_app_le by done. destruct (crash_before k). eauto. }
  destruct (decide (k <= length (log_list l B) + 1 + length (home_list l B))%nat) as [H2|H2].
  - unfold D', commit_writes. rewrite take_app_ge by lia. rewrite (take_app_ge [_]) by (simpl; lia).
    cbn [length]. rewrite take_app_le by lia.
    destruct (crash_between (k - length (log_list l B) - 1)). eauto.
  - unfold D'. rewrite take_ge; [destruct crash_after as (? & ? & ?); eauto|].
    unfold commit_writes. rewrite !length_app. simpl. lia.
Qed.
End crash.

(** ** System calls: [begin_op], [log_write], [end_op] *)

Lemma lh_find_spec N l b : log_wf N l → blkno b →
  let k := lh_find l b in
  (k <= Z.to_nat l.(lh_n))%nat ∧
  (k = Z.to_nat l.(lh_n) → b ∉ logged l) ∧
  ((k < Z.to_nat l.(lh_n))%nat → l.(lh_block) !!! k = b).
Proof.
  intros Hwf Hb k. unfold k, lh_find. set (n := Z.to_nat (lh_n l)).
  assert (∀ j, (j < n)%nat → logged l !! j = Some (l.(lh_block) !!! j) ∧ blkno (l.(lh_block) !!! j)) as Hj.
  { intros j Hj. pose proof (logged_lookup _ _ _ Hwf Hj) as E. split; [done|].
    destruct (lw_home _ _ Hwf (l.(lh_block) !!! j)) as [? _]; [by eapply list_elem_of_lookup_2|].
    pose proof (lw_N _ _ Hwf). unfold blkno. lia. }
  assert (∀ z, blkno z → u32 z = z) as Hu by (intros z Hz; apply u32_id; unfold blkno, word, two31, two32 in *; lia).
  destruct (List.find _ _) as [j|] eqn:E.
  - apply find_some in E as [Hin%list_elem_of_In Heq%Z.eqb_eq]. rewrite elem_of_seq in Hin.
    destruct (Hj j) as [_ Hbj]; [lia|]. rewrite Hu in Heq by done. split; [lia|]. split; [lia|done].
  - split; [done|]. split; [|lia]. intros _ Hin. apply list_elem_of_lookup in Hin as [j Hlj].
    pose proof (lookup_lt_Some _ _ _ Hlj) as Hlt. rewrite (logged_length _ _ Hwf) in Hlt.
    destruct (Hj j Hlt) as [E' Hbj]. rewrite Hlj in E'. injection E' as E'.
    assert (j ∈ seq 0 n) as Hjs by (rewrite elem_of_seq; lia).
    pose proof (find_none _ _ E j ltac:(by apply list_elem_of_In)) as Hf. cbv beta in Hf.
    rewrite <- E', Hu, Z.eqb_refl in Hf by done. done.
Qed.

(** The header after [log_write] of block [b]: absorption or a new entry. *)
Definition log_add (b : Z) (l : logstate) : logstate :=
  if decide (b ∈ logged l) then l
  else set_lh_n (l.(lh_n) + 1) (set_lh_block (<[Z.to_nat l.(lh_n) := b]> l.(lh_block)) l).

Lemma log_add_eq N l b : log_wf N l → blkno b → let k := lh_find l b in
  log_add b l = if decide (k = Z.to_nat l.(lh_n))
    then set_lh_n (l.(lh_n) + 1) (set_lh_block (<[k := b]> l.(lh_block)) l)
    else set_lh_block (<[k := b]> l.(lh_block)) l.
Proof.
  intros Hwf Hb k. destruct (lh_find_spec _ _ _ Hwf Hb) as (Hk & Hnew & Hold). fold k in Hk, Hnew, Hold.
  pose proof (lw_n _ _ Hwf) as Hn0. pose proof (lw_len _ _ Hwf) as Hlen. unfold log_add.
  case_decide as Hin; case_decide as Hkn; [by destruct (Hnew Hkn)| | by rewrite Hkn|].
  - rewrite list_insert_id; [by destruct l|]. rewrite list_lookup_lookup_total_lt by lia. f_equal. apply Hold. lia.
  - destruct Hin. rewrite <- (Hold ltac:(lia)). eapply list_elem_of_lookup_2, logged_lookup; [done|lia].
Qed.

Lemma log_add_spec N l b : log_wf N l → 0 <= b < N → outside l b →
  l.(lh_n) + 1 < l.(l_size) → l.(l_size) <= Z.of_nat LOGSIZE →
  log_wf N (log_add b l) ∧ list_to_set (logged (log_add b l)) =@{gset Z} {[b]} ∪ list_to_set (logged l)
  ∧ (∀ a, a ∈ logged (log_add b l) ↔ a = b ∨ a ∈ logged l).
Proof.
  intros Hwf Hb Ho Hn Hsz. pose proof (lw_n _ _ Hwf) as Hn0. pose proof (lw_len _ _ Hwf) as Hlen.
  unfold log_add. case_decide as Hin; [split; [done|]; set_solver|].
  set (l' := set_lh_n _ _).
  assert (logged l' = logged l ++ [b]) as E.
  { unfold logged, l'. simpl. replace (Z.to_nat (lh_n l + 1)) with (S (Z.to_nat (lh_n l))) by lia.
    rewrite (take_S_r _ _ b) by (apply list_lookup_insert_eq; lia). by rewrite take_insert_ge by lia. }
  split; [|rewrite E; split; [rewrite list_to_set_app_L; set_solver|intros a; rewrite elem_of_app; set_solver]].
  destruct Hwf as [W1 W2 W3 W4 W5 W6 W7]. split; simpl; try done; [lia|by rewrite length_insert|].
  intros a. rewrite E, elem_of_app, list_elem_of_singleton. intros [Ha| ->]; [by apply W7|done].
Qed.

Section syscalls.
Context {WF : WaitFuel} (Hfuel : wait_fuel ≠ 0%nat) (s0 : kstate) (c : nat).
Notation N := (s0.(fs).(disksize)).

Lemma pin_l V l s i b : lst s0 c V l s → V.(cv_held) !! i = Some b →
  lst s0 c (v_pin b V) l (set_fs (upd_buf i (fun p => set_b_flags (Z.lor p.(b_flags) B_DIRTY) p) s.(fs)) s).
Proof.
  intros HL Hi. apply (lst_step _ _ V _ _ s); [done|by apply fs_step_fs|]. by apply (pin_spec Hfuel), Hi; apply HL.
Qed.

Lemma log_write_l V l s i b : log_wf N l → lst s0 c V l s → V.(cv_held) !! i = Some b → outside l b →
  l.(lh_n) + 1 < l.(l_size) → l.(l_size) <= Z.of_nat LOGSIZE → 1 <= l.(l_outstanding) →
  runs (log_write i) s (λ _ s', lst s0 c (v_pin b V) (log_add b l) s').
Proof.
  intros Hwf HL Hi Ho Hn Hsz Hout. pose proof (ls_bio _ _ _ _ _ HL) as HV.
  destruct (held_buf c V s HV i b Hi) as (f & Hbuf & _ & _ & _ & Hil & Hbr).
  rewrite (lf_size _ _ (ls_frame _ _ _ _ _ HL)) in Hbr.
  assert (blkno b) as Hb by (pose proof (lw_N _ _ Hwf); unfold blkno; lia).
  destruct (lh_find_spec _ _ _ Hwf Hb) as (Hk & _ & _). set (k := lh_find l b) in *.
  pose proof (lw_n _ _ Hwf) as Hn0. unfold log_write. apply (get_log_l s0 c V l); [done|].
  replace (_ || _) with false by (symmetry; apply orb_false_iff; split; apply Z.leb_gt; lia).
  rewrite (proj2 (Z.ltb_ge _ _) Hout).
  pose proof (log_add_eq _ _ _ Hwf Hb) as Eadd. fold k in Eadd.
  pose proof (kc_held _ _ (proj1 HV)) as Hh.
  set (x1 := set_log (log_add b l) s.(fs)).
  set (s1 := set_fs x1 s).
  assert (lst s0 c V (log_add b l) s1) as H1.
  { exact (modlog_l s0 c V l s (λ _, log_add b l) HL). }
  apply (runs_eq _ _ () (set_fs (upd_buf i (fun p => set_b_flags (Z.lor p.(b_flags) B_DIRTY) p) s1.(fs)) s1));
    [|by apply pin_l].
  kcall (acquire_free LOG_LOCK s ltac:(rewrite Hh; apply not_elem_of_nil)). rewrite Hh, bind_get.
  change (get_log (set_held [LOG_LOCK] s)) with (log (fs s)). rewrite (ls_log _ _ _ _ _ HL).
  unfold getb. rewrite bind_get. change (get_buf i (set_held [LOG_LOCK] s)) with (bufs (fs s) !!! i).
  rewrite Hbuf. cbn [b_blockno]. fold k. cbv zeta.
  rewrite (proj2 (Nat.ltb_lt k LOGSIZE)) by (unfold LOGSIZE in *; lia).
  assert (s32 b = b) as -> by (apply s32_id; unfold blkno, two31 in *; lia).
  unfold modlog, modfs. rewrite bind_modify. unfold s1, x1. rewrite Eadd.
  destruct (Z.eqb_spec (Z.of_nat k) (lh_n l)) as [Ek|Ek].
  - rewrite decide_True by lia. cbn [when]. rewrite bind_modify. unfold modb, modfs. rewrite bind_modify.
    rewrite (release_head _ []) by (done || apply not_elem_of_nil).
    cbn [fs set_fs set_held log set_log lh_n set_lh_block]. rewrite (ls_log _ _ _ _ _ HL).
    f_equal. destruct s. simpl in *. by subst held.
  - rewrite decide_False by lia. cbn [when]. rewrite bind_ret_l. unfold modb, modfs. rewrite bind_modify.
    rewrite (release_head _ []) by (done || apply not_elem_of_nil).
    cbn [fs set_fs set_held log set_log]. rewrite (ls_log _ _ _ _ _ HL).
    f_equal. destruct s. simpl in *. by subst held.
Qed.

Lemma begin_op_l V l s : lst s0 c V l s → l.(l_committing) = 0 →
  l.(lh_n) + (l.(l_outstanding) + 1) * MAXOPBLOCKS <= Z.of_nat LOGSIZE →
  runs begin_op s (λ _ s', lst s0 c V (set_l_outstanding (l.(l_outstanding) + 1) l) s').
Proof.
  intros HL Hc Hn. pose proof (kc_held _ _ (proj1 (ls_bio _ _ _ _ _ HL))) as Hh.
  set (f := fun l => set_l_outstanding (l.(l_outstanding) + 1) l).
  apply (runs_eq _ _ () (set_fs (set_log (f l) s.(fs)) s)).
  - unfold begin_op. kcall (acquire_free LOG_LOCK s ltac:(rewrite Hh; apply not_elem_of_nil)). rewrite Hh.
    destruct wait_fuel as [|n]; [done|]. cbn [begin_op_loop]. rewrite bind_get.
    change (get_log (set_held [LOG_LOCK] s)) with (log (fs s)). rewrite (ls_log _ _ _ _ _ HL), Hc.
    cbn [truthy negb Z.eqb]. rewrite (proj2 (Z.ltb_ge _ _) Hn). unfold modlog, modfs. rewrite bind_modify.
    rewrite (release_head _ []) by (done || apply not_elem_of_nil).
    cbn [fs set_fs set_held log set_log]. rewrite (ls_log _ _ _ _ _ HL).
    f_equal. destruct s. simpl in *. by subst held.
  - exact (modlog_l s0 c V l s (λ _, f l) HL).
Qed.

Lemma wake_lst V l s ch : lst s0 c V l s → lst s0 c V l (set_pt (wake_proc ch <$> s.(pt)) s).
Proof.
  intros HL. pose proof (fs_only_wake ch s.(fs) s) as Hw. replace (set_fs (fs s) s) with s in Hw by by destruct s.
  destruct (ls_bio _ _ _ _ _ HL) as [Hctx HR].
  apply (lst_step _ _ V _ _ s); [done|by split|]. destruct (fs_only_ctx c _ _ Hw Hctx) as [Hc Hp].
  split; [done|]. by rewrite Hp.
Qed.

Lemma log_wake_l V l s f : lst s0 c V l s →
  runs (acquire LOG_LOCK;; modlog f;; wakeup CH_LOG;; release LOG_LOCK) s (λ _ s', lst s0 c V (f l) s').
Proof.
  intros HL. pose proof (kc_held _ _ (proj1 (ls_bio _ _ _ _ _ HL))) as Hh.
  pose proof (kc_wf _ _ (proj1 (ls_bio _ _ _ _ _ HL))) as Hw.
  set (s1 := set_fs (set_log (f l) s.(fs)) s).
  apply (runs_eq _ _ () (set_pt (wake_proc CH_LOG <$> s1.(pt)) s1)).
  - kcall (acquire_free LOG_LOCK s ltac:(rewrite Hh; apply not_elem_of_nil)). rewrite Hh.
    unfold modlog, modfs. rewrite bind_modify. change (fs (set_held _ s)) with (fs s). rewrite (ls_log _ _ _ _ _ HL).
    change (set_fs ?x (set_held ?h s)) with (set_held h (set_fs x s)). fold s1.
    kcall (wakeup_run CH_LOG (set_held [LOG_LOCK] s1) Hw ltac:(simpl; set_solver)).
    rewrite (release_head _ []) by (done || apply not_elem_of_nil).
    f_equal. unfold s1. destruct s. simpl in *. by subst held.
  - apply wake_lst. exact (modlog_l s0 c V l s (λ _, f l) HL).
Qed.

(** The end of the last outstanding operation commits. *)
Definition end_writes (l : logstate) (B : Z → list Z) : list (Z * list Z) :=
  if 0 <? l.(lh_n) then commit_writes l B else [].

Lemma end_op_l V l s : log_wf N l → lst s0 c V l s → V.(cv_held) = ∅ →
  V.(cv_dirty) = list_to_set (logged l) → l.(l_committing) = 0 → l.(l_outstanding) = 1 →
  runs end_op s (λ _ s', lst s0 c (v_puts (end_writes l V.(cv_blk)) V) (set_lh_n 0 (set_l_outstanding 0 l)) s').
Proof.
  intros Hwf HL Hheld Hd Hc Ho. pose proof (kc_held _ _ (proj1 (ls_bio _ _ _ _ _ HL))) as Hh.
  set (lA := set_l_committing 1 (set_l_outstanding 0 l)).
  set (sA := set_fs (set_log lA s.(fs)) s).
  assert (lst s0 c V lA sA) as HA by exact (modlog_l s0 c V l s (λ _, lA) HL).
  assert (log_wf N lA) as HwA by (by destruct Hwf).
  set (k := commit;; acquire LOG_LOCK;; modlog (set_l_committing 0);; wakeup CH_LOG;; release LOG_LOCK).
  assert (end_op s = k sA) as E.
  { unfold end_op. kcall (acquire_free LOG_LOCK s ltac:(rewrite Hh; apply not_elem_of_nil)). rewrite Hh.
    unfold modlog at 1, modfs at 1. rewrite bind_modify, bind_get.
    change (get_log _) with (set_l_outstanding (l_outstanding (log (fs s)) - 1) (log (fs s))).
    rewrite (ls_log _ _ _ _ _ HL). cbn [l_committing set_l_outstanding l_outstanding]. rewrite Hc, Ho.
    change (truthy 0) with false. change (1 - 1 =? 0) with true. cbv iota zeta.
    unfold modlog at 1, modfs at 1. rewrite bind_modify.
    erewrite (bind_returns (release LOG_LOCK)); [|apply (release_head _ []); [done|apply not_elem_of_nil]].
    cbn [when]. fold k. f_equal. cbn [fs set_fs set_held log set_log]. rewrite (ls_log _ _ _ _ _ HL), Ho.
    unfold sA, lA. destruct s. simpl in *. by subst held. }
  apply runs_Ret. rewrite E. apply runs_Ret. unfold k.
  assert (runs commit sA (λ _ s', lst s0 c (v_puts (end_writes l V.(cv_blk)) V) (set_lh_n 0 lA) s')) as Hcm.
  { unfold end_writes. destruct (Z.ltb_spec 0 (lh_n l)) as [Hp|Hp].
    - by apply (commit_l Hfuel s0 c V lA HwA Hheld sA HA).
    - unfold commit. apply (get_log_l s0 c V lA); [done|]. change (lh_n lA) with (lh_n l).
      rewrite (proj2 (Z.ltb_ge _ _) Hp). cbn [when]. apply runs_ret. cbn [v_puts foldl].
      assert (lh_n l = 0) as E0 by (pose proof (lw_n _ _ Hwf); lia).
      replace (set_lh_n 0 lA) with lA; [done|]. unfold lA, set_lh_n, set_l_committing, set_l_outstanding. simpl.
      by rewrite E0. }
  eapply runs_bind; [exact Hcm|]. intros [] s1 H1.
  eapply runs_mono; [apply (log_wake_l _ _ s1 (set_l_committing 0) H1)|]. intros [] s2 H2.
  replace (set_lh_n 0 (set_l_outstanding 0 l)) with (set_l_committing 0 (set_lh_n 0 lA)); [done|].
  unfold lA, set_l_committing, set_lh_n, set_l_outstanding. simpl. by rewrite Hc.
Qed.
End syscalls.

(** ** Crash safety of a transaction *)

(** The state in which the last outstanding operation calls [end_op]: the
    blocks it changed are pinned in the cache and listed in the header, the
    others agree with the disk, whose log is empty; the super block locates
    the log. *)
Record tx_end (c : nat) (V : cview) (s : kstate) : Prop := {
  te_bio : bio_st c V s;
  te_wf : log_wf s.(fs).(disksize) s.(fs).(log);
  te_held : V.(cv_held) = ∅;
  te_dirty : V.(cv_dirty) = list_to_set (logged s.(fs).(log));
  te_clean : ∀ b, b ∉ logged s.(fs).(log) → V.(cv_blk) b = V.(cv_disk) b;
  te_head : head_n (V.(cv_disk) s.(fs).(log).(l_start)) = 0;
  te_committing : s.(fs).(log).(l_committing) = 0;
  te_outstanding : s.(fs).(log).(l_outstanding) = 1;
  te_super : let sb := sb_of (V.(cv_disk) 1) in
    s32 sb.(sb_logstart) = s.(fs).(log).(l_start) ∧ s32 sb.(sb_nlog) = s.(fs).(log).(l_size);
  te_one : 1 < s.(fs).(disksize) ∧ outside s.(fs).(log) 1 ∧ 1 ∉ logged s.(fs).(log)
}.

(** A machine that has just been started with the disk [D] of the machine [s]. *)
Record booted (D : Z → list Z) (s : kstate) (c : nat) (s' : kstate) : Prop := {
  bt_ctx : kctx c s';
  bt_bufs : s'.(fs).(bufs) = replicate NBUF buf0;
  bt_disk : s'.(fs).(disk) = D;
  bt_size : s'.(fs).(disksize) = s.(fs).(disksize);
  bt_log : length s'.(fs).(log).(lh_block) = LOGSIZE
}.

Lemma lst_refl c V s : bio_st c V s → lst s c V s.(fs).(log) s.
Proof. intros H. split; [|done|done]. by split. Qed.

Lemma end_writes_other N l B b : log_wf N l → outside l b → b ∉ logged l → b ∉ (end_writes l B).*1.
Proof.
  intros Hwf Ho Hn. unfold end_writes. destruct (0 <? lh_n l); [|set_solver].
  pose proof (lw_n _ _ Hwf). pose proof (lw_n_size _ _ Hwf). unfold outside in Ho.
  unfold commit_writes. rewrite !fmap_app, !elem_of_app, home_list_fst. simpl.
  rewrite !list_elem_of_singleton. intros [Hin|[->|[?| ->]]]; [|lia|done|lia].
  apply log_list_fst in Hin as (k & Hk & ->). rewrite (logged_length _ _ Hwf) in Hk.
  destruct (log_block_bounds _ _ _ Hwf Hk) as (_ & ? & _ & _). lia.
Qed.

Lemma apply_writes_length ws D b : Forall (λ w, length w.2 = BSIZE) ws → (∀ b, length (D b) = BSIZE) →
  length (apply_writes ws D b) = BSIZE.
Proof.
  intros Hws HD. induction ws as [|[a d] ws IH] using rev_ind; [apply HD|].
  apply Forall_app in Hws as [Hws Hd]. inversion_clear Hd as [|? ? Hd' _]. rewrite apply_writes_snoc.
  destruct (decide (b = a)) as [->|Hne]; [by rewrite fn_lookup_insert|rewrite fn_lookup_insert_ne by done; by apply IH].
Qed.

Lemma end_writes_length l B : (∀ b, length (B b) = BSIZE) → Forall (λ w, length w.2 = BSIZE) (end_writes l B).
Proof.
  intros HB. unfold end_writes. destruct (0 <? lh_n l); [|done].
  assert (∀ bl d, length d = BSIZE → length (put_head bl d) = BSIZE) as Hp.
  { intros bl d Hd. unfold put_head. by rewrite length_st_words, length_st32. }
  unfold commit_writes. repeat (apply Forall_app; split).
  - unfold log_list. apply Forall_lookup. intros k w. rewrite list_lookup_imap.
    destruct (logged l !! k); intros [= <-]. apply HB.
  - apply Forall_singleton. by apply Hp.
  - unfold home_list. apply Forall_fmap, Forall_true. intros b. apply HB.
  - apply Forall_singleton. by apply Hp, Hp.
Qed.

Lemma end_writes_crash N l B D k : log_wf N l → length (B l.(l_start)) = BSIZE →
  head_n (D l.(l_start)) = 0 → (∀ b, b ∉ logged l → B b = D b) →
  let D' := apply_writes (take k (end_writes l B)) D in
  head_ok N l.(l_start) l.(l_size) (D' l.(l_start)) ∧
  ((∀ b, outside l b → recovered l.(l_start) D' b = D b) ∨ (∀ b, outside l b → recovered l.(l_start) D' b = B b)) ∧
  (∀ b, outside l b → apply_writes (end_writes l B) D b = B b).
Proof.
  intros Hwf Hlen Hh Hcl D'. unfold D', end_writes. destruct (Z.ltb_spec 0 (lh_n l)) as [Hp|Hp].
  - destruct (crash_any N l B D Hwf Hlen Hh Hcl k) as [? ?].
    destruct (crash_after N l B D Hwf Hlen Hh Hcl) as (_ & _ & ?). done.
  - assert (logged l = []) as El by (unfold logged; by replace (Z.to_nat (lh_n l)) with 0%nat by lia).
    destruct (crash_before N l B D Hwf Hlen Hh Hcl 0) as [H1 H2]. rewrite take_nil. split; [done|]. split; [by left|].
    intros b Hb. symmetry. apply Hcl. rewrite El. set_solver.
Qed.

(** What [end_op] leaves on the disk. *)
Lemma end_op_disk {WF : WaitFuel} (Hfuel : wait_fuel ≠ 0%nat) c V s : tx_end c V s →
  let l := s.(fs).(log) in let ws := end_writes l V.(cv_blk) in
  runs end_op s (λ _ s', s'.(fs).(writes) = s.(fs).(writes) ++ ws ∧
    (∀ b, outside l b → s'.(fs).(disk) b = blk s.(fs) b) ∧
    lst s c (v_puts ws V) (set_lh_n 0 (set_l_outstanding 0 l)) s').
Proof.
  intros [HV Hwf Hh Hd Hcl Hhd Hc Ho _ _] l ws. pose proof HV as [_ HR].
  pose proof (blk_length c V s l.(l_start) HV) as Hlen.
  eapply runs_mono; [apply (end_op_l Hfuel s c V l s Hwf (lst_refl c V s HV) Hh Hd Hc Ho)|].
  intros [] s' H'. destruct (ls_bio _ _ _ _ _ H') as [_ HR']. fold ws in H', HR'.
  pose proof (end_writes_crash _ l V.(cv_blk) V.(cv_disk) 0 Hwf Hlen Hhd Hcl) as (_ & _ & Hcrash). fold ws in Hcrash.
  rewrite v_puts_eq in HR'. split; [|split; [|done]].
  - rewrite (cr_writes _ _ _ HR'). simpl. by rewrite (cr_writes _ _ _ HR).
  - intros b Hb. rewrite (cr_disk _ _ _ HR'), (cr_blk _ _ _ HR). simpl. by apply Hcrash.
Qed.

(** Booting from the disk as it is after some of the writes of [end_op]. *)
Lemma boot_recovers {WF : WaitFuel} (Hfuel : wait_fuel ≠ 0%nat) c V s k cb sb : tx_end c V s →
  let l := s.(fs).(log) in let ws := end_writes l V.(cv_blk) in
  booted (apply_writes (take k ws) s.(fs).(disk)) s cb sb →
  runs (binit;; initlog 1) sb (λ _ sb',
    (∀ b, outside l b → sb'.(fs).(disk) b = s.(fs).(disk) b) ∨
    (∀ b, outside l b → sb'.(fs).(disk) b = blk s.(fs) b)).
Proof.
  intros [HV Hwf Hh Hd Hcl Hhd Hc Ho [Hs1 Hs2] (H1N & Ho1 & Hn1)] l ws [Hctx Hbufs Hdisk Hsize Hlog].
  pose proof HV as [_ HR]. pose proof (cr_disk _ _ _ HR) as ED. pose proof (cr_blk _ _ _ HR) as EB.
  pose proof (blk_length c V s l.(l_start) HV) as Hlen.
  destruct (end_writes_crash _ l V.(cv_blk) V.(cv_disk) k Hwf Hlen Hhd Hcl) as (Hok & Hrec & _). fold ws in Hok, Hrec.
  rewrite ED in Hdisk. set (D' := apply_writes (take k ws) _) in *.
  assert (D' 1 = V.(cv_disk) 1) as E1.
  { apply apply_writes_other. rewrite fmap_take. intros (j & Hj & _)%elem_of_take.
    apply list_elem_of_lookup_2 in Hj. revert Hj. by eapply end_writes_other. }
  eapply runs_bind; [apply (binit_spec cb sb Hctx Hbufs)|].
  { intros b. rewrite Hdisk. apply apply_writes_length.
    - apply Forall_take, end_writes_length. intros b'. by apply (blk_length c V s).
    - intros b'. rewrite <- ED. apply (bi_disk _ _ _ (cr_inv _ _ _ HR)). }
  intros [] sb1 [Hst HVb]. rewrite Hdisk in HVb.
  assert (lst sb cb (boot_view D' sb.(fs).(writes)) sb.(fs).(log) sb1) as HLb.
  { destruct Hst as [? (? & ? & ? & ?)]. by split. }
  assert (l_start l = s32 (sb_logstart (sb_of (D' 1)))) as Els by by rewrite E1.
  assert (l_size l = s32 (sb_nlog (sb_of (D' 1)))) as Esz by by rewrite E1.
  rewrite Els, Esz in Hok. rewrite <- Hsize in Hok.
  eapply runs_mono; [apply (initlog_l Hfuel sb cb D' _ _ sb1 HLb Hlog); [by rewrite Hsize|done]|].
  intros [] sb2 (l' & H2). destruct (ls_bio _ _ _ _ _ H2) as [_ HR2]. rewrite v_puts_eq in HR2.
  rewrite (cr_disk _ _ _ HR2). cbn [cv_disk boot_view]. rewrite <- Els. fold (recovered (l_start l) D').
  destruct Hrec as [Hr|Hr]; [left|right]; intros b Hb; rewrite (Hr b Hb); [by rewrite ED|by rewrite EB].
Qed.

(** The end of the last outstanding file system operation makes its
    changes atomic with respect to crashes.  When it returns, every block
    outside of the log area is on the disk as the operations left it in the
    cache; and whenever the machine stops after any number of the disk writes
    [end_op] makes, booting from the disk found then, with an empty cache,
    and running [initlog] yields a disk on which either all blocks outside of
    the log area are as before the operations, or all are as they left them. *)
Theorem end_op_crash_safe {WF : WaitFuel} (Hfuel : wait_fuel ≠ 0%nat) c V s : tx_end c V s →
  let l := s.(fs).(log) in
  runs end_op s (λ _ s', ∃ ws, s'.(fs).(writes) = s.(fs).(writes) ++ ws ∧
    (∀ b, outside l b → s'.(fs).(disk) b = blk s.(fs) b) ∧
    ∀ k cb sb, booted (apply_writes (take k ws) s.(fs).(disk)) s cb sb →
      runs (binit;; initlog 1) sb (λ _ sb',
        (∀ b, outside l b → sb'.(fs).(disk) b = s.(fs).(disk) b) ∨
        (∀ b, outside l b → sb'.(fs).(disk) b = blk s.(fs) b))).
Proof.
  intros Htx l. eapply runs_mono; [by apply (end_op_disk Hfuel c V)|].
  intros [] s' (Hw & Hd & _). eexists. split; [exact Hw|]. split; [exact Hd|].
  intros k cb sb Hb. exact (boot_recovers Hfuel c V s k cb sb Htx Hb).
Qed.

(** A file system of 1000 blocks with its log in blocks 2 to 31, and a
    transaction on it. *)
Definition demo_disk (b : Z) : list Z :=
  if b =? 1 then st_words 0 [1000; 941; 200; 30; 2; 32; 58] (replicate BSIZE 0) else replicate BSIZE 0.
Definition demo_log : kstate :=
  set_fs (set_log (mklog 2 30 0 0 1 0 (replicate LOGSIZE 0)) (set_disk demo_disk (set_disksize 1000 fs0))) demo.
Definition sevens : list Z := replicate BSIZE 7.

Definition demo_tx {WF : WaitFuel} : M unit :=
  binit;;
  begin_op;;
  i <- bread 1 40;;
  modb i (fun p => set_b_data ((fun _ => sevens) p.(b_data)) p);;
  log_write i;;
  brelse i.

Lemma demo_disk_length b : length (demo_disk b) = BSIZE.
Proof. unfold demo_disk. destruct (b =? 1); rewrite ?length_st_words; apply length_replicate. Qed.

Lemma demo_log_wf l : l_dev l = 1 → lh_n l = 0 → l_start l = 2 → l_size l = 30 → lh_block l = replicate LOGSIZE 0 →
  log_wf 1000 l.
Proof.
  intros E1 E2 E3 E4 E5. split; rewrite ?E1, ?E2, ?E3, ?E4, ?E5; try done.
  unfold logged. rewrite E2. simpl. set_solver.
Qed.

Lemma demo_tx_l : let WF : WaitFuel := 1%nat in
  runs demo_tx demo_log (λ _ s, ∃ V, tx_end 1 V s ∧ V.(cv_blk) 40 = sevens ∧ V.(cv_disk) = demo_disk ∧ outside s.(fs).(log) 40).
Proof.
  intros WF. assert (wait_fuel ≠ 0%nat) as Hfuel by (unfold wait_fuel, WF; lia).
  unfold demo_tx. eapply runs_bind.
  { apply (binit_spec 1 demo_log); [split; reflexivity|reflexivity|apply demo_disk_length]. }
  intros [] s1 [Hs1 HV1]. set (V1 := mkcv _ _ _ _ _) in HV1. set (l0 := mklog 2 30 0 0 1 0 (replicate LOGSIZE 0)).
  assert (lst demo_log 1 V1 l0 s1) as H1 by (destruct Hs1 as [? (? & ? & ? & ?)]; by split).
  eapply runs_bind; [apply (begin_op_l Hfuel demo_log 1 V1 l0 s1 H1); [reflexivity|unfold MAXOPBLOCKS, LOGSIZE; simpl; lia]|].
  intros [] s2 H2. set (l1 := set_l_outstanding _ _) in H2.
  assert (log_wf 1000 l1) as Hwf by by apply demo_log_wf.
  assert (outside l1 40) as Ho by (unfold outside; simpl; lia).
  eapply runs_bind; [apply (bread_l Hfuel demo_log 1 V1 l1 s2 40 H2); [simpl; lia|done|right; apply Nat.lt_0_succ]|].
  intros i s3 [Hi H3]. pose proof (lookup_insert_eq (cv_held V1) i 40) as Hi3.
  eapply runs_bind; [apply (modb_data_l Hfuel demo_log 1 _ l1 s3 i 40 (λ _, sevens) H3 Hi3); reflexivity|].
  intros [] s4 H4.
  eapply runs_bind; [apply (log_write_l Hfuel demo_log 1 _ l1 s4 i 40 Hwf H4 Hi3 Ho); unfold LOGSIZE; simpl; lia|].
  intros [] s5 H5. set (l2 := log_add 40 l1) in *.
  eapply runs_mono; [apply (brelse_l Hfuel demo_log 1 _ l2 s5 i 40 H5 Hi3); left; simpl; set_solver|].
  intros [] s6 H6. set (V6 := v_unlock i _) in H6. exists V6.
  destruct (log_add_spec 1000 l1 40 Hwf) as (Hwf2 & Hset & Hin2); [lia|done|simpl; lia|unfold LOGSIZE; simpl; lia|].
  fold l2 in Hwf2, Hset, Hin2.
  assert (logged l1 = []) as El1 by reflexivity. rewrite El1 in Hset, Hin2.
  pose proof (ls_log _ _ _ _ _ H6) as El. pose proof (lf_size _ _ (ls_frame _ _ _ _ _ H6)) as Esz.
  assert (l_start l2 = 2 ∧ l_size l2 = 30 ∧ l_committing l2 = 0 ∧ l_outstanding l2 = 1) as (Ls & Lz & Lc & Lo)
    by (unfold l2, log_add; by case_decide).
  split; [|split; [|split; [done|]]].
  - split; rewrite ?El, ?Esz; [exact (ls_bio _ _ _ _ _ H6)|exact Hwf2| | | | | | | |].
    + apply delete_insert_id. done.
    + rewrite Hset. unfold V6. cbn. set_solver.
    + intros b Hb. rewrite Hin2 in Hb. unfold V6. cbn. rewrite fn_lookup_insert_ne; [done|]. set_solver.
    + rewrite Ls. reflexivity.
    + done.
    + done.
    + rewrite Ls, Lz. split; reflexivity.
    + unfold outside. rewrite Ls, Lz, Hin2. split; [reflexivity|]. split; [lia|set_solver].
  - apply fn_lookup_insert.
  - rewrite El. unfold outside. rewrite Ls, Lz. lia.
Qed.

Lemma end_op_crash_safe_witness : let WF : WaitFuel := 1%nat in
  runs demo_tx demo_log (λ _ s, runs end_op s (λ _ s', ∃ ws, s'.(fs).(writes) = s.(fs).(writes) ++ ws ∧
    s'.(fs).(disk) 40 = sevens ∧
    ∀ k cb sb, booted (apply_writes (take k ws) s.(fs).(disk)) s cb sb →
      runs (binit;; initlog 1) sb (λ _ sb', sb'.(fs).(disk) 40 = replicate BSIZE 0 ∨ sb'.(fs).(disk) 40 = sevens))).
Proof.
  intros WF. eapply runs_mono; [apply demo_tx_l|]. intros [] s (V & Htx & E40 & ED & Ho).
  destruct (te_bio _ _ _ Htx) as [_ HR].
  assert (blk (fs s) 40 = sevens) as Eb by (rewrite (cr_blk _ _ _ HR); exact E40).
  assert (disk (fs s) 40 = replicate BSIZE 0) as Ed by (rewrite (cr_disk _ _ _ HR), ED; reflexivity).
  eapply runs_mono; [apply (end_op_crash_safe (WF := WF) ltac:(discriminate) 1 V s Htx)|].
  intros [] s' (ws & Hw & Hd & Hcrash). exists ws. split; [exact Hw|].
  split; [rewrite Hd by exact Ho; exact Eb|]. intros k cb sb Hb.
  eapply runs_mono; [exact (Hcrash k cb sb Hb)|]. intros [] sb' [H|H]; [left|right]; rewrite H by exact Ho; assumption.
Defined.
