(* ===== verification/Fs.v ===== *)
(** * Blocks, inodes and files: [fs.c] up to [writei]

    The free map, the inode cache and the contents of files, over the block
    cache and the log.  An inode pointer is an index into [icache], [None] the
    null pointer.  Data moves between buffers and the memory of the machine
    ([char *dst]) or a local structure of the caller; [readi_gen] and
    [writei_gen] cover both.  The device switch is the class [DevSw]. *)

From stdpp Require Import base numbers option list sets strings gmap fin_maps functions.
From Stdlib Require Import ZArith Lia.
From S2P Require Import Prelude Kstring State Locks Console Kalloc Proc Sleeplock Bio Log.

(** ** Constants of [fs.h], [stat.h] and [param.h] *)

Definition ROOTINO : Z := 1.
Definition NINDIRECT : Z := 128.
Definition MAXFILE : Z := Z.of_nat NDIRECT + NINDIRECT.
Definition IPB : Z := 8.
Definition BPB : Z := 4096.
Definition T_DIR : Z := 1.
Definition T_FILE : Z := 2.
Definition T_DEV : Z := 3.
Definition NDEV : Z := 10.

Definition IBLOCK (i : Z) (sb : superblock) : Z := u32 (i / IPB + sb.(sb_inodestart)).
Definition BBLOCK (b : Z) (sb : superblock) : Z := u32 (b / BPB + sb.(sb_bmapstart)).

(** ** Half words and bytes *)

Definition s16 (z : Z) : Z := let u := z mod 65536 in if u <? 32768 then u else u - 65536.
Definition ld16 (l : list Z) (o : nat) : Z := l !!! o + 256 * l !!! (o + 1)%nat.
Definition st16 (o : nat) (v : Z) (l : list Z) : list Z :=
  <[(o + 1)%nat := (v / 256) mod 256]> (<[o := v mod 256]> l).

Fixpoint put_bytes (m : memory) (a : Z) (l : list Z) : memory :=
  match l with [] => m | b :: l => put_bytes (store8 m a b) (u32 (a + 1)) l end.
Definition get_bytes (m : memory) (a : Z) (n : nat) : list Z :=
  (fun k => load8 m (a + Z.of_nat k)) <$> seq 0 n.

(** The bytes [o .. o + length d) of a block replaced by [d]. *)
Definition splice (o : nat) (d l : list Z) : list Z := take o l ++ d ++ drop (o + length d) l.

(** The device functions, indexed by the major number. *)
Class DevSw : Type := {
  dev_read : Z → option (nat → Z → Z → M Z);
  dev_write : Z → option (nat → Z → Z → M Z)
}.

(** ** Blocks *)

Definition get_sb (s : kstate) : superblock := s.(fs).(sb).

Section blocks.
Context `{!WaitFuel}.

Definition bzero (dev bno : Z) : M unit :=
  i <- bread dev (u32 bno);;
  modb i (set_b_data (replicate BSIZE 0));;
  log_write i;;
  brelse i.

(** Bit [bi] of a block of the free map. *)
Definition map_bit (d : list Z) (bi : nat) : bool :=
  negb (Z.land (d !!! (bi / 8)%nat) (bit (Z.of_nat (bi mod 8))) =? 0).
Definition set_map_bit (bi : nat) (d : list Z) : list Z :=
  <[(bi / 8)%nat := Z.lor (d !!! (bi / 8)%nat) (bit (Z.of_nat (bi mod 8)))]> d.
Definition clear_map_bit (bi : nat) (d : list Z) : list Z :=
  <[(bi / 8)%nat := Z.land (d !!! (bi / 8)%nat) (not32 (bit (Z.of_nat (bi mod 8))))]> d.

(** One turn of the outer loop: the map block for blocks [b ..]. *)
Definition balloc_at (dev b : Z) : M (option Z) :=
  sb <- get get_sb;;
  i <- bread dev (BBLOCK b sb);;
  p <- getb i;;
  match List.find (fun bi => negb (map_bit p.(b_data) bi)) (seq 0 (Z.to_nat (Z.min BPB (sb.(sb_size) - b)))) with
  | Some bi =>
    modb i (fun p => set_b_data (set_map_bit bi p.(b_data)) p);;
    log_write i;;
    brelse i;;
    bzero dev (b + Z.of_nat bi);;
    ret (Some (b + Z.of_nat bi))
  | None => brelse i;; ret None
  end.

Definition balloc (dev : Z) : M Z :=
  sb <- get get_sb;;
  r <- scanM (fun k => balloc_at dev (Z.of_nat k * BPB))
         (seq 0 (Z.to_nat ((sb.(sb_size) + BPB - 1) / BPB)));;
  match r with
  | Some b => ret b
  | None => panic "balloc: out of blocks"
  end.

Definition bfree (dev b : Z) : M unit :=
  sb <- get get_sb;;
  i <- bread dev (BBLOCK b sb);;
  let bi := Z.to_nat (b mod BPB) in
  p <- getb i;;
  if negb (map_bit p.(b_data) bi) then panic "freeing free block" else
  modb i (fun p => set_b_data (clear_map_bit bi p.(b_data)) p);;
  log_write i;;
  brelse i.

(** ** Inodes *)

Definition geti (i : nat) : M inode := get (get_inode i).
Definition modi (i : nat) (f : inode → inode) : M unit := modfs (upd_inode i f).

Definition iinit (dev : Z) : M unit :=
  foldM (fun _ i => initsleeplock (SL_INODE i)) (seq 0 NINODE) ();;
  sb <- readsb dev;;
  modfs (set_sb sb);;
  cprintf ("sb: size %d nblocks %d ninodes %d nlog %d logstart %d inodestart %d bmap start %d"
           +:+ String (Ascii.ascii_of_nat 10) EmptyString)
    [AInt sb.(sb_size); AInt sb.(sb_nblocks); AInt sb.(sb_ninodes); AInt sb.(sb_nlog);
     AInt sb.(sb_logstart); AInt sb.(sb_inodestart); AInt sb.(sb_bmapstart)].

(** The [struct dinode] at offset [o] of a block. *)
Definition dinode_size : nat := 64.
Definition dinode_off (inum : Z) : nat := (dinode_size * Z.to_nat (inum mod IPB))%nat.

Definition dinode_store (o : nat) (ip : inode) (d : list Z) : list Z :=
  st_words (o + 12) ip.(i_addrs) (st32 (o + 8) ip.(i_size) (st16 (o + 6) ip.(i_nlink)
    (st16 (o + 4) ip.(i_minor) (st16 (o + 2) ip.(i_major) (st16 o ip.(i_type) d))))).

Definition dinode_load (o : nat) (d : list Z) (ip : inode) : inode :=
  set_i_addrs ((fun k => ld32 d (o + 12 + 4 * k)) <$> seq 0 (NDIRECT + 1)) (set_i_size (ld32 d (o + 8))
    (set_i_nlink (s16 (ld16 d (o + 6))) (set_i_minor (s16 (ld16 d (o + 4)))
      (set_i_major (s16 (ld16 d (o + 2))) (set_i_type (s16 (ld16 d o)) ip))))).

Definition iget_match (dev inum : Z) (ip : inode) : bool :=
  (0 <? ip.(i_ref)) && (ip.(i_dev) =? dev) && (ip.(i_inum) =? inum).

Definition first_inode (P : inode → bool) (x : fsstate) : option nat :=
  List.find (fun i => P (x.(icache) !!! i)) (seq 0 NINODE).

Definition iget (dev inum : Z) : M nat :=
  acquire ICACHE_LOCK;;
  o <- get (fun s => first_inode (iget_match dev inum) s.(fs));;
  match o with
  | Some i =>
    modi i (fun ip => set_i_ref (ip.(i_ref) + 1) ip);;
    release ICACHE_LOCK;;
    ret i
  | None =>
    e <- get (fun s => first_inode (fun ip => ip.(i_ref) =? 0) s.(fs));;
    match e with
    | None => panic "iget: no inodes"
    | Some i =>
      modi i (fun ip => set_i_valid 0 (set_i_ref 1 (set_i_inum inum (set_i_dev dev ip))));;
      release ICACHE_LOCK;;
      ret i
    end
  end.

(** One turn of the loop of [ialloc]. *)
Definition ialloc_at (dev type inum : Z) : M (option nat) :=
  sb <- get get_sb;;
  i <- bread dev (IBLOCK inum sb);;
  p <- getb i;;
  let o := dinode_off inum in
  if s16 (ld16 p.(b_data) o) =? 0 then
    modb i (fun p => set_b_data (st16 o type (splice o (replicate dinode_size 0) p.(b_data))) p);;
    log_write i;;
    brelse i;;
    ip <- iget dev inum;;
    ret (Some ip)
  else brelse i;; ret None.

Definition ialloc (dev type : Z) : M nat :=
  sb <- get get_sb;;
  r <- scanM (fun k => ialloc_at dev type (Z.of_nat k)) (seq 1 (Z.to_nat (sb.(sb_ninodes) - 1)));;
  match r with
  | Some ip => ret ip
  | None => panic "ialloc: no inodes"
  end.

Definition iupdate (ip : nat) : M unit :=
  p <- geti ip;;
  sb <- get get_sb;;
  i <- bread p.(i_dev) (IBLOCK p.(i_inum) sb);;
  p <- geti ip;;
  modb i (fun b => set_b_data (dinode_store (dinode_off p.(i_inum)) p b.(b_data)) b);;
  log_write i;;
  brelse i.

Definition idup (o : option nat) : M (option nat) :=
  acquire ICACHE_LOCK;;
  with_proc o (fun ip =>
  modi ip (fun p => set_i_ref (p.(i_ref) + 1) p);;
  release ICACHE_LOCK;;
  ret (Some ip)).

Definition ilock (o : option nat) : M unit :=
  match o with
  | None => panic "ilock"
  | Some ip =>
    p <- geti ip;;
    if p.(i_ref) <? 1 then panic "ilock" else
    acquiresleep (SL_INODE ip);;
    p <- geti ip;;
    when (p.(i_valid) =? 0) (
      sb <- get get_sb;;
      i <- bread p.(i_dev) (IBLOCK p.(i_inum) sb);;
      b <- getb i;;
      modi ip (fun p => dinode_load (dinode_off p.(i_inum)) b.(b_data) p);;
      brelse i;;
      modi ip (set_i_valid 1);;
      p <- geti ip;;
      if p.(i_type) =? 0 then panic "ilock: no type" else ret ())
  end.

Definition iunlock (o : option nat) : M unit :=
  match o with
  | None => panic "iunlock"
  | Some ip =>
    h <- holdingsleep (SL_INODE ip);;
    p <- geti ip;;
    if negb h || (p.(i_ref) <? 1) then panic "iunlock" else
    releasesleep (SL_INODE ip)
  end.

(** ** The blocks of a file *)

(** The indirect block, allocated if necessary. *)
Definition bmap_indirect (ip : nat) : M Z :=
  p <- geti ip;;
  let addr := p.(i_addrs) !!! NDIRECT in
  if addr =? 0 then
    addr <- balloc p.(i_dev);;
    modi ip (fun p => set_i_addrs (<[NDIRECT := addr]> p.(i_addrs)) p);;
    ret addr
  else ret addr.

(** Entry [j] of the indirect block in buffer [i], allocated if necessary. *)
Definition bmap_entry (ip i j : nat) : M Z :=
  b <- getb i;;
  let addr := ld32 b.(b_data) (4 * j) in
  if addr =? 0 then
    p <- geti ip;;
    addr <- balloc p.(i_dev);;
    modb i (fun b => set_b_data (st32 (4 * j) addr b.(b_data)) b);;
    log_write i;;
    ret addr
  else ret addr.

Definition bmap (ip : nat) (bn : Z) : M Z :=
  if bn <? Z.of_nat NDIRECT then
    p <- geti ip;;
    let addr := p.(i_addrs) !!! Z.to_nat bn in
    if addr =? 0 then
      addr <- balloc p.(i_dev);;
      modi ip (fun p => set_i_addrs (<[Z.to_nat bn := addr]> p.(i_addrs)) p);;
      ret addr
    else ret addr
  else
  let bn := bn - Z.of_nat NDIRECT in
  if bn <? NINDIRECT then
    addr <- bmap_indirect ip;;
    p <- geti ip;;
    i <- bread p.(i_dev) addr;;
    addr <- bmap_entry ip i (Z.to_nat bn);;
    brelse i;;
    ret addr
  else panic "bmap: out of range".

Definition itrunc (ip : nat) : M unit :=
  foldM (fun _ k =>
    p <- geti ip;;
    when (truthy (p.(i_addrs) !!! k)) (
      bfree p.(i_dev) (p.(i_addrs) !!! k);;
      modi ip (fun p => set_i_addrs (<[k := 0]> p.(i_addrs)) p))) (seq 0 NDIRECT) ();;
  p <- geti ip;;
  when (truthy (p.(i_addrs) !!! NDIRECT)) (
    i <- bread p.(i_dev) (p.(i_addrs) !!! NDIRECT);;
    foldM (fun _ j =>
      b <- getb i;;
      p <- geti ip;;
      let a := ld32 b.(b_data) (4 * j) in
      when (truthy a) (bfree p.(i_dev) a)) (seq 0 (Z.to_nat NINDIRECT)) ();;
    brelse i;;
    p <- geti ip;;
    bfree p.(i_dev) (p.(i_addrs) !!! NDIRECT);;
    modi ip (fun p => set_i_addrs (<[NDIRECT := 0]> p.(i_addrs)) p));;
  modi ip (set_i_size 0);;
  iupdate ip.

Definition iput (o : option nat) : M unit :=
  with_proc o (fun ip =>
  acquiresleep (SL_INODE ip);;
  p <- geti ip;;
  when (truthy p.(i_valid) && (p.(i_nlink) =? 0)) (
    acquire ICACHE_LOCK;;
    r <- get (fun s => (get_inode ip s).(i_ref));;
    release ICACHE_LOCK;;
    when (r =? 1) (
      itrunc ip;;
      modi ip (set_i_type 0);;
      iupdate ip;;
      modi ip (set_i_valid 0)));;
  releasesleep (SL_INODE ip);;
  acquire ICACHE_LOCK;;
  modi ip (fun p => set_i_ref (p.(i_ref) - 1) p);;
  release ICACHE_LOCK).

Definition iunlockput (o : option nat) : M unit := iunlock o;; iput o.

(** [struct stat] at address [st]. *)
Definition store16 (m : memory) (a v : Z) : memory := store8 (store8 m a v) (a + 1) (v / 256).

Definition stati (o : option nat) (st : Z) : M unit :=
  with_proc o (fun ip =>
  p <- geti ip;;
  modify (fun s => set_mem (store32 (store16 (store16 (store32 (store32 s.(mem)
    (st + 4) p.(i_dev)) (st + 8) p.(i_inum)) st p.(i_type)) (st + 12) p.(i_nlink)) (st + 16) p.(i_size)) s)).

(** ** File contents *)

(** The loop of [readi]: [tot] bytes have been read; the bytes read so far are
    [acc]. *)
Fixpoint readi_loop (fuel : nat) (ip : nat) (dst : option Z) (off n tot : Z) (acc : list Z) : M (list Z) :=
  if n <=? tot then ret acc else
  match fuel with
  | O => fun s => Stuck s
  | S fuel =>
    addr <- bmap ip (off / Z.of_nat BSIZE);;
    p <- geti ip;;
    i <- bread p.(i_dev) addr;;
    b <- getb i;;
    let o := off mod Z.of_nat BSIZE in
    let m := Z.min (n - tot) (Z.of_nat BSIZE - o) in
    let d := take (Z.to_nat m) (drop (Z.to_nat o) b.(b_data)) in
    match dst with
    | Some a => modify (fun s => set_mem (put_bytes s.(mem) (u32 (a + tot)) d) s)
    | None => ret ()
    end;;
    brelse i;;
    readi_loop fuel ip dst (off + m) n (tot + m) (acc ++ d)
  end.

(** The blocks a transfer of [n] bytes touches. *)
Definition io_fuel (n : Z) : nat := Z.to_nat (n / Z.of_nat BSIZE + 2).

(** [dst = None] is a local structure of the caller; the bytes are returned. *)
Definition readi_gen `{!DevSw} (ip : nat) (dst : option Z) (off n : Z) : M (Z * list Z) :=
  p <- geti ip;;
  if p.(i_type) =? T_DEV then
    match if (p.(i_major) <? 0) || (NDEV <=? p.(i_major)) then None else dev_read p.(i_major) with
    | None => ret (-1, [])
    | Some read =>
      match dst with
      | Some a => r <- read ip a n;; ret (r, [])
      | None => out_of_range
      end
    end
  else
  if (p.(i_size) <? off) || (u32 (off + n) <? off) then ret (-1, []) else
  let n := if p.(i_size) <? u32 (off + n) then p.(i_size) - off else n in
  d <- readi_loop (io_fuel n) ip dst off n 0 [];;
  ret (s32 n, d).

Fixpoint writei_loop (fuel : nat) (ip : nat) (src : Z + list Z) (off n tot : Z) : M Z :=
  if n <=? tot then ret off else
  match fuel with
  | O => fun s => Stuck s
  | S fuel =>
    addr <- bmap ip (off / Z.of_nat BSIZE);;
    p <- geti ip;;
    i <- bread p.(i_dev) addr;;
    let o := off mod Z.of_nat BSIZE in
    let m := Z.min (n - tot) (Z.of_nat BSIZE - o) in
    d <- match src with
         | inl a => get (fun s => get_bytes s.(mem) (u32 (a + tot)) (Z.to_nat m))
         | inr l => ret (take (Z.to_nat m) (drop (Z.to_nat tot) l))
         end;;
    modb i (fun b => set_b_data (splice (Z.to_nat o) d b.(b_data)) b);;
    log_write i;;
    brelse i;;
    writei_loop fuel ip src (off + m) n (tot + m)
  end.

Definition writei_gen `{!DevSw} (ip : nat) (src : Z + list Z) (off n : Z) : M Z :=
  p <- geti ip;;
  if p.(i_type) =? T_DEV then
    match if (p.(i_major) <? 0) || (NDEV <=? p.(i_major)) then None else dev_write p.(i_major) with
    | None => ret (-1)
    | Some write =>
      match src with
      | inl a => write ip a n
      | inr _ => out_of_range
      end
    end
  else
  if (p.(i_size) <? off) || (u32 (off + n) <? off) then ret (-1) else
  if MAXFILE * Z.of_nat BSIZE <? u32 (off + n) then ret (-1) else
  off' <- writei_loop (io_fuel n) ip src off n 0;;
  p <- geti ip;;
  when ((0 <? n) && (p.(i_size) <? off')) (modi ip (set_i_size off');; iupdate ip);;
  ret (s32 n).

Definition readi `{!DevSw} (o : option nat) (dst off n : Z) : M Z :=
  with_proc o (fun ip => r <- readi_gen ip (Some dst) (u32 off) (u32 n);; ret r.1).
Definition writei `{!DevSw} (o : option nat) (src off n : Z) : M Z :=
  with_proc o (fun ip => writei_gen ip (inl src) (u32 off) (u32 n)).
End blocks.

(** ** Inside a transaction

    [tst s0 c B H r I s]: process [c] runs inside a transaction that began in
    the state [s0]; the blocks have the contents [B], the buffers in [H] are
    locked, [r] more blocks fit in the log, the inode cache is [I].  Nothing
    has been written to the disk since [s0].  With [r = 0] it also describes
    reading outside of a transaction. *)

(** The blocks behind the log, and the blocks the file system writes. *)
Definition behind (l : logstate) (b : Z) : Prop := l.(l_start) + l.(l_size) <= b.
Definition fsblock (s0 : kstate) (b : Z) : Prop := 0 <= b < s0.(fs).(disksize) ∧ behind s0.(fs).(log) b.

Record tst (s0 : kstate) (c : nat) (B : Z → list Z) (H : gmap nat Z) (r : Z) (I : list inode)
    (V : cview) (s : kstate) : Prop := {
  ts_bio : bio_st c V s;
  ts_only : fs_only s0 s;
  ts_sb : s.(fs).(sb) = s0.(fs).(sb);
  ts_size : s.(fs).(disksize) = s0.(fs).(disksize);
  ts_icache : s.(fs).(icache) = I;
  ts_wf : log_wf s0.(fs).(disksize) s.(fs).(log);
  ts_start : s.(fs).(log).(l_start) = s0.(fs).(log).(l_start);
  ts_lsize : s.(fs).(log).(l_size) = s0.(fs).(log).(l_size);
  ts_lmax : s0.(fs).(log).(l_size) <= Z.of_nat LOGSIZE;
  ts_out : s.(fs).(log).(l_outstanding) = s0.(fs).(log).(l_outstanding) ∧ (0 < r → 1 <= s0.(fs).(log).(l_outstanding));
  ts_comm : s.(fs).(log).(l_committing) = s0.(fs).(log).(l_committing);
  ts_room : 0 <= r ∧ s.(fs).(log).(lh_n) + r < s0.(fs).(log).(l_size);
  ts_blk : ∀ b, V.(cv_blk) b = B b;
  ts_held : V.(cv_held) = H;
  ts_dirty : V.(cv_dirty) = list_to_set (logged s.(fs).(log));
  ts_clean : ∀ b, b ∉ V.(cv_dirty) → (∀ i, H !! i ≠ Some b) → V.(cv_blk) b = V.(cv_disk) b;
  ts_disk : V.(cv_disk) = s0.(fs).(disk);
  ts_writes : V.(cv_writes) = s0.(fs).(writes);
  ts_behind : ∀ b, b ∈ logged s.(fs).(log) → behind s0.(fs).(log) b
}.

Definition in_tx s0 c B H r I s : Prop := ∃ V, tst s0 c B H r I V s.

Lemma behind_outside l l' b : l_start l' = l_start l → l_size l' = l_size l → behind l b → outside l' b.
Proof. unfold outside, behind. intros -> ->. lia. Qed.

Section tx.
Context {WF : WaitFuel} (Hfuel : wait_fuel ≠ 0%nat) (s0 : kstate) (c : nat).
Notation N := (s0.(fs).(disksize)).

Lemma tst_room H B r I V s b : tst s0 c B H r I V s → (Z.of_nat (size H) <= r) → has_room b V.
Proof.
  intros HT Hr. right. rewrite (ts_held _ _ _ _ _ _ _ _ HT), (ts_dirty _ _ _ _ _ _ _ _ HT).
  pose proof (size_list_to_set_le (logged s.(fs).(log))) as Hs.
  rewrite (logged_length _ _ (ts_wf _ _ _ _ _ _ _ _ HT)) in Hs.
  pose proof (ts_room _ _ _ _ _ _ _ _ HT). pose proof (ts_lmax _ _ _ _ _ _ _ _ HT).
  pose proof (lw_n _ _ (ts_wf _ _ _ _ _ _ _ _ HT)). unfold NBUF, LOGSIZE in *. lia.
Qed.

(** A step that leaves the log and the inodes alone. *)
Lemma tst_step B H r I V s s' B' H' V' : tst s0 c B H r I V s → fs_step s s' → bio_st c V' s' →
  (∀ b, V'.(cv_blk) b = B' b) → V'.(cv_held) = H' → V'.(cv_dirty) = V.(cv_dirty) →
  V'.(cv_disk) = V.(cv_disk) → V'.(cv_writes) = V.(cv_writes) →
  (∀ b, b ∉ V'.(cv_dirty) → (∀ i, H' !! i ≠ Some b) → V'.(cv_blk) b = V'.(cv_disk) b) →
  tst s0 c B' H' r I V' s'.
Proof.
  intros [T1 T2 T3 T4 T5 T6 T7 T8 T9 T10 T11 T12 T13 T14 T15 T16 T17 T18 T19] [Ho (El & Es & Ei & Ed)] HV Hb Hh Hd Hdi Hw Hc.
  split; rewrite ?El; try done; try congruence. by transitivity s.
Qed.

(** Locking a block to look at it or to change it. *)
Lemma bread_t B H r I s b : in_tx s0 c B H r I s → 0 <= b < N → (∀ i, H !! i ≠ Some b) →
  Z.of_nat (size H) <= r →
  runs (bread 1 b) s (λ i s', H !! i = None ∧ ∃ V, tst s0 c B (<[i := b]> H) r I V s' ∧
    (b ∉ V.(cv_dirty) → V.(cv_blk) b = V.(cv_disk) b)).
Proof.
  intros [V HT] Hb Hn Hr. pose proof (ts_held _ _ _ _ _ _ _ _ HT) as Hh.
  eapply runs_mono; [apply (bread_spec Hfuel c V s (ts_bio _ _ _ _ _ _ _ _ HT) b)|].
  - by rewrite (ts_size _ _ _ _ _ _ _ _ HT).
  - by rewrite Hh.
  - by eapply tst_room.
  - intros i s' (Hs & Hi & HV'). rewrite Hh in Hi. split; [done|]. exists (v_lock i b V). split.
    + apply (tst_step B H r I V s); try done; [apply (ts_blk _ _ _ _ _ _ _ _ HT)|simpl; by rewrite Hh|].
      intros b' Hd' Hn'. apply (ts_clean _ _ _ _ _ _ _ _ HT b' Hd'). intros j Hj. apply (Hn' j).
      rewrite lookup_insert_ne; [done|]. intros ->. congruence.
    + intros Hd. by apply (ts_clean _ _ _ _ _ _ _ _ HT).
Qed.

Lemma getb_t B H r I s i b : in_tx s0 c B H r I s → H !! i = Some b →
  runs (getb i) s (λ p s', s' = s ∧ p.(b_data) = B b ∧ p.(b_blockno) = b ∧ length (B b) = BSIZE).
Proof.
  intros [V HT] Hi. pose proof (ts_bio _ _ _ _ _ _ _ _ HT) as HV.
  rewrite <- (ts_held _ _ _ _ _ _ _ _ HT) in Hi.
  destruct (held_buf c V s HV i b Hi) as (f & Hbuf & _).
  apply (runs_eq _ _ (get_buf i s) s); [done|]. unfold get_buf. rewrite Hbuf. simpl.
  rewrite <- (ts_blk _ _ _ _ _ _ _ _ HT). split; [done|]. split; [done|]. split; [done|].
  by apply (blk_length c V s).
Qed.

(** Releasing a block that has not been changed since it was locked. *)
Lemma brelse_t B H r I V s i b : tst s0 c B H r I V s → H !! i = Some b →
  (b ∉ V.(cv_dirty) → V.(cv_blk) b = V.(cv_disk) b) → (∀ j, j ≠ i → H !! j ≠ Some b) →
  runs (brelse i) s (λ _ s', in_tx s0 c B (delete i H) r I s').
Proof.
  intros HT Hi Hc Hu. pose proof (ts_held _ _ _ _ _ _ _ _ HT) as Hh. rewrite <- Hh in Hi.
  eapply runs_mono; [apply (brelse_spec Hfuel c V s (ts_bio _ _ _ _ _ _ _ _ HT) i b Hi)|].
  { destruct (decide (b ∈ V.(cv_dirty))); [by left|right; by apply Hc]. }
  intros [] s' [Hs HV']. exists (v_unlock i V).
  apply (tst_step B H r I V s); try done; [apply (ts_blk _ _ _ _ _ _ _ _ HT)|simpl; by rewrite Hh|].
  intros b' Hd' Hn'. destruct (decide (b' = b)) as [->|Hne]; [by apply Hc|].
  apply (ts_clean _ _ _ _ _ _ _ _ HT b' Hd'). intros j Hj. destruct (decide (j = i)) as [->|Hji]; [congruence|].
  apply (Hn' j). by rewrite lookup_delete_ne.
Qed.

(** Changing the contents of a locked block and logging it. *)
Lemma modb_t B H r I s i b (g : list Z → list Z) : in_tx s0 c B H r I s → H !! i = Some b →
  length (g (B b)) = BSIZE →
  runs (modb i (fun p => set_b_data (g p.(b_data)) p)) s (λ _ s', in_tx s0 c (<[b := g (B b)]> B) H r I s').
Proof.
  intros [V HT] Hi Hlen. pose proof (ts_held _ _ _ _ _ _ _ _ HT) as Hh. rewrite <- Hh in Hi.
  pose proof (ts_bio _ _ _ _ _ _ _ _ HT) as HV. pose proof (ts_blk _ _ _ _ _ _ _ _ HT) as HB.
  destruct (held_buf c V s HV i b Hi) as (f & Hbuf & _ & _ & _ & Hil & _).
  set (x' := upd_buf i (set_b_data (g (B b))) s.(fs)).
  apply (runs_eq _ _ () (set_fs x' s)).
  - unfold modb, modfs, modify. do 2 f_equal. rewrite upd_buf_put by done. unfold x'.
    rewrite upd_buf_put by done. rewrite Hbuf. simpl. by rewrite HB.
  - exists (v_set b (g (B b)) V). apply (tst_step B H r I V s); try done.
    + by apply (set_data_spec Hfuel).
    + intros b'. simpl. destruct (decide (b' = b)) as [->|Hne].
      * by rewrite !fn_lookup_insert.
      * by rewrite !fn_lookup_insert_ne.
    + intros b' Hd Hn. simpl. rewrite fn_lookup_insert_ne.
      * by apply (ts_clean _ _ _ _ _ _ _ _ HT).
      * intros <-. rewrite Hh in Hi. by apply (Hn i).
Qed.

Lemma log_write_t B H r I s i b : in_tx s0 c B H r I s → H !! i = Some b → behind s0.(fs).(log) b → 1 <= r →
  runs (log_write i) s (λ _ s', ∃ V, tst s0 c B H (r - 1) I V s' ∧ b ∈ V.(cv_dirty)).
Proof.
  intros [V HT] Hi Ho Hr. pose proof HT as [T1 T2 T3 T4 T5 T6 T7 T8 T9 T10 T11 T12 T13 T14 T15 T16 T17 T18 T19].
  set (l := s.(fs).(log)) in *. rewrite <- T14 in Hi. rewrite <- T4 in T6.
  assert (outside l b) as Ho' by by apply (behind_outside s0.(fs).(log)).
  eapply runs_mono; [apply (log_write_l Hfuel s c V l s i b T6 (lst_refl c V s T1) Hi Ho'); lia|].
  intros [] s' [[Fo Fs Fi Fd] HV' El]. exists (v_pin b V).
  destruct (held_buf c V s T1 i b Hi) as (_ & _ & _ & _ & _ & _ & Hb).
  destruct (log_add_spec s.(fs).(disksize) l b T6 Hb Ho') as (Hwf & Hset & Hin); [lia|lia|]. rewrite T4 in Hwf.
  assert (l_start (log_add b l) = l_start l ∧ l_size (log_add b l) = l_size l
    ∧ l_outstanding (log_add b l) = l_outstanding l ∧ l_committing (log_add b l) = l_committing l
    ∧ lh_n l <= lh_n (log_add b l) <= lh_n l + 1) as (E1 & E2 & E3 & E4 & E5)
    by (unfold log_add; case_decide; simpl; lia).
  split; [|simpl; set_solver]. split; rewrite ?El, ?E1, ?E2, ?E3, ?E4; try done; try congruence; try lia.
  - by transitivity s.
  - simpl. rewrite T15. by rewrite Hset.
  - intros b' Hd Hn. apply T16; [|done]. set_solver.
  - intros b' [->|Hb']%Hin; [done|by apply T19].
Qed.

(** Read, change and log one block. *)
Lemma rmw_logged {A} B H r I s b (g : list Z → list Z) (k : nat → M A) Q : in_tx s0 c B H r I s → fsblock s0 b →
  (∀ i, H !! i ≠ Some b) → Z.of_nat (size H) <= r → 1 <= r → length (g (B b)) = BSIZE →
  (∀ i s', H !! i = None → runs (brelse i) s' (λ _ s', in_tx s0 c (<[b := g (B b)]> B) H (r - 1) I s') →
     runs (k i) s' Q) →
  runs (i <- bread 1 b;; modb i (fun p => set_b_data (g p.(b_data)) p);; log_write i;; k i) s Q.
Proof.
  intros HT [Hb Ho] Hn Hs Hr Hlen Hk. eapply runs_bind; [by apply (bread_t B H r I s b)|].
  intros i s1 (Hi & V1 & H1 & _). pose proof (lookup_insert_eq H i b) as Hib.
  eapply runs_bind; [apply (modb_t B (<[i := b]> H) r I s1 i b g); [by exists V1|done|done]|]. intros [] s2 H2.
  eapply runs_bind; [by apply (log_write_t _ _ r I s2 i b H2)|]. intros [] s3 (V3 & H3 & Hd3).
  apply Hk; [done|]. eapply runs_mono; [apply (brelse_t _ _ (r - 1) I V3 s3 i b H3); [done|done|]|].
  - intros j Hj. rewrite lookup_insert_ne by done. apply Hn.
  - intros [] s4 H4. by rewrite delete_insert_id in H4 by done.
Qed.

Lemma rmw_t {A} B H r I s b (g : list Z → list Z) (k : M A) Q : in_tx s0 c B H r I s → fsblock s0 b →
  (∀ i, H !! i ≠ Some b) → Z.of_nat (size H) <= r → 1 <= r → length (g (B b)) = BSIZE →
  (∀ s', in_tx s0 c (<[b := g (B b)]> B) H (r - 1) I s' → runs k s' Q) →
  runs (i <- bread 1 b;; modb i (fun p => set_b_data (g p.(b_data)) p);; log_write i;; brelse i;; k) s Q.
Proof.
  intros HT Hb Hn Hs Hr Hlen Hk. apply (rmw_logged B H r I); try done.
  intros i s' Hi Hrel. eapply runs_bind; [exact Hrel|]. intros [] s'' H''. by apply Hk.
Qed.

Lemma rmw_last B H r I s b (g : list Z → list Z) : in_tx s0 c B H r I s → fsblock s0 b →
  (∀ i, H !! i ≠ Some b) → Z.of_nat (size H) <= r → 1 <= r → length (g (B b)) = BSIZE →
  runs (i <- bread 1 b;; modb i (fun p => set_b_data (g p.(b_data)) p);; log_write i;; brelse i) s
    (λ _ s', in_tx s0 c (<[b := g (B b)]> B) H (r - 1) I s').
Proof. intros HT Hb Hn Hs Hr Hlen. by apply (rmw_logged B H r I). Qed.

(** Look at one block. *)
Lemma look_t {A} B H r I s b (k : nat → buf → M A) Q : in_tx s0 c B H r I s → 0 <= b < N →
  (∀ i, H !! i ≠ Some b) → Z.of_nat (size H) <= r →
  (∀ i p V s', H !! i = None → tst s0 c B (<[i := b]> H) r I V s' → (b ∉ V.(cv_dirty) → V.(cv_blk) b = V.(cv_disk) b) →
     p.(b_data) = B b → length (B b) = BSIZE → runs (k i p) s' Q) →
  runs (i <- bread 1 b;; p <- getb i;; k i p) s Q.
Proof.
  intros HT Hb Hn Hs Hk. eapply runs_bind; [by apply (bread_t B H r I s b)|].
  intros i s1 (Hi & V1 & H1 & Hc1).
  eapply runs_bind; [apply (getb_t B (<[i := b]> H) r I s1 i b); [by exists V1|apply lookup_insert_eq]|].
  intros p s2 (-> & Hp & _ & Hl). by apply (Hk i p V1).
Qed.

Lemma unlook_t {A} B H r I V s i b (k : M A) Q : H !! i = None → (∀ j, H !! j ≠ Some b) →
  tst s0 c B (<[i := b]> H) r I V s → (b ∉ V.(cv_dirty) → V.(cv_blk) b = V.(cv_disk) b) →
  (∀ s', in_tx s0 c B H r I s' → runs k s' Q) → runs (brelse i;; k) s Q.
Proof.
  intros Hi Hn HT Hc Hk.
  eapply runs_bind; [apply (brelse_t B _ r I V s i b HT); [apply lookup_insert_eq|done|]|].
  - intros j Hj. rewrite lookup_insert_ne by done. apply Hn.
  - intros [] s' H'. rewrite delete_insert_id in H' by done. by apply Hk.
Qed.

(** Inodes. *)
Lemma geti_t {A} B H r I s ip (k : inode → M A) Q : in_tx s0 c B H r I s → runs (k (I !!! ip)) s Q →
  runs (bind (geti ip) k) s Q.
Proof.
  intros [V HT] Hk. unfold runs, geti. rewrite bind_get. unfold get_inode.
  by rewrite (ts_icache _ _ _ _ _ _ _ _ HT).
Qed.

Lemma get_sb_t {A} B H r I s (k : superblock → M A) Q : in_tx s0 c B H r I s → runs (k s0.(fs).(sb)) s Q →
  runs (bind (get get_sb) k) s Q.
Proof.
  intros [V HT] Hk. unfold runs. rewrite bind_get. unfold get_sb. by rewrite (ts_sb _ _ _ _ _ _ _ _ HT).
Qed.

Lemma modi_t {A} B H r I s ip f (k : M A) Q : in_tx s0 c B H r I s →
  (∀ s', in_tx s0 c B H r (alter f ip I) s' → runs k s' Q) → runs (modi ip f;; k) s Q.
Proof.
  intros [V HT] Hk. apply (runs_bind _ _ _ (λ _ s', in_tx s0 c B H r (alter f ip I) s')); [|intros [] s' H'; by apply Hk].
  apply (runs_eq _ _ () (set_fs (upd_inode ip f s.(fs)) s)); [done|]. exists V.
  destruct HT as [T1 T2 T3 T4 T5 T6 T7 T8 T9 T10 T11 T12 T13 T14 T15 T16 T17 T18 T19].
  split; try done.
  - apply (bio_st_intro c V); [done|]. destruct T1 as [_ [[I1 I2 I3 I4 I5 I6 I7 I8 I9] R2 R3 R4 R5 R6 R7]]. by split.
  - transitivity s; [done|]. apply fs_only_fs.
  - simpl. by rewrite T5.
Qed.

Lemma in_tx_ext B B' H r I s : in_tx s0 c B H r I s → (∀ b, B' b = B b) → in_tx s0 c B' H r I s.
Proof.
  intros [V [T1 T2 T3 T4 T5 T6 T7 T8 T9 T10 T11 T12 T13 T14 T15 T16 T17 T18 T19]] HB. exists V. split; try done.
  intros b. by rewrite HB.
Qed.

Lemma in_tx_room B H r r' I s : in_tx s0 c B H r I s → 0 <= r' <= r → in_tx s0 c B H r' I s.
Proof.
  intros [V [T1 T2 T3 T4 T5 T6 T7 T8 T9 T10 T11 T12 T13 T14 T15 T16 T17 T18 T19]] Hr. exists V. split; try done; [|lia]. split; [apply T10|]. intros ?. apply T10. lia.
Qed.
End tx.

(** ** The free map *)

Lemma map_bit_spec d bi : map_bit d bi = Z.testbit (d !!! (bi / 8)%nat) (Z.of_nat (bi mod 8)).
Proof.
  unfold map_bit. pose proof (Nat.mod_upper_bound bi 8 ltac:(lia)).
  rewrite land_bit_clear by lia. apply negb_involutive.
Qed.

Lemma map_bit_inj bi bj : (bi / 8 = bj / 8)%nat → (bi mod 8 = bj mod 8)%nat → bi = bj.
Proof. intros H1 H2. rewrite (Nat.div_mod_eq bi 8), (Nat.div_mod_eq bj 8). lia. Qed.

Lemma set_map_bit_spec d bi bj : (bi / 8 < length d)%nat →
  map_bit (set_map_bit bi d) bj = bool_decide (bi = bj) || map_bit d bj.
Proof.
  intros Hl. rewrite !map_bit_spec. unfold set_map_bit.
  pose proof (Nat.mod_upper_bound bi 8 ltac:(lia)). pose proof (Nat.mod_upper_bound bj 8 ltac:(lia)).
  destruct (decide (bi / 8 = bj / 8)%nat) as [E|E].
  - rewrite <- E, list_lookup_total_insert_eq by done. rewrite testbit_set by lia. rewrite orb_comm. f_equal.
    destruct (Z.eqb_spec (Z.of_nat (bi mod 8)) (Z.of_nat (bj mod 8))) as [E'|E'].
    + symmetry. apply bool_decide_eq_true. apply map_bit_inj; [done|lia].
    + symmetry. apply bool_decide_eq_false. intros ->. done.
  - rewrite list_lookup_total_insert_ne by done. rewrite bool_decide_eq_false_2; [done|]. by intros ->.
Qed.

Lemma clear_map_bit_spec d bi bj : (bi / 8 < length d)%nat →
  map_bit (clear_map_bit bi d) bj = negb (bool_decide (bi = bj)) && map_bit d bj.
Proof.
  intros Hl. rewrite !map_bit_spec. unfold clear_map_bit.
  pose proof (Nat.mod_upper_bound bi 8 ltac:(lia)). pose proof (Nat.mod_upper_bound bj 8 ltac:(lia)).
  destruct (decide (bi / 8 = bj / 8)%nat) as [E|E].
  - rewrite <- E, list_lookup_total_insert_eq by done. rewrite testbit_clear by lia. rewrite andb_comm. f_equal. f_equal.
    destruct (Z.eqb_spec (Z.of_nat (bi mod 8)) (Z.of_nat (bj mod 8))) as [E'|E'].
    + symmetry. apply bool_decide_eq_true. apply map_bit_inj; [done|lia].
    + symmetry. apply bool_decide_eq_false. intros ->. done.
  - rewrite list_lookup_total_insert_ne by done. rewrite bool_decide_eq_false_2; [done|]. by intros ->.
Qed.

(** The layout of the disk: the log, the inodes and the free map lie before
    the block [dstart], the data blocks behind it. *)
Record layout (s0 : kstate) (dstart : Z) : Prop := {
  ly_size : 0 < dstart <= s0.(fs).(sb).(sb_size) ∧ s0.(fs).(sb).(sb_size) <= s0.(fs).(disksize);
  ly_N : s0.(fs).(disksize) <= two31;
  ly_log : 0 < s0.(fs).(log).(l_start) ∧ 0 <= s0.(fs).(log).(l_size);
  ly_map : ∀ b, 0 <= b < s0.(fs).(sb).(sb_size) →
    s0.(fs).(log).(l_start) + s0.(fs).(log).(l_size) <= b / BPB + s0.(fs).(sb).(sb_bmapstart) < dstart;
  ly_inode : ∀ i, 0 <= i < s0.(fs).(sb).(sb_ninodes) →
    s0.(fs).(log).(l_start) + s0.(fs).(log).(l_size) <= i / IPB + s0.(fs).(sb).(sb_inodestart) < dstart;
  ly_apart : ∀ b i, 0 <= b < s0.(fs).(sb).(sb_size) → 0 <= i < s0.(fs).(sb).(sb_ninodes) →
    i / IPB + s0.(fs).(sb).(sb_inodestart) ≠ b / BPB + s0.(fs).(sb).(sb_bmapstart)
}.

Section map.
Context (s0 : kstate) (dstart : Z) (Hlay : layout s0 dstart).
Notation N := (s0.(fs).(disksize)).
Notation SZ := (s0.(fs).(sb).(sb_size)).

Definition mapblk (b : Z) : Z := b / BPB + s0.(fs).(sb).(sb_bmapstart).

(** Block [b] is marked in use. *)
Definition used (B : Z → list Z) (b : Z) : bool := map_bit (B (mapblk b)) (Z.to_nat (b mod BPB)).

(** Only data blocks are free. *)
Definition map_ok (B : Z → list Z) : Prop := ∀ b, 0 <= b < SZ → used B b = false → dstart <= b.

Lemma mapblk_fs b : 0 <= b < SZ → fsblock s0 (mapblk b) ∧ mapblk b < dstart ∧ BBLOCK b s0.(fs).(sb) = mapblk b.
Proof.
  intros Hb. pose proof (ly_map _ _ Hlay b Hb). pose proof (ly_size _ _ Hlay). pose proof (ly_log _ _ Hlay).
  pose proof (ly_N _ _ Hlay). unfold mapblk, fsblock, behind, BBLOCK. split; [lia|]. split; [lia|].
  apply u32_id. unfold word, two31, two32 in *. lia.
Qed.

Lemma data_fs b : dstart <= b < SZ → fsblock s0 b.
Proof.
  intros Hb. pose proof (ly_size _ _ Hlay). pose proof (ly_log _ _ Hlay).
  pose proof (ly_map _ _ Hlay b ltac:(lia)). unfold fsblock, behind. lia.
Qed.

(** The blocks after [b] has been allocated and cleared. *)
Definition alloc_blk (b : Z) (B : Z → list Z) : Z → list Z :=
  <[b := replicate BSIZE 0]> (<[mapblk b := set_map_bit (Z.to_nat (b mod BPB)) (B (mapblk b))]> B).
Definition free_blk (b : Z) (B : Z → list Z) : Z → list Z :=
  <[mapblk b := clear_map_bit (Z.to_nat (b mod BPB)) (B (mapblk b))]> B.

Lemma bit_in_block (B : Z → list Z) b : (∀ b, length (B b) = BSIZE) →
  (Z.to_nat (b mod BPB) / 8 < length (B (mapblk b)))%nat.
Proof.
  intros HB. rewrite HB. pose proof (Z.mod_pos_bound b BPB ltac:(done)) as H. unfold BPB, BSIZE in *.
  apply Nat.Div0.div_lt_upper_bound. lia.
Qed.

Lemma same_bit b b' : mapblk b = mapblk b' → Z.to_nat (b mod BPB) = Z.to_nat (b' mod BPB) → b = b'.
Proof.
  unfold mapblk. intros H1 H2. pose proof (Z.mod_pos_bound b BPB ltac:(done)).
  pose proof (Z.mod_pos_bound b' BPB ltac:(done)).
  rewrite (Z.div_mod b BPB), (Z.div_mod b' BPB) by done. lia.
Qed.

Lemma used_alloc B b b' : (∀ b, length (B b) = BSIZE) → dstart <= b → 0 <= b' < SZ →
  used (alloc_blk b B) b' = bool_decide (b = b') || used B b'.
Proof.
  intros HB Hb Hb'. unfold used, alloc_blk. destruct (mapblk_fs b' Hb') as (_ & Hlt & _).
  rewrite fn_lookup_insert_ne by lia. destruct (decide (mapblk b' = mapblk b)) as [E|E].
  - rewrite E, fn_lookup_insert, set_map_bit_spec by by apply bit_in_block. f_equal.
    apply bool_decide_ext. split; [intros; by apply same_bit|by intros ->].
  - rewrite fn_lookup_insert_ne by done. rewrite bool_decide_eq_false_2; [done|]. by intros ->.
Qed.

Lemma used_free B b b' : (∀ b, length (B b) = BSIZE) →
  used (free_blk b B) b' = negb (bool_decide (b = b')) && used B b'.
Proof.
  intros HB. unfold used, free_blk. destruct (decide (mapblk b' = mapblk b)) as [E|E].
  - rewrite E, fn_lookup_insert, clear_map_bit_spec by by apply bit_in_block. f_equal. f_equal.
    apply bool_decide_ext. split; [intros; by apply same_bit|by intros ->].
  - rewrite fn_lookup_insert_ne by done. rewrite bool_decide_eq_false_2; [done|]. by intros ->.
Qed.
End map.

Section alloc.
Context {WF : WaitFuel} (Hfuel : wait_fuel ≠ 0%nat) (s0 : kstate) (c : nat) (dstart : Z) (Hlay : layout s0 dstart).
Notation N := (s0.(fs).(disksize)).
Notation SZ := (s0.(fs).(sb).(sb_size)).

Lemma in_tx_len B H r I s b : in_tx s0 c B H r I s → length (B b) = BSIZE.
Proof.
  intros [V HT]. rewrite <- (ts_blk _ _ _ _ _ _ _ _ HT). apply (blk_length c V s), (ts_bio _ _ _ _ _ _ _ _ HT).
Qed.

(** The locked buffers hold data blocks in use. *)
Definition held_data (B : Z → list Z) (H : gmap nat Z) : Prop :=
  ∀ i b, H !! i = Some b → dstart <= b < SZ ∧ used s0 B b = true.

Lemma held_not_map B H b : held_data B H → 0 <= b < SZ → ∀ i, H !! i ≠ Some (mapblk s0 b).
Proof. intros HH Hb i Hi. destruct (HH _ _ Hi) as [? _]. destruct (mapblk_fs s0 dstart Hlay b Hb) as (_ & ? & _). lia. Qed.

(** A block of the map: the first free block it covers, if any. *)
Definition free_in (B : Z → list Z) (k : nat) : option nat :=
  List.find (fun bi => negb (map_bit (B (mapblk s0 (Z.of_nat k * BPB))) bi))
    (seq 0 (Z.to_nat (Z.min BPB (SZ - Z.of_nat k * BPB)))).

Lemma block_of k bi : (bi < Z.to_nat BPB)%nat → let b := Z.of_nat k * BPB + Z.of_nat bi in
  mapblk s0 b = mapblk s0 (Z.of_nat k * BPB) ∧ Z.to_nat (b mod BPB) = bi.
Proof.
  intros Hbi b. unfold mapblk, b, BPB in *. split.
  - rewrite Z.div_add_l, Z.div_mul by lia. rewrite Z.div_small by lia. lia.
  - rewrite Z.add_comm, Z_mod_plus_full, Z.mod_small by lia. lia.
Qed.

Lemma free_in_Some B k bi : free_in B k = Some bi → let b := Z.of_nat k * BPB + Z.of_nat bi in
  0 <= b < SZ ∧ used s0 B b = false ∧ mapblk s0 b = mapblk s0 (Z.of_nat k * BPB) ∧ Z.to_nat (b mod BPB) = bi.
Proof.
  intros [Hin%list_elem_of_In Hf]%find_some. rewrite elem_of_seq in Hin.
  destruct (block_of k bi) as [E1 E2]; [lia|]. cbv zeta. split; [unfold BPB in *; lia|]. split; [|done].
  unfold used. rewrite E1, E2. by apply negb_true_iff.
Qed.

Lemma free_in_None B k b : free_in B k = None → 0 <= b < SZ → b / BPB = Z.of_nat k → used s0 B b = true.
Proof.
  intros Hn Hb Hk. unfold free_in in Hn. pose proof (Z.mod_pos_bound b BPB ltac:(done)).
  pose proof (Z.div_mod b BPB ltac:(done)) as Ed. rewrite Hk in Ed.
  pose proof (find_none _ _ Hn (Z.to_nat (b mod BPB))) as Hf. cbv beta in Hf.
  apply negb_false_iff. unfold used. replace (mapblk s0 b) with (mapblk s0 (Z.of_nat k * BPB)).
  - apply Hf, list_elem_of_In. rewrite elem_of_seq. unfold BPB in *. lia.
  - unfold mapblk. rewrite Hk, Z.div_mul; done.
Qed.

Lemma bzero_t B H r I s b : in_tx s0 c B H r I s → fsblock s0 b → (∀ i, H !! i ≠ Some b) →
  Z.of_nat (size H) <= r → 1 <= r →
  runs (bzero 1 b) s (λ _ s', in_tx s0 c (<[b := replicate BSIZE 0]> B) H (r - 1) I s').
Proof.
  intros HT Hb Hn Hs Hr. unfold bzero.
  rewrite (u32_id b) by (destruct Hb; pose proof (ly_N _ _ Hlay); unfold word, two31, two32 in *; lia).
  by apply (rmw_last Hfuel s0 c B H r I s b (λ _, replicate BSIZE 0)).
Qed.

(** A block of the map in which a block is found, or not. *)
Lemma balloc_at_t B H r I s k : in_tx s0 c B H r I s → map_ok s0 dstart B → held_data B H →
  Z.of_nat (size H) <= 1 → 2 <= r → 0 <= Z.of_nat k * BPB < SZ →
  runs (balloc_at 1 (Z.of_nat k * BPB)) s (λ o s',
    match free_in B k with
    | Some bi => let b := Z.of_nat k * BPB + Z.of_nat bi in
      o = Some b ∧ in_tx s0 c (alloc_blk s0 b B) H (r - 2) I s'
    | None => o = None ∧ in_tx s0 c B H r I s'
    end).
Proof.
  intros HT Hmap HH Hs Hr Hk. unfold balloc_at. apply (get_sb_t s0 c B H r I s); [done|].
  destruct (mapblk_fs s0 dstart Hlay _ Hk) as (Hfs & Hlt & ->).
  pose proof (held_not_map B H _ HH Hk) as Hn.
  apply (look_t Hfuel s0 c B H r I s); [done|apply Hfs|done|lia|].
  intros i p V s1 Hi H1 Hc Hp Hlen. rewrite Hp. fold (free_in B k).
  destruct (free_in B k) as [bi|] eqn:E.
  - destruct (free_in_Some _ _ _ E) as (Hb & Hu & Em & Eb). set (b := Z.of_nat k * BPB + Z.of_nat bi) in *.
    pose proof (Hmap b Hb Hu) as Hd. pose proof (lookup_insert_eq H i (mapblk s0 (Z.of_nat k * BPB))) as Hib.
    eapply runs_bind; [apply (modb_t Hfuel s0 c B _ r I s1 i _ (set_map_bit bi) (ex_intro _ V H1) Hib)|].
    { unfold set_map_bit. by rewrite length_insert. }
    intros [] s2 H2. eapply runs_bind; [apply (log_write_t Hfuel s0 c _ _ r I s2 i _ H2 Hib); [apply Hfs|lia]|].
    intros [] s3 (V3 & H3 & Hd3). apply (unlook_t Hfuel s0 c _ H (r - 1) I V3 s3 i _ _ _ Hi Hn H3); [done|].
    intros s4 H4. eapply runs_bind; [apply (bzero_t _ H (r - 1) I s4 b H4)|].
    + apply (data_fs s0 dstart Hlay). lia.
    + intros j Hj. destruct (HH _ _ Hj). congruence.
    + lia.
    + lia.
    + intros [] s5 H5. apply runs_ret. split; [done|]. replace (r - 2) with (r - 1 - 1) by lia.
      unfold alloc_blk. by rewrite Em, Eb.
  - apply (unlook_t Hfuel s0 c B H r I V s1 i _ _ _ Hi Hn H1 Hc). intros s2 H2. by apply runs_ret.
Qed.

(** [balloc] returns a free data block, marks it and clears it. *)
Lemma balloc_t B H r I s : in_tx s0 c B H r I s → map_ok s0 dstart B → held_data B H →
  Z.of_nat (size H) <= 1 → 2 <= r → (∃ b, 0 <= b < SZ ∧ used s0 B b = false) →
  runs (balloc 1) s (λ b s', dstart <= b < SZ ∧ used s0 B b = false ∧ in_tx s0 c (alloc_blk s0 b B) H (r - 2) I s').
Proof.
  intros HT Hmap HH Hs Hr (b0 & Hb0 & Hu0). unfold balloc. apply (get_sb_t s0 c B H r I s); [done|].
  set (n := Z.to_nat ((SZ + BPB - 1) / BPB)).
  assert (∀ l s, (∀ k, k ∈ l → (k < n)%nat) → Z.to_nat (b0 / BPB) ∈ l → in_tx s0 c B H r I s →
    runs (scanM (fun k => balloc_at 1 (Z.of_nat k * BPB)) l) s
      (λ o s', ∃ b, o = Some b ∧ dstart <= b < SZ ∧ used s0 B b = false ∧ in_tx s0 c (alloc_blk s0 b B) H (r - 2) I s')) as Hscan.
  { induction l as [|k l IH]; intros s1 Hl Hin H1; [by apply elem_of_nil in Hin|]. cbn [scanM].
    assert (0 <= Z.of_nat k * BPB < SZ) as Hk.
    { pose proof (Hl k ltac:(by left)) as Hkn. unfold n in Hkn. unfold BPB in *.
      pose proof (Z.mul_div_le (SZ + 4096 - 1) 4096 ltac:(lia)). lia. }
    eapply runs_bind; [by apply (balloc_at_t B H r I s1 k)|]. intros o s2 Ho. destruct (free_in B k) as [bi|] eqn:E.
    - destruct Ho as [-> H2]. destruct (free_in_Some _ _ _ E) as (Hb & Hu & _). apply runs_ret.
      eexists. split; [done|]. pose proof (Hmap _ Hb Hu). split; [lia|done].
    - destruct Ho as [-> H2]. apply IH; [intros j Hj; apply Hl; by right| |done].
      apply elem_of_cons in Hin as [Hk0|?]; [|done]. exfalso.
      pose proof (Z.div_pos b0 BPB ltac:(lia) ltac:(done)).
      rewrite (free_in_None B k b0 E Hb0) in Hu0; [done|lia]. }
  eapply runs_bind; [apply (Hscan _ s); [|  |done]|].
  - intros k. rewrite elem_of_seq. lia.
  - rewrite elem_of_seq. unfold n, BPB in *. split; [lia|]. apply Z2Nat.inj_lt.
    + apply Z.div_pos; lia.
    + apply Z.div_pos; lia.
    + apply Z.div_lt_upper_bound; [lia|]. pose proof (Z.mod_pos_bound (SZ + 4096 - 1) 4096 ltac:(lia)).
      pose proof (Z.div_mod (SZ + 4096 - 1) 4096 ltac:(lia)). lia.
  - intros o s1 (b & -> & Hb & Hu & H1). by apply runs_ret.
Qed.

(** [bfree] clears the bit of a block in use, and panics on a free one. *)
Lemma bfree_t B H r I s b : in_tx s0 c B H r I s → held_data B H → Z.of_nat (size H) <= 1 → 1 <= r →
  0 <= b < SZ → used s0 B b = true →
  runs (bfree 1 b) s (λ _ s', in_tx s0 c (free_blk s0 b B) H (r - 1) I s').
Proof.
  intros HT HH Hs Hr Hb Hu. unfold bfree. apply (get_sb_t s0 c B H r I s); [done|].
  destruct (mapblk_fs s0 dstart Hlay _ Hb) as (Hfs & Hlt & ->). pose proof (held_not_map B H _ HH Hb) as Hn.
  apply (look_t Hfuel s0 c B H r I s); [done|apply Hfs|done|lia|].
  intros i p V s1 Hi H1 Hc Hp Hlen. rewrite Hp. fold (used s0 B b). rewrite Hu. cbn [negb].
  pose proof (lookup_insert_eq H i (mapblk s0 b)) as Hib.
  eapply runs_bind; [apply (modb_t Hfuel s0 c B _ r I s1 i _ (clear_map_bit (Z.to_nat (b mod BPB))) (ex_intro _ V H1) Hib)|].
  { unfold clear_map_bit. by rewrite length_insert. }
  intros [] s2 H2. eapply runs_bind; [apply (log_write_t Hfuel s0 c _ _ r I s2 i _ H2 Hib); [apply Hfs|lia]|].
  intros [] s3 (V3 & H3 & Hd3).
  eapply runs_mono; [apply (brelse_t Hfuel s0 c _ _ (r - 1) I V3 s3 i _ H3 Hib); [done|]|].
  - intros j Hj. rewrite lookup_insert_ne by done. apply Hn.
  - intros [] s4 H4. by rewrite delete_insert_id in H4 by done.
Qed.
End alloc.

(** ** The blocks of a file *)

Section files.
Context (s0 : kstate) (dstart : Z) (Hlay : layout s0 dstart).
Notation SZ := (s0.(fs).(sb).(sb_size)).
Notation used := (used s0).
Notation NBLK := 140%nat.

(** The address of block [k] of a file whose inode lists the addresses [A]; 0
    if there is none. *)
Definition addr_of (B : Z → list Z) (A : list Z) (k : nat) : Z :=
  if (k <? NDIRECT)%nat then A !!! k
  else if A !!! NDIRECT =? 0 then 0
  else ld32 (B (A !!! NDIRECT)) (4 * (k - NDIRECT)).

(** Its contents; a block that is not allocated reads as zeros. *)
Definition fblock (B : Z → list Z) (A : list Z) (k : nat) : list Z :=
  let a := addr_of B A k in if a =? 0 then replicate BSIZE 0 else B a.

Definition data (B : Z → list Z) (a : Z) : Prop := dstart <= a < SZ ∧ used B a = true.

Record file_ok (B : Z → list Z) (A : list Z) : Prop := {
  fk_len : length A = (NDIRECT + 1)%nat;
  fk_ind : A !!! NDIRECT ≠ 0 → data B (A !!! NDIRECT);
  fk_data : ∀ k, (k < NBLK)%nat → addr_of B A k ≠ 0 → data B (addr_of B A k) ∧ addr_of B A k ≠ A !!! NDIRECT;
  fk_inj : ∀ j k, (j < NBLK)%nat → (k < NBLK)%nat → addr_of B A j ≠ 0 → addr_of B A j = addr_of B A k → j = k
}.

(** The file has its contents, and possibly more blocks; other blocks in use
    are as they were, except those of the map. *)
Record grow (B : Z → list Z) (A : list Z) (B' : Z → list Z) (A' : list Z) : Prop := {
  gw_file : file_ok B' A';
  gw_map : map_ok s0 dstart B';
  gw_blk : ∀ k, (k < NBLK)%nat → fblock B' A' k = fblock B A k;
  gw_addr : ∀ k, (k < NBLK)%nat → addr_of B A k ≠ 0 → addr_of B' A' k = addr_of B A k;
  gw_ind : A !!! NDIRECT ≠ 0 → A' !!! NDIRECT = A !!! NDIRECT;
  gw_used : ∀ b, 0 <= b < SZ → used B b = true → used B' b = true;
  gw_new : ∀ k, (k < NBLK)%nat → addr_of B' A' k ≠ 0 → addr_of B A k = 0 → used B (addr_of B' A' k) = false;
  gw_newind : A' !!! NDIRECT ≠ 0 → A !!! NDIRECT = 0 → used B (A' !!! NDIRECT) = false;
  gw_kept : ∀ b, 0 <= b < SZ → used B b = true → (∀ x, 0 <= x < SZ → mapblk s0 x ≠ b) → A !!! NDIRECT ≠ b → B' b = B b
}.

Lemma grow_refl B A : file_ok B A → map_ok s0 dstart B → grow B A B A.
Proof. intros H1 H2. split; try done; intros; congruence. Qed.

Lemma grow_trans B A B1 A1 B2 A2 : file_ok B A → grow B A B1 A1 → grow B1 A1 B2 A2 → grow B A B2 A2.
Proof.
  intros Hf G1 G2. pose proof (gw_file _ _ _ _ G2) as Hf2. split; try apply G2.
  - intros k Hk. by rewrite (gw_blk _ _ _ _ G2), (gw_blk _ _ _ _ G1).
  - intros k Hk Ha. rewrite (gw_addr _ _ _ _ G2) by (done || by rewrite (gw_addr _ _ _ _ G1)). by apply G1.
  - intros Ha. rewrite (gw_ind _ _ _ _ G2) by (by rewrite (gw_ind _ _ _ _ G1)). by apply G1.
  - intros b Hb Hu. by apply G2, G1.
  - intros k Hk Ha2 Ha. destruct (decide (addr_of B1 A1 k = 0)) as [E|E].
    + pose proof (gw_new _ _ _ _ G2 k Hk Ha2 E) as Hu. destruct (fk_data _ _ Hf2 k Hk Ha2) as [[Hr _] _].
      destruct (used B (addr_of B2 A2 k)) eqn:Eu; [|done]. pose proof (ly_size _ _ Hlay).
      rewrite (gw_used _ _ _ _ G1) in Hu by (done || lia). done.
    + rewrite (gw_addr _ _ _ _ G2 k Hk E). by apply (gw_new _ _ _ _ G1).
  - intros Ha2 Ha. destruct (decide (A1 !!! NDIRECT = 0)) as [E|E].
    + pose proof (gw_newind _ _ _ _ G2 Ha2 E) as Hu. destruct (fk_ind _ _ Hf2 Ha2) as [Hr _].
      destruct (used B (A2 !!! NDIRECT)) eqn:Eu; [|done]. pose proof (ly_size _ _ Hlay).
      rewrite (gw_used _ _ _ _ G1) in Hu by (done || lia). done.
    + rewrite (gw_ind _ _ _ _ G2 E). by apply (gw_newind _ _ _ _ G1).
  - intros b Hb Hu Hm Hi. rewrite (gw_kept _ _ _ _ G2); [by apply G1|done|by apply G1|done|].
    intros E. destruct (decide (A !!! NDIRECT = 0)) as [Ez|Ez].
    + destruct (decide (A1 !!! NDIRECT = 0)) as [E1|E1]; [apply Hi; congruence|].
      rewrite <- E, (gw_newind _ _ _ _ G1) in Hu by done. done.
    + apply Hi. by rewrite <- (gw_ind _ _ _ _ G1).
Qed.

(** *** Adding a block *)

Section add.
Context (B : Z → list Z) (A : list Z) (b : Z).
Context (HB : ∀ b, length (B b) = BSIZE) (Hf : file_ok B A) (Hm : map_ok s0 dstart B).
Context (Hb : dstart <= b < SZ) (Hu : used B b = false).
Let B1 := alloc_blk s0 b B.

Lemma b_nonzero : b ≠ 0.
Proof. pose proof (ly_size _ _ Hlay). lia. Qed.

Lemma alloc_kept b' : 0 <= b' < SZ → used B b' = true → (∀ x, 0 <= x < SZ → mapblk s0 x ≠ b') → B1 b' = B b'.
Proof.
  intros Hb' Hu' Hn. unfold B1, alloc_blk. pose proof (ly_size _ _ Hlay).
  rewrite fn_lookup_insert_ne by (intros ->; congruence). rewrite fn_lookup_insert_ne; [done|].
  apply Hn. lia.
Qed.

Lemma alloc_data b' : data B b' → B1 b' = B b' ∧ data B1 b'.
Proof.
  intros [Hr Hu']. pose proof (ly_size _ _ Hlay). split.
  - apply alloc_kept; [lia|done|]. intros x Hx. destruct (mapblk_fs s0 dstart Hlay x Hx) as (_ & ? & _). lia.
  - split; [done|]. unfold B1. rewrite (used_alloc s0 dstart Hlay) by (done || lia). by rewrite Hu', orb_true_r.
Qed.

Lemma alloc_new : B1 b = replicate BSIZE 0 ∧ data B1 b.
Proof.
  pose proof (ly_size _ _ Hlay). split; [apply fn_lookup_insert|]. split; [done|].
  unfold B1. rewrite (used_alloc s0 dstart Hlay) by (done || lia). by rewrite bool_decide_eq_true_2.
Qed.

Lemma alloc_map_ok : map_ok s0 dstart B1.
Proof.
  intros b' Hb' Hu'. unfold B1 in Hu'. rewrite (used_alloc s0 dstart Hlay) in Hu' by (done || lia).
  apply orb_false_iff in Hu' as [_ Hu']. by apply Hm.
Qed.

Lemma data_ne b' : data B b' → b' ≠ b.
Proof. intros [_ H] ->. congruence. Qed.

Lemma alloc_used b' : 0 <= b' < SZ → used B b' = true → used B1 b' = true.
Proof.
  intros Hb' Hu'. unfold B1. rewrite (used_alloc s0 dstart Hlay) by (done || lia). by rewrite Hu', orb_true_r.
Qed.

(** Block [n] of the file gets the address [b]. *)
Lemma grow_add B' A' n : (n < NBLK)%nat → length A' = (NDIRECT + 1)%nat → A' !!! NDIRECT = A !!! NDIRECT →
  addr_of B A n = 0 → addr_of B' A' n = b → (∀ k, (k < NBLK)%nat → k ≠ n → addr_of B' A' k = addr_of B A k) →
  (∀ x, x ≠ A !!! NDIRECT ∨ x = 0 → B' x = B1 x) → grow B A B' A'.
Proof.
  intros Hn Hlen Eind En0 En Eo HB'. pose proof b_nonzero as Hnz. pose proof (ly_size _ _ Hlay) as Hsz.
  assert (∀ x, 0 <= x < SZ → used B' x = used B1 x) as Eu.
  { intros x Hx. unfold Fs.used. rewrite HB'; [done|]. destruct (decide (A !!! NDIRECT = 0)) as [->|Hi].
    - destruct (decide (mapblk s0 x = 0)); [by right|by left].
    - left. destruct (fk_ind _ _ Hf Hi). destruct (mapblk_fs s0 dstart Hlay x Hx) as (_ & ? & _). lia. }
  assert (∀ x, data B x → data B' x) as Hd.
  { intros x Hx. destruct (proj2 (alloc_data x Hx)) as [Hr Hux]. split; [done|]. rewrite Eu by lia. done. }
  assert (data B' b) as Hdb.
  { destruct alloc_new as [_ [Hr Hub]]. split; [done|]. rewrite Eu by lia. done. }
  assert (∀ x, data B x → x ≠ A !!! NDIRECT → B' x = B x) as Hsame.
  { intros x Hx Hxi. rewrite HB' by by left. by apply alloc_data. }
  split.
  - split; [done|rewrite Eind; intros H; by apply Hd, Hf| |].
    + intros k Hk Ha. rewrite Eind. destruct (decide (k = n)) as [->|Hkn].
      * rewrite En. split; [done|]. destruct (decide (A !!! NDIRECT = 0)) as [->|Hi]; [done|].
        intros E. by apply (data_ne _ (fk_ind _ _ Hf Hi)).
      * rewrite (Eo k Hk Hkn) in Ha |- *. destruct (fk_data _ _ Hf k Hk Ha). split; [by apply Hd|done].
    + intros j k Hj Hk Ha E. destruct (decide (j = n)) as [->|Hjn], (decide (k = n)) as [->|Hkn]; [done| | |].
      * rewrite En, (Eo k Hk Hkn) in E. destruct (fk_data _ _ Hf k Hk) as [Hx _]; [congruence|]. by destruct (data_ne _ Hx).
      * rewrite En, (Eo j Hj Hjn) in E. rewrite (Eo j Hj Hjn) in Ha. destruct (fk_data _ _ Hf j Hj Ha) as [Hx _].
        by destruct (data_ne _ Hx).
      * rewrite (Eo j Hj Hjn) in Ha, E. rewrite (Eo k Hk Hkn) in E. by apply (fk_inj _ _ Hf).
  - intros x Hx Hux. rewrite Eu in Hux by done. by apply alloc_map_ok.
  - intros k Hk. unfold fblock. destruct (decide (k = n)) as [->|Hkn].
    + rewrite En, En0. destruct (Z.eqb_spec b 0); [done|]. rewrite HB'; [apply alloc_new|]. left.
      destruct (decide (A !!! NDIRECT = 0)) as [->|Hi]; [done|]. intros E. by apply (data_ne _ (fk_ind _ _ Hf Hi)).
    + rewrite (Eo k Hk Hkn). destruct (Z.eqb_spec (addr_of B A k) 0); [done|].
      destruct (fk_data _ _ Hf k Hk) as [Hx Hxi]; [done|]. by apply Hsame.
  - intros k Hk Ha. apply Eo; [done|]. intros ->. done.
  - done.
  - intros x Hx Hux. rewrite Eu by done. by apply alloc_used.
  - intros k Hk Ha Ha0. destruct (decide (k = n)) as [->|Hkn]; [by rewrite En|]. rewrite (Eo k Hk Hkn) in Ha. done.
  - rewrite Eind. done.
  - intros x Hx Hux Hmx Hxi. rewrite HB' by (left; congruence). by apply alloc_kept.
Qed.

(** A direct block. *)
Lemma grow_direct n : (n < NDIRECT)%nat → A !!! n = 0 →
  grow B A B1 (<[n := b]> A) ∧ addr_of B1 (<[n := b]> A) n = b.
Proof.
  intros Hn H0. pose proof (fk_len _ _ Hf) as Hlen. set (A' := <[n := b]> A).
  assert (A' !!! NDIRECT = A !!! NDIRECT) as Eind.
  { unfold A'. rewrite list_lookup_total_insert_ne; [done|unfold NDIRECT in *; lia]. }
  assert (addr_of B1 A' n = b) as En.
  { unfold addr_of. rewrite (proj2 (Nat.ltb_lt _ _) Hn). unfold A'. apply list_lookup_total_insert_eq. lia. }
  split; [|done]. apply (grow_add B1 A' n); try done.
  - unfold NDIRECT in *. lia.
  - unfold A'. by rewrite length_insert.
  - unfold addr_of. by rewrite (proj2 (Nat.ltb_lt _ _) Hn).
  - intros k _ Hk. unfold addr_of. destruct (Nat.ltb_spec k NDIRECT).
    + unfold A'. by rewrite list_lookup_total_insert_ne.
    + rewrite Eind. destruct (Z.eqb_spec (A !!! NDIRECT) 0); [done|].
      by rewrite (proj1 (alloc_data _ (fk_ind _ _ Hf ltac:(done)))).
Qed.

(** An entry of the indirect block. *)
Lemma grow_entry j : (j < 128)%nat → A !!! NDIRECT ≠ 0 → ld32 (B (A !!! NDIRECT)) (4 * j) = 0 →
  let B' := <[A !!! NDIRECT := st32 (4 * j) b (B1 (A !!! NDIRECT))]> B1 in
  grow B A B' A ∧ addr_of B' A (NDIRECT + j) = b.
Proof.
  intros Hj Hi H0 B'. pose proof (fk_ind _ _ Hf Hi) as Hd. destruct (alloc_data _ Hd) as [E1 _].
  assert (∀ k, (k < NBLK)%nat → addr_of B' A k = if decide (k = NDIRECT + j)%nat then b else addr_of B A k) as Ea.
  { intros k Hk. unfold addr_of. destruct (Nat.ltb_spec k NDIRECT); [rewrite decide_False by lia; done|].
    destruct (Z.eqb_spec (A !!! NDIRECT) 0); [done|]. unfold B'. rewrite fn_lookup_insert, E1.
    case_decide as Ek.
    - subst k. replace (NDIRECT + j - NDIRECT)%nat with j by lia. rewrite ld_st32_same.
      + apply u32_id. pose proof (ly_size _ _ Hlay). pose proof (ly_N _ _ Hlay). unfold word, two31, two32 in *. lia.
      + rewrite HB. unfold BSIZE. lia.
    - apply ld_st32_ne. unfold NDIRECT in *. lia. }
  assert (NDIRECT + j < NBLK)%nat as Hn by (unfold NDIRECT; lia).
  split; [|rewrite Ea by done; by rewrite decide_True]. apply (grow_add B' A (NDIRECT + j)%nat); try done.
  - apply Hf.
  - unfold addr_of. destruct (Nat.ltb_spec (NDIRECT + j) NDIRECT); [lia|]. destruct (Z.eqb_spec (A !!! NDIRECT) 0); [done|].
    by replace (NDIRECT + j - NDIRECT)%nat with j by lia.
  - rewrite Ea by done. by rewrite decide_True.
  - intros k Hk Hkn. rewrite Ea by done. by rewrite decide_False.
  - intros x Hx. unfold B'. rewrite fn_lookup_insert_ne; [done|]. destruct Hx as [?| ->]; congruence.
Qed.

(** The indirect block. *)
Lemma ld32_zeros o : (o + 3 < BSIZE)%nat → ld32 (replicate BSIZE 0) o = 0.
Proof.
  intros Ho. unfold ld32. assert (∀ k, (k < BSIZE)%nat → replicate BSIZE 0 !!! k = 0) as E; [|by rewrite !E by lia].
  intros k Hk. by rewrite list_lookup_total_alt, lookup_replicate_2.
Qed.

Lemma grow_indirect : A !!! NDIRECT = 0 → let A' := <[NDIRECT := b]> A in grow B A B1 A' ∧ A' !!! NDIRECT = b.
Proof.
  intros H0 A'. pose proof (fk_len _ _ Hf) as Hlen. pose proof b_nonzero as Hnz.
  assert (A' !!! NDIRECT = b) as Ei by (apply list_lookup_total_insert_eq; rewrite Hlen; lia).
  assert (∀ k, (k < NBLK)%nat → addr_of B1 A' k = addr_of B A k) as Ea.
  { intros k Hk. unfold addr_of. destruct (Nat.ltb_spec k NDIRECT).
    - unfold A'. rewrite list_lookup_total_insert_ne; [done|lia].
    - rewrite Ei, H0. destruct (Z.eqb_spec b 0); [done|]. rewrite (proj1 alloc_new). simpl. rewrite ld32_zeros; [done|]. unfold BSIZE, NDIRECT in *. lia. }
  split; [|done]. split.
  - split.
    + unfold A'. by rewrite length_insert.
    + intros _. rewrite Ei. apply alloc_new.
    + intros k Hk Ha. rewrite Ei. rewrite (Ea k Hk) in Ha |- *. destruct (fk_data _ _ Hf k Hk Ha) as [Hx _].
      split; [by apply alloc_data|by apply data_ne].
    + intros j k Hj Hk Ha E. rewrite (Ea j Hj) in Ha, E. rewrite (Ea k Hk) in E. by apply (fk_inj _ _ Hf).
  - apply alloc_map_ok.
  - intros k Hk. unfold fblock. rewrite (Ea k Hk). destruct (Z.eqb_spec (addr_of B A k) 0); [done|]. by apply alloc_data, Hf.
  - intros k Hk _. by apply Ea.
  - done.
  - intros b'. apply alloc_used.
  - intros k Hk Ha Ha0. by rewrite (Ea k Hk) in Ha.
  - intros _ _. by rewrite Ei.
  - intros b' Hb' Hu' Hm' _. by apply alloc_kept.
Qed.
End add.
End files.

(** ** Enough free blocks *)

Section free.
Context (s0 : kstate).
Notation SZ := (s0.(fs).(sb).(sb_size)).

(** At least [n] blocks are free. *)
Definition free_ge (B : Z → list Z) (n : nat) : Prop :=
  ∃ l : list Z, NoDup l ∧ length l = n ∧ ∀ b, b ∈ l → 0 <= b < SZ ∧ used s0 B b = false.

Lemma free_ge_mono B n m : free_ge B n → (m <= n)%nat → free_ge B m.
Proof.
  intros (l & Hnd & Hl & Hf) Hm. exists (take m l). split; [|split].
  - rewrite <- (take_drop m l) in Hnd. by apply list.NoDup_app in Hnd as [? _].
  - rewrite length_take. lia.
  - intros b Hb. apply Hf. apply elem_of_take in Hb as (k & Hk & _). by eapply list_elem_of_lookup_2.
Qed.

Lemma free_ge_take B B' b n : free_ge B (S n) →
  (∀ x, 0 <= x < SZ → used s0 B x = false → x ≠ b → used s0 B' x = false) → free_ge B' n.
Proof.
  intros (l & Hnd & Hl & Hf) Hu. set (l' := filter (fun x => x ≠ b) l).
  apply (free_ge_mono B' (length l')).
  - exists l'. split; [by apply list.NoDup_filter|]. split; [done|].
    intros x [Hx Hxl]%list_elem_of_filter. destruct (Hf x Hxl). split; [done|by apply Hu].
  - assert (list_to_set l ⊆@{gset Z} {[b]} ∪ list_to_set l') as Hsub.
    { intros x Hx%elem_of_list_to_set. rewrite elem_of_union, elem_of_list_to_set. unfold l'.
      rewrite list_elem_of_filter. destruct (decide (x = b)) as [->|?]; set_solver. }
    apply subseteq_size in Hsub. rewrite size_list_to_set in Hsub by done.
    pose proof (size_union_alt {[b]} (list_to_set l' : gset Z)) as E. rewrite size_singleton in E.
    pose proof (size_list_to_set_le l') as Hle.
    assert (size ((list_to_set l' : gset Z) ∖ {[b]}) <= size (list_to_set l' : gset Z))%nat
      by (apply subseteq_size; set_solver). lia.
Qed.
End free.

(** ** [bmap] *)

Section bmap.
Context {WF : WaitFuel} (Hfuel : wait_fuel ≠ 0%nat) (s0 : kstate) (c : nat) (dstart : Z) (Hlay : layout s0 dstart).
Notation SZ := (s0.(fs).(sb).(sb_size)).
Notation file_ok := (file_ok s0 dstart).
Notation map_ok := (map_ok s0 dstart).
Notation grow := (grow s0 dstart).
Notation free_ge := (free_ge s0).

Lemma free_alloc B b n : (∀ b, length (B b) = BSIZE) → dstart <= b < SZ → free_ge B (S n) → free_ge (alloc_blk s0 b B) n.
Proof.
  intros HB Hb Hf. apply (free_ge_take s0 B _ b n Hf). intros x Hx Hu Hne.
  rewrite (used_alloc s0 dstart Hlay) by (done || lia). rewrite Hu, bool_decide_eq_false_2; [done|congruence].
Qed.

Lemma free_some B n : free_ge B (S n) → ∃ b, 0 <= b < SZ ∧ used s0 B b = false.
Proof. intros ([|b l] & _ & Hl & Hf); [done|]. exists b. apply Hf. by left. Qed.

(** The file whose inode is entry [ip] of [I]. *)
Definition is_file (I : list inode) (ip : nat) (A : list Z) : Prop :=
  (ip < length I)%nat ∧ i_dev (I !!! ip) = 1 ∧ i_addrs (I !!! ip) = A.

Lemma is_file_same I ip A : is_file I ip A → alter (set_i_addrs A) ip I = I.
Proof.
  intros (Hl & Hd & Ha). apply alter_id_eq. intros p Hp. apply list_lookup_total_correct in Hp. subst p.
  rewrite <- Ha. by destruct (I !!! ip).
Qed.

Lemma is_file_alter I ip A A' : is_file I ip A → is_file (alter (set_i_addrs A') ip I) ip A'.
Proof.
  intros (Hl & Hd & Ha). split; [by rewrite length_alter|].
  rewrite list_lookup_total_alter_eq by done. done.
Qed.

Lemma alter_addrs I ip A n b : is_file I ip A →
  alter (fun p => set_i_addrs (<[n := b]> p.(i_addrs)) p) ip I = alter (set_i_addrs (<[n := b]> A)) ip I.
Proof.
  intros (Hl & Hd & Ha). apply list_eq. intros j. destruct (decide (j = ip)) as [->|Hj].
  - rewrite !list_lookup_alter_eq. destruct (I !! ip) as [p|] eqn:E; [|done]. simpl.
    apply list_lookup_total_correct in E. subst p. by rewrite Ha.
  - by rewrite !list_lookup_alter_ne.
Qed.

Lemma alter_alter_addrs (I : list inode) (ip : nat) A A' : alter (set_i_addrs A') ip (alter (set_i_addrs A) ip I) = alter (set_i_addrs A') ip I.
Proof. rewrite list_alter_alter_eq. done. Qed.

Lemma bmap_indirect_t B r I s ip A m : in_tx s0 c B ∅ r I s → is_file I ip A → file_ok B A → map_ok B →
  free_ge B (S m) → 2 <= r →
  runs (bmap_indirect ip) s (λ a s', ∃ B' A', grow B A B' A' ∧ A' !!! NDIRECT = a ∧ a ≠ 0 ∧ free_ge B' m ∧
    in_tx s0 c B' ∅ (r - 2) (alter (set_i_addrs A') ip I) s').
Proof.
  intros HT HI Hf Hm Hfr Hr. pose proof HI as (Hl & Hd & Ha). unfold bmap_indirect.
  apply (geti_t s0 c B ∅ r I s); [done|]. rewrite Ha, Hd. destruct (Z.eqb_spec (A !!! NDIRECT) 0) as [E|E].
  - eapply runs_bind; [apply (balloc_t Hfuel s0 c dstart Hlay B ∅ r I s HT Hm); try done|].
    + by eapply free_some.
    + intros b s1 (Hb & Hu & H1). apply (modi_t s0 c _ ∅ (r - 2) I s1 ip _ _ _ H1). intros s2 H2. apply runs_ret.
      assert (∀ b, length (B b) = BSIZE) as HB by (intros x; by eapply in_tx_len).
      destruct (grow_indirect s0 dstart Hlay B A b HB Hf Hm Hb Hu E) as [G Ei].
      eexists _, _. split; [exact G|]. split; [done|]. split; [by apply (b_nonzero s0 dstart Hlay)|].
      split; [by apply free_alloc|]. by rewrite <- (alter_addrs I ip A NDIRECT b HI).
  - apply runs_ret. exists B, A. split; [by apply grow_refl|]. split; [done|]. split; [done|].
    split; [eapply free_ge_mono; [done|lia]|]. rewrite (is_file_same I ip A HI). apply (in_tx_room Hfuel s0 c B ∅ r); [done|lia].
Qed.

Lemma bmap_entry_t B r I V s ip i A j m : let ia := A !!! NDIRECT in
  tst s0 c B {[i := ia]} r I V s → (ia ∉ V.(cv_dirty) → V.(cv_blk) ia = V.(cv_disk) ia) →
  is_file I ip A → file_ok B A → map_ok B → free_ge B (S m) → 3 <= r → ia ≠ 0 → (j < 128)%nat →
  runs (bmap_entry ip i j) s (λ a s', ∃ B' V', grow B A B' A ∧ addr_of B' A (NDIRECT + j) = a ∧ a ≠ 0 ∧ free_ge B' m ∧
    tst s0 c B' {[i := ia]} (r - 3) I V' s' ∧ (ia ∉ V'.(cv_dirty) → V'.(cv_blk) ia = V'.(cv_disk) ia)).
Proof.
  intros ia HT Hc HI Hf Hm Hfr Hr Hia Hj. pose proof HI as (Hl & Hd & Ha).
  set (H := {[i := ia]} : gmap nat Z) in *. assert (H !! i = Some ia) as Hi by apply lookup_singleton_eq.
  pose proof (ex_intro _ V HT : in_tx s0 c B H r I s) as HT'.
  assert (∀ b, length (B b) = BSIZE) as HB by (intros x; by eapply in_tx_len).
  destruct (fk_ind _ _ _ _ Hf Hia) as [Hiar Hiau]. fold ia in Hiar, Hiau.
  unfold bmap_entry. eapply runs_bind; [apply (getb_t s0 c B H r I s i ia HT' Hi)|].
  intros p s1 (-> & Hp & _). rewrite Hp.
  destruct (Z.eqb_spec (ld32 (B ia) (4 * j)) 0) as [E|E].
  - apply (geti_t s0 c B H r I s); [done|]. rewrite Hd.
    eapply runs_bind; [apply (balloc_t Hfuel s0 c dstart Hlay B H r I s HT' Hm)|].
    + intros k b Hk. unfold H in Hk. apply lookup_singleton_Some in Hk as [<- <-]. done.
    + unfold H. rewrite map_size_singleton. lia.
    + lia.
    + by eapply free_some.
    + intros b s1 (Hb & Hu & H1). set (B1 := alloc_blk s0 b B) in *.
      destruct (grow_entry s0 dstart Hlay B A b HB Hf Hm Hb Hu j Hj Hia E) as [G Ea]. fold ia B1 in G, Ea.
      eapply runs_bind; [apply (modb_t Hfuel s0 c B1 H (r - 2) I s1 i ia (st32 (4 * j) b) H1 Hi)|].
      { rewrite length_st32. by eapply in_tx_len. }
      intros [] s2 H2. eapply runs_bind; [apply (log_write_t Hfuel s0 c _ H (r - 2) I s2 i ia H2 Hi); [|lia]|].
      { by apply (data_fs s0 dstart Hlay). }
      intros [] s3 (V3 & H3 & Hd3). apply runs_ret. eexists _, V3. split; [exact G|]. split; [exact Ea|].
      split; [by apply (b_nonzero s0 dstart Hlay)|].
      replace (r - 3) with (r - 2 - 1) by lia. split; [|split; [exact H3|done]].
      apply (free_ge_take s0 B _ b m Hfr). intros x Hx Hux Hxb. unfold used. rewrite fn_lookup_insert_ne.
      * fold (used s0 B1 x). unfold B1. rewrite (used_alloc s0 dstart Hlay) by (done || lia).
        rewrite Hux, bool_decide_eq_false_2; [done|congruence].
      * destruct (mapblk_fs s0 dstart Hlay x Hx) as (_ & ? & _). lia.
  - apply runs_ret. exists B, V. split; [by apply grow_refl|].
    assert (addr_of B A (NDIRECT + j) = ld32 (B ia) (4 * j)) as Ea.
    { unfold addr_of. destruct (Nat.ltb_spec (NDIRECT + j) NDIRECT); [lia|]. fold ia.
      destruct (Z.eqb_spec ia 0); [done|]. by replace (NDIRECT + j - NDIRECT)%nat with j by lia. }
    split; [done|]. split; [done|]. split; [eapply free_ge_mono; [done|lia]|]. split; [|done].
    destruct HT as [T1 T2 T3 T4 T5 T6 T7 T8 T9 T10 T11 T12 T13 T14 T15 T16 T17 T18 T19]. split; try done; [|lia]. split; [apply T10|]. intros ?. apply T10. lia.
Qed.

(** [bmap] finds or allocates block [n] of the file. *)
Lemma bmap_t B r I s ip A n m : in_tx s0 c B ∅ r I s → is_file I ip A → file_ok B A → map_ok B →
  free_ge B (S (S m)) → 5 <= r → (n < 140)%nat →
  runs (bmap ip (Z.of_nat n)) s (λ a s', ∃ B' A', grow B A B' A' ∧ addr_of B' A' n = a ∧ a ≠ 0 ∧ free_ge B' m ∧
    in_tx s0 c B' ∅ (r - 5) (alter (set_i_addrs A') ip I) s').
Proof.
  intros HT HI Hf Hm Hfr Hr Hn. pose proof HI as (Hl & Hd & Ha). unfold bmap.
  assert (∀ b, length (B b) = BSIZE) as HB by (intros x; by eapply in_tx_len).
  destruct (Z.ltb_spec (Z.of_nat n) (Z.of_nat NDIRECT)) as [Hlt|Hge].
  - apply (geti_t s0 c B ∅ r I s); [done|]. rewrite Ha, Hd, Nat2Z.id.
    assert (n < NDIRECT)%nat as Hn' by lia.
    assert (∀ B A, addr_of B A n = A !!! n) as Ea by (intros; unfold addr_of; by rewrite (proj2 (Nat.ltb_lt _ _) Hn')).
    destruct (Z.eqb_spec (A !!! n) 0) as [E|E].
    + eapply runs_bind; [apply (balloc_t Hfuel s0 c dstart Hlay B ∅ r I s HT Hm); [done|done|lia|by eapply free_some]|].
      intros b s1 (Hb & Hu & H1). apply (modi_t s0 c _ ∅ (r - 2) I s1 ip _ _ _ H1). intros s2 H2. apply runs_ret.
      destruct (grow_direct s0 dstart Hlay B A b HB Hf Hm Hb Hu n Hn' E) as [G En].
      eexists _, _. split; [exact G|]. split; [done|]. split; [by apply (b_nonzero s0 dstart Hlay)|].
      split; [apply (free_ge_mono s0 _ (S m)); [by apply free_alloc|lia]|].
      rewrite <- (alter_addrs I ip A n b HI). apply (in_tx_room Hfuel s0 c _ ∅ (r - 2)); [exact H2|lia].
    + apply runs_ret. exists B, A. split; [by apply grow_refl|]. split; [done|]. split; [done|].
      split; [eapply free_ge_mono; [done|lia]|]. rewrite (is_file_same I ip A HI). apply (in_tx_room Hfuel s0 c B ∅ r); [done|lia].
  - cbv zeta. rewrite (proj2 (Z.ltb_lt _ _)) by (unfold NINDIRECT, NDIRECT in *; lia).
    eapply runs_bind; [apply (bmap_indirect_t B r I s ip A (S m)); (done || lia)|].
    intros ia s1 (B1 & A1 & G1 & Ei & Hi0 & Hfr1 & H1). set (I1 := alter (set_i_addrs A1) ip I) in *.
    pose proof (is_file_alter I ip A A1 HI) as HI1. fold I1 in HI1. pose proof HI1 as (_ & Hd1 & _).
    pose proof (gw_file _ _ _ _ _ _ G1) as Hf1. pose proof (gw_map _ _ _ _ _ _ G1) as Hm1.
    apply (geti_t s0 c B1 ∅ (r - 2) I1 s1); [done|]. rewrite Hd1.
    destruct (fk_ind _ _ _ _ Hf1) as [Hir _]; [congruence|]. rewrite Ei in Hir.
    pose proof (data_fs s0 dstart Hlay ia Hir) as [Hib _].
    eapply runs_bind; [apply (bread_t Hfuel s0 c B1 ∅ (r - 2) I1 s1 ia H1); [done|done|rewrite map_size_empty; lia]|].
    intros i s2 (_ & V2 & H2 & Hc2). rewrite insert_empty in H2. rewrite <- Ei in H2, Hc2.
    eapply runs_bind.
    { apply (bmap_entry_t B1 (r - 2) I1 V2 s2 ip i A1 (Z.to_nat (Z.of_nat n - Z.of_nat NDIRECT)) m H2 Hc2 HI1 Hf1 Hm1 Hfr1);
        [lia|by rewrite Ei|unfold NDIRECT in *; lia]. }
    intros a s3 (B3 & V3 & G3 & Ea & Ha0 & Hfr3 & H3 & Hc3).
    replace (NDIRECT + Z.to_nat (Z.of_nat n - Z.of_nat NDIRECT))%nat with n in Ea by lia.
    eapply runs_bind.
    { apply (brelse_t Hfuel s0 c B3 _ (r - 2 - 3) I1 V3 s3 i (A1 !!! NDIRECT) H3); [apply lookup_singleton_eq|done|].
      intros j Hj. by rewrite lookup_singleton_ne. }
    intros [] s4 H4. rewrite delete_singleton_eq in H4. apply runs_ret. exists B3, A1.
    split; [by apply (grow_trans s0 dstart Hlay B A B1 A1)|]. split; [done|]. split; [done|]. split; [done|].
    by replace (r - 5) with (r - 2 - 3) by lia.
Qed.
End bmap.
