(* ===== verification/Rdwr.v ===== *)
(** * Reading and writing files

    The contents of a file as a sequence of bytes, over the blocks of the
    cache, and the proof that [readi] and [writei] of [fs.c] read and update
    that sequence, allocating blocks as needed and leaving the blocks of other
    files alone. *)

From stdpp Require Import base numbers option list sets strings gmap fin_maps functions.
From Stdlib Require Import ZArith Lia.
From S2P Require Import Prelude Kstring State Locks Console Kalloc Proc Sleeplock Bio Log Fs.

(** ** Bytes in blocks and memory *)

Lemma put_bytes_app m a d1 d2 :
  put_bytes (put_bytes m (u32 a) d1) (u32 (a + Z.of_nat (length d1))) d2 = put_bytes m (u32 a) (d1 ++ d2).
Proof.
  revert m a. induction d1 as [|b d1 IH]; intros m a; simpl; [by rewrite Z.add_0_r|].
  rewrite u32_add_l. rewrite <- IH. do 2 f_equal. lia.
Qed.

Lemma length_get_bytes m a n : length (get_bytes m a n) = n.
Proof. unfold get_bytes. by rewrite length_fmap, length_seq. Qed.

Lemma get_bytes_slice m a n t k : (t + k <= n)%nat →
  get_bytes m (u32 (a + Z.of_nat t)) k = take k (drop t (get_bytes m (u32 a) n)).
Proof.
  intros H. apply list_eq. intros j. destruct (decide (j < k)%nat) as [Hj|Hj].
  - rewrite lookup_take_lt, lookup_drop by done. unfold get_bytes. rewrite !list_lookup_fmap, !lookup_seq_lt by lia.
    simpl. unfold load8. rewrite !u32_add_l. do 2 f_equal. f_equal. lia.
  - rewrite !lookup_ge_None_2; [done| |]; rewrite ?length_take, ?length_drop, ?length_get_bytes; lia.
Qed.

Lemma length_splice o d l : (o + length d <= length l)%nat → length (splice o d l) = length l.
Proof. intros H. unfold splice. rewrite !length_app, length_take, length_drop. lia. Qed.

Lemma splice_lookup o d l k : (o + length d <= length l)%nat → (k < length l)%nat →
  splice o d l !!! k = if decide (o <= k < o + length d)%nat then d !!! (k - o)%nat else l !!! k.
Proof.
  intros H Hk. rewrite !list_lookup_total_alt. f_equal. unfold splice. case_decide as E.
  - rewrite lookup_app_r by (rewrite length_take; lia). rewrite length_take.
    replace (o `min` length l)%nat with o by lia. by rewrite lookup_app_l by lia.
  - destruct (decide (k < o)%nat).
    + rewrite lookup_app_l by (rewrite length_take; lia). by rewrite lookup_take_lt.
    + rewrite lookup_app_r by (rewrite length_take; lia). rewrite length_take.
      rewrite lookup_app_r by lia. rewrite lookup_drop.
      by replace (o + length d + (k - o `min` length l - length d))%nat with k by lia.
Qed.

(** ** The bytes of a file *)

Notation BS := 512.

Section content.
Context (s0 : kstate) (dstart : Z) (Hlay : layout s0 dstart).
Notation SZ := (s0.(fs).(sb).(sb_size)).
Notation used := (used s0).

Definition fbyte (B : Z → list Z) (A : list Z) (o : Z) : Z :=
  fblock B A (Z.to_nat (o / BS)) !!! Z.to_nat (o mod BS).
Definition fslice (B : Z → list Z) (A : list Z) (off n : Z) : list Z :=
  (fun k => fbyte B A (off + Z.of_nat k)) <$> seq 0 (Z.to_nat n).

Lemma length_fslice B A off n : length (fslice B A off n) = Z.to_nat n.
Proof. unfold fslice. by rewrite length_fmap, length_seq. Qed.

Lemma fslice_app B A off n1 n2 : 0 <= n1 → 0 <= n2 →
  fslice B A off (n1 + n2) = fslice B A off n1 ++ fslice B A (off + n1) n2.
Proof.
  intros H1 H2. assert (∀ off n j, (j < Z.to_nat n)%nat → fslice B A off n !! j = Some (fbyte B A (off + Z.of_nat j))) as Hl.
  { intros f n j Hj. unfold fslice. by rewrite list_lookup_fmap, lookup_seq_lt. }
  apply list_eq. intros j. destruct (decide (j < Z.to_nat (n1 + n2))%nat) as [Hj|Hj].
  - rewrite Hl by done. destruct (decide (j < Z.to_nat n1)%nat).
    + rewrite lookup_app_l by by rewrite length_fslice. by rewrite Hl.
    + rewrite lookup_app_r by (rewrite length_fslice; lia). rewrite length_fslice, Hl by lia. do 2 f_equal. lia.
  - rewrite !lookup_ge_None_2; [done| |]; rewrite ?length_app, ?length_fslice; lia.
Qed.

Lemma div_in_block off o m j : off mod BS = o → 0 <= off → 0 <= j < m → o + m <= BS →
  (off + j) / BS = off / BS ∧ (off + j) mod BS = o + j.
Proof.
  intros Ho H0 Hj Hm. pose proof (Z.div_mod off BS ltac:(lia)) as E. rewrite Ho in E.
  pose proof (Z.mod_pos_bound off BS ltac:(lia)).
  assert (off + j = BS * (off / BS) + (o + j)) as E2 by lia.
  split; [symmetry; apply (Z.div_unique_pos _ _ _ (o + j)); lia|symmetry; apply (Z.mod_unique_pos _ _ (off / BS)); lia].
Qed.

(** Part of one block. *)
Lemma fslice_block B A off m : 0 <= off → 0 <= m → off mod BS + m <= BS →
  length (fblock B A (Z.to_nat (off / BS))) = BSIZE →
  fslice B A off m = take (Z.to_nat m) (drop (Z.to_nat (off mod BS)) (fblock B A (Z.to_nat (off / BS)))).
Proof.
  intros H0 Hm Hb Hl. pose proof (Z.mod_pos_bound off BS ltac:(lia)). unfold BSIZE in Hl. apply list_eq. intros j.
  destruct (decide (j < Z.to_nat m)%nat) as [Hj|Hj].
  - rewrite lookup_take_lt, lookup_drop by done. unfold fslice. rewrite list_lookup_fmap, lookup_seq_lt by done. simpl.
    destruct (div_in_block off (off mod BS) m (Z.of_nat j)) as [E1 E2]; [done|done|lia|done|].
    unfold fbyte. rewrite E1, E2. rewrite Z2Nat.inj_add, Nat2Z.id by lia.
    symmetry. apply list_lookup_lookup_total_lt. lia.
  - rewrite !lookup_ge_None_2; [done| |]; rewrite ?length_take, ?length_drop, ?length_fslice; lia.
Qed.

(** The block of an inode. *)
Definition iblk (i : Z) : Z := i / IPB + s0.(fs).(sb).(sb_inodestart).

Lemma iblk_fs i : 0 <= i < s0.(fs).(sb).(sb_ninodes) →
  fsblock s0 (iblk i) ∧ 0 < iblk i < dstart ∧ IBLOCK i s0.(fs).(sb) = iblk i ∧
  (∀ x, 0 <= x < SZ → mapblk s0 x ≠ iblk i).
Proof.
  intros Hi. pose proof (ly_inode _ _ Hlay i Hi). pose proof (ly_size _ _ Hlay). pose proof (ly_log _ _ Hlay).
  pose proof (ly_N _ _ Hlay). unfold iblk, fsblock, behind, IBLOCK. split; [lia|]. split; [lia|]. split.
  - apply u32_id. unfold word, two31, two32 in *. lia.
  - intros x Hx E. by apply (ly_apart _ _ Hlay x i).
Qed.

(** What a change of a file keeps: the file and the map stay well formed,
    allocated blocks keep their address, new ones come from the free blocks,
    and the blocks of other files and the inodes are as they were. *)
Record ext (B : Z → list Z) (A : list Z) (B' : Z → list Z) (A' : list Z) : Prop := {
  ex_file : file_ok s0 dstart B' A';
  ex_map : map_ok s0 dstart B';
  ex_addr : ∀ k, (k < 140)%nat → addr_of B A k ≠ 0 → addr_of B' A' k = addr_of B A k;
  ex_ind : A !!! NDIRECT ≠ 0 → A' !!! NDIRECT = A !!! NDIRECT;
  ex_used : ∀ b, 0 <= b < SZ → used B b = true → used B' b = true;
  ex_new : ∀ k, (k < 140)%nat → addr_of B' A' k ≠ 0 → addr_of B A k = 0 → used B (addr_of B' A' k) = false;
  ex_newind : A' !!! NDIRECT ≠ 0 → A !!! NDIRECT = 0 → used B (A' !!! NDIRECT) = false;
  ex_kept : ∀ b, dstart <= b < SZ → used B b = true → A !!! NDIRECT ≠ b →
    (∀ k, (k < 140)%nat → addr_of B A k ≠ b) → B' b = B b;
  ex_inodes : ∀ i, 0 <= i < s0.(fs).(sb).(sb_ninodes) → B' (iblk i) = B (iblk i)
}.

Lemma grow_ext B A B' A' : file_ok s0 dstart B A → map_ok s0 dstart B → grow s0 dstart B A B' A' → ext B A B' A'.
Proof.
  intros Hf Hm [G1 G2 G3 G4 G5 G6 G7 G8 G9]. pose proof (ly_size _ _ Hlay). split; try done.
  - intros b Hb Hu Hi _. apply G9; [lia|done| |done]. intros x Hx.
    destruct (mapblk_fs s0 dstart Hlay x Hx) as (_ & ? & _). lia.
  - intros i Hi. destruct (iblk_fs i Hi) as (_ & Hr & _ & Hn). apply G9; [lia| |done|].
    + destruct (used B (iblk i)) eqn:E; [done|]. pose proof (Hm (iblk i) ltac:(lia) E). lia.
    + destruct (decide (A !!! NDIRECT = 0)) as [->|Ha]; [lia|]. destruct (fk_ind _ _ _ _ Hf Ha). lia.
Qed.

Lemma ext_refl B A : file_ok s0 dstart B A → map_ok s0 dstart B → ext B A B A.
Proof. intros H1 H2. by apply grow_ext, grow_refl. Qed.

Lemma ext_trans B A B1 A1 B2 A2 : ext B A B1 A1 → ext B1 A1 B2 A2 → ext B A B2 A2.
Proof.
  intros G1 G2. pose proof (ex_file _ _ _ _ G2) as Hf2. pose proof (ex_file _ _ _ _ G1) as Hf1.
  pose proof (ly_size _ _ Hlay). split; try apply G2.
  - intros k Hk Ha. rewrite (ex_addr _ _ _ _ G2) by (done || by rewrite (ex_addr _ _ _ _ G1)). by apply G1.
  - intros Ha. rewrite (ex_ind _ _ _ _ G2) by (by rewrite (ex_ind _ _ _ _ G1)). by apply G1.
  - intros b Hb Hu. by apply G2, G1.
  - intros k Hk Ha2 Ha. destruct (decide (addr_of B1 A1 k = 0)) as [E|E].
    + pose proof (ex_new _ _ _ _ G2 k Hk Ha2 E) as Hu. destruct (fk_data _ _ _ _ Hf2 k Hk Ha2) as [[Hr _] _].
      destruct (used B (addr_of B2 A2 k)) eqn:Eu; [|done]. rewrite (ex_used _ _ _ _ G1) in Hu by (done || lia). done.
    + rewrite (ex_addr _ _ _ _ G2 k Hk E). by apply (ex_new _ _ _ _ G1).
  - intros Ha2 Ha. destruct (decide (A1 !!! NDIRECT = 0)) as [E|E].
    + pose proof (ex_newind _ _ _ _ G2 Ha2 E) as Hu. destruct (fk_ind _ _ _ _ Hf2 Ha2) as [Hr _].
      destruct (used B (A2 !!! NDIRECT)) eqn:Eu; [|done]. rewrite (ex_used _ _ _ _ G1) in Hu by (done || lia). done.
    + rewrite (ex_ind _ _ _ _ G2 E). by apply (ex_newind _ _ _ _ G1).
  - intros b Hb Hu Hi Hk. rewrite (ex_kept _ _ _ _ G2); [by apply G1|done|apply G1; [lia|done]| |].
    + intros E. destruct (decide (A !!! NDIRECT = 0)) as [Ez|Ez].
      * destruct (decide (A1 !!! NDIRECT = 0)) as [E1|E1]; [apply Hi; congruence|].
        rewrite <- E, (ex_newind _ _ _ _ G1) in Hu by done. done.
      * apply Hi. by rewrite <- (ex_ind _ _ _ _ G1).
    + intros k Hkn E. destruct (decide (addr_of B A k = 0)) as [Ez|Ez].
      * destruct (decide (addr_of B1 A1 k = 0)) as [E1|E1]; [apply (Hk k Hkn); congruence|].
        rewrite <- E, (ex_new _ _ _ _ G1) in Hu by done. done.
      * apply (Hk k Hkn). by rewrite <- (ex_addr _ _ _ _ G1).
  - intros i Hi. by rewrite (ex_inodes _ _ _ _ G2), (ex_inodes _ _ _ _ G1).
Qed.

(** Changing the contents of an allocated block. *)
Lemma write_block B A n d : file_ok s0 dstart B A → map_ok s0 dstart B → (n < 140)%nat → addr_of B A n ≠ 0 →
  let B' := <[addr_of B A n := d]> B in
  ext B A B' A ∧ (∀ k, (k < 140)%nat → fblock B' A k = if decide (k = n) then d else fblock B A k) ∧
  (∀ x, 0 <= x < SZ → used B' x = used B x).
Proof.
  intros Hf Hm Hn Ha B'. destruct (fk_data _ _ _ _ Hf n Hn Ha) as [[Hr Hu] Hi].
  assert (∀ x, 0 <= x < SZ → used B' x = used B x) as Eu.
  { intros x Hx. unfold Fs.used, B'. rewrite fn_lookup_insert_ne; [done|].
    destruct (mapblk_fs s0 dstart Hlay x Hx) as (_ & ? & _). lia. }
  assert (∀ k, addr_of B' A k = addr_of B A k) as Ea.
  { intros k. unfold addr_of. destruct (k <? NDIRECT)%nat; [done|]. destruct (A !!! NDIRECT =? 0); [done|].
    unfold B'. by rewrite fn_lookup_insert_ne. }
  assert (∀ a, data s0 dstart B a → data s0 dstart B' a) as Hd.
  { intros a [Har Hau]. split; [done|]. pose proof (ly_size _ _ Hlay). rewrite Eu by lia. done. }
  split; [|split; [|done]].
  - split.
    + destruct Hf as [F1 F2 F3 F4]. split; [done|intros H; by apply Hd, F2| |].
      * intros k Hk Hak. rewrite Ea in Hak |- *. destruct (F3 k Hk Hak). split; [by apply Hd|done].
      * intros j k Hj Hk. rewrite !Ea. by apply F4.
    + intros x Hx Hux. rewrite Eu in Hux by done. by apply Hm.
    + intros k _ _. apply Ea.
    + done.
    + intros b Hb Hub. by rewrite Eu.
    + intros k Hk. by rewrite Ea.
    + done.
    + intros b Hb _ _ Hk. unfold B'. apply fn_lookup_insert_ne. intros <-. by apply (Hk n Hn).
    + intros i Hib. unfold B'. apply fn_lookup_insert_ne. destruct (iblk_fs i Hib) as (_ & ? & _). lia.
  - intros k Hk. unfold fblock. rewrite Ea. case_decide as E.
    + subst k. destruct (Z.eqb_spec (addr_of B A n) 0); [done|]. apply fn_lookup_insert.
    + destruct (Z.eqb_spec (addr_of B A k) 0) as [|Hak]; [done|]. unfold B'. apply fn_lookup_insert_ne.
      intros E'. apply E. symmetry in E'. by apply (fk_inj _ _ _ _ Hf).
Qed.
End content.

(** ** Reading *)

Lemma tst_mem s0 c B H r I V s m : tst s0 c B H r I V s → tst (set_mem m s0) c B H r I V (set_mem m s).
Proof.
  intros [T1 [O1 O2 O3] T3 T4 T5 T6 T7 T8 T9 T10 T11 T12 T13 T14 T15 T16 T17 T18]. split; try done.
  - destruct T1 as [[? ? ?] ?]. split; [by split|done].
  - split; [|done|done]. rewrite O1 at 1. by destruct s0.
Qed.

Lemma tst_memeq s0 c B H r I V s : tst s0 c B H r I V s → s.(mem) = s0.(mem).
Proof. intros HT. rewrite (fo_eq _ _ (ts_only _ _ _ _ _ _ _ _ HT)). done. Qed.

Section read.
Context {WF : WaitFuel} (Hfuel : wait_fuel ≠ 0%nat) (c : nat) (dstart : Z).

(** The address of a block that is there. *)
Lemma bmap_have s0 B r I s ip A n : layout s0 dstart → in_tx s0 c B ∅ r I s → is_file I ip A →
  file_ok s0 dstart B A → (n < 140)%nat → addr_of B A n ≠ 0 →
  runs (bmap ip (Z.of_nat n)) s (λ a s', a = addr_of B A n ∧ in_tx s0 c B ∅ r I s').
Proof.
  intros Hlay HT (Hl & Hd & Ha) Hf Hn Han. unfold bmap.
  assert (0 <= r) as Hr by (destruct HT as [V HT]; apply (ts_room _ _ _ _ _ _ _ _ HT)).
  unfold addr_of in *. destruct (Z.ltb_spec (Z.of_nat n) (Z.of_nat NDIRECT)) as [Hlt|Hge].
  - rewrite (proj2 (Nat.ltb_lt _ _)) in * by lia. apply (geti_t s0 c B ∅ r I s); [done|]. rewrite Ha, Nat2Z.id.
    destruct (Z.eqb_spec (A !!! n) 0); [done|]. by apply runs_ret.
  - rewrite (proj2 (Nat.ltb_ge _ _)) in * by lia. cbv zeta.
    rewrite (proj2 (Z.ltb_lt _ _)) by (unfold NINDIRECT, NDIRECT in *; lia).
    destruct (Z.eqb_spec (A !!! NDIRECT) 0) as [|Hi]; [done|].
    destruct (fk_ind _ _ _ _ Hf Hi) as [Hir _]. pose proof (data_fs s0 dstart Hlay _ Hir) as [Hib _].
    unfold bmap_indirect. eapply runs_bind.
    { apply (geti_t s0 c B ∅ r I s); [done|]. rewrite Ha. destruct (Z.eqb_spec (A !!! NDIRECT) 0); [done|].
      apply (runs_ret _ _ (λ a s', a = A !!! NDIRECT ∧ s' = s)). done. }
    intros ? ? [-> ->]. apply (geti_t s0 c B ∅ r I s); [done|]. rewrite Hd.
    unfold bmap_entry. replace (Z.to_nat (Z.of_nat n - Z.of_nat NDIRECT)) with (n - NDIRECT)%nat by lia.
    eapply runs_bind; [apply (bread_t Hfuel s0 c B ∅ r I s _ HT Hib); [done|done]|]. intros i s1 (_ & V & H1 & Hc).
    rewrite insert_empty in H1. eapply runs_bind.
    { eapply runs_bind; [apply (getb_t s0 c B {[i := A !!! NDIRECT]} r I s1 i (A !!! NDIRECT)); [by exists V|apply lookup_singleton_eq]|].
      intros p s2 (-> & Hp & _). rewrite Hp. destruct (Z.eqb_spec (ld32 (B (A !!! NDIRECT)) (4 * (n - NDIRECT))) 0); [done|].
      apply (runs_ret _ _ (λ a s', a = ld32 (B (A !!! NDIRECT)) (4 * (n - NDIRECT)) ∧ s' = s1)). done. }
    intros ? ? [-> ->]. eapply runs_bind.
    { apply (brelse_t Hfuel s0 c B _ r I V s1 i (A !!! NDIRECT) H1); [apply lookup_singleton_eq|done|].
      intros j Hj. by rewrite lookup_singleton_ne. }
    intros [] s2 H2. rewrite delete_singleton_eq in H2. by apply runs_ret.
Qed.

(** The memory after the bytes have been stored. *)
Definition sink (dst : option Z) (tot : Z) (d : list Z) (s0 : kstate) : kstate :=
  match dst with
  | Some a => set_mem (put_bytes s0.(mem) (u32 (a + tot)) d) s0
  | None => s0
  end.

Lemma sink_nil dst tot s0 : sink dst tot [] s0 = s0.
Proof. destruct dst; [|done]. simpl. by destruct s0. Qed.

Lemma sink_app dst tot d1 d2 s0 :
  sink dst (tot + Z.of_nat (length d1)) d2 (sink dst tot d1 s0) = sink dst tot (d1 ++ d2) s0.
Proof.
  destruct dst as [a|]; [|done]. simpl. unfold set_mem. simpl. f_equal. rewrite <- put_bytes_app. do 2 f_equal. lia.
Qed.

Lemma sink_fs dst tot d s0 : (sink dst tot d s0).(fs) = s0.(fs).
Proof. by destruct dst. Qed.

(** Every block of the file up to [last] is allocated. *)
Definition no_holes (B : Z → list Z) (A : list Z) (last : Z) : Prop :=
  ∀ k, (k < 140)%nat → Z.of_nat k * BS < last → addr_of B A k ≠ 0.

Lemma tst_sink s0 B H r I V s dst tot x : tst s0 c B H r I V s →
  tst (sink dst tot x s0) c B H r I V
    (set_mem (match dst with Some a => put_bytes s.(mem) (u32 (a + tot)) x | None => s.(mem) end) s).
Proof.
  intros HT. pose proof (tst_memeq _ _ _ _ _ _ _ _ HT) as E. destruct dst as [a|]; simpl.
  - rewrite E. by apply tst_mem.
  - by destruct s.
Qed.

(** One turn of the loop: part of one block. *)
Lemma read_chunk {R} s0 B A ip dst r I s off m tot (K : list Z → M R) Q : layout s0 dstart →
  in_tx s0 c B ∅ r I s → is_file I ip A → file_ok s0 dstart B A → 0 <= off → off / BS < 140 → 0 <= m →
  off mod BS + m <= BS → addr_of B A (Z.to_nat (off / BS)) ≠ 0 →
  (∀ s', in_tx (sink dst tot (fslice B A off m) s0) c B ∅ r I s' → runs (K (fslice B A off m)) s' Q) →
  runs (addr <- bmap ip (off / BS);;
    p <- geti ip;;
    i <- bread p.(i_dev) addr;;
    b <- getb i;;
    match dst with
    | Some a => modify (fun s => set_mem (put_bytes s.(mem) (u32 (a + tot))
        (take (Z.to_nat m) (drop (Z.to_nat (off mod BS)) b.(b_data)))) s)
    | None => ret ()
    end;;
    brelse i;;
    K (take (Z.to_nat m) (drop (Z.to_nat (off mod BS)) b.(b_data)))) s Q.
Proof.
  intros Hlay HT HI Hf Hoff Hk Hm Hom Hak HK. assert (0 <= off / BS) as Hq by (apply Z.div_pos; lia).
  set (k := Z.to_nat (off / BS)) in *. assert (k < 140)%nat as Hkn by lia.
  replace (off / BS) with (Z.of_nat k) by lia.
  eapply runs_bind; [by apply (bmap_have s0 B r I s ip A k)|]. intros ? s1 [-> H1].
  apply (geti_t s0 c B ∅ r I s1); [done|]. destruct HI as (Hl & Hd & Ha). rewrite Hd.
  destruct (fk_data _ _ _ _ Hf k Hkn Hak) as [[Hdr _] _]. pose proof (data_fs s0 dstart Hlay _ Hdr) as [Hbr _].
  assert (0 <= r) as Hr by (destruct HT as [V HT]; apply (ts_room _ _ _ _ _ _ _ _ HT)).
  apply (look_t Hfuel s0 c B ∅ r I s1); [done|done|done|done|]. intros i p V s2 _ H2 Hc Hp Hlen. rewrite Hp.
  assert (fblock B A k = B (addr_of B A k)) as Efb by (unfold fblock; by destruct (Z.eqb_spec (addr_of B A k) 0)).
  rewrite <- Efb in Hlen |- *. pose proof (fslice_block B A off m Hoff Hm Hom) as Efs. fold k in Efs.
  rewrite <- Efs by done. set (x := fslice B A off m) in *.
  pose proof (tst_sink _ _ _ _ _ _ _ dst tot x H2) as H3. rewrite insert_empty in H3.
  set (s3 := set_mem _ s2) in H3.
  eapply (runs_bind _ _ _ (λ _ s', s' = s3)).
  { destruct dst; [done|]. apply runs_ret. unfold s3. by destruct s2. }
  intros [] ? ->. eapply runs_bind.
  { apply (brelse_t Hfuel _ c B _ r I V s3 i (addr_of B A k) H3); [apply lookup_singleton_eq|done|].
    intros j Hj. by rewrite lookup_singleton_ne. }
  intros [] s4 H4. rewrite delete_singleton_eq in H4. by apply HK.
Qed.

Lemma sink_layout dst tot x s0 B A : layout s0 dstart → file_ok s0 dstart B A →
  layout (sink dst tot x s0) dstart ∧ file_ok (sink dst tot x s0) dstart B A.
Proof.
  intros [L1 L2 L3 L4 L5 L6] [F1 F2 F3 F4]. destruct dst; [|done]. split; [by split|]. by split.
Qed.

Lemma fslice_zero B A off : fslice B A off 0 = [].
Proof. done. Qed.

Lemma readi_loop_t ip B A dst r I : ∀ fuel s0 s off n tot acc, layout s0 dstart → in_tx s0 c B ∅ r I s →
  is_file I ip A → file_ok s0 dstart B A → no_holes B A (off + (n - tot)) → 0 <= off → 0 <= tot <= n →
  off + (n - tot) <= MAXFILE * BS → (tot < n → n - tot + off mod BS <= BS * Z.of_nat fuel) →
  runs (readi_loop fuel ip dst off n tot acc) s (λ d s',
    let x := fslice B A off (n - tot) in d = acc ++ x ∧ in_tx (sink dst tot x s0) c B ∅ r I s').
Proof.
  induction fuel as [|fuel IH]; intros s0 s off n tot acc Hlay HT HI Hf Hnh Hoff Htot Hmax Hfu;
    unfold readi_loop; fold readi_loop; destruct (Z.leb_spec n tot) as [Hle|Hlt].
  1,3: apply runs_ret; replace (n - tot) with 0 by lia; by rewrite fslice_zero, app_nil_r, sink_nil.
  { specialize (Hfu Hlt). pose proof (Z.mod_pos_bound off BS ltac:(lia)). lia. }
  specialize (Hfu Hlt). pose proof (Z.mod_pos_bound off BS ltac:(lia)) as Hob.
  change (Z.of_nat BSIZE) with BS. set (m := Z.min (n - tot) (BS - off mod BS)).
  pose proof (Z.mul_div_le off BS ltac:(lia)) as Hqle. unfold MAXFILE, NDIRECT, NINDIRECT in Hmax.
  apply (read_chunk s0 B A ip dst r I s off m tot (λ x, readi_loop fuel ip dst (off + m) n (tot + m) (acc ++ x)));
    try done; try lia.
  { apply Hnh; lia. }
  intros s1 H1. set (x := fslice B A off m) in *. destruct (sink_layout dst tot x s0 B A Hlay Hf) as [Hlay' Hf'].
  eapply runs_mono; [apply (IH _ s1 (off + m) n (tot + m) (acc ++ x) Hlay' H1 HI Hf')|].
  - by replace (off + m + (n - (tot + m))) with (off + (n - tot)) by lia.
  - lia.
  - lia.
  - unfold MAXFILE, NDIRECT, NINDIRECT. lia.
  - intros Hlt2. assert (m = BS - off mod BS) as Em by lia.
    replace ((off + m) mod BS) with 0; [lia|]. symmetry. rewrite Em.
    replace (off + (BS - off mod BS)) with ((off / BS + 1) * BS); [apply Z.mod_mul; lia|].
    pose proof (Z.div_mod off BS ltac:(lia)). lia.
  - intros d s2 [-> H2]. cbv zeta. replace (n - tot) with (m + (n - (tot + m))) by lia.
    rewrite fslice_app by lia. fold x. split; [by rewrite (assoc_L (++))|].
    rewrite <- sink_app. unfold x at 1. rewrite length_fslice, Z2Nat.id by lia. done.
Qed.

Lemma readi_gen_t {DS : DevSw} s0 B A ip dst r I s off n : layout s0 dstart → in_tx s0 c B ∅ r I s →
  is_file I ip A → file_ok s0 dstart B A → let sz := i_size (I !!! ip) in
  i_type (I !!! ip) ≠ T_DEV → 0 <= sz <= MAXFILE * BS → no_holes B A sz → word off → word n →
  runs (readi_gen ip dst off n) s (λ v s',
    if (sz <? off) || (two32 <=? off + n) then v = (-1, []) ∧ in_tx s0 c B ∅ r I s'
    else let d := fslice B A off (Z.min n (sz - off)) in
      v = (Z.min n (sz - off), d) ∧ in_tx (sink dst 0 d s0) c B ∅ r I s').
Proof.
  intros Hlay HT HI Hf sz Hty Hsz Hnh Hoff Hn. unfold readi_gen. apply (geti_t s0 c B ∅ r I s); [done|].
  destruct (Z.eqb_spec (i_type (I !!! ip)) T_DEV); [done|]. fold sz.
  assert ((u32 (off + n) <? off) = (two32 <=? off + n)) as ->.
  { unfold word in *. unfold u32. destruct (Z.leb_spec two32 (off + n)).
    - apply Z.ltb_lt. rewrite <- (Z.mod_unique_pos (off + n) two32 1 (off + n - two32)); unfold two32 in *; lia.
    - apply Z.ltb_ge. rewrite Z.mod_small by lia. lia. }
  destruct (Z.ltb_spec sz off) as [Hlt|Hge]; [by apply runs_ret|].
  destruct (Z.leb_spec two32 (off + n)) as [Hov|Hov]; [by apply runs_ret|]. cbn [orb].
  unfold word in Hoff, Hn. rewrite (u32_id (off + n)) by (unfold word; lia).
  assert ((if sz <? off + n then sz - off else n) = Z.min n (sz - off)) as ->.
  { destruct (Z.ltb_spec sz (off + n)); lia. }
  set (n' := Z.min n (sz - off)). cbv zeta. unfold MAXFILE, NDIRECT, NINDIRECT in Hsz.
  eapply runs_bind; [apply (readi_loop_t ip B A dst r I (io_fuel n') s0 s off n' 0 [] Hlay HT HI Hf)|].
  - intros k Hk Hlt. apply Hnh; [done|lia].
  - lia.
  - lia.
  - unfold MAXFILE, NDIRECT, NINDIRECT. lia.
  - intros _. pose proof (Z.mod_pos_bound off BS ltac:(lia)). unfold io_fuel. change (Z.of_nat BSIZE) with BS.
    pose proof (Z.div_mod n' BS ltac:(lia)). pose proof (Z.mod_pos_bound n' BS ltac:(lia)).
    rewrite Z2Nat.id; [lia|]. assert (0 <= n' / BS) by (apply Z.div_pos; lia). lia.
  - intros d s1 [-> H1]. apply runs_ret. rewrite Z.sub_0_r in H1 |- *. split; [|done].
    rewrite s32_id by (unfold two31; lia). done.
Qed.
End read.

(** ** Writing *)

Section write.
Context {WF : WaitFuel} (Hfuel : wait_fuel ≠ 0%nat) (s0 : kstate) (c : nat) (dstart : Z) (Hlay : layout s0 dstart).
Notation SZ := (s0.(fs).(sb).(sb_size)).

(** The bytes [src] provides. *)
Definition source (src : Z + list Z) (n : nat) : list Z :=
  match src with inl a => get_bytes s0.(mem) (u32 a) n | inr l => take n l end.

Definition source_ok (src : Z + list Z) (n : nat) : Prop :=
  match src with inl _ => True | inr l => (n <= length l)%nat end.

Lemma length_source src n : source_ok src n → length (source src n) = n.
Proof. destruct src; simpl; [intros _; apply length_get_bytes|intros H; rewrite length_take; lia]. Qed.

Lemma source_chunk {A} src n t m s (K : list Z → M A) Q : s.(mem) = s0.(mem) → 0 <= t → 0 <= m → t + m <= n →
  runs (K (take (Z.to_nat m) (drop (Z.to_nat t) (source src (Z.to_nat n))))) s Q →
  runs (d <- match src with
       | inl a => get (fun s => get_bytes s.(mem) (u32 (a + t)) (Z.to_nat m))
       | inr l => ret (take (Z.to_nat m) (drop (Z.to_nat t) l))
       end;; K d) s Q.
Proof.
  intros Em Ht Hm Hn HK. destruct src as [a|l]; simpl in HK; unfold runs.
  - rewrite bind_get, Em. pose proof (get_bytes_slice s0.(mem) a (Z.to_nat n) (Z.to_nat t) (Z.to_nat m)) as E.
    rewrite Z2Nat.id in E by done. rewrite E by lia. exact HK.
  - rewrite bind_ret_l. rewrite skipn_firstn_comm, take_take in HK.
    replace (Z.to_nat m `min` (Z.to_nat n - Z.to_nat t))%nat with (Z.to_nat m) in HK by lia. exact HK.
Qed.

(** The bytes after [d] has been written at offset [off]. *)
Definition written_byte (off : Z) (d : list Z) (f : Z → Z) (o : Z) : Z :=
  if decide (off <= o < off + Z.of_nat (length d)) then d !!! Z.to_nat (o - off) else f o.

(** Writing part of a block that is there. *)
Lemma write_chunk B A off d : file_ok s0 dstart B A → map_ok s0 dstart B → (∀ b, length (B b) = BSIZE) →
  0 <= off → off / BS < 140 → off mod BS + Z.of_nat (length d) <= BS →
  let k := Z.to_nat (off / BS) in addr_of B A k ≠ 0 →
  let B' := <[addr_of B A k := splice (Z.to_nat (off mod BS)) d (B (addr_of B A k))]> B in
  ext s0 dstart B A B' A ∧ (∀ x, 0 <= x < SZ → used s0 B' x = used s0 B x) ∧
  (∀ o, 0 <= o < MAXFILE * BS → fbyte B' A o = written_byte off d (fbyte B A) o).
Proof.
  intros Hf Hm HB Hoff Hk Hom k Hak B'. assert (0 <= off / BS) as Hq by (apply Z.div_pos; lia).
  assert (k < 140)%nat as Hkn by lia.
  destruct (write_block s0 dstart Hlay B A k (splice (Z.to_nat (off mod BS)) d (B (addr_of B A k))) Hf Hm Hkn Hak)
    as (He & Hfb & Hu). fold B' in He, Hfb, Hu. split; [done|]. split; [done|].
  intros o Ho. unfold fbyte, written_byte. pose proof (Z.mod_pos_bound off BS ltac:(lia)).
  pose proof (Z.mod_pos_bound o BS ltac:(lia)). pose proof (Z.div_mod o BS ltac:(lia)) as Eo.
  pose proof (Z.div_mod off BS ltac:(lia)) as Eoff. unfold MAXFILE, NDIRECT, NINDIRECT in Ho.
  assert (0 <= o / BS < 140) as Hoq by (split; [apply Z.div_pos; lia|apply Z.div_lt_upper_bound; lia]).
  rewrite Hfb by lia. assert (fblock B A k = B (addr_of B A k)) as Efb
    by (unfold fblock; by destruct (Z.eqb_spec (addr_of B A k) 0)).
  case_decide as Ek.
  - assert (o / BS = off / BS) as Eq by lia. rewrite Ek, Efb.
    rewrite splice_lookup by (rewrite HB; unfold BSIZE; lia).
    destruct (decide (off <= o < off + Z.of_nat (length d))) as [Hin|Hout].
    + rewrite decide_True by lia. f_equal. lia.
    + rewrite decide_False by lia. done.
  - rewrite decide_False; [done|]. intros Hin. apply Ek. unfold k. f_equal.
    symmetry. apply (Z.div_unique_pos _ _ _ (off mod BS + (o - off))); lia.
Qed.

Lemma free_ge_same B B' n : (∀ x, 0 <= x < SZ → used s0 B' x = used s0 B x) → free_ge s0 B n → free_ge s0 B' n.
Proof. intros Hu (l & H1 & H2 & H3). exists l. split; [done|]. split; [done|]. intros b Hb. destruct (H3 b Hb). by rewrite Hu. Qed.

(** One turn of the loop. *)
Lemma write_step {R} B A ip r I s src off n tot m fr (K : M R) Q : in_tx s0 c B ∅ r I s → is_file I ip A →
  file_ok s0 dstart B A → map_ok s0 dstart B → free_ge s0 B (S (S fr)) → 6 <= r → source_ok src (Z.to_nat n) →
  0 <= off → off / BS < 140 → 0 <= m → off mod BS + m <= BS → 0 <= tot → tot + m <= n →
  let d := take (Z.to_nat m) (drop (Z.to_nat tot) (source src (Z.to_nat n))) in
  (∀ B' A' s', ext s0 dstart B A B' A' → free_ge s0 B' fr → addr_of B' A' (Z.to_nat (off / BS)) ≠ 0 →
     (∀ o, 0 <= o < MAXFILE * BS → fbyte B' A' o = written_byte off d (fbyte B A) o) →
     in_tx s0 c B' ∅ (r - 6) (alter (set_i_addrs A') ip I) s' → runs K s' Q) →
  runs (addr <- bmap ip (off / BS);;
    p <- geti ip;;
    i <- bread p.(i_dev) addr;;
    d <- match src with
         | inl a => get (fun s => get_bytes s.(mem) (u32 (a + tot)) (Z.to_nat m))
         | inr l => ret (take (Z.to_nat m) (drop (Z.to_nat tot) l))
         end;;
    modb i (fun b => set_b_data (splice (Z.to_nat (off mod BS)) d b.(b_data)) b);;
    log_write i;;
    brelse i;;
    K) s Q.
Proof.
  intros HT HI Hf Hmap Hfr Hr Hsrc Hoff Hk Hm Hom Ht Hn d HK.
  assert (length d = Z.to_nat m) as Hd.
  { unfold d. rewrite length_take, length_drop, length_source by done. lia. }
  assert (0 <= off / BS) as Hq by (apply Z.div_pos; lia). set (k := Z.to_nat (off / BS)) in *.
  replace (off / BS) with (Z.of_nat k) by lia.
  eapply runs_bind; [apply (bmap_t Hfuel s0 c dstart Hlay B r I s ip A k fr HT HI Hf Hmap Hfr); lia|].
  intros a s1 (B1 & A1 & G1 & Ea & Ha0 & Hfr1 & H1). set (I1 := alter (set_i_addrs A1) ip I) in *.
  pose proof (gw_file _ _ _ _ _ _ G1) as Hf1. pose proof (gw_map _ _ _ _ _ _ G1) as Hm1.
  pose proof (is_file_alter I ip A A1 HI) as HI1. fold I1 in HI1. destruct HI1 as (_ & Hd1 & _).
  apply (geti_t s0 c B1 ∅ (r - 5) I1 s1); [done|]. rewrite Hd1.
  rewrite <- Ea in Ha0 |- *. destruct (fk_data _ _ _ _ Hf1 k ltac:(lia) Ha0) as [[Hdr _] _].
  destruct (data_fs s0 dstart Hlay _ Hdr) as [Hbr Hbo].
  eapply runs_bind; [apply (bread_t Hfuel s0 c B1 ∅ (r - 5) I1 s1 _ H1 Hbr); [done|rewrite map_size_empty; lia]|].
  intros i s2 (_ & V2 & H2 & _). rewrite insert_empty in H2. set (a1 := addr_of B1 A1 k) in *.
  assert (∀ b, length (B1 b) = BSIZE) as HB1 by (intros x; by eapply in_tx_len).
  apply (source_chunk src n tot m s2); try done; [by eapply tst_memeq|]. fold d.
  eapply runs_bind; [apply (modb_t Hfuel s0 c B1 _ (r - 5) I1 s2 i a1 (splice (Z.to_nat (off mod BS)) d)
    (ex_intro _ V2 H2) ltac:(apply lookup_singleton_eq))|].
  { pose proof (Z.mod_pos_bound off BS ltac:(lia)). rewrite length_splice; [done|]. rewrite HB1, Hd. unfold BSIZE. lia. }
  intros [] s3 H3. eapply runs_bind; [apply (log_write_t Hfuel s0 c _ _ (r - 5) I1 s3 i a1 H3); [apply lookup_singleton_eq|done|lia]|].
  intros [] s4 (V4 & H4 & Hd4). eapply runs_bind.
  { apply (brelse_t Hfuel s0 c _ _ (r - 5 - 1) I1 V4 s4 i a1 H4); [apply lookup_singleton_eq|done|].
    intros j Hj. by rewrite lookup_singleton_ne. }
  intros [] s5 H5. rewrite delete_singleton_eq in H5. replace (r - 5 - 1) with (r - 6) in H5 by lia.
  destruct (write_chunk B1 A1 off d Hf1 Hm1 HB1 Hoff Hk ltac:(lia) Ha0) as (He & Hu & Hby). fold k a1 in He, Hu, Hby.
  pose proof (ex_addr _ _ _ _ _ _ He k ltac:(lia) Ha0) as Eak. fold a1 in Eak.
  eapply HK; [|by eapply free_ge_same|by rewrite Eak| |exact H5].
  - eapply ext_trans; [done|by apply grow_ext|exact He].
  - intros o Ho. rewrite Hby by done. unfold written_byte. case_decide; [done|]. unfold fbyte.
    rewrite (gw_blk _ _ _ _ _ _ G1); [done|]. unfold MAXFILE, NDIRECT, NINDIRECT in Ho.
    assert (o / BS < 140) by (apply Z.div_lt_upper_bound; lia). assert (0 <= o / BS) by (apply Z.div_pos; lia). lia.
Qed.

Lemma written_byte_app off d1 d2 f o :
  written_byte (off + Z.of_nat (length d1)) d2 (written_byte off d1 f) o = written_byte off (d1 ++ d2) f o.
Proof.
  unfold written_byte. rewrite length_app. repeat case_decide; try lia; try done.
  - rewrite lookup_total_app_r by lia. f_equal. lia.
  - by rewrite lookup_total_app_l by lia.
Qed.

Lemma written_byte_ext off d f g o : f o = g o → written_byte off d f o = written_byte off d g o.
Proof. intros E. unfold written_byte. by case_decide. Qed.

Lemma no_holes_step B A B' A' off m : ext s0 dstart B A B' A' → no_holes B A off → 0 <= off →
  off mod BS + m <= BS → addr_of B' A' (Z.to_nat (off / BS)) ≠ 0 → no_holes B' A' (off + m).
Proof.
  intros He Hnh Hoff Hm Ha k Hk Hlt. pose proof (Z.div_mod off BS ltac:(lia)) as E.
  pose proof (Z.mod_pos_bound off BS ltac:(lia)).
  destruct (decide (Z.of_nat k * BS < off)) as [Hk'|Hk'].
  - pose proof (Hnh k Hk Hk') as Hak. by rewrite (ex_addr _ _ _ _ _ _ He k Hk Hak).
  - by replace k with (Z.to_nat (off / BS)) by lia.
Qed.

Lemma writei_loop_t ip src n fr : ∀ fuel cnt B A r I s off tot, in_tx s0 c B ∅ r I s → is_file I ip A →
  file_ok s0 dstart B A → map_ok s0 dstart B → free_ge s0 B (2 * cnt + fr) → 6 * Z.of_nat cnt <= r →
  source_ok src (Z.to_nat n) → 0 <= off → 0 <= tot <= n → off + (n - tot) <= MAXFILE * BS → (cnt <= fuel)%nat →
  (tot < n → n - tot + off mod BS <= BS * Z.of_nat cnt) → no_holes B A off →
  runs (writei_loop fuel ip src off n tot) s (λ off' s', off' = off + (n - tot) ∧ ∃ B' A',
    ext s0 dstart B A B' A' ∧ free_ge s0 B' fr ∧ no_holes B' A' (off + (n - tot)) ∧
    (∀ o, 0 <= o < MAXFILE * BS →
       fbyte B' A' o = written_byte off (drop (Z.to_nat tot) (source src (Z.to_nat n))) (fbyte B A) o) ∧
    in_tx s0 c B' ∅ (r - 6 * Z.of_nat cnt) (alter (set_i_addrs A') ip I) s').
Proof.
  induction fuel as [|fuel IH]; intros cnt B A r I s off tot HT HI Hf Hmap Hfr Hr Hsrc Hoff Htot Hmax Hcnt Hrem Hnh;
    unfold writei_loop; fold writei_loop; pose proof (Z.mod_pos_bound off BS ltac:(lia)) as Hob;
    destruct (Z.leb_spec n tot) as [Hle|Hlt].
  1,3: apply runs_ret; split; [lia|]; exists B, A; split; [by apply ext_refl|]; split; [eapply free_ge_mono; [done|lia]|];
    split; [by replace (off + (n - tot)) with off by lia|]; split; [intros o Ho; unfold written_byte; rewrite length_drop, length_source by done; rewrite decide_False by lia; done|];
    rewrite (is_file_same I ip A HI); apply (in_tx_room Hfuel s0 c B ∅ r); [done|lia].
  { specialize (Hrem Hlt). lia. }
  specialize (Hrem Hlt). change (Z.of_nat BSIZE) with BS. set (m := Z.min (n - tot) (BS - off mod BS)).
  pose proof (Z.mul_div_le off BS ltac:(lia)) as Hqle. pose proof Hmax as Hmax'.
  unfold MAXFILE, NDIRECT, NINDIRECT in Hmax'. destruct cnt as [|cnt]; [lia|].
  apply (write_step B A ip r I s src off n tot m (2 * cnt + fr)); try done; try lia.
  { eapply free_ge_mono; [done|lia]. }
  set (D := source src (Z.to_nat n)). set (d := take (Z.to_nat m) (drop (Z.to_nat tot) D)).
  intros B1 A1 s1 He1 Hfr1 Hak Hb1 H1. set (I1 := alter (set_i_addrs A1) ip I) in *.
  assert (length D = Z.to_nat n) as HlD by by apply length_source.
  assert (Z.of_nat (length d) = m) as Hld by (unfold d; rewrite length_take, length_drop, HlD; lia).
  eapply runs_mono; [apply (IH cnt B1 A1 (r - 6) I1 s1 (off + m) (tot + m) H1)|]; try done; try lia.
  - by apply is_file_alter with A.
  - apply He1.
  - apply He1.
  - intros Hlt2. assert (m = BS - off mod BS) as Em by lia.
    replace ((off + m) mod BS) with 0; [lia|]. symmetry. rewrite Em.
    replace (off + (BS - off mod BS)) with ((off / BS + 1) * BS); [apply Z.mod_mul; lia|].
    pose proof (Z.div_mod off BS ltac:(lia)). lia.
  - apply (no_holes_step B A B1 A1 off m He1); (done || lia).
  - intros off' s2 (-> & B2 & A2 & He2 & Hfr2 & Hnh2 & Hb2 & H2). split; [lia|]. exists B2, A2.
    split; [by eapply ext_trans|]. split; [done|].
    split; [by replace (off + (n - tot)) with (off + m + (n - (tot + m))) by lia|]. split.
    + intros o Ho. rewrite Hb2 by done. fold D.
      assert (drop (Z.to_nat tot) D = d ++ drop (Z.to_nat (tot + m)) D) as Esp.
      { unfold d. rewrite Z2Nat.inj_add by lia. rewrite <- drop_drop. by rewrite take_drop. }
      rewrite Esp, <- written_byte_app, Hld. apply written_byte_ext. by apply Hb1.
    + unfold I1 in H2. rewrite alter_alter_addrs in H2. by replace (r - 6 * Z.of_nat (S cnt)) with (r - 6 - 6 * Z.of_nat cnt) by lia.
Qed.
End write.

(** ** Inodes on the disk *)

Lemma length_st16 o v d : length (st16 o v d) = length d.
Proof. unfold st16. by rewrite !length_insert. Qed.

Lemma length_dinode_store o p d : length (dinode_store o p d) = length d.
Proof. unfold dinode_store. by rewrite length_st_words, length_st32, !length_st16. Qed.

Lemma st32_outside o v d k : ¬ (o <= k < o + 4)%nat → st32 o v d !!! k = d !!! k.
Proof. intros H. unfold st32. by rewrite !list_lookup_total_insert_ne by lia. Qed.

Lemma st16_outside o v d k : ¬ (o <= k < o + 2)%nat → st16 o v d !!! k = d !!! k.
Proof. intros H. unfold st16. by rewrite !list_lookup_total_insert_ne by lia. Qed.

Lemma st_words_outside ws : ∀ o d k, ¬ (o <= k < o + 4 * length ws)%nat → st_words o ws d !!! k = d !!! k.
Proof.
  induction ws as [|w ws IH]; intros o d k H; [done|]. cbn [st_words length] in *.
  rewrite IH by lia. apply st32_outside. lia.
Qed.

(** Storing an inode changes its 64 bytes only. *)
Lemma dinode_store_outside o p d k : length p.(i_addrs) = (NDIRECT + 1)%nat →
  ¬ (o <= k < o + dinode_size)%nat → dinode_store o p d !!! k = d !!! k.
Proof.
  intros Hl H. unfold dinode_store, dinode_size in *.
  rewrite st_words_outside by (rewrite Hl; unfold NDIRECT; lia).
  by rewrite st32_outside, !st16_outside by lia.
Qed.

(** The fields of the on-disk inode fit. *)
Definition short (z : Z) : Prop := -32768 <= z < 32768.
Record dinode_ok (p : inode) : Prop := {
  do_type : short p.(i_type);
  do_major : short p.(i_major);
  do_minor : short p.(i_minor);
  do_nlink : short p.(i_nlink);
  do_size : word p.(i_size);
  do_len : length p.(i_addrs) = (NDIRECT + 1)%nat;
  do_addrs : Forall word p.(i_addrs)
}.

Lemma ld_st16_same o v d : (o + 1 < length d)%nat → ld16 (st16 o v d) o = v mod 65536.
Proof.
  intros H. unfold ld16, st16. rewrite list_lookup_total_insert_ne by lia.
  rewrite !list_lookup_total_insert_eq by (rewrite ?length_insert; lia).
  change 65536 with (256 * 256). rewrite Z.rem_mul_r by lia. lia.
Qed.

Lemma ld_st16_ne o o' v d : (o + 2 <= o' ∨ o' + 2 <= o)%nat → ld16 (st16 o v d) o' = ld16 d o'.
Proof. intros H. unfold ld16, st16. by rewrite !list_lookup_total_insert_ne by lia. Qed.

Lemma ld16_outside o d d' : d !!! o = d' !!! o → d !!! (o + 1)%nat = d' !!! (o + 1)%nat → ld16 d o = ld16 d' o.
Proof. unfold ld16. by intros -> ->. Qed.

Lemma s16_short z : short z → s16 (z mod 65536) = z.
Proof.
  unfold short, s16. intros H. rewrite Z.mod_mod by lia. destruct (decide (0 <= z)).
  - rewrite Z.mod_small by lia. by rewrite (proj2 (Z.ltb_lt _ _)) by lia.
  - assert (z mod 65536 = z + 65536) as -> by (symmetry; apply (Z.mod_unique_pos _ _ (-1)); lia).
    rewrite (proj2 (Z.ltb_ge _ _)) by lia. lia.
Qed.

(** What [iupdate] stores is what [ilock] loads. *)
Lemma dinode_round_trip o p q d : dinode_ok p → (o + dinode_size <= length d)%nat →
  let x := dinode_load o (dinode_store o p d) q in
  i_type x = i_type p ∧ i_major x = i_major p ∧ i_minor x = i_minor p ∧ i_nlink x = i_nlink p ∧
  i_size x = i_size p ∧ i_addrs x = i_addrs p ∧
  i_dev x = i_dev q ∧ i_inum x = i_inum q ∧ i_ref x = i_ref q ∧ i_lock x = i_lock q ∧ i_valid x = i_valid q.
Proof.
  intros [D1 D2 D3 D4 D5 D6 D7] Hl. unfold dinode_size in Hl. unfold dinode_load, dinode_store.
  cbn [i_type i_major i_minor i_nlink i_size i_addrs i_dev i_inum i_ref i_lock i_valid
    set_i_addrs set_i_size set_i_nlink set_i_minor set_i_major set_i_type].
  set (d1 := st16 o _ d). set (d2 := st16 (o + 2) _ d1). set (d3 := st16 (o + 4) _ d2). set (d4 := st16 (o + 6) _ d3).
  set (d5 := st32 (o + 8) _ d4).
  assert (∀ k, (k + 2 <= o + 12)%nat → ld16 (st_words (o + 12) (i_addrs p) d5) k = ld16 d5 k) as Hw.
  { intros k Hk. apply ld16_outside; apply st_words_outside; lia. }
  assert (∀ k, (k + 2 <= o + 8)%nat → ld16 d5 k = ld16 d4 k) as Hs.
  { intros k Hk. apply ld16_outside; apply st32_outside; lia. }
  assert (length d1 = length d ∧ length d2 = length d ∧ length d3 = length d ∧ length d4 = length d ∧ length d5 = length d)
    as (L1 & L2 & L3 & L4 & L5) by (unfold d5, d4, d3, d2, d1; by rewrite length_st32, !length_st16).
  rewrite !Hw, !Hs by lia. split; [|split; [|split; [|split; [|split; [|split; [|done]]]]]].
  - unfold d4, d3, d2. rewrite !ld_st16_ne by lia. unfold d1. rewrite ld_st16_same by lia. by apply s16_short.
  - unfold d4, d3. rewrite !ld_st16_ne by lia. unfold d2. rewrite ld_st16_same by lia. by apply s16_short.
  - unfold d4. rewrite !ld_st16_ne by lia. unfold d3. rewrite ld_st16_same by lia. by apply s16_short.
  - unfold d4. rewrite ld_st16_same by lia. by apply s16_short.
  - rewrite ld_st_words_below by lia. unfold d5. rewrite ld_st32_same by lia. by apply u32_id.
  - apply list_eq. intros k. rewrite list_lookup_fmap. destruct (decide (k < NDIRECT + 1)%nat) as [Hk|Hk].
    + rewrite lookup_seq_lt by done. destruct (lookup_lt_is_Some_2 (i_addrs p) k) as [w Hw']; [lia|].
      rewrite Hw'. change (0 + k)%nat with k. cbn [fmap option_fmap option_map]. f_equal. rewrite (ld_st_words (o + 12) (i_addrs p) d5 k w Hw') by (rewrite D6, L5; unfold NDIRECT; lia).
      apply u32_id. by apply (proj1 (Forall_lookup _ _) D7 k).
    + rewrite lookup_seq_ge by lia. simpl. symmetry. apply lookup_ge_None. lia.
Qed.

Section update.
Context {WF : WaitFuel} (Hfuel : wait_fuel ≠ 0%nat) (s0 : kstate) (c : nat) (dstart : Z) (Hlay : layout s0 dstart).
Notation SZ := (s0.(fs).(sb).(sb_size)).
Notation NI := (s0.(fs).(sb).(sb_ninodes)).

Definition store_inode (p : inode) (B : Z → list Z) : Z → list Z :=
  <[iblk s0 p.(i_inum) := dinode_store (dinode_off p.(i_inum)) p (B (iblk s0 p.(i_inum)))]> B.

Lemma iupdate_t B r I s ip : in_tx s0 c B ∅ r I s → let p := I !!! ip in
  i_dev p = 1 → 0 <= i_inum p < NI → 1 <= r →
  runs (iupdate ip) s (λ _ s', in_tx s0 c (store_inode p B) ∅ (r - 1) I s').
Proof.
  intros HT p Hd Hi Hr. unfold iupdate. apply (geti_t s0 c B ∅ r I s); [done|]. fold p.
  apply (get_sb_t s0 c B ∅ r I s); [done|]. destruct (iblk_fs s0 dstart Hlay _ Hi) as (Hfs & _ & -> & _). rewrite Hd.
  pose proof (bread_t Hfuel s0 c B ∅ r I s (iblk s0 (i_inum p)) HT) as Hb.
  eapply runs_bind; [apply Hb; [apply Hfs|done|rewrite map_size_empty; lia]|].
  intros i s1 (_ & V1 & H1 & _). rewrite insert_empty in H1.
  set (H := {[i := iblk s0 (i_inum p)]} : gmap nat Z) in *.
  assert (H !! i = Some (iblk s0 (i_inum p))) as HHi by apply lookup_singleton_eq.
  apply (geti_t s0 c B H r I s1); [by exists V1|]. fold p.
  eapply runs_bind; [apply (modb_t Hfuel s0 c B H r I s1 i _ (dinode_store (dinode_off (i_inum p)) p) (ex_intro _ V1 H1) HHi)|].
  { rewrite length_dinode_store. by eapply in_tx_len. }
  intros [] s2 H2. eapply runs_bind; [apply (log_write_t Hfuel s0 c _ H r I s2 i _ H2 HHi); [apply Hfs|done]|].
  intros [] s3 (V3 & H3 & Hd3).
  eapply runs_mono; [apply (brelse_t Hfuel s0 c _ H (r - 1) I V3 s3 i _ H3 HHi); [done|]|].
  - intros j Hj. unfold H. by rewrite lookup_singleton_ne.
  - intros [] s4 H4. unfold H in H4. by rewrite delete_singleton_eq in H4.
Qed.

(** Changes of blocks that are neither data nor map blocks are invisible to
    files. *)
Lemma meta_file B B' A : file_ok s0 dstart B A → (∀ b, dstart <= b → B' b = B b) →
  (∀ k, (k < 140)%nat → addr_of B' A k = addr_of B A k) ∧ (∀ k, (k < 140)%nat → fblock B' A k = fblock B A k).
Proof.
  intros Hf HB. assert (∀ k, (k < 140)%nat → addr_of B' A k = addr_of B A k) as Ea.
  { intros k Hk. unfold addr_of. destruct (k <? NDIRECT)%nat; [done|].
    destruct (Z.eqb_spec (A !!! NDIRECT) 0); [done|]. rewrite HB; [done|]. by apply Hf. }
  split; [done|]. intros k Hk. unfold fblock. rewrite Ea by done.
  destruct (Z.eqb_spec (addr_of B A k) 0) as [|Ha]; [done|]. apply HB. by apply (fk_data _ _ _ _ Hf k Hk Ha).
Qed.

Lemma store_inode_other p B b : 0 <= i_inum p < NI → (dstart <= b ∨ ∃ x, 0 <= x < SZ ∧ b = mapblk s0 x) →
  store_inode p B b = B b.
Proof.
  intros Hi Hb. destruct (iblk_fs s0 dstart Hlay _ Hi) as (_ & Hr & _ & Hm). unfold store_inode.
  apply fn_lookup_insert_ne. destruct Hb as [?|(x & Hx & ->)]; [lia|]. intros E. by apply (Hm x Hx).
Qed.

Lemma store_inode_used p B x : 0 <= i_inum p < NI → 0 <= x < SZ → used s0 (store_inode p B) x = used s0 B x.
Proof. intros Hi Hx. unfold used. rewrite store_inode_other; [done|done|]. right. by exists x. Qed.

Lemma store_inode_file p B A : 0 <= i_inum p < NI → file_ok s0 dstart B A → map_ok s0 dstart B →
  file_ok s0 dstart (store_inode p B) A ∧ map_ok s0 dstart (store_inode p B) ∧
  (∀ k, (k < 140)%nat → addr_of (store_inode p B) A k = addr_of B A k) ∧
  (∀ o, 0 <= o < MAXFILE * BS → fbyte (store_inode p B) A o = fbyte B A o).
Proof.
  intros Hi Hf Hm. pose proof (ly_size _ _ Hlay).
  destruct (meta_file B (store_inode p B) A Hf) as [Ea Efb]; [intros b Hb; apply store_inode_other; [done|by left]|].
  assert (∀ a, data s0 dstart B a → data s0 dstart (store_inode p B) a) as Hd.
  { intros a [Hr Hu]. split; [done|]. rewrite store_inode_used by (done || lia). done. }
  split; [|split; [|split; [done|]]].
  - destruct Hf as [F1 F2 F3 F4]. split; [done|intros H'; by apply Hd, F2| |].
    + intros k Hk Hak. rewrite Ea in Hak |- * by done. destruct (F3 k Hk Hak). split; [by apply Hd|done].
    + intros j k Hj Hk. rewrite !Ea by done. by apply F4.
  - intros b Hb Hu. rewrite store_inode_used in Hu by done. by apply Hm.
  - intros o Ho. unfold fbyte. rewrite Efb; [done|]. unfold MAXFILE, NDIRECT, NINDIRECT in Ho.
    assert (o / BS < 140) by (apply Z.div_lt_upper_bound; lia). assert (0 <= o / BS) by (apply Z.div_pos; lia). lia.
Qed.

(** The inode of another file on the disk. *)
Definition dinode_of (B : Z → list Z) (i : Z) : list Z :=
  take dinode_size (drop (dinode_off i) (B (iblk s0 i))).

Lemma dinode_other p B i : length (i_addrs p) = (NDIRECT + 1)%nat → 0 <= i_inum p < NI → 0 <= i < NI → i ≠ i_inum p →
  (∀ b, length (B b) = BSIZE) → dinode_of (store_inode p B) i = dinode_of B i.
Proof.
  intros Hl Hp Hi Hne HB. unfold dinode_of, store_inode.
  destruct (decide (iblk s0 i = iblk s0 (i_inum p))) as [E|E]; [|by rewrite fn_lookup_insert_ne].
  rewrite E, fn_lookup_insert. set (d := B _). unfold iblk in E.
  assert (i mod IPB ≠ i_inum p mod IPB) as Hmod.
  { intros Em. apply Hne. rewrite (Z.div_mod i IPB), (Z.div_mod (i_inum p) IPB) by done. lia. }
  pose proof (Z.mod_pos_bound i IPB ltac:(done)). pose proof (Z.mod_pos_bound (i_inum p) IPB ltac:(done)).
  assert (length d = BSIZE) as Hd by apply HB. unfold IPB, BSIZE in *.
  apply list_eq. intros k. destruct (decide (k < dinode_size)%nat) as [Hk|Hk].
  - rewrite !lookup_take_lt, !lookup_drop by done. unfold dinode_off, dinode_size, IPB in *.
    rewrite !list_lookup_lookup_total_lt by (rewrite ?length_dinode_store; lia). f_equal.
    apply dinode_store_outside; [done|]. unfold dinode_size. lia.
  - rewrite !lookup_ge_None_2; [done| |]; rewrite length_take; lia.
Qed.

(** The file with inode [p] after [d] has been written at [off]. *)
Record file_written (B : Z → list Z) (A : list Z) (p : inode) (off : Z) (d : list Z)
    (B' : Z → list Z) (A' : list Z) : Prop := {
  fw_file : file_ok s0 dstart B' A';
  fw_map : map_ok s0 dstart B';
  fw_bytes : ∀ o, 0 <= o < MAXFILE * BS → fbyte B' A' o = written_byte off d (fbyte B A) o;
  fw_holes : no_holes B' A' (Z.max p.(i_size) (off + Z.of_nat (length d)));
  fw_others : ∀ b, dstart <= b < SZ → used s0 B b = true → A !!! NDIRECT ≠ b →
    (∀ k, (k < 140)%nat → addr_of B A k ≠ b) → B' b = B b ∧ used s0 B' b = true;
  fw_inodes : ∀ i, 0 <= i < NI → i ≠ p.(i_inum) → dinode_of B' i = dinode_of B i
}.

Lemma ext_written B A p off d B' A' : ext s0 dstart B A B' A' →
  (∀ o, 0 <= o < MAXFILE * BS → fbyte B' A' o = written_byte off d (fbyte B A) o) →
  no_holes B A p.(i_size) → no_holes B' A' (off + Z.of_nat (length d)) → file_written B A p off d B' A'.
Proof.
  intros He Hb Hh Hh'. pose proof (ly_size _ _ Hlay). split; [apply He|apply He|done| | |].
  - intros k Hk Hlt. destruct (decide (Z.of_nat k * BS < i_size p)) as [Hs|Hs]; [|apply Hh'; [done|lia]].
    pose proof (Hh k Hk Hs) as Ha. by rewrite (ex_addr _ _ _ _ _ _ He k Hk Ha).
  - intros b Hb' Hu Hi Hk. split; [by apply He|]. apply He; [lia|done].
  - intros i Hi Hne. unfold dinode_of. by rewrite (ex_inodes _ _ _ _ _ _ He).
Qed.

Lemma written_store B A p off d B' A' q : 0 <= i_inum q < NI → i_inum q = i_inum p →
  length (i_addrs q) = (NDIRECT + 1)%nat → (∀ b, length (B' b) = BSIZE) →
  file_written B A p off d B' A' → file_written B A p off d (store_inode q B') A'.
Proof.
  intros Hq Eq Hl HB [W1 W2 W3 W4 W5 W6]. pose proof (ly_size _ _ Hlay).
  destruct (store_inode_file q B' A' Hq W1 W2) as (F1 & F2 & F3 & F4). split; try done.
  - intros o Ho. rewrite F4 by done. by apply W3.
  - intros k Hk Hlt. rewrite F3 by done. by apply W4.
  - intros b Hb Hu Hi Hk. destruct (W5 b Hb Hu Hi Hk).
    rewrite store_inode_used by (done || lia). by rewrite store_inode_other by (done || (left; lia)).
  - intros i Hi Hne. rewrite <- W6 by done. apply dinode_other; congruence || done.
Qed.

(** The end of [writei]: a larger size goes to the inode and to the disk. *)
Lemma writei_tail B A r I s ip off D B1 A1 n : let p := I !!! ip in let sz := i_size p in
  in_tx s0 c B1 ∅ r (alter (set_i_addrs A1) ip I) s → (ip < length I)%nat → i_dev p = 1 → 0 <= i_inum p < NI →
  1 <= r → 0 <= off <= sz → 0 <= n < two31 → file_written B A p off D B1 A1 →
  runs (p <- geti ip;;
    when ((0 <? n) && (p.(i_size) <? off + n)) (modi ip (set_i_size (off + n));; iupdate ip);;
    ret (s32 n)) s (λ v s', v = n ∧ ∃ B' A', file_written B A p off D B' A' ∧
      in_tx s0 c B' ∅ (r - 1) (alter (fun p => set_i_size (Z.max sz (off + n)) (set_i_addrs A' p)) ip I) s').
Proof.
  intros p sz HT Hl Hd Hi Hr Hoff Hn Hfw. set (I1 := alter (set_i_addrs A1) ip I) in *.
  assert (I1 !!! ip = set_i_addrs A1 p) as Ep by (apply list_lookup_total_alter_eq; done).
  apply (geti_t s0 c B1 ∅ r I1 s); [done|]. rewrite Ep. cbn [i_size set_i_addrs]. fold sz.
  assert (∀ b, length (B1 b) = BSIZE) as HB1 by (intros x; by eapply in_tx_len).
  assert (s32 n = n) as En by (apply s32_id; unfold two31 in *; lia). rewrite En.
  destruct (Z.ltb_spec sz (off + n)) as [Hg|Hg].
  - rewrite (proj2 (Z.ltb_lt 0 n)) by lia. cbn [andb when].
    set (I2 := alter (set_i_size (off + n)) ip I1). set (q := set_i_size (off + n) (set_i_addrs A1 p)).
    assert (I2 !!! ip = q) as Eq.
    { unfold I2. rewrite list_lookup_total_alter_eq by (unfold I1; by rewrite length_alter). by rewrite Ep. }
    eapply runs_bind.
    { apply (modi_t s0 c B1 ∅ r I1 s ip _ _ (λ _ s', in_tx s0 c (store_inode q B1) ∅ (r - 1) I2 s') HT). fold I2. intros s2 H2.
      rewrite <- Eq. apply iupdate_t; [done|by rewrite Eq|by rewrite Eq|done]. }
    intros [] s2 H2. apply runs_ret. split; [done|]. exists (store_inode q B1), A1. split.
    + apply written_store; [done|done|apply (fk_len _ _ _ _ (fw_file _ _ _ _ _ _ _ Hfw))|done|done].
    + replace (Z.max sz (off + n)) with (off + n) by lia. unfold I2, I1 in H2. by rewrite list_alter_alter_eq in H2.
  - rewrite andb_false_r. cbn [when]. unfold runs. rewrite bind_ret_l. split; [done|]. exists B1, A1. split; [done|].
    replace (Z.max sz (off + n)) with sz by lia.
    replace (alter (fun p => set_i_size sz (set_i_addrs A1 p)) ip I) with I1; [by apply (in_tx_room Hfuel s0 c B1 ∅ r); [|lia]|].
    apply list_eq. intros j. unfold I1. destruct (decide (j = ip)) as [->|Hj].
    + rewrite !list_lookup_alter_eq. rewrite (list_lookup_lookup_total_lt I ip) by done. done.
    + by rewrite !list_lookup_alter_ne.
Qed.

Lemma writei_gen_t {DS : DevSw} B A r I s ip src off n cnt : in_tx s0 c B ∅ r I s → is_file I ip A →
  file_ok s0 dstart B A → map_ok s0 dstart B → let p := I !!! ip in let sz := i_size p in
  i_type p ≠ T_DEV → 0 <= i_inum p < NI → 0 <= sz <= MAXFILE * BS → no_holes B A sz → word off → word n →
  source_ok src (Z.to_nat n) → free_ge s0 B (2 * cnt) → 6 * Z.of_nat cnt + 1 <= r →
  n + off mod BS <= BS * Z.of_nat cnt → (cnt <= io_fuel n)%nat →
  runs (writei_gen ip src off n) s (λ v s',
    if (sz <? off) || (MAXFILE * BS <? off + n) then v = -1 ∧ in_tx s0 c B ∅ r I s'
    else v = n ∧ ∃ B' A', file_written B A p off (source s0 src (Z.to_nat n)) B' A' ∧
      in_tx s0 c B' ∅ (r - 6 * Z.of_nat cnt - 1)
        (alter (fun p => set_i_size (Z.max sz (off + n)) (set_i_addrs A' p)) ip I) s').
Proof.
  intros HT HI Hf Hmap p sz Hty Hinum Hsz Hnh Hoff Hn Hsrc Hfr Hr Hcnt Hfl. pose proof HI as (Hl & Hd & Ha).
  unfold writei_gen. apply (geti_t s0 c B ∅ r I s); [done|]. fold p. destruct (Z.eqb_spec (i_type p) T_DEV); [done|]. fold sz.
  unfold word in Hoff, Hn. change (Z.of_nat BSIZE) with BS. unfold MAXFILE, NDIRECT, NINDIRECT in Hsz |- *.
  change ((Z.of_nat 12 + 128) * BS) with 71680 in *.
  destruct (Z.ltb_spec sz off) as [Hlt|Hge]; [by apply runs_ret|]. cbn [orb].
  destruct (Z.ltb_spec 71680 (off + n)) as [Hbig|Hfit].
  { destruct (Z.ltb_spec (u32 (off + n)) off) as [Hov|Hov]; [by apply runs_ret|]. cbn [orb].
    assert (off + n < two32) as Hw.
    { destruct (Z_lt_ge_dec (off + n) two32) as [|Hge2]; [done|]. exfalso. unfold u32 in Hov.
      rewrite <- (Z.mod_unique_pos (off + n) two32 1 (off + n - two32)) in Hov; unfold two32 in *; lia. }
    rewrite u32_id by (unfold word; lia). rewrite (proj2 (Z.ltb_lt _ _) Hbig). by apply runs_ret. }
  rewrite u32_id by (unfold word, two32; lia). rewrite (proj2 (Z.ltb_ge (off + n) off)) by lia. cbn [orb].
  rewrite (proj2 (Z.ltb_ge 71680 (off + n))) by lia.
  eapply runs_bind.
  { apply (writei_loop_t Hfuel s0 c dstart Hlay ip src n 0 (io_fuel n) cnt B A r I s off 0); try done; try lia.
    - by rewrite Nat.add_0_r.
    - unfold MAXFILE, NDIRECT, NINDIRECT. lia.
    - intros k Hk Hlt. apply Hnh; [done|lia]. }
  intros off' s1 (-> & B1 & A1 & He1 & _ & Hh1 & Hb1 & H1). rewrite Z.sub_0_r in *. change (drop (Z.to_nat 0) ?l) with l in Hb1.
  set (D := source s0 src (Z.to_nat n)) in *.
  assert (Z.of_nat (length D) = n) as HlD by (unfold D; rewrite length_source by done; lia).
  assert (file_written B A p off D B1 A1) as Hfw by (apply ext_written; [done|done|done|by rewrite HlD]).
  apply (writei_tail B A (r - 6 * Z.of_nat cnt) I s1 ip off D B1 A1 n); try done; [lia|fold p sz; lia|unfold two31; lia].
Qed.
End update.
