(* ===== verification/Transact.v ===== *)
(** * Transactions on files

    Whole file system operations: [begin_op], [writei] and [end_op] composed
    (file.c [filewrite], fs.c, log.c, bio.c).  A write inside a transaction is
    read back by [readi], and the transaction is atomic with respect to
    crashes down to the disk. *)

From stdpp Require Import base numbers option list sets strings gmap fin_maps functions.
From Stdlib Require Import ZArith Lia.
From S2P Require Import Prelude Kstring State Locks Console Kalloc Proc Sleeplock Bio Log Fs Rdwr.

(** ** Bytes in memory *)

Lemma load_put_bytes d : ∀ m a k, (k < length d)%nat → Z.of_nat (length d) <= two32 →
  load8 (put_bytes m (u32 a) d) (a + Z.of_nat k) = (d !!! k) mod 256.
Proof.
  assert (∀ d m a x, (∀ j, (j < length d)%nat → u32 (a + Z.of_nat j) ≠ x) → put_bytes m (u32 a) d x = m x) as Hout.
  { induction d0 as [|b d0 IH]; intros m a x Hx; [done|]. simpl. rewrite u32_add_l, IH.
    - unfold store8. rewrite u32_idem. destruct (Z.eqb_spec x (u32 a)) as [->|]; [|done].
      specialize (Hx 0%nat ltac:(simpl; lia)). by rewrite Z.add_0_r in Hx.
    - intros j Hj. specialize (Hx (S j) ltac:(simpl; lia)). by replace (a + 1 + Z.of_nat j) with (a + Z.of_nat (S j)) by lia. }
  induction d as [|b d IH]; intros m a k Hk Hl; simpl in *; [lia|]. rewrite u32_add_l.
  destruct k as [|k].
  - rewrite Z.add_0_r. unfold load8. rewrite Hout; [unfold store8; by rewrite u32_idem, Z.eqb_refl|].
    intros j Hj E. unfold u32 in E. rewrite <- Z.add_assoc in E.
    assert ((1 + Z.of_nat j) mod two32 = 0) as E0.
    { replace (1 + Z.of_nat j) with (a + (1 + Z.of_nat j) - a) by lia. rewrite Zminus_mod, E, Z.sub_diag. done. }
    rewrite Z.mod_small in E0; lia.
  - simpl. replace (a + Z.of_nat (S k)) with (a + 1 + Z.of_nat k) by lia. apply IH; lia.
Qed.

Lemma get_put_bytes m a d : Z.of_nat (length d) <= two32 → Forall (λ x, 0 <= x < 256) d →
  get_bytes (put_bytes m (u32 a) d) (u32 a) (length d) = d.
Proof.
  intros Hl Hd. apply list_eq. intros k. destruct (decide (k < length d)%nat) as [Hk|Hk].
  - unfold get_bytes. rewrite list_lookup_fmap, lookup_seq_lt by done. simpl.
    rewrite (list_lookup_lookup_total_lt d k) by done. f_equal.
    replace (load8 _ (u32 a + Z.of_nat k)) with (load8 (put_bytes m (u32 a) d) (a + Z.of_nat k))
      by (unfold load8; by rewrite u32_add_l).
    rewrite load_put_bytes by done. apply Z.mod_small. rewrite Forall_lookup in Hd. apply (Hd k).
    by apply list_lookup_lookup_total_lt.
  - rewrite !lookup_ge_None_2; [done| |]; rewrite ?length_get_bytes; lia.
Qed.

(** ** The geometry of the disk does not change

    What is said of files refers to the state only through the super block. *)
Section geometry.
Context (s s' : kstate) (dstart : Z) (Esb : s'.(fs).(sb) = s.(fs).(sb)).

Lemma layout_sb : s'.(fs).(disksize) = s.(fs).(disksize) → s'.(fs).(log).(l_start) = s.(fs).(log).(l_start) →
  s'.(fs).(log).(l_size) = s.(fs).(log).(l_size) → layout s dstart → layout s' dstart.
Proof. intros E1 E2 E3 [L1 L2 L3 L4 L5 L6]. split; rewrite ?Esb, ?E1, ?E2, ?E3; done. Qed.

Lemma used_sb B b : used s' B b = used s B b.
Proof. unfold used, mapblk. by rewrite Esb. Qed.

Lemma map_ok_sb B : map_ok s dstart B → map_ok s' dstart B.
Proof. intros H b. rewrite Esb, used_sb. apply H. Qed.

Lemma free_ge_sb B n : free_ge s B n → free_ge s' B n.
Proof.
  intros (l & H1 & H2 & H3). exists l. split; [done|]. split; [done|]. intros b Hb. rewrite Esb, used_sb. by apply H3.
Qed.

Lemma data_sb B a : data s dstart B a → data s' dstart B a.
Proof. unfold data. by rewrite Esb, used_sb. Qed.

Lemma file_ok_sb B A : file_ok s dstart B A → file_ok s' dstart B A.
Proof.
  intros [F1 F2 F3 F4]. split; [done|intros H; by apply data_sb, F2| |done].
  intros k Hk Ha. destruct (F3 k Hk Ha). split; [by apply data_sb|done].
Qed.

Lemma file_written_sb B A p off d B' A' : file_written s dstart B A p off d B' A' → file_written s' dstart B A p off d B' A'.
Proof.
  intros [W1 W2 W3 W4 W5 W6]. split; [by apply file_ok_sb|by apply map_ok_sb|done|done| |].
  - intros b. rewrite Esb, !used_sb. apply W5.
  - intros i. rewrite Esb. unfold dinode_of, iblk. rewrite Esb. apply W6.
Qed.
End geometry.

(** ** A well-formed file

    The inode entry [ip] of [I] is a file of the file system with blocks [B]. *)
Record file_at (s0 : kstate) (dstart : Z) (B : Z → list Z) (I : list inode) (ip : nat) (A : list Z) : Prop := {
  fa_inode : is_file I ip A;
  fa_file : file_ok s0 dstart B A;
  fa_map : map_ok s0 dstart B;
  fa_type : i_type (I !!! ip) ≠ T_DEV;
  fa_inum : 0 <= i_inum (I !!! ip) < s0.(fs).(sb).(sb_ninodes);
  fa_size : 0 <= i_size (I !!! ip) <= MAXFILE * Z.of_nat BSIZE;
  fa_holes : no_holes B A (i_size (I !!! ip))
}.

Lemma file_at_sb s s' dstart B I ip A : s'.(fs).(sb) = s.(fs).(sb) → file_at s dstart B I ip A → file_at s' dstart B I ip A.
Proof.
  intros E [F1 F2 F3 F4 F5 F6 F7]. split; try done; [by eapply file_ok_sb|by eapply map_ok_sb|by rewrite E].
Qed.

(** The inode entry after a write that ends at [last]. *)
Definition wrote (A : list Z) (last : Z) (p : inode) : inode := set_i_size (Z.max p.(i_size) last) (set_i_addrs A p).

Lemma file_at_written s0 dstart B I ip A off d B' A' : file_at s0 dstart B I ip A →
  0 <= off → off + Z.of_nat (length d) <= MAXFILE * Z.of_nat BSIZE →
  file_written s0 dstart B A (I !!! ip) off d B' A' →
  file_at s0 dstart B' (alter (wrote A' (off + Z.of_nat (length d))) ip I) ip A'.
Proof.
  intros [(Hl & Hd & Ha) F2 F3 F4 F5 F6 F7] Ho Hm [W1 W2 W3 W4 W5 W6].
  assert (alter (wrote A' (off + Z.of_nat (length d))) ip I !!! ip = wrote A' (off + Z.of_nat (length d)) (I !!! ip)) as E
    by by apply list_lookup_total_alter_eq.
  split; rewrite ?E; try done; [|simpl; lia]. split; [by rewrite length_alter|]. by rewrite E.
Qed.

(** The blocks a transfer of [n] bytes at [off] touches. *)
Definition nblocks (off n : Z) : nat := Z.to_nat ((n + off mod Z.of_nat BSIZE + 511) / Z.of_nat BSIZE).

Lemma nblocks_spec off n : 0 <= off → 0 <= n →
  n + off mod Z.of_nat BSIZE <= Z.of_nat BSIZE * Z.of_nat (nblocks off n) ∧ (nblocks off n <= io_fuel n)%nat.
Proof.
  intros Ho Hn. unfold nblocks, io_fuel. change (Z.of_nat BSIZE) with 512.
  pose proof (Z.mod_pos_bound off 512 ltac:(done)). set (k := n + off mod 512 + 511).
  pose proof (Z.div_mod k 512 ltac:(done)). pose proof (Z.mod_pos_bound k 512 ltac:(done)).
  pose proof (Z.div_mod n 512 ltac:(done)). pose proof (Z.mod_pos_bound n 512 ltac:(done)).
  assert (0 <= k / 512) by (apply Z.div_pos; lia). assert (0 <= n / 512) by (apply Z.div_pos; lia).
  split; [rewrite Z2Nat.id by done; lia|]. apply Z2Nat.inj_le; lia.
Qed.

Lemma written_slice s0 dstart B A p off d B' A' : file_written s0 dstart B A p off d B' A' →
  0 <= off → off + Z.of_nat (length d) <= MAXFILE * Z.of_nat BSIZE →
  fslice B' A' off (Z.of_nat (length d)) = d.
Proof.
  intros Hw Ho Hm. apply list_eq. intros k. unfold fslice. rewrite Nat2Z.id.
  destruct (decide (k < length d)%nat) as [Hk|Hk].
  - rewrite list_lookup_fmap, lookup_seq_lt by done. simpl.
    rewrite (fw_bytes _ _ _ _ _ _ _ _ _ Hw) by (change (Z.of_nat BSIZE) with 512 in *; lia). unfold written_byte.
    rewrite decide_True by lia. rewrite (list_lookup_lookup_total_lt d k) by done. do 2 f_equal. lia.
  - rewrite !lookup_ge_None_2; [done| |]; rewrite ?length_fmap, ?length_seq; lia.
Qed.

Section transact.
Context {WF : WaitFuel} (Hfuel : wait_fuel ≠ 0%nat).

(** ** The idle file system

    No operation is outstanding: the cache agrees with the disk, no buffer is
    locked, the log is empty and the super block locates it. *)
Record idle (c : nat) (s : kstate) : Prop := {
  id_bio : bio_st c (mkcv s.(fs).(disk) s.(fs).(disk) s.(fs).(writes) ∅ ∅) s;
  id_wf : log_wf s.(fs).(disksize) s.(fs).(log);
  id_n : s.(fs).(log).(lh_n) = 0;
  id_out : s.(fs).(log).(l_outstanding) = 0;
  id_comm : s.(fs).(log).(l_committing) = 0;
  id_size : s.(fs).(log).(l_size) <= Z.of_nat LOGSIZE;
  id_head : head_n (s.(fs).(disk) s.(fs).(log).(l_start)) = 0;
  id_super : let sb := sb_of (s.(fs).(disk) 1) in
    s32 sb.(sb_logstart) = s.(fs).(log).(l_start) ∧ s32 sb.(sb_nlog) = s.(fs).(log).(l_size);
  id_one : 1 < s.(fs).(log).(l_start)
}.

(** The state [begin_op] leads to, up to what the cache does. *)
Definition begun (s : kstate) : kstate :=
  set_fs (set_log (set_l_outstanding 1 s.(fs).(log)) s.(fs)) s.

Lemma begin_tx c s : idle c s →
  runs begin_op s (λ _ s', in_tx (begun s) c s.(fs).(disk) ∅ (s.(fs).(log).(l_size) - 1) s.(fs).(icache) s').
Proof.
  intros [HV Hwf Hn Ho Hc Hsz Hhd Hsb H1]. set (V := mkcv _ _ _ _ _) in HV.
  eapply runs_mono; [apply (begin_op_l Hfuel s c V s.(fs).(log) s (lst_refl c V s HV) Hc)|].
  { rewrite Hn, Ho. done. }
  intros [] s' [[Fo Fs Fi Fd] HV' El]. exists V. rewrite Ho in El. change (0 + 1) with 1 in El.
  assert (logged s.(fs).(log) = []) as Elog by (unfold logged; by rewrite Hn).
  split; rewrite ?El; try done.
  - destruct Fo as [E1 E2 E3]. split; [by rewrite E1; destruct s|done|done].
  - by destruct Hwf.
  - pose proof (lw_n_size _ _ Hwf). simpl. rewrite Hn in *. lia.
  - simpl. change (logged (set_l_outstanding 1 (log (fs s)))) with (logged s.(fs).(log)). by rewrite Elog.
  - change (logged (set_l_outstanding 1 (log (fs s)))) with (logged s.(fs).(log)). rewrite Elog. set_solver.
Qed.

(** ** Writing and reading in a transaction *)

Lemma writei_t {DS : DevSw} s0 c dstart B r I s ip A src off n : layout s0 dstart → in_tx s0 c B ∅ r I s →
  file_at s0 dstart B I ip A → let sz := i_size (I !!! ip) in let k := nblocks off n in
  word off → word n → free_ge s0 B (2 * k) → 6 * Z.of_nat k + 1 <= r →
  runs (writei (Some ip) src off n) s (λ v s',
    if (sz <? off) || (MAXFILE * Z.of_nat BSIZE <? off + n) then v = -1 ∧ in_tx s0 c B ∅ r I s'
    else v = n ∧ ∃ B' A', file_written s0 dstart B A (I !!! ip) off (get_bytes s0.(mem) (u32 src) (Z.to_nat n)) B' A' ∧
      in_tx s0 c B' ∅ (r - 6 * Z.of_nat k - 1) (alter (wrote A' (off + n)) ip I) s').
Proof.
  intros Hlay HT [HI Hf Hm Hty Hin Hsz Hh] sz k Ho Hn Hfr Hr. unfold writei, with_proc. rewrite !u32_id by done.
  destruct (nblocks_spec off n) as [Hb Hfl]; [apply Ho|apply Hn|].
  eapply runs_mono; [apply (writei_gen_t Hfuel s0 c dstart Hlay B A r I s ip (inl src) off n k); done|].
  fold sz. intros v s' H'. simpl in H'. change (Z.of_nat BSIZE) with 512 in *.
  destruct ((sz <? off) || _); [done|]. destruct H' as (-> & B' & A' & Hw & H'). split; [done|]. exists B', A'.
  split; [done|]. replace (alter (wrote A' (off + n)) ip I) with (alter (fun p => set_i_size (Z.max sz (off + n)) (set_i_addrs A' p)) ip I); [done|].
  apply list_eq. intros j. destruct (decide (j = ip)) as [->|Hj]; [|by rewrite !list_lookup_alter_ne].
  rewrite !list_lookup_alter_eq. destruct (I !! ip) as [p|] eqn:E; [|done]. simpl. unfold sz.
  by rewrite (list_lookup_total_correct _ _ _ E).
Qed.

Lemma readi_t {DS : DevSw} s0 c dstart B r I s ip A dst off n : layout s0 dstart → in_tx s0 c B ∅ r I s →
  file_at s0 dstart B I ip A → word off → word n → let sz := i_size (I !!! ip) in
  runs (readi (Some ip) dst off n) s (λ v s',
    if (sz <? off) || (two32 <=? off + n) then v = -1 ∧ in_tx s0 c B ∅ r I s'
    else let m := Z.min n (sz - off) in v = m ∧ in_tx (sink (Some dst) 0 (fslice B A off m) s0) c B ∅ r I s').
Proof.
  intros Hlay HT [HI Hf Hm Hty Hin Hsz Hh] Ho Hn sz. unfold readi, with_proc. rewrite !u32_id by done.
  eapply runs_bind; [apply (readi_gen_t Hfuel c dstart s0 B A ip (Some dst) r I s off n); done|].
  fold sz. cbv zeta. intros v s' H'. apply runs_ret. destruct ((sz <? off) || _); destruct H' as [-> H']; done.
Qed.

(** C21: What [writei] writes, [readi] reads.  Inside a transaction with
    enough free blocks and room in the log, writing [n] bytes of memory to a
    well-formed file at an offset within it returns [n]; reading them back
    returns [n] and stores the same bytes.  The file holds the old bytes
    outside of the range written, no block of another file and no other inode
    has changed, and the file is well formed with the size the write implies. *)
Theorem writei_readi {DS : DevSw} s0 c dstart B r I s ip A src dst off n :
  layout s0 dstart → in_tx s0 c B ∅ r I s → file_at s0 dstart B I ip A → byte_mem s0.(mem) →
  0 <= off <= i_size (I !!! ip) → 0 <= n → off + n <= MAXFILE * Z.of_nat BSIZE →
  free_ge s0 B (2 * nblocks off n) → 6 * Z.of_nat (nblocks off n) + 1 <= r →
  let d := get_bytes s0.(mem) (u32 src) (Z.to_nat n) in
  runs (v <- writei (Some ip) src off n;; w <- readi (Some ip) dst off n;; ret (v, w)) s (λ vw s', vw = (n, n) ∧
    get_bytes s'.(mem) (u32 dst) (Z.to_nat n) = d ∧
    ∃ B' A' I', file_written s0 dstart B A (I !!! ip) off d B' A' ∧ file_at s0 dstart B' I' ip A' ∧
      I' = alter (wrote A' (off + n)) ip I ∧
      in_tx (sink (Some dst) 0 d s0) c B' ∅ (r - 6 * Z.of_nat (nblocks off n) - 1) I' s').
Proof.
  intros Hlay HT Hfa Hmem Hoff Hn Hmax Hfr Hr d. set (k := nblocks off n) in *.
  assert (MAXFILE * Z.of_nat BSIZE = 71680) as EM by reflexivity.
  assert (word off ∧ word n) as [Ho' Hn'] by (unfold word, two32; lia).
  assert (Z.of_nat (length d) = n) as Hd by (unfold d; rewrite length_get_bytes; lia).
  eapply runs_bind; [by apply (writei_t s0 c dstart B r I s ip A src off n)|].
  intros v s1 H1. cbv zeta in H1. rewrite (proj2 (Z.ltb_ge _ _)), (proj2 (Z.ltb_ge _ _)) in H1 by lia. simpl in H1.
  destruct H1 as (-> & B' & A' & Hw & H1). fold d in Hw. set (I' := alter _ ip I) in H1.
  assert (file_at s0 dstart B' I' ip A') as Hfa'.
  { assert (off + n = off + Z.of_nat (length d)) as En by lia. unfold I'. rewrite En.
    eapply file_at_written; [done|lia|lia|done]. }
  eapply runs_bind; [apply (readi_t s0 c dstart B' _ I' s1 ip A' dst off n Hlay H1 Hfa' Ho' Hn')|].
  intros w s2 H2. apply runs_ret. cbv zeta in H2.
  pose proof (fa_inode _ _ _ _ _ _ Hfa) as (Hl & _).
  assert (i_size (I' !!! ip) = Z.max (i_size (I !!! ip)) (off + n)) as Esz
    by (unfold I'; by rewrite list_lookup_total_alter_eq).
  rewrite Esz in H2. rewrite (proj2 (Z.ltb_ge _ _)), (proj2 (Z.leb_gt _ _)) in H2 by (unfold two32; lia). cbn [orb] in H2.
  rewrite Z.min_l in H2 by lia. rewrite <- Hd in H2 at 2. rewrite (written_slice _ _ _ _ _ _ _ _ _ Hw) in H2 by lia.
  destruct H2 as [-> H2]. split; [done|]. split; [|by exists B', A', I'].
  destruct H2 as [V2 H2]. rewrite (tst_memeq _ _ _ _ _ _ _ _ H2). simpl. rewrite Z.add_0_r.
  replace (Z.to_nat n) with (length d) by lia. apply get_put_bytes; [unfold two32; lia|].
  apply list.Forall_forall. intros x Hx. unfold d, get_bytes in Hx. apply list_elem_of_fmap in Hx as (j & -> & _). apply Hmem.
Qed.

(** ** The end of the transaction *)

Lemma tx_end_tst c s B r I V s1 : idle c s → tst (begun s) c B ∅ r I V s1 → tx_end c V s1.
Proof.
  intros [HV Hwf Hn Ho Hc Hsz Hhd Hsb H1] [T1 T2 T3 T4 T5 T6 T7 T8 T9 [T10 _] T11 T12 T13 T14 T15 T16 T17 T18 T19].
  cbn [fs begun set_fs log set_log l_start l_size l_outstanding set_l_outstanding l_committing disksize disk] in *.
  pose proof (lw_n_size _ _ Hwf). pose proof (lw_n _ _ Hwf). pose proof (lw_area _ _ Hwf).
  split; try done; try congruence.
  - intros b Hb. apply T16; [|done]. rewrite T15. set_solver.
  - by rewrite T17, T7, T8.
  - rewrite T4. unfold outside. rewrite T7, T8. split; [lia|]. split; [lia|].
    intros Hl. apply T19 in Hl. unfold behind in Hl. simpl in Hl. lia.
Qed.

(** What a crash of the machine leaves of an operation: the disk of the next
    boot holds, outside of the log, the blocks [B] or the blocks [B']. *)
Definition all_or_nothing (s : kstate) (ws : list (Z * list Z)) (B B' : Z → list Z) : Prop :=
  ∀ k cb sb, booted (apply_writes (take k ws) s.(fs).(disk)) s cb sb →
    runs (binit;; initlog 1) sb (λ _ sb',
      (∀ b, outside s.(fs).(log) b → sb'.(fs).(disk) b = B b) ∨
      (∀ b, outside s.(fs).(log) b → sb'.(fs).(disk) b = B' b)).

Lemma end_tx c s B r I s1 : idle c s → in_tx (begun s) c B ∅ r I s1 →
  runs end_op s1 (λ _ s', ∃ ws, s'.(fs).(writes) = s.(fs).(writes) ++ ws ∧ s'.(fs).(icache) = I ∧
    (∀ b, outside s.(fs).(log) b → s'.(fs).(disk) b = B b) ∧ all_or_nothing s ws s.(fs).(disk) B).
Proof.
  intros Hid [V HT]. pose proof (tx_end_tst c s B r I V s1 Hid HT) as Htx.
  destruct HT as [T1 T2 T3 T4 T5 T6 T7 T8 T9 [T10 _] T11 T12 T13 T14 T15 T16 T17 T18 T19]. pose proof T1 as [_ HR].
  assert (∀ b, outside s.(fs).(log) b ↔ outside s1.(fs).(log) b) as Hout
    by (intros b; unfold outside; by rewrite T7, T8).
  assert (∀ b, blk s1.(fs) b = B b) as EB by (intros b; by rewrite (cr_blk _ _ _ HR)).
  assert (s1.(fs).(disk) = s.(fs).(disk)) as ED by (by rewrite (cr_disk _ _ _ HR), T17).
  assert (s1.(fs).(writes) = s.(fs).(writes)) as EW by (by rewrite (cr_writes _ _ _ HR), T18).
  eapply runs_mono; [apply (end_op_disk Hfuel c V s1 Htx)|]. intros [] s' (Hw & Hd & [[Fo Fs Fi Fd] _ _]).
  eexists. split; [by rewrite Hw, EW|]. split; [congruence|]. split.
  - intros b Hb. rewrite Hd by by apply Hout. apply EB.
  - intros k cb sb Hb. eapply runs_mono; [apply (boot_recovers Hfuel c V s1 k cb sb Htx)|].
    + destruct Hb as [? ? Hb3 Hb4 ?]. split; try done; [by rewrite ED|by rewrite Hb4, T4].
    + intros [] sb' [H|H]; [left|right]; intros b Ho; rewrite H by (by apply Hout); [by rewrite ED|apply EB].
Qed.

End transact.

(** ** A file system with an empty file

    1000 blocks: the log in blocks 2 to 31, the inodes in blocks 32 to 57, the
    free map in block 58; entry 3 of the inode cache is [p], an empty file. *)

Definition file_disk (b : Z) : list Z :=
  if b =? 58 then replicate 7 255 ++ [7] ++ replicate 504 0 else demo_disk b.
Definition file_inode : inode := set_i_type T_FILE (set_i_inum 5 (set_i_dev 1 inode0)).
Definition fs_with (p : inode) : kstate :=
  let l := mklog 2 30 0 0 1 0 (replicate LOGSIZE 0) in
  let x := set_sb (mksb 1000 941 200 30 2 32 58) (set_log l (set_disk file_disk (set_disksize 1000 fs0))) in
  set_fs (set_icache (<[3%nat := p]> x.(icache)) x) demo.

Lemma file_disk_length b : length (file_disk b) = BSIZE.
Proof. unfold file_disk. destruct (b =? 58); [done|apply demo_disk_length]. Qed.

Lemma file_layout p : layout (fs_with p) 59.
Proof.
  split; cbn [fs fs_with set_fs sb set_icache set_sb sb_size disksize set_disksize set_disk set_log log l_start l_size sb_bmapstart sb_inodestart sb_ninodes];
    [done|done|done| | |]; unfold BPB, IPB; intros b Hb; Z.div_mod_to_equations; lia.
Qed.

Lemma file_used p b : 0 <= b < 59 → used (fs_with p) file_disk b = true.
Proof.
  intros Hb. assert (forallb (λ k, used (fs_with p) file_disk (Z.of_nat k)) (seq 0 59) = true) as H by by vm_compute.
  rewrite forallb_forall in H. specialize (H (Z.to_nat b)). rewrite Z2Nat.id in H by lia. apply H.
  apply in_seq. lia.
Qed.

Lemma file_file p : i_dev p = 1 → i_inum p = 5 → i_type p ≠ T_DEV → i_size p = 0 → i_addrs p = replicate 13 0 →
  file_at (fs_with p) 59 file_disk (fs_with p).(fs).(icache) 3 (replicate 13 0).
Proof.
  intros P1 P2 P3 P4 P5. assert ((fs_with p).(fs).(icache) !!! 3%nat = p) as E3 by reflexivity.
  assert (∀ k, (k < 140)%nat → addr_of file_disk (replicate 13 0) k = 0) as Ha.
  { intros k Hk. unfold addr_of. destruct (Nat.ltb_spec k NDIRECT) as [Hlt|Hge]; [|done].
    unfold NDIRECT in Hlt. do 12 (destruct k; [done|]). lia. }
  split; rewrite ?E3, ?P4; try done.
  - split; [simpl; lia|]. by rewrite E3.
  - split; [done|intros []; done|intros k Hk; by rewrite Ha|intros j k Hj Hk; by rewrite Ha].
  - intros b Hb Hu. destruct (Z_lt_ge_dec b 59) as [Hlt|]; [|lia]. rewrite file_used in Hu by lia. done.
  - rewrite P2. done.
  - intros k Hk. lia.
Qed.

Lemma file_free p : free_ge (fs_with p) file_disk 2.
Proof.
  exists [100; 101]. split; [|split; [done|]].
  - apply list.NoDup_cons. split; [set_solver|]. apply list.NoDup_cons. split; [set_solver|]. constructor.
  - intros b Hb. rewrite elem_of_cons, list_elem_of_singleton in Hb. destruct Hb as [->| ->]; split; done || by vm_compute.
Qed.

(** The cache set up on it is idle. *)
Lemma file_idle p : runs binit (fs_with p) (λ _ s, idle 1 s ∧ layout s 59 ∧ s.(fs).(sb) = (fs_with p).(fs).(sb) ∧
  s.(fs).(disk) = file_disk ∧ s.(fs).(icache) = (fs_with p).(fs).(icache) ∧ s.(fs).(log) = (fs_with p).(fs).(log) ∧ s.(mem) = demo.(mem)).
Proof.
  eapply runs_mono; [apply (binit_spec 1 (fs_with p)); [split; reflexivity|reflexivity|apply file_disk_length]|].
  intros [] s [[Ho (El & Es & Ei & Ed)] HV]. pose proof HV as [_ HR].
  assert (s.(fs).(disk) = file_disk) as ED by by rewrite (cr_disk _ _ _ HR).
  assert (s.(fs).(writes) = []) as EW by by rewrite (cr_writes _ _ _ HR).
  split; [|split; [|do 4 (split; [done|]); destruct Ho as [-> _ _]; done]].
  - split; rewrite ?ED, ?EW, ?El, ?Ed; try done. by apply demo_log_wf.
  - apply (layout_sb (fs_with p) s); [done|done|by rewrite El|by rewrite El|apply file_layout].
Qed.

Definition file_fs : kstate := fs_with file_inode.

Definition no_dev : DevSw := {| dev_read := fun _ => None; dev_write := fun _ => None |}.

Lemma writei_readi_witness : let WF : WaitFuel := 1%nat in let DS : DevSw := no_dev in
  runs (binit;; begin_op) file_fs (λ _ s, runs (v <- writei (Some 3%nat) 12288 0 5;; w <- readi (Some 3%nat) 20480 0 5;; ret (v, w)) s
    (λ vw s', vw = (5, 5) ∧ get_bytes s'.(mem) 20480 5 = get_bytes demo.(mem) 12288 5)).
Proof.
  intros WF DS. assert (wait_fuel ≠ 0%nat) as Hfuel by (unfold wait_fuel, WF; lia).
  eapply runs_bind; [apply file_idle|]. intros [] s (Hid & Hlay & Esb & Ed & Ei & El & Em).
  eapply runs_mono; [apply (begin_tx Hfuel 1 s Hid)|]. intros [] s1 H1. rewrite Ed, Ei, El in H1.
  assert ((begun s).(fs).(sb) = file_fs.(fs).(sb)) as Esb' by done.
  eapply runs_mono; [apply (writei_readi Hfuel (begun s) 1 59 file_disk 29 file_fs.(fs).(icache) s1 3 (replicate 13 0) 12288 20480 0 5)|].
  - by apply (layout_sb s (begun s)).
  - exact H1.
  - apply (file_at_sb file_fs (begun s)); [done|apply file_file; done].
  - change (begun s).(mem) with s.(mem). rewrite Em. intros x. simpl. lia.
  - simpl. lia.
  - lia.
  - by vm_compute.
  - change (2 * nblocks 0 5)%nat with 2%nat. apply (free_ge_sb file_fs (begun s)); [done|apply file_free].
  - change (nblocks 0 5) with 1%nat. lia.
  - intros vw s' (E1 & E2 & _). split; [exact E1|]. change (begun s).(mem) with s.(mem) in E2. rewrite Em in E2. exact E2.
Defined.

