(* ===== verification/Dir.v ===== *)
(** * Directories and path names: [fs.c] from [namecmp] on

    A directory is a file of 16-byte entries.  Names and paths are the
    characters of a C string before its NUL; a path is read from memory when
    [namei] is called. *)

From stdpp Require Import base numbers option list sets strings gmap fin_maps functions.
From Stdlib Require Import ZArith Lia.
From S2P Require Import Prelude Kstring State Locks Console Kalloc Proc File Sleeplock Bio Log Fs.

Definition DIRSIZ : nat := 14.
Definition dirent_size : Z := 16.

(** [struct dirent]: the inode number and the name field. *)
Record dirent : Type := mkdirent { de_inum : Z; de_name : list Z }.
Definition dirent_of (d : list Z) : dirent := mkdirent (ld16 d 0) (take DIRSIZ (drop 2 d)).
Definition dirent_bytes (de : dirent) : list Z :=
  [de.(de_inum) mod 256; (de.(de_inum) / 256) mod 256] ++ de.(de_name).

(** The string in a character array. *)
Fixpoint cut (l : list Z) : list Z :=
  match l with [] => [] | c :: l => if c =? 0 then [] else c :: cut l end.

Definition namecmp (s t : list Z) : Z := cmp_prefix DIRSIZ (cut s) (cut t).

(** [strncpy] to the name field. *)
Definition name_field (name : list Z) : list Z := take DIRSIZ (cut name ++ replicate DIRSIZ 0).

(** ** Paths *)

Definition slash : Z := 47.

Fixpoint skip_slashes (p : list Z) : list Z :=
  match p with c :: q => if c =? slash then skip_slashes q else p | [] => [] end.

(** The characters before the next slash, and the rest. *)
Fixpoint until_slash (p : list Z) : list Z * list Z :=
  match p with
  | [] => ([], [])
  | c :: q => if c =? slash then ([], p) else let '(e, r) := until_slash q in (c :: e, r)
  end.

(** The next element, cut at [DIRSIZ] characters, and the path behind it. *)
Definition skipelem (path : list Z) : option (list Z * list Z) :=
  match skip_slashes path with
  | [] => None
  | p => let '(e, r) := until_slash p in Some (take DIRSIZ e, skip_slashes r)
  end.

(** The string at address [a]. *)
Fixpoint read_str (fuel : nat) (m : memory) (a : Z) : option (list Z) :=
  match fuel with
  | O => None
  | S fuel => if load8 m a =? 0 then Some [] else (cons (load8 m a)) <$> read_str fuel m (u32 (a + 1))
  end.

Section dir.
Context `{!WaitFuel, !DevSw}.

(** ** Directories *)

(** The loop of [dirlookup] from offset [off]; the offset of the entry found is
    returned with it. *)
Fixpoint dirlookup_loop (fuel : nat) (dp : nat) (name : list Z) (off : Z) : M (option (nat * Z)) :=
  p <- geti dp;;
  if p.(i_size) <=? off then ret None else
  match fuel with
  | O => fun s => Stuck s
  | S fuel =>
    r <- readi_gen dp None off dirent_size;;
    if negb (r.1 =? dirent_size) then panic "dirlookup read" else
    let de := dirent_of r.2 in
    if de.(de_inum) =? 0 then dirlookup_loop fuel dp name (off + dirent_size) else
    if namecmp name de.(de_name) =? 0 then
      p <- geti dp;;
      ip <- iget p.(i_dev) de.(de_inum);;
      ret (Some (ip, off))
    else dirlookup_loop fuel dp name (off + dirent_size)
  end.

(** Entries in a directory of the given size. *)
Definition dir_fuel (size : Z) : nat := Z.to_nat (size / dirent_size + 1).

Definition dirlookup (dp : nat) (name : list Z) : M (option (nat * Z)) :=
  p <- geti dp;;
  if negb (p.(i_type) =? T_DIR) then panic "dirlookup not DIR" else
  dirlookup_loop (dir_fuel p.(i_size)) dp name 0.

(** The offset of the first free entry, or the size. *)
Fixpoint dirlink_loop (fuel : nat) (dp : nat) (off : Z) : M Z :=
  p <- geti dp;;
  if p.(i_size) <=? off then ret off else
  match fuel with
  | O => fun s => Stuck s
  | S fuel =>
    r <- readi_gen dp None off dirent_size;;
    if negb (r.1 =? dirent_size) then panic "dirlink read" else
    if (dirent_of r.2).(de_inum) =? 0 then ret off else dirlink_loop fuel dp (off + dirent_size)
  end.

Definition dirlink (dp : nat) (name : list Z) (inum : Z) : M Z :=
  o <- dirlookup dp name;;
  match o with
  | Some (ip, _) => iput (Some ip);; ret (-1)
  | None =>
    p <- geti dp;;
    off <- dirlink_loop (dir_fuel p.(i_size)) dp 0;;
    r <- writei_gen dp (inr (dirent_bytes (mkdirent (inum mod 65536) (name_field name)))) off dirent_size;;
    if negb (r =? dirent_size) then panic "dirlink" else
    ret 0
  end.

(** ** Path lookup *)

(** The loop of [namex]: [ip] is the inode reached so far, [name] the last
    element split off. *)
Fixpoint namex_loop (fuel : nat) (ip : nat) (path : list Z) (parent : bool) (name : list Z)
    : M (option nat * list Z) :=
  match skipelem path with
  | None =>
    if parent then iput (Some ip);; ret (None, name) else ret (Some ip, name)
  | Some (name, path) =>
    match fuel with
    | O => fun s => Stuck s
    | S fuel =>
      ilock (Some ip);;
      p <- geti ip;;
      if negb (p.(i_type) =? T_DIR) then iunlockput (Some ip);; ret (None, name) else
      if parent && bool_decide (path = []) then iunlock (Some ip);; ret (Some ip, name) else
      o <- dirlookup ip name;;
      match o with
      | None => iunlockput (Some ip);; ret (None, name)
      | Some (next, _) => iunlockput (Some ip);; namex_loop fuel next path parent name
      end
    end
  end.

(** The path has fewer elements than characters. *)
Definition namex (path : list Z) (parent : bool) : M (option nat * list Z) :=
  ip <- (if bool_decide (head path = Some slash)
         then ip <- iget ROOTDEV ROOTINO;; ret (Some ip)
         else o <- myproc;; with_proc o (fun c => p <- getp c;; idup p.(p_cwd)));;
  with_proc ip (fun ip => namex_loop (length path) ip path parent []).

Definition get_path (a : Z) : M (list Z) :=
  m <- get mem;;
  match read_str wait_fuel m a with
  | Some path => ret path
  | None => fun s => Stuck s
  end.

Definition namei (a : Z) : M (option nat) :=
  path <- get_path a;;
  r <- namex path false;;
  ret r.1.

Definition nameiparent (a : Z) : M (option nat * list Z) :=
  path <- get_path a;;
  namex path true.

(** The file system as [file.c] and [proc.c] use it. *)
#[global] Instance fs_ops : FsOps := {|
  File.begin_op := Log.begin_op;
  File.end_op := Log.end_op;
  File.iput := Fs.iput;
  File.idup := Fs.idup;
  File.ilock := Fs.ilock;
  File.iunlock := Fs.iunlock;
  File.stati := Fs.stati;
  File.readi := Fs.readi;
  File.writei := Fs.writei;
  File.namei := namei;
  File.iinit := Fs.iinit;
  File.initlog := Log.initlog
|}.
End dir.
