(* ===== verification/Lookup.v ===== *)
(** * Directories and paths

    A path is the list of its elements; a directory is the list of its
    entries.  [dirlookup] of [fs.c] finds the first entry with a name, and a
    name linked by [dirlink] is found afterwards. *)

From stdpp Require Import base numbers option list sets strings gmap fin_maps functions.
From Stdlib Require Import ZArith Lia.
From S2P Require Import Prelude Kstring State Locks Console Kalloc Proc File Sleeplock Bio Log Fs Rdwr Transact Dir.

(** ** Paths

    Reference: the pieces between slashes. *)

Fixpoint pieces (p : list Z) : list (list Z) :=
  match p with
  | [] => [[]]
  | c :: p =>
    match pieces p with
    | [] => []
    | e :: es => if c =? slash then [] :: e :: es else (c :: e) :: es
    end
  end.

Definition nonempty (e : list Z) : bool := match e with [] => false | _ => true end.
Definition elements (p : list Z) : list (list Z) := List.filter nonempty (pieces p).

(** The names [namex] visits. *)
Fixpoint path_names (fuel : nat) (path : list Z) : list (list Z) :=
  match fuel with
  | O => []
  | S fuel => match skipelem path with None => [] | Some (e, r) => e :: path_names fuel r end
  end.

Lemma pieces_cons p : ∃ e es, pieces p = e :: es.
Proof.
  induction p as [|c p (e & es & E)]; [by exists [], []|]. simpl. rewrite E. destruct (c =? slash); eauto.
Qed.

Lemma elements_slash p : elements (slash :: p) = elements p.
Proof. unfold elements. simpl. destruct (pieces_cons p) as (e & es & ->). done. Qed.

Lemma elements_skip p : elements (skip_slashes p) = elements p.
Proof.
  induction p as [|c p IH]; [done|]. simpl. destruct (Z.eqb_spec c slash) as [->|]; [|done].
  by rewrite IH, elements_slash.
Qed.

Lemma skip_slashes_length p : (length (skip_slashes p) <= length p)%nat.
Proof. induction p as [|c p IH]; simpl; [done|]. destruct (c =? slash); simpl; lia. Qed.

Lemma until_slash_pieces p e r : until_slash p = (e, r) →
  ∃ es, pieces p = e :: es ∧ elements r = List.filter nonempty es ∧ (length e + length r = length p)%nat.
Proof.
  revert e r. induction p as [|c p IH]; intros e r; simpl.
  - intros [= <- <-]. by exists [].
  - destruct (Z.eqb_spec c slash) as [->|Hc].
    + intros [= <- <-]. destruct (pieces_cons p) as (e & es & E). rewrite E. exists (e :: es).
      split; [done|]. split; [|done]. rewrite elements_slash. unfold elements. by rewrite E.
    + destruct (until_slash p) as [e' r'] eqn:Eu. intros [= <- <-]. destruct (IH _ _ eq_refl) as (es & -> & Er & El).
      exists es. split; [done|]. split; [done|]. simpl. lia.
Qed.

Lemma skip_slashes_head p c q : skip_slashes p = c :: q → c ≠ slash.
Proof.
  induction p as [|d p IH]; simpl; [done|]. destruct (Z.eqb_spec d slash); [done|]. by intros [= <- <-].
Qed.

(** One step of [namex] takes the first element off the path. *)
Lemma skipelem_elements p : match skipelem p with
  | None => elements p = []
  | Some (e, r) => ∃ x, elements p = x :: elements r ∧ e = take DIRSIZ x ∧ (length r < length p)%nat
  end.
Proof.
  unfold skipelem. pose proof (elements_skip p) as Es. pose proof (skip_slashes_length p) as Hl.
  destruct (skip_slashes p) as [|c q] eqn:E; [by rewrite <- Es|]. pose proof (skip_slashes_head _ _ _ E) as Hc.
  destruct (until_slash (c :: q)) as [x r] eqn:Eu. pose proof Eu as Eu'.
  apply until_slash_pieces in Eu as (es & Ep & Er & Elen).
  assert (nonempty x = true) as Hx.
  { simpl in Eu'. destruct (Z.eqb_spec c slash); [done|]. destruct (until_slash q). by injection Eu' as <- <-. }
  exists x. split; [|split; [done|]].
  - rewrite elements_skip, Er, <- Es. unfold elements. by rewrite Ep; simpl; rewrite Hx.
  - pose proof (skip_slashes_length r). destruct x; [done|]. simpl in *. lia.
Qed.

(** The names [namex] looks up, one [skipelem] after the other, are
    the elements of the path: its pieces between slashes, without the empty
    ones, each cut at the length of a directory entry.  The length of the path
    bounds the number of steps. *)
Theorem path_names_elements path fuel : (length path < fuel)%nat →
  path_names fuel path = take DIRSIZ <$> elements path.
Proof.
  revert path. induction fuel as [|fuel IH]; intros path Hf; [lia|]. simpl.
  pose proof (skipelem_elements path) as H. destruct (skipelem path) as [[e r]|]; [|by rewrite H].
  destruct H as (x & -> & -> & Hl). simpl. f_equal. apply IH. lia.
Qed.

Lemma path_names_elements_witness : (length (chars "/usr//bin/x") < 12)%nat ∧
  path_names 12 (chars "/usr//bin/x") = [chars "usr"; chars "bin"; chars "x"].
Proof.
  assert (length (chars "/usr//bin/x") < 12)%nat as H by (vm_compute; lia).
  split; [exact H|]. rewrite (path_names_elements _ _ H). reflexivity.
Defined.

(** ** The inode cache *)

(** The entry [iget] returns, and the cache afterwards. *)
Definition iget_index (I : list inode) (dev inum : Z) : option nat :=
  match List.find (fun i => iget_match dev inum (I !!! i)) (seq 0 NINODE) with
  | Some i => Some i
  | None => List.find (fun i => i_ref (I !!! i) =? 0) (seq 0 NINODE)
  end.

Definition igot (dev inum : Z) (p : inode) : inode :=
  if iget_match dev inum p then set_i_ref (p.(i_ref) + 1) p
  else set_i_valid 0 (set_i_ref 1 (set_i_inum inum (set_i_dev dev p))).

Section lookup.
Context {WF : WaitFuel} (Hfuel : wait_fuel ≠ 0%nat) (c : nat).

Lemma modi_locked i f s : s.(held) = [] →
  (modi i f;; release ICACHE_LOCK;; ret i) (set_held [ICACHE_LOCK] s) = Ret i (set_fs (upd_inode i f s.(fs)) s).
Proof.
  intros Hh. unfold modi, modfs. rewrite bind_modify. change (fs (set_held _ s)) with (fs s).
  erewrite bind_returns; [|apply (release_head _ []); [done|apply not_elem_of_nil]].
  unfold ret. f_equal. destruct s. simpl in *. by subst held.
Qed.

Lemma iget_t s0 B H r I s dev inum i : in_tx s0 c B H r I s → iget_index I dev inum = Some i →
  runs (iget dev inum) s (λ i' s', i' = i ∧ in_tx s0 c B H r (alter (igot dev inum) i I) s').
Proof.
  intros HT Hi. pose proof HT as [V HV]. pose proof (ts_bio _ _ _ _ _ _ _ _ HV) as [Hctx _].
  pose proof (kc_held _ _ Hctx) as Hh. pose proof (ts_icache _ _ _ _ _ _ _ _ HV) as EI.
  assert (∃ f, iget dev inum s = (modi i f;; ret i) s ∧ f (I !!! i) = igot dev inum (I !!! i)) as (f & E & Hf).
  { unfold iget. kcall (acquire_free ICACHE_LOCK s ltac:(rewrite Hh; apply not_elem_of_nil)). rewrite Hh.
    unfold iget_index in Hi. unfold first_inode. rewrite bind_get. cbn [fs set_held]. rewrite EI.
    destruct (List.find _ (seq 0 NINODE)) as [j|] eqn:E1.
    - injection Hi as ->. apply find_some in E1 as [_ E1]. eexists. rewrite modi_locked by done. split; [done|].
      unfold igot. by rewrite E1.
    - rewrite bind_get. cbn [fs set_held]. rewrite EI. rewrite Hi. eexists. rewrite modi_locked by done. split; [done|].
      unfold igot. apply find_some in Hi as [Hin _]. by rewrite (find_none _ _ E1 i Hin). }
  unfold runs. rewrite E. apply (modi_t s0 c B H r I s i f); [done|]. intros s' Hs'. apply runs_ret. split; [done|].
  destruct (decide (i < length I)%nat) as [Hlt|Hge].
  - assert (alter (igot dev inum) i I = alter f i I) as ->; [|done]. apply list_eq. intros j.
    destruct (decide (j = i)) as [->|Hj]; [|by rewrite !list_lookup_alter_ne].
    rewrite !list_lookup_alter_eq, (list_lookup_lookup_total_lt I i) by done. simpl. by rewrite Hf.
  - assert (alter (igot dev inum) i I = alter f i I) as ->; [|done].
    apply list_eq. intros j. destruct (decide (j = i)) as [->|Hj]; [|by rewrite !list_lookup_alter_ne].
    rewrite !list_lookup_alter_eq, lookup_ge_None_2 by lia. done.
Qed.
End lookup.

(** ** Directories as lists of entries *)

Definition DS : Z := 16.

Definition entry (B : Z → list Z) (A : list Z) (k : nat) : dirent := dirent_of (fslice B A (DS * Z.of_nat k) DS).

(** The entry is in use and has the name. *)
Definition is_entry (name : list Z) (de : dirent) : bool :=
  negb (de.(de_inum) =? 0) && (namecmp name de.(de_name) =? 0).

Definition find_from (P : dirent → bool) (B : Z → list Z) (A : list Z) (k n : nat) : option nat :=
  List.find (fun j => P (entry B A j)) (seq k n).

Record dir_at (s0 : kstate) (dstart : Z) (B : Z → list Z) (I : list inode) (dp : nat) (A : list Z) (n : nat) : Prop := {
  da_file : file_at s0 dstart B I dp A;
  da_type : i_type (I !!! dp) = T_DIR;
  da_size : i_size (I !!! dp) = DS * Z.of_nat n
}.

Section dirs.
Context {WF : WaitFuel} {Dev : DevSw} (Hfuel : wait_fuel ≠ 0%nat) (s0 : kstate) (c : nat) (dstart : Z) (Hlay : layout s0 dstart).

Lemma dir_small B I dp A n : dir_at s0 dstart B I dp A n → DS * Z.of_nat n <= 71680.
Proof. intros [Hf _ Hs]. pose proof (fa_size _ _ _ _ _ _ Hf) as H. rewrite Hs in H. apply H. Qed.

Lemma read_entry B r I s dp A n k : in_tx s0 c B ∅ r I s → dir_at s0 dstart B I dp A n → (k < n)%nat →
  runs (readi_gen dp None (DS * Z.of_nat k) dirent_size) s (λ v s',
    v = (DS, fslice B A (DS * Z.of_nat k) DS) ∧ in_tx s0 c B ∅ r I s').
Proof.
  intros HT HD Hk. pose proof (dir_small _ _ _ _ _ HD) as Hs. destruct HD as [[F1 F2 F3 F4 F5 F6 F7] Ht Hn].
  eapply runs_mono; [apply (readi_gen_t Hfuel c dstart s0 B A dp None r I s (DS * Z.of_nat k) DS); try done|].
  - unfold word, DS, two32 in *. lia.
  - rewrite Hn. intros v s' H'. unfold DS, two32 in *. cbv zeta in H'.
    rewrite (proj2 (Z.ltb_ge _ _)), (proj2 (Z.leb_gt _ _)) in H' by lia. cbn [orb] in H'.
    rewrite Z.min_l in H' by lia. done.
Qed.

Lemma dirlookup_loop_t B r I dp A n name : dir_at s0 dstart B I dp A n → ∀ fuel k s, in_tx s0 c B ∅ r I s →
  (k <= n)%nat → (n - k <= fuel)%nat → let found := find_from (is_entry name) B A k (n - k) in
  (∀ j, found = Some j → is_Some (iget_index I 1 (de_inum (entry B A j)))) →
  runs (dirlookup_loop fuel dp name (DS * Z.of_nat k)) s (λ o s',
    match found with
    | None => o = None ∧ in_tx s0 c B ∅ r I s'
    | Some j => ∃ ip, iget_index I 1 (de_inum (entry B A j)) = Some ip ∧ o = Some (ip, DS * Z.of_nat j) ∧
        in_tx s0 c B ∅ r (alter (igot 1 (de_inum (entry B A j))) ip I) s'
    end).
Proof.
  intros HD. induction fuel as [|fuel IH]; intros k s HT Hk Hf found Hig;
    unfold dirlookup_loop; fold dirlookup_loop; (apply (geti_t s0 c B ∅ r I s); [done|]); rewrite (da_size _ _ _ _ _ _ _ HD).
  - assert (k = n) as -> by lia. rewrite Z.leb_refl. unfold found. rewrite Nat.sub_diag. by apply runs_ret.
  - destruct (Z.leb_spec (DS * Z.of_nat n) (DS * Z.of_nat k)) as [Hle|Hlt].
    { assert (k = n) as -> by (unfold DS in *; lia). unfold found. rewrite Nat.sub_diag. by apply runs_ret. }
    assert (k < n)%nat as Hkn by (unfold DS in *; lia).
    eapply runs_bind; [by apply (read_entry B r I s dp A n k)|]. intros v s1 [-> H1]. cbn [fst snd].
    change (DS =? dirent_size) with true. cbn [negb]. fold (entry B A k).
    assert (found = if is_entry name (entry B A k) then Some k else find_from (is_entry name) B A (S k) (n - S k)) as Ef.
    { unfold found, find_from. replace (n - k)%nat with (S (n - S k)) by lia. done. }
    assert (DS * Z.of_nat k + dirent_size = DS * Z.of_nat (S k)) as Eo by (unfold DS, dirent_size; lia).
    unfold is_entry in Ef. rewrite Ef in Hig |- *.
    destruct (de_inum (entry B A k) =? 0); cbn [negb andb] in *.
    { rewrite Eo. apply (IH (S k) s1 H1); [lia|lia|]. exact Hig. }
    destruct (namecmp name (de_name (entry B A k)) =? 0).
    + apply (geti_t s0 c B ∅ r I s1); [done|]. destruct (fa_inode _ _ _ _ _ _ (da_file _ _ _ _ _ _ _ HD)) as (_ & -> & _).
      destruct (Hig k eq_refl) as [ip Hip]. eapply runs_bind; [by apply (iget_t Hfuel c s0 B ∅ r I s1 1 _ ip)|].
      intros i' s2 [-> H2]. apply runs_ret. by exists ip.
    + rewrite Eo. apply (IH (S k) s1 H1); [lia|lia|]. exact Hig.
Qed.

(** [dirlookup] finds the first entry with the name. *)
Lemma dirlookup_t B r I s dp A n name : in_tx s0 c B ∅ r I s → dir_at s0 dstart B I dp A n →
  let found := find_from (is_entry name) B A 0 n in
  (∀ j, found = Some j → is_Some (iget_index I 1 (de_inum (entry B A j)))) →
  runs (dirlookup dp name) s (λ o s',
    match found with
    | None => o = None ∧ in_tx s0 c B ∅ r I s'
    | Some j => ∃ ip, iget_index I 1 (de_inum (entry B A j)) = Some ip ∧ o = Some (ip, DS * Z.of_nat j) ∧
        in_tx s0 c B ∅ r (alter (igot 1 (de_inum (entry B A j))) ip I) s'
    end).
Proof.
  intros HT HD found Hig. unfold dirlookup. apply (geti_t s0 c B ∅ r I s); [done|].
  rewrite (da_type _ _ _ _ _ _ _ HD), (da_size _ _ _ _ _ _ _ HD). cbn [negb Z.eqb].
  pose proof (dirlookup_loop_t B r I dp A n name HD (dir_fuel (DS * Z.of_nat n)) 0 s HT) as Hl.
  rewrite Nat.sub_0_r in Hl. apply Hl; [lia| |done]. unfold dir_fuel, DS, dirent_size. rewrite Z.mul_comm, Z.div_mul by done. lia.
Qed.

(** The loop of [dirlink] finds the first free entry, or the end. *)
Lemma dirlink_loop_t B r I dp A n : dir_at s0 dstart B I dp A n → ∀ fuel k s, in_tx s0 c B ∅ r I s →
  (k <= n)%nat → (n - k <= fuel)%nat →
  runs (dirlink_loop fuel dp (DS * Z.of_nat k)) s (λ off s',
    off = DS * Z.of_nat (default n (find_from (fun de => de.(de_inum) =? 0) B A k (n - k))) ∧ in_tx s0 c B ∅ r I s').
Proof.
  intros HD. induction fuel as [|fuel IH]; intros k s HT Hk Hf;
    unfold dirlink_loop; fold dirlink_loop; (apply (geti_t s0 c B ∅ r I s); [done|]); rewrite (da_size _ _ _ _ _ _ _ HD).
  - assert (k = n) as -> by lia. rewrite Z.leb_refl, Nat.sub_diag. by apply runs_ret.
  - destruct (Z.leb_spec (DS * Z.of_nat n) (DS * Z.of_nat k)) as [Hle|Hlt].
    { assert (k = n) as -> by (unfold DS in *; lia). rewrite Nat.sub_diag. by apply runs_ret. }
    assert (k < n)%nat as Hkn by (unfold DS in *; lia).
    eapply runs_bind; [by apply (read_entry B r I s dp A n k)|]. intros v s1 [-> H1]. cbn [fst snd].
    change (DS =? dirent_size) with true. cbn [negb]. fold (entry B A k).
    replace (find_from (fun de => de.(de_inum) =? 0) B A k (n - k))
      with (if de_inum (entry B A k) =? 0 then Some k else find_from (fun de => de.(de_inum) =? 0) B A (S k) (n - S k))
      by (unfold find_from; replace (n - k)%nat with (S (n - S k)) by lia; done).
    destruct (de_inum (entry B A k) =? 0); [by apply runs_ret|].
    replace (DS * Z.of_nat k + dirent_size) with (DS * Z.of_nat (S k)) by (unfold DS, dirent_size; lia).
    apply (IH (S k) s1 H1); lia.
Qed.
End dirs.

(** ** Writing an entry *)

Lemma find_seq (P : nat → bool) a n k : (a <= k < a + n)%nat → P k = true → (∀ j, (a <= j < k)%nat → P j = false) →
  List.find P (seq a n) = Some k.
Proof.
  revert a. induction n as [|n IH]; intros a Hk HP Hj; [lia|]. simpl.
  destruct (decide (a = k)) as [->|Hne]; [by rewrite HP|]. rewrite Hj by lia. apply IH; [lia|done|].
  intros j ?. apply Hj. lia.
Qed.

Lemma find_seq_none (P : nat → bool) a n j : List.find P (seq a n) = None → (a <= j < a + n)%nat → P j = false.
Proof. intros H Hj. apply (find_none _ _ H). apply in_seq. lia. Qed.

Lemma cut_nonzero l : Forall (λ c, c ≠ 0) (cut l).
Proof. induction l as [|c l IH]; [constructor|]. simpl. destruct (Z.eqb_spec c 0); [constructor|]. by constructor. Qed.

Lemma cut_take n l : Forall (λ c, c ≠ 0) l → cut (take n (l ++ replicate n 0)) = take n l.
Proof.
  revert n. induction l as [|c l IH]; intros n Hl.
  - rewrite take_nil, app_nil_l. destruct n; [done|]. done.
  - destruct n; [done|]. inversion_clear Hl as [|? ? Hc Hl']. cbn [app take cut].
    destruct (Z.eqb_spec c 0); [done|]. f_equal. specialize (IH n Hl').
    replace (take n (l ++ replicate (S n) 0)) with (take n (l ++ replicate n 0)); [done|].
    rewrite (replicate_S_end n), app_assoc. rewrite (take_app_le (l ++ replicate n 0)); [done|]. rewrite length_app, length_replicate. lia.
Qed.

(** The field holds the name. *)
Lemma namecmp_field name : namecmp name (name_field name) = 0.
Proof.
  unfold namecmp, name_field. rewrite cut_take by apply cut_nonzero. apply cmp_prefix_zero; [apply cut_nonzero| |].
  - apply Forall_take, cut_nonzero.
  - by rewrite take_take, Nat.min_id.
Qed.

Lemma length_name_field name : length (name_field name) = DIRSIZ.
Proof. unfold name_field. rewrite length_take, length_app, length_replicate. unfold DIRSIZ. lia. Qed.

Lemma dirent_bytes_of de : 0 <= de.(de_inum) < 65536 → length de.(de_name) = DIRSIZ → dirent_of (dirent_bytes de) = de.
Proof.
  intros Hi Hl. destruct de as [i nm]. cbn [de_inum de_name] in *. unfold dirent_of, dirent_bytes, ld16. cbn [de_inum de_name].
  change (drop 2 (_ ++ nm)) with nm. rewrite (take_ge nm DIRSIZ) by lia. f_equal. cbn. rewrite (Z.mod_small (i / 256)) by (split; [apply Z.div_pos; lia|apply Z.div_lt_upper_bound; lia]).
  pose proof (Z.div_mod i 256 ltac:(done)). lia.
Qed.

Lemma length_dirent_bytes de : length de.(de_name) = DIRSIZ → length (dirent_bytes de) = 16%nat.
Proof. intros Hl. unfold dirent_bytes. rewrite length_app, Hl. done. Qed.

Lemma entry_written s0 dstart B A p k de B' A' j : file_written s0 dstart B A p (DS * Z.of_nat k) (dirent_bytes de) B' A' →
  length de.(de_name) = DIRSIZ → 0 <= de.(de_inum) < 65536 → DS * Z.of_nat (S j) <= 71680 →
  entry B' A' j = if decide (j = k) then de else entry B A j.
Proof.
  intros Hw Hl Hi Hj. pose proof (length_dirent_bytes de Hl) as Hd. pose proof (fw_bytes _ _ _ _ _ _ _ _ _ Hw) as Hb.
  unfold DS in *. unfold MAXFILE, NDIRECT, NINDIRECT in Hb.
  destruct (decide (j = k)) as [->|Hne].
  - rewrite <- (dirent_bytes_of de) by done. unfold entry. f_equal.
    pose proof (written_slice _ _ _ _ _ _ _ _ _ Hw) as Hs. rewrite Hd in Hs. apply Hs; [lia|].
    unfold MAXFILE, NDIRECT, NINDIRECT, BSIZE. lia.
  - unfold entry. f_equal. unfold fslice. apply list_fmap_ext. intros i x Hx. apply lookup_seq in Hx as [-> Hx].
    unfold DS in *. rewrite Hb by lia. unfold written_byte. rewrite Hd. rewrite decide_False; [done|]. lia.
Qed.

Section link.
Context {WF : WaitFuel} {Dev : DevSw} (Hfuel : wait_fuel ≠ 0%nat) (s0 : kstate) (c : nat) (dstart : Z) (Hlay : layout s0 dstart).

(** The position of a new entry: the first free one, or the end. *)
Definition free_slot (B : Z → list Z) (A : list Z) (n : nat) : nat :=
  default n (find_from (fun de => de.(de_inum) =? 0) B A 0 n).

Lemma free_slot_le B A n : (free_slot B A n <= n)%nat.
Proof.
  unfold free_slot. destruct (find_from _ B A 0 n) as [k|] eqn:E; [|done]. simpl.
  apply find_some in E as [E _]. apply in_seq in E. lia.
Qed.

(** The cache entry an inode number is found in does not depend on file sizes
    and addresses. *)
Lemma iget_index_wrote I dp A last dev inum : iget_index (alter (wrote A last) dp I) dev inum = iget_index I dev inum.
Proof.
  assert (∀ i, iget_match dev inum (alter (wrote A last) dp I !!! i) = iget_match dev inum (I !!! i) ∧
    i_ref (alter (wrote A last) dp I !!! i) = i_ref (I !!! i)) as H.
  { intros i. rewrite !list_lookup_total_alt. destruct (decide (i = dp)) as [->|Hne]; [|by rewrite list_lookup_alter_ne].
    rewrite list_lookup_alter_eq. by destruct (I !! dp). }
  assert (∀ P Q l, (∀ i : nat, P i = Q i) → List.find P l = List.find Q l) as Hx.
  { intros P Q l HPQ. induction l as [|x l IH]; [done|]. simpl. by rewrite HPQ, IH. }
  unfold iget_index.
  rewrite (Hx (λ i, iget_match dev inum (alter (wrote A last) dp I !!! i)) (λ i, iget_match dev inum (I !!! i))) by (intros; apply H).
  rewrite (Hx (λ i, i_ref (alter (wrote A last) dp I !!! i) =? 0) (λ i, i_ref (I !!! i) =? 0)); [done|].
  intros i. by destruct (H i) as [_ ->].
Qed.

(** A new name goes into the first free entry. *)
Lemma dirlink_t B r I s dp A n name inum : in_tx s0 c B ∅ r I s → dir_at s0 dstart B I dp A n →
  find_from (is_entry name) B A 0 n = None → 0 <= inum < 65536 → free_ge s0 B 2 → 7 <= r →
  DS * Z.of_nat (S n) <= 71680 → let k := free_slot B A n in let de := mkdirent inum (name_field name) in
  runs (dirlink dp name inum) s (λ v s', v = 0 ∧ ∃ B' A',
    file_written s0 dstart B A (I !!! dp) (DS * Z.of_nat k) (dirent_bytes de) B' A' ∧
    let I' := alter (wrote A' (DS * Z.of_nat (S k))) dp I in
    in_tx s0 c B' ∅ (r - 7) I' s' ∧ dir_at s0 dstart B' I' dp A' (n `max` S k)).
Proof.
  intros HT HD Hnone Hi Hfr Hr Hsz k de. pose proof (free_slot_le B A n) as Hk. fold k in Hk.
  pose proof HD as [Hfa Hty Hsize]. pose proof Hfa as [F1 F2 F3 F4 F5 F6 F7].
  unfold dirlink. eapply runs_bind; [apply (dirlookup_t Hfuel s0 c dstart Hlay B r I s dp A n name HT HD)|].
  { rewrite Hnone. done. }
  rewrite Hnone. intros o s1 [-> H1]. apply (geti_t s0 c B ∅ r I s1); [done|]. rewrite Hsize.
  pose proof (dirlink_loop_t Hfuel s0 c dstart Hlay B r I dp A n HD (dir_fuel (DS * Z.of_nat n)) 0 s1 H1) as Hl.
  rewrite Nat.sub_0_r in Hl. eapply runs_bind.
  { apply Hl; [lia|]. unfold dir_fuel, DS, dirent_size. rewrite Z.mul_comm, Z.div_mul by done. lia. }
  fold (free_slot B A n). fold k. intros off s2 [-> H2]. rewrite (Z.mod_small inum) by done. fold de.
  assert (length (dirent_bytes de) = 16%nat) as Hlen by (apply length_dirent_bytes, length_name_field).
  assert (MAXFILE * 512 = 71680) as EM by done.
  assert ((DS * Z.of_nat k) mod 512 <= 496) as Hmod.
  { unfold DS. replace (16 * Z.of_nat k) with (Z.of_nat k * 16) by lia. change 512 with (32 * 16).
    rewrite Z.mul_mod_distr_r by done. pose proof (Z.mod_pos_bound (Z.of_nat k) 32 ltac:(done)). lia. }
  eapply runs_bind.
  { apply (writei_gen_t Hfuel s0 c dstart Hlay B A r I s2 dp (inr (dirent_bytes de)) (DS * Z.of_nat k) DS 1); try done.
    - unfold word, DS, two32 in *. lia.
    - cbn [source_ok]. rewrite Hlen. done.
    - unfold DS in *. lia.
    - vm_compute. lia. }
  intros v s3 H3. cbv zeta in H3. rewrite Hsize in H3. change (Z.of_nat BSIZE) with 512 in H3. rewrite EM in H3.
  rewrite (proj2 (Z.ltb_ge _ _)), (proj2 (Z.ltb_ge _ _)) in H3 by (unfold DS in *; lia). cbn [orb] in H3.
  destruct H3 as (-> & B' & A' & Hw & H3). change (DS =? dirent_size) with true. cbn [negb]. apply runs_ret. split; [done|].
  unfold source in Hw. rewrite take_ge in Hw by (rewrite Hlen; done). exists B', A'. split; [done|]. cbv zeta.
  pose proof F1 as (Hdl & _).
  assert (alter (fun p => set_i_size (Z.max (DS * Z.of_nat n) (DS * Z.of_nat k + DS)) (set_i_addrs A' p)) dp I
    = alter (wrote A' (DS * Z.of_nat (S k))) dp I) as EI.
  { apply list_eq. intros j. destruct (decide (j = dp)) as [->|Hj]; [|by rewrite !list_lookup_alter_ne].
    rewrite !list_lookup_alter_eq. destruct (I !! dp) as [p|] eqn:E; [|done]. simpl. unfold wrote.
    rewrite (list_lookup_total_correct _ _ _ E) in Hsize. rewrite Hsize. do 3 f_equal. unfold DS. lia. }
  rewrite EI in H3. split; [by replace (r - 7) with (r - 6 * Z.of_nat 1 - 1) by lia|].
  pose proof (file_at_written s0 dstart B I dp A (DS * Z.of_nat k) (dirent_bytes de) B' A' Hfa) as Hfa'.
  rewrite Hlen in Hfa'. replace (DS * Z.of_nat k + Z.of_nat 16) with (DS * Z.of_nat (S k)) in Hfa' by (unfold DS; lia).
  split; [apply Hfa'; [unfold DS; lia|change (Z.of_nat BSIZE) with 512; unfold DS in *; lia|done]| |];
    rewrite list_lookup_total_alter_eq by done; [done|]. simpl. rewrite Hsize. unfold DS. lia.
Qed.

(** C22: A name linked into a directory is found again.  If the name is not
    in the directory, [dirlink] returns 0 and writes the name and the inode
    number into the first free entry, or appends an entry; the other entries,
    the blocks of other files and the other inodes stay as they are.  A
    following [dirlookup] of the name returns that entry's offset and an entry
    of the inode cache for that inode number. *)
Theorem dirlink_dirlookup B r I s dp A n name inum : in_tx s0 c B ∅ r I s → dir_at s0 dstart B I dp A n →
  length I = NINODE → find_from (is_entry name) B A 0 n = None → 0 < inum < 65536 → is_Some (iget_index I 1 inum) →
  free_ge s0 B 2 → 7 <= r → DS * Z.of_nat (S n) <= 71680 → let k := free_slot B A n in
  let de := mkdirent inum (name_field name) in
  runs (v <- dirlink dp name inum;; o <- dirlookup dp name;; ret (v, o)) s (λ vo s', vo.1 = 0 ∧ ∃ ip B' A' I',
    vo.2 = Some (ip, DS * Z.of_nat k) ∧ i_dev (I' !!! ip) = 1 ∧ i_inum (I' !!! ip) = inum ∧ 1 <= i_ref (I' !!! ip) ∧
    file_written s0 dstart B A (I !!! dp) (DS * Z.of_nat k) (dirent_bytes de) B' A' ∧
    (∀ j, (j < n `max` S k)%nat → entry B' A' j = if decide (j = k) then de else entry B A j) ∧
    in_tx s0 c B' ∅ (r - 7) I' s').
Proof.
  intros HT HD HI Hnone Hin [ip Hip] Hfr Hr Hsz k de. pose proof (free_slot_le B A n) as Hk. fold k in Hk.
  eapply runs_bind; [apply (dirlink_t B r I s dp A n name inum); try done; lia|]. fold k de.
  intros v s1 (-> & B' & A' & Hw & H1 & HD1). set (I1 := alter _ dp I) in *.
  assert (∀ j, (j < n `max` S k)%nat → entry B' A' j = if decide (j = k) then de else entry B A j) as He.
  { intros j Hj. eapply entry_written; [exact Hw|apply length_name_field|simpl; lia|unfold DS in *; lia]. }
  assert (find_from (is_entry name) B' A' 0 (n `max` S k) = Some k) as Hfound.
  { apply find_seq; [lia| |].
    - rewrite He, decide_True by (done || lia). unfold is_entry, de. cbn [de_inum de_name]. rewrite namecmp_field.
      by destruct (Z.eqb_spec inum 0); [lia|].
    - intros j Hj. rewrite He, decide_False by lia. apply (find_seq_none _ 0 n j Hnone). lia. }
  assert (de_inum (entry B' A' k) = inum) as Ein by (rewrite He, decide_True by (done || lia); done).
  assert (iget_index I1 1 inum = Some ip) as Hip1 by (unfold I1; by rewrite iget_index_wrote).
  eapply runs_bind; [apply (dirlookup_t Hfuel s0 c dstart Hlay B' (r - 7) I1 s1 dp A' (n `max` S k) name H1 HD1)|].
  { rewrite Hfound. intros j [= <-]. rewrite Ein. by exists ip. }
  rewrite Hfound, Ein, Hip1. intros o s2 (ip' & [= <-] & -> & H2). apply runs_ret. split; [done|].
  exists ip, B', A', (alter (igot 1 inum) ip I1). split; [done|].
  assert (ip < length I1)%nat as Hlt.
  { unfold I1. rewrite length_alter, HI. unfold iget_index in Hip1.
    destruct (List.find _ (seq 0 NINODE)) as [j|] eqn:E; [injection Hip1 as ->; apply find_some in E as [E _]|apply find_some in Hip1 as [E1 _]; clear E; rename E1 into E];
      apply in_seq in E; lia. }
  rewrite list_lookup_total_alter_eq by done. unfold igot. split; [|split; [|split; [|by split]]];
    destruct (iget_match 1 inum (I1 !!! ip)) eqn:E; try done; unfold iget_match in E;
    apply andb_prop in E as [[E1 E2]%andb_prop E3]; simpl; lia.
Qed.
End link.

(** An empty directory. *)
Definition dir_inode : inode := set_i_type T_DIR file_inode.

Lemma dirlink_dirlookup_witness : let WF : WaitFuel := 1%nat in let Dev : DevSw := no_dev in
  runs (binit;; Log.begin_op) (fs_with dir_inode) (λ _ s,
    runs (v <- dirlink 3 (chars "init") 7;; o <- dirlookup 3 (chars "init");; ret (v, o)) s (λ vo s',
      vo.1 = 0 ∧ ∃ ip, vo.2 = Some (ip, 0) ∧ i_inum (s'.(fs).(icache) !!! ip) = 7)).
Proof.
  intros WF Dev. assert (wait_fuel ≠ 0%nat) as Hfuel by (unfold wait_fuel, WF; lia).
  eapply runs_bind; [apply file_idle|]. intros [] s (Hid & Hlay & Esb & Ed & Ei & El & Em).
  eapply runs_mono; [apply (begin_tx Hfuel 1 s Hid)|]. intros [] s1 H1. rewrite Ed, Ei, El in H1.
  assert ((begun s).(fs).(sb) = (fs_with dir_inode).(fs).(sb)) as Esb' by exact Esb.
  eapply runs_mono; [apply (dirlink_dirlookup Hfuel (begun s) 1 59 ltac:(by apply (layout_sb s (begun s)))
    file_disk 29 (fs_with dir_inode).(fs).(icache) s1 3 (replicate 13 0) 0 (chars "init") 7)|].
  - exact H1.
  - split; [|reflexivity|reflexivity]. apply (file_at_sb (fs_with dir_inode) (begun s)); [exact Esb'|apply file_file; done].
  - reflexivity.
  - reflexivity.
  - lia.
  - exists 0%nat. reflexivity.
  - apply (free_ge_sb (fs_with dir_inode) (begun s)); [exact Esb'|apply file_free].
  - lia.
  - unfold DS. lia.
  - intros [v o] s' (Hv & ip & B' & A' & I' & Ho & _ & Hi & _ & _ & _ & [V' HT']). split; [exact Hv|]. exists ip.
    split; [exact Ho|]. rewrite (ts_icache _ _ _ _ _ _ _ _ HT'). exact Hi.
Defined.
