(* ===== verification/Mkfs.v ===== *)
(** * The builder of the file system image: [mkfs.c]

    The program runs on the host and writes the image sector by sector, with
    its own versions of the allocators and of the append operation.  The
    theorems connect it with the kernel's file system: on the image that it
    writes, the kernel's representation predicates for files and directories
    hold, with the contents of the files it was given. *)

From stdpp Require Import base numbers option list sets strings gmap fin_maps functions.
From Stdlib Require Import ZArith Lia.
From S2P Require Import Prelude Kstring State Locks Console Kalloc Proc Sleeplock Bio Log Fs Rdwr Transact Dir Lookup.

(** ** Constants and globals *)

Definition NINODES : Z := 200.
Definition FSSIZE : Z := 1000.
Definition BS : Z := 512.

Definition nbitmap : Z := FSSIZE / (BS * 8) + 1.
Definition ninodeblocks : Z := NINODES / IPB + 1.
Definition nlog : Z := Z.of_nat LOGSIZE.

(** The image, the number of its sectors, and the variables of the program. *)
Record mkst : Type := mkmk {
  image : Z → list Z;
  nsect : Z;
  freeinode : Z;
  freeblock : Z;
  msb : superblock
}.
Definition set_image (v : Z → list Z) (s : mkst) : mkst := mkmk v s.(nsect) s.(freeinode) s.(freeblock) s.(msb).
Definition set_nsect (v : Z) (s : mkst) : mkst := mkmk s.(image) v s.(freeinode) s.(freeblock) s.(msb).
Definition set_freeinode (v : Z) (s : mkst) : mkst := mkmk s.(image) s.(nsect) v s.(freeblock) s.(msb).
Definition set_freeblock (v : Z) (s : mkst) : mkst := mkmk s.(image) s.(nsect) s.(freeinode) v s.(msb).
Definition set_msb (v : superblock) (s : mkst) : mkst := mkmk s.(image) s.(nsect) s.(freeinode) s.(freeblock) v.

(** The end of the program is a jump with the exit status; a failed [assert]
    panics. *)
Definition H : Type → Type := prog mkst Z.
Definition exit {A} (code : Z) : H A := fun s => Jump code s.
Definition assert (b : bool) : H unit := if b then ret () else panic "assert".

(** The files of the host: whether the image can be created, and the bytes
    that successive calls of [read] return for a file that can be opened. *)
Class Host : Type := {
  host_create : list Z → bool;
  host_read : list Z → option (list (list Z))
}.

(** ** Byte order and sectors *)

(** The bytes are stored in the order of the disk and read in that of the
    host, which is the same for the hosts that build this system. *)
Definition xshort (x : Z) : Z := x mod 256 + 256 * (Z.shiftr x 8 mod 256).
Definition xint (x : Z) : Z :=
  x mod 256 + 256 * (Z.shiftr x 8 mod 256) + 65536 * (Z.shiftr x 16 mod 256) + 16777216 * (Z.shiftr x 24 mod 256).

(** The position [sec * BSIZE] is a [uint].  Writing behind the end extends the
    file, reading there fails. *)
Definition sector (sec : Z) : Z := u32 (sec * BS) / BS.

Definition wsect (sec : Z) (buf : list Z) : H unit :=
  modify (fun s => set_image (<[sector sec := buf]> s.(image)) (set_nsect (Z.max s.(nsect) (sector sec + 1)) s)).

Definition rsect (sec : Z) : H (list Z) :=
  s <- get (fun s => s);;
  if sector sec <? s.(nsect) then ret (s.(image) (sector sec)) else exit 1.

(** ** Inodes *)

(** A [struct dinode] is the part of an [inode] that is on the disk. *)
Definition winode (inum : Z) (ip : inode) : H unit :=
  sb <- get msb;;
  let bn := IBLOCK inum sb in
  buf <- rsect bn;;
  wsect bn (dinode_store (dinode_off inum) ip buf).

Definition rinode (inum : Z) : H inode :=
  sb <- get msb;;
  let bn := IBLOCK inum sb in
  buf <- rsect bn;;
  ret (dinode_load (dinode_off inum) buf inode0).

Definition ialloc (type : Z) : H Z :=
  inum <- get freeinode;;
  modify (set_freeinode (u32 (inum + 1)));;
  let din := set_i_size (xint 0) (set_i_nlink (xshort 1) (set_i_type (xshort type) inode0)) in
  winode inum din;;
  ret inum.

(** [freeblock++] *)
Definition take_free : H Z :=
  b <- get freeblock;;
  modify (set_freeblock (u32 (b + 1)));;
  ret b.

Definition balloc (used : Z) : H unit :=
  assert (used <? BS * 8);;
  let buf := foldl (fun buf i => set_map_bit i buf) (replicate 512 0) (seq 0 (Z.to_nat used)) in
  sb <- get msb;;
  wsect sb.(sb_bmapstart) buf.

Definition addr (din : inode) (k : nat) : Z := din.(i_addrs) !!! k.
Definition set_addr (k : nat) (a : Z) (din : inode) : inode := set_i_addrs (<[k := a]> din.(i_addrs)) din.

(** The sector for block [fbn] of the file, with the inode afterwards. *)
Definition file_sector (din : inode) (fbn : Z) : H (inode * Z) :=
  if fbn <? Z.of_nat NDIRECT then
    let k := Z.to_nat fbn in
    din <- (if xint (addr din k) =? 0 then b <- take_free;; ret (set_addr k (xint b) din) else ret din);;
    ret (din, xint (addr din k))
  else
    din <- (if xint (addr din NDIRECT) =? 0 then b <- take_free;; ret (set_addr NDIRECT (xint b) din) else ret din);;
    indirect <- rsect (xint (addr din NDIRECT));;
    let o := (4 * (Z.to_nat fbn - NDIRECT))%nat in
    indirect <- (if ld32 indirect o =? 0 then
        b <- take_free;;
        let indirect := st32 o (xint b) indirect in
        wsect (xint (addr din NDIRECT)) indirect;;
        ret indirect
      else ret indirect);;
    ret (din, xint (ld32 indirect o)).

Fixpoint iappend_loop (fuel : nat) (din : inode) (off : Z) (p : list Z) : H (inode * Z) :=
  match fuel with
  | O => fun s => Stuck s
  | S fuel =>
    let n := Z.of_nat (length p) in
    if 0 <? n then
      let fbn := off / BS in
      assert (fbn <? MAXFILE);;
      r <- file_sector din fbn;;
      let n1 := Z.min n ((fbn + 1) * BS - off) in
      buf <- rsect r.2;;
      wsect r.2 (splice (Z.to_nat (off - fbn * BS)) (take (Z.to_nat n1) p) buf);;
      iappend_loop fuel r.1 (u32 (off + n1)) (drop (Z.to_nat n1) p)
    else ret (din, off)
  end.

(** Every iteration appends at least one byte. *)
Definition iappend (inum : Z) (p : list Z) : H unit :=
  din <- rinode inum;;
  let off := xint din.(i_size) in
  r <- iappend_loop (S (length p)) din off p;;
  winode inum (set_i_size (xint r.2) r.1).

(** ** The program *)

Definition dirent_for (inum : Z) (name : list Z) : list Z := dirent_bytes (mkdirent (xshort inum) (name_field name)).

(** One file named on the command line. *)
Definition add_file `{!Host} (rootino : Z) (arg : list Z) : H unit :=
  assert (negb (bool_decide (slash ∈ arg)));;
  match host_read arg with
  | None => exit 1
  | Some chunks =>
    let name := match arg with c :: rest => if c =? 95 then rest else arg | [] => arg end in
    inum <- ialloc T_FILE;;
    iappend rootino (dirent_for inum name);;
    foldM (fun _ buf => iappend inum buf) chunks ()
  end.

Definition main `{!Host} (argv : list (list Z)) : H unit :=
  match argv with
  | _ :: img :: files =>
    if negb (host_create img) then exit 1 else
    let nmeta := 2 + nlog + ninodeblocks + nbitmap in
    let nblocks := FSSIZE - nmeta in
    modify (set_msb (mksb (xint FSSIZE) (xint nblocks) (xint NINODES) (xint nlog) (xint 2) (xint (2 + nlog))
      (xint (2 + nlog + ninodeblocks))));;
    modify (set_freeblock nmeta);;
    foldM (fun _ i => wsect i (replicate 512 0)) (seqZ 0 FSSIZE) ();;
    sb <- get msb;;
    wsect 1 (st_words 0 [sb.(sb_size); sb.(sb_nblocks); sb.(sb_ninodes); sb.(sb_nlog); sb.(sb_logstart);
      sb.(sb_inodestart); sb.(sb_bmapstart)] (replicate 512 0));;
    rootino <- ialloc T_DIR;;
    assert (rootino =? ROOTINO);;
    iappend rootino (dirent_for rootino (chars "."));;
    iappend rootino (dirent_for rootino (chars ".."));;
    foldM (fun _ arg => add_file rootino arg) files ();;
    din <- rinode rootino;;
    let off := xint din.(i_size) in
    let off := u32 ((off / BS + 1) * BS) in
    winode rootino (set_i_size (xint off) din);;
    b <- get freeblock;;
    balloc b;;
    exit 0
  | _ => exit 1
  end.

(** The program at its start. *)
Definition mkfs0 : mkst := mkmk (fun _ => replicate 512 0) 0 1 0 (mksb 0 0 0 0 0 0 0).

(** ** Files being built *)

Definition zeros : list Z := replicate 512 0.

(** Block [b] belongs to block [k] of the file with inode [i]; its block of
    addresses counts as block 140. *)
Notation owner := (Z → option (Z * nat)).


(** The file with inode [i], addresses [A] and contents [c] on the image [B],
    with blocks for [z] bytes. *)
Record finv (own : owner) (B : Z → list Z) (i : Z) (A : list Z) (z : Z) (c : list Z) : Prop := {
  fv_len : length A = 13%nat;
  fv_size : Z.of_nat (length c) <= z <= 71680;
  fv_ind : A !!! NDIRECT ≠ 0 ↔ 6144 < z;
  fv_ind_own : A !!! NDIRECT ≠ 0 → own (A !!! NDIRECT) = Some (i, 140%nat);
  fv_addr : ∀ k, (k < 140)%nat → addr_of B A k ≠ 0 ↔ Z.of_nat k * 512 < z;
  fv_own : ∀ k, (k < 140)%nat → addr_of B A k ≠ 0 → own (addr_of B A k) = Some (i, k);
  fv_byte : ∀ o, 0 <= o < 71680 → fbyte B A o = default 0 (c !! Z.to_nat o)
}.

(** The blocks not yet given to a file are from [fb]. *)
Record pool (own : owner) (B : Z → list Z) (fb : Z) : Prop := {
  pl_fb : 59 <= fb <= 1000;
  pl_own : ∀ b x, own b = Some x → 59 <= b < fb;
  pl_fresh : ∀ b, fb <= b < 1000 → B b = zeros;
  pl_len : ∀ b, length (B b) = 512%nat
}.

(** From [own] and [B] to [own'] and [B'] only the file [i] has changed. *)
Definition only (i : Z) (own : owner) (B : Z → list Z) (own' : owner) (B' : Z → list Z) : Prop :=
  (∀ b j k, own b = Some (j, k) → j ≠ i → own' b = own b ∧ B' b = B b) ∧ (∀ b, b < 59 → B' b = B b).

Lemma only_refl i own B : only i own B own B.
Proof. by split. Qed.

Lemma only_trans i own B own1 B1 own2 B2 : only i own B own1 B1 → only i own1 B1 own2 B2 → only i own B own2 B2.
Proof.
  intros [H1 H2] [H3 H4]. split.
  - intros b j k Hb Hj. destruct (H1 b j k Hb Hj) as [E1 E2]. rewrite <- E1 in Hb. destruct (H3 b j k Hb Hj) as [E3 E4].
    by rewrite E3, E4.
  - intros b Hb. by rewrite H4, H2.
Qed.

Lemma fbyte_block B B' A A' o : fblock B' A' (Z.to_nat (o / 512)) = fblock B A (Z.to_nat (o / 512)) → fbyte B' A' o = fbyte B A o.
Proof. unfold fbyte. by intros ->. Qed.

Lemma file_block_lt o : 0 <= o < 71680 → (Z.to_nat (o / 512) < 140)%nat.
Proof.
  intros Ho. assert (0 <= o / 512 < 140) by (split; [apply Z.div_pos; lia|apply Z.div_lt_upper_bound; lia]). lia.
Qed.

(** A file depends on the blocks it owns only. *)
Lemma finv_frame own B own' B' i A z c : finv own B i A z c →
  (∀ b k, own b = Some (i, k) → own' b = own b ∧ B' b = B b) → finv own' B' i A z c.
Proof.
  intros [F1 F2 F3 F4 F5 F6 F7] Hf.
  assert (∀ k, addr_of B' A k = addr_of B A k) as Ea.
  { intros k. unfold addr_of. destruct (k <? NDIRECT)%nat; [done|]. destruct (Z.eqb_spec (A !!! NDIRECT) 0) as [|Hn]; [done|].
    by destruct (Hf _ _ (F4 Hn)) as [_ ->]. }
  split; try done.
  - intros Hn. destruct (Hf _ _ (F4 Hn)) as [-> _]. by apply F4.
  - intros k Hk. by rewrite Ea, F5.
  - intros k Hk. rewrite Ea. intros Hn. destruct (Hf _ _ (F6 k Hk Hn)) as [-> _]. by apply F6.
  - intros o Ho. rewrite <- F7 by done. apply fbyte_block. unfold fblock. rewrite Ea.
    destruct (Z.eqb_spec (addr_of B A (Z.to_nat (o / 512))) 0) as [|Hn]; [done|].
    by destruct (Hf _ _ (F6 _ (file_block_lt o Ho) Hn)) as [_ ->].
Qed.

Lemma finv_only i own B own' B' j A z c : only i own B own' B' → j ≠ i → finv own B j A z c → finv own' B' j A z c.
Proof. intros [Ho _] Hj Hf. apply (finv_frame own B); [done|]. intros b k Hb. by apply (Ho b j k). Qed.

(** Room for more bytes in the blocks that are there. *)
Lemma finv_more own B i A z z' c : finv own B i A z c → z <= z' → z mod 512 ≠ 0 → z' <= 512 * (z / 512 + 1) → finv own B i A z' c.
Proof.
  intros [F1 F2 F3 F4 F5 F6 F7] Hz Hm Hz'. pose proof (Z.div_mod z 512 ltac:(lia)). pose proof (Z.mod_pos_bound z 512 ltac:(lia)).
  assert (z / 512 < 140) by (apply Z.div_lt_upper_bound; [lia|]; destruct (Z.eq_dec z 71680) as [-> |]; [done|lia]).
  split; try done; [lia| |].
  - rewrite F3. lia.
  - intros k Hk. rewrite F5 by done. lia.
Qed.

(** ** Allocation *)

Lemma addr_insert_direct B A k a j : length A = 13%nat → (k < 12)%nat →
  addr_of B (<[k := a]> A) j = if decide (j = k) then a else addr_of B A j.
Proof.
  intros Hl Hk. unfold addr_of, NDIRECT. rewrite (list_lookup_total_insert_ne A k 12) by lia.
  destruct (Nat.ltb_spec j 12).
  - case_decide as E; [subst j; by rewrite list_lookup_total_insert_eq by lia|by rewrite list_lookup_total_insert_ne].
  - rewrite decide_False by lia. done.
Qed.

Lemma finv_direct own B i A c k fb z : finv own B i A (512 * Z.of_nat k) c → (k < 12)%nat → pool own B fb → fb < 1000 →
  512 * Z.of_nat k < z <= 512 * Z.of_nat k + 512 →
  finv (<[fb := Some (i, k)]> own) B i (<[k := fb]> A) z c.
Proof.
  intros [F1 F2 F3 F4 F5 F6 F7] Hk [P1 P2 P3 P4] Hfb Hz.
  assert (∀ b x, own b = Some x → <[fb := Some (i, k)]> own b = own b) as Ho.
  { intros b x Hb. apply P2 in Hb. rewrite fn_lookup_insert_ne; [done|lia]. }
  assert (addr_of B A k = 0) as E0.
  { destruct (Z.eq_dec (addr_of B A k) 0) as [|Hn]; [done|]. apply F5 in Hn; lia. }
  split.
  - by rewrite length_insert.
  - lia.
  - unfold NDIRECT in *. rewrite list_lookup_total_insert_ne by lia. rewrite F3. lia.
  - unfold NDIRECT in *. rewrite list_lookup_total_insert_ne by lia. intros Hn. by rewrite (Ho _ _ (F4 Hn)), F4.
  - intros j Hj. rewrite addr_insert_direct by done. case_decide; [lia|]. rewrite F5 by done. lia.
  - intros j Hj. rewrite addr_insert_direct by done. case_decide as E; [subst j; intros _; by rewrite fn_lookup_insert|].
    intros Hn. by rewrite (Ho _ _ (F6 j Hj Hn)), F6.
  - intros o Hoo. rewrite <- F7 by done. apply fbyte_block. unfold fblock. rewrite addr_insert_direct by done.
    case_decide as E; [|done]. rewrite E, E0. destruct (Z.eqb_spec fb 0); [lia|]. cbn. by apply P3.
Qed.

Lemma pool_take own B fb x : pool own B fb → fb < 1000 → pool (<[fb := Some x]> own) B (fb + 1).
Proof.
  intros [P1 P2 P3 P4] Hfb. split; [lia| |intros b Hb; apply P3; lia|done].
  intros b y Hb. destruct (decide (b = fb)) as [-> |]; [lia|]. rewrite fn_lookup_insert_ne in Hb by done. apply P2 in Hb. lia.
Qed.

Lemma only_take i own B fb k : pool own B fb → only i own B (<[fb := Some (i, k)]> own) B.
Proof.
  intros [P1 P2 P3 P4]. split; [|done]. intros b j x Hb Hj. split; [|done]. apply P2 in Hb. by rewrite fn_lookup_insert_ne by lia.
Qed.

Lemma ld32_zeros_block o : (o + 4 <= 512)%nat → ld32 zeros o = 0.
Proof. intros Ho. unfold ld32, zeros. by rewrite !lookup_total_replicate_2 by lia. Qed.

(** The first block behind the direct ones needs a block of addresses. *)
Lemma addr_first_indirect B A fb j : length A = 13%nat → A !!! 12%nat = 0 → 0 < fb < 1000 → B fb = zeros → (j < 140)%nat →
  addr_of (<[fb := st32 0 (fb + 1) (B fb)]> B) (<[12%nat := fb]> A) j = if decide (j = 12%nat) then fb + 1 else addr_of B A j.
Proof.
  intros Hl Ha Hfb Hz Hj. unfold addr_of, NDIRECT. rewrite list_lookup_total_insert_eq by lia. rewrite Ha. cbn [Z.eqb].
  destruct (Nat.ltb_spec j 12).
  - rewrite decide_False by lia. by rewrite list_lookup_total_insert_ne by lia.
  - destruct (Z.eqb_spec fb 0); [lia|]. rewrite fn_lookup_insert, Hz. case_decide as E.
    + subst j. rewrite ld_st32_same by (unfold zeros; rewrite length_replicate; lia). apply u32_id. unfold word, two32. lia.
    + rewrite ld_st32_ne by lia. apply ld32_zeros_block. lia.
Qed.

Lemma finv_first_indirect own B i A c fb z : finv own B i A 6144 c → pool own B fb → fb + 1 < 1000 → 6144 < z <= 6656 →
  finv (<[fb + 1 := Some (i, 12%nat)]> (<[fb := Some (i, 140%nat)]> own)) (<[fb := st32 0 (fb + 1) (B fb)]> B) i (<[12%nat := fb]> A) z c.
Proof.
  intros [F1 F2 F3 F4 F5 F6 F7] [P1 P2 P3 P4] Hfb Hz. unfold NDIRECT in *. set (own' := <[fb + 1 := _]> _).
  assert (∀ b x, own b = Some x → own' b = own b ∧ b ≠ fb) as Ho.
  { intros b x Hb. apply P2 in Hb. unfold own'. rewrite !fn_lookup_insert_ne by lia. split; [done|lia]. }
  assert (A !!! 12%nat = 0) as E0 by (destruct (Z.eq_dec (A !!! 12%nat) 0) as [|Hn]; [done|apply F3 in Hn; lia]).
  assert (∀ j, (j < 140)%nat → addr_of (<[fb := st32 0 (fb + 1) (B fb)]> B) (<[12%nat := fb]> A) j =
    if decide (j = 12%nat) then fb + 1 else addr_of B A j) as Ea.
  { intros j Hj. apply addr_first_indirect; [done|done|lia|apply P3; lia|done]. }
  split; unfold NDIRECT.
  - by rewrite length_insert.
  - lia.
  - rewrite list_lookup_total_insert_eq by lia. lia.
  - rewrite list_lookup_total_insert_eq by lia. intros _. unfold own'. rewrite fn_lookup_insert_ne by lia. by rewrite fn_lookup_insert.
  - intros j Hj. rewrite Ea by done. case_decide; [lia|]. rewrite F5 by done. lia.
  - intros j Hj. rewrite Ea by done. case_decide as E; [subst j; intros _; by unfold own'; rewrite fn_lookup_insert|].
    intros Hn. destruct (Ho _ _ (F6 j Hj Hn)) as [-> _]. by apply F6.
  - intros o Hoo. rewrite <- F7 by done. apply fbyte_block. pose proof (file_block_lt o Hoo) as Hk. unfold fblock. rewrite Ea by done.
    assert (addr_of B A 12 = 0) as E1 by (destruct (Z.eq_dec (addr_of B A 12) 0) as [|Hn]; [done|apply F5 in Hn; lia]).
    case_decide as E.
    + rewrite E, E1. destruct (Z.eqb_spec (fb + 1) 0); [lia|]. rewrite fn_lookup_insert_ne by lia. apply P3. lia.
    + destruct (Z.eqb_spec (addr_of B A (Z.to_nat (o / 512))) 0) as [|Hn]; [done|].
      destruct (Ho _ _ (F6 _ Hk Hn)) as [_ Hne]. by rewrite fn_lookup_insert_ne.
Qed.

(** A block behind the direct ones whose block of addresses is there. *)
Lemma addr_entry B A k a j : A !!! 12%nat ≠ 0 → length (B (A !!! 12%nat)) = 512%nat → (12 <= k < 140)%nat → (j < 140)%nat → word a →
  addr_of (<[A !!! 12%nat := st32 (4 * (k - 12)) a (B (A !!! 12%nat))]> B) A j = if decide (j = k) then a else addr_of B A j.
Proof.
  intros Hn Hl Hk Hj Ha. unfold addr_of, NDIRECT. destruct (Nat.ltb_spec j 12); [by rewrite decide_False by lia|].
  destruct (Z.eqb_spec (A !!! 12%nat) 0); [done|]. rewrite fn_lookup_insert. case_decide as E.
  - subst j. rewrite ld_st32_same by lia. by apply u32_id.
  - by rewrite ld_st32_ne by lia.
Qed.

Lemma finv_entry own B i A c k fb z : finv own B i A (512 * Z.of_nat k) c → (12 < k < 140)%nat → pool own B fb → fb < 1000 →
  512 * Z.of_nat k < z <= 512 * Z.of_nat k + 512 →
  finv (<[fb := Some (i, k)]> own) (<[A !!! 12%nat := st32 (4 * (k - 12)) fb (B (A !!! 12%nat))]> B) i A z c.
Proof.
  intros [F1 F2 F3 F4 F5 F6 F7] Hk [P1 P2 P3 P4] Hfb Hz. unfold NDIRECT in *.
  assert (∀ b x, own b = Some x → <[fb := Some (i, k)]> own b = own b ∧ b ≠ fb) as Ho.
  { intros b x Hb. apply P2 in Hb. rewrite fn_lookup_insert_ne by lia. split; [done|lia]. }
  assert (A !!! 12%nat ≠ 0) as Hn by (apply F3; lia).
  assert (∀ j, (j < 140)%nat → addr_of (<[A !!! 12%nat := st32 (4 * (k - 12)) fb (B (A !!! 12%nat))]> B) A j =
    if decide (j = k) then fb else addr_of B A j) as Ea.
  { intros j Hj. apply addr_entry; [done|apply P4|lia|done|unfold word, two32; lia]. }
  split; try done; unfold NDIRECT.
  - lia.
  - rewrite F3. lia.
  - intros _. destruct (Ho _ _ (F4 Hn)) as [-> _]. by apply F4.
  - intros j Hj. rewrite Ea by done. case_decide; [lia|]. rewrite F5 by done. lia.
  - intros j Hj. rewrite Ea by done. case_decide as E; [subst j; intros _; by rewrite fn_lookup_insert|].
    intros Hn'. destruct (Ho _ _ (F6 j Hj Hn')) as [-> _]. by apply F6.
  - intros o Hoo. rewrite <- F7 by done. apply fbyte_block. pose proof (file_block_lt o Hoo) as Hb. unfold fblock. rewrite Ea by done.
    pose proof (P2 _ _ (F4 Hn)) as Hi.
    assert (addr_of B A k = 0) as E1 by (destruct (Z.eq_dec (addr_of B A k) 0) as [|Hn']; [done|apply F5 in Hn'; lia]).
    case_decide as E.
    + rewrite E, E1. destruct (Z.eqb_spec fb 0); [lia|]. rewrite fn_lookup_insert_ne by lia. cbn. apply P3. lia.
    + destruct (Z.eqb_spec (addr_of B A (Z.to_nat (o / 512))) 0) as [|Hn']; [done|].
      rewrite fn_lookup_insert_ne; [done|]. intros Eq. pose proof (F6 _ Hb Hn') as Hw. rewrite <- Eq, F4 in Hw by done.
      injection Hw as Hw. lia.
Qed.

Lemma pool_write own B fb b d : pool own B fb → b < fb → length d = 512%nat → pool own (<[b := d]> B) fb.
Proof.
  intros [P1 P2 P3 P4] Hb Hd. split; [done|done| |].
  - intros x Hx. rewrite fn_lookup_insert_ne by lia. by apply P3.
  - intros x. destruct (decide (x = b)) as [-> |]; [by rewrite fn_lookup_insert|by rewrite fn_lookup_insert_ne].
Qed.

Lemma only_write i own B b k d : own b = Some (i, k) → 59 <= b → only i own B own (<[b := d]> B).
Proof.
  intros Hb Hr. split.
  - intros x j l Hx Hj. split; [done|]. rewrite fn_lookup_insert_ne; [done|]. intros ->. congruence.
  - intros x Hx. by rewrite fn_lookup_insert_ne by lia.
Qed.

(** ** Appending to a block *)

Lemma default_app (c d : list Z) o : 0 <= o → o < Z.of_nat (length c) ∨ Z.of_nat (length c + length d) <= o →
  default 0 ((c ++ d) !! Z.to_nat o) = default 0 (c !! Z.to_nat o).
Proof.
  intros Ho [Hl|Hl].
  - by rewrite lookup_app_l by lia.
  - by rewrite !lookup_ge_None_2 by (rewrite ?length_app; lia).
Qed.

Lemma finv_write own B i A z c d k : finv own B i A z c → let off := Z.of_nat (length c) in
  off / 512 = Z.of_nat k → (0 < length d)%nat → off mod 512 + Z.of_nat (length d) <= 512 → off + Z.of_nat (length d) <= z →
  let x := addr_of B A k in length (B x) = 512%nat →
  own x = Some (i, k) ∧ finv own (<[x := splice (Z.to_nat (off mod 512)) d (B x)]> B) i A z (c ++ d).
Proof.
  intros [F1 F2 F3 F4 F5 F6 F7] off Hk Hd Hd2 Hz x Hlen. pose proof (Z.div_mod off 512 ltac:(lia)) as Hdm.
  pose proof (Z.mod_pos_bound off 512 ltac:(lia)) as Hm. unfold NDIRECT in *.
  assert (k < 140)%nat as Hk2 by lia. assert (x ≠ 0) as Hx by (apply F5; lia). pose proof (F6 k Hk2 Hx) as Hox. fold x in Hox.
  split; [done|]. set (B' := <[x := _]> B).
  assert (A !!! 12%nat ≠ 0 → A !!! 12%nat ≠ x) as Hind.
  { intros Hn E. pose proof (F4 Hn) as Hw. rewrite E, Hox in Hw. injection Hw as Hw. lia. }
  assert (∀ j, addr_of B' A j = addr_of B A j) as Ea.
  { intros j. unfold addr_of, NDIRECT. destruct (j <? 12)%nat; [done|]. destruct (Z.eqb_spec (A !!! 12%nat) 0) as [|Hn]; [done|].
    unfold B'. by rewrite fn_lookup_insert_ne by (by apply not_eq_sym, Hind). }
  split; try done.
  - rewrite length_app. lia.
  - intros j Hj. by rewrite Ea, F5.
  - intros j Hj. by rewrite Ea; apply F6.
  - intros o Ho. pose proof (file_block_lt o Ho) as Hj. pose proof (Z.div_mod o 512 ltac:(lia)) as Hodm.
    pose proof (Z.mod_pos_bound o 512 ltac:(lia)) as Hom. destruct (decide (Z.to_nat (o / 512) = k)) as [E|E].
    + assert (o / 512 = Z.of_nat k) as E' by lia. rewrite E' in Hodm.
      unfold fbyte, fblock. rewrite E, Ea. fold x. destruct (Z.eqb_spec x 0); [done|]. unfold B'. rewrite fn_lookup_insert.
      rewrite splice_lookup by lia. case_decide as Hin.
      * rewrite lookup_app_r by lia. replace (Z.to_nat (o mod 512) - Z.to_nat (off mod 512))%nat with (Z.to_nat o - length c)%nat by lia.
        destruct (lookup_lt_is_Some_2 d (Z.to_nat o - length c)) as [v Hv]; [lia|]. by rewrite (list_lookup_total_correct _ _ _ Hv), Hv.
      * rewrite default_app by lia. rewrite <- F7 by done. unfold fbyte, fblock. rewrite E. fold x. by destruct (Z.eqb_spec x 0).
    + rewrite default_app.
      * rewrite <- F7 by done. apply fbyte_block. unfold fblock. rewrite Ea.
        destruct (Z.eqb_spec (addr_of B A (Z.to_nat (o / 512))) 0) as [|Hn]; [done|]. unfold B'. rewrite fn_lookup_insert_ne; [done|].
        intros Eq. pose proof (F6 _ Hj Hn) as Hw. rewrite <- Eq, Hox in Hw. injection Hw as Hw. lia.
      * lia.
      * assert (o / 512 < Z.of_nat k ∨ Z.of_nat k < o / 512) as [Hlt|Hlt] by lia; [left; nia|right]. 
        assert (512 * Z.of_nat k + 512 <= o) by nia. lia.
Qed.

(** ** The operations on sectors *)

Lemma xint_id x : word x → xint x = x.
Proof.
  unfold word, two32, xint. intros Hx. rewrite !Z.shiftr_div_pow2 by lia. change (2 ^ 8) with 256. change (2 ^ 16) with 65536.
  change (2 ^ 24) with 16777216. replace (x / 65536) with (x / 256 / 256) by (rewrite Z.div_div by lia; done).
  replace (x / 16777216) with (x / 256 / 256 / 256) by (rewrite !Z.div_div by lia; done).
  pose proof (Z.div_mod x 256 ltac:(lia)). pose proof (Z.div_mod (x / 256) 256 ltac:(lia)).
  pose proof (Z.div_mod (x / 256 / 256) 256 ltac:(lia)). rewrite (Z.mod_small (x / 256 / 256 / 256)); [lia|].
  rewrite !Z.div_div by lia. split; [apply Z.div_pos; lia|apply Z.div_lt_upper_bound; lia].
Qed.

Lemma xshort_id x : 0 <= x < 65536 → xshort x = x.
Proof.
  unfold xshort. intros Hx. rewrite Z.shiftr_div_pow2 by lia. change (2 ^ 8) with 256. pose proof (Z.div_mod x 256 ltac:(lia)).
  rewrite (Z.mod_small (x / 256)); [lia|]. split; [apply Z.div_pos; lia|apply Z.div_lt_upper_bound; lia].
Qed.

Lemma sector_id x : 0 <= x < 1000 → sector x = x.
Proof.
  intros Hx. unfold sector, BS. rewrite u32_id by (unfold word, two32; lia). by rewrite Z.div_mul.
Qed.

Lemma wsect_run x d s : s.(nsect) = 1000 → 0 <= x < 1000 → wsect x d s = Ret () (set_image (<[x := d]> s.(image)) s).
Proof.
  intros Hn Hx. unfold wsect, modify. rewrite sector_id by done. rewrite Hn, Z.max_l by lia. f_equal. destruct s. cbn in *. by subst.
Qed.

Lemma rsect_run x s : s.(nsect) = 1000 → 0 <= x < 1000 → rsect x s = Ret (s.(image) x) s.
Proof.
  intros Hn Hx. unfold rsect. rewrite bind_get, sector_id, Hn by done. by destruct (Z.ltb_spec x 1000); [|lia].
Qed.

Lemma take_free_run s : 0 <= s.(freeblock) < 1000 → take_free s = Ret s.(freeblock) (set_freeblock (s.(freeblock) + 1) s).
Proof. intros Hf. unfold take_free. rewrite bind_get, bind_modify, u32_id by (unfold word, two32; lia). done. Qed.

(** The blocks of a file of [z] bytes. *)
Definition nblk (z : Z) : Z := (z + 511) / 512 + (if 6144 <? z then 1 else 0).

Lemma nblk_in k r : (0 <= k) → 0 < r <= 512 → nblk (512 * k + r) = k + 1 + (if 12 <=? k then 1 else 0).
Proof.
  intros Hk Hr. unfold nblk. replace (512 * k + r + 511) with (r - 1 + (k + 1) * 512) by lia.
  rewrite Z.div_add, (Z.div_small (r - 1)) by lia. destruct (Z.ltb_spec 6144 (512 * k + r)), (Z.leb_spec 12 k); lia.
Qed.

Lemma nblk_at k : 0 <= k → nblk (512 * k) = k + (if 12 <? k then 1 else 0).
Proof.
  intros Hk. unfold nblk. replace (512 * k + 511) with (511 + k * 512) by lia. rewrite Z.div_add, (Z.div_small 511) by lia.
  destruct (Z.ltb_spec 6144 (512 * k)), (Z.ltb_spec 12 k); lia.
Qed.

Lemma nblk_nonneg z : 0 <= z → 0 <= nblk z.
Proof. intros Hz. unfold nblk. pose proof (Z.div_pos (z + 511) 512). destruct (6144 <? z); lia. Qed.

Lemma nblk_mono a b : a <= b → nblk a <= nblk b.
Proof.
  intros Hab. unfold nblk. pose proof (Z.div_le_mono (a + 511) (b + 511) 512 ltac:(lia) ltac:(lia)).
  destruct (Z.ltb_spec 6144 a), (Z.ltb_spec 6144 b); lia.
Qed.

Definition upd (B : Z → list Z) (fb : Z) (s : mkst) : mkst := set_freeblock fb (set_image B s).

(** The result of an operation on the file [i]: the inode [din] has the
    addresses [A'], the image is [B'], and the blocks below [fb'] are taken. *)
Definition changed (i : Z) (own own' : owner) (B' : Z → list Z) (fb' : Z) (s s' : mkst) : Prop :=
  s' = upd B' fb' s ∧ pool own' B' fb' ∧ only i own s.(image) own' B'.

Section sectors.
Context (i : Z) (own : owner) (c : list Z) (s : mkst) (din : inode) (k : nat) (n1 : Z).
Notation A := (i_addrs din).
Notation B := (image s).
Notation fb := (freeblock s).
Notation off := (Z.of_nat (length c)).
Hypothesis (Hns : s.(nsect) = 1000) (Hpool : pool own B fb) (Hf : finv own B i A off c).
Hypothesis (Hk : off / 512 = Z.of_nat k) (Hn1 : 0 < n1) (Hn2 : off mod 512 + n1 <= 512) (Hmax : (k < 140)%nat).

Definition sector_found : Prop := ∃ own' A' B' fb', fb' = fb + (nblk (off + n1) - nblk off) ∧
  file_sector din (Z.of_nat k) s = Ret (set_i_addrs A' din, addr_of B' A' k) (upd B' fb' s) ∧
  finv own' B' i A' (off + n1) c ∧ pool own' B' fb' ∧ only i own B own' B'.

Lemma off_eq : off = 512 * Z.of_nat k + off mod 512 ∧ 0 <= off mod 512 < 512.
Proof. pose proof (Z.div_mod off 512 ltac:(lia)). pose proof (Z.mod_pos_bound off 512 ltac:(lia)). lia. Qed.

Lemma owned_small b x : own b = Some x → 0 <= b < 1000 ∧ word b.
Proof. intros Hb. destruct Hpool as [P1 P2 P3 P4]. apply P2 in Hb. unfold word, two32. lia. Qed.

Lemma upd_same : upd B fb s = s.
Proof. by destruct s. Qed.

Lemma set_addrs_same : set_i_addrs A din = din.
Proof. by destruct din. Qed.

(** The block is there. *)
Lemma sector_old : off mod 512 ≠ 0 → sector_found.
Proof.
  intros Hm. destruct off_eq as [Eo Hb]. pose proof Hf as [F1 F2 F3 F4 F5 F6 F7].
  exists own, A, B, fb. split.
  { rewrite Eo at 2. replace (off + n1) with (512 * Z.of_nat k + (off mod 512 + n1)) by lia. rewrite !nblk_in by lia. lia. }
  assert (addr_of B A k ≠ 0) as Hx by (apply F5; lia). destruct (owned_small _ _ (F6 k Hmax Hx)) as [_ Hw].
  split; [|split; [apply (finv_more own B i A off); [done|lia|done|lia]|split; [done|apply only_refl]]].
  rewrite upd_same, set_addrs_same. unfold file_sector. unfold addr_of, NDIRECT in *. rewrite Nat2Z.id. unfold addr.
  destruct (Nat.ltb_spec k 12), (Z.ltb_spec (Z.of_nat k) (Z.of_nat 12)); try lia.
  - rewrite !xint_id by done. destruct (Z.eqb_spec (A !!! k) 0); [done|]. rewrite bind_ret_l. by rewrite xint_id.
  - assert (A !!! 12%nat ≠ 0) as Hn by (apply F3; lia). destruct (owned_small _ _ (F4 Hn)) as [Hr Hw2].
    rewrite !xint_id by done. destruct (Z.eqb_spec (A !!! 12%nat) 0); [done|]. rewrite bind_ret_l. cbv zeta. rewrite !xint_id by done.
    rewrite (bind_returns _ _ _ _ _ (rsect_run _ _ Hns Hr)). destruct (Z.eqb_spec (ld32 (B (A !!! 12%nat)) (4 * (k - 12))) 0); [done|].
    rewrite bind_ret_l. by rewrite xint_id.
Qed.
Hypothesis (Hcap : fb + (nblk (off + n1) - nblk off) <= 1000).

Lemma len_set_addr A' : i_addrs (set_i_addrs A' din) = A'.
Proof. done. Qed.

Lemma word_small x : 0 <= x <= 1000 → word x.
Proof. unfold word, two32. lia. Qed.

(** A new direct block. *)
Lemma sector_direct : off mod 512 = 0 → (k < 12)%nat → sector_found.
Proof.
  intros Hm Hk12. destruct off_eq as [Eo _]. rewrite Hm, Z.add_0_r in Eo. pose proof (pl_fb _ _ _ Hpool) as Hfb.
  assert (nblk (off + n1) - nblk off = 1) as En.
  { rewrite Eo, nblk_in, nblk_at by lia. destruct (Z.leb_spec 12 (Z.of_nat k)), (Z.ltb_spec 12 (Z.of_nat k)); lia. }
  rewrite En in Hcap. pose proof Hf as [F1 _ _ _ F5 _ _]. pose proof Hf as Hf0. rewrite Eo in Hf0.
  exists (<[fb := Some (i, k)]> own), (<[k := fb]> A), B, (fb + 1). split; [lia|].
  split; [|split; [apply finv_direct; (done || lia)|split; [apply pool_take; (done || lia)|by apply only_take]]].
  assert (addr_of B A k = 0) as E0 by (destruct (Z.eq_dec (addr_of B A k) 0) as [|Hn]; [done|apply F5 in Hn; lia]).
  rewrite addr_insert_direct, decide_True by done. unfold addr_of, NDIRECT in E0. destruct (Nat.ltb_spec k 12); [|lia].
  unfold file_sector, NDIRECT. destruct (Z.ltb_spec (Z.of_nat k) (Z.of_nat 12)); [|lia]. rewrite Nat2Z.id. unfold addr.
  rewrite E0. change (xint 0 =? 0) with true. cbv iota.
  assert (0 <= fb < 1000) as Hr by lia.
  rewrite (bind_returns _ _ _ (set_addr k fb din) (set_freeblock (fb + 1) s)).
  2: { rewrite (bind_returns _ _ _ _ _ (take_free_run s Hr)). unfold ret. by rewrite xint_id by (apply word_small; lia). }
  unfold set_addr. cbn [i_addrs set_i_addrs]. rewrite list_lookup_total_insert_eq by lia. rewrite xint_id by (apply word_small; lia).
  unfold upd. by destruct s.
Qed.

(** The first block with its block of addresses. *)
Lemma sector_first_indirect : off mod 512 = 0 → k = 12%nat → sector_found.
Proof.
  intros Hm Hk12. destruct off_eq as [Eo _]. rewrite Hm, Z.add_0_r, Hk12 in Eo. pose proof (pl_fb _ _ _ Hpool) as Hfb.
  assert (nblk (off + n1) - nblk off = 2) as En by (rewrite Eo, nblk_in, nblk_at by lia; done).
  rewrite En in Hcap. pose proof Hf as [F1 _ F3 _ _ _ _]. unfold NDIRECT in F3. pose proof Hf as Hf0. rewrite Eo in Hf0.
  set (own1 := <[fb := Some (i, 140%nat)]> own). set (d := st32 0 (fb + 1) (B fb)).
  assert (pool own1 B (fb + 1)) as P1 by (apply pool_take; [done|lia]).
  assert (length d = 512%nat) as Hd by (unfold d; rewrite length_st32; apply Hpool).
  exists (<[fb + 1 := Some (i, 12%nat)]> own1), (<[12%nat := fb]> A), (<[fb := d]> B), (fb + 2). split; [lia|]. rewrite Hk12.
  assert (A !!! 12%nat = 0) as E0 by (destruct (Z.eq_dec (A !!! 12%nat) 0) as [|Hn]; [done|apply F3 in Hn; lia]).
  assert (own1 fb = Some (i, 140%nat)) as Hown by apply fn_lookup_insert.
  assert (B fb = zeros) as Ez by (apply (pl_fresh _ _ _ Hpool); lia).
  split; [|split; [apply finv_first_indirect; (done || lia)|split]].
  - unfold d. rewrite (addr_first_indirect B A fb 12), decide_True by (done || lia).
    unfold file_sector, NDIRECT. change (Z.of_nat 12 <? Z.of_nat 12) with false. cbv iota. unfold addr. rewrite E0. change (xint 0 =? 0) with true. cbv iota.
    assert (0 <= fb < 1000) as Hr by lia. assert (0 <= fb + 1 < 1000) as Hr1 by lia.
    rewrite (bind_returns _ _ _ (set_addr 12 fb din) (set_freeblock (fb + 1) s)).
    2: { rewrite (bind_returns _ _ _ _ _ (take_free_run s Hr)). unfold ret. by rewrite xint_id by (apply word_small; lia). }
    unfold set_addr. cbn [i_addrs set_i_addrs]. rewrite list_lookup_total_insert_eq by lia. rewrite !xint_id by (apply word_small; lia).
    rewrite (bind_returns _ _ _ _ _ (rsect_run fb (set_freeblock (fb + 1) s) Hns Hr)). cbn [image set_freeblock].
    change (4 * (Z.to_nat (Z.of_nat 12) - 12))%nat with 0%nat. rewrite Ez at 1. rewrite ld32_zeros_block by lia. change (0 =? 0) with true. cbv iota.
    rewrite (bind_returns _ _ _ d (upd (<[fb := d]> B) (fb + 2) s)).
    + unfold d. rewrite ld_st32_same by (rewrite (pl_len _ _ _ Hpool); lia). rewrite u32_id, xint_id by (apply word_small; lia). done.
    + rewrite (bind_returns _ _ _ (fb + 1) (set_freeblock (fb + 2) s)).
      2: { rewrite take_free_run by done. cbn [freeblock set_freeblock]. by replace (fb + 1 + 1) with (fb + 2) by lia. }
      rewrite xint_id by (apply word_small; lia). fold d. cbv zeta. rewrite (bind_returns _ _ _ _ _ (wsect_run fb d (set_freeblock (fb + 2) s) Hns Hr)). done.
  - replace (fb + 2) with (fb + 1 + 1) by lia. apply pool_take; [|lia]. apply (pool_write own1); [done|lia|done].
  - apply (only_trans i own B own1 (<[fb := d]> B)).
    + apply (only_trans i own B own1 B); [by apply only_take|]. apply (only_write i own1 B fb 140); [done|lia].
    + apply only_take. apply (pool_write own1); [done|lia|done].
Qed.

(** A new block behind the direct ones. *)
Lemma sector_entry : off mod 512 = 0 → (12 < k)%nat → sector_found.
Proof.
  intros Hm Hk12. destruct off_eq as [Eo _]. rewrite Hm, Z.add_0_r in Eo. pose proof (pl_fb _ _ _ Hpool) as Hfb.
  assert (nblk (off + n1) - nblk off = 1) as En.
  { rewrite Eo, nblk_in, nblk_at by lia. destruct (Z.leb_spec 12 (Z.of_nat k)), (Z.ltb_spec 12 (Z.of_nat k)); lia. }
  rewrite En in Hcap. pose proof Hf as [F1 _ F3 F4 F5 _ _]. unfold NDIRECT in F3, F4. pose proof Hf as Hf0. rewrite Eo in Hf0.
  assert (A !!! 12%nat ≠ 0) as Hn by (apply F3; lia). destruct (owned_small _ _ (F4 Hn)) as [Hr Hw].
  pose proof (pl_own _ _ _ Hpool _ _ (F4 Hn)) as Hlow. set (a := A !!! 12%nat) in *. set (d := st32 (4 * (k - 12)) fb (B a)).
  assert (length d = 512%nat) as Hd by (unfold d; rewrite length_st32; apply Hpool).
  exists (<[fb := Some (i, k)]> own), A, (<[a := d]> B), (fb + 1). split; [lia|].
  split; [|split; [apply finv_entry; (done || lia)|split]].
  - assert (addr_of B A k = 0) as E0 by (destruct (Z.eq_dec (addr_of B A k) 0) as [|Hn']; [done|apply F5 in Hn'; lia]).
    unfold d, a. rewrite addr_entry, decide_True; [|done|done|apply Hpool|lia|done|apply word_small; lia].
    unfold addr_of, NDIRECT in E0. destruct (Nat.ltb_spec k 12); [lia|]. fold a in E0. destruct (Z.eqb_spec a 0); [done|].
    rewrite set_addrs_same. unfold file_sector, NDIRECT. destruct (Z.ltb_spec (Z.of_nat k) (Z.of_nat 12)); [lia|]. rewrite Nat2Z.id. unfold addr. fold a.
    rewrite (xint_id a) by done. destruct (Z.eqb_spec a 0); [done|]. rewrite bind_ret_l. fold a. cbv zeta. rewrite (xint_id a) by done.
    rewrite (bind_returns _ _ _ _ _ (rsect_run a s Hns Hr)), E0. change (0 =? 0) with true. cbv iota. assert (0 <= fb < 1000) as Hrf by lia.
    rewrite (bind_returns _ _ _ d (upd (<[a := d]> B) (fb + 1) s)).
    + unfold d. rewrite ld_st32_same by (rewrite (pl_len _ _ _ Hpool); lia). rewrite u32_id, xint_id by (apply word_small; lia). done.
    + rewrite (bind_returns _ _ _ _ _ (take_free_run s Hrf)), xint_id by (apply word_small; lia). fold d.
      rewrite (bind_returns _ _ _ _ _ (wsect_run a d (set_freeblock (fb + 1) s) Hns Hr)). done.
  - apply pool_take; [|lia]. apply (pool_write own); [done|lia|done].
  - apply (only_trans i own B own (<[a := d]> B)); [apply (only_write i own B a 140); [by apply F4|lia]|].
    apply only_take. apply (pool_write own); [done|lia|done].
Qed.

Lemma file_sector_run : sector_found.
Proof.
  destruct (Z.eq_dec (off mod 512) 0) as [Hm|Hm]; [|by apply sector_old].
  destruct (lt_eq_lt_dec k 12) as [[H1|H1]|H1]; [by apply sector_direct|by apply sector_first_indirect|by apply sector_entry].
Qed.
End sectors.

(** ** Appending *)

Lemma upd_upd B1 f1 B2 f2 s : upd B2 f2 (upd B1 f1 s) = upd B2 f2 s.
Proof. done. Qed.

(** One turn of the loop. *)
Lemma append_chunk i own c s din p : let off := Z.of_nat (length c) in let n := Z.of_nat (length p) in
  s.(nsect) = 1000 → pool own s.(image) s.(freeblock) → finv own s.(image) i (i_addrs din) off c →
  0 < n → off + n <= 71680 → s.(freeblock) + (nblk (off + n) - nblk off) <= 1000 →
  let n1 := Z.min n ((off / 512 + 1) * 512 - off) in let d := take (Z.to_nat n1) p in
  ∃ own' A' B', let fb' := s.(freeblock) + (nblk (off + n1) - nblk off) in
    finv own' B' i A' (off + n1) (c ++ d) ∧ pool own' B' fb' ∧ only i own s.(image) own' B' ∧
    ∀ fuel, iappend_loop (S fuel) din off p s =
      iappend_loop fuel (set_i_addrs A' din) (off + n1) (drop (Z.to_nat n1) p) (upd B' fb' s).
Proof.
  intros off n Hns HP HF Hn Hmax Hcap n1 d. pose proof (Z.div_mod off 512 ltac:(lia)) as Hdm.
  pose proof (Z.mod_pos_bound off 512 ltac:(lia)) as Hm. pose proof (nblk_mono (off + n1) (off + n) ltac:(lia)) as Hmono.
  assert (0 <= off / 512 < 140) as Hq by lia. set (k := Z.to_nat (off / 512)).
  assert (off / 512 = Z.of_nat k) as Ek by (unfold k; lia).
  destruct (file_sector_run i own c s din k n1 Hns HP HF Ek ltac:(lia) ltac:(fold off; lia) ltac:(unfold k; lia) ltac:(fold off; lia))
    as (own' & A' & B1 & fb' & Efb & E & F1 & P1 & O1). fold off in Efb, F1.
  assert (length d = Z.to_nat n1) as Hd by (unfold d; rewrite length_take; lia).
  pose proof (pl_len _ _ _ P1) as Hlen.
  destruct (finv_write own' B1 i A' (off + n1) c d k F1 Ek ltac:(lia) ltac:(fold off; lia) ltac:(fold off; lia) (Hlen _)) as [Hox F2].
  fold off in F2. set (x := addr_of B1 A' k) in *. set (B2 := <[x := _]> B1) in *.
  pose proof (pl_own _ _ _ P1 _ _ Hox) as Hx. pose proof (pl_fb _ _ _ P1) as Hfb.
  exists own', A', B2. rewrite <- Efb. split; [done|]. split; [|split].
  - apply (pool_write own'); [done|lia|]. rewrite length_splice; [apply Hlen|]. rewrite Hlen, Hd. lia.
  - apply (only_trans i own s.(image) own' B1); [done|]. apply (only_write i own' B1 x k); [done|lia].
  - intros fuel. cbn [iappend_loop]. fold n. destruct (Z.ltb_spec 0 n); [|lia]. cbv zeta. unfold BS. rewrite Ek.
    unfold assert, MAXFILE, NDIRECT, NINDIRECT. destruct (Z.ltb_spec (Z.of_nat k) (Z.of_nat 12 + 128)); [|lia]. rewrite bind_ret_l.
    rewrite (bind_returns _ _ _ _ _ E). cbn [fst snd].
    rewrite (bind_returns _ _ _ _ _ (rsect_run x (upd B1 fb' s) Hns ltac:(lia))).
    rewrite (bind_returns _ _ _ _ _ (wsect_run x _ (upd B1 fb' s) Hns ltac:(lia))). cbn [image upd set_freeblock set_image].
    rewrite <- Ek. fold n1. fold d. rewrite (u32_id (off + n1)) by (unfold word, two32; lia).
    replace (off - off / 512 * 512) with (off mod 512) by lia. done.
Qed.

Lemma iappend_loop_run i : ∀ p fuel own c s din, (length p < fuel)%nat → let off := Z.of_nat (length c) in let n := Z.of_nat (length p) in
  s.(nsect) = 1000 → pool own s.(image) s.(freeblock) → finv own s.(image) i (i_addrs din) off c →
  off + n <= 71680 → s.(freeblock) + (nblk (off + n) - nblk off) <= 1000 →
  ∃ own' A' B', let fb' := s.(freeblock) + (nblk (off + n) - nblk off) in
    iappend_loop fuel din off p s = Ret (set_i_addrs A' din, off + n) (upd B' fb' s) ∧
    finv own' B' i A' (off + n) (c ++ p) ∧ pool own' B' fb' ∧ only i own s.(image) own' B'.
Proof.
  intros p. remember (length p) as m eqn:Em. revert p Em. induction (lt_wf m) as [m _ IH].
  intros p -> fuel own c s din Hf off n Hns HP HF Hmax Hcap. destruct fuel as [|fuel]; [lia|]. destruct (decide (length p = 0%nat)) as [E0|Hm].
  - destruct p; [|done]. exists own, (i_addrs din), s.(image). cbn [iappend_loop length Z.of_nat].
    change (0 <? 0) with false. cbv iota. unfold n. cbn [length]. change (Z.of_nat 0) with 0. rewrite !Z.add_0_r, Z.sub_diag, Z.add_0_r, app_nil_r.
    split; [by destruct s, din|]. split; [done|]. split; [done|apply only_refl].
  - destruct (append_chunk i own c s din p Hns HP HF) as (own1 & A1 & B1 & F1 & P1 & O1 & E1); [lia|exact Hmax|exact Hcap|].
    fold off n in F1, P1, E1. rewrite E1. clear E1. set (n1 := Z.min n ((off / 512 + 1) * 512 - off)) in *.
    pose proof (Z.div_mod off 512 ltac:(lia)). pose proof (Z.mod_pos_bound off 512 ltac:(lia)).
    set (d := take (Z.to_nat n1) p) in *. set (fb1 := s.(freeblock) + (nblk (off + n1) - nblk off)) in *.
    assert (Z.of_nat (length (c ++ d)) = off + n1) as El by (rewrite length_app; unfold d; rewrite length_take; lia).
    assert (Z.of_nat (length p - Z.to_nat n1) = n - n1) as Em2 by lia.
    destruct (IH (length p - Z.to_nat n1)%nat ltac:(lia) (drop (Z.to_nat n1) p) ltac:(rewrite length_drop; lia) fuel own1 (c ++ d) (upd B1 fb1 s) (set_i_addrs A1 din))
      as (own' & A' & B' & E & F & P & O); rewrite ?El, ?Em2; try done.
    + lia.
    + lia.
    + cbn [freeblock upd set_freeblock]. unfold fb1. replace (off + n1 + (n - n1)) with (off + n) by lia. lia.
    + exists own', A', B'. rewrite El, Em2 in E, F, P. replace (off + n1 + (n - n1)) with (off + n) in * by lia.
      cbn [freeblock upd set_freeblock] in *. replace (fb1 + (nblk (off + n) - nblk (off + n1))) with (freeblock s + (nblk (off + n) - nblk off)) in * by (unfold fb1; lia).
      rewrite E. split; [done|]. split; [|split; [done|by apply (only_trans i own s.(image) own1 B1)]].
      rewrite <- app_assoc in F. unfold d in F. by rewrite take_drop in F.
Qed.

(** ** Inodes on the image *)

Definition the_sb : superblock := mksb 1000 941 200 30 2 32 58.

(** The inode of a file on the disk. *)
Definition dent (ty sz : Z) (A : list Z) : inode := set_i_addrs A (set_i_size sz (set_i_nlink 1 (set_i_type ty inode0))).
Definition iblock (i : Z) : Z := i / 8 + 32.
Definition on_disk (B : Z → list Z) (i : Z) (p : inode) : Prop := dinode_load (dinode_off i) (B (iblock i)) inode0 = p.
Definition put_inode (i : Z) (p : inode) (B : Z → list Z) : Z → list Z :=
  <[iblock i := dinode_store (dinode_off i) p (B (iblock i))]> B.

Lemma iblock_range i : 0 <= i < 200 → 32 <= iblock i < 57 ∧ IBLOCK i the_sb = iblock i.
Proof.
  intros Hi. unfold iblock, IBLOCK, IPB, the_sb. cbn [sb_inodestart].
  assert (0 <= i / 8 < 25) by (split; [apply Z.div_pos; lia|apply Z.div_lt_upper_bound; lia]).
  split; [lia|]. apply u32_id. unfold word, two32. lia.
Qed.

Lemma dinode_off_range i : 0 <= i → (dinode_off i + 64 <= 512)%nat.
Proof. intros Hi. unfold dinode_off, dinode_size, IPB. pose proof (Z.mod_pos_bound i 8 ltac:(lia)). lia. Qed.

Lemma dinode_load_ext o d d' q : (∀ j, (o <= j < o + 64)%nat → d !!! j = d' !!! j) → dinode_load o d q = dinode_load o d' q.
Proof.
  intros Hj. unfold dinode_load, ld16, ld32. rewrite !Hj by lia. f_equal. apply list_fmap_ext. intros k x Hx.
  apply lookup_seq in Hx as [-> Hk]. unfold NDIRECT in Hk. by rewrite !Hj by lia.
Qed.

Lemma on_disk_other B i j p q : length (i_addrs p) = 13%nat → 0 <= i < 200 → 0 <= j < 200 → i ≠ j →
  on_disk B j q → on_disk (put_inode i p B) j q.
Proof.
  intros Hl Hi Hj Hne <-. unfold on_disk, put_inode. destruct (decide (iblock j = iblock i)) as [E|E];
    [|by rewrite fn_lookup_insert_ne].
  rewrite E, fn_lookup_insert. apply dinode_load_ext. intros k Hk. apply dinode_store_outside; [done|].
  unfold dinode_size. intros Hk2. apply Hne. unfold iblock, dinode_off, dinode_size, IPB in *.
  pose proof (Z.mod_pos_bound i 8 ltac:(lia)). pose proof (Z.mod_pos_bound j 8 ltac:(lia)).
  pose proof (Z.div_mod i 8 ltac:(lia)). pose proof (Z.div_mod j 8 ltac:(lia)). lia.
Qed.

Lemma on_disk_same B i ty sz A : 0 <= i → length (B (iblock i)) = 512%nat → dinode_ok (dent ty sz A) →
  on_disk (put_inode i (dent ty sz A) B) i (dent ty sz A).
Proof.
  intros Hi Hl Hok. unfold on_disk, put_inode. rewrite fn_lookup_insert. pose proof (dinode_off_range i Hi) as Ho.
  pose proof (dinode_round_trip (dinode_off i) (dent ty sz A) inode0 (B (iblock i)) Hok) as Hr. unfold dinode_size in Hr.
  rewrite Hl in Hr. destruct (Hr Ho) as (E1 & E2 & E3 & E4 & E5 & E6 & E7 & E8 & E9 & E10 & E11).
  destruct (dinode_load _ _ _). cbn in *. unfold dent. cbn. by subst.
Qed.

Lemma winode_run i p s : s.(nsect) = 1000 → s.(msb) = the_sb → 0 <= i < 200 →
  winode i p s = Ret () (set_image (put_inode i p s.(image)) s).
Proof.
  intros Hn Hs Hi. destruct (iblock_range i Hi) as [Hr E]. unfold winode. rewrite bind_get, Hs, E.
  rewrite (bind_returns _ _ _ _ _ (rsect_run (iblock i) s Hn ltac:(lia))). by rewrite wsect_run by (done || lia).
Qed.

Lemma rinode_run i s : s.(nsect) = 1000 → s.(msb) = the_sb → 0 <= i < 200 →
  rinode i s = Ret (dinode_load (dinode_off i) (s.(image) (iblock i)) inode0) s.
Proof.
  intros Hn Hs Hi. destruct (iblock_range i Hi) as [Hr E]. unfold rinode. rewrite bind_get, Hs, E.
  by rewrite (bind_returns _ _ _ _ _ (rsect_run (iblock i) s Hn ltac:(lia))).
Qed.

Lemma finv_words own B i A z c fb : finv own B i A z c → pool own B fb → Forall word A.
Proof.
  intros [F1 F2 F3 F4 F5 F6 F7] [P1 P2 P3 P4]. apply Forall_lookup. intros k a Ha.
  pose proof (lookup_lt_Some _ _ _ Ha) as Hk. rewrite F1 in Hk. apply list_lookup_total_correct in Ha. unfold word, two32.
  destruct (Z.eq_dec a 0) as [|Hn]; [lia|]. destruct (decide (k = 12%nat)) as [E|E].
  - rewrite E in Ha. unfold NDIRECT in F4. rewrite Ha in F4. apply F4, P2 in Hn. lia.
  - specialize (F6 k ltac:(lia)). unfold addr_of, NDIRECT in F6. destruct (Nat.ltb_spec k 12); [|lia]. rewrite Ha in F6.
    apply F6, P2 in Hn. lia.
Qed.

Lemma dent_ok ty sz A : short ty → word sz → length A = 13%nat → Forall word A → dinode_ok (dent ty sz A).
Proof. intros H1 H2 H3 H4. split; try done; unfold short; cbn; lia. Qed.

(** ** The image under construction *)

Definition total (fl : list (Z * list Z)) : Z := foldr (λ f t, nblk (Z.of_nat (length f.2)) + t) 0 fl.

Definition sb_block : list Z := st_words 0 [1000; 941; 200; 30; 2; 32; 58] zeros.

(** The files [fl], type and contents, have the inodes from 1. *)
Record built (s : mkst) (own : owner) (fl : list (Z * list Z)) : Prop := {
  bt_sb : s.(msb) = the_sb;
  bt_ns : s.(nsect) = 1000;
  bt_fi : s.(freeinode) = 1 + Z.of_nat (length fl);
  bt_max : (length fl < 200)%nat;
  bt_fb : s.(freeblock) = 59 + total fl;
  bt_pool : pool own s.(image) s.(freeblock);
  bt_files : ∀ k ty c, fl !! k = Some (ty, c) → 0 <= ty < 32768 ∧
    ∃ A, on_disk s.(image) (1 + Z.of_nat k) (dent ty (Z.of_nat (length c)) A) ∧
      finv own s.(image) (1 + Z.of_nat k) A (Z.of_nat (length c)) c;
  bt_low : ∀ b, b < 32 ∨ b = 58 → s.(image) b = if b =? 1 then sb_block else zeros
}.

Lemma total_app fl fl' : total (fl ++ fl') = total fl + total fl'.
Proof. unfold total. induction fl as [|f fl IH]; cbn; [done|]. rewrite IH. lia. Qed.

Lemma total_insert fl k ty c c' : fl !! k = Some (ty, c) →
  total (<[k := (ty, c')]> fl) = total fl + (nblk (Z.of_nat (length c')) - nblk (Z.of_nat (length c))).
Proof.
  revert k. induction fl as [|f fl IH]; intros k Hk; [done|]. destruct k as [|k]; cbn in Hk.
  - injection Hk as ->. change (nblk (Z.of_nat (length c')) + total fl = nblk (Z.of_nat (length c)) + total fl +
      (nblk (Z.of_nat (length c')) - nblk (Z.of_nat (length c)))). lia.
  - change (nblk (Z.of_nat (length f.2)) + total (<[k := (ty, c')]> fl) = nblk (Z.of_nat (length f.2)) + total fl +
      (nblk (Z.of_nat (length c')) - nblk (Z.of_nat (length c)))). rewrite IH by done. lia.
Qed.

Lemma finv_empty own B i : finv own B i (replicate 13 0) 0 [].
Proof.
  assert (∀ k, (k < 140)%nat → addr_of B (replicate 13 0) k = 0) as Ha.
  { intros k Hk. unfold addr_of, NDIRECT. destruct (Nat.ltb_spec k 12); [|done]. by rewrite lookup_total_replicate_2 by lia. }
  split; [done|done|change (replicate 13 0 !!! NDIRECT) with 0; lia|done| | |].
  - intros k Hk. rewrite Ha by done. lia.
  - intros k Hk. by rewrite Ha.
  - intros o Ho. rewrite lookup_nil. unfold fbyte, fblock. rewrite Ha by (by apply file_block_lt). change (0 =? 0) with true. cbv iota.
    unfold BSIZE. pose proof (Z.mod_pos_bound o 512 ltac:(lia)). by rewrite lookup_total_replicate_2 by lia.
Qed.

(** Writing an inode changes no file and no other inode. *)
Lemma pool_inode own B fb i p : pool own B fb → 0 <= i < 200 → pool own (put_inode i p B) fb.
Proof.
  intros HP Hi. destruct (iblock_range i Hi) as [Hr _]. pose proof (pl_fb _ _ _ HP). apply pool_write; [done|lia|].
  rewrite length_dinode_store. apply HP.
Qed.

Lemma finv_inode own B fb i p j A z c : pool own B fb → 0 <= i < 200 → finv own B j A z c → finv own (put_inode i p B) j A z c.
Proof.
  intros HP Hi HF. destruct (iblock_range i Hi) as [Hr _]. apply (finv_frame own B); [done|]. intros b k Hb. split; [done|].
  apply (pl_own _ _ _ HP) in Hb. unfold put_inode. by rewrite fn_lookup_insert_ne by lia.
Qed.

Lemma low_inode B i p b : 0 <= i < 200 → b < 32 ∨ b = 58 → put_inode i p B b = B b.
Proof. intros Hi Hb. destruct (iblock_range i Hi) as [Hr _]. unfold put_inode. by rewrite fn_lookup_insert_ne by lia. Qed.

Lemma ialloc_built s own fl ty : built s own fl → (length fl < 199)%nat → 0 <= ty < 32768 →
  ∃ s', ialloc ty s = Ret (1 + Z.of_nat (length fl)) s' ∧ built s' own (fl ++ [(ty, [])]).
Proof.
  intros [T1 T2 T3 T4 T5 T6 T7 T8] Hl Hty. set (i := 1 + Z.of_nat (length fl)) in *. assert (0 <= i < 200) as Hi by lia.
  unfold ialloc. rewrite bind_get, T3, bind_modify, u32_id by (unfold word, two32; lia).
  set (p := set_i_size _ _). assert (p = dent ty 0 (replicate 13 0)) as Ep by (unfold p; rewrite (xshort_id ty) by lia; reflexivity).
  set (s1 := set_freeinode _ s). rewrite (bind_returns _ _ _ _ _ (winode_run i p s1 T2 T1 Hi)). rewrite Ep. clear p Ep.
  eexists. split; [reflexivity|]. cbn [s1 image set_freeinode]. split; cbn [msb nsect freeinode freeblock image set_image set_freeinode s1]; try done.
  - rewrite length_app. cbn. lia.
  - rewrite length_app. cbn. lia.
  - rewrite total_app, T5. change (total [(ty, [])]) with 0. lia.
  - by apply pool_inode.
  - intros k ty' c Hk. destruct (decide (k < length fl)%nat) as [Hlt|Hge].
    + rewrite lookup_app_l in Hk by done. destruct (T7 k ty' c Hk) as (Hty' & A & D & F). split; [done|]. exists A.
      split; [apply on_disk_other; try done; lia|by apply (finv_inode own _ s.(freeblock))].
    + apply lookup_app_Some in Hk as [Hk|[_ Hk]]; [apply lookup_lt_Some in Hk; lia|].
      assert (k = length fl) as -> by (apply lookup_lt_Some in Hk; cbn in Hk; lia). rewrite Nat.sub_diag in Hk. injection Hk as <- <-.
      split; [done|]. exists (replicate 13 0). split; [|apply finv_empty]. apply on_disk_same; [lia|apply T6|].
      apply dent_ok; [unfold short; lia|unfold word, two32; cbn; lia|done|]. apply Forall_replicate. unfold word, two32. lia.
  - intros b Hb. rewrite low_inode by done. by apply T8.
Qed.

Lemma iappend_built s own fl k ty c p : built s own fl → fl !! k = Some (ty, c) →
  let z := Z.of_nat (length c) in let z' := z + Z.of_nat (length p) in
  z' <= 71680 → s.(freeblock) + (nblk z' - nblk z) <= 1000 →
  ∃ own' s', iappend (1 + Z.of_nat k) p s = Ret () s' ∧ built s' own' (<[k := (ty, c ++ p)]> fl).
Proof.
  intros HB Hk z z' Hmax Hcap. pose proof HB as [T1 T2 T3 T4 T5 T6 T7 T8]. set (i := 1 + Z.of_nat k).
  pose proof (lookup_lt_Some _ _ _ Hk) as Hkl. assert (0 <= i < 200) as Hi by lia. destruct (T7 k ty c Hk) as (Hty & A & HD & HF).
  unfold iappend. rewrite (bind_returns _ _ _ _ _ (rinode_run i s T2 T1 Hi)). fold i in HD. unfold on_disk in HD. rewrite HD.
  cbn [i_size dent set_i_addrs set_i_size]. rewrite xint_id by (unfold word, two32; lia).
  destruct (iappend_loop_run i p (S (length p)) own c s (dent ty (Z.of_nat (length c)) A) ltac:(lia) T2 T6 HF Hmax Hcap)
    as (own' & A' & B' & E & F' & P' & O'). fold z z' in E, F', P'. set (fb' := s.(freeblock) + _) in *.
  rewrite (bind_returns _ _ _ _ _ E). cbn [fst snd]. rewrite xint_id by (unfold word, two32; lia).
  set (q := set_i_size z' _). assert (q = dent ty z' A') as -> by done. rewrite winode_run by done.
  exists own'. eexists. split; [reflexivity|]. assert (z' = Z.of_nat (length (c ++ p))) as Ez by (rewrite length_app; lia).
  split; cbn [msb nsect freeinode freeblock image set_image upd set_freeblock]; try done.
  - by rewrite length_insert.
  - by rewrite length_insert.
  - rewrite (total_insert fl k ty c) by done. rewrite <- Ez. unfold fb'. rewrite T5. fold z. lia.
  - by apply pool_inode.
  - intros j ty' c' Hj. destruct (decide (j = k)) as [-> | Hne].
    + rewrite list_lookup_insert_eq in Hj by done. injection Hj as <- <-. split; [done|]. exists A'. rewrite <- Ez.
      split; [|by apply (finv_inode own' _ fb')]. apply on_disk_same; [lia|apply P'|].
      apply dent_ok; [unfold short; lia|unfold word, two32; lia|apply F'|by apply (finv_words own' B' i A' z' (c ++ p) fb')].
    + rewrite list_lookup_insert_ne in Hj by done. destruct (T7 j ty' c' Hj) as (Hty' & A2 & D2 & F2). split; [done|]. exists A2.
      pose proof (lookup_lt_Some _ _ _ Hj) as Hjl. split; [|apply (finv_inode own' _ fb'); [done|done|]].
      * apply on_disk_other; [apply F'|done|lia|lia|]. destruct (iblock_range (1 + Z.of_nat j) ltac:(lia)) as [Hr _].
        unfold on_disk. rewrite (proj2 O') by lia. exact D2.
      * apply (finv_only i own s.(image)); [done|lia|done].
  - intros b Hb. rewrite low_inode by done. rewrite (proj2 O') by lia. by apply T8.
Qed.

(** ** The files given *)

Definition strip (arg : list Z) : list Z := match arg with c :: rest => if c =? 95 then rest else arg | [] => arg end.

Section files.
Context `{!Host}.

Definition contents (arg : list Z) : list Z := concat (default [] (host_read arg)).

(** A file that can be opened, has no slash in its name and is not too long. *)
Definition given (arg : list Z) : Prop :=
  slash ∉ arg ∧ is_Some (host_read arg) ∧ Z.of_nat (length (contents arg)) <= 71680.

(** The entries of the files with inodes from [i]. *)
Fixpoint entries (i : Z) (args : list (list Z)) : list dirent :=
  match args with
  | [] => []
  | arg :: args => mkdirent i (name_field (strip arg)) :: entries (i + 1) args
  end.
Definition dir_bytes (l : list dirent) : list Z := concat (map dirent_bytes l).
Definition file_list (args : list (list Z)) : list (Z * list Z) := map (λ arg, (T_FILE, contents arg)) args.

Lemma length_dirent_for i name : length (dirent_for i name) = 16%nat.
Proof. unfold dirent_for, dirent_bytes. cbn [de_name de_inum]. rewrite length_app, length_name_field. done. Qed.

Lemma dirent_for_eq i name : 0 <= i < 65536 → dirent_for i name = dirent_bytes (mkdirent i (name_field name)).
Proof. intros Hi. unfold dirent_for. by rewrite xshort_id. Qed.

Lemma append_chunks chunks : ∀ s own fl k ty c, built s own fl → fl !! k = Some (ty, c) →
  let z := Z.of_nat (length c) in let z' := z + Z.of_nat (length (concat chunks)) in
  z' <= 71680 → s.(freeblock) + (nblk z' - nblk z) <= 1000 →
  ∃ own' s', foldM (fun _ buf => iappend (1 + Z.of_nat k) buf) chunks () s = Ret () s' ∧
    built s' own' (<[k := (ty, c ++ concat chunks)]> fl).
Proof.
  induction chunks as [|b chunks IH]; intros s own fl k ty c HB Hk z z' Hmax Hcap; cbn [foldM concat] in *.
  - exists own, s. split; [done|]. by rewrite app_nil_r, list_insert_id.
  - assert (z' = z + Z.of_nat (length b) + Z.of_nat (length (concat chunks))) as Ez by (unfold z'; rewrite length_app; lia). clearbody z'.
    pose proof (nblk_mono (z + Z.of_nat (length b)) z' ltac:(lia)).
    destruct (iappend_built s own fl k ty c b HB Hk) as (own1 & s1 & E & HB1); [fold z; lia|fold z; lia|].
    rewrite (bind_returns _ _ _ _ _ E). pose proof (lookup_lt_Some _ _ _ Hk) as Hkl.
    assert (<[k := (ty, c ++ b)]> fl !! k = Some (ty, c ++ b)) as Hk1 by by apply list_lookup_insert_eq.
    assert (Z.of_nat (length (c ++ b)) = z + Z.of_nat (length b)) as El by (rewrite length_app; lia).
    assert (s1.(freeblock) = s.(freeblock) + (nblk (z + Z.of_nat (length b)) - nblk z)) as Ef.
    { rewrite (bt_fb _ _ _ HB1), (bt_fb _ _ _ HB), (total_insert fl k ty c) by done. rewrite El. fold z. lia. }
    destruct (IH s1 own1 _ k ty (c ++ b) HB1 Hk1) as (own2 & s2 & E2 & HB2); [rewrite El; lia| |].
    + rewrite El, Ef. replace (z + Z.of_nat (length b) + Z.of_nat (length (concat chunks))) with z' by lia. lia.
    + exists own2, s2. split; [exact E2|]. by rewrite list_insert_insert_eq, <- app_assoc in HB2.
Qed.

(** One file is added to the root directory [root] and the files [fl]. *)
Lemma add_file_run arg s own root fl : built s own ((T_DIR, root) :: fl) → given arg → (length fl < 198)%nat →
  let z := Z.of_nat (length root) in z + 16 <= 71680 →
  59 + nblk (z + 16) + total fl + nblk (Z.of_nat (length (contents arg))) <= 1000 →
  ∃ own' s', add_file 1 arg s = Ret () s' ∧
    built s' own' ((T_DIR, root ++ dirent_bytes (mkdirent (2 + Z.of_nat (length fl)) (name_field (strip arg)))) :: fl ++ [(T_FILE, contents arg)]).
Proof.
  intros HB (Hsl & [chunks Hc] & Hlen) Hn z Hr Hcap. unfold add_file, assert. rewrite bool_decide_eq_false_2 by done. cbn [negb].
  rewrite bind_ret_l, Hc. destruct (ialloc_built s own _ T_FILE HB) as (s1 & E1 & HB1); [cbn; lia|done|].
  rewrite (bind_returns _ _ _ _ _ E1). fold (strip arg). cbn [length] in *. set (i := 1 + Z.of_nat (S (length fl))).
  rewrite dirent_for_eq by lia. replace (2 + Z.of_nat (length fl)) with i by lia. set (de := mkdirent i (name_field (strip arg))).
  assert (length (dirent_bytes de) = 16%nat) as Ld by (unfold de; rewrite <- dirent_for_eq by lia; apply length_dirent_for).
  pose proof (bt_fb _ _ _ HB1) as Ef1. rewrite total_app in Ef1. change (total [(T_FILE, [])]) with 0 in Ef1.
  change (total ((T_DIR, root) :: fl)) with (nblk z + total fl) in Ef1.
  pose proof (nblk_nonneg (Z.of_nat (length (contents arg))) ltac:(lia)) as Hc0.
  destruct (iappend_built s1 own _ 0 T_DIR root (dirent_bytes de) HB1 eq_refl) as (own2 & s2 & E2 & HB2);
    [rewrite Ld; fold z; lia|rewrite Ld; fold z; change (Z.of_nat 16) with 16; lia|].
  change (1 + Z.of_nat 0) with 1 in E2. rewrite (bind_returns _ _ _ _ _ E2). change (<[0%nat := (T_DIR, root ++ dirent_bytes de)]> (((T_DIR, root) :: fl) ++ [(T_FILE, [])]))
    with (((T_DIR, root ++ dirent_bytes de) :: fl) ++ [(T_FILE, [])]) in HB2.
  pose proof (bt_fb _ _ _ HB2) as Ef2. rewrite total_app in Ef2. change (total [(T_FILE, [])]) with 0 in Ef2.
  change (total ((T_DIR, root ++ dirent_bytes de) :: fl)) with (nblk (Z.of_nat (length (root ++ dirent_bytes de))) + total fl) in Ef2.
  rewrite length_app, Ld, Nat2Z.inj_add in Ef2. fold z in Ef2. change (Z.of_nat 16) with 16 in Ef2.
  assert (contents arg = concat chunks) as Ec by (unfold contents; by rewrite Hc). rewrite Ec in *.
  destruct (append_chunks chunks s2 own2 _ (S (length fl)) T_FILE [] HB2) as (own3 & s3 & E3 & HB3).
  - rewrite lookup_app_r by (cbn; lia). cbn [length]. by rewrite Nat.sub_diag.
  - cbn [length]. lia.
  - cbn [length]. change (Z.of_nat 0) with 0. change (nblk 0) with 0. rewrite Z.add_0_l. lia.
  - exists own3, s3. split; [exact E3|]. rewrite (insert_app_r_alt _ _ (S (length fl))) in HB3 by (cbn; lia). cbn [length] in HB3.
    by rewrite Nat.sub_diag in HB3.
Qed.

Lemma total_nonneg fl : 0 <= total fl.
Proof.
  induction fl as [|f fl IH]; [done|]. change (0 <= nblk (Z.of_nat (length f.2)) + total fl).
  pose proof (nblk_nonneg (Z.of_nat (length f.2)) ltac:(lia)). lia.
Qed.

Lemma add_files args : ∀ s own root fl, built s own ((T_DIR, root) :: fl) → Forall given args →
  (length fl + length args <= 198)%nat → let z := Z.of_nat (length root) in z + 16 * Z.of_nat (length args) <= 71680 →
  59 + nblk (z + 16 * Z.of_nat (length args)) + total fl + total (file_list args) <= 1000 →
  ∃ own' s', foldM (fun _ arg => add_file 1 arg) args () s = Ret () s' ∧
    built s' own' ((T_DIR, root ++ dir_bytes (entries (2 + Z.of_nat (length fl)) args)) :: fl ++ file_list args).
Proof.
  induction args as [|arg args IH]; intros s own root fl HB Hg Hn z Hr Hcap; cbn [foldM].
  - exists own, s. split; [done|]. cbn. by rewrite !app_nil_r.
  - apply Forall_cons_1 in Hg as [Hga Hg]. cbn [length] in *.
    change (total (file_list (arg :: args))) with (nblk (Z.of_nat (length (contents arg))) + total (file_list args)) in Hcap.
    pose proof (total_nonneg (file_list args)) as HT.
    pose proof (nblk_mono (z + 16) (z + 16 * Z.of_nat (S (length args))) ltac:(lia)) as Hm1.
    destruct (add_file_run arg s own root fl HB Hga) as (own1 & s1 & E1 & HB1); [lia|fold z; lia|fold z; lia|].
    rewrite (bind_returns _ _ _ _ _ E1). set (de := mkdirent _ _) in *.
    assert (Z.of_nat (length (root ++ dirent_bytes de)) = z + 16) as El.
    { rewrite length_app. unfold de. rewrite <- dirent_for_eq by lia. rewrite length_dirent_for. lia. }
    destruct (IH s1 own1 _ _ HB1 Hg) as (own2 & s2 & E2 & HB2).
    + rewrite length_app. cbn. lia.
    + rewrite El. lia.
    + rewrite El, total_app. change (total [(T_FILE, contents arg)]) with (nblk (Z.of_nat (length (contents arg))) + 0).
      replace (z + 16 + 16 * Z.of_nat (length args)) with (z + 16 * Z.of_nat (S (length args))) by lia. lia.
    + exists own2, s2. split; [exact E2|]. rewrite length_app in HB2. cbn [length] in HB2. rewrite <- !app_assoc in HB2.
      replace (2 + Z.of_nat (length fl + 1)) with (2 + Z.of_nat (length fl) + 1) in HB2 by lia. exact HB2.
Qed.
End files.

(** ** The empty image *)

Lemma wsect_zeros n : ∀ j s, 0 <= j → j + Z.of_nat n = 1000 → s.(nsect) = j → (∀ b, s.(image) b = zeros) →
  ∃ B, foldM (fun _ i => wsect i (replicate 512 0)) (seqZ j (Z.of_nat n)) () s = Ret () (set_nsect 1000 (set_image B s)) ∧ ∀ b, B b = zeros.
Proof.
  induction n as [|n IH]; intros j s Hj Hn Hs Hz.
  - exists s.(image). split; [|done]. change (seqZ j (Z.of_nat 0)) with (@nil Z). cbn [foldM]. unfold ret. f_equal.
    assert (s.(nsect) = 1000) as E by lia. clear -E. destruct s. cbn [nsect] in E. by subst.
  - rewrite seqZ_cons by lia. cbn [foldM]. replace (Z.pred (Z.of_nat (S n))) with (Z.of_nat n) by lia.
    unfold wsect at 1. rewrite bind_modify, sector_id by lia.
    set (s1 := set_image _ _). destruct (IH (Z.succ j) s1) as (B & E & HB); [lia|lia|cbn; lia| |].
    + intros b. cbn [s1 image set_image]. destruct (decide (b = j)) as [-> |]; [by rewrite fn_lookup_insert|by rewrite fn_lookup_insert_ne].
    + exists B. split; [exact E|done].
Qed.

Lemma built_empty B : (∀ b, B b = zeros) → built (mkmk (<[1 := sb_block]> B) 1000 1 59 the_sb) (λ _, None) [].
Proof.
  intros Hz. split; try done; cbn [image].
  - cbn. lia.
  - split; [cbn [freeblock]; lia|done| |].
    + intros b Hb. cbn [freeblock image] in *. rewrite fn_lookup_insert_ne by lia. apply Hz.
    + intros b. cbn [image]. destruct (decide (b = 1)) as [-> |]; [by rewrite fn_lookup_insert|by rewrite fn_lookup_insert_ne, Hz].
  - intros b Hb. destruct (Z.eqb_spec b 1) as [-> |]; [by rewrite fn_lookup_insert|by rewrite fn_lookup_insert_ne, Hz].
Qed.

(** ** The free map *)

Definition bitmap (n : nat) : list Z := foldl (fun buf i => set_map_bit i buf) (replicate 512 0) (seq 0 n).

Lemma bitmap_S n : bitmap (S n) = set_map_bit n (bitmap n).
Proof. unfold bitmap. rewrite seq_S, foldl_app. done. Qed.

Lemma length_bitmap n : length (bitmap n) = 512%nat.
Proof. induction n as [|n IH]; [done|]. rewrite bitmap_S. unfold set_map_bit. by rewrite length_insert. Qed.

Lemma map_bit_zero b : (b < 4096)%nat → map_bit (replicate 512 0) b = false.
Proof.
  intros Hb. unfold map_bit. rewrite lookup_total_replicate_2 by (apply Nat.Div0.div_lt_upper_bound; lia). by rewrite Z.land_0_l.
Qed.

Lemma bit_pos k : (k < 8)%nat → bit (Z.of_nat k) = 2 ^ Z.of_nat k.
Proof. intros Hk. do 8 (destruct k as [|k]; [done|]). lia. Qed.

Lemma map_bit_set n b d : length d = 512%nat → (n < 4096)%nat → (b < 4096)%nat →
  map_bit (set_map_bit n d) b = (b =? n)%nat || map_bit d b.
Proof.
  intros Hl Hn Hb. unfold map_bit, set_map_bit. pose proof (Nat.mod_upper_bound n 8 ltac:(lia)). pose proof (Nat.mod_upper_bound b 8 ltac:(lia)).
  pose proof (Nat.div_mod n 8 ltac:(lia)). pose proof (Nat.div_mod b 8 ltac:(lia)).
  assert (n / 8 < 512)%nat as Hn8 by (apply Nat.Div0.div_lt_upper_bound; lia).
  destruct (decide (b / 8 = n / 8)%nat) as [E|E].
  - rewrite E, list_lookup_total_insert_eq by lia. set (v := d !!! (n / 8)%nat). rewrite !bit_pos by lia. rewrite Z.land_lor_distr_l.
    destruct (Nat.eqb_spec b n) as [-> |Hne].
    + cbn [orb]. rewrite Z.land_diag. destruct (Z.eqb_spec (Z.lor (Z.land v (2 ^ Z.of_nat (n mod 8))) (2 ^ Z.of_nat (n mod 8))) 0) as [E0|]; [|done].
      apply Z.lor_eq_0_iff in E0 as [_ E0]. pose proof (Z.pow_pos_nonneg 2 (Z.of_nat (n mod 8)) ltac:(lia) ltac:(lia)). lia.
    + cbn [orb]. assert (Z.land (2 ^ Z.of_nat (n mod 8)) (2 ^ Z.of_nat (b mod 8)) = 0) as ->; [|by rewrite Z.lor_0_r].
      apply Z.bits_inj'. intros i Hi. rewrite Z.land_spec, !Z.pow2_bits_eqb, Z.bits_0 by lia.
      destruct (Z.eqb_spec (Z.of_nat (n mod 8)) i), (Z.eqb_spec (Z.of_nat (b mod 8)) i); try done. lia.
  - rewrite list_lookup_total_insert_ne by done. by destruct (Nat.eqb_spec b n) as [-> |].
Qed.

Lemma map_bit_bitmap n b : (n <= 4096)%nat → (b < 4096)%nat → map_bit (bitmap n) b = (b <? n)%nat.
Proof.
  intros Hn Hb. induction n as [|n IH]; [by apply map_bit_zero|].
  rewrite bitmap_S, map_bit_set, IH by (rewrite ?length_bitmap; lia).
  destruct (Nat.eqb_spec b n), (Nat.ltb_spec b n), (Nat.ltb_spec b (S n)); try done; lia.
Qed.

(** ** The whole program *)

(** The end of [main]: the size of the root directory and the free map. *)
Definition finish : H unit :=
  din <- rinode 1;;
  let off := xint din.(i_size) in
  let off := u32 ((off / BS + 1) * BS) in
  winode 1 (set_i_size (xint off) din);;
  b <- get freeblock;;
  balloc b;;
  exit 0.

Definition rounded (z : Z) : Z := (z / 512 + 1) * 512.

Lemma rounded_range z : 0 <= z <= 65536 → z < rounded z <= z + 512.
Proof. intros Hz. unfold rounded. pose proof (Z.div_mod z 512 ltac:(lia)). pose proof (Z.mod_pos_bound z 512 ltac:(lia)). lia. Qed.

(** The image that the program leaves. *)
Record image_of (B : Z → list Z) (own : owner) (fb : Z) (root : list Z) (fl : list (Z * list Z)) : Prop := {
  im_fb : 59 <= fb <= 1000;
  im_own : ∀ b x, own b = Some x → 59 <= b < fb;
  im_root : ∃ A, on_disk B 1 (dent T_DIR (rounded (Z.of_nat (length root))) A) ∧ finv own B 1 A (Z.of_nat (length root)) root;
  im_files : ∀ k ty c, fl !! k = Some (ty, c) →
    ∃ A, on_disk B (2 + Z.of_nat k) (dent ty (Z.of_nat (length c)) A) ∧ finv own B (2 + Z.of_nat k) A (Z.of_nat (length c)) c;
  im_map : B 58 = bitmap (Z.to_nat fb);
  im_low : ∀ b, 0 <= b < 32 → B b = if b =? 1 then sb_block else zeros
}.

Lemma finish_run s own root fl : built s own ((T_DIR, root) :: fl) → Z.of_nat (length root) <= 65536 →
  ∃ s', finish s = Jump 0 s' ∧ image_of s'.(image) own s.(freeblock) root fl.
Proof.
  intros HB Hr. pose proof HB as [T1 T2 T3 T4 T5 T6 T7 T8]. destruct (T7 0%nat T_DIR root eq_refl) as (_ & A & HD & HF).
  change (1 + Z.of_nat 0) with 1 in HD, HF. set (z := Z.of_nat (length root)) in *. pose proof (pl_fb _ _ _ T6) as Hfb.
  unfold finish. rewrite (bind_returns _ _ _ _ _ (rinode_run 1 s T2 T1 ltac:(lia))). unfold on_disk in HD. rewrite HD.
  cbn [i_size dent set_i_addrs set_i_size]. pose proof (rounded_range z ltac:(lia)) as Hz. unfold BS. rewrite (xint_id z) by (unfold word, two32; lia).
  cbv zeta. fold (rounded z). rewrite (u32_id (rounded z)), (xint_id (rounded z)) by (unfold word, two32; lia).
  set (q := set_i_size (rounded z) _). assert (q = dent T_DIR (rounded z) A) as Eq by done. rewrite Eq. clear q Eq.
  rewrite (bind_returns _ _ _ _ _ (winode_run 1 _ s T2 T1 ltac:(lia))), bind_get. cbn [freeblock set_image]. unfold balloc, assert, BS.
  destruct (Z.ltb_spec s.(freeblock) (512 * 8)); [|lia]. set (q := dent T_DIR (rounded z) A). set (s1 := set_image _ s).
  rewrite (bind_returns _ _ _ () (set_image (<[58 := bitmap (Z.to_nat s.(freeblock))]> s1.(image)) s1)).
  2: { rewrite bind_ret_l, bind_get. change (msb s1) with (msb s). rewrite T1. by apply wsect_run. }
  eexists. split; [reflexivity|]. cbn [image set_image s1].
  assert (pool own (put_inode 1 q s.(image)) s.(freeblock)) as P1 by (by apply pool_inode).
  assert (∀ j A z c, finv own s.(image) j A z c → finv own (<[58 := bitmap (Z.to_nat s.(freeblock))]> (put_inode 1 q s.(image))) j A z c) as Hfr.
  { intros j A' z' c' Hf. apply (finv_frame own (put_inode 1 q s.(image))); [by apply (finv_inode own _ s.(freeblock))|].
    intros b k Hb. apply (pl_own _ _ _ T6) in Hb. by rewrite fn_lookup_insert_ne by lia. }
  assert (∀ j p, 0 <= j < 200 → on_disk (put_inode 1 q s.(image)) j p →
    on_disk (<[58 := bitmap (Z.to_nat s.(freeblock))]> (put_inode 1 q s.(image))) j p) as Hod.
  { intros j p Hj Hd. destruct (iblock_range j Hj) as [Hb _]. unfold on_disk. by rewrite fn_lookup_insert_ne by lia. }
  split.
  - exact Hfb.
  - apply T6.
  - exists A. split; [|by apply Hfr]. apply Hod; [lia|]. apply on_disk_same; [lia|apply T6|].
    apply dent_ok; [unfold short, T_DIR; lia|fold z; unfold word, two32; lia|apply HF|by apply (finv_words own s.(image) 1 A z root s.(freeblock))].
  - intros k ty c Hk. destruct (T7 (S k) ty c Hk) as (_ & A' & D' & F'). replace (1 + Z.of_nat (S k)) with (2 + Z.of_nat k) in D', F' by lia.
    pose proof (lookup_lt_Some _ _ _ Hk). cbn [length] in T4.
    exists A'. split; [|by apply Hfr]. apply Hod; [lia|]. apply on_disk_other; [apply HF|lia|lia|lia|done].
  - by rewrite fn_lookup_insert.
  - intros b Hb. rewrite fn_lookup_insert_ne by lia. rewrite low_inode by lia. apply T8. lia.
Qed.

Section program.
Context `{!Host}.

Definition all_entries (args : list (list Z)) : list dirent :=
  mkdirent 1 (name_field (chars ".")) :: mkdirent 1 (name_field (chars "..")) :: entries 2 args.

(** The files fit on the disk. *)
Definition fit (args : list (list Z)) : Prop :=
  Forall given args ∧ (length args <= 198)%nat ∧
  59 + nblk (16 * Z.of_nat (2 + length args)) + total (file_list args) <= 1000.

Lemma length_dir_bytes i args : length (dir_bytes (entries i args)) = (16 * length args)%nat.
Proof.
  revert i. induction args as [|arg args IH]; intros i; [done|]. unfold dir_bytes. cbn [entries map concat]. rewrite length_app.
  fold (dir_bytes (entries (i + 1) args)). rewrite IH. unfold dirent_bytes. cbn [de_inum de_name]. rewrite length_app, length_name_field. cbn. lia.
Qed.

Lemma main_run argv0 img args : host_create img = true → fit args →
  ∃ own s s', main (argv0 :: img :: args) mkfs0 = Jump 0 s' ∧
    image_of s'.(image) own s.(freeblock) (dir_bytes (all_entries args)) (file_list args).
Proof.
  intros Himg (Hg & Hn & Hcap). unfold main. rewrite Himg. cbn [negb]. rewrite bind_modify, bind_modify.
  set (s0 := set_freeblock _ _). destruct (wsect_zeros 1000 0 s0) as (B & E & Hz); [done|done|done|done|].
  change (Z.of_nat 1000) with FSSIZE in E. rewrite (bind_returns _ _ _ _ _ E), bind_get.
  rewrite (bind_returns _ _ _ _ _ (wsect_run 1 _ (set_nsect 1000 (set_image B s0)) eq_refl ltac:(lia))).
  pose proof (built_empty B Hz) as HB0. set (s1 := set_image _ _).
  assert (s1 = mkmk (<[1 := sb_block]> B) 1000 1 59 the_sb) as E1 by reflexivity. rewrite <- E1 in HB0. clearbody s1. clear E E1 s0.
  destruct (ialloc_built s1 _ [] T_DIR HB0) as (s2 & E2 & HB2); [cbn; lia|done|]. rewrite (bind_returns _ _ _ _ _ E2). cbn [app] in HB2.
  change (assert (1 + Z.of_nat (length []) =? ROOTINO)) with (@ret mkst Z unit ()). rewrite bind_ret_l.
  change (1 + Z.of_nat (length (@nil (Z * list Z)))) with (1 + Z.of_nat 0).
  pose proof (bt_fb _ _ _ HB2) as Ef2. change (total [(T_DIR, [])]) with 0 in Ef2.
  destruct (iappend_built s2 _ _ 0 T_DIR [] (dirent_for (1 + Z.of_nat 0) (chars ".")) HB2 eq_refl) as (own3 & s3 & E3 & HB3);
    [done|rewrite Ef2; done|]. rewrite (bind_returns _ _ _ _ _ E3). cbn [app] in HB3. 
  change (<[0%nat := _]> _) with [(T_DIR, dirent_for 1 (chars "."))] in HB3. pose proof (bt_fb _ _ _ HB3) as Ef3.
  change (total _) with 1 in Ef3.
  destruct (iappend_built s3 _ _ 0 T_DIR _ (dirent_for (1 + Z.of_nat 0) (chars "..")) HB3 eq_refl) as (own4 & s4 & E4 & HB4);
    [done|rewrite Ef3; done|]. rewrite (bind_returns _ _ _ _ _ E4).
  change (<[0%nat := _]> _) with [(T_DIR, dirent_for 1 (chars ".") ++ dirent_for 1 (chars ".."))] in HB4.
  destruct (add_files args s4 own4 _ [] HB4 Hg) as (own5 & s5 & E5 & HB5).
  - cbn. lia.
  - rewrite length_app, !length_dirent_for. lia.
  - rewrite length_app, !length_dirent_for. replace (Z.of_nat (16 + 16) + 16 * Z.of_nat (length args)) with (16 * Z.of_nat (2 + length args)) by lia.
    change (total []) with 0. lia.
  - change (1 + Z.of_nat 0) with 1. rewrite (bind_returns _ _ _ _ _ E5). cbn [app length] in HB5.
    destruct (finish_run s5 own5 _ _ HB5) as (s6 & E6 & Him).
    + rewrite !length_app, !length_dirent_for, length_dir_bytes. lia.
    + exists own5, s5, s6. split; [exact E6|]. rewrite <- app_assoc in Him. exact Him.
Qed.
End program.

(** ** The image as the kernel sees it *)

(** A kernel that has read the super block of the image [B]. *)
Definition kernel_on (B : Z → list Z) (s0 : kstate) : Prop :=
  let sb' := sb_of (B 1) in
  s0.(fs).(sb) = sb' ∧ s0.(fs).(log).(l_start) = sb'.(sb_logstart) ∧ s0.(fs).(log).(l_size) = sb'.(sb_nlog) ∧ s0.(fs).(disksize) = 1000.

(** The inode [i] is loaded into entry [ip] of the inode cache. *)
Definition cached (B : Z → list Z) (i : Z) (I : list inode) (ip : nat) : Prop :=
  (ip < length I)%nat ∧ ∃ q, I !!! ip = dinode_load (dinode_off i) (B (iblock i)) q ∧ i_dev q = 1 ∧ i_inum q = i.

Lemma sb_round_trip : sb_of sb_block = the_sb.
Proof. reflexivity. Qed.

Section view.
Context (B : Z → list Z) (own : owner) (fb : Z) (root : list Z) (fl : list (Z * list Z)) (Him : image_of B own fb root fl).
Context (s0 : kstate) (Hk : kernel_on B s0).

Lemma kernel_sb : s0.(fs).(sb) = the_sb ∧ s0.(fs).(log).(l_start) = 2 ∧ s0.(fs).(log).(l_size) = 30 ∧ s0.(fs).(disksize) = 1000.
Proof.
  destruct Hk as (E1 & E2 & E3 & E4). rewrite (im_low _ _ _ _ _ Him 1) in E1, E2, E3 by lia.
  change (if 1 =? 1 then sb_block else zeros) with sb_block in *. rewrite sb_round_trip in E1, E2, E3. done.
Qed.

Lemma image_layout : layout s0 59.
Proof.
  destruct kernel_sb as (E1 & E2 & E3 & E4). split; rewrite ?E1, ?E2, ?E3, ?E4; cbn [the_sb sb_size sb_bmapstart sb_ninodes sb_inodestart].
  - lia.
  - unfold two31. lia.
  - lia.
  - intros b Hb. unfold BPB. rewrite Z.div_small by lia. lia.
  - intros i Hi. unfold IPB. assert (0 <= i / 8 < 25) by (split; [apply Z.div_pos; lia|apply Z.div_lt_upper_bound; lia]). lia.
  - intros b i Hb Hi. unfold BPB, IPB. rewrite (Z.div_small b) by lia.
    assert (0 <= i / 8 < 25) by (split; [apply Z.div_pos; lia|apply Z.div_lt_upper_bound; lia]). lia.
Qed.

(** Exactly the blocks below [fb] are marked in use. *)
Lemma image_used b : 0 <= b < 1000 → used s0 B b = (b <? fb).
Proof.
  intros Hb. destruct kernel_sb as (E1 & _). pose proof (im_fb _ _ _ _ _ Him). unfold used, mapblk. rewrite E1. unfold BPB. cbn [the_sb sb_bmapstart].
  rewrite Z.div_small, Z.mod_small, Z.add_0_l by lia. rewrite (im_map _ _ _ _ _ Him), map_bit_bitmap by lia.
  destruct (Nat.ltb_spec (Z.to_nat b) (Z.to_nat fb)), (Z.ltb_spec b fb); try done; lia.
Qed.

Lemma image_map : map_ok s0 59 B.
Proof.
  intros b Hb Hu. destruct kernel_sb as (E1 & _). rewrite E1 in Hb. cbn [the_sb sb_size] in Hb. rewrite image_used in Hu by done.
  apply Z.ltb_ge in Hu. pose proof (im_fb _ _ _ _ _ Him). lia.
Qed.

Lemma image_data b x : own b = Some x → data s0 59 B b.
Proof.
  intros Hb. apply (im_own _ _ _ _ _ Him) in Hb. pose proof (im_fb _ _ _ _ _ Him). destruct kernel_sb as (E1 & _). unfold data. rewrite E1. cbn [the_sb sb_size].
  split; [lia|]. rewrite image_used by lia. apply Z.ltb_lt. lia.
Qed.

Lemma finv_file_ok i A z c : finv own B i A z c → file_ok s0 59 B A.
Proof.
  intros [F1 F2 F3 F4 F5 F6 F7]. split.
  - done.
  - intros Hn. by apply (image_data _ _ (F4 Hn)).
  - intros k Hk' Hn. split; [by apply (image_data _ _ (F6 k Hk' Hn))|]. intros E. pose proof (F6 k Hk' Hn) as Ho. rewrite E in Hn, Ho.
    rewrite F4 in Ho by done. injection Ho as Ho. lia.
  - intros j k Hj Hk' Hn E. pose proof (F6 j Hj Hn) as Ho. rewrite E in Hn, Ho. rewrite F6 in Ho by done. by injection Ho.
Qed.

Lemma finv_no_holes i A z c : finv own B i A z c → no_holes B A z.
Proof. intros [F1 F2 F3 F4 F5 F6 F7] k Hk' Hlt. by apply F5. Qed.

Lemma finv_slice i A z c off n : finv own B i A z c → 0 <= off → 0 <= n → off + n <= Z.of_nat (length c) →
  fslice B A off n = take (Z.to_nat n) (drop (Z.to_nat off) c).
Proof.
  intros HF H0 H1 H2. pose proof (fv_size _ _ _ _ _ _ HF). apply list_eq. intros j. destruct (decide (j < Z.to_nat n)%nat) as [Hj|Hj].
  - rewrite lookup_take_lt, lookup_drop by done. unfold fslice. rewrite list_lookup_fmap, lookup_seq_lt by done. cbn [fmap option_fmap option_map].
    rewrite (fv_byte _ _ _ _ _ _ HF) by lia. replace (Z.to_nat (off + Z.of_nat (0 + j))) with (Z.to_nat off + j)%nat by lia.
    destruct (lookup_lt_is_Some_2 c (Z.to_nat off + j)) as [v Hv]; [lia|]. by rewrite Hv.
  - rewrite !lookup_ge_None_2; [done| |]; rewrite ?length_take, ?length_drop, ?length_fslice; lia.
Qed.

Lemma cached_inode i I ip p : cached B i I ip → on_disk B i p →
  i_type (I !!! ip) = i_type p ∧ i_nlink (I !!! ip) = i_nlink p ∧ i_size (I !!! ip) = i_size p ∧ i_addrs (I !!! ip) = i_addrs p ∧
  i_dev (I !!! ip) = 1 ∧ i_inum (I !!! ip) = i ∧ (ip < length I)%nat.
Proof. intros (Hl & q & -> & Hd & Hi) <-. done. Qed.

Lemma file_cached i I ip ty sz A z c : cached B i I ip → on_disk B i (dent ty sz A) → finv own B i A z c → ty ≠ T_DEV → 0 <= i < 200 →
  0 <= sz <= 71680 → no_holes B A sz → file_at s0 59 B I ip A.
Proof.
  intros Hc Hd HF Hty Hi Hsz Hh. destruct (cached_inode _ _ _ _ Hc Hd) as (C1 & C2 & C3 & C4 & C5 & C6 & C7). cbn in C1, C3, C4.
  destruct kernel_sb as (E1 & _). split.
  - done.
  - by apply (finv_file_ok i A z c).
  - apply image_map.
  - by rewrite C1.
  - rewrite C6, E1. done.
  - rewrite C3. unfold MAXFILE, NDIRECT, NINDIRECT, BSIZE. lia.
  - by rewrite C3.
Qed.
End view.

(** ** Directory entries *)

Definition dirent_ok (de : dirent) : Prop := 0 <= de.(de_inum) < 65536 ∧ length de.(de_name) = 14%nat.

Lemma dirent_round_trip de : dirent_ok de → dirent_of (dirent_bytes de) = de.
Proof.
  intros [Hi Hn]. destruct de as [i n]. cbn in *. unfold dirent_of, dirent_bytes. cbn [de_inum de_name app].
  unfold ld16. change (take DIRSIZ (drop 2 _)) with (take DIRSIZ n). rewrite (take_ge n DIRSIZ) by (unfold DIRSIZ; lia). f_equal.
  change (i mod 256 + 256 * (i / 256 mod 256) = i). rewrite (Z.mod_small (i / 256)); [pose proof (Z.div_mod i 256 ltac:(lia)); lia|].
  split; [apply Z.div_pos; lia|apply Z.div_lt_upper_bound; lia].
Qed.

Lemma dir_bytes_entry l k de : Forall dirent_ok l → l !! k = Some de → take 16 (drop (16 * k) (dir_bytes l)) = dirent_bytes de.
Proof.
  intros Hl. revert k. induction Hl as [|d l [_ Hd] Hl IH]; intros k Hk; [done|]. unfold dir_bytes. cbn [map concat].
  assert (length (dirent_bytes d) = 16%nat) as Ld by (unfold dirent_bytes; rewrite length_app, Hd; done). destruct k as [|k].
  - injection Hk as ->. rewrite Nat.mul_0_r, drop_0, take_app_le by lia. by apply take_ge; lia.
  - rewrite drop_app_ge by lia. rewrite Ld. replace (16 * S k - 16)%nat with (16 * k)%nat by lia. by apply IH.
Qed.

Lemma dir_bytes_length l : Forall dirent_ok l → length (dir_bytes l) = (16 * length l)%nat.
Proof.
  induction 1 as [|d l [_ Hd] Hl IH]; [done|]. unfold dir_bytes in *. cbn [map concat]. rewrite length_app, IH. unfold dirent_bytes.
  rewrite length_app, Hd. cbn [length]. lia.
Qed.

Section image.
Context `{!Host}.

Lemma entries_ok i args : 0 <= i → i + Z.of_nat (length args) < 65536 → Forall dirent_ok (entries i args).
Proof.
  revert i. induction args as [|arg args IH]; intros i Hi0 Hi1; constructor; cbn [length] in Hi1.
  - split; [cbn; lia|apply length_name_field].
  - apply IH; lia.
Qed.

Lemma all_entries_ok args : (length args <= 198)%nat → Forall dirent_ok (all_entries args).
Proof.
  intros Hn. repeat (constructor; [split; [cbn; lia|apply length_name_field]|]). apply entries_ok; lia.
Qed.

Lemma length_entries i args : length (entries i args) = length args.
Proof. revert i. induction args as [|arg args IH]; intros i; [done|]. cbn. by rewrite IH. Qed.

(** The entries of the root directory, with the free ones behind them. *)
Lemma root_entries B own A args k : (length args <= 198)%nat → let l := all_entries args in
  finv own B 1 A (Z.of_nat (length (dir_bytes l))) (dir_bytes l) → (k < 4480)%nat →
  match l !! k with Some de => entry B A k = de | None => (entry B A k).(de_inum) = 0 end.
Proof.
  intros Hn l HF Hk. pose proof (all_entries_ok args Hn) as Hok. fold l in Hok. pose proof (dir_bytes_length l Hok) as Hlen.
  unfold entry, DS. destruct (l !! k) as [de|] eqn:E.
  - pose proof (lookup_lt_Some _ _ _ E). rewrite (finv_slice B own 1 A _ _ _ _ HF) by (rewrite ?Hlen; lia).
    replace (Z.to_nat (16 * Z.of_nat k)) with (16 * k)%nat by lia. change (Z.to_nat 16) with 16%nat.
    rewrite (dir_bytes_entry l k de Hok E). apply dirent_round_trip. by apply (Forall_lookup_1 _ _ _ _ Hok E).
  - apply lookup_ge_None in E. unfold dirent_of, ld16. cbn [de_inum].
    assert (∀ j, (j < 16)%nat → fslice B A (16 * Z.of_nat k) 16 !!! j = 0) as Hz; [|by rewrite !Hz by lia].
    intros j Hj. apply list_lookup_total_correct. unfold fslice. rewrite list_lookup_fmap, lookup_seq_lt by done. cbn [fmap option_fmap option_map].
    rewrite (fv_byte _ _ _ _ _ _ HF) by lia. by rewrite lookup_ge_None_2 by (rewrite Hlen; lia).
Qed.

(** C35: The image that [mkfs] writes is a file system with the files it
    was given.  If the files can be read and fit, [mkfs] succeeds, the log of the
    image is empty, and for a kernel that has read the super block: the layout
    is well formed; every file is a well-formed file of the kernel with one link
    and the contents of the file on the host, under the inode number of its
    directory entry; the root directory has the entries for itself, its parent
    and the files in order, followed by free entries, and is a well-formed
    directory unless its entries fill its last block exactly. *)
Theorem mkfs_image argv0 img args : host_create img = true → fit args →
  ∃ s', main (argv0 :: img :: args) mkfs0 = Jump 0 s' ∧ let B := s'.(image) in head_n (B 2) = 0 ∧
  ∀ s0, kernel_on B s0 → layout s0 59 ∧
    (∀ k arg I ip, args !! k = Some arg → cached B (2 + Z.of_nat k) I ip →
      ∃ A, file_at s0 59 B I ip A ∧ i_type (I !!! ip) = T_FILE ∧ i_nlink (I !!! ip) = 1 ∧
        fslice B A 0 (i_size (I !!! ip)) = contents arg) ∧
    (∀ I ip, cached B ROOTINO I ip → ∃ A, i_addrs (I !!! ip) = A ∧
      let n := (32 * ((2 + length args) / 32 + 1))%nat in
      ((2 + length args) mod 32 ≠ 0 → dir_at s0 59 B I ip A n)%nat ∧
      ∀ k, (k < n)%nat → match all_entries args !! k with
        | Some de => entry B A k = de
        | None => (entry B A k).(de_inum) = 0
        end).
Proof.
  intros Himg Hfit. destruct (main_run argv0 img args Himg Hfit) as (own & s & s' & E & Him). destruct Hfit as (Hg & Hn & _).
  exists s'. split; [exact E|]. cbv zeta. set (B := s'.(image)) in *. split.
  { rewrite (im_low _ _ _ _ _ Him 2) by lia. reflexivity. }
  intros s0 Hk. split; [by apply (image_layout B own _ _ _ Him)|]. split.
  - intros k arg I ip Ha Hc. assert (file_list args !! k = Some (T_FILE, contents arg)) as Hf.
    { unfold file_list. change (map (λ a, (T_FILE, contents a)) args) with ((λ a, (T_FILE, contents a)) <$> args). by rewrite list_lookup_fmap, Ha. }
    pose proof (lookup_lt_Some _ _ _ Ha). destruct (im_files _ _ _ _ _ Him k _ _ Hf) as (A & D & F). exists A.
    pose proof (fv_size _ _ _ _ _ _ F).
    destruct (cached_inode B _ _ _ _ Hc D) as (C1 & C2 & C3 & C4 & _). cbn in C1, C2, C3.
    split; [apply (file_cached B own _ _ _ Him s0 Hk _ I ip _ _ A _ _ Hc D F); [done|lia|lia|by eapply finv_no_holes]|].
    split; [done|]. split; [done|]. rewrite C3. rewrite (finv_slice B own _ A _ _ _ _ F) by lia.
    rewrite Z2Nat.inj_0, drop_0, Nat2Z.id. by apply take_ge.
  - intros I ip Hc. destruct (im_root _ _ _ _ _ Him) as (A & D & F). exists A.
    destruct (cached_inode B _ _ _ _ Hc D) as (C1 & C2 & C3 & C4 & _).
    cbn [dent i_type i_size i_addrs set_i_addrs set_i_size set_i_nlink set_i_type] in C1, C3, C4.
    set (m := (2 + length args)%nat). assert (length (all_entries args) = m) as Em by (cbn; by rewrite length_entries).
    assert (Z.of_nat (length (dir_bytes (all_entries args))) = 16 * Z.of_nat m) as Ez by (rewrite dir_bytes_length, Em by (by apply all_entries_ok); lia).
    rewrite Ez in *. pose proof (Nat.div_mod m 32 ltac:(lia)) as Hdm. pose proof (Nat.mod_upper_bound m 32 ltac:(lia)) as Hmm.
    assert (rounded (16 * Z.of_nat m) = 16 * Z.of_nat (32 * (m / 32 + 1))) as Er.
    { unfold rounded. replace (16 * Z.of_nat m / 512) with (Z.of_nat (m / 32)); [lia|].
      rewrite Nat2Z.inj_div. change 512 with (16 * 32). rewrite Z.div_mul_cancel_l by lia. done. }
    split; [done|]. split; [|intros k Hkn; apply (root_entries B own A args k Hn); [by rewrite Ez|lia]].
    intros Hmod. split; [|done|rewrite C3, Er; done].
    apply (file_cached B own _ _ _ Him s0 Hk _ I ip _ _ A _ _ Hc D F); [done|done|lia|].
    intros k Hk' Hlt. apply (fv_addr _ _ _ _ _ _ F); [done|]. rewrite Er in Hlt. lia.
Qed.

(** C36: When the entries of the root directory fill its blocks exactly,
    [mkfs] makes the directory one block longer than it is: the last block that
    its size covers has no sector, so that reading the directory to its end makes
    the kernel allocate one. *)
Theorem mkfs_root_hole argv0 img args : host_create img = true → fit args → ((2 + length args) mod 32 = 0)%nat →
  ∃ s', main (argv0 :: img :: args) mkfs0 = Jump 0 s' ∧ let B := s'.(image) in
  ∀ I ip, cached B ROOTINO I ip → let k := ((2 + length args) / 32)%nat in
    Z.of_nat k * 512 < i_size (I !!! ip) ∧ addr_of B (i_addrs (I !!! ip)) k = 0.
Proof.
  intros Himg Hfit Hmod. destruct (main_run argv0 img args Himg Hfit) as (own & s & s' & E & Him). destruct Hfit as (Hg & Hn & _).
  exists s'. split; [exact E|]. cbv zeta. set (B := s'.(image)) in *. intros I ip Hc. destruct (im_root _ _ _ _ _ Him) as (A & D & F).
  destruct (cached_inode B _ _ _ _ Hc D) as (C1 & C2 & -> & -> & _).
  cbn [dent i_type i_size i_addrs set_i_addrs set_i_size set_i_nlink set_i_type].
  set (m := (2 + length args)%nat) in *. assert (length (all_entries args) = m) as Em by (cbn; by rewrite length_entries).
  assert (Z.of_nat (length (dir_bytes (all_entries args))) = 16 * Z.of_nat m) as Ez by (rewrite dir_bytes_length, Em by (by apply all_entries_ok); lia).
  rewrite Ez in *. pose proof (Nat.div_mod m 32 ltac:(lia)) as Hdm. rewrite Hmod in Hdm.
  pose proof (rounded_range (16 * Z.of_nat m) ltac:(lia)). split; [lia|].
  destruct (Z.eq_dec (addr_of B A (m / 32)) 0) as [|Hne]; [done|]. apply (fv_addr _ _ _ _ _ _ F) in Hne; lia.
Qed.

End image.

(** ** A host with one file *)

#[local] Instance demo_host : Host := {|
  host_create := fun _ => true;
  host_read := fun name => if bool_decide (name = chars "_hi") then Some [chars "hel"; chars "lo"] else None
|}.

Lemma demo_given : given (chars "_hi").
Proof.
  split; [compute_done|]. split; [by eexists|]. change (Z.of_nat 5 <= 71680). lia.
Qed.

Lemma demo_fit n : (n <= 30)%nat → fit (replicate n (chars "_hi")).
Proof.
  intros Hn. split; [apply Forall_replicate, demo_given|]. rewrite length_replicate. split; [lia|].
  assert (total (file_list (replicate n (chars "_hi"))) = Z.of_nat n) as ->.
  { clear Hn. induction n as [|n IH]; [done|]. change (nblk 5 + total (file_list (replicate n (chars "_hi"))) = Z.of_nat (S n)). rewrite IH.
    change (nblk 5) with 1. lia. }
  pose proof (nblk_mono (16 * Z.of_nat (2 + n)) 512 ltac:(lia)). change (nblk 512) with 1 in *. lia.
Qed.

Lemma mkfs_image_witness : ∃ s', main [chars "mkfs"; chars "fs.img"; chars "_hi"] mkfs0 = Jump 0 s' ∧
  ∀ s0 I ip, kernel_on s'.(image) s0 → cached s'.(image) 2 I ip →
    ∃ A, file_at s0 59 s'.(image) I ip A ∧ fslice s'.(image) A 0 (i_size (I !!! ip)) = chars "hello".
Proof.
  destruct (@mkfs_image demo_host (chars "mkfs") (chars "fs.img") [chars "_hi"] eq_refl (demo_fit 1 ltac:(lia))) as (s' & E & _ & Hk).
  exists s'. split; [exact E|]. intros s0 I ip Hs0 Hc. destruct (Hk s0 Hs0) as (_ & Hf & _).
  destruct (Hf 0%nat (chars "_hi") I ip eq_refl Hc) as (A & F1 & _ & _ & F2). exists A. split; [exact F1|exact F2].
Defined.

Lemma mkfs_root_hole_witness : ∃ s', main (chars "mkfs" :: chars "fs.img" :: replicate 30 (chars "_hi")) mkfs0 = Jump 0 s' ∧
  ∀ I ip, cached s'.(image) ROOTINO I ip → addr_of s'.(image) (i_addrs (I !!! ip)) 1 = 0.
Proof.
  destruct (@mkfs_root_hole demo_host (chars "mkfs") (chars "fs.img") (replicate 30 (chars "_hi")) eq_refl (demo_fit 30 ltac:(lia)) eq_refl) as (s' & E & Hk).
  exists s'. split; [exact E|]. intros I ip Hc. apply (Hk I ip Hc).
Defined.
