(* ===== verification/Tty.v ===== *)
(** * Console input and the screen: [console.c]

    The line discipline of the console ([consoleintr]), reading and writing
    it as a device ([consoleread], [consolewrite]), and the cursor and
    scrolling of the CGA screen ([cgaputc]).  [cons_out] collects what goes to
    the serial port. *)

From stdpp Require Import base numbers option list sets strings gmap fin_maps functions.
From Stdlib Require Import ZArith Lia.
From S2P Require Import Prelude Kstring State Locks Console Kalloc Proc Signal Pipe File ProcLife Sleeplock Bio Log Fs.

Definition BACKSPACE : Z := 256.
Definition CONSOLE : Z := 1.

(** [C(x)], the control characters by their letters. *)
Definition C (x : Z) : Z := x - 64.
Definition ctl_P : Z := C 80.
Definition ctl_U : Z := C 85.
Definition ctl_H : Z := C 72.
Definition ctl_D : Z := C 68.
Definition newline : Z := 10.
Definition INPUT_SIZE : Z := Z.of_nat INPUT_BUF.

(** The characters [consputc] sends to the serial port. *)
Definition uart_chars (c : Z) : list Z := if c =? BACKSPACE then [8; 32; 8] else [c].
Definition consputc (c : Z) : M unit := consputs (uart_chars c).

(** ** The screen *)

Record cga : Type := mkcga { crt : list Z; cursor : Z }.

Definition COLS : Z := 80.
Definition blank : Z := Z.lor 32 1792.

(** [memmove] and [memset] on the cells; [None] is the panic on a cursor off
    the screen. *)
Definition cgaputc (c : Z) (g : cga) : option cga :=
  let pos := g.(cursor) in
  let '(cells, pos) :=
    if c =? newline then (g.(crt), pos + (COLS - pos mod COLS))
    else if c =? BACKSPACE then (g.(crt), if 0 <? pos then pos - 1 else pos)
    else (<[Z.to_nat pos := Z.lor (Z.land c 255) 1792]> g.(crt), pos + 1) in
  if (pos <? 0) || (25 * COLS <? pos) then None else
  let '(cells, pos) :=
    if 24 <=? pos / COLS then
      let moved := take (Z.to_nat (23 * COLS)) (drop (Z.to_nat COLS) cells) ++ drop (Z.to_nat (23 * COLS)) cells in
      let pos := pos - COLS in
      (take (Z.to_nat pos) moved ++ replicate (Z.to_nat (24 * COLS - pos)) 0
         ++ drop (Z.to_nat (24 * COLS)) moved, pos)
    else (cells, pos) in
  Some (mkcga (<[Z.to_nat pos := blank]> cells) pos).

(** ** Typing *)

Definition cell (n : Z) : nat := Z.to_nat (n mod INPUT_SIZE).

Definition mod_input (f : input_t → input_t) : M unit := modify (fun s => set_input (f s.(input)) s).

(** The loop for control-U. *)
Fixpoint kill_line (fuel : nat) : M unit :=
  match fuel with
  | O => fun s => Stuck s
  | S fuel =>
    i <- get input;;
    if negb (i.(in_e) =? i.(in_w)) && negb (i.(in_buf) !!! cell (i.(in_e) - 1) =? newline) then
      mod_input (fun i => set_in_e (u32 (i.(in_e) - 1)) i);;
      consputc BACKSPACE;;
      kill_line fuel
    else ret ()
  end.

(** One iteration of the loop of [consoleintr]. *)
Definition key (c : Z) : M unit :=
  if c =? ctl_P then ret ()
  else if c =? ctl_U then kill_line (S INPUT_BUF)
  else if (c =? ctl_H) || (c =? 127) then
    i <- get input;;
    when (negb (i.(in_e) =? i.(in_w))) (
      mod_input (fun i => set_in_e (u32 (i.(in_e) - 1)) i);;
      consputc BACKSPACE)
  else
    i <- get input;;
    when (negb (c =? 0) && (u32 (i.(in_e) - i.(in_r)) <? INPUT_SIZE)) (
      let c := if c =? 13 then newline else c in
      mod_input (fun i => set_in_e (u32 (i.(in_e) + 1))
        (set_in_buf (<[cell i.(in_e) := c mod 256]> i.(in_buf)) i));;
      consputc c;;
      i <- get input;;
      when ((c =? newline) || (c =? ctl_D) || (i.(in_e) =? u32 (i.(in_r) + INPUT_SIZE))) (
        mod_input (fun i => set_in_w i.(in_e) i);;
        wakeup CH_INPUT)).

Fixpoint intr_loop (keys : list Z) (doprocdump : bool) : M bool :=
  match keys with
  | [] => ret doprocdump
  | c :: keys => key c;; intr_loop keys (doprocdump || (c =? ctl_P))
  end.

(** [keys] are the results of [getc] before the first negative one. *)
Definition consoleintr (keys : list Z) : M unit :=
  acquire CONS_LOCK;;
  dump <- intr_loop keys false;;
  release CONS_LOCK;;
  when dump procdump.

(** ** The console as a device *)

Section device.
Context `{!WaitFuel}.

(** The wait for input; [false] if the process has been killed. *)
Fixpoint consoleread_wait (fuel : nat) : M bool :=
  match fuel with
  | O => fun s => Stuck s
  | S fuel =>
    i <- get input;;
    if i.(in_r) =? i.(in_w) then
      dead <- cur_killed;;
      if (dead : bool) then ret false
      else sleep CH_INPUT CONS_LOCK;; consoleread_wait fuel
    else ret true
  end.

(** The loop of [consoleread]: what is left of [n], or [None] if the process
    has been killed. *)
Fixpoint consoleread_loop (cnt : nat) (dst n target : Z) : M (option Z) :=
  match cnt with
  | O => ret (Some n)
  | S cnt =>
    ok <- consoleread_wait wait_fuel;;
    if (ok : bool) then
      i <- get input;;
      let c := i.(in_buf) !!! cell i.(in_r) in
      mod_input (fun i => set_in_r (u32 (i.(in_r) + 1)) i);;
      if c =? ctl_D then
        when (u32 n <? target) (mod_input (fun i => set_in_r (u32 (i.(in_r) - 1)) i));;
        ret (Some n)
      else
        modify (fun s => set_mem (store8 s.(mem) dst c) s);;
        if c =? newline then ret (Some (n - 1))
        else consoleread_loop cnt (u32 (dst + 1)) (n - 1) target
    else ret None
  end.

Definition consoleread (ip : nat) (dst n : Z) : M Z :=
  iunlock (Some ip);;
  let target := u32 n in
  acquire CONS_LOCK;;
  r <- consoleread_loop (Z.to_nat n) dst n target;;
  release CONS_LOCK;;
  ilock (Some ip);;
  match r with
  | None => ret (-1)
  | Some n => ret (s32 (target - n))
  end.

Fixpoint write_chars (cnt : nat) (buf : Z) : M unit :=
  match cnt with
  | O => ret ()
  | S cnt => c <- get (fun s => load8 s.(mem) buf);; consputc (Z.land c 255);; write_chars cnt (u32 (buf + 1))
  end.

Definition consolewrite (ip : nat) (buf n : Z) : M Z :=
  iunlock (Some ip);;
  acquire CONS_LOCK;;
  write_chars (Z.to_nat n) buf;;
  release CONS_LOCK;;
  ilock (Some ip);;
  ret n.

(** The device table after [consoleinit]. *)
#[global] Instance cons_dev : DevSw := {|
  dev_read := fun d => if d =? CONSOLE then Some consoleread else None;
  dev_write := fun d => if d =? CONSOLE then Some consolewrite else None
|}.
End device.

(** ** The input buffer holds the lines that are complete and the line being
    typed *)

Lemma cell_u32 n : cell (u32 n) = cell n.
Proof. unfold cell, u32, two32, INPUT_SIZE, INPUT_BUF. f_equal. apply Z.mod_mod_divide. by exists 33554432. Qed.

Lemma cell_u32_add a b : cell (u32 a + b) = cell (a + b).
Proof. by rewrite <- cell_u32, u32_add_l, cell_u32. Qed.

Lemma cell_lt n : (cell n < INPUT_BUF)%nat.
Proof. unfold cell, INPUT_SIZE. pose proof (Z.mod_pos_bound n (Z.of_nat INPUT_BUF) ltac:(done)). lia. Qed.

Lemma cell_ne a b : 0 < b - a < INPUT_SIZE → cell a ≠ cell b.
Proof.
  unfold cell, INPUT_SIZE. intros H E%(f_equal Z.of_nat).
  pose proof (Z.mod_pos_bound a (Z.of_nat INPUT_BUF) ltac:(done)). pose proof (Z.mod_pos_bound b (Z.of_nat INPUT_BUF) ltac:(done)).
  rewrite !Z2Nat.id in E by lia. pose proof (Z.div_mod a (Z.of_nat INPUT_BUF) ltac:(done)).
  pose proof (Z.div_mod b (Z.of_nat INPUT_BUF) ltac:(done)). unfold INPUT_BUF in *. lia.
Qed.

(** The characters of [n] cells from index [a]. *)
Definition span (buf : list Z) (a : Z) (n : nat) : list Z :=
  (fun k => buf !!! cell (a + Z.of_nat k)) <$> seq 0 n.

Lemma length_span buf a n : length (span buf a n) = n.
Proof. unfold span. by rewrite length_fmap, length_seq. Qed.

Lemma span_lookup buf a n k : (k < n)%nat → span buf a n !! k = Some (buf !!! cell (a + Z.of_nat k)).
Proof. intros H. unfold span. by rewrite list_lookup_fmap, lookup_seq_lt. Qed.

Lemma span_S_r buf a n : span buf a (S n) = span buf a n ++ [buf !!! cell (a + Z.of_nat n)].
Proof. unfold span. rewrite seq_S, fmap_app. done. Qed.

Lemma span_S buf a n : span buf a (S n) = buf !!! cell a :: span buf (a + 1) n.
Proof.
  unfold span. cbn [seq fmap list_fmap]. rewrite Z.add_0_r. f_equal. rewrite <- fmap_S_seq, <- list_fmap_compose.
  apply list_fmap_ext. intros k x _. simpl. do 2 f_equal. lia.
Qed.

Lemma span_u32 buf a n : span buf (u32 a) n = span buf a n.
Proof. apply list_fmap_ext. intros k x _. by rewrite cell_u32_add. Qed.

Lemma span_insert buf a n x : (n < INPUT_BUF)%nat → span (<[cell (a + Z.of_nat n) := x]> buf) a n = span buf a n.
Proof.
  intros Hn. apply list_fmap_ext. intros k y Hk. apply lookup_seq in Hk as [-> Hk]. simpl.
  apply list_lookup_total_insert_ne, not_eq_sym, cell_ne. unfold INPUT_SIZE. lia.
Qed.

(** [R] are the characters ready to be read, [L] those of the line being
    typed. *)
Record tty (i : input_t) (R L : list Z) : Prop := {
  ty_len : length i.(in_buf) = INPUT_BUF;
  ty_r : word i.(in_r);
  ty_w : i.(in_w) = u32 (i.(in_r) + Z.of_nat (length R));
  ty_e : i.(in_e) = u32 (i.(in_r) + Z.of_nat (length R + length L));
  ty_room : (length R + length L <= INPUT_BUF)%nat;
  ty_span : span i.(in_buf) i.(in_r) (length R + length L) = R ++ L
}.

Lemma u32_apart r a b : 0 <= a <= b → b < two32 → u32 (r + a) = u32 (r + b) → a = b.
Proof.
  intros Ha Hb E. unfold u32 in E. assert ((b - a) mod two32 = 0) as E0.
  { replace (b - a) with (r + b - (r + a)) by lia. rewrite Zminus_mod, E, Z.sub_diag. done. }
  rewrite Z.mod_small in E0; lia.
Qed.

Section tty.
Context (i : input_t) (R L : list Z) (HT : tty i R L).

Lemma tty_small : Z.of_nat (length R + length L) <= 128.
Proof. pose proof (ty_room _ _ _ HT). unfold INPUT_BUF in *. lia. Qed.

Lemma tty_ready : (i.(in_r) =? i.(in_w)) = bool_decide (R = []).
Proof.
  pose proof tty_small. rewrite (ty_w _ _ _ HT). destruct R as [|c R']; [simpl; by rewrite Z.add_0_r, u32_id, Z.eqb_refl by apply HT|].
  rewrite bool_decide_eq_false_2 by done. apply Z.eqb_neq. intros E.
  rewrite <- (u32_id (in_r i)) in E at 1 by apply HT. rewrite <- (Z.add_0_r (in_r i)) in E at 1.
  apply u32_apart in E; unfold two32; simpl length in *; lia.
Qed.

Lemma tty_typing : (i.(in_e) =? i.(in_w)) = bool_decide (L = []).
Proof.
  pose proof tty_small. rewrite (ty_w _ _ _ HT), (ty_e _ _ _ HT). destruct L as [|c L'].
  - simpl. by rewrite Nat.add_0_r, Z.eqb_refl.
  - rewrite bool_decide_eq_false_2 by done. apply Z.eqb_neq. intros E. symmetry in E.
    apply u32_apart in E; unfold two32; simpl length in *; lia.
Qed.

Lemma tty_used : u32 (i.(in_e) - i.(in_r)) = Z.of_nat (length R + length L).
Proof.
  pose proof tty_small. rewrite (ty_e _ _ _ HT), u32_sub_l. rewrite Z.add_simpl_l. apply u32_id. unfold word, two32. lia.
Qed.

Lemma tty_full : (i.(in_e) =? u32 (i.(in_r) + INPUT_SIZE)) = bool_decide (length R + length L = INPUT_BUF)%nat.
Proof.
  pose proof tty_small. rewrite (ty_e _ _ _ HT). unfold INPUT_SIZE. case_bool_decide as E; [by rewrite E, Z.eqb_refl|].
  apply Z.eqb_neq. intros E'. apply u32_apart in E'; unfold two32, INPUT_BUF in *; lia.
Qed.
End tty.

Lemma tty_put i R L c : tty i R L → (length R + length L < INPUT_BUF)%nat →
  tty (set_in_e (u32 (i.(in_e) + 1)) (set_in_buf (<[cell i.(in_e) := c]> i.(in_buf)) i)) R (L ++ [c]).
Proof.
  intros [T1 T2 T3 T4 T5 T6] Hl. split; simpl; try done; rewrite ?length_insert, ?length_app; simpl; try done; try lia.
  - rewrite T4, u32_add_l. f_equal. lia.
  - replace (length R + (length L + 1))%nat with (S (length R + length L)) by lia.
    rewrite span_S_r, T4, cell_u32, span_insert by done. rewrite T6, list_lookup_total_insert_eq by (rewrite T1; apply cell_lt).
    by rewrite app_assoc.
Qed.

Lemma tty_back i R L c : tty i R (L ++ [c]) →
  i.(in_buf) !!! cell (i.(in_e) - 1) = c ∧ tty (set_in_e (u32 (i.(in_e) - 1)) i) R L.
Proof.
  intros [T1 T2 T3 T4 T5 T6]. rewrite length_app in *. simpl in *.
  replace (length R + (length L + 1))%nat with (S (length R + length L)) in * by lia.
  rewrite span_S_r, app_assoc in T6. apply app_inj_tail in T6 as [T6 Hc].
  assert (u32 (in_e i - 1) = u32 (in_r i + Z.of_nat (length R + length L))) as E
    by (rewrite T4, u32_sub_l; f_equal; lia).
  split; [|split; simpl; try done; lia].
  rewrite <- cell_u32, E, cell_u32. exact Hc.
Qed.

Lemma tty_commit i R L : tty i R L → tty (set_in_w i.(in_e) i) (R ++ L) [].
Proof.
  intros [T1 T2 T3 T4 T5 T6]. split; simpl; rewrite ?length_app, ?Nat.add_0_r, ?app_nil_r; done.
Qed.

Lemma tty_take i c R L : tty i (c :: R) L →
  i.(in_buf) !!! cell i.(in_r) = c ∧ tty (set_in_r (u32 (i.(in_r) + 1)) i) R L.
Proof.
  intros [T1 T2 T3 T4 T5 T6]. simpl in T6. rewrite span_S in T6. injection T6 as Hc T6.
  split; [exact Hc|]. split; simpl in *; try done; [apply u32_word| | | |].
  - rewrite T3, u32_add_l. f_equal. lia.
  - rewrite T4, u32_add_l. f_equal. lia.
  - lia.
  - by rewrite span_u32.
Qed.

(** ** The line discipline

    What typing a character does to the complete lines and the current line. *)
Definition key_char (c : Z) : Z := if c =? 13 then newline else c.

Definition edit (v : list Z * list Z) (c : Z) : list Z * list Z :=
  let '(R, L) := v in
  if c =? ctl_P then (R, L)
  else if c =? ctl_U then (R, [])
  else if (c =? ctl_H) || (c =? 127) then (R, removelast L)
  else if (c =? 0) || (INPUT_BUF <=? length R + length L)%nat then (R, L)
  else
    let c := key_char c in
    if (c =? newline) || (c =? ctl_D) || (S (length R + length L) =? INPUT_BUF)%nat then (R ++ L ++ [c], [])
    else (R, L ++ [c]).

(** Only the console and, if input became ready, sleeping processes have
    changed since [s0]. *)
Record typed (s0 : kstate) (v : list Z * list Z) (woken : bool) (s : kstate) : Prop := {
  td_eq : ∃ out i, s = set_pt (if woken then wake_proc CH_INPUT <$> s0.(pt) else s0.(pt)) (set_input i (set_cons_out out s0));
  td_tty : tty s.(input) v.1 v.2;
  td_line : newline ∉ v.2
}.

Lemma wake_wake ch (l : list proc) : wake_proc ch <$> (wake_proc ch <$> l) = wake_proc ch <$> l.
Proof.
  rewrite <- list_fmap_compose. apply list_fmap_ext. intros k p _. simpl. unfold wake_proc at 2 3.
  destruct (is_state SLEEPING p && bool_decide (p_chan p = ch)) eqn:E; unfold wake_proc; [done|by rewrite E].
Qed.

Lemma edit_grows R L c : let '(R', _) := edit (R, L) c in (length R <= length R')%nat.
Proof.
  unfold edit. repeat match goal with |- context [if ?b then _ else _] => destruct b end; rewrite ?length_app; lia.
Qed.

Lemma edits_grow keys : ∀ R L, (length R <= length (foldl edit (R, L) keys).1)%nat.
Proof.
  induction keys as [|c keys IH]; intros R L; [done|]. cbn [foldl]. pose proof (edit_grows R L c) as H.
  destruct (edit (R, L) c) as [R1 L1]. specialize (IH R1 L1). cbv beta iota in H. lia.
Qed.

Section typing.
Context (s0 : kstate) (Hh : s0.(held) = [CONS_LOCK]) (Hwf : wf_table s0).

Lemma typed_io R L b s i' out : typed s0 (R, L) b s → ∀ R' L', tty i' R' L' → newline ∉ L' →
  typed s0 (R', L') b (set_cons_out out (set_input i' s)).
Proof. intros [(o & i & ->) _ _] R' L' Ht Hn. split; [|done|done]. by exists out, i'. Qed.

Lemma bind_mod_input {A} f (k : M A) s : (mod_input f;; k) s = k (set_input (f s.(input)) s).
Proof. reflexivity. Qed.

Lemma bind_consputc {A} c (k : M A) s : (consputc c;; k) s = k (set_cons_out (s.(cons_out) ++ uart_chars c) s).
Proof. reflexivity. Qed.

Lemma kill_line_t R b : ∀ n L s, (length L <= n)%nat → typed s0 (R, L) b s →
  runs (kill_line (S n)) s (λ _ s', typed s0 (R, []) b s').
Proof.
  induction n as [|n IH]; intros L s Hl HT; pose proof HT as [_ Ht Hn]; simpl in Ht, Hn.
  - destruct L; [|simpl in Hl; lia]. cbn [kill_line]. unfold runs. rewrite bind_get, (tty_typing _ _ _ Ht). done.
  - cbn [kill_line]. unfold runs. rewrite bind_get, (tty_typing _ _ _ Ht). destruct L as [|c L _] using rev_ind; [done|].
    rewrite bool_decide_eq_false_2 by by destruct L. cbn [negb andb].
    destruct (tty_back _ _ _ _ Ht) as [-> Ht']. destruct (Z.eqb_spec c newline) as [->|Hc]; [set_solver|]. cbn [negb].
    rewrite bind_mod_input, bind_consputc. apply (IH L).
    + rewrite length_app in Hl. simpl in Hl. lia.
    + change (cons_out (set_input ?i s)) with (cons_out s). eapply typed_io; [exact HT|exact Ht'|set_solver].
Qed.

Lemma wake_input R L b s : typed s0 (R, L) b s →
  runs (wakeup CH_INPUT) s (λ _ s', typed s0 (R, L) true s').
Proof.
  intros [(o & i & Es) Ht Hn]. apply (runs_eq _ _ () (set_pt (wake_proc CH_INPUT <$> s.(pt)) s)).
  - apply wakeup_run; subst s; [|cbn; rewrite Hh; set_solver]. unfold wf_table in *. destruct b; cbn; rewrite ?length_fmap; done.
  - split; [|done|done]. exists o, i. subst s. destruct b; cbn; [by rewrite wake_wake|done].
Qed.

(** A character that fits. *)
Lemma put_t c R L b s : 0 <= c < 256 → typed s0 (R, L) b s → (length R + length L < INPUT_BUF)%nat →
  let done := (c =? newline) || (c =? ctl_D) || (S (length R + length L) =? INPUT_BUF)%nat in
  runs (mod_input (fun i => set_in_e (u32 (i.(in_e) + 1)) (set_in_buf (<[cell i.(in_e) := c mod 256]> i.(in_buf)) i));;
    consputc c;;
    i <- get input;;
    when ((c =? newline) || (c =? ctl_D) || (i.(in_e) =? u32 (i.(in_r) + INPUT_SIZE))) (
      mod_input (fun i => set_in_w i.(in_e) i);;
      wakeup CH_INPUT)) s
    (λ _ s', typed s0 (if done then (R ++ L ++ [c], []) else (R, L ++ [c])) (b || done) s').
Proof.
  intros Hc HT Hroom fin. pose proof HT as [_ Ht Hn]. simpl in Ht, Hn.
  pose proof (tty_put _ _ _ (c mod 256) Ht Hroom) as Ht'. set (i' := set_in_e _ _) in Ht'.
  rewrite (Z.mod_small c 256) in Ht' by done.
  unfold runs. rewrite bind_mod_input, bind_consputc, bind_get. fold i'.
  change (cons_out (set_input i' s)) with (cons_out s). cbn [input set_cons_out set_input].
  rewrite (tty_full _ _ _ Ht'), length_app. cbn [length].
  assert (bool_decide (length R + (length L + 1) = INPUT_BUF)%nat = (S (length R + length L) =? INPUT_BUF)%nat) as ->
    by (destruct (Nat.eqb_spec (S (length R + length L)) INPUT_BUF); [apply bool_decide_eq_true_2|apply bool_decide_eq_false_2]; lia).
  fold fin. set (s1 := set_cons_out _ _). destruct fin eqn:Ef; cbn [when].
  - rewrite orb_true_r, bind_mod_input. eapply (wake_input _ _ b). rewrite app_assoc.
    pose proof (tty_commit _ _ _ Ht') as Ht2. rewrite app_assoc in Ht2.
    destruct HT as [(o & i & ->) _ _]. split; [|exact Ht2|simpl; set_solver].
    eexists _, _. unfold s1. reflexivity.
  - rewrite orb_false_r. eapply typed_io; [exact HT|exact Ht'|]. unfold fin in Ef.
    destruct (Z.eqb_spec c newline); [done|]. set_solver.
Qed.

Lemma key_t c R L b s : 0 <= c < 256 → typed s0 (R, L) b s →
  runs (key c) s (λ _ s', typed s0 (edit (R, L) c) (b || (length R <? length (edit (R, L) c).1)%nat) s').
Proof.
  intros Hc HT. pose proof HT as [_ Ht Hn]. simpl in Ht, Hn. unfold key, edit.
  assert (∀ l : list Z, (length l <? length l)%nat = false) as Hs by (intros l; apply Nat.ltb_irrefl).
  destruct (Z.eqb_spec c ctl_P) as [->|HP]; [apply runs_ret; cbn [fst]; by rewrite Hs, orb_false_r|].
  destruct (Z.eqb_spec c ctl_U) as [->|HU].
  { cbn [fst]. rewrite Hs, orb_false_r. eapply (kill_line_t R b _ L); [|done]. pose proof (ty_room _ _ _ Ht). lia. }
  destruct ((c =? ctl_H) || (c =? 127)) eqn:EH.
  { cbn [fst]. rewrite Hs, orb_false_r. unfold runs. rewrite bind_get, (tty_typing _ _ _ Ht).
    destruct L as [|x L _] using rev_ind; [done|]. rewrite bool_decide_eq_false_2 by by destruct L.
    rewrite removelast_last. destruct (tty_back _ _ _ _ Ht) as [_ Ht']. cbn [negb when]. rewrite bind_mod_input.
    eapply (typed_io _ _ _ s); [exact HT|exact Ht'|set_solver]. }
  unfold runs. rewrite bind_get, (tty_used _ _ _ Ht).
  replace ((c =? 0) || (INPUT_BUF <=? length R + length L)%nat)
    with (negb (negb (c =? 0) && (Z.of_nat (length R + length L) <? INPUT_SIZE))).
  2:{ rewrite negb_andb, negb_involutive. f_equal. unfold INPUT_SIZE.
      destruct (Z.ltb_spec (Z.of_nat (length R + length L)) (Z.of_nat INPUT_BUF)), (Nat.leb_spec INPUT_BUF (length R + length L)); done || lia. }
  destruct (negb (c =? 0) && _) eqn:EC; cbn [negb when]; [|cbn [fst]; by rewrite Hs, orb_false_r].
  apply andb_prop in EC as [_ Hroom%Z.ltb_lt]. unfold INPUT_SIZE in Hroom. fold (key_char c).
  eapply runs_mono; [apply (put_t (key_char c) R L b s)|].
  - unfold key_char, newline. destruct (c =? 13); lia.
  - done.
  - lia.
  - intros [] s'. cbv zeta. destruct (_ || _ || _); cbn [fst]; [|by rewrite Hs, orb_false_r].
    replace (length R <? length (R ++ L ++ [key_char c]))%nat with true; [done|].
    symmetry. apply Nat.ltb_lt. rewrite !length_app. simpl. lia.
Qed.

Lemma intr_loop_t keys : ∀ R L b s d, Forall (λ c, 0 <= c < 256) keys → typed s0 (R, L) b s →
  let v := foldl edit (R, L) keys in
  runs (intr_loop keys d) s (λ _ s', typed s0 v (b || (length R <? length v.1)%nat) s').
Proof.
  induction keys as [|c keys IH]; intros R L b s d Hk HT.
  - apply runs_ret. simpl. by rewrite Nat.ltb_irrefl, orb_false_r.
  - inversion_clear Hk as [|? ? Hc Hks]. cbn [intr_loop foldl]. cbv zeta. eapply runs_bind; [by apply (key_t c R L b s)|].
    intros [] s1 H1. pose proof (edit_grows R L c) as G1. destruct (edit (R, L) c) as [R1 L1]. cbv beta iota in G1. simpl in H1.
    eapply runs_mono; [apply (IH R1 L1 _ s1 _ Hks H1)|]. intros x s2 H2. cbv zeta in H2.
    pose proof (edits_grow keys R1 L1) as G2. set (v := foldl edit (R1, L1) keys) in *.
    replace (b || (length R <? length v.1)%nat) with (b || (length R <? length R1)%nat || (length R1 <? length v.1)%nat); [done|].
    rewrite <- orb_assoc. f_equal.
    destruct (Nat.ltb_spec (length R) (length R1)), (Nat.ltb_spec (length R1) (length v.1)), (Nat.ltb_spec (length R) (length v.1)); done || lia.
Qed.
End typing.

(** A listing of the processes only prints. *)
Definition prints (s s' : kstate) : Prop := ∃ out, s' = set_cons_out out s.

#[global] Instance prints_preorder : PreOrder prints.
Proof. split; [intros s; exists s.(cons_out); by destruct s|]. intros s1 s2 s3 [o1 ->] [o2 ->]. by exists o2. Qed.

Lemma cprintf_t fmt args s0 s : CONS_LOCK ∉ s0.(held) → prints s0 s → runs (cprintf fmt args) s (λ _ s', prints s0 s').
Proof.
  intros H Hp. unfold runs. rewrite cprintf_ok; [|by destruct Hp as [o ->]].
  transitivity s; [done|]. by eexists.
Qed.

Lemma print_pcs_t pcs s0 : ∀ s, CONS_LOCK ∉ s0.(held) → prints s0 s → runs (print_pcs pcs) s (λ _ s', prints s0 s').
Proof.
  induction pcs as [|pc pcs IH]; intros s H Hp; [by apply runs_ret|]. cbn [print_pcs].
  destruct (pc =? 0); [by apply runs_ret|]. eapply runs_bind; [by apply cprintf_t|]. intros [] s1 H1. by apply IH.
Qed.

Lemma procdump_t s : CONS_LOCK ∉ s.(held) → runs procdump s (λ _ s', prints s s').
Proof.
  intros H. apply runs_Ret. unfold procdump.
  apply (foldM_inv (λ (_ : unit) s', prints s s')); [done|]. intros i [] s1 _ H1. apply runs_Ret. unfold runs. rewrite bind_getp. set (p := get_proc i s1).
  destruct (is_state UNUSED p); cbn [negb when]; [done|].
  eapply runs_bind; [by apply (cprintf_t _ _ s)|]. intros [] s2 H2.
  apply (runs_bind _ _ _ (λ _ s', prints s s')).
  - destruct (is_state SLEEPING p); cbn [when]; [|by apply runs_ret]. unfold runs. rewrite bind_get. by apply print_pcs_t.
  - intros [] s3 H3. by apply cprintf_t.
Qed.

Lemma consoleintr_t keys s R L : Forall (λ c, 0 <= c < 256) keys → s.(held) = [] → wf_table s →
  tty s.(input) R L → newline ∉ L → let v := foldl edit (R, L) keys in
  runs (consoleintr keys) s (λ _ s', typed s v (length R <? length v.1)%nat s').
Proof.
  intros Hk Hh Hw Ht Hn v. unfold consoleintr, runs.
  kcall (acquire_free CONS_LOCK s ltac:(rewrite Hh; apply not_elem_of_nil)). rewrite Hh. set (s1 := set_held [CONS_LOCK] s).
  assert (typed s1 (R, L) false s1) as H1.
  { split; [|done|done]. exists s.(cons_out), s.(input). by destruct s. }
  eapply runs_bind; [apply (intr_loop_t s1 eq_refl Hw keys R L false s1 false Hk H1)|].
  fold v. intros d s2 [(o & i & Es) Ht2 Hn2]. cbn [orb] in *.
  apply (runs_bind _ _ _ (λ _ s3, s3 = set_held [] s2)).
  { eapply runs_eq; [apply (release_head _ []); [by rewrite Es|apply not_elem_of_nil]|done]. }
  intros [] s3 Es3.
  assert (s3 = set_pt (if (length R <? length v.1)%nat then wake_proc CH_INPUT <$> s.(pt) else s.(pt))
    (set_input i (set_cons_out o s))) as Es3'.
  { rewrite Es3, Es. unfold s1. destruct s. simpl in *. by subst held. }
  rewrite Es in Ht2. simpl in Ht2.
  destruct d; cbn [when].
  - eapply runs_mono; [apply (procdump_t s3); rewrite Es3; apply not_elem_of_nil|].
    intros [] s4 [o4 ->]. rewrite Es3'. split; [by exists o4, i|done|done].
  - apply runs_ret. rewrite Es3'. split; [by exists o, i|done|done].
Qed.

(** C26: Typing implements the line discipline.  For every sequence of
    characters from the keyboard, [consoleintr] terminates with its lock
    released, and the input buffer holds the complete lines and the current
    line that the reference editor [edit] computes: control-U and backspace
    never reach into a complete line, a full buffer drops characters, and a
    line becomes ready with its newline, with control-D or when the buffer is
    full.  Exactly if something became ready, the processes waiting for input
    have been woken; except for the output echoed nothing else changes. *)
Theorem consoleintr_edits keys s R L : Forall (λ c, 0 <= c < 256) keys → s.(held) = [] → wf_table s →
  tty s.(input) R L → newline ∉ L → let '(R', L') := foldl edit (R, L) keys in
  runs (consoleintr keys) s (λ _ s', tty s'.(input) R' L' ∧ newline ∉ L' ∧
    ∃ out i, s' = set_pt (if (length R <? length R')%nat then wake_proc CH_INPUT <$> s.(pt) else s.(pt))
      (set_input i (set_cons_out out s))).
Proof.
  intros Hk Hh Hw Ht Hn. pose proof (consoleintr_t keys s R L Hk Hh Hw Ht Hn) as H. cbv zeta in H.
  destruct (foldl edit (R, L) keys) as [R' L']. eapply runs_mono; [exact H|]. by intros [] s' [H1 H2 H3].
Qed.

Lemma consoleintr_edits_witness : tty demo.(input) [] [] ∧
  runs (consoleintr [97; 98; 8; 99; 13]) demo (λ _ s', tty s'.(input) [97; 99; 10] []).
Proof.
  assert (tty demo.(input) [] []) as Ht by (split; reflexivity || (simpl; unfold word, two32, INPUT_BUF; lia)).
  split; [exact Ht|]. assert (foldl edit ([], []) [97; 98; 8; 99; 13] = ([97; 99; 10], [])) as E by reflexivity.
  pose proof (consoleintr_edits [97; 98; 8; 99; 13] demo [] []) as H. rewrite E in H.
  eapply runs_mono; [apply H; [|reflexivity|reflexivity|exact Ht|apply not_elem_of_nil]|].
  - repeat (constructor; [split; [discriminate|reflexivity]|]). constructor.
  - intros [] s' [H' _]. exact H'.
Defined.

(** ** Reading a line *)

(** What a read of [n] characters takes from the ready ones: at most one
    line; control-D ends it, and stays for the next read if something has been
    read.  [None] if there are not enough. *)
Fixpoint read_line (n : nat) (first : bool) (R : list Z) : option (list Z * list Z) :=
  match n, R with
  | O, _ => Some ([], R)
  | S n, [] => None
  | S n, c :: R' =>
    if c =? ctl_D then Some ([], if first then R' else R)
    else if c =? newline then Some ([c], R')
    else '(d, R'') ← read_line n false R'; Some (c :: d, R'')
  end.

Section reading.
Context {WF : WaitFuel} (Hfuel : wait_fuel ≠ 0%nat).

Lemma wait_ready s c R L : tty s.(input) (c :: R) L → consoleread_wait wait_fuel s = Ret true s.
Proof.
  intros Ht. destruct wait_fuel as [|n]; [done|]. cbn [consoleread_wait]. by rewrite bind_get, (tty_ready _ _ _ Ht).
Qed.

Lemma consoleread_loop_t target L : word target → ∀ cnt R d R' s dst, tty s.(input) R L →
  read_line cnt (Z.of_nat cnt =? target) R = Some (d, R') → Z.of_nat cnt <= target →
  runs (consoleread_loop cnt (u32 dst) (Z.of_nat cnt) target) s (λ r s', r = Some (Z.of_nat cnt - Z.of_nat (length d)) ∧
    ∃ i, s' = set_mem (put_bytes s.(mem) (u32 dst) d) (set_input i s) ∧ tty i R' L).
Proof.
  intros Htg. induction cnt as [|cnt IH]; intros R d R' s dst Ht Hrd Hle.
  - injection Hrd as <- <-. apply runs_ret. split; [done|]. exists s.(input). split; [by destruct s|done].
  - destruct R as [|c R]; [done|]. cbn [consoleread_loop]. unfold runs.
    rewrite (bind_returns _ _ _ _ _ (wait_ready s c R L Ht)), bind_get, bind_mod_input.
    destruct (tty_take _ _ _ _ Ht) as [-> Ht']. cbn [read_line] in Hrd.
    destruct (Z.eqb_spec c ctl_D) as [->|Hd]; [|destruct (Z.eqb_spec c newline) as [->|Hnl]].
    + rewrite u32_id by (unfold word in *; lia).
      destruct (Z.ltb_spec (Z.of_nat (S cnt)) target), (Z.eqb_spec (Z.of_nat (S cnt)) target); try lia; cbn [when];
        injection Hrd as <- <-; rewrite Z.sub_0_r.
      * rewrite bind_mod_input. split; [done|]. exists s.(input). split; [|done].
        cbn [input set_input]. cbn [set_in_r in_r]. rewrite u32_sub_l, Z.add_simpl_r, u32_id by apply Ht.
        destruct s as [? ? ? ? ? ? ? ? ? ? ? ? ? ? ? ? ? ? ? ? ? ? []]. done.
      * rewrite bind_ret_l. split; [done|]. eexists. split; [|exact Ht']. by destruct s.
    + injection Hrd as <- <-. split; [f_equal; simpl; lia|]. eexists. split; [|exact Ht']. done.
    + destruct (read_line cnt false R) as [[d1 R1]|] eqn:E; [|done]. injection Hrd as <- <-.
      rewrite bind_modify. rewrite u32_add_l. replace (Z.of_nat (S cnt) - 1) with (Z.of_nat cnt) by lia.
      set (s1 := set_mem _ _). eapply runs_mono; [apply (IH R d1 R1 s1 (dst + 1))|].
      * exact Ht'.
      * destruct (Z.eqb_spec (Z.of_nat cnt) target); [lia|done].
      * lia.
      * intros r s' (-> & i & -> & Hi). split; [f_equal; simpl; lia|]. exists i. split; [|done].
        cbn [put_bytes]. rewrite u32_add_l. done.
Qed.

(** Process [c] has the inode [ip] of the console; [lk] is its lock. *)
Record console_inode (c ip : nat) (lk : sleeplock) (s : kstate) : Prop := {
  ci_cur : s.(curproc) = Some c;
  ci_wf : wf_table s;
  ci_ip : (ip < length s.(fs).(icache))%nat;
  ci_lock : get_sl (SL_INODE ip) s = lk;
  ci_ref : 1 <= i_ref (get_inode ip s);
  ci_valid : i_valid (get_inode ip s) ≠ 0
}.

Lemma iunlock_run c ip pid s : console_inode c ip (mkslk 1 pid) s → s.(held) = [] → pid = p_pid (get_proc c s) →
  runs (iunlock (Some ip)) s (λ _ s', s' = set_pt (wake_proc (CH_SLEEPLOCK (SL_INODE ip)) <$> s.(pt)) (put_sl (SL_INODE ip) (mkslk 0 0) s) ∧
    console_inode c ip (mkslk 0 0) s').
Proof.
  intros [C1 C2 C3 C4 C5 C6] Hh ->. unfold iunlock, runs.
  rewrite (bind_returns _ _ _ _ _ (holdingsleep_run c (SL_INODE ip) s C1 ltac:(rewrite Hh; apply not_elem_of_nil) C3)).
  rewrite C4. cbn [sl_locked sl_pid]. rewrite Z.eqb_refl. unfold geti. rewrite bind_get.
  rewrite (proj2 (Z.ltb_ge _ _) C5). change (negb (truthy 1 && true) || false) with false. cbv iota.
  rewrite (releasesleep_run c (SL_INODE ip) s C1 ltac:(rewrite Hh; apply not_elem_of_nil) C3 C2 ltac:(rewrite Hh; apply not_elem_of_nil)). split; [done|]. split; try done.
  - unfold wf_table. simpl. by rewrite length_fmap.
  - simpl. by rewrite length_alter.
  - apply (get_put_sl (SL_INODE ip) (mkslk 0 0) s). done.
  - unfold get_inode in *. simpl. rewrite list_lookup_total_alter_eq by done. done.
  - unfold get_inode in *. simpl. rewrite list_lookup_total_alter_eq by done. done.
Qed.

Lemma ilock_run c ip s : console_inode c ip (mkslk 0 0) s → s.(held) = [] →
  runs (ilock (Some ip)) s (λ _ s', s' = put_sl (SL_INODE ip) (mkslk 1 (p_pid (get_proc c s))) s).
Proof.
  intros [C1 C2 C3 C4 C5 C6] Hh. unfold ilock, runs, geti. rewrite bind_get, (proj2 (Z.ltb_ge _ _) C5).
  erewrite bind_returns; [|apply (acquiresleep_run c (SL_INODE ip) s C1); [rewrite Hh; apply not_elem_of_nil|done|done|by rewrite C4]].
  rewrite bind_get. unfold get_inode in *. simpl. rewrite list_lookup_total_alter_eq by done. simpl.
  by rewrite (proj2 (Z.eqb_neq _ _) C6).
Qed.

(** The end of [consoleread], with the console locked. *)
Lemma read_tail c ip n (d : list Z) s : console_inode c ip (mkslk 0 0) s → s.(held) = [CONS_LOCK] → 0 <= n < two31 → (length d <= Z.to_nat n)%nat →
  runs (release CONS_LOCK;; ilock (Some ip);; ret (s32 (n - (n - Z.of_nat (length d))))) s (λ v s',
    v = Z.of_nat (length d) ∧ s'.(mem) = s.(mem) ∧ s'.(input) = s.(input) ∧ s'.(held) = []).
Proof.
  intros HC Hh Hn Hd. apply (runs_bind _ _ _ (λ _ s1, s1 = set_held [] s)).
  { eapply runs_eq; [apply (release_head _ []); [done|apply not_elem_of_nil]|done]. }
  intros [] s1 ->. eapply runs_bind; [apply (ilock_run c ip); [|done]|].
  - destruct HC. by split.
  - intros [] s2 ->. apply runs_ret. split; [|done]. unfold two31 in Hn.
    rewrite s32_id; unfold two31; lia.
Qed.

Lemma read_line_length n first R d R' : read_line n first R = Some (d, R') → (length d <= n)%nat.
Proof.
  revert first R d R'. induction n as [|n IH]; intros first R d R'; simpl; [intros [= <- _]; simpl; lia|].
  destruct R as [|c R]; [done|]. destruct (c =? ctl_D); [intros [= <- _]; simpl; lia|].
  destruct (c =? newline); [intros [= <- _]; simpl; lia|].
  destruct (read_line n false R) as [[d1 R1]|] eqn:E; [|done]. intros [= <- _]. simpl. apply IH in E. lia.
Qed.

(** From the loop on, with enough ready. *)
Lemma read_ready c ip n dst s R L d R' : console_inode c ip (mkslk 0 0) s → s.(held) = [CONS_LOCK] → 0 <= n < two31 →
  tty s.(input) R L → read_line (Z.to_nat n) true R = Some (d, R') →
  runs (r <- consoleread_loop (Z.to_nat n) (u32 dst) n (u32 n);; release CONS_LOCK;; ilock (Some ip);;
    match r with None => ret (-1) | Some n' => ret (s32 (u32 n - n')) end) s (λ v s',
    v = Z.of_nat (length d) ∧ s'.(mem) = put_bytes s.(mem) (u32 dst) d ∧ tty s'.(input) R' L ∧ s'.(held) = []).
Proof.
  intros HC Hh Hn Ht Hrd. unfold two31 in Hn. rewrite (u32_id n) by (unfold word, two32; lia).
  pose proof (consoleread_loop_t n L ltac:(unfold word, two32; lia) (Z.to_nat n) R d R' s dst Ht) as Hl.
  rewrite Z2Nat.id, Z.eqb_refl in Hl by lia. eapply runs_bind; [apply Hl; [done|lia]|].
  intros r s1 (-> & i & -> & Hi). eapply runs_mono; [apply (read_tail c ip n d)|].
  - destruct HC. by split.
  - done.
  - unfold two31. lia.
  - by eapply read_line_length.
  - intros v s2 (-> & -> & -> & ->). done.
Qed.

(** The process that waits. *)
Lemma wait_switch c s L f : s.(curproc) = Some c → wf_table s → s.(held) = [CONS_LOCK] → (c < NPROC)%nat →
  tty s.(input) [] L → p_killed (get_proc c s) = 0 →
  ∃ k, consoleread_wait (S f) s = Switch (put_proc c (sleeping_on CH_INPUT (get_proc c s)) (set_held [PTABLE_LOCK] s)) k ∧
    ∀ s2, s2.(held) = [PTABLE_LOCK] → wf_table s2 →
      k s2 = consoleread_wait f (put_proc c (set_p_chan NOCHAN (get_proc c s2)) (set_held [CONS_LOCK] (set_intena s.(intena) s2))).
Proof.
  intros Hc Hw Hh Hlt Ht Hk. unfold wf_table in Hw.
  destruct (sleep_switch c CH_INPUT CONS_LOCK s Hc ltac:(lia) Hh ltac:(done)) as (k & Es & Hres).
  eexists. split.
  - cbn [consoleread_wait]. rewrite bind_get, (tty_ready _ _ _ Ht), bool_decide_eq_true_2 by done.
    assert (cur_killed s = Ret false s) as Ek by (unfold cur_killed; rewrite bind_myproc, Hc; cbn [with_proc]; by rewrite bind_getp, Hk).
    rewrite (bind_returns _ _ _ _ _ Ek). apply bind_switch. exact Es.
  - intros s2 Hs2 Hw2. cbv beta. unfold wf_table in Hw2. rewrite Hres by (done || lia). done.
Qed.

(** [consoleread] after the inode has been unlocked and the console locked. *)
Definition read_body (ip : nat) (dst n : Z) : M Z :=
  r <- consoleread_loop (Z.to_nat n) dst n (u32 n);; release CONS_LOCK;; ilock (Some ip);;
  match r with None => ret (-1) | Some n' => ret (s32 (u32 n - n')) end.

Lemma bind_inner {A B D} (m : M A) (f : A → M B) (g : B → M D) s a s' : m s = Ret a s' →
  bind (bind m f) g s = cbind (f a s') g.
Proof. intros Hm. unfold bind. by rewrite Hm. Qed.

Lemma body_switch c ip s dst n L : (1 < wait_fuel)%nat → console_inode c ip (mkslk 0 0) s → s.(held) = [CONS_LOCK] → (c < NPROC)%nat →
  tty s.(input) [] L → p_killed (get_proc c s) = 0 → 0 < n →
  ∃ k, read_body ip dst n s = Switch (put_proc c (sleeping_on CH_INPUT (get_proc c s)) (set_held [PTABLE_LOCK] s)) k ∧
    ∀ s2 x R L', s2.(held) = [PTABLE_LOCK] → wf_table s2 → tty s2.(input) (x :: R) L' →
      k s2 = read_body ip dst n (put_proc c (set_p_chan NOCHAN (get_proc c s2)) (set_held [CONS_LOCK] (set_intena s.(intena) s2))).
Proof.
  intros Hf HC Hh Hlt Ht Hk Hn. destruct HC as [C1 C2 _ _ _ _].
  unfold read_body. replace (Z.to_nat n) with (S (Z.to_nat (n - 1))) by lia.
  assert (∃ f, wait_fuel = S (S f)) as [f Ew] by (exists (wait_fuel - 2)%nat; lia).
  destruct (wait_switch c s L (S f) C1 C2 Hh Hlt Ht Hk) as (k & Es & Hres).
  eexists. split.
  - apply bind_switch. cbn [consoleread_loop]. rewrite Ew. apply bind_switch. exact Es.
  - intros s2 x R L' Hs2 Hw2 Ht2. cbv beta. rewrite Hres by done. set (s3 := put_proc c _ _).
    assert (∀ f, consoleread_wait (S f) s3 = Ret true s3) as Er.
    { intros f'. cbn [consoleread_wait]. rewrite bind_get. by rewrite (tty_ready (input s3) _ _ Ht2). }
    cbn [consoleread_loop]. rewrite Ew, (Er f), (bind_inner _ _ _ _ _ _ (Er (S f))). done.
Qed.

Lemma runs_resume {A} (k : kstate → comp kstate ujump A) (m : M A) s s' Q : k s = m s' → runs m s' Q → runs k s Q.
Proof. unfold runs. by intros ->. Qed.

Lemma killed_wake ch i s : (i < length s.(pt))%nat →
  p_killed (get_proc i (set_pt (wake_proc ch <$> s.(pt)) s)) = p_killed (get_proc i s).
Proof. intros Hi. rewrite get_proc_map by done. unfold wake_proc. by destruct (_ && _). Qed.

(** A process that reads the console when no input is ready goes to
    sleep with the console and the inode unlocked.  When characters are typed
    that complete a line, [consoleintr] makes it runnable; when it runs again,
    its read returns the first line, up to the length asked for, stored in its
    buffer, and leaves the rest of the input for later reads. *)
Theorem console_read_line c ip s L dst n : (1 < wait_fuel)%nat →
  console_inode c ip (mkslk 1 (p_pid (get_proc c s))) s → s.(held) = [] → (c < NPROC)%nat →
  tty s.(input) [] L → newline ∉ L → p_killed (get_proc c s) = 0 → word dst → 0 < n < two31 →
  ∃ s1 k, consoleread ip dst n s = Switch s1 k ∧ s1.(held) = [PTABLE_LOCK] ∧
  ∀ keys d R', Forall (λ c, 0 <= c < 256) keys → let v := foldl edit ([], L) keys in
    read_line (Z.to_nat n) true v.1 = Some (d, R') →
    runs (consoleintr keys) (set_held [] s1) (λ _ s2, p_state (get_proc c s2) = RUNNABLE ∧
      runs k (set_held [PTABLE_LOCK] s2) (λ r s3, r = Z.of_nat (length d) ∧
        s3.(mem) = put_bytes s.(mem) dst d ∧ tty s3.(input) R' v.2 ∧ s3.(held) = [])).
Proof.
  intros Hf HC Hh Hlt Ht Hn Hk Hdst Hnn.
  destruct (proj1 (runs_Ret _ _ _) (iunlock_run c ip _ s HC Hh eq_refl)) as ([] & sA & EA & EsA & HCA).
  set (sB := set_held [CONS_LOCK] sA). assert (wf_table s) as Hw by apply HC. unfold wf_table in Hw.
  assert (console_inode c ip (mkslk 0 0) sB) as HCB by (destruct HCA; by split).
  assert (p_killed (get_proc c sB) = 0) as HkB.
  { unfold sB. change (get_proc c (set_held _ sA)) with (get_proc c sA). rewrite EsA.
    change (get_proc c (set_pt ?l (put_sl ?i ?v s))) with (get_proc c (set_pt l s)). by rewrite killed_wake by lia. }
  destruct (body_switch c ip sB dst n L Hf HCB eq_refl Hlt) as (k & EB & Hres); [by unfold sB; rewrite EsA|done|lia|].
  exists (put_proc c (sleeping_on CH_INPUT (get_proc c sB)) (set_held [PTABLE_LOCK] sB)), k. split; [|split; [done|]].
  { unfold consoleread. rewrite (bind_returns _ _ _ _ _ EA).
    rewrite (bind_returns _ _ _ _ _ (acquire_free CONS_LOCK sA ltac:(rewrite EsA; simpl; rewrite Hh; apply not_elem_of_nil))).
    replace (held sA) with ([] : list lockid) by (by rewrite EsA). exact EB. }
  intros keys d R' Hks v Hrd. set (s1 := put_proc c _ _).
  assert (length (pt sB) = NPROC) as HwB by apply HCB.
  assert (input s1 = input s ∧ mem s1 = mem s) as [EI EM] by (unfold s1, sB; by rewrite EsA).
  eapply runs_mono; [apply (consoleintr_t keys (set_held [] s1) [] L Hks)|].
  - done.
  - unfold wf_table, s1. simpl. by rewrite length_insert.
  - by rewrite <- EI in Ht.
  - done.
  - fold v. intros [] s2 [(o & i & Es2) Ht2 Hn2]. destruct v as [V1 V2]. cbn [fst snd] in *.
    destruct V1 as [|x R]; [replace (Z.to_nat n) with (S (Z.to_nat (n - 1))) in Hrd by lia; done|].
    change (length [] <? length (x :: R))%nat with true in Es2. cbv iota in Es2.
    assert (length (pt s1) = NPROC) as Hw1 by (unfold s1; simpl; by rewrite length_insert).
    split.
    + rewrite Es2. change (get_proc c (set_pt ?l (set_input _ _))) with (get_proc c (set_pt l s1)).
      change (pt (set_held [] s1)) with (pt s1). rewrite get_proc_map by lia.
      unfold s1. rewrite get_put_same by (change (c < length (pt sB))%nat; lia). done.
    + apply (runs_resume k _ _ _ _ (Hres (set_held [PTABLE_LOCK] s2) x R V2 eq_refl ltac:(rewrite Es2; unfold wf_table; simpl; by rewrite length_fmap) Ht2)).
      set (s3 := put_proc c _ _). eapply runs_mono.
      * pose proof (read_ready c ip n dst s3 (x :: R) V2 d R') as Hr. rewrite (u32_id dst) in Hr by done. apply Hr.
        -- destruct HCB as [C1 C2 C3 C4 C5 C6]. unfold s3. rewrite Es2. split; try done.
           unfold wf_table. simpl. by rewrite length_insert, length_fmap.
        -- done.
        -- lia.
        -- done.
        -- done.
      * intros r s4 (-> & -> & Ht4 & ->). split; [done|]. split; [|done]. unfold s3. rewrite Es2. simpl. by rewrite <- EM.
Qed.
End reading.

Definition demo_console : kstate :=
  set_fs (set_icache (<[3%nat := set_i_lock (mkslk 1 (p_pid (get_proc 1 demo))) (set_i_ref 1 (set_i_valid 1 inode0))]> fs0.(icache)) fs0) demo.

Lemma console_read_line_witness : let WF : WaitFuel := 2%nat in
  ∃ s1 k, consoleread 3 8192 5 demo_console = Switch s1 k ∧
  runs (consoleintr [104; 105; 13]) (set_held [] s1) (λ _ s2, p_state (get_proc 1 s2) = RUNNABLE ∧
    runs k (set_held [PTABLE_LOCK] s2) (λ r s3, r = 3 ∧ s3.(mem) = put_bytes demo.(mem) 8192 [104; 105; 10])).
Proof.
  intros WF. assert (tty demo_console.(input) [] []) as Ht by (split; reflexivity || (simpl; unfold word, two32, INPUT_BUF; lia)).
  destruct (console_read_line (WF := WF) ltac:(discriminate) 1 3 demo_console [] 8192 5) as (s1 & k & E & _ & Hrun).
  - unfold wait_fuel, WF. lia.
  - split; reflexivity || (simpl; lia) || (simpl; discriminate).
  - reflexivity.
  - unfold NPROC. lia.
  - exact Ht.
  - apply not_elem_of_nil.
  - reflexivity.
  - unfold word, two32. lia.
  - unfold two31. lia.
  - exists s1, k. split; [exact E|]. eapply runs_mono.
    + apply (Hrun [104; 105; 13] [104; 105; 10] []); [|reflexivity].
      repeat (constructor; [split; [discriminate|reflexivity]|]). constructor.
    + intros [] s2 [H1 H2]. split; [exact H1|]. eapply runs_mono; [exact H2|]. intros r s3 (Hr & Hm & _). split; [exact Hr|exact Hm].
Defined.

(** ** The screen *)

(** 25 rows of 80 cells; the cursor stays above the last row. *)
Record cga_ok (g : cga) : Prop := {
  cg_len : length g.(crt) = Z.to_nat (25 * COLS);
  cg_pos : 0 <= g.(cursor) < 24 * COLS
}.

(** A character never drives the cursor off the screen: [cgaputc] does not
    panic, keeps the cursor in range and leaves a blank cell under it. *)
Lemma cgaputc_ok c g : cga_ok g → ∃ g', cgaputc c g = Some g' ∧ cga_ok g' ∧ g'.(crt) !! Z.to_nat g'.(cursor) = Some blank.
Proof.
  intros [Hl Hp]. unfold cgaputc, COLS in *.
  set (q := if c =? newline then _ else _).
  assert (∃ cells pos, q = (cells, pos) ∧ length cells = 2000%nat ∧ 0 <= pos <= 1920) as (cells & pos & -> & Hc & Hpos).
  { unfold q. destruct (c =? newline).
    - eexists _, _. split; [done|]. split; [done|]. pose proof (Z.mod_pos_bound (cursor g) 80 ltac:(done)).
      pose proof (Z.div_mod (cursor g) 80 ltac:(done)). assert (cursor g / 80 < 24) by (apply Z.div_lt_upper_bound; lia). lia.
    - destruct (c =? BACKSPACE); eexists _, _; (split; [done|]).
      + split; [done|]. destruct (Z.ltb_spec 0 (cursor g)); lia.
      + rewrite length_insert. split; [done|lia]. }
  replace ((pos <? 0) || (25 * 80 <? pos)) with false by (symmetry; apply orb_false_iff; split; apply Z.ltb_ge; lia).
  destruct (Z.leb_spec 24 (pos / 80)) as [Hs|Hs].
  - assert (pos = 1920) as -> by (pose proof (Z.div_mod pos 80 ltac:(done)); pose proof (Z.mod_pos_bound pos 80 ltac:(done)); lia).
    eexists. split; [done|]. cbn [cursor crt].
    set (moved := take _ _ ++ drop _ _). assert (length moved = 2000%nat) as Hm
      by (unfold moved; rewrite length_app, length_take, !length_drop; lia).
    set (l := take _ moved ++ _). assert (length l = 2000%nat) as Hll
      by (unfold l; rewrite !length_app, length_take, length_replicate, length_drop; lia).
    split; [split; [simpl; by rewrite length_insert|simpl; unfold COLS; lia]|]. apply list_lookup_insert_eq. lia.
  - eexists. split; [done|]. cbn [cursor crt].
    assert (pos < 1920) by (pose proof (Z.div_mod pos 80 ltac:(done)); pose proof (Z.mod_pos_bound pos 80 ltac:(done)); lia).
    split; [split; [simpl; by rewrite length_insert|simpl; unfold COLS; lia]|]. apply list_lookup_insert_eq. lia.
Qed.
