(* ===== verification/Exec.v ===== *)
(** * Running a program: [exec.c]

    [exec] against the interface of the virtual memory operations and the
    file system.  The ELF headers are local structures, read from the inode as
    bytes; [ustack] is a local array in the kernel stack, at an address the
    compiler chooses. *)

From stdpp Require Import base numbers option list sets strings gmap fin_maps functions.
From Stdlib Require Import ZArith Lia.
From S2P Require Import Prelude Kstring State Locks Console Kalloc Proc Signal Delivery.
From S2P Require Import Pipe File ProcLife Vm Sleeplock Bio Log Fs Dir.

(** ** Executable files: [elf.h] *)

Definition ELF_MAGIC : Z := 1179403647.
Definition ELF_PROG_LOAD : Z := 1.
Definition sizeof_elfhdr : Z := 52.
Definition sizeof_proghdr : Z := 32.
Definition MAXARG : nat := 32.

Record elfhdr : Type := mkelf { eh_magic : Z; eh_entry : Z; eh_phoff : Z; eh_phnum : Z }.
Definition elfhdr_of (d : list Z) : elfhdr := mkelf (ld32 d 0) (ld32 d 24) (ld32 d 28) (ld16 d 44).

Record proghdr : Type := mkph { ph_type : Z; ph_off : Z; ph_vaddr : Z; ph_filesz : Z; ph_memsz : Z }.
Definition proghdr_of (d : list Z) : proghdr := mkph (ld32 d 0) (ld32 d 4) (ld32 d 8) (ld32 d 16) (ld32 d 20).

(** The address of the local array [ustack]. *)
Class ExecFrame : Type := ustack_at : Z.

Section exec.
Context `{!WaitFuel, !DevSw, !VmOps, !ExecFrame}.

(** ** Loading the segments *)

(** [cnt] program headers are left; [None] is [goto bad]. *)
Fixpoint load_loop (cnt : nat) (ip : nat) (pgdir off sz : Z) : M (option Z) :=
  match cnt with
  | O => ret (Some sz)
  | S cnt =>
    r <- readi_gen ip None (u32 off) sizeof_proghdr;;
    if negb (r.1 =? sizeof_proghdr) then ret None else
    let ph := proghdr_of r.2 in
    let next := s32 (off + sizeof_proghdr) in
    if negb (ph.(ph_type) =? ELF_PROG_LOAD) then load_loop cnt ip pgdir next sz else
    if ph.(ph_memsz) <? ph.(ph_filesz) then ret None else
    if u32 (ph.(ph_vaddr) + ph.(ph_memsz)) <? ph.(ph_vaddr) then ret None else
    sz <- allocuvm pgdir sz (u32 (ph.(ph_vaddr) + ph.(ph_memsz)));;
    if sz =? 0 then ret None else
    if negb (ph.(ph_vaddr) mod PGSIZE =? 0) then ret None else
    r <- loaduvm pgdir ph.(ph_vaddr) (Some ip) ph.(ph_off) ph.(ph_filesz);;
    if r <? 0 then ret None else load_loop cnt ip pgdir next sz
  end.

(** ** The arguments on the new stack *)

Definition put_ustack (i v : Z) : M unit := st (u32 (ustack_at + 4 * i)) v.

Definition strlen_of (a : Z) : M Z :=
  m <- get mem;;
  match strlen wait_fuel m a with Some n => ret n | None => fun s => Stuck s end.

(** Copy the strings from number [argc] on; the result is the stack pointer. *)
Fixpoint push_args (argv : list Z) (pgdir argc sp : Z) : M (option (Z * Z)) :=
  match argv with
  | [] => ret (Some (argc, sp))
  | a :: argv =>
    if Z.of_nat MAXARG <=? argc then ret None else
    n <- strlen_of a;;
    let sp := Z.land (u32 (sp - (n + 1))) (not32 3) in
    n <- strlen_of a;;
    r <- copyout pgdir sp a (n + 1);;
    if r <? 0 then ret None else
    put_ustack (3 + argc) sp;;
    push_args argv pgdir (argc + 1) sp
  end.

Definition push_stack (argv : list Z) (pgdir sp : Z) : M (option Z) :=
  o <- push_args argv pgdir 0 sp;;
  match o with
  | None => ret None
  | Some (argc, sp) =>
    put_ustack (3 + argc) 0;;
    put_ustack 0 4294967295;;
    put_ustack 1 argc;;
    put_ustack 2 (u32 (sp - (argc + 1) * 4));;
    let sp := u32 (sp - (3 + argc + 1) * 4) in
    r <- copyout pgdir sp ustack_at ((3 + argc + 1) * 4);;
    if r <? 0 then ret None else ret (Some sp)
  end.

(** ** The new image *)

(** The path behind its last slash. *)
Fixpoint last_elem (path last : list Z) : list Z :=
  match path with
  | [] => last
  | c :: p => last_elem p (if c =? slash then p else last)
  end.

(** Dispositions other than [IGN] are reset. *)
Definition reset_disposition (h : handlerinfo) : handlerinfo :=
  if h.(disposition) =? IGN then h else set_disposition DFL h.

Definition exec_image (name : list Z) (pgdir sz entry sp : Z) (p : proc) : proc :=
  set_p_allinfo (reset_disposition <$> p.(p_allinfo))
    (set_p_tf (set_tf_esp sp (set_tf_eip entry p.(p_tf)))
      (set_p_sz sz (set_p_pgdir pgdir (set_p_name (copy_name name p.(p_name)) p)))).

Definition exec_commit (c : nat) (path pgdir sz entry sp : Z) : M Z :=
  l <- get_path path;;
  p <- getp c;;
  let oldpgdir := p.(p_pgdir) in
  modp c (exec_image (last_elem l l) pgdir sz entry sp);;
  switchuvm (Some c);;
  freevm oldpgdir;;
  ret 0.

(** [bad:] *)
Definition exec_bad (pgdir : Z) (ip : option nat) : M Z :=
  when (truthy pgdir) (freevm pgdir);;
  match ip with
  | Some i => iunlockput (Some i);; Log.end_op
  | None => ret ()
  end;;
  ret (-1).

(** ** [exec] *)

(** After the program has been loaded. *)
Definition exec_stack (c : nat) (path : Z) (argv : list Z) (pgdir sz entry : Z) : M Z :=
  let sz := PGROUNDUP sz in
  sz <- allocuvm pgdir sz (u32 (sz + 2 * PGSIZE));;
  if sz =? 0 then exec_bad pgdir None else
  clearpteu pgdir (u32 (sz - 2 * PGSIZE));;
  o <- push_stack argv pgdir sz;;
  match o with
  | None => exec_bad pgdir None
  | Some sp => exec_commit c path pgdir sz entry sp
  end.

Definition exec (path : Z) (argv : list Z) : M Z :=
  o <- myproc;;
  with_proc o (fun c =>
  Log.begin_op;;
  o <- Dir.namei path;;
  match o with
  | None => Log.end_op;; cprintf "exec: fail
" [];; ret (-1)
  | Some ip =>
    Fs.ilock (Some ip);;
    r <- readi_gen ip None 0 sizeof_elfhdr;;
    if negb (r.1 =? sizeof_elfhdr) then exec_bad 0 (Some ip) else
    let elf := elfhdr_of r.2 in
    if negb (elf.(eh_magic) =? ELF_MAGIC) then exec_bad 0 (Some ip) else
    pgdir <- setupkvm;;
    if pgdir =? 0 then exec_bad 0 (Some ip) else
    o <- load_loop (Z.to_nat elf.(eh_phnum)) ip pgdir (s32 elf.(eh_phoff)) 0;;
    match o with
    | None => exec_bad pgdir (Some ip)
    | Some sz =>
      iunlockput (Some ip);;
      Log.end_op;;
      exec_stack c path argv pgdir sz elf.(eh_entry)
    end
  end).
End exec.

(** ** Signals across [exec] *)

Lemma reset_info h : handler (reset_disposition h) = handler h ∧ (disposition (reset_disposition h) = DFL ∨ disposition (reset_disposition h) = IGN).
Proof. unfold reset_disposition. destruct (Z.eqb_spec (disposition h) IGN) as [E|]; [|by split; [|left]]. split; [done|by right]. Qed.

Lemma image_handler name pgdir sz entry sp p sig : handler_of (exec_image name pgdir sz entry sp p) sig = handler_of p sig.
Proof.
  unfold handler_of, exec_image. cbn [p_allinfo set_p_allinfo]. rewrite !list_lookup_total_alt, list_lookup_fmap.
  destruct (p_allinfo p !! Z.to_nat sig); [apply reset_info|done].
Qed.

Lemma image_disp name pgdir sz entry sp p sig : length p.(p_allinfo) = NUMSIG → 0 <= sig < 32 →
  disp (exec_image name pgdir sz entry sp p) sig ≠ USERDEF.
Proof.
  intros Hl Hs. unfold disp, exec_image. cbn [p_allinfo set_p_allinfo]. rewrite list_lookup_total_alt, list_lookup_fmap.
  destruct (p_allinfo p !! Z.to_nat sig) as [h|] eqn:E; simpl.
  - by destruct (reset_info h) as [_ [-> | ->]].
  - apply lookup_ge_None in E. rewrite Hl in E. unfold NUMSIG in E. lia.
Qed.

Lemma psig_jump c s q : at_psig c [] (set_held [PTABLE_LOCK] s) → s.(held) = [] → get_proc c s = q →
  word q.(p_sigpending) → no_stop q q.(p_sigpending) → q.(p_userdefed) ≠ 0 →
  ∃ s', psig (Some c) s = Jump (JmpToHandler (handler_of q (chosen q)) q.(p_tf).(tf_cs) q.(p_tf).(tf_eflags)
    (u32 (q.(p_tf).(tf_esp) - 76)) q.(p_tf).(tf_ss)) s'.
Proof.
  intros Hat Hh Eq Hw Hno Hu. assert (get_proc c (set_held [PTABLE_LOCK] s) = q) as Eq' by exact Eq.
  destruct (psig_quiet c [] (not_elem_of_nil _) (not_elem_of_nil _) _ Hat) as (w & t & E & Ht & _); rewrite ?Eq'; [done|done|].
  rewrite Eq' in Ht. replace (set_held [] (set_held [PTABLE_LOCK] s)) with s in E by (destruct s; simpl in *; by subst held).
  pose proof (reaches_get c _ _ _ _ _ (ap_i _ _ _ Hat) Ht) as Hg. rewrite <- Eq' in Ht.
  pose proof (reaches_at c [] _ _ _ _ Hat Ht) as Hat2.
  pose proof (psig_user_run c t [] (ap_i _ _ _ Hat2) (ap_held _ _ _ Hat2) (not_elem_of_nil _)) as Hrun.
  cbv zeta in Hrun. rewrite Hg in Hrun. specialize (Hrun Hu). eexists. rewrite E. exact Hrun.
Qed.

Section stale.
Context `{!WaitFuel, !VmOps}.

Lemma exec_commit_run c path s l pgdir sz entry sp : s.(curproc) = Some c → (c < length s.(pt))%nat →
  let p := get_proc c s in let q := exec_image (last_elem l l) pgdir sz entry sp p in
  read_str wait_fuel s.(mem) path = Some l → p.(p_kstack) ≠ 0 → pgdir ≠ 0 → freevm_law p.(p_pgdir) →
  runs (exec_commit c path pgdir sz entry sp) s (λ v s', v = 0 ∧ ∃ m f a b,
    s' = put_proc c q (set_mem m (set_freelist f (set_esp0 a (set_cr3 b s))))).
Proof.
  intros Hc Hi p q Hl Hk Hpg Hfree. unfold exec_commit, get_path. unfold runs. unfold bind at 1. rewrite bind_get, Hl.
  unfold ret at 1. cbn [cbind]. rewrite bind_getp. fold p. rewrite bind_modp. fold p q.
  unfold switchuvm. unfold bind at 1. rewrite bind_getp_put by done.
  change (p_kstack q) with (p_kstack p). change (p_pgdir q) with pgdir.
  rewrite (proj2 (Z.eqb_neq _ _) Hk), (proj2 (Z.eqb_neq _ _) Hpg). rewrite bind_modify. unfold modify at 1. cbn [cbind].
  set (s1 := set_cr3 _ _). destruct (Hfree s1) as (s2 & E & Hm). rewrite (bind_returns _ _ _ _ _ E). split; [done|].
  exists (mem s2), (freelist s2), (u32 (p_kstack p + KSTACKSIZE)), (V2P pgdir). rewrite Hm. done.
Qed.

End stale.

