(* ===== verification/Sysfile.v ===== *)
(** * System calls on files: [sysfile.c]

    Descriptors, the calls on open files, and the calls on path names, which
    run as transactions of the log. *)

From stdpp Require Import base numbers option list sets strings gmap fin_maps functions.
From Stdlib Require Import ZArith Lia.
From S2P Require Import Prelude Kstring State Locks Console Kalloc Proc Signal Delivery Sending.
From S2P Require Import Pipe File ProcLife Sysproc Vm Sleeplock Bio Log Fs Rdwr Transact Dir Exec.

Definition O_RDONLY : Z := 0.
Definition O_WRONLY : Z := 1.
Definition O_RDWR : Z := 2.
Definition O_CREATE : Z := 512.
Definition sizeof_stat : Z := 20.

(** ** Descriptors *)

(** The descriptor and the file; [None] is the status -1. *)
Definition argfd (n : Z) : M (option (nat * nat)) :=
  r <- argint n;;
  match r with
  | None => ret None
  | Some fd =>
    if (fd <? 0) || (Z.of_nat NOFILE <=? fd) then ret None else
    o <- myproc;;
    with_proc o (fun c =>
    p <- getp c;;
    ret ((fun f => (Z.to_nat fd, f)) <$> p.(p_ofile) !!! Z.to_nat fd))
  end.

(** The first descriptor that is free. *)
Definition free_fd (l : list (option nat)) : option nat :=
  fst <$> list_find (fun o => o = None) l.

Definition set_fd (fd : nat) (o : option nat) (p : proc) : proc := set_p_ofile (<[fd := o]> p.(p_ofile)) p.

Definition fdalloc (f : nat) : M Z :=
  o <- myproc;;
  with_proc o (fun c =>
  p <- getp c;;
  match free_fd p.(p_ofile) with
  | Some fd => modp c (set_fd fd (Some f));; ret (Z.of_nat fd)
  | None => ret (-1)
  end).

Definition clear_fd (fd : nat) : M unit :=
  o <- myproc;; with_proc o (fun c => modp c (set_fd fd None)).

Section sysfile.
Context `{!WaitFuel, !DevSw, !VmOps, !ExecFrame}.

Definition sys_dup : M Z :=
  with_arg (argfd 0) (-1) (fun '(_, f) =>
  fd <- fdalloc f;;
  if fd <? 0 then ret (-1) else
  filedup f;;
  ret fd).

Definition sys_read : M Z :=
  with_arg (argfd 0) (-1) (fun '(_, f) =>
  with_arg (argint 2) (-1) (fun n =>
  with_arg (argptr 1 n) (-1) (fun p =>
  fileread wait_fuel f p n))).

Definition sys_write : M Z :=
  with_arg (argfd 0) (-1) (fun '(_, f) =>
  with_arg (argint 2) (-1) (fun n =>
  with_arg (argptr 1 n) (-1) (fun p =>
  filewrite wait_fuel f p n))).

Definition sys_close : M Z :=
  with_arg (argfd 0) (-1) (fun '(fd, f) =>
  clear_fd fd;;
  fileclose f;;
  ret 0).

Definition sys_fstat : M Z :=
  with_arg (argfd 0) (-1) (fun '(_, f) =>
  with_arg (argptr 1 sizeof_stat) (-1) (fun st =>
  filestat f st)).

(** [if(fd0 >= 0) myproc()->ofile[fd0] = 0; fileclose(rf); fileclose(wf);] *)
Definition pipe_bad (fd0 : option Z) (rf wf : nat) : M Z :=
  match fd0 with Some fd => clear_fd (Z.to_nat fd) | None => ret () end;;
  fileclose rf;;
  fileclose wf;;
  ret (-1).

Definition sys_pipe : M Z :=
  with_arg (argptr 0 8) (-1) (fun fd =>
  with_arg pipealloc (-1) (fun '(rf, wf) =>
  fd0 <- fdalloc rf;;
  if fd0 <? 0 then pipe_bad None rf wf else
  fd1 <- fdalloc wf;;
  if fd1 <? 0 then pipe_bad (Some fd0) rf wf else
  st fd fd0;;
  st (u32 (fd + 4)) fd1;;
  ret 0)).

(** ** Names *)

Definition with_inode {A} (m : M (option nat)) (none : M A) (f : nat → M A) : M A :=
  o <- m;; match o with None => none | Some ip => f ip end.

(** The result of [nameiparent] with the name it stored. *)
Definition with_parent {A} (path : Z) (none : M A) (f : nat → list Z → M A) : M A :=
  r <- nameiparent path;; match r.1 with None => none | Some dp => f dp r.2 end.

Definition fail_op : M Z := Log.end_op;; ret (-1).

(** [bad:] of [sys_link]. *)
Definition link_bad (ip : nat) : M Z :=
  Fs.ilock (Some ip);;
  modi ip (fun p => set_i_nlink (s16 (p.(i_nlink) - 1)) p);;
  iupdate ip;;
  iunlockput (Some ip);;
  fail_op.

Definition sys_link : M Z :=
  with_arg (argstr 0) (-1) (fun old =>
  with_arg (argstr 1) (-1) (fun new =>
  Log.begin_op;;
  with_inode (Dir.namei old.1) fail_op (fun ip =>
  Fs.ilock (Some ip);;
  p <- geti ip;;
  if p.(i_type) =? T_DIR then iunlockput (Some ip);; fail_op else
  modi ip (fun p => set_i_nlink (s16 (p.(i_nlink) + 1)) p);;
  iupdate ip;;
  Fs.iunlock (Some ip);;
  with_parent new.1 (link_bad ip) (fun dp name =>
  Fs.ilock (Some dp);;
  d <- geti dp;;
  p <- geti ip;;
  r <- (if negb (d.(i_dev) =? p.(i_dev)) then ret (-1) else dirlink dp name p.(i_inum));;
  if r <? 0 then iunlockput (Some dp);; link_bad ip else
  iunlockput (Some dp);;
  Fs.iput (Some ip);;
  Log.end_op;;
  ret 0)))).

Fixpoint isdirempty_loop (fuel : nat) (dp : nat) (off : Z) : M bool :=
  p <- geti dp;;
  if p.(i_size) <=? off then ret true else
  match fuel with
  | O => fun s => Stuck s
  | S fuel =>
    r <- readi_gen dp None off dirent_size;;
    if negb (r.1 =? dirent_size) then panic "isdirempty: readi" else
    if negb ((dirent_of r.2).(de_inum) =? 0) then ret false else
    isdirempty_loop fuel dp (off + dirent_size)
  end.

Definition isdirempty (dp : nat) : M bool :=
  p <- geti dp;; isdirempty_loop (dir_fuel p.(i_size)) dp (2 * dirent_size).

(** ["."] and [".."] *)
Definition dot : list Z := [46].
Definition dotdot : list Z := [46; 46].

(** [bad:] of [sys_unlink]. *)
Definition unlink_bad (dp : nat) : M Z := iunlockput (Some dp);; fail_op.

(** From the entry found on, with both inodes locked. *)
Definition unlink_entry (dp ip : nat) (off : Z) : M Z :=
  p <- geti ip;;
  if p.(i_nlink) <? 1 then panic "unlink: nlink < 1" else
  full <- (if p.(i_type) =? T_DIR then e <- isdirempty ip;; ret (negb e) else ret false);;
  if (full : bool) then iunlockput (Some ip);; unlink_bad dp else
  r <- writei_gen dp (inr (replicate 16 0)) off dirent_size;;
  if negb (r =? dirent_size) then panic "unlink: writei" else
  p <- geti ip;;
  when (p.(i_type) =? T_DIR) (modi dp (fun p => set_i_nlink (s16 (p.(i_nlink) - 1)) p);; iupdate dp);;
  iunlockput (Some dp);;
  modi ip (fun p => set_i_nlink (s16 (p.(i_nlink) - 1)) p);;
  iupdate ip;;
  iunlockput (Some ip);;
  Log.end_op;;
  ret 0.

Definition sys_unlink : M Z :=
  with_arg (argstr 0) (-1) (fun path =>
  Log.begin_op;;
  with_parent path.1 fail_op (fun dp name =>
  Fs.ilock (Some dp);;
  if (namecmp name dot =? 0) || (namecmp name dotdot =? 0) then unlink_bad dp else
  o <- dirlookup dp name;;
  match o with
  | None => unlink_bad dp
  | Some (ip, off) => Fs.ilock (Some ip);; unlink_entry dp ip off
  end)).

(** A new inode below [dp], which is locked; both stay locked. *)
Definition create_new (dp : nat) (name : list Z) (type major minor : Z) : M nat :=
  d <- geti dp;;
  ip <- ialloc d.(i_dev) type;;
  Fs.ilock (Some ip);;
  modi ip (fun p => set_i_nlink 1 (set_i_minor (s16 minor) (set_i_major (s16 major) p)));;
  iupdate ip;;
  when (type =? T_DIR) (
    modi dp (fun p => set_i_nlink (s16 (p.(i_nlink) + 1)) p);;
    iupdate dp;;
    p <- geti ip;;
    r <- dirlink ip dot p.(i_inum);;
    r <- (if r <? 0 then ret (-1) else d <- geti dp;; dirlink ip dotdot d.(i_inum));;
    if r <? 0 then panic "create dots" else ret ());;
  p <- geti ip;;
  r <- dirlink dp name p.(i_inum);;
  if r <? 0 then panic "create: dirlink" else
  ret ip.

Definition create (path type major minor : Z) : M (option nat) :=
  with_parent path (ret None) (fun dp name =>
  Fs.ilock (Some dp);;
  o <- dirlookup dp name;;
  match o with
  | Some (ip, _) =>
    iunlockput (Some dp);;
    Fs.ilock (Some ip);;
    p <- geti ip;;
    if (type =? T_FILE) && (p.(i_type) =? T_FILE) then ret (Some ip) else
    iunlockput (Some ip);;
    ret None
  | None =>
    ip <- create_new dp name type major minor;;
    iunlockput (Some dp);;
    ret (Some ip)
  end).

(** The inode [sys_open] opens, locked; [None] after [end_op]. *)
Definition open_inode (path omode : Z) : M (option nat) :=
  if truthy (Z.land (u32 omode) O_CREATE) then
    with_inode (create path T_FILE 0 0) (Log.end_op;; ret None) (fun ip => ret (Some ip))
  else
    with_inode (Dir.namei path) (Log.end_op;; ret None) (fun ip =>
    Fs.ilock (Some ip);;
    p <- geti ip;;
    if (p.(i_type) =? T_DIR) && negb (omode =? O_RDONLY)
    then iunlockput (Some ip);; Log.end_op;; ret None
    else ret (Some ip)).

Definition b2z (b : bool) : Z := if b then 1 else 0.

Definition open_file (ip : nat) (omode : Z) (f : file) : file :=
  set_f_writable (b2z (truthy (Z.land (u32 omode) O_WRONLY) || truthy (Z.land (u32 omode) O_RDWR)))
    (set_f_readable (b2z (negb (truthy (Z.land (u32 omode) O_WRONLY))))
      (set_f_off 0 (set_f_ip (Some ip) (set_f_type FD_INODE f)))).

Definition sys_open : M Z :=
  with_arg (argstr 0) (-1) (fun path =>
  with_arg (argint 1) (-1) (fun omode =>
  Log.begin_op;;
  with_inode (open_inode path.1 omode) (ret (-1)) (fun ip =>
  o <- filealloc;;
  match o with
  | None => iunlockput (Some ip);; fail_op
  | Some f =>
    fd <- fdalloc f;;
    if fd <? 0 then fileclose f;; iunlockput (Some ip);; fail_op else
    Fs.iunlock (Some ip);;
    Log.end_op;;
    modf f (open_file ip omode);;
    ret fd
  end))).

(** [create] for [sys_mkdir] and [sys_mknod]. *)
Definition make_node (m : M (option nat)) : M Z :=
  with_inode m fail_op (fun ip => iunlockput (Some ip);; Log.end_op;; ret 0).

Definition sys_mkdir : M Z :=
  Log.begin_op;;
  make_node (with_arg (argstr 0) None (fun path => create path.1 T_DIR 0 0)).

Definition sys_mknod : M Z :=
  Log.begin_op;;
  make_node (
    with_arg (argstr 0) None (fun path =>
    with_arg (argint 1) None (fun major =>
    with_arg (argint 2) None (fun minor =>
    create path.1 T_DEV (s16 major) (s16 minor))))).

Definition sys_chdir : M Z :=
  o <- myproc;;
  Log.begin_op;;
  with_inode (with_arg (argstr 0) None (fun path => Dir.namei path.1)) fail_op (fun ip =>
  Fs.ilock (Some ip);;
  p <- geti ip;;
  if negb (p.(i_type) =? T_DIR) then iunlockput (Some ip);; fail_op else
  Fs.iunlock (Some ip);;
  with_proc o (fun c =>
  p <- getp c;;
  Fs.iput p.(p_cwd);;
  Log.end_op;;
  modp c (set_p_cwd (Some ip));;
  ret 0)).

(** The loop of [sys_exec]: the argument pointers from number [i] on. *)
Fixpoint exec_args (cnt : nat) (uargv i : Z) : M (option (list Z)) :=
  match cnt with
  | O => ret None
  | S cnt =>
    with_arg (fetchint (u32 (uargv + 4 * i))) None (fun uarg =>
    if uarg =? 0 then ret (Some []) else
    with_arg (fetchstr (u32 uarg)) None (fun a =>
    l <- exec_args cnt uargv (i + 1);;
    ret (cons a.1 <$> l)))
  end.

Definition sys_exec : M Z :=
  with_arg (argstr 0) (-1) (fun path =>
  with_arg (argint 1) (-1) (fun uargv =>
  with_arg (exec_args MAXARG (u32 uargv) 0) (-1) (fun argv =>
  exec path.1 argv))).
End sysfile.

(** ** Descriptors *)

Lemma free_fd_Some l fd : free_fd l = Some fd → l !! fd = Some None ∧ ∀ j, (j < fd)%nat → l !! j ≠ Some None.
Proof.
  unfold free_fd. intros H. apply fmap_Some in H as ([k x] & H & ->). apply list_find_Some in H as (Hx & -> & Hj).
  split; [done|]. intros j Hlt E. by apply (Hj j None).
Qed.

Lemma free_fd_None l : free_fd l = None → ∀ j, l !! j ≠ Some None.
Proof.
  unfold free_fd. intros H j E. apply fmap_None, list_find_None in H. rewrite Forall_lookup in H. by apply (H j None).
Qed.

Section dup.
Context (c : nat) (s : kstate) (Hc : s.(curproc) = Some c) (Hh : s.(held) = []) (Hi : (c < length s.(pt))%nat).
Let p := get_proc c s.
Context (Hsz : 0 <= p.(p_sz) <= KERNBASE) (Hof : length p.(p_ofile) = NOFILE).

(** The file the first argument of the call names. *)
Definition fd_arg (n : Z) : option nat :=
  if arg_addr p n + 4 <=? p.(p_sz) then
    let fd := s32 (load32 s.(mem) (arg_addr p n)) in
    if (0 <=? fd) && (fd <? Z.of_nat NOFILE) then p.(p_ofile) !!! Z.to_nat fd else None
  else None.

Lemma argfd_run n : ∃ fd, argfd n s = Ret ((fun f => (fd, f)) <$> fd_arg n) s.
Proof.
  unfold argfd, fd_arg. unfold bind at 1. rewrite (argint_run c s Hc Hsz n). fold p.
  destruct (arg_addr p n + 4 <=? p_sz p); cbn [cbind]; [|by exists 0%nat].
  set (fd := s32 _). exists (Z.to_nat fd). destruct (Z.ltb_spec fd 0), (Z.leb_spec 0 fd); try lia; cbn [orb andb]; [done|].
  destruct (Z.leb_spec (Z.of_nat NOFILE) fd), (Z.ltb_spec fd (Z.of_nat NOFILE)); try lia; [done|].
  rewrite bind_myproc, Hc. cbn [with_proc]. rewrite bind_getp. done.
Qed.

Lemma fdalloc_run f : fdalloc f s = match free_fd p.(p_ofile) with
  | Some fd => Ret (Z.of_nat fd) (put_proc c (set_fd fd (Some f) p) s)
  | None => Ret (-1) s
  end.
Proof.
  unfold fdalloc. rewrite bind_myproc, Hc. cbn [with_proc]. rewrite bind_getp. fold p.
  destruct (free_fd (p_ofile p)); [|done]. rewrite bind_modp. done.
Qed.

Lemma put_fd_back fd f : p.(p_ofile) !! fd = Some None → set_fd fd None (set_fd fd (Some f) p) = p.
Proof.
  intros E. unfold set_fd. cbn [p_ofile set_p_ofile]. rewrite list_insert_insert_eq, list_insert_id by done. by destruct p.
Qed.

Context `{!WaitFuel, !DevSw}.
Context (Hfiles : ∀ fd f, p.(p_ofile) !! fd = Some (Some f) → (f < length s.(ftable))%nat ∧ 1 <= f_ref (get_file f s)).

Lemma sys_dup_run : sys_dup s = match fd_arg 0 with
  | None => Ret (-1) s
  | Some f =>
    match free_fd p.(p_ofile) with
    | None => Ret (-1) s
    | Some fd => (filedup f;; ret (Z.of_nat fd)) (put_proc c (set_fd fd (Some f) p) s)
    end
  end.
Proof.
  destruct (argfd_run 0) as (fd0 & Ea). unfold sys_dup, with_arg. unfold bind at 1. rewrite Ea.
  destruct (fd_arg 0) as [f|]; [|done]. cbn [fmap option_fmap option_map cbind].
  unfold bind at 1. rewrite (fdalloc_run f). destruct (free_fd (p_ofile p)) as [fd|]; [|done].
  cbn [cbind]. by rewrite (proj2 (Z.ltb_ge _ _)) by lia.
Qed.

Lemma fd_arg_open n f : fd_arg n = Some f → ∃ j, p.(p_ofile) !! j = Some (Some f) ∧ (arg_addr p n + 4 <=? p.(p_sz)) = true.
Proof.
  unfold fd_arg. destruct (_ <=? p_sz p); [|done]. cbv zeta. set (z := s32 _).
  destruct (Z.leb_spec 0 z), (Z.ltb_spec z (Z.of_nat NOFILE)); try done. intros Ef. exists (Z.to_nat z).
  split; [|done]. rewrite <- Ef. apply list_lookup_lookup_total_lt. rewrite Hof. lia.
Qed.

(** C23: [dup] gives an open file the lowest free descriptor and takes one
    more reference to it; with a bad descriptor or no free one it returns -1
    and changes nothing.  Closing the new descriptor returns 0 and restores
    the descriptors and the table of open files exactly. *)
Theorem dup_close : match fd_arg 0, free_fd p.(p_ofile) with
  | Some f, Some fd => (∀ j, (j < fd)%nat → p.(p_ofile) !! j ≠ Some None) ∧ ∃ s1, sys_dup s = Ret (Z.of_nat fd) s1 ∧
      p_ofile (get_proc c s1) !! fd = Some (Some f) ∧ f_ref (get_file f s1) = f_ref (get_file f s) + 1 ∧
      ∀ m, s32 (load32 m (arg_addr p 0)) = Z.of_nat fd → sys_close (set_mem m s1) = Ret 0 (set_mem m s)
  | _, _ => sys_dup s = Ret (-1) s
  end.
Proof.
  destruct (fd_arg 0) as [f|] eqn:Ef; [|by rewrite sys_dup_run, Ef].
  destruct (free_fd (p_ofile p)) as [fd|] eqn:Efree; [|by rewrite sys_dup_run, Ef, Efree].
  pose proof (free_fd_Some _ _ Efree) as [Hfd Hlow]. split; [done|].
  destruct (fd_arg_open 0 f Ef) as (j & Hj & Harg). destruct (Hfiles j f Hj) as [Hlt Href].
  rewrite sys_dup_run, Ef, Efree. set (q := set_fd fd (Some f) p). set (sq := put_proc c q s).
  erewrite bind_returns; [|apply (filedup_run f sq); [simpl; rewrite Hh; apply not_elem_of_nil|exact Href]].
  change (get_file f sq) with (get_file f s). set (g := set_f_ref _ _).
  eexists. split; [done|]. split; [|split; [by rewrite get_put_file_same|]].
  - change (get_proc c (put_file f g sq)) with (get_proc c sq). unfold sq. rewrite get_put_same by done. simpl.
    apply list_lookup_insert_eq. by eapply lookup_lt_Some.
  - intros m Hm. set (s1 := set_mem m (put_file f g sq)).
    assert (argfd 0 s1 = Ret (Some (fd, f)) s1) as Ea.
    { unfold argfd. unfold bind at 1.
      assert (get_proc c s1 = q) as Eq by (unfold s1, sq; apply get_put_same; done).
      rewrite (argint_run c s1 Hc ltac:(rewrite Eq; exact Hsz) 0). rewrite Eq. change (arg_addr q 0) with (arg_addr p 0).
      change (p_sz q) with (p_sz p). rewrite Harg. cbn [cbind]. change (mem s1) with m. rewrite Hm.
      assert (fd < NOFILE)%nat as Hfdn by (rewrite <- Hof; by eapply lookup_lt_Some).
      rewrite (proj2 (Z.ltb_ge _ _)), (proj2 (Z.leb_gt _ _)) by lia. cbn [orb].
      rewrite bind_myproc. change (curproc s1) with (curproc s). rewrite Hc. cbn [with_proc]. rewrite bind_getp, Eq, Nat2Z.id.
      unfold q, set_fd. cbn [p_ofile set_p_ofile]. rewrite list_lookup_total_insert_eq by (rewrite Hof; done). done. }
    unfold sys_close, with_arg. rewrite (bind_returns _ _ _ _ _ Ea). unfold clear_fd. unfold bind at 1. rewrite bind_myproc.
    change (curproc s1) with (curproc s). rewrite Hc. cbn [with_proc]. unfold modp at 1, modify at 1. cbn [cbind].
    assert (put_proc c (set_fd fd None (get_proc c s1)) s1 = put_file f g (set_mem m s)) as ->.
    { assert (get_proc c s1 = q) as -> by (unfold s1, sq; apply get_put_same; done). unfold q. rewrite put_fd_back by done.
      unfold s1, sq. transitivity (set_mem m (put_file f g (put_proc c p (put_proc c q s)))); [done|].
      rewrite put_put. unfold p. by rewrite put_get. }
    pose proof (filedup_fileclose f (set_mem m s) Hlt ltac:(simpl; rewrite Hh; apply not_elem_of_nil)) as Hfc.
    change (get_file f (set_mem m s)) with (get_file f s) in Hfc.
    rewrite (proj2 (Z.ltb_ge _ _)) in Hfc by lia. destruct Hfc as (s2 & Ed & _ & _ & Ec).
    rewrite (filedup_run f (set_mem m s)) in Ed by ((simpl; rewrite Hh; apply not_elem_of_nil) || exact Href).
    injection Ed as <-. rewrite (bind_returns _ _ _ _ _ Ec). done.
Qed.
End dup.

(** The running process with file 5 open as descriptor 0. *)
Definition demo_fd : kstate :=
  put_file 5 (mkfile FD_INODE 1 1 0 0 (Some 3%nat) 0) (demo_with (set_fd 0 (Some 5%nat) (demo_proc 2 RUNNING))).

Lemma dup_close_witness : let WF : WaitFuel := 1%nat in let Dev : DevSw := no_dev in
  ∃ s1, sys_dup demo_fd = Ret 1 s1 ∧
    sys_close (set_mem (store32 (fun _ => 0) 12292 1) s1) = Ret 0 (set_mem (store32 (fun _ => 0) 12292 1) demo_fd).
Proof.
  intros WF Dev.
  destruct (dup_close 1 demo_fd eq_refl eq_refl ltac:(vm_compute; lia) ltac:(vm_compute; split; discriminate) eq_refl) as (_ & s1 & E1 & _ & _ & E2).
  - intros fd f H. destruct fd as [|fd]; [injection H as <-; split; [vm_compute; lia|vm_compute; discriminate]|].
    change (replicate 15 None !! fd = Some (Some f)) in H. apply lookup_replicate in H as [H _]. discriminate H.
  - exists s1. split; [exact E1|]. apply E2. reflexivity.
Defined.
