(* ===== verification/Trap.v ===== *)
(** * Entering the kernel: [syscall.c] and [trap.c]

    The system call table, and the handler of all traps and interrupts, with
    the delivery of signals on the way back to user space. *)

From stdpp Require Import base numbers option list sets strings gmap fin_maps functions.
From Stdlib Require Import ZArith Lia.
From S2P Require Import Prelude Kstring State Locks Console Kalloc Proc Signal Delivery Sending.
From S2P Require Import Pipe File ProcLife Sysproc Vm Sleeplock Bio Log Fs Rdwr Transact Dir Tty Exec Sysfile.

(** ** The system call table *)

Inductive sysno : Type :=
| SYS_fork | SYS_exit | SYS_wait | SYS_pipe | SYS_read | SYS_kill | SYS_exec | SYS_fstat
| SYS_chdir | SYS_dup | SYS_getpid | SYS_sbrk | SYS_sleep | SYS_uptime | SYS_open | SYS_write
| SYS_mknod | SYS_unlink | SYS_link | SYS_mkdir | SYS_close | SYS_Kill | SYS_signal
| SYS_sigsetmask | SYS_raise | SYS_siggetmask | SYS_sigreturn | SYS_sigblock | SYS_sigunblock.

#[global] Instance sysno_eq_dec : EqDecision sysno.
Proof. solve_decision. Defined.

(** The numbers of [syscall.h]. *)
Definition all_sysno : list sysno :=
  [SYS_fork; SYS_exit; SYS_wait; SYS_pipe; SYS_read; SYS_kill; SYS_exec; SYS_fstat;
   SYS_chdir; SYS_dup; SYS_getpid; SYS_sbrk; SYS_sleep; SYS_uptime; SYS_open; SYS_write;
   SYS_mknod; SYS_unlink; SYS_link; SYS_mkdir; SYS_close; SYS_Kill; SYS_signal;
   SYS_sigsetmask; SYS_raise; SYS_siggetmask; SYS_sigreturn; SYS_sigblock; SYS_sigunblock].

Definition sys_of (num : Z) : option sysno :=
  if 0 <? num then all_sysno !! Z.to_nat (num - 1) else None.

Definition DPL_USER : Z := 3.
Definition T_SYSCALL : Z := 64.
Definition T_IRQ0 : Z := 32.
Definition IRQ_TIMER : Z := 0.
Definition IRQ_KBD : Z := 1.
Definition IRQ_COM1 : Z := 4.
Definition IRQ_IDE : Z := 14.
Definition IRQ_SPURIOUS : Z := 31.

Section trap.
Context `{!WaitFuel, !DevSw, !VmOps, !ExecFrame}.

Definition syscalls (n : sysno) : M Z :=
  match n with
  | SYS_fork => sys_fork
  | SYS_exit => sys_exit
  | SYS_wait => sys_wait wait_fuel
  | SYS_pipe => sys_pipe
  | SYS_read => sys_read
  | SYS_kill => sys_kill
  | SYS_exec => sys_exec
  | SYS_fstat => sys_fstat
  | SYS_chdir => sys_chdir
  | SYS_dup => sys_dup
  | SYS_getpid => sys_getpid
  | SYS_sbrk => sys_sbrk
  | SYS_sleep => sys_sleep wait_fuel
  | SYS_uptime => sys_uptime
  | SYS_open => sys_open
  | SYS_write => sys_write
  | SYS_mknod => sys_mknod
  | SYS_unlink => sys_unlink
  | SYS_link => sys_link
  | SYS_mkdir => sys_mkdir
  | SYS_close => sys_close
  | SYS_Kill => sys_Kill
  | SYS_signal => sys_signal
  | SYS_sigsetmask => sys_sigsetmask
  | SYS_raise => sys_raise
  | SYS_siggetmask => sys_siggetmask
  | SYS_sigreturn => sys_sigreturn
  | SYS_sigblock => sys_sigblock
  | SYS_sigunblock => sys_sigunblock
  end.

Definition set_result (c : nat) (r : Z) : M unit :=
  modp c (fun p => set_p_tf (set_tf_eax (u32 r) p.(p_tf)) p).

Definition syscall : M unit :=
  o <- myproc;;
  with_proc o (fun c =>
  p <- getp c;;
  let num := s32 p.(p_tf).(tf_eax) in
  match sys_of num with
  | Some n => r <- syscalls n;; set_result c r
  | None =>
    cprintf "%d %s: unknown sys call %d
" [AInt p.(p_pid); AStr (Some (cstring p.(p_name))); AInt num];;
    set_result c (-1)
  end).

(** ** Traps *)

(** [if(myproc()->killed) exit();] *)
Definition exit_if_killed : M unit :=
  o <- myproc;; with_proc o (fun c => p <- getp c;; when (truthy p.(p_killed)) exit).

(** [if(myproc() && myproc()->killed && (tf->cs&3) == DPL_USER) exit();] *)
Definition exit_if_killed_user (tf : trapframe) : M unit :=
  o <- myproc;;
  match o with
  | None => ret ()
  | Some c => p <- getp c;; when (truthy p.(p_killed) && (Z.land tf.(tf_cs) 3 =? DPL_USER)) exit
  end.

Definition timer_tick (cpu : Z) : M unit :=
  when (cpu =? 0) (
    acquire TICKS_LOCK;;
    modify (fun s => set_ticks (u32 (s.(ticks) + 1)) s);;
    wakeup CH_TICKS;;
    release TICKS_LOCK).

Definition unexpected (cpu cr2 : Z) (tf : trapframe) : M unit :=
  o <- myproc;;
  match o with
  | Some c =>
    if Z.land tf.(tf_cs) 3 =? 0 then
      cprintf "unexpected trap %d from cpu %d eip %x (cr2=0x%x)
" [AInt tf.(tf_trapno); AInt cpu; AInt tf.(tf_eip); AInt cr2];;
      panic "trap"
    else
      p <- getp c;;
      cprintf "pid %d %s: trap %d err %d on cpu %d eip 0x%x addr 0x%x--kill proc
" [AInt p.(p_pid); AStr (Some (cstring p.(p_name))); AInt tf.(tf_trapno); AInt tf.(tf_err); AInt cpu; AInt tf.(tf_eip); AInt cr2];;
      modp c (set_p_killed 1)
  | None =>
    cprintf "unexpected trap %d from cpu %d eip %x (cr2=0x%x)
" [AInt tf.(tf_trapno); AInt cpu; AInt tf.(tf_eip); AInt cr2];;
    panic "trap"
  end.

(** The switch on the trap number; [keys] are the characters the device has.
    The disk is memory, its interrupt handler does nothing, and acknowledging
    an interrupt does not concern the state. *)
Definition interrupt (cpu cr2 : Z) (keys : list Z) (tf : trapframe) : M unit :=
  let no := tf.(tf_trapno) in
  if no =? T_IRQ0 + IRQ_TIMER then timer_tick cpu
  else if no =? T_IRQ0 + IRQ_IDE then ret ()
  else if no =? T_IRQ0 + IRQ_IDE + 1 then ret ()
  else if (no =? T_IRQ0 + IRQ_KBD) || (no =? T_IRQ0 + IRQ_COM1) then consoleintr keys
  else if (no =? T_IRQ0 + 7) || (no =? T_IRQ0 + IRQ_SPURIOUS) then
    cprintf "cpu%d: spurious interrupt at %x:%x
" [AInt cpu; AInt tf.(tf_cs); AInt tf.(tf_eip)]
  else unexpected cpu cr2 tf.

(** [myproc()->tf = tf], where [tf] is at address [tfp]. *)
Definition save_tf (tfp : Z) (tf : trapframe) : M unit :=
  o <- myproc;; with_proc o (fun c => modp c (fun p => set_p_tf tf (set_p_tfp tfp p))).

Definition trap (cpu cr2 : Z) (keys : list Z) (tfp : Z) (tf : trapframe) : M unit :=
  if tf.(tf_trapno) =? T_SYSCALL then
    exit_if_killed;;
    save_tf tfp tf;;
    syscall;;
    deliver;;
    exit_if_killed
  else
    interrupt cpu cr2 keys tf;;
    exit_if_killed_user tf;;
    (o <- myproc;;
     match o with
     | None => ret ()
     | Some c => p <- getp c;; when (is_state RUNNING p && (tf.(tf_trapno) =? T_IRQ0 + IRQ_TIMER)) yield
     end);;
    exit_if_killed_user tf;;
    deliver.
End trap.

(** ** The clock *)

Lemma yield_switch i s : s.(curproc) = Some i → (i < length s.(pt))%nat → s.(held) = [] →
  ∃ k, yield s = Switch (put_proc i (set_p_state RUNNABLE (get_proc i s)) (set_held [PTABLE_LOCK] s)) k ∧
    ∀ s2, s2.(held) = [PTABLE_LOCK] → k s2 = Ret () (set_held [] (set_intena s.(intena) s2)).
Proof.
  intros Hc Hi Hh. unfold yield. kcall (acquire_free PTABLE_LOCK s ltac:(rewrite Hh; apply not_elem_of_nil)). rewrite Hh.
  set (s1 := set_held [PTABLE_LOCK] s). rewrite bind_myproc. change (curproc s1) with (curproc s). rewrite Hc. cbn [with_proc].
  rewrite bind_modp. change (get_proc i s1) with (get_proc i s). set (q := set_p_state RUNNABLE (get_proc i s)).
  eexists. split.
  - apply bind_switch. apply (sched_switch i); [done|done|]. rewrite get_put_same by done. done.
  - intros s2 H2. cbn [cbind]. rewrite (release_head _ []); [done|done|apply not_elem_of_nil].
Qed.

(** One tick of the clock: the counter advances and sleepers on it awake. *)
Definition ticked (s : kstate) : kstate :=
  set_pt (wake_proc CH_TICKS <$> s.(pt)) (set_ticks (u32 (s.(ticks) + 1)) s).

Lemma timer_tick_run s : s.(held) = [] → wf_table s → timer_tick 0 s = Ret () (ticked s).
Proof.
  intros Hh Hw. unfold timer_tick. cbn [Z.eqb when].
  kcall (acquire_free TICKS_LOCK s ltac:(rewrite Hh; apply not_elem_of_nil)). rewrite Hh, bind_modify.
  set (s1 := set_ticks _ _). kcall (wakeup_run CH_TICKS s1 Hw ltac:(simpl; set_solver)).
  rewrite (release_head _ []); [|done|apply not_elem_of_nil]. f_equal. unfold s1, ticked. destruct s. simpl in *. by subst held.
Qed.

Section clock.
Context `{!WaitFuel, !DevSw, !VmOps, !ExecFrame}.

Lemma exit_if_killed_user_run tf c s : s.(curproc) = Some c → p_killed (get_proc c s) = 0 →
  exit_if_killed_user tf s = Ret () s.
Proof.
  intros Hc Hk. unfold exit_if_killed_user. rewrite bind_myproc, Hc, bind_getp, Hk. done.
Qed.

(** C25: The clock preempts.  A timer interrupt while a process runs on
    the first CPU advances the tick counter, makes every process sleeping on
    it runnable, and switches away from the interrupted process, which stays
    runnable; nothing else changes.  When that process is chosen again it
    exits if it has been killed and was in user mode, and otherwise handles
    its pending signals before it returns from the interrupt. *)
Theorem trap_timer c s cr2 keys tfp tf : s.(curproc) = Some c → s.(held) = [] → wf_table s → (c < NPROC)%nat →
  p_state (get_proc c s) = RUNNING → p_killed (get_proc c s) = 0 → tf.(tf_trapno) = T_IRQ0 + IRQ_TIMER →
  ∃ k, trap 0 cr2 keys tfp tf s =
    Switch (put_proc c (set_p_state RUNNABLE (get_proc c s)) (set_held [PTABLE_LOCK] (ticked s))) k ∧
  ∀ s2, s2.(curproc) = Some c → s2.(held) = [PTABLE_LOCK] →
    let s3 := set_held [] (set_intena s.(intena) s2) in
    k s2 = if truthy (p_killed (get_proc c s2)) && (Z.land tf.(tf_cs) 3 =? DPL_USER)
           then (exit;; deliver) s3 else deliver s3.
Proof.
  intros Hc Hh Hw Hlt Hr Hk Hno. unfold wf_table in Hw. unfold trap. rewrite Hno.
  change (T_IRQ0 + IRQ_TIMER =? T_SYSCALL) with false. cbv iota. rewrite Z.eqb_refl.
  assert (interrupt 0 cr2 keys tf s = Ret () (ticked s)) as Et.
  { unfold interrupt. rewrite Hno, Z.eqb_refl. by apply timer_tick_run. }
  kcall Et. set (s1 := ticked s).
  assert (get_proc c s1 = get_proc c s) as Ep.
  { unfold s1, ticked. change (get_proc c (set_pt ?l (set_ticks _ s))) with (get_proc c (set_pt l s)).
    rewrite get_proc_map by lia. unfold wake_proc, is_state. by rewrite Hr, bool_decide_eq_false_2. }
  kcall (exit_if_killed_user_run tf c s1 Hc ltac:(by rewrite Ep)).
  destruct (yield_switch c s1 Hc ltac:(unfold s1; simpl; rewrite length_fmap; lia) Hh) as (k & Ey & Hres).
  rewrite Ep in Ey. eexists. split.
  - apply bind_switch. rewrite bind_myproc. change (curproc s1) with (curproc s). rewrite Hc, bind_getp, Ep.
    unfold is_state. rewrite Hr, bool_decide_eq_true_2 by done. cbn [andb when]. exact Ey.
  - intros s2 Hc2 Hh2. set (s3 := set_held [] (set_intena (intena s) s2)). cbv beta. rewrite Hres by done.
    change (intena s1) with (intena s). fold s3. cbn [cbind].
    unfold exit_if_killed_user. unfold bind at 1. rewrite bind_myproc. change (curproc s3) with (curproc s2). rewrite Hc2, bind_getp.
    change (get_proc c s3) with (get_proc c s2).
    by destruct (truthy (p_killed (get_proc c s2)) && _).
Qed.
End clock.

Lemma trap_timer_witness : let WF : WaitFuel := 1%nat in let Dev : DevSw := no_dev in let VM : VmOps := null_vm in
  let EF : ExecFrame := 0 in
  ∃ s1 k, trap 0 0 [] 0 (mktf 1 2 3 4 5 6 7 8 35 35 35 35 32 0 4096 27 512 12288 35) demo = Switch s1 k ∧
    s1.(ticks) = 1 ∧ p_state (get_proc 1 s1) = RUNNABLE.
Proof.
  intros WF Dev VM EF. set (tf := mktf _ _ _ _ _ _ _ _ _ _ _ _ _ _ _ _ _ _ _).
  destruct (trap_timer 1 demo 0 [] 0 tf) as (k & E & _); try reflexivity; [unfold NPROC; lia|].
  eexists _, k. split; [exact E|]. split; reflexivity.
Defined.
