(* ===== verification/Devices.v ===== *)
(** * Interrupt controllers, clock and serial line: [picirq.c], [ioapic.c],
    [lapic.c] and [uart.c]

    The devices are not part of the program: they are whatever answers the
    instructions on their ports and on the memory where their registers are
    mapped, the class [Machine].  What the drivers rely on are the laws of the
    classes [RtcLaws], [IoapicLaws], [LapicLaws] and [UartLaws].  The theorems
    show that the time read from the clock is the time at one moment although
    its registers are read one by one while the clock runs, that exactly the
    enabled interrupts are routed, and that the characters that arrive on the
    serial line are the input of the console. *)

From stdpp Require Import base numbers option list sets strings gmap fin_maps functions.
From Stdlib Require Import ZArith Lia.
From S2P Require Import Prelude State Locks Console Kalloc Proc Bio Tty Trap.

(** ** The machine *)

(** [inb] and [outb]; [insl] and [outsl], which transfer bytes in groups of
    four; reading and writing a mapped register of 32 bits. *)
Class Machine (D : Type) : Type := {
  port_in : Z → D → Z * D;
  port_out : Z → Z → D → D;
  port_ins : Z → nat → D → list Z * D;
  port_outs : Z → list Z → D → D;
  mem_in : Z → D → Z * D;
  mem_out : Z → Z → D → D
}.

Definition IRQ_ERROR : Z := 19.

Definition IO_PIC1 : Z := 32.
Definition IO_PIC2 : Z := 160.

Definition IOAPIC : Z := 4273995776.
Definition REG_ID : Z := 0.
Definition REG_VER : Z := 1.
Definition REG_TABLE : Z := 16.
Definition INT_DISABLED : Z := 65536.

Definition ID : Z := 32 / 4.
Definition VER : Z := 48 / 4.
Definition TPR : Z := 128 / 4.
Definition EOI : Z := 176 / 4.
Definition SVR : Z := 240 / 4.
Definition ENABLE : Z := 256.
Definition ESR : Z := 640 / 4.
Definition ICRLO : Z := 768 / 4.
Definition INIT : Z := 1280.
Definition STARTUP : Z := 1536.
Definition DELIVS : Z := 4096.
Definition ASSERT : Z := 16384.
Definition LEVEL : Z := 32768.
Definition BCAST : Z := 524288.
Definition ICRHI : Z := 784 / 4.
Definition TIMER : Z := 800 / 4.
Definition X1 : Z := 11.
Definition PERIODIC : Z := 131072.
Definition PCINT : Z := 832 / 4.
Definition LINT0 : Z := 848 / 4.
Definition LINT1 : Z := 864 / 4.
Definition ERROR : Z := 880 / 4.
Definition MASKED : Z := 65536.
Definition TICR : Z := 896 / 4.
Definition TDCR : Z := 992 / 4.

Definition CMOS_PORT : Z := 112.
Definition CMOS_RETURN : Z := 113.
Definition CMOS_STATA : Z := 10.
Definition CMOS_STATB : Z := 11.
Definition CMOS_UIP : Z := 128.
Definition SECS : Z := 0.
Definition MINS : Z := 2.
Definition HOURS : Z := 4.
Definition DAY : Z := 7.
Definition MONTH : Z := 8.
Definition YEAR : Z := 9.

Definition COM1 : Z := 1016.

Record rtcdate : Type := mkdate {
  second : Z;
  minute : Z;
  hour : Z;
  day : Z;
  month : Z;
  year : Z
}.

#[global] Instance rtcdate_eq_dec : EqDecision rtcdate.
Proof. solve_decision. Defined.

Section drivers.
Context {D : Type} `{!Machine D}.

(** The kernel, the devices, and the variables [lapic], [ioapic] and [uart]. *)
Record dstate : Type := mkdst {
  d_kern : kstate;
  d_dev : D;
  d_lapic : Z;
  d_ioapic : Z;
  d_uart : bool
}.
Definition set_kern (v : kstate) (s : dstate) : dstate := mkdst v s.(d_dev) s.(d_lapic) s.(d_ioapic) s.(d_uart).
Definition set_dev (v : D) (s : dstate) : dstate := mkdst s.(d_kern) v s.(d_lapic) s.(d_ioapic) s.(d_uart).
Definition set_ioapic (v : Z) (s : dstate) : dstate := mkdst s.(d_kern) s.(d_dev) s.(d_lapic) v s.(d_uart).
Definition set_uart (v : bool) (s : dstate) : dstate := mkdst s.(d_kern) s.(d_dev) s.(d_lapic) s.(d_ioapic) v.

Definition DV : Type → Type := prog dstate ujump.

(** Functions of the rest of the kernel. *)
Fixpoint dlift_comp {A} (x : dstate) (c : comp kstate ujump A) : comp dstate ujump A :=
  match c with
  | Ret a s => Ret a (set_kern s x)
  | Panic msg s => Panic msg (set_kern s x)
  | Jump j s => Jump j (set_kern s x)
  | Switch s k => Switch (set_kern s x) (fun y => dlift_comp y (k y.(d_kern)))
  | Stuck s => Stuck (set_kern s x)
  end.
Definition dlift {A} (m : M A) : DV A := fun x => dlift_comp x (m x.(d_kern)).

Definition inb (p : Z) : DV Z := fun s => let r := port_in p s.(d_dev) in Ret r.1 (set_dev r.2 s).
Definition outb (p v : Z) : DV unit := modify (fun s => set_dev (port_out p (v mod 256) s.(d_dev)) s).
Definition rd (a : Z) : DV Z := fun s => let r := mem_in a s.(d_dev) in Ret r.1 (set_dev r.2 s).
Definition wr (a v : Z) : DV unit := modify (fun s => set_dev (mem_out a (u32 v) s.(d_dev)) s).

(** ** [picirq.c] *)

Definition picinit : DV unit :=
  outb (IO_PIC1 + 1) 255;;
  outb (IO_PIC2 + 1) 255.

(** ** [ioapic.c] *)

Definition ioapicread (reg : Z) : DV Z :=
  a <- get d_ioapic;;
  wr a reg;;
  rd (a + 16).

Definition ioapicwrite (reg data : Z) : DV unit :=
  a <- get d_ioapic;;
  wr a reg;;
  wr (a + 16) data.

Definition ioapicinit (ioapicid : Z) : DV unit :=
  modify (set_ioapic IOAPIC);;
  ver <- ioapicread REG_VER;;
  let maxintr := Z.land (Z.shiftr ver 16) 255 in
  idr <- ioapicread REG_ID;;
  let id := Z.shiftr idr 24 in
  when (negb (id =? ioapicid))
    (dlift (cprintf ("ioapicinit: id isn't equal to ioapicid; not a MP" +:+ nl) []));;
  foldM (fun _ i =>
    ioapicwrite (REG_TABLE + 2 * i) (Z.lor INT_DISABLED (T_IRQ0 + i));;
    ioapicwrite (REG_TABLE + 2 * i + 1) 0) (seqZ 0 (maxintr + 1)) ().

Definition ioapicenable (irq cpunum : Z) : DV unit :=
  ioapicwrite (REG_TABLE + 2 * irq) (T_IRQ0 + irq);;
  ioapicwrite (REG_TABLE + 2 * irq + 1) (Z.shiftl cpunum 24).

(** ** [lapic.c] *)

Definition lapicw (index value : Z) : DV unit :=
  a <- get d_lapic;;
  wr (a + 4 * index) value;;
  rd (a + 4 * ID);;
  ret ().

Fixpoint deliver_wait (fuel : nat) : DV unit :=
  match fuel with
  | O => fun s => Stuck s
  | S fuel =>
    a <- get d_lapic;;
    v <- rd (a + 4 * ICRLO);;
    if truthy (Z.land v DELIVS) then deliver_wait fuel else ret ()
  end.

Definition lapicinit (fuel : nat) : DV unit :=
  a <- get d_lapic;;
  if negb (truthy a) then ret () else
  lapicw SVR (Z.lor ENABLE (T_IRQ0 + IRQ_SPURIOUS));;
  lapicw TDCR X1;;
  lapicw TIMER (Z.lor PERIODIC (T_IRQ0 + IRQ_TIMER));;
  lapicw TICR 10000000;;
  lapicw LINT0 MASKED;;
  lapicw LINT1 MASKED;;
  ver <- rd (a + 4 * VER);;
  when (4 <=? Z.land (Z.shiftr ver 16) 255) (lapicw PCINT MASKED);;
  lapicw ERROR (T_IRQ0 + IRQ_ERROR);;
  lapicw ESR 0;;
  lapicw ESR 0;;
  lapicw EOI 0;;
  lapicw ICRHI 0;;
  lapicw ICRLO (Z.lor (Z.lor BCAST INIT) LEVEL);;
  deliver_wait fuel;;
  lapicw TPR 0.

Definition lapicid : DV Z :=
  a <- get d_lapic;;
  if negb (truthy a) then ret 0 else
  v <- rd (a + 4 * ID);;
  ret (Z.shiftr v 24).

Definition lapiceoi : DV unit :=
  a <- get d_lapic;;
  when (truthy a) (lapicw EOI 0).

Definition microdelay (us : Z) : DV unit := ret ().

(** Storing a [ushort]. *)
Definition store16 (m : memory) (a v : Z) : memory :=
  store8 (store8 m a (v mod 256)) (u32 (a + 1)) (v / 256 mod 256).

Definition lapicstartap (apicid addr : Z) : DV unit :=
  outb CMOS_PORT 15;;
  outb (CMOS_PORT + 1) 10;;
  let wrv := P2V (Z.lor (Z.shiftl 64 4) 103) in
  dlift (modify (fun k => set_mem (store16 k.(mem) wrv 0) k));;
  dlift (modify (fun k => set_mem (store16 k.(mem) (u32 (wrv + 2)) (Z.shiftr addr 4)) k));;
  lapicw ICRHI (Z.shiftl apicid 24);;
  lapicw ICRLO (Z.lor (Z.lor INIT LEVEL) ASSERT);;
  microdelay 200;;
  lapicw ICRLO (Z.lor INIT LEVEL);;
  microdelay 100;;
  foldM (fun _ _ =>
    lapicw ICRHI (Z.shiftl apicid 24);;
    lapicw ICRLO (Z.lor STARTUP (Z.shiftr addr 12));;
    microdelay 200) [0; 1] ().

Definition cmos_read (reg : Z) : DV Z :=
  outb CMOS_PORT reg;;
  microdelay 200;;
  inb CMOS_RETURN.

Definition fill_rtcdate : DV rtcdate :=
  s <- cmos_read SECS;;
  m <- cmos_read MINS;;
  h <- cmos_read HOURS;;
  d <- cmos_read DAY;;
  mo <- cmos_read MONTH;;
  y <- cmos_read YEAR;;
  ret (mkdate s m h d mo y).

(** The loop of [cmostime], which ends with two equal readings. *)
Fixpoint cmos_loop (fuel : nat) : DV rtcdate :=
  match fuel with
  | O => fun s => Stuck s
  | S fuel =>
    t1 <- fill_rtcdate;;
    a <- cmos_read CMOS_STATA;;
    if truthy (Z.land a CMOS_UIP) then cmos_loop fuel else
    t2 <- fill_rtcdate;;
    if bool_decide (t1 = t2) then ret t1 else cmos_loop fuel
  end.

Definition CONV (x : Z) : Z := u32 (u32 (Z.shiftr x 4 * 10) + Z.land x 15).

Definition cmostime (fuel : nat) : DV rtcdate :=
  sb <- cmos_read CMOS_STATB;;
  let bcd := Z.land sb (Z.shiftl 1 2) =? 0 in
  t1 <- cmos_loop fuel;;
  let t := if bcd then
      mkdate (CONV t1.(second)) (CONV t1.(minute)) (CONV t1.(hour)) (CONV t1.(day)) (CONV t1.(month)) (CONV t1.(year))
    else t1 in
  ret (mkdate t.(second) t.(minute) t.(hour) t.(day) t.(month) (u32 (t.(year) + 2000))).

(** ** [uart.c] *)

(** At most [n] readings of the status. *)
Fixpoint uart_wait (n : nat) : DV unit :=
  match n with
  | O => ret ()
  | S n =>
    st <- inb (COM1 + 5);;
    if truthy (Z.land st 32) then ret () else
    microdelay 10;;
    uart_wait n
  end.

Definition uartputc (c : Z) : DV unit :=
  u <- get d_uart;;
  if negb u then ret () else
  uart_wait 128;;
  outb (COM1 + 0) c.

Definition uartinit : DV unit :=
  outb (COM1 + 2) 0;;
  outb (COM1 + 3) 128;;
  outb (COM1 + 0) (115200 / 9600);;
  outb (COM1 + 1) 0;;
  outb (COM1 + 3) 3;;
  outb (COM1 + 4) 0;;
  outb (COM1 + 1) 1;;
  st <- inb (COM1 + 5);;
  if st =? 255 then ret () else
  modify (set_uart true);;
  inb (COM1 + 2);;
  inb (COM1 + 0);;
  ioapicenable IRQ_COM1 0;;
  foldM (fun _ c => uartputc c) (chars ("xv6..." +:+ nl)) ().

Definition uartgetc : DV Z :=
  u <- get d_uart;;
  if negb u then ret (-1) else
  st <- inb (COM1 + 5);;
  if negb (truthy (Z.land st 1)) then ret (-1) else
  inb (COM1 + 0).

(** The calls of [getc] in [consoleintr]. *)
Fixpoint uart_all (fuel : nat) : DV (list Z) :=
  match fuel with
  | O => fun s => Stuck s
  | S fuel =>
    c <- uartgetc;;
    if c <? 0 then ret [] else
    l <- uart_all fuel;; ret (c :: l)
  end.

Definition uartintr (fuel : nat) : DV unit :=
  l <- uart_all fuel;;
  dlift (consoleintr l).

End drivers.
Arguments dstate D : clear implicits.
Arguments DV D : clear implicits.

(** ** The clock *)

(** The date and time at the second [t], for the calendar [cal]. *)
Definition time_at (cal : Z → Z * Z * Z) (t : Z) : rtcdate :=
  let '(d, m, y) := cal (t / 86400) in
  mkdate (t mod 60) (t / 60 mod 60) (t / 3600 mod 24) d m y.

(** The value of a register of the clock. *)
Definition clock_field (r : Z) (x : rtcdate) : Z :=
  if r =? SECS then x.(second) else if r =? MINS then x.(minute) else if r =? HOURS then x.(hour)
  else if r =? DAY then x.(day) else if r =? MONTH then x.(month) else x.(year).

Definition clock_regs : list Z := [SECS; MINS; HOURS; DAY; MONTH; YEAR].

(** Numbers below 100 in the registers: as they are, or as two decimal digits. *)
Definition enc_clock (binary : bool) (x : Z) : Z := if binary then x else 16 * (x / 10) + x mod 10.

(** The clock counts seconds, [rtc_now], from the beginning of the year 2000.
    Writing a register number to one port selects the register read from the
    other; registers show the time at which they are read, in binary or in
    decimal digits as the status register B says.  Every access may take up to
    four seconds, so the clock may tick between any two of them. *)
Class RtcLaws (D : Type) `{!Machine D} : Type := {
  rtc_now : D → Z;
  rtc_sel : D → Z;
  rtc_uip : D → bool;
  rtc_binary : bool;
  rtc_cal : Z → Z * Z * Z;
  law_cal : ∀ n, let '(d, m, y) := rtc_cal n in 0 <= d < 100 ∧ 0 <= m < 100 ∧ 0 <= y < 100;
  law_select : ∀ r d, 0 <= r < 256 → rtc_sel (port_out CMOS_PORT r d) = r;
  law_clock : ∀ d, rtc_sel d ∈ clock_regs →
    (port_in CMOS_RETURN d).1 = enc_clock rtc_binary (clock_field (rtc_sel d) (time_at rtc_cal (rtc_now d)));
  law_stata : ∀ d, rtc_sel d = CMOS_STATA → truthy (Z.land (port_in CMOS_RETURN d).1 CMOS_UIP) = rtc_uip d;
  law_statb : ∀ d, rtc_sel d = CMOS_STATB → (Z.land (port_in CMOS_RETURN d).1 4 =? 0) = negb rtc_binary;
  law_pace_out : ∀ v d, rtc_now d <= rtc_now (port_out CMOS_PORT v d) <= rtc_now d + 4;
  law_pace_in : ∀ d, rtc_now d <= rtc_now (port_in CMOS_RETURN d).2 <= rtc_now d + 4
}.

Lemma CONV_bcd x : 0 <= x < 100 → CONV (enc_clock false x) = x.
Proof.
  intros Hx. unfold CONV, enc_clock. cbv iota. assert (0 <= x / 10 < 10) by (split; [apply Z.div_pos|apply Z.div_lt_upper_bound]; lia).
  pose proof (Z.mod_pos_bound x 10 ltac:(lia)). rewrite Z.shiftr_div_pow2 by lia. change (2 ^ 4) with 16. change 15 with (Z.ones 4).
  rewrite Z.land_ones by lia. change (2 ^ 4) with 16. replace (16 * (x / 10) + x mod 10) with (x mod 10 + (x / 10) * 16) by lia.
  rewrite Z.div_add, Z.mod_add by lia. rewrite (Z.div_small (x mod 10)), (Z.mod_small (x mod 10) 16) by lia.
  rewrite !u32_id by (unfold word, two32; rewrite ?u32_id; unfold word, two32; lia). pose proof (Z.div_mod x 10 ltac:(lia)). lia.
Qed.

Lemma enc_clock_inj b x y : 0 <= x < 100 → 0 <= y < 100 → enc_clock b x = enc_clock b y → x = y.
Proof.
  intros Hx Hy. destruct b; [done|]. intros E. by rewrite <- (CONV_bcd x), <- (CONV_bcd y), E by done.
Qed.

Section clock.
Context {D : Type} `{!Machine D} `{!RtcLaws D}.
Implicit Types (s : dstate D) (d : D).

(** The devices after reading register [r]. *)
Definition after_read (d : D) (r : Z) : D := (port_in CMOS_RETURN (port_out CMOS_PORT r d)).2.
Definition after_reads (l : list Z) (d : D) : D := foldl after_read d l.

(** The contents of the registers at the second [t]. *)
Definition shown (t : Z) : rtcdate :=
  let x := time_at rtc_cal t in let e := enc_clock rtc_binary in
  mkdate (e x.(second)) (e x.(minute)) (e x.(hour)) (e x.(day)) (e x.(month)) (e x.(year)).

Lemma cmos_read_eq r s : 0 <= r < 256 →
  cmos_read r s = Ret (port_in CMOS_RETURN (port_out CMOS_PORT r s.(d_dev))).1 (set_dev (after_read s.(d_dev) r) s).
Proof. intros Hr. unfold cmos_read, outb, inb. rewrite bind_modify, Z.mod_small by done. done. Qed.

Lemma after_read_pace d r : rtc_now d <= rtc_now (port_out CMOS_PORT r d) <= rtc_now d + 4 ∧
  rtc_now (port_out CMOS_PORT r d) <= rtc_now (after_read d r) <= rtc_now (port_out CMOS_PORT r d) + 4.
Proof. split; [apply law_pace_out|apply law_pace_in]. Qed.

Lemma after_reads_pace l d : rtc_now d <= rtc_now (after_reads l d) <= rtc_now d + 8 * Z.of_nat (length l).
Proof.
  revert d. induction l as [|r l IH]; intros d; [cbn; lia|]. pose proof (after_read_pace d r). cbn [after_reads foldl length].
  specialize (IH (after_read d r)). unfold after_reads in IH. lia.
Qed.

Lemma clock_reg_byte r : r ∈ clock_regs → 0 <= r < 256.
Proof. intros Hr. repeat (apply elem_of_cons in Hr as [-> | Hr]; [done|]). by apply not_elem_of_nil in Hr. Qed.

(** Reading a register of the clock shows it at a moment of the access. *)
Lemma cmos_read_clock r s : r ∈ clock_regs →
  ∃ t, cmos_read r s = Ret (enc_clock rtc_binary (clock_field r (time_at rtc_cal t))) (set_dev (after_read s.(d_dev) r) s) ∧
    rtc_now s.(d_dev) <= t <= rtc_now s.(d_dev) + 4 ∧ t <= rtc_now (after_read s.(d_dev) r) <= t + 4.
Proof.
  intros Hr. pose proof (clock_reg_byte r Hr) as Hb. exists (rtc_now (port_out CMOS_PORT r s.(d_dev))).
  destruct (after_read_pace s.(d_dev) r) as [P1 P2]. split; [|done].
  assert (rtc_sel (port_out CMOS_PORT r s.(d_dev)) = r) as E by by apply law_select.
  by rewrite cmos_read_eq, law_clock, E by (rewrite ?E; done).
Qed.

(** The six moments at which the registers are read. *)
Lemma fill_run s : ∃ t1 t2 t3 t4 t5 t6,
  fill_rtcdate s = Ret (mkdate (second (shown t1)) (minute (shown t2)) (hour (shown t3)) (day (shown t4)) (month (shown t5)) (year (shown t6)))
    (set_dev (after_reads clock_regs s.(d_dev)) s) ∧
  rtc_now s.(d_dev) <= t1 <= rtc_now s.(d_dev) + 4 ∧ t1 <= t2 ∧ t2 <= t3 ∧ t3 <= t4 ∧ t4 <= t5 ∧ t5 <= t6 ∧
  t6 <= rtc_now (after_reads clock_regs s.(d_dev)) <= t1 + 44.
Proof.
  unfold fill_rtcdate. 
  destruct (cmos_read_clock SECS s) as (t1 & E1 & A1 & B1); [set_solver|]. rewrite (bind_returns _ _ _ _ _ E1). set (s1 := set_dev _ s) in *.
  destruct (cmos_read_clock MINS s1) as (t2 & E2 & A2 & B2); [set_solver|]. rewrite (bind_returns _ _ _ _ _ E2). set (s2 := set_dev _ s1) in *.
  destruct (cmos_read_clock HOURS s2) as (t3 & E3 & A3 & B3); [set_solver|]. rewrite (bind_returns _ _ _ _ _ E3). set (s3 := set_dev _ s2) in *.
  destruct (cmos_read_clock DAY s3) as (t4 & E4 & A4 & B4); [set_solver|]. rewrite (bind_returns _ _ _ _ _ E4). set (s4 := set_dev _ s3) in *.
  destruct (cmos_read_clock MONTH s4) as (t5 & E5 & A5 & B5); [set_solver|]. rewrite (bind_returns _ _ _ _ _ E5). set (s5 := set_dev _ s4) in *.
  destruct (cmos_read_clock YEAR s5) as (t6 & E6 & A6 & B6); [set_solver|]. rewrite (bind_returns _ _ _ _ _ E6).
  exists t1, t2, t3, t4, t5, t6. split; [reflexivity|].
  change (after_reads clock_regs s.(d_dev)) with (after_read s5.(d_dev) YEAR). cbn [s1 s2 s3 s4 s5 d_dev set_dev] in *. lia.
Qed.

Lemma time_at_bounds t : let x := time_at rtc_cal t in
  Forall (λ v, 0 <= v < 100) [x.(second); x.(minute); x.(hour); x.(day); x.(month); x.(year)].
Proof.
  cbv zeta. unfold time_at. pose proof (law_cal (t / 86400)) as Hc. destruct (rtc_cal (t / 86400)) as [[d m] y]. cbn.
  pose proof (Z.mod_pos_bound t 60 ltac:(lia)). pose proof (Z.mod_pos_bound (t / 60) 60 ltac:(lia)).
  pose proof (Z.mod_pos_bound (t / 3600) 24 ltac:(lia)). repeat constructor; lia.
Qed.

(** Within a minute the seconds determine the moment. *)
Lemma same_second t u : second (shown t) = second (shown u) → t <= u < t + 60 → t = u.
Proof.
  intros E Hu. pose proof (time_at_bounds t) as Ht. pose proof (time_at_bounds u) as Hu'. cbv zeta in *.
  apply Forall_cons_1 in Ht as [Ht _]. apply Forall_cons_1 in Hu' as [Hu' _].
  unfold shown in E. cbn [second] in E. apply enc_clock_inj in E; [|done..].
  unfold time_at in E. destruct (rtc_cal (t / 86400)) as [[? ?] ?], (rtc_cal (u / 86400)) as [[? ?] ?]. cbn in E.
  pose proof (Z.div_mod t 60 ltac:(lia)). pose proof (Z.div_mod u 60 ltac:(lia)).
  pose proof (Z.mod_pos_bound t 60 ltac:(lia)). nia.
Qed.

(** The devices when the status register A has been selected in an iteration
    of the loop, and whether it shows an update in progress. *)
Definition uip_seen (d : D) : bool := rtc_uip (port_out CMOS_PORT CMOS_STATA (after_reads clock_regs d)).

(** The devices after an iteration that did not succeed. *)
Definition next_iter (d : D) : D :=
  let d' := after_reads (clock_regs ++ [CMOS_STATA]) d in
  if uip_seen d then d' else after_reads clock_regs d'.

(** In an iteration that starts with [d] the clock does not tick and no update
    is in progress. *)
Definition quiet (d : D) : Prop := uip_seen d = false ∧ rtc_now (next_iter d) = rtc_now d.

(** One of the next [n] iterations is quiet. *)
Fixpoint settles (n : nat) (d : D) : Prop :=
  match n with
  | O => False
  | S n => quiet d ∨ settles n (next_iter d)
  end.

Lemma next_iter_pace d : rtc_now d <= rtc_now (next_iter d).
Proof.
  unfold next_iter. pose proof (after_reads_pace (clock_regs ++ [CMOS_STATA]) d).
  pose proof (after_reads_pace clock_regs (after_reads (clock_regs ++ [CMOS_STATA]) d)). destruct (uip_seen d); lia.
Qed.

Lemma stata_run s : ∃ v, cmos_read CMOS_STATA s = Ret v (set_dev (after_read s.(d_dev) CMOS_STATA) s) ∧
  truthy (Z.land v CMOS_UIP) = rtc_uip (port_out CMOS_PORT CMOS_STATA s.(d_dev)).
Proof.
  eexists. split; [by apply cmos_read_eq|]. apply law_stata. by apply law_select.
Qed.

(** Two equal readings within a minute show one moment. *)
Lemma iteration_run fuel s : let d := s.(d_dev) in
  (cmos_loop (S fuel) s = cmos_loop fuel (set_dev (next_iter d) s) ∧ ¬ quiet d) ∨
  (∃ t, cmos_loop (S fuel) s = Ret (shown t) (set_dev (next_iter d) s) ∧ rtc_now d <= t <= rtc_now (next_iter d)).
Proof.
  intros d. cbn [cmos_loop]. destruct (fill_run s) as (t1 & t2 & t3 & t4 & t5 & t6 & E & T). fold d in E, T.
  rewrite (bind_returns _ _ _ _ _ E). set (s1 := set_dev _ s). destruct (stata_run s1) as (v & E2 & Hv).
  rewrite (bind_returns _ _ _ _ _ E2), Hv. change (rtc_uip _) with (uip_seen d). set (s2 := set_dev _ s1).
  assert (s2.(d_dev) = after_reads (clock_regs ++ [CMOS_STATA]) d) as Ed2 by done.
  pose proof (after_read_pace s1.(d_dev) CMOS_STATA) as P. change (after_read s1.(d_dev) CMOS_STATA) with s2.(d_dev) in P.
  change s1.(d_dev) with (after_reads clock_regs d) in P. unfold quiet, next_iter. rewrite <- Ed2.
  destruct (uip_seen d); [left; split; [done|by intros [? _]]|].
  destruct (fill_run s2) as (u1 & u2 & u3 & u4 & u5 & u6 & E3 & T'). rewrite (bind_returns _ _ _ _ _ E3).
  case_bool_decide as Heq.
  - right. exists t1. injection Heq as H1 H2 H3 H4 H5 H6. apply same_second in H1; [|lia].
    assert (t2 = t1 ∧ t3 = t1 ∧ t4 = t1 ∧ t5 = t1 ∧ t6 = t1) as (-> & -> & -> & -> & ->) by lia. split; [done|lia].
  - left. split; [done|]. intros [_ Hq]. apply Heq.
    assert (t1 = u1 ∧ t2 = u1 ∧ t3 = u1 ∧ t4 = u1 ∧ t5 = u1 ∧ t6 = u1) as (-> & -> & -> & -> & -> & ->) by lia.
    assert (u2 = u1 ∧ u3 = u1 ∧ u4 = u1 ∧ u5 = u1 ∧ u6 = u1) as (-> & -> & -> & -> & ->) by lia. done.
Qed.

Lemma cmos_loop_run n fuel s : settles n s.(d_dev) → (n <= fuel)%nat →
  ∃ t d', cmos_loop fuel s = Ret (shown t) (set_dev d' s) ∧ rtc_now s.(d_dev) <= t <= rtc_now d'.
Proof.
  revert fuel s. induction n as [|n IH]; intros fuel s Hn Hf; [done|]. destruct fuel as [|fuel]; [lia|].
  destruct (iteration_run fuel s) as [[E Hq]|(t & E & Ht)]; [|by exists t, (next_iter s.(d_dev))].
  destruct Hn as [|Hn]; [done|]. rewrite E. destruct (IH fuel (set_dev (next_iter s.(d_dev)) s) Hn) as (t & d' & E' & Ht); [lia|].
  exists t, d'. split; [exact E'|]. pose proof (next_iter_pace s.(d_dev)). cbn in Ht. lia.
Qed.

Lemma decoded b x : 0 <= x < 100 → (if negb b then CONV (enc_clock b x) else enc_clock b x) = x.
Proof. intros Hx. destruct b; [done|]. by apply CONV_bcd. Qed.

(** The time read from the clock is right.  The registers are read one
    by one while the clock may tick between any two accesses; if among the next
    iterations of the loop there is one without a tick or an update in progress
    then [cmostime] returns, and what it returns is the date and time of one
    moment between its call and its return, whether the clock counts in binary
    or in decimal digits. *)
Theorem cmostime_one_moment n fuel s : settles n (after_read s.(d_dev) CMOS_STATB) → (n <= fuel)%nat →
  ∃ t d', cmostime fuel s =
      Ret (let x := time_at rtc_cal t in mkdate x.(second) x.(minute) x.(hour) x.(day) x.(month) (2000 + x.(year))) (set_dev d' s) ∧
    rtc_now s.(d_dev) <= t <= rtc_now d'.
Proof.
  intros Hn Hf. unfold cmostime. rewrite (bind_returns _ _ _ _ _ (cmos_read_eq CMOS_STATB s ltac:(done))).
  change (Z.shiftl 1 2) with 4. rewrite law_statb by by apply law_select.
  destruct (cmos_loop_run n fuel (set_dev (after_read s.(d_dev) CMOS_STATB) s) Hn Hf) as (t & d' & E & Ht).
  rewrite (bind_returns _ _ _ _ _ E). exists t, d'. pose proof (after_read_pace s.(d_dev) CMOS_STATB) as P. cbn in Ht.
  split; [|lia]. pose proof (time_at_bounds t) as Hb. cbv zeta in Hb. unfold shown. set (x := time_at rtc_cal t) in *.
  rewrite !list.Forall_cons in Hb. destruct Hb as (B1 & B2 & B3 & B4 & B5 & B6 & _). unfold ret. f_equal.
  pose proof (decoded rtc_binary) as Hd. destruct rtc_binary; cbn [negb] in *; cbn [second minute hour day month year].
  - rewrite u32_id by (unfold word, two32, enc_clock; lia). unfold enc_clock. f_equal; lia.
  - rewrite !Hd by done. rewrite u32_id by (unfold word, two32; lia). f_equal; lia.
Qed.

End clock.

(** ** The I/O interrupt controller *)

(** Its registers are reached through a register that selects one of them and
    a register for its contents. *)
Class IoapicLaws (D : Type) `{!Machine D} : Type := {
  io_reg : D → Z → Z;
  io_sel : D → Z;
  law_io_select : ∀ r d, io_sel (mem_out IOAPIC r d) = r;
  law_io_select_regs : ∀ r v d, io_reg (mem_out IOAPIC v d) r = io_reg d r;
  law_io_write : ∀ r v d, REG_TABLE <= io_sel d →
    io_reg (mem_out (IOAPIC + 16) v d) r = if r =? io_sel d then v else io_reg d r;
  law_io_read : ∀ d, (mem_in (IOAPIC + 16) d).1 = io_reg d (io_sel d);
  law_io_read_regs : ∀ r d, io_reg (mem_in (IOAPIC + 16) d).2 r = io_reg d r
}.

Section ioapic.
Context {D : Type} `{!Machine D} `{!IoapicLaws D}.
Implicit Types (s : dstate D) (d : D).

Definition maxintr (d : D) : Z := Z.land (Z.shiftr (io_reg d REG_VER) 16) 255.

(** The interrupt [i] is routed as the registers [lo] and [hi] say. *)
Definition routed (d : D) (i lo hi : Z) : Prop :=
  io_reg d (REG_TABLE + 2 * i) = lo ∧ io_reg d (REG_TABLE + 2 * i + 1) = hi.

Lemma ioapicread_run reg s : s.(d_ioapic) = IOAPIC → 0 <= reg < 256 →
  ∃ d', ioapicread reg s = Ret (io_reg s.(d_dev) reg) (set_dev d' s) ∧ ∀ r, io_reg d' r = io_reg s.(d_dev) r.
Proof.
  intros Ha Hr. unfold ioapicread. rewrite bind_get, Ha. unfold wr, rd. rewrite bind_modify, u32_id by (unfold word, two32; lia).
  cbn [d_dev set_dev]. eexists. split; [rewrite law_io_read, law_io_select, law_io_select_regs; reflexivity|].
  intros r. by rewrite law_io_read_regs, law_io_select_regs.
Qed.

Lemma ioapicwrite_run reg v s : s.(d_ioapic) = IOAPIC → REG_TABLE <= reg < two32 →
  ∃ d', ioapicwrite reg v s = Ret () (set_dev d' s) ∧
    ∀ r, io_reg d' r = if r =? reg then u32 v else io_reg s.(d_dev) r.
Proof.
  intros Ha Hr. unfold ioapicwrite. rewrite bind_get, Ha. unfold wr. rewrite bind_modify, (u32_id reg) by (unfold word, REG_TABLE in *; lia).
  eexists. split; [reflexivity|]. intros r. cbn [d_dev set_dev].
  by rewrite law_io_write, law_io_select, law_io_select_regs by (rewrite ?law_io_select; lia).
Qed.

(** Writing the pairs of registers of a list of interrupts. *)
Lemma write_pairs {A} (ix lo hi : A → Z) l s : s.(d_ioapic) = IOAPIC → NoDup (map ix l) → Forall (λ x, 0 <= ix x < 1000) l →
  ∃ d', foldM (fun _ x => ioapicwrite (REG_TABLE + 2 * ix x) (lo x);; ioapicwrite (REG_TABLE + 2 * ix x + 1) (hi x)) l () s
      = Ret () (set_dev d' s) ∧
    (∀ x, x ∈ l → routed d' (ix x) (u32 (lo x)) (u32 (hi x))) ∧
    (∀ r, r < REG_TABLE → io_reg d' r = io_reg s.(d_dev) r) ∧
    (∀ i, i ∉ map ix l → routed d' i (io_reg s.(d_dev) (REG_TABLE + 2 * i)) (io_reg s.(d_dev) (REG_TABLE + 2 * i + 1))).
Proof.
  revert s. induction l as [|x l IH]; intros s Ha Hn Hl.
  - exists s.(d_dev). split; [by destruct s|]. split; [by intros x Hx; apply not_elem_of_nil in Hx|]. by split.
  - cbn [map] in Hn. apply list.NoDup_cons in Hn as [Hx Hn]. apply Forall_cons_1 in Hl as [Hix Hl]. cbn [foldM].
    destruct (ioapicwrite_run (REG_TABLE + 2 * ix x) (lo x) s Ha) as (d1 & E1 & R1); [unfold REG_TABLE, two32; lia|].
    destruct (ioapicwrite_run (REG_TABLE + 2 * ix x + 1) (hi x) (set_dev d1 s) Ha) as (d2 & E2 & R2); [unfold REG_TABLE, two32; lia|].
    destruct (IH (set_dev d2 s) Ha Hn Hl) as (d' & E & Q1 & Q2 & Q3). cbn [d_dev set_dev] in *. exists d'.
    rewrite (bind_returns _ _ _ () (set_dev d2 s)).
    2: { rewrite (bind_returns _ _ _ _ _ E1). exact E2. }
    assert (∀ i, i ≠ ix x → io_reg d2 (REG_TABLE + 2 * i) = io_reg s.(d_dev) (REG_TABLE + 2 * i) ∧
      io_reg d2 (REG_TABLE + 2 * i + 1) = io_reg s.(d_dev) (REG_TABLE + 2 * i + 1)) as Hoth.
    { intros i Hi. rewrite !R2, !R1.
      repeat match goal with |- context [?a =? ?b] => destruct (Z.eqb_spec a b); [lia|] end. done. }
    split; [exact E|]. split; [|split].
    + intros y Hy. apply elem_of_cons in Hy as [-> | Hy]; [|by apply Q1]. unfold routed. destruct (Q3 (ix x) Hx) as [-> ->].
      rewrite !R2, !R1, !Z.eqb_refl. destruct (Z.eqb_spec (REG_TABLE + 2 * ix x) (REG_TABLE + 2 * ix x + 1)); [lia|done].
    + intros r Hr. rewrite Q2, R2, R1 by done. unfold REG_TABLE in *.
      repeat match goal with |- context [?a =? ?b] => destruct (Z.eqb_spec a b); [lia|] end. done.
    + intros i Hi. cbn [map] in Hi. apply not_elem_of_cons in Hi as [Hi1 Hi2]. destruct (Q3 i Hi2) as [Q3a Q3b].
      destruct (Hoth i Hi1) as [O1 O2]. split; congruence.
Qed.

Lemma ioapicinit_run ioapicid s : CONS_LOCK ∉ s.(d_kern).(held) →
  ∃ k d', ioapicinit ioapicid s = Ret () (set_ioapic IOAPIC (set_kern k (set_dev d' s))) ∧
    (∃ o, k = set_cons_out o s.(d_kern)) ∧ maxintr d' = maxintr s.(d_dev) ∧
    ∀ i, 0 <= i <= maxintr d' → routed d' i (Z.lor INT_DISABLED (T_IRQ0 + i)) 0.
Proof.
  intros Hl. unfold ioapicinit. rewrite bind_modify. set (s0 := set_ioapic IOAPIC s).
  destruct (ioapicread_run REG_VER s0 eq_refl ltac:(done)) as (d1 & E1 & R1). rewrite (bind_returns _ _ _ _ _ E1). cbv zeta.
  destruct (ioapicread_run REG_ID (set_dev d1 s0) eq_refl ltac:(done)) as (d2 & E2 & R2). rewrite (bind_returns _ _ _ _ _ E2).
  cbn [d_dev set_dev] in *. set (m := Z.land _ 255). change (io_reg (d_dev s0) REG_VER) with (io_reg s.(d_dev) REG_VER) in m.
  assert (0 <= m < 256) as Hm.
  { unfold m. change 255 with (Z.ones 8). rewrite Z.land_ones by lia. apply Z.mod_pos_bound. lia. }
  assert (∃ k o, k = set_cons_out o s.(d_kern) ∧ when (negb (Z.shiftr (io_reg d1 REG_ID) 24 =? ioapicid))
    (dlift (cprintf ("ioapicinit: id isn't equal to ioapicid; not a MP" +:+ nl) [])) (set_dev d2 (set_dev d1 s0)) =
    Ret () (set_kern k (set_dev d2 s0))) as (k & o & Hk & Ep).
  { destruct (Z.shiftr (io_reg d1 REG_ID) 24 =? ioapicid); cbn [negb when].
    - exists s.(d_kern), s.(d_kern).(cons_out). split; by destruct s as [[] ? ? ? ?].
    - unfold dlift. rewrite cprintf_ok by done. eexists _, _. split; [done|]. reflexivity. }
  rewrite (bind_returns _ _ _ _ _ Ep). set (s3 := set_kern k _).
  destruct (write_pairs (λ i, i) (λ i, Z.lor INT_DISABLED (T_IRQ0 + i)) (λ _, 0) (seqZ 0 (m + 1)) s3 eq_refl)
    as (d' & E & Q1 & Q2 & Q3).
  { rewrite map_id. apply NoDup_seqZ. }
  { apply list.Forall_forall. intros i Hi. apply elem_of_seqZ in Hi. lia. }
  exists k, d'. split; [rewrite E; by destruct s|]. split; [by exists o|].
  assert (maxintr d' = m) as Em.
  { unfold maxintr. rewrite Q2 by done. cbn [s3 d_dev set_kern set_dev]. by rewrite R2, R1. }
  split; [done|]. intros i Hi. rewrite Em in Hi. destruct (Q1 i) as [L1 L2]; [apply elem_of_seqZ; lia|]. split; [|exact L2].
  rewrite L1. apply u32_id. unfold word, two32, INT_DISABLED, T_IRQ0. split; [apply Z.lor_nonneg; lia|].
  apply Z.log2_lt_cancel. rewrite Z.log2_lor by lia. change (Z.log2 65536) with 16. change (Z.log2 4294967296) with 32.
  assert (Z.log2 (32 + i) <= Z.log2 65535) by (apply Z.log2_le_mono; lia). change (Z.log2 65535) with 15 in *. lia.
Qed.

(** Exactly the enabled interrupts are routed.  After [ioapicinit]
    and calls of [ioapicenable] for different interrupts, an enabled interrupt
    is delivered to its processor as the trap [T_IRQ0] plus its number, and every
    other interrupt of the controller is masked and routed to no processor; the
    kernel's state changes by a message at most. *)
Theorem interrupts_routed ioapicid l s : CONS_LOCK ∉ s.(d_kern).(held) →
  NoDup (map fst l) → Forall (λ x, 0 <= x.1 <= maxintr s.(d_dev) ∧ 0 <= x.2 < 256) l →
  ∃ k d', (ioapicinit ioapicid;; foldM (fun _ x => ioapicenable x.1 x.2) l ()) s =
      Ret () (set_ioapic IOAPIC (set_kern k (set_dev d' s))) ∧
    (∃ o, k = set_cons_out o s.(d_kern)) ∧
    (∀ i c, (i, c) ∈ l → routed d' i (T_IRQ0 + i) (16777216 * c)) ∧
    (∀ i, 0 <= i <= maxintr s.(d_dev) → i ∉ map fst l → routed d' i (Z.lor INT_DISABLED (T_IRQ0 + i)) 0).
Proof.
  intros Hc Hn Hl. destruct (ioapicinit_run ioapicid s Hc) as (k & d1 & E & Hk & Em & R). rewrite (bind_returns _ _ _ _ _ E).
  assert (maxintr s.(d_dev) < 256) as Hmax.
  { unfold maxintr. change 255 with (Z.ones 8). rewrite Z.land_ones by lia. apply Z.mod_pos_bound. lia. }
  destruct (write_pairs (@fst Z Z) (λ x, T_IRQ0 + x.1) (λ x, Z.shiftl x.2 24) l (set_ioapic IOAPIC (set_kern k (set_dev d1 s))) eq_refl Hn)
    as (d2 & E2 & Q1 & _ & Q3).
  { eapply list.Forall_impl; [exact Hl|]. intros x ?. cbn in *. lia. }
  exists k, d2. split; [exact E2|]. split; [done|]. split.
  - intros i c Hi. rewrite Forall_forall in Hl. destruct (Hl (i, c)) as [H1 H2]; [by apply list_elem_of_In|]. cbn in H1, H2.
    destruct (Q1 (i, c) Hi) as [L1 L2]. cbn [fst snd] in *. split.
    + rewrite L1. apply u32_id. unfold word, two32, T_IRQ0. lia.
    + rewrite L2, Z.shiftl_mul_pow2 by lia. change (2 ^ 24) with 16777216. rewrite u32_id by (unfold word, two32; lia). lia.
  - intros i Hi Hni. rewrite <- Em in Hi. destruct (R i Hi) as [<- <-]. by apply Q3.
Qed.

End ioapic.

(** ** The serial line *)

(** The characters transmitted and those received and not yet read.  The line
    status says whether one has been received; the transmitter is ready after
    fewer than 128 readings of it. *)
Class UartLaws (D : Type) `{!Machine D} : Type := {
  tx : D → list Z;
  rx : D → list Z;
  tx_delay : D → nat;
  law_rx_byte : ∀ d, Forall (λ c, 0 <= c < 256) (rx d);
  law_tx_delay : ∀ d, (tx_delay d < 128)%nat;
  law_lsr : ∀ d, let r := port_in (COM1 + 5) d in tx r.2 = tx d ∧ rx r.2 = rx d;
  law_lsr_rx : ∀ d, truthy (Z.land (port_in (COM1 + 5) d).1 1) = negb (bool_decide (rx d = []));
  law_lsr_tx : ∀ d, let r := port_in (COM1 + 5) d in
    (truthy (Z.land r.1 32) = true ∧ tx_delay r.2 = 0%nat) ∨ (truthy (Z.land r.1 32) = false ∧ (tx_delay r.2 < tx_delay d)%nat);
  law_rbr : ∀ d c l, rx d = c :: l → (port_in COM1 d).1 = c ∧ rx (port_in COM1 d).2 = l ∧ tx (port_in COM1 d).2 = tx d;
  law_thr : ∀ c d, tx_delay d = 0%nat → tx (port_out COM1 c d) = tx d ++ [c] ∧ rx (port_out COM1 c d) = rx d
}.

Section uart.
Context {D : Type} `{!Machine D} `{!UartLaws D}.
Implicit Types (s : dstate D) (d : D).

Lemma uart_wait_run n s : (tx_delay s.(d_dev) < n)%nat →
  ∃ d', uart_wait n s = Ret () (set_dev d' s) ∧ tx d' = tx s.(d_dev) ∧ rx d' = rx s.(d_dev) ∧ tx_delay d' = 0%nat.
Proof.
  revert s. induction n as [|n IH]; intros s Hn; [lia|]. cbn [uart_wait]. unfold inb, bind at 1. cbn [cbind].
  destruct (law_lsr s.(d_dev)) as [L1 L2]. destruct (law_lsr_tx s.(d_dev)) as [[-> Hd]|[-> Hd]].
  - eexists. by split.
  - destruct (IH (set_dev (port_in (COM1 + 5) s.(d_dev)).2 s)) as (d' & E & H1 & H2 & H3); [cbn; lia|].
    exists d'. split; [exact E|]. cbn in H1, H2. by rewrite H1, H2.
Qed.

(** A character is appended to those transmitted. *)
Lemma uartputc_run c s : s.(d_uart) = true → 0 <= c < 256 →
  ∃ d', uartputc c s = Ret () (set_dev d' s) ∧ tx d' = tx s.(d_dev) ++ [c] ∧ rx d' = rx s.(d_dev).
Proof.
  intros Hu Hc. unfold uartputc. rewrite bind_get, Hu. cbn [negb].
  destruct (uart_wait_run 128 s (law_tx_delay _)) as (d1 & E & H1 & H2 & H3). rewrite (bind_returns _ _ _ _ _ E).
  unfold outb, modify. rewrite Z.mod_small by done. eexists. split; [reflexivity|]. cbn [d_dev set_dev].
  change (COM1 + 0) with COM1. destruct (law_thr c d1 H3) as [-> ->]. by rewrite H1, H2.
Qed.

Lemma uartputs_run l s : s.(d_uart) = true → Forall (λ c, 0 <= c < 256) l →
  ∃ d', foldM (fun _ c => uartputc c) l () s = Ret () (set_dev d' s) ∧ tx d' = tx s.(d_dev) ++ l.
Proof.
  intros Hu Hl. revert s Hu. induction Hl as [|c l Hc Hl IH]; intros s Hu; cbn [foldM].
  - exists s.(d_dev). split; [by destruct s|]. by rewrite app_nil_r.
  - destruct (uartputc_run c s Hu Hc) as (d1 & E & H1 & _). rewrite (bind_returns _ _ _ _ _ E).
    destruct (IH (set_dev d1 s) Hu) as (d' & E' & H2). exists d'. split; [exact E'|]. cbn in H2. by rewrite H2, H1, <- app_assoc.
Qed.

Lemma uart_all_run fuel s : s.(d_uart) = true → (length (rx s.(d_dev)) < fuel)%nat →
  ∃ d', uart_all fuel s = Ret (rx s.(d_dev)) (set_dev d' s) ∧ rx d' = [] ∧ tx d' = tx s.(d_dev).
Proof.
  intros Hu. revert s Hu. induction fuel as [|fuel IH]; intros s Hu Hf; [lia|]. cbn [uart_all]. unfold bind at 1, uartgetc.
  rewrite bind_get, Hu. cbn [negb]. unfold inb, bind at 1. cbn [cbind]. rewrite law_lsr_rx.
  destruct (law_lsr s.(d_dev)) as [L1 L2]. set (d1 := (port_in (COM1 + 5) s.(d_dev)).2) in *.
  destruct (rx s.(d_dev)) as [|c l] eqn:Er.
  - rewrite bool_decide_eq_true_2 by done. cbn. by exists d1.
  - rewrite bool_decide_eq_false_2 by done. cbn [negb]. change (COM1 + 0) with COM1. cbn [cbind d_dev set_dev].
    destruct (law_rbr d1 c l L2) as (-> & L3 & L4). pose proof (law_rx_byte s.(d_dev)) as Hb. rewrite Er in Hb.
    apply Forall_cons_1 in Hb as [Hc _]. destruct (Z.ltb_spec c 0); [lia|].
    destruct (IH (set_dev (port_in COM1 d1).2 s) Hu) as (d' & E & H1 & H2); [cbn [d_dev set_dev]; rewrite L3; simpl in Hf; lia|].
    cbn [d_dev set_dev] in E, H2. rewrite L3 in E. unfold bind.
    change (set_dev (port_in COM1 d1).2 (set_dev d1 s)) with (set_dev (port_in COM1 d1).2 s). rewrite E. cbn [cbind ret].
    exists d'. split; [reflexivity|]. split; [done|]. by rewrite H2, L4, L1.
Qed.

(** The characters received become input of the console, edited like those
    of the keyboard. *)
Theorem serial_input fuel s R L : s.(d_uart) = true → (length (rx s.(d_dev)) < fuel)%nat →
  s.(d_kern).(held) = [] → wf_table s.(d_kern) → tty s.(d_kern).(input) R L → newline ∉ L →
  let '(R', L') := foldl edit (R, L) (rx s.(d_dev)) in
  ∃ k d', uartintr fuel s = Ret () (set_kern k (set_dev d' s)) ∧ rx d' = [] ∧ k.(held) = [] ∧ tty k.(input) R' L'.
Proof.
  intros Hu Hf Hh Hw Ht Hn. destruct (uart_all_run fuel s Hu Hf) as (d' & E & H1 & _).
  pose proof (consoleintr_t (rx s.(d_dev)) s.(d_kern) R L (law_rx_byte _) Hh Hw Ht Hn) as H. cbv zeta in H.
  destruct (foldl edit (R, L) (rx s.(d_dev))) as [R' L']. unfold runs in H.
  destruct (consoleintr _ s.(d_kern)) as [[] k| | | |] eqn:Ek; [|done..]. destruct H as [(o & i & ->) H2 _]. unfold uartintr. rewrite (bind_returns _ _ _ _ _ E). unfold dlift. cbn [d_kern set_dev]. rewrite Ek.
  eexists _, d'. split; [reflexivity|]. by split.
Qed.

End uart.

(** ** The local interrupt controller *)

(** The registers that [lapicinit] writes hold what has been written; a command
    in the register [ICRLO] has been delivered after [la_delay] readings. *)
Class LapicLaws (D : Type) `{!Machine D} : Type := {
  la_base : Z;
  la_reg : D → Z → Z;
  la_delay : D → nat;
  law_la_base : la_base ≠ 0;
  law_la_write : ∀ i r v d, la_reg (mem_out (la_base + 4 * i) v d) r = if r =? i then v else la_reg d r;
  law_la_read : ∀ i r d, la_reg (mem_in (la_base + 4 * i) d).2 r = la_reg d r;
  law_la_id : ∀ d, (mem_in (la_base + 4 * ID) d).1 = la_reg d ID;
  law_la_delivered : ∀ d, let r := mem_in (la_base + 4 * ICRLO) d in
    Z.land r.1 DELIVS = 0 ∨ (la_delay r.2 < la_delay d)%nat
}.

Section lapic.
Context {D : Type} `{!Machine D} `{!LapicLaws D}.
Implicit Types (s : dstate D) (d : D).

Lemma lapicw_run i v s : s.(d_lapic) = la_base →
  ∃ d', lapicw i v s = Ret () (set_dev d' s) ∧ ∀ r, la_reg d' r = if r =? i then u32 v else la_reg s.(d_dev) r.
Proof.
  intros Hb. unfold lapicw. rewrite bind_get, Hb. unfold wr, rd. rewrite bind_modify. unfold bind. cbn [cbind ret d_dev set_dev].
  eexists. split; [reflexivity|]. intros r. by rewrite law_la_read, law_la_write.
Qed.

Lemma deliver_wait_run fuel s : s.(d_lapic) = la_base → (la_delay s.(d_dev) < fuel)%nat →
  ∃ d', deliver_wait fuel s = Ret () (set_dev d' s) ∧ ∀ r, la_reg d' r = la_reg s.(d_dev) r.
Proof.
  revert s. induction fuel as [|fuel IH]; intros s Hb Hf; [lia|]. cbn [deliver_wait]. rewrite bind_get, Hb. unfold rd, bind. cbn [cbind].
  pose proof (law_la_read ICRLO) as Hr. destruct (truthy (Z.land _ DELIVS)) eqn:Et; [|eexists; by split].
  destruct (law_la_delivered s.(d_dev)) as [E|Hd]; [by rewrite E in Et|].
  destruct (IH (set_dev (mem_in (la_base + 4 * ICRLO) s.(d_dev)).2 s) Hb) as (d' & E & H); [cbn; lia|].
  exists d'. split; [exact E|]. intros r. rewrite H. apply Hr.
Qed.

(** Steps of [lapicinit]. *)
Ltac lapic_write :=
  match goal with
  | |- context [bind (lapicw ?i ?v) _ ?s] =>
    let d := fresh "d" in let E := fresh "E" in let R := fresh "R" in
    destruct (lapicw_run i v s) as (d & E & R); [done|]; rewrite (bind_returns _ _ _ _ _ E); clear E; cbn [d_dev set_dev] in R
  end.

(** [lapicinit] enables the controller and leaves the timer periodic, the
    lines masked and errors mapped to their interrupt. *)
Theorem lapicinit_effect fuel s : s.(d_lapic) = la_base → (∀ d, la_delay d < fuel)%nat →
  ∃ d', lapicinit fuel s = Ret () (set_dev d' s) ∧
    la_reg d' SVR = 256 + 63 ∧ la_reg d' TDCR = X1 ∧ la_reg d' TIMER = PERIODIC + T_IRQ0 + IRQ_TIMER ∧
    la_reg d' TICR = 10000000 ∧ la_reg d' LINT0 = MASKED ∧ la_reg d' LINT1 = MASKED ∧
    la_reg d' ERROR = T_IRQ0 + IRQ_ERROR ∧ la_reg d' TPR = 0.
Proof.
  intros Hb Hf. unfold lapicinit. rewrite bind_get, Hb. unfold truthy at 1. destruct (Z.eqb_spec la_base 0) as [E|_]; [by apply law_la_base in E|].
  cbn [negb]. do 6 lapic_write. unfold rd, bind at 1. cbn [cbind]. pose proof (law_la_read VER) as RV. cbn [d_dev set_dev].
  set (dv := (mem_in _ d4).2). assert (∀ r, la_reg dv r = la_reg d4 r) as R5 by (intros r; apply RV). clear RV.
  set (s5 := set_dev dv _). set (ver := (mem_in _ d4).1).
  assert (∃ d5, when (4 <=? Z.land (Z.shiftr ver 16) 255) (lapicw PCINT MASKED) s5 = Ret () (set_dev d5 s5) ∧
    ∀ r, r ≠ PCINT → la_reg d5 r = la_reg dv r) as (d5 & E5 & R6).
  { destruct (4 <=? _); cbn [when]; [|by exists dv].
    destruct (lapicw_run PCINT MASKED s5 Hb) as (d' & E & R'). exists d'. split; [exact E|]. intros r Hr. rewrite R'.
    by destruct (Z.eqb_spec r PCINT). }
  rewrite (bind_returns _ _ _ _ _ E5). do 6 lapic_write.
  match goal with |- context [bind (deliver_wait fuel) _ ?s'] =>
    destruct (deliver_wait_run fuel s' Hb (Hf _)) as (d12 & E12 & R13); rewrite (bind_returns _ _ _ _ _ E12);
    destruct (lapicw_run TPR 0 (set_dev d12 s') Hb) as (d13 & E13 & R14) end.
  exists d13. split; [exact E13|]. cbn [d_dev set_dev] in *.
  repeat split; rewrite ?R14, ?R13, ?R12, ?R11, ?R10, ?R9, ?R8, ?R7; try done;
    cbn -[u32]; rewrite R6 by done; rewrite R5, ?R4, ?R3, ?R2, ?R1, ?R0, ?R; done.
Qed.
End lapic.

(** ** A machine with a clock and an interrupt controller *)

(** The clock ticks at the next [bx_ticks] selections of a register. *)
Record box : Type := mkbox { bx_now : Z; bx_ticks : nat; bx_cmos : Z; bx_regs : Z → Z; bx_reg : Z }.

Definition box_cal (n : Z) : Z * Z * Z := (1 + n mod 28, 3, 26).

Definition box_in (p : Z) (b : box) : Z :=
  if p =? CMOS_RETURN then
    if b.(bx_cmos) =? CMOS_STATA then 0 else if b.(bx_cmos) =? CMOS_STATB then 0
    else enc_clock false (clock_field b.(bx_cmos) (time_at box_cal b.(bx_now)))
  else 0.

Definition box_out (p v : Z) (b : box) : box :=
  if p =? CMOS_PORT then
    match b.(bx_ticks) with
    | O => mkbox b.(bx_now) 0 v b.(bx_regs) b.(bx_reg)
    | S n => mkbox (b.(bx_now) + 1) n v b.(bx_regs) b.(bx_reg)
    end
  else b.

Definition box_store (a v : Z) (b : box) : box :=
  if a =? IOAPIC then mkbox b.(bx_now) b.(bx_ticks) b.(bx_cmos) b.(bx_regs) v
  else if a =? IOAPIC + 16 then
    mkbox b.(bx_now) b.(bx_ticks) b.(bx_cmos) (fun r => if r =? b.(bx_reg) then v else b.(bx_regs) r) b.(bx_reg)
  else b.

#[local] Instance box_machine : Machine box := {
  port_in := fun p b => (box_in p b, b);
  port_out := box_out;
  port_ins := fun _ _ b => ([], b);
  port_outs := fun _ _ b => b;
  mem_in := fun a b => (if a =? IOAPIC + 16 then b.(bx_regs) b.(bx_reg) else 0, b);
  mem_out := box_store
}.

#[local] Instance box_rtc : RtcLaws box.
Proof.
  refine {| rtc_now := bx_now; rtc_sel := bx_cmos; rtc_uip := fun _ => false; rtc_binary := false; rtc_cal := box_cal |}.
  - intros n. cbn. pose proof (Z.mod_pos_bound n 28 ltac:(lia)). lia.
  - intros r d _. unfold port_out, box_machine, box_out. rewrite Z.eqb_refl. by destruct (bx_ticks d).
  - intros d Hd. unfold port_in, box_machine, box_in. rewrite Z.eqb_refl. cbn [fst].
    repeat (apply elem_of_cons in Hd as [-> | Hd]; [done|]). by apply not_elem_of_nil in Hd.
  - intros d Hd. unfold port_in, box_machine, box_in. by rewrite Z.eqb_refl, Hd.
  - intros d Hd. unfold port_in, box_machine, box_in. by rewrite Z.eqb_refl, Hd.
  - intros v d. unfold port_out, box_machine, box_out. rewrite Z.eqb_refl. destruct (bx_ticks d); cbn; lia.
  - intros d. cbn. lia.
Defined.

#[local] Instance box_ioapic : IoapicLaws box.
Proof.
  refine {| io_reg := bx_regs; io_sel := bx_reg |}.
  - intros r d. unfold mem_out, box_machine, box_store. by rewrite Z.eqb_refl.
  - intros r v d. unfold mem_out, box_machine, box_store. by rewrite Z.eqb_refl.
  - intros r v d _. unfold mem_out, box_machine, box_store. by rewrite Z.eqb_refl.
  - intros d. unfold mem_in, box_machine. by rewrite Z.eqb_refl.
  - done.
Defined.

(** The clock is about to pass from 23:59:58 to the next day; the controller
    has 24 interrupts. *)
Definition demo_box : dstate box :=
  mkdst demo (mkbox 86398 3 0 (fun r => if r =? REG_VER then 23 * 65536 else 0) 0) 0 0 false.

Lemma cmostime_one_moment_witness : ∃ t d', cmostime 2 demo_box =
  Ret (let x := time_at box_cal t in mkdate x.(second) x.(minute) x.(hour) x.(day) x.(month) (2000 + x.(year))) (set_dev d' demo_box).
Proof.
  destruct (cmostime_one_moment 2 2 demo_box) as (t & d' & E & _); [right; left; split; reflexivity|apply le_n|]. exists t, d'. exact E.
Defined.

Lemma interrupts_routed_witness : ∃ k d',
  (ioapicinit 0;; foldM (fun _ x => ioapicenable x.1 x.2) [(IRQ_KBD, 0); (IRQ_IDE, 1)] ()) demo_box =
    Ret () (set_ioapic IOAPIC (set_kern k (set_dev d' demo_box))) ∧ routed d' IRQ_IDE 46 16777216 ∧ routed d' 5 65573 0.
Proof.
  destruct (interrupts_routed 0 [(IRQ_KBD, 0); (IRQ_IDE, 1)] demo_box) as (k & d' & E & _ & H1 & H2).
  - apply not_elem_of_nil.
  - compute_done.
  - change (maxintr (d_dev demo_box)) with 23. repeat (apply list.Forall_cons; split; [unfold IRQ_KBD, IRQ_IDE; cbn; lia|]). apply list.Forall_nil_2.
  - exists k, d'. split; [exact E|]. split; [apply (H1 IRQ_IDE 1); right; left|].
    apply (H2 5); [vm_compute; split; intros [=]|]. compute_done.
Defined.
