(* ===== verification/Cpus.v ===== *)
(** * CPUs, segments and interrupt gates: [mmu.h], [mycpu] of [proc.c],
    [pushcli] of [spinlock.c], [seginit] and [switchuvm] of [vm.c], [tvinit] of
    [trap.c]

    Each CPU has a descriptor table and a task state segment in its entry of
    [cpus], and all CPUs share one table of interrupt gates.  The functions here
    work on these tables; [enter] is what the processor does with the tables
    when an interrupt arrives or a program executes [int].  The theorems show
    how the descriptors are read back, that every CPU finds its own entry, and
    that a user program enters the kernel only through the system call gate,
    always at the entry point of the vector and on the kernel stack of the
    running process. *)

From stdpp Require Import base numbers option list sets strings gmap fin_maps functions.
From Stdlib Require Import ZArith Lia.
From S2P Require Import Prelude State Locks Console Kalloc Proc Bio Tty Trap Devices.

Definition FL_IF : Z := 512.

Definition SEG_KCODE : Z := 1.
Definition SEG_KDATA : Z := 2.
Definition SEG_UCODE : Z := 3.
Definition SEG_UDATA : Z := 4.
Definition SEG_TSS : Z := 5.
Definition NSEGS : nat := 6.

Definition DPL_USER : Z := 3.
Definition STA_X : Z := 8.
Definition STA_W : Z := 2.
Definition STA_R : Z := 2.
Definition STS_T32A : Z := 9.
Definition STS_IG32 : Z := 14.
Definition STS_TG32 : Z := 15.

(** ** Descriptors *)

Record segdesc : Type := mkseg {
  lim_15_0 : Z;
  base_15_0 : Z;
  base_23_16 : Z;
  sd_type : Z;
  sd_s : Z;
  sd_dpl : Z;
  sd_p : Z;
  lim_19_16 : Z;
  sd_avl : Z;
  sd_rsv1 : Z;
  sd_db : Z;
  sd_g : Z;
  base_31_24 : Z
}.

(** Storing in a bit field of [w] bits. *)
Definition field (w z : Z) : Z := z mod 2 ^ w.

Definition SEG (type base lim dpl : Z) : segdesc :=
  mkseg (field 16 (Z.land (Z.shiftr lim 12) 65535)) (field 16 (Z.land (u32 base) 65535))
    (field 8 (Z.land (Z.shiftr (u32 base) 16) 255)) (field 4 type) 1 (field 2 dpl) 1
    (field 4 (Z.shiftr (u32 lim) 28)) 0 0 1 1 (field 8 (Z.shiftr (u32 base) 24)).

Definition SEG16 (type base lim dpl : Z) : segdesc :=
  mkseg (field 16 (Z.land lim 65535)) (field 16 (Z.land (u32 base) 65535))
    (field 8 (Z.land (Z.shiftr (u32 base) 16) 255)) (field 4 type) 1 (field 2 dpl) 1
    (field 4 (Z.shiftr (u32 lim) 16)) 0 0 1 0 (field 8 (Z.shiftr (u32 base) 24)).

Definition set_sd_s (v : Z) (d : segdesc) : segdesc :=
  mkseg d.(lim_15_0) d.(base_15_0) d.(base_23_16) d.(sd_type) (field 1 v) d.(sd_dpl) d.(sd_p) d.(lim_19_16)
    d.(sd_avl) d.(sd_rsv1) d.(sd_db) d.(sd_g) d.(base_31_24).

Record gatedesc : Type := mkgate {
  off_15_0 : Z;
  gd_cs : Z;
  gd_args : Z;
  gd_rsv1 : Z;
  gd_type : Z;
  gd_s : Z;
  gd_dpl : Z;
  gd_p : Z;
  off_31_16 : Z
}.

Definition SETGATE (istrap : bool) (sel off d : Z) : gatedesc :=
  mkgate (field 16 (Z.land (u32 off) 65535)) (field 16 sel) 0 0 (if istrap then STS_TG32 else STS_IG32) 0
    (field 2 d) 1 (field 16 (Z.shiftr (u32 off) 16)).

(** The two words of a descriptor: the fields from the lowest bit on. *)
Definition seg_words (d : segdesc) : Z * Z :=
  (d.(lim_15_0) + 2 ^ 16 * d.(base_15_0),
   d.(base_23_16) + 2 ^ 8 * d.(sd_type) + 2 ^ 12 * d.(sd_s) + 2 ^ 13 * d.(sd_dpl) + 2 ^ 15 * d.(sd_p) +
   2 ^ 16 * d.(lim_19_16) + 2 ^ 20 * d.(sd_avl) + 2 ^ 21 * d.(sd_rsv1) + 2 ^ 22 * d.(sd_db) + 2 ^ 23 * d.(sd_g) +
   2 ^ 24 * d.(base_31_24)).

Definition gate_words (g : gatedesc) : Z * Z :=
  (g.(off_15_0) + 2 ^ 16 * g.(gd_cs),
   g.(gd_args) + 2 ^ 5 * g.(gd_rsv1) + 2 ^ 8 * g.(gd_type) + 2 ^ 12 * g.(gd_s) + 2 ^ 13 * g.(gd_dpl) +
   2 ^ 15 * g.(gd_p) + 2 ^ 16 * g.(off_31_16)).

(** ** CPUs *)

(** [struct cpu] without the saved context of the scheduler; of the task state
    segment the fields the kernel writes. *)
Record cpu : Type := mkcpu {
  c_apicid : Z;
  c_esp0 : Z;
  c_ss0 : Z;
  c_iomb : Z;
  c_gdt : list segdesc;
  c_started : Z;
  c_ncli : Z;
  c_intena : Z;
  c_proc : option nat
}.
#[global] Instance cpu_inhabited : Inhabited cpu := populate (mkcpu 0 0 0 0 [] 0 0 0 None).

Definition set_c_ts (esp0 ss0 iomb : Z) (c : cpu) : cpu :=
  mkcpu c.(c_apicid) esp0 ss0 iomb c.(c_gdt) c.(c_started) c.(c_ncli) c.(c_intena) c.(c_proc).
Definition set_c_gdt (g : list segdesc) (c : cpu) : cpu :=
  mkcpu c.(c_apicid) c.(c_esp0) c.(c_ss0) c.(c_iomb) g c.(c_started) c.(c_ncli) c.(c_intena) c.(c_proc).
Definition set_c_started (v : Z) (c : cpu) : cpu :=
  mkcpu c.(c_apicid) c.(c_esp0) c.(c_ss0) c.(c_iomb) c.(c_gdt) v c.(c_ncli) c.(c_intena) c.(c_proc).
Definition set_c_ncli (v : Z) (c : cpu) : cpu :=
  mkcpu c.(c_apicid) c.(c_esp0) c.(c_ss0) c.(c_iomb) c.(c_gdt) c.(c_started) v c.(c_intena) c.(c_proc).
Definition set_c_intena (v : Z) (c : cpu) : cpu :=
  mkcpu c.(c_apicid) c.(c_esp0) c.(c_ss0) c.(c_iomb) c.(c_gdt) c.(c_started) c.(c_ncli) v c.(c_proc).

Definition TS_SIZE : Z := 104.
Definition CPU_SIZE : Z := 176.

(** The kernel with its devices, [cpus] and [ncpu], the shared table [idt], and
    the registers of the executing CPU: flags, the three halfwords loaded by
    [lgdt] and [lidt], and the task register. *)
Record cstate (D : Type) : Type := mkcst {
  x_dev : dstate D;
  x_cpus : list cpu;
  x_ncpu : nat;
  x_idt : list gatedesc;
  x_eflags : Z;
  x_gdtr : Z * Z * Z;
  x_idtr : Z * Z * Z;
  x_tr : Z
}.
Arguments mkcst {D}.
Arguments x_dev {D}.
Arguments x_cpus {D}.
Arguments x_ncpu {D}.
Arguments x_idt {D}.
Arguments x_eflags {D}.
Arguments x_gdtr {D}.
Arguments x_idtr {D}.
Arguments x_tr {D}.

Section cpus.
Context {D : Type} `{!Machine D}.

(** The addresses of [cpus] and [idt], and the entry points [vectors]. *)
Variables (cpus_at idt_at : Z) (vectors : list Z).

Implicit Types s : cstate D.

Definition set_xdev (v : dstate D) (s : cstate D) : cstate D :=
  mkcst v s.(x_cpus) s.(x_ncpu) s.(x_idt) s.(x_eflags) s.(x_gdtr) s.(x_idtr) s.(x_tr).
Definition set_cpus_list (v : list cpu) (s : cstate D) : cstate D :=
  mkcst s.(x_dev) v s.(x_ncpu) s.(x_idt) s.(x_eflags) s.(x_gdtr) s.(x_idtr) s.(x_tr).
Definition set_idt (v : list gatedesc) (s : cstate D) : cstate D :=
  mkcst s.(x_dev) s.(x_cpus) s.(x_ncpu) v s.(x_eflags) s.(x_gdtr) s.(x_idtr) s.(x_tr).
Definition set_eflags (v : Z) (s : cstate D) : cstate D :=
  mkcst s.(x_dev) s.(x_cpus) s.(x_ncpu) s.(x_idt) v s.(x_gdtr) s.(x_idtr) s.(x_tr).
Definition set_gdtr (v : Z * Z * Z) (s : cstate D) : cstate D :=
  mkcst s.(x_dev) s.(x_cpus) s.(x_ncpu) s.(x_idt) s.(x_eflags) v s.(x_idtr) s.(x_tr).
Definition set_idtr (v : Z * Z * Z) (s : cstate D) : cstate D :=
  mkcst s.(x_dev) s.(x_cpus) s.(x_ncpu) s.(x_idt) s.(x_eflags) s.(x_gdtr) v s.(x_tr).
Definition set_tr (v : Z) (s : cstate D) : cstate D :=
  mkcst s.(x_dev) s.(x_cpus) s.(x_ncpu) s.(x_idt) s.(x_eflags) s.(x_gdtr) s.(x_idtr) v.

Definition C : Type → Type := prog (cstate D) ujump.

(** Functions of the drivers and of the rest of the kernel. *)
Fixpoint clift_comp {A} (x : cstate D) (c : comp (dstate D) ujump A) : comp (cstate D) ujump A :=
  match c with
  | Ret a s => Ret a (set_xdev s x)
  | Panic msg s => Panic msg (set_xdev s x)
  | Jump j s => Jump j (set_xdev s x)
  | Switch s k => Switch (set_xdev s x) (fun y => clift_comp y (k y.(x_dev)))
  | Stuck s => Stuck (set_xdev s x)
  end.
Definition clift {A} (m : DV D A) : C A := fun x => clift_comp x (m x.(x_dev)).
Definition klift {A} (m : M A) : C A := clift (dlift m).

Definition get_cpu (i : nat) (s : cstate D) : cpu := s.(x_cpus) !!! i.
Definition upd_cpu (i : nat) (f : cpu → cpu) (s : cstate D) : cstate D :=
  set_cpus_list (alter f i s.(x_cpus)) s.

Definition readeflags : C Z := get x_eflags.
Definition cli : C unit := modify (fun s => set_eflags (Z.land s.(x_eflags) (not32 FL_IF)) s).
Definition sti : C unit := modify (fun s => set_eflags (Z.lor s.(x_eflags) FL_IF) s).

(** The operand of [lgdt] and [lidt]: limit, low and high half of the address. *)
Definition table_operand (p size : Z) : Z * Z * Z :=
  ((size - 1) mod 2 ^ 16, u32 p mod 2 ^ 16, Z.shiftr (u32 p) 16).
Definition lgdt (p size : Z) : C unit := modify (set_gdtr (table_operand p size)).
Definition lidt (p size : Z) : C unit := modify (set_idtr (table_operand p size)).
Definition ltr (sel : Z) : C unit := modify (set_tr sel).

(** The CPU this code runs on, as an index of [cpus]. *)
Definition mycpu : C nat :=
  f <- readeflags;;
  if truthy (Z.land f FL_IF) then panic ("mycpu called with interrupts enabled" +:+ nl) else
  apicid <- clift lapicid;;
  n <- get x_ncpu;;
  r <- scanM (fun i =>
    c <- get (get_cpu i);;
    ret (if c.(c_apicid) =? apicid then Some i else None)) (seq 0 n);;
  match r with
  | Some i => ret i
  | None => panic ("unknown apicid" +:+ nl)
  end.

Definition cpuid : C nat := mycpu.

Definition pushcli : C unit :=
  eflags <- readeflags;;
  cli;;
  i <- mycpu;;
  c <- get (get_cpu i);;
  (if c.(c_ncli) =? 0 then
     i <- mycpu;;
     modify (upd_cpu i (set_c_intena (Z.land eflags FL_IF)))
   else ret ());;
  i <- mycpu;;
  modify (upd_cpu i (λ c, set_c_ncli (c.(c_ncli) + 1) c)).

Definition popcli : C unit :=
  f <- readeflags;;
  if truthy (Z.land f FL_IF) then panic "popcli - interruptible" else
  i <- mycpu;;
  modify (upd_cpu i (λ c, set_c_ncli (c.(c_ncli) - 1) c));;
  c <- get (get_cpu i);;
  if c.(c_ncli) <? 0 then panic "popcli" else
  i <- mycpu;;
  c <- get (get_cpu i);;
  if c.(c_ncli) =? 0 then
    i <- mycpu;;
    c <- get (get_cpu i);;
    when (truthy c.(c_intena)) sti
  else ret ().

Definition myproc : C (option nat) :=
  pushcli;;
  i <- mycpu;;
  c <- get (get_cpu i);;
  popcli;;
  ret c.(c_proc).

(** [&cpus[i].gdt] and [&cpus[i].ts] *)
Definition gdt_addr (i : nat) : Z := u32 (cpus_at + CPU_SIZE * Z.of_nat i + 112).
Definition ts_addr (i : nat) : Z := u32 (cpus_at + CPU_SIZE * Z.of_nat i + 8).

Definition seginit : C unit :=
  i <- cpuid;;
  let put n d := modify (upd_cpu i (λ c, set_c_gdt (<[Z.to_nat n := d]> c.(c_gdt)) c)) in
  put SEG_KCODE (SEG (Z.lor STA_X STA_R) 0 4294967295 0);;
  put SEG_KDATA (SEG STA_W 0 4294967295 0);;
  put SEG_UCODE (SEG (Z.lor STA_X STA_R) 0 4294967295 DPL_USER);;
  put SEG_UDATA (SEG STA_W 0 4294967295 DPL_USER);;
  lgdt (gdt_addr i) (8 * Z.of_nat NSEGS).

(** The initialisation of the lock [tickslock] has no effect in the model. *)
Definition tvinit : C unit :=
  foldM (fun _ i =>
    modify (λ s, set_idt (<[i := SETGATE false (Z.shiftl SEG_KCODE 3) (default 0 (vectors !! i)) 0]> s.(x_idt)) s))
    (seq 0 256) ();;
  modify (λ s, set_idt (<[Z.to_nat T_SYSCALL :=
    SETGATE true (Z.shiftl SEG_KCODE 3) (default 0 (vectors !! Z.to_nat T_SYSCALL)) DPL_USER]> s.(x_idt)) s).

Definition idtinit : C unit := lidt idt_at (8 * 256).

(** The process: its kernel stack and its page table. *)
Definition switchuvm (p : option (Z * Z)) : C unit :=
  match p with
  | None => panic "switchuvm: no process"
  | Some (kstack, pgdir) =>
    if kstack =? 0 then panic "switchuvm: no kstack" else
    if pgdir =? 0 then panic "switchuvm: no pgdir" else
    pushcli;;
    i <- mycpu;;
    j <- mycpu;;
    modify (upd_cpu i (λ c, set_c_gdt (<[Z.to_nat SEG_TSS := SEG16 STS_T32A (ts_addr j) (TS_SIZE - 1) 0]> c.(c_gdt)) c));;
    i <- mycpu;;
    modify (upd_cpu i (λ c, set_c_gdt (alter (set_sd_s 0) (Z.to_nat SEG_TSS) c.(c_gdt)) c));;
    i <- mycpu;;
    modify (upd_cpu i (λ c, set_c_ts c.(c_esp0) (Z.shiftl SEG_KDATA 3) c.(c_iomb) c));;
    i <- mycpu;;
    modify (upd_cpu i (λ c, set_c_ts (u32 (kstack + KSTACKSIZE)) c.(c_ss0) c.(c_iomb) c));;
    i <- mycpu;;
    modify (upd_cpu i (λ c, set_c_ts c.(c_esp0) c.(c_ss0) 65535 c));;
    ltr (Z.shiftl SEG_TSS 3);;
    klift (modify (set_cr3 (V2P pgdir)));;
    popcli
  end.

End cpus.

(** ** What the processor does with the tables *)

(** The bits of a word from [lo] on. *)
Definition bits (lo n z : Z) : Z := z / 2 ^ lo mod 2 ^ n.

Record segview : Type := mkview {
  v_base : Z;
  v_limit : Z;
  v_type : Z;
  v_s : Z;
  v_dpl : Z;
  v_p : Z
}.

Definition seg_view (w : Z * Z) : segview :=
  let lim := bits 0 16 w.1 + 2 ^ 16 * bits 16 4 w.2 in
  mkview (bits 16 16 w.1 + 2 ^ 16 * bits 0 8 w.2 + 2 ^ 24 * bits 24 8 w.2)
    (if bits 23 1 w.2 =? 1 then lim * 4096 + 4095 else lim)
    (bits 8 4 w.2) (bits 12 1 w.2) (bits 13 2 w.2) (bits 15 1 w.2).

Record gateview : Type := mkgview {
  gv_off : Z;
  gv_sel : Z;
  gv_type : Z;
  gv_dpl : Z;
  gv_p : Z
}.

Definition gate_view (w : Z * Z) : gateview :=
  mkgview (bits 0 16 w.1 + 2 ^ 16 * bits 16 16 w.2) (bits 16 16 w.1) (bits 8 4 w.2) (bits 13 2 w.2) (bits 15 1 w.2).

Definition table_base (r : Z * Z * Z) : Z := r.1.2 + 2 ^ 16 * r.2.

Definition is_code (v : segview) : bool := (v.(v_p) =? 1) && (v.(v_s) =? 1) && Z.testbit v.(v_type) 3.
Definition is_stack (v : segview) : bool :=
  (v.(v_p) =? 1) && (v.(v_s) =? 1) && negb (Z.testbit v.(v_type) 3) && Z.testbit v.(v_type) 1.

(** Entering the kernel: instruction pointer, code segment, the new privilege
    level, the new stack when the level changes, and whether interrupts are off. *)
Record entry : Type := mkentry {
  e_eip : Z;
  e_cs : Z;
  e_cpl : Z;
  e_stack : option (Z * Z);
  e_if_off : bool
}.

Section processor.
Context {D : Type}.
Variables (cpus_at idt_at : Z).
Implicit Types s : cstate D.

(** The CPU entry whose descriptor table the register designates. *)
Definition gdt_owner s : option cpu :=
  '(_, j) ← list_find (λ j, gdt_addr cpus_at j = table_base s.(x_gdtr)) (seq 0 (length s.(x_cpus)));
  s.(x_cpus) !! j.

Definition descriptor s (sel : Z) : option segview :=
  c ← gdt_owner s;
  if (sel / 8 =? 0) || (s.(x_gdtr).1.1 <? sel / 8 * 8 + 7) then None else
  d ← c.(c_gdt) !! Z.to_nat (sel / 8);
  Some (seg_view (seg_words d)).

Definition gate s (n : nat) : option gateview :=
  if negb (table_base s.(x_idtr) =? u32 idt_at) || (s.(x_idtr).1.1 <? 8 * Z.of_nat n + 7) then None else
  g ← s.(x_idt) !! n;
  Some (gate_view (gate_words g)).

(** The stack of the task state segment. *)
Definition task_stack s : option (Z * Z) :=
  t ← descriptor s s.(x_tr);
  if negb ((t.(v_p) =? 1) && (t.(v_s) =? 0) && (t.(v_type) =? STS_T32A)) || (t.(v_limit) <? TS_SIZE - 1) then None else
  '(_, j) ← list_find (λ j, ts_addr cpus_at j = t.(v_base)) (seq 0 (length s.(x_cpus)));
  c ← s.(x_cpus) !! j;
  Some (c.(c_ss0), c.(c_esp0)).

(** Interrupt [n] at privilege level [cpl], by the instruction [int] when
    [soft]; nothing when the processor raises a fault instead. *)
Definition enter (soft : bool) (n : nat) (cpl : Z) s : option entry :=
  g ← gate s n;
  if negb ((g.(gv_p) =? 1) && ((g.(gv_type) =? STS_IG32) || (g.(gv_type) =? STS_TG32))) then None else
  if soft && (g.(gv_dpl) <? cpl) then None else
  cd ← descriptor s g.(gv_sel);
  if negb (is_code cd && (cd.(v_dpl) <=? cpl)) then None else
  let off := g.(gv_type) =? STS_IG32 in
  if cd.(v_dpl) <? cpl then
    '(ss, esp) ← task_stack s;
    sd ← descriptor s ss;
    if negb (is_stack sd && (sd.(v_dpl) =? cd.(v_dpl))) then None else
    Some (mkentry g.(gv_off) g.(gv_sel) cd.(v_dpl) (Some (ss, esp)) off)
  else Some (mkentry g.(gv_off) g.(gv_sel) cd.(v_dpl) None off).

End processor.

(** ** Descriptors read back *)

Lemma field_small w z : 0 <= z < 2 ^ w → field w z = z.
Proof. apply Z.mod_small. Qed.

Lemma low_bits w z : 0 <= w → Z.land z (2 ^ w - 1) = z mod 2 ^ w.
Proof. intros Hw. rewrite <- Z.land_ones, Z.ones_equiv by done. by rewrite Z.sub_1_r. Qed.

(** The low twelve bits of a limit in pages are ones. *)
Lemma lor_page z : 0 <= z → Z.lor z 4095 = z / 4096 * 4096 + 4095.
Proof.
  intros Hz. rewrite (Z.div_mod z 4096) at 1 by lia. rewrite Z.mul_comm.
  assert (∀ a b, 0 <= b < 4096 → a * 4096 + b = Z.lor (Z.shiftl a 12) b) as E.
  { intros a b Hb. rewrite Z.shiftl_mul_pow2 by lia. change (2 ^ 12) with 4096.
    rewrite <- Z.add_lor_land. assert (Z.land (a * 4096) b = 0) as ->; [|lia].
    apply Z.bits_inj'. intros i Hi. rewrite Z.land_spec, Z.bits_0. destruct (Z.ltb_spec i 12).
    - change 4096 with (2 ^ 12). by rewrite Z.mul_pow2_bits_low.
    - rewrite (Z.bits_above_log2 b i), andb_false_r; [done|lia|]. destruct (Z.eq_dec b 0) as [->|]; [cbn; lia|].
      apply Z.log2_lt_pow2; [lia|]. assert (2 ^ 12 <= 2 ^ i) by (apply Z.pow_le_mono_r; lia). lia. }
  rewrite !E by (try apply Z.mod_pos_bound; lia). rewrite <- Z.lor_assoc. f_equal.
  change 4095 with (Z.ones 12). pose proof (Z.mod_pos_bound z 4096). apply Z.lor_ones_low; [lia|].
  destruct (Z.eq_dec (z mod 4096) 0) as [->|]; [cbn; lia|]. apply Z.log2_lt_pow2; [lia|]. change (2 ^ 12) with 4096. lia.
Qed.

(** Linear arithmetic with division by constants. *)
Ltac dlia := Z.to_euclidean_division_equations; lia.

Ltac pow_consts :=
  change (2 ^ 28) with 268435456 in *; change (2 ^ 24) with 16777216 in *; change (2 ^ 23) with 8388608 in *;
  change (2 ^ 22) with 4194304 in *; change (2 ^ 21) with 2097152 in *; change (2 ^ 20) with 1048576 in *;
  change (2 ^ 16) with 65536 in *; change (2 ^ 15) with 32768 in *; change (2 ^ 13) with 8192 in *;
  change (2 ^ 12) with 4096 in *; change (2 ^ 8) with 256 in *; change (2 ^ 5) with 32 in *; change (2 ^ 4) with 16 in *;
  change (2 ^ 2) with 4 in *; change (2 ^ 1) with 2 in *; change (2 ^ 0) with 1 in *.

Lemma bits_is lo n x a v r : 0 <= lo → 0 <= n → x = a + 2 ^ lo * (v + 2 ^ n * r) → 0 <= a < 2 ^ lo → 0 <= v < 2 ^ n → bits lo n x = v.
Proof.
  intros Hlo Hn -> Ha Hv. unfold bits. rewrite Z.mul_comm, Z.div_add by lia. rewrite (Z.div_small a) by done.
  rewrite Z.add_0_l, Z.mul_comm, Z.mod_add by lia. by apply Z.mod_small.
Qed.

Lemma view_words l b1 b2 t sy d p l2 db g b3 : 0 <= l < 65536 → 0 <= b1 < 65536 → 0 <= b2 < 256 → 0 <= t < 16 → 0 <= sy < 2 →
  0 <= d < 4 → 0 <= p < 2 → 0 <= l2 < 16 → 0 <= db < 2 → 0 <= g < 2 → 0 <= b3 < 256 →
  seg_view (seg_words (mkseg l b1 b2 t sy d p l2 0 0 db g b3)) =
    mkview (b1 + 65536 * b2 + 16777216 * b3) (if g =? 1 then (l + 65536 * l2) * 4096 + 4095 else l + 65536 * l2) t sy d p.
Proof.
  intros. unfold seg_words, seg_view. cbn [lim_15_0 base_15_0 base_23_16 sd_type sd_s sd_dpl sd_p lim_19_16 sd_avl sd_rsv1 sd_db sd_g base_31_24 fst snd].
  set (r7 := g + 2 * b3). set (r6 := db + 2 * r7). set (r5 := l2 + 16 * (4 * r6)). set (r4 := p + 2 * r5).
  set (r3 := d + 4 * r4). set (r2 := sy + 2 * r3). set (r1 := t + 16 * r2).
  rewrite (bits_is 0 16 (l + _) 0 l b1), (bits_is 16 16 (l + _) l b1 0) by (pow_consts; lia).
  pow_consts. match goal with |- context [bits 0 8 ?x] => assert (x = b2 + 256 * r1) as -> by (unfold r1, r2, r3, r4, r5, r6, r7; ring) end.
  assert (0 <= b2 + 256 * t < 4096) by lia. set (a2 := b2 + 256 * t) in *. assert (0 <= a2 + 4096 * sy < 8192) by lia. set (a3 := a2 + 4096 * sy) in *.
  assert (0 <= a3 + 8192 * d < 32768) by lia. set (a4 := a3 + 8192 * d) in *. assert (0 <= a4 + 32768 * p < 65536) by lia. set (a5 := a4 + 32768 * p) in *.
  assert (0 <= a5 + 65536 * l2 < 1048576) by lia. set (a6 := a5 + 65536 * l2) in *. assert (0 <= a6 + 4194304 * db < 8388608) by lia. set (a7 := a6 + 4194304 * db) in *.
  assert (0 <= a7 + 8388608 * g < 16777216) by lia. set (a8 := a7 + 8388608 * g) in *.
  rewrite (bits_is 0 8 _ 0 b2 r1), (bits_is 8 4 _ b2 t r2), (bits_is 12 1 _ a2 sy r3), (bits_is 13 2 _ a3 d r4), (bits_is 15 1 _ a4 p r5),
    (bits_is 16 4 _ a5 l2 (4 * r6)), (bits_is 23 1 _ a7 g b3), (bits_is 24 8 _ a8 b3 0);
    pow_consts; first reflexivity; try lia; unfold a8, a7, a6, a5, a4, a3, a2, r1, r2, r3, r4, r5, r6, r7; ring.
Qed.

Lemma split_base z : 0 <= z < 4294967296 →
  z mod 65536 + 65536 * ((z / 65536) mod 256) + 16777216 * ((z / 16777216) mod 256) = z.
Proof. intros Hz. assert (z / 16777216 = z / 65536 / 256) as -> by (by rewrite Z.div_div by lia). dlia. Qed.

Lemma split_limit z : 0 <= z < 4294967296 → (z / 4096) mod 65536 + 65536 * ((z / 268435456) mod 16) = z / 4096.
Proof. intros Hz. assert (z / 268435456 = z / 4096 / 65536) as -> by (by rewrite Z.div_div by lia). dlia. Qed.

Lemma SEG_view type base lim dpl : 0 <= type < 16 → word base → word lim → 0 <= dpl < 4 →
  seg_view (seg_words (SEG type base lim dpl)) = mkview base (Z.lor lim 4095) type 1 dpl 1.
Proof.
  intros Ht Hb Hl Hd. unfold SEG. rewrite !u32_id by done. change 65535 with (2 ^ 16 - 1). change 255 with (2 ^ 8 - 1).
  rewrite !low_bits, !Z.shiftr_div_pow2 by lia. unfold field, word, two32 in *. rewrite lor_page by lia. pow_consts.
  rewrite view_words by (first [apply Z.mod_pos_bound; lia|lia]). cbn [Z.eqb Pos.eqb]. rewrite !Zmod_mod, split_base, split_limit, !Z.mod_small by lia. done.
Qed.

Lemma SEG16_view type base lim dpl : 0 <= type < 16 → word base → 0 <= lim < 1048576 → 0 <= dpl < 4 →
  seg_view (seg_words (SEG16 type base lim dpl)) = mkview base lim type 1 dpl 1.
Proof.
  intros Ht Hb Hl Hd. unfold SEG16. rewrite (u32_id lim) by (unfold word, two32; lia). rewrite !u32_id by done.
  change 65535 with (2 ^ 16 - 1). change 255 with (2 ^ 8 - 1).
  rewrite !low_bits, !Z.shiftr_div_pow2 by lia. unfold field, word, two32 in *. pow_consts.
  rewrite view_words by (first [apply Z.mod_pos_bound; lia|lia]). cbn [Z.eqb Pos.eqb]. rewrite !Zmod_mod, split_base by lia.
  f_equal; dlia.
Qed.

Lemma SETGATE_view istrap sel off dpl : 0 <= sel < 65536 → word off → 0 <= dpl < 4 →
  gate_view (gate_words (SETGATE istrap sel off dpl)) = mkgview off sel (if istrap then STS_TG32 else STS_IG32) dpl 1.
Proof.
  intros Hs Ho Hd. unfold SETGATE. rewrite !u32_id by done. change 65535 with (2 ^ 16 - 1).
  rewrite !low_bits, !Z.shiftr_div_pow2 by lia. unfold field, word, two32, gate_words, gate_view, bits in *.
  cbn [off_15_0 gd_cs gd_args gd_rsv1 gd_type gd_s gd_dpl gd_p off_31_16 fst snd]. pow_consts.
  destruct istrap; unfold STS_TG32, STS_IG32; f_equal; dlia.
Qed.

(** ** Finding the own CPU *)

Section correct.
Context {D : Type} `{!Machine D} `{!LapicLaws D}.
Variables (cpus_at idt_at : Z) (vectors : list Z).
Implicit Types (s : cstate D) (d : D).

(** The code runs on CPU [i]: its interrupt controller has the identifier of
    that entry, and no other entry has it. *)
Record on_cpu (i : nat) s : Prop := {
  oc_lapic : s.(x_dev).(d_lapic) = la_base;
  oc_lt : (i < s.(x_ncpu))%nat;
  oc_len : (s.(x_ncpu) <= length s.(x_cpus))%nat;
  oc_id : (c_apicid <$> s.(x_cpus)) !! i = Some (Z.shiftr (la_reg s.(x_dev).(d_dev) ID) 24);
  oc_nodup : NoDup (take s.(x_ncpu) (c_apicid <$> s.(x_cpus)))
}.

(** Another state of the devices with the same registers. *)
Definition at_dev d s : cstate D := set_xdev (set_dev d s.(x_dev)) s.

Lemma on_cpu_dev i d s : on_cpu i s → (∀ r, la_reg d r = la_reg s.(x_dev).(d_dev) r) → on_cpu i (at_dev d s).
Proof. intros [] Hr. split; try done. cbn. by rewrite Hr. Qed.

Lemma on_cpu_upd i f s : (∀ c, (f c).(c_apicid) = c.(c_apicid)) → on_cpu i s → on_cpu i (upd_cpu i f s).
Proof.
  intros Hf [Hl Hlt Hlen Hid Hnd]. assert (c_apicid <$> alter f i s.(x_cpus) = c_apicid <$> s.(x_cpus)) as E.
  { apply list_eq. intros j. rewrite !list_lookup_fmap. destruct (decide (j = i)) as [->|Hj].
    - rewrite list_lookup_alter, decide_True by done. destruct (s.(x_cpus) !! i); cbn; [by rewrite Hf|done].
    - by rewrite list_lookup_alter_ne. }
  split; cbn [upd_cpu set_cpus_list x_dev x_cpus x_ncpu]; rewrite ?E, ?length_alter; done.
Qed.

Lemma on_cpu_flags i v s : on_cpu i s → on_cpu i (set_eflags v s).
Proof. intros []. by split. Qed.

Lemma find_id (l : list cpu) n i c : l !! i = Some c → (i < n)%nat → NoDup (take n (c_apicid <$> l)) →
  list_find (λ x, (x.(c_apicid) =? c.(c_apicid)) = true) (take n l) = Some (i, c).
Proof.
  intros Hi Hlt Hnd. apply list_find_Some. split; [by rewrite lookup_take_lt|]. split; [apply Z.eqb_refl|].
  intros j y Hj Hlt' E. apply Z.eqb_eq in E. apply lookup_take_Some in Hj as [Hj _].
  assert (j = i); [|lia]. eapply NoDup_lookup; [exact Hnd| |]; rewrite lookup_take_lt, list_lookup_fmap by lia.
  - by rewrite Hj.
  - rewrite Hi. cbn. by rewrite E.
Qed.

Lemma mycpu_run i s : on_cpu i s → Z.land s.(x_eflags) FL_IF = 0 →
  ∃ d, mycpu s = Ret i (at_dev d s) ∧ ∀ r, la_reg d r = la_reg s.(x_dev).(d_dev) r.
Proof.
  intros Ho Hf. destruct Ho as [Hl Hlt Hlen Hid Hnd]. unfold mycpu, readeflags. rewrite bind_get, Hf. cbn [truthy Z.eqb negb].
  set (d := (mem_in (la_base + 4 * ID) s.(x_dev).(d_dev)).2).
  assert (clift lapicid s = Ret (Z.shiftr (la_reg s.(x_dev).(d_dev) ID) 24) (at_dev d s)) as E.
  { unfold clift, lapicid. rewrite bind_get, Hl. pose proof law_la_base. assert (truthy la_base = true) as ->.
    { unfold truthy. by destruct (Z.eqb_spec la_base 0). }
    cbn [negb]. unfold rd, bind. cbn [cbind clift_comp ret]. by rewrite law_la_id. }
  rewrite (bind_returns _ _ _ _ _ E), bind_get. exists d. split; [|intros r; apply law_la_read].
  set (id := Z.shiftr _ 24) in *. rewrite list_lookup_fmap in Hid. destruct (s.(x_cpus) !! i) as [c|] eqn:Ec; [|done]. cbn in Hid. injection Hid as Hid.
  assert (length (take s.(x_ncpu) s.(x_cpus)) = s.(x_ncpu)) as Hn by (rewrite length_take; lia).
  assert (∀ j x, take s.(x_ncpu) s.(x_cpus) !! j = Some x → get_cpu j (at_dev d s) = x) as Hg.
  { intros j x Hj. apply lookup_take_Some in Hj as [Hj _]. by apply list_lookup_total_correct. }
  cbn [at_dev set_xdev x_ncpu]. rewrite <- Hn. erewrite bind_returns.
  2:{ rewrite (scanM_seq (take s.(x_ncpu) s.(x_cpus)) (λ c, c.(c_apicid) =? id)).
      - rewrite <- Hid, (find_id _ _ i c) by done. cbn [fmap option_fmap option_map fst]. rewrite bind_get, (Hg i c) by (by rewrite lookup_take_lt).
        rewrite Z.eqb_refl. reflexivity.
      - intros j x Hj Hx. by rewrite bind_get, (Hg j x Hj), Hx.
      - intros j x Hj Hx. rewrite bind_get, (Hg j x Hj), Hx. by eexists _, _. }
  reflexivity.
Qed.

Lemma cli_clear f : Z.land (Z.land f (not32 FL_IF)) FL_IF = 0.
Proof. rewrite <- Z.land_assoc. change (Z.land (not32 FL_IF) FL_IF) with 0. apply Z.land_0_r. Qed.

(** A function that returns [a] and the state [s'], up to readings of the
    interrupt controller. *)
Definition dev_run {A} (m : C A) s (a : A) s' : Prop :=
  ∃ d, m s = Ret a (at_dev d s') ∧ ∀ r, la_reg d r = la_reg s'.(x_dev).(d_dev) r.

Definition same_regs s s' : Prop := ∀ r, la_reg s.(x_dev).(d_dev) r = la_reg s'.(x_dev).(d_dev) r.

Lemma dev_run_ret {A} (a : A) s s' : same_regs s s' → s = at_dev s.(x_dev).(d_dev) s' → dev_run (ret a) s a s'.
Proof. intros Hr E. exists s.(x_dev).(d_dev). split; [|done]. unfold ret. f_equal. exact E. Qed.

Lemma dev_run_mycpu {A} (f : nat → C A) i s a s' : on_cpu i s → Z.land s.(x_eflags) FL_IF = 0 →
  (∀ d, on_cpu i (at_dev d s) → same_regs (at_dev d s) s → dev_run (f i) (at_dev d s) a s') → dev_run (bind mycpu f) s a s'.
Proof.
  intros Ho Hf H. destruct (mycpu_run i s Ho Hf) as (d & E & R).
  destruct (H d) as (d' & E' & R'); [by apply on_cpu_dev|exact R|].
  exists d'. split; [|done]. by rewrite (bind_returns _ _ _ _ _ E).
Qed.

Lemma dev_run_bind {A B} (m : C A) (f : A → C B) s a b s1 s' : dev_run m s a s1 →
  (∀ d, same_regs (at_dev d s1) s1 → dev_run (f a) (at_dev d s1) b s') → dev_run (bind m f) s b s'.
Proof.
  intros (d & E & R) H. destruct (H d) as (d' & E' & R'); [exact R|]. exists d'. split; [|done]. by rewrite (bind_returns _ _ _ _ _ E).
Qed.

Lemma dev_run_get {A B} (f : B → C A) (g : cstate D → B) s a s' : dev_run (f (g s)) s a s' → dev_run (bind (get g) f) s a s'.
Proof. done. Qed.

Lemma dev_run_modify {A} (f : unit → C A) g s a s' : dev_run (f ()) (g s) a s' → dev_run (bind (modify g) f) s a s'.
Proof. done. Qed.

Lemma dev_run_last g s s' : same_regs (g s) s' → g s = at_dev (g s).(x_dev).(d_dev) s' → dev_run (modify g) s () s'.
Proof. intros Hr E. exists (g s).(x_dev).(d_dev). split; [|done]. unfold modify. f_equal. exact E. Qed.

Lemma upd_cpu_twice i f g s : upd_cpu i g (upd_cpu i f s) = upd_cpu i (g ∘ f) s.
Proof. unfold upd_cpu. cbn [set_cpus_list x_cpus]. by rewrite list_alter_alter_eq. Qed.

Lemma upd_cpu_ext i f g s : (∀ c, s.(x_cpus) !! i = Some c → f c = g c) → upd_cpu i f s = upd_cpu i g s.
Proof. intros H. unfold upd_cpu. f_equal. by apply list_alter_ext. Qed.

Lemma upd_cpu_at i f d s : upd_cpu i f (at_dev d s) = at_dev d (upd_cpu i f s).
Proof. done. Qed.

Lemma at_dev_at d d' s : at_dev d (at_dev d' s) = at_dev d s.
Proof. done. Qed.

Lemma get_cpu_lookup i s c : s.(x_cpus) !! i = Some c → get_cpu i s = c.
Proof. apply list_lookup_total_correct. Qed.

Lemma on_cpu_lookup i s : on_cpu i s → s.(x_cpus) !! i = Some (get_cpu i s).
Proof. intros []. apply list_lookup_lookup_total_lt. lia. Qed.

#[local] Hint Resolve on_cpu_dev on_cpu_upd on_cpu_flags cli_clear : core.

Ltac dev_mycpu i d Ho R :=
  cbn beta; eapply (dev_run_mycpu _ i);
  [solve [auto 20] | solve [cbn [at_dev upd_cpu set_cpus_list set_xdev set_eflags x_eflags]; auto] | intros d Ho R].

(** The state after [pushcli]. *)
Definition pushed (i : nat) s : cstate D :=
  upd_cpu i (λ c, set_c_ncli (c.(c_ncli) + 1) (if c.(c_ncli) =? 0 then set_c_intena (Z.land s.(x_eflags) FL_IF) c else c))
    (set_eflags (Z.land s.(x_eflags) (not32 FL_IF)) s).

Lemma pushcli_cpu_run i s : on_cpu i s → dev_run pushcli s () (pushed i s).
Proof.
  intros Ho. unfold pushcli, readeflags, cli. apply dev_run_get, dev_run_modify.
  dev_mycpu i d1 Ho1 R1. apply dev_run_get.
  set (s1 := at_dev d1 _) in *. set (g := set_c_intena (Z.land s.(x_eflags) FL_IF)).
  assert (get_cpu i s1 = get_cpu i s) as E1 by done. assert (Z.land s1.(x_eflags) FL_IF = 0) as Hf1 by apply cli_clear.
  eapply (dev_run_bind _ _ _ () _ (if c_ncli (get_cpu i s) =? 0 then upd_cpu i g s1 else s1)).
  { rewrite E1. destruct (_ =? 0); [|by apply dev_run_ret]. dev_mycpu i d2 Ho2 R2. by apply dev_run_last. }
  intros d2 R2. eapply (dev_run_mycpu _ i); [|by destruct (_ =? 0); cbn; auto|].
  { destruct (_ =? 0); apply on_cpu_dev; auto. }
  intros d3 Ho3 R3. apply dev_run_last.
  - intros r. etrans; [apply R3|]. etrans; [apply R2|]. destruct (_ =? 0); apply R1.
  - set (h := λ c, set_c_ncli (c.(c_ncli) + 1) c). set (s0 := set_eflags (Z.land s.(x_eflags) (not32 FL_IF)) s).
    trans (at_dev d3 (upd_cpu i h (if c_ncli (get_cpu i s) =? 0 then upd_cpu i g s0 else s0))); [by destruct (_ =? 0)|].
    trans (at_dev d3 (pushed i s)); [|by destruct (_ =? 0)]. f_equal. unfold pushed. fold s0.
    destruct (c_ncli (get_cpu i s) =? 0) eqn:En; rewrite ?upd_cpu_twice; apply upd_cpu_ext; intros c Hc;
      rewrite (get_cpu_lookup i s c Hc) in En; by rewrite En.
Qed.

(** The state after [popcli]. *)
Definition popped (i : nat) s : cstate D :=
  let c := get_cpu i s in
  let s1 := upd_cpu i (λ c, set_c_ncli (c.(c_ncli) - 1) c) s in
  if (c.(c_ncli) - 1 =? 0) && truthy c.(c_intena) then set_eflags (Z.lor s.(x_eflags) FL_IF) s1 else s1.

Lemma popcli_cpu_run i s : on_cpu i s → Z.land s.(x_eflags) FL_IF = 0 → 1 <= (get_cpu i s).(c_ncli) →
  dev_run popcli s () (popped i s).
Proof.
  intros Ho Hf Hn. unfold popcli, readeflags. apply dev_run_get. rewrite Hf. cbn [truthy Z.eqb negb].
  dev_mycpu i d1 Ho1 R1. apply dev_run_modify, dev_run_get. set (g := λ c, set_c_ncli (c.(c_ncli) - 1) c).
  assert (∀ s', s'.(x_cpus) = s.(x_cpus) → get_cpu i (upd_cpu i g s') = g (get_cpu i s)) as Eg.
  { intros s' E'. apply get_cpu_lookup. cbn [upd_cpu set_cpus_list x_cpus]. rewrite list_lookup_alter, decide_True, E' by done.
    by rewrite (on_cpu_lookup i s Ho). }
  rewrite Eg by done. cbn [g set_c_ncli c_ncli]. destruct (Z.ltb_spec (c_ncli (get_cpu i s) - 1) 0); [lia|].
  dev_mycpu i d2 Ho2 R2. apply dev_run_get. change (at_dev d2 (upd_cpu i g (at_dev d1 s))) with (upd_cpu i g (at_dev d2 s)) in *.
  assert (same_regs (at_dev d2 s) s) as R by (intros r; etrans; [apply R2|apply R1]).
  rewrite Eg by done. cbn [set_c_ncli c_ncli]. unfold popped. fold g.
  change (c_ncli (g (get_cpu i s))) with (c_ncli (get_cpu i s) - 1).
  destruct (_ - 1 =? 0) eqn:E0; cbn [andb]; [|by apply dev_run_ret].
  dev_mycpu i d3 Ho3 R3. apply dev_run_get. change (at_dev d3 (upd_cpu i g (at_dev d2 s))) with (upd_cpu i g (at_dev d3 s)).
  rewrite Eg by done. change (c_intena (g (get_cpu i s))) with (c_intena (get_cpu i s)). unfold when, sti.
  assert (same_regs (at_dev d3 s) s) as R' by (intros r; etrans; [apply R3|apply R]).
  destruct (truthy _); [by apply dev_run_last|by apply dev_run_ret].
Qed.

Lemma upd_cpu_id i f s : (∀ c, s.(x_cpus) !! i = Some c → f c = c) → upd_cpu i f s = s.
Proof.
  intros H. unfold upd_cpu. rewrite (list_alter_ext f id _ _ i H eq_refl), list_alter_id by done. by destruct s.
Qed.

Lemma set_eflags_id v s : v = s.(x_eflags) → set_eflags v s = s.
Proof. intros ->. by destruct s. Qed.

Lemma cli_keeps f : word f → Z.land f FL_IF = 0 → Z.land f (not32 FL_IF) = f.
Proof.
  intros Hw H. change FL_IF with (bit 9) in *. pose proof (land_bit_clear f 9 ltac:(lia)) as E. rewrite H in E. cbn [Z.eqb] in E.
  apply word_ext; [apply land_word; [done|apply not32_word]|done|].
  intros j Hj. rewrite testbit_clear by lia. destruct (Z.eqb_spec 9 j) as [<-|]; [|by rewrite andb_true_r].
  by destruct (Z.testbit f 9).
Qed.

Lemma sti_cli f : word f → Z.land f FL_IF ≠ 0 → Z.lor (Z.land f (not32 FL_IF)) FL_IF = f.
Proof.
  intros Hw H. change FL_IF with (bit 9) in *. pose proof (land_bit_clear f 9 ltac:(lia)) as E.
  destruct (Z.eqb_spec (Z.land f (bit 9)) 0); [done|].
  apply word_ext; [apply lor_word; [apply land_word; [done|apply not32_word]|apply bit_word]|done|].
  intros j Hj. rewrite testbit_set, testbit_clear by lia. destruct (Z.eqb_spec 9 j) as [<-|]; [|by rewrite andb_true_r, orb_false_r].
  by destruct (Z.testbit f 9).
Qed.

Lemma pop_push i s d : on_cpu i s → 0 <= (get_cpu i s).(c_ncli) → (Z.land s.(x_eflags) FL_IF ≠ 0 → (get_cpu i s).(c_ncli) = 0) →
  word s.(x_eflags) → popped i (at_dev d (pushed i s)) =
    at_dev d (if (get_cpu i s).(c_ncli) =? 0 then upd_cpu i (set_c_intena (Z.land s.(x_eflags) FL_IF)) s else s).
Proof.
  intros Ho Hn Hi Hw. set (c := get_cpu i s) in *. set (e := Z.land s.(x_eflags) FL_IF) in *.
  set (f := λ c, set_c_ncli (c.(c_ncli) + 1) (if c.(c_ncli) =? 0 then set_c_intena e c else c)).
  assert (get_cpu i (at_dev d (pushed i s)) = f c) as Ec.
  { apply get_cpu_lookup. cbn. rewrite list_lookup_alter, decide_True by done. by rewrite (on_cpu_lookup i s Ho). }
  assert ((f c).(c_ncli) - 1 = c.(c_ncli)) as E1 by (unfold f; destruct (_ =? 0); cbn; lia).
  assert ((f c).(c_intena) = if c.(c_ncli) =? 0 then e else c.(c_intena)) as E2 by (unfold f; by destruct (_ =? 0)).
  assert (∀ v : cstate D, upd_cpu i (λ c, set_c_ncli (c.(c_ncli) - 1) c) (upd_cpu i f v) =
    upd_cpu i (λ c, if c.(c_ncli) =? 0 then set_c_intena e c else c) v) as E3.
  { intros v. rewrite upd_cpu_twice. apply upd_cpu_ext. intros x _. unfold f, compose. destruct x as [????? ? n ??]. cbn [c_ncli].
    destruct (n =? 0); unfold set_c_ncli, set_c_intena; cbn; f_equal; lia. }
  assert (∀ x, s.(x_cpus) !! i = Some x → x = c) as Hc.
  { intros x Hx. rewrite (on_cpu_lookup i s Ho) in Hx. by injection Hx. }
  unfold popped. rewrite Ec, E1, E2. change (at_dev d (pushed i s)) with (upd_cpu i f (at_dev d (set_eflags (Z.land s.(x_eflags) (not32 FL_IF)) s))).
  rewrite E3. destruct (Z.eqb_spec c.(c_ncli) 0) as [En|En]; cbn [andb].
  - assert (upd_cpu i (λ c, if c.(c_ncli) =? 0 then set_c_intena e c else c) s = upd_cpu i (set_c_intena e) s) as E4.
    { apply upd_cpu_ext. intros x Hx. by rewrite (Hc x Hx), En. }
    rewrite <- E4. unfold truthy. destruct (Z.eqb_spec e 0) as [Ee|Ee]; cbn [negb].
    + rewrite cli_keeps by done. by rewrite (set_eflags_id s.(x_eflags) s).
    + cbn [at_dev set_xdev set_eflags x_eflags upd_cpu set_cpus_list]. rewrite sti_cli by done. done.
  - destruct (Z.eq_dec e 0) as [Ee|Ee]; [|by specialize (Hi Ee)]. rewrite cli_keeps by done. rewrite (set_eflags_id s.(x_eflags) s) by done.
    change (at_dev d (upd_cpu i (λ c, if c.(c_ncli) =? 0 then set_c_intena e c else c) s) = at_dev d s). f_equal. apply upd_cpu_id.
    intros x Hx. rewrite (Hc x Hx). by destruct (Z.eqb_spec c.(c_ncli) 0).
Qed.

(** [myproc] is the process of this CPU and leaves no trace but the saved
    interrupt flag. *)
Lemma myproc_run i s : on_cpu i s → 0 <= (get_cpu i s).(c_ncli) → (Z.land s.(x_eflags) FL_IF ≠ 0 → (get_cpu i s).(c_ncli) = 0) → word s.(x_eflags) →
  dev_run myproc s (get_cpu i s).(c_proc)
    (if (get_cpu i s).(c_ncli) =? 0 then upd_cpu i (set_c_intena (Z.land s.(x_eflags) FL_IF)) s else s).
Proof.
  intros Ho Hn Hi Hw. unfold myproc. eapply dev_run_bind; [by apply pushcli_cpu_run|]. intros d1 R1.
  assert (Z.land (pushed i s).(x_eflags) FL_IF = 0) as Hf by apply cli_clear.
  assert (on_cpu i (pushed i s)) as Hp.
  { unfold pushed. apply on_cpu_upd; [|auto]. intros c. by destruct (_ =? 0). }
  assert (get_cpu i (pushed i s) = (λ c, set_c_ncli (c.(c_ncli) + 1) (if c.(c_ncli) =? 0 then set_c_intena (Z.land s.(x_eflags) FL_IF) c else c)) (get_cpu i s)) as Ec.
  { apply get_cpu_lookup. cbn. rewrite list_lookup_alter, decide_True by done. by rewrite (on_cpu_lookup i s Ho). }
  dev_mycpu i d2 Ho2 R2. apply dev_run_get. change (at_dev d2 (at_dev d1 (pushed i s))) with (at_dev d2 (pushed i s)) in *.
  change (get_cpu i (at_dev d2 (pushed i s))) with (get_cpu i (pushed i s)).
  assert (c_proc (get_cpu i (pushed i s)) = c_proc (get_cpu i s)) as -> by (rewrite Ec; by destruct (_ =? 0)).
  eapply dev_run_bind.
  { apply (popcli_cpu_run i); [done|done|]. change (get_cpu i (at_dev d2 (pushed i s))) with (get_cpu i (pushed i s)). rewrite Ec. destruct (_ =? 0); cbn; lia. }
  rewrite pop_push by done. intros d3 R3. apply dev_run_ret; [|by destruct (_ =? 0)].
  intros r. etrans; [apply R3|]. assert (same_regs (at_dev d2 s) s) as R by (intros r'; etrans; [apply R2|apply R1]).
  destruct (_ =? 0); apply R.
Qed.

(** ** Setting up the tables *)

Definition put_gdt (n : Z) (d : segdesc) (c : cpu) : cpu := set_c_gdt (<[Z.to_nat n := d]> c.(c_gdt)) c.

Definition flat (c : cpu) : cpu :=
  put_gdt SEG_UDATA (SEG STA_W 0 4294967295 DPL_USER) (put_gdt SEG_UCODE (SEG (Z.lor STA_X STA_R) 0 4294967295 DPL_USER)
    (put_gdt SEG_KDATA (SEG STA_W 0 4294967295 0) (put_gdt SEG_KCODE (SEG (Z.lor STA_X STA_R) 0 4294967295 0) c))).

Lemma seginit_run i s : on_cpu i s → Z.land s.(x_eflags) FL_IF = 0 →
  dev_run (seginit cpus_at) s () (set_gdtr (table_operand (gdt_addr cpus_at i) 48) (upd_cpu i flat s)).
Proof.
  intros Ho Hf. unfold seginit, cpuid. dev_mycpu i d Ho1 R. do 4 apply dev_run_modify. cbn beta.
  rewrite !upd_cpu_twice. unfold lgdt. apply dev_run_last; [exact R|reflexivity].
Qed.

(** The gate of vector [n]. *)
Definition gate_of (n : nat) : gatedesc :=
  let off := default 0 (vectors !! n) in
  if decide (n = Z.to_nat T_SYSCALL) then SETGATE true (Z.shiftl SEG_KCODE 3) off DPL_USER
  else SETGATE false (Z.shiftl SEG_KCODE 3) off 0.

Lemma gates_loop l : ∀ s, (foldM (fun _ i => modify (λ s : cstate D, set_idt (<[i := SETGATE false (Z.shiftl SEG_KCODE 3) (default 0 (vectors !! i)) 0]> s.(x_idt)) s))
    l () : C unit) s = Ret () (set_idt (foldl (λ t i, <[i := SETGATE false (Z.shiftl SEG_KCODE 3) (default 0 (vectors !! i)) 0]> t) s.(x_idt) l) s).
Proof.
  induction l as [|i l IH]; intros s; [by destruct s|]. cbn [foldM foldl]. rewrite bind_modify, IH. done.
Qed.

Lemma foldl_insert_lookup {A} (f : nat → A) l : ∀ (t : list A) j, (j < length t)%nat →
  foldl (λ t i, <[i := f i]> t) t l !! j = if decide (j ∈ l) then Some (f j) else t !! j.
Proof.
  induction l as [|i l IH]; intros t j Hj; cbn [foldl]; [by rewrite decide_False by set_solver|].
  rewrite IH by (by rewrite length_insert). destruct (decide (j ∈ l)); [by rewrite decide_True by set_solver|].
  destruct (decide (j = i)) as [->|].
  - by rewrite list_lookup_insert_eq, decide_True by set_solver.
  - by rewrite list_lookup_insert_ne, decide_False by set_solver.
Qed.

Lemma foldl_insert_length {A} (f : nat → A) l : ∀ t : list A, length (foldl (λ t i, <[i := f i]> t) t l) = length t.
Proof. induction l as [|i l IH]; intros t; [done|]. cbn [foldl]. by rewrite IH, length_insert. Qed.

Lemma tvinit_run s : length s.(x_idt) = 256%nat → ∃ t, tvinit vectors s = Ret () (set_idt t s) ∧
  ∀ n, (n < 256)%nat → t !! n = Some (gate_of n).
Proof.
  intros Hl. unfold tvinit. rewrite (bind_returns _ _ _ _ _ (gates_loop (seq 0 256) s)). eexists. split; [reflexivity|].
  intros n Hn. cbn [set_idt x_idt]. unfold gate_of.
  set (f := λ i : nat, SETGATE false (Z.shiftl SEG_KCODE 3) (default 0 (vectors !! i)) 0).
  change (λ (t : list gatedesc) (i : nat), <[i := SETGATE false (Z.shiftl SEG_KCODE 3) (default 0 (vectors !! i)) 0]> t) with (λ (t : list gatedesc) (i : nat), <[i := f i]> t).
  destruct (decide (n = Z.to_nat T_SYSCALL)) as [->|Hne].
  - rewrite list_lookup_insert_eq; [done|]. rewrite foldl_insert_length. lia.
  - rewrite list_lookup_insert_ne by done. rewrite foldl_insert_lookup by lia. rewrite decide_True; [done|]. apply elem_of_seq. lia.
Qed.

(** ** Entering the kernel *)

(** The tables of CPU [i] while a process with the kernel stack up to [e] runs. *)
Record tables (i : nat) (e : Z) s : Prop := {
  tb_gdtr : s.(x_gdtr) = table_operand (gdt_addr cpus_at i) 48;
  tb_idtr : s.(x_idtr) = table_operand idt_at 2048;
  tb_tr : s.(x_tr) = Z.shiftl SEG_TSS 3;
  tb_cpus : (length s.(x_cpus) <= 1000)%nat;
  tb_kcode : ∃ c, s.(x_cpus) !! i = Some c ∧
    c.(c_gdt) !! Z.to_nat SEG_KCODE = Some (SEG (Z.lor STA_X STA_R) 0 4294967295 0) ∧
    c.(c_gdt) !! Z.to_nat SEG_KDATA = Some (SEG STA_W 0 4294967295 0) ∧
    c.(c_gdt) !! Z.to_nat SEG_TSS = Some (set_sd_s 0 (SEG16 STS_T32A (ts_addr cpus_at i) (TS_SIZE - 1) 0)) ∧
    c.(c_ss0) = Z.shiftl SEG_KDATA 3 ∧ c.(c_esp0) = e;
  tb_idt : ∀ n, (n < 256)%nat → s.(x_idt) !! n = Some (gate_of n)
}.

Lemma operand_base p size : table_base (table_operand p size) = u32 p.
Proof.
  unfold table_base, table_operand. cbn [fst snd]. rewrite Z.shiftr_div_pow2 by lia. pose proof (u32_word p). unfold word, two32 in *.
  pow_consts. pose proof (Z.div_mod (u32 p) 65536). lia.
Qed.

(** The address of one of the tables determines the CPU. *)
Lemma cpu_of_addr (l : list cpu) i off : (i < length l)%nat → (length l <= 1000)%nat →
  list_find (λ j, u32 (cpus_at + CPU_SIZE * Z.of_nat j + off) = u32 (cpus_at + CPU_SIZE * Z.of_nat i + off)) (seq 0 (length l)) = Some (i, i).
Proof.
  intros Hi Hl. apply list_find_Some. rewrite lookup_seq. split; [lia|]. split; [done|].
  intros j y Hj Hlt E. apply lookup_seq in Hj as [-> _]. cbn [Nat.add] in E. unfold u32, two32, CPU_SIZE in E.
  set (a := cpus_at + off) in *. assert ((a + 176 * Z.of_nat j) mod 4294967296 = (a + 176 * Z.of_nat i) mod 4294967296) as E'.
  { unfold a. etrans; [|etrans; [exact E|]]; f_equal; lia. }
  clear E. dlia.
Qed.

Lemma seg_kcode : seg_view (seg_words (SEG (Z.lor STA_X STA_R) 0 4294967295 0)) = mkview 0 4294967295 10 1 0 1.
Proof. reflexivity. Qed.

Lemma seg_kdata : seg_view (seg_words (SEG STA_W 0 4294967295 0)) = mkview 0 4294967295 2 1 0 1.
Proof. reflexivity. Qed.

Lemma seg_tss base : word base → seg_view (seg_words (set_sd_s 0 (SEG16 STS_T32A base (TS_SIZE - 1) 0))) = mkview base 103 9 0 0 1.
Proof.
  intros Hb. unfold SEG16, set_sd_s. cbn [lim_15_0 base_15_0 base_23_16 sd_type sd_s sd_dpl sd_p lim_19_16 sd_avl sd_rsv1 sd_db sd_g base_31_24].
  rewrite (u32_id base) by done. change 65535 with (2 ^ 16 - 1). change 255 with (2 ^ 8 - 1). rewrite !low_bits, !Z.shiftr_div_pow2 by lia.
  unfold field, word, two32, TS_SIZE, STS_T32A in *. pow_consts.
  rewrite view_words by (first [apply Z.mod_pos_bound; lia|lia]). rewrite !Zmod_mod, split_base by done. done.
Qed.

Lemma shift_seg n : Z.shiftl n 3 / 8 = n.
Proof. rewrite Z.shiftl_mul_pow2 by lia. change (2 ^ 3) with 8. apply Z.div_mul. lia. Qed.

Lemma descriptor_at i e s n (d : segdesc) : tables i e s → 1 <= n < 6 →
  (∃ c, s.(x_cpus) !! i = Some c ∧ c.(c_gdt) !! Z.to_nat n = Some d) → descriptor cpus_at s (Z.shiftl n 3) = Some (seg_view (seg_words d)).
Proof.
  intros Ht Hn (c & Hc & Hd). destruct Ht as [Hg _ _ Hl _ _]. unfold descriptor, gdt_owner. rewrite Hg, operand_base.
  unfold gdt_addr. rewrite u32_idem, cpu_of_addr by (try apply lookup_lt_Some in Hc; done). cbn [mbind option_bind]. rewrite Hc. cbn [mbind option_bind].
  rewrite shift_seg. cbn [table_operand fst]. change ((48 - 1) mod 2 ^ 16) with 47.
  destruct (Z.eqb_spec n 0); [lia|]. destruct (Z.ltb_spec 47 (n * 8 + 7)); [lia|]. cbn [orb]. by rewrite Hd.
Qed.

Lemma gate_at i e s n : tables i e s → (n < 256)%nat → Forall word vectors → length vectors = 256%nat →
  gate idt_at s n = Some (mkgview (default 0 (vectors !! n)) (Z.shiftl SEG_KCODE 3)
    (if decide (n = Z.to_nat T_SYSCALL) then STS_TG32 else STS_IG32) (if decide (n = Z.to_nat T_SYSCALL) then DPL_USER else 0) 1).
Proof.
  intros Ht Hn Hw Hl. destruct Ht as [_ Hi _ _ _ Ht]. unfold gate. rewrite Hi, operand_base, Z.eqb_refl. cbn [negb orb table_operand fst].
  change ((2048 - 1) mod 2 ^ 16) with 2047. destruct (Z.ltb_spec 2047 (8 * Z.of_nat n + 7)); [lia|]. rewrite Ht by done. cbn [mbind option_bind].
  destruct (lookup_lt_is_Some_2 vectors n ltac:(lia)) as [v Hv]. pose proof (proj1 (list.Forall_forall _ _) Hw v ltac:(by eapply list_elem_of_lookup_2)) as Hv'.
  unfold gate_of. rewrite Hv. cbn [default]. destruct (decide _); rewrite SETGATE_view by (done || (unfold DPL_USER; lia)); done.
Qed.

Lemma task_stack_at i e s : tables i e s → task_stack cpus_at s = Some (Z.shiftl SEG_KDATA 3, e).
Proof.
  intros Ht. pose proof Ht as [_ _ Htr Hl (c & Hc & _ & _ & H5 & Hs & He) _]. unfold task_stack. rewrite Htr.
  rewrite (descriptor_at i e s SEG_TSS _ Ht) by (unfold SEG_TSS; eauto || lia). cbn [mbind option_bind]. rewrite seg_tss by apply u32_word.
  cbn [v_p v_s v_type v_limit v_base]. change (103 <? TS_SIZE - 1) with false. cbn [Z.eqb Pos.eqb andb negb orb STS_T32A].
  unfold ts_addr. rewrite cpu_of_addr by (try apply lookup_lt_Some in Hc; done). cbn [mbind option_bind]. rewrite Hc. cbn. by rewrite Hs, He.
Qed.

(** The gates as a user program meets them. *)
Lemma enter_user i e s soft n : tables i e s → (n < 256)%nat → Forall word vectors → length vectors = 256%nat →
  enter cpus_at idt_at soft n DPL_USER s =
    if soft && negb (bool_decide (n = Z.to_nat T_SYSCALL)) then None
    else Some (mkentry (default 0 (vectors !! n)) (Z.shiftl SEG_KCODE 3) 0 (Some (Z.shiftl SEG_KDATA 3, e)) (negb (bool_decide (n = Z.to_nat T_SYSCALL)))).
Proof.
  intros Ht Hn Hw Hl. unfold enter. rewrite (gate_at i e s n) by done. cbn [mbind option_bind gv_p gv_type gv_dpl gv_sel gv_off].
  pose proof Ht as [_ _ _ _ (c & Hc & H1 & H2 & _) _].
  rewrite (descriptor_at i e s SEG_KCODE _ Ht) by (unfold SEG_KCODE; eauto || lia). rewrite seg_kcode.
  rewrite (task_stack_at i e s Ht). 
  assert (descriptor cpus_at s (Z.shiftl SEG_KDATA 3) = Some (mkview 0 4294967295 2 1 0 1)) as E2.
  { rewrite (descriptor_at i e s SEG_KDATA _ Ht) by (unfold SEG_KDATA; eauto || lia). by rewrite seg_kdata. }
  case_bool_decide as Hs; [rewrite !decide_True by done|rewrite !decide_False by done]; destruct soft; cbn -[descriptor Z.shiftl]; rewrite ?E2; reflexivity.
Qed.

(** ** Switching to a process *)

Definition task_cpu (i : nat) (kstack : Z) (c : cpu) : cpu :=
  set_c_ts (u32 (kstack + KSTACKSIZE)) (Z.shiftl SEG_KDATA 3) 65535
    (set_c_gdt (alter (set_sd_s 0) (Z.to_nat SEG_TSS)
      (<[Z.to_nat SEG_TSS := SEG16 STS_T32A (ts_addr cpus_at i) (TS_SIZE - 1) 0]> c.(c_gdt))) c).

Definition load_cr3 (v : Z) s : cstate D := set_xdev (set_kern (set_cr3 v s.(x_dev).(d_kern)) s.(x_dev)) s.

Definition switching (i : nat) (kstack pgdir : Z) s : cstate D :=
  load_cr3 (V2P pgdir) (set_tr (Z.shiftl SEG_TSS 3) (upd_cpu i (task_cpu i kstack) (pushed i s))).

Lemma pushed_cpu i s : on_cpu i s → on_cpu i (pushed i s) ∧ Z.land (pushed i s).(x_eflags) FL_IF = 0.
Proof.
  intros Ho. split; [|apply cli_clear]. unfold pushed. apply on_cpu_upd; [|auto]. intros c. by destruct (_ =? 0).
Qed.

Lemma dev_run_at {A} (m : C A) s a s' d : same_regs (at_dev d s') s' → dev_run m s a (at_dev d s') → dev_run m s a s'.
Proof. intros R (d' & E & R'). exists d'. split; [done|]. intros r. etrans; [apply R'|apply R]. Qed.

Lemma get_cpu_upd i f s : on_cpu i s → get_cpu i (upd_cpu i f s) = f (get_cpu i s).
Proof.
  intros Ho. apply get_cpu_lookup. cbn. rewrite list_lookup_alter, decide_True by done. by rewrite (on_cpu_lookup i s Ho).
Qed.

Lemma switching_cpu i kstack pgdir s : on_cpu i s →
  on_cpu i (switching i kstack pgdir s) ∧ get_cpu i (switching i kstack pgdir s) = task_cpu i kstack (get_cpu i (pushed i s)).
Proof.
  intros Ho. destruct (pushed_cpu i s Ho) as [Hp _]. split.
  - assert (on_cpu i (upd_cpu i (task_cpu i kstack) (pushed i s))) as [] by (by apply on_cpu_upd). by split.
  - by rewrite <- get_cpu_upd.
Qed.

Lemma switchuvm_run i kstack pgdir s : on_cpu i s → 0 <= (get_cpu i s).(c_ncli) → kstack ≠ 0 → pgdir ≠ 0 →
  dev_run (switchuvm cpus_at (Some (kstack, pgdir))) s () (popped i (switching i kstack pgdir s)).
Proof.
  intros Ho Hn Hk Hp. unfold switchuvm. destruct (Z.eqb_spec kstack 0); [done|]. destruct (Z.eqb_spec pgdir 0); [done|].
  eapply dev_run_bind; [by apply pushcli_cpu_run|]. intros d0 R0. destruct (pushed_cpu i s Ho) as [Hop Hf].
  destruct (switching_cpu i kstack pgdir s Ho) as [Hs Ec]. unfold switching in *. set (p := pushed i s) in *.
  dev_mycpu i d1 Ho1 R1. dev_mycpu i d2 Ho2 R2. apply dev_run_modify. dev_mycpu i d3 Ho3 R3. apply dev_run_modify.
  dev_mycpu i d4 Ho4 R4. apply dev_run_modify. dev_mycpu i d5 Ho5 R5. apply dev_run_modify. dev_mycpu i d6 Ho6 R6. apply dev_run_modify.
  assert (same_regs (at_dev d6 p) p) as R.
  { intros r. etrans; [apply R6|]. etrans; [apply R5|]. etrans; [apply R4|]. etrans; [apply R3|]. etrans; [apply R2|]. etrans; [apply R1|apply R0]. }
  clear R0 R1 R2 R3 R4 R5 R6 Ho1 Ho2 Ho3 Ho4 Ho5 Ho6.
  unfold ltr. apply dev_run_modify. set (q := load_cr3 (V2P pgdir) (set_tr (Z.shiftl SEG_TSS 3) (upd_cpu i (task_cpu i kstack) p))) in *.
  apply (dev_run_at _ _ _ _ d6).
  { unfold popped. destruct (_ && _); apply R. }
  lazymatch goal with |- dev_run _ ?x _ ?y => assert (load_cr3 (V2P pgdir) x = at_dev d6 q) as Es; [|change (dev_run popcli (load_cr3 (V2P pgdir) x) () y); rewrite Es] end.
  { repeat (rewrite upd_cpu_at || rewrite at_dev_at). rewrite !upd_cpu_twice. reflexivity. }
  assert (at_dev d6 (popped i q) = popped i (at_dev d6 q)) as ->.
  { unfold popped. change (get_cpu i (at_dev d6 q)) with (get_cpu i q). by destruct (_ && _). }
  apply popcli_cpu_run; [apply on_cpu_dev; [done|exact R]|exact Hf|]. change (get_cpu i (at_dev d6 q)) with (get_cpu i q).
  rewrite Ec. unfold p, pushed. rewrite get_cpu_upd by auto. change (get_cpu i (set_eflags _ s)) with (get_cpu i s). destruct (_ =? 0); cbn; lia.
Qed.

Lemma tables_dev i e d s : tables i e s → tables i e (at_dev d s).
Proof. intros []. by split. Qed.

Lemma tables_popped i e s : tables i e s → tables i e (popped i s).
Proof.
  intros Ht. assert (tables i e (upd_cpu i (λ c, set_c_ncli (c.(c_ncli) - 1) c) s)) as H.
  { destruct Ht as [Hg Hi Htr Hl (c & Hc & Hd) Hidt]. split; try done; cbn; [by rewrite length_alter|].
    eexists. rewrite list_lookup_alter, decide_True, Hc by done. split; [reflexivity|done]. }
  unfold popped. destruct (_ && _); [|done]. destruct H. by split.
Qed.

(** The tables are complete once a CPU switches to a process. *)
Lemma switching_tables i kstack pgdir s : on_cpu i s → (length s.(x_cpus) <= 1000)%nat →
  s.(x_gdtr) = table_operand (gdt_addr cpus_at i) 48 → s.(x_idtr) = table_operand idt_at 2048 →
  (∀ n, (n < 256)%nat → s.(x_idt) !! n = Some (gate_of n)) →
  (∃ c, length c.(c_gdt) = NSEGS ∧ (get_cpu i s).(c_gdt) = (flat c).(c_gdt)) →
  tables i (u32 (kstack + KSTACKSIZE)) (switching i kstack pgdir s).
Proof.
  intros Ho Hl Hg Hi Hidt (c & Hc & E). destruct (switching_cpu i kstack pgdir s Ho) as [Hs Ec].
  split; try done.
  - cbn. by rewrite !length_alter.
  - eexists. split; [by apply on_cpu_lookup|]. rewrite Ec. cbn [task_cpu set_c_ts set_c_gdt c_gdt c_ss0 c_esp0].
    assert (c_gdt (get_cpu i (pushed i s)) = c_gdt (get_cpu i s)) as ->.
    { unfold pushed. rewrite get_cpu_upd by auto. change (get_cpu i (set_eflags _ s)) with (get_cpu i s). by destruct (_ =? 0). }
    rewrite E. destruct c as [????[|g0 [|g1 [|g2 [|g3 [|g4 [|g5 [|g6 ?]]]]]]]????]; try done.
Qed.

(** C13: Once a CPU has set up its descriptor tables
    ([seginit], [tvinit], [idtinit]) and has switched to a process ([switchuvm]),
    the page table of the process is loaded, and from user mode the processor
    enters the kernel for every vector at the vector's entry point, with kernel
    privilege and on the top of the kernel stack of that process; with interrupts
    off except for system calls; and the instruction [int] of a program faults
    for every vector but the system call. *)
Theorem user_enters_kernel i kstack pgdir s :
  on_cpu i s → Z.land s.(x_eflags) FL_IF = 0 → 0 <= (get_cpu i s).(c_ncli) → length (get_cpu i s).(c_gdt) = NSEGS →
  length s.(x_idt) = 256%nat → (length s.(x_cpus) <= 1000)%nat → Forall word vectors → length vectors = 256%nat →
  kstack ≠ 0 → pgdir ≠ 0 →
  ∃ s', (seginit cpus_at;; tvinit vectors;; idtinit idt_at;; switchuvm cpus_at (Some (kstack, pgdir))) s = Ret () s' ∧
    cr3 s'.(x_dev).(d_kern) = V2P pgdir ∧
    ∀ (soft : bool) n, (n < 256)%nat → enter cpus_at idt_at soft n DPL_USER s' =
      if soft && negb (bool_decide (n = Z.to_nat T_SYSCALL)) then None
      else Some (mkentry (default 0 (vectors !! n)) (Z.shiftl SEG_KCODE 3) 0
             (Some (Z.shiftl SEG_KDATA 3, u32 (kstack + KSTACKSIZE))) (negb (bool_decide (n = Z.to_nat T_SYSCALL)))).
Proof.
  intros Ho Hf Hn Hg Hidt Hl Hw Hv Hk Hp. destruct (seginit_run i s Ho Hf) as (d1 & E1 & R1).
  rewrite (bind_returns _ _ _ _ _ E1). set (s1 := at_dev d1 _) in *.
  assert (on_cpu i s1) as Ho1. { assert (on_cpu i (upd_cpu i flat s)) as [] by (by apply on_cpu_upd). apply on_cpu_dev; [by split|done]. }
  destruct (tvinit_run s1 Hidt) as (t & E2 & Ht). rewrite (bind_returns _ _ _ _ _ E2). unfold idtinit, lidt. rewrite bind_modify.
  set (s2 := set_idtr _ _). assert (get_cpu i s2 = flat (get_cpu i s)) as Ec by exact (get_cpu_upd i flat s Ho).
  assert (on_cpu i s2) as Ho2 by (destruct Ho1; by split).
  destruct (switchuvm_run i kstack pgdir s2) as (d3 & E3 & R3); [done|by rewrite Ec|done|done|].
  exists (at_dev d3 (popped i (switching i kstack pgdir s2))). split; [exact E3|]. split; [unfold popped; by destruct (_ && _)|].
  intros soft n Hlt. apply (enter_user i); [|done..]. apply tables_dev, tables_popped, switching_tables; [done|cbn; by rewrite length_alter|done|done|exact Ht|].
  exists (get_cpu i s). by rewrite Ec.
Qed.

(** [switchuvm] changes the kernel state as its model in the rest of the
    development does, and panics with the same messages. *)
Theorem switchuvm_refines i j p s : on_cpu i s → 0 <= (get_cpu i s).(c_ncli) → s.(x_dev).(d_kern).(pt) !! j = Some p →
  match Proc.switchuvm (Some j) s.(x_dev).(d_kern) with
  | Ret _ k => ∃ s', switchuvm cpus_at (Some (p.(p_kstack), p.(p_pgdir))) s = Ret () s' ∧ k = set_esp0 (get_cpu i s').(c_esp0) s'.(x_dev).(d_kern)
  | Panic msg _ => switchuvm cpus_at (Some (p.(p_kstack), p.(p_pgdir))) s = Panic msg s
  | _ => False
  end.
Proof.
  intros Ho Hn Hj. unfold Proc.switchuvm. unfold getp. rewrite bind_get, (get_proc_lookup _ _ _ Hj).
  destruct (Z.eqb_spec p.(p_kstack) 0) as [E|Hk]; [unfold switchuvm; by rewrite E|].
  destruct (Z.eqb_spec p.(p_pgdir) 0) as [E|Hp]; [unfold switchuvm; rewrite E; by destruct (Z.eqb_spec p.(p_kstack) 0)|].
  rewrite bind_modify. cbn [modify]. destruct (switchuvm_run i p.(p_kstack) p.(p_pgdir) s Ho Hn Hk Hp) as (d & E & _).
  eexists. split; [exact E|]. destruct (switching_cpu i p.(p_kstack) p.(p_pgdir) s Ho) as [Hs Ec].
  assert (get_cpu i (at_dev d (popped i (switching i p.(p_kstack) p.(p_pgdir) s))) =
    (λ c, set_c_ncli (c.(c_ncli) - 1) c) (get_cpu i (switching i p.(p_kstack) p.(p_pgdir) s))) as ->.
  { rewrite <- (get_cpu_upd i (λ c, set_c_ncli (c.(c_ncli) - 1) c) _ Hs). unfold popped. by destruct (_ && _). }
  rewrite Ec. unfold popped. by destruct (_ && _).
Qed.

End correct.

(** ** A concrete CPU *)

(** The registers of an interrupt controller at 0xfee00000. *)
Definition apic_base : Z := 4276092928.

#[local] Instance apic_machine : Machine (Z → Z) := {
  port_in := fun _ d => (0, d);
  port_out := fun _ _ d => d;
  port_ins := fun _ _ d => ([], d);
  port_outs := fun _ _ d => d;
  mem_in := fun a d => (if a =? apic_base + 4 * ICRLO then 0 else d ((a - apic_base) / 4), d);
  mem_out := fun a v d r => if apic_base + 4 * r =? a then v else d r
}.

#[local] Instance apic_laws : LapicLaws (Z → Z).
Proof.
  refine {| la_base := apic_base; la_reg := fun d => d; la_delay := fun _ => 0%nat |}.
  - done.
  - intros i r v d. unfold mem_out, apic_machine. destruct (Z.eqb_spec r i), (Z.eqb_spec (apic_base + 4 * r) (apic_base + 4 * i)); done || lia.
  - done.
  - done.
  - intros d. left. reflexivity.
Defined.

(** Two CPUs with the identifiers 4 and 2; the code runs on the second. *)
Definition demo_cpu (id : Z) : cpu := mkcpu id 0 0 0 (replicate NSEGS (SEG 0 0 0 0)) 0 0 0 None.
Definition demo_vectors : list Z := (λ n, 2148532224 + 10 * Z.of_nat n) <$> seq 0 256.
Definition demo_cpus : cstate (Z → Z) :=
  mkcst (mkdst demo (fun r => if r =? ID then 2 * 16777216 else 0) apic_base 0 false) [demo_cpu 4; demo_cpu 2] 2
    (replicate 256 (SETGATE false 0 0 0)) 2 (0, 0, 0) (0, 0, 0) 0.

Lemma demo_on_cpu : on_cpu 1 demo_cpus.
Proof. split; [done|cbn; lia|cbn; lia|done|compute_done]. Qed.

Lemma user_enters_kernel_witness : ∃ s',
  (seginit 2148600000;; tvinit demo_vectors;; idtinit 2148700000;; switchuvm 2148600000 (Some (2149000000, 2149400576))) demo_cpus = Ret () s' ∧
  cr3 s'.(x_dev).(d_kern) = V2P 2149400576 ∧
  enter 2148600000 2148700000 true 64 DPL_USER s' = Some (mkentry 2148532864 8 0 (Some (16, 2149004096)) false) ∧
  enter 2148600000 2148700000 true 14 DPL_USER s' = None ∧
  enter 2148600000 2148700000 false 14 DPL_USER s' = Some (mkentry 2148532364 8 0 (Some (16, 2149004096)) true).
Proof.
  destruct (user_enters_kernel 2148600000 2148700000 demo_vectors 1 2149000000 2149400576 demo_cpus) as (s' & E & Hc & He).
  - exact demo_on_cpu.
  - reflexivity.
  - vm_compute. discriminate.
  - reflexivity.
  - reflexivity.
  - cbn. lia.
  - unfold demo_vectors. apply list.Forall_forall. intros x Hx. apply list_elem_of_fmap in Hx as (n & -> & Hn). apply elem_of_seq in Hn. unfold word, two32. lia.
  - reflexivity.
  - discriminate.
  - discriminate.
  - exists s'. split; [exact E|]. split; [exact Hc|]. rewrite !He by lia. split; [|split]; reflexivity.
Defined.
