(* ===== verification/Asm.v ===== *)
(** * The assembly routines: [vectors.S], [trapasm.S], [swtch.S],
    [jmptohandler.S], [restoreuser.S], [usys.S] and [initcode.S]

    The routines are lists of instructions of a small machine: registers,
    segment registers and the byte memory of the kernel.  The instructions are
    the ones the routines use, with the effect the processor's manual gives
    them.  The theorems show that a trap saves the registers in the trap frame
    the C code reads and that returning loads them from it, that [swtch] resumes
    a context exactly as it was saved, what the two routines of the signal code
    do to the registers, and how the system call stubs pass arguments. *)

From stdpp Require Import base numbers option list sets strings gmap fin_maps functions.
From Stdlib Require Import ZArith Lia.
From S2P Require Import Prelude State Locks Console Kalloc Proc Signal Bio Tty Trap Devices Cpus.

(** ** The machine *)

Inductive reg : Type := EAX | EBX | ECX | EDX | ESI | EDI | EBP | ESP.
Inductive sreg : Type := CS | DS | ES | FS | GS | SS.

Record mach : Type := mkmach {
  r_eax : Z;
  r_ebx : Z;
  r_ecx : Z;
  r_edx : Z;
  r_esi : Z;
  r_edi : Z;
  r_ebp : Z;
  r_esp : Z;
  s_cs : Z;
  s_ds : Z;
  s_es : Z;
  s_fs : Z;
  s_gs : Z;
  s_ss : Z;
  r_eip : Z;
  r_eflags : Z;
  r_mem : memory
}.

Definition rget (r : reg) (s : mach) : Z :=
  match r with
  | EAX => s.(r_eax) | EBX => s.(r_ebx) | ECX => s.(r_ecx) | EDX => s.(r_edx)
  | ESI => s.(r_esi) | EDI => s.(r_edi) | EBP => s.(r_ebp) | ESP => s.(r_esp)
  end.

Definition sget (x : sreg) (s : mach) : Z :=
  match x with
  | CS => s.(s_cs) | DS => s.(s_ds) | ES => s.(s_es) | FS => s.(s_fs) | GS => s.(s_gs) | SS => s.(s_ss)
  end.

Definition rset (r : reg) (v : Z) (s : mach) : mach :=
  let 'mkmach a b c d si di bp sp cs ds es fs gs ss ip fl m := s in
  match r with
  | EAX => mkmach v b c d si di bp sp cs ds es fs gs ss ip fl m
  | EBX => mkmach a v c d si di bp sp cs ds es fs gs ss ip fl m
  | ECX => mkmach a b v d si di bp sp cs ds es fs gs ss ip fl m
  | EDX => mkmach a b c v si di bp sp cs ds es fs gs ss ip fl m
  | ESI => mkmach a b c d v di bp sp cs ds es fs gs ss ip fl m
  | EDI => mkmach a b c d si v bp sp cs ds es fs gs ss ip fl m
  | EBP => mkmach a b c d si di v sp cs ds es fs gs ss ip fl m
  | ESP => mkmach a b c d si di bp v cs ds es fs gs ss ip fl m
  end.

Definition sset (x : sreg) (v : Z) (s : mach) : mach :=
  let 'mkmach a b c d si di bp sp cs ds es fs gs ss ip fl m := s in
  match x with
  | CS => mkmach a b c d si di bp sp v ds es fs gs ss ip fl m
  | DS => mkmach a b c d si di bp sp cs v es fs gs ss ip fl m
  | ES => mkmach a b c d si di bp sp cs ds v fs gs ss ip fl m
  | FS => mkmach a b c d si di bp sp cs ds es v gs ss ip fl m
  | GS => mkmach a b c d si di bp sp cs ds es fs v ss ip fl m
  | SS => mkmach a b c d si di bp sp cs ds es fs gs v ip fl m
  end.

Definition set_eip (v : Z) (s : mach) : mach :=
  let 'mkmach a b c d si di bp sp cs ds es fs gs ss ip fl m := s in mkmach a b c d si di bp sp cs ds es fs gs ss v fl m.
Definition set_flags (v : Z) (s : mach) : mach :=
  let 'mkmach a b c d si di bp sp cs ds es fs gs ss ip fl m := s in mkmach a b c d si di bp sp cs ds es fs gs ss ip v m.
Definition set_memory (v : memory) (s : mach) : mach :=
  let 'mkmach a b c d si di bp sp cs ds es fs gs ss ip fl m := s in mkmach a b c d si di bp sp cs ds es fs gs ss ip fl v.

(** Pushing a word, and reading the word at an offset from the stack pointer. *)
Definition push (v : Z) (s : mach) : mach :=
  let 'mkmach a b c d si di bp sp cs ds es fs gs ss ip fl m := s in
  mkmach a b c d si di bp (u32 (sp - 4)) cs ds es fs gs ss ip fl (store32 m (u32 (sp - 4)) v).
Definition top (k : Z) (s : mach) : Z := load32 s.(r_mem) (u32 (s.(r_esp) + k)).
Definition drop_stack (k : Z) (s : mach) : mach :=
  let 'mkmach a b c d si di bp sp cs ds es fs gs ss ip fl m := s in mkmach a b c d si di bp (u32 (sp + k)) cs ds es fs gs ss ip fl m.

Inductive instr : Type :=
| Pushl_i (v : Z)
| Pushl (r : reg)
| Pushl_s (x : sreg)
| Pushal
| Popl (r : reg)
| Popl_s (x : sreg)
| Popal
| Movl_i (v : Z) (dst : reg)
| Movl (src dst : reg)
| Load (off : Z) (base dst : reg)
| Store (src : reg) (off : Z) (base : reg)
| Movw_i (v : Z) (dst : reg)
| Movw_s (src : reg) (x : sreg)
| Addl_i (v : Z) (dst : reg)
| Subl_i (v : Z) (dst : reg)
| Call (f : string) (next : Z)
| Jmp (l : string)
| Ret_
| Iret
| Int (n : Z).

(** Privilege levels: of a selector, and of the segment it selects in the
    table that [seginit] writes. *)
Definition rpl (sel : Z) : Z := sel mod 4.
Definition seg_dpl (sel : Z) : Z := if (sel / 8 =? SEG_UCODE) || (sel / 8 =? SEG_UDATA) then 3 else 0.

(** On a return to a less privileged level, segment registers that designate a
    more privileged segment are loaded with the null selector. *)
Definition keep_seg (cpl sel : Z) : Z := if seg_dpl sel <? cpl then 0 else sel.

Definition iret (s : mach) : mach :=
  let cs := top 4 s mod 65536 in
  let s1 := set_flags (top 8 s) (set_eip (top 0 s) (sset CS cs s)) in
  if rpl s.(s_cs) <? rpl cs then
    let c := rpl cs in
    sset DS (keep_seg c s.(s_ds)) (sset ES (keep_seg c s.(s_es)) (sset FS (keep_seg c s.(s_fs)) (sset GS (keep_seg c s.(s_gs))
      (sset SS (top 16 s mod 65536) (rset ESP (top 12 s) s1)))))
  else drop_stack 12 s1.

Definition pushal (s : mach) : mach :=
  let 'mkmach a b c d si di bp sp cs ds es fs gs ss ip fl m := s in
  push di (push si (push bp (push sp (push b (push d (push c (push a s))))))).

Definition popal (s : mach) : mach :=
  rset EDI (top 0 s) (rset ESI (top 4 s) (rset EBP (top 8 s) (rset EBX (top 16 s) (rset EDX (top 20 s)
    (rset ECX (top 24 s) (rset EAX (top 28 s) (drop_stack 32 s))))))).

(** How a list of instructions ends: behind its last instruction, at a label,
    with an instruction that loads [eip], or in an interrupt by [int]. *)
Inductive outcome : Type :=
| Falls (s : mach)
| AtLabel (l : string) (s : mach)
| Resumes (s : mach)
| Interrupts (n : Z) (s : mach).

Section exec.
(** What a C function does, from its first instruction to behind its [ret]. *)
Variable callee : string → mach → mach.

Definition step (i : instr) (s : mach) : mach + outcome :=
  match i with
  | Pushl_i v => inl (push v s)
  | Pushl r => inl (push (rget r s) s)
  | Pushl_s x => inl (push (sget x s) s)
  | Pushal => inl (pushal s)
  | Popl r => inl (rset r (top 0 s) (drop_stack 4 s))
  | Popl_s x => inl (sset x (top 0 s mod 65536) (drop_stack 4 s))
  | Popal => inl (popal s)
  | Movl_i v r => inl (rset r v s)
  | Movl r1 r2 => inl (rset r2 (rget r1 s) s)
  | Load off b r => inl (rset r (load32 s.(r_mem) (u32 (rget b s + off))) s)
  | Store r off b => inl (set_memory (store32 s.(r_mem) (u32 (rget b s + off)) (rget r s)) s)
  | Movw_i v r => inl (rset r (rget r s / 65536 * 65536 + v) s)
  | Movw_s r x => inl (sset x (rget r s mod 65536) s)
  | Addl_i v r => inl (rset r (u32 (rget r s + v)) s)
  | Subl_i v r => inl (rset r (u32 (rget r s - v)) s)
  | Call f next => inl (callee f (push next s))
  | Jmp l => inr (AtLabel l s)
  | Ret_ => inr (Resumes (set_eip (top 0 s) (drop_stack 4 s)))
  | Iret => inr (Resumes (iret s))
  | Int n => inr (Interrupts n s)
  end.

Fixpoint exec (code : list instr) (s : mach) : outcome :=
  match code with
  | [] => Falls s
  | i :: code =>
    match step i s with
    | inl s => exec code s
    | inr o => o
    end
  end.

(** ** The routines *)

(** The vectors for which the processor pushes an error code itself. *)
Definition has_error (n : Z) : bool := (n =? 8) || ((10 <=? n) && (n <=? 14)) || (n =? 17).

Definition vector (n : Z) : list instr :=
  (if has_error n then [] else [Pushl_i 0]) ++ [Pushl_i n; Jmp "alltraps"].

Definition trapret_code : list instr :=
  [Popal; Popl_s GS; Popl_s FS; Popl_s ES; Popl_s DS; Addl_i 8 ESP; Iret].

Definition alltraps (next : Z) : list instr :=
  [Pushl_s DS; Pushl_s ES; Pushl_s FS; Pushl_s GS; Pushal;
   Movw_i (Z.shiftl SEG_KDATA 3) EAX; Movw_s EAX DS; Movw_s EAX ES;
   Pushl ESP; Call "trap" next; Addl_i 4 ESP] ++ trapret_code.

Definition swtch_code : list instr :=
  [Load 4 ESP EAX; Load 8 ESP EDX; Pushl EBP; Pushl EBX; Pushl ESI; Pushl EDI;
   Store ESP 0 EAX; Movl EDX ESP; Popl EDI; Popl ESI; Popl EBX; Popl EBP; Ret_].

Definition jmptohandler_code : list instr := [Addl_i 4 ESP; Iret].

Definition restoreuser_code : list instr :=
  [Addl_i 4 ESP; Popal; Popl_s GS; Popl_s FS; Popl_s ES; Popl_s DS; Iret].

(** [SYSCALL(name)] *)
Definition stub (num : Z) : list instr := [Movl_i num EAX; Int T_SYSCALL; Ret_].

Definition signal_stub (sigreturn num : Z) : list instr :=
  [Subl_i 4 ESP; Load 4 ESP EAX; Store EAX 0 ESP; Movl_i sigreturn EAX; Store EAX 4 ESP; Movl_i num EAX;
   Int T_SYSCALL; Ret_].

(** [start] of [initcode.S], with the addresses of [argv] and [init]. *)
Definition initcode_start (argv init num : Z) : list instr :=
  [Pushl_i argv; Pushl_i init; Pushl_i 0; Movl_i num EAX; Int T_SYSCALL].

(** An interrupt or [int]: the processor switches to the stack of the entry
    when the privilege level changes, and saves what [iret] loads. *)
Definition deliver (e : entry) (err : option Z) (s : mach) : mach :=
  let s1 := match e.(e_stack) with
            | Some (ss, esp) => push s.(r_esp) (push s.(s_ss) (rset ESP esp (sset SS ss s)))
            | None => s
            end in
  let s2 := push s.(r_eip) (push s.(s_cs) (push s.(r_eflags) s1)) in
  let s3 := match err with Some v => push v s2 | None => s2 end in
  set_eip e.(e_eip) (sset CS e.(e_cs)
    (set_flags (if e.(e_if_off) then Z.land s.(r_eflags) (not32 FL_IF) else s.(r_eflags)) s3)).

(** A trap from its vector to the instruction that resumes. *)
Definition trap_path (n next : Z) (s : mach) : outcome :=
  match exec (vector n) s with
  | AtLabel "alltraps" s => exec (alltraps next) s
  | o => o
  end.

End exec.

(** ** Words on a stack *)

(** The words [l] are in memory from the address [a] on. *)
Definition words_at (m : memory) (a : Z) (l : list Z) : Prop :=
  ∀ k w, l !! k = Some w → load32 m (u32 (a + 4 * Z.of_nat k)) = w.

(** The stack pointer is [a], and the words [l] are on the stack. *)
Definition stacked (a : Z) (l : list Z) (s : mach) : Prop := s.(r_esp) = u32 a ∧ words_at s.(r_mem) a l.

Lemma words_at_app m a l1 l2 : words_at m a (l1 ++ l2) → words_at m (a + 4 * Z.of_nat (length l1)) l2.
Proof.
  intros H k w Hk. rewrite <- (H (length l1 + k)%nat w); [f_equal; f_equal; lia|]. rewrite lookup_app_r by lia.
  by replace (length l1 + k - length l1)%nat with k by lia.
Qed.

Lemma words_at_prefix m a l1 l2 : words_at m a (l1 ++ l2) → words_at m a l1.
Proof. intros H k w Hk. apply H. by apply lookup_app_l_Some. Qed.

(** Room for the words: the stack does not wrap around. *)
Definition fits (l : list Z) : Prop := 4 * Z.of_nat (length l) <= two32 - 8.

Lemma push_stacked a l v s : fits l → stacked a l s → stacked (a - 4) (u32 v :: l) (push v s).
Proof.
  intros Hf [He Hw]. assert (u32 (s.(r_esp) - 4) = u32 (a - 4)) as Ea by (rewrite He; apply u32_sub_l).
  assert (r_esp (push v s) = u32 (a - 4) ∧ r_mem (push v s) = store32 (r_mem s) (u32 (a - 4)) v) as [E1 E2] by (rewrite <- Ea; by destruct s).
  split; [done|]. rewrite E2.
  intros k w Hk. destruct k as [|k]; cbn in Hk.
  - injection Hk as <-. rewrite Z.add_0_r. apply load_store_same.
  - rewrite load_store_ne; [|].
    + rewrite <- (Hw k w Hk). f_equal. f_equal. lia.
    + rewrite u32_sub_l, u32_sub_r. replace (a - 4 + 4 * Z.of_nat (S k) - (a - 4)) with (4 * Z.of_nat (S k)) by lia.
      apply lookup_lt_Some in Hk. unfold fits in Hf. rewrite u32_id by (unfold word; lia). lia.
Qed.

Lemma top_stacked a l s k w : stacked a l s → l !! k = Some w → top (4 * Z.of_nat k) s = w.
Proof. intros [He Hw] Hk. unfold top. rewrite He, u32_add_l. by apply Hw. Qed.

Lemma top_at a l s z w : stacked a l s → (0 <=? z) && (z mod 4 =? 0) = true → l !! Z.to_nat (z / 4) = Some w → top z s = w.
Proof.
  intros H Hz Hl. apply andb_prop in Hz as [H0 H4]. apply Z.leb_le in H0. apply Z.eqb_eq in H4.
  rewrite <- (top_stacked _ _ s _ w H Hl). f_equal. rewrite Z2Nat.id by (apply Z.div_pos; lia). pose proof (Z.div_mod z 4). lia.
Qed.

Lemma drop_stacked a l1 l2 s : stacked a (l1 ++ l2) s → stacked (a + 4 * Z.of_nat (length l1)) l2 (drop_stack (4 * Z.of_nat (length l1)) s).
Proof.
  intros [He Hw]. split.
  - destruct s. cbn in *. subst. by rewrite u32_add_l.
  - destruct s. cbn in *. by apply words_at_app.
Qed.

Lemma esp_add k s : rset ESP (u32 (rget ESP s + k)) s = drop_stack k s.
Proof. by destruct s. Qed.

Lemma stacked_sset a l x v s : stacked a l s → stacked a l (sset x v s).
Proof. by destruct s, x. Qed.

Lemma stacked_rset a l r v s : r ≠ ESP → stacked a l s → stacked a l (rset r v s).
Proof. by destruct s, r. Qed.

Lemma stacked_nil a s : s.(r_esp) = u32 a → stacked a [] s.
Proof. intros H. split; [done|]. intros k w Hk. by rewrite lookup_nil in Hk. Qed.

(** ** Leaving the kernel *)

Definition tf_words (tf : trapframe) : list Z :=
  [tf.(tf_edi); tf.(tf_esi); tf.(tf_ebp); tf.(tf_oesp); tf.(tf_ebx); tf.(tf_edx); tf.(tf_ecx); tf.(tf_eax);
   tf.(tf_gs); tf.(tf_fs); tf.(tf_es); tf.(tf_ds); tf.(tf_trapno); tf.(tf_err); tf.(tf_eip); tf.(tf_cs); tf.(tf_eflags);
   tf.(tf_esp); tf.(tf_ss)].

(** The machine in user mode with the registers of a trap frame. *)
Definition user_of (tf : trapframe) (m : memory) : mach :=
  mkmach tf.(tf_eax) tf.(tf_ebx) tf.(tf_ecx) tf.(tf_edx) tf.(tf_esi) tf.(tf_edi) tf.(tf_ebp) tf.(tf_esp)
    (tf.(tf_cs) mod 65536) (keep_seg 3 (tf.(tf_ds) mod 65536)) (keep_seg 3 (tf.(tf_es) mod 65536))
    (keep_seg 3 (tf.(tf_fs) mod 65536)) (keep_seg 3 (tf.(tf_gs) mod 65536)) (tf.(tf_ss) mod 65536)
    tf.(tf_eip) tf.(tf_eflags) m.

Section correct.
Variable callee : string → mach → mach.

Lemma popal_stacked a di si bp sp bx dx cx ax l s : stacked a (di :: si :: bp :: sp :: bx :: dx :: cx :: ax :: l) s →
  popal s = rset EDI di (rset ESI si (rset EBP bp (rset EBX bx (rset EDX dx (rset ECX cx (rset EAX ax (drop_stack 32 s)))))))
  ∧ stacked (a + 32) l (popal s).
Proof.
  intros H. pose proof (fun z w => top_at _ _ s z w H) as Ht. split.
  - unfold popal. rewrite (Ht 0 di), (Ht 4 si), (Ht 8 bp), (Ht 16 bx), (Ht 20 dx), (Ht 24 cx), (Ht 28 ax) by done. done.
  - unfold popal. do 7 (apply stacked_rset; [done|]). exact (drop_stacked a [di; si; bp; sp; bx; dx; cx; ax] l s H).
Qed.

Lemma pop_stacked a w l s : stacked a (w :: l) s → top 0 s = w ∧ stacked (a + 4) l (drop_stack 4 s).
Proof. intros H. split; [exact (top_stacked _ _ s 0 w H eq_refl)|exact (drop_stacked a [w] l s H)]. Qed.

Lemma iret_user a ip cs fl sp ss l s : stacked a (ip :: cs :: fl :: sp :: ss :: l) s → rpl s.(s_cs) = 0 → rpl (cs mod 65536) = 3 →
  iret s = mkmach s.(r_eax) s.(r_ebx) s.(r_ecx) s.(r_edx) s.(r_esi) s.(r_edi) s.(r_ebp) sp (cs mod 65536)
    (keep_seg 3 s.(s_ds)) (keep_seg 3 s.(s_es)) (keep_seg 3 s.(s_fs)) (keep_seg 3 s.(s_gs)) (ss mod 65536) ip fl s.(r_mem).
Proof.
  intros H Hk Hu. pose proof (fun z w => top_at _ _ s z w H) as Ht. unfold iret.
  rewrite (Ht 0 ip), (Ht 4 cs), (Ht 8 fl), (Ht 12 sp), (Ht 16 ss) by done. rewrite Hk, Hu. by destruct s.
Qed.

Lemma iret_kernel a ip cs fl l s : stacked a (ip :: cs :: fl :: l) s → rpl s.(s_cs) = 0 → rpl (cs mod 65536) = 0 →
  iret s = drop_stack 12 (set_flags fl (set_eip ip (sset CS (cs mod 65536) s))).
Proof.
  intros H Hk Hu. pose proof (fun z w => top_at _ _ s z w H) as Ht. unfold iret.
  rewrite (Ht 0 ip), (Ht 4 cs), (Ht 8 fl) by done. rewrite Hk, Hu. done.
Qed.

Lemma u32_four x : u32 (u32 (u32 (u32 (x + 4) + 4) + 4) + 4) = u32 (x + 16).
Proof. rewrite u32_add_l, <- !Z.add_assoc, u32_add_l, <- Z.add_assoc, u32_add_l. f_equal. lia. Qed.

(** The four segment registers popped by [trapret] and [restoreuser]. *)
Lemma segs_exec a gs fs es ds l code s : stacked a (gs :: fs :: es :: ds :: l) s →
  ∃ s', exec callee (Popl_s GS :: Popl_s FS :: Popl_s ES :: Popl_s DS :: code) s = exec callee code s' ∧
    stacked (a + 16) l s' ∧
    s' = drop_stack 16 (sset DS (ds mod 65536) (sset ES (es mod 65536) (sset FS (fs mod 65536) (sset GS (gs mod 65536) s)))).
Proof.
  intros H. cbn [exec step].
  destruct (pop_stacked _ _ _ _ H) as [E1 H1]. rewrite E1. apply (stacked_sset _ _ GS (gs mod 65536)) in H1. set (s1 := sset GS _ _) in *.
  destruct (pop_stacked _ _ _ _ H1) as [E2 H2]. rewrite E2. apply (stacked_sset _ _ FS (fs mod 65536)) in H2. set (s2 := sset FS _ _) in *.
  destruct (pop_stacked _ _ _ _ H2) as [E3 H3]. rewrite E3. apply (stacked_sset _ _ ES (es mod 65536)) in H3. set (s3 := sset ES _ _) in *.
  destruct (pop_stacked _ _ _ _ H3) as [E4 H4]. rewrite E4. apply (stacked_sset _ _ DS (ds mod 65536)) in H4. set (s4 := sset DS _ _) in *.
  exists s4. split; [done|]. replace (a + 16) with (a + 4 + 4 + 4 + 4) by lia. split; [done|].
  unfold s4, s3, s2, s1. destruct s as [??????? sp ?????????]. cbn. by rewrite u32_four.
Qed.

(** [trapret] with a trap frame of a user program on the stack. *)
Lemma trapret_user a tf s : stacked a (tf_words tf) s → rpl s.(s_cs) = 0 → rpl (tf.(tf_cs) mod 65536) = 3 →
  exec callee trapret_code s = Resumes (user_of tf s.(r_mem)).
Proof.
  intros H Hk Hu. unfold trapret_code. cbn [exec step]. destruct (popal_stacked _ _ _ _ _ _ _ _ _ _ _ H) as [Ep Hp].
  destruct (segs_exec _ _ _ _ _ _ [Addl_i 8 ESP; Iret] _ Hp) as (s' & E & Hs & Es). cbn [exec step] in E. rewrite E. clear E.
  rewrite esp_add.
  pose proof (drop_stacked _ [tf.(tf_trapno); tf.(tf_err)] _ _ Hs) as Hd. change (4 * Z.of_nat (length [tf.(tf_trapno); tf.(tf_err)])) with 8 in Hd.
  f_equal. rewrite (iret_user _ _ _ _ _ _ _ _ Hd); [|subst s'; rewrite Ep; by destruct s|done].
  subst s'. rewrite Ep. by destruct s.
Qed.

(** ** Calls from C *)

(** The call of an assembly routine: the arguments from the last to the first,
    and the return address. *)
Definition ccall (args : list Z) (ra : Z) (s : mach) : mach := push ra (foldr push s args).

Lemma args_stacked a args : ∀ s, 4 * Z.of_nat (length args) <= two32 - 8 → s.(r_esp) = u32 a →
  stacked (a - 4 * Z.of_nat (length args)) (u32 <$> args) (foldr push s args).
Proof.
  induction args as [|v args IH]; intros s Hl Ha; cbn [foldr length].
  - rewrite Z.sub_0_r. by apply stacked_nil.
  - cbn [length] in Hl. pose proof (IH s ltac:(lia) Ha) as H. apply (push_stacked _ _ v) in H; [|unfold fits; rewrite length_fmap; lia].
    by replace (a - 4 * Z.of_nat (S (length args))) with (a - 4 * Z.of_nat (length args) - 4) by lia.
Qed.

Lemma ccall_stacked a args ra s : 4 * Z.of_nat (length args) <= two32 - 8 → s.(r_esp) = u32 a →
  stacked (a - 4 * Z.of_nat (length args) - 4) (u32 ra :: (u32 <$> args)) (ccall args ra s).
Proof. intros Hl Ha. apply push_stacked; [unfold fits; by rewrite length_fmap|]. by apply args_stacked. Qed.

Lemma words_fmap l : Forall word l → u32 <$> l = l.
Proof. induction 1 as [|x l Hx _ IH]; [done|]. cbn. by rewrite u32_id, IH. Qed.

(** A push changes the stack pointer and the memory only. *)
Definition with_stack (sp : Z) (m : memory) (s : mach) : mach :=
  mkmach s.(r_eax) s.(r_ebx) s.(r_ecx) s.(r_edx) s.(r_esi) s.(r_edi) s.(r_ebp) sp
    s.(s_cs) s.(s_ds) s.(s_es) s.(s_fs) s.(s_gs) s.(s_ss) s.(r_eip) s.(r_eflags) m.

Lemma ccall_with args ra s : ∃ sp m, ccall args ra s = with_stack sp m s.
Proof.
  unfold ccall. assert (∃ sp m, foldr push s args = with_stack sp m s) as (sp & m & ->).
  { induction args as [|v args (sp & m & IH)]; [by exists s.(r_esp), s.(r_mem); destruct s|]. cbn [foldr]. rewrite IH. by eexists _, _. }
  by eexists _, _.
Qed.

(** ** The jumps of the signal code *)

Definition jump_args (j : ujump) : list Z :=
  match j with
  | JmpToHandler h cs fl sp ss => [h; cs; fl; sp; ss]
  | RestoreUser edi esi ebp oesp ebx edx ecx eax gs fs es ds eip cs fl sp ss =>
    [edi; esi; ebp; oesp; ebx; edx; ecx; eax; gs; fs; es; ds; eip; cs; fl; sp; ss]
  end.

(** What the kernel does when the C code calls one of the two routines. *)
Definition perform (ra : Z) (j : ujump) (s : mach) : outcome :=
  exec callee (match j with JmpToHandler _ _ _ _ _ => jmptohandler_code | RestoreUser _ _ _ _ _ _ _ _ _ _ _ _ _ _ _ _ _ => restoreuser_code end)
    (ccall (jump_args j) ra s).

Definition restore_of (tf : trapframe) : ujump :=
  RestoreUser tf.(tf_edi) tf.(tf_esi) tf.(tf_ebp) tf.(tf_oesp) tf.(tf_ebx) tf.(tf_edx) tf.(tf_ecx) tf.(tf_eax)
    tf.(tf_gs) tf.(tf_fs) tf.(tf_es) tf.(tf_ds) tf.(tf_eip) tf.(tf_cs) tf.(tf_eflags) tf.(tf_esp) tf.(tf_ss).

(** [restoreuser] up to its [iret]. *)
Lemma restoreuser_pops ra tf s : word s.(r_esp) → Forall word (tf_words tf) →
  ∃ a k, perform ra (restore_of tf) s = Resumes (iret k) ∧
    stacked a [tf.(tf_eip); tf.(tf_cs); tf.(tf_eflags); tf.(tf_esp); tf.(tf_ss)] k ∧
    k = mkmach tf.(tf_eax) tf.(tf_ebx) tf.(tf_ecx) tf.(tf_edx) tf.(tf_esi) tf.(tf_edi) tf.(tf_ebp) k.(r_esp) s.(s_cs)
          (tf.(tf_ds) mod 65536) (tf.(tf_es) mod 65536) (tf.(tf_fs) mod 65536) (tf.(tf_gs) mod 65536) s.(s_ss) s.(r_eip) s.(r_eflags) k.(r_mem).
Proof.
  intros Hw Htf. unfold perform, restore_of. cbn [jump_args]. set (args := [_; _; _; _; _; _; _; _; _; _; _; _; _; _; _; _; _]).
  assert (u32 <$> args = args) as Ea.
  { apply words_fmap. unfold tf_words in Htf. rewrite !list.Forall_cons in Htf. unfold args. rewrite !list.Forall_cons. tauto. }
  pose proof (ccall_stacked s.(r_esp) args ra s ltac:(cbn; unfold two32; lia) ltac:(by rewrite u32_id)) as H. rewrite Ea in H.
  destruct (ccall_with args ra s) as (sp & m & Ec). rewrite Ec in *. set (k := with_stack sp m s) in *.
  unfold restoreuser_code. cbn [exec step]. rewrite esp_add.
  apply pop_stacked in H as [_ H]. destruct (popal_stacked _ _ _ _ _ _ _ _ _ _ _ H) as [Ep Hp].
  destruct (segs_exec _ _ _ _ _ _ [Iret] _ Hp) as (s' & E & Hs & Es). cbn [exec step] in E. rewrite E. clear E.
  eexists _, s'. split; [reflexivity|]. split; [exact Hs|]. subst s'. rewrite Ep. by destruct s.
Qed.

Lemma restoreuser_exec ra tf s : rpl s.(s_cs) = 0 → rpl (tf.(tf_cs) mod 65536) = 3 → word s.(r_esp) → Forall word (tf_words tf) →
  ∃ m, perform ra (restore_of tf) s = Resumes (user_of tf m).
Proof.
  intros Hk Hu Hw Htf. destruct (restoreuser_pops ra tf s Hw Htf) as (a & k & E & Hs & Ek). exists k.(r_mem). rewrite E. f_equal.
  rewrite (iret_user _ _ _ _ _ _ _ _ Hs); [|by rewrite Ek|done]. rewrite Ek. done.
Qed.

(** With the kernel's code segment in the context, [iret] stays in the kernel. *)
Lemma restoreuser_kernel ra tf s : rpl s.(s_cs) = 0 → tf.(tf_cs) = Z.shiftl SEG_KCODE 3 → word s.(r_esp) → Forall word (tf_words tf) →
  ∃ u, perform ra (restore_of tf) s = Resumes u ∧
    u.(r_eip) = tf.(tf_eip) ∧ u.(s_cs) = Z.shiftl SEG_KCODE 3 ∧ rpl u.(s_cs) = 0.
Proof.
  intros Hk Hu Hw Htf. destruct (restoreuser_pops ra tf s Hw Htf) as (a & k & E & Hs & Ek). rewrite E. eexists. split; [reflexivity|].
  rewrite Hu in Hs. rewrite (iret_kernel _ _ _ _ _ _ Hs); [|by rewrite Ek|done]. by destruct k.
Qed.

Lemma jmptohandler_exec ra h cs fl sp ss s : rpl s.(s_cs) = 0 → rpl (cs mod 65536) = 3 → word s.(r_esp) → Forall word [h; cs; fl; sp; ss] →
  ∃ m, perform ra (JmpToHandler h cs fl sp ss) s =
    Resumes (mkmach s.(r_eax) s.(r_ebx) s.(r_ecx) s.(r_edx) s.(r_esi) s.(r_edi) s.(r_ebp) sp (cs mod 65536)
      (keep_seg 3 s.(s_ds)) (keep_seg 3 s.(s_es)) (keep_seg 3 s.(s_fs)) (keep_seg 3 s.(s_gs)) (ss mod 65536) h fl m).
Proof.
  intros Hk Hu Hw Ha. unfold perform. cbn [jump_args]. set (args := [h; cs; fl; sp; ss]) in *.
  pose proof (ccall_stacked s.(r_esp) args ra s ltac:(cbn; unfold two32; lia) ltac:(by rewrite u32_id)) as H. rewrite (words_fmap _ Ha) in H.
  destruct (ccall_with args ra s) as (sp' & m & Ec). rewrite Ec in *. exists m. set (k := with_stack sp' m s) in *.
  unfold jmptohandler_code. cbn [exec step]. rewrite esp_add.
  apply pop_stacked in H as [_ H]. f_equal. by rewrite (iret_user _ _ _ _ _ _ _ _ H).
Qed.

(** ** Entering the kernel *)

(** Two words that do not overlap. *)
Definition apart (x y : Z) : Prop := 4 <= u32 (y - x) <= two32 - 4.

Lemma pushes_with vs : ∀ a m l s, words_at m a l → 4 * Z.of_nat (length vs + length l) <= two32 - 8 →
  ∃ m', foldl (flip push) (with_stack (u32 a) m s) vs = with_stack (u32 (a - 4 * Z.of_nat (length vs))) m' s ∧
    words_at m' (a - 4 * Z.of_nat (length vs)) (rev (u32 <$> vs) ++ l) ∧
    ∀ b, (∀ j, 1 <= j <= Z.of_nat (length vs) → apart (a - 4 * j) b) → load32 m' b = load32 m b.
Proof.
  induction vs as [|v vs IH]; intros a m l s Hw Hl; cbn [foldl length].
  - exists m. rewrite Z.sub_0_r. done.
  - cbn [length] in Hl. destruct (push_stacked a l v (with_stack (u32 a) m s)) as [E Hp]; [unfold fits; lia|by split|].
    assert (flip push (with_stack (u32 a) m s) v = with_stack (u32 (a - 4)) (r_mem (push v (with_stack (u32 a) m s))) s) as ->.
    { unfold flip. rewrite <- E. done. }
    destruct (IH (a - 4) _ _ s Hp) as (m' & E' & Hm' & Hfr); [cbn [length]; lia|]. exists m'.
    replace (a - 4 * Z.of_nat (S (length vs))) with (a - 4 - 4 * Z.of_nat (length vs)) by lia. split; [done|]. split.
    + change (rev (u32 <$> v :: vs)) with (rev (u32 <$> vs) ++ [u32 v]). by rewrite <- app_assoc.
    + intros b Hb. rewrite Hfr.
      * cbn [push with_stack r_mem]. apply load_store_ne. specialize (Hb 1 ltac:(lia)). unfold apart in Hb.
        rewrite u32_sub_r. replace (b - (u32 a - 4)) with (b + 4 - u32 a) by lia. rewrite u32_sub_r.
        by replace (b + 4 - a) with (b - (a - 4 * 1)) by lia.
      * intros j Hj. replace (a - 4 - 4 * j) with (a - 4 * (j + 1)) by lia. apply Hb. lia.
Qed.

(** The trap frame of an interrupted user program. *)
Definition frame_of (esp0 n : Z) (err : option Z) (s : mach) : trapframe :=
  mktf s.(r_edi) s.(r_esi) s.(r_ebp) (u32 (esp0 - 44)) s.(r_ebx) s.(r_edx) s.(r_ecx) s.(r_eax) s.(s_gs) s.(s_fs) s.(s_es) s.(s_ds)
    n (default 0 err) s.(r_eip) s.(s_cs) s.(r_eflags) s.(r_esp) s.(s_ss).

(** What the processor and the entry code push, in order. *)
Definition entry_words (n : Z) (err : option Z) (s : mach) : list Z :=
  [s.(s_ss); s.(r_esp); s.(r_eflags); s.(s_cs); s.(r_eip); default 0 err; n; s.(s_ds); s.(s_es); s.(s_fs); s.(s_gs)].

Definition entered (e : entry) (ss0 : Z) (s : mach) : mach :=
  set_eip e.(e_eip) (sset CS e.(e_cs) (set_flags (if e.(e_if_off) then Z.land s.(r_eflags) (not32 FL_IF) else s.(r_eflags)) (sset SS ss0 s))).

Lemma to_trap_exec next code k : let kd := Z.shiftl SEG_KDATA 3 in
  exec callee (Movw_i kd EAX :: Movw_s EAX DS :: Movw_s EAX ES :: Pushl ESP :: Call "trap" next :: code) k =
    exec callee code (callee "trap" (push next (push k.(r_esp) (sset ES kd (sset DS kd (rset EAX (k.(r_eax) / 65536 * 65536 + kd) k)))))).
Proof.
  intros kd. assert (∀ z, (z / 65536 * 65536 + kd) mod 65536 = kd) as Hkd.
  { intros z. rewrite Z.add_comm, Z.mod_add by lia. reflexivity. }
  destruct k. cbn [exec step rget sget rset sset r_eax]. by rewrite !Hkd.
Qed.

Lemma alltraps_exec next y :
  let k := pushal (push y.(s_gs) (push y.(s_fs) (push y.(s_es) (push y.(s_ds) y)))) in
  let kd := Z.shiftl SEG_KDATA 3 in
  exec callee (alltraps next) y =
    exec callee (Addl_i 4 ESP :: trapret_code)
      (callee "trap" (push next (push k.(r_esp) (sset ES kd (sset DS kd (rset EAX (k.(r_eax) / 65536 * 65536 + kd) k)))))).
Proof.
  intros k kd. unfold alltraps. cbn [app]. rewrite <- to_trap_exec. generalize (Addl_i 4 ESP :: trapret_code). intros code.
  unfold k. by destruct y.
Qed.

Lemma vector_exec e ss0 esp0 n err s : e.(e_stack) = Some (ss0, esp0) → (is_Some err ↔ has_error n = true) →
  exec callee (vector n) (deliver e err s) = AtLabel "alltraps" (foldl (flip push) (with_stack esp0 s.(r_mem) (entered e ss0 s)) (take 7 (entry_words n err s))).
Proof.
  intros He Herr. unfold deliver, vector, entered. rewrite He. cbn [take entry_words foldl flip].
  destruct (has_error n) eqn:En.
  - destruct err as [v|]; [|by destruct (proj2 Herr eq_refl)]. cbn [app exec step default from_option]. by destruct s.
  - destruct err as [v|]; [by pose proof (proj1 Herr (ex_intro _ v eq_refl))|]. cbn [app exec step default from_option]. by destruct s.
Qed.

Lemma entry_exec e ss0 esp0 n next err s : e.(e_stack) = Some (ss0, esp0) → (is_Some err ↔ has_error n = true) →
  let k := pushal (foldl (flip push) (with_stack esp0 s.(r_mem) (entered e ss0 s)) (entry_words n err s)) in
  let kd := Z.shiftl SEG_KDATA 3 in
  trap_path callee n next (deliver e err s) =
    exec callee (Addl_i 4 ESP :: trapret_code)
      (callee "trap" (push next (push k.(r_esp) (sset ES kd (sset DS kd (rset EAX (k.(r_eax) / 65536 * 65536 + kd) k)))))).
Proof.
  intros He Herr k kd. unfold trap_path. rewrite (vector_exec e ss0 esp0 n err s He Herr). rewrite alltraps_exec.
  assert (k = pushal (let y := foldl (flip push) (with_stack esp0 s.(r_mem) (entered e ss0 s)) (take 7 (entry_words n err s)) in
    push y.(s_gs) (push y.(s_fs) (push y.(s_es) (push y.(s_ds) y))))) as ->; [|done].
  unfold k, entered. cbn [take entry_words foldl flip]. by destruct s.
Qed.

(** The stack when [trap] is called. *)
Lemma entry_stacked e ss0 esp0 n err s : word esp0 → Forall word (tf_words (frame_of esp0 n err s)) →
  let k := pushal (foldl (flip push) (with_stack esp0 s.(r_mem) (entered e ss0 s)) (entry_words n err s)) in
  stacked (esp0 - 76) (tf_words (frame_of esp0 n err s)) k ∧ k.(s_cs) = e.(e_cs).
Proof.
  intros He Hw k. 
  destruct (pushes_with (entry_words n err s) esp0 s.(r_mem) [] (entered e ss0 s)) as (m & E & Hm & _);
    [intros ? ? Hk; by rewrite lookup_nil in Hk|unfold two32; cbn; lia|].
  rewrite u32_id in E by done. cbn [length entry_words] in E, Hm. change (4 * Z.of_nat 11) with 44 in *.
  set (x := entered e ss0 s) in *.
  destruct (pushes_with [x.(r_eax); x.(r_ecx); x.(r_edx); x.(r_ebx); u32 (esp0 - 44); x.(r_ebp); x.(r_esi); x.(r_edi)] (esp0 - 44) m _ x Hm) as (m' & E' & Hm' & _);
    [unfold two32; cbn; lia|].
  cbn [length] in E', Hm'. replace (esp0 - 44 - 4 * Z.of_nat 8) with (esp0 - 76) in * by lia.
  assert (k = with_stack (u32 (esp0 - 76)) m' x) as Ek.
  { unfold k. fold x.
    rewrite E, <- E'. reflexivity. }
  rewrite Ek. split; [|unfold x, entered; by destruct s]. split; [done|]. cbn [with_stack r_mem].
  rewrite <- (words_fmap _ Hw). clear - Hm'. unfold x, entered in Hm'. destruct s. exact Hm'.
Qed.

(** A frame that describes a user program gives back its registers. *)
Lemma user_of_frame esp0 n err s m : Forall (λ v, 0 <= v < 65536) [s.(s_cs); s.(s_ds); s.(s_es); s.(s_fs); s.(s_gs); s.(s_ss)] →
  Forall (λ v, keep_seg 3 v = v) [s.(s_ds); s.(s_es); s.(s_fs); s.(s_gs)] →
  user_of (frame_of esp0 n err s) m = set_memory m s.
Proof.
  intros Hw Hk. do 6 (apply list.Forall_cons in Hw as [? Hw]). do 4 (apply list.Forall_cons in Hk as [? Hk]).
  destruct s. unfold user_of, frame_of. cbn in *. rewrite !Z.mod_small by done. by f_equal.
Qed.

(** C12: A trap or interrupt [n] of a user program, from the
    processor's entry through [vectors.S] and [alltraps], calls [trap] with a
    pointer to a trap frame that holds all registers of the program, the vector
    and the error code (0 where the processor pushes none), with the kernel's
    data segments loaded.  When [trap] returns and has left the frame [tf']
    there, [trapret] resumes the program with exactly the registers of [tf'];
    if the frame is unchanged the program continues as if nothing had happened. *)
Theorem trap_round_trip e ss0 esp0 n next err s tf' :
  0 <= n < 256 → e.(e_stack) = Some (ss0, esp0) → rpl e.(e_cs) = 0 → (is_Some err ↔ has_error n = true) →
  word esp0 → word next → Forall word (tf_words (frame_of esp0 n err s)) → rpl (tf'.(tf_cs) mod 65536) = 3 →
  (∀ k, stacked (esp0 - 84) (next :: u32 (esp0 - 76) :: tf_words (frame_of esp0 n err s)) k →
     k.(s_cs) = e.(e_cs) → k.(s_ds) = Z.shiftl SEG_KDATA 3 → k.(s_es) = Z.shiftl SEG_KDATA 3 →
     (callee "trap" k).(r_esp) = u32 (esp0 - 80) ∧ (callee "trap" k).(s_cs) = e.(e_cs) ∧
     words_at (callee "trap" k).(r_mem) (esp0 - 76) (tf_words tf')) →
  ∃ m, trap_path callee n next (deliver e err s) = Resumes (user_of tf' m) ∧
    (tf' = frame_of esp0 n err s →
     Forall (λ v, 0 <= v < 65536) [s.(s_cs); s.(s_ds); s.(s_es); s.(s_fs); s.(s_gs); s.(s_ss)] →
     Forall (λ v, keep_seg 3 v = v) [s.(s_ds); s.(s_es); s.(s_fs); s.(s_gs)] →
     user_of tf' m = set_memory m s).
Proof.
  intros Hn He Hc Herr Hw Hnx Hf Hu Hcall. rewrite (entry_exec e ss0 esp0 n next err s He Herr).
  destruct (entry_stacked e ss0 esp0 n err s Hw Hf) as [Hs Hcs]. set (k := pushal _) in *. set (kd := Z.shiftl SEG_KDATA 3) in *.
  set (k1 := sset ES kd _). assert (stacked (esp0 - 76) (tf_words (frame_of esp0 n err s)) k1) as H1.
  { unfold k1. apply stacked_sset, stacked_sset, stacked_rset; done. }
  assert (r_esp k = u32 (esp0 - 76)) as -> by apply Hs.
  apply (push_stacked _ _ (u32 (esp0 - 76))) in H1; [|unfold fits, two32; cbn; lia]. apply (push_stacked _ _ next) in H1; [|unfold fits, two32; cbn; lia].
  rewrite (u32_id next), u32_idem in H1 by done. replace (esp0 - 76 - 4 - 4) with (esp0 - 84) in H1 by lia.
  set (k2 := push next _) in *. destruct (Hcall k2 H1) as (Er & Ec & Hm).
  { rewrite <- Hcs. unfold k2, k1. by destruct k. }
  { unfold k2, k1. by destruct k. }
  { unfold k2, k1. by destruct k. }
  set (o := callee "trap" k2) in *. exists o.(r_mem). split; [|intros ->; apply user_of_frame].
  cbn [exec step]. rewrite esp_add. rewrite (trapret_user (esp0 - 76) tf'); [by destruct o| | |done].
  - split; [|by destruct o]. destruct o. cbn in *. rewrite Er, u32_add_l. f_equal. lia.
  - rewrite <- Hc, <- Ec. by destruct o.
Qed.

(** ** Context switches *)

Definition ctx_words (c : context) : list Z := [c.(ctx_edi); c.(ctx_esi); c.(ctx_ebx); c.(ctx_ebp); c.(ctx_eip)].

(** The caller's context as [swtch] saves it. *)
Definition ctx_of (ra : Z) (s : mach) : context := mkctx s.(r_edi) s.(r_esi) s.(r_ebx) s.(r_ebp) ra.

(** The callee-saved registers, the stack pointer and the next instruction
    after a context has been loaded. *)
Definition runs_ctx (c : context) (sp : Z) (s : mach) : Prop :=
  s.(r_edi) = c.(ctx_edi) ∧ s.(r_esi) = c.(ctx_esi) ∧ s.(r_ebx) = c.(ctx_ebx) ∧ s.(r_ebp) = c.(ctx_ebp) ∧
  s.(r_eip) = c.(ctx_eip) ∧ s.(r_esp) = sp.

Lemma words_at_store m a l x v : (∀ k, (k < length l)%nat → apart x (a + 4 * Z.of_nat k)) → words_at m a l → words_at (store32 m x v) a l.
Proof.
  intros Hx Hw k w Hk. rewrite load_store_ne; [by apply Hw|]. rewrite u32_sub_l. apply Hx. by eapply lookup_lt_Some.
Qed.

Lemma exec_cons i code s s' : step callee i s = inl s' → exec callee (i :: code) s = exec callee code s'.
Proof. intros H. cbn [exec]. by rewrite H. Qed.

Lemma save_exec code s : exec callee (Pushl EBP :: Pushl EBX :: Pushl ESI :: Pushl EDI :: code) s =
  exec callee code (foldl (flip push) s [s.(r_ebp); s.(r_ebx); s.(r_esi); s.(r_edi)]).
Proof. by destruct s. Qed.

Lemma load_exec a c s : stacked a (ctx_words c) s → ∃ s', exec callee [Popl EDI; Popl ESI; Popl EBX; Popl EBP; Ret_] s = Resumes s' ∧
  runs_ctx c (u32 (a + 20)) s' ∧ s'.(r_mem) = s.(r_mem).
Proof.
  intros H. cbn [exec step]. unfold ctx_words in H.
  destruct (pop_stacked _ _ _ _ H) as [E1 H1]. rewrite E1. apply (stacked_rset _ _ EDI c.(ctx_edi)) in H1; [|done]. set (s1 := rset EDI _ _) in *.
  destruct (pop_stacked _ _ _ _ H1) as [E2 H2]. rewrite E2. apply (stacked_rset _ _ ESI c.(ctx_esi)) in H2; [|done]. set (s2 := rset ESI _ _) in *.
  destruct (pop_stacked _ _ _ _ H2) as [E3 H3]. rewrite E3. apply (stacked_rset _ _ EBX c.(ctx_ebx)) in H3; [|done]. set (s3 := rset EBX _ _) in *.
  destruct (pop_stacked _ _ _ _ H3) as [E4 H4]. rewrite E4. apply (stacked_rset _ _ EBP c.(ctx_ebp)) in H4; [|done]. set (s4 := rset EBP _ _) in *.
  destruct (pop_stacked _ _ _ _ H4) as [E5 [H5 _]]. rewrite E5. eexists. split; [reflexivity|].
  replace (a + 4 + 4 + 4 + 4 + 4) with (a + 20) in H5 by lia.
  split; [|unfold s4, s3, s2, s1; by destruct s]. unfold runs_ctx. rewrite <- H5. clear. unfold s4, s3, s2, s1. by destruct s.
Qed.

Lemma words_at_set m a l k v : words_at m a l → fits l → (k < length l)%nat →
  words_at (store32 m (u32 (a + 4 * Z.of_nat k)) v) a (<[k := u32 v]> l).
Proof.
  intros Hw Hf Hk j w Hj. destruct (decide (j = k)) as [->|Hne].
  - rewrite list_lookup_insert_eq in Hj by done. injection Hj as <-. apply load_store_same.
  - rewrite list_lookup_insert_ne in Hj by done. rewrite load_store_ne; [by apply Hw|]. apply lookup_lt_Some in Hj.
    rewrite u32_sub_l, u32_sub_r. unfold fits in Hf. replace (a + 4 * Z.of_nat j - (a + 4 * Z.of_nat k)) with (4 * (Z.of_nat j - Z.of_nat k)) by lia.
    unfold u32, two32 in *. destruct (decide (k < j)%nat); [rewrite Z.mod_small by lia; lia|].
    rewrite <- (Z.mod_add _ 1), Z.mod_small by lia. lia.
Qed.

Lemma swtch_exec a ra old new c s : stacked a [ra; old; new] s → Forall word [s.(r_edi); s.(r_esi); s.(r_ebx); s.(r_ebp)] →
  words_at s.(r_mem) new (ctx_words c) → word old → word new →
  (∀ k, 0 <= k < 5 → apart old (new + 4 * k)) → (∀ k j, 0 <= k < 5 → 1 <= j <= 4 → apart (a - 4 * j) (new + 4 * k)) →
  (∀ k, 0 <= k < 5 → apart old (a - 16 + 4 * k)) →
  ∃ s', exec callee swtch_code s = Resumes s' ∧ runs_ctx c (u32 (new + 20)) s' ∧
    load32 s'.(r_mem) old = u32 (a - 16) ∧ words_at s'.(r_mem) (a - 16) (ctx_words (ctx_of ra s)).
Proof.
  intros Hs Hr Hc Ho Hn H1 H2 H3. unfold swtch_code.
  pose proof (fun z w => top_at _ _ s z w Hs) as Ht. unfold top in Ht.
  rewrite (exec_cons _ _ _ (rset EAX old s)) by (cbn [step rget]; rewrite (Ht 4 old) by done; done).
  rewrite (exec_cons _ _ _ (rset EDX new (rset EAX old s))) by (cbn [step]; rewrite <- (Ht 8 new) at 1 by done; by destruct s).
  rewrite save_exec. set (s1 := rset EDX new (rset EAX old s)). destruct Hs as [He Hw].
  assert (s1 = with_stack (u32 a) s.(r_mem) s1) as Es by (rewrite <- He; unfold s1; by destruct s).
  destruct (pushes_with [s1.(r_ebp); s1.(r_ebx); s1.(r_esi); s1.(r_edi)] a s.(r_mem) _ s1 Hw) as (m & E & Hm & Hf); [unfold two32; cbn; lia|].
  rewrite <- Es in E. rewrite E. cbn [length] in *. change (4 * Z.of_nat 4) with 16 in *.
  assert (s1.(r_eax) = old ∧ s1.(r_edx) = new) as [Ea Ed] by (unfold s1; by destruct s).
  rewrite (exec_cons _ _ _ (with_stack (u32 (a - 16)) (store32 m old (u32 (a - 16))) s1)).
  2:{ cbn [step with_stack rget r_esp r_eax r_mem set_memory]. unfold with_stack. by rewrite Ea, Z.add_0_r, (u32_id old). }
  rewrite (exec_cons _ _ _ (with_stack new (store32 m old (u32 (a - 16))) s1)).
  2:{ cbn [step with_stack rget r_edx rset]. unfold with_stack. by rewrite Ed. }
  destruct (load_exec new c (with_stack new (store32 m old (u32 (a - 16))) s1)) as (s' & Ex & Hrun & Hmem).
  { split; [symmetry; by apply u32_id|]. cbn [with_stack r_mem]. apply words_at_store; [intros k Hk; apply H1; cbn in Hk; lia|].
    intros k w Hk. rewrite Hf; [by apply Hc|]. intros j Hj. pose proof (lookup_lt_Some _ _ _ Hk) as Hl. cbn in Hl.
    specialize (H2 (Z.of_nat k) j ltac:(lia) ltac:(lia)). unfold apart in *. by rewrite u32_sub_l. }
  exists s'. split; [exact Ex|]. split; [exact Hrun|]. rewrite Hmem. cbn [with_stack r_mem]. split.
  - rewrite load_store_same. apply u32_idem.
  - apply words_at_store; [intros k Hk; apply H3; cbn in Hk; lia|].
    assert (ctx_words (ctx_of ra s) = rev (u32 <$> [s1.(r_ebp); s1.(r_ebx); s1.(r_esi); s1.(r_edi)]) ++ [ra]) as ->.
    { rewrite words_fmap; [unfold s1; by destruct s|]. unfold s1. rewrite !list.Forall_cons in *. destruct s. cbn in *. tauto. }
    apply (words_at_prefix _ _ _ [old; new]). by rewrite <- app_assoc.
Qed.

(** C14: [swtch] saves the callee-saved registers and the
    return address of the caller on its stack, stores the address of that
    context where the first argument points, and runs the context of the second
    argument; and when later any other thread switches to the saved context,
    which is still in memory, the first caller continues behind its call with
    the same callee-saved registers and stack. *)
Theorem swtch_round_trip a ra old new c s : stacked a [ra; old; new] s → Forall word [s.(r_edi); s.(r_esi); s.(r_ebx); s.(r_ebp)] →
  words_at s.(r_mem) new (ctx_words c) → word old → word new →
  (∀ k, 0 <= k < 5 → apart old (new + 4 * k)) → (∀ k j, 0 <= k < 5 → 1 <= j <= 4 → apart (a - 4 * j) (new + 4 * k)) →
  (∀ k, 0 <= k < 5 → apart old (a - 16 + 4 * k)) →
  ∃ s', exec callee swtch_code s = Resumes s' ∧ runs_ctx c (u32 (new + 20)) s' ∧
    load32 s'.(r_mem) old = u32 (a - 16) ∧
    ∀ t b rb oldb, stacked b [rb; oldb; u32 (a - 16)] t → Forall word [t.(r_edi); t.(r_esi); t.(r_ebx); t.(r_ebp)] → word oldb →
      (∀ k, 0 <= k < 5 → load32 t.(r_mem) (u32 (a - 16 + 4 * k)) = load32 s'.(r_mem) (u32 (a - 16 + 4 * k))) →
      (∀ k, 0 <= k < 5 → apart oldb (u32 (a - 16) + 4 * k)) → (∀ k j, 0 <= k < 5 → 1 <= j <= 4 → apart (b - 4 * j) (u32 (a - 16) + 4 * k)) →
      (∀ k, 0 <= k < 5 → apart oldb (b - 16 + 4 * k)) →
      ∃ t', exec callee swtch_code t = Resumes t' ∧ runs_ctx (ctx_of ra s) (u32 (a + 4)) t'.
Proof.
  intros Hs Hr Hc Ho Hn H1 H2 H3. destruct (swtch_exec a ra old new c s) as (s' & E & Hrun & Hold & Hctx); [done..|].
  exists s'. split; [done|]. split; [done|]. split; [done|]. intros t b rb oldb Ht Hrt Hob Hmem G1 G2 G3.
  destruct (swtch_exec b rb oldb (u32 (a - 16)) (ctx_of ra s) t) as (t' & E' & Hrun' & _); [done|done| |done|apply u32_word|done|done|done|].
  - intros k w Hk. rewrite u32_add_l. rewrite Hmem by (apply lookup_lt_Some in Hk; cbn in Hk; lia). by apply Hctx.
  - exists t'. split; [done|]. rewrite u32_add_l in Hrun'. by replace (a - 16 + 20) with (a + 4) in Hrun' by lia.
Qed.

(** ** The first run of a process

    [allocproc] leaves on the new kernel stack, from the top: room for the trap
    frame, the address of [trapret], and a context that continues in [forkret]. *)

Lemma first_run a ra old kstack fr tr tf s : let top_ := kstack + KSTACKSIZE in
  let new := u32 (top_ - sizeof_trapframe - 4 - sizeof_context) in
  stacked a [ra; old; new] s → Forall word [s.(r_edi); s.(r_esi); s.(r_ebx); s.(r_ebp)] → word old →
  words_at s.(r_mem) new (ctx_words (mkctx 0 0 0 0 fr)) →
  (∀ k, 0 <= k < 5 → apart old (new + 4 * k)) → (∀ k j, 0 <= k < 5 → 1 <= j <= 4 → apart (a - 4 * j) (new + 4 * k)) →
  (∀ k, 0 <= k < 5 → apart old (a - 16 + 4 * k)) →
  ∃ s', exec callee swtch_code s = Resumes s' ∧ s'.(r_eip) = fr ∧ s'.(r_esp) = u32 (top_ - sizeof_trapframe - 4) ∧
    ∀ t, t.(r_esp) = s'.(r_esp) → rpl t.(s_cs) = 0 → words_at t.(r_mem) (top_ - sizeof_trapframe - 4) (tr :: tf_words tf) →
      rpl (tf.(tf_cs) mod 65536) = 3 →
      ∃ t', exec callee [Ret_] t = Resumes t' ∧ t'.(r_eip) = tr ∧ exec callee trapret_code t' = Resumes (user_of tf t.(r_mem)).
Proof.
  intros top_ new Hs Hr Ho Hc H1 H2 H3. destruct (swtch_exec a ra old new _ s Hs Hr Hc Ho (u32_word _) H1 H2 H3) as (s' & E & (_ & _ & _ & _ & Eip & Esp) & _).
  exists s'. split; [done|]. split; [done|]. split.
  { rewrite Esp. unfold new. rewrite u32_add_l. f_equal. unfold sizeof_context. lia. }
  intros t Et Hk Hw Hu. rewrite Esp in Et. unfold new in Et. rewrite u32_add_l in Et.
  assert (stacked (top_ - sizeof_trapframe - 4) (tr :: tf_words tf) t) as Ht.
  { split; [|done]. rewrite Et. f_equal. unfold sizeof_context. lia. }
  cbn [exec step]. destruct (pop_stacked _ _ _ _ Ht) as [E0 Hd]. rewrite E0. eexists. split; [reflexivity|]. split; [by destruct t|].
  etrans; [eapply (trapret_user (top_ - sizeof_trapframe - 4 + 4) tf); [|by destruct t|done]|by destruct t]. destruct Hd. split; by destruct t.
Qed.

(** ** System calls *)

(** A stub: the number in [eax], the caller's arguments above the return
    address, and a normal return with the kernel's result. *)
Lemma stub_exec a ra args num s : stacked a (ra :: args) s →
  exec callee (stub num) s = Interrupts T_SYSCALL (rset EAX num s) ∧
  stacked a (ra :: args) (rset EAX num s) ∧
  ∀ t, stacked a (ra :: args) t → ∃ t', exec callee [Ret_] t = Resumes t' ∧ t'.(r_eip) = ra ∧ t'.(r_esp) = u32 (a + 4) ∧ t'.(r_eax) = t.(r_eax).
Proof.
  intros Hs. split; [done|]. split; [by apply stacked_rset|]. intros t Ht. cbn [exec step].
  destruct (pop_stacked _ _ _ _ Ht) as [E [Hd _]]. rewrite E. eexists. split; [reflexivity|]. rewrite <- Hd. by destruct t.
Qed.


(** The first instructions of the first process pass the path and the argument
    vector of [init] to [exec]. *)
Lemma initcode_exec a argv init num s : s.(r_esp) = u32 a → word argv → word init →
  ∃ s', exec callee (initcode_start argv init num) s = Interrupts T_SYSCALL s' ∧ s'.(r_eax) = num ∧ stacked (a - 12) [0; init; argv] s'.
Proof.
  intros He Ha Hi. pose proof (args_stacked a [0; init; argv] s ltac:(unfold two32; cbn; lia) He) as H. cbn [length foldr] in H.
  change (4 * Z.of_nat 3) with 12 in H. assert (word 0) by (unfold word, two32; lia). rewrite words_fmap in H by (by repeat apply Forall_cons_2).
  eexists. split; [reflexivity|]. split; [by destruct s|]. apply stacked_rset; [done|exact H].
Qed.

(** ** Signals down to the registers *)

(** The context that [psig] has saved on the user stack. *)
Definition saved_words (tf : trapframe) : list Z :=
  [tf.(tf_edi); tf.(tf_esi); tf.(tf_ebp); tf.(tf_oesp); tf.(tf_ebx); tf.(tf_edx); tf.(tf_ecx); tf.(tf_eax);
   tf.(tf_gs); tf.(tf_fs); tf.(tf_es); tf.(tf_ds); tf.(tf_eip); tf.(tf_cs); tf.(tf_eflags); tf.(tf_esp); tf.(tf_ss)].

Lemma sigreturn_jump i b tf s : s.(curproc) = Some i → (get_proc i s).(p_tf).(tf_esp) = u32 b →
  words_at s.(mem) (b + 4) (saved_words tf) → kernel_sigreturn s = Jump (restore_of tf) s.
Proof.
  intros Hc He Hw.
  unfold kernel_sigreturn, State.myproc. rewrite bind_get, Hc. unfold getp. rewrite bind_get, He, bind_get.
  assert (∀ (n : nat) v, saved_words tf !! n = Some v → load32 (mem s) (u32 (u32 b + (4 + 4 * Z.of_nat n))) = v) as Hl.
  { intros n v Hv. rewrite u32_add_l, Z.add_assoc. by apply Hw. }
  unfold restore_of. f_equal. f_equal;
  [exact (Hl 0%nat _ eq_refl)|exact (Hl 1%nat _ eq_refl)|exact (Hl 2%nat _ eq_refl)|exact (Hl 3%nat _ eq_refl)|exact (Hl 4%nat _ eq_refl)|exact (Hl 5%nat _ eq_refl)|exact (Hl 6%nat _ eq_refl)|exact (Hl 7%nat _ eq_refl)|exact (Hl 8%nat _ eq_refl)|exact (Hl 9%nat _ eq_refl)|exact (Hl 10%nat _ eq_refl)|exact (Hl 11%nat _ eq_refl)|exact (Hl 12%nat _ eq_refl)|exact (Hl 13%nat _ eq_refl)|exact (Hl 14%nat _ eq_refl)|exact (Hl 15%nat _ eq_refl)|exact (Hl 16%nat _ eq_refl)].
Qed.

(** C3: When a process enters [sigreturn] with the stack pointer
    at the handler's argument and the saved context above it, the kernel resumes
    it, through [restoreuser], with exactly the registers of that context. *)
Theorem sigreturn_resumes i b ra tf s k : s.(curproc) = Some i → (get_proc i s).(p_tf).(tf_esp) = u32 b →
  words_at s.(mem) (b + 4) (saved_words tf) → Forall word (tf_words tf) → rpl (tf.(tf_cs) mod 65536) = 3 →
  rpl k.(s_cs) = 0 → word k.(r_esp) →
  ∃ j m, kernel_sigreturn s = Jump j s ∧ perform ra j k = Resumes (user_of tf m).
Proof.
  intros Hc He Hw Htf Hu Hk Hsp. destruct (restoreuser_exec ra tf k Hk Hu Hsp Htf) as (m & E). eexists _, m. split; [|exact E].
  by apply (sigreturn_jump i b).
Qed.

(** C4: [kernel_sigreturn] takes the code segment from the user
    stack without looking at it.  A program that enters [sigreturn] with the
    kernel's code segment in the word where the context keeps it, and any address
    in the word of the instruction pointer, continues at that address with kernel
    privilege. *)
Theorem sigreturn_kernel_mode i b ra tf s k : s.(curproc) = Some i → (get_proc i s).(p_tf).(tf_esp) = u32 b →
  words_at s.(mem) (b + 4) (saved_words tf) → Forall word (tf_words tf) → tf.(tf_cs) = Z.shiftl SEG_KCODE 3 →
  rpl k.(s_cs) = 0 → word k.(r_esp) →
  ∃ j u, kernel_sigreturn s = Jump j s ∧ perform ra j k = Resumes u ∧ u.(r_eip) = tf.(tf_eip) ∧ u.(s_cs) = Z.shiftl SEG_KCODE 3 ∧ rpl u.(s_cs) = 0.
Proof.
  intros Hc He Hw Htf Hcs Hk Hsp. destruct (restoreuser_kernel ra tf k Hk Hcs Hsp Htf) as (u & E & Hu).
  eexists _, u. split; [|split; [exact E|exact Hu]]. by apply (sigreturn_jump i b).
Qed.

(** C5: [jmptohandler] does not load the data segment
    registers.  In the kernel they hold the selector that [alltraps] has loaded,
    of a segment that user mode may not use, so that the return to user mode makes
    them null: the handler starts at its address and on its stack, with null
    selectors in [ds] and [es] and the kernel's values in the general registers. *)
Theorem handler_without_data_segments ra h cs fl sp ss k :
  rpl k.(s_cs) = 0 → k.(s_ds) = Z.shiftl SEG_KDATA 3 → k.(s_es) = Z.shiftl SEG_KDATA 3 → word k.(r_esp) →
  Forall word [h; cs; fl; sp; ss] → rpl (cs mod 65536) = 3 →
  ∃ u, perform ra (JmpToHandler h cs fl sp ss) k = Resumes u ∧ u.(r_eip) = h ∧ u.(r_esp) = sp ∧ u.(s_cs) = cs mod 65536 ∧
    u.(s_ds) = 0 ∧ u.(s_es) = 0 ∧ u.(r_eax) = k.(r_eax) ∧ u.(r_ebx) = k.(r_ebx) ∧ u.(r_ebp) = k.(r_ebp).
Proof.
  intros Hk Hd He Hsp Hw Hu. destruct (jmptohandler_exec ra h cs fl sp ss k Hk Hu Hsp Hw) as (m & E). eexists. split; [exact E|].
  cbn. by rewrite Hd, He.
Qed.

End correct.

(** ** Concrete runs *)

(** A user program, a kernel stack, and a [trap] that returns at once. *)
Definition demo_user : mach :=
  mkmach 11 12 13 14 15 16 17 12288 27 35 35 0 0 35 4660 514 (fun _ => 0).
Definition demo_entry : entry := mkentry 2148532864 8 0 (Some (16, 2149004096)) false.
Definition demo_callee (f : string) (s : mach) : mach := drop_stack 4 s.

Lemma demo_return : ∀ k, stacked (2149004096 - 84) (2148532000 :: u32 (2149004096 - 76) :: tf_words (frame_of 2149004096 64 None demo_user)) k →
  k.(s_cs) = 8 → k.(s_ds) = Z.shiftl SEG_KDATA 3 → k.(s_es) = Z.shiftl SEG_KDATA 3 →
  (demo_callee "trap" k).(r_esp) = u32 (2149004096 - 80) ∧ (demo_callee "trap" k).(s_cs) = 8 ∧
  words_at (demo_callee "trap" k).(r_mem) (2149004096 - 76) (tf_words (frame_of 2149004096 64 None demo_user)).
Proof.
  intros k [He Hw] Hc _ _. destruct k. cbn [r_esp r_mem s_cs demo_callee drop_stack] in *. subst. split; [done|]. split; [done|].
  exact (words_at_app _ _ [_; _] _ Hw).
Qed.

Lemma trap_round_trip_witness : ∃ m,
  trap_path demo_callee 64 2148532000 (deliver demo_entry None demo_user) = Resumes (set_memory m demo_user).
Proof.
  destruct (trap_round_trip demo_callee demo_entry 16 2149004096 64 2148532000 None demo_user (frame_of 2149004096 64 None demo_user)) as (m & E & Hs).
  - lia.
  - reflexivity.
  - reflexivity.
  - split; [intros [x Hx]; discriminate|discriminate].
  - unfold word, two32. lia.
  - unfold word, two32. lia.
  - apply (bool_decide_unpack _). vm_compute. exact Logic.I.
  - reflexivity.
  - exact demo_return.
  - exists m. rewrite E, Hs; [reflexivity|reflexivity| |]; apply (bool_decide_unpack _); vm_compute; exact Logic.I.
Defined.

(** Checking words in a concrete memory. *)
Fixpoint words_check (m : memory) (a : Z) (l : list Z) : bool :=
  match l with
  | [] => true
  | w :: l => (load32 m (u32 a) =? w) && words_check m (a + 4) l
  end.

Lemma words_check_at m l : ∀ a, words_check m a l = true → words_at m a l.
Proof.
  induction l as [|w l IH]; intros a H k v Hk; [by rewrite lookup_nil in Hk|]. cbn [words_check] in H. apply andb_prop in H as [H1 H2].
  destruct k as [|k]; cbn in Hk.
  - injection Hk as <-. apply Z.eqb_eq in H1. by rewrite Z.add_0_r.
  - rewrite <- (IH (a + 4) H2 k v Hk). f_equal. f_equal. lia.
Qed.

(** The words [l] from [a] on, and zero elsewhere. *)
Fixpoint put_words (a : Z) (l : list Z) (m : memory) : memory :=
  match l with
  | [] => m
  | w :: l => put_words (a + 4) l (store32 m a w)
  end.

(** A thread that switches to the context of another one. *)
Definition demo_thread : mach :=
  mkmach 1 2 3 4 5 6 7 4096 8 16 16 0 0 16 0 2 (put_words 4096 [555; 12288; 8192] (put_words 8192 [31; 32; 33; 34; 777] (fun _ => 0))).

Lemma swtch_round_trip_witness : ∃ s', exec demo_callee swtch_code demo_thread = Resumes s' ∧
  runs_ctx (mkctx 31 32 33 34 777) 8212 s' ∧ load32 s'.(r_mem) 12288 = 4080.
Proof.
  destruct (swtch_round_trip demo_callee 4096 555 12288 8192 (mkctx 31 32 33 34 777) demo_thread) as (s' & E & Hr & Ho & _).
  - split; [reflexivity|]. apply words_check_at. vm_compute. reflexivity.
  - apply (bool_decide_unpack _). vm_compute. exact Logic.I.
  - apply words_check_at. vm_compute. reflexivity.
  - unfold word, two32. lia.
  - unfold word, two32. lia.
  - intros k Hk. unfold apart, u32, two32. dlia.
  - intros k j Hk Hj. unfold apart, u32, two32. dlia.
  - intros k Hk. unfold apart, u32, two32. dlia.
  - exists s'. split; [exact E|]. split; [exact Hr|exact Ho].
Defined.

(** A program that calls [signal(10, 4660)]. *)
Definition demo_caller : mach := mkmach 0 0 0 0 0 0 0 8192 27 35 35 0 0 35 0 514 (put_words 8192 [96; 10; 4660] (fun _ => 0)).


(** The kernel with the registers that [alltraps] has loaded. *)
Definition demo_kernel : mach := mkmach 1 2 3 4 5 6 7 2149003000 8 16 16 0 0 16 0 2 (fun _ => 0).

Lemma handler_without_data_segments_witness : ∃ u, perform demo_callee 0 (JmpToHandler 4660 27 514 12212 35) demo_kernel = Resumes u ∧
  u.(r_eip) = 4660 ∧ u.(s_ds) = 0 ∧ u.(s_es) = 0.
Proof.
  destruct (handler_without_data_segments demo_callee 0 4660 27 514 12212 35 demo_kernel) as (u & E & Hi & _ & _ & Hd & He & _).
  - reflexivity.
  - reflexivity.
  - reflexivity.
  - unfold word, two32. cbn. lia.
  - apply (bool_decide_unpack _). vm_compute. exact Logic.I.
  - reflexivity.
  - exists u. split; [exact E|]. split; [exact Hi|]. split; [exact Hd|exact He].
Defined.

(** Process 1 of [demo] returns from a handler. *)
Definition demo_sigreturn : kstate := set_mem (put_words (tf_esp demo_tf + 4) (saved_words demo_tf) (fun _ => 0)) demo.

Lemma sigreturn_resumes_witness : ∃ j m, kernel_sigreturn demo_sigreturn = Jump j demo_sigreturn ∧ perform demo_callee 0 j demo_kernel = Resumes (user_of demo_tf m).
Proof.
  apply (sigreturn_resumes demo_callee 1 (tf_esp demo_tf) 0 demo_tf demo_sigreturn demo_kernel).
  - reflexivity.
  - reflexivity.
  - apply words_check_at. vm_compute. reflexivity.
  - apply (bool_decide_unpack _). vm_compute. exact Logic.I.
  - reflexivity.
  - reflexivity.
  - unfold word, two32. cbn. lia.
Defined.

(** A context with the kernel's code segment. *)
Definition forged_tf : trapframe := mktf 0 0 0 0 0 0 0 0 35 35 35 35 0 0 4660 8 2 12288 35.
Definition demo_forged : kstate := set_mem (put_words (tf_esp demo_tf + 4) (saved_words forged_tf) (fun _ => 0)) demo.

Lemma sigreturn_kernel_mode_witness : ∃ j u, kernel_sigreturn demo_forged = Jump j demo_forged ∧ perform demo_callee 0 j demo_kernel = Resumes u ∧
  u.(r_eip) = 4660 ∧ u.(s_cs) = 8 ∧ rpl u.(s_cs) = 0.
Proof.
  apply (sigreturn_kernel_mode demo_callee 1 (tf_esp demo_tf) 0 forged_tf demo_forged demo_kernel).
  - reflexivity.
  - reflexivity.
  - apply words_check_at. vm_compute. reflexivity.
  - apply (bool_decide_unpack _). vm_compute. exact Logic.I.
  - reflexivity.
  - reflexivity.
  - unfold word, two32. cbn. lia.
Defined.
