(* ===== verification/Start.v ===== *)
(** * Starting the processors: [bootasm.S], [entry.S], [entryother.S], [asm.h]
    and the boot page table of [main.c]

    Three pieces of assembly bring a processor from the state in which the
    firmware or another processor leaves it to the first C function: into
    protected mode with flat segments, then to paging with a table that maps the
    kernel at low and high addresses.  The instructions are the ones of [Asm]
    and the ones that work on control registers, descriptor tables and ports.
    The theorems give the state in which [bootmain], [main] and [mpenter] are
    entered, and show that the boot page table translates as the code needs it. *)

From stdpp Require Import base numbers option list sets strings gmap fin_maps functions.
From Stdlib Require Import ZArith Lia.
From S2P Require Import Prelude State Locks Console Kalloc Proc Signal Vm Bio Tty Trap Devices Cpus Asm.

Definition CR0_PE : Z := 1.
Definition CR0_WP : Z := 65536.
Definition CR0_PG : Z := 2147483648.
Definition CR4_PSE : Z := 16.
Definition PTE_PS : Z := 128.

(** ** Segments in assembly *)

(** [SEG_ASM]: two halfwords and four bytes, as the two words of a descriptor. *)
Definition SEG_ASM (type base lim : Z) : Z * Z :=
  (Z.land (Z.shiftr lim 12) 65535 + 2 ^ 16 * Z.land base 65535,
   Z.land (Z.shiftr base 16) 255 + 2 ^ 8 * Z.lor 144 type + 2 ^ 16 * Z.lor 192 (Z.land (Z.shiftr lim 28) 15) +
   2 ^ 24 * Z.land (Z.shiftr base 24) 255).

(** The table of [bootasm.S] and [entryother.S]. *)
Definition boot_gdt : list (Z * Z) :=
  [(0, 0); SEG_ASM (Z.lor STA_X STA_R) 0 4294967295; SEG_ASM STA_W 0 4294967295].

(** ** The machine during start *)

Section start.
Context {D : Type} `{!Machine D}.

(** Registers and memory, control registers, the loaded descriptor table, the
    devices. *)
Record bmach : Type := mkbm {
  b_mach : mach;
  b_cr0 : Z;
  b_cr3 : Z;
  b_cr4 : Z;
  b_gdt : Z * Z;
  b_dev : D
}.
Definition set_bmach (v : mach) (s : bmach) : bmach := let 'mkbm _ c0 c3 c4 g d := s in mkbm v c0 c3 c4 g d.
Definition set_bdev (v : D) (s : bmach) : bmach := let 'mkbm m c0 c3 c4 g _ := s in mkbm m c0 c3 c4 g v.

Inductive creg : Type := CR0 | CR3 | CR4.
Definition cget (c : creg) (s : bmach) : Z := match c with CR0 => s.(b_cr0) | CR3 => s.(b_cr3) | CR4 => s.(b_cr4) end.
Definition cset (c : creg) (v : Z) (s : bmach) : bmach :=
  let 'mkbm m c0 c3 c4 g d := s in
  match c with CR0 => mkbm m v c3 c4 g d | CR3 => mkbm m c0 v c4 g d | CR4 => mkbm m c0 c3 v g d end.

(** [Wait_clear p mask] is the loop of [inb], [testb] and [jnz]; [Outb v p] moves
    a constant to [al] and writes it. *)
Inductive binstr : Type :=
| Plain (i : instr)
| Cli
| Xorw (r : reg)
| From_cr (c : creg) (r : reg)
| Orl_i (v : Z) (r : reg)
| To_cr (r : reg) (c : creg)
| Lgdt (limit base : Z)
| Ljmp (cs : Z)
| Load_abs (a : Z) (r : reg)
| Wait_clear (p mask : Z)
| Outb (v p : Z)
| Call_c (f : string)
| Call_abs (a : Z)
| Jmp_r (r : reg).

Inductive bout : Type :=
| Enters (f : string) (s : bmach)
| EntersAt (a : Z) (s : bmach)
| Ends (s : bmach)
| Waits (s : bmach)
| Other (s : bmach).

(** The loop that waits for a port; [al] keeps the last byte read. *)
Fixpoint wait_clear (fuel : nat) (p mask : Z) (s : bmach) : option bmach :=
  match fuel with
  | O => None
  | S fuel =>
    let r := port_in p s.(b_dev) in
    let s := set_bdev r.2 (set_bmach (rset EAX (s.(b_mach).(r_eax) / 256 * 256 + r.1 mod 256) s.(b_mach)) s) in
    if truthy (Z.land r.1 mask) then wait_clear fuel p mask s else Some s
  end.

Definition bstep (fuel : nat) (i : binstr) (s : bmach) : bmach + bout :=
  let m := s.(b_mach) in
  match i with
  | Plain i =>
    match step (fun _ m => m) i m with
    | inl m => inl (set_bmach m s)
    | inr _ => inr (Other s)
    end
  | Cli => inl (set_bmach (set_flags (Z.land m.(r_eflags) (not32 FL_IF)) m) s)
  | Xorw r => inl (set_bmach (rset r (rget r m / 65536 * 65536) m) s)
  | From_cr c r => inl (set_bmach (rset r (cget c s) m) s)
  | Orl_i v r => inl (set_bmach (rset r (Z.lor (rget r m) v) m) s)
  | To_cr r c => inl (cset c (rget r m) s)
  | Lgdt limit base => inl (let 'mkbm m c0 c3 c4 _ d := s in mkbm m c0 c3 c4 (limit, base) d)
  | Ljmp cs => inl (set_bmach (sset CS cs m) s)
  | Load_abs a r => inl (set_bmach (rset r (load32 m.(r_mem) a) m) s)
  | Wait_clear p mask => match wait_clear fuel p mask s with Some s => inl s | None => inr (Waits s) end
  | Outb v p => inl (set_bdev (port_out p v s.(b_dev)) (set_bmach (rset EAX (m.(r_eax) / 256 * 256 + v) m) s))
  | Call_c f => inr (Enters f s)
  | Call_abs a => inr (EntersAt (load32 m.(r_mem) a) s)
  | Jmp_r r => inr (EntersAt (rget r m) s)
  end.

Fixpoint bexec (fuel : nat) (code : list binstr) (s : bmach) : bout :=
  match code with
  | [] => Ends s
  | i :: code =>
    match bstep fuel i s with
    | inl s => bexec fuel code s
    | inr o => o
    end
  end.

(** ** The routines *)

Definition kdata : Z := Z.shiftl SEG_KDATA 3.
Definition kcode : Z := Z.shiftl SEG_KCODE 3.

(** The segment registers in real mode and in protected mode. *)
Definition real_segs : list binstr :=
  [Cli; Xorw EAX; Plain (Movw_s EAX DS); Plain (Movw_s EAX ES); Plain (Movw_s EAX SS)].
Definition to_protected (gdt : Z) : list binstr :=
  [Lgdt 23 gdt; From_cr CR0 EAX; Orl_i CR0_PE EAX; To_cr EAX CR0; Ljmp kcode].
Definition protected_segs : list binstr :=
  [Plain (Movw_i kdata EAX); Plain (Movw_s EAX DS); Plain (Movw_s EAX ES); Plain (Movw_s EAX SS);
   Plain (Movw_i 0 EAX); Plain (Movw_s EAX FS); Plain (Movw_s EAX GS)].

(** [bootasm.S] up to the call of [bootmain]. *)
Definition bootasm (gdt start : Z) : list binstr :=
  real_segs ++
  [Wait_clear 100 2; Outb 209 100; Wait_clear 100 2; Outb 223 96] ++
  to_protected gdt ++ protected_segs ++
  [Plain (Movl_i start ESP); Call_c "bootmain"].

(** [entry] of [entry.S] *)
Definition entry_code (entrypgdir stack main : Z) : list binstr :=
  [From_cr CR4 EAX; Orl_i CR4_PSE EAX; To_cr EAX CR4;
   Plain (Movl_i (V2P entrypgdir) EAX); To_cr EAX CR3;
   From_cr CR0 EAX; Orl_i (Z.lor CR0_PG CR0_WP) EAX; To_cr EAX CR0;
   Plain (Movl_i (stack + KSTACKSIZE) ESP);
   Plain (Movl_i main EAX); Jmp_r EAX].

(** [entryother.S] up to the call of [mpenter]. *)
Definition entryother (gdt start : Z) : list binstr :=
  real_segs ++ to_protected gdt ++ protected_segs ++
  [From_cr CR4 EAX; Orl_i CR4_PSE EAX; To_cr EAX CR4;
   Load_abs (start - 12) EAX; To_cr EAX CR3;
   From_cr CR0 EAX; Orl_i (Z.lor (Z.lor CR0_PE CR0_PG) CR0_WP) EAX; To_cr EAX CR0;
   Load_abs (start - 4) ESP;
   Call_abs (start - 8)].

End start.

(** ** The boot page table *)

Definition entrypgdir : list Z :=
  let pde := Z.lor (Z.lor (Z.lor 0 PTE_P) PTE_W) PTE_PS in
  <[0%nat := pde]> (<[Z.to_nat (Z.shiftr KERNBASE 22) := pde]> (replicate 1024 0)).

(** Translation by a directory entry that maps a page of four megabytes. *)
Definition translate_large (dir : list Z) (va : Z) : option Z :=
  let pde := default 0 (dir !! Z.to_nat (va / 4194304)) in
  if truthy (Z.land pde PTE_P) && truthy (Z.land pde PTE_PS) then Some (pde / 4194304 * 4194304 + va mod 4194304) else None.

(** Under the page table that [entry.S] and [entryother.S] load,
    the first four megabytes are mapped at their physical and at the kernel's
    virtual addresses, so that the code runs on when paging is turned on and
    after the jump to high addresses; nothing else is mapped. *)
Theorem boot_page_table va : word va →
  translate_large entrypgdir va =
    if va <? 4194304 then Some va
    else if (KERNBASE <=? va) && (va <? KERNBASE + 4194304) then Some (V2P va) else None.
Proof.
  intros Hw. unfold word, two32 in Hw. unfold translate_large. set (d := Z.to_nat (va / 4194304)).
  assert (0 <= va / 4194304 < 1024) as Hd by (split; [apply Z.div_pos; lia|apply Z.div_lt_upper_bound; lia]).
  assert (entrypgdir !! d = Some (if decide (d = 0%nat) then 131 else if decide (d = 512%nat) then 131 else 0)) as ->.
  { unfold entrypgdir. change (Z.to_nat (Z.shiftr KERNBASE 22)) with 512%nat. change (Z.lor (Z.lor (Z.lor 0 PTE_P) PTE_W) PTE_PS) with 131.
    destruct (decide (d = 0%nat)) as [->|]; [by rewrite list_lookup_insert_eq by (rewrite length_insert, length_replicate; lia)|].
    rewrite list_lookup_insert_ne by done. destruct (decide (d = 512%nat)) as [->|].
    - by rewrite list_lookup_insert_eq by (rewrite length_replicate; lia).
    - rewrite list_lookup_insert_ne by done. apply lookup_replicate_2. lia. }
  cbn [default from_option id]. unfold KERNBASE, V2P, KERNBASE, u32, two32.
  destruct (Z.ltb_spec va 4194304).
  { rewrite decide_True by (subst d; rewrite Z.div_small by lia; done). change (Some (0 + va mod 4194304) = Some va). by rewrite Z.mod_small by lia. }
  rewrite decide_False by (subst d; intros E; dlia).
  destruct (Z.leb_spec 2147483648 va), (Z.ltb_spec va (2147483648 + 4194304)); cbn [andb].
  - rewrite decide_True by (subst d; dlia). change (Some (0 + va mod 4194304) = Some ((va - 2147483648) mod 4294967296)). f_equal.
    rewrite (Z.mod_small (va - 2147483648)) by lia. dlia.
  - by rewrite decide_False by (subst d; dlia).
  - by rewrite decide_False by (subst d; dlia).
  - lia.
Qed.

(** ** Segments *)

Lemma lor_nibble a x : a mod 16 = 0 → 0 <= a → 0 <= x < 16 → Z.lor a x = a + x.
Proof.
  intros Ha H0 Hx. rewrite <- Z.add_lor_land. assert (Z.land a x = 0) as ->; [|lia].
  apply Z.bits_inj'. intros i Hi. rewrite Z.land_spec, Z.bits_0. destruct (Z.ltb_spec i 4).
  - rewrite (Z.div_mod a 16), Ha, Z.add_0_r, Z.mul_comm by lia. change 16 with (2 ^ 4). by rewrite Z.mul_pow2_bits_low.
  - rewrite (Z.bits_above_log2 x i), andb_false_r; [done|lia|]. destruct (Z.eq_dec x 0) as [->|]; [cbn; lia|].
    apply Z.log2_lt_pow2; [lia|]. assert (2 ^ 4 <= 2 ^ i) by (apply Z.pow_le_mono_r; lia). lia.
Qed.

(** The assembler's macro and the C macro build the same descriptor. *)
Theorem SEG_ASM_is_SEG type base lim : 0 <= type < 16 → word base → word lim →
  SEG_ASM type base lim = seg_words (SEG type base lim 0).
Proof.
  intros Ht Hb Hl. unfold SEG_ASM, SEG, seg_words. cbn [lim_15_0 base_15_0 base_23_16 sd_type sd_s sd_dpl sd_p lim_19_16 sd_avl sd_rsv1 sd_db sd_g base_31_24].
  rewrite !u32_id by done. change 65535 with (2 ^ 16 - 1). change 255 with (2 ^ 8 - 1). change 15 with (2 ^ 4 - 1). rewrite !low_bits by lia.
  rewrite !Z.shiftr_div_pow2 by lia. unfold field, word, two32 in *.
  rewrite (lor_nibble 144 type), (lor_nibble 192) by (done || lia || (apply Z.mod_pos_bound; lia)).
  pow_consts. rewrite !Zmod_mod. f_equal. rewrite (Z.mod_small type) by lia. change (0 mod 4) with 0. lia.
Qed.

Section correct.
Context {D : Type} `{!Machine D}.
Implicit Types s : bmach (D := D).

(** Flat segments: code and data of the boot table, null in [fs] and [gs]. *)
Definition flat_segs (m : mach) : Prop :=
  m.(s_cs) = kcode ∧ m.(s_ds) = kdata ∧ m.(s_es) = kdata ∧ m.(s_ss) = kdata ∧ m.(s_fs) = 0 ∧ m.(s_gs) = 0.

(** The parts that [bootasm.S] and [entryother.S] share. *)
Lemma low_half z : (z / 65536 * 65536) mod 65536 = 0.
Proof. by rewrite Z.mod_mul. Qed.

Lemma with_low z v : 0 <= v < 65536 → (z / 65536 * 65536 + v) mod 65536 = v.
Proof. intros Hv. rewrite Z.add_comm, Z.mod_add by lia. by apply Z.mod_small. Qed.

Lemma real_exec fuel code s : ∃ s', bexec fuel (real_segs ++ code) s = bexec fuel code s' ∧
  s'.(b_mach).(s_ds) = 0 ∧ s'.(b_mach).(s_es) = 0 ∧ s'.(b_mach).(s_ss) = 0 ∧
  Z.land s'.(b_mach).(r_eflags) FL_IF = 0 ∧ s'.(b_mach).(r_mem) = s.(b_mach).(r_mem) ∧ s'.(b_cr0) = s.(b_cr0) ∧ s'.(b_cr4) = s.(b_cr4) ∧ s'.(b_dev) = s.(b_dev).
Proof.
  destruct s as [[] ? ? ? ? ?]. eexists. split; [reflexivity|]. cbn. rewrite !low_half. repeat split; try done. apply cli_clear.
Qed.

Lemma to_protected_exec fuel gdt code s : ∃ s', bexec fuel (to_protected gdt ++ code) s = bexec fuel code s' ∧
  s'.(b_mach).(s_cs) = kcode ∧ s'.(b_gdt) = (23, gdt) ∧ s'.(b_cr0) = Z.lor s.(b_cr0) CR0_PE ∧ s'.(b_cr4) = s.(b_cr4) ∧
  s'.(b_mach).(r_eflags) = s.(b_mach).(r_eflags) ∧ s'.(b_mach).(r_mem) = s.(b_mach).(r_mem) ∧ s'.(b_dev) = s.(b_dev).
Proof. destruct s as [[] ? ? ? ? ?]. eexists. split; [reflexivity|]. done. Qed.

Lemma data_segs_exec fuel code s :
  ∃ m, bexec fuel (protected_segs ++ code) s = bexec fuel code (set_bmach m s) ∧
  m.(s_cs) = s.(b_mach).(s_cs) ∧ m.(s_ds) = kdata ∧ m.(s_es) = kdata ∧ m.(s_ss) = kdata ∧ m.(s_fs) = 0 ∧ m.(s_gs) = 0 ∧
  m.(r_eflags) = s.(b_mach).(r_eflags) ∧ m.(r_mem) = s.(b_mach).(r_mem).
Proof.
  destruct s as [[] ? ? ? ? ?]. eexists. split; [reflexivity|]. cbn. change kdata with 16. rewrite !with_low by lia. done.
Qed.

Lemma protected_exec fuel gdt code s : ∃ s', bexec fuel (to_protected gdt ++ protected_segs ++ code) s = bexec fuel code s' ∧
  flat_segs s'.(b_mach) ∧ s'.(b_gdt) = (23, gdt) ∧ s'.(b_cr0) = Z.lor s.(b_cr0) CR0_PE ∧ s'.(b_cr4) = s.(b_cr4) ∧
  s'.(b_mach).(r_eflags) = s.(b_mach).(r_eflags) ∧ s'.(b_mach).(r_mem) = s.(b_mach).(r_mem) ∧ s'.(b_dev) = s.(b_dev).
Proof.
  destruct (to_protected_exec fuel gdt (protected_segs ++ code) s) as (s1 & -> & Hc & Hg & H0 & H4 & Hf & Hm & Hd).
  destruct (data_segs_exec fuel code s1) as (m & -> & Gc & G1 & G2 & G3 & G4 & G5 & Gf & Gm). eexists. split; [reflexivity|].
  rewrite <- Hg, <- H0, <- H4, <- Hf, <- Hm, <- Hd, <- Gf, <- Gm. clear - Hc Gc G1 G2 G3 G4 G5. unfold flat_segs. rewrite <- Hc.
  destruct s1 as [? ? ? ? ? ?]. done.
Qed.

(** [main] is entered with paging on through the boot table and on the boot
    stack. *)
Theorem entry_enters fuel dir stack main s : ∃ s', bexec fuel (entry_code dir stack main) s = EntersAt main s' ∧
  s'.(b_cr0) = Z.lor s.(b_cr0) (Z.lor CR0_PG CR0_WP) ∧ s'.(b_cr3) = V2P dir ∧ s'.(b_cr4) = Z.lor s.(b_cr4) CR4_PSE ∧
  s'.(b_mach).(r_esp) = stack + KSTACKSIZE.
Proof. destruct s as [[] ? ? ? ? ?]. eexists. split; [reflexivity|]. done. Qed.

(** Another processor, started at the code that [startothers]
    has copied, reaches the function whose address is in the word at [start - 8]
    in protected mode with flat segments, interrupts off, paging through the
    directory in the word at [start - 12] and the stack in the word at [start - 4]. *)
Theorem entryother_enters fuel gdt start s : ∃ s', bexec fuel (entryother gdt start) s = EntersAt (load32 s.(b_mach).(r_mem) (start - 8)) s' ∧
  flat_segs s'.(b_mach) ∧ s'.(b_gdt) = (23, gdt) ∧ Z.land s'.(b_mach).(r_eflags) FL_IF = 0 ∧
  s'.(b_cr0) = Z.lor (Z.lor s.(b_cr0) CR0_PE) (Z.lor (Z.lor CR0_PE CR0_PG) CR0_WP) ∧
  s'.(b_cr3) = load32 s.(b_mach).(r_mem) (start - 12) ∧ s'.(b_cr4) = Z.lor s.(b_cr4) CR4_PSE ∧
  s'.(b_mach).(r_esp) = load32 s.(b_mach).(r_mem) (start - 4).
Proof.
  unfold entryother. destruct (real_exec fuel (to_protected gdt ++ protected_segs ++ [From_cr CR4 EAX; Orl_i CR4_PSE EAX; To_cr EAX CR4;
    Load_abs (start - 12) EAX; To_cr EAX CR3; From_cr CR0 EAX; Orl_i (Z.lor (Z.lor CR0_PE CR0_PG) CR0_WP) EAX; To_cr EAX CR0;
    Load_abs (start - 4) ESP; Call_abs (start - 8)]) s) as (s1 & -> & _ & _ & _ & Hf & Hm & H0 & H4 & _).
  edestruct (protected_exec fuel gdt) as (s2 & -> & Hs & Hg & G0 & G4 & Gf & Gm & _).
  rewrite <- Hm, <- H0, <- H4, <- Gm, <- G0, <- G4. rewrite <- Gf in Hf. clear - Hf Hs Hg.
  destruct s2 as [[] ? ? ? ? ?]. eexists. split; [reflexivity|]. done.
Qed.

(** The keyboard controller, which also switches the address line 20: its
    command register becomes free after some readings of the status port, and the
    command 0xd1 followed by the byte 0xdf enables the line. *)
Class KbcLaws : Type := {
  k_delay : D → nat;
  k_command : D → bool;
  k_a20 : D → bool;
  law_k_free : ∀ d, Z.land (port_in 100 d).1 2 = 0 ∨ (k_delay (port_in 100 d).2 < k_delay d)%nat;
  law_k_read : ∀ d, k_command (port_in 100 d).2 = k_command d ∧ k_a20 (port_in 100 d).2 = k_a20 d;
  law_k_command : ∀ d, k_command (port_out 100 209 d) = true;
  law_k_a20 : ∀ d, k_command d = true → k_a20 (port_out 96 223 d) = true
}.

Context `{!KbcLaws}.

Lemma wait_clear_run fuel : ∀ s, (k_delay s.(b_dev) < fuel)%nat →
  ∃ v d, wait_clear fuel 100 2 s = Some (set_bdev d (set_bmach (rset EAX v s.(b_mach)) s)) ∧
    k_command d = k_command s.(b_dev) ∧ k_a20 d = k_a20 s.(b_dev).
Proof.
  induction fuel as [|fuel IH]; intros s Hf; [lia|]. cbn [wait_clear]. destruct (law_k_read s.(b_dev)) as [Hc Ha].
  destruct (truthy _) eqn:Et; [|by eexists _, _].
  destruct (law_k_free s.(b_dev)) as [E|Hd]; [by rewrite E in Et|].
  set (s1 := set_bdev _ _). destruct (IH s1) as (v & d & E & Hc' & Ha'); [unfold s1; destruct s; cbn in *; lia|]. exists v, d. rewrite E.
  split; [unfold s1; by destruct s as [[] ? ? ? ? ?]|]. rewrite Hc', Ha'. unfold s1. by destruct s.
Qed.

(** [bootasm.S] calls [bootmain] in protected mode with flat
    segments, interrupts off, the address line 20 enabled and the stack below the
    boot sector. *)
Theorem bootasm_enters fuel gdt start s : (∀ d, k_delay d < fuel)%nat →
  ∃ s', bexec fuel (bootasm gdt start) s = Enters "bootmain" s' ∧
    flat_segs s'.(b_mach) ∧ s'.(b_gdt) = (23, gdt) ∧ Z.land s'.(b_mach).(r_eflags) FL_IF = 0 ∧
    s'.(b_cr0) = Z.lor s.(b_cr0) CR0_PE ∧ s'.(b_mach).(r_esp) = start ∧ k_a20 s'.(b_dev) = true.
Proof.
  intros Hfu. unfold bootasm. edestruct (real_exec fuel) as (s1 & -> & _ & _ & _ & Hf & _ & H0 & _ & _).
  cbn [app bexec bstep]. destruct (wait_clear_run fuel s1 (Hfu _)) as (v1 & d1 & -> & _). set (s2 := set_bdev (port_out 100 209 _) _).
  destruct (wait_clear_run fuel s2 (Hfu _)) as (v2 & d2 & -> & Hc & _). set (s3 := set_bdev (port_out 96 223 _) _).
  assert (b_dev s3 = port_out 96 223 d2 ∧ b_dev s2 = port_out 100 209 d1) as [E3 E2].
  { unfold s3, s2. by destruct s1 as [[] ? ? ? ? ?]. }
  assert (k_a20 s3.(b_dev) = true) as Ha by (rewrite E3; apply law_k_a20; rewrite Hc, E2; apply law_k_command).
  change (bexec fuel _ s3) with (bexec fuel (to_protected gdt ++ protected_segs ++ [Plain (Movl_i start ESP); Call_c "bootmain"]) s3).
  destruct (protected_exec fuel gdt [Plain (Movl_i start ESP); Call_c "bootmain"] s3) as (s4 & -> & Hs & Hg & G0 & _ & Gf & _ & Gd).
  assert (r_eflags (b_mach s3) = r_eflags (b_mach s1)) as Ef by (unfold s3, s2; by destruct s1 as [[] ? ? ? ? ?]).
  assert (b_cr0 s1 = b_cr0 s3) as E0 by (unfold s3, s2; by destruct s1 as [[] ? ? ? ? ?]). rewrite <- H0, E0, <- G0. rewrite <- Gd in Ha. rewrite <- Ef, <- Gf in Hf.
  clear - Hs Hg Hf Ha. destruct s4 as [[] ? ? ? ? ?]. eexists. split; [reflexivity|]. done.
Qed.

End correct.

(** A controller that is free at the third reading. *)
#[local] Instance kbc_machine : Machine (nat * bool * bool) := {
  port_in := fun _ d => match d with (S n, c, a) => (2, (n, c, a)) | (O, c, a) => (0, (O, c, a)) end;
  port_out := fun p v d => if p =? 100 then (2%nat, v =? 209, d.2) else (d.1, d.1.2 && (v =? 223));
  port_ins := fun _ _ d => ([], d);
  port_outs := fun _ _ d => d;
  mem_in := fun _ d => (0, d);
  mem_out := fun _ _ d => d
}.

#[local] Instance kbc_laws : KbcLaws (D := nat * bool * bool).
Proof.
  refine {| k_delay := λ d, d.1.1; k_command := λ d, d.1.2; k_a20 := λ d, d.2 |}.
  - intros [[[|n] c] a]; cbn; [by left|right; lia].
  - intros [[[|n] c] a]; done.
  - intros [[n c] a]. done.
  - intros [[n c] a] Hc. cbn in *. by rewrite Hc.
Defined.
