(* ===== verification/Ide.v ===== *)
(** * The IDE disk driver: [ide.c]

    Requests wait in a queue of buffers linked by [qnext]; the buffer at its
    head is being transferred, and the interrupt of the controller completes it
    and starts the next.  The controller is not part of the program: it is
    whatever answers the instructions on its ports (the class [Machine]), and
    what the driver relies on are the laws of the class [IdeLaws], stated on an
    abstract view of the controller.  The theorem shows that the driver
    implements a synchronous disk with a queue of requests, the one of
    [memide.c] on which the other files are built. *)

From stdpp Require Import base numbers option list sets strings gmap fin_maps functions.
From Stdlib Require Import ZArith Lia.
From S2P Require Import Prelude State Locks Kalloc Proc Sleeplock Bio Trap Devices.

Definition SECTOR_SIZE : Z := 512.
Definition IDE_BSIZE : Z := 512.
Definition FSSIZE : Z := 1000.
Definition IDE_BSY : Z := 128.
Definition IDE_DRDY : Z := 64.
Definition IDE_DF : Z := 32.
Definition IDE_ERR : Z := 1.

Definition IDE_CMD_READ : Z := 32.
Definition IDE_CMD_WRITE : Z := 48.
Definition IDE_CMD_RDMUL : Z := 196.
Definition IDE_CMD_WRMUL : Z := 197.

(** [idelock], and the address of a buffer as a channel. *)
Definition IDE_LOCK : lockid := OTHER_LOCK 496.
Definition CH_BUF (i : nat) : chan := CH_OTHER (Z.of_nat i).

(** ** The machine *)

(** The number of times the status is read while waiting for the disk. *)
Class IdeFuel : Type := ide_fuel : nat.

Section driver.
Context {D : Type} `{!Machine D} `{!IdeFuel} `{!WaitFuel}.

(** The kernel, the variables of [ide.c] with the field [qnext] of the
    buffers, and the controller. *)
Record istate : Type := mkist {
  ik : kstate;
  idequeue : option nat;
  qnext : nat → option nat;
  havedisk1 : bool;
  idev : D
}.
Definition set_ik (v : kstate) (s : istate) : istate := mkist v s.(idequeue) s.(qnext) s.(havedisk1) s.(idev).
Definition set_idequeue (v : option nat) (s : istate) : istate := mkist s.(ik) v s.(qnext) s.(havedisk1) s.(idev).
Definition set_qnext (v : nat → option nat) (s : istate) : istate := mkist s.(ik) s.(idequeue) v s.(havedisk1) s.(idev).
Definition set_havedisk1 (v : bool) (s : istate) : istate := mkist s.(ik) s.(idequeue) s.(qnext) v s.(idev).
Definition set_idev (v : D) (s : istate) : istate := mkist s.(ik) s.(idequeue) s.(qnext) s.(havedisk1) v.

Definition I : Type → Type := prog istate ujump.

(** Functions of the rest of the kernel. *)
Fixpoint lift_comp {A} (x : istate) (c : comp kstate ujump A) : comp istate ujump A :=
  match c with
  | Ret a s => Ret a (set_ik s x)
  | Panic msg s => Panic msg (set_ik s x)
  | Jump j s => Jump j (set_ik s x)
  | Switch s k => Switch (set_ik s x) (fun y => lift_comp y (k y.(ik)))
  | Stuck s => Stuck (set_ik s x)
  end.
Definition lift {A} (m : M A) : I A := fun x => lift_comp x (m x.(ik)).

Definition inb (p : Z) : I Z :=
  fun s => let r := port_in p s.(idev) in Ret r.1 (set_idev r.2 s).
Definition outb (p v : Z) : I unit := modify (fun s => set_idev (port_out p v s.(idev)) s).
Definition outsl (p : Z) (l : list Z) : I unit := modify (fun s => set_idev (port_outs p l s.(idev)) s).
Definition insl (p : Z) (cnt : nat) : I (list Z) :=
  fun s => let r := port_ins p cnt s.(idev) in Ret r.1 (set_idev r.2 s).

(** ** The driver *)

Fixpoint idewait_loop (fuel : nat) : I Z :=
  match fuel with
  | O => fun s => Stuck s
  | S fuel =>
    r <- inb 503;;
    if negb (Z.land r (Z.lor IDE_BSY IDE_DRDY) =? IDE_DRDY) then idewait_loop fuel else ret r
  end.

Definition idewait (checkerr : bool) : I Z :=
  r <- idewait_loop ide_fuel;;
  if checkerr && negb (Z.land r (Z.lor IDE_DF IDE_ERR) =? 0) then ret (-1) else ret 0.

(** The loop of [ideinit] that looks for disk 1. *)
Fixpoint probe (n : nat) : I unit :=
  match n with
  | O => ret ()
  | S n =>
    r <- inb 503;;
    if negb (r =? 0) then modify (set_havedisk1 true) else probe n
  end.

(** Functions of the drivers of the interrupt controllers, with the address of
    the registers of the I/O controller. *)
Definition lift_dev {A} (ioapic : Z) (m : DV D A) : I A := fun s =>
  let back d := set_idev d.(d_dev) (set_ik d.(d_kern) s) in
  match m (mkdst s.(ik) s.(idev) 0 ioapic false) with
  | Ret a d => Ret a (back d)
  | Panic msg d => Panic msg (back d)
  | Jump j d => Jump j (back d)
  | Switch d _ | Stuck d => Stuck (back d)
  end.

(** A lock needs no initialisation in a set of those held. *)
Definition ideinit (ioapic ncpu : Z) : I unit :=
  lift_dev ioapic (ioapicenable IRQ_IDE (ncpu - 1));;
  idewait false;;
  outb 502 (Z.lor 224 (Z.shiftl 1 4));;
  probe 1000;;
  outb 502 (Z.lor 224 (Z.shiftl 0 4)).

Definition idestart (o : option nat) : I unit :=
  match o with
  | None => panic "idestart"
  | Some i =>
    b <- lift (getb i);;
    if FSSIZE <=? b.(b_blockno) then panic "incorrect blockno" else
    let sector_per_block := IDE_BSIZE / SECTOR_SIZE in
    let sector := b.(b_blockno) * sector_per_block in
    let read_cmd := if sector_per_block =? 1 then IDE_CMD_READ else IDE_CMD_RDMUL in
    let write_cmd := if sector_per_block =? 1 then IDE_CMD_WRITE else IDE_CMD_WRMUL in
    if 7 <? sector_per_block then panic "idestart" else
    idewait false;;
    outb 1014 0;;
    outb 498 sector_per_block;;
    outb 499 (Z.land sector 255);;
    outb 500 (Z.land (Z.shiftr sector 8) 255);;
    outb 501 (Z.land (Z.shiftr sector 16) 255);;
    outb 502 (Z.lor (Z.lor 224 (Z.shiftl (Z.land b.(b_dev) 1) 4)) (Z.land (Z.shiftr sector 24) 15));;
    if truthy (Z.land b.(b_flags) B_DIRTY) then
      outb 503 write_cmd;;
      outsl 496 b.(b_data)
    else
      outb 503 read_cmd
  end.

Definition ideintr : I unit :=
  lift (acquire IDE_LOCK);;
  o <- get idequeue;;
  match o with
  | None => lift (release IDE_LOCK)
  | Some i =>
    n <- get (fun s => s.(qnext) i);;
    modify (set_idequeue n);;
    b <- lift (getb i);;
    (if Z.land b.(b_flags) B_DIRTY =? 0 then
       r <- idewait true;;
       if 0 <=? r then
         l <- insl 496 (Z.to_nat (IDE_BSIZE / 4));;
         lift (modb i (set_b_data l))
       else ret ()
     else ret ());;
    lift (modb i (fun b => set_b_flags (Z.lor b.(b_flags) B_VALID) b));;
    lift (modb i (fun b => set_b_flags (Z.land b.(b_flags) (not32 B_DIRTY)) b));;
    lift (wakeup (CH_BUF i));;
    q <- get idequeue;;
    match q with
    | Some _ => idestart q
    | None => ret ()
    end;;
    lift (release IDE_LOCK)
  end.

(** A [struct buf **]: [&idequeue] or [&b->qnext]. *)
Inductive link : Type := LHead | LNext (i : nat).

Definition deref (pp : link) : I (option nat) :=
  get (fun s => match pp with LHead => s.(idequeue) | LNext i => s.(qnext) i end).

Definition assign (pp : link) (v : option nat) : I unit :=
  modify (fun s => match pp with
                   | LHead => set_idequeue v s
                   | LNext i => set_qnext (<[i := v]> s.(qnext)) s
                   end).

Fixpoint find_end (fuel : nat) (pp : link) : I link :=
  match fuel with
  | O => fun s => Stuck s
  | S fuel =>
    o <- deref pp;;
    match o with
    | None => ret pp
    | Some i => find_end fuel (LNext i)
    end
  end.

Fixpoint iderw_wait (fuel : nat) (i : nat) : I unit :=
  match fuel with
  | O => fun s => Stuck s
  | S fuel =>
    b <- lift (getb i);;
    if negb (Z.land b.(b_flags) (Z.lor B_VALID B_DIRTY) =? B_VALID) then
      lift (sleep (CH_BUF i) IDE_LOCK);;
      iderw_wait fuel i
    else ret ()
  end.

(** The queue has at most [NBUF] buffers. *)
Definition iderw (i : nat) : I unit :=
  h <- lift (holdingsleep (SL_BUF i));;
  if negb h then panic "iderw: buf not locked" else
  b <- lift (getb i);;
  if Z.land b.(b_flags) (Z.lor B_VALID B_DIRTY) =? B_VALID then panic "iderw: nothing to do" else
  disk1 <- get havedisk1;;
  if negb (b.(b_dev) =? 0) && negb disk1 then panic "iderw: ide disk 1 not present" else
  lift (acquire IDE_LOCK);;
  modify (fun s => set_qnext (<[i := None]> s.(qnext)) s);;
  pp <- find_end (S NBUF) LHead;;
  assign pp (Some i);;
  q <- get idequeue;;
  when (bool_decide (q = Some i)) (idestart (Some i));;
  iderw_wait wait_fuel i;;
  lift (release IDE_LOCK).

End driver.
Arguments istate D : clear implicits.
Arguments I D : clear implicits.

(** ** The controller as the driver sees it *)

Inductive phase : Type := Ready | DataIn (drive sector : Z) | DataOut (drive sector : Z).

(** The contents of both disks by sector, the registers, and the transfer in
    progress. *)
Record ctl : Type := mkctl {
  c_disk : Z → Z → list Z;
  c_reg : Z → Z;
  c_phase : phase
}.
Definition set_phase (v : phase) (c : ctl) : ctl := mkctl c.(c_disk) c.(c_reg) v.
Definition set_reg (p v : Z) (c : ctl) : ctl := mkctl c.(c_disk) (<[p := v]> c.(c_reg)) c.(c_phase).
Definition disk_write (dr n : Z) (l : list Z) (d : Z → Z → list Z) : Z → Z → list Z :=
  fun dr' n' => if (dr' =? dr) && (n' =? n) then l else d dr' n'.
Definition set_c_disk (v : Z → Z → list Z) (c : ctl) : ctl := mkctl v c.(c_reg) c.(c_phase).

(** The drive and the sector selected by the registers. *)
Definition sel_drive (c : ctl) : Z := c.(c_reg) 502 / 16 mod 2.
Definition sel_sector (c : ctl) : Z :=
  c.(c_reg) 499 + 256 * c.(c_reg) 500 + 65536 * c.(c_reg) 501 + 16777216 * (c.(c_reg) 502 mod 16).

(** The part of the ATA specification that the driver uses: reading the status
    has no effect, and after fewer than [ide_fuel] readings the disk is ready
    without an error; registers can be written when no transfer is in progress;
    the commands start the transfer of one sector selected by the registers;
    the data port transfers its contents. *)
Class IdeLaws (D : Type) `{!Machine D} `{!IdeFuel} : Type := {
  view : D → ctl;
  delay : D → nat;
  law_delay : ∀ d, (delay d < ide_fuel)%nat;
  law_status : ∀ d, view (port_in 503 d).2 = view d;
  law_ready : ∀ d, let r := (port_in 503 d).1 in
    (Z.land r (Z.lor IDE_BSY IDE_DRDY) = IDE_DRDY ∧ Z.land r (Z.lor IDE_DF IDE_ERR) = 0) ∨
    (Z.land r (Z.lor IDE_BSY IDE_DRDY) ≠ IDE_DRDY ∧ (delay (port_in 503 d).2 < delay d)%nat);
  law_reg : ∀ p v d, p ∈ [1014; 498; 499; 500; 501; 502] → (view d).(c_phase) = Ready →
    view (port_out p v d) = set_reg p v (view d);
  law_read : ∀ d, (view d).(c_phase) = Ready → (view d).(c_reg) 498 = 1 →
    view (port_out 503 IDE_CMD_READ d) = set_phase (DataIn (sel_drive (view d)) (sel_sector (view d))) (view d);
  law_write : ∀ d, (view d).(c_phase) = Ready → (view d).(c_reg) 498 = 1 →
    view (port_out 503 IDE_CMD_WRITE d) = set_phase (DataOut (sel_drive (view d)) (sel_sector (view d))) (view d);
  law_ins : ∀ d dr n, (view d).(c_phase) = DataIn dr n →
    (port_ins 496 128 d).1 = (view d).(c_disk) dr n ∧
    view (port_ins 496 128 d).2 = set_phase Ready (view d);
  law_outs : ∀ d dr n l, (view d).(c_phase) = DataOut dr n → length l = 512%nat →
    view (port_outs 496 l d) = set_c_disk (disk_write dr n l (view d).(c_disk)) (set_phase Ready (view d))
}.

Section proofs.
Context {D : Type} `{!Machine D} `{!IdeFuel} `{!WaitFuel} `{!IdeLaws D}.
Implicit Types (s : istate D).

Notation vw s := (view (idev s)).

(** [s'] is [s] up to the controller, which has the view [c]. *)
Definition ctl_only (s s' : istate D) (c : ctl) : Prop := ∃ d, s' = set_idev d s ∧ view d = c.

Lemma ctl_only_trans s s1 s2 c1 c2 : ctl_only s s1 c1 → ctl_only s1 s2 c2 → ctl_only s s2 c2.
Proof. intros (d1 & -> & _) (d2 & -> & E2). by exists d2. Qed.

Lemma ctl_only_view s s' c : ctl_only s s' c → vw s' = c.
Proof. by intros (d & -> & <-). Qed.

Lemma idewait_loop_run fuel s : (delay s.(idev) < fuel)%nat →
  ∃ r s', idewait_loop fuel s = Ret r s' ∧ Z.land r (Z.lor IDE_DF IDE_ERR) = 0 ∧ ctl_only s s' (vw s).
Proof.
  revert s. induction fuel as [|fuel IH]; intros s Hf; [lia|]. cbn [idewait_loop]. unfold inb, bind at 1. cbn [cbind].
  pose proof (law_status s.(idev)) as Hs. destruct (law_ready s.(idev)) as [[H1 H2]|[H1 H2]].
  - destruct (Z.eqb_spec (Z.land (port_in 503 (idev s)).1 (Z.lor IDE_BSY IDE_DRDY)) IDE_DRDY) as [_|]; [|done].
    cbn [negb ret]. eexists _, _. split; [done|]. split; [done|]. by eexists.
  - destruct (Z.eqb_spec (Z.land (port_in 503 (idev s)).1 (Z.lor IDE_BSY IDE_DRDY)) IDE_DRDY) as [|_]; [done|].
    cbn [negb]. destruct (IH (set_idev (port_in 503 (idev s)).2 s)) as (r & s' & E & Hr & Hc); [cbn; lia|].
    exists r, s'. split; [done|]. split; [done|]. destruct Hc as (d & -> & Ed). exists d. split; [done|]. rewrite Ed. exact Hs.
Qed.

Lemma idewait_run checkerr s : ∃ s', idewait checkerr s = Ret 0 s' ∧ ctl_only s s' (vw s).
Proof.
  unfold idewait, bind. destruct (idewait_loop_run ide_fuel s (law_delay _)) as (r & s' & -> & Hr & Hc).
  cbn [cbind]. rewrite Hr, Z.eqb_refl, andb_false_r. by exists s'.
Qed.

(** Recombining the bytes of a sector number. *)
Lemma sector_bytes n : 0 <= n < 1000 →
  Z.land n 255 + 256 * Z.land (Z.shiftr n 8) 255 + 65536 * Z.land (Z.shiftr n 16) 255 = n ∧ Z.land (Z.shiftr n 24) 15 = 0.
Proof.
  intros Hn. rewrite !Z.shiftr_div_pow2 by lia. change 255 with (Z.ones 8). change 15 with (Z.ones 4).
  rewrite !Z.land_ones by lia. change (2 ^ 8) with 256. change (2 ^ 16) with 65536. change (2 ^ 24) with 16777216. change (2 ^ 4) with 16.
  rewrite (Z.div_small n 65536), (Z.div_small n 16777216) by lia. pose proof (Z.div_mod n 256 ltac:(lia)).
  rewrite (Z.mod_small (n / 256)) by (split; [apply Z.div_pos; lia|apply Z.div_lt_upper_bound; lia]).
  split; [|done]. rewrite Z.mod_0_l by lia. lia.
Qed.

Lemma drive_byte dev : let v := Z.lor (Z.lor 224 (Z.shiftl (Z.land dev 1) 4)) 0 in v / 16 mod 2 = Z.land dev 1 ∧ v mod 16 = 0.
Proof.
  assert (Z.land dev 1 = 0 ∨ Z.land dev 1 = 1) as [-> | ->]; [|done|done].
  pose proof (Z.land_ones dev 1 ltac:(lia)) as E. change (Z.ones 1) with 1 in E. change (2 ^ 1) with 2 in E.
  pose proof (Z.mod_pos_bound dev 2 ltac:(lia)). lia.
Qed.

(** The drive and the block of a buffer, and whether it is to be written. *)
Definition bdrive (b : buf) : Z := Z.land b.(b_dev) 1.
Definition bdirty (b : buf) : bool := truthy (Z.land b.(b_flags) B_DIRTY).

(** The controller after [idestart] of the buffer [b]. *)
Definition started (b : buf) (d : Z → Z → list Z) : (Z → Z → list Z) * phase :=
  if bdirty b then (disk_write (bdrive b) b.(b_blockno) b.(b_data) d, Ready)
  else (d, DataIn (bdrive b) b.(b_blockno)).

Definition request_ok (b : buf) : Prop := 0 <= b.(b_blockno) < FSSIZE ∧ length b.(b_data) = 512%nat.

(** The registers written by [idestart]. *)
Definition addressed (b : buf) (c : ctl) : Prop :=
  c.(c_phase) = Ready ∧ c.(c_reg) 498 = 1 ∧ sel_drive c = bdrive b ∧ sel_sector c = b.(b_blockno).

Lemma view_regs l d : Forall (λ x, x.1 ∈ [1014; 498; 499; 500; 501; 502]) l → (view d).(c_phase) = Ready →
  view (foldl (λ d x, port_out x.1 x.2 d) d l) = foldl (λ c x, set_reg x.1 x.2 c) (view d) l.
Proof.
  intros Hl. revert d. induction Hl as [|x l Hx _ IH]; intros d Hd; [done|]. cbn [foldl].
  rewrite IH; [|by rewrite law_reg]. by rewrite law_reg.
Qed.

(** The writes of [idestart] to the registers. *)
Definition regs (b : buf) : list (Z * Z) :=
  let sector := b.(b_blockno) in
  [(1014, 0); (498, 1); (499, Z.land sector 255); (500, Z.land (Z.shiftr sector 8) 255);
   (501, Z.land (Z.shiftr sector 16) 255);
   (502, Z.lor (Z.lor 224 (Z.shiftl (Z.land b.(b_dev) 1) 4)) (Z.land (Z.shiftr sector 24) 15))].
Definition out_all (l : list (Z * Z)) (d : D) : D := foldl (λ d x, port_out x.1 x.2 d) d l.

Lemma regs_addressed b d : (view d).(c_phase) = Ready → request_ok b →
  addressed b (view (out_all (regs b) d)) ∧ (view (out_all (regs b) d)).(c_disk) = (view d).(c_disk).
Proof.
  intros Hr [Hn _]. unfold FSSIZE in Hn. destruct (sector_bytes b.(b_blockno) Hn) as [E1 E2].
  destruct (drive_byte b.(b_dev)) as [E3 E4]. unfold out_all. rewrite view_regs; [|repeat (constructor; [set_solver|]); constructor|done].
  unfold regs. rewrite E2. split; [|done]. split; [done|]. split; [done|]. split; [exact E3|].
  assert (Z.land b.(b_blockno) 255 + 256 * Z.land (Z.shiftr b.(b_blockno) 8) 255 + 65536 * Z.land (Z.shiftr b.(b_blockno) 16) 255 +
    16777216 * (Z.lor (Z.lor 224 (Z.shiftl (Z.land (b_dev b) 1) 4)) 0 mod 16) = b.(b_blockno)) as E; [|exact E].
  rewrite E4. lia.
Qed.

Lemma set_ik_id s : set_ik s.(ik) s = s.
Proof. by destruct s. Qed.

Lemma bind_lift {A B} (m : M A) (f : A → I D B) s a k : m s.(ik) = Ret a k → bind (lift m) f s = f a (set_ik k s).
Proof. intros E. unfold bind, lift. by rewrite E. Qed.

Lemma bind_getb {B} i (f : buf → I D B) s : bind (lift (getb i)) f s = f (get_buf i s.(ik)) s.
Proof. rewrite (bind_lift _ _ _ (get_buf i s.(ik)) s.(ik)); [by rewrite set_ik_id|done]. Qed.

Lemma idestart_run i s : (vw s).(c_phase) = Ready → request_ok (get_buf i s.(ik)) →
  ∃ s' c, idestart (Some i) s = Ret () s' ∧ ctl_only s s' c ∧
    (c.(c_disk), c.(c_phase)) = started (get_buf i s.(ik)) (vw s).(c_disk).
Proof.
  intros Hr Hok. unfold idestart. rewrite bind_getb. set (b := get_buf i s.(ik)) in *.
  destruct (Z.leb_spec FSSIZE b.(b_blockno)) as [|_]; [destruct Hok as [[? ?] _]; lia|].
  change (IDE_BSIZE / SECTOR_SIZE) with 1. change (1 =? 1) with true. change (7 <? 1) with false.
  cbv zeta iota. rewrite Z.mul_1_r.
  unfold bind at 1. destruct (idewait_run false s) as (s1 & -> & d1 & -> & Ed1). cbn [cbind].
  rewrite <- Ed1 in Hr. destruct (regs_addressed b d1 Hr Hok) as [(P1 & P2 & P3 & P4) P5]. rewrite Ed1 in P5.
  change (∃ s' c, (if truthy (Z.land b.(b_flags) B_DIRTY) then outb 503 IDE_CMD_WRITE;; outsl 496 b.(b_data) else outb 503 IDE_CMD_READ)
    (set_idev (out_all (regs b) d1) s) = Ret () s' ∧ ctl_only s s' c ∧ (c_disk c, c_phase c) = started b (c_disk (vw s))).
  unfold started, bdirty. destruct (truthy (Z.land b.(b_flags) B_DIRTY)).
  - eexists _, _. split; [reflexivity|]. split; [eexists; split; [reflexivity|]|].
    + cbn [idev set_idev]. rewrite (law_outs _ (bdrive b) b.(b_blockno)); [reflexivity| |apply Hok].
      rewrite law_write by done. by rewrite P3, P4.
    + rewrite law_write by done. cbn [c_disk c_phase set_c_disk set_phase]. by rewrite P5.
  - eexists _, _. split; [reflexivity|]. split; [eexists; split; [reflexivity|]|].
    + cbn [idev set_idev]. rewrite law_read by done. rewrite P3, P4. reflexivity.
    + cbn [c_disk c_phase set_c_disk set_phase]. by rewrite P5.
Qed.

(** ** The abstract disk *)

(** A disk with a queue of requests; a request is served in one step. *)
Record adisk : Type := mkadisk { a_disk : Z → Z → list Z; a_queue : list (nat * buf) }.

Definition done_flags (b : buf) : buf :=
  set_b_flags (Z.land (Z.lor b.(b_flags) B_VALID) (not32 B_DIRTY)) b.

(** The disk and the buffer after the request [b]. *)
Definition serve (d : Z → Z → list Z) (b : buf) : (Z → Z → list Z) * buf :=
  if bdirty b then (disk_write (bdrive b) b.(b_blockno) b.(b_data) d, done_flags b)
  else (d, done_flags (set_b_data (d (bdrive b) b.(b_blockno)) b)).

Definition submit (i : nat) (b : buf) (a : adisk) : adisk := mkadisk a.(a_disk) (a.(a_queue) ++ [(i, b)]).

Definition complete (a : adisk) : adisk :=
  match a.(a_queue) with
  | [] => a
  | (i, b) :: q => mkadisk (serve a.(a_disk) b).1 q
  end.

(** The buffers [l] are linked by [nx]. *)
Fixpoint qchain (nx : nat → option nat) (l : list nat) : Prop :=
  match l with
  | [] => True
  | i :: l => nx i = head l ∧ qchain nx l
  end.

Definition waiting (b : buf) : Prop := Z.land b.(b_flags) (Z.lor B_VALID B_DIRTY) ≠ B_VALID.

(** The driver in the state [s] implements the abstract disk [a].  The head of
    the queue has been started, so that its data is already on the disk if it
    is to be written. *)
Record refines (s : istate D) (a : adisk) : Prop := {
  rf_head : s.(idequeue) = head (map fst a.(a_queue));
  rf_chain : qchain s.(qnext) (map fst a.(a_queue));
  rf_nodup : NoDup (map fst a.(a_queue));
  rf_bufs : ∀ i b, (i, b) ∈ a.(a_queue) → (i < NBUF)%nat ∧ get_buf i s.(ik) = b ∧ request_ok b ∧ waiting b;
  rf_len : length s.(ik).(fs).(bufs) = NBUF;
  rf_ctl : ((vw s).(c_disk), (vw s).(c_phase)) =
    match a.(a_queue) with [] => (a.(a_disk), Ready) | (_, b) :: _ => started b a.(a_disk) end
}.

Lemma serve_started d b : (started b d).1 = (serve d b).1.
Proof. unfold started, serve. by destruct (bdirty b). Qed.

(** ** Appending to the queue *)

Lemma last_cons (l : list nat) i j : List.last (j :: l) i = List.last l j.
Proof.
  revert i j. induction l as [|k l IH]; intros i j; [done|]. change (List.last (k :: l) i = List.last (k :: l) j).
  by rewrite !IH.
Qed.

Lemma qchain_find nx s l : ∀ i fuel, s.(qnext) = nx → qchain nx (i :: l) → (length l < fuel)%nat →
  find_end fuel (LNext i) s = Ret (LNext (List.last l i)) s.
Proof.
  induction l as [|j l IH]; intros i fuel Hs [Hi Hl] Hf; (destruct fuel as [|fuel]; [simpl in Hf; lia|]);
    cbn [find_end]; unfold deref; rewrite bind_get, Hs, Hi; cbn [head].
  - done.
  - rewrite (IH j fuel Hs Hl) by (simpl in Hf; lia). by rewrite last_cons.
Qed.

Lemma qchain_other nx l i v : i ∉ l → qchain nx l → qchain (<[i := v]> nx) l.
Proof.
  induction l as [|j l IH]; [done|]. rewrite not_elem_of_cons. intros [Hij Hi] [H1 H2]. split; [|by apply IH].
  by rewrite fn_lookup_insert_ne.
Qed.

Lemma last_elem (l : list nat) i : List.last l i ∈ i :: l.
Proof.
  revert i. induction l as [|j l IH]; intros i; [by left|]. right. rewrite last_cons. apply IH.
Qed.

Lemma qchain_snoc nx l i j : NoDup (i :: l) → j ∉ i :: l → qchain nx (i :: l) → nx j = None →
  qchain (<[List.last l i := Some j]> nx) (i :: l ++ [j]).
Proof.
  revert i. induction l as [|k l IH]; intros i Hn Hj [Hi Hl] Hx.
  - cbn. split; [by rewrite fn_lookup_insert|]. split; [|done].
    rewrite fn_lookup_insert_ne; [done|]. set_solver.
  - apply list.NoDup_cons in Hn as [Hik Hn]. rewrite last_cons. split; [|apply (IH k Hn); [set_solver|done|done]].
    rewrite fn_lookup_insert_ne; [done|]. pose proof (last_elem l k). set_solver.
Qed.

(** Appending the buffer [i] to the queue. *)
Definition enqueue (i : nat) : I D unit :=
  modify (fun s => set_qnext (<[i := None]> s.(qnext)) s);;
  pp <- find_end (S NBUF) LHead;;
  assign pp (Some i).

Lemma enqueue_run s i q : s.(idequeue) = head q → qchain s.(qnext) q → NoDup q → i ∉ q → (length q < NBUF)%nat →
  ∃ nx, enqueue i s = Ret () (set_idequeue (head (q ++ [i])) (set_qnext nx s)) ∧ qchain nx (q ++ [i]).
Proof.
  intros Hh Hc Hn Hi Hl. unfold enqueue. rewrite bind_modify. set (s1 := set_qnext _ s).
  destruct q as [|j q].
  - cbn [find_end]. unfold bind at 1, deref. rewrite bind_get. cbn [s1 idequeue set_qnext]. rewrite Hh. cbn [head ret cbind].
    eexists. split; [reflexivity|]. cbn. split; [by rewrite fn_lookup_insert|done].
  - cbn [find_end]. unfold bind at 1, deref. rewrite bind_get. cbn [s1 idequeue set_qnext]. rewrite Hh. cbn [head].
    rewrite (qchain_find (<[i := None]> s.(qnext)) s1 q j NBUF); [|done|by apply qchain_other|simpl in Hl; lia].
    cbn [cbind]. exists (<[List.last q j := Some i]> (<[i := None]> s.(qnext))).
    split; [unfold s1; destruct s; cbn in Hh; subst; reflexivity|].
    change ((j :: q) ++ [i]) with (j :: q ++ [i]).
    apply qchain_snoc; [done|done|by apply qchain_other|by rewrite fn_lookup_insert].
Qed.

Lemma enqueue_then {B} i (k : unit → I D B) s s' : enqueue i s = Ret () s' →
  bind (modify (fun s => set_qnext (<[i := None]> s.(qnext)) s))
    (λ _, bind (find_end (S NBUF) LHead) (λ pp, bind (assign pp (Some i)) k)) s = k () s'.
Proof.
  unfold enqueue. rewrite !bind_modify. unfold bind. intros He.
  destruct (find_end (S NBUF) LHead (set_qnext _ s)) as [pp s1| | | |]; cbn [cbind] in *; try done.
  by destruct (assign pp (Some i) s1) as [[] s2| | | |]; cbn [cbind] in *; simplify_eq.
Qed.

Lemma small_nodup n (l : list nat) : NoDup l → (∀ i, i ∈ l → (i < n)%nat) → (length l <= n)%nat.
Proof.
  intros Hn Hl. rewrite <- (length_seq n 0). apply submseteq_length, NoDup_submseteq; [done|].
  intros i Hi. apply elem_of_seq. specialize (Hl i Hi). lia.
Qed.

Lemma queue_room s a i b : refines s a → i ∉ map fst a.(a_queue) → (i < NBUF)%nat →
  (length (map fst (submit i b a).(a_queue)) <= NBUF)%nat ∧ NoDup (map fst (submit i b a).(a_queue)).
Proof.
  intros R Hi Hb. assert (NoDup (map fst (submit i b a).(a_queue))) as Hn.
  { cbn. rewrite map_app. apply list.NoDup_app. split; [apply R|]. split; [|apply NoDup_singleton]. set_solver. }
  split; [|done]. apply small_nodup; [done|]. intros j Hj. cbn in Hj. rewrite map_app in Hj.
  apply elem_of_app in Hj as [Hj|Hj]; [|by apply list_elem_of_singleton in Hj as ->].
  apply list_elem_of_In, in_map_iff in Hj as ([k c] & <- & Hk). apply list_elem_of_In in Hk. by apply (rf_bufs _ _ R k c).
Qed.

(** A caller of [iderw]: the process [p] that holds the lock of the buffer
    [i], which has to be transferred. *)
Record caller (p i : nat) (s : istate D) : Prop := {
  cl_cur : s.(ik).(curproc) = Some p;
  cl_p : (p < length s.(ik).(pt))%nat;
  cl_held : s.(ik).(held) = [];
  cl_locked : truthy (sl_locked (get_sl (SL_BUF i) s.(ik))) = true;
  cl_owner : sl_pid (get_sl (SL_BUF i) s.(ik)) = p_pid (get_proc p s.(ik));
  cl_i : (i < NBUF)%nat;
  cl_ok : request_ok (get_buf i s.(ik));
  cl_waiting : waiting (get_buf i s.(ik));
  cl_dev : b_dev (get_buf i s.(ik)) = 0 ∨ s.(havedisk1) = true
}.

Lemma refines_submit s s' a i b : refines s a → (i < NBUF)%nat → get_buf i s.(ik) = b → request_ok b → waiting b →
  i ∉ map fst a.(a_queue) → s'.(ik).(fs) = s.(ik).(fs) →
  s'.(idequeue) = head (map fst a.(a_queue) ++ [i]) → qchain s'.(qnext) (map fst a.(a_queue) ++ [i]) →
  ((vw s').(c_disk), (vw s').(c_phase)) =
    (if decide (a.(a_queue) = []) then started b a.(a_disk) else ((vw s).(c_disk), (vw s).(c_phase))) →
  refines s' (submit i b a).
Proof.
  intros R Hi Eb Hok Hw Hq Hfs Hh Hc Hctl. destruct (queue_room s a i b R Hq Hi) as [_ Hnd].
  assert (∀ j, get_buf j s'.(ik) = get_buf j s.(ik)) as Hb by (intros j; unfold get_buf; by rewrite Hfs).
  constructor; cbn [submit a_queue a_disk]; rewrite ?map_app; try done.
  - cbn in Hnd. by rewrite map_app in Hnd.
  - intros j c Hj. rewrite Hb. apply elem_of_app in Hj as [Hj|Hj]; [by apply (rf_bufs _ _ R)|].
    apply list_elem_of_singleton in Hj as [= -> ->]. done.
  - rewrite Hfs. apply R.
  - rewrite Hctl. pose proof (rf_ctl _ _ R) as Hctl0. destruct (a_queue a) as [|[j c] q]; [done|]. by rewrite decide_False.
Qed.

(** The state of the driver part after the request has been queued, and
    started if it is the first. *)
Lemma iderw_queued p i s a : refines s a → caller p i s → i ∉ map fst a.(a_queue) →
  ∃ s', iderw i s = bind (iderw_wait wait_fuel i) (λ _, lift (release IDE_LOCK)) s' ∧
    s'.(ik) = set_held [IDE_LOCK] s.(ik) ∧ refines s' (submit i (get_buf i s.(ik)) a).
Proof.
  intros R [Hc Hp Hh Hlk Hown Hi Hok Hw Hdev] Hq. set (b := get_buf i s.(ik)) in *. unfold iderw.
  rewrite (bind_lift _ _ _ true s.(ik)).
  2: { rewrite (holdingsleep_run p (SL_BUF i) s.(ik) Hc) by first [rewrite Hh; apply not_elem_of_nil | simpl; by rewrite (rf_len _ _ R)]. by rewrite Hlk, Hown, Z.eqb_refl. }
  rewrite set_ik_id. cbn [negb]. rewrite bind_getb. fold b.
  destruct (Z.eqb_spec (Z.land b.(b_flags) (Z.lor B_VALID B_DIRTY)) B_VALID) as [|_]; [done|]. rewrite bind_get.
  replace (negb (b_dev b =? 0) && negb (havedisk1 s)) with false
    by (destruct Hdev as [-> | ->]; [done|by rewrite andb_false_r]).
  assert (acquire IDE_LOCK s.(ik) = Ret () (set_held [IDE_LOCK] s.(ik))) as Ea.
  { rewrite (acquire_free IDE_LOCK s.(ik)), Hh; [done|]. rewrite Hh. apply not_elem_of_nil. }
  rewrite (bind_lift _ _ _ _ _ Ea).
  destruct (queue_room s a i b R Hq Hi) as [Hroom _]. cbn in Hroom. rewrite map_app, length_app in Hroom. cbn in Hroom.
  set (s1 := set_ik (set_held [IDE_LOCK] s.(ik)) s).
  destruct (enqueue_run s1 i (map fst a.(a_queue))) as (nx & E & Hnx); [apply R|apply R|apply R|done|lia|].
  rewrite (enqueue_then _ _ _ _ E). rewrite bind_get. set (s2 := set_idequeue _ _). cbn [s2 idequeue set_idequeue].
  pose proof (refines_submit s) as Hsub. pose proof (rf_ctl _ _ R) as Hctl.
  destruct (a_queue a) as [|[j c] q] eqn:Eq; cbn [map fst head app].
  - rewrite bool_decide_eq_true_2 by done. unfold when. injection Hctl as Hd Hph.
    destruct (idestart_run i s2) as (s3 & c & E3 & (d & -> & Hv) & Hst); [exact Hph|exact Hok|].
    unfold bind at 1. rewrite E3. cbn [cbind]. eexists. split; [reflexivity|]. split; [done|].
    apply (Hsub _ a i b); rewrite ?Eq; try done. rewrite decide_True by done. cbn. rewrite Hv, Hst. by rewrite <- Hd.
  - rewrite bool_decide_eq_false_2 by (intros [= ->]; set_solver). unfold when. rewrite bind_ret_l.
    exists s2. split; [done|]. split; [done|]. apply (Hsub _ a i b); rewrite ?Eq; try done.
Qed.

Lemma refines_ik s a k : refines s a → k.(fs) = s.(ik).(fs) → refines (set_ik k s) a.
Proof.
  intros [R1 R2 R3 R4 R5 R6] Hk. constructor; try done; cbn [ik set_ik].
  - intros i b Hi. unfold get_buf. rewrite Hk. by apply R4.
  - by rewrite Hk.
Qed.

Lemma done_flags_done f : Z.land (Z.land (Z.lor f B_VALID) (not32 B_DIRTY)) (Z.lor B_VALID B_DIRTY) = B_VALID.
Proof.
  change (Z.lor B_VALID B_DIRTY) with 6. unfold B_VALID, B_DIRTY.
  rewrite <- Z.land_assoc. change (Z.land (not32 4) 6) with 2. rewrite Z.land_lor_distr_l. change (Z.land 2 2) with 2.
  apply Z.bits_inj'. intros i _. rewrite Z.lor_spec, Z.land_spec.
  by destruct (Z.testbit f i), (Z.testbit 2 i).
Qed.

Lemma serve_done d b : ¬ waiting (serve d b).2.
Proof.
  unfold waiting, serve. intros Hw. apply Hw. destruct (bdirty b); cbn [snd done_flags b_flags set_b_flags]; apply done_flags_done.
Qed.

(** Queueing a request puts the process to sleep; it returns when it is
    resumed with its buffer transferred. *)
Lemma iderw_submits p i s a : (2 <= wait_fuel)%nat → refines s a → caller p i s → i ∉ map fst a.(a_queue) →
  ∃ s' k, iderw i s = Switch s' k ∧ refines s' (submit i (get_buf i s.(ik)) a) ∧
    s'.(ik) = put_proc p (sleeping_on (CH_BUF i) (get_proc p s.(ik))) (set_held [PTABLE_LOCK] s.(ik)) ∧
    ∀ s2, s2.(ik).(held) = [PTABLE_LOCK] → (p < length s2.(ik).(pt))%nat → ¬ waiting (get_buf i s2.(ik)) →
      ∃ k3, k s2 = Ret () (set_ik k3 s2) ∧ k3.(held) = [] ∧ k3.(fs) = s2.(ik).(fs).
Proof.
  intros Hf R Hcl Hq. destruct (iderw_queued p i s a R Hcl Hq) as (s1 & -> & Ek & R1).
  destruct Hcl as [Hc Hp Hh Hlk Hown Hi Hok Hw Hdev].
  destruct wait_fuel as [|[|n]]; [lia..|]. unfold bind at 1. cbn [iderw_wait]. rewrite bind_getb. rewrite Ek.
  change (get_buf i (set_held [IDE_LOCK] (ik s))) with (get_buf i s.(ik)).
  destruct (Z.eqb_spec (Z.land (b_flags (get_buf i s.(ik))) (Z.lor B_VALID B_DIRTY)) B_VALID) as [|_]; [done|]. cbn [negb].
  destruct (sleep_switch p (CH_BUF i) IDE_LOCK (set_held [IDE_LOCK] s.(ik)) Hc Hp eq_refl ltac:(done)) as (k & Es & Hk).
  unfold bind at 1, lift at 1. rewrite Ek, Es. cbn [lift_comp cbind]. eexists _, _. split; [reflexivity|]. split; [apply refines_ik; [done|by rewrite Ek]|].
  split; [done|]. intros s2 Hh2 Hp2 Hw2. rewrite Hk by done. cbn [lift_comp cbind]. set (k2 := put_proc _ _ _).
  rewrite bind_getb. cbn [ik set_ik]. change (get_buf i k2) with (get_buf i s2.(ik)).
  destruct (Z.eqb_spec (Z.land (b_flags (get_buf i s2.(ik))) (Z.lor B_VALID B_DIRTY)) B_VALID) as [_|]; [|done]. cbn [negb ret cbind].
  exists (set_held [] k2). unfold lift. cbn [ik set_ik].
  rewrite (release_head IDE_LOCK [] k2) by (done || apply not_elem_of_nil). done.
Qed.

(** ** The interrupt *)

Lemma put_buf_id i x : (i < length x.(bufs))%nat → put_buf i (x.(bufs) !!! i) x = x.
Proof.
  intros Hi. unfold put_buf. rewrite list_insert_id; [by destruct x|]. by apply list_lookup_lookup_total_lt.
Qed.

Lemma bind_lift_modb {B} i f b (k : unit → I D B) s : (i < length s.(ik).(fs).(bufs))%nat → get_buf i s.(ik) = b →
  bind (lift (modb i f)) k s = k () (set_ik (set_fs (put_buf i (f b) s.(ik).(fs)) s.(ik)) s).
Proof.
  intros Hi Hb. apply bind_lift. unfold modb, modfs, modify. rewrite upd_buf_put by done. unfold get_buf in Hb. by rewrite Hb.
Qed.

(** The transfer of the data of the buffer at the head of the queue. *)
Definition transfer (i : nat) (b : buf) : I D unit :=
  if Z.land b.(b_flags) B_DIRTY =? 0 then
    r <- idewait true;;
    if 0 <=? r then
      l <- insl 496 (Z.to_nat (IDE_BSIZE / 4));;
      lift (modb i (set_b_data l))
    else ret ()
  else ret ().

Lemma transfer_run s i b d : (i < length s.(ik).(fs).(bufs))%nat → get_buf i s.(ik) = b →
  ((vw s).(c_disk), (vw s).(c_phase)) = started b d →
  ∃ dv b', transfer i b s = Ret () (set_idev dv (set_ik (set_fs (put_buf i b' s.(ik).(fs)) s.(ik)) s)) ∧
    (view dv).(c_phase) = Ready ∧ (view dv).(c_disk) = (serve d b).1 ∧ done_flags b' = (serve d b).2.
Proof.
  intros Hi Hb Hst. unfold transfer, started, serve, bdirty, truthy in *.
  destruct (Z.land b.(b_flags) B_DIRTY =? 0); cbn [negb] in *; injection Hst as Hd Hp.
  - destruct (idewait_run true s) as (s1 & E & dv & -> & Ev). unfold bind at 1. rewrite E. cbn [cbind Z.leb].
    change (0 <=? 0) with true. cbn iota. unfold insl, bind. cbn [cbind]. change (Z.to_nat (IDE_BSIZE / 4)) with 128%nat.
    rewrite <- Ev in Hp, Hd. destruct (law_ins dv _ _ Hp) as [L1 L2]. cbn [idev set_idev]. rewrite L1.
    exists (port_ins 496 128 dv).2, (set_b_data (d (bdrive b) b.(b_blockno)) b). split; [|split; [|split]].
    + unfold lift, modb, modfs, modify. cbn [ik set_idev lift_comp]. rewrite upd_buf_put by done.
      unfold get_buf in Hb. by rewrite Hb, Hd.
    + by rewrite L2.
    + by rewrite L2.
    + done.
  - exists s.(idev), b. split; [|done]. rewrite <- Hb. unfold get_buf. rewrite put_buf_id by done. by destruct s as [[] ? ? ? ?].
Qed.

Lemma ideintr_empty s a : refines s a → a.(a_queue) = [] → IDE_LOCK ∉ s.(ik).(held) → ideintr s = Ret () s.
Proof.
  intros R Eq Hl. unfold ideintr. rewrite (bind_lift _ _ _ _ _ (acquire_free _ _ Hl)). rewrite bind_get.
  cbn [idequeue set_ik]. rewrite (rf_head _ _ R), Eq. cbn [map head]. unfold lift. cbn [ik set_ik].
  rewrite (release_head IDE_LOCK s.(ik).(held)) by done. cbn [lift_comp]. f_equal. by destruct s as [[] ? ? ? ?].
Qed.

(** The queue without its head. *)
Lemma refines_tail s a i b q nx k : refines s a → a.(a_queue) = (i, b) :: q → 
  (∀ j c, (j, c) ∈ q → get_buf j k = c) → length k.(fs).(bufs) = NBUF → nx = s.(qnext) i →
  ∀ dv, ((view dv).(c_disk), (view dv).(c_phase)) =
    match q with [] => ((serve a.(a_disk) b).1, Ready) | (_, c) :: _ => started c (serve a.(a_disk) b).1 end →
  refines (set_idev dv (set_idequeue nx (set_ik k s))) (complete a).
Proof.
  intros [R1 R2 R3 R4 R5 R6] Eq Hb Hlen Hnx dv Hc. unfold complete. rewrite Eq in *. cbn [map fst] in *.
  destruct R2 as [R2 R2']. apply list.NoDup_cons in R3 as [_ R3]. constructor; cbn [a_queue a_disk]; try done.
  - cbn. by rewrite Hnx.
  - intros j c Hj. destruct (R4 j c) as (H1 & _ & H3 & H4); [by right|]. split_and!; [done|by apply Hb|done..].
Qed.

(** What [ideintr] does after it has taken the buffer [i] from the queue. *)
Definition intr_rest (i : nat) (b : buf) : I D unit :=
  transfer i b;;
  lift (modb i (fun b => set_b_flags (Z.lor b.(b_flags) B_VALID) b));;
  lift (modb i (fun b => set_b_flags (Z.land b.(b_flags) (not32 B_DIRTY)) b));;
  lift (wakeup (CH_BUF i));;
  q <- get idequeue;;
  match q with
  | Some _ => idestart q
  | None => ret ()
  end;;
  lift (release IDE_LOCK).

Definition start_next : I D unit :=
  q <- get idequeue;;
  match q with
  | Some _ => idestart q
  | None => ret ()
  end;;
  lift (release IDE_LOCK).

(** The kernel after the completion of [i]: the buffer is [b'], and the
    processes that wait for it have been woken. *)
Definition completed (i : nat) (b' : buf) (k : kstate) : kstate :=
  set_pt (wake_proc (CH_BUF i) <$> k.(pt)) (set_fs (put_buf i b' k.(fs)) k).

Lemma intr_rest_run s i b d : (i < length s.(ik).(fs).(bufs))%nat → get_buf i s.(ik) = b → wf_table s.(ik) →
  PTABLE_LOCK ∉ s.(ik).(held) → ((vw s).(c_disk), (vw s).(c_phase)) = started b d →
  ∃ dv, intr_rest i b s = start_next (set_idev dv (set_ik (completed i (serve d b).2 s.(ik)) s)) ∧
    (view dv).(c_phase) = Ready ∧ (view dv).(c_disk) = (serve d b).1.
Proof.
  intros Hi Hb Hw Hl Hst. destruct (transfer_run s i b d Hi Hb Hst) as (dv & b' & E & H1 & H2 & H3).
  exists dv. split; [|done]. unfold intr_rest. rewrite (bind_returns _ _ _ _ _ E).
  assert (∀ c, (i < length (put_buf i c s.(ik).(fs)).(bufs))%nat) as Hi' by (intros c; by rewrite length_put_buf).
  rewrite (bind_lift_modb i _ b'); [|apply Hi'|by apply put_buf_same].
  rewrite (bind_lift_modb i _ (set_b_flags (Z.lor b'.(b_flags) B_VALID) b'));
    [|cbn; rewrite !length_insert; exact Hi|apply put_buf_same; apply Hi'].
  cbn [ik set_ik set_idev fs set_fs]. rewrite !put_put_buf.
  fold (done_flags b'). change (set_b_flags _ (set_b_flags _ b')) with (done_flags b'). rewrite H3.
  rewrite (bind_lift _ _ _ () (completed i (serve d b).2 s.(ik))); [done|].
  cbn [ik set_ik]. by rewrite wakeup_run.
Qed.

Lemma start_next_run s ls : s.(ik).(held) = IDE_LOCK :: ls → IDE_LOCK ∉ ls → (vw s).(c_phase) = Ready →
  (∀ j, s.(idequeue) = Some j → request_ok (get_buf j s.(ik))) →
  ∃ dv, start_next s = Ret () (set_idev dv (set_ik (set_held ls s.(ik)) s)) ∧
    ((view dv).(c_disk), (view dv).(c_phase)) =
      match s.(idequeue) with None => ((vw s).(c_disk), Ready) | Some j => started (get_buf j s.(ik)) (vw s).(c_disk) end.
Proof.
  intros Hh Hl Hp Hok. unfold start_next. rewrite bind_get. destruct s.(idequeue) as [j|] eqn:Eq.
  - destruct (idestart_run j s Hp (Hok j eq_refl)) as (s' & c & E & (dv & -> & Hv) & Hst).
    unfold bind. rewrite E. cbn [cbind]. exists dv. split; [|by rewrite Hv, Hst]. unfold lift. cbn [ik set_idev].
    by rewrite (release_head IDE_LOCK ls).
  - rewrite bind_ret_l. exists s.(idev). split; [|by rewrite Hp]. unfold lift. rewrite (release_head IDE_LOCK ls) by done.
    by destruct s.
Qed.

Lemma ideintr_completes s a i b q : refines s a → a.(a_queue) = (i, b) :: q → wf_table s.(ik) →
  IDE_LOCK ∉ s.(ik).(held) → PTABLE_LOCK ∉ s.(ik).(held) →
  ∃ s', ideintr s = Ret () s' ∧ refines s' (complete a) ∧ s'.(ik) = completed i (serve a.(a_disk) b).2 s.(ik).
Proof.
  intros R Eq Hw Hl Hl2. pose proof (rf_bufs _ _ R) as Hbufs. rewrite Eq in Hbufs.
  destruct (Hbufs i b) as (Hi & Hb & _); [by left|]. pose proof (rf_len _ _ R) as Hlen. pose proof (rf_ctl _ _ R) as Hctl.
  pose proof (rf_nodup _ _ R) as Hnd. rewrite Eq in Hctl, Hnd. cbn [map fst] in Hnd. apply list.NoDup_cons in Hnd as [Hiq _].
  pose proof (rf_chain _ _ R) as Hch. rewrite Eq in Hch. destruct Hch as [Hnx _]. cbn [fst] in Hnx.
  unfold ideintr. rewrite (bind_lift _ _ _ _ _ (acquire_free _ _ Hl)), bind_get. cbn [idequeue set_ik].
  rewrite (rf_head _ _ R), Eq. cbn [map fst head]. rewrite bind_get, bind_modify, bind_getb. cbn [qnext set_ik ik set_idequeue].
  change (get_buf i (set_held _ _)) with (get_buf i s.(ik)). rewrite Hb. set (s1 := set_idequeue _ _).
  destruct (intr_rest_run s1 i b a.(a_disk)) as (dv & E & Hp & Hd); [by rewrite <- Hlen in Hi|done|exact Hw| |exact Hctl|].
  { cbn. apply not_elem_of_cons. by split. }
  change (∃ s', intr_rest i b s1 = Ret () s' ∧ refines s' (complete a) ∧ s'.(ik) = completed i (serve a.(a_disk) b).2 s.(ik)).
  rewrite E. set (s2 := set_idev dv _).
  assert (∀ j c, (j, c) ∈ q → get_buf j s2.(ik) = c) as Hqb.
  { intros j c Hj. destruct (Hbufs j c) as (_ & Hc & _); [by right|]. rewrite <- Hc. unfold get_buf. apply put_buf_ne.
    intros ->. apply Hiq. apply list_elem_of_In, in_map_iff. exists (j, c). split; [done|by apply list_elem_of_In]. }
  destruct (start_next_run s2 s.(ik).(held)) as (dv2 & E2 & Hc2); [done|done|exact Hp| |].
  { intros j Hj. cbn in Hj. rewrite Hnx in Hj. destruct q as [|[j' c] q]; [done|]. injection Hj as <-.
    rewrite (Hqb j' c) by by left. by apply (Hbufs j' c); right; left. }
  exists (set_idev dv2 (set_ik (set_held s.(ik).(held) s2.(ik)) s2)). split; [exact E2|]. split.
  - apply (refines_tail s a i b q (s.(qnext) i) (set_held s.(ik).(held) s2.(ik)) R Eq); [exact Hqb| |done|].
    + cbn. by rewrite length_insert.
    + rewrite Hc2. cbn [idequeue s2 set_idev set_ik s1 set_idequeue]. rewrite Hnx.
      change (vw s2) with (view dv). rewrite Hd. destruct q as [|[j c] q]; [done|]. cbn [map fst head]. by rewrite (Hqb j c) by left.
  - unfold s2, s1. cbn. by destruct s as [[] ? ? ? ?].
Qed.

(** ** The disk of [memide.c] *)

Lemma length_upd_buf i f x : length (upd_buf i f x).(bufs) = length x.(bufs).
Proof. unfold upd_buf. cbn. by rewrite length_alter. Qed.

Lemma clear_dirty f : 0 <= f < 2 ^ 32 → Z.land f B_DIRTY = 0 → Z.land f (not32 B_DIRTY) = f.
Proof.
  intros Hf H4. assert (not32 B_DIRTY = Z.ldiff (Z.ones 32) 4) as -> by done. apply Z.bits_inj'. intros i Hi.
  rewrite Z.land_spec, Z.ldiff_spec. assert (Z.testbit f i && Z.testbit 4 i = false) as E by (rewrite <- Z.land_spec; change 4 with B_DIRTY; by rewrite H4, Z.bits_0).
  destruct (Z.ltb_spec i 32).
  - rewrite Z.ones_spec_low by lia. by destruct (Z.testbit f i), (Z.testbit 4 i).
  - rewrite (Z.bits_above_log2 f i); [done|lia|]. destruct (Z.eq_dec f 0) as [-> | ]; [cbn; lia|].
    assert (Z.log2 f < 32) by (apply Z.log2_lt_pow2; lia). lia.
Qed.

Lemma valid_then_clean f : Z.lor (Z.land f (not32 B_DIRTY)) B_VALID = Z.land (Z.lor f B_VALID) (not32 B_DIRTY).
Proof. by rewrite Z.land_lor_distr_l. Qed.

(** Its [iderw] serves the request before it returns. *)
Lemma memide_serves p i s d : caller p i s → length s.(ik).(fs).(bufs) = NBUF →
  let b := get_buf i s.(ik) in b.(b_dev) = 1 → b.(b_blockno) < s.(ik).(fs).(disksize) → 0 <= b.(b_flags) < 2 ^ 32 →
  (∀ n, d 1 n = s.(ik).(fs).(disk) n) →
  ∃ k, Bio.iderw i s.(ik) = Ret () k ∧ get_buf i k = (serve d b).2 ∧ ∀ n, k.(fs).(disk) n = (serve d b).1 1 n.
Proof.
  intros [Hc Hp Hh Hlk Hown Hi Hok Hw _] Hlen b Hdev Hno Hfl Hd. subst b.
  assert (i < length s.(ik).(fs).(bufs))%nat as Hi' by by rewrite Hlen. set (k := s.(ik)) in *. unfold Bio.iderw.
  rewrite (bind_returns _ _ _ true k).
  2: { rewrite (holdingsleep_run p (SL_BUF i) k Hc); [|rewrite Hh; apply not_elem_of_nil|simpl; by rewrite Hlen].
       by rewrite Hlk, Hown, Z.eqb_refl. }
  cbn [negb]. rewrite (bind_returns _ _ _ (get_buf i k) k) by done. set (b := get_buf i k) in *.
  destruct (Z.eqb_spec (Z.land b.(b_flags) (Z.lor B_VALID B_DIRTY)) B_VALID) as [|_]; [done|]. rewrite Hdev. cbn [negb Z.eqb Pos.eqb].
  rewrite bind_get. destruct (Z.leb_spec k.(fs).(disksize) b.(b_blockno)) as [|_]; [lia|].
  assert (bdrive b = 1) as Hdr by (unfold bdrive; by rewrite Hdev). unfold serve, bdirty.
  destruct (truthy (Z.land b.(b_flags) B_DIRTY)) eqn:Ed; (eexists; split; [reflexivity|]); (split; [unfold get_buf; cbn [fs set_fs set_disk set_writes]|]).
  - rewrite upd_buf_same by (cbn [bufs set_writes set_disk]; by rewrite length_upd_buf).
    cbn [bufs set_writes set_disk]. rewrite upd_buf_same by done.
    unfold done_flags. cbn [b_flags set_b_flags snd]. fold (get_buf i k). fold b. rewrite <- valid_then_clean. by destruct b.
  - intros n. cbn. unfold disk_write. rewrite Hdr. cbn. destruct (Z.eqb_spec n b.(b_blockno)) as [-> | Hn].
    + by rewrite fn_lookup_insert.
    + by rewrite fn_lookup_insert_ne, Hd.
  - rewrite upd_buf_same by (cbn [bufs set_writes set_disk]; by rewrite length_upd_buf).
    cbn [bufs set_writes set_disk]. rewrite upd_buf_same by done.
    unfold done_flags. cbn [b_flags set_b_flags snd]. fold (get_buf i k). fold b. rewrite Hdr, Hd.
    rewrite <- valid_then_clean. rewrite clear_dirty; [done|done|]. unfold truthy in Ed. by destruct (Z.eqb_spec (Z.land b.(b_flags) B_DIRTY) 0).
  - intros n. cbn. by rewrite Hd.
Qed.

(** C33: The driver implements a disk with a queue of requests that are
    served in their order.  [iderw] of a buffer appends its request to the queue
    and puts the process to sleep, and returns when the process is resumed after
    the buffer has been transferred.  The interrupt with an empty queue does
    nothing; otherwise it serves the first request (the block of the buffer is
    written to the disk, or read from it), marks the buffer valid and clean,
    wakes the processes that sleep on it and starts the next request.  The
    driver for a disk in memory of [memide.c] serves the request in the same way
    before it returns. *)
Theorem ide_refines_disk s a : (2 <= wait_fuel)%nat → refines s a →
  (∀ p i, caller p i s → i ∉ map fst a.(a_queue) →
     ∃ s' k, iderw i s = Switch s' k ∧ refines s' (submit i (get_buf i s.(ik)) a) ∧
       s'.(ik) = put_proc p (sleeping_on (CH_BUF i) (get_proc p s.(ik))) (set_held [PTABLE_LOCK] s.(ik)) ∧
       ∀ s2, s2.(ik).(held) = [PTABLE_LOCK] → (p < length s2.(ik).(pt))%nat → ¬ waiting (get_buf i s2.(ik)) →
         ∃ k3, k s2 = Ret () (set_ik k3 s2) ∧ k3.(held) = [] ∧ k3.(fs) = s2.(ik).(fs)) ∧
  (wf_table s.(ik) → IDE_LOCK ∉ s.(ik).(held) → PTABLE_LOCK ∉ s.(ik).(held) →
     match a.(a_queue) with
     | [] => ideintr s = Ret () s
     | (i, b) :: _ => ¬ waiting (serve a.(a_disk) b).2 ∧
       ∃ s', ideintr s = Ret () s' ∧ refines s' (complete a) ∧ s'.(ik) = completed i (serve a.(a_disk) b).2 s.(ik)
     end) ∧
  (∀ p i d, let b := get_buf i s.(ik) in caller p i s →
     b.(b_dev) = 1 → b.(b_blockno) < s.(ik).(fs).(disksize) → 0 <= b.(b_flags) < 2 ^ 32 →
     (∀ n, d 1 n = s.(ik).(fs).(disk) n) →
     ∃ k, Bio.iderw i s.(ik) = Ret () k ∧ get_buf i k = (serve d b).2 ∧ ∀ n, k.(fs).(disk) n = (serve d b).1 1 n).
Proof.
  intros Hf R. split; [|split].
  - intros p i. by apply iderw_submits.
  - intros Hw H1 H2. destruct (a_queue a) as [|[i b] q] eqn:Eq; [by apply (ideintr_empty s a)|].
    split; [apply serve_done|]. by apply (ideintr_completes s a i b q).
  - intros p i d b Hc. apply (memide_serves p i s d Hc), R.
Qed.

End proofs.

(** ** A controller that is always ready *)

Definition ctl_out (p v : Z) (c : ctl) : ctl :=
  if p =? 503 then
    if v =? IDE_CMD_READ then set_phase (DataIn (sel_drive c) (sel_sector c)) c
    else if v =? IDE_CMD_WRITE then set_phase (DataOut (sel_drive c) (sel_sector c)) c
    else c
  else set_reg p v c.

Definition ctl_outs (l : list Z) (c : ctl) : ctl :=
  match c.(c_phase) with
  | DataOut dr n => set_c_disk (disk_write dr n l c.(c_disk)) (set_phase Ready c)
  | _ => c
  end.

Definition ctl_ins (c : ctl) : list Z * ctl :=
  match c.(c_phase) with
  | DataIn dr n => (c.(c_disk) dr n, set_phase Ready c)
  | _ => ([], c)
  end.

#[local] Instance ready_ports : Machine ctl := {
  port_in := fun _ c => (IDE_DRDY, c);
  port_out := ctl_out;
  port_outs := fun _ => ctl_outs;
  port_ins := fun _ _ => ctl_ins;
  mem_in := fun _ c => (0, c);
  mem_out := fun _ _ c => c
}.
#[local] Instance ready_fuel : IdeFuel := 1%nat.

#[local] Instance ready_laws : IdeLaws ctl.
Proof.
  refine {| view := fun c => c; delay := fun _ => 0%nat |}.
  - intros _. apply Nat.lt_0_1.
  - done.
  - intros d. by left.
  - intros p v d Hp _. unfold port_out, ready_ports, ctl_out.
    repeat (apply elem_of_cons in Hp as [-> | Hp]; [done|]). by apply not_elem_of_nil in Hp.
  - done.
  - done.
  - intros d dr n Hp. unfold port_ins, ready_ports, ctl_ins. by rewrite Hp.
  - intros d dr n l Hp _. unfold port_outs, ready_ports, ctl_outs. by rewrite Hp.
Defined.

Definition blank_disk : Z → Z → list Z := fun _ _ => replicate 512 0.

(** A process that has locked the buffer 3 to read block 7 of the disk 1. *)
Definition reader : istate ctl :=
  mkist (set_fs (put_buf 3 (mkbuf 0 1 7 (mkslk 1 (p_pid (get_proc 1 demo))) 1 (replicate 512 0)) fs0) demo)
    None (fun _ => None) true (mkctl blank_disk (fun _ => 0) Ready).

Lemma reader_refines : refines reader (mkadisk blank_disk []).
Proof. constructor; try done; [apply NoDup_nil_2|]. intros i b Hi. by apply not_elem_of_nil in Hi. Qed.

Lemma reader_caller : caller 1 3 reader.
Proof. constructor; try done; try (vm_compute; lia); try (by right); by vm_compute. Qed.

Lemma ide_refines_disk_witness : let WF : WaitFuel := 2%nat in
  ∃ s' k, iderw 3 reader = Switch s' k ∧ refines s' (submit 3 (get_buf 3 reader.(ik)) (mkadisk blank_disk [])).
Proof.
  intros WF. destruct (ide_refines_disk reader (mkadisk blank_disk []) (le_n 2) reader_refines) as [H _].
  destruct (H 1%nat 3%nat reader_caller) as (s' & k & E & R & _); [apply not_elem_of_nil|]. by exists s', k.
Defined.
