(* ===== verification/Boot.v ===== *)
(** * The boot loader: [bootmain.c]

    The loader runs on the bare machine: physical memory and the disk
    controller of [Ide].  It reads whole sectors, also before and behind the
    bytes it was asked for, and overwrites what it read too much with the
    following segments.  The theorem shows that nevertheless every segment of
    the kernel image is in place when the kernel is entered. *)

From stdpp Require Import base numbers option list sets strings gmap.
From Stdlib Require Import ZArith Lia.
From S2P Require Import Prelude Kstring State Exec Devices Ide.

Definition SECTSIZE : Z := 512.

Section boot.
Context {D : Type} `{!Machine D} `{!IdeFuel}.

(** Physical memory and the devices. *)
Record bstate : Type := mkbst { bmem : memory; bdev : D }.
Definition set_bmem (v : memory) (s : bstate) : bstate := mkbst v s.(bdev).
Definition set_bdev (v : D) (s : bstate) : bstate := mkbst s.(bmem) v.

(** Entering the kernel is a jump to an address. *)
Definition B : Type → Type := prog bstate Z.

Definition inb (p : Z) : B Z := fun s => let r := port_in p s.(bdev) in Ret r.1 (set_bdev r.2 s).
Definition outb (p v : Z) : B unit := modify (fun s => set_bdev (port_out p (v mod 256) s.(bdev)) s).

(** The bytes [l] at the address [a]. *)
Fixpoint put_bytes (m : memory) (a : Z) (l : list Z) : memory :=
  match l with
  | [] => m
  | b :: l => put_bytes (store8 m a b) (u32 (a + 1)) l
  end.

Definition insl (p addr : Z) (cnt : nat) : B unit :=
  fun s => let r := port_ins p cnt s.(bdev) in Ret () (mkbst (put_bytes s.(bmem) addr r.1) r.2).

Fixpoint waitdisk_loop (fuel : nat) : B unit :=
  match fuel with
  | O => fun s => Stuck s
  | S fuel =>
    r <- inb 503;;
    if negb (Z.land r 192 =? 64) then waitdisk_loop fuel else ret ()
  end.

Definition waitdisk : B unit := waitdisk_loop ide_fuel.

Definition readsect (dst offset : Z) : B unit :=
  waitdisk;;
  outb 498 1;;
  outb 499 offset;;
  outb 500 (Z.shiftr offset 8);;
  outb 501 (Z.shiftr offset 16);;
  outb 502 (Z.lor (Z.shiftr offset 24) 224);;
  outb 503 32;;
  waitdisk;;
  insl 496 dst (Z.to_nat (SECTSIZE / 4)).

Fixpoint readseg_loop (fuel : nat) (pa epa offset : Z) : B unit :=
  match fuel with
  | O => fun s => Stuck s
  | S fuel =>
    if pa <? epa then
      readsect pa offset;;
      readseg_loop fuel (u32 (pa + SECTSIZE)) epa (u32 (offset + 1))
    else ret ()
  end.

(** A segment of [count] bytes meets at most this number of sectors. *)
Definition readseg (pa count offset : Z) : B unit :=
  let epa := u32 (pa + count) in
  let pa := u32 (pa - offset mod SECTSIZE) in
  let offset := u32 (offset / SECTSIZE + 1) in
  readseg_loop (Z.to_nat (count / SECTSIZE + 3)) pa epa offset.

Definition ld16_at (m : memory) (a : Z) : Z := load8 m a + 256 * load8 m (a + 1).

(** The address of the scratch space for the first page of the image. *)
Definition ELF_AT : Z := 65536.

Definition sizeof_proghdr : Z := 32.

Fixpoint boot_loop (fuel : nat) (ph eph : Z) : B unit :=
  match fuel with
  | O => fun s => Stuck s
  | S fuel =>
    if ph <? eph then
      pa <- get (fun s => load32 s.(bmem) (ph + 12));;
      filesz <- get (fun s => load32 s.(bmem) (ph + 16));;
      off <- get (fun s => load32 s.(bmem) (ph + 4));;
      readseg pa filesz off;;
      memsz <- get (fun s => load32 s.(bmem) (ph + 20));;
      filesz <- get (fun s => load32 s.(bmem) (ph + 16));;
      when (filesz <? memsz)
        (modify (fun s => set_bmem (stosb s.(bmem) (u32 (pa + filesz)) 0 (Z.to_nat (memsz - filesz))) s));;
      boot_loop fuel (u32 (ph + sizeof_proghdr)) eph
    else ret ()
  end.

Definition bootmain : B unit :=
  let elf := ELF_AT in
  readseg elf 4096 0;;
  magic <- get (fun s => load32 s.(bmem) elf);;
  if negb (magic =? ELF_MAGIC) then ret () else
  phoff <- get (fun s => load32 s.(bmem) (elf + 28));;
  phnum <- get (fun s => ld16_at s.(bmem) (elf + 44));;
  let ph := u32 (elf + phoff) in
  let eph := u32 (ph + phnum * sizeof_proghdr) in
  boot_loop (S (Z.to_nat phnum)) ph eph;;
  entry <- get (fun s => load32 s.(bmem) (elf + 24));;
  (fun s => Jump entry s).

End boot.
Arguments bstate D : clear implicits.
Arguments B D : clear implicits.

Section proofs.
Context {D : Type} `{!Machine D} `{!IdeFuel} `{!IdeLaws D}.
Implicit Types (s : bstate D).

Notation bvw s := (view (bdev s)).

(** Reading bytes into memory. *)
Lemma put_bytes_spec m a l x : 0 <= a → a + Z.of_nat (length l) <= two32 → word x → Forall (λ b, 0 <= b < 256) l →
  put_bytes m a l x = if (a <=? x) && (x <? a + Z.of_nat (length l)) then l !!! Z.to_nat (x - a) else m x.
Proof.
  intros Ha Hl Hx Hb. revert m a Ha Hl. induction Hb as [|b l Hb Hbl IH]; intros m a Ha Hl.
  - cbn [put_bytes length]. by destruct (Z.leb_spec a x), (Z.ltb_spec x (a + Z.of_nat 0)); try lia.
  - cbn [put_bytes length] in *. destruct (decide (l = [])) as [-> | Hne].
    { cbn [put_bytes length] in *. change (Z.of_nat 1) with 1 in *. unfold store8. rewrite u32_id by (unfold word; lia).
      destruct (Z.eqb_spec x a) as [-> | Hxa].
      - rewrite Z.leb_refl, Z.sub_diag, (Z.mod_small b) by done. by destruct (Z.ltb_spec a (a + 1)); [|lia].
      - by destruct (Z.leb_spec a x), (Z.ltb_spec x (a + 1)); try lia. }
    assert (0 < Z.of_nat (length l)) by (destruct l; [done|simpl; lia]).
    assert (u32 (a + 1) = a + 1) as -> by (apply u32_id; unfold word; lia). rewrite IH by lia.
    unfold store8. rewrite (u32_id a) by (unfold word; lia).
    destruct (Z.eqb_spec x a) as [-> | Hxa].
    + rewrite Z.leb_refl, Z.sub_diag. destruct (Z.leb_spec (a + 1) a); [lia|]. cbn.
      destruct (Z.ltb_spec a (a + Z.of_nat (S (length l)))); [|lia]. by rewrite Z.mod_small.
    + destruct (Z.leb_spec (a + 1) x), (Z.leb_spec a x); try lia; cbn [andb]; [|done].
      replace (a + 1 + Z.of_nat (length l)) with (a + Z.of_nat (S (length l))) by lia. destruct (x <? _); [|done].
      replace (Z.to_nat (x - a)) with (S (Z.to_nat (x - (a + 1)))) by lia. done.
Qed.

Lemma waitdisk_run s : ∃ d', waitdisk s = Ret () (set_bdev d' s) ∧ view d' = bvw s.
Proof.
  unfold waitdisk. pose proof (law_delay s.(bdev)) as Hf. revert Hf. generalize ide_fuel. intros fuel. revert s.
  induction fuel as [|fuel IH]; intros s Hf; [lia|]. cbn [waitdisk_loop]. unfold inb, bind. cbn [cbind].
  pose proof (law_status s.(bdev)) as Hs. destruct (law_ready s.(bdev)) as [[H1 _]|[H1 H2]];
    change (Z.lor IDE_BSY IDE_DRDY) with 192 in H1; change IDE_DRDY with 64 in H1.
  - rewrite H1. cbn [negb]. by eexists.
  - destruct (Z.eqb_spec (Z.land (port_in 503 (bdev s)).1 192) 64) as [|_]; [done|]. cbn [negb].
    destruct (IH (set_bdev (port_in 503 (bdev s)).2 s)) as (d' & E & Ev); [cbn; lia|].
    exists d'. split; [exact E|]. by rewrite Ev.
Qed.

(** The drive and the sector in the registers written by [readsect]. *)
Definition sect_regs (offset : Z) : list (Z * Z) :=
  [(498, 1 mod 256); (499, offset mod 256); (500, Z.shiftr offset 8 mod 256); (501, Z.shiftr offset 16 mod 256);
   (502, Z.lor (Z.shiftr offset 24) 224 mod 256)].

Lemma lor_drive h : 0 <= h < 16 → Z.lor h 224 mod 256 = 224 + h.
Proof.
  intros Hh. assert (Forall (λ h, Z.lor h 224 mod 256 = 224 + h) (seqZ 0 16)) as Hall by (repeat constructor).
  rewrite list.Forall_forall in Hall. apply Hall. apply elem_of_seqZ. lia.
Qed.

Lemma sect_selected offset c : 0 <= offset < 268435456 →
  let c' := foldl (λ c x, set_reg x.1 x.2 c) c (sect_regs offset) in
  c'.(c_reg) 498 = 1 ∧ sel_drive c' = 0 ∧ sel_sector c' = offset ∧ c'.(c_phase) = c.(c_phase) ∧ c'.(c_disk) = c.(c_disk).
Proof.
  intros Ho c'. assert (sect_regs offset = [(498, 1); (499, offset mod 256); (500, offset / 256 mod 256); (501, offset / 65536 mod 256);
    (502, Z.lor (offset / 16777216) 224 mod 256)]) as Es by (unfold sect_regs; by rewrite !Z.shiftr_div_pow2 by lia).
  unfold c'. rewrite Es. clear c' Es. set (c' := foldl _ _ _). split; [done|].
  assert (0 <= offset / 16777216 < 16) as Hh by (split; [apply Z.div_pos; lia|apply Z.div_lt_upper_bound; lia]).
  assert (c'.(c_reg) 502 = 224 + offset / 16777216) as E by by apply lor_drive.
  unfold sel_drive, sel_sector. rewrite E. change (c'.(c_reg) 499) with (offset mod 256).
  change (c'.(c_reg) 500) with (offset / 256 mod 256). change (c'.(c_reg) 501) with (offset / 65536 mod 256).
  split; [|split; [|done]].
  - replace (224 + offset / 16777216) with (offset / 16777216 + 14 * 16) by lia. rewrite Z.div_add, Z.div_small by lia. done.
  - replace (224 + offset / 16777216) with (offset / 16777216 + 14 * 16) by lia. rewrite Z.mod_add, (Z.mod_small (offset / 16777216)) by lia.
    replace (offset / 65536) with (offset / 256 / 256) by (rewrite Z.div_div by lia; f_equal).
    replace (offset / 16777216) with (offset / 256 / 256 / 256) by (rewrite !Z.div_div by lia; f_equal).
    pose proof (Z.div_mod offset 256 ltac:(lia)). pose proof (Z.div_mod (offset / 256) 256 ltac:(lia)).
    pose proof (Z.div_mod (offset / 256 / 256) 256 ltac:(lia)). lia.
Qed.

Lemma readsect_run dst offset s : (bvw s).(c_phase) = Ready → 0 <= offset < 268435456 →
  ∃ d', readsect dst offset s = Ret () (mkbst (put_bytes s.(bmem) dst ((bvw s).(c_disk) 0 offset)) d') ∧
    (view d').(c_phase) = Ready ∧ (view d').(c_disk) = (bvw s).(c_disk).
Proof.
  intros Hp Ho. unfold readsect. destruct (waitdisk_run s) as (d1 & E1 & V1). rewrite (bind_returns _ _ _ _ _ E1).
  unfold outb. rewrite !bind_modify. set (d2 := out_all (sect_regs offset) d1).
  change (∃ d', (waitdisk;; insl 496 dst 128) (mkbst s.(bmem) (port_out 503 IDE_CMD_READ d2)) =
    Ret () (mkbst (put_bytes s.(bmem) dst ((bvw s).(c_disk) 0 offset)) d') ∧
    (view d').(c_phase) = Ready ∧ (view d').(c_disk) = (bvw s).(c_disk)).
  assert (view d2 = foldl (λ c x, set_reg x.1 x.2 c) (view d1) (sect_regs offset)) as V2.
  { apply view_regs; [repeat (constructor; [set_solver|]); constructor|by rewrite V1]. }
  destruct (sect_selected offset (view d1) Ho) as (S1 & S2 & S3 & S4 & S5). rewrite <- V2 in *. rewrite V1 in S4, S5.
  destruct (waitdisk_run (mkbst s.(bmem) (port_out 503 IDE_CMD_READ d2))) as (d3 & E3 & V3). rewrite (bind_returns _ _ _ _ _ E3).
  cbn [bdev] in V3. rewrite law_read in V3 by (rewrite ?S4; done). rewrite S2, S3 in V3.
  destruct (law_ins d3 0 offset) as [L1 L2]; [by rewrite V3|]. unfold insl. cbn [bdev bmem set_bdev]. rewrite L1, V3.
  cbn [c_disk set_phase]. rewrite S5. eexists. split; [reflexivity|]. rewrite L2, V3. split; [done|exact S5].
Qed.

(** ** Segments *)

(** The kernel image starts at sector 1 of the disk. *)
Definition image_on (img : Z → Z) (d : Z → Z → list Z) : Prop :=
  ∀ n, 0 <= n < 268435455 → d 0 (n + 1) = map img (seqZ (512 * n) 512).

Variable (img : Z → Z).
Hypothesis Himg : ∀ x, 0 <= img x < 256.

(** A machine on which the loader can read the image. *)
Definition bootable (s : bstate D) : Prop := (bvw s).(c_phase) = Ready ∧ image_on img (bvw s).(c_disk).

(** In memory [m'] the bytes from [lo] to [hi] are those of the image from
    [at0], the others as in [m]. *)
Definition copied (lo hi at0 : Z) (m m' : memory) : Prop :=
  ∀ x, word x → m' x = if (lo <=? x) && (x <? hi) then img (at0 + (x - lo)) else m x.

Lemma sector_read n s dst : bootable s → 0 <= n < 268435455 → 0 <= dst → dst + 512 <= two32 →
  ∃ s', readsect dst (n + 1) s = Ret () s' ∧ bootable s' ∧ copied dst (dst + 512) (512 * n) s.(bmem) s'.(bmem).
Proof.
  intros [Hr Hi] Hn H0 H1. destruct (readsect_run dst (n + 1) s Hr ltac:(lia)) as (d' & E & P1 & P2).
  eexists. split; [exact E|]. split; [split; [done|cbn [bdev]; by rewrite P2]|]. cbn [bmem]. rewrite (Hi n Hn).
  assert (length (map img (seqZ (512 * n) 512)) = 512%nat) as El by by rewrite length_map, length_seqZ.
  intros x Hx. rewrite put_bytes_spec; [|lia|rewrite El; lia|done|].
  - rewrite El. change (Z.of_nat 512) with 512. destruct (Z.leb_spec dst x), (Z.ltb_spec x (dst + 512)); cbn [andb]; try done.
    change (map img (seqZ (512 * n) 512)) with (img <$> seqZ (512 * n) 512). 
    by rewrite list_lookup_total_alt, list_lookup_fmap, lookup_seqZ_lt, Z2Nat.id by lia.
  - apply list.Forall_forall. intros b Hb. apply list_elem_of_In, in_map_iff in Hb as (y & <- & _). apply Himg.
Qed.

Lemma copied_two lo mid hi at0 at1 m m1 m2 : copied lo mid at0 m m1 → copied mid hi at1 m1 m2 → lo <= mid <= hi →
  at1 = at0 + (mid - lo) → copied lo hi at0 m m2.
Proof.
  intros C1 C2 Hl -> x Hx. rewrite (C2 x Hx). destruct (Z.leb_spec mid x), (Z.ltb_spec x hi), (Z.leb_spec lo x); cbn [andb];
    try lia; try (rewrite (C1 x Hx); destruct (Z.leb_spec lo x), (Z.ltb_spec x mid); cbn [andb]; try lia; done).
  f_equal. lia.
Qed.

Lemma copied_none lo at0 m : copied lo lo at0 m m.
Proof. intros x _. by destruct (Z.leb_spec lo x), (Z.ltb_spec x lo); try lia. Qed.

Lemma readseg_loop_run k : ∀ fuel pa epa n s, (k < fuel)%nat → bootable s → 0 <= pa → pa + 512 * Z.of_nat k < two32 →
  0 <= n → n + Z.of_nat k < 268435455 → 512 * (Z.of_nat k - 1) < epa - pa <= 512 * Z.of_nat k →
  ∃ s', readseg_loop fuel pa epa (n + 1) s = Ret () s' ∧ bootable s' ∧
    copied pa (pa + 512 * Z.of_nat k) (512 * n) s.(bmem) s'.(bmem).
Proof.
  induction k as [|k IH]; intros fuel pa epa n s Hf Hs Hp Hw Hn Hnk He; (destruct fuel as [|fuel]; [lia|]); cbn [readseg_loop].
  - destruct (Z.ltb_spec pa epa); [lia|]. exists s. split; [done|]. split; [done|]. rewrite Z.add_0_r. apply copied_none.
  - destruct (Z.ltb_spec pa epa); [|lia]. destruct (sector_read n s pa Hs) as (s1 & E1 & B1 & C1); [lia..|].
    rewrite (bind_returns _ _ _ _ _ E1). unfold SECTSIZE. rewrite (u32_id (pa + 512)), (u32_id (n + 1 + 1)) by (unfold word, two32 in *; lia).
    destruct (IH fuel (pa + 512) epa (n + 1) s1) as (s2 & E2 & B2 & C2); [lia|done|lia..|].
    exists s2. split; [exact E2|]. split; [done|]. replace (pa + 512 * Z.of_nat (S k)) with (pa + 512 + 512 * Z.of_nat k) by lia.
    apply (copied_two pa (pa + 512) _ (512 * n) (512 * (n + 1)) _ _ _ C1 C2); lia.
Qed.

(** The part of memory that [readseg] writes. *)
Definition rd_lo (pa off : Z) : Z := pa - off mod 512.
Definition rd_hi (pa count off : Z) : Z := rd_lo pa off + 512 * ((count + off mod 512 + 511) / 512).

Lemma readseg_run pa count off s : bootable s → word off → 0 <= count → off mod 512 <= pa → pa + count + 512 < two32 →
  ∃ s', readseg pa count off s = Ret () s' ∧ bootable s' ∧
    copied (rd_lo pa off) (rd_hi pa count off) (off - off mod 512) s.(bmem) s'.(bmem).
Proof.
  intros Hs Ho Hc Hr Hw. unfold readseg, SECTSIZE. pose proof (Z.mod_pos_bound off 512 ltac:(lia)) as Hm.
  pose proof (Z.div_mod off 512 ltac:(lia)) as Hd. set (r := off mod 512) in *. unfold word, two32 in *.
  assert (0 <= off / 512 < 8388608) as Ho2 by (split; [apply Z.div_pos; lia|apply Z.div_lt_upper_bound; lia]).
  set (k := (count + r + 511) / 512). pose proof (Z.div_mod (count + r + 511) 512 ltac:(lia)) as Hk.
  pose proof (Z.mod_pos_bound (count + r + 511) 512 ltac:(lia)) as Hk2. fold k in Hk.
  assert (0 <= k) as Hk0 by (apply Z.div_pos; lia).
  rewrite (u32_id (pa + count)), (u32_id (pa - r)), (u32_id (off / 512 + 1)) by (unfold word, two32; lia).
  destruct (readseg_loop_run (Z.to_nat k) (Z.to_nat (count / 512 + 3)) (pa - r) (pa + count) (off / 512) s) as (s' & E & B & C);
    rewrite ?Z2Nat.id by lia; unfold two32; try lia; try done.
  { apply Z2Nat.inj_lt; [lia|pose proof (Z.div_pos count 512); lia|]. pose proof (Z.div_mod count 512 ltac:(lia)).
    pose proof (Z.mod_pos_bound count 512 ltac:(lia)). lia. }
  exists s'. split; [exact E|]. split; [done|]. rewrite Z2Nat.id in C by lia.
  unfold rd_hi, rd_lo. fold r k. replace (off - r) with (512 * (off / 512)) by lia. exact C.
Qed.

(** A program header of the image at the offset [o]. *)
Record seg : Type := mkseg { sg_off : Z; sg_pa : Z; sg_filesz : Z; sg_memsz : Z }.
Definition seg_at (o : Z) : seg := mkseg (load32 img (o + 4)) (load32 img (o + 12)) (load32 img (o + 16)) (load32 img (o + 20)).
Fixpoint segs (o : Z) (n : nat) : list seg :=
  match n with O => [] | S n => seg_at o :: segs (o + 32) n end.

Definition sg_end (g : seg) : Z := g.(sg_pa) + Z.max g.(sg_filesz) g.(sg_memsz).

(** The part of memory written for a segment. *)
Definition wr_lo (g : seg) : Z := rd_lo g.(sg_pa) g.(sg_off).
Definition wr_hi (g : seg) : Z := Z.max (rd_hi g.(sg_pa) g.(sg_filesz) g.(sg_off)) (sg_end g).

(** A segment in memory that does not meet the scratch page. *)
Definition seg_ok (g : seg) : Prop :=
  g.(sg_off) mod 512 <= g.(sg_pa) ∧ sg_end g + 512 < two32 ∧ (wr_hi g <= ELF_AT ∨ ELF_AT + 4096 <= wr_lo g).

(** Loading the segments in their order, none is damaged by a later one. *)
Fixpoint fits (l : list seg) : Prop :=
  match l with
  | [] => True
  | g :: l => seg_ok g ∧ Forall (λ g', wr_hi g' <= g.(sg_pa) ∨ sg_end g <= wr_lo g') l ∧ fits l
  end.

Definition loaded (m : memory) (g : seg) : Prop :=
  (∀ k, 0 <= k < g.(sg_filesz) → m (g.(sg_pa) + k) = img (g.(sg_off) + k)) ∧
  (∀ k, g.(sg_filesz) <= k < g.(sg_memsz) → m (g.(sg_pa) + k) = 0).

Definition scratch (m : memory) : Prop := ∀ x, 0 <= x < 4096 → m (ELF_AT + x) = img x.

Lemma load32_word m a : (∀ x, 0 <= m x < 256) → word (load32 m a).
Proof.
  intros Hm. unfold load32, word, two32. pose proof (Hm (u32 a)). pose proof (Hm (u32 (a + 1))).
  pose proof (Hm (u32 (a + 2))). pose proof (Hm (u32 (a + 3))). lia.
Qed.

Lemma scratch_load32 m o : scratch m → 0 <= o → o + 4 <= 4096 → load32 m (ELF_AT + o) = load32 img o.
Proof.
  intros Hs H0 H1. unfold load32. rewrite !u32_id by (unfold word, two32, ELF_AT; lia).
  rewrite <- !Z.add_assoc, !Hs by lia. done.
Qed.

Lemma seg_words o : let g := seg_at o in word g.(sg_off) ∧ word g.(sg_pa) ∧ word g.(sg_filesz) ∧ word g.(sg_memsz).
Proof. cbv zeta. unfold seg_at. cbn. split_and!; by apply load32_word. Qed.

Lemma rd_hi_bounds pa count off : 0 <= count →
  rd_lo pa off <= pa ∧ pa + count <= rd_hi pa count off < pa + count + 512.
Proof.
  intros Hc. unfold rd_hi, rd_lo. pose proof (Z.mod_pos_bound off 512 ltac:(lia)). set (r := off mod 512) in *.
  pose proof (Z.div_mod (count + r + 511) 512 ltac:(lia)). pose proof (Z.mod_pos_bound (count + r + 511) 512 ltac:(lia)). lia.
Qed.

(** What the loader does for one program header. *)
Definition clear_tail (pa filesz memsz : Z) : B D unit :=
  when (filesz <? memsz)
    (modify (fun s => set_bmem (stosb s.(bmem) (u32 (pa + filesz)) 0 (Z.to_nat (memsz - filesz))) s)).

Definition load_seg (ph : Z) : B D unit :=
  pa <- get (fun s => load32 s.(bmem) (ph + 12));;
  filesz <- get (fun s => load32 s.(bmem) (ph + 16));;
  off <- get (fun s => load32 s.(bmem) (ph + 4));;
  readseg pa filesz off;;
  memsz <- get (fun s => load32 s.(bmem) (ph + 20));;
  filesz <- get (fun s => load32 s.(bmem) (ph + 16));;
  clear_tail pa filesz memsz.

Lemma zeroed m g : word g.(sg_pa) → word g.(sg_filesz) → word g.(sg_memsz) → sg_end g + 512 < two32 → g.(sg_filesz) < g.(sg_memsz) →
  ∀ x, word x → stosb m (u32 (g.(sg_pa) + g.(sg_filesz))) 0 (Z.to_nat (g.(sg_memsz) - g.(sg_filesz))) x =
    if (g.(sg_pa) + g.(sg_filesz) <=? x) && (x <? g.(sg_pa) + g.(sg_memsz)) then 0 else m x.
Proof.
  intros H1 H2 H3 He Hlt x Hx. unfold sg_end, word, two32 in *. rewrite u32_id by (unfold word, two32; lia).
  rewrite stosb_spec by (unfold word, two32; lia). unfold fill. rewrite Z2Nat.id by lia.
  rewrite u32_sub_small by (unfold word, two32; lia).
  by destruct (Z.ltb_spec x (g.(sg_pa) + g.(sg_filesz))), (Z.leb_spec (g.(sg_pa) + g.(sg_filesz)) x),
    (Z.ltb_spec x (g.(sg_pa) + g.(sg_memsz))); try lia; cbn [andb];
    match goal with |- context [?a <? ?b] => destruct (Z.ltb_spec a b); unfold two32 in *; try lia end.
Qed.

(** Loading one segment. *)
Lemma load_seg_run o s : let g := seg_at o in bootable s → scratch s.(bmem) → 0 <= o → o + 32 <= 4096 → seg_ok g →
  ∃ s', load_seg (ELF_AT + o) s = Ret () s' ∧ bootable s' ∧ loaded s'.(bmem) g ∧
    ∀ x, word x → x < wr_lo g ∨ wr_hi g <= x → s'.(bmem) x = s.(bmem) x.
Proof.
  intros g Hb Hs H0 H1 (Ok1 & Ok2 & Ok3). destruct (seg_words o) as (Wo & Wp & Wf & Wm). fold g in Wo, Wp, Wf, Wm.
  unfold load_seg. rewrite !bind_get, <- !Z.add_assoc, !(scratch_load32 s.(bmem)) by (done || lia).
  change (load32 img (o + 12)) with g.(sg_pa). change (load32 img (o + 16)) with g.(sg_filesz). change (load32 img (o + 4)) with g.(sg_off).
  pose proof (rd_hi_bounds g.(sg_pa) g.(sg_filesz) g.(sg_off) ltac:(apply Wf)) as Hrd. unfold wr_lo, wr_hi, sg_end in *.
  destruct (readseg_run g.(sg_pa) g.(sg_filesz) g.(sg_off) s Hb Wo) as (s1 & E1 & B1 & C1); [apply Wf|done|lia|].
  rewrite (bind_returns _ _ _ _ _ E1), !bind_get. unfold word, two32 in *.
  assert (scratch s1.(bmem)) as Hs1.
  { intros x Hx. rewrite C1 by (unfold word, two32, ELF_AT; lia). destruct (Z.leb_spec (rd_lo (sg_pa g) (sg_off g)) (ELF_AT + x)),
      (Z.ltb_spec (ELF_AT + x) (rd_hi (sg_pa g) (sg_filesz g) (sg_off g))); cbn [andb]; try lia; by apply Hs. }
  rewrite !(scratch_load32 s1.(bmem)) by (done || lia).
  change (load32 img (o + 16)) with g.(sg_filesz). change (load32 img (o + 20)) with g.(sg_memsz).
  assert (∃ s2, clear_tail g.(sg_pa) g.(sg_filesz) g.(sg_memsz) s1 = Ret () s2 ∧ bootable s2 ∧ ∀ x, word x → s2.(bmem) x =
      if (g.(sg_pa) + g.(sg_filesz) <=? x) && (x <? g.(sg_pa) + g.(sg_memsz)) then 0 else s1.(bmem) x) as (s2 & E2 & B2 & Z2).
  { unfold clear_tail. destruct (Z.ltb_spec (sg_filesz g) (sg_memsz g)); cbn [when].
    - eexists. split; [reflexivity|]. split; [exact B1|]. by apply zeroed.
    - exists s1. split; [done|]. split; [done|]. intros x _.
      by destruct (Z.leb_spec (sg_pa g + sg_filesz g) x), (Z.ltb_spec x (sg_pa g + sg_memsz g)); try lia. }
  exists s2. split; [exact E2|]. split; [done|]. unfold word, two32 in *.
  assert (∀ x, 0 <= x < 4294967296 → s2.(bmem) x = if (g.(sg_pa) + g.(sg_filesz) <=? x) && (x <? g.(sg_pa) + g.(sg_memsz)) then 0 else
     if (rd_lo g.(sg_pa) g.(sg_off) <=? x) && (x <? rd_hi g.(sg_pa) g.(sg_filesz) g.(sg_off)) then
       img (g.(sg_off) - g.(sg_off) mod 512 + (x - rd_lo g.(sg_pa) g.(sg_off))) else s.(bmem) x) as Hm
    by (intros x Hx; rewrite Z2 by done; by rewrite C1).
  clear Z2 C1. split; [split|].
  - intros k Hk. rewrite Hm by lia. destruct (Z.leb_spec (sg_pa g + sg_filesz g) (sg_pa g + k)); [lia|]. cbn [andb].
    destruct (Z.leb_spec (rd_lo (sg_pa g) (sg_off g)) (sg_pa g + k)), (Z.ltb_spec (sg_pa g + k) (rd_hi (sg_pa g) (sg_filesz g) (sg_off g)));
      cbn [andb]; try lia. f_equal. unfold rd_lo. lia.
  - intros k Hk. rewrite Hm by lia.
    by destruct (Z.leb_spec (sg_pa g + sg_filesz g) (sg_pa g + k)), (Z.ltb_spec (sg_pa g + k) (sg_pa g + sg_memsz g)); try lia.
  - intros x Hx Hout. rewrite Hm by done. destruct (Z.leb_spec (sg_pa g + sg_filesz g) x), (Z.ltb_spec x (sg_pa g + sg_memsz g)),
      (Z.leb_spec (rd_lo (sg_pa g) (sg_off g)) x), (Z.ltb_spec x (rd_hi (sg_pa g) (sg_filesz g) (sg_off g))); cbn [andb]; try done; lia.
Qed.

Lemma boot_loop_step fuel ph eph s s1 : ph <? eph = true → load_seg ph s = Ret () s1 →
  boot_loop (S fuel) ph eph s = boot_loop fuel (u32 (ph + sizeof_proghdr)) eph s1.
Proof.
  intros Hlt E. cbn [boot_loop]. rewrite Hlt. unfold load_seg in E. rewrite !bind_get in E. rewrite !bind_get. unfold bind at 1 in E.
  destruct (readseg _ _ _ s) as [[] s'| | | |] eqn:Er; cbn [cbind] in E; try done.
  rewrite (bind_returns _ _ _ _ _ Er), !bind_get. rewrite !bind_get in E. by rewrite (bind_returns _ _ _ _ _ E).
Qed.

Lemma loaded_stays m m' g : 0 <= sg_filesz g → loaded m g → (∀ x, sg_pa g <= x < sg_end g → m' x = m x) → loaded m' g.
Proof.
  intros H0 [L1 L2] Hm. unfold sg_end in Hm. split; intros k Hk; rewrite Hm by lia; [apply L1|apply L2]; lia.
Qed.

Lemma boot_loop_run n : ∀ o s, bootable s → scratch s.(bmem) → 0 <= o → o + 32 * Z.of_nat n <= 4096 → fits (segs o n) →
  ∃ s', boot_loop (S n) (ELF_AT + o) (ELF_AT + (o + 32 * Z.of_nat n)) s = Ret () s' ∧ scratch s'.(bmem) ∧
    Forall (loaded s'.(bmem)) (segs o n) ∧
    ∀ x, word x → Forall (λ g, x < wr_lo g ∨ wr_hi g <= x) (segs o n) → s'.(bmem) x = s.(bmem) x.
Proof.
  induction n as [|n IH]; intros o s Hb Hs H0 H1 Hfit.
  - exists s. cbn [boot_loop]. destruct (Z.ltb_spec (ELF_AT + o) (ELF_AT + (o + 32 * Z.of_nat 0))); [lia|]. done.
  - destruct Hfit as (Hok & Hsp & Hfit). fold segs in Hsp, Hfit.
    destruct (load_seg_run o s Hb Hs H0 ltac:(lia) Hok) as (s1 & E1 & B1 & L1 & U1). set (g := seg_at o) in *.
    assert (ELF_AT + o <? ELF_AT + (o + 32 * Z.of_nat (S n)) = true) as Hlt by (apply Z.ltb_lt; lia).
    rewrite (boot_loop_step _ _ _ _ _ Hlt E1). unfold sizeof_proghdr.
    rewrite u32_id by (unfold word, two32, ELF_AT; lia). destruct Hok as (Ok1 & Ok2 & Ok3).
    assert (scratch s1.(bmem)) as Hs1.
    { intros x Hx. rewrite U1; [by apply Hs|unfold word, two32, ELF_AT; lia|lia]. }
    replace (ELF_AT + o + 32) with (ELF_AT + (o + 32)) by lia.
    replace (ELF_AT + (o + 32 * Z.of_nat (S n))) with (ELF_AT + (o + 32 + 32 * Z.of_nat n)) by lia.
    destruct (IH (o + 32) s1 B1 Hs1) as (s' & E' & S' & L' & U'); [lia..|done|]. exists s'. split; [exact E'|]. split; [done|].
    destruct (seg_words o) as (Wo & Wp & Wf & Wm). fold g in Wo, Wp, Wf, Wm. unfold word in *. split.
    + constructor; [|done]. apply (loaded_stays s1.(bmem)); [apply Wf|done|]. intros x Hx. change (seg_at o) with g in Hx. apply U'; [unfold sg_end in *; lia|].
      eapply list.Forall_impl; [exact Hsp|]. intros g' [Hg|Hg]; [right|left]; lia.
    + intros x Hx Hall. apply Forall_cons_1 in Hall as [Hx1 Hx2]. by rewrite U', U1.
Qed.

Lemma ld16_scratch m o : scratch m → 0 <= o → o + 2 <= 4096 → ld16_at m (ELF_AT + o) = img o + 256 * img (o + 1).
Proof.
  intros Hs H0 H1. unfold ld16_at, load8. rewrite !u32_id by (unfold word, two32, ELF_AT; lia).
  rewrite <- !Z.add_assoc, !Hs by lia. done.
Qed.

Lemma header_read s : bootable s → ∃ s1, readseg ELF_AT 4096 0 s = Ret () s1 ∧ bootable s1 ∧ scratch s1.(bmem).
Proof.
  intros Hb. destruct (readseg_run ELF_AT 4096 0 s Hb) as (s1 & E & B1 & C); [done|done|done|done|].
  exists s1. split; [exact E|]. split; [done|]. intros x Hx. rewrite C by (unfold word, two32, ELF_AT; lia).
  change (rd_lo ELF_AT 0) with ELF_AT. change (rd_hi ELF_AT 4096 0) with (ELF_AT + 4096). change (0 - 0 mod 512) with 0.
  destruct (Z.leb_spec ELF_AT (ELF_AT + x)), (Z.ltb_spec (ELF_AT + x) (ELF_AT + 4096)); cbn [andb]; try lia. f_equal. lia.
Qed.

(** C37: The boot loader loads the kernel.  If the disk holds an image with
    the magic number of ELF whose program headers lie in its first page and
    whose segments fit into memory in their order, [bootmain] enters the kernel
    at the entry point of the header with every segment in place: the bytes of
    the file followed by zeros, although whole sectors are read; an image
    without the magic number makes it return. *)
Theorem bootmain_loads s : bootable s →
  let phoff := load32 img 28 in let phnum := Z.to_nat (img 44 + 256 * img 45) in
  if load32 img 0 =? ELF_MAGIC then
    phoff + 32 * Z.of_nat phnum <= 4096 → fits (segs phoff phnum) →
    ∃ s', bootmain s = Jump (load32 img 24) s' ∧ Forall (loaded s'.(bmem)) (segs phoff phnum)
  else ∃ s', bootmain s = Ret () s'.
Proof.
  intros Hb phoff phnum. destruct (header_read s Hb) as (s1 & E1 & B1 & S1).
  unfold bootmain. rewrite (bind_returns _ _ _ _ _ E1), bind_get.
  pose proof (scratch_load32 s1.(bmem) 0 S1) as El. rewrite Z.add_0_r in El. rewrite El by lia.
  destruct (load32 img 0 =? ELF_MAGIC); cbn [negb]; [|by exists s1]. intros Hph Hfit.
  rewrite !bind_get, (scratch_load32 s1.(bmem)), ld16_scratch by (done || lia). change (44 + 1) with 45. fold phoff.
  pose proof (Himg 44). pose proof (Himg 45). assert (Z.of_nat phnum = img 44 + 256 * img 45) as En by (unfold phnum; lia).
  fold phnum. rewrite <- En. assert (0 <= phoff) as Hp0 by (apply load32_word, Himg). unfold sizeof_proghdr.
  rewrite (u32_id (ELF_AT + phoff)) by (unfold word, two32, ELF_AT; lia). rewrite u32_id by (unfold word, two32, ELF_AT; lia).
  destruct (boot_loop_run phnum phoff s1 B1 S1) as (s2 & E2 & S2 & L2 & _); [done..|].
  replace (ELF_AT + phoff + Z.of_nat phnum * 32) with (ELF_AT + (phoff + 32 * Z.of_nat phnum)) by lia.
  rewrite (bind_returns _ _ _ _ _ E2), bind_get, (scratch_load32 s2.(bmem)) by (done || lia). by exists s2.
Qed.

End proofs.

(** ** An image with one segment *)

#[local] Existing Instance ready_ports.
#[local] Existing Instance ready_fuel.
#[local] Existing Instance ready_laws.

(** The header, one program header, and a segment of four bytes of code that
    takes eight bytes of memory at 1 MB. *)
Definition demo_bytes : list Z :=
  let w x := [x mod 256; x / 256 mod 256; x / 65536 mod 256; x / 16777216 mod 256] in
  w ELF_MAGIC ++ replicate 20 0 ++ w 1048588 ++ w 52 ++ replicate 12 0 ++ [1; 0] ++ replicate 6 0 ++
  w 1 ++ w 100 ++ w 2148532224 ++ w 1048588 ++ w 4 ++ w 8 ++ w 0 ++ w 0 ++ replicate 16 7 ++ [144; 144; 235; 254].
Definition demo_img (x : Z) : Z := match demo_bytes !! Z.to_nat x with Some b => b | None => 0 end.

Lemma demo_img_byte x : 0 <= demo_img x < 256.
Proof.
  unfold demo_img. destruct (demo_bytes !! Z.to_nat x) as [b|] eqn:E; [|lia].
  assert (Forall (λ b, 0 <= b < 256) demo_bytes) as Hall by (apply (bool_decide_unpack _); vm_compute; exact Logic.I).
  by apply (Forall_lookup_1 _ _ _ _ Hall E).
Qed.

Definition demo_boot : bstate ctl :=
  mkbst (λ _, 0) (mkctl (λ _ n, map demo_img (seqZ (512 * (n - 1)) 512)) (λ _, 0) Ready).

Lemma demo_bootable : bootable demo_img demo_boot.
Proof. split; [done|]. intros n Hn. cbn. by replace (n + 1 - 1) with n by lia. Qed.

Lemma demo_header : (load32 demo_img 0 =? ELF_MAGIC) = true ∧ load32 demo_img 24 = 1048588 ∧ load32 demo_img 28 = 52 ∧
  Z.to_nat (demo_img 44 + 256 * demo_img 45) = 1%nat ∧ seg_at demo_img 52 = mkseg 100 1048588 4 8.
Proof. split_and!; vm_compute; reflexivity. Qed.

Lemma demo_fits : fits (segs demo_img 52 1).
Proof.
  destruct demo_header as (_ & _ & _ & _ & E). cbn [segs fits]. rewrite E. split; [|split; [constructor|exact Logic.I]].
  unfold seg_ok, wr_hi, wr_lo, sg_end, rd_hi, rd_lo, ELF_AT, two32. cbn [sg_pa sg_filesz sg_memsz sg_off].
  change (100 mod 512) with 100. change ((4 + 100 + 511) / 512) with 1. lia.
Qed.

Lemma bootmain_loads_witness : ∃ s', bootmain demo_boot = Jump 1048588 s' ∧ s'.(bmem) 1048590 = demo_img 102 ∧ s'.(bmem) 1048592 = 0.
Proof.
  destruct demo_header as (E1 & E2 & E3 & E4 & E5).
  pose proof (bootmain_loads demo_img demo_img_byte demo_boot demo_bootable) as Hw. cbv zeta in Hw. rewrite E1, E2, E3, E4 in Hw.
  assert (52 + 32 * Z.of_nat 1 <= 4096) as Hle by lia. destruct (Hw Hle demo_fits) as (s' & E & L). exists s'. split; [exact E|].
  cbn [segs] in L. rewrite E5 in L. apply Forall_cons_1 in L as [[L1 L2] _]. cbn [sg_pa sg_filesz sg_memsz sg_off] in L1, L2.
  split; [apply (L1 2); lia|apply (L2 4); lia].
Defined.
