(* ===== verification/Kbd.v ===== *)
(** * The keyboard: [kbd.c] and the tables of [kbd.h]

    The keyboard controller holds the scan codes that have arrived; its status
    port says whether there is one, its data port delivers the oldest.  The
    driver turns scan codes into characters.  The theorem composes it with the
    line editor of the console: keys struck on the keyboard become the text
    they stand for. *)

From stdpp Require Import base numbers option list sets strings gmap fin_maps functions.
From Stdlib Require Import ZArith Lia.
From S2P Require Import Prelude Kstring State Locks Console Kalloc Proc Signal Pipe File ProcLife Sleeplock Bio Log Fs Tty.

(** ** Constants and tables *)

Definition KBS_DIB : Z := 1.
Definition NO : Z := 0.

Definition SHIFT : Z := 1.
Definition CTL : Z := 2.
Definition ALT : Z := 4.
Definition CAPSLOCK : Z := 8.
Definition NUMLOCK : Z := 16.
Definition SCROLLLOCK : Z := 32.
Definition E0ESC : Z := 64.

Definition KEY_HOME : Z := 224.
Definition KEY_END : Z := 225.
Definition KEY_UP : Z := 226.
Definition KEY_DN : Z := 227.
Definition KEY_LF : Z := 228.
Definition KEY_RT : Z := 229.
Definition KEY_PGUP : Z := 230.
Definition KEY_PGDN : Z := 231.
Definition KEY_INS : Z := 232.
Definition KEY_DEL : Z := 233.

(** An array of 256 [uchar] that starts with [l] and has the designated
    elements [sp]; the others are 0. *)
Definition table (l : list Z) (sp : list (nat * Z)) : list Z :=
  map (λ c, c mod 256) (foldl (λ t p, <[p.1 := p.2]> t) (l ++ replicate (256 - length l) NO) sp).

Definition shiftcode : list Z :=
  table [] [(29%nat, CTL); (42%nat, SHIFT); (54%nat, SHIFT); (56%nat, ALT); (157%nat, CTL); (184%nat, ALT)].

Definition togglecode : list Z :=
  table [] [(58%nat, CAPSLOCK); (69%nat, NUMLOCK); (70%nat, SCROLLLOCK)].

(** The keys behind an [E0] escape other than enter and divide. *)
Definition cursor_keys : list (nat * Z) :=
  [(200%nat, KEY_UP); (208%nat, KEY_DN); (201%nat, KEY_PGUP); (209%nat, KEY_PGDN); (203%nat, KEY_LF);
   (205%nat, KEY_RT); (151%nat, KEY_HOME); (207%nat, KEY_END); (210%nat, KEY_INS); (211%nat, KEY_DEL)].

Definition normalmap : list Z :=
  table
   ([NO; 27] ++ chars "123456" ++
    chars "7890-=" ++ [8; 9] ++
    chars "qwertyui" ++
    chars "op[]" ++ [10; NO] ++ chars "as" ++
    chars "dfghjkl;" ++
    chars "'`" ++ [NO] ++ chars "\zxcv" ++
    chars "bnm,./" ++ [NO] ++ chars "*" ++
    [NO; 32; NO; NO; NO; NO; NO; NO] ++
    [NO; NO; NO; NO; NO; NO; NO] ++ chars "7" ++
    chars "89-456+1" ++
    chars "230." ++ [NO; NO; NO; NO])
   ([(156%nat, 10); (181%nat, 47)] ++ cursor_keys).

Definition shiftmap : list Z :=
  table
   ([NO; 27] ++ chars "!@#$%^" ++
    chars "&*()_+" ++ [8; 9] ++
    chars "QWERTYUI" ++
    chars "OP{}" ++ [10; NO] ++ chars "AS" ++
    chars "DFGHJKL:" ++
    [34] ++ chars "~" ++ [NO] ++ chars "|ZXCV" ++
    chars "BNM<>?" ++ [NO] ++ chars "*" ++
    [NO; 32; NO; NO; NO; NO; NO; NO] ++
    [NO; NO; NO; NO; NO; NO; NO] ++ chars "7" ++
    chars "89-456+1" ++
    chars "230." ++ [NO; NO; NO; NO])
   ([(156%nat, 10); (181%nat, 47)] ++ cursor_keys).

Definition ctlmap : list Z :=
  table
   (replicate 16 NO ++
    map C (chars "QWERTYUI") ++
    map C (chars "OP") ++ [NO; NO; 13; NO] ++ map C (chars "AS") ++
    map C (chars "DFGHJKL") ++ [NO] ++
    [NO; NO; NO] ++ map C (chars "\ZXCV") ++
    map C (chars "BNM") ++ [NO; NO; C 47; NO; NO])
   ([(156%nat, 13); (181%nat, C 47)] ++ cursor_keys).

Definition charcode : list (list Z) := [normalmap; shiftmap; ctlmap; ctlmap].

(** ** The driver *)

(** The scan codes in the controller, the other bits of its status port, and
    the static variable [shift]. *)
Record kbd : Type := mkkbd { kb_buf : list Z; kb_st : Z; kb_shift : Z }.

Definition K : Type → Type := prog kbd unit.

Definition inb_status : K Z :=
  get (λ k, Z.lor (Z.ldiff k.(kb_st) KBS_DIB) (match k.(kb_buf) with [] => 0 | _ :: _ => KBS_DIB end)).

Definition inb_data : K Z :=
  fun k =>
    match k.(kb_buf) with
    | [] => Ret 0 k
    | c :: r => Ret c (mkkbd r k.(kb_st) k.(kb_shift))
    end.

Definition set_shift (v : Z) : K unit := modify (λ k, mkkbd k.(kb_buf) k.(kb_st) v).

Definition at_code (t : list Z) (c : Z) : Z := t !!! Z.to_nat c.

(** The character of the key [data] with the modifiers [shift]. *)
Definition key_code (shift data : Z) : Z :=
  let c := at_code (charcode !!! Z.to_nat (Z.land shift (Z.lor CTL SHIFT))) data in
  if negb (Z.land shift CAPSLOCK =? 0) then
    if (97 <=? c) && (c <=? 122) then c + (65 - 97)
    else if (65 <=? c) && (c <=? 90) then c + (97 - 65)
    else c
  else c.

Definition kbdgetc : K Z :=
  st <- inb_status;;
  if Z.land st KBS_DIB =? 0 then ret (-1) else
  data <- inb_data;;
  shift <- get kb_shift;;
  if data =? 224 then
    set_shift (Z.lor shift E0ESC);;
    ret 0
  else if negb (Z.land data 128 =? 0) then
    let data := if negb (Z.land shift E0ESC =? 0) then data else Z.land data 127 in
    set_shift (Z.land shift (not32 (Z.lor (at_code shiftcode data) E0ESC)));;
    ret 0
  else
    let esc := negb (Z.land shift E0ESC =? 0) in
    let data := if esc then Z.lor data 128 else data in
    let shift := if esc then Z.land shift (not32 E0ESC) else shift in
    let shift := Z.lxor (Z.lor shift (at_code shiftcode data)) (at_code togglecode data) in
    set_shift shift;;
    ret (key_code shift data).

(** The calls of [getc] in [consoleintr]. *)
Fixpoint getc_all (fuel : nat) : K (list Z) :=
  match fuel with
  | O => fun k => Stuck k
  | S fuel =>
    c <- kbdgetc;;
    if c <? 0 then ret [] else
    l <- getc_all fuel;; ret (c :: l)
  end.

(** [kbdintr] works on the kernel and on the keyboard. *)
Definition kbdintr (s : kstate) (k : kbd) : comp kstate ujump unit * kbd :=
  match getc_all (S (length k.(kb_buf))) k with
  | Ret keys k' => (consoleintr keys s, k')
  | _ => (Stuck s, k)
  end.

(** ** Scan codes one by one *)

(** The character for the scan code [d] and the new modifiers. *)
Definition scan (sh d : Z) : Z * Z :=
  match kbdgetc (mkkbd [d] 0 sh) with Ret c k => (c, k.(kb_shift)) | _ => (0, sh) end.

Lemma status_full k : k.(kb_buf) ≠ [] → ∃ st, inb_status k = Ret st k ∧ Z.land st KBS_DIB = 1.
Proof.
  intros H. unfold inb_status, get. eexists. split; [done|]. destruct (kb_buf k); [done|].
  rewrite Z.land_lor_distr_l. unfold KBS_DIB. change (Z.land 1 1) with 1.
  assert (Z.land (Z.ldiff (kb_st k) 1) 1 = 0) as ->; [|done].
  apply Z.bits_inj'. intros i Hi. rewrite Z.land_spec, Z.ldiff_spec, Z.bits_0. destruct (Z.testbit 1 i); [by rewrite andb_false_r|].
  by rewrite !andb_false_r.
Qed.

Lemma status_empty k : k.(kb_buf) = [] → ∃ st, inb_status k = Ret st k ∧ Z.land st KBS_DIB = 0.
Proof.
  intros H. unfold inb_status, get. eexists. split; [done|]. rewrite H, Z.lor_0_r. unfold KBS_DIB.
  apply Z.bits_inj'. intros i Hi. rewrite Z.land_spec, Z.ldiff_spec, Z.bits_0. destruct (Z.testbit 1 i); [by rewrite andb_false_r|].
  by rewrite !andb_false_r.
Qed.

Definition byte_ok (c : Z) : bool := (0 <=? c) && (c <? 256).

Lemma maps_bytes : forallb (forallb byte_ok) charcode = true.
Proof. vm_compute. reflexivity. Qed.

Lemma key_code_range sh d : 0 <= key_code sh d < 256.
Proof.
  unfold key_code. set (t := charcode !!! _). set (c := at_code t d).
  assert (0 <= c < 256) as Hc.
  { unfold c, at_code. destruct (t !! Z.to_nat d) as [x|] eqn:E; rewrite list_lookup_total_alt, E; simpl; [|lia].
    assert (forallb byte_ok t = true) as Ht.
    { unfold t. rewrite list_lookup_total_alt. destruct (charcode !! _) as [u|] eqn:Eu; [|done].
      apply list_elem_of_lookup_2, list_elem_of_In in Eu.
      pose proof maps_bytes as H. rewrite forallb_forall in H. by apply H. }
    rewrite forallb_forall in Ht. apply list_elem_of_lookup_2, list_elem_of_In in E.
    specialize (Ht x E). unfold byte_ok in Ht. lia. }
  clearbody c. destruct (negb _); [|done]. destruct ((97 <=? c) && (c <=? 122)) eqn:E1; [lia|].
  destruct ((65 <=? c) && (c <=? 90)) eqn:E2; lia.
Qed.

Lemma kbdgetc_step d sh : ∃ c sh', 0 <= c < 256 ∧ ∀ r st, kbdgetc (mkkbd (d :: r) st sh) = Ret c (mkkbd r st sh').
Proof.
  destruct (d =? 224) eqn:E1; [|destruct (negb (Z.land d 128 =? 0)) eqn:E2]; eexists _, _;
    (split; [|intros r st; unfold kbdgetc, bind at 1;
    (destruct (status_full (mkkbd (d :: r) st sh)) as (x & -> & E); [done|]); cbn [cbind]; rewrite E; cbn [Z.eqb];
    unfold inb_data, set_shift, bind, get, modify, ret; cbn [cbind kb_buf kb_st kb_shift]; rewrite E1, ?E2; reflexivity]);
    [done|done|apply key_code_range].
Qed.

Lemma kbdgetc_full d r st sh : kbdgetc (mkkbd (d :: r) st sh) = Ret (scan sh d).1 (mkkbd r st (scan sh d).2).
Proof. unfold scan. destruct (kbdgetc_step d sh) as (c & sh' & _ & H). by rewrite !H. Qed.

Lemma kbdgetc_empty st sh : kbdgetc (mkkbd [] st sh) = Ret (-1) (mkkbd [] st sh).
Proof.
  unfold kbdgetc, bind at 1. destruct (status_empty (mkkbd [] st sh)) as (x & -> & E); [done|]. cbn [cbind]. by rewrite E.
Qed.

Lemma scan_range sh d : 0 <= (scan sh d).1 < 256.
Proof. unfold scan. destruct (kbdgetc_step d sh) as (c & sh' & Hc & H). by rewrite H. Qed.

(** The characters of a sequence of scan codes, and the modifiers at the end. *)
Fixpoint scan_all (sh : Z) (l : list Z) : list Z * Z :=
  match l with
  | [] => ([], sh)
  | d :: l => let r := scan_all (scan sh d).2 l in ((scan sh d).1 :: r.1, r.2)
  end.

Lemma getc_all_run l : ∀ fuel st sh, (length l < fuel)%nat →
  getc_all fuel (mkkbd l st sh) = Ret (scan_all sh l).1 (mkkbd [] st (scan_all sh l).2).
Proof.
  induction l as [|d l IH]; intros fuel st sh Hf; (destruct fuel as [|fuel]; [simpl in Hf; lia|]); cbn [getc_all]; unfold bind at 1.
  - by rewrite kbdgetc_empty.
  - rewrite kbdgetc_full. cbn [cbind]. pose proof (scan_range sh d) as Hr.
    destruct (Z.ltb_spec (scan sh d).1 0); [lia|]. unfold bind. rewrite IH by (simpl in Hf; lia). done.
Qed.

Lemma scan_all_app sh l1 l2 :
  scan_all sh (l1 ++ l2) = let r1 := scan_all sh l1 in let r2 := scan_all r1.2 l2 in (r1.1 ++ r2.1, r2.2).
Proof. revert sh. induction l1 as [|d l1 IH]; intros sh; simpl; [by destruct (scan_all sh l2)|]. by rewrite IH. Qed.

Lemma scan_all_bytes sh l : Forall (λ c, 0 <= c < 256) (scan_all sh l).1.
Proof. revert sh. induction l as [|d l IH]; intros sh; simpl; constructor; [apply scan_range|apply IH]. Qed.

(** ** Typing *)

(** The key of the main block whose character is [c] with the modifiers
    [sh]. *)
Definition find_key (sh c : Z) : option Z := snd <$> list_find (λ d, key_code sh d = c) (seqZ 1 57).

Definition lock (caps : bool) : Z := if caps then CAPSLOCK else 0.

(** The scan codes of striking the keys for [c]: with a shift or control key
    held down if necessary. *)
Definition strokes (caps : bool) (c : Z) : list Z :=
  match find_key (lock caps) c, find_key (Z.lor (lock caps) SHIFT) c, find_key (Z.lor (lock caps) CTL) c with
  | Some d, _, _ => [d; d + 128]
  | None, Some d, _ => [42; d; d + 128; 42 + 128]
  | None, None, Some d => [29; d; d + 128; 29 + 128]
  | None, None, None => []
  end.

Definition on_keyboard (c : Z) : bool := bool_decide (c ∈ [8; 9; 10; 13; 27; 4; 16; 21]) || (32 <=? c) && (c <=? 126).

Definition strokes_ok (caps : bool) (c : Z) : bool :=
  negb (on_keyboard c) ||
  (bool_decide (filter (λ x, x ≠ 0) (scan_all (lock caps) (strokes caps c)).1 = [c]) &&
   ((scan_all (lock caps) (strokes caps c)).2 =? lock caps)).

Lemma strokes_all : forallb (λ c, strokes_ok false c && strokes_ok true c) (seqZ 0 256) = true.
Proof. vm_compute. reflexivity. Qed.

Lemma strokes_scan caps c : on_keyboard c = true →
  filter (λ x, x ≠ 0) (scan_all (lock caps) (strokes caps c)).1 = [c] ∧
  (scan_all (lock caps) (strokes caps c)).2 = lock caps.
Proof.
  intros H. assert (0 <= c < 256) as Hc.
  { unfold on_keyboard in H. apply orb_true_iff in H as [H|H]; [|lia]. apply bool_decide_eq_true in H.
    repeat (apply elem_of_cons in H as [->|H]; [lia|]). by apply elem_of_nil in H. }
  pose proof strokes_all as Ha. rewrite forallb_forall in Ha.
  specialize (Ha c). rewrite andb_true_iff in Ha. destruct Ha as [H1 H2]; [apply list_elem_of_In, elem_of_seqZ; lia|].
  assert (strokes_ok caps c = true) as Hs by by destruct caps. unfold strokes_ok in Hs. rewrite H in Hs.
  apply andb_true_iff in Hs as [Hs1 Hs2]. apply bool_decide_eq_true in Hs1. split; [done|by apply Z.eqb_eq].
Qed.

Lemma strokes_text caps text : Forall (λ c, on_keyboard c = true) text →
  filter (λ x, x ≠ 0) (scan_all (lock caps) (concat (map (strokes caps) text))).1 = text ∧
  (scan_all (lock caps) (concat (map (strokes caps) text))).2 = lock caps.
Proof.
  induction 1 as [|c text Hc _ [IH1 IH2]]; [done|]. cbn [map concat]. rewrite scan_all_app. cbv zeta.
  destruct (strokes_scan caps c Hc) as [E1 E2]. rewrite E2. cbn [fst snd]. by rewrite list.filter_app, E1, IH1.
Qed.

Lemma edit_zeros keys v : foldl edit v keys = foldl edit v (filter (λ x, x ≠ 0) keys).
Proof.
  revert v. induction keys as [|c keys IH]; intros v; [done|]. destruct (decide (c = 0)) as [->|Hc].
  - rewrite filter_cons_False by (intros H; by apply H). cbn [foldl]. rewrite IH. f_equal. by destruct v.
  - rewrite filter_cons_True by done. apply IH.
Qed.

(** Striking keys types text.  For every text of printable
    characters, newlines, tabs, backspaces and the control characters of the
    line editor, when the keyboard delivers the scan codes of striking the keys
    for it (shift and control keys pressed and released around a key where
    needed, with caps lock on or off), the keyboard interrupt reads all of them,
    leaves the modifiers as they were, and the console has exactly the lines
    that the reference editor computes from the text. *)
Theorem keyboard_types caps text s k R L : Forall (λ c, on_keyboard c = true) text →
  k.(kb_buf) = concat (map (strokes caps) text) → k.(kb_shift) = lock caps →
  s.(held) = [] → wf_table s → tty s.(input) R L → newline ∉ L →
  (kbdintr s k).2 = mkkbd [] k.(kb_st) k.(kb_shift) ∧
  let '(R', L') := foldl edit (R, L) text in
  runs (λ s, (kbdintr s k).1) s (λ _ s', s'.(held) = [] ∧ tty s'.(input) R' L').
Proof.
  intros Ht Hb Hs Hh Hw Hy Hn. destruct k as [buf st sh]. cbn [kb_buf kb_st kb_shift] in *. subst buf sh.
  destruct (strokes_text caps text Ht) as [E1 E2]. set (l := concat (map (strokes caps) text)) in *.
  unfold kbdintr. cbn [kb_buf]. rewrite (getc_all_run l) by lia. rewrite E2. split; [done|].
  pose proof (consoleintr_t (scan_all (lock caps) l).1 s R L (scan_all_bytes _ _) Hh Hw Hy Hn) as H.
  cbv zeta in H. rewrite edit_zeros, E1 in H. destruct (foldl edit (R, L) text) as [R' L'].
  eapply runs_mono; [exact H|]. intros [] s' [(o & i & ->) H2 _]. split; [done|exact H2].
Qed.

Lemma keyboard_types_witness :
  let k := mkkbd (concat (map (strokes false) (chars "Hi" ++ [10]))) 0 0 in
  runs (λ s, (kbdintr s k).1) demo (λ _ s', s'.(held) = [] ∧ tty s'.(input) (chars "Hi" ++ [10]) []).
Proof.
  intros k. assert (tty demo.(input) [] []) as Ht by (split; reflexivity || (simpl; unfold word, two32, INPUT_BUF; lia)).
  assert (foldl edit ([], []) (chars "Hi" ++ [10]) = (chars "Hi" ++ [10], [])) as E by reflexivity.
  destruct (keyboard_types false (chars "Hi" ++ [10]) demo k [] []) as [_ H];
    [by repeat constructor|done|done|reflexivity|reflexivity|exact Ht|apply not_elem_of_nil|].
  rewrite E in H. exact H.
Defined.
