(* ===== verification/Mp.v ===== *)
(** * Multiprocessor tables: [mp.c] and [mp.h]

    The kernel finds its CPUs in tables that the firmware leaves in memory: a
    floating pointer structure that is searched for by its signature and
    checksum, and a configuration table with one entry per processor, bus,
    I/O interrupt controller and interrupt source.  The fields of the
    structures are read from the byte memory at their offsets. *)

From stdpp Require Import base numbers option list sets strings.
From Stdlib Require Import ZArith Lia.
From S2P Require Import Prelude State Console Kalloc.

(** ** The structures *)

Definition mp_size : Z := 16.
Definition mp_physaddr (m : memory) (p : Z) : Z := load32 m (u32 (p + 4)).
Definition mp_imcrp (m : memory) (p : Z) : Z := load8 m (u32 (p + 12)).

Definition load16 (m : memory) (a : Z) : Z := load8 m a + 256 * load8 m (u32 (a + 1)).

Definition mpconf_size : Z := 44.
Definition conf_length (m : memory) (c : Z) : Z := load16 m (u32 (c + 4)).
Definition conf_version (m : memory) (c : Z) : Z := load8 m (u32 (c + 6)).
Definition conf_lapicaddr (m : memory) (c : Z) : Z := load32 m (u32 (c + 36)).

Definition mpproc_size : Z := 20.
Definition mpioapic_size : Z := 8.
Definition entry_id (m : memory) (p : Z) : Z := load8 m (u32 (p + 1)).

Definition MPPROC : Z := 0.
Definition MPBUS : Z := 1.
Definition MPIOAPIC : Z := 2.
Definition MPIOINTR : Z := 3.
Definition MPLINTR : Z := 4.

Definition NCPU : nat := 8.
#[global] Opaque NCPU.

(** ** The search *)

(** The [n] bytes at [a]. *)
Definition bytes_at (m : memory) (a : Z) (n : nat) : list Z :=
  map (λ i, load8 m (u32 (a + Z.of_nat i))) (seq 0 n).

Definition sum_z (l : list Z) : Z := foldr Z.add 0 l.

(** The result is a [uchar]. *)
Definition sum (m : memory) (addr : Z) (len : nat) : Z := sum_z (bytes_at m addr len) mod 256.

(** The loop of [mpsearch1] over [n] structures from [p] on; 0 is the null
    pointer. *)
Fixpoint mpsearch_loop (m : memory) (n : nat) (p : Z) : Z :=
  match n with
  | O => 0
  | S n =>
    if bool_decide (bytes_at m p 4 = chars "_MP_") && (sum m p 16 =? 0) then p
    else mpsearch_loop m n (u32 (p + mp_size))
  end.

Definition mpsearch1 (m : memory) (a len : Z) : Z :=
  mpsearch_loop m (Z.to_nat ((len + mp_size - 1) / mp_size)) (P2V a).

Definition mpsearch (m : memory) : Z :=
  let bda i := load8 m (u32 (P2V 1024 + i)) in
  let p := Z.shiftl (Z.lor (Z.shiftl (bda 15) 8) (bda 14)) 4 in
  let mp :=
    if negb (p =? 0) then mpsearch1 m p 1024
    else mpsearch1 m (u32 (Z.lor (Z.shiftl (bda 20) 8) (bda 19) * 1024 - 1024)) 1024 in
  if negb (mp =? 0) then mp else mpsearch1 m 983040 65536.

(** The configuration table and the floating pointer, or nothing. *)
Definition mpconfig (m : memory) : option (Z * Z) :=
  let mp := mpsearch m in
  if (mp =? 0) || (mp_physaddr m mp =? 0) then None else
  let conf := P2V (mp_physaddr m mp) in
  if negb (bool_decide (bytes_at m conf 4 = chars "PCMP")) then None else
  if negb (conf_version m conf =? 1) && negb (conf_version m conf =? 4) then None else
  if negb (sum m conf (Z.to_nat (conf_length m conf)) =? 0) then None else
  Some (conf, mp).

(** ** Reading the table *)

(** The variables [mpinit] sets, and the interrupt mode register behind the
    ports 0x22 and 0x23. *)
Record mpstate : Type := mkmp {
  mp_mem : memory;
  ncpu : nat;
  apicids : list Z;
  ioapicid : Z;
  lapic : Z;
  imcr : Z
}.
Definition set_cpus (n : nat) (l : list Z) (s : mpstate) : mpstate :=
  mkmp s.(mp_mem) n l s.(ioapicid) s.(lapic) s.(imcr).
Definition set_ioapicid (v : Z) (s : mpstate) : mpstate :=
  mkmp s.(mp_mem) s.(ncpu) s.(apicids) v s.(lapic) s.(imcr).
Definition set_lapic (v : Z) (s : mpstate) : mpstate :=
  mkmp s.(mp_mem) s.(ncpu) s.(apicids) s.(ioapicid) v s.(imcr).
Definition set_imcr (v : Z) (s : mpstate) : mpstate :=
  mkmp s.(mp_mem) s.(ncpu) s.(apicids) s.(ioapicid) s.(lapic) v.

Definition MP : Type → Type := prog mpstate unit.

(** The loop of [mpinit]; its result is [ismp].  The [break] in the default
    case leaves the [switch], not the loop. *)
Fixpoint mpinit_loop (fuel : nat) (p e : Z) (ismp : bool) : MP bool :=
  match fuel with
  | O => fun s => Stuck s
  | S fuel =>
    if negb (p <? e) then ret ismp else
    t <- get (λ s, load8 s.(mp_mem) p);;
    id <- get (λ s, entry_id s.(mp_mem) p);;
    if t =? MPPROC then
      n <- get ncpu;;
      when (n <? NCPU)%nat (modify (λ s, set_cpus (S n) (<[n := id]> s.(apicids)) s));;
      mpinit_loop fuel (u32 (p + mpproc_size)) e ismp
    else if t =? MPIOAPIC then
      modify (set_ioapicid id);;
      mpinit_loop fuel (u32 (p + mpioapic_size)) e ismp
    else if (t =? MPBUS) || (t =? MPIOINTR) || (t =? MPLINTR) then
      mpinit_loop fuel (u32 (p + 8)) e ismp
    else mpinit_loop fuel p e false
  end.

Definition mpinit (fuel : nat) : MP unit :=
  c <- get (λ s, mpconfig s.(mp_mem));;
  match c with
  | None => panic "Expect to run on an SMP"
  | Some (conf, mp) =>
    m <- get mp_mem;;
    modify (set_lapic (conf_lapicaddr m conf));;
    ismp <- mpinit_loop fuel (u32 (conf + mpconf_size)) (u32 (conf + conf_length m conf)) true;;
    if negb (ismp : bool) then panic "Didn't find a suitable machine" else
    when (negb (mp_imcrp m mp =? 0)) (modify (λ s, set_imcr (Z.lor s.(imcr) 1) s))
  end.

(** ** Bytes in memory *)

Definition holds (m : memory) (a : Z) (l : list Z) : Prop :=
  ∀ i b, l !! i = Some b → load8 m (u32 (a + Z.of_nat i)) = b.

Lemma holds_app m a l1 l2 : holds m a (l1 ++ l2) ↔ holds m a l1 ∧ holds m (a + Z.of_nat (length l1)) l2.
Proof.
  split.
  - intros H. split; intros i b Hi.
    + apply H. by apply lookup_app_l_Some.
    + replace (a + Z.of_nat (length l1) + Z.of_nat i) with (a + Z.of_nat (length l1 + i)) by lia.
      apply H. rewrite lookup_app_r by lia. by replace (length l1 + i - length l1)%nat with i by lia.
  - intros [H1 H2] i b Hi. apply lookup_app_Some in Hi as [Hi|[Hle Hi]]; [by apply H1|].
    specialize (H2 _ _ Hi). by replace (a + Z.of_nat (length l1) + Z.of_nat (i - length l1)) with (a + Z.of_nat i) in H2 by lia.
Qed.

Lemma bytes_at_holds m a l : holds m a l → bytes_at m a (length l) = l.
Proof.
  intros H. apply list_eq. intros i. unfold bytes_at. rewrite list_lookup_fmap.
  destruct (decide (i < length l)%nat) as [Hi|Hi].
  - rewrite lookup_seq_lt by done. simpl. destruct (lookup_lt_is_Some_2 l i Hi) as [b Hb]. by rewrite Hb, (H i b).
  - rewrite lookup_seq_ge, lookup_ge_None_2 by lia. done.
Qed.

Lemma holds_prefix m a l n : holds m a l → (n <= length l)%nat → bytes_at m a n = take n l.
Proof.
  intros H Hn. rewrite <- (take_drop n l) in H. apply holds_app in H as [H _].
  apply bytes_at_holds in H. by rewrite length_take, Nat.min_l in H by done.
Qed.

Definition le16 (z : Z) : list Z := [z mod 256; z / 256].
Definition le32 (z : Z) : list Z := [z mod 256; z / 256 mod 256; z / 65536 mod 256; z / 16777216 mod 256].

Lemma load8_u32 m a : load8 m (u32 a) = load8 m a.
Proof. unfold load8. by rewrite u32_idem. Qed.

Lemma holds_at m a l i b : holds m a l → l !! i = Some b → load8 m (a + Z.of_nat i) = b.
Proof. intros H Hi. rewrite <- load8_u32. by apply H. Qed.

Lemma holds_le16 m a z : 0 <= z → holds m a (le16 z) → load16 m (u32 a) = z.
Proof.
  intros Hz H. unfold load16. rewrite u32_add_l, !load8_u32.
  pose proof (holds_at m a _ 0 _ H eq_refl) as H0. pose proof (holds_at m a _ 1 _ H eq_refl) as H1.
  rewrite Z.add_0_r in H0. change (Z.of_nat 1) with 1 in H1. rewrite H0, H1.
  pose proof (Z.div_mod z 256 ltac:(lia)). lia.
Qed.

Lemma holds_le32 m a z : word z → holds m a (le32 z) → load32 m (u32 a) = z.
Proof.
  intros Hz H. unfold load32. pose proof (holds_at m a _ 0 _ H eq_refl) as H0. pose proof (holds_at m a _ 1 _ H eq_refl) as H1.
  pose proof (holds_at m a _ 2 _ H eq_refl) as H2. pose proof (holds_at m a _ 3 _ H eq_refl) as H3.
  unfold load8 in *. rewrite !u32_add_l, !u32_idem. 
  change (Z.of_nat 0) with 0 in H0. change (Z.of_nat 1) with 1 in H1. change (Z.of_nat 2) with 2 in H2. change (Z.of_nat 3) with 3 in H3.
  rewrite Z.add_0_r in H0. rewrite H0, H1, H2, H3.
  unfold word, two32 in Hz.
  pose proof (Z.div_mod z 256 ltac:(lia)). pose proof (Z.div_mod (z / 256) 256 ltac:(lia)).
  pose proof (Z.div_mod (z / 65536) 256 ltac:(lia)).
  assert (z / 65536 = z / 256 / 256) by (rewrite Z.div_div by lia; done).
  assert (z / 16777216 = z / 65536 / 256) as E by (rewrite Z.div_div by lia; done).
  rewrite (Z.mod_small (z / 16777216)) by (split; [apply Z.div_pos; lia|apply Z.div_lt_upper_bound; lia]). lia.
Qed.

(** ** What the search finds *)

(** A floating pointer structure at [p]. *)
Definition valid_mp (m : memory) (p : Z) : bool :=
  bool_decide (bytes_at m p 4 = chars "_MP_") && (sum m p 16 =? 0).

(** The addresses the code looks at, in order: the extended BIOS data area or
    the last kilobyte of base memory, and the last 64 KB of the BIOS. *)
Definition candidates (m : memory) : list Z :=
  let bda i := load8 m (u32 (P2V 1024 + i)) in
  let seg := bda 14 + 256 * bda 15 in
  let kb := bda 19 + 256 * bda 20 in
  let p := if seg =? 0 then u32 (kb * 1024 - 1024) else seg * 16 in
  map (λ i, u32 (P2V p + 16 * Z.of_nat i)) (seq 0 64) ++
  map (λ i, u32 (P2V 983040 + 16 * Z.of_nat i)) (seq 0 4096).

Lemma mpsearch_loop_spec m n p : word p →
  mpsearch_loop m n p = default 0 (snd <$> list_find (λ a, valid_mp m a = true)
    (map (λ i, u32 (p + 16 * Z.of_nat i)) (seq 0 n))).
Proof.
  revert p. induction n as [|n IH]; intros p Hp; [done|]. cbn [mpsearch_loop seq map list_find].
  rewrite Z.mul_0_r, Z.add_0_r, (u32_id p Hp). fold (valid_mp m p).
  destruct (valid_mp m p) eqn:E; [by rewrite decide_True|]. rewrite decide_False by done.
  rewrite IH by apply u32_word. rewrite <- seq_shift, map_map.
  assert (map (λ i, u32 (u32 (p + mp_size) + 16 * Z.of_nat i)) (seq 0 n)
    = map (λ i, u32 (p + 16 * Z.of_nat (S i))) (seq 0 n)) as ->.
  { apply map_ext. intros i. rewrite u32_add_l. unfold mp_size. f_equal. lia. }
  by destruct (list_find _ _) as [[j a]|].
Qed.

Lemma list_find_app_r {B} (P : B → Prop) `{∀ x, Decision (P x)} l1 l2 :
  snd <$> list_find P (l1 ++ l2) = match snd <$> list_find P l1 with Some x => Some x | None => snd <$> list_find P l2 end.
Proof.
  induction l1 as [|x l1 IH]; simpl; [done|]. destruct (decide (P x)); [done|].
  destruct (list_find P (l1 ++ l2)) as [[i y]|], (list_find P l1) as [[j z]|]; simpl in *; done.
Qed.

Lemma shift_or a b : 0 <= a < 256 → 0 <= b < 256 → Z.lor (Z.shiftl a 8) b = b + 256 * a.
Proof.
  intros Ha Hb. assert (Z.land (Z.shiftl a 8) b = 0) as H.
  { apply Z.bits_inj'; intros i Hi; rewrite Z.land_spec, Z.bits_0, Z.shiftl_spec by done.
    destruct (Z.ltb_spec i 8); [by rewrite (Z.testbit_neg_r a) by lia|].
    destruct (Z.eq_dec b 0) as [->|Hb0]; [by rewrite Z.bits_0, andb_false_r|].
    rewrite (Z.bits_above_log2 b), andb_false_r; [done|lia|]. apply Z.log2_lt_pow2; [lia|].
    apply Z.lt_le_trans with (2 ^ 8); [simpl; lia|]; apply Z.pow_le_mono_r; lia. }
  rewrite <- (Z.lxor_lor _ _ H), <- (Z.add_nocarry_lxor _ _ H), Z.shiftl_mul_pow2 by lia.
  change (2 ^ 8) with 256. lia.
Qed.

Lemma mpsearch1_spec m a len n : n = Z.to_nat ((len + mp_size - 1) / mp_size) →
  mpsearch1 m a len = default 0 (snd <$> list_find (λ a, valid_mp m a = true)
    (map (λ i, u32 (P2V a + 16 * Z.of_nat i)) (seq 0 n))).
Proof. intros ->. apply mpsearch_loop_spec, u32_word. Qed.

Lemma mpsearch_spec m f : (∀ a, 0 <= m a < 256) →
  snd <$> list_find (λ a, valid_mp m a = true) (candidates m) = Some f → f ≠ 0 → mpsearch m = f.
Proof.
  intros Hm Hf H0. unfold mpsearch. unfold candidates in Hf. rewrite list_find_app_r in Hf.
  rewrite !shift_or by apply Hm. rewrite (Z.shiftl_mul_pow2 _ 4) by lia. change (2 ^ 4) with 16.
  set (seg := load8 m (u32 (P2V 1024 + 14)) + 256 * load8 m (u32 (P2V 1024 + 15))) in *.
  set (kb := load8 m (u32 (P2V 1024 + 19)) + 256 * load8 m (u32 (P2V 1024 + 20))) in *.
  rewrite (mpsearch1_spec m 983040 65536 4096) by (vm_compute; reflexivity).
  rewrite !(λ p, mpsearch1_spec m p 1024 64) by (vm_compute; reflexivity).
  set (rom := snd <$> list_find _ (map _ (seq 0 4096))) in *. clearbody rom.
  destruct (Z.eqb_spec seg 0) as [->|Hs]; [change (0 * 16 =? 0) with true|destruct (Z.eqb_spec (seg * 16) 0); [lia|]]; cbn [negb];
    (match type of Hf with match ?x with _ => _ end = _ => destruct x as [a|] end; simpl;
     [injection Hf as ->; by destruct (Z.eqb_spec f 0)|by rewrite Hf]).
Qed.

(** ** Configuration tables *)

(** The entries of a table; [rest] are the bytes the kernel does not read. *)
Inductive mp_entry : Type :=
| EProc (apicid : Z) (rest : list Z)
| EIoapic (apicno : Z) (rest : list Z)
| EOther (type : Z) (rest : list Z).

Definition enc_entry (e : mp_entry) : list Z :=
  match e with
  | EProc id rest => MPPROC :: id :: rest
  | EIoapic id rest => MPIOAPIC :: id :: rest
  | EOther t rest => t :: rest
  end.

Definition entry_ok (e : mp_entry) : Prop :=
  match e with
  | EProc _ rest => length rest = 18%nat
  | EIoapic _ rest => length rest = 6%nat
  | EOther t rest => t ∈ [MPBUS; MPIOINTR; MPLINTR] ∧ length rest = 7%nat
  end.

Definition proc_ids (es : list mp_entry) : list Z :=
  omap (λ e, match e with EProc id _ => Some id | _ => None end) es.
Definition ioapic_ids (es : list mp_entry) : list Z :=
  omap (λ e, match e with EIoapic id _ => Some id | _ => None end) es.

(** A table with the header fields the kernel reads and the body [body]. *)
Definition conf_table (version checksum lapicaddr : Z) (product tail : list Z) (body : list Z) : list Z :=
  chars "PCMP" ++ le16 (44 + Z.of_nat (length body)) ++ [version; checksum] ++ product ++ le32 lapicaddr ++ tail ++ body.

(** What the firmware leaves in memory: a floating pointer [f] that is the
    first valid one, and at the address in it a table with the body [body]. *)
Record firmware (m : memory) (f lapicaddr : Z) (body : list Z) : Prop := {
  fw_bytes : ∀ a, 0 <= m a < 256;
  fw_found : snd <$> list_find (λ a, valid_mp m a = true) (candidates m) = Some f;
  fw_null : f ≠ 0;
  fw_table : ∃ phys version checksum product tail, holds m (f + 4) (le32 phys) ∧ 0 < phys ∧
    let t := conf_table version checksum lapicaddr product tail body in
    phys + Z.of_nat (length t) < two31 ∧ Z.of_nat (length t) < 65536 ∧
    version ∈ [1; 4] ∧ length product = 28%nat ∧ length tail = 4%nat ∧
    sum_z t mod 256 = 0 ∧ holds m (phys + KERNBASE) t;
  fw_lapic : word lapicaddr
}.

Lemma mpconfig_spec m f lapicaddr body : firmware m f lapicaddr body →
  ∃ conf, mpconfig m = Some (conf, f) ∧ conf_lapicaddr m conf = lapicaddr ∧
    conf_length m conf = 44 + Z.of_nat (length body) ∧ 0 <= conf ∧
    conf + 44 + Z.of_nat (length body) < two32 ∧ holds m (conf + 44) body.
Proof.
  intros [Hb Hfound Hf0 (phys & ver & ck & prod & tl & Hp & Hp0 & Hlt & Hl & Hv & Hprod & Htl & Hsum & Ht) Hlap].
  set (t := conf_table ver ck lapicaddr prod tl body) in *. exists (phys + KERNBASE).
  pose proof Ht as Ht'. unfold t, conf_table in Ht'. rewrite !holds_app in Ht'.
  destruct Ht' as (_ & Hlen & Hver & _ & Hla & _ & Hbody). rewrite Hprod in Hla, Hbody. rewrite Htl in Hbody.
  assert (length t = 44 + length body)%nat as Elen.
  { unfold t, conf_table. rewrite !length_app, Hprod, Htl. simpl. lia. }
  rewrite Elen in Hlt, Hl. simpl length in Hlen, Hver, Hla, Hbody.
  assert (word phys) as Hw by (unfold word, two31, two32 in *; lia).
  assert (P2V phys = phys + KERNBASE) as EP by (apply u32_id; unfold word, KERNBASE, two31, two32 in *; lia).
  assert (conf_length m (phys + KERNBASE) = 44 + Z.of_nat (length body)) as ECL.
  { unfold conf_length. apply holds_le16; [lia|]. by replace (phys + KERNBASE + 4) with (phys + KERNBASE + Z.of_nat 4) by lia. }
  split_and!.
  - unfold mpconfig. rewrite (mpsearch_spec m f Hb Hfound Hf0). destruct (Z.eqb_spec f 0) as [|_]; [done|].
    unfold mp_physaddr. rewrite (holds_le32 m (f + 4) phys Hw Hp). destruct (Z.eqb_spec phys 0) as [|_]; [lia|].
    cbn [orb]. rewrite EP. rewrite bool_decide_true.
    2: { rewrite (holds_prefix m _ t 4 Ht) by lia. unfold t, conf_table. done. }
    cbn [negb]. assert (conf_version m (phys + KERNBASE) = ver) as ->.
    { unfold conf_version. rewrite load8_u32. pose proof (holds_at m _ _ 0 _ Hver eq_refl) as E.
      by replace (phys + KERNBASE + Z.of_nat 4 + Z.of_nat 2 + Z.of_nat 0) with (phys + KERNBASE + 6) in E by lia. }
    replace (negb (ver =? 1) && negb (ver =? 4)) with false
      by (apply elem_of_cons in Hv as [->|[->|?%elem_of_nil]%elem_of_cons]; done).
    rewrite ECL. unfold sum. replace (Z.to_nat (44 + Z.of_nat (length body))) with (length t) by lia.
    rewrite (bytes_at_holds m _ t Ht), Hsum. done.
  - unfold conf_lapicaddr. apply holds_le32; [done|].
    by replace (phys + KERNBASE + 36) with (phys + KERNBASE + Z.of_nat 4 + Z.of_nat 2 + Z.of_nat 2 + Z.of_nat 28) by lia.
  - done.
  - unfold KERNBASE. lia.
  - unfold KERNBASE, two31, two32 in *. lia.
  - by replace (phys + KERNBASE + 44) with (phys + KERNBASE + Z.of_nat 4 + Z.of_nat 2 + Z.of_nat 2 + Z.of_nat 28 + Z.of_nat 4 + Z.of_nat 4) by lia.
Qed.

(** ** Walking over the entries *)

(** The effect of one entry. *)
Definition note (s : mpstate) (e : mp_entry) : mpstate :=
  match e with
  | EProc id _ => if (s.(ncpu) <? NCPU)%nat then set_cpus (S s.(ncpu)) (<[s.(ncpu) := id]> s.(apicids)) s else s
  | EIoapic id _ => set_ioapicid id s
  | EOther _ _ => s
  end.

Lemma note_mem s e : mp_mem (note s e) = mp_mem s.
Proof. destruct e; simpl; [by destruct (_ <? _)%nat|done..]. Qed.

Lemma enc_entry_pos e : entry_ok e → (8 <= length (enc_entry e))%nat.
Proof. destruct e; simpl; [intros ->; lia..|]. intros [_ ->]. lia. Qed.

(** One iteration of the loop. *)
Lemma mpinit_step fuel p e en s b : entry_ok en → holds s.(mp_mem) p (enc_entry en) → 0 <= p → p < e →
  p + Z.of_nat (length (enc_entry en)) < two32 →
  mpinit_loop (S fuel) p e b s = mpinit_loop fuel (p + Z.of_nat (length (enc_entry en))) e b (note s en).
Proof.
  intros Hok H Hp Hpe Hlt. cbn [mpinit_loop]. destruct (Z.ltb_spec p e) as [_|]; [cbn [negb]|lia]. rewrite !bind_get.
  assert (∀ x, enc_entry en !! 0%nat = Some x → load8 (mp_mem s) p = x) as H0.
  { intros x Hx. pose proof (holds_at _ _ _ _ _ H Hx) as E. by rewrite Z.add_0_r in E. }
  assert (∀ x, enc_entry en !! 1%nat = Some x → entry_id (mp_mem s) p = x) as H1.
  { intros x Hx. unfold entry_id. rewrite load8_u32. by apply (holds_at _ _ _ 1 _ H Hx). }
  destruct en as [id r|id r|t r]; cbn [entry_ok enc_entry length] in *.
  - rewrite (H0 _ eq_refl), (H1 _ eq_refl). cbn [Z.eqb MPPROC]. rewrite bind_get. rewrite Hok in *.
    change mpproc_size with 20. change (Z.of_nat 20) with 20 in *. rewrite (u32_id (p + 20)) by (unfold word; lia).
    cbn [note]. destruct (ncpu s <? NCPU)%nat; unfold when; [by rewrite bind_modify|by rewrite bind_ret_l].
  - rewrite (H0 _ eq_refl), (H1 _ eq_refl). rewrite Hok in *. change (Z.of_nat 8) with 8 in *. change mpioapic_size with 8.
    rewrite (u32_id (p + 8)) by (unfold word; lia). change (MPIOAPIC =? MPPROC) with false. change (MPIOAPIC =? MPIOAPIC) with true.
    cbn iota. by rewrite bind_modify.
  - destruct Hok as [Ht Hr]. rewrite (H0 _ eq_refl). rewrite Hr in *. change (Z.of_nat 8) with 8 in *.
    rewrite (u32_id (p + 8)) by (unfold word; lia).
    by apply elem_of_cons in Ht as [->|[->|[->|?%elem_of_nil]%elem_of_cons]%elem_of_cons].
Qed.

Lemma mpinit_entries es : ∀ fuel p e s b, Forall entry_ok es → holds s.(mp_mem) p (concat (map enc_entry es)) → 0 <= p →
  p + Z.of_nat (length (concat (map enc_entry es))) <= e → e < two32 →
  mpinit_loop (length es + fuel) p e b s =
    mpinit_loop fuel (p + Z.of_nat (length (concat (map enc_entry es)))) e b (foldl note s es).
Proof.
  induction es as [|en es IH]; intros fuel p e s b Hok H Hp He Hlt; [by rewrite Z.add_0_r|].
  apply Forall_cons in Hok as [Hen Hok]. cbn [map concat] in *. apply holds_app in H as [H1 H2].
  rewrite length_app in *. pose proof (enc_entry_pos en Hen). cbn [length Nat.add].
  rewrite (mpinit_step _ p e en s b Hen H1) by lia. rewrite IH; [|done| |lia..]; [|by rewrite note_mem].
  cbn [foldl]. f_equal. lia.
Qed.

Lemma notes_cpus es : ∀ s, length s.(apicids) = NCPU → (s.(ncpu) <= NCPU)%nat →
  let s' := foldl note s es in
  s'.(ncpu) = Nat.min NCPU (s.(ncpu) + length (proc_ids es)) ∧ length s'.(apicids) = NCPU ∧
  take s'.(ncpu) s'.(apicids) = take NCPU (take s.(ncpu) s.(apicids) ++ proc_ids es).
Proof.
  induction es as [|e es IH]; intros s Hl Hn; cbn [foldl].
  - change (proc_ids []) with (@nil Z). cbv zeta. split_and!; [simpl length; lia|done|]. by rewrite app_nil_r, take_take, Nat.min_r by lia.
  - assert (length (note s e).(apicids) = NCPU) as Hl'.
    { destruct e; simpl; [|done..]. destruct (_ <? _)%nat; [|done]. cbn. by rewrite length_insert. }
    assert ((note s e).(ncpu) <= NCPU)%nat as Hn'.
    { destruct e; simpl; [|done..]. destruct (Nat.ltb_spec s.(ncpu) NCPU); simpl; lia. }
    destruct (IH _ Hl' Hn') as (E1 & E2 & E3). cbv zeta. rewrite E3, E1. clear IH E3 E1.
    destruct e as [id r|id r|t r]; cbn [note] in *; [|by split_and!..].
    change (proc_ids (EProc id r :: es)) with (id :: proc_ids es). cbn [length].
    destruct (Nat.ltb_spec s.(ncpu) NCPU) as [Hlt|Hge]; cbn [ncpu apicids set_cpus] in *.
    + split_and!; [lia|done|]. f_equal. erewrite take_S_r by (apply list_lookup_insert_eq; lia).
      rewrite take_insert_ge by lia. by rewrite <- app_assoc.
    + assert (s.(ncpu) = NCPU) as -> by lia. split_and!; [lia|done|].
      assert (length (take NCPU s.(apicids)) = NCPU) as E by (rewrite length_take; lia).
      by rewrite !take_app_le by (rewrite E; done).
Qed.

Lemma notes_other es : ∀ s, let s' := foldl note s es in
  s'.(ioapicid) = List.last (ioapic_ids es) s.(ioapicid) ∧ s'.(lapic) = s.(lapic) ∧ s'.(mp_mem) = s.(mp_mem).
Proof.
  induction es as [|e es IH]; intros s; [done|]. cbn [foldl]. destruct (IH (note s e)) as (E1 & E2 & E3). cbv zeta.
  rewrite E1, E2, E3. clear IH E1 E2 E3. destruct e as [id r|id r|t r]; cbn [note].
  - by destruct (_ <? _)%nat.
  - split_and!; [|done..]. change (ioapic_ids (EIoapic id r :: es)) with (id :: ioapic_ids es).
    cbn [ioapicid set_ioapicid]. generalize (ioapic_ids es) as l. induction l as [|x l IH]; [done|].
    destruct l; [done|exact IH].
  - done.
Qed.

(** The processors of the machine are found.  If the firmware has left
    a table whose body encodes the entries [es], [mpinit] terminates, [ncpu] is
    the number of processor entries, at most [NCPU], [cpus] has their identifiers
    in order, [ioapicid] is that of the last I/O interrupt controller and
    [lapic] the address in the header. *)
Theorem mpinit_reads_table s f lapicaddr es fuel :
  firmware s.(mp_mem) f lapicaddr (concat (map enc_entry es)) → Forall entry_ok es →
  s.(ncpu) = 0%nat → length s.(apicids) = NCPU → (length es < fuel)%nat →
  ∃ s', mpinit fuel s = Ret () s' ∧
    s'.(ncpu) = Nat.min NCPU (length (proc_ids es)) ∧
    take s'.(ncpu) s'.(apicids) = take NCPU (proc_ids es) ∧
    s'.(ioapicid) = List.last (ioapic_ids es) s.(ioapicid) ∧ s'.(lapic) = lapicaddr.
Proof.
  intros Hfw Hok Hn Hl Hf. destruct (mpconfig_spec _ _ _ _ Hfw) as (conf & E & Ela & El & H0 & Hlt & Hb).
  unfold mpinit. rewrite bind_get, E. rewrite bind_get, bind_modify.
  set (n := length (concat (map enc_entry es))) in *. set (s1 := set_lapic _ s).
  rewrite El, (u32_id (conf + mpconf_size)), (u32_id (conf + _)) by (unfold word, mpconf_size, two32 in *; lia).
  replace fuel with (length es + S (fuel - length es - 1))%nat by lia. unfold bind at 1.
  rewrite (mpinit_entries es _ _ _ s1 true Hok); [|exact Hb|unfold mpconf_size; lia..]. fold n.
  cbn [mpinit_loop]. unfold mpconf_size. destruct (Z.ltb_spec (conf + 44 + Z.of_nat n) (conf + (44 + Z.of_nat n))); [lia|].
  cbn [negb cbind ret]. destruct (notes_cpus es s1 Hl) as (C1 & _ & C3); [cbn; lia|].
  destruct (notes_other es s1) as (C4 & C5 & _). set (s2 := foldl note s1 es) in *.
  change (ncpu s1) with (ncpu s) in C1, C3. rewrite Hn in C1, C3. cbn [Nat.add take app] in C1, C3.
  destruct (negb (mp_imcrp _ f =? 0)); cbn [when]; eexists; (split; [reflexivity|]); cbn; rewrite C5; done.
Qed.

(** C34: A table with an entry of a type that the kernel does not know
    makes [mpinit] loop forever: the [break] for such an entry leaves the
    [switch] only, and the same entry is looked at again.  With any number of
    iterations the loop has not ended, so neither the panic message behind it
    nor a return is reached. *)
Theorem mpinit_unknown_entry s f lapicaddr es t rest fuel :
  firmware s.(mp_mem) f lapicaddr (concat (map enc_entry es) ++ t :: rest) → Forall entry_ok es →
  t ∉ [MPPROC; MPBUS; MPIOAPIC; MPIOINTR; MPLINTR] →
  ∃ s', mpinit (length es + fuel) s = Stuck s'.
Proof.
  intros Hfw Hok Ht. destruct (mpconfig_spec _ _ _ _ Hfw) as (conf & E & Ela & El & H0 & Hlt & Hb).
  unfold mpinit. rewrite bind_get, E. rewrite bind_get, bind_modify. rewrite length_app in El, Hlt. cbn [length] in El, Hlt.
  set (n := length (concat (map enc_entry es))) in *. set (s1 := set_lapic _ s).
  rewrite El, (u32_id (conf + mpconf_size)), (u32_id (conf + _)) by (unfold word, mpconf_size, two32 in *; lia).
  apply holds_app in Hb as [Hb1 Hb2]. fold n in Hb2.
  unfold bind at 1. rewrite (mpinit_entries es _ _ _ s1 true Hok); [|exact Hb1|unfold mpconf_size, two32 in *; lia..]. fold n.
  assert (∀ b s2, s2.(mp_mem) = s.(mp_mem) →
    mpinit_loop fuel (conf + mpconf_size + Z.of_nat n) (conf + (44 + Z.of_nat (n + S (length rest)))) b s2 = Stuck s2) as Hloop.
  { induction fuel as [|fuel IH]; intros b s2 Hm; [done|]. cbn [mpinit_loop].
    destruct (Z.ltb_spec (conf + mpconf_size + Z.of_nat n) (conf + (44 + Z.of_nat (n + S (length rest)))));
      [|unfold mpconf_size in *; lia]. cbn [negb]. rewrite !bind_get, Hm.
    pose proof (holds_at _ _ _ 0 _ Hb2 eq_refl) as E0. rewrite Z.add_0_r in E0. unfold mpconf_size in *. rewrite E0.
    rewrite !not_elem_of_cons in Ht. destruct Ht as (T1 & T2 & T3 & T4 & T5 & _).
    repeat match goal with |- context[t =? ?x] => destruct (Z.eqb_spec t x); [done|] end. cbn [orb]. by apply IH. }
  rewrite Hloop by by rewrite (proj2 (proj2 (notes_other es s1))). by eexists.
Qed.

(** ** A machine with two processors *)

Lemma holds_of_bytes m a l : bytes_at m a (length l) = l → holds m a l.
Proof.
  intros H i b Hi. pose proof (lookup_lt_Some _ _ _ Hi) as Hlt. rewrite <- H in Hi. unfold bytes_at in Hi.
  rewrite list_lookup_fmap, lookup_seq_lt in Hi by done. by injection Hi.
Qed.

Definition with_sum (l1 l2 : list Z) : list Z := l1 ++ [(- sum_z (l1 ++ l2)) mod 256] ++ l2.

Definition demo_pointer : list Z :=
  with_sum (chars "_MP_" ++ le32 131072 ++ [1; 4]) [0; 0; 0; 0; 0].

Definition demo_entries : list mp_entry :=
  [EProc 0 (replicate 18 0); EProc 1 (replicate 18 0); EIoapic 2 (replicate 6 0); EOther MPBUS (replicate 7 0)].

Definition demo_table (body : list Z) : list Z :=
  let ck := (- sum_z (conf_table 4 0 4276092928 (replicate 28 0) (replicate 4 0) body)) mod 256 in
  conf_table 4 ck 4276092928 (replicate 28 0) (replicate 4 0) body.

(** The data area of the BIOS at 1024 says that the extended one is at 65536. *)
Definition demo_memory (body : list Z) : memory := fun x =>
  let at_ (a : Z) (l : list Z) := if (a <=? x) && (x <? a + 1000) then l !! Z.to_nat (x - a) else None in
  default (default (default 0 (at_ (KERNBASE + 1038) [0; 16])) (at_ (KERNBASE + 65536) demo_pointer))
    (at_ (KERNBASE + 131072) (demo_table body)).

Lemma demo_memory_bytes body : forallb (λ b, (0 <=? b) && (b <? 256)) (demo_table body) = true →
  ∀ a, 0 <= demo_memory body a < 256.
Proof.
  intros Hb a. unfold demo_memory. cbv zeta.
  assert (∀ l i b, forallb (λ b, (0 <=? b) && (b <? 256)) l = true → l !! i = Some b → 0 <= b < 256) as Hl.
  { intros l i b Hf Hi. rewrite forallb_forall in Hf. apply list_elem_of_lookup_2, list_elem_of_In in Hi.
    specialize (Hf b Hi). simpl in Hf. lia. }
  assert (∀ (c : bool) l i d, forallb (λ b, (0 <=? b) && (b <? 256)) l = true → 0 <= d < 256 →
    0 <= default d (if c then l !! i else None) < 256) as Hd.
  { intros c l i d Hf Hd. destruct c; [|done]. destruct (l !! i) as [b|] eqn:E; [by apply (Hl l i b)|done]. }
  apply Hd; [done|]. apply Hd; [vm_compute; reflexivity|]. apply Hd; [vm_compute; reflexivity|lia].
Qed.

Lemma demo_firmware body : forallb (λ b, (0 <=? b) && (b <? 256)) (demo_table body) = true →
  Z.of_nat (length body) < 1000 → sum_z (demo_table body) mod 256 = 0 →
  bytes_at (demo_memory body) (131072 + KERNBASE) (length (demo_table body)) = demo_table body →
  snd <$> list_find (λ a, valid_mp (demo_memory body) a = true) (candidates (demo_memory body)) = Some (KERNBASE + 65536) →
  bytes_at (demo_memory body) (KERNBASE + 65536 + 4) 4 = le32 131072 →
  firmware (demo_memory body) (KERNBASE + 65536) 4276092928 body.
Proof.
  intros Hb Hlen Hs Ht Hf Hp. constructor; [by apply demo_memory_bytes|exact Hf|unfold KERNBASE; lia| |unfold word, two32; lia].
  exists 131072, 4, ((- sum_z (conf_table 4 0 4276092928 (replicate 28 0) (replicate 4 0) body)) mod 256), (replicate 28 0), (replicate 4 0).
  change (conf_table 4 (_ mod 256) 4276092928 (replicate 28 0) (replicate 4 0) body) with (demo_table body).
  assert (length (demo_table body) = 44 + length body)%nat as El.
  { unfold demo_table, conf_table. rewrite !length_app, !length_replicate. simpl. lia. }
  split; [apply holds_of_bytes; exact Hp|]. split; [lia|]. cbv zeta. rewrite El. split; [unfold two31; lia|].
  split; [lia|]. split; [right; left|]. split; [reflexivity|]. split; [reflexivity|]. split; [exact Hs|]. apply holds_of_bytes. exact Ht.
Qed.

Definition demo_mp (m : memory) : mpstate := mkmp m 0 (replicate NCPU 0) 0 0 0.

Lemma mpinit_reads_table_witness :
  ∃ s', mpinit 5 (demo_mp (demo_memory (concat (map enc_entry demo_entries)))) = Ret () s' ∧
    s'.(ncpu) = 2%nat ∧ s'.(ioapicid) = 2 ∧ s'.(lapic) = 4276092928.
Proof.
  destruct (mpinit_reads_table (demo_mp (demo_memory (concat (map enc_entry demo_entries)))) (KERNBASE + 65536) 4276092928 demo_entries 5)
    as (s' & E & H1 & _ & H2 & H3).
  - cbn [mp_mem demo_mp]. apply (demo_firmware (concat (map enc_entry demo_entries))); vm_compute; reflexivity.
  - repeat constructor.
  - reflexivity.
  - apply length_replicate.
  - vm_compute; lia.
  - exists s'. split; [exact E|]. split; [rewrite H1; reflexivity|]. split; [rewrite H2; reflexivity|exact H3].
Defined.

Lemma mpinit_unknown_entry_witness :
  ∃ s', mpinit (4 + 100) (demo_mp (demo_memory (concat (map enc_entry demo_entries) ++ 9 :: replicate 7 0))) = Stuck s'.
Proof.
  apply (mpinit_unknown_entry _ (KERNBASE + 65536) 4276092928 demo_entries 9 (replicate 7 0) 100).
  - cbn [mp_mem demo_mp]. apply (demo_firmware (concat (map enc_entry demo_entries) ++ 9 :: replicate 7 0)); vm_compute; reflexivity.
  - repeat constructor.
  - intros H. repeat (apply elem_of_cons in H as [H|H]; [discriminate H|]). by apply elem_of_nil in H.
Defined.
