(* ===== verification/User.v ===== *)
(** * User programs and the system interface they see

    A user program is a computation of the same kind as a kernel function, over
    the state [ustate] of one process as the program observes it through its
    system calls.  [exit()] leaves the program ([Jump]); [Stuck] means that the
    fuel of a loop has run out.

    What [read] delivers on a descriptor is a list of portions in the order in
    which they become available, so that every division of an input into
    [read] results is covered: a call returns at most the number of bytes asked
    for, from one portion; [None] is a failing [read], and the end of the list
    is the end of the file.  [u_wr] says which of the next calls of [write]
    succeed ([write] of the kernel transfers all bytes or returns -1), [u_res]
    gives the results of the calls that only name files and processes, and
    [u_calls] records these calls. *)

From stdpp Require Import base numbers option list sets strings gmap.
From Stdlib Require Import ZArith Lia.
From S2P Require Import Prelude.

(** ** The process *)

Definition source : Type := list (option (list Z)).

Inductive call : Type :=
| C_mkdir (path : list Z)
| C_unlink (path : list Z)
| C_link (old new : list Z)
| C_kill (pid : Z)
| C_mknod (path : list Z) (major minor : Z)
| C_chdir (path : list Z)
| C_run (line : list Z).

Record ustate : Type := mkust {
  u_fds : gmap Z source;
  u_files : list Z → option source;
  u_wr : list bool;
  u_out : list (Z * list Z);
  u_res : list Z;
  u_calls : list call
}.
Definition set_u_fds (v : gmap Z source) (r : ustate) : ustate :=
  mkust v r.(u_files) r.(u_wr) r.(u_out) r.(u_res) r.(u_calls).
Definition set_u_wr (v : list bool) (r : ustate) : ustate :=
  mkust r.(u_fds) r.(u_files) v r.(u_out) r.(u_res) r.(u_calls).
Definition set_u_out (v : list (Z * list Z)) (r : ustate) : ustate :=
  mkust r.(u_fds) r.(u_files) r.(u_wr) v r.(u_res) r.(u_calls).
Definition set_u_res (v : list Z) (r : ustate) : ustate :=
  mkust r.(u_fds) r.(u_files) r.(u_wr) r.(u_out) v r.(u_calls).
Definition set_u_calls (v : list call) (r : ustate) : ustate :=
  mkust r.(u_fds) r.(u_files) r.(u_wr) r.(u_out) r.(u_res) v.

Definition U : Type → Type := prog ustate unit.

(** ** System calls *)

Definition exit {A} : U A := fun s => Jump () s.

(** One call of [read] for at most [n] bytes: the result and what is left. *)
Definition read_source (n : nat) (src : source) : option (list Z) * source :=
  match src with
  | [] => (Some [], [])
  | None :: r => (None, r)
  | Some c :: r =>
    if (length c <=? n)%nat then (Some c, r) else (Some (take n c), Some (drop n c) :: r)
  end.

(** [None] is the result -1. *)
Definition read (fd : Z) (n : nat) : U (option (list Z)) :=
  fun s =>
    match s.(u_fds) !! fd with
    | None => Ret None s
    | Some src =>
      let '(r, src') := read_source n src in
      Ret r (set_u_fds (<[fd := src']> s.(u_fds)) s)
    end.

(** The number of bytes written, or -1. *)
Definition write (fd : Z) (l : list Z) : U Z :=
  fun s =>
    match s.(u_wr) with
    | false :: r => Ret (-1) (set_u_wr r s)
    | true :: r => Ret (Z.of_nat (length l)) (set_u_out (s.(u_out) ++ [(fd, l)]) (set_u_wr r s))
    | [] => Ret (Z.of_nat (length l)) (set_u_out (s.(u_out) ++ [(fd, l)]) s)
    end.

(** The lowest descriptor that is not in use; a process has 16. *)
Definition free_desc (fds : gmap Z source) : option Z :=
  list_find (λ fd, fds !! fd = None) (seqZ 0 16) ≫= λ x, Some x.2.

Definition open (path : list Z) : U Z :=
  fun s =>
    match s.(u_files) path, free_desc s.(u_fds) with
    | Some src, Some fd => Ret fd (set_u_fds (<[fd := src]> s.(u_fds)) s)
    | _, _ => Ret (-1) s
    end.

Definition close (fd : Z) : U Z :=
  fun s =>
    match s.(u_fds) !! fd with
    | Some _ => Ret 0 (set_u_fds (delete fd s.(u_fds)) s)
    | None => Ret (-1) s
    end.

Definition usys (c : call) : U Z :=
  fun s =>
    let s := set_u_calls (s.(u_calls) ++ [c]) s in
    match s.(u_res) with
    | [] => Ret 0 s
    | r :: l => Ret r (set_u_res l s)
    end.

(** The bytes written to a descriptor so far. *)
Definition written (fd : Z) (s : ustate) : list Z :=
  concat (map snd (filter (λ w, w.1 = fd) s.(u_out))).

(** ** Facts about the calls *)

(** The bytes a source delivers up to its end or its first error. *)
Fixpoint contents (src : source) : list Z :=
  match src with
  | Some (x :: c) :: r => (x :: c) ++ contents r
  | _ => []
  end.

(** How the input ends: [true] with the end of the file, [false] with an
    error. *)
Fixpoint ends_well (src : source) : bool :=
  match src with
  | Some (x :: c) :: r => ends_well r
  | None :: _ => false
  | _ => true
  end.

(** An upper bound of the number of calls of [read] before the end. *)
Definition src_size (src : source) : nat :=
  sum_list_with (λ p, S (length (default [] p))) src.

Lemma read_source_length n src l src' : read_source n src = (Some l, src') →
  (length l <= n)%nat.
Proof.
  destruct src as [|[c|] r]; simpl; [by intros [= <- _]; simpl; lia| |done].
  destruct (Nat.leb_spec (length c) n); intros [= <- _]; [lia|].
  rewrite length_take. lia.
Qed.

(** A nonempty result is the next part of the contents. *)
Lemma read_source_some n src x l src' : read_source n src = (Some (x :: l), src') →
  contents src = (x :: l) ++ contents src' ∧ ends_well src' = ends_well src ∧
  (src_size src' < src_size src)%nat.
Proof.
  destruct src as [|[c|] r]; simpl; [done| |done].
  destruct (Nat.leb_spec (length c) n) as [Hl|Hl]; intros [= E <-].
  - subst c. split_and!; [done..|]. unfold src_size. simpl. lia.
  - destruct c as [|y c]; [simpl in Hl; lia|]. destruct n as [|n]; [done|].
    simpl in E. injection E as -> <-. simpl in Hl. unfold src_size. simpl.
    destruct (drop n c) as [|z d] eqn:Ed.
    { pose proof (length_drop c n) as Hd. rewrite Ed in Hd. simpl in Hd. lia. }
    pose proof (length_drop c n) as Hd. rewrite Ed in Hd. simpl in Hd.
    split_and!; [|done|simpl; lia]. rewrite <- (take_drop n c) at 1. rewrite Ed.
    by rewrite <- app_assoc.
Qed.

(** An empty result for a nonzero count is the end of the file. *)
Lemma read_source_end n src src' : (0 < n)%nat → read_source n src = (Some [], src') →
  contents src = [] ∧ ends_well src = true.
Proof.
  intros Hn. destruct src as [|[c|] r]; simpl; [done| |done].
  destruct (Nat.leb_spec (length c) n) as [Hl|Hl]; intros [= E _].
  - by subst c.
  - destruct n as [|n]; [lia|]. by destruct c.
Qed.

Lemma read_source_err n src src' : read_source n src = (None, src') →
  contents src = [] ∧ ends_well src = false.
Proof.
  destruct src as [|[c|] r]; simpl; [done| |done]. by destruct (length c <=? n)%nat.
Qed.

(** What is left after the program has read everything. *)
Fixpoint src_rest (src : source) : source :=
  match src with
  | Some (x :: c) :: r => src_rest r
  | _ :: r => r
  | [] => []
  end.

Lemma read_source_rest n src x l src' : read_source n src = (Some (x :: l), src') →
  src_rest src' = src_rest src.
Proof.
  destruct src as [|[c|] r]; simpl; [done| |done].
  destruct (Nat.leb_spec (length c) n) as [Hl|Hl]; intros [= E <-]; [by subst c|].
  destruct c as [|y c]; [simpl in Hl; lia|]. destruct n as [|n]; [done|].
  simpl in E, Hl |- *. destruct (drop n c) as [|z d] eqn:Ed; [|done].
  pose proof (length_drop c n) as Hd. rewrite Ed in Hd. simpl in Hd. lia.
Qed.

Lemma read_source_last n src : (0 < n)%nat → contents src = [] →
  read_source n src = (if ends_well src then Some [] else None, src_rest src).
Proof.
  intros Hn. destruct src as [|[[|x c]|] r]; simpl; done.
Qed.

Lemma read_open fd n s src : s.(u_fds) !! fd = Some src →
  read fd n s = Ret (read_source n src).1 (set_u_fds (<[fd := (read_source n src).2]> s.(u_fds)) s).
Proof. intros H. unfold read. rewrite H. by destruct (read_source n src). Qed.

Lemma write_ok fd l s : s.(u_wr) = [] →
  write fd l s = Ret (Z.of_nat (length l)) (set_u_out (s.(u_out) ++ [(fd, l)]) s).
Proof. intros H. unfold write. by rewrite H. Qed.

Lemma written_out fd s l : written fd (set_u_out (s.(u_out) ++ l) s)
  = written fd s ++ concat (map snd (filter (λ w, w.1 = fd) l)).
Proof. unfold written. simpl. by rewrite filter_app, map_app, concat_app. Qed.
