(* ===== verification/Ulib.v ===== *)
(** * The user library: [ulib.c]

    Functions that only read a string take the bytes from the pointer on, up to
    the end of the array; they stop at the first 0 or at the end, where the
    terminating 0 is.  Functions that write work on the byte memory. *)

From stdpp Require Import base numbers option list sets strings gmap.
From Stdlib Require Import ZArith Lia.
From S2P Require Import Prelude Kstring User.

(** ** Strings *)

Fixpoint strcmp (p q : list Z) : Z :=
  match p, q with
  | x :: p', y :: q' =>
    if negb (x =? 0) && (x =? y) then strcmp p' q' else x - y
  | x :: _, [] => x
  | [], y :: _ => - y
  | [], [] => 0
  end.

Fixpoint strlen (s : list Z) : Z :=
  match s with
  | [] => 0
  | x :: s => if x =? 0 then 0 else 1 + strlen s
  end.

(** The offset of the first [c] in the string; [None] is the null pointer.  A
    search for 0 finds nothing. *)
Fixpoint strchr (s : list Z) (c : Z) : option nat :=
  match s with
  | [] => None
  | x :: s => if x =? 0 then None else if x =? c then Some 0%nat else S <$> strchr s c
  end.

Definition in_string (s : list Z) (c : Z) : bool :=
  match strchr s c with Some _ => true | None => false end.

(** [n = n*10 + *s++ - '0'] on ints. *)
Fixpoint atoi_loop (n : Z) (s : list Z) : Z :=
  match s with
  | [] => n
  | c :: s => if (48 <=? c) && (c <=? 57) then atoi_loop (s32 (n * 10 + c - 48)) s else n
  end.

Definition atoi (s : list Z) : Z := atoi_loop 0 s.

(** [strcpy] copies up to and including the terminating 0. *)
Fixpoint strcpy (fuel : nat) (m : memory) (s t : Z) : option memory :=
  match fuel with
  | O => None
  | S fuel =>
    let c := load8 m t in
    let m := store8 m s c in
    if c =? 0 then Some m else strcpy fuel m (u32 (s + 1)) (u32 (t + 1))
  end.

Definition memset (m : memory) (dst c n : Z) : memory := stosb m dst c (Z.to_nat n).

(** The user library's [memmove] always copies upwards. *)
Definition memmove (m : memory) (dst src n : Z) : memory := copy_fwd m dst src (Z.to_nat n).

(** ** Input *)

(** [gets]: at most [max - 1] characters, up to and including the end of the
    line; the string left in [buf]. *)
Fixpoint gets_loop (fuel : nat) (acc : list Z) : U (list Z) :=
  match fuel with
  | O => ret acc
  | S fuel =>
    r <- read 0 1;;
    match r with
    | Some (c :: _) =>
      let acc := acc ++ [c] in
      if (c =? 10) || (c =? 13) then ret acc else gets_loop fuel acc
    | _ => ret acc
    end
  end.

(** The loop condition [i+1 < max] allows [max - 1] iterations. *)
Definition gets (max : Z) : U (list Z) := gets_loop (Z.to_nat (max - 1)) [].

(** ** Facts *)

Lemma elem_of_split_first {A} `{EqDecision A} (x : A) l : x ∈ l →
  ∃ l1 l2, l = l1 ++ x :: l2 ∧ x ∉ l1.
Proof.
  induction l as [|y l IH]; [by intros ?%not_elem_of_nil|]. intros H.
  destruct (decide (x = y)) as [->|Hne]; [exists [], l; set_solver|].
  apply elem_of_cons in H as [|H]; [done|]. destruct (IH H) as (l1 & l2 & -> & Hn).
  exists (y :: l1), l2. set_solver.
Qed.

Lemma strchr_Some s c n : strchr s c = Some n →
  ∃ l r, s = l ++ c :: r ∧ length l = n ∧ c ≠ 0 ∧ Forall (λ x, x ≠ 0 ∧ x ≠ c) l.
Proof.
  revert n. induction s as [|x s IH]; intros n; simpl; [done|].
  destruct (Z.eqb_spec x 0) as [|Hx]; [done|].
  destruct (Z.eqb_spec x c) as [->|Hc]; [intros [= <-]; by exists [], s|].
  destruct (strchr s c) as [k|]; [|done]. intros [= <-].
  destruct (IH k eq_refl) as (l & r & -> & Hl & H0 & HF).
  exists (x :: l), r. simpl. split_and!; [done|lia|done|by constructor].
Qed.

Lemma strchr_app l c r : c ≠ 0 → Forall (λ x, x ≠ 0 ∧ x ≠ c) l →
  strchr (l ++ c :: r) c = Some (length l).
Proof.
  intros H0. induction 1 as [|x l [Hx Hc] _ IH]; simpl.
  - destruct (Z.eqb_spec c 0); [done|]. by rewrite Z.eqb_refl.
  - destruct (Z.eqb_spec x 0); [done|]. destruct (Z.eqb_spec x c); [done|]. by rewrite IH.
Qed.

Lemma strchr_absent l c : Forall (λ x, x ≠ 0 ∧ x ≠ c) l → strchr l c = None.
Proof.
  induction 1 as [|x l [Hx Hc] _ IH]; simpl; [done|].
  destruct (Z.eqb_spec x 0); [done|]. destruct (Z.eqb_spec x c); [done|]. by rewrite IH.
Qed.

Lemma in_string_spec s c : 0 ∉ s → in_string s c = bool_decide (c ∈ s).
Proof.
  intros H0. unfold in_string. induction s as [|x s IH]; simpl; [done|].
  apply not_elem_of_cons in H0 as [Hx H0]. destruct (Z.eqb_spec x 0); [done|].
  destruct (Z.eqb_spec x c) as [->|Hc].
  - by rewrite bool_decide_true by by left.
  - rewrite (bool_decide_ext _ (c ∈ s)).
    + rewrite <- IH by done. by destruct (strchr s c).
    + rewrite elem_of_cons. naive_solver.
Qed.

Lemma strlen_length s : 0 ∉ s → strlen s = Z.of_nat (length s).
Proof.
  induction s as [|x s IH]; simpl; [done|]. intros [Hx H0]%not_elem_of_cons.
  destruct (Z.eqb_spec x 0); [done|]. rewrite IH by done. lia.
Qed.

(** [strcmp] gives 0 exactly on equal strings. *)
Lemma strcmp_zero p q : 0 ∉ p → 0 ∉ q → strcmp p q = 0 ↔ p = q.
Proof.
  revert q. induction p as [|x p IH]; intros [|y q]; simpl; intros Hp Hq; try done.
  - apply not_elem_of_cons in Hq as [Hy _]. split; [lia|done].
  - apply not_elem_of_cons in Hp as [Hx _]. split; [lia|done].
  - apply not_elem_of_cons in Hp as [Hx Hp]. apply not_elem_of_cons in Hq as [Hy Hq].
    destruct (Z.eqb_spec x 0); [done|]. destruct (Z.eqb_spec x y) as [->|Hne]; simpl.
    + rewrite IH by done. split; [by intros ->|by intros [=]].
    + split; [lia|by intros [=]].
Qed.

(** Moving downwards, or between regions that do not overlap, is correct. *)
Lemma memmove_down m dst src n x : byte_mem m → 0 <= dst → 0 <= src → 0 <= n →
  dst + n < two32 → src + n < two32 → dst <= src ∨ src + n <= dst →
  memmove m dst src n x = moved m dst src n x.
Proof.
  intros. unfold memmove. rewrite copy_fwd_spec; rewrite ?Z2Nat.id by done; done.
Qed.

(** [strcpy] into a region apart from the string leaves a copy of it. *)
Lemma strcpy_copies l : ∀ fuel m s t, (length l < fuel)%nat → byte_mem m → 0 <= s → 0 <= t →
  s + Z.of_nat (length l) + 1 < two32 → t + Z.of_nat (length l) + 1 < two32 →
  apart t (Z.of_nat (length l) + 1) s (Z.of_nat (length l) + 1) → cstr m t l →
  ∃ m', strcpy fuel m s t = Some m' ∧ cstr m' s l ∧
    (∀ x, x < s ∨ s + Z.of_nat (length l) < x → m' x = m x).
Proof.
  induction l as [|c l IH]; intros [|fuel] m s t Hf Hb Hs Ht Hsn Htn Hap Hc; simpl in Hf; try lia.
  - simpl in Hc |- *. rewrite Hc. simpl. eexists. split; [done|]. split.
    + unfold load8. rewrite u32_id by (unfold word; lia). by apply store8_same; [unfold word; lia|].
    + intros x Hx. apply store8_ne; [unfold word; lia|]. simpl in Hx. lia.
  - destruct Hc as (Hc & Hc0 & Hl). cbn [strcpy length] in *. rewrite Hc.
    destruct (Z.eqb_spec c 0); [done|].
    rewrite (u32_id (s + 1)), (u32_id (t + 1)) in * by (unfold word; lia).
    pose proof (load8_range m t Hb) as Hr. rewrite Hc in Hr.
    destruct (IH fuel (store8 m s c) (s + 1) (t + 1)) as (m' & E & Hs' & Hm'); try lia.
    { by apply store8_byte_mem. }
    { unfold apart in *. lia. }
    { apply (cstr_frame m); [lia|lia| |done]. intros x Hx. apply store8_ne; [unfold word; lia|].
      unfold apart in Hap. lia. }
    exists m'. split; [done|]. split; [split_and!|].
    + unfold load8. rewrite u32_id by (unfold word; lia). rewrite Hm' by lia.
      by apply store8_same; [unfold word; lia|].
    + done.
    + by rewrite u32_id by (unfold word; lia).
    + intros x Hx. rewrite Hm' by lia. apply store8_ne; [unfold word; lia|lia].
Qed.

(** [gets] reads a line that fits, however it is divided into portions, and
    leaves the rest of the input. *)
Lemma gets_loop_line l r : ∀ fuel acc src s, 10 ∉ l → 13 ∉ l → (length l < fuel)%nat →
  contents src = l ++ 10 :: r → s.(u_fds) !! 0 = Some src →
  ∃ src', gets_loop fuel acc s = Ret (acc ++ l ++ [10]) (set_u_fds (<[0 := src']> s.(u_fds)) s) ∧
    contents src' = r ∧ ends_well src' = ends_well src.
Proof.
  induction l as [|c l IH]; intros fuel acc src s H10 H13 Hf Hc Hs; (destruct fuel as [|fuel]; [simpl in Hf; lia|]);
    cbn [gets_loop]; unfold bind; rewrite (read_open _ _ _ _ Hs);
    destruct (read_source 1 src) as [[[|x m]|] src'] eqn:Hr; cbn [cbind fst snd].
  1,4: apply read_source_end in Hr as [E _]; [|lia]; rewrite E in Hc; done.
  2,4: apply read_source_err in Hr as [E _]; rewrite E in Hc; done.
  all: pose proof (read_source_length _ _ _ _ Hr) as Hl; destruct m; [|simpl in Hl; lia];
    destruct (read_source_some _ _ _ _ _ Hr) as (Ec & He & _); rewrite Ec in Hc; simpl in Hc; injection Hc as -> Hc.
  - cbn. by exists src'.
  - apply not_elem_of_cons in H10 as [? H10]. apply not_elem_of_cons in H13 as [? H13].
    destruct (Z.eqb_spec c 10); [done|]. destruct (Z.eqb_spec c 13); [done|]. cbn [orb].
    destruct (IH fuel (acc ++ [c]) src' (set_u_fds (<[0 := src']> s.(u_fds)) s)) as (src2 & E & H1 & H2);
      [done|done|simpl in Hf; lia|done|by apply lookup_insert_eq|].
    exists src2. rewrite E. simpl. rewrite insert_insert_eq, <- app_assoc. split_and!; [done..|congruence].
Qed.
