(* ===== verification/Printf.v ===== *)
(** * Formatted output of user programs: [printf.c] *)

From stdpp Require Import base numbers option list sets strings gmap.
From Stdlib Require Import ZArith Lia.
From S2P Require Import Prelude Console User Ulib.

Definition putc (fd c : Z) : U unit := write fd [c];; ret ().

Definition digits : list Z := chars "0123456789ABCDEF".

(** The digits of [x], the least first, as the do-while loop leaves them in
    [buf]; 32 iterations suffice for any base. *)
Fixpoint printint_loop (fuel : nat) (x base : Z) : list Z :=
  match fuel with
  | O => []
  | S fuel =>
    digits !!! Z.to_nat (x mod base)
    :: (if x / base =? 0 then [] else printint_loop fuel (x / base) base)
  end.

(** [while(--i >= 0) putc(fd, buf[i]);] *)
Fixpoint put_all (fd : Z) (l : list Z) : U unit :=
  match l with
  | [] => ret ()
  | c :: l => putc fd c;; put_all fd l
  end.

Definition printint (fd xx base : Z) (sgn : bool) : U unit :=
  let neg := sgn && (xx <? 0) in
  let x := if neg then u32 (- xx) else u32 xx in
  let buf := printint_loop 32 x base ++ (if neg then [45] else []) in
  put_all fd (rev buf).

(** The loop over the format; [state] is set after a [%]. *)
Fixpoint printf_loop (fd : Z) (state : bool) (fmt : list Z) (ap : list carg) : U unit :=
  match fmt with
  | [] => ret ()
  | c :: fmt =>
    if state then
      if c =? 100 then
        printint fd (s32 (arg_int (hd (AInt 0) ap))) 10 true;; printf_loop fd false fmt (tl ap)
      else if (c =? 120) || (c =? 112) then
        printint fd (s32 (arg_int (hd (AInt 0) ap))) 16 false;; printf_loop fd false fmt (tl ap)
      else if c =? 115 then
        put_all fd (arg_str (hd (AInt 0) ap));; printf_loop fd false fmt (tl ap)
      else if c =? 99 then
        putc fd (arg_int (hd (AInt 0) ap) mod 256);; printf_loop fd false fmt (tl ap)
      else if c =? 37 then
        putc fd c;; printf_loop fd false fmt ap
      else
        putc fd 37;; putc fd c;; printf_loop fd false fmt ap
    else if c =? 37 then printf_loop fd true fmt ap
    else putc fd c;; printf_loop fd false fmt ap
  end.

Definition printf (fd : Z) (fmt : string) (ap : list carg) : U unit :=
  printf_loop fd false (chars fmt) ap.

(** ** What is printed *)

(** Reference: the text of a format with its arguments. *)
Definition int_text (xx base : Z) (sgn : bool) : list Z :=
  let neg := sgn && (xx <? 0) in
  rev (printint_loop 32 (if neg then u32 (- xx) else u32 xx) base ++ (if neg then [45] else [])).

Fixpoint text (fmt : list Z) (ap : list carg) : list Z :=
  match fmt with
  | [] => []
  | c :: fmt =>
    if c =? 37 then
      match fmt with
      | [] => []
      | d :: fmt =>
        let a := hd (AInt 0) ap in
        if d =? 100 then int_text (s32 (arg_int a)) 10 true ++ text fmt (tl ap)
        else if (d =? 120) || (d =? 112) then int_text (s32 (arg_int a)) 16 false ++ text fmt (tl ap)
        else if d =? 115 then arg_str a ++ text fmt (tl ap)
        else if d =? 99 then arg_int a mod 256 :: text fmt (tl ap)
        else if d =? 37 then d :: text fmt ap
        else 37 :: d :: text fmt ap
      end
    else c :: text fmt ap
  end.

(** A state in which some text has been written character by character. *)
Definition put (fd : Z) (l : list Z) (s : ustate) : ustate :=
  set_u_out (s.(u_out) ++ map (λ c, (fd, [c])) l) s.

Lemma put_nil fd s : put fd [] s = s.
Proof. unfold put. simpl. rewrite app_nil_r. by destruct s. Qed.

Lemma put_app fd l1 l2 s : put fd l2 (put fd l1 s) = put fd (l1 ++ l2) s.
Proof. unfold put. simpl. by rewrite map_app, app_assoc. Qed.

Lemma written_put fd l s : written fd (put fd l s) = written fd s ++ l.
Proof.
  unfold put. rewrite written_out. f_equal. induction l as [|c l IH]; simpl; [done|].
  rewrite filter_cons_True by done. simpl. by rewrite IH.
Qed.

Lemma written_put_ne fd fd' l s : fd ≠ fd' → written fd (put fd' l s) = written fd s.
Proof.
  intros Hne. unfold put. rewrite written_out. rewrite <- (app_nil_r (written fd s)) at 2. f_equal.
  induction l as [|c l IH]; simpl; [done|]. by rewrite filter_cons_False by done.
Qed.

Lemma bind_putc {B} fd c (k : unit → U B) s : s.(u_wr) = [] → bind (putc fd c) k s = k () (put fd [c] s).
Proof. intros H. unfold putc, bind. by rewrite write_ok. Qed.

Lemma put_all_run fd l s : s.(u_wr) = [] → put_all fd l s = Ret () (put fd l s).
Proof.
  revert s. induction l as [|c l IH]; intros s H; simpl; [by rewrite put_nil|].
  rewrite bind_putc by done. rewrite IH by done. by rewrite put_app.
Qed.

Lemma bind_put_all {B} fd l (k : unit → U B) s : s.(u_wr) = [] →
  bind (put_all fd l) k s = k () (put fd l s).
Proof. intros H. by rewrite (bind_returns _ _ _ _ _ (put_all_run fd l s H)). Qed.

Lemma bind_printint {B} fd xx base sgn (k : unit → U B) s : s.(u_wr) = [] →
  bind (printint fd xx base sgn) k s = k () (put fd (int_text xx base sgn) s).
Proof. apply bind_put_all. Qed.

Lemma printf_loop_run fd n : ∀ fmt ap s, (length fmt <= n)%nat → s.(u_wr) = [] →
  printf_loop fd false fmt ap s = Ret () (put fd (text fmt ap) s).
Proof.
  induction n as [|n IH]; intros [|c fmt] ap s Hn H; simpl in Hn; try lia;
    [by rewrite put_nil..|].
  cbn [printf_loop text]. destruct (Z.eqb_spec c 37) as [->|].
  2:{ rewrite bind_putc by done. rewrite IH by (exact H || lia). by rewrite put_app. }
  destruct fmt as [|d fmt]; [by rewrite put_nil|]. simpl in Hn. cbn [printf_loop]. cbv zeta.
  repeat (match goal with |- context [if ?b then _ else _] => destruct b end);
    rewrite ?bind_printint, ?bind_put_all by exact H;
    repeat rewrite bind_putc by exact H;
    rewrite IH by (exact H || lia); rewrite ?put_app; reflexivity.
Qed.

Lemma printf_run fd fmt ap s : s.(u_wr) = [] →
  printf fd fmt ap s = Ret () (put fd (text (chars fmt) ap) s).
Proof. by apply (printf_loop_run fd (length (chars fmt))). Qed.

(** ** Reading numbers back *)

Definition is_digit (c : Z) : Prop := 48 <= c <= 57.

Lemma atoi_loop_snoc l : ∀ n c, Forall is_digit l → is_digit c →
  atoi_loop n (l ++ [c]) = s32 (atoi_loop n l * 10 + c - 48).
Proof.
  induction l as [|d l IH]; intros n c Hl Hc; simpl.
  - unfold is_digit in Hc. destruct (Z.leb_spec 48 c), (Z.leb_spec c 57); simpl; done || lia.
  - apply Forall_cons in Hl as [Hd Hl]. unfold is_digit in Hd.
    destruct (Z.leb_spec 48 d), (Z.leb_spec d 57); simpl; try lia. by apply IH.
Qed.

Lemma digit_code d : 0 <= d < 10 → digits !!! Z.to_nat d = 48 + d.
Proof.
  intros H. assert (d ∈ seqZ 0 10) as Hd by (apply elem_of_seqZ; lia).
  assert (Forall (λ d, digits !!! Z.to_nat d = 48 + d) (seqZ 0 10)) as HF by by repeat constructor.
  by apply (proj1 (list.Forall_forall _ _) HF).
Qed.

Lemma printint_loop_digits fuel : ∀ x, 0 <= x → Forall is_digit (printint_loop fuel x 10).
Proof.
  induction fuel as [|fuel IH]; intros x Hx; simpl; [done|].
  pose proof (Z.mod_pos_bound x 10 ltac:(lia)) as Hm. constructor.
  - rewrite digit_code by lia. unfold is_digit. lia.
  - destruct (x / 10 =? 0); [done|]. apply IH, Z.div_pos; lia.
Qed.

Lemma s32_mod x : ∃ k, s32 x = x + k * two32.
Proof.
  pose proof (Z.div_mod x two32 ltac:(done)) as Hd. unfold s32, u32.
  destruct (x mod two32 <? two31); [exists (- (x / two32))|exists (- (x / two32) - 1)]; lia.
Qed.

Lemma s32_eq x k : s32 (x + k * two32) = s32 x.
Proof. unfold s32, u32. by rewrite Z.mod_add. Qed.

Lemma s32_mul_add a b c : s32 (s32 a * b + c) = s32 (a * b + c).
Proof.
  destruct (s32_mod a) as [k ->].
  replace ((a + k * two32) * b + c) with (a * b + c + (k * b) * two32) by lia. apply s32_eq.
Qed.

Lemma atoi_digits fuel : ∀ x, 0 <= x < 2 ^ Z.of_nat fuel →
  atoi (rev (printint_loop fuel x 10)) = s32 x.
Proof.
  unfold atoi. induction fuel as [|fuel IH]; intros x Hx.
  { change (2 ^ Z.of_nat 0) with 1 in Hx. simpl. by replace x with 0 by lia. }
  rewrite Nat2Z.inj_succ, Z.pow_succ_r in Hx by lia. cbn [printint_loop rev].
  pose proof (Z.mod_pos_bound x 10 ltac:(lia)) as Hm. pose proof (Z.div_mod x 10 ltac:(lia)) as Hd.
  rewrite atoi_loop_snoc.
  - rewrite digit_code by lia. destruct (Z.eqb_spec (x / 10) 0) as [E|E]; simpl rev.
    + simpl atoi_loop. f_equal. lia.
    + rewrite IH; [|split; [apply Z.div_pos; lia|apply Z.div_lt_upper_bound; lia]].
      rewrite <- Z.add_sub_assoc, s32_mul_add. f_equal. lia.
  - apply Forall_rev. destruct (x / 10 =? 0); [done|]. apply printint_loop_digits, Z.div_pos; lia.
  - rewrite digit_code by lia. unfold is_digit. lia.
Qed.

(** What [printf] prints for [%d] is read back by [atoi].  The
    text is written to the given descriptor and to no other; for a number that
    is not negative [atoi] gives the number, for a negative one the text is a
    minus sign, before which [atoi] stops, and digits that give the number
    negated, for every [int]. *)
Theorem printf_atoi fd n s : - two31 <= n < two31 → s.(u_wr) = [] →
  ∃ t s', printf fd "%d" [AInt n] s = Ret () s' ∧ written fd s' = written fd s ++ t ∧
    (∀ fd', fd' ≠ fd → written fd' s' = written fd' s) ∧
    (0 <= n → atoi t = n) ∧
    (n < 0 → atoi t = 0 ∧ ∃ u, t = 45 :: u ∧ s32 (- atoi u) = n).
Proof.
  intros Hn H. exists (int_text n 10 true), (put fd (int_text n 10 true) s).
  rewrite printf_run by done. change (text (chars "%d") [AInt n]) with (int_text (s32 n) 10 true ++ []).
  rewrite app_nil_r, s32_id by done. split_and!; [done|by rewrite written_put| | |].
  { intros fd' Hne. by apply written_put_ne. }
  all: intros Hs; unfold int_text; destruct (Z.ltb_spec n 0); try lia; rewrite andb_true_l;
    unfold two31 in *; pose proof (atoi_digits 32) as Ha;
    change (2 ^ Z.of_nat 32) with 4294967296 in Ha.
  - rewrite app_nil_r, u32_id by (unfold word, two32; lia). rewrite Ha by lia.
    apply s32_id. unfold two31. lia.
  - rewrite rev_app_distr.
    change (rev [45] ++ rev (printint_loop 32 (u32 (- n)) 10))
      with (45 :: rev (printint_loop 32 (u32 (- n)) 10)). rewrite u32_id by (unfold word, two32; lia). split; [done|].
    exists (rev (printint_loop 32 (- n) 10)). split; [done|]. rewrite Ha by lia.
    destruct (s32_mod (- n)) as [k ->]. replace (- (- n + k * two32)) with (n + (- k) * two32) by lia.
    rewrite s32_eq. apply s32_id. unfold two31. lia.
Qed.

Definition no_input : ustate := mkust ∅ (λ _, None) [] [] [] [].

Lemma printf_atoi_witness : ∃ t s', printf 1 "%d" [AInt 2147483647] no_input = Ret () s' ∧
  written 1 s' = written 1 no_input ++ t ∧ atoi t = 2147483647.
Proof.
  destruct (printf_atoi 1 2147483647 no_input) as (t & s' & E & Hw & _ & Hp & _);
    [unfold two31; lia|done|].
  exists t, s'. split_and!; [done..|]. apply Hp. lia.
Defined.
