(* ===== verification/Grep.v ===== *)
(** * The pattern matcher and the filter of [grep.c]

    Patterns and texts are C strings, lists of characters without the
    terminating 0.  The matcher is compared with the language of patterns; the
    loop over the input is compared with the lines of the input. *)

From stdpp Require Import base numbers option list sets strings gmap.
From Stdlib Require Import ZArith Lia.
From S2P Require Import Prelude Console User Ulib Printf.

(** ** The matcher *)

(** [matchstar(c, re, text)], where [here] is [matchhere(re, _)]. *)
Fixpoint matchstar (here : list Z → bool) (c : Z) (text : list Z) : bool :=
  if here text then true else
  match text with
  | [] => false
  | t :: text => if (t =? c) || (c =? 46) then matchstar here c text else false
  end.

Fixpoint matchhere (re text : list Z) : bool :=
  match re with
  | [] => true
  | c :: re1 =>
    match re1 with
    | d :: re2 =>
      if d =? 42 then matchstar (matchhere re2) c text
      else
        match text with
        | [] => false
        | t :: text => if (c =? 46) || (c =? t) then matchhere re1 text else false
        end
    | [] =>
      if c =? 36 then match text with [] => true | _ :: _ => false end
      else
        match text with
        | [] => false
        | t :: text => if (c =? 46) || (c =? t) then matchhere re1 text else false
        end
    end
  end.

(** The loop of [match] over the suffixes of the text. *)
Fixpoint match_loop (re text : list Z) : bool :=
  if matchhere re text then true else
  match text with
  | [] => false
  | _ :: text => match_loop re text
  end.

Definition match_ (re text : list Z) : bool :=
  match re with
  | c :: re1 => if c =? 94 then matchhere re1 text else match_loop re text
  | [] => match_loop re text
  end.

(** ** The filter *)

(** The inner loop of [grep] over the lines from [p] on; what is left after
    the last newline. *)
Fixpoint grep_lines (fuel : nat) (pattern p : list Z) : U (list Z) :=
  match strchr p 10, fuel with
  | Some q, S fuel =>
    when (match_ pattern (take q p)) (write 1 (take (S q) p);; ret ());;
    grep_lines fuel pattern (drop (S q) p)
  | _, _ => ret p
  end.

(** [sizeof(buf)] *)
Definition BUFSIZE : nat := 1024.

(** The outer loop; [buf] are the [m] bytes kept from the previous round.
    [p == buf] holds exactly if there was no newline. *)
Fixpoint grep (fuel : nat) (pattern : list Z) (fd : Z) (buf : list Z) : U unit :=
  match fuel with
  | O => fun s => Stuck s
  | S fuel =>
    r <- read fd (BUFSIZE - length buf - 1);;
    match r with
    | Some (x :: l) =>
      let buf := buf ++ (x :: l) in
      p <- grep_lines (length buf) pattern buf;;
      if (length p =? length buf)%nat then grep fuel pattern fd []
      else grep fuel pattern fd p
    | _ => ret ()
    end
  end.

Fixpoint grep_files (fuel : nat) (pattern : list Z) (files : list (list Z)) : U unit :=
  match files with
  | [] => exit
  | f :: files =>
    fd <- open f;;
    if fd <? 0 then printf 1 ("grep: cannot open %s" +:+ nl) [AStr (Some f)];; exit
    else grep fuel pattern fd [];; close fd;; grep_files fuel pattern files
  end.

Definition main (fuel : nat) (argv : list (list Z)) : U unit :=
  match argv with
  | _ :: pattern :: files =>
    match files with
    | [] => grep fuel pattern 0 [];; exit
    | _ => grep_files fuel pattern files
    end
  | _ => printf 2 ("usage: grep pattern [file ...]" +:+ nl) [];; exit
  end.

(** ** The language of a pattern *)

(** One element of a pattern: a character, with [true] if a star follows. *)
Definition element : Type := Z * bool.

Definition accepts (c x : Z) : Prop := c = 46 ∨ c = x.

(** The words an element sequence describes. *)
Inductive lang : list element → list Z → Prop :=
| lang_nil : lang [] []
| lang_one c x es w : accepts c x → lang es w → lang ((c, false) :: es) (x :: w)
| lang_stop c es w : lang es w → lang ((c, true) :: es) w
| lang_more c x es w : accepts c x → lang ((c, true) :: es) w → lang ((c, true) :: es) (x :: w).

(** The elements of a pattern and whether it ends in [$]. *)
Fixpoint elements_of (re : list Z) : list element * bool :=
  match re with
  | [] => ([], false)
  | c :: re1 =>
    match re1 with
    | d :: re2 =>
      if d =? 42 then let '(es, e) := elements_of re2 in ((c, true) :: es, e)
      else let '(es, e) := elements_of re1 in ((c, false) :: es, e)
    | [] => if c =? 36 then ([], true) else ([(c, false)], false)
    end
  end.

(** A word of the pattern at the beginning of the text, up to its end if the
    pattern ends in [$]. *)
Definition matches_here (re text : list Z) : Prop :=
  ∃ w r, text = w ++ r ∧ lang (elements_of re).1 w ∧ ((elements_of re).2 = true → r = []).

(** A word of the pattern anywhere in the text; at its beginning if the pattern
    starts with [^]. *)
Definition matches (re text : list Z) : Prop :=
  match re with
  | 94 :: re1 => matches_here re1 text
  | _ => ∃ l t, text = l ++ t ∧ matches_here re t
  end.

Lemma matches_here_one c re1 text es e : elements_of (c :: re1) = ((c, false) :: es, e) →
  elements_of re1 = (es, e) →
  matches_here (c :: re1) text ↔ ∃ t r, text = t :: r ∧ accepts c t ∧ matches_here re1 r.
Proof.
  intros E E1. unfold matches_here. rewrite E, E1. simpl. split.
  - intros (w & r & -> & Hl & He). inversion Hl as [|c' x es' w' Hx Hw| |]; subst.
    exists x, (w' ++ r). split_and!; [done..|]. by exists w', r.
  - intros (t & r & -> & Ht & w & r' & -> & Hl & He). exists (t :: w), r'.
    split_and!; [done|by constructor|done].
Qed.

Lemma matchstar_spec (here : list Z → bool) re2 c d re es e text :
  elements_of (c :: d :: re) = ((c, true) :: es, e) → elements_of re2 = (es, e) →
  (∀ t, here t = true ↔ matches_here re2 t) →
  matchstar here c text = true ↔ matches_here (c :: d :: re) text.
Proof.
  intros E E2 Hh. unfold matches_here. rewrite E. simpl.
  assert (∀ t, matches_here re2 t ↔ ∃ w r, t = w ++ r ∧ lang es w ∧ (e = true → r = [])) as Hm.
  { intros t. unfold matches_here. by rewrite E2. }
  induction text as [|t text IH]; simpl.
  - destruct (here []) eqn:H0.
    + apply Hh, Hm in H0 as (w & r & H0 & Hl & He). split; [|done]. intros _.
      exists w, r. split_and!; [done|by constructor|done].
    + split; [done|]. intros (w & r & Hw & Hl & He). exfalso.
      symmetry in Hw. apply app_eq_nil in Hw as [-> ->]. inversion Hl; subst.
      enough (here [] = true) by congruence. apply Hh, Hm. by exists [], [].
  - destruct (here (t :: text)) eqn:H0.
    + apply Hh, Hm in H0 as (w & r & H0 & Hl & He). split; [|done]. intros _.
      exists w, r. split_and!; [done|by constructor|done].
    + assert (accepts c t ↔ (t =? c) || (c =? 46) = true) as Ha.
      { unfold accepts. destruct (Z.eqb_spec t c), (Z.eqb_spec c 46); naive_solver. }
      destruct ((t =? c) || (c =? 46)).
      * rewrite IH. split.
        -- intros (w & r & -> & Hl & He). exists (t :: w), r.
           split_and!; [done|apply lang_more; [by apply Ha|done]|done].
        -- intros (w & r & Hw & Hl & He). inversion Hl as [| |c' es' w' Hl'|c' x es' w' Hx Hl']; subst.
           { exfalso. enough (here (t :: text) = true) by congruence. apply Hh, Hm. by exists w, r. }
           simplify_eq/=. by exists w', r.
      * split; [done|]. intros (w & r & Hw & Hl & He). exfalso.
        inversion Hl as [| |c' es' w' Hl'|c' x es' w' Hx Hl']; subst.
        { enough (here (t :: text) = true) by congruence. apply Hh, Hm. by exists w, r. }
        simplify_eq/=. by apply Ha in Hx.
Qed.

Lemma matches_here_step c re1 text es e (b : list Z → bool) :
  elements_of (c :: re1) = ((c, false) :: es, e) → elements_of re1 = (es, e) →
  (∀ t, b t = true ↔ matches_here re1 t) →
  match text with [] => false | t :: r => if (c =? 46) || (c =? t) then b r else false end = true
    ↔ matches_here (c :: re1) text.
Proof.
  intros E E1 Hb. rewrite (matches_here_one c re1 text es e E E1). destruct text as [|t r].
  { split; [done|by intros (? & ? & ? & _)]. }
  assert (accepts c t ↔ (c =? 46) || (c =? t) = true) as Ha.
  { unfold accepts. destruct (Z.eqb_spec c t), (Z.eqb_spec c 46); naive_solver. }
  destruct ((c =? 46) || (c =? t)).
  - rewrite Hb. split; [|by intros (? & ? & [= <- <-] & _ & ?)].
    intros H. exists t, r. naive_solver.
  - split; [done|]. intros (? & ? & [= <- <-] & Hx & _). by apply Ha in Hx.
Qed.

(** [matchhere] decides [matches_here]; induction on the length because a
    starred element takes two characters of the pattern. *)
Lemma matchhere_spec n : ∀ re text, (length re <= n)%nat →
  matchhere re text = true ↔ matches_here re text.
Proof.
  induction n as [|n IH]; intros [|c re1] text Hn; cbn [length] in Hn; try lia.
  1,2: split; [|done]; intros _; exists [], text; split_and!; [done|constructor|done].
  destruct re1 as [|d re2]; cbn [matchhere].
  - destruct (Z.eqb_spec c 36) as [->|Hc].
    + unfold matches_here. simpl. split.
      * destruct text; [|done]. intros _. exists [], []. split_and!; [done|constructor|done].
      * intros (w & r & -> & Hl & He). inversion Hl; subst. by rewrite He.
    + apply (matches_here_step c [] text [] false (matchhere [])).
      * simpl. by destruct (Z.eqb_spec c 36).
      * done.
      * intros t. apply IH. simpl. lia.
  - destruct (elements_of (d :: re2)) as [es e] eqn:Ed. destruct (elements_of re2) as [es2 e2] eqn:E2.
    destruct (Z.eqb_spec d 42) as [->|Hd].
    + apply (matchstar_spec _ re2 c 42 re2 es2 e2); [|done|].
      * cbn [elements_of]. by rewrite Z.eqb_refl, E2.
      * intros t. apply IH. simpl in Hn. lia.
    + apply (matches_here_step c (d :: re2) text es e (matchhere (d :: re2))); [|done|].
      * cbn [elements_of] in Ed |- *. destruct (Z.eqb_spec d 42); [done|]. by rewrite Ed.
      * intros t. apply IH. lia.
Qed.

Lemma match_loop_spec re text : match_loop re text = true ↔ ∃ l t, text = l ++ t ∧ matches_here re t.
Proof.
  induction text as [|x text IH]; cbn [match_loop].
  - pose proof (matchhere_spec (length re) re [] ltac:(done)) as H. destruct (matchhere re []).
    + split; [|done]. intros _. exists [], []. naive_solver.
    + split; [done|]. intros (l & t & E & Ht). symmetry in E. apply app_eq_nil in E as [-> ->].
      naive_solver.
  - pose proof (matchhere_spec (length re) re (x :: text) ltac:(done)) as H.
    destruct (matchhere re (x :: text)).
    + split; [|done]. intros _. exists [], (x :: text). naive_solver.
    + rewrite IH. split.
      * intros (l & t & -> & Ht). by exists (x :: l), t.
      * intros ([|y l] & t & E & Ht); simplify_eq/=; [naive_solver|]. by exists l, t.
Qed.

(** [match] of [grep.c] decides the language of patterns.  For
    every pattern and every text it returns 1 exactly if some part of the text
    is a word of the pattern, where [.] stands for any character, a star for
    any number of repetitions of the character before it, [^] at the beginning
    and [$] at the end fix the part to the beginning and the end of the
    text. *)
Theorem match_decides re text : match_ re text = true ↔ matches re text.
Proof.
  unfold match_, matches. destruct re as [|c re1]; [apply match_loop_spec|].
  destruct (Z.eqb_spec c 94) as [->|Hc].
  - by apply (matchhere_spec (length re1)).
  - rewrite match_loop_spec. destruct c as [|p|p]; try done.
    do 7 (destruct p as [p|p|]; try done).
Qed.

(** ** Lines *)

(** The complete lines of a text whose first line starts with [cur], and the
    unfinished last line. *)
Fixpoint lines (cur l : list Z) : list (list Z) * list Z :=
  match l with
  | [] => ([], cur)
  | x :: l =>
    if x =? 10 then let '(ls, r) := lines [] l in (cur :: ls, r)
    else lines (cur ++ [x]) l
  end.

(** What [grep] should print: the lines that match, each with its newline. *)
Definition matching (pattern : list Z) (ls : list (list Z)) : list (list Z) :=
  map (λ l, l ++ [10]) (filter (λ l, match_ pattern l = true) ls).

Lemma lines_app l1 l2 cur : lines cur (l1 ++ l2)
  = ((lines cur l1).1 ++ (lines (lines cur l1).2 l2).1, (lines (lines cur l1).2 l2).2).
Proof.
  revert cur. induction l1 as [|x l1 IH]; intros cur; simpl; [by destruct (lines cur l2)|].
  destruct (x =? 10); [|by rewrite IH]. rewrite IH. by destruct (lines [] l1).
Qed.

Lemma lines_plain l cur : 10 ∉ l → lines cur l = ([], cur ++ l).
Proof.
  revert cur. induction l as [|x l IH]; intros cur; simpl; [by rewrite app_nil_r|].
  intros [Hx Hl]%not_elem_of_cons. destruct (Z.eqb_spec x 10); [done|].
  rewrite IH by done. by rewrite <- app_assoc.
Qed.

Lemma lines_cons l r : 10 ∉ l → lines [] (l ++ 10 :: r) = (l :: (lines [] r).1, (lines [] r).2).
Proof. intros Hl. rewrite lines_app, lines_plain by done. simpl. by destruct (lines [] r). Qed.

Lemma lines_rest_plain l cur : 10 ∉ cur → 10 ∉ (lines cur l).2.
Proof.
  revert cur. induction l as [|x l IH]; intros cur Hc; simpl; [done|].
  destruct (Z.eqb_spec x 10).
  - specialize (IH [] ltac:(set_solver)). by destruct (lines [] l).
  - apply IH. set_solver.
Qed.

Lemma lines_rest_suffix l : ∃ l1, l = l1 ++ (lines [] l).2 ∧ (10 ∉ l → l1 = []).
Proof.
  assert (∀ cur, ∃ l1, cur ++ l = l1 ++ (lines cur l).2 ∧ (10 ∉ l → l1 = [])) as H; [|apply (H [])].
  induction l as [|x l IH]; intros cur; simpl; [by exists []; rewrite app_nil_r|].
  destruct (Z.eqb_spec x 10) as [->|Hx].
  - destruct (IH []) as (l1 & E & _). destruct (lines [] l) as [ls r]. simpl in *.
    exists (cur ++ 10 :: l1). rewrite E at 1. split; [by rewrite <- app_assoc|set_solver].
  - destruct (IH (cur ++ [x])) as (l1 & E & H1). exists l1. rewrite <- E, <- app_assoc.
    split; [done|]. intros H. apply H1. set_solver.
Qed.

(** The state after the lines [ls] have been written. *)
Definition wrote_lines (ls : list (list Z)) (s : ustate) : ustate :=
  set_u_out (s.(u_out) ++ map (λ l, (1, l)) ls) s.

Lemma written_lines ls s : written 1 (wrote_lines ls s) = written 1 s ++ concat ls.
Proof.
  unfold wrote_lines. rewrite written_out. f_equal. induction ls as [|l ls IH]; [done|].
  cbn [map]. rewrite filter_cons_True by done. cbn [map concat snd]. by rewrite IH.
Qed.

Lemma wrote_lines_app l1 l2 s : wrote_lines l2 (wrote_lines l1 s) = wrote_lines (l1 ++ l2) s.
Proof. unfold wrote_lines. simpl. by rewrite map_app, app_assoc. Qed.

Notation no_nul l := (0 ∉ l).

Lemma plain_scan l : no_nul l → 10 ∉ l → Forall (λ x, x ≠ 0 ∧ x ≠ 10) l.
Proof. intros H0 H. apply list.Forall_forall. intros x Hx. split; intros ->; done. Qed.

Lemma grep_lines_run pattern fuel : ∀ p s, (length p <= fuel)%nat → no_nul p → s.(u_wr) = [] →
  grep_lines fuel pattern p s
    = Ret (lines [] p).2 (wrote_lines (matching pattern (lines [] p).1) s).
Proof.
  induction fuel as [|fuel IH]; intros p s Hf H0 Hw.
  { destruct p; [|simpl in Hf; lia]. simpl. unfold ret. f_equal. unfold wrote_lines. simpl.
    rewrite app_nil_r. by destruct s. }
  destruct (decide (10 ∈ p)) as [Hin|Hin].
  - apply elem_of_split_first in Hin as (l & r & -> & Hl).
    cbn [grep_lines]. rewrite strchr_app by first [done | apply plain_scan; set_solver].
    rewrite lines_cons by done. cbn [fst snd]. rewrite take_app_length.
    replace (take (S (length l)) (l ++ 10 :: r)) with (l ++ [10]).
    2:{ rewrite (cons_middle 10 l r), app_assoc. rewrite take_app_length'; [done|].
        rewrite length_app. simpl. lia. }
    replace (drop (S (length l)) (l ++ 10 :: r)) with r.
    2:{ rewrite (cons_middle 10 l r), app_assoc. rewrite drop_app_length'; [done|].
        rewrite length_app. simpl. lia. }
    rewrite length_app in Hf. simpl in Hf. unfold matching. destruct (match_ pattern l) eqn:Hm.
    + rewrite filter_cons_True by done. unfold when, bind at 1 2. rewrite write_ok by done.
      cbn [cbind ret]. rewrite IH by (done || lia || set_solver). unfold wrote_lines. simpl.
      by rewrite <- app_assoc.
    + rewrite filter_cons_False by congruence. unfold when. rewrite bind_ret_l.
      rewrite IH by (done || lia || set_solver). done.
  - cbn [grep_lines]. rewrite strchr_absent by by apply plain_scan.
    rewrite lines_plain by done. unfold ret, wrote_lines. simpl. rewrite app_nil_r. by destruct s.
Qed.

(** ** The filter on line-wise input *)

(** The longest line that fits, with its newline, into the buffer. *)
Definition short (l : list Z) : Prop := (length l <= BUFSIZE - 2)%nat.

(** A portion of input that ends with a newline, has no 0 and no line that is
    too long for the buffer. *)
Definition whole_lines (p : option (list Z)) : Prop :=
  ∃ c, p = Some (c ++ [10]) ∧ no_nul c ∧ Forall short (lines [] (c ++ [10])).1.

(** The same in the middle of a portion, of which [buf] is in the buffer. *)
Definition fed (buf : list Z) (src : source) : Prop :=
  10 ∉ buf ∧ no_nul buf ∧
  match src with
  | [] => buf = []
  | p :: r => (∃ c, p = Some (c ++ [10]) ∧ no_nul c ∧ Forall short (lines buf (c ++ [10])).1) ∧
              Forall whole_lines r
  end.

Lemma lines_buf buf l : 10 ∉ buf → lines [] (buf ++ l) = lines buf l.
Proof. intros H. rewrite lines_app, lines_plain by done. simpl. by destruct (lines buf l). Qed.

Lemma lines_ended buf c : (lines buf (c ++ [10])).2 = [].
Proof. by rewrite lines_app. Qed.

(** One round of the loop when the buffer receives a line end. *)
Lemma grep_round fuel pattern fd buf src s l src' : 10 ∉ buf → no_nul buf →
  s.(u_fds) !! fd = Some src → s.(u_wr) = [] →
  read_source (BUFSIZE - length buf - 1) src = (Some l, src') → no_nul l → 10 ∈ l →
  grep (S fuel) pattern fd buf s
    = grep fuel pattern fd (lines buf l).2
        (wrote_lines (matching pattern (lines buf l).1) (set_u_fds (<[fd := src']> s.(u_fds)) s)).
Proof.
  intros Hb H0 Hfd Hw Hr Hl Hin. cbn [grep]. unfold bind at 1. rewrite (read_open _ _ _ _ Hfd), Hr.
  cbn [cbind fst snd]. destruct l as [|x l]; [by apply not_elem_of_nil in Hin|]. cbv zeta.
  unfold bind. rewrite grep_lines_run; [|done|set_solver|done]. cbn [cbind].
  rewrite lines_buf by done.
  destruct (lines_rest_suffix (buf ++ x :: l)) as (l1 & E & _). rewrite lines_buf in E by done.
  destruct (Nat.eqb_spec (length (lines buf (x :: l)).2) (length (buf ++ x :: l))) as [El|]; [|done].
  exfalso. rewrite E in El. rewrite length_app in El. destruct l1; [|simpl in El; lia].
  rewrite app_nil_l in E. pose proof (lines_rest_plain (x :: l) buf Hb) as Hp. rewrite <- E in Hp. set_solver.
Qed.

(** In line-wise input every [read] brings a line end. *)
Lemma fed_step buf src : fed buf src → src ≠ [] →
  ∃ l src', read_source (BUFSIZE - length buf - 1) src = (Some l, src') ∧ no_nul l ∧ 10 ∈ l ∧
    fed (lines buf l).2 src'.
Proof.
  intros (Hb & H0 & Hs) Hne. destruct src as [|p r]; [done|].
  destruct Hs as ((c & -> & Hc & Hsh) & Hr). cbn [read_source].
  set (n := (BUFSIZE - length buf - 1)%nat). destruct (Nat.leb_spec (length (c ++ [10])) n) as [Hl|Hl].
  - exists (c ++ [10]), r. split_and!; [done|set_solver|set_solver|]. rewrite lines_ended.
    split_and!; [set_solver..|]. destruct r as [|p' r]; [done|].
    by apply Forall_cons in Hr as [(c' & -> & ? & ?) Hr]; split; [exists c'|].
  - exists (take n (c ++ [10])), (Some (drop n (c ++ [10])) :: r).
    assert (take n (c ++ [10]) = take n c) as Et by (rewrite length_app in Hl; simpl in Hl; apply take_app_le; lia).
    assert (drop n (c ++ [10]) = drop n c ++ [10]) as Ed by (rewrite length_app in Hl; simpl in Hl; apply drop_app_le; lia).
    assert (no_nul (take n c) ∧ no_nul (drop n c)) as [H1 H2].
    { rewrite <- (take_drop n c) in Hc. set_solver. }
    assert (10 ∈ take n c) as Hin.
    { destruct (elem_of_split_first 10 (c ++ [10])) as (a & b & E & Ha); [set_solver|].
      rewrite E, lines_app, (lines_plain a) in Hsh by done. simpl in Hsh.
      destruct (lines [] b) as [ls rr]. apply Forall_cons in Hsh as [Hsh _]. unfold short in Hsh.
      rewrite length_app in Hsh. rewrite <- Et, E, take_app_ge by (unfold n, BUFSIZE in *; lia).
      apply elem_of_app. right. destruct (n - length a)%nat eqn:En; [unfold n, BUFSIZE in *; lia|].
      by left. }
    rewrite Et. do 3 (split; [done|]). split; [by apply lines_rest_plain|]. split.
    { destruct (lines_rest_suffix (buf ++ take n c)) as (l1 & E & _). rewrite lines_buf in E by done.
      assert (no_nul (buf ++ take n c)) as Hnn by set_solver. rewrite E in Hnn. set_solver. }
    split; [|done]. exists (drop n c). rewrite Ed. split_and!; [done..|].
    rewrite <- (take_drop n c), <- app_assoc, lines_app in Hsh. simpl in Hsh.
    by apply Forall_app in Hsh as [_ Hsh].
Qed.

Lemma grep_run pattern fd fuel : ∀ buf src s, fed buf src → (src_size src < fuel)%nat →
  s.(u_fds) !! fd = Some src → s.(u_wr) = [] →
  grep fuel pattern fd buf s
    = Ret () (wrote_lines (matching pattern (lines buf (contents src)).1)
                (set_u_fds (<[fd := []]> s.(u_fds)) s)).
Proof.
  induction fuel as [|fuel IH]; intros buf src s Hf Hsz Hfd Hw; [lia|].
  destruct (decide (src = [])) as [->|Hne].
  { destruct Hf as (_ & _ & ->). cbn [grep]. unfold bind. rewrite (read_open _ _ _ _ Hfd).
    simpl. unfold ret, wrote_lines. simpl. by rewrite app_nil_r. }
  destruct (fed_step buf src Hf Hne) as (l & src' & Hr & Hl & Hin & Hf').
  destruct Hf as (Hb & H0 & _). rewrite (grep_round fuel pattern fd buf src s l src') by done.
  destruct l as [|x l]; [by apply not_elem_of_nil in Hin|].
  destruct (read_source_some _ _ _ _ _ Hr) as (Ec & _ & Hlt).
  rewrite (IH _ src'); [|done|lia|by apply lookup_insert_eq|done]. rewrite Ec, lines_app. f_equal.
  unfold wrote_lines. simpl. rewrite insert_insert_eq. unfold matching.
  by rewrite filter_app, !map_app, app_assoc.
Qed.

(** On input that arrives in whole lines (each portion ends with a
    newline, no line is longer than the buffer, no 0 byte), whatever the sizes
    of the portions, [grep] reads everything and prints exactly the lines that
    match the pattern, in order; with more fuel than the size of the input it
    terminates. *)
Theorem grep_filters pattern fd fuel src s : Forall whole_lines src → (src_size src < fuel)%nat →
  s.(u_fds) !! fd = Some src → s.(u_wr) = [] →
  ∃ s', grep fuel pattern fd [] s = Ret () s' ∧ s'.(u_fds) !! fd = Some [] ∧
    written 1 s' = written 1 s ++ concat (map (λ l, l ++ [10])
      (filter (λ l, match_ pattern l = true) (lines [] (contents src)).1)).
Proof.
  intros Hs Hsz Hfd Hw. eexists. split.
  - apply (grep_run pattern fd fuel [] src); [|done..]. split_and!; [set_solver..|].
    destruct src as [|p r]; [done|]. by apply Forall_cons in Hs as [(c & -> & ? & ?) Hr]; split; [exists c|].
  - split; [by apply lookup_insert_eq|]. by rewrite written_lines.
Qed.

(** A round in which no line end arrives throws the buffer away. *)
Lemma grep_drops_round pattern fd fuel a r s : a ≠ [] → (length a < BUFSIZE)%nat → no_nul a → 10 ∉ a →
  s.(u_fds) !! fd = Some (Some a :: r) → s.(u_wr) = [] →
  grep (S fuel) pattern fd [] s = grep fuel pattern fd [] (set_u_fds (<[fd := r]> s.(u_fds)) s).
Proof.
  intros Ha Hlen H0 H10 Hfd Hw. cbn [grep]. unfold bind at 1. rewrite (read_open _ _ _ _ Hfd).
  cbn [read_source]. destruct (Nat.leb_spec (length a) (BUFSIZE - length (@nil Z) - 1)) as [_|Hl].
  2:{ simpl in Hl. unfold BUFSIZE in *. lia. }
  cbn [cbind fst snd]. destruct a as [|x a]; [done|]. cbv zeta. simpl ([] ++ _).
  unfold bind. rewrite grep_lines_run by done. rewrite lines_plain by done. cbn [cbind fst snd].
  simpl ([] ++ _). rewrite Nat.eqb_refl. unfold wrote_lines. simpl. by rewrite app_nil_r.
Qed.

(** A line that reaches [grep] in two portions loses its first
    part.  If a portion has no newline, [grep] forgets it ([p == buf] resets
    [m]), so that after the portions [a] and [b] with a newline it prints
    the line [b] if [b] matches, although the input has the line [a ++ b]. *)
Theorem grep_loses_part pattern fd fuel a b s : a ≠ [] → (length a < BUFSIZE)%nat → no_nul a →
  10 ∉ a → (length b < BUFSIZE - 1)%nat → no_nul b → 10 ∉ b →
  s.(u_fds) !! fd = Some [Some a; Some (b ++ [10])] → s.(u_wr) = [] →
  (length a + length b + 4 < fuel)%nat →
  ∃ s', grep fuel pattern fd [] s = Ret () s' ∧
    (lines [] (contents [Some a; Some (b ++ [10])])).1 = [a ++ b] ∧
    written 1 s' = written 1 s ++ (if match_ pattern b then b ++ [10] else []).
Proof.
  intros Ha Hal Ha0 Ha10 Hbl Hb0 Hb10 Hfd Hw Hfuel. destruct fuel as [|fuel]; [lia|].
  assert (Hl : lines [] (b ++ [10]) = ([b], [])) by by rewrite lines_cons.
  eexists. split; [|split].
  - rewrite (grep_drops_round pattern fd fuel a [Some (b ++ [10])]) by done.
    apply (grep_run pattern fd fuel [] [Some (b ++ [10])]); [| |by apply lookup_insert_eq|done].
    + do 2 (split; [set_solver|]). split; [|done]. exists b. do 2 (split; [done|]). rewrite Hl.
      constructor; [|done]. unfold short, BUFSIZE in *. lia.
    + unfold src_size. simpl. rewrite length_app. simpl. lia.
  - destruct a as [|x a]; [done|].
    assert (contents [Some (x :: a); Some (b ++ [10])] = ((x :: a) ++ b) ++ [10]) as ->.
    { simpl. rewrite <- app_assoc. by destruct b; simpl; rewrite ?app_nil_r. }
    by rewrite lines_cons by set_solver.
  - rewrite written_lines. f_equal.
    assert (contents [Some (b ++ [10])] = b ++ [10]) as -> by by destruct b; simpl; rewrite ?app_nil_r.
    rewrite Hl. unfold matching. cbn [fst]. destruct (match_ pattern b) eqn:Hm.
    + rewrite filter_cons_True, filter_nil by done. simpl. by rewrite app_nil_r.
    + by rewrite filter_cons_False by congruence.
Qed.

Definition with_input (src : source) : ustate := mkust {[ 0 := src ]} (λ _, None) [] [] [] [].

(** [printf 'abc\nxyz\n' | grep 'b.*c$'] *)
Lemma grep_filters_witness : ∃ s',
  grep 20 (chars "^.b*c$") 0 [] (with_input [Some (chars "abc" ++ [10]); Some (chars "xyz" ++ [10])]) = Ret () s' ∧
  written 1 s' = chars "abc" ++ [10].
Proof.
  destruct (grep_filters (chars "^.b*c$") 0 20 [Some (chars "abc" ++ [10]); Some (chars "xyz" ++ [10])]
    (with_input [Some (chars "abc" ++ [10]); Some (chars "xyz" ++ [10])])) as (s' & E & _ & Hw).
  - repeat constructor.
    + exists (chars "abc"). split_and!; [done|apply (bool_decide_unpack _); by vm_compute|].
      apply (bool_decide_unpack _). by vm_compute.
    + exists (chars "xyz"). split_and!; [done|apply (bool_decide_unpack _); by vm_compute|].
      apply (bool_decide_unpack _). by vm_compute.
  - vm_compute. lia.
  - done.
  - done.
  - exists s'. split; [exact E|]. rewrite Hw. by vm_compute.
Defined.

Lemma grep_loses_part_witness : ∃ s',
  grep 20 (chars "^c") 0 [] (with_input [Some (chars "ab"); Some (chars "cd" ++ [10])]) = Ret () s' ∧
  written 1 s' = chars "cd" ++ [10] ∧ match_ (chars "^c") (chars "abcd") = false.
Proof.
  destruct (grep_loses_part (chars "^c") 0 20 (chars "ab") (chars "cd")
    (with_input [Some (chars "ab"); Some (chars "cd" ++ [10])])) as (s' & E & _ & Hw);
    try done; try (apply (bool_decide_unpack _); by vm_compute); try (vm_compute; lia).
  exists s'. split; [exact E|]. split; [|by vm_compute]. rewrite Hw. by vm_compute.
Defined.
