(* ===== verification/Progs.v ===== *)
(** * Small user programs: [cat.c], [wc.c], [echo.c], [mkdir.c], [rm.c],
    [ln.c], [kill.c]

    Each program is its [main] as a function of the argument vector; loops over
    input take fuel, which suffices when it exceeds the size of the input. *)

From stdpp Require Import base numbers option list sets strings gmap.
From Stdlib Require Import ZArith Lia.
From S2P Require Import Prelude Console User Ulib Printf.

(** ** [cat.c] *)

Module Cat.

Fixpoint cat (fuel : nat) (fd : Z) : U unit :=
  match fuel with
  | O => fun s => Stuck s
  | S fuel =>
    r <- read fd 512;;
    match r with
    | Some (x :: l) =>
      n <- write 1 (x :: l);;
      if negb (n =? Z.of_nat (length (x :: l))) then
        printf 1 ("cat: write error" +:+ nl) [];; exit
      else cat fuel fd
    | Some [] => ret ()
    | None => printf 1 ("cat: read error" +:+ nl) [];; exit
    end
  end.

Fixpoint cat_files (fuel : nat) (files : list (list Z)) : U unit :=
  match files with
  | [] => exit
  | f :: files =>
    fd <- open f;;
    if fd <? 0 then printf 1 ("cat: cannot open %s" +:+ nl) [AStr (Some f)];; exit
    else cat fuel fd;; close fd;; cat_files fuel files
  end.

Definition main (fuel : nat) (argv : list (list Z)) : U unit :=
  match argv with
  | _ :: f :: files => cat_files fuel (f :: files)
  | _ => cat fuel 0;; exit
  end.

End Cat.

(** ** [wc.c] *)

Module Wc.

Record counts : Type := mkcounts { cl : Z; cw : Z; cc : Z; inword : bool }.

(** The characters after which a new word starts. *)
Definition blanks : list Z := [32; 13; 9; 10; 11].

(** The body of the loop over the buffer. *)
Definition count (k : counts) (b : Z) : counts :=
  let l := if b =? 10 then s32 (k.(cl) + 1) else k.(cl) in
  let c := s32 (k.(cc) + 1) in
  if in_string blanks b then mkcounts l k.(cw) c false
  else if negb k.(inword) then mkcounts l (s32 (k.(cw) + 1)) c true
  else mkcounts l k.(cw) c true.

Fixpoint wc_loop (fuel : nat) (fd : Z) (k : counts) : U counts :=
  match fuel with
  | O => fun s => Stuck s
  | S fuel =>
    r <- read fd 512;;
    match r with
    | Some (x :: l) => wc_loop fuel fd (foldl count k (x :: l))
    | Some [] => ret k
    | None => printf 1 ("wc: read error" +:+ nl) [];; exit
    end
  end.

Definition wc (fuel : nat) (fd : Z) (name : list Z) : U unit :=
  k <- wc_loop fuel fd (mkcounts 0 0 0 false);;
  printf 1 ("%d %d %d %s" +:+ nl) [AInt k.(cl); AInt k.(cw); AInt k.(cc); AStr (Some name)].

Fixpoint wc_files (fuel : nat) (files : list (list Z)) : U unit :=
  match files with
  | [] => exit
  | f :: files =>
    fd <- open f;;
    if fd <? 0 then printf 1 ("wc: cannot open %s" +:+ nl) [AStr (Some f)];; exit
    else wc fuel fd f;; close fd;; wc_files fuel files
  end.

Definition main (fuel : nat) (argv : list (list Z)) : U unit :=
  match argv with
  | _ :: f :: files => wc_files fuel (f :: files)
  | _ => wc fuel 0 [];; exit
  end.

End Wc.

(** ** [echo.c] *)

Module Echo.

Fixpoint echo (args : list (list Z)) : U unit :=
  match args with
  | [] => exit
  | a :: args =>
    printf 1 "%s%s" [AStr (Some a); AStr (Some (match args with [] => [10] | _ => [32] end))];;
    echo args
  end.

Definition main (argv : list (list Z)) : U unit := echo (tl argv).

End Echo.

(** ** [mkdir.c], [rm.c], [ln.c], [kill.c] *)

Module Names.

(** The loops of [mkdir] and [rm] stop at the first failure. *)
Fixpoint each (c : list Z → call) (msg : string) (files : list (list Z)) : U unit :=
  match files with
  | [] => exit
  | f :: files =>
    r <- usys (c f);;
    if r <? 0 then printf 2 msg [AStr (Some f)];; exit else each c msg files
  end.

Definition mkdir (argv : list (list Z)) : U unit :=
  match argv with
  | _ :: f :: files => each C_mkdir ("mkdir: %s failed to create" +:+ nl) (f :: files)
  | _ => printf 2 ("Usage: mkdir files..." +:+ nl) [];; exit
  end.

Definition rm (argv : list (list Z)) : U unit :=
  match argv with
  | _ :: f :: files => each C_unlink ("rm: %s failed to delete" +:+ nl) (f :: files)
  | _ => printf 2 ("Usage: rm files..." +:+ nl) [];; exit
  end.

Definition ln (argv : list (list Z)) : U unit :=
  match argv with
  | [_; old; new] =>
    r <- usys (C_link old new);;
    when (r <? 0) (printf 2 ("link %s %s: failed" +:+ nl) [AStr (Some old); AStr (Some new)]);;
    exit
  | _ => printf 2 ("Usage: ln old new" +:+ nl) [];; exit
  end.

Fixpoint kill_each (args : list (list Z)) : U unit :=
  match args with
  | [] => exit
  | a :: args => usys (C_kill (atoi a));; kill_each args
  end.

Definition kill (argv : list (list Z)) : U unit :=
  match argv with
  | _ :: a :: args => kill_each (a :: args)
  | _ => printf 2 ("usage: kill pid..." +:+ nl) [];; exit
  end.

End Names.

(** ** What they print *)

Lemma bind_printf {B} fd fmt ap (k : unit → U B) s : s.(u_wr) = [] →
  bind (printf fd fmt ap) k s = k () (put fd (text (chars fmt) ap) s).
Proof. intros H. unfold bind. by rewrite printf_run. Qed.

(** The state after the loop of [cat]: the portions read have been written. *)
Lemma cat_run fd fuel : ∀ src s, (src_size src < fuel)%nat → s.(u_fds) !! fd = Some src →
  s.(u_wr) = [] →
  ∃ s', Cat.cat fuel fd s = (if ends_well src then Ret () s'
                             else Jump () (put 1 (chars ("cat: read error" +:+ nl)) s')) ∧
    written 1 s' = written 1 s ++ contents src.
Proof.
  induction fuel as [|fuel IH]; intros src s Hf Hfd Hw; [lia|]. cbn [Cat.cat].
  unfold bind at 1. rewrite (read_open _ _ _ _ Hfd). set (s1 := set_u_fds _ s).
  assert (u_wr s1 = []) as Hw1 by done.
  destruct (read_source 512 src) as [[[|x l]|] src'] eqn:Hr; cbn [cbind fst snd].
  - apply read_source_end in Hr as [-> ->]; [|lia]. exists s1. by rewrite app_nil_r.
  - destruct (read_source_some _ _ _ _ _ Hr) as (Hc & He & Hsz).
    unfold bind at 1. rewrite write_ok by done. cbn [cbind]. rewrite Z.eqb_refl. cbn [negb].
    set (s2 := set_u_out _ s1). destruct (IH src' s2) as (s' & E & Hs');
      [lia|by apply lookup_insert_eq|done|]. rewrite He in E. exists s'. split; [exact E|].
    rewrite Hs', Hc. unfold s2. rewrite written_out. rewrite filter_cons_True, filter_nil by done.
    cbn [map concat snd]. by rewrite app_nil_r, <- app_assoc.
  - apply read_source_err in Hr as [-> ->]. exists s1. split; [|by rewrite app_nil_r].
    by rewrite bind_printf by done.
Qed.

(** ** [wc] counts lines, words and characters *)

(** The words of a text: its longest parts without blanks. *)
Fixpoint words (cur l : list Z) : list (list Z) :=
  match l with
  | [] => if bool_decide (cur = []) then [] else [cur]
  | x :: l =>
    if bool_decide (x ∈ Wc.blanks) then (if bool_decide (cur = []) then [] else [cur]) ++ words [] l
    else words (cur ++ [x]) l
  end.

Definition nlines (l : list Z) : Z := Z.of_nat (count_occ Z.eq_dec l 10).

Lemma s32_add_l a b : s32 (s32 a + b) = s32 (a + b).
Proof. destruct (s32_mod a) as [k ->]. replace (a + k * two32 + b) with (a + b + k * two32) by lia. apply s32_eq. Qed.

Lemma s32_idem a : s32 (s32 a) = s32 a.
Proof. pose proof (s32_add_l a 0) as H. by rewrite !Z.add_0_r in H. Qed.

Lemma count_in_string b : in_string Wc.blanks b = bool_decide (b ∈ Wc.blanks).
Proof. apply in_string_spec. unfold Wc.blanks. set_solver. Qed.

Lemma foldl_count l : ∀ k cur, k.(Wc.inword) = negb (bool_decide (cur = [])) →
  let k' := foldl Wc.count k l in
  s32 k'.(Wc.cl) = s32 (k.(Wc.cl) + nlines l) ∧
  s32 k'.(Wc.cc) = s32 (k.(Wc.cc) + Z.of_nat (length l)) ∧
  s32 k'.(Wc.cw) = s32 (k.(Wc.cw) - (if bool_decide (cur = []) then 0 else 1)
                        + Z.of_nat (length (words cur l))).
Proof.
  unfold nlines. induction l as [|x l IH]; intros k cur Hk; cbn [foldl].
  { simpl. rewrite !Z.add_0_r. split_and!; [done..|]. destruct (bool_decide (cur = [])); simpl; f_equal; lia. }
  cbn [words count_occ length]. set (k1 := Wc.count k x).
  assert (s32 (k1.(Wc.cl)) = s32 (k.(Wc.cl) + (if Z.eq_dec x 10 then 1 else 0)) ∧
          s32 (k1.(Wc.cc)) = s32 (k.(Wc.cc) + 1)) as [H1 H2].
  { unfold k1, Wc.count. destruct (Z.eq_dec x 10), (Z.eqb_spec x 10); try done;
      destruct (in_string Wc.blanks x), (Wc.inword k); simpl;
      rewrite ?Z.add_0_r, ?s32_idem; done. }
  assert (∀ a b n, s32 a = s32 b → s32 (a + n) = s32 (b + n)) as Hadd.
  { intros a b n E. rewrite <- (s32_add_l a), E. apply s32_add_l. }
  destruct (decide (x ∈ Wc.blanks)) as [Hb|Hb].
  - assert (k1.(Wc.inword) = negb (bool_decide (@nil Z = []))) as Hk1.
    { unfold k1, Wc.count. rewrite count_in_string, bool_decide_true by done. done. }
    destruct (IH k1 [] Hk1) as (I1 & I2 & I3). rewrite (bool_decide_true (x ∈ Wc.blanks)) by done.
    rewrite I1, I2, I3. split_and!.
    + rewrite (Hadd _ _ _ H1). f_equal. destruct (Z.eq_dec x 10); lia.
    + rewrite (Hadd _ _ _ H2). f_equal. lia.
    + rewrite (bool_decide_true (@nil Z = [])) by done.
      assert (k1.(Wc.cw) = k.(Wc.cw)) as ->.
      { unfold k1, Wc.count. by rewrite count_in_string, bool_decide_true by done. }
      f_equal. rewrite length_app. destruct (bool_decide (cur = [])); simpl; lia.
  - assert (k1.(Wc.inword) = negb (bool_decide (cur ++ [x] = []))) as Hk1.
    { unfold k1, Wc.count. rewrite count_in_string, (bool_decide_false (x ∈ Wc.blanks)) by done.
      rewrite bool_decide_false by (by destruct cur). by destruct (Wc.inword k). }
    destruct (IH k1 (cur ++ [x]) Hk1) as (I1 & I2 & I3). rewrite (bool_decide_false (x ∈ Wc.blanks)) by done.
    rewrite I1, I2, I3. split_and!.
    + rewrite (Hadd _ _ _ H1). f_equal. destruct (Z.eq_dec x 10); lia.
    + rewrite (Hadd _ _ _ H2). f_equal. lia.
    + rewrite (bool_decide_false (cur ++ [x] = [])) by (by destruct cur). apply Hadd.
      unfold k1, Wc.count. rewrite count_in_string, (bool_decide_false (x ∈ Wc.blanks)), Hk by done.
      destruct (bool_decide (cur = [])); simpl.
      * rewrite <- Z.add_opp_r, s32_add_l. f_equal. lia.
      * f_equal.
Qed.

(** Counting does not depend on how the input is divided into portions. *)
Lemma wc_loop_run fd fuel : ∀ src k s, (src_size src < fuel)%nat → s.(u_fds) !! fd = Some src →
  s.(u_wr) = [] → ∃ fds,
  Wc.wc_loop fuel fd k s =
    if ends_well src then Ret (foldl Wc.count k (contents src)) (set_u_fds fds s)
    else Jump () (put 1 (chars ("wc: read error" +:+ nl)) (set_u_fds fds s)).
Proof.
  induction fuel as [|fuel IH]; intros src k s Hf Hfd Hw; [lia|]. cbn [Wc.wc_loop].
  unfold bind at 1. rewrite (read_open _ _ _ _ Hfd). set (s1 := set_u_fds _ s).
  destruct (read_source 512 src) as [[[|x l]|] src'] eqn:Hr; cbn [cbind fst snd].
  - apply read_source_end in Hr as [-> ->]; [|lia]. by eexists.
  - destruct (read_source_some _ _ _ _ _ Hr) as (Hc & He & Hsz).
    destruct (IH src' (foldl Wc.count k (x :: l)) s1) as (fds & E);
      [lia|by apply lookup_insert_eq|done|]. rewrite He in E. exists fds. rewrite E, Hc.
    by rewrite foldl_app.
  - apply read_source_err in Hr as [-> ->]. rewrite bind_printf by done. by eexists.
Qed.

Lemma wc_text a b c n : text (chars ("%d %d %d %s" +:+ nl)) [AInt a; AInt b; AInt c; AStr (Some n)]
  = int_text (s32 a) 10 true ++ 32 :: int_text (s32 b) 10 true ++ 32 ::
    int_text (s32 c) 10 true ++ 32 :: n ++ [10].
Proof. done. Qed.

(** [wc] prints the number of newlines, of words and of characters of
    its input (as [int]s) and the name it was given, however the input is
    divided into the results of [read]; if reading fails it prints a message
    and exits instead. *)
Theorem wc_counts fd fuel name src s : (src_size src < fuel)%nat → s.(u_fds) !! fd = Some src →
  s.(u_wr) = [] → ∃ s',
  Wc.wc fuel fd name s = (if ends_well src then Ret () s' else Jump () s') ∧
  written 1 s' = written 1 s ++
    if ends_well src then
      text (chars ("%d %d %d %s" +:+ nl))
        [AInt (nlines (contents src)); AInt (Z.of_nat (length (words [] (contents src))));
         AInt (Z.of_nat (length (contents src))); AStr (Some name)]
    else chars ("wc: read error" +:+ nl).
Proof.
  intros Hf Hfd Hw. destruct (wc_loop_run fd fuel src (Wc.mkcounts 0 0 0 false) s Hf Hfd Hw) as (fds & E).
  unfold Wc.wc, bind. rewrite E. destruct (ends_well src); cbn [cbind].
  - rewrite printf_run by done. eexists. split; [done|]. rewrite written_put. f_equal.
    destruct (foldl_count (contents src) (Wc.mkcounts 0 0 0 false) [] eq_refl) as (H1 & H2 & H3).
    rewrite (bool_decide_true (@nil Z = [])), Z.sub_0_r in H3 by done. simpl Wc.cl in H1.
    simpl Wc.cc in H2. simpl Wc.cw in H3. rewrite !Z.add_0_l in *.
    by rewrite !wc_text, H1, H2, H3.
  - eexists. split; [done|]. by rewrite written_put.
Qed.

Lemma wc_counts_witness : ∃ s',
  Wc.wc 30 0 (chars "f") (mkust {[ 0 := [Some (chars "ab c"); Some (chars "d e" ++ [10])] ]} (λ _, None) [] [] [] [])
    = Ret () s' ∧
  written 1 s' = chars ("1 3 8 f" +:+ nl).
Proof.
  destruct (wc_counts 0 30 (chars "f") [Some (chars "ab c"); Some (chars "d e" ++ [10])]
    (mkust {[ 0 := [Some (chars "ab c"); Some (chars "d e" ++ [10])] ]} (λ _, None) [] [] [] []))
    as (s' & E & Hw); [vm_compute; lia|done|done|].
  exists s'. split; [exact E|]. rewrite Hw. by vm_compute.
Defined.
