(* ===== verification/Shparse.v ===== *)
(** * The parser of the shell: [sh.c]

    The command line is a C string [b]; a [char*] into it is an offset, and the
    character at the end of the string is the terminating 0.  A parsing
    function is a computation whose state is the pointer [*ps]; [panic()] of
    the shell, which prints a message and exits, is [Panic].  Commands are
    trees; the strings in them are the pairs of pointers ([argv[i]],
    [eargv[i]]) and ([file], [efile]) into the line.  An allocated command
    never fails to be allocated. *)

From stdpp Require Import base numbers option list sets strings gmap.
From Stdlib Require Import ZArith Lia.
From S2P Require Import Prelude Console Ulib.

Definition MAXARGS : nat := 10.

Definition O_RDONLY : Z := 0.
Definition O_WRONLY : Z := 1.
Definition O_CREATE : Z := 512.

(** ** Commands *)

Inductive cmd : Type :=
| EXEC (argv : list (nat * nat))
| REDIR (c : cmd) (file efile : nat) (mode fd : Z)
| PIPE (left right : cmd)
| LIST (left right : cmd)
| BACK (c : cmd).

(** The constructors of [sh.c]: a zeroed [execcmd] has no arguments. *)
Definition execcmd : cmd := EXEC [].
Definition redircmd (subcmd : cmd) (file efile : nat) (mode fd : Z) : cmd := REDIR subcmd file efile mode fd.
Definition pipecmd (left right : cmd) : cmd := PIPE left right.
Definition listcmd (left right : cmd) : cmd := LIST left right.
Definition backcmd (subcmd : cmd) : cmd := BACK subcmd.

(** [cmd->argv[argc] = q; cmd->eargv[argc] = eq;] where [cmd] is the [EXEC]
    command inside the redirections of [ret]. *)
Fixpoint add_arg (q eq : nat) (ret : cmd) : cmd :=
  match ret with
  | EXEC argv => EXEC (argv ++ [(q, eq)])
  | REDIR c file efile mode fd => REDIR (add_arg q eq c) file efile mode fd
  | c => c
  end.

(** ** The lexer *)

Definition whitespace : list Z := [32; 9; 13; 10; 11].
Definition symbols : list Z := chars "<|>&;()".

Definition is_space (c : Z) : bool := in_string whitespace c.
Definition is_word (c : Z) : bool := negb (in_string whitespace c) && negb (in_string symbols c).

(** [*s] *)
Definition at_ (b : list Z) (s : nat) : Z := default 0 (b !! s).

(** [while(s < es && p of *s) s++;] where [n] is [es - s] *)
Fixpoint skip_while (p : Z → bool) (b : list Z) (n s : nat) : nat :=
  match n with
  | O => s
  | S n => if p (at_ b s) then skip_while p b n (S s) else s
  end.

Definition P : Type → Type := prog nat unit.

Section parser.
Context (b : list Z).
Let es : nat := length b.

Definition skip_space (s : nat) : nat := skip_while is_space b (es - s) s.

(** The switch of [gettoken]: the token and the pointer behind it. *)
Definition token_at (s : nat) : Z * nat :=
  let c := at_ b s in
  if c =? 0 then (c, s)
  else if bool_decide (c ∈ chars "|();&<") then (c, S s)
  else if c =? 62 then
    if at_ b (S s) =? 62 then (43, S (S s)) else (c, S s)
  else (97, skip_while is_word b (es - s) s).

(** The token, [*q] and [*eq]. *)
Definition gettoken : P (Z * nat * nat) :=
  fun s =>
    let q := skip_space s in
    let '(r, eq) := token_at q in
    Ret (r, q, eq) (skip_space eq).

Definition peek (toks : string) : P bool :=
  fun s =>
    let s := skip_space s in
    Ret (negb (at_ b s =? 0) && in_string (chars toks) (at_ b s)) s.

(** ** The parser *)

Definition loop_fuel : nat := S es.

Fixpoint parseredirs (fuel : nat) (c : cmd) : P cmd :=
  match fuel with
  | O => fun s => Stuck s
  | S fuel =>
    more <- peek "<>";;
    if more then
      t1 <- gettoken;;
      t2 <- gettoken;;
      let '(tok, _, _) := t1 in
      let '(t, q, eq) := t2 in
      if negb (t =? 97) then panic "missing file for redirection" else
      parseredirs fuel
        (if tok =? 60 then redircmd c q eq O_RDONLY 0
         else if tok =? 62 then redircmd c q eq (Z.lor O_WRONLY O_CREATE) 1
         else if tok =? 43 then redircmd c q eq (Z.lor O_WRONLY O_CREATE) 1
         else c)
    else ret c
  end.

(** The loop of [parseexec] over the arguments. *)
Fixpoint parseargs (fuel : nat) (argc : nat) (r : cmd) : P cmd :=
  match fuel with
  | O => fun s => Stuck s
  | S fuel =>
    stop <- peek "|)&;";;
    if stop then ret r else
    t <- gettoken;;
    let '(tok, q, eq) := t in
    if tok =? 0 then ret r else
    if negb (tok =? 97) then panic "syntax" else
    let r := add_arg q eq r in
    let argc := S argc in
    if (MAXARGS <=? argc)%nat then panic "too many args" else
    r <- parseredirs loop_fuel r;;
    parseargs fuel argc r
  end.

(** The loop of [parseline] over [&]. *)
Fixpoint parseback (fuel : nat) (c : cmd) : P cmd :=
  match fuel with
  | O => fun s => Stuck s
  | S fuel =>
    more <- peek "&";;
    if more then gettoken;; parseback fuel (backcmd c) else ret c
  end.

Fixpoint parseline (fuel : nat) : P cmd :=
  match fuel with
  | O => fun s => Stuck s
  | S fuel =>
    c <- parsepipe fuel;;
    c <- parseback loop_fuel c;;
    more <- peek ";";;
    if more then gettoken;; r <- parseline fuel;; ret (listcmd c r) else ret c
  end
with parsepipe (fuel : nat) : P cmd :=
  match fuel with
  | O => fun s => Stuck s
  | S fuel =>
    c <- parseexec fuel;;
    more <- peek "|";;
    if more then gettoken;; r <- parsepipe fuel;; ret (pipecmd c r) else ret c
  end
with parseexec (fuel : nat) : P cmd :=
  match fuel with
  | O => fun s => Stuck s
  | S fuel =>
    block <- peek "(";;
    if block then parseblock fuel else
    r <- parseredirs loop_fuel execcmd;;
    parseargs loop_fuel 0 r
  end
with parseblock (fuel : nat) : P cmd :=
  match fuel with
  | O => fun s => Stuck s
  | S fuel =>
    open <- peek "(";;
    if negb open then panic "parseblock" else
    gettoken;;
    c <- parseline fuel;;
    close <- peek ")";;
    if negb close then panic "syntax - missing )" else
    gettoken;;
    parseredirs loop_fuel c
  end.

(** Every nesting takes four calls and at least one character. *)
Definition parse_fuel : nat := 4 * es + 4.

End parser.

(** [*eargv[i] = 0] for all strings of the command; [buf] is the line with its
    terminating 0. *)
Fixpoint nulterminate (c : cmd) (buf : list Z) : list Z :=
  match c with
  | EXEC argv => foldl (λ buf p, <[p.2 := 0]> buf) buf argv
  | REDIR c file efile mode fd => <[efile := 0]> (nulterminate c buf)
  | PIPE l r => nulterminate r (nulterminate l buf)
  | LIST l r => nulterminate r (nulterminate l buf)
  | BACK c => nulterminate c buf
  end.

(** The command and the buffer with its strings terminated; [leftovers] is the
    panic that follows the message about the rest of the line. *)
Definition parsecmd (b : list Z) : P (cmd * list Z) :=
  c <- parseline b (parse_fuel b);;
  peek b "";;
  s <- get (λ s, s);;
  if negb (s =? length b)%nat then panic "leftovers" else
  ret (c, nulterminate c (b ++ [0])).

(** ** Tokens *)

Lemma is_space_spec c : is_space c = bool_decide (c ∈ whitespace).
Proof. apply in_string_spec. unfold whitespace. set_solver. Qed.

Lemma symbols_no_nul : 0 ∉ symbols.
Proof. apply (bool_decide_unpack _). by vm_compute. Qed.

Lemma is_word_spec c : is_word c = bool_decide (c ∉ whitespace ∧ c ∉ symbols).
Proof.
  unfold is_word. change (in_string whitespace c) with (is_space c). rewrite is_space_spec.
  rewrite in_string_spec by apply symbols_no_nul.
  destruct (decide (c ∈ whitespace)), (decide (c ∈ symbols));
    repeat first [rewrite bool_decide_true by tauto | rewrite bool_decide_false by tauto]; done.
Qed.

Lemma at_lt b s c : b !! s = Some c → at_ b s = c.
Proof. unfold at_. by intros ->. Qed.

Lemma at_end b s : (length b <= s)%nat → at_ b s = 0.
Proof. intros H. unfold at_. by rewrite lookup_ge_None_2. Qed.

Lemma skip_while_bounds p b n s : (s <= skip_while p b n s <= s + n)%nat.
Proof.
  revert s. induction n as [|n IH]; intros s; simpl; [lia|].
  destruct (p (at_ b s)); [|lia]. specialize (IH (S s)). lia.
Qed.

Lemma skip_while_all p b n s i : (s <= i < skip_while p b n s)%nat → p (at_ b i) = true.
Proof.
  revert s. induction n as [|n IH]; intros s Hi; simpl in Hi; [lia|].
  destruct (p (at_ b s)) eqn:E; [|lia]. destruct (decide (i = s)) as [->|]; [done|].
  apply (IH (S s)). lia.
Qed.

Lemma skip_while_stop p b n s : (skip_while p b n s = s + n)%nat ∨ p (at_ b (skip_while p b n s)) = false.
Proof.
  revert s. induction n as [|n IH]; intros s; simpl; [left; lia|].
  destruct (p (at_ b s)) eqn:E; [|by right]. destruct (IH (S s)) as [H|H]; [left; lia|by right].
Qed.

(** A string of a parsed command: a nonempty part of the line, of word
    characters, that ends before another character or at the end. *)
Definition word_at (b : list Z) (p : nat * nat) : Prop :=
  (p.1 < p.2 <= length b)%nat ∧ (∀ i, (p.1 <= i < p.2)%nat → is_word (at_ b i) = true) ∧
  (p.2 = length b ∨ is_word (at_ b p.2) = false).

Fixpoint words_of (c : cmd) : list (nat * nat) :=
  match c with
  | EXEC argv => argv
  | REDIR c file efile _ _ => words_of c ++ [(file, efile)]
  | PIPE l r => words_of l ++ words_of r
  | LIST l r => words_of l ++ words_of r
  | BACK c => words_of c
  end.

(** Every [EXEC] command has a place left for the null pointer that ends its
    argument vector. *)
Fixpoint args_fit (c : cmd) : Prop :=
  match c with
  | EXEC argv => (length argv < MAXARGS)%nat
  | REDIR c _ _ mode fd => args_fit c ∧
      ((mode = O_RDONLY ∧ fd = 0) ∨ (mode = Z.lor O_WRONLY O_CREATE ∧ fd = 1))
  | PIPE l r => args_fit l ∧ args_fit r
  | LIST l r => args_fit l ∧ args_fit r
  | BACK c => args_fit c
  end.

(** The types of a parsed command: its strings are words of the line, its
    argument vectors fit, its redirections have one of the two modes. *)
Definition typed (b : list Z) (c : cmd) : Prop := Forall (word_at b) (words_of c) ∧ args_fit c.

(** The number of arguments of the innermost command. *)
Fixpoint nargs (c : cmd) : nat :=
  match c with
  | EXEC argv => length argv
  | REDIR c _ _ _ _ => nargs c
  | _ => 0
  end.

(** A command to which arguments can be added. *)
Fixpoint is_exec (c : cmd) : Prop :=
  match c with
  | EXEC _ => True
  | REDIR c _ _ _ _ => is_exec c
  | _ => False
  end.

Section parser.
Context (b : list Z) (Hnul : 0 ∉ b).
Notation es := (length b).

Lemma at_nonzero s : (s < es)%nat → at_ b s ≠ 0.
Proof.
  intros H. destruct (lookup_lt_is_Some_2 b s H) as [c Hc]. rewrite (at_lt _ _ _ Hc). intros ->.
  apply Hnul. by eapply list_elem_of_lookup_2.
Qed.

Lemma at_zero s : at_ b s = 0 → (es <= s)%nat.
Proof. intros H. destruct (decide (s < es)%nat) as [Hl|]; [|lia]. by apply at_nonzero in Hl. Qed.

Lemma skip_space_bounds s : (s <= es)%nat → (s <= skip_space b s <= es)%nat.
Proof. intros H. unfold skip_space. pose proof (skip_while_bounds is_space b (es - s) s). lia. Qed.

(** After white space comes the end or another character. *)
Lemma skip_space_stop s : (s <= es)%nat → skip_space b s = es ∨ is_space (at_ b (skip_space b s)) = false.
Proof.
  intros H. unfold skip_space. destruct (skip_while_stop is_space b (es - s) s) as [E|E]; [left; lia|by right].
Qed.

Lemma not_space_end s : (s <= es)%nat → is_space (at_ b (skip_space b s)) = false.
Proof.
  intros H. destruct (skip_space_stop s H) as [->|E]; [|done]. rewrite at_end by lia. done.
Qed.

(** A token is the end of the line, a symbol or a word; all but the end take
    at least one character. *)
Lemma token_spec s r eq : (s <= es)%nat → is_space (at_ b s) = false → token_at b s = (r, eq) →
  (s <= eq <= es)%nat ∧ (s < es → s < eq)%nat ∧ (r = 97 → word_at b (s, eq)).
Proof.
  intros Hs Hsp. unfold token_at. destruct (Z.eqb_spec (at_ b s) 0) as [E0|E0].
  { intros [= <- <-]. apply at_zero in E0. split_and!; [lia|lia|lia|].
    intros H. rewrite at_end in H by lia. done. }
  assert (s < es)%nat as Hlt. { destruct (decide (s < es)%nat); [done|]. rewrite at_end in E0 by lia. done. }
  case_bool_decide as Hsym.
  { intros [= <- <-]. split_and!; [lia|lia|lia|]. intros E. rewrite E in Hsym.
    exfalso. revert Hsym. apply (bool_decide_unpack _). by vm_compute. }
  destruct (Z.eqb_spec (at_ b s) 62) as [E62|E62].
  { destruct (Z.eqb_spec (at_ b (S s)) 62) as [E|E]; intros [= <- <-].
    - assert (S s < es)%nat. { destruct (decide (S s < es)%nat); [done|]. rewrite at_end in E by lia. done. }
      split_and!; [lia|lia|lia|done].
    - split_and!; [lia|lia|lia|]. intros E'. congruence. }
  intros [= <- <-]. pose proof (skip_while_bounds is_word b (es - s) s) as Hb.
  pose proof (skip_while_all is_word b (es - s) s) as Ha.
  pose proof (skip_while_stop is_word b (es - s) s) as Hst.
  assert (s < skip_while is_word b (es - s) s)%nat as Hgt.
  { destruct (es - s)%nat as [|k] eqn:Ek; [lia|]. simpl. rewrite is_word_spec, bool_decide_true.
    - pose proof (skip_while_bounds is_word b k (S s)). lia.
    - rewrite is_space_spec in Hsp. apply bool_decide_eq_false in Hsp. split; [done|].
      intros Hin. change symbols with [60; 124; 62; 38; 59; 40; 41] in Hin.
      change (chars "|();&<") with [124; 40; 41; 59; 38; 60] in Hsym. set_solver. }
  split_and!; [lia|lia|lia|]. intros _. split_and!; cbn [fst snd]; [lia|lia| |].
  - intros i Hi. by apply Ha.
  - destruct Hst as [Hst|Hst]; [left; lia|by right].
Qed.

Lemma skip_space_id s : is_space (at_ b s) = false → skip_space b s = s.
Proof. intros H. unfold skip_space. destruct (es - s)%nat; simpl; [done|]. by rewrite H. Qed.

Lemma gettoken_spec s : (s <= es)%nat → ∃ r q eq s', gettoken b s = Ret (r, q, eq) s' ∧
  (s <= q)%nat ∧ (q <= s' <= es)%nat ∧ (r = 97 → word_at b (q, eq) ∧ (q < s')%nat) ∧
  (is_space (at_ b s) = false → s < es → s < s')%nat.
Proof.
  intros Hs. unfold gettoken. destruct (token_at b (skip_space b s)) as [r eq] eqn:Et.
  pose proof (skip_space_bounds s Hs) as Hb.
  destruct (token_spec (skip_space b s) r eq) as (Hb' & Hlt & Hw); [lia|by apply not_space_end|done|].
  pose proof (skip_space_bounds eq ltac:(lia)) as Hb2.
  exists r, (skip_space b s), eq, (skip_space b eq). split; [done|]. do 2 (split; [lia|]). split.
  - intros H97. split; [by apply Hw|]. destruct (Hw H97) as [H _]. simpl in H. lia.
  - intros Hsp Hl. rewrite skip_space_id in Hlt by done. lia.
Qed.

Lemma peek_spec toks s : (s <= es)%nat → ∃ r s', peek b toks s = Ret r s' ∧ (s <= s' <= es)%nat ∧
  is_space (at_ b s') = false ∧ (r = true → s' < es)%nat.
Proof.
  intros Hs. pose proof (skip_space_bounds s Hs) as Hb. eexists _, _. split; [done|].
  split_and!; try lia; [by apply not_space_end|]. intros [Hn _]%andb_true_iff.
  destruct (decide (skip_space b s < es)%nat); [done|]. rewrite at_end in Hn by lia. done.
Qed.

(** The outcome of a parsing function that starts at [s]: it panics, or it
    returns a command with [Q] and a pointer that has not moved back.  It never
    runs out of fuel. *)
Definition parses (s : nat) (Q : cmd → Prop) (r : comp nat unit cmd) : Prop :=
  match r with
  | Ret c s' => (s <= s' <= es)%nat ∧ Q c
  | Panic _ _ => True
  | _ => False
  end.

Lemma parses_bind s (Q R : cmd → Prop) (m : P cmd) (k : cmd → P cmd) : parses s Q (m s) →
  (∀ c s', (s <= s' <= es)%nat → Q c → parses s' R (k c s')) → parses s R (bind m k s).
Proof.
  intros Hm Hk. unfold bind. destruct (m s) as [c s'| | | |]; simpl in *; try done.
  destruct Hm as [Hs HQ]. specialize (Hk c s' Hs HQ). destruct (k c s'); simpl in *; try done.
  destruct Hk. split; [lia|done].
Qed.

Lemma parses_later s s' Q r : (s <= s')%nat → parses s' Q r → parses s Q r.
Proof. intros H. destruct r; simpl; try done. intros [? ?]. split; [lia|done]. Qed.

Lemma parses_mono s (Q R : cmd → Prop) r : parses s Q r → (∀ c, Q c → R c) → parses s R r.
Proof. intros H HQ. destruct r; simpl in *; try done. destruct H. auto. Qed.

Lemma parses_peek s R toks (k : bool → P cmd) : (s <= es)%nat →
  (∀ r s', (s <= s' <= es)%nat → is_space (at_ b s') = false → (r = true → s' < es)%nat →
    parses s' R (k r s')) → parses s R (bind (peek b toks) k s).
Proof.
  intros Hs Hk. destruct (peek_spec toks s Hs) as (r & s' & E & Hb & Hsp & Hr).
  unfold bind. rewrite E. simpl. apply (parses_later s s'); [lia|]. by apply Hk.
Qed.

Lemma parses_token s R (k : Z * nat * nat → P cmd) : (s <= es)%nat →
  (∀ r q eq s', (s <= s' <= es)%nat → (r = 97 → word_at b (q, eq) ∧ (s < s')%nat) →
    (is_space (at_ b s) = false → s < es → s < s')%nat → parses s' R (k (r, q, eq) s')) →
  parses s R (bind (gettoken b) k s).
Proof.
  intros Hs Hk. destruct (gettoken_spec s Hs) as (r & q & eq & s' & E & Hq & Hb & Hw & Hlt).
  unfold bind. rewrite E. simpl. apply (parses_later s s'); [lia|]. apply Hk; [lia| |done].
  intros H. destruct (Hw H). split; [done|lia].
Qed.

Lemma typed_redir c q eq mode fd : typed b c → word_at b (q, eq) →
  (mode = O_RDONLY ∧ fd = 0) ∨ (mode = Z.lor O_WRONLY O_CREATE ∧ fd = 1) →
  typed b (REDIR c q eq mode fd).
Proof.
  intros [Hw Ha] Hq Hm. split; simpl; [|done]. apply Forall_app. split; [done|]. by constructor.
Qed.

Lemma typed_add_arg c q eq : typed b c → is_exec c → word_at b (q, eq) → (S (nargs c) < MAXARGS)%nat →
  typed b (add_arg q eq c) ∧ is_exec (add_arg q eq c) ∧ nargs (add_arg q eq c) = S (nargs c).
Proof.
  intros [Hw Ha] He Hq Hn. unfold typed.
  induction c as [argv|c IH f ef m fd| | |]; simpl in *; try done.
  - rewrite length_app. simpl. split_and!; [apply Forall_app; split; [done|by constructor]|lia|done|lia].
  - apply Forall_app in Hw as [Hw Hf]. destruct Ha as [Ha Hm].
    destruct (IH Hw Ha He Hn) as ([Hw' Ha'] & He' & Hn'). split_and!; try done.
    apply Forall_app. done.
Qed.

Lemma parseredirs_ok fuel : ∀ c s, (s <= es)%nat → (es - s < fuel)%nat → typed b c →
  parses s (λ c', typed b c' ∧ nargs c' = nargs c ∧ (is_exec c → is_exec c')) (parseredirs b fuel c s).
Proof.
  induction fuel as [|fuel IH]; intros c s Hs Hf Hc; [lia|]. cbn [parseredirs].
  apply parses_peek; [done|]. intros [|] s1 Hs1 Hsp Hlt; [|simpl; split; [lia|done]].
  specialize (Hlt eq_refl). apply parses_token; [lia|]. intros tok q0 eq0 s2 Hs2 _ Hgt.
  specialize (Hgt Hsp Hlt). apply parses_token; [lia|]. intros t q eq s3 Hs3 Hw _.
  destruct (Z.eqb_spec t 97) as [->|]; [|done]. cbn [negb]. destruct (Hw eq_refl) as [Hq _].
  set (c' := if tok =? 60 then _ else _).
  assert (typed b c' ∧ nargs c' = nargs c ∧ (is_exec c → is_exec c')) as (Hc' & Hn' & He').
  { unfold c'. repeat case_match; split_and!; try done; apply typed_redir; auto. }
  eapply parses_mono; [apply (IH c' s3); [lia|lia|done]|].
  simpl. intros c2 (H1 & H2 & H3). split_and!; [done|congruence|auto].
Qed.

Lemma parseargs_ok fuel : ∀ argc c s, (s <= es)%nat → (es - s < fuel)%nat → typed b c → is_exec c →
  nargs c = argc → parses s (typed b) (parseargs b fuel argc c s).
Proof.
  induction fuel as [|fuel IH]; intros argc c s Hs Hf Hc He Hn; [lia|]. cbn [parseargs].
  apply parses_peek; [done|]. intros [|] s1 Hs1 Hsp Hlt; [simpl; split; [lia|done]|].
  apply parses_token; [lia|]. intros tok q eq s2 Hs2 Hw _.
  destruct (tok =? 0); [simpl; split; [lia|done]|].
  destruct (Z.eqb_spec tok 97) as [->|]; [|done]. cbn [negb]. destruct (Hw eq_refl) as [Hq Hgt].
  cbv zeta. destruct (Nat.leb_spec MAXARGS (S argc)) as [|Hmax]; [done|].
  destruct (typed_add_arg c q eq) as (Hc' & He' & Hn'); [done..|by rewrite Hn|].
  eapply parses_bind; [apply parseredirs_ok; [lia|unfold loop_fuel; lia|exact Hc']|].
  cbn beta. intros c2 s3 Hs3 (Hc2 & Hn2 & He2). apply IH; auto; try lia.
Qed.

Lemma parseback_ok fuel : ∀ c s, (s <= es)%nat → (es - s < fuel)%nat → typed b c →
  parses s (typed b) (parseback b fuel c s).
Proof.
  induction fuel as [|fuel IH]; intros c s Hs Hf Hc; [lia|]. cbn [parseback].
  apply parses_peek; [done|]. intros [|] s1 Hs1 Hsp Hlt; [|simpl; split; [lia|done]].
  specialize (Hlt eq_refl). apply parses_token; [lia|]. intros tok q eq s2 Hs2 _ Hgt.
  specialize (Hgt Hsp Hlt). apply IH; [lia|lia|done].
Qed.

Lemma typed_pair c1 c2 (f : cmd → cmd → cmd) : f = PIPE ∨ f = LIST → typed b c1 → typed b c2 →
  typed b (f c1 c2).
Proof.
  intros Hf [H1 H2] [H3 H4]. destruct Hf as [-> | ->]; split; simpl; try done; by apply Forall_app.
Qed.

(** All four functions of the grammar, by induction on the fuel. *)
Lemma parse_ok fuel : ∀ s, (s <= es)%nat →
  ((4 * (es - s) + 4 <= fuel)%nat → parses s (typed b) (parseline b fuel s)) ∧
  ((4 * (es - s) + 3 <= fuel)%nat → parses s (typed b) (parsepipe b fuel s)) ∧
  ((4 * (es - s) + 2 <= fuel)%nat → parses s (typed b) (parseexec b fuel s)) ∧
  ((4 * (es - s) + 1 <= fuel)%nat → parses s (typed b) (parseblock b fuel s)).
Proof.
  induction fuel as [|fuel IH]; intros s Hs; [split_and!; lia|].
  assert (∀ s', (s <= s' <= es)%nat → (es - s' < loop_fuel b)%nat) as Hloop by (unfold loop_fuel; lia).
  split_and!; intros Hf.
  - cbn [parseline]. eapply parses_bind; [apply IH; lia|]. intros c s1 Hs1 Hc.
    eapply parses_bind; [apply parseback_ok; [lia|auto with lia|done]|]. intros c2 s2 Hs2 Hc2.
    apply parses_peek; [lia|]. intros [|] s3 Hs3 Hsp Hlt; [|simpl; split; [lia|done]].
    specialize (Hlt eq_refl). apply parses_token; [lia|]. intros tok q eq s4 Hs4 _ Hgt.
    specialize (Hgt Hsp Hlt). eapply parses_bind; [apply IH; lia|]. intros c3 s5 Hs5 Hc3.
    simpl. split; [lia|]. by apply typed_pair; auto.
  - cbn [parsepipe]. eapply parses_bind; [apply IH; lia|]. intros c s1 Hs1 Hc.
    apply parses_peek; [lia|]. intros [|] s3 Hs3 Hsp Hlt; [|simpl; split; [lia|done]].
    specialize (Hlt eq_refl). apply parses_token; [lia|]. intros tok q eq s4 Hs4 _ Hgt.
    specialize (Hgt Hsp Hlt). eapply parses_bind; [apply IH; lia|]. intros c3 s5 Hs5 Hc3.
    simpl. split; [lia|]. by apply typed_pair; auto.
  - cbn [parseexec]. apply parses_peek; [lia|]. intros [|] s1 Hs1 Hsp Hlt.
    + apply IH; lia.
    + assert (typed b (EXEC [])) as H0 by (split; simpl; [done|unfold MAXARGS; lia]).
      eapply parses_bind; [apply parseredirs_ok; [lia|auto with lia|exact H0]|].
      cbn beta. intros c s2 Hs2 (Hc & Hn & He). apply parseargs_ok; [lia|auto with lia|done|by apply He|done].
  - cbn [parseblock]. apply parses_peek; [lia|]. intros [|] s1 Hs1 Hsp Hlt; [|done]. cbn [negb].
    specialize (Hlt eq_refl). apply parses_token; [lia|]. intros tok q eq s2 Hs2 _ Hgt.
    specialize (Hgt Hsp Hlt). eapply parses_bind; [apply IH; lia|]. intros c s3 Hs3 Hc.
    apply parses_peek; [lia|]. intros [|] s4 Hs4 Hsp4 Hlt4; [|done]. cbn [negb].
    apply parses_token; [lia|]. intros tok2 q2 eq2 s5 Hs5 _ _.
    eapply parses_mono; [apply parseredirs_ok; [lia|auto with lia|exact Hc]|].
    simpl. by intros c2 (H1 & _).
Qed.
End parser.

(** ** The strings of a command *)

(** Commands with their strings. *)
Inductive scmd : Type :=
| SExec (argv : list (list Z))
| SRedir (c : scmd) (file : list Z) (mode fd : Z)
| SPipe (left right : scmd)
| SList (left right : scmd)
| SBack (c : scmd).

Fixpoint resolve (f : nat * nat → list Z) (c : cmd) : scmd :=
  match c with
  | EXEC argv => SExec (map f argv)
  | REDIR c file efile mode fd => SRedir (resolve f c) (f (file, efile)) mode fd
  | PIPE l r => SPipe (resolve f l) (resolve f r)
  | LIST l r => SList (resolve f l) (resolve f r)
  | BACK c => SBack (resolve f c)
  end.

(** The C string at an offset of a buffer. *)
Fixpoint upto_nul (l : list Z) : list Z :=
  match l with
  | [] => []
  | x :: l => if x =? 0 then [] else x :: upto_nul l
  end.

Definition string_at (buf : list Z) (p : nat * nat) : list Z := upto_nul (drop p.1 buf).

(** The part of the line between two pointers. *)
Definition part (b : list Z) (p : nat * nat) : list Z := take (p.2 - p.1) (drop p.1 b).

Lemma resolve_ext f g c : (∀ p, p ∈ words_of c → f p = g p) → resolve f c = resolve g c.
Proof.
  induction c as [argv|c IH file efile m fd|l IHl r IHr|l IHl r IHr|c IH]; simpl; intros H.
  - f_equal. apply map_ext_in. intros p Hp. by apply H, list_elem_of_In.
  - f_equal; [apply IH; intros; apply H; set_solver|apply H; set_solver].
  - f_equal; [apply IHl|apply IHr]; intros; apply H; set_solver.
  - f_equal; [apply IHl|apply IHr]; intros; apply H; set_solver.
  - f_equal. apply IH. intros. apply H; set_solver.
Qed.

Lemma nulterminate_foldl c buf :
  nulterminate c buf = foldl (λ buf p, <[p.2 := 0]> buf) buf (words_of c).
Proof.
  revert buf. induction c as [argv|c IH file efile m fd|l IHl r IHr|l IHl r IHr|c IH];
    intros buf; simpl; try done; rewrite ?foldl_app, ?IH, ?IHl, ?IHr; done.
Qed.

Lemma zeros_length (l : list (nat * nat)) (buf : list Z) :
  length (foldl (λ buf p, <[p.2 := 0]> buf) buf l) = length buf.
Proof.
  revert buf. induction l as [|p l IH]; intros buf; simpl; [done|]. by rewrite IH, length_insert.
Qed.

Lemma zeros_lookup (l : list (nat * nat)) (buf : list Z) i :
  foldl (λ buf p, <[p.2 := 0]> buf) buf l !! i =
    if bool_decide (i ∈ map snd l) then (λ _, 0) <$> buf !! i else buf !! i.
Proof.
  revert buf. induction l as [|p l IH]; intros buf; simpl; [done|]. rewrite IH.
  destruct (decide (i ∈ map snd l)) as [Hi|Hi].
  - rewrite !bool_decide_true by set_solver.
    destruct (decide (i = p.2)) as [->|Hne]; [|by rewrite list_lookup_insert_ne].
    destruct (decide (p.2 < length buf)%nat).
    + rewrite list_lookup_insert_eq by done. by destruct (lookup_lt_is_Some_2 buf p.2 l0) as [x ->].
    + by rewrite list_insert_ge by lia.
  - rewrite (bool_decide_false (i ∈ map snd l)) by done.
    destruct (decide (i = p.2)) as [->|Hne].
    + rewrite bool_decide_true by set_solver. destruct (decide (p.2 < length buf)%nat).
      * rewrite list_lookup_insert_eq by done. by destruct (lookup_lt_is_Some_2 buf p.2 l0) as [x ->].
      * rewrite list_insert_ge by lia. by rewrite lookup_ge_None_2 by lia.
    + rewrite bool_decide_false by set_solver. by rewrite list_lookup_insert_ne.
Qed.

(** A string that agrees with the line up to a terminating 0. *)
Lemma string_at_part b buf n : ∀ q, (∀ i, (q <= i < q + n)%nat → buf !! i = b !! i ∧ at_ b i ≠ 0) →
  (q + n <= length b)%nat → buf !! (q + n)%nat = Some 0 →
  string_at buf (q, (q + n)%nat) = part b (q, (q + n)%nat).
Proof.
  unfold string_at, part. cbn [fst snd]. induction n as [|n IH]; intros q Hi Hl H0.
  - rewrite Nat.add_0_r in *. rewrite Nat.sub_diag. by rewrite (drop_S _ 0 q H0).
  - destruct (Hi q ltac:(lia)) as [Eq Hq]. destruct (lookup_lt_is_Some_2 b q ltac:(lia)) as [x Hx].
    rewrite (at_lt _ _ _ Hx) in Hq. rewrite Hx in Eq. rewrite (drop_S _ x q Eq), (drop_S _ x q Hx).
    replace (q + S n - q)%nat with (S (S q + n - S q)) by lia. rewrite firstn_cons. cbn [upto_nul].
    destruct (Z.eqb_spec x 0); [done|]. f_equal. apply IH; [|lia|].
    + intros i Hi'. apply Hi. lia.
    + by rewrite Nat.add_succ_comm.
Qed.

(** No terminating 0 falls into a word. *)
Lemma terminated_string b c p : 0 ∉ b → Forall (word_at b) (words_of c) → p ∈ words_of c →
  string_at (nulterminate c (b ++ [0])) p = part b p.
Proof.
  intros Hnul Hw Hp. rewrite list.Forall_forall in Hw. destruct p as [q e].
  destruct (Hw (q, e) Hp) as (Hqe & Hword & _). cbn [fst snd] in *.
  replace e with (q + (e - q))%nat by lia. apply string_at_part; [|lia|].
  - intros i Hi. rewrite nulterminate_foldl, zeros_lookup, bool_decide_false.
    + rewrite lookup_app_l by lia. split; [done|]. by apply at_nonzero; [|lia].
    + intros Hin. apply list_elem_of_In, in_map_iff in Hin as ([q' e'] & <- & Hp').
      apply list_elem_of_In in Hp'. destruct (Hw _ Hp') as (Hqe' & _ & Hend). cbn [fst snd] in *.
      specialize (Hword e' ltac:(lia)). destruct Hend; [lia|congruence].
  - replace (q + (e - q))%nat with e by lia. rewrite nulterminate_foldl, zeros_lookup, bool_decide_true.
    + destruct (lookup_lt_is_Some_2 (b ++ [0]) e) as [x ->]; [|done]. rewrite length_app. simpl. lia.
    + apply list_elem_of_In, in_map_iff. exists (q, e). split; [done|]. by apply list_elem_of_In.
Qed.

Lemma parsecmd_run b c s r s' : parseline b (parse_fuel b) 0%nat = Ret c s → peek b "" s = Ret r s' →
  parsecmd b 0%nat = if (s' =? length b)%nat then Ret (c, nulterminate c (b ++ [0])) s'
                     else Panic "leftovers" s'.
Proof.
  intros E1 E2. unfold parsecmd. unfold bind at 1. rewrite E1. cbn [cbind]. unfold bind at 1.
  rewrite E2. cbn [cbind]. rewrite bind_get. by destruct (s' =? length b)%nat.
Qed.

Lemma parsecmd_cases b : 0 ∉ b →
  (∃ msg s, parsecmd b 0%nat = Panic msg s) ∨
  (∃ c buf, parsecmd b 0%nat = Ret (c, buf) (length b) ∧ typed b c ∧
    resolve (string_at buf) c = resolve (part b) c).
Proof.
  intros Hnul. pose proof (parse_ok b Hnul (parse_fuel b) 0%nat ltac:(lia)) as [Hp _].
  specialize (Hp ltac:(unfold parse_fuel; lia)).
  destruct (parseline b (parse_fuel b) 0%nat) as [c s|msg s|j s|s k|s] eqn:El; simpl in Hp; try done.
  2:{ left. exists msg, s. unfold parsecmd, bind. by rewrite El. }
  destruct Hp as [Hs [Hw Ha]]. destruct (peek_spec b "" s) as (r & s' & E & Hb & _); [lia|].
  rewrite (parsecmd_run b c s r s' El E). destruct (Nat.eqb_spec s' (length b)) as [->|]; [|left; by eexists _, _].
  right. exists c, (nulterminate c (b ++ [0])). split; [done|]. split; [by split|].
  apply resolve_ext. intros p Hp. by apply terminated_string.
Qed.

