(* ===== verification/Shprint.v ===== *)
(** * Printing and parsing of shell commands

    A printer for the commands of [sh.c] and the proof that [parsecmd] reads
    back every command from its printed form.  Every token is followed by a
    space, and parentheses are put where the grammar needs them. *)

From stdpp Require Import base numbers option list sets strings gmap.
From Stdlib Require Import ZArith Lia.
From S2P Require Import Prelude Console Ulib Shparse.

(** ** The printer *)

Definition tok (w : list Z) : list Z := w ++ [32].

Definition paren (need : bool) (l : list Z) : list Z :=
  if need then [40; 32] ++ l ++ [41; 32] else l.

(** [<] for the mode [O_RDONLY], [>] for the other. *)
Definition redir_sign (mode : Z) : Z := if mode =? O_RDONLY then 60 else 62.

Definition show_redir (r : list Z * Z) : list Z := [redir_sign r.2; 32] ++ tok r.1.

(** The levels of the grammar: 0 a line, 1 a line without [;], 2 a pipeline, 3
    a simple command or block. *)
Fixpoint show (level : nat) (c : scmd) : list Z :=
  match c with
  | SExec argv => concat (map tok argv)
  | SRedir c file mode _ => show 3 c ++ show_redir (file, mode)
  | SPipe l r => paren (2 <? level)%nat (show 3 l ++ [124; 32] ++ show 2 r)
  | SBack c => paren (1 <? level)%nat (show 1 c ++ [38; 32])
  | SList l r => paren (0 <? level)%nat (show 1 l ++ [59; 32] ++ show 0 r)
  end.

(** The commands that can be printed: words without blanks and symbols, at most
    nine arguments, redirections of the two kinds. *)
Definition good_word (w : list Z) : Prop := w ≠ [] ∧ 0 ∉ w ∧ Forall (λ c, is_word c = true) w.

Fixpoint good (c : scmd) : Prop :=
  match c with
  | SExec argv => Forall good_word argv ∧ (length argv < MAXARGS)%nat
  | SRedir c file mode fd => good c ∧ good_word file ∧
      ((mode = O_RDONLY ∧ fd = 0) ∨ (mode = Z.lor O_WRONLY O_CREATE ∧ fd = 1))
  | SPipe l r => good l ∧ good r
  | SBack c => good c
  | SList l r => good l ∧ good r
  end.

(** ** The lexer on printed text *)

(** The text from [s] on does not start with a space. *)
Definition starts (l : list Z) : Prop :=
  match l with [] => True | c :: _ => is_space c = false ∧ c ≠ 0 end.

(** The text is at its end or starts with one of the given characters. *)
Definition follows (toks : list Z) (l : list Z) : Prop :=
  match l with [] => True | c :: _ => c ∈ toks end.

Lemma at_drop b s : at_ b s = hd 0 (drop s b).
Proof.
  unfold at_. destruct (b !! s) as [x|] eqn:E; simpl.
  - by rewrite (drop_S _ _ _ E).
  - by rewrite drop_ge by by apply lookup_ge_None_1.
Qed.

Lemma drop_more (b : list Z) s l r : drop s b = l ++ r → drop (s + length l) b = r.
Proof. intros H. by rewrite <- drop_drop, H, drop_app_length. Qed.

Lemma drop_le (b : list Z) s l : drop s b = l → l ≠ [] → (s < length b)%nat.
Proof.
  intros H Hl. destruct (decide (s < length b)%nat); [done|]. rewrite drop_ge in H by lia. by subst.
Qed.

Lemma skip_space_starts b s : starts (drop s b) → skip_space b s = s.
Proof.
  intros H. apply skip_space_id. rewrite at_drop. destruct (drop s b); [done|]. apply H.
Qed.

Lemma skip_space_one b s l : drop s b = 32 :: l → starts l → skip_space b s = S s.
Proof.
  intros H Hl. pose proof (drop_le b s _ H ltac:(done)) as Hs. unfold skip_space.
  destruct (length b - s)%nat as [|n] eqn:En; [lia|]. cbn [skip_while]. rewrite at_drop, H. simpl hd.
  change (is_space 32) with true. cbn [negb].
  assert (drop (S s) b = l) as H1 by (replace (S s) with (s + 1)%nat by lia; by apply (drop_more b s [32])).
  pose proof (skip_space_starts b (S s)) as Hk. rewrite H1 in Hk. specialize (Hk Hl).
  unfold skip_space in Hk. by replace (length b - S s)%nat with n in Hk by lia.
Qed.

Lemma peek_at b s toks l : drop s b = l → starts l →
  peek b toks s = Ret (match l with [] => false | c :: _ => in_string (chars toks) c end) s.
Proof.
  intros H Hl. unfold peek. rewrite skip_space_starts by by rewrite H. rewrite at_drop, H.
  destruct l as [|c l]; [done|]. simpl hd. destruct Hl as [_ Hc]. by destruct (Z.eqb_spec c 0).
Qed.

(** A symbol followed by a space. *)
Lemma gettoken_sym b s c l : drop s b = [c; 32] ++ l → starts l → c ∈ chars "|();&<>" →
  gettoken b s = Ret (c, s, S s) (s + 2)%nat.
Proof.
  intros H Hl Hc. change (chars "|();&<>") with [124; 40; 41; 59; 38; 60; 62] in Hc.
  assert (starts (c :: 32 :: l)) as Hst.
  { simpl. rewrite is_space_spec, bool_decide_false by (unfold whitespace; set_solver). set_solver. }
  unfold gettoken. rewrite skip_space_starts by by rewrite H.
  assert (drop (S s) b = 32 :: l) as H1.
  { replace (S s) with (s + 1)%nat by lia. by apply (drop_more b s [c]). }
  assert (token_at b s = (c, S s)) as ->.
  { unfold token_at. rewrite !at_drop, H, H1. simpl hd. destruct (Z.eqb_spec c 0); [set_solver|].
    change (chars "|();&<") with [124; 40; 41; 59; 38; 60]. case_bool_decide as Hs; [done|].
    destruct (Z.eqb_spec c 62); [done|set_solver]. }
  rewrite (skip_space_one b (S s) l) by done. f_equal. lia.
Qed.

Lemma skip_while_word b w : ∀ s n l, drop s b = w ++ l → Forall (λ c, is_word c = true) w →
  (length w <= n)%nat → (n = length w ∨ is_word (hd 0 l) = false) →
  skip_while is_word b n s = (s + length w)%nat.
Proof.
  induction w as [|c w IH]; intros s n l H Hw Hn Hend; simpl in *.
  - destruct n as [|n]; simpl; [lia|]. rewrite at_drop, H. destruct Hend as [|Hend]; [lia|]. rewrite Hend. lia.
  - apply Forall_cons in Hw as [Hc Hw]. destruct n as [|n]; [lia|]. simpl.
    rewrite at_drop, H. simpl hd. rewrite Hc. rewrite (IH (S s) n l); [lia| |done|lia|].
    + replace (S s) with (s + 1)%nat by lia. by apply (drop_more b s [c]).
    + destruct Hend; [left; lia|by right].
Qed.

(** The first character of a word is no blank, no 0 and no symbol. *)
Lemma good_word_starts w l : good_word w → starts (w ++ l).
Proof.
  intros (Hne & H0 & Hw). destruct w as [|c w]; [done|]. apply Forall_cons in Hw as [Hc _].
  unfold is_word in Hc. apply andb_true_iff in Hc as [Hc _]. simpl.
  change (in_string whitespace c) with (is_space c) in Hc.
  destruct (is_space c); [done|]. split; [done|]. set_solver.
Qed.

Lemma gettoken_word b s w l : drop s b = tok w ++ l → starts l → good_word w →
  gettoken b s = Ret (97, s, (s + length w)%nat) (s + length (tok w))%nat ∧
  part b (s, (s + length w)%nat) = w.
Proof.
  intros H Hl Hw. unfold tok in *. rewrite <- app_assoc in H.
  pose proof (good_word_starts w ([32] ++ l) Hw) as Hst. destruct Hw as (Hne & H0 & Hw).
  split.
  - unfold gettoken. rewrite skip_space_starts by by rewrite H.
    assert (token_at b s = (97, (s + length w)%nat)) as ->.
    { unfold token_at. pose proof (skip_while_word b w s (length b - s) ([32] ++ l) H Hw) as Hk.
      pose proof (f_equal length H) as Hlen. rewrite length_drop, length_app in Hlen. simpl in Hlen.
      rewrite Hk by first [lia | by right]. rewrite !at_drop, H.
      destruct w as [|c w]; [done|]. simpl hd. apply Forall_cons in Hw as [Hc _].
      rewrite is_word_spec in Hc. apply bool_decide_eq_true in Hc as [_ Hc].
      change symbols with [60; 124; 62; 38; 59; 40; 41] in Hc.
      change (chars "|();&<") with [124; 40; 41; 59; 38; 60].
      destruct (Z.eqb_spec c 0); [set_solver|]. rewrite bool_decide_false by set_solver.
      destruct (Z.eqb_spec c 62); [set_solver|done]. }
    rewrite (skip_space_one b (s + length w) l) by (done || by apply drop_more).
    rewrite length_app. simpl. f_equal. lia.
  - unfold part. cbn [fst snd]. rewrite H. replace (s + length w - s)%nat with (length w) by lia.
    by apply take_app_length.
Qed.

Lemma gettoken_end b s : drop s b = [] → gettoken b s = Ret (0, s, s) s.
Proof.
  intros H. unfold gettoken. rewrite skip_space_starts by by rewrite H.
  unfold token_at. rewrite at_drop, H. simpl. rewrite skip_space_starts by by rewrite H. done.
Qed.

Definition avoids (toks : string) (l : list Z) : Prop :=
  match l with [] => True | c :: _ => c ∉ chars toks end.

Lemma peek_yes b s toks c l : drop s b = c :: l → starts (c :: l) → 0 ∉ chars toks → c ∈ chars toks →
  peek b toks s = Ret true s.
Proof.
  intros H Hl H0 Hc. rewrite (peek_at b s toks (c :: l)) by done.
  by rewrite in_string_spec, bool_decide_true by done.
Qed.

Lemma peek_no b s toks l : drop s b = l → starts l → 0 ∉ chars toks → avoids toks l →
  peek b toks s = Ret false s.
Proof.
  intros H Hl H0 Hc. rewrite (peek_at b s toks l) by done. destruct l as [|c l]; [done|].
  by rewrite in_string_spec, bool_decide_false by done.
Qed.

(** ** Redirections *)

Definition fd_of (mode : Z) : Z := if mode =? O_RDONLY then 0 else 1.

Definition wrap (c : scmd) (rs : list (list Z * Z)) : scmd :=
  foldl (λ c r, SRedir c r.1 r.2 (fd_of r.2)) c rs.

Definition good_redir (r : list Z * Z) : Prop :=
  good_word r.1 ∧ (r.2 = O_RDONLY ∨ r.2 = Z.lor O_WRONLY O_CREATE).

Ltac no_nul := apply (bool_decide_unpack _); by vm_compute.

Lemma show_redirs_starts rs rest : starts rest → starts (concat (map show_redir rs) ++ rest).
Proof.
  intros Hr. destruct rs as [|[f m] rs]; [done|]. simpl. unfold redir_sign. by destruct (m =? O_RDONLY).
Qed.

Lemma parseredirs_none b fuel c s l : drop s b = l → starts l → avoids "<>" l →
  parseredirs b (S fuel) c s = Ret c s.
Proof.
  intros H Hl Ha. cbn [parseredirs]. unfold bind. by rewrite (peek_no b s "<>" l); [|done|done|no_nul|done].
Qed.

Lemma parseredirs_show b rs : ∀ c s rest fuel, drop s b = concat (map show_redir rs) ++ rest →
  starts rest → avoids "<>" rest → Forall good_redir rs → (length b - s < fuel)%nat →
  ∃ c', parseredirs b fuel c s = Ret c' (s + length (concat (map show_redir rs)))%nat ∧
    resolve (part b) c' = wrap (resolve (part b) c) rs.
Proof.
  induction rs as [|[f m] rs IH]; intros c s rest fuel H Hr Ha Hg Hf;
    (destruct fuel as [|fuel]; [lia|]).
  - exists c. rewrite (parseredirs_none b fuel c s rest) by done. simpl. by rewrite Nat.add_0_r.
  - cbn [parseredirs]. apply Forall_cons in Hg as [[Hw Hm] Hg]. cbn [fst snd] in *. cbn [map concat] in H |- *.
    rewrite <- app_assoc in H. unfold show_redir at 1 in H. cbn [fst snd] in H. rewrite <- app_assoc in H.
    pose proof (show_redirs_starts rs rest Hr) as Hst. pose proof (drop_le b s _ H ltac:(done)) as Hlt.
    set (c0 := redir_sign m) in *.
    assert (c0 ∈ [60; 62]) as Hc0 by (unfold c0, redir_sign; destruct (m =? O_RDONLY); set_solver).
    unfold bind at 1. rewrite (peek_yes b s "<>" c0 (32 :: tok f ++ concat (map show_redir rs) ++ rest));
      [|done|unfold c0, redir_sign; by destruct (m =? O_RDONLY)|no_nul|done]. cbn [cbind].
    unfold bind at 1. rewrite (gettoken_sym b s c0 (tok f ++ concat (map show_redir rs) ++ rest));
      [|done|unfold tok; rewrite <- app_assoc; by apply good_word_starts
       |change (chars "|();&<>") with [124; 40; 41; 59; 38; 60; 62]; set_solver]. cbn [cbind].
    apply (drop_more b s [c0; 32]) in H. change (length [c0; 32]) with 2%nat in H.
    destruct (gettoken_word b (s + 2) f _ H Hst Hw) as [Et Ep]. unfold bind at 1. rewrite Et. cbn [cbind].
    apply drop_more in H. cbv zeta. rewrite Z.eqb_refl. cbn [negb].
    match goal with |- context [parseredirs b fuel ?x _] =>
      destruct (IH x _ rest fuel H Hr Ha Hg) as (c' & E & Hc') end;
      [unfold tok; rewrite length_app; simpl; lia|].
    rewrite E. exists c'. split.
    + f_equal. unfold show_redir at 2. cbn [fst snd]. rewrite !length_app. simpl. lia.
    + rewrite Hc'. unfold wrap. cbn [foldl]. f_equal. cbn [fst snd].
      unfold c0, redir_sign, fd_of. destruct Hm as [-> | ->]; simpl; by rewrite Ep.
Qed.

(** ** Arguments *)

Definition show_args (ws : list (list Z)) : list Z := concat (map tok ws).

Lemma show_args_starts ws l : Forall good_word ws → starts l → starts (show_args ws ++ l).
Proof.
  intros Hw Hl. destruct ws as [|w ws]; [done|]. apply Forall_cons in Hw as [Hw _].
  unfold show_args. cbn [map concat]. unfold tok at 1. rewrite <- !app_assoc. by apply good_word_starts.
Qed.

Lemma good_word_avoids toks w l : good_word w → Forall (λ c, is_word c = false) (chars toks) →
  avoids toks (w ++ l).
Proof.
  intros (Hne & H0 & Hw) Ht. destruct w as [|c w]; [done|]. apply Forall_cons in Hw as [Hc _].
  simpl. intros Hin. rewrite list.Forall_forall in Ht. apply Ht in Hin. congruence.
Qed.

(** At the end of a simple command the loop stops. *)
Lemma parseargs_end b fuel argc r s rest : drop s b = rest → starts rest →
  follows (chars "|)&;") rest → parseargs b (S fuel) argc r s = Ret r s.
Proof.
  intros H Hr Hf. cbn [parseargs]. unfold bind at 1. destruct rest as [|c rest].
  - rewrite (peek_no b s "|)&;" []); [|done|done|no_nul|done]. cbn [cbind].
    unfold bind at 1. by rewrite gettoken_end.
  - by rewrite (peek_yes b s "|)&;" c rest); [|done|done|no_nul|done].
Qed.

Lemma follows_avoids rest : follows (chars "|)&;") rest → avoids "<>" rest.
Proof.
  destruct rest as [|c rest]; [done|]. simpl. change (chars "|)&;") with [124; 41; 38; 59].
  change (chars "<>") with [60; 62]. set_solver.
Qed.

Lemma parseargs_show b ws : ∀ argv s rs rest fuel,
  drop s b = show_args ws ++ concat (map show_redir rs) ++ rest → starts rest →
  follows (chars "|)&;") rest → Forall good_word ws → Forall good_redir rs →
  (length argv + length ws < MAXARGS)%nat → (ws = [] → rs = []) → (length b - s < fuel)%nat →
  ∃ c', parseargs b fuel (length argv) (EXEC argv) s
        = Ret c' (s + length (show_args ws ++ concat (map show_redir rs)))%nat ∧
    resolve (part b) c' = wrap (SExec (map (part b) argv ++ ws)) rs.
Proof.
  induction ws as [|w ws IH]; intros argv s rs rest fuel H Hr Hf Hw Hg Hn Hrs Hfu;
    (destruct fuel as [|fuel]; [lia|]).
  { rewrite Hrs in * by done. exists (EXEC argv). rewrite (parseargs_end b fuel _ _ s rest) by done.
    cbn. by rewrite app_nil_r, Nat.add_0_r. }
  apply Forall_cons in Hw as [Hw Hws]. cbn [parseargs]. unfold show_args in H. cbn [map concat] in H.
  rewrite <- app_assoc in H. fold (show_args ws) in H.
  assert (s < length b)%nat as Hlt by (apply (drop_le b s _ H); unfold tok; by destruct w).
  pose proof (show_redirs_starts rs rest Hr) as Hst1. pose proof (show_args_starts ws _ Hws Hst1) as Hst.
  assert (starts (tok w ++ show_args ws ++ concat (map show_redir rs) ++ rest)) as Hst0.
  { unfold tok. rewrite <- app_assoc. by apply good_word_starts. }
  unfold bind at 1. rewrite (peek_no b s "|)&;" _ H Hst0);
    [|no_nul|unfold tok; rewrite <- app_assoc; apply good_word_avoids; [done|apply (bool_decide_unpack _); by vm_compute]].
  cbn [cbind]. destruct (gettoken_word b s w _ H Hst Hw) as [Et Ep]. unfold bind at 1. rewrite Et. cbn [cbind].
  cbv zeta. change (97 =? 0) with false. change (negb (97 =? 97)) with false. cbn iota.
  destruct (Nat.leb_spec MAXARGS (S (length argv))) as [Hmax|_]; [simpl in Hn; lia|].
  apply drop_more in H. cbn [add_arg]. set (argv' := argv ++ [(s, (s + length w)%nat)]).
  assert (length argv' = S (length argv)) as El by (unfold argv'; rewrite length_app; simpl; lia).
  assert (map (part b) argv' = map (part b) argv ++ [w]) as Em by (unfold argv'; rewrite map_app; simpl; by rewrite Ep).
  destruct ws as [|w' ws].
  - cbn [show_args map concat] in H. simpl app in H.
    destruct (parseredirs_show b rs (EXEC argv') _ rest (loop_fuel b) H Hr (follows_avoids _ Hf) Hg) as (c' & E & Hc').
    { unfold loop_fuel. lia. }
    unfold bind. rewrite E. cbn [cbind]. apply drop_more in H.
    destruct fuel as [|fuel]. { pose proof (f_equal length H). unfold tok in *. rewrite length_app in *. simpl in *. lia. }
    rewrite (parseargs_end b fuel _ c' _ rest) by done. exists c'. split.
    + f_equal. unfold show_args. cbn [map concat]. rewrite app_nil_r, length_app. lia.
    + rewrite Hc'. cbn [resolve]. by rewrite Em.
  - unfold bind. unfold loop_fuel. rewrite (parseredirs_none b _ _ _ _ H Hst).
    2:{ unfold show_args. cbn [map concat]. unfold tok at 1. rewrite <- !app_assoc. apply Forall_cons in Hws as [? _].
        apply good_word_avoids; [done|]. apply (bool_decide_unpack _). by vm_compute. }
    cbn [cbind]. rewrite <- El. destruct (IH argv' _ rs rest fuel H) as (c' & E & Hc'); try done.
    { rewrite El. simpl in Hn |- *. lia. }
    { unfold tok. rewrite length_app. simpl. lia. }
    rewrite E. exists c'. split; [|by rewrite Hc', Em, <- app_assoc]. f_equal. rewrite !length_app.
    unfold show_args at 2. cbn [map concat]. fold (show_args (w' :: ws)). unfold show_args. rewrite !length_app.
    cbn [map concat]. rewrite !length_app. lia.
Qed.

(** ** The structure of a command *)

Fixpoint base (c : scmd) : scmd :=
  match c with SRedir c _ _ _ => base c | c => c end.

Fixpoint redirs (c : scmd) : list (list Z * Z) :=
  match c with SRedir c f m _ => redirs c ++ [(f, m)] | _ => [] end.

Lemma good_base c : good c → good (base c) ∧ Forall good_redir (redirs c) ∧ wrap (base c) (redirs c) = c.
Proof.
  induction c as [argv|c IH f m fd| | |]; simpl; intros Hg; try (split; [exact Hg|by split; [constructor|]]).
  destruct Hg as (Hc & Hf & Hm). destruct (IH Hc) as (H1 & H2 & H3). split_and!; [done| |].
  - apply Forall_app. split; [done|]. constructor; [|done]. split; [done|]. naive_solver.
  - unfold wrap in *. rewrite foldl_app, H3. cbn [foldl fst snd]. f_equal. unfold fd_of.
    destruct Hm as [[-> ->]|[-> ->]]; done.
Qed.

Lemma show_base c : show 3 c = show 3 (base c) ++ concat (map show_redir (redirs c)).
Proof.
  induction c as [argv|c IH f m fd| | |]; simpl; rewrite ?app_nil_r; try done.
  rewrite IH, map_app, concat_app, <- app_assoc. simpl. by rewrite app_nil_r.
Qed.

(** A command that needs parentheses as a simple command. *)
Definition compound (c : scmd) : Prop :=
  match c with SExec _ | SRedir _ _ _ _ => False | _ => True end.

Lemma show_compound c : compound c → show 3 c = [40; 32] ++ show 0 c ++ [41; 32].
Proof. by destruct c. Qed.

Fixpoint unback (c : scmd) : scmd :=
  match c with SBack c => unback c | c => c end.

Fixpoint backs (c : scmd) : nat :=
  match c with SBack c => S (backs c) | _ => 0 end.

Lemma iter_back c : Nat.iter (backs c) SBack (unback c) = c.
Proof. induction c; simpl; try done. by rewrite IHc. Qed.

Definition show_backs (k : nat) : list Z := concat (repeat [38; 32] k).

Lemma show_backs_snoc k : show_backs k ++ [38; 32] = show_backs (S k).
Proof.
  unfold show_backs. induction k as [|k IH]; [done|]. cbn [repeat concat] in *. by rewrite <- app_assoc, IH.
Qed.

Lemma show_unback c : show 1 c = show 2 (unback c) ++ show_backs (backs c).
Proof.
  induction c as [argv|c IH f m fd|l _ r _|l _ r _|c IH]; simpl; rewrite ?app_nil_r; try done.
  rewrite IH, <- app_assoc, show_backs_snoc. done.
Qed.

Fixpoint ssize (c : scmd) : nat :=
  match c with
  | SExec _ => 1
  | SRedir c _ _ _ => S (ssize c)
  | SPipe l r => S (ssize l + ssize r)
  | SList l r => S (ssize l + ssize r)
  | SBack c => S (ssize c)
  end.

Lemma ssize_base c : (ssize (base c) <= ssize c)%nat.
Proof. induction c; simpl; lia. Qed.

Lemma ssize_unback c : (ssize (unback c) <= ssize c)%nat.
Proof. induction c; simpl; lia. Qed.

Lemma good_unback c : good c → good (unback c).
Proof. induction c; simpl; auto. Qed.

Lemma base_not_redir c c' f m fd : base c ≠ SRedir c' f m fd.
Proof. by induction c; simpl. Qed.

(** Printed text starts with a token. *)
Lemma show_starts c : ∀ level rest, good c → starts rest → starts (show level c ++ rest).
Proof.
  induction c as [argv|c IH f m fd|l IHl r IHr|l IHl r IHr|c IH]; intros level rest Hg Hr; cbn [show good] in *.
  - apply (show_args_starts argv rest); [apply Hg|done].
  - rewrite <- app_assoc. apply IH; [apply Hg|]. unfold show_redir, redir_sign. cbn [fst snd].
    by destruct (m =? O_RDONLY).
  - destruct (2 <? level)%nat; cbn [paren]; [done|]. rewrite <- app_assoc. by apply IHl; [apply Hg|].
  - destruct (0 <? level)%nat; cbn [paren]; [done|]. rewrite <- app_assoc. by apply IHl; [apply Hg|].
  - destruct (1 <? level)%nat; cbn [paren]; [done|]. rewrite <- app_assoc. by apply IH.
Qed.

(** ** Parsing what was printed *)

(** The three parsing functions read back the command from its text. *)
Definition parses_as (level k : nat) (ends : string) (parse : list Z → nat → P cmd) (c : scmd) : Prop :=
  ∀ b s rest fuel, drop s b = show level c ++ rest → starts rest → follows (chars ends) rest →
    (4 * length (show level c) + k <= fuel)%nat →
    ∃ c', parse b fuel s = Ret c' (s + length (show level c))%nat ∧ resolve (part b) c' = c.

Definition exec_ok : scmd → Prop := parses_as 3 2 "|)&;" parseexec.
Definition pipe_ok : scmd → Prop := parses_as 2 3 ")&;" parsepipe.
Definition line_ok : scmd → Prop := parses_as 0 4 ")" parseline.

Lemma follows_weaken t1 t2 l : Forall (λ c, c ∈ chars t2) (chars t1) → follows (chars t1) l → follows (chars t2) l.
Proof. intros Ht. destruct l as [|c l]; [done|]. simpl. rewrite list.Forall_forall in Ht. apply Ht. Qed.

Lemma follows_avoid t1 t2 l : Forall (λ c, c ∉ chars t2) (chars t1) → follows (chars t1) l → avoids t2 l.
Proof. intros Ht. destruct l as [|c l]; [done|]. simpl. rewrite list.Forall_forall in Ht. apply Ht. Qed.

Ltac by_chars := apply (bool_decide_unpack _); by vm_compute.

Lemma parseline_S b fuel : parseline b (S fuel) =
  (c <- parsepipe b fuel;; c <- parseback b (loop_fuel b) c;; more <- peek b ";";;
   if more then gettoken b;; r <- parseline b fuel;; ret (LIST c r) else ret c).
Proof. done. Qed.

Lemma parsepipe_S b fuel : parsepipe b (S fuel) =
  (c <- parseexec b fuel;; more <- peek b "|";;
   if more then gettoken b;; r <- parsepipe b fuel;; ret (PIPE c r) else ret c).
Proof. done. Qed.

Lemma parseexec_S b fuel : parseexec b (S fuel) =
  (block <- peek b "(";; if block then parseblock b fuel else
   r <- parseredirs b (loop_fuel b) (EXEC []);; parseargs b (loop_fuel b) 0 r).
Proof. done. Qed.

Lemma parseblock_S b fuel : parseblock b (S fuel) =
  (open <- peek b "(";; if negb open then panic "parseblock" else
   gettoken b;; c <- parseline b fuel;; close <- peek b ")";;
   if negb close then panic "syntax - missing )" else gettoken b;; parseredirs b (loop_fuel b) c).
Proof. done. Qed.

(** Simple commands. *)
Lemma exec_simple c argv : good c → base c = SExec argv → exec_ok c.
Proof.
  intros Hg Hb b s rest fuel H Hr Hf Hfu. destruct (good_base c Hg) as (Hgb & Hgr & Hw).
  rewrite show_base, Hb in H, Hfu |- *. rewrite Hb in Hgb, Hw. destruct Hgb as [Hargs Hn].
  cbn [show] in *. fold (show_args argv) in *. rewrite <- app_assoc in H.
  destruct fuel as [|fuel]; [lia|]. rewrite parseexec_S.
  pose proof (show_redirs_starts (redirs c) rest Hr) as Hst1.
  pose proof (show_args_starts argv _ Hargs Hst1) as Hst.
  assert (avoids "(" (concat (map show_redir (redirs c)) ++ rest)) as Hav1.
  { destruct (redirs c) as [|[f m] rs]; simpl.
    - apply (follows_avoid "|)&;"); [by_chars|done].
    - unfold redir_sign. destruct (m =? O_RDONLY); by_chars. }
  unfold bind at 1. rewrite (peek_no b s "(" _ H Hst); [|no_nul|].
  2:{ destruct argv as [|w ws]; [done|]. apply Forall_cons in Hargs as [Hw1 _].
      unfold show_args. cbn [map concat]. unfold tok at 1. rewrite <- !app_assoc.
      apply good_word_avoids; [done|by_chars]. }
  cbn [cbind]. destruct argv as [|w ws].
  - cbn [show_args map concat app] in H |- *.
    destruct (parseredirs_show b (redirs c) (EXEC []) s rest (loop_fuel b) H Hr (follows_avoids _ Hf) Hgr)
      as (c' & E & Hc'); [unfold loop_fuel; lia|].
    unfold bind. rewrite E. cbn [cbind]. apply drop_more in H. unfold loop_fuel.
    rewrite (parseargs_end b _ _ c' _ rest) by done. exists c'. split; [done|]. by rewrite Hc'.
  - unfold bind, loop_fuel. rewrite (parseredirs_none b _ _ _ _ H Hst).
    2:{ unfold show_args. cbn [map concat]. unfold tok at 1. rewrite <- !app_assoc.
        apply Forall_cons in Hargs as [Hw1 _]. apply good_word_avoids; [done|by_chars]. }
    cbn [cbind]. destruct (parseargs_show b (w :: ws) [] s (redirs c) rest (S (length b)) H Hr Hf Hargs Hgr)
      as (c' & E & Hc'); [done|done|lia|]. change (length []) with 0%nat in E. rewrite E. exists c'. split; [done|]. by rewrite Hc'.
Qed.

(** Blocks. *)
Lemma exec_block c : good c → compound (base c) → line_ok (base c) → exec_ok c.
Proof.
  intros Hg Hb Hl b s rest fuel H Hr Hf Hfu. destruct (good_base c Hg) as (Hgb & Hgr & Hw).
  rewrite show_base, show_compound in H, Hfu |- * by done. rewrite <- !app_assoc in H.
  set (inner := show 0 (base c)) in *. set (rs := concat (map show_redir (redirs c))) in *.
  rewrite !length_app in Hfu. change (length [40; 32]) with 2%nat in Hfu. change (length [41; 32]) with 2%nat in Hfu.
  destruct fuel as [|[|fuel]]; [lia..|]. rewrite parseexec_S.
  pose proof (show_redirs_starts (redirs c) rest Hr) as Hst1. fold rs in Hst1.
  unfold bind at 1. rewrite (peek_yes b s "(" 40 _ H); [|done|no_nul|by_chars]. cbn [cbind]. rewrite parseblock_S.
  unfold bind at 1. rewrite (peek_yes b s "(" 40 _ H); [|done|no_nul|by_chars]. cbn [cbind negb].
  unfold bind at 1. rewrite (gettoken_sym b s 40 _ H); [| |by_chars].
  2:{ unfold inner. by apply show_starts. }
  cbn [cbind]. apply (drop_more b s [40; 32]) in H. change (length [40; 32]) with 2%nat in H.
  destruct (Hl b _ _ fuel H) as (c1 & E1 & Hc1); [done|simpl; by_chars|fold inner; lia|].
  fold inner in E1. unfold bind at 1. rewrite E1. cbn [cbind]. apply drop_more in H.
  unfold bind at 1. rewrite (peek_yes b _ ")" 41 _ H); [|done|no_nul|by_chars]. cbn [cbind negb].
  unfold bind at 1. rewrite (gettoken_sym b _ 41 _ H Hst1) by by_chars. cbn [cbind].
  apply (drop_more b _ [41; 32]) in H. change (length [41; 32]) with 2%nat in H.
  destruct (parseredirs_show b (redirs c) c1 _ rest (loop_fuel b) H Hr (follows_avoids _ Hf) Hgr)
    as (c' & E & Hc'); [unfold loop_fuel; lia|].
  rewrite E. exists c'. split; [|by rewrite Hc', Hc1]. f_equal. fold rs. rewrite !length_app.
  change (length [40; 32]) with 2%nat. change (length [41; 32]) with 2%nat. lia.
Qed.

(** Pipelines. *)
Lemma pipe_exec c : show 2 c = show 3 c → exec_ok c → pipe_ok c.
Proof.
  intros E He b s rest fuel H Hr Hf Hfu. rewrite E in H, Hfu |- *. destruct fuel as [|fuel]; [lia|].
  rewrite parsepipe_S. destruct (He b s rest fuel H Hr) as (c' & Ec & Hc');
    [by apply (follows_weaken ")&;"); [by_chars|]|lia|].
  unfold bind at 1. rewrite Ec. cbn [cbind]. apply drop_more in H.
  unfold bind at 1. rewrite (peek_no b _ "|" rest H Hr); [|no_nul|by apply (follows_avoid ")&;"); [by_chars|]].
  by exists c'.
Qed.

Lemma pipe_pipe l r : good r → exec_ok l → pipe_ok r → pipe_ok (SPipe l r).
Proof.
  intros Hg Hl Hp b s rest fuel H Hr Hf Hfu. change (show 2 (SPipe l r)) with (show 3 l ++ [124; 32] ++ show 2 r) in *.
  rewrite <- !app_assoc in H. rewrite !length_app in Hfu |- *. change (length [124; 32]) with 2%nat in *.
  destruct fuel as [|fuel]; [lia|]. rewrite parsepipe_S.
  destruct (Hl b s _ fuel H) as (c1 & E1 & Hc1); [done|simpl; by_chars|lia|].
  unfold bind at 1. rewrite E1. cbn [cbind]. apply drop_more in H.
  unfold bind at 1. rewrite (peek_yes b _ "|" 124 _ H); [|done|no_nul|by_chars]. cbn [cbind].
  unfold bind at 1. rewrite (gettoken_sym b _ 124 _ H); [|by apply show_starts|by_chars]. cbn [cbind].
  apply (drop_more b _ [124; 32]) in H. change (length [124; 32]) with 2%nat in H.
  destruct (Hp b _ rest fuel H Hr Hf) as (c2 & E2 & Hc2); [lia|]. unfold bind at 1. rewrite E2. cbn [cbind].
  exists (PIPE c1 c2). split; [unfold ret; f_equal; lia|]. cbn [resolve]. by rewrite Hc1, Hc2.
Qed.

(** The loop over [&]. *)
Lemma show_backs_starts k rest : starts rest → starts (show_backs k ++ rest).
Proof. by destruct k. Qed.

Lemma parseback_show b k : ∀ c s rest fuel, drop s b = show_backs k ++ rest → starts rest →
  follows (chars ");") rest → (length b - s < fuel)%nat →
  ∃ c', parseback b fuel c s = Ret c' (s + length (show_backs k))%nat ∧
    resolve (part b) c' = Nat.iter k SBack (resolve (part b) c).
Proof.
  induction k as [|k IH]; intros c s rest fuel H Hr Hf Hfu; (destruct fuel as [|fuel]; [lia|]); cbn [parseback].
  - unfold bind. rewrite (peek_no b s "&" rest); [|done|done|no_nul|by apply (follows_avoid ");"); [by_chars|]].
    exists c. simpl. by rewrite Nat.add_0_r.
  - change (show_backs (S k)) with ([38; 32] ++ show_backs k) in *. rewrite <- app_assoc in H.
    pose proof (drop_le b s _ H ltac:(done)) as Hlt.
    unfold bind at 1. rewrite (peek_yes b _ "&" 38 _ H); [|done|no_nul|by_chars]. cbn [cbind].
    unfold bind at 1. rewrite (gettoken_sym b _ 38 _ H); [|by apply show_backs_starts|by_chars]. cbn [cbind].
    apply (drop_more b _ [38; 32]) in H. change (length [38; 32]) with 2%nat in H.
    unfold backcmd. destruct (IH (BACK c) _ rest fuel H Hr Hf) as (c' & E & Hc'); [lia|]. rewrite E. exists c'.
    split; [f_equal; rewrite length_app; simpl; lia|]. rewrite Hc'. cbn [resolve]. by rewrite Nat.iter_succ_r.
Qed.

(** A line up to its [;]. *)
Lemma line_front c : good c → pipe_ok (unback c) →
  ∀ b s rest fuel, drop s b = show 1 c ++ rest → starts rest → follows (chars ");") rest →
    (4 * length (show 1 c) + 3 <= fuel)%nat →
    ∃ c', bind (parsepipe b fuel) (parseback b (loop_fuel b)) s = Ret c' (s + length (show 1 c))%nat ∧
      resolve (part b) c' = c.
Proof.
  intros Hg Hp b s rest fuel H Hr Hf Hfu. rewrite show_unback in H, Hfu |- *. rewrite <- app_assoc in H.
  rewrite length_app in Hfu |- *.
  destruct (Hp b s _ fuel H) as (c1 & E1 & Hc1); [by apply show_backs_starts| |lia|].
  { destruct (backs c); [|simpl; by_chars]. by apply (follows_weaken ");"); [by_chars|]. }
  unfold bind. rewrite E1. cbn [cbind]. apply drop_more in H.
  destruct (parseback_show b (backs c) c1 _ rest (loop_fuel b) H Hr Hf) as (c' & E & Hc');
    [unfold loop_fuel; lia|]. rewrite E. exists c'. split; [f_equal; lia|]. by rewrite Hc', Hc1, iter_back.
Qed.

Lemma parseline_front b fuel s c' s' : bind (parsepipe b fuel) (parseback b (loop_fuel b)) s = Ret c' s' →
  parseline b (S fuel) s = bind (peek b ";") (λ more : bool,
    if more then gettoken b;; r <- parseline b fuel;; ret (LIST c' r) else ret c') s'.
Proof.
  intros H. rewrite parseline_S. unfold bind at 1 in H. unfold bind at 1.
  destruct (parsepipe b fuel s) as [c1 s1| | | |]; cbn [cbind] in *; try done.
  unfold bind at 1. by rewrite H.
Qed.

Lemma line_plain c : (∀ l r, c ≠ SList l r) → good c → pipe_ok (unback c) → line_ok c.
Proof.
  intros Hne Hg Hp b s rest fuel H Hr Hf Hfu.
  assert (show 0 c = show 1 c) as E by (destruct c; try done; by destruct (Hne c1 c2)).
  rewrite E in H, Hfu |- *. destruct fuel as [|fuel]; [lia|].
  destruct (line_front c Hg Hp b s rest fuel H Hr) as (c' & Ec & Hc');
    [by apply (follows_weaken ")"); [by_chars|]|lia|].
  rewrite (parseline_front b fuel s c' _ Ec). apply drop_more in H.
  unfold bind. rewrite (peek_no b _ ";" rest H Hr); [|no_nul|by apply (follows_avoid ")"); [by_chars|]].
  by exists c'.
Qed.

Lemma line_list l r : good l → good r → pipe_ok (unback l) → line_ok r → line_ok (SList l r).
Proof.
  intros Hgl Hgr Hp Hl b s rest fuel H Hr Hf Hfu.
  change (show 0 (SList l r)) with (show 1 l ++ [59; 32] ++ show 0 r) in *.
  rewrite <- !app_assoc in H. rewrite !length_app in Hfu |- *. change (length [59; 32]) with 2%nat in *.
  destruct fuel as [|fuel]; [lia|].
  destruct (line_front l Hgl Hp b s _ fuel H) as (c1 & E1 & Hc1); [done|simpl; by_chars|lia|].
  rewrite (parseline_front b fuel s c1 _ E1). apply drop_more in H.
  unfold bind at 1. rewrite (peek_yes b _ ";" 59 _ H); [|done|no_nul|by_chars]. cbn [cbind].
  unfold bind at 1. rewrite (gettoken_sym b _ 59 _ H); [|by apply show_starts|by_chars]. cbn [cbind].
  apply (drop_more b _ [59; 32]) in H. change (length [59; 32]) with 2%nat in H.
  destruct (Hl b _ rest fuel H Hr Hf) as (c2 & E2 & Hc2); [lia|]. unfold bind at 1. rewrite E2. cbn [cbind].
  exists (LIST c1 c2). split; [unfold ret; f_equal; lia|]. cbn [resolve]. by rewrite Hc1, Hc2.
Qed.

(** All commands, by induction on their size. *)
Lemma parse_show n : ∀ c, (ssize c <= n)%nat → good c → exec_ok c ∧ pipe_ok c ∧ line_ok c.
Proof.
  induction n as [|n IH]; intros c Hn Hg; [destruct c; simpl in Hn; lia|].
  assert (∀ c', (ssize c' <= n)%nat → good c' → pipe_ok (unback c')) as IHu.
  { intros c' Hc' Hg'. apply IH; [pose proof (ssize_unback c'); lia|by apply good_unback]. }
  destruct c as [argv|c f m fd|l r|l r|c]; cbn [ssize good] in *.
  - assert (exec_ok (SExec argv)) as He by by apply (exec_simple _ argv).
    assert (pipe_ok (SExec argv)) as Hp by by apply pipe_exec.
    split_and!; [done..|]. by apply line_plain.
  - assert (exec_ok (SRedir c f m fd)) as He.
    { destruct (base c) as [argv|? ? ? ?|? ?|? ?|?] eqn:Eb; [by apply (exec_simple _ argv)| |..].
      { by apply base_not_redir in Eb. }
      all: apply exec_block; [done|simpl; by rewrite Eb|]; apply IH;
        [simpl; pose proof (ssize_base c); lia|simpl; apply (good_base c), Hg]. }
    assert (pipe_ok (SRedir c f m fd)) as Hp by by apply pipe_exec.
    split_and!; [done..|]. by apply line_plain.
  - assert (pipe_ok (SPipe l r)) as Hp by (apply pipe_pipe; [by apply Hg|apply IH; [lia|apply Hg]..]).
    assert (line_ok (SPipe l r)) as Hl by by apply line_plain.
    split_and!; [|done..]. by apply exec_block.
  - assert (line_ok (SList l r)) as Hl.
    { apply line_list; [by apply Hg|by apply Hg|apply IHu; [lia|by apply Hg]|apply IH; [lia|by apply Hg]]. }
    assert (exec_ok (SList l r)) as He by by apply exec_block.
    split_and!; [done| |done]. by apply pipe_exec.
  - assert (line_ok (SBack c)) as Hl by (apply line_plain; [done|done|]; cbn [unback]; apply IHu; [lia|done]).
    assert (exec_ok (SBack c)) as He by by apply exec_block.
    split_and!; [done| |done]. by apply pipe_exec.
Qed.

Lemma tok_no_nul w : good_word w → 0 ∉ tok w.
Proof. intros (_ & H & _). unfold tok. set_solver. Qed.

Lemma show_no_nul c : ∀ level, good c → 0 ∉ show level c.
Proof.
  assert (∀ need l, 0 ∉ l → 0 ∉ paren need l) as Hp by (intros []; unfold paren; set_solver).
  induction c as [argv|c IH f m fd|l IHl r IHr|l IHl r IHr|c IH]; intros level Hg; cbn [show good] in *.
  - destruct Hg as [Hg _]. induction Hg as [|w ws Hw _ IH]; simpl; [set_solver|].
    pose proof (tok_no_nul w Hw). set_solver.
  - destruct Hg as (Hc & Hf & _). pose proof (tok_no_nul f Hf) as Ht. specialize (IH 3%nat Hc).
    unfold show_redir. cbn [fst snd]. unfold redir_sign. destruct (m =? O_RDONLY); set_solver.
  - apply Hp. destruct Hg. specialize (IHl 3%nat). specialize (IHr 2%nat). set_solver.
  - apply Hp. destruct Hg. specialize (IHl 1%nat). specialize (IHr 0%nat). set_solver.
  - apply Hp. specialize (IH 1%nat). set_solver.
Qed.

(** The parser of the shell reads back every command.  For every
    command whose words are words of the shell, [parsecmd] of its printed form
    returns, with its fuel, a command whose strings, as they stand 0-terminated
    in the buffer, make up exactly that command: lists, background commands,
    pipelines, redirections and blocks nest as they should. *)
Theorem parsecmd_show c : good c →
  ∃ c' buf, parsecmd (show 0 c) 0%nat = Ret (c', buf) (length (show 0 c)) ∧
    resolve (string_at buf) c' = c.
Proof.
  intros Hg. destruct (parse_show (ssize c) c ltac:(lia) Hg) as (_ & _ & Hl).
  set (b := show 0 c) in *.
  destruct (Hl b 0%nat [] (parse_fuel b)) as (c' & E & Hc'); [by rewrite app_nil_r|done|done|done|].
  fold b in E. rewrite Nat.add_0_l in E.
  assert (peek b "" (length b) = Ret false (length b)) as Ep.
  { apply (peek_no b _ "" []); [by apply drop_ge|done|no_nul|done]. }
  pose proof (parsecmd_run b c' _ _ _ E Ep) as Er. rewrite Nat.eqb_refl in Er.
  exists c', (nulterminate c' (b ++ [0])). split; [done|]. transitivity (resolve (part b) c'); [|done]. apply resolve_ext.
  intros p Hpp. pose proof (parse_ok b (show_no_nul c 0 Hg) (parse_fuel b) 0%nat ltac:(lia)) as [Ht _].
  rewrite E in Ht. specialize (Ht ltac:(unfold parse_fuel; lia)). destruct Ht as [_ [Hw _]].
  apply terminated_string; [by apply show_no_nul|done|done].
Qed.

(** [ls -l < in | ( cat ; wc > out ) & ] *)
Definition example_cmd : scmd :=
  SBack (SPipe (SRedir (SExec [chars "ls"; chars "-l"]) (chars "in") O_RDONLY 0)
               (SList (SExec [chars "cat"])
                      (SRedir (SExec [chars "wc"]) (chars "out") (Z.lor O_WRONLY O_CREATE) 1))).

Lemma good_chars (s : string) : bool_decide (chars s ≠ [] ∧ 0 ∉ chars s ∧ Forall (λ c, is_word c = true) (chars s)) = true →
  good_word (chars s).
Proof. apply bool_decide_eq_true. Qed.

Lemma parsecmd_show_witness :
  ∃ c' buf, parsecmd (show 0 example_cmd) 0%nat = Ret (c', buf) (length (show 0 example_cmd)) ∧
    resolve (string_at buf) c' = example_cmd.
Proof.
  apply (parsecmd_show example_cmd). cbn [good example_cmd].
  repeat first [apply good_chars; by vm_compute | unfold MAXARGS; simpl; lia | by left | by right
               | apply Forall_cons_2 | apply Forall_nil_2 | split].
Defined.

