(* ===== verification/Sh.v ===== *)
(** * Running commands: [runcmd] of [sh.c]

    A process of the shell is the tree [proc] of the system calls it makes,
    each followed by what the program does with the result.  [eval] runs such a
    process on a table of file descriptors with the rules of the kernel
    (descriptors are allocated lowest first, a child starts with a copy of the
    table) and collects the programs that are started.  The theorem compares
    [runcmd] with the direct meaning of a command. *)

From stdpp Require Import base numbers option list sets strings gmap.
From Stdlib Require Import ZArith Lia.
From S2P Require Import Prelude Console User Ulib Printf Shparse.

(** ** Processes *)

Inductive proc : Type :=
| PExit
| PExec (path : list Z) (argv : list (list Z)) (k : proc)
| PPrint (fd : Z) (l : list Z) (k : proc)
| PClose (fd : Z) (k : proc)
| POpen (path : list Z) (mode : Z) (k : Z → proc)
| PDup (fd : Z) (k : proc)
| PPipe (k : option (Z * Z) → proc)
| PFork (k : Z → proc)
| PWait (k : proc).

Definition printf_ (fd : Z) (fmt : string) (ap : list carg) (k : proc) : proc :=
  PPrint fd (text (chars fmt) ap) k.

Definition sh_panic (s : string) : proc :=
  printf_ 2 ("%s" +:+ nl) [AStr (Some (chars s))] PExit.

(** [fork1]: the result of [fork], -1 ends the shell. *)
Definition fork1 (k : Z → proc) : proc :=
  PFork (λ pid, if pid =? -1 then sh_panic "fork" else k pid).

(** [runcmd] never returns: every case ends in [exit()]. *)
Fixpoint runcmd (c : scmd) : proc :=
  match c with
  | SExec [] => PExit
  | SExec (path :: args) =>
    PExec path (path :: args)
      (printf_ 2 ("exec %s failed" +:+ nl) [AStr (Some path)] PExit)
  | SRedir c file mode fd =>
    PClose fd (POpen file mode (λ r,
      if r <? 0 then printf_ 2 ("open %s failed" +:+ nl) [AStr (Some file)] PExit
      else runcmd c))
  | SList l r =>
    fork1 (λ pid, if pid =? 0 then runcmd l else PWait (runcmd r))
  | SPipe l r =>
    PPipe (λ p,
      match p with
      | None => sh_panic "pipe"
      | Some (p0, p1) =>
        fork1 (λ pid,
          if pid =? 0 then PClose 1 (PDup p1 (PClose p0 (PClose p1 (runcmd l)))) else
          fork1 (λ pid,
            if pid =? 0 then PClose 0 (PDup p0 (PClose p0 (PClose p1 (runcmd r)))) else
            PClose p0 (PClose p1 (PWait (PWait PExit)))))
      end)
  | SBack c =>
    fork1 (λ pid, if pid =? 0 then runcmd c else PExit)
  end.

(** The line [buf] in the child of [main]: parse it and run it.  [parsecmd]
    prints what it has not parsed before it panics. *)
Definition run_line (buf : list Z) : proc :=
  match parsecmd buf 0%nat with
  | Ret (c, buf') _ => runcmd (resolve (string_at buf') c)
  | Panic msg s =>
    if String.eqb msg "leftovers"
    then printf_ 2 ("leftovers: %s" +:+ nl) [AStr (Some (drop s buf))] (sh_panic "syntax")
    else sh_panic msg
  | _ => PExit
  end.

Definition console : list Z := chars "console".

(** [while((fd = open("console", O_RDWR)) >= 0)] at the start of [main]; the
    process has 16 descriptors. *)
Fixpoint open_console (fuel : nat) (k : proc) : proc :=
  match fuel with
  | O => k
  | S fuel =>
    POpen console 2 (λ fd,
      if fd <? 0 then k
      else if 3 <=? fd then PClose fd k
      else open_console fuel k)
  end.

(** ** The command loop *)

(** [getcmd]: the line with its newline, as the C string left in [buf]. *)
Definition getcmd : U (list Z) :=
  printf 2 "$ " [];;
  l <- gets 100;;
  ret (upto_nul l).

Definition is_cd (buf : list Z) : bool :=
  match buf with
  | a :: b :: c :: _ => (a =? 99) && (b =? 100) && (c =? 32)
  | _ => false
  end.

(** The loop of [main]; running a line is one entry of the call history.  The
    last character of a [cd] line is cut off. *)
Fixpoint main_loop (fuel : nat) : U unit :=
  match fuel with
  | O => fun s => Stuck s
  | S fuel =>
    buf <- getcmd;;
    match buf with
    | [] => exit
    | _ :: _ =>
      if is_cd buf then
        let path := drop 3 (take (length buf - 1) buf) in
        r <- usys (C_chdir path);;
        when (r <? 0) (printf 2 ("cannot cd %s" +:+ nl) [AStr (Some path)]);;
        main_loop fuel
      else usys (C_run buf);; main_loop fuel
    end
  end.

(** ** Descriptor tables *)

(** What a descriptor refers to: a file opened by name, or an end of the pipe
    with the given number. *)
Inductive handle : Type :=
| HFile (path : list Z) (mode : Z)
| HRead (pipe : nat)
| HWrite (pipe : nat)
| HOther (n : nat).

#[global] Instance handle_eq_dec : EqDecision handle.
Proof. solve_decision. Defined.

Notation fdtable := (list (option handle)).

Definition fd_free (t : fdtable) : option nat := fst <$> list_find (λ o, o = None) t.

(** [close] and [dup] do nothing to a descriptor that is out of range or
    closed. *)
Definition fd_close (fd : Z) (t : fdtable) : fdtable :=
  if (0 <=? fd) then <[Z.to_nat fd := None]> t else t.

Definition fd_open (h : handle) (t : fdtable) : option (nat * fdtable) :=
  i ← fd_free t; Some (i, <[i := Some h]> t).

Definition fd_dup (fd : Z) (t : fdtable) : fdtable :=
  match t !! Z.to_nat fd with
  | Some (Some h) => if (0 <=? fd) then default t (snd <$> fd_open h t) else t
  | _ => t
  end.

(** ** Running a process *)

Section eval.
(** Which files can be opened, and which programs can be started. *)
Context (opens : list Z → Z → bool) (runs : list Z → bool).

(** The programs started, with their descriptors, in the order in which a
    sequential schedule starts them, and the number of the next pipe.  [fork]
    succeeds; the child gets a copy of the table. *)
Fixpoint eval (p : proc) (t : fdtable) (n : nat) : list (list (list Z) * fdtable) * nat :=
  match p with
  | PExit => ([], n)
  | PExec path argv k => if runs path then ([(argv, t)], n) else eval k t n
  | PPrint _ _ k => eval k t n
  | PClose fd k => eval k (fd_close fd t) n
  | POpen path mode k =>
    if opens path mode then
      match fd_open (HFile path mode) t with
      | Some (i, t') => eval (k (Z.of_nat i)) t' n
      | None => eval (k (-1)) t n
      end
    else eval (k (-1)) t n
  | PDup fd k => eval k (fd_dup fd t) n
  | PPipe k =>
    match fd_open (HRead n) t with
    | Some (i, t1) =>
      match fd_open (HWrite n) t1 with
      | Some (j, t2) => eval (k (Some (Z.of_nat i, Z.of_nat j))) t2 (S n)
      | None => eval (k None) t n
      end
    | None => eval (k None) t n
    end
  | PFork k =>
    let '(l1, n1) := eval (k 0) t n in
    let '(l2, n2) := eval (k 1) t n1 in
    (l1 ++ l2, n2)
  | PWait k => eval k t n
  end.

(** The meaning of a command: which programs it starts, and with which
    descriptors. *)
Fixpoint meaning (c : scmd) (t : fdtable) (n : nat) : list (list (list Z) * fdtable) * nat :=
  match c with
  | SExec [] => ([], n)
  | SExec (path :: args) => (if runs path then [(path :: args, t)] else [], n)
  | SRedir c file mode fd =>
    if opens file mode then meaning c (<[Z.to_nat fd := Some (HFile file mode)]> t) n else ([], n)
  | SPipe l r =>
    let '(l1, n1) := meaning l (<[1%nat := Some (HWrite n)]> t) (S n) in
    let '(l2, n2) := meaning r (<[0%nat := Some (HRead n)]> t) n1 in
    (l1 ++ l2, n2)
  | SList l r =>
    let '(l1, n1) := meaning l t n in
    let '(l2, n2) := meaning r t n1 in
    (l1 ++ l2, n2)
  | SBack c => meaning c t n
  end.

End eval.

(** ** [runcmd] implements the meaning *)

(** A table in which standard input and output are open and two descriptors
    are free. *)
Definition ready (t : fdtable) : Prop :=
  ∃ h0 h1 r i j, t = Some h0 :: Some h1 :: r ∧ (i < j)%nat ∧ r !! i = Some None ∧ r !! j = Some None.

(** Redirections of standard input and output only. *)
Fixpoint std_redirs (c : scmd) : Prop :=
  match c with
  | SExec _ => True
  | SRedir c _ _ fd => std_redirs c ∧ (fd = 0 ∨ fd = 1)
  | SPipe l r => std_redirs l ∧ std_redirs r
  | SList l r => std_redirs l ∧ std_redirs r
  | SBack c => std_redirs c
  end.

Lemma fd_free_Some t i : t !! i = Some None → ∃ j, fd_free t = Some j ∧ (j <= i)%nat ∧ t !! j = Some None.
Proof.
  intros H. unfold fd_free. destruct (list_find _ t) as [[j o]|] eqn:E.
  - apply list_find_Some in E as (Hj & -> & Hlt). exists j. split_and!; [done| |done].
    destruct (decide (j <= i)%nat); [done|]. by destruct (Hlt i None H ltac:(lia)).
  - rewrite list_find_None in E. rewrite list.Forall_forall in E. exfalso. apply (E None); [|done].
    by eapply list_elem_of_lookup_2.
Qed.

Lemma fd_free_cons h t : fd_free (Some h :: t) = S <$> fd_free t.
Proof. unfold fd_free. simpl. by destruct (list_find _ t) as [[j o]|]. Qed.

Lemma fd_open_ready h h0 h1 r i : fd_free r = Some i →
  fd_open h (Some h0 :: Some h1 :: r) = Some (S (S i), Some h0 :: Some h1 :: <[i := Some h]> r).
Proof. intros H. unfold fd_open. rewrite !fd_free_cons, H. done. Qed.

Lemma fd_open_0 h o r : fd_open h (None :: o :: r) = Some (0%nat, Some h :: o :: r).
Proof. done. Qed.

Lemma fd_open_1 h h0 r : fd_open h (Some h0 :: None :: r) = Some (1%nat, Some h0 :: Some h :: r).
Proof. done. Qed.

Lemma fd_close_nat i t : fd_close (Z.of_nat i) t = <[i := None]> t.
Proof. unfold fd_close. rewrite Nat2Z.id. destruct (Z.leb_spec 0 (Z.of_nat i)); [done|lia]. Qed.

Lemma fd_dup_nat i h t : t !! i = Some (Some h) → fd_dup (Z.of_nat i) t = default t (snd <$> fd_open h t).
Proof.
  intros H. unfold fd_dup. rewrite Nat2Z.id, H. destruct (Z.leb_spec 0 (Z.of_nat i)); [done|lia].
Qed.

(** Opening two descriptors and closing them again. *)
Lemma close_two (r : fdtable) i j a b : i ≠ j → r !! i = Some None → r !! j = Some None →
  <[j := None]> (<[i := None]> (<[j := a]> (<[i := b]> r))) = r.
Proof.
  intros Hne Hi Hj. apply list_eq. intros k.
  pose proof (lookup_lt_Some _ _ _ Hi). pose proof (lookup_lt_Some _ _ _ Hj).
  destruct (decide (k = j)) as [->|]; [rewrite list_lookup_insert_eq by (rewrite !length_insert; lia); done|].
  rewrite list_lookup_insert_ne by done.
  destruct (decide (k = i)) as [->|]; [rewrite list_lookup_insert_eq by (rewrite !length_insert; lia); done|].
  by rewrite !list_lookup_insert_ne by done.
Qed.

Section eval.
Context (opens : list Z → Z → bool) (runs : list Z → bool).
Notation eval := (eval opens runs).
Notation meaning := (meaning opens runs).

Lemma ready_redir t fd h : ready t → fd = 0 ∨ fd = 1 → ready (<[Z.to_nat fd := Some h]> t).
Proof.
  intros (h0 & h1 & r & i & j & -> & Hr) Hfd. destruct Hfd as [-> | ->]; simpl.
  - by exists h, h1, r, i, j.
  - by exists h0, h, r, i, j.
Qed.

Lemma open_redir t fd h : ready t → fd = 0 ∨ fd = 1 →
  fd_open h (fd_close fd t) = Some (Z.to_nat fd, <[Z.to_nat fd := Some h]> t).
Proof. intros (h0 & h1 & r & i & j & -> & _) Hfd. by destruct Hfd as [-> | ->]. Qed.

(** The two ends of a pipe, as the parent and its children see them. *)
Lemma open_pipe t n : ready t → ∃ i j t1 t2,
  fd_open (HRead n) t = Some (i, t1) ∧ fd_open (HWrite n) t1 = Some (j, t2) ∧
  let p0 := Z.of_nat i in let p1 := Z.of_nat j in
  fd_close p1 (fd_close p0 (fd_dup p1 (fd_close 1 t2))) = <[1%nat := Some (HWrite n)]> t ∧
  fd_close p1 (fd_close p0 (fd_dup p0 (fd_close 0 t2))) = <[0%nat := Some (HRead n)]> t.
Proof.
  intros (h0 & h1 & r & i & j & -> & Hij & Hi & Hj).
  destruct (fd_free_Some r i Hi) as (i0 & Fi & Hle & Hi0).
  assert (∃ j0, fd_free (<[i0 := Some (HRead n)]> r) = Some j0 ∧ j0 ≠ i0 ∧ r !! j0 = Some None) as (j0 & Fj & Hne & Hj0).
  { destruct (fd_free_Some (<[i0 := Some (HRead n)]> r) j) as (j0 & Fj & _ & Hj0).
    { by rewrite list_lookup_insert_ne by lia. }
    pose proof (lookup_lt_Some _ _ _ Hi0). exists j0. split; [done|].
    destruct (decide (j0 = i0)) as [->|]; [by rewrite list_lookup_insert_eq in Hj0 by done|].
    by rewrite list_lookup_insert_ne in Hj0 by done. }
  pose proof (lookup_lt_Some _ _ _ Hi0). pose proof (lookup_lt_Some _ _ _ Hj0).
  eexists _, _, _, _. split; [by apply fd_open_ready|]. split; [by apply fd_open_ready|]. cbv zeta.
  rewrite !fd_close_nat. change (fd_close 1) with (fd_close (Z.of_nat 1)). change (fd_close 0) with (fd_close (Z.of_nat 0)).
  rewrite !fd_close_nat. cbn [list_insert insert]. split.
  - rewrite (fd_dup_nat _ (HWrite n)).
    2:{ match goal with |- _ !! S (S ?k) = ?v => change (<[k := Some (HWrite n)]> (<[i0 := Some (HRead n)]> r) !! k = v) end.
        by rewrite list_lookup_insert_eq by (rewrite length_insert; lia). }
    rewrite fd_open_1. cbn. do 2 f_equal. apply close_two; done.
  - rewrite (fd_dup_nat _ (HRead n)).
    2:{ match goal with |- _ !! S (S ?k) = ?v => change (<[j0 := Some (HWrite n)]> (<[k := Some (HRead n)]> r) !! k = v) end.
        rewrite list_lookup_insert_ne by done. by rewrite list_lookup_insert_eq by lia. }
    rewrite fd_open_0. cbn. do 2 f_equal. apply close_two; done.
Qed.

Lemma eval_fork1 k t n : eval (fork1 k) t n =
  let '(l1, n1) := eval (k 0) t n in let '(l2, n2) := eval (k 1) t n1 in (l1 ++ l2, n2).
Proof. done. Qed.

Lemma eval_runcmd c : ∀ t n, std_redirs c → ready t → eval (runcmd c) t n = meaning c t n.
Proof.
  induction c as [argv|c IH f m fd|l IHl r IHr|l IHl r IHr|c IH]; intros t n Hc Ht; cbn [std_redirs] in Hc.
  - destruct argv as [|path args]; [done|]. cbn. by destruct (runs path).
  - destruct Hc as [Hc Hfd]. cbn [runcmd eval Sh.eval meaning Sh.meaning]. destruct (opens f m); [|done].
    rewrite open_redir by done. destruct (Z.ltb_spec (Z.of_nat (Z.to_nat fd)) 0); [lia|].
    apply IH; [done|]. by apply ready_redir.
  - destruct Hc as [Hl Hr]. destruct (open_pipe t n Ht) as (i & j & t1 & t2 & E1 & E2 & H1 & H2).
    cbn [runcmd Sh.eval Sh.meaning]. rewrite E1, E2. cbv zeta in H1, H2.
    rewrite eval_fork1. cbn [Z.eqb Sh.eval]. rewrite H1. rewrite IHl; [|done|by apply (ready_redir t 1); auto].
    destruct (meaning l _ _) as [l1 n1]. rewrite eval_fork1. cbn [Z.eqb Sh.eval]. rewrite H2, IHr; [|done|by apply (ready_redir t 0); auto].
    destruct (meaning r _ _) as [l2 n2]. by rewrite app_nil_r.
  - destruct Hc as [Hl Hr]. cbn [runcmd Sh.meaning]. rewrite eval_fork1. cbn [Z.eqb Sh.eval]. rewrite IHl by done. destruct (meaning l t n) as [l1 n1]. by rewrite IHr.
  - cbn [runcmd Sh.meaning]. rewrite eval_fork1. cbn [Z.eqb Sh.eval]. rewrite IH by done. destruct (meaning c t n) as [l1 n1]. by rewrite app_nil_r.
Qed.
End eval.

Lemma typed_redirs b c f : typed b c → std_redirs (resolve f c).
Proof.
  intros [_ H]. induction c; simpl in *; naive_solver.
Qed.

(** C39: [runcmd] starts the right programs with the right descriptors.
    For every line the parser accepts and every table in which descriptors 0
    and 1 are open and two are free, the processes of [runcmd] start exactly
    the programs of the command in order; each program finds its redirected
    files at 0 and 1, the left side of a pipe has its write end at 1, the right
    side its read end at 0, and all other descriptors are those of the shell:
    no process keeps another end of a pipe open. *)
Theorem runcmd_meaning opens runs b c buf t n : 0 ∉ b → parsecmd b 0%nat = Ret (c, buf) (length b) →
  ready t →
  eval opens runs (runcmd (resolve (string_at buf) c)) t n
    = meaning opens runs (resolve (part b) c) t n.
Proof.
  intros Hnul E Ht. destruct (parsecmd_cases b Hnul) as [(msg & s & E')|(c' & buf' & E' & Hty & Hr)];
    rewrite E in E'; [done|]. injection E' as -> ->. rewrite Hr. apply eval_runcmd; [|done].
  by apply (typed_redirs b).
Qed.

(** ** The shell starts with its descriptors open *)

Lemma eval_open opens runs path mode k t n i t' : opens path mode = true →
  fd_open (HFile path mode) t = Some (i, t') →
  eval opens runs (POpen path mode k) t n = eval opens runs (k (Z.of_nat i)) t' n.
Proof. intros H1 H2. cbn [eval]. by rewrite H1, H2. Qed.

Lemma open_console_eval opens runs k t n r : opens console 2 = true →
  length t = 3%nat → r !! 0%nat = Some None →
  eval opens runs (open_console 4 k) (t ++ r) n
    = eval opens runs k (map (λ o, Some (default (HFile console 2) o)) t ++ r) n.
Proof.
  unfold open_console. generalize console. intros con Ho Ht Hr.
  destruct t as [|a [|b [|c [|]]]]; simpl in Ht; try lia.
  destruct r as [|d r]; [done|]. simpl in Hr. injection Hr as ->.
  destruct a as [a|], b as [b|], c as [c|];
    repeat first
      [ erewrite eval_open; [|exact Ho|reflexivity]; cbn beta
      | match goal with |- eval _ _ (if ?b then _ else _) _ _ = _ =>
          let v := eval vm_compute in b in change b with v; cbn iota end ];
    reflexivity.
Qed.

(** [cat < f | wc] with the descriptors of a shell started by init. *)
Definition shell_fds : fdtable :=
  [Some (HOther 0); Some (HOther 0); Some (HOther 0)] ++ repeat None 13.

Lemma runcmd_meaning_witness : ∃ c buf, parsecmd (chars "cat<f|wc") 0%nat = Ret (c, buf) 8%nat ∧
  eval (λ _ _, true) (λ _, true) (runcmd (resolve (string_at buf) c)) shell_fds 0%nat
    = ([([chars "cat"], [Some (HFile (chars "f") O_RDONLY); Some (HWrite 0); Some (HOther 0)] ++ repeat None 13);
        ([chars "wc"], [Some (HRead 0); Some (HOther 0); Some (HOther 0)] ++ repeat None 13)], 1%nat).
Proof.
  eexists _, _. split; [by vm_compute|].
  erewrite (runcmd_meaning (λ _ _, true) (λ _, true) (chars "cat<f|wc") _ _ shell_fds 0%nat).
  - by vm_compute.
  - apply (bool_decide_unpack _). by vm_compute.
  - by vm_compute.
  - exists (HOther 0), (HOther 0), (Some (HOther 0) :: repeat None 13), 1%nat, 2%nat.
    split_and!; [done|lia|done|done].
Defined.
