(* ===== verification/Umalloc.v ===== *)
(** * The user memory allocator: [umalloc.c]

    The allocator works on the byte memory of the process.  A [Header] at
    address [a] has its field [s.ptr] at [a] and [s.size] at [a + 4]; pointer
    arithmetic on [Header*] is in units of 8 bytes and wraps at 2^32.  [base] is
    the address of the static header, [heap] the break at the start of the
    program.  [sbrk] of the kernel grows the process by a number of bytes when
    memory is [avail]able and the new size stays below [KERNBASE], and shrinks
    it for a negative number. *)

From stdpp Require Import base numbers option list sets strings gmap.
From Stdlib Require Import ZArith Lia.
From S2P Require Import Prelude State.

Record mstate : Type := mkmst {
  m_mem : memory;
  m_freep : Z;
  m_brk : Z
}.
Definition set_m_mem (v : memory) (r : mstate) : mstate := mkmst v r.(m_freep) r.(m_brk).
Definition set_m_freep (v : Z) (r : mstate) : mstate := mkmst r.(m_mem) v r.(m_brk).
Definition set_m_brk (v : Z) (r : mstate) : mstate := mkmst r.(m_mem) r.(m_freep) v.

Definition A : Type → Type := prog mstate unit.

(** ** Headers *)

Definition hdr_ptr (a : Z) : A Z := get (λ s, load32 s.(m_mem) a).
Definition hdr_size (a : Z) : A Z := get (λ s, load32 s.(m_mem) (u32 (a + 4))).
Definition set_ptr (a v : Z) : A unit := modify (λ s, set_m_mem (store32 s.(m_mem) a v) s).
Definition set_size (a v : Z) : A unit := modify (λ s, set_m_mem (store32 s.(m_mem) (u32 (a + 4)) v) s).

Definition HDR : Z := 8.

Section umalloc.
Context (base heap : Z) (avail : Z → Z → bool).

(** A free list has at most one block per unit of the heap. *)
Definition heap_units (s : mstate) : nat := Z.to_nat ((s.(m_brk) - heap) / HDR).

Definition sbrk (n : Z) : A Z :=
  fun s =>
    let brk := s.(m_brk) in
    if n <? 0 then Ret brk (set_m_brk (brk + n) s)
    else if (brk + n <? KERNBASE) && avail brk n then Ret brk (set_m_brk (brk + n) s)
    else Ret (u32 (-1)) s.

(** ** [free] *)

(** The loop of [free]: the block [p] after which [bp] belongs. *)
Fixpoint free_loop (fuel : nat) (bp p : Z) : A Z :=
  match fuel with
  | O => fun s => Stuck s
  | S fuel =>
    n <- hdr_ptr p;;
    if (p <? bp) && (bp <? n) then ret p else
    if (n <=? p) && ((p <? bp) || (bp <? n)) then ret p else
    free_loop fuel bp n
  end.

(** Joining [bp] to the block above. *)
Definition join_upper (bp p : Z) : A unit :=
  n <- hdr_ptr p;;
  bs <- hdr_size bp;;
  if u32 (bp + HDR * bs) =? n then
    ns <- hdr_size n;;
    set_size bp (bs + ns);;
    nn <- hdr_ptr n;;
    set_ptr bp nn
  else set_ptr bp n.

(** Joining [p] to [bp] above it. *)
Definition join_lower (bp p : Z) : A unit :=
  ps <- hdr_size p;;
  if u32 (p + HDR * ps) =? bp then
    bs <- hdr_size bp;;
    set_size p (ps + bs);;
    bn <- hdr_ptr bp;;
    set_ptr p bn
  else set_ptr p bp.

Definition free (ap : Z) : A unit :=
  let bp := u32 (ap - HDR) in
  fp <- get m_freep;;
  fuel <- get heap_units;;
  p <- free_loop (fuel + 2) bp fp;;
  join_upper bp p;;
  join_lower bp p;;
  modify (set_m_freep p).

(** ** [malloc] *)

Definition morecore (nu : Z) : A Z :=
  let nu := if nu <? 4096 then 4096 else nu in
  p <- sbrk (s32 (nu * HDR));;
  if p =? u32 (-1) then ret 0 else
  set_size p nu;;
  free (u32 (p + HDR));;
  get m_freep.

(** The block that is returned, cut from the end of [p] if it is larger. *)
Definition take_block (nunits prevp p size : Z) : A Z :=
  r <- (if size =? nunits then
          n <- hdr_ptr p;; set_ptr prevp n;; ret p
        else
          set_size p (size - nunits);;
          let q := u32 (p + HDR * (size - nunits)) in
          set_size q nunits;; ret q);;
  modify (set_m_freep prevp);;
  ret (u32 (r + HDR)).

Fixpoint malloc_loop (fuel : nat) (nunits prevp p : Z) : A Z :=
  match fuel with
  | O => fun s => Stuck s
  | S fuel =>
    size <- hdr_size p;;
    if nunits <=? size then take_block nunits prevp p size else
    fp <- get m_freep;;
    if p =? fp then
      p <- morecore nunits;;
      if p =? 0 then ret 0 else
      n <- hdr_ptr p;; malloc_loop fuel nunits p n
    else
      n <- hdr_ptr p;; malloc_loop fuel nunits p n
  end.

Definition units (nbytes : Z) : Z := u32 (u32 (nbytes + HDR - 1) / HDR + 1).

Definition malloc (nbytes : Z) : A Z :=
  let nunits := units nbytes in
  fp <- get m_freep;;
  when (fp =? 0) (
    set_ptr base base;;
    modify (set_m_freep base);;
    set_size base 0);;
  prevp <- get m_freep;;
  p <- hdr_ptr prevp;;
  fuel <- get heap_units;;
  malloc_loop (2 * fuel + 8) nunits prevp p.

End umalloc.

(** ** Headers in memory *)

(** Both fields of the header at [a]. *)
Definition hdr (m : memory) (a : Z) : Z * Z := (load32 m a, load32 m (u32 (a + 4))).

(** Headers that do not overlap. *)
Definition hsep (a b : Z) : Prop := a + 8 <= b ∨ b + 8 <= a.

Definition place (a : Z) : Prop := 0 <= a ∧ a + 8 <= KERNBASE.

Lemma u32_place a k : place a → 0 <= k < 8 → u32 (a + k) = a + k.
Proof. intros [H1 H2] Hk. apply u32_id. unfold word, two32, KERNBASE in *. lia. Qed.

Lemma load_store_far m a b v : 0 <= a < two31 → 0 <= b < two31 → 4 <= b - a ∨ 4 <= a - b →
  load32 (store32 m a v) b = load32 m b.
Proof.
  intros Ha Hb H. apply load_store_ne. unfold u32, two32, two31 in *.
  destruct H; [rewrite Z.mod_small by lia; lia|].
  rewrite <- (Z.mod_add _ 1), Z.mod_small by lia. lia.
Qed.

Lemma hdr_set_ptr_same m a v : place a → word v → hdr (store32 m a v) a = (v, (hdr m a).2).
Proof.
  intros Ha Hv. unfold hdr. rewrite load_store_same, (u32_id v) by done. f_equal. simpl.
  rewrite u32_place by (done || lia). destruct Ha. unfold KERNBASE in *.
  apply load_store_far; unfold two31; lia.
Qed.

Lemma hdr_set_size_same m a v : place a → word v → hdr (store32 m (u32 (a + 4)) v) a = ((hdr m a).1, v).
Proof.
  intros Ha Hv. unfold hdr. rewrite load_store_same, (u32_id v) by done. f_equal. simpl.
  rewrite u32_place by (done || lia). destruct Ha. unfold KERNBASE in *.
  apply load_store_far; unfold two31; lia.
Qed.

Lemma hdr_set_ptr_other m a b v : place a → place b → hsep a b → hdr (store32 m a v) b = hdr m b.
Proof.
  intros Ha Hb H. unfold hdr. rewrite u32_place by (done || lia). destruct Ha, Hb. unfold hsep, KERNBASE in *.
  f_equal; apply load_store_far; unfold two31; lia.
Qed.

Lemma hdr_set_size_other m a b v : place a → place b → hsep a b →
  hdr (store32 m (u32 (a + 4)) v) b = hdr m b.
Proof.
  intros Ha Hb H. unfold hdr. rewrite !u32_place by (done || lia). destruct Ha, Hb. unfold hsep, KERNBASE in *.
  f_equal; apply load_store_far; unfold two31; lia.
Qed.

(** The memory [m1] is [m] with the header at [a] changed to [h]. *)
Record upd (m m1 : memory) (a : Z) (h : Z * Z) : Prop := {
  upd_hdr : hdr m1 a = h;
  upd_other : ∀ b, place b → hsep a b → hdr m1 b = hdr m b;
  upd_bytes : ∀ x, 0 <= x < two32 → x < a ∨ a + 8 <= x → m1 x = m x
}.

Lemma store32_outside m a v x : 0 <= a → a + 4 <= two32 → 0 <= x < two32 → x < a ∨ a + 4 <= x →
  store32 m a v x = m x.
Proof.
  intros Ha Ha' Hx H. unfold store32. destruct (Z.ltb_spec (u32 (x - a)) 4) as [Hlt|]; [|done].
  exfalso. unfold u32, two32 in *. destruct H.
  - rewrite <- (Z.mod_add _ 1), Z.mod_small in Hlt by lia. lia.
  - rewrite Z.mod_small in Hlt by lia. lia.
Qed.

Lemma upd_set_ptr m a v : place a → word v → upd m (store32 m a v) a (v, (hdr m a).2).
Proof.
  intros Ha Hv. constructor; [by apply hdr_set_ptr_same|by intros; apply hdr_set_ptr_other|].
  intros x Hx H. destruct Ha. unfold KERNBASE, two32 in *. apply store32_outside; unfold two32; lia.
Qed.

Lemma upd_set_size m a v : place a → word v → upd m (store32 m (u32 (a + 4)) v) a ((hdr m a).1, v).
Proof.
  intros Ha Hv. constructor; [by apply hdr_set_size_same|by intros; apply hdr_set_size_other|].
  intros x Hx H. rewrite u32_place by (done || lia). destruct Ha. unfold KERNBASE, two32 in *.
  apply store32_outside; unfold two32; lia.
Qed.

Lemma upd_trans m m1 m2 a h1 h2 : upd m m1 a h1 → upd m1 m2 a h2 → upd m m2 a h2.
Proof.
  intros [H1 H2 H3] [K1 K2 K3]. constructor; [done| |].
  - intros b Hb Hs. by rewrite K2, H2.
  - intros x Hx Ho. by rewrite K3, H3.
Qed.

(** ** Free lists *)

(** A block: its address and its size in units.  The static header takes one
    unit although its size is 0. *)
Definition ext (x : Z * Z) : Z := x.1 + 8 * Z.max 1 x.2.

Definition apart (x y : Z * Z) : Prop := ext x <= y.1 ∨ ext y <= x.1.

(** Blocks in the order of their addresses that do not overlap. *)
Fixpoint spaced (l : list (Z * Z)) : Prop :=
  match l with
  | [] => True
  | x :: l => Forall (λ y, ext x <= y.1) l ∧ spaced l
  end.

Definition first (d : Z) (l : list (Z * Z)) : Z :=
  match l with [] => d | x :: _ => x.1 end.

(** The headers of the blocks in [l] link each block to the next and the last
    one to [d]. *)
Fixpoint chain (m : memory) (d : Z) (l : list (Z * Z)) : Prop :=
  match l with
  | [] => True
  | x :: l => hdr m x.1 = (first d l, x.2) ∧ chain m d l
  end.

Lemma spaced_app l1 l2 : spaced (l1 ++ l2) ↔
  spaced l1 ∧ spaced l2 ∧ Forall (λ x, Forall (λ y, ext x <= y.1) l2) l1.
Proof.
  induction l1 as [|x l1 IH]; simpl; [naive_solver|]. rewrite IH, Forall_app, Forall_cons. naive_solver.
Qed.

Lemma chain_app m d l1 l2 : chain m d (l1 ++ l2) ↔ chain m (first d l2) l1 ∧ chain m d l2.
Proof.
  induction l1 as [|x l1 IH]; simpl; [naive_solver|]. rewrite IH.
  assert (first d (l1 ++ l2) = first (first d l2) l1) as -> by by destruct l1. naive_solver.
Qed.

Lemma chain_frame m m1 d l : Forall (λ x, hdr m1 x.1 = hdr m x.1) l → chain m d l → chain m1 d l.
Proof.
  induction l as [|x l IH]; simpl; [done|]. intros [Hx Hl]%Forall_cons [H1 H2]. rewrite Hx. auto.
Qed.

Lemma upd_chain m m1 a h d l : upd m m1 a h → Forall (λ x, place x.1 ∧ hsep a x.1) l →
  chain m d l → chain m1 d l.
Proof.
  intros Hu Hl. apply chain_frame. eapply Forall_impl; [exact Hl|]. intros x [H1 H2]. by apply (upd_other _ _ _ _ Hu).
Qed.

Section umalloc.
Context (base heap : Z) (avail : Z → Z → bool).
Context (Hbase : 0 < base) (Hheap : base + 8 <= heap).

(** ** The search in [free] *)

(** [p] is the last block of the list [F] below [bp]. *)
Lemma free_scan s bp ps p P1 P2 : let F := P1 ++ (p, ps) :: P2 in
  chain s.(m_mem) base F → spaced F → first base F = base → base < bp →
  p < bp → Forall (λ y, bp < y.1) P2 →
  ∀ R L fuel, F = L ++ R ++ (p, ps) :: P2 → (length R < fuel)%nat →
    free_loop fuel bp (first base (R ++ (p, ps) :: P2)) s = Ret p s.
Proof.
  intros F Hc Hsp Hb Hbp Hp HP2 R. induction R as [|q R IH]; intros L fuel E Hf; (destruct fuel as [|fuel]; [simpl in Hf; lia|]);
    cbn [free_loop app first fst]; unfold hdr_ptr; rewrite bind_get.
  - rewrite app_nil_l in E. rewrite E in Hc. apply chain_app in Hc as [_ [Hc _]]. simpl in Hc.
    unfold hdr in Hc. injection Hc as -> _. destruct (Z.ltb_spec p bp) as [_|]; [|lia]. cbn [andb orb].
    destruct P2 as [|y P2]; cbn [first].
    + destruct (Z.ltb_spec bp base); [lia|]. destruct (Z.leb_spec base p); [done|].
      rewrite E in Hb, Hsp. destruct L as [|z L]; simpl in Hb; [lia|].
      apply spaced_app in Hsp as (_ & _ & Hs). apply Forall_cons in Hs as [Hs _].
      apply Forall_cons in Hs as [Hs _]. unfold ext in Hs. simpl in Hs. lia.
    + apply Forall_cons in HP2 as [Hy _]. by destruct (Z.ltb_spec bp y.1); [|lia].
  - rewrite E in Hc, Hsp. simpl in Hc, Hsp. apply chain_app in Hc as [_ [Hc _]].
    assert (∃ z l, R ++ (p, ps) :: P2 = z :: l ∧ z.1 <= p) as (z & l & Ez & Hz).
    { destruct R as [|z R]; [by exists (p, ps), P2|]. exists z, (R ++ (p, ps) :: P2). split; [done|].
      apply spaced_app in Hsp as (_ & [_ [Hs _]] & _). simpl in Hs. rewrite Forall_app, Forall_cons in Hs.
      destruct Hs as (_ & Hs & _). unfold ext in Hs. simpl in Hs. lia. }
    rewrite Ez in Hc. simpl in Hc. unfold hdr in Hc. injection Hc as -> _.
    assert (q.1 < z.1) as Hqz.
    { apply spaced_app in Hsp as (_ & [Hs _] & _). rewrite Ez in Hs. apply Forall_cons in Hs as [Hs _].
      unfold ext in Hs. lia. }
    destruct (Z.ltb_spec bp z.1); [lia|]. rewrite andb_false_r. destruct (Z.leb_spec z.1 q.1); [lia|]. cbn [andb orb].
    cbn iota. assert (z.1 = first base (R ++ (p, ps) :: P2)) as -> by by rewrite Ez.
    apply (IH (L ++ [q])); [by rewrite <- app_assoc|simpl in Hf; lia].
Qed.

(** Starting behind [p], the loop reaches the end and starts over. *)
Lemma free_scan_wrap s bp ps p P1 P2 : let F := P1 ++ (p, ps) :: P2 in
  chain s.(m_mem) base F → spaced F → first base F = base → base < bp →
  p < bp → Forall (λ y, bp < y.1) P2 →
  ∀ Q L fuel, P2 = L ++ Q → (length Q + length P1 < fuel)%nat →
    free_loop fuel bp (first base Q) s = Ret p s.
Proof.
  intros F Hc Hsp Hb Hbp Hp HP2 Q. induction Q as [|q Q IH]; intros L fuel E Hf.
  - replace (first base []) with (first base F) by done. apply (free_scan s bp ps p P1 P2) with (L := []); try done.
  - destruct fuel as [|fuel]; [lia|]. cbn [free_loop first]. unfold hdr_ptr. rewrite bind_get.
    assert (bp < q.1) as Hq. { rewrite E in HP2. by apply Forall_app in HP2 as [_ [HP2 _]%Forall_cons]. }
    assert (hdr s.(m_mem) q.1 = (first base Q, q.2)) as Hh.
    { unfold F in Hc. rewrite E in Hc. apply chain_app in Hc as [_ [_ Hc]]. by apply chain_app in Hc as [_ [Hc _]]. }
    unfold hdr in Hh. injection Hh as -> _. destruct (Z.ltb_spec q.1 bp); [lia|]. cbn [andb orb].
    destruct (Z.leb_spec (first base Q) q.1) as [Hle|]; cbn [andb orb].
    + destruct (Z.ltb_spec bp (first base Q)) as [|Hge].
      * destruct Q as [|z Q]; simpl in *; [lia|]. unfold F in Hsp. rewrite E in Hsp.
        apply spaced_app in Hsp as (_ & Hsp & _). simpl in Hsp. destruct Hsp as [_ Hsp].
        apply spaced_app in Hsp as (_ & [Hs _] & _). apply Forall_cons in Hs as [Hs _]. unfold ext in Hs. lia.
      * cbn iota. apply (IH (L ++ [q])); [by rewrite <- app_assoc|simpl in Hf; lia].
    + apply (IH (L ++ [q])); [by rewrite <- app_assoc|simpl in Hf; lia].
Qed.

Lemma free_loop_run s bp ps p P1 P2 fp fuel : let F := P1 ++ (p, ps) :: P2 in
  chain s.(m_mem) base F → spaced F → first base F = base → base < bp →
  p < bp → Forall (λ y, bp < y.1) P2 → fp ∈ map fst F → (length F <= fuel)%nat →
  free_loop fuel bp fp s = Ret p s.
Proof.
  intros F Hc Hsp Hb Hbp Hp HP2 Hfp Hf. unfold F in Hf, Hfp. rewrite length_app in Hf. simpl in Hf.
  rewrite map_app, elem_of_app in Hfp. destruct Hfp as [Hfp|Hfp].
  - apply list_elem_of_In, in_map_iff in Hfp as (q & <- & Hq).
    apply in_split in Hq as (L & R & E). subst P1. rewrite length_app in Hf. simpl in Hf.
    apply (free_scan s bp ps p (L ++ q :: R) P2) with (R := q :: R) (L := L); try done.
    + by rewrite <- app_assoc.
    + simpl. lia.
  - simpl in Hfp. apply elem_of_cons in Hfp as [->|Hfp].
    + apply (free_scan s bp ps p P1 P2) with (R := []) (L := P1); try done. simpl. lia.
    + apply list_elem_of_In, in_map_iff in Hfp as (q & <- & Hq).
      apply in_split in Hq as (L & R & E). rewrite E, length_app in Hf. simpl in Hf.
      apply (free_scan_wrap s bp ps p P1 P2) with (Q := q :: R) (L := L); try done. simpl. lia.
Qed.

(** ** Joining blocks *)

Lemma hdr_fst m a x y : hdr m a = (x, y) → load32 m a = x.
Proof. by intros [= -> _]. Qed.

Lemma hdr_snd m a x y : hdr m a = (x, y) → load32 m (u32 (a + 4)) = y.
Proof. by intros [= _ ->]. Qed.

(** The header of [bp] after [join_upper]: that of the joined block, or that of
    the block followed by [n]. *)
Lemma join_upper_run s bp p n ps x bs nn ns : place bp → hsep bp n → place n → 0 <= bs → bp + 8 * bs <= KERNBASE →
  hdr s.(m_mem) p = (n, ps) → hdr s.(m_mem) bp = (x, bs) →
  (bp + 8 * bs = n → hdr s.(m_mem) n = (nn, ns) ∧ word nn ∧ 0 <= ns ∧ n + 8 * ns <= KERNBASE) →
  ∃ m1, join_upper bp p s = Ret () (set_m_mem m1 s) ∧
    upd s.(m_mem) m1 bp (if bp + 8 * bs =? n then (nn, bs + ns) else (n, bs)).
Proof.
  intros Hp Hs Hn Hbs Hb Hhp Hhb Hm. unfold join_upper, hdr_ptr, hdr_size. rewrite !bind_get.
  rewrite (hdr_fst _ _ _ _ Hhp), (hdr_snd _ _ _ _ Hhb). unfold HDR.
  rewrite (u32_id (bp + 8 * bs)) by (destruct Hp; unfold word, KERNBASE, two32 in *; lia).
  destruct (Z.eqb_spec (bp + 8 * bs) n) as [E|E].
  - destruct (Hm E) as (Hhn & Hw & Hns & Hle). rewrite !bind_get, (hdr_snd _ _ _ _ Hhn).
    unfold set_size at 1. rewrite bind_modify, bind_get. cbn [m_mem set_m_mem].
    pose proof (upd_set_size s.(m_mem) bp (bs + ns) Hp ltac:(destruct Hp; unfold word, KERNBASE, two32 in *; lia)) as U1.
    pose proof (upd_other _ _ _ _ U1 n Hn Hs) as Hhn1. rewrite Hhn in Hhn1. rewrite (hdr_fst _ _ _ _ Hhn1).
    eexists. split; [done|]. cbn [m_mem set_m_mem]. eapply upd_trans; [exact U1|].
    pose proof (upd_set_ptr (store32 (m_mem s) (u32 (bp + 4)) (bs + ns)) bp nn Hp Hw) as U2.
    by rewrite (upd_hdr _ _ _ _ U1) in U2.
  - eexists. split; [done|].
    pose proof (upd_set_ptr s.(m_mem) bp n Hp ltac:(destruct Hn; unfold word, KERNBASE, two32 in *; lia)) as U.
    by rewrite Hhb in U.
Qed.

Lemma join_lower_run s bp p ps x bs bn : place bp → hsep p bp → place p → 0 <= ps → p + 8 * ps <= KERNBASE →
  hdr s.(m_mem) p = (x, ps) → hdr s.(m_mem) bp = (bn, bs) → word bn → 0 <= bs → bp + 8 * bs <= KERNBASE →
  ∃ m1, join_lower bp p s = Ret () (set_m_mem m1 s) ∧
    upd s.(m_mem) m1 p (if p + 8 * ps =? bp then (bn, ps + bs) else (bp, ps)).
Proof.
  intros Hb Hs Hp Hps Hle Hhp Hhb Hw Hbs Hle'. unfold join_lower, hdr_ptr, hdr_size. rewrite !bind_get.
  rewrite (hdr_snd _ _ _ _ Hhp). unfold HDR.
  rewrite (u32_id (p + 8 * ps)) by (destruct Hp; unfold word, KERNBASE, two32 in *; lia).
  destruct (Z.eqb_spec (p + 8 * ps) bp) as [E|E].
  - rewrite !bind_get, (hdr_snd _ _ _ _ Hhb). unfold set_size at 1. rewrite bind_modify, bind_get. cbn [m_mem set_m_mem].
    pose proof (upd_set_size s.(m_mem) p (ps + bs) Hp ltac:(destruct Hp, Hb; unfold word, KERNBASE, two32 in *; lia)) as U1.
    pose proof (upd_other _ _ _ _ U1 bp Hb Hs) as Hhb1. rewrite Hhb in Hhb1. rewrite (hdr_fst _ _ _ _ Hhb1).
    eexists. split; [done|]. cbn [m_mem set_m_mem]. eapply upd_trans; [exact U1|].
    pose proof (upd_set_ptr (store32 (m_mem s) (u32 (p + 4)) (ps + bs)) p bn Hp Hw) as U2.
    by rewrite (upd_hdr _ _ _ _ U1) in U2.
  - eexists. split; [done|].
    pose proof (upd_set_ptr s.(m_mem) p bp Hp ltac:(destruct Hb; unfold word, KERNBASE, two32 in *; lia)) as U.
    by rewrite Hhp in U.
Qed.

(** ** Lists of blocks *)

(** The place of [bp] in a list of blocks that starts below it. *)
Lemma split_below bp l : spaced l → l ≠ [] → first 0 l < bp → Forall (λ y, y.1 ≠ bp) l →
  ∃ P1 p ps P2, l = P1 ++ (p, ps) :: P2 ∧ p < bp ∧ Forall (λ y, bp < y.1) P2.
Proof.
  induction l as [|[a n] l IH]; intros Hs Hne Hf Hn; [done|]. simpl in Hf. destruct Hs as [Hs Hsp].
  apply Forall_cons in Hn as [_ Hn]. destruct l as [|[b k] l].
  { by exists [], a, n, []. }
  destruct (decide (b < bp)) as [Hb|Hb].
  - destruct (IH Hsp ltac:(done) Hb Hn) as (P1 & p & ps & P2 & E & Hp & HP). exists ((a, n) :: P1), p, ps, P2.
    by rewrite E.
  - exists [], a, n, ((b, k) :: l). split_and!; [done..|]. apply Forall_cons in Hn as [Hb' _]. simpl in Hb'.
    destruct Hsp as [Hl _]. constructor; [simpl; lia|]. eapply Forall_impl; [exact Hl|].
    unfold ext. simpl. intros y Hy. lia.
Qed.

Lemma spaced_insert P1 x y P2 : spaced (P1 ++ x :: P2) → Forall (apart y) (P1 ++ x :: P2) →
  x.1 < y.1 → Forall (λ z, y.1 < z.1) P2 → spaced (P1 ++ x :: y :: P2).
Proof.
  intros Hs Ha Hx HP. apply spaced_app in Hs as (H1 & [H2 H3] & H4). apply Forall_app in Ha as [A1 A2].
  apply Forall_cons in A2 as [A2 A3]. apply spaced_app. split_and!; [done| |].
  - simpl. split_and!; [| |done].
    + constructor; [|done]. unfold apart, ext in *. lia.
    + apply list.Forall_forall. intros z Hz. rewrite list.Forall_forall in HP, A3.
      specialize (HP z Hz). specialize (A3 z Hz). unfold apart, ext in *. lia.
  - apply list.Forall_forall. intros z Hz. rewrite list.Forall_forall in H4. specialize (H4 z Hz).
    apply Forall_cons in H4 as [H4 H5]. constructor; [done|]. constructor; [|done].
    unfold ext in *. lia.
Qed.

(** Two adjacent blocks joined. *)
Lemma spaced_join P1 a n b k P2 : spaced (P1 ++ (a, n) :: (b, k) :: P2) → a + 8 * n = b → 1 <= n → 1 <= k →
  spaced (P1 ++ (a, n + k) :: P2).
Proof.
  intros Hs E Hn Hk. apply spaced_app in Hs as (H1 & [H2 [H3 H4]] & H5). apply spaced_app. split_and!; [done| |].
  - simpl. split; [|done]. eapply Forall_impl; [exact H3|]. unfold ext. simpl. lia.
  - eapply Forall_impl; [exact H5|]. intros x Hx. apply Forall_cons in Hx as [Hx1 Hx2].
    apply Forall_cons in Hx2 as [_ Hx2]. by constructor.
Qed.

Lemma apart_join x a n b k : apart x (a, n) → apart x (b, k) → a + 8 * n = b → 1 <= n → 1 <= k →
  apart x (a, n + k).
Proof. unfold apart, ext. simpl. lia. Qed.

Lemma apart_hsep x y : apart x y → hsep x.1 y.1.
Proof. unfold apart, ext, hsep. lia. Qed.

Lemma spaced_apart l1 x l2 : spaced (l1 ++ x :: l2) → Forall (apart x) (l1 ++ l2).
Proof.
  intros Hs. apply spaced_app in Hs as (_ & [H2 _] & H4). apply Forall_app. split.
  - eapply Forall_impl; [exact H4|]. intros y Hy. apply Forall_cons in Hy as [Hy _]. by right.
  - eapply Forall_impl; [exact H2|]. intros y Hy. by left.
Qed.

(** ** The invariant of the allocator *)

(** A block of the heap of a process whose break is [brk]. *)
Definition block_ok (brk : Z) (x : Z * Z) : Prop :=
  heap <= x.1 ∧ 1 <= x.2 ∧ x.1 + 8 * x.2 <= brk ∧ (x.1 - heap) mod 8 = 0.

(** [H] are the free blocks behind the static header, [al] the sizes of the
    allocated blocks by address. *)
Record hinv (s : mstate) (H : list (Z * Z)) (al : gmap Z Z) : Prop := {
  hv_brk : heap <= s.(m_brk) <= KERNBASE ∧ (s.(m_brk) - heap) mod 8 = 0;
  hv_chain : chain s.(m_mem) base ((base, 0) :: H);
  hv_spaced : spaced ((base, 0) :: H);
  hv_free : Forall (block_ok s.(m_brk)) H;
  hv_freep : s.(m_freep) ∈ base :: map fst H;
  hv_al : ∀ a n, al !! a = Some n → block_ok s.(m_brk) (a, n) ∧ (hdr s.(m_mem) a).2 = n ∧ Forall (apart (a, n)) H;
  hv_sep : ∀ a n b k, al !! a = Some n → al !! b = Some k → a ≠ b → apart (a, n) (b, k)
}.

Lemma block_place brk x : brk <= KERNBASE → block_ok brk x → place x.1.
Proof. intros Hb (H1 & H2 & H3 & _). unfold place. lia. Qed.

Lemma block_base brk x : block_ok brk x → apart x (base, 0).
Proof. intros (H1 & _). right. unfold ext. simpl. lia. Qed.

Lemma block_join brk a n b k : block_ok brk (a, n) → block_ok brk (b, k) → a + 8 * n = b → block_ok brk (a, n + k).
Proof. unfold block_ok. simpl. intros (? & ? & ? & ?) (? & ? & ? & ?) E. split_and!; [lia..|done]. Qed.

(** Free blocks are at most as many as the units of the heap. *)
Lemma spaced_length l lo hi : spaced l → Forall (λ y, lo <= y.1 ∧ ext y <= hi) l → lo <= hi →
  8 * Z.of_nat (length l) <= hi - lo.
Proof.
  revert lo. induction l as [|x l IH]; intros lo Hs Hl Hlo; simpl; [lia|]. destruct Hs as [Hx Hs].
  apply Forall_cons in Hl as [[H1 H2] Hl].
  assert (8 * Z.of_nat (length l) <= hi - ext x) as H; [|unfold ext in *; lia].
  apply IH; [done| |lia]. apply list.Forall_forall. intros y Hy. rewrite list.Forall_forall in Hx, Hl.
  destruct (Hl y Hy). specialize (Hx y Hy). done.
Qed.

Lemma free_length s H al : hinv s H al → (length H <= heap_units heap s)%nat.
Proof.
  intros [Hb _ Hs Hf _ _ _]. destruct Hs as [_ Hs]. unfold heap_units, HDR.
  assert (8 * Z.of_nat (length H) <= s.(m_brk) - heap) as Hl.
  { apply spaced_length; [done| |lia]. eapply Forall_impl; [exact Hf|]. intros x (H1 & H2 & H3 & _).
    unfold ext. lia. }
  assert (Z.of_nat (length H) <= (s.(m_brk) - heap) / 8) by (apply Z.div_le_lower_bound; lia). lia.
Qed.

(** The bytes of the allocated blocks behind their headers. *)
Definition keeps (al : gmap Z Z) (m m1 : memory) : Prop :=
  ∀ a n x, al !! a = Some n → a + 8 <= x < a + 8 * n → m1 x = m x.

Lemma upd_keeps al brk m m1 a h : brk <= KERNBASE → upd m m1 a h →
  (∀ b n, al !! b = Some n → block_ok brk (b, n) ∧ (hsep a b ∧ (a < b ∨ b + 8 * n <= a) ∨ a = b)) → keeps al m m1.
Proof.
  intros Hk Hu Hal b n x Hb Hx. destruct (Hal b n Hb) as ((H1 & H2 & H3 & _) & Ha). simpl in *.
  apply (upd_bytes _ _ _ _ Hu); unfold KERNBASE, two32, hsep in *; lia.
Qed.

Lemma free_upper s H al bp bs P1 p ps P2 : hinv s H al → al !! bp = Some bs →
  (base, 0) :: H = P1 ++ (p, ps) :: P2 → p < bp → Forall (λ y, bp < y.1) P2 →
  ∃ m1 bs' T, join_upper bp p s = Ret () (set_m_mem m1 s) ∧ upd s.(m_mem) m1 bp (first base T, bs') ∧
    bs <= bs' ∧ (length T <= length P2)%nat ∧ (∀ y, y ∈ T → y ∈ P2) ∧ chain s.(m_mem) base T ∧
    spaced (P1 ++ (p, ps) :: (bp, bs') :: T) ∧ block_ok s.(m_brk) (bp, bs') ∧
    (∀ b k, delete bp al !! b = Some k → apart (b, k) (bp, bs')).
Proof.
  intros [Hbrk Hc Hsp Hfree _ Hal Hsep] Hbp E Hp HP2. destruct (Hal bp bs Hbp) as (Hok & Hsz & Hap).
  assert (Forall (apart (bp, bs)) ((base, 0) :: H)) as HapF.
  { constructor; [by apply (block_base s.(m_brk))|done]. }
  rewrite E in Hc, Hsp, HapF. pose proof Hc as Hc0. apply chain_app in Hc0 as [_ [Hhp HcP2]]. cbn [fst snd] in Hhp.
  pose proof (spaced_insert P1 (p, ps) (bp, bs) P2 Hsp HapF Hp HP2) as Hins.
  assert (∀ y, y ∈ P2 → block_ok s.(m_brk) y) as HokP2.
  { intros y Hy. destruct P1 as [|z P1]; simplify_eq/=.
    - rewrite list.Forall_forall in Hfree. by apply Hfree.
    - rewrite list.Forall_forall in Hfree. apply Hfree. set_solver. }
  assert (∀ b k, delete bp al !! b = Some k → apart (b, k) (bp, bs)) as Hdel.
  { intros b k Hb. apply lookup_delete_Some in Hb as [Hne Hb]. by apply Hsep. }
  assert (place bp) as Hpl by (by apply (block_place s.(m_brk) (bp, bs)); [lia|]).
  destruct Hok as (Hk1 & Hk2 & Hk3 & Hk4). cbn [fst snd] in *.
  destruct P2 as [|[n ns] T].
  - destruct (join_upper_run s bp p base ps (hdr s.(m_mem) bp).1 bs base 0) as (m1 & Ej & U).
    { done. } { right. lia. } { unfold place, KERNBASE in *. lia. } { lia. } { lia. } { done. }
    { rewrite <- Hsz. by destruct (hdr (m_mem s) bp). } { lia. }
    destruct (Z.eqb_spec (bp + 8 * bs) base); [lia|]. exists m1, bs, []. split_and!; try done; lia.
  - apply Forall_cons in HP2 as [Hn HP2]. cbn [fst] in Hn.
    destruct (HokP2 (n, ns) ltac:(by left)) as (Hn1 & Hn2 & Hn3 & Hn4). cbn [fst snd] in *.
    assert (apart (bp, bs) (n, ns)) as Hapn.
    { apply Forall_app in HapF as [_ HapF]. apply Forall_cons in HapF as [_ HapF]. by apply Forall_cons in HapF as [? _]. }
    destruct HcP2 as [Hhn HcT]. cbn [fst snd] in Hhn.
    destruct (join_upper_run s bp p n ps (hdr s.(m_mem) bp).1 bs (first base T) ns) as (m1 & Ej & U).
    { done. } { by apply (apart_hsep (bp, bs) (n, ns)). } { unfold place. lia. } { lia. } { lia. } { done. }
    { rewrite <- Hsz. by destruct (hdr (m_mem s) bp). }
    { intros _. split_and!; [done| |lia|lia]. unfold word, KERNBASE, two32 in *.
      destruct T as [|z T]; simpl; [lia|].
      destruct (HokP2 z ltac:(by right; left)) as (? & ? & ? & _). lia. }
    destruct (Z.eqb_spec (bp + 8 * bs) n) as [En|En].
    + exists m1, (bs + ns), T. split_and!; try done; try lia.
      * simpl. lia.
      * intros y Hy. by right.
      * change (P1 ++ (p, ps) :: (bp, bs + ns) :: T) with (P1 ++ [(p, ps)] ++ (bp, bs + ns) :: T).
        rewrite app_assoc. apply (spaced_join _ bp bs n ns); [by rewrite <- app_assoc|lia..].
      * by apply (block_join _ bp bs n ns).
      * intros b k Hb. apply (apart_join _ bp bs n ns); [by apply Hdel| |lia..].
        apply lookup_delete_Some in Hb as [_ Hb]. destruct (Hal b k Hb) as (_ & _ & Hb').
        rewrite list.Forall_forall in Hb'. apply Hb'. destruct P1 as [|z P1]; simplify_eq/=; set_solver.
    + exists m1, bs, ((n, ns) :: T). split_and!; try done; lia.
Qed.

(** The invariant after [free] has chosen the new list [(base, 0) :: H']. *)
Lemma hinv_freed s H al bp p m2 H' : hinv s H al →
  chain m2 base ((base, 0) :: H') → spaced ((base, 0) :: H') → Forall (block_ok s.(m_brk)) H' →
  p ∈ base :: map fst H' →
  (∀ b k, delete bp al !! b = Some k → hdr m2 b = hdr s.(m_mem) b ∧ Forall (apart (b, k)) H') →
  hinv (set_m_freep p (set_m_mem m2 s)) H' (delete bp al).
Proof.
  intros [Hbrk _ _ _ _ Hal Hsep] Hc Hs Hf Hp Hd. constructor; try done.
  - intros a n Ha. destruct (Hd a n Ha) as [Hh Hap]. apply lookup_delete_Some in Ha as [_ Ha].
    destruct (Hal a n Ha) as (Hok & Hsz & _). cbn [m_mem set_m_mem set_m_freep]. by rewrite Hh.
  - intros a n b k Ha Hb. apply lookup_delete_Some in Ha as [_ Ha]. apply lookup_delete_Some in Hb as [_ Hb].
    by apply Hsep.
Qed.

(** What [free] of the block [bp] does when [p] is the block below it. *)
Record freed (s : mstate) (al : gmap Z Z) (bp bs p ps : Z) (P1 P2 : list (Z * Z))
    (m2 : memory) (bs' : Z) (T : list (Z * Z)) : Prop := {
  fr_run : free heap (bp + 8) s = Ret () (set_m_freep p (set_m_mem m2 s));
  fr_size : bs <= bs';
  fr_len : (length T <= length P2)%nat;
  fr_sub : ∀ y, y ∈ T → y ∈ P2;
  fr_spaced : spaced (P1 ++ (p, ps) :: (bp, bs') :: T);
  fr_ok : block_ok s.(m_brk) (bp, bs');
  fr_below : chain m2 p P1;
  fr_above : chain m2 base T;
  fr_p : hdr m2 p = if p + 8 * ps =? bp then (first base T, ps + bs') else (bp, ps);
  fr_bp : hdr m2 bp = (first base T, bs');
  fr_al : ∀ b k, delete bp al !! b = Some k →
    hdr m2 b = hdr s.(m_mem) b ∧ apart (b, k) (bp, bs') ∧ apart (b, k) (p, ps);
  fr_keeps : keeps (delete bp al) s.(m_mem) m2
}.

(** Every block of the free list lies in the address space. *)
Lemma list_place s H al y : hinv s H al → y ∈ (base, 0) :: H →
  place y.1 ∧ y.1 + 8 * y.2 <= KERNBASE ∧ 0 <= y.2.
Proof.
  intros [Hbrk _ _ Hfree _ _ _] [->|Hy]%elem_of_cons; [unfold place, KERNBASE in *; cbn [fst snd]; lia|].
  rewrite list.Forall_forall in Hfree. destruct (Hfree y Hy) as (? & ? & ? & _). unfold place. lia.
Qed.

Lemma al_apart s H al b k y : hinv s H al → al !! b = Some k → y ∈ (base, 0) :: H → apart (b, k) y.
Proof.
  intros [_ _ _ _ _ Hal _] Hb Hy. destruct (Hal b k Hb) as (Hok & _ & Hap). rewrite list.Forall_forall in Hap.
  apply elem_of_cons in Hy as [->|Hy]; [by apply (block_base s.(m_brk))|by apply Hap].
Qed.

(** Changing the headers of two blocks that are apart from a list. *)
Lemma two_headers m m1 m2 x y hx hy l d : upd m m1 x.1 hx → upd m1 m2 y.1 hy →
  Forall (apart x) l → Forall (apart y) l → Forall (λ z, place z.1) l → chain m d l → chain m2 d l.
Proof.
  intros U1 U2 H1 H2 Hp Hc. rewrite list.Forall_forall in H1, H2, Hp.
  apply (upd_chain _ _ _ _ _ _ U2); [|apply (upd_chain _ _ _ _ _ _ U1); [|done]];
    apply list.Forall_forall; intros z Hz; (split; [by apply Hp|]).
  - by apply (apart_hsep y z), H2.
  - by apply (apart_hsep x z), H1.
Qed.

Lemma word_first s H al l : hinv s H al → (∀ y, y ∈ l → y ∈ (base, 0) :: H) → word (first base l).
Proof.
  intros Hinv Hl. assert (base <= KERNBASE) by (destruct Hinv as [? _ _ _ _ _ _]; lia).
  destruct l as [|z l]; [unfold word, KERNBASE, two32 in *; simpl; lia|].
  destruct (list_place s H al z Hinv) as [[? ?] _]; [apply Hl; by left|]. unfold word, KERNBASE, two32 in *. simpl. lia.
Qed.

Lemma free_step s H al bp bs P1 p ps P2 : hinv s H al → al !! bp = Some bs →
  (base, 0) :: H = P1 ++ (p, ps) :: P2 → p < bp → Forall (λ y, bp < y.1) P2 →
  ∃ m2 bs' T, freed s al bp bs p ps P1 P2 m2 bs' T.
Proof.
  intros Hinv Hbp E Hp HP2.
  destruct (free_upper s H al bp bs P1 p ps P2 Hinv Hbp E Hp HP2)
    as (m1 & bs' & T & Ej & U1 & Hbs & HT & HTP & HcT & Hsp1 & Hok1 & Hdel).
  assert (∀ y, y ∈ P1 ++ (p, ps) :: P2 → y ∈ (base, 0) :: H) as HF by by rewrite E.
  pose proof (hv_brk _ _ _ Hinv) as Hbrk. pose proof (block_place s.(m_brk) _ ltac:(lia) Hok1) as Hpl.
  destruct (list_place s H al (p, ps) Hinv) as (Hplp & Hps1 & Hps2); [apply HF; set_solver|]. cbn [fst snd] in *.
  pose proof (hv_chain _ _ _ Hinv) as Hc. rewrite E in Hc. apply chain_app in Hc as [HcP1 [Hhp _]]. cbn [fst snd first] in Hhp, HcP1.
  pose proof (spaced_apart P1 (p, ps) _ Hsp1) as Happ. apply Forall_app in Happ as [HapP1 HapT].
  apply Forall_cons in HapT as [Happ HapT].
  pose proof (spaced_apart (P1 ++ [(p, ps)]) (bp, bs') T ltac:(by rewrite <- app_assoc)) as Hapb.
  apply Forall_app in Hapb as [HapP1b HapTb]. apply Forall_app in HapP1b as [HapP1b _].
  pose proof (apart_hsep _ _ Happ) as Hsepp. cbn [fst] in Hsepp.
  assert (hdr m1 p = (first base P2, ps)) as Hhp1.
  { rewrite (upd_other _ _ _ _ U1); [done|done|]. unfold hsep in *. lia. }
  pose proof Hok1 as (Hk1 & Hk2 & Hk3 & _). cbn [fst snd] in *.
  destruct (join_lower_run (set_m_mem m1 s) bp p ps (first base P2) bs' (first base T))
    as (m2 & Ej2 & U2); try done; [by apply (upd_hdr _ _ _ _ U1)| |lia|lia|].
  { apply (word_first s H al); [done|]. intros y Hy. apply HF. set_solver. }
  cbn [m_mem set_m_mem] in U2.
  assert (∀ l, (∀ y, y ∈ l → y ∈ P1 ++ (p, ps) :: P2) → Forall (λ z, place z.1) l) as Hplace.
  { intros l Hl. apply list.Forall_forall. intros y Hy. apply (list_place s H al y Hinv). auto. }
  assert (∀ b k, delete bp al !! b = Some k → block_ok s.(m_brk) (b, k) ∧ apart (b, k) (bp, bs') ∧ apart (b, k) (p, ps)) as HapF.
  { intros b k Hb. split_and!; [|by apply Hdel|]; apply lookup_delete_Some in Hb as [_ Hb].
    - by apply (hv_al _ _ _ Hinv b k).
    - apply (al_apart s H al); [done..|]. apply HF. set_solver. }
  exists m2, bs', T. constructor; try done.
  - assert (base < bp) by lia.
    unfold free, HDR. rewrite Z.add_simpl_r, (u32_id bp) by (destruct Hpl; unfold word, KERNBASE, two32 in *; lia).
    rewrite !bind_get. unfold bind at 1.
    rewrite (free_loop_run s bp ps p P1 P2); [| | | |done|done|done| |]; rewrite <- ?E; try done.
    + cbn [cbind]. unfold bind at 1. rewrite Ej. cbn [cbind]. unfold bind at 1. rewrite Ej2. done.
    + by destruct Hinv.
    + by destruct Hinv.
    + by destruct Hinv.
    + pose proof (free_length s H al Hinv). simpl. lia.
  - apply (two_headers s.(m_mem) m1 m2 (bp, bs') (p, ps) _ _ _ _ U1 U2); try done. apply Hplace. set_solver.
  - apply (two_headers s.(m_mem) m1 m2 (bp, bs') (p, ps) _ _ _ _ U1 U2); try done. apply Hplace. set_solver.
  - by apply (upd_hdr _ _ _ _ U2).
  - rewrite (upd_other _ _ _ _ U2) by done. by apply (upd_hdr _ _ _ _ U1).
  - intros b k Hb. destruct (HapF b k Hb) as (Hb1 & Hb2 & Hb3). split; [|done].
    pose proof (block_place s.(m_brk) _ ltac:(lia) Hb1). pose proof (apart_hsep _ _ Hb2). pose proof (apart_hsep _ _ Hb3).
    cbn [fst] in *. rewrite (upd_other _ _ _ _ U2), (upd_other _ _ _ _ U1); try done; unfold hsep in *; lia.
  - intros b k x Hb Hx. destruct (HapF b k Hb) as ((? & ? & ? & _) & Ha2 & Ha1).
    unfold apart, ext in Ha1, Ha2. cbn [fst snd] in *.
    rewrite (upd_bytes _ _ _ _ U2), (upd_bytes _ _ _ _ U1); [done|..]; unfold KERNBASE, two32 in *; lia.
Qed.

(** The list and the invariant when [bp] is joined to [p]. *)
Lemma free_joined s H al bp bs P1 p ps P2 m2 bs' T : hinv s H al → (base, 0) :: H = P1 ++ (p, ps) :: P2 →
  base < bp → freed s al bp bs p ps P1 P2 m2 bs' T → p + 8 * ps = bp →
  ∃ H', hinv (set_m_freep p (set_m_mem m2 s)) H' (delete bp al) ∧
    (∃ y, y ∈ H' ∧ bs <= y.2) ∧ (length H' <= S (length H))%nat.
Proof.
  intros Hinv E Hlt [_ Hsz Hlen Hsub Hsp Hok C1 C2 Hp _ Hal _] Ep. rewrite Ep, Z.eqb_refl in Hp.
  destruct P1 as [|z P1]; [simplify_eq/=; lia|]. injection E as <- E.
  pose proof (hv_free _ _ _ Hinv) as Hfree. rewrite E in Hfree. apply Forall_app in Hfree as [HfP1 HfP2].
  apply Forall_cons in HfP2 as [Hokp HfP2]. pose proof Hokp as (_ & Hps & _). pose proof Hok as (_ & Hbs & _).
  cbn [fst snd] in *. pose proof (spaced_join _ _ _ _ _ _ Hsp Ep Hps Hbs) as Hsp3.
  rewrite list.Forall_forall in HfP2. exists (P1 ++ (p, ps + bs') :: T). split; [|split].
  - apply (hinv_freed s H al bp p m2 _ Hinv); [|done| | |].
    + change (chain m2 base (((base, 0) :: P1) ++ (p, ps + bs') :: T)). by apply chain_app.
    + rewrite Forall_app, Forall_cons. split_and!; [done|by apply (block_join _ p ps bp bs')|].
      apply list.Forall_forall. auto.
    + right. apply list_elem_of_In, in_map_iff. exists (p, ps + bs'). split; [done|]. apply in_app_iff. by right; left.
    + intros b k Hb. destruct (Hal b k Hb) as (Hh & Ha1 & Ha2). split; [done|].
      apply lookup_delete_Some in Hb as [_ Hb].
      pose proof (λ y, al_apart s H al b k y Hinv Hb) as Hap. rewrite E in Hap.
      rewrite Forall_app, Forall_cons. split_and!; [|by apply (apart_join _ p ps bp bs')|];
        apply list.Forall_forall; intros y Hy; apply Hap; right; apply elem_of_app; [by left|right; right; auto].
  - exists (p, ps + bs'). split; [apply elem_of_app; right; by left|]. simpl. lia.
  - rewrite E, !length_app. simpl. lia.
Qed.

(** The same when it stays a block of its own. *)
Lemma free_apart s H al bp bs P1 p ps P2 m2 bs' T : hinv s H al → (base, 0) :: H = P1 ++ (p, ps) :: P2 →
  freed s al bp bs p ps P1 P2 m2 bs' T → p + 8 * ps ≠ bp →
  ∃ H', hinv (set_m_freep p (set_m_mem m2 s)) H' (delete bp al) ∧
    (∃ y, y ∈ H' ∧ bs <= y.2) ∧ (length H' <= S (length H))%nat.
Proof.
  intros Hinv E [_ Hsz Hlen Hsub Hsp Hok C1 C2 Hp Hbp Hal _] Ep.
  destruct (Z.eqb_spec (p + 8 * ps) bp) as [|_]; [done|].
  assert (∃ H', P1 ++ (p, ps) :: (bp, bs') :: T = (base, 0) :: H' ∧ p ∈ base :: map fst H' ∧
    (length H' <= S (length H))%nat ∧ (bp, bs') ∈ H' ∧ ∀ y, y ∈ H' → y ∈ H ∨ y = (bp, bs')) as (H' & E' & Hp' & Hl' & Hin' & HH').
  { clear -E Hlen Hsub. destruct P1 as [|z P1]; simplify_eq/=.
    - exists ((bp, bs') :: T). split_and!; [done|by left|simpl; lia|by left|].
      intros y Hy. apply elem_of_cons in Hy as [->|Hy]; [by right|]. left. auto.
    - exists (P1 ++ (p, ps) :: (bp, bs') :: T). split_and!; [done|rewrite map_app; set_solver|rewrite !length_app; simpl; lia|set_solver|].
      intros y Hy. set_solver. }
  assert (chain m2 base ((base, 0) :: H')) as C3.
  { rewrite <- E'. apply chain_app. split; [done|]. split; [done|]. by split. }
  rewrite E' in Hsp. exists H'. split; [|split; [by exists (bp, bs')|done]].
  apply (hinv_freed s H al bp p m2 H' Hinv); try done.
  - apply list.Forall_forall. intros y Hy. destruct (HH' y Hy) as [Hy'| ->]; [|done].
    pose proof (hv_free _ _ _ Hinv) as Hfree. rewrite list.Forall_forall in Hfree. by apply Hfree.
  - intros b k Hb. destruct (Hal b k Hb) as (Hh & Ha1 & Ha2). split; [done|]. apply list.Forall_forall. intros y Hy.
    destruct (HH' y Hy) as [Hy'| ->]; [|done]. apply lookup_delete_Some in Hb as [_ Hb].
    apply (al_apart s H al); [done..|by right].
Qed.

(** [free] of an allocated block. *)
Lemma free_inv s H al bp bs : hinv s H al → al !! bp = Some bs →
  ∃ s' H', free heap (bp + 8) s = Ret () s' ∧ hinv s' H' (delete bp al) ∧ s'.(m_brk) = s.(m_brk) ∧
    keeps (delete bp al) s.(m_mem) s'.(m_mem) ∧ (∃ y, y ∈ H' ∧ bs <= y.2) ∧ (length H' <= S (length H))%nat.
Proof.
  intros Hinv Hbp. destruct (hv_al _ _ _ Hinv bp bs Hbp) as ((Hge & _) & _ & Hap). cbn [fst] in Hge.
  destruct (split_below bp ((base, 0) :: H)) as (P1 & p & ps & P2 & E & Hp & HP2);
    [by destruct Hinv|done|simpl; lia| |].
  { constructor; [cbn [fst]; lia|]. eapply Forall_impl; [exact Hap|]. intros y Hy. unfold apart, ext in Hy. cbn [fst] in Hy. lia. }
  destruct (free_step s H al bp bs P1 p ps P2 Hinv Hbp E Hp HP2) as (m2 & bs' & T & Hf).
  exists (set_m_freep p (set_m_mem m2 s)).
  assert (∃ H', hinv (set_m_freep p (set_m_mem m2 s)) H' (delete bp al) ∧
    (∃ y, y ∈ H' ∧ bs <= y.2) ∧ (length H' <= S (length H))%nat) as (H' & Hi & Hy & Hl).
  { destruct (decide (p + 8 * ps = bp)) as [Ep|Ep]; [|by eapply free_apart].
    eapply (free_joined s H al bp bs P1 p ps P2); try done. lia. }
  exists H'. split; [by apply Hf|]. split; [done|]. split; [done|]. split; [by apply Hf|done].
Qed.

(** ** More memory *)

Lemma block_mono b1 b2 x : b1 <= b2 → block_ok b1 x → block_ok b2 x.
Proof. intros Hb (? & ? & ? & ?). unfold block_ok. split_and!; [lia..|done]. Qed.

(** The memory between the old and the new break as an allocated block. *)
Lemma hinv_grow s H al nu : hinv s H al → 1 <= nu → s.(m_brk) + 8 * nu <= KERNBASE →
  let r := s.(m_brk) in
  let s1 := set_m_mem (store32 s.(m_mem) (u32 (r + 4)) nu) (set_m_brk (r + 8 * nu) s) in
  hinv s1 H (<[r := nu]> al) ∧ al !! r = None ∧ keeps al s.(m_mem) s1.(m_mem).
Proof.
  intros Hinv Hnu Hle r s1. pose proof Hinv as [Hbrk Hc Hsp Hfree Hfp Hal Hsep].
  assert (place r) as Hr by (unfold place, r; lia).
  pose proof (upd_set_size s.(m_mem) r nu Hr ltac:(unfold word, r, KERNBASE, two32 in *; lia)) as U.
  assert (∀ a n, al !! a = Some n → apart (a, n) (r, nu) ∧ a ≠ r) as Hfar.
  { intros a n Ha. destruct (Hal a n Ha) as ((? & ? & ? & _) & _). cbn [fst snd] in *. unfold apart, ext, r in *. cbn [fst snd]. lia. }
  assert (∀ y, y ∈ (base, 0) :: H → apart y (r, nu)) as HfarF.
  { intros y [->|Hy]%elem_of_cons; unfold apart, ext, r; cbn [fst snd]; [lia|].
    rewrite list.Forall_forall in Hfree. destruct (Hfree y Hy) as (? & ? & ? & _). lia. }
  assert (al !! r = None) as Hnone. { destruct (al !! r) as [n|] eqn:Er; [|done]. by destruct (Hfar r n Er). }
  split; [|split; [done|]].
  - constructor; cbn [m_mem m_brk m_freep set_m_mem set_m_brk s1]; try done.
    + split; [unfold r; lia|]. unfold r. replace (m_brk s + 8 * nu - heap) with (m_brk s - heap + nu * 8) by lia.
      rewrite Z.mod_add by lia. apply Hbrk.
    + apply (upd_chain _ _ _ _ _ _ U); [|done]. apply list.Forall_forall. intros y Hy. split.
      * by apply (list_place s H al).
      * pose proof (apart_hsep _ _ (HfarF y Hy)) as Hs. unfold hsep in *. cbn [fst] in Hs. lia.
    + eapply Forall_impl; [exact Hfree|]. intros y Hy. apply (block_mono s.(m_brk)); [unfold r; lia|done].
    + intros a n. destruct (decide (a = r)) as [->|Hne].
      * rewrite lookup_insert_eq. intros [= <-]. split_and!.
        -- unfold block_ok, r. cbn [fst snd]. split_and!; [lia..|apply Hbrk].
        -- by rewrite (upd_hdr _ _ _ _ U).
        -- apply list.Forall_forall. intros y Hy. destruct (HfarF y ltac:(by right)); [by right|by left].
      * rewrite lookup_insert_ne by done. intros Ha. destruct (Hal a n Ha) as (Hok & Hsz & Hap). split_and!; [|  |done].
        -- apply (block_mono s.(m_brk)); [unfold r; lia|done].
        -- rewrite (upd_other _ _ _ _ U); [done|by apply (block_place s.(m_brk) (a, n)); [lia|]|].
           destruct (Hfar a n Ha) as [Hs _]. apply apart_hsep in Hs. unfold hsep in *. cbn [fst] in *. lia.
    + intros a n b k. destruct (decide (a = r)) as [->|Ha], (decide (b = r)) as [->|Hb]; try done;
        rewrite ?lookup_insert_eq, ?lookup_insert_ne by done.
      * intros [= <-] Hbk _. destruct (Hfar b k Hbk) as [[|] _]; [by right|by left].
      * intros Han [= <-] _. by apply Hfar.
      * apply Hsep.
  - intros a n x Ha Hx. destruct (Hal a n Ha) as ((? & ? & ? & _) & _). cbn [fst snd] in *.
    apply (upd_bytes _ _ _ _ U); unfold r, KERNBASE, two32 in *; lia.
Qed.

Lemma keeps_trans al m1 m2 m3 : keeps al m1 m2 → keeps al m2 m3 → keeps al m1 m3.
Proof. intros H1 H2 a n x Ha Hx. by rewrite (H2 a n), (H1 a n). Qed.

Lemma morecore_run s nu k : k = (if nu <? 4096 then 4096 else nu) → 0 <= 8 * k < two31 →
  0 <= s.(m_brk) <= KERNBASE →
  morecore heap avail nu s =
    if (s.(m_brk) + 8 * k <? KERNBASE) && avail s.(m_brk) (8 * k) then
      bind (free heap (s.(m_brk) + 8)) (λ _, get m_freep)
        (set_m_mem (store32 s.(m_mem) (u32 (s.(m_brk) + 4)) k) (set_m_brk (s.(m_brk) + 8 * k) s))
    else Ret 0 s.
Proof.
  intros Ek Hk Hb. unfold morecore. rewrite <- Ek. unfold HDR. rewrite (Z.mul_comm k 8).
  rewrite (s32_id (8 * k)) by (unfold two31 in *; lia). unfold sbrk, bind at 1.
  destruct (Z.ltb_spec (8 * k) 0); [lia|]. destruct ((_ <? KERNBASE) && _); [|done]. cbn [cbind].
  destruct (Z.eqb_spec (m_brk s) (u32 (-1))) as [E|_].
  { change (u32 (-1)) with 4294967295 in E. unfold KERNBASE in *. lia. }
  unfold set_size. rewrite bind_modify. cbn [m_brk m_mem set_m_brk].
  by rewrite (u32_id (m_brk s + 8)) by (unfold word, KERNBASE, two32 in *; lia).
Qed.

(** [morecore] fails without effect or adds a block of the size asked for. *)
Lemma morecore_inv s H al nu : hinv s H al → 1 <= nu → 8 * nu < two31 →
  morecore heap avail nu s = Ret 0 s ∨
  ∃ s' H', morecore heap avail nu s = Ret s'.(m_freep) s' ∧ hinv s' H' al ∧ s'.(m_freep) ≠ 0 ∧
    s.(m_brk) <= s'.(m_brk) ∧ keeps al s.(m_mem) s'.(m_mem) ∧ (∃ y, y ∈ H' ∧ nu <= y.2) ∧ (length H' <= S (length H))%nat.
Proof.
  intros Hinv Hnu Hlt. set (k := if nu <? 4096 then 4096 else nu).
  assert (nu <= k ∧ 1 <= k ∧ 8 * k < two31) as (Hk1 & Hk2 & Hk3).
  { unfold k. destruct (Z.ltb_spec nu 4096); unfold two31 in *; lia. }
  pose proof (hv_brk _ _ _ Hinv) as Hbrk.
  rewrite (morecore_run s nu k) by (done || lia).
  destruct (Z.ltb_spec (m_brk s + 8 * k) KERNBASE) as [Hb|Hb]; cbn [andb]; [|by left].
  destruct (avail (m_brk s) (8 * k)); [|by left]. right.
  destruct (hinv_grow s H al k Hinv Hk2 ltac:(lia)) as (Hinv1 & Hnone & Hkeep1).
  set (s1 := set_m_mem _ _) in *.
  destruct (free_inv s1 H _ (m_brk s) k Hinv1) as (s' & H' & Ef & Hinv' & Hb' & Hkeep' & (y & Hy & Hyk) & Hl); [by apply lookup_insert_eq|].
  rewrite delete_insert_id in Hinv', Hkeep' by done.
  exists s', H'. unfold bind. rewrite Ef. split; [done|]. split; [done|]. split_and!.
  - pose proof (hv_freep _ _ _ Hinv') as Hf. apply elem_of_cons in Hf as [->|Hf]; [lia|].
    apply list_elem_of_In, in_map_iff in Hf as (z & <- & Hz). apply list_elem_of_In in Hz.
    destruct (list_place s' H' al z Hinv') as [[? ?] _]; [by right|].
    pose proof (hv_free _ _ _ Hinv') as Hfr. rewrite list.Forall_forall in Hfr. destruct (Hfr z Hz) as (? & _). lia.
  - rewrite Hb'. cbn. lia.
  - by apply (keeps_trans al _ s1.(m_mem)).
  - exists y. split; [done|lia].
  - done.
Qed.

(** ** The search in [malloc] *)

(** Every block of [l] but the last one links to the next. *)
Fixpoint linked (m : memory) (l : list (Z * Z)) : Prop :=
  match l with
  | x :: l' =>
    match l' with
    | y :: _ => hdr m x.1 = (y.1, x.2) ∧ linked m l'
    | [] => (hdr m x.1).2 = x.2
    end
  | [] => True
  end.

Lemma chain_linked m d l z : chain m d l → z.1 = d → (hdr m z.1).2 = z.2 → linked m (l ++ [z]).
Proof.
  intros Hc Hz Hs. induction l as [|x l IH]; [done|]. destruct Hc as [Hx Hc]. specialize (IH Hc).
  destruct l as [|y l]; cbn [app linked].
  - cbn [first] in Hx. rewrite Hx, <- Hz. by split.
  - cbn [first] in Hx. split; [done|]. exact IH.
Qed.

(** A round through the list that starts behind [f]. *)
Lemma rotation m A1 f A2 : chain m base (A1 ++ f :: A2) → first base (A1 ++ f :: A2) = base →
  linked m (f :: A2 ++ A1 ++ [f]).
Proof.
  intros Hc Hb. apply chain_app in Hc as [H1 H2]. cbn [first] in H1.
  assert (hdr m f.1 = (first base A2, f.2)) as Hf by apply H2.
  assert (linked m (A1 ++ [f])) as L1 by (apply (chain_linked m f.1); [done|done|by rewrite Hf]).
  destruct A1 as [|a A1].
  - cbn [app first] in *. rewrite app_comm_cons. apply (chain_linked m base); [done|done|by rewrite Hf].
  - cbn [app first] in *. assert (∀ l x, chain m base (x :: l) → linked m (x :: l ++ a :: A1 ++ [f])) as Hl.
    { induction l as [|y l IH]; intros x [Hx Hl]; cbn [app linked].
      - cbn [first] in Hx. rewrite Hx, <- Hb. by split.
      - cbn [first] in Hx. split; [done|]. by apply IH. }
    by apply Hl.
Qed.

Lemma bind_hdr_ptr {B} a (f : Z → A B) s : bind (hdr_ptr a) f s = f (load32 s.(m_mem) a) s.
Proof. done. Qed.

(** The loop stops at the first block that is large enough, or calls
    [morecore] when it is back at [freep]. *)
Lemma malloc_scan s nunits : ∀ Q prev fuel, linked s.(m_mem) (prev :: Q) → Q ≠ [] →
  (∀ q Q1 Q2, Q = Q1 ++ q :: Q2 → q.1 = s.(m_freep) ↔ Q2 = []) → (length Q <= fuel)%nat →
  (∃ X x y Y, prev :: Q = X ++ x :: y :: Y ∧ nunits <= y.2 ∧
     malloc_loop heap avail fuel nunits prev.1 (first 0 Q) s = take_block nunits x.1 y.1 y.2 s) ∨
  (Forall (λ q, q.2 < nunits) Q ∧ ∃ fuel', (fuel = fuel' + length Q)%nat ∧
     malloc_loop heap avail fuel nunits prev.1 (first 0 Q) s =
       bind (morecore heap avail nunits) (λ p, if p =? 0 then ret 0 else
         bind (hdr_ptr p) (λ n, malloc_loop heap avail fuel' nunits p n)) s).
Proof.
  intros Q. induction Q as [|q Q IH]; intros prev fuel Hl Hne Hfp Hf; [done|]. destruct fuel as [|fuel]; [simpl in Hf; lia|].
  cbn [first malloc_loop linked] in *. destruct Hl as [Hprev Hl].
  assert ((hdr s.(m_mem) q.1).2 = q.2) as Hq by (destruct Q; [done|by rewrite (proj1 Hl)]).
  unfold hdr_size. rewrite bind_get. change (load32 (m_mem s) (u32 (q.1 + 4))) with (hdr s.(m_mem) q.1).2. rewrite Hq.
  destruct (Z.leb_spec nunits q.2) as [Hle|Hgt]; [left; by exists [], prev, q, Q|].
  rewrite bind_get. destruct (Z.eqb_spec q.1 s.(m_freep)) as [E|E].
  - right. apply (Hfp q [] Q eq_refl) in E as ->. split; [by constructor|]. exists fuel. split; [simpl; lia|done].
  - destruct Q as [|z Q]; [exfalso; apply E; by apply (Hfp q [] [])|].
    rewrite bind_hdr_ptr. destruct Hl as [Hqz Hl]. rewrite (hdr_fst _ _ _ _ Hqz).
    destruct (IH q fuel) as [(X & x & y & Y & EX & Hy & Em)|(Hsm & fuel' & Ef & Em)]; [by split|done| |simpl in *; lia|..].
    + intros q' Q1 Q2 EQ. apply (Hfp q' (q :: Q1) Q2). by rewrite EQ.
    + left. exists (prev :: X), x, y, Y. split_and!; [by rewrite EX|done|exact Em].
    + right. split; [by constructor|]. exists fuel'. split; [simpl in *; lia|exact Em].
Qed.
(** The block that is found follows another one in the list. *)
Lemma rotation_next H A1 f A2 X x y Y : (base, 0) :: H = A1 ++ f :: A2 →
  f :: A2 ++ A1 ++ [f] = X ++ x :: y :: Y → 1 <= y.2 → ∃ B1 B2, (base, 0) :: H = B1 ++ x :: y :: B2.
Proof.
  intros E R Hy. assert (y ≠ (base, 0)) as Hb by (intros ->; simpl in Hy; lia).
  destruct A1 as [|a A1].
  - destruct Y as [|z Y _] using rev_ind.
    + injection E as <- ->. assert ((base, 0) :: A2 ++ [] ++ [(base, 0)] = ((base, 0) :: A2) ++ [(base, 0)]) as E1 by done.
      rewrite E1 in R. change [x; y] with ([x] ++ [y]) in R. rewrite app_assoc in R. apply app_inj_tail in R as [_ <-]. done.
    + exists X, Y. rewrite E. assert ((f :: A2) ++ [f] = (X ++ x :: y :: Y) ++ [z]) as R' by by rewrite <- app_assoc.
      by apply app_inj_tail in R' as [-> _].
  - injection E as <- E. rewrite app_comm_cons in R. change (x :: y :: Y) with ([x] ++ y :: Y) in R. rewrite (app_assoc X) in R.
    apply app_eq_inv in R as [(k & E1 & E2)|(k & E1 & E2)].
    + destruct k as [|z k]; simpl in E2; injection E2 as -> E2; [done|]. exists ((base, 0) :: A1 ++ X), k.
      rewrite E, E1. simpl. by rewrite <- !app_assoc.
    + destruct k as [|z k _] using rev_ind; [simpl in E2; injection E2 as <- E2; done|].
      rewrite (app_assoc (f :: A2)) in E1. apply app_inj_tail in E1 as [_ <-]. exists k, (Y ++ A2).
      assert (((base, 0) :: A1 ++ [f]) ++ A2 = (k ++ x :: y :: Y) ++ A2) as E3 by (rewrite <- app_assoc in E2; by f_equal).
      rewrite E. rewrite <- (app_assoc k) in E3. simpl in E3. rewrite <- app_assoc in E3. exact E3.
Qed.

(** ** Taking a block from the list *)

Lemma apart_inside w z v : apart w z → z.1 <= v.1 → ext v <= ext z → apart w v.
Proof. unfold apart. lia. Qed.

Lemma spaced_remove l1 x l2 : spaced (l1 ++ x :: l2) → spaced (l1 ++ l2).
Proof.
  rewrite !spaced_app. intros (H1 & [_ H2] & H3). split_and!; [done..|].
  eapply Forall_impl; [exact H3|]. by intros y [_ Hy]%Forall_cons.
Qed.

Lemma spaced_shrink l1 a n k l2 : spaced (l1 ++ (a, n) :: l2) → k <= n → spaced (l1 ++ (a, k) :: l2).
Proof.
  rewrite !spaced_app. intros (H1 & [Hx H2] & H3) Hk. split; [done|]. split; [split; [|done]|].
  - eapply Forall_impl; [exact Hx|]. unfold ext. cbn [fst snd]. lia.
  - eapply Forall_impl; [exact H3|]. intros y [Hy Hys]%Forall_cons. by constructor.
Qed.

(** The invariant when the block [(a, n)] has left the list. *)
Lemma hinv_taken s H al m2 a n p H' : hinv s H al → block_ok s.(m_brk) (a, n) →
  chain m2 base ((base, 0) :: H') → spaced ((base, 0) :: H') → Forall (block_ok s.(m_brk)) H' →
  p ∈ base :: map fst H' → (hdr m2 a).2 = n → Forall (apart (a, n)) H' →
  (∀ b k, al !! b = Some k → hdr m2 b = hdr s.(m_mem) b ∧ Forall (apart (b, k)) H' ∧ apart (b, k) (a, n)) →
  hinv (set_m_freep p (set_m_mem m2 s)) H' (<[a := n]> al) ∧ al !! a = None.
Proof.
  intros [Hbrk _ _ _ _ Hal Hsep] Hok Hc Hs Hf Hp Hh Hap Hd.
  assert (∀ b k, al !! b = Some k → b ≠ a) as Hne.
  { intros b k Hb ->. destruct (Hd a k Hb) as (_ & _ & Ha). unfold apart, ext in Ha. cbn [fst snd] in Ha. lia. }
  split; [|destruct (al !! a) eqn:Ea; [by destruct (Hne a _ Ea)|done]]. constructor; try done.
  - intros b k. destruct (decide (b = a)) as [->|Hb]; [rewrite lookup_insert_eq|rewrite lookup_insert_ne by done].
    + by intros [= <-].
    + intros Hbk. destruct (Hd b k Hbk) as (E & Hap' & _). destruct (Hal b k Hbk) as (? & ? & _).
      cbn [m_mem set_m_mem set_m_freep]. by rewrite E.
  - intros b k c j. destruct (decide (b = a)) as [->|Hb], (decide (c = a)) as [->|Hc']; try done;
      rewrite ?lookup_insert_eq, ?lookup_insert_ne by done.
    + intros [= <-] Hcj _. destruct (Hd c j Hcj) as (_ & _ & [|]); [by right|by left].
    + intros Hbk [= <-] _. by apply Hd.
    + apply Hsep.
Qed.

(** The facts about two blocks in a row that both cases of [take_block] use. *)
Lemma list_pair s H al B1 x y B2 : hinv s H al → (base, 0) :: H = B1 ++ x :: y :: B2 →
  (∀ z, z ∈ B1 ++ x :: y :: B2 → place z.1) ∧ hdr s.(m_mem) x.1 = (y.1, x.2) ∧
  hdr s.(m_mem) y.1 = (first base B2, y.2) ∧ chain s.(m_mem) y.1 (B1 ++ [x]) ∧ chain s.(m_mem) base B2 ∧
  Forall (apart x) (B1 ++ y :: B2) ∧ Forall (apart y) (B1 ++ x :: B2) ∧ block_ok s.(m_brk) y ∧
  (∀ b k, al !! b = Some k → Forall (apart (b, k)) (B1 ++ x :: y :: B2)).
Proof.
  intros Hinv E. pose proof (hv_chain _ _ _ Hinv) as Hc. pose proof (hv_spaced _ _ _ Hinv) as Hs. rewrite E in Hc, Hs.
  split; [intros z Hz; rewrite <- E in Hz; by apply (list_place s H al)|].
  apply chain_app in Hc as [C1 [Hx [Hy C2]]]. cbn [first] in C1, Hx. split_and!; try done.
  - apply chain_app. split; [done|]. by split.
  - by apply spaced_apart in Hs.
  - change (x :: y :: B2) with ([x] ++ y :: B2) in Hs. rewrite app_assoc in Hs. apply spaced_apart in Hs.
    by rewrite <- app_assoc in Hs.
  - destruct B1 as [|z B1]; injection E as _ E; pose proof (hv_free _ _ _ Hinv) as Hf; rewrite E in Hf.
    + by apply Forall_cons in Hf as [Hf _].
    + by apply Forall_app in Hf as [_ [_ [Hf _]%Forall_cons]%Forall_cons].
  - intros b k Hb. apply list.Forall_forall. intros z Hz. rewrite <- E in Hz. by apply (al_apart s H al).
Qed.

(** The list without its static header. *)
Lemma list_tail H B1 x B2 B2' (P : Z * Z → Prop) : (base, 0) :: H = B1 ++ x :: B2 → Forall P H →
  (∀ z, z ∈ B2' → P z) → ∃ H', (base, 0) :: H' = B1 ++ x :: B2' ∧ Forall P H' ∧ x.1 ∈ base :: map fst H'.
Proof.
  intros E Hf H2. rewrite list.Forall_forall in Hf. destruct B1 as [|z B1]; injection E as <- E.
  - exists B2'. split_and!; [done|by apply list.Forall_forall|by left].
  - exists (B1 ++ x :: B2'). split_and!; [done| |right; rewrite map_app; apply elem_of_app; right; by left].
    rewrite E in Hf. apply list.Forall_forall. intros w Hw. set_solver.
Qed.

(** Changing the header of a block that is apart from the allocated ones. *)
Lemma al_header s H al m1 x h b k : hinv s H al → upd s.(m_mem) m1 x.1 h → al !! b = Some k → apart (b, k) x →
  hdr m1 b = hdr s.(m_mem) b.
Proof.
  intros Hinv U Hb Ha. pose proof (hv_brk _ _ _ Hinv). destruct (hv_al _ _ _ Hinv b k Hb) as (Hok & _).
  apply (upd_other _ _ _ _ U); [by apply (block_place s.(m_brk) (b, k)); [lia|]|].
  apply apart_hsep in Ha. unfold hsep in *. cbn [fst] in Ha. lia.
Qed.

Lemma al_keeps s H al m m1 x h : hinv s H al → upd m m1 x.1 h →
  (∀ b k, al !! b = Some k → apart (b, k) x) → keeps al m m1.
Proof.
  intros Hinv U Ha b k z Hb Hz. pose proof (hv_brk _ _ _ Hinv).
  destruct (hv_al _ _ _ Hinv b k Hb) as ((? & ? & ? & _) & _). specialize (Ha b k Hb).
  unfold apart, ext in Ha. cbn [fst snd] in *. apply (upd_bytes _ _ _ _ U); unfold KERNBASE, two32 in *; lia.
Qed.

Lemma take_exact s H al B1 x y B2 : hinv s H al → (base, 0) :: H = B1 ++ x :: y :: B2 →
  ∃ s' H', take_block y.2 x.1 y.1 y.2 s = Ret (y.1 + 8) s' ∧ hinv s' H' (<[y.1 := y.2]> al) ∧ al !! y.1 = None ∧
    keeps al s.(m_mem) s'.(m_mem) ∧ s'.(m_brk) = s.(m_brk).
Proof.
  intros Hinv E. destruct (list_pair s H al B1 x y B2 Hinv E) as (Hpl & Hx & Hy & C1 & C2 & Ax & Ay & Hok & Hal).
  pose proof (hv_brk _ _ _ Hinv) as Hbrk. pose proof (block_place s.(m_brk) y ltac:(lia) Hok) as Hply.
  assert (place x.1) as Hplx by (apply Hpl; set_solver).
  assert (word (first base B2)) as Hw. { apply (word_first s H al); [done|]. rewrite E. set_solver. }
  pose proof (upd_set_ptr s.(m_mem) x.1 _ Hplx Hw) as U. rewrite Hx in U. cbn [snd] in U.
  set (m1 := store32 s.(m_mem) x.1 (first base B2)) in *.
  pose proof (hv_spaced _ _ _ Hinv) as Hs. rewrite E in Hs. change (x :: y :: B2) with ([x] ++ y :: B2) in Hs.
  rewrite app_assoc in Hs. apply spaced_remove in Hs. rewrite <- app_assoc in Hs. cbn [app] in Hs.
  destruct (list_tail H B1 x (y :: B2) B2 (block_ok s.(m_brk)) E (hv_free _ _ _ Hinv)) as (H' & E' & Hf' & Hfp').
  { intros z Hz. pose proof (hv_free _ _ _ Hinv) as Hf. rewrite list.Forall_forall in Hf. apply Hf.
    destruct B1 as [|w B1]; injection E as _ ->; set_solver. }
  assert (∀ z, place z.1 → apart x z → hdr m1 z.1 = hdr s.(m_mem) z.1) as Hkeep.
  { intros z Hz Ha. apply (upd_other _ _ _ _ U); [done|]. by apply (apart_hsep x z). }
  assert (Forall (apart y) H') as HyH'.
  { assert (Forall (apart y) ((base, 0) :: H')) as Ha by by rewrite E'. by apply Forall_cons in Ha as [_ Ha]. }
  assert (∀ z, z ∈ B1 ++ y :: B2 → hdr m1 z.1 = hdr s.(m_mem) z.1) as Hk2.
  { rewrite list.Forall_forall in Ax. intros z Hz. apply Hkeep; [apply Hpl; set_solver|auto]. }
  destruct (hinv_taken s H al m1 y.1 y.2 x.1 H' Hinv) as [Hinv' Hnone]; try done.
  - rewrite E'. apply chain_app. apply chain_app in C1 as [C1 _]. split; [|split; [by apply (upd_hdr _ _ _ _ U)|]];
      (eapply chain_frame; [|done]); apply list.Forall_forall; intros z Hz; apply Hk2; set_solver.
  - by rewrite E'.
  - rewrite Hk2 by set_solver. by rewrite Hy.
  - intros b k Hb. specialize (Hal b k Hb). rewrite list.Forall_forall in Hal. split_and!.
    + apply (al_header s H al m1 x _ b k Hinv U Hb). apply Hal. set_solver.
    + assert (Forall (apart (b, k)) ((base, 0) :: H')) as Ha; [|by apply Forall_cons in Ha as [_ Ha]].
      rewrite E'. apply list.Forall_forall. intros z Hz. apply Hal. set_solver.
    + destruct y. apply Hal. set_solver.
  - exists (set_m_freep x.1 (set_m_mem m1 s)), H'. split; [|split_and!; try done].
    + unfold take_block. rewrite Z.eqb_refl. unfold HDR, bind, hdr_ptr, set_ptr, get, modify, ret. cbn [cbind].
      rewrite (hdr_fst _ _ _ _ Hy). rewrite u32_id; [done|]. destruct Hply. unfold word, KERNBASE, two32 in *. lia.
    + apply (al_keeps s H al _ m1 x _ Hinv U). intros b k Hb. specialize (Hal b k Hb).
      rewrite list.Forall_forall in Hal. apply Hal. set_solver.
Qed.

(** A block cut in two. *)
Lemma block_cut brk y n : block_ok brk y → 1 <= n < y.2 →
  let y' := (y.1, y.2 - n) in let q := (y.1 + 8 * (y.2 - n), n) in
  block_ok brk y' ∧ block_ok brk q ∧ apart y' q ∧ apart q y' ∧
  (∀ z, apart z y → apart z y' ∧ apart z q) ∧ (∀ z, apart y z → apart y' z ∧ apart q z).
Proof.
  intros (H1 & H2 & H3 & H4) Hn y' q.
  assert (∀ z, apart z y → apart z y' ∧ apart z q) as Hin.
  { intros z Hz. split; apply (apart_inside z y); try done; unfold ext, q, y'; cbn [fst snd]; lia. }
  unfold block_ok. subst y' q. cbn [fst snd]. split_and!; try lia; try done.
  - replace (_ - heap) with (y.1 - heap + (y.2 - n) * 8) by lia. by rewrite Z.mod_add.
  - left. unfold ext. cbn [fst snd]. lia.
  - right. unfold ext. cbn [fst snd]. lia.
  - intros z Hz. destruct (Hin z) as [H5 H6]; [by destruct Hz; [right|left]|].
    split; [destruct H5|destruct H6]; (by left) || (by right).
Qed.

Lemma take_split s H al B1 x y B2 n : hinv s H al → (base, 0) :: H = B1 ++ x :: y :: B2 → 1 <= n < y.2 →
  let a := y.1 + 8 * (y.2 - n) in
  ∃ s' H', take_block n x.1 y.1 y.2 s = Ret (a + 8) s' ∧ hinv s' H' (<[a := n]> al) ∧ al !! a = None ∧
    keeps al s.(m_mem) s'.(m_mem) ∧ s'.(m_brk) = s.(m_brk).
Proof.
  intros Hinv E Hn a. destruct (list_pair s H al B1 x y B2 Hinv E) as (Hpl & Hx & Hy & C1 & C2 & _ & Ay & Hok & Hal).
  destruct (block_cut _ y n Hok Hn) as (Hok1 & Hok2 & Hyq & Hqy & Hin & Hin'). fold a in Hok2, Hqy, Hyq, Hin, Hin'.
  set (y' := (y.1, y.2 - n)) in *. pose proof (hv_brk _ _ _ Hinv) as Hbrk. pose proof Hok as (Ho1 & Ho2 & Ho3 & _).
  pose proof (block_place s.(m_brk) _ ltac:(lia) Hok1) as Hp1. pose proof (block_place s.(m_brk) _ ltac:(lia) Hok2) as Hp2.
  cbn [fst y'] in Hp1, Hp2.
  pose proof (upd_set_size s.(m_mem) y.1 (y.2 - n) Hp1 ltac:(unfold word, KERNBASE, two32 in *; lia)) as U1.
  rewrite Hy in U1. cbn [fst] in U1. set (m1 := store32 s.(m_mem) (u32 (y.1 + 4)) (y.2 - n)) in *.
  pose proof (upd_set_size m1 a n Hp2 ltac:(unfold word, KERNBASE, two32 in *; lia)) as U2.
  set (m2 := store32 m1 (u32 (a + 4)) n) in *.
  assert (∀ l, Forall (apart y) l → Forall (apart y') l ∧ Forall (apart (a, n)) l) as HinL.
  { intros l Hl. split; (eapply Forall_impl; [exact Hl|]); intros z Hz; by apply Hin'. }
  pose proof (hv_spaced _ _ _ Hinv) as Hs. rewrite E in Hs. change (x :: y :: B2) with ([x] ++ y :: B2) in Hs.
  rewrite app_assoc, (surjective_pairing y) in Hs. apply (spaced_shrink _ _ _ (y.2 - n)) in Hs; [|lia].
  rewrite <- app_assoc in Hs. cbn [app] in Hs. fold y' in Hs.
  destruct (list_tail H B1 x (y :: B2) (y' :: B2) (block_ok s.(m_brk)) E (hv_free _ _ _ Hinv)) as (H' & E' & Hf' & Hfp').
  { intros z [->|Hz]%elem_of_cons; [done|]. pose proof (hv_free _ _ _ Hinv) as Hf. rewrite list.Forall_forall in Hf. apply Hf.
    destruct B1 as [|w B1]; injection E as _ ->; set_solver. }
  assert (∀ l d, Forall (apart y) l → (∀ z, z ∈ l → z ∈ B1 ++ x :: y :: B2) → chain s.(m_mem) d l → chain m2 d l) as HcL.
  { intros l d Hl Hsub. destruct (HinL l Hl) as [L1 L2].
    apply (two_headers s.(m_mem) m1 m2 y' (a, n) _ _ _ _ U1 U2 L1 L2). apply list.Forall_forall. auto. }
  apply Forall_app in Ay as [Ay1 [Ayx Ay2]%Forall_cons].
  assert (Forall (apart (a, n)) ((base, 0) :: H')) as [_ Hq]%Forall_cons.
  { rewrite E', Forall_app, !Forall_cons. split_and!; [by apply HinL|by apply Hin'|done|by apply HinL]. }
  assert (∀ b k, al !! b = Some k → apart (b, k) y' ∧ apart (b, k) (a, n) ∧ Forall (apart (b, k)) ((base, 0) :: H')) as Hal'.
  { intros b k Hb. specialize (Hal b k Hb). rewrite Forall_app, !Forall_cons in Hal. destruct Hal as (? & ? & Hby & ?).
    split_and!; [by apply Hin..|]. rewrite E', Forall_app, !Forall_cons. split_and!; try done. by apply Hin. }
  destruct (hinv_taken s H al m2 a n x.1 H' Hinv) as [Hinv' Hnone]; try done.
  - rewrite E'. change (x :: y' :: B2) with ([x] ++ y' :: B2). rewrite app_assoc. apply chain_app. split; [|split].
    + apply HcL; [by rewrite Forall_app, Forall_cons|set_solver|done].
    + rewrite (upd_other _ _ _ _ U2); [by apply (upd_hdr _ _ _ _ U1)|done|]. apply apart_hsep in Hqy. done.
    + apply HcL; [done|set_solver|done].
  - by rewrite E'.
  - by rewrite (upd_hdr _ _ _ _ U2).
  - intros b k Hb. destruct (Hal' b k Hb) as (Hb1 & Hb2 & [_ Hb3]%Forall_cons). split_and!; try done.
    apply apart_hsep in Hb2. destruct (hv_al _ _ _ Hinv b k Hb) as (Hokb & _).
    rewrite (upd_other _ _ _ _ U2); [by apply (al_header s H al m1 y' _ b k Hinv U1 Hb)| |].
    + by apply (block_place s.(m_brk) (b, k)); [lia|].
    + unfold hsep in *. cbn [fst] in Hb2. lia.
  - exists (set_m_freep x.1 (set_m_mem m2 s)), H'. split; [|split_and!; try done].
    + unfold take_block. destruct (Z.eqb_spec y.2 n); [lia|]. unfold HDR, bind, set_size, modify, ret. cbn [cbind m_mem set_m_mem].
      fold a m1. rewrite (u32_id a) by (destruct Hp2; unfold word, KERNBASE, two32 in *; lia). fold m2.
      rewrite u32_id; [done|]. destruct Hp2. unfold word, KERNBASE, two32 in *. lia.
    + apply (keeps_trans al _ m1); [apply (al_keeps s H al _ m1 y' _ Hinv U1)|apply (al_keeps s H al _ m2 (a, n) _ Hinv U2)];
        intros b k Hb; by apply Hal'.
Qed.

(** ** [malloc] *)

(** The block of [n] units at [a] is new, and the others are as before. *)
Definition allocated (s s' : mstate) (al : gmap Z Z) (a n : Z) : Prop :=
  (∃ H', hinv s' H' (<[a := n]> al)) ∧ al !! a = None ∧ keeps al s.(m_mem) s'.(m_mem) ∧ s.(m_brk) <= s'.(m_brk).

Lemma take_block_inv s H al B1 x y B2 n : hinv s H al → (base, 0) :: H = B1 ++ x :: y :: B2 → 1 <= n <= y.2 →
  ∃ s' a, take_block n x.1 y.1 y.2 s = Ret (a + 8) s' ∧ allocated s s' al a n.
Proof.
  intros Hinv E Hn. destruct (decide (n = y.2)) as [->|Hne].
  - destruct (take_exact s H al B1 x y B2 Hinv E) as (s' & H' & Et & Hi & Ha & Hk & Hb).
    exists s', y.1. split; [done|]. split_and!; [by exists H'|done..|lia].
  - destruct (take_split s H al B1 x y B2 n Hinv E) as (s' & H' & Et & Hi & Ha & Hk & Hb); [lia|].
    eexists s', _. split; [exact Et|]. split_and!; [by exists H'|done..|lia].
Qed.

(** The blocks of a list are at different addresses. *)
Lemma spaced_distinct l1 x l2 y : spaced (l1 ++ x :: l2) → y ∈ l1 ++ l2 → x.1 ≠ y.1.
Proof.
  intros Hs Hy Exy. pose proof (spaced_apart _ _ _ Hs) as Ha. rewrite list.Forall_forall in Ha.
  specialize (Ha y Hy). unfold apart, ext in Ha. lia.
Qed.

(** One round of the search that starts at [freep]. *)
Lemma search_round s H al n fuel : hinv s H al → 1 <= n → (length H < fuel)%nat →
  (∃ s' a, malloc_loop heap avail fuel n s.(m_freep) (load32 s.(m_mem) s.(m_freep)) s = Ret (a + 8) s' ∧
     allocated s s' al a n) ∨
  (Forall (λ y, y.2 < n) H ∧ ∃ fuel', (fuel = fuel' + S (length H))%nat ∧
     malloc_loop heap avail fuel n s.(m_freep) (load32 s.(m_mem) s.(m_freep)) s =
       bind (morecore heap avail n) (λ p, if p =? 0 then ret 0 else
         bind (hdr_ptr p) (λ q, malloc_loop heap avail fuel' n p q)) s).
Proof.
  intros Hinv Hn Hfuel.
  assert (∃ A1 f A2, (base, 0) :: H = A1 ++ f :: A2 ∧ f.1 = s.(m_freep)) as (A1 & f & A2 & E & Ef).
  { pose proof (hv_freep _ _ _ Hinv) as Hf. change (base :: map fst H) with (map fst ((base, 0) :: H)) in Hf.
    apply list_elem_of_In, in_map_iff in Hf as (f & Ef & Hf). apply in_split in Hf as (A1 & A2 & E). by exists A1, f, A2. }
  pose proof (hv_chain _ _ _ Hinv) as Hc. pose proof (hv_spaced _ _ _ Hinv) as Hs. rewrite E in Hc, Hs.
  assert (length (A2 ++ A1 ++ [f]) = S (length H)) as Hlen.
  { assert (S (length H) = length (A1 ++ f :: A2)) as -> by by rewrite <- E. rewrite !length_app. simpl. lia. }
  pose proof (rotation _ _ _ _ Hc ltac:(by rewrite <- E)) as L.
  assert (load32 s.(m_mem) s.(m_freep) = first 0 (A2 ++ A1 ++ [f])) as ->.
  { rewrite <- Ef. destruct (A2 ++ A1 ++ [f]) as [|z Q] eqn:EQ; [by destruct A2, A1|].
    destruct L as [L _]. by apply hdr_fst in L. }
  rewrite <- Ef.
  destruct (malloc_scan s n (A2 ++ A1 ++ [f]) f fuel L) as [(X & x & y & Y & EX & Hy & Em)|(Hsm & fuel' & Efu & Em)];
    [by destruct A2, A1| |lia| |].
  - intros q Q1 Q2 EQ. rewrite <- Ef. split; [|intros ->; rewrite app_assoc in EQ; by apply app_inj_tail in EQ as [_ ->]].
    intros Eq. destruct Q2 as [|z Q2 _] using rev_ind; [done|]. exfalso.
    assert ((A2 ++ A1) ++ [f] = (Q1 ++ q :: Q2) ++ [z]) as E2 by by rewrite <- !app_assoc.
    apply app_inj_tail in E2 as [E2 _]. apply (spaced_distinct A1 f A2 q Hs); [|done].
    assert (q ∈ A2 ++ A1) as Hq by (rewrite E2; set_solver). set_solver.
  - left. destruct (rotation_next H A1 f A2 X x y Y E EX) as (B1 & B2 & EB); [lia|].
    rewrite Em. by apply (take_block_inv s H al B1 x y B2).
  - right. split; [|exists fuel'; split; [lia|done]].
    rewrite list.Forall_forall in Hsm. apply list.Forall_forall. intros y Hy. apply Hsm.
    assert (y ∈ A1 ++ f :: A2) as HyF by (rewrite <- E; by right). set_solver.
Qed.


(** [malloc] on an initialised list returns 0 or a new block. *)
Lemma search_inv s H al n fuel : hinv s H al → 1 <= n → 8 * n < two31 → (2 * length H + 3 < fuel)%nat →
  ∃ s' r, malloc_loop heap avail fuel n s.(m_freep) (load32 s.(m_mem) s.(m_freep)) s = Ret r s' ∧
    ((r = 0 ∧ s' = s) ∨ ∃ a, r = a + 8 ∧ allocated s s' al a n).
Proof.
  intros Hinv Hn Hlt Hf. destruct (search_round s H al n fuel Hinv Hn) as [(s' & a & E & Ha)|(Hsm & fuel' & Ef & ->)]; [lia| |].
  { exists s', (a + 8). split; [done|]. right. by exists a. }
  unfold bind at 1. destruct (morecore_inv s H al n Hinv Hn Hlt) as [->|(s1 & H1 & -> & Hinv1 & Hne & Hb1 & Hk1 & (y & Hy & Hyn) & Hl)].
  { exists s, 0. split; [done|]. by left. }
  cbn [cbind]. destruct (Z.eqb_spec s1.(m_freep) 0) as [|_]; [done|]. rewrite bind_hdr_ptr.
  destruct (search_round s1 H1 al n fuel' Hinv1 Hn) as [(s' & a & E & Hi & Ha & Hk & Hb)|(Hsm1 & _)]; [lia| |].
  - exists s', (a + 8). split; [done|]. right. exists a. split; [done|]. split_and!; try done; [by eapply keeps_trans|lia].
  - rewrite list.Forall_forall in Hsm1. specialize (Hsm1 y Hy). lia.
Qed.

(** The allocator between calls: before the first [malloc], or with a list. *)
Definition minv (s : mstate) (al : gmap Z Z) : Prop :=
  (s.(m_freep) = 0 ∧ al = ∅ ∧ heap <= s.(m_brk) <= KERNBASE ∧ (s.(m_brk) - heap) mod 8 = 0) ∨ ∃ H, hinv s H al.

Lemma units_range nbytes : 0 <= nbytes → nbytes + 16 < two31 →
  units nbytes = (nbytes + 7) / 8 + 1 ∧ nbytes <= 8 * (units nbytes - 1) < nbytes + 8.
Proof.
  intros H0 H1. unfold units, HDR. rewrite (u32_id (nbytes + 8 - 1)) by (unfold word, two31, two32 in *; lia).
  replace (nbytes + 8 - 1) with (nbytes + 7) by lia.
  pose proof (Z.div_mod (nbytes + 7) 8 ltac:(lia)). pose proof (Z.mod_pos_bound (nbytes + 7) 8 ltac:(lia)).
  rewrite u32_id by (unfold word, two31, two32 in *; lia). split; [done|]. lia.
Qed.

Lemma hinv_init s : heap <= s.(m_brk) <= KERNBASE → (s.(m_brk) - heap) mod 8 = 0 →
  hinv (set_m_mem (store32 (store32 s.(m_mem) base base) (u32 (base + 4)) 0) (set_m_freep base s)) [] ∅.
Proof.
  intros Hb Hm. assert (place base) as Hp by (unfold place; lia).
  constructor; try done; [|by left].
  - split; [|done]. cbn [first m_mem set_m_mem fst snd]. rewrite hdr_set_size_same by (done || (unfold word, two32; lia)).
    rewrite hdr_set_ptr_same; [done|done|]. unfold word, KERNBASE, two32 in *. lia.
Qed.

Lemma malloc_inv s al nbytes : minv s al → 0 <= nbytes → nbytes + 16 < two31 →
  ∃ s' r, malloc base heap avail nbytes s = Ret r s' ∧
    ((r = 0 ∧ minv s' al ∧ s'.(m_brk) = s.(m_brk) ∧ keeps al s.(m_mem) s'.(m_mem)) ∨
     ∃ a, r = a + 8 ∧ allocated s s' al a (units nbytes)).
Proof.
  intros Hinv H0 H1. destruct (units_range nbytes H0 H1) as [Eu Hu].
  assert (1 <= units nbytes ∧ 8 * units nbytes < two31) as [Hn1 Hn2] by lia.
  unfold malloc. rewrite bind_get. destruct Hinv as [(Ef & -> & Hb & Hm)|[H Hinv]].
  - rewrite Ef. pose proof (hinv_init s Hb Hm) as Hi. set (s1 := set_m_mem _ _) in Hi.
    change (when (0 =? 0) _) with (set_ptr base base;; modify (set_m_freep base);; set_size base 0).
    unfold set_ptr, set_size, when, bind at 1, modify. cbn [Z.eqb cbind].
    fold s1.
    destruct (search_inv s1 [] ∅ (units nbytes) (2 * heap_units heap s1 + 8) Hi Hn1 Hn2) as (s' & r & E & Hr); [simpl; lia|].
    exists s', r. split; [exact E|]. destruct Hr as [[-> ->]|(a & -> & Ha & Hno & _ & Hle)].
    + left. split_and!; [done|right; by exists []|done|by intros ? ? ? ?].
    + right. exists a. split; [done|]. split_and!; try done.
  - assert (s.(m_freep) ≠ 0) as Hne.
    { pose proof (hv_freep _ _ _ Hinv) as Hf. apply elem_of_cons in Hf as [->|Hf]; [lia|].
      apply list_elem_of_In, in_map_iff in Hf as (z & <- & Hz). apply list_elem_of_In in Hz.
      pose proof (hv_free _ _ _ Hinv) as Hfr. rewrite list.Forall_forall in Hfr. destruct (Hfr z Hz) as (? & _). lia. }
    destruct (Z.eqb_spec s.(m_freep) 0) as [|_]; [done|]. pose proof (free_length s H al Hinv) as Hl.
    destruct (search_inv s H al (units nbytes) (2 * heap_units heap s + 8) Hinv Hn1 Hn2) as (s' & r & E & Hr); [lia|].
    exists s', r. split; [exact E|]. destruct Hr as [[-> ->]|Hr]; [left|by right].
    split_and!; [done|right; by exists H|done|by intros ? ? ? ? ?].
Qed.


(** ** A program that uses the allocator *)

(** Storing a byte that no header covers. *)
Lemma hdr_store8 m a x v : place a → 0 <= x < two32 → x < a ∨ a + 8 <= x → hdr (store8 m x v) a = hdr m a.
Proof.
  intros [Ha Hk] Hx Ho. unfold hdr, load32, store8. unfold KERNBASE, two32 in *.
  rewrite !u32_id by (unfold word, two32; rewrite ?u32_id; unfold word, two32; lia).
  repeat match goal with |- context[?y =? x] => destruct (Z.eqb_spec y x); [lia|] end. done.
Qed.

Lemma hinv_write s H al a k x v : hinv s H al → al !! a = Some k → a + 8 <= x < a + 8 * k →
  hinv (set_m_mem (store8 s.(m_mem) x v) s) H al.
Proof.
  intros Hinv Ha Hx. pose proof Hinv as [Hbrk Hc Hs Hf Hfp Hal Hsep]. destruct (Hal a k Ha) as ((? & ? & ? & _) & _).
  cbn [fst snd] in *. assert (0 <= x < two32) as Hxr by (unfold KERNBASE, two32 in *; lia).
  constructor; try done.
  - eapply chain_frame; [|exact Hc]. apply list.Forall_forall. intros y Hy. apply hdr_store8; [by apply (list_place s H al)|done|].
    pose proof (al_apart s H al a k y Hinv Ha Hy) as Hap. unfold apart, ext in Hap. cbn [fst snd] in Hap. lia.
  - intros b n Hb. destruct (Hal b n Hb) as (Hok & Hsz & Hap). split_and!; try done.
    cbn [m_mem set_m_mem]. rewrite hdr_store8; [done| |done|].
    + by apply (block_place s.(m_brk) (b, n)); [lia|].
    + destruct (decide (b = a)) as [->|Hne]; [lia|]. pose proof (Hsep b n a k Hb Ha Hne) as Hba.
      destruct Hok as (? & ? & _). unfold apart, ext in Hba. cbn [fst snd] in *. lia.
Qed.

(** One action of the program: [L] maps the addresses it got from [malloc] and
    has not freed to the sizes it asked for. *)
Inductive mstep : mstate * gmap Z Z → mstate * gmap Z Z → Prop :=
| mstep_malloc s L n r s' : 0 <= n → n + 16 < two31 → malloc base heap avail n s = Ret r s' →
    mstep (s, L) (s', if r =? 0 then L else <[r := n]> L)
| mstep_free s L r n s' : L !! r = Some n → free heap r s = Ret () s' → mstep (s, L) (s', delete r L)
| mstep_write s L r n x v : L !! r = Some n → r <= x < r + n →
    mstep (s, L) (set_m_mem (store8 s.(m_mem) x v) s, L).

(** The start of a program: no list, and a break on a boundary of a unit. *)
Definition mstart (m : memory) : mstate * gmap Z Z := (mkmst m 0 heap, ∅).

Definition ledger (L al : gmap Z Z) : Prop :=
  (∀ a, al !! a = units <$> L !! (a + 8)) ∧ ∀ r n, L !! r = Some n → 0 <= n ∧ n + 16 < two31.

Definition linv (c : mstate * gmap Z Z) : Prop := ∃ al, minv c.1 al ∧ ledger c.2 al.

Lemma ledger_lookup L al r n : ledger L al → L !! r = Some n → al !! (r - 8) = Some (units n).
Proof. intros [HL _] Hr. by rewrite HL, Z.sub_add, Hr. Qed.

Lemma ledger_insert L al a n : ledger L al → 0 <= n → n + 16 < two31 →
  ledger (<[a + 8 := n]> L) (<[a := units n]> al).
Proof.
  intros [HL Hn] H0 H1. split.
  - intros b. destruct (decide (b = a)) as [->|Hne]; [by rewrite !lookup_insert_eq|].
    rewrite !lookup_insert_ne by lia. apply HL.
  - intros r k. destruct (decide (r = a + 8)) as [->|Hne]; [rewrite lookup_insert_eq; by intros [= <-]|].
    rewrite lookup_insert_ne by done. apply Hn.
Qed.

Lemma ledger_delete L al r : ledger L al → ledger (delete r L) (delete (r - 8) al).
Proof.
  intros [HL Hn]. split.
  - intros b. destruct (decide (b = r - 8)) as [->|Hne]; [by rewrite Z.sub_add, !lookup_delete_eq|].
    rewrite !lookup_delete_ne by lia. apply HL.
  - intros k n [_ Hk]%lookup_delete_Some. by apply (Hn k n).
Qed.


(** The bytes of the program's blocks are as before. *)
Definition intact (L : gmap Z Z) (m m' : memory) : Prop :=
  ∀ r n x, L !! r = Some n → r <= x < r + n → m' x = m x.

Lemma keeps_intact L al m m' : ledger L al → keeps al m m' → intact L m m'.
Proof.
  intros HL Hk r n x Hr Hx. destruct HL as [HL Hn]. destruct (Hn r n Hr) as [H0 H1].
  destruct (units_range n H0 H1) as [_ Hu]. apply (Hk (r - 8) (units n)); [|lia]. by rewrite HL, Z.sub_add, Hr.
Qed.

Lemma linv_malloc s L n : linv (s, L) → 0 <= n → n + 16 < two31 →
  ∃ r s', malloc base heap avail n s = Ret r s' ∧ (r = 0 ∨ L !! r = None) ∧
    intact L s.(m_mem) s'.(m_mem) ∧ linv (s', if r =? 0 then L else <[r := n]> L).
Proof.
  intros (al & Hm & HL) H0 H1. cbn [fst snd] in *.
  destruct (malloc_inv s al n Hm H0 H1) as (s' & r & E & [(-> & Hm' & _ & Hk)|(a & -> & (H' & Hi) & Ha & Hk & _)]).
  - exists 0, s'. split; [done|]. split_and!; [by left|by eapply keeps_intact|by exists al].
  - exists (a + 8), s'. split; [done|]. assert (a + 8 =? 0 = false) as ->.
    { destruct (hv_al _ _ _ Hi a (units n)) as ((? & _) & _); [apply lookup_insert_eq|]. cbn [fst] in *. lia. }
    split_and!; [right|by eapply keeps_intact|].
    + destruct HL as [HL _]. rewrite HL in Ha. by destruct (L !! (a + 8)).
    + exists (<[a := units n]> al). split; [right; by exists H'|by apply ledger_insert].
Qed.

Lemma linv_list s L r n : linv (s, L) → L !! r = Some n →
  ∃ H al, hinv s H al ∧ ledger L al ∧ al !! (r - 8) = Some (units n).
Proof.
  intros (al & [(_ & -> & _)|[H Hi]] & HL) Hr; pose proof (ledger_lookup _ _ _ _ HL Hr) as Ha; [done|]. by exists H, al.
Qed.

Lemma linv_free s L r n : linv (s, L) → L !! r = Some n →
  ∃ s', free heap r s = Ret () s' ∧ intact (delete r L) s.(m_mem) s'.(m_mem) ∧ linv (s', delete r L).
Proof.
  intros Hl Hr. destruct (linv_list s L r n Hl Hr) as (H & al & Hi & HL & Ha).
  destruct (free_inv s H al (r - 8) (units n) Hi Ha) as (s' & H' & E & Hi' & _ & Hk & _). rewrite Z.sub_add in E.
  exists s'. split; [done|]. pose proof (ledger_delete L al r HL) as HL'.
  split; [by eapply keeps_intact|]. exists (delete (r - 8) al). split; [right; by exists H'|done].
Qed.

Lemma linv_step c c' : linv c → mstep c c' → linv c'.
Proof.
  intros Hl Hs. destruct Hs as [s L n r s' H0 H1 E|s L r n s' Hr E|s L r n x v Hr Hx].
  - destruct (linv_malloc s L n Hl H0 H1) as (r1 & s1 & E1 & _ & _ & Hl1). rewrite E in E1. by injection E1 as <- <-.
  - destruct (linv_free s L r n Hl Hr) as (s1 & E1 & _ & Hl1). rewrite E in E1. by injection E1 as <-.
  - destruct (linv_list s L r n Hl Hr) as (H & al & Hi & HL & Ha). exists al. split; [|done]. right. exists H.
    destruct (proj2 HL r n Hr) as [H0 H1]. destruct (units_range n H0 H1) as [_ Hu].
    apply (hinv_write s H al (r - 8) (units n)); [done..|lia].
Qed.

Lemma linv_reachable m c : heap <= KERNBASE → rtc mstep (mstart m) c → linv c.
Proof.
  intros Hk Hr. assert (linv (mstart m)) as H0.
  { exists ∅. split; [left; cbn; split_and!; [done..|lia|lia|]|split; [by intros a|by intros ? ?]].
    by rewrite Z.sub_diag. }
  induction Hr as [|c1 c2 c3 Hs _ IH]; [done|]. apply IH. by eapply linv_step.
Qed.

(** What the program relies on: its blocks lie in the heap on a boundary of a
    unit and do not overlap, headers included; [malloc] and [free] return, a new
    block is not one it has, and the contents of its blocks are not changed. *)
Record safe (s : mstate) (L : gmap Z Z) : Prop := {
  safe_inside : ∀ r n, L !! r = Some n → heap + 8 <= r ∧ r + n <= s.(m_brk) ∧ (r - heap) mod 8 = 0;
  safe_apart : ∀ r n r' n', L !! r = Some n → L !! r' = Some n' → r ≠ r' → r + n <= r' - 8 ∨ r' + n' <= r - 8;
  safe_malloc : ∀ n, 0 <= n → n + 16 < two31 → ∃ r s', malloc base heap avail n s = Ret r s' ∧
    (r = 0 ∨ L !! r = None) ∧ intact L s.(m_mem) s'.(m_mem);
  safe_free : ∀ r n, L !! r = Some n → ∃ s', free heap r s = Ret () s' ∧ intact (delete r L) s.(m_mem) s'.(m_mem)
}.

Lemma linv_safe s L : linv (s, L) → safe s L.
Proof.
  intros Hl. constructor.
  - intros r n Hr. destruct (linv_list s L r n Hl Hr) as (H & al & Hi & HL & Ha).
    destruct (proj2 HL r n Hr) as [H0 H1]. destruct (units_range n H0 H1) as [_ Hu].
    destruct (hv_al _ _ _ Hi _ _ Ha) as ((? & ? & ? & Hm) & _). cbn [fst snd] in *. split_and!; [lia..|].
    replace (r - heap) with (r - 8 - heap + 1 * 8) by lia. by rewrite Z.mod_add.
  - intros r n r' n' Hr Hr' Hne. destruct (linv_list s L r n Hl Hr) as (H & al & Hi & HL & Ha).
    pose proof (ledger_lookup _ _ _ _ HL Hr') as Ha'. destruct (proj2 HL r n Hr) as [H0 H1], (proj2 HL r' n' Hr') as [H2 H3].
    destruct (units_range n H0 H1) as [_ Hu], (units_range n' H2 H3) as [_ Hu'].
    pose proof (hv_sep _ _ _ Hi _ _ _ _ Ha Ha' ltac:(lia)) as Hap. unfold apart, ext in Hap. cbn [fst snd] in Hap. lia.
  - intros n H0 H1. destruct (linv_malloc s L n Hl H0 H1) as (r & s' & E & Hr & Hk & _). by exists r, s'.
  - intros r n Hr. destruct (linv_free s L r n Hl Hr) as (s' & E & Hk & _). by exists s'.
Qed.

End umalloc.

Lemma returns_value (c : comp mstate unit Z) r :
  match c with Ret r' _ => r' =? r | _ => false end = true → ∃ s, c = Ret r s.
Proof. destruct c as [r' s| | | |]; try done. intros ->%Z.eqb_eq. by exists s. Qed.


